(* ===== verification/_CoqProject ===== *)
-Q . S2P
Prelude.v
PyStr.v
Json.v
Countries.v
Clock.v
Connector.v
Breaker.v
BreakerSpec.v
Health.v
PyState.v
OpStore.v
VersionedStore.v
BreakerRepo.v
Research.v
Catalogs.v
Eligibility.v
Authorization.v
Conversation.v
ConversationRepo.v
ConversationHistory.v
LiveMode.v
Execution.v
ExecutionRepo.v
ClaimTx.v
ClaimTxMemory.v
ClaimTxSql.v
LiveStart.v
LiveStartSafety.v
LiveStartHistory.v
ShopifyCatalog.v
Attempt.v
AttemptSafety.v
AttemptHistory.v
Router.v
Preparation.v
PreparationSafety.v
SqlRetry.v
RateLimit.v
RateLimitSql.v
LoginLock.v
LoginLockSql.v
Submission.v
SubmissionSql.v
Password.v
PyRepr.v
Users.v
UserMemory.v
Identity.v
Auth.v
AuthRules.v
AuthSafety.v
AuthOutcomes.v
AuthGuessing.v
Privacy.v
AuthExamples.v
Float.v
Watch.v
Notify.v
Alerts.v
AlertWorld.v
NotifySafety.v
AlertSafety.v
AlertExamples.v
FloatOps.v
DealScore.v
Recommend.v
ShoppingAdvice.v
ScoreSafety.v
AdviceSafety.v
IsoTime.v
Codec.v
CodecSafety.v
UrlParts.v
UrlTrust.v
UrlSafety.v
Affiliate.v
AffiliateServices.v
AffiliateSafety.v
