(* ===== verification/Prelude.v ===== *)
(** DealBrain: verification of the state machines and decision rules behind
    authorised product research, idempotent submissions and abuse limits.

    * The program

    DealBrain is a FastAPI backend. A shopper talks to an assistant, which may
    propose research; the shopper confirms, which stores a research
    authorization; a planner turns an authorization into a plan over certified
    providers; a worker claims the execution of a plan, consuming the
    authorization in the same transaction, calls the provider once when a
    circuit breaker shared by all workers permits it, and stores the outcome
    with the next breaker state. Requests that change a conversation are
    idempotent under a client key, and every route passes a rate limiter and,
    for logins, a failed-login lock. The in-memory stores serve development
    and tests; staging and production share PostgreSQL rows between workers.

    All paths below are relative to the repository's [src] directory.

    * Files

    - [Prelude]: the [result] type of fallible code, with [let!] and
      [raise! e when b]; the small store interface notions; the list, order and
      map lemmas the components share. Also this description.
    - [PyStr]: [str] operations (strip, upper, ...) on Latin-1 text.
    - [Json]: [app/research/digest.py]. [dumps] writes canonical JSON,
      [stable_sha256] hashes it. Members are sorted by key, so digests do not
      depend on dict order; [canonical_bytes_determine_value] is the converse.
    - [Countries]: [app/core/countries.py], the table and its lookups.
    - [Clock]: [datetime], [timedelta], and the milliseconds the SQL stores keep
      ([int(value.timestamp() * 1000)], two binary64 roundings).
    - [Connector]: [app/domain/entities/connector_reliability.py].
    - [Breaker], [Health]: [app/research/reliability_state.py].
      [BreakerSpec] is the contract of [Breaker] and its refinement.
    - [PyState]: methods over a state that may raise, their [do!] notation,
      and Python's insertion-ordered [dict].
    - [OpStore]: [app/infrastructure/persistence/operational_store.py], the
      generic versioned entity table. [VersionedStore]: the reading and
      compare-and-swap of one entity that its clients share, among other
      sessions.
    - [BreakerRepo]: [app/research/reliability_repository.py]: one interface,
      the in-memory implementation, the implementation over [OpStore], the gate
      and the persisted live permission written against the interface, and
      workers that interleave load and save.
    - [Research]: [app/domain/entities/research_execution.py] (requests, steps,
      plans, evidence) and the frozen scope of an authorization.
    - [Catalogs]: [app/research/registry.py], [certification.py], [routing.py]
      and [providers.py]: what a provider can do, what it is certified for, and
      who is preferred.
    - [Eligibility]: [app/research/capabilities.py], [eligibility.py]: required
      capabilities, eligibility audit, selection, one capability's assignment.
    - [Authorization]: [app/services/research_authorization.py] with its
      entities: creation, validation, handoff and the terminal transitions.
    - [Conversation]: the conversation records and continuity checks of
      [app/domain], and how the authorizations stored in one conversation
      change ([_authorization_for_persist] of [app/services/propose_research.py]
      and [consume_exact_research_authorization]).
    - [ConversationRepo]: [InMemoryConversationRepository] and
      [OperationalConversationRepository]; [ConversationHistory] has their
      theorems, over sequences of calls by any workers.
    - [LiveMode]: [app/research/sprint38_live_execution.py], the live gate and
      the scripted connectors with their retries.
    - [Execution]: execution traces and [DurableAuthorizedExecution];
      [ExecutionRepo]: [app/research/authorized_execution_repository.py].
    - [ClaimTx]: the unit of work of [app/research/live_start_claim.py], the
      rows it sees and the laws it promises; [ClaimTxMemory], [ClaimTxSql]:
      [InMemoryClaimTransaction], [OperationalClaimTransaction].
    - [LiveStart]: claims, capability checks and [LiveStartClaimService];
      [LiveStartSafety] and [LiveStartHistory] have the theorems.
    - [ShopifyCatalog]: the request the connector sends and the reading of the
      answer ([app/research/shopify_global_catalog_ph_probe.py],
      [_transport.py], [_reliability.py]).
    - [Attempt]: [app/research/shopify_global_catalog_execution.py], the two
      transactions of an attempt around its HTTP call, and the reconciliation;
      [AttemptSafety] and [AttemptHistory] have the theorems.
    - [Router]: [app/services/research_execution_router.py].
    - [Preparation]: [app/services/research_execution.py], binding a confirmed
      authorization to one execution; [PreparationSafety] has the theorems.
    - [SqlRetry]: the retry loop the three SQL stores of
      [app/infrastructure/database] share.
    - [RateLimit], [RateLimitSql]: [app/launch/rate_limit.py],
      [rate_limit_backend.py]; [rate_limit_store.py].
    - [LoginLock], [LoginLockSql]: [app/launch/failed_login_lock.py];
      [failed_login_lock_store.py].
    - [Submission], [SubmissionSql]: [app/shopping/submission_idempotency.py];
      [shopping_submission_store.py], whose transactions are READ COMMITTED
      sessions ([SubmissionSql.Session]).

    - [Password]: [app/auth/password.py], with [bytes.hex] and [int].
    - [PyRepr]: [repr] of texts.
    - [IsoTime]: [isoformat] and [fromisoformat] of dates and instants;
      [Codec]: [app/infrastructure/persistence/codec.py]. [CodecSafety] has the
      round trips and the breaker rows as the codec stores them.
    - [Users]: the account entities, the repositories' interface with its laws
      ([app/domain/interfaces/user_platform_repository.py]); [UserMemory]:
      [app/user/memory.py].
    - [Identity]: settings, action links, mails, published policies, checks of
      addresses and passwords ([app/auth/email_factory.py],
      [email_templates.py], [app/legal/publication.py]).
    - [Auth]: [app/auth/service.py] and [security.py], with the public methods
      as requests; [AuthRules] is the logic its theorems use, [AuthSafety],
      [AuthOutcomes] and [AuthGuessing] have the theorems, [AuthExamples] runs
      them.
    - [Privacy]: [delete_account] of [app/privacy/lifecycle.py].

    - [Float]: Python's [float], binary64 with its printed forms.
    - [Watch], [Notify], [Alerts]: the entities, engines and in-memory stores of
      watchlists ([app/intelligence/watchlists/memory.py],
      [app/watchlists/memory.py]), of the notification center
      ([app/notifications]) and of alert rules ([app/alerts]).
    - [AlertWorld]: their services in [app/services] over one process state;
      [NotifySafety] and [AlertSafety] have the theorems, [AlertExamples] runs
      them.
    - [FloatOps]: [sum], [math.fsum], [min], [max], [round] and number formats,
      with the bounds that clamping and rounding keep.
    - [DealScore]: [app/intelligence/dealscore], the weighted scores, the ranking
      and the fixture attributes; [Recommend]:
      [app/intelligence/recommendation/engine.py], decision, confidence, texts
      and alternatives; [ShoppingAdvice]: the search, ranking and recommendation
        services. [ScoreSafety] and [AdviceSafety] have the theorems.

    - [UrlParts]: [urlsplit], [ipaddress] and the rewriting of queries; [UrlTrust]:
      [app/security/url_trust.py] and its callers; [UrlSafety] has the theorems.
    - [Affiliate]: the records, the store [app/affiliate/memory.py], the link
      builder, attribution, reports, disclosures and the shipped merchants;
      [AffiliateServices]: the services of [app/services] on them.
      [AffiliateSafety] has the theorems.

    * How the parts meet

    A component that another uses promises its behaviour in a type class with
    laws, and the client is proved against the laws only. [RepoInterface]
    (breaker rows), [LockInterface] (login lock rows) and
    [Submission.StoreInterface] (submission rows) each have an in-memory and an
    SQL instance, so [Gate], [Facade], [Ledger] and the theorems about them hold
    on both. [OpStore] is generic in the stored payload and takes the codec as
    an argument; for breaker rows [CodecSafety] gives it the one of [Codec].
    [Router] calls [Eligibility], which reads the three catalogs;
    [Router] and [Conversation] both build on [Authorization].

    [ClaimTx.TransactionLaws] is what a unit of work promises: each method ends
    in the rows it says, over rows other workers may have moved in between as
    the relation [can] allows; a commit publishes every write or none. The
    claim service and the connector attempt are proved against these laws
    alone; [ClaimTxMemory.MemoryTx.memory_laws] and [ClaimTxSql.SqlTx.sql_laws]
    discharge them, the second for any script of commits by other sessions and
    of failures.

    [PreparationSafety.Pinning.BindingLaws] is what a store promises to a
    preparation - a binding, once made, is the binding for ever; the ledger, the
    in-memory repository and the database among other workers are instances.

    [Users.Store.AccountLaws] and [TokenLaws] are what the account
    repositories promise: each method does to the rows what it says, or raises
    and changes nothing. [Auth] and [Privacy] are proved against them, with
    [RateLimit] and [LoginLock] as the other two stores;
    [UserMemory.MemoryLaws] discharges them for the adapters, and
    [UserMemory.Flaky] for any lawful store whose calls fail by a script.

    * Modelling conventions

    - A function that raises returns [result E A]. Dataclass validation
      ([__post_init__]) is a function that raises or returns the stored record.
    - A store is a value passed in and out. A method that the code runs under
      a lock is one step on it; interleavings of workers are lists of such
      steps. The transactions of submissions, conversations, executions and
      live-start claims are modelled statement by statement, with commits of
      other sessions between the statements. An attempt of
      the rate-limit and login-lock stores, which counts in the row of one key,
      is taken as one isolated step, with other sessions before it.
    - Instants are microseconds with an awareness flag. Where the code reads
      the clock, the instant is an argument, and one operation reads it once;
      in [Auth] and [AlertWorld] every reading asks the [environment] anew, as
      it does for ids, secrets, salts and whether a mail is accepted; in
      [AlertWorld] an [await] lets the other requests run ([meanwhile]).
    - Text is a sequence of code points below 256; what percent escapes of a
      query spell is kept as UTF-8 bytes ([UrlParts.Query]). Integers are unbounded, as
      in Python; SQL milliseconds are the binary64 results of [Clock].
    - Not under [src], hence parameters: SHA-256 (every binding theorem says
      "equal or a collision is exhibited", [Json.collision]), the database as
      it is seen at each attempt, the HTTP client, and identifiers drawn from
      [uuid4]. The normalization of one offer of the catalog is under [src] but
      not modelled, hence a parameter too (no law: the theorems hold for any).
      The stores of executions and conversations take the codec of their
      entities as an argument whose law is that decoding inverts encoding;
      [CodecSafety] has the general round trip and discharges the law for
      breaker rows.
    - A connector call is a value appended to the list of calls the process
      has sent; "sent at most once" is about that list.

    * Bounds and fuel

    [SqlRetry.retry] runs the source's own bound: 8 attempts for
    submissions and rate limits, 16 for the login lock; the theorems state what
    holds when all are used up. Before each attempt - for submissions before
    each statement and the commit - other sessions may have replaced the table
    by any other and the attempt may fail, so nothing is assumed of the
    scheduler; what fails before or at its commit is rolled back. A template is
    filled in with one unit of fuel per character. No other recursion needs
    fuel. [Clock.epoch_ms_exact] covers the instants from
    2004-11-03 to 2038-01-19, where binary64 seconds resolve a microsecond well
    enough; [epoch_ms_round_trip_loses] is a lost millisecond past it.

    * Theorems

    - Submissions: the mutation of a key runs only for the claim that won; after
      one claim won, none of the key wins for 24 hours unless a release gave the
      running claim up; a completed submission is replayed; the SQL claim among
      other READ COMMITTED sessions wins only where no row of the key survives
      at its commit; run alone, the SQL ledger refines the in-memory one.
    - Authorizations: terminal ones never change and no idempotency key is
      spent twice; consumption and validation succeed exactly when every binding
      holds; an approval binds owner and scope.
    - Planning: plans are sound and complete for the required capabilities,
      exist only for a valid stored authorization, and do not depend on
      commissions; selection is the least eligible provider.
    - Preparation: one authorization is bound to one execution of one plan for
      ever; what is prepared follows from the authorization and the selected
      market, never from what the browser sends along.
    - Breaker: every operation is a step of the three-phase automaton; it opens
      at the threshold, blocks for the window and admits one probe; concurrent
      workers are serialised by the revision; live permission is characterised.
    - Conversations: each repository method, apart from the removal of expired
      conversations, is one step among those of other workers, in memory and on
      the table, where others do not remove and open again one conversation
      while it runs; a conversation keeps its identity and only moves forward.
    - Live start: a claim writes execution, breaker and authorization together
      or nothing; claims of one execution never overlap, each worker claiming under its own
      lease and capability; what may be claimed is
      granted, the takeover of a dead worker's claim included; the errors it
      raises; only the current capability passes the later checks. Executions
      stay well formed under any calls of their repositories.
    - Attempts: no execution is sent to the provider twice, on any lawful unit
      of work and on the database; an outcome is stored whole with its breaker
      state, and reported, or not stored; a lost attempt, and nothing else, is
      closed by the reconciliation; production calls are switched off by the
      compiled-in gates. Scripted retries end, one error for an exhausted script
      included.
    - Accounts: an ended session stays ended under any further requests, but
      for a refresh that was under way; one-time tokens work once; what a login,
      a password reset, an email change and a deletion do, on every path and
      wherever a store fails; what a deletion leaves nothing of, and what it leaves
      alone; guessing locks the address, logins for others in between; a stored hash verifies
      its password.
    - Alerts: one event for one occurrence through any history; what a rule that
      fires leaves behind; nothing from a rule that is off, used up or within
      its cooldown. Notifications: a mail exactly when the preferences allow it,
      none after an unsubscribe link was followed; counters and reading agree;
      escaped templates add no markup.
    - Shopping advice: scores stay on their scale whatever the prices; a ranking
      is the listings in the order of their scores; only baskets without one
      currency are refused; what is recommended is a best available listing; a
      BUY rests on all of its conditions.
    - URLs: what the server may fetch is on the public Internet; requests go to
      the endpoints the program owns. Affiliate links stay on the host of their
      merchant's template, whatever the request brings, but for a deep link whose
      template fails the check of URLs; an attribution selects by
      time among the clicks its model counts; a report counts every click once.
    - Limits: locks at the threshold and not before, exact counting under SQL
      retries, sliding and fixed windows never exceed the limit, failing stores
      deny.
    - Foundations: unique constraints and compare-and-swap of the entity
      table, the persistence codec on every value that fits its annotation,
      canonical JSON, milliseconds, the country table.

    * Observations

    A repeated [complete] with the response that is already stored answers true
    on the SQL submission ledger and false on the in-memory one. The refinement theorems therefore compare
    claims and rows and not that boolean, which [apply_shopping_submission]
    treats alike.

    [validate_session] writes the whole session it read, not revoked, so a
    request that overlaps a logout or a reset brings the session back:
    [AuthSafety.Sessions.refresh_revives_ended_session].

    An evaluation of an alert rule works on the rule it read. Its [save_rule]
    after an [await] undoes what other requests did to the rule meanwhile
    ([AlertExamples.evaluation_undoes_concurrent_changes]), and a one-time rule
    fires once per item of the pass ([one_time_rule_fires_for_each_item]). The
    pauses of a watchlist and of an item's monitoring leave rules scoped to them
    running ([AlertSafety.Firing.pauses_leave_rules_running]).

    The advice may be BUY for a listing that lacks four of its five attributes
    ([AdviceSafety.AdviceExamples.bought_without_attributes], on a ranking made
    by hand), and calls a return window shorter than the best of the
    set without comparing ([AdviceSafety.AdviceExamples.three_offers_advised]).

    The codec returns an object without a tag under [Any] undecoded, so what is
    nested in it stays encoded ([Codec.nested_under_any_stays_encoded]).

    The server-fetch check lets the deprecated site-local block through
    ([UrlSafety.Trust.site_local_is_fetched]). An attribution breaks ties of
    time the wrong way and sees the newest 500 clicks only
    ([AffiliateSafety.Runs.ties_go_the_wrong_way], [first_click_of_many]). A deep
    link whose campaign no URL may hold - a space is enough - goes to the
    destination that the request names ([AffiliateSafety.Runs.deep_link_urls]).

    * Not modelled

    Rendering, HTTP endpoints and schemas, HTML extraction, provider clients,
    text heuristics (pattern tables), the marketplace and merchant
    stores, the research answer builders. Of the affiliate parts: the demo
    activity, the SQL repository. Of the URL checks: the IDNA tables beyond
    ASCII and the platform's parser of numeric hosts, both arguments. Of the
    accounts: the SQL repositories, the mail provider, the OAuth extension point
    beyond its stub, the personal-data export, saved items. Of alerts and
    notifications: the SQL repositories, the dictionaries of the API, the rate
    limiter hook and the redaction helper of [app/watchlists/security.py]. Still open in the modelled packages: request fingerprints, the evidence catalogs, the normalization of a
    catalog offer, and the network client of the
    connector (redirects, sizes, the SSL context). [claim_racing] orders two
    claims for a test and adds no behaviour. [plan_authorized_research] takes
    the catalogs its caller resolved. *)

From Stdlib Require Export ZArith Lia Ascii String Sorting.Sorted.
From stdpp Require Export base gmap strings list fin_maps.

#[global] Open Scope Z_scope.

(** ** Results: Python's [return] and [raise] *)

Inductive result (E A : Type) : Type :=
| Ok (a : A)
| Err (e : E).
Arguments Ok {E A} a.
Arguments Err {E A} e.

Definition rbind {E A B} (m : result E A) (f : A -> result E B) : result E B :=
  match m with
  | Ok a => f a
  | Err e => Err e
  end.

(** [guard_raise c e]: the source's [if c: raise e]. *)
Definition guard_raise {E} (c : bool) (e : E) : result E unit :=
  if c then Err e else Ok tt.

Definition is_ok {E A} (r : result E A) : bool :=
  match r with Ok _ => true | Err _ => false end.

(** [value is not None]. *)
Definition is_some {A} (o : option A) : bool :=
  match o with Some _ => true | None => false end.

Declare Scope py_scope.
Delimit Scope py_scope with py.
Notation "'let!' x := m 'in' k" := (rbind m (fun x => k))
  (at level 10, x pattern, m at level 100, k at level 200) : py_scope.
Notation "'raise!' e 'when' c 'in' k" := (rbind (guard_raise c e) (fun _ => k))
  (at level 10, e at level 100, c at level 100, k at level 200) : py_scope.
#[global] Open Scope py_scope.

Section Results.
Context {E A B : Type}.

Lemma rbind_ok_inv (m : result E A) (f : A -> result E B) b :
  rbind m f = Ok b -> exists a, m = Ok a /\ f a = Ok b.
Proof. destruct m; simpl; [eauto | discriminate]. Qed.

Lemma rbind_err_inv (m : result E A) (f : A -> result E B) e :
  rbind m f = Err e -> m = Err e \/ exists a, m = Ok a /\ f a = Err e.
Proof. destruct m; simpl; [eauto | intros [= ->]; auto]. Qed.

Lemma guard_raise_ok (c : bool) (e : E) :
  guard_raise c e = Ok tt <-> c = false.
Proof. destruct c; simpl; split; congruence. Qed.

Lemma guard_raise_err (c : bool) (e e' : E) :
  guard_raise c e = Err e' <-> c = true /\ e = e'.
Proof. destruct c; simpl; naive_solver congruence. Qed.

(** A statement run for its checks only. *)
Lemma rbind_unit_ok (m : result E unit) (k : result E B) b :
  rbind m (fun _ => k) = Ok b <-> m = Ok tt /\ k = Ok b.
Proof.
  split; [| by intros [-> ?]].
  destruct m as [[]|]; [done | discriminate].
Qed.
End Results.

(** [res_simpl] takes apart a successful run of a guarded body. *)
Ltac res_step :=
  match goal with
  | H : rbind _ _ = Ok _ |- _ => apply rbind_ok_inv in H as (? & ? & ?)
  | H : guard_raise _ _ = Ok ?u |- _ => destruct u; apply guard_raise_ok in H
  | H : _ = Ok ?u |- _ => is_var u; match type of u with unit => destruct u end
  | H : Ok _ = Ok _ |- _ => injection H as H; subst
  | H : Err _ = Ok _ |- _ => discriminate H
  | H : Ok _ = Err _ |- _ => discriminate H
  end.
Ltac res_simpl := repeat res_step.

(** [bool_simpl]: boolean guards become propositions in the hypotheses. *)
Ltac bool_simpl :=
  repeat match goal with
  | H : _ && _ = true |- _ => apply andb_true_iff in H as [? ?]
  | H : _ || _ = false |- _ => apply orb_false_iff in H as [? ?]
  | H : negb _ = true |- _ => apply negb_true_iff in H
  | H : negb _ = false |- _ => apply negb_false_iff in H
  | H : (_ <? _)%Z = true |- _ => apply Z.ltb_lt in H
  | H : (_ <? _)%Z = false |- _ => apply Z.ltb_ge in H
  | H : (_ <=? _)%Z = true |- _ => apply Z.leb_le in H
  | H : (_ <=? _)%Z = false |- _ => apply Z.leb_gt in H
  | H : (_ =? _)%Z = true |- _ => apply Z.eqb_eq in H
  | H : (_ =? _)%Z = false |- _ => apply Z.eqb_neq in H
  | H : bool_decide _ = true |- _ => apply bool_decide_eq_true in H
  | H : bool_decide _ = false |- _ => apply bool_decide_eq_false in H
  end.

(** [split_ifs]: case analysis on the conditions the goal still tests. *)
Ltac split_ifs :=
  repeat match goal with
  | |- context [if ?c then _ else _] => destruct c eqn:?
  end.

(** ** Lists *)

Lemma filter_all {A} (P : A -> Prop) `{forall x, Decision (P x)} (l : list A) :
  Forall P l -> filter P l = l.
Proof. induction 1; [done |]. rewrite filter_cons_True by done. by f_equal. Qed.

Lemma filter_none {A} (P : A -> Prop) `{forall x, Decision (P x)} (l : list A) :
  Forall (fun x => ~ P x) l -> filter P l = [].
Proof. induction 1; [done |]. by rewrite filter_cons_False. Qed.

(** A list without two items of the same key. *)
Lemma NoDup_map_inj {A B} (f : A -> B) l a b :
  NoDup (map f l) -> a ∈ l -> b ∈ l -> f a = f b -> a = b.
Proof.
  induction l as [|x l IH]; simpl; [by intros _ H%elem_of_nil |].
  intros [Hnin Hnd]%NoDup_cons [-> | Ha]%elem_of_cons [-> | Hb]%elem_of_cons E; try done.
  - exfalso. apply Hnin. rewrite E. by apply list_elem_of_fmap_2.
  - exfalso. apply Hnin. rewrite <- E. by apply list_elem_of_fmap_2.
  - by apply IH.
Qed.

(** A narrower selection of a list with distinct keys. *)
Lemma NoDup_map_filter {A B} (f : A -> B) (p q : A -> bool) l :
  (forall x, p x = true -> q x = true) ->
  NoDup (map f (List.filter q l)) -> NoDup (map f (List.filter p l)).
Proof.
  intros Hpq. induction l as [|x l IH]; simpl; [done |].
  destruct (p x) eqn:Ep; [rewrite (Hpq _ Ep); simpl | destruct (q x); simpl; [| done]];
    intros [Hx Hnd]%NoDup_cons; [| by apply IH].
  apply NoDup_cons. split; [| by apply IH]. intros (y & E & Hy)%list_elem_of_fmap.
  apply Hx. rewrite E. apply list_elem_of_fmap_2.
  apply list_elem_of_In, filter_In in Hy as [Hy Hp]. apply list_elem_of_In, filter_In. auto.
Qed.

Lemma NoDup_map_filter_all {A B} (f : A -> B) (p : A -> bool) l :
  NoDup (map f l) -> NoDup (map f (List.filter p l)).
Proof.
  intros H. apply (NoDup_map_filter f p (fun _ => true)); [done |].
  assert (List.filter (fun _ => true) l = l) as ->; [| done].
  clear. induction l as [|x l IH]; simpl; [done | by rewrite IH].
Qed.

(** Appending a new item. *)
Lemma NoDup_snoc {B} (l : list B) (x : B) : NoDup l -> x ∉ l -> NoDup (l ++ [x]).
Proof.
  intros Hnd Hx. apply NoDup_app. split; [done |]. split; [| apply NoDup_singleton].
  by intros z Hz ->%list_elem_of_singleton.
Qed.

(** First occurrence of every item, in order: the [_dedupe] helpers of
    [app/research/eligibility.py], [providers.py] and [capabilities.py],
    with the loop's [seen] set. *)
Section Dedupe.
Context {A : Type} `{EqDecision A}.

Fixpoint dedupe_loop (seen : list A) (items : list A) : list A :=
  match items with
  | [] => []
  | x :: rest =>
      if bool_decide (x ∈ seen) then dedupe_loop seen rest
      else x :: dedupe_loop (x :: seen) rest
  end.

Lemma elem_of_dedupe_loop seen items x :
  x ∈ dedupe_loop seen items <-> x ∈ items /\ x ∉ seen.
Proof.
  revert seen; induction items as [|y items IH]; intros seen; simpl.
  { split; [inversion 1 | intros [H _]; inversion H]. }
  case_bool_decide as Hy; rewrite ?elem_of_cons, IH, ?elem_of_cons.
  - naive_solver.
  - destruct (decide (x = y)); naive_solver.
Qed.

Lemma NoDup_dedupe_loop seen items : NoDup (dedupe_loop seen items).
Proof.
  revert seen; induction items as [|y items IH]; intros seen; simpl.
  { constructor. }
  case_bool_decide; [apply IH |].
  constructor; [| apply IH].
  rewrite elem_of_dedupe_loop, elem_of_cons. naive_solver.
Qed.

Lemma dedupe_loop_nil seen items :
  dedupe_loop seen items = [] <-> (forall x, x ∈ items -> x ∈ seen).
Proof.
  split.
  - intros E x Hx. destruct (decide (x ∈ seen)) as [|Hn]; [done |].
    assert (x ∈ dedupe_loop seen items) as H by (by apply elem_of_dedupe_loop).
    rewrite E in H. by apply not_elem_of_nil in H.
  - intros Hall. destruct (dedupe_loop seen items) as [|y l] eqn:E; [done |].
    assert (y ∈ dedupe_loop seen items) as H by (rewrite E; apply elem_of_cons; auto).
    apply elem_of_dedupe_loop in H. naive_solver.
Qed.
End Dedupe.

(** [sorted(items, key=key)]: Python's sort is stable and only asks whether
    one key is less than another. *)
Section Sorted.
Context {A K : Type} (ltb : K -> K -> bool) (key : A -> K).

Fixpoint sort_insert (x : A) (l : list A) : list A :=
  match l with
  | [] => [x]
  | y :: r => if ltb (key y) (key x) then y :: sort_insert x r else x :: l
  end.

Definition sorted (l : list A) : list A := foldr sort_insert [] l.

(** [a] may stand before [b]. *)
Definition key_le (a b : A) : Prop := ltb (key b) (key a) = false.

Lemma sort_insert_perm x l : Permutation (sort_insert x l) (x :: l).
Proof.
  induction l as [|y l IH]; simpl; [done |].
  destruct (ltb _ _); [| done]. rewrite IH. apply Permutation_swap.
Qed.

Lemma sorted_perm l : Permutation (sorted l) l.
Proof. induction l as [|x l IH]; simpl; [done |]. by rewrite sort_insert_perm, IH. Qed.

Lemma elem_of_sorted l x : x ∈ sorted l <-> x ∈ l.
Proof. by rewrite sorted_perm. Qed.

Context (ltb_asym : forall a b, ltb a b = true -> ltb b a = false)
        (le_trans : forall a b c, ltb b a = false -> ltb c b = false -> ltb c a = false).

Lemma sort_insert_sorted x l :
  StronglySorted key_le l -> StronglySorted key_le (sort_insert x l).
Proof.
  induction 1 as [|y l Hl IH Hy]; simpl; [repeat constructor |].
  destruct (ltb (key y) (key x)) eqn:E.
  - constructor; [done |]. rewrite sort_insert_perm. constructor; [| done].
    by apply ltb_asym.
  - constructor; [by constructor |]. constructor; [done |].
    eapply Forall_impl; [exact Hy |]. intros z Hz. by eapply le_trans.
Qed.

Lemma sorted_sorted l : StronglySorted key_le (sorted l).
Proof. induction l; simpl; [constructor | by apply sort_insert_sorted]. Qed.

(** The first item of the sorted list has the least key. *)
Lemma sorted_head_least l x r :
  sorted l = x :: r -> x ∈ l /\ forall y, y ∈ l -> key_le x y.
Proof.
  intros E. assert (x ∈ l) by (rewrite <- elem_of_sorted, E; set_solver).
  split; [done |]. intros y Hy. apply elem_of_sorted in Hy. rewrite E in Hy.
  pose proof (sorted_sorted l) as Hs. rewrite E in Hs.
  apply elem_of_cons in Hy as [-> | Hy].
  - unfold key_le. destruct (ltb (key x) (key x)) eqn:Ex; [| done].
    by rewrite (ltb_asym _ _ Ex) in Ex.
  - inversion Hs as [|? ? ? Hall]; subst. rewrite Forall_forall in Hall. by apply Hall.
Qed.
End Sorted.

(** Sorting commutes with a map that keeps the keys. *)
Lemma sorted_map {A B K} (ltb : K -> K -> bool) (ka : A -> K) (kb : B -> K) (f : A -> B) l :
  (forall x, kb (f x) = ka x) -> sorted ltb kb (map f l) = map f (sorted ltb ka l).
Proof.
  intros Hk. induction l as [|x l IH]; simpl; [done |]. rewrite IH. clear IH.
  induction (sorted ltb ka l) as [|y r IH]; simpl; [done |].
  rewrite !Hk. destruct (ltb _ _); simpl; [by rewrite IH | done].
Qed.
