(* ===== verification/PyStr.v ===== *)
(** Python [str] operations on Latin-1 text.

    A Python string is a Rocq [string], one [ascii] per code point 0..255.
    [isspace] is [str.isspace] on that range. [upper] and [lower] change the
    letters [A-Z] and [a-z] only, which is what the source uses them for
    (country codes, HTTP methods and header names). *)

From S2P Require Import Prelude.
#[local] Open Scope Z_scope.

Definition chars (s : string) : list ascii := list_ascii_of_string s.
Definition of_chars (l : list ascii) : string := string_of_list_ascii l.

Lemma of_chars_chars s : of_chars (chars s) = s.
Proof. apply string_of_list_ascii_of_string. Qed.

Lemma chars_of_chars l : chars (of_chars l) = l.
Proof. apply list_ascii_of_string_of_list_ascii. Qed.

(** [len(s)] *)
Definition len (s : string) : Z := Z.of_nat (String.length s).

(** [str.isspace] of one character: the Unicode whitespace below 256. *)
Definition isspace (c : ascii) : bool :=
  let n := nat_of_ascii c in
  (9 <=? n)%nat && (n <=? 13)%nat || (28 <=? n)%nat && (n <=? 32)%nat
  || (n =? 133)%nat || (n =? 160)%nat.

Definition any_char (f : ascii -> bool) (s : string) : bool := existsb f (chars s).
Definition all_char (f : ascii -> bool) (s : string) : bool := forallb f (chars s).

(** [c in s] for a one-character [c]. *)
Definition has_char (c : ascii) (s : string) : bool := any_char (Ascii.eqb c) s.

Definition nonempty (s : string) : bool := negb (String.eqb s "").

Fixpoint drop_while (f : ascii -> bool) (l : list ascii) : list ascii :=
  match l with
  | [] => []
  | c :: r => if f c then drop_while f r else l
  end.

(** [s.strip()]. *)
Definition lstrip_chars (l : list ascii) : list ascii := drop_while isspace l.
Definition rstrip_chars (l : list ascii) : list ascii :=
  rev (drop_while isspace (rev l)).
Definition strip (s : string) : string :=
  of_chars (rstrip_chars (lstrip_chars (chars s))).

(** [s.rstrip(c)]. *)
Definition rstrip_of (c : ascii) (s : string) : string :=
  of_chars (rev (drop_while (Ascii.eqb c) (rev (chars s)))).

Definition upper_char (c : ascii) : ascii :=
  let n := nat_of_ascii c in
  if (97 <=? n)%nat && (n <=? 122)%nat then ascii_of_nat (n - 32) else c.
Definition lower_char (c : ascii) : ascii :=
  let n := nat_of_ascii c in
  if (65 <=? n)%nat && (n <=? 90)%nat then ascii_of_nat (n + 32) else c.
Definition upper (s : string) : string := of_chars (map upper_char (chars s)).
Definition lower (s : string) : string := of_chars (map lower_char (chars s)).

(** [s.split(c, 1)[0]]. *)
Fixpoint before_chars (c : ascii) (l : list ascii) : list ascii :=
  match l with
  | [] => []
  | x :: r => if Ascii.eqb x c then [] else x :: before_chars c r
  end.
Definition before (c : ascii) (s : string) : string :=
  of_chars (before_chars c (chars s)).

(** [s.split(c, 1)[1]], where there is a [c]. *)
Fixpoint after_chars (c : ascii) (l : list ascii) : list ascii :=
  match l with
  | [] => []
  | x :: r => if Ascii.eqb x c then r else after_chars c r
  end.
Definition after (c : ascii) (s : string) : string :=
  of_chars (after_chars c (chars s)).

(** [s.startswith(p)], [s.endswith(p)] and [p in s]. *)
Definition startswith (p s : string) : bool := String.prefix p s.
Definition endswith (p s : string) : bool :=
  String.prefix (of_chars (rev (chars p))) (of_chars (rev (chars s))).
Fixpoint contains (p s : string) : bool :=
  String.prefix p s
  || match s with
     | EmptyString => false
     | String _ r => contains p r
     end.

Definition is_digit (c : ascii) : bool :=
  let n := nat_of_ascii c in (48 <=? n)%nat && (n <=? 57)%nat.
Definition is_lower_hex (c : ascii) : bool :=
  let n := nat_of_ascii c in is_digit c || (97 <=? n)%nat && (n <=? 102)%nat.
Definition is_ascii_upper (c : ascii) : bool :=
  let n := nat_of_ascii c in (65 <=? n)%nat && (n <=? 90)%nat.
Definition is_ascii_lower (c : ascii) : bool :=
  let n := nat_of_ascii c in (97 <=? n)%nat && (n <=? 122)%nat.

(** A 64-character lowercase hexadecimal text, the shape of a SHA-256 digest. *)
Definition is_hex64 (s : string) : bool :=
  (String.length s =? 64)%nat && all_char is_lower_hex s.

Example strip_example : strip "  a b	" = "a b"%string.
Proof. reflexivity. Qed.

Example endswith_example :
  endswith "/auth/login" "/api/v1/auth/login" = true
  /\ endswith "/auth/login" "/auth/logi" = false.
Proof. split; reflexivity. Qed.

Lemma nonempty_false s : nonempty s = false <-> s = ""%string.
Proof. unfold nonempty. rewrite negb_false_iff. apply String.eqb_eq. Qed.

Lemma nonempty_true s : nonempty s = true <-> s <> ""%string.
Proof. unfold nonempty. rewrite negb_true_iff. apply String.eqb_neq. Qed.

Lemma drop_while_idemp f l : drop_while f (drop_while f l) = drop_while f l.
Proof.
  induction l as [|c l IH]; simpl; [done |].
  destruct (f c) eqn:E; [done | simpl; by rewrite E].
Qed.

Lemma drop_while_sub f l : exists p, l = p ++ drop_while f l.
Proof.
  induction l as [|c l [p IH]]; simpl; [by exists [] |].
  destruct (f c); [| by exists []]. exists (c :: p). simpl. by f_equal.
Qed.

(** Both ends of a stripped text are not white space: stripping again does nothing. *)
Lemma strip_idemp s : strip (strip s) = strip s.
Proof.
  unfold strip. rewrite chars_of_chars. f_equal.
  unfold lstrip_chars, rstrip_chars. set (l := drop_while isspace (chars s)).
  assert (Hl : drop_while isspace l = l) by apply drop_while_idemp.
  assert (Hb : drop_while isspace (rev (drop_while isspace (rev l)))
               = rev (drop_while isspace (rev l))).
  { destruct (drop_while_sub isspace (rev l)) as [p Hp].
    apply (f_equal (@rev ascii)) in Hp. rewrite rev_involutive, rev_app_distr in Hp.
    destruct (rev (drop_while isspace (rev l))) as [|c r] eqn:E; [done |].
    rewrite Hp in Hl. cbn [rev app drop_while] in *. destruct (isspace c) eqn:Hc; [| done].
    exfalso. rewrite ?Hc in Hl. apply (f_equal length) in Hl.
    destruct (drop_while_sub isspace (r ++ rev p)) as [q Hq].
    apply (f_equal length) in Hq. rewrite (length_app q) in Hq. cbn [length] in Hl. lia. }
  rewrite Hb, rev_involutive. by rewrite drop_while_idemp.
Qed.

Lemma chars_app a b : chars (a +:+ b) = chars a ++ chars b.
Proof.
  induction a as [|c a IH]; [done |].
  change (c :: chars (a +:+ b) = chars (String c a) ++ chars b). by rewrite IH.
Qed.

Lemma has_char_app c a b : has_char c (a +:+ b) = has_char c a || has_char c b.
Proof. unfold has_char, any_char. by rewrite chars_app, existsb_app. Qed.

Lemma before_chars_absent c l r :
  existsb (Ascii.eqb c) l = false -> before_chars c (l ++ r) = l ++ before_chars c r.
Proof.
  induction l as [|x l IH]; simpl; [done |]. intros [Hx Hl]%orb_false_iff.
  rewrite Ascii.eqb_sym, Hx. f_equal. by apply IH.
Qed.

(** Splitting at the first [c] drops what [c] separates. *)
Lemma before_sep c p q : has_char c p = false -> before c (p +:+ String c q) = p.
Proof.
  intros Hp. unfold before. rewrite chars_app, before_chars_absent by exact Hp.
  cbn. rewrite Ascii.eqb_refl, app_nil_r. apply of_chars_chars.
Qed.

Lemma after_chars_sep c l r :
  existsb (Ascii.eqb c) l = false -> after_chars c (l ++ c :: r) = r.
Proof.
  induction l as [|x l IH]; simpl; [by rewrite Ascii.eqb_refl |].
  intros [Hx Hl]%orb_false_iff. rewrite Ascii.eqb_sym, Hx. by apply IH.
Qed.

Lemma after_sep c p q : has_char c p = false -> after c (p +:+ String c q) = q.
Proof.
  intros Hp. unfold after. rewrite chars_app.
  change (chars (String c q)) with (c :: chars q).
  rewrite after_chars_sep by exact Hp. apply of_chars_chars.
Qed.

Lemma before_absent c p : has_char c p = false -> before c p = p.
Proof.
  intros Hp. unfold before. rewrite <- (app_nil_r (chars p)), before_chars_absent by exact Hp.
  cbn. rewrite app_nil_r. apply of_chars_chars.
Qed.

Lemma rstrip_of_snoc c p : rstrip_of c (p +:+ String c "") = rstrip_of c p.
Proof.
  unfold rstrip_of. rewrite chars_app, rev_app_distr. cbn. by rewrite Ascii.eqb_refl.
Qed.

(** [a < b] on texts: by code point, a prefix first. *)
Fixpoint chars_ltb (a b : list ascii) : bool :=
  match a, b with
  | _, [] => false
  | [], _ :: _ => true
  | x :: a', y :: b' =>
      (N_of_ascii x <? N_of_ascii y)%N
      || (N_of_ascii x =? N_of_ascii y)%N && chars_ltb a' b'
  end.
Definition str_ltb (a b : string) : bool := chars_ltb (chars a) (chars b).

Lemma chars_ltb_asym a b : chars_ltb a b = true -> chars_ltb b a = false.
Proof.
  revert b; induction a as [|x a IH]; intros [|y b]; simpl; try done.
  intros [H%N.ltb_lt | [E%N.eqb_eq Hr]%andb_true_iff]%orb_true_iff.
  - apply orb_false_iff; split; [apply N.ltb_ge; lia |]. apply andb_false_iff. left.
    apply N.eqb_neq. lia.
  - rewrite E, N.ltb_irrefl, N.eqb_refl. simpl. by apply IH.
Qed.

Lemma chars_ltb_trans a b c :
  chars_ltb b a = false -> chars_ltb c b = false -> chars_ltb c a = false.
Proof.
  revert b c; induction a as [|x a IH]; intros [|y b] [|z c]; simpl; try done.
  intros [H1%N.ltb_ge H1']%orb_false_iff [H2%N.ltb_ge H2']%orb_false_iff.
  apply orb_false_iff; split; [apply N.ltb_ge; lia |].
  destruct (N.eqb_spec (N_of_ascii z) (N_of_ascii x)) as [E|]; [| done]. simpl.
  assert (N_of_ascii y = N_of_ascii x) as Ey by lia.
  rewrite Ey, E, N.eqb_refl in *. simpl in *. by apply (IH b).
Qed.

Lemma str_ltb_asym a b : str_ltb a b = true -> str_ltb b a = false.
Proof. apply chars_ltb_asym. Qed.

Lemma str_ltb_trans a b c : str_ltb b a = false -> str_ltb c b = false -> str_ltb c a = false.
Proof. apply chars_ltb_trans. Qed.

(** [s.casefold()] without the micro sign, which leaves Latin-1. *)
Definition casefold_char (c : ascii) : list ascii :=
  let n := nat_of_ascii c in
  if (n =? 223)%nat then ["s"; "s"]%char
  else if (192 <=? n)%nat && (n <=? 222)%nat && negb (n =? 215)%nat
  then [ascii_of_nat (n + 32)]
  else [lower_char c].
Definition casefold (s : string) : string := of_chars (flat_map casefold_char (chars s)).

(** A literal of this file's UTF-8 as Latin-1 text. *)
Fixpoint text_chars (l : list ascii) : list ascii :=
  match l with
  | x :: ((y :: r) as tl) =>
      if (nat_of_ascii x =? 195)%nat then ascii_of_nat (nat_of_ascii y + 64) :: text_chars r
      else if (nat_of_ascii x =? 194)%nat then y :: text_chars r
      else x :: text_chars tl
  | _ => l
  end.
Definition text (s : string) : string := of_chars (text_chars (chars s)).

Example text_example : chars (text "é") = [ascii_of_nat 233].
Proof. reflexivity. Qed.

(** Upper-casing keeps white space and is idempotent. *)
Lemma upper_char_space c : isspace (upper_char c) = isspace c.
Proof. destruct c as [[] [] [] [] [] [] [] []]; reflexivity. Qed.

Lemma upper_char_idemp c : upper_char (upper_char c) = upper_char c.
Proof. destruct c as [[] [] [] [] [] [] [] []]; reflexivity. Qed.

Lemma drop_while_map f g l :
  (forall c, f (g c) = f c) -> drop_while f (map g l) = map g (drop_while f l).
Proof. intros H. induction l as [|c l IH]; simpl; [done |]. rewrite H. by destruct (f c). Qed.

Lemma strip_upper s : strip (upper s) = upper (strip s).
Proof.
  unfold strip, upper, lstrip_chars, rstrip_chars. rewrite !chars_of_chars. f_equal.
  by rewrite !drop_while_map, <- map_rev, drop_while_map, map_rev by apply upper_char_space.
Qed.

Lemma upper_idemp s : upper (upper s) = upper s.
Proof.
  unfold upper. rewrite chars_of_chars, map_map. f_equal.
  apply map_ext. apply upper_char_idemp.
Qed.

(** ** Texts that differ

    [word c n]: one more than [n] letters, for environments in examples that
    draw a new text each time. *)
Definition word (c : ascii) (n : nat) : string := of_chars (repeat c (Datatypes.S n)).

Lemma word_length c n : String.length (word c n) = Datatypes.S n.
Proof. unfold word. induction n as [|n IH]; [done |]. cbn. f_equal. apply IH. Qed.

Lemma word_inj c n k : word c n = word c k -> n = k.
Proof. intros H. apply (f_equal String.length) in H. rewrite !word_length in H. lia. Qed.
