(* ===== verification/Json.v ===== *)
(** Canonical JSON text and digests: [app/research/digest.py].

    [json] is what the research code hands to [stable_sha256]: [None], [bool],
    [int], [str], lists (and tuples, which print alike) and dicts with text
    keys. [dumps] is [json.dumps(value, ensure_ascii=False,
    separators=(",", ":"), sort_keys=True)] on them. No float reaches a digest
    of the modelled code. *)

From Stdlib Require Import DecimalString DecimalZ.
From S2P Require Import Prelude PyStr.
#[local] Open Scope Z_scope.

Inductive json :=
| JNull
| JBool (b : bool)
| JInt (z : Z)
| JStr (s : string)
| JList (items : list json)
| JObj (fields : list (string * json)).

Section JsonInd.
Variable P : json -> Prop.
Hypothesis Hnull : P JNull.
Hypothesis Hbool : forall b, P (JBool b).
Hypothesis Hint : forall z, P (JInt z).
Hypothesis Hstr : forall s, P (JStr s).
Hypothesis Hlist : forall l, Forall P l -> P (JList l).
Hypothesis Hobj : forall fs, Forall (fun kv => P kv.2) fs -> P (JObj fs).

Fixpoint json_ind' (v : json) : P v :=
  match v with
  | JNull => Hnull
  | JBool b => Hbool b
  | JInt z => Hint z
  | JStr s => Hstr s
  | JList l => Hlist l ((fix go l : Forall P l :=
      match l with
      | [] => Forall_nil_2 P
      | x :: r => Forall_cons_2 P x r (json_ind' x) (go r)
      end) l)
  | JObj fs => Hobj fs ((fix go l : Forall (fun kv => P kv.2) l :=
      match l with
      | [] => Forall_nil_2 _
      | x :: r => Forall_cons_2 _ x r (json_ind' x.2) (go r)
      end) fs)
  end.
End JsonInd.

(** Optional values: [None] prints as [null]. *)
Definition JOpt {A} (f : A -> json) (o : option A) : json :=
  match o with Some a => f a | None => JNull end.
Definition JStrs (l : list string) : json := JList (map JStr l).

(** ** Printing *)

Definition hex_digit (n : nat) : ascii :=
  ascii_of_nat (if (n <? 10)%nat then 48 + n else 87 + n).

(** A character of a quoted text: the short escapes, [\u00XX] for the other
    control characters, every other character as it is. *)
Definition escape_char (c : ascii) : list ascii :=
  let n := nat_of_ascii c in
  if (n =? 34)%nat then ["\"; "034"]%char
  else if (n =? 92)%nat then ["\"; "\"]%char
  else if (n =? 8)%nat then ["\"; "b"]%char
  else if (n =? 12)%nat then ["\"; "f"]%char
  else if (n =? 10)%nat then ["\"; "n"]%char
  else if (n =? 13)%nat then ["\"; "r"]%char
  else if (n =? 9)%nat then ["\"; "t"]%char
  else if (n <? 32)%nat
  then ["\"; "u"; "0"; "0"; hex_digit (n / 16); hex_digit (n mod 16)]%char
  else [c].

Definition quote (s : string) : list ascii :=
  "034"%char :: flat_map escape_char (chars s) ++ ["034"%char].

Fixpoint join (sep : ascii) (items : list (list ascii)) : list ascii :=
  match items with
  | [] => []
  | [x] => x
  | x :: r => x ++ sep :: join sep r
  end.

Definition int_chars (z : Z) : list ascii := chars (NilZero.string_of_int (Z.to_int z)).

Definition member_chars (kv : string * list ascii) : list ascii := quote kv.1 ++ ":"%char :: kv.2.

Fixpoint dumps_chars (v : json) : list ascii :=
  match v with
  | JNull => chars "null"
  | JBool true => chars "true"
  | JBool false => chars "false"
  | JInt z => int_chars z
  | JStr s => quote s
  | JList l => "["%char :: join "," (map dumps_chars l) ++ ["]"%char]
  | JObj fs =>
      "{"%char
      :: join "," (map member_chars
           (sorted str_ltb fst (map (fun kv => (kv.1, dumps_chars kv.2)) fs)))
      ++ ["}"%char]
  end.

Definition dumps (v : json) : string := of_chars (dumps_chars v).

(** [.encode("utf-8")]: two bytes for the upper half of Latin-1. *)
Definition utf8_char (c : ascii) : list ascii :=
  let n := nat_of_ascii c in
  if (n <? 128)%nat then [c] else [ascii_of_nat (192 + n / 64); ascii_of_nat (128 + n mod 64)].
Definition utf8 (s : string) : string := of_chars (flat_map utf8_char (chars s)).

(** [stable_sha256], given [hashlib.sha256(...).hexdigest()] on bytes. *)
Definition stable_sha256 (sha256_hex : string -> string) (value : json) : string :=
  sha256_hex (utf8 (dumps value)).

Example dumps_example :
  chars (dumps (JObj [("b", JList [JInt (-12); JNull]); ("a", JStr "x")]))%string
  = ["{"; "034"; "a"; "034"; ":"; "034"; "x"; "034"; ",";
     "034"; "b"; "034"; ":"; "["; "-"; "1"; "2"; ","; "n"; "u"; "l"; "l"; "]"; "}"]%char.
Proof. vm_compute. reflexivity. Qed.

(** ** The printed text determines the value *)

(** A dict in the order its keys are printed. *)
Fixpoint normalize (v : json) : json :=
  match v with
  | JList l => JList (map normalize l)
  | JObj fs => JObj (sorted str_ltb fst (map (fun kv => (kv.1, normalize kv.2)) fs))
  | _ => v
  end.

(** Two texts over an alphabet, each followed by something outside it. *)
Lemma span_inj (f : ascii -> bool) a b r1 r2 :
  forallb f a = true -> forallb f b = true ->
  match r1 with [] => True | c :: _ => f c = false end ->
  match r2 with [] => True | c :: _ => f c = false end ->
  a ++ r1 = b ++ r2 -> a = b /\ r1 = r2.
Proof.
  revert b; induction a as [|x a IH]; intros [|y b] Ha Hb H1 H2 E; simpl in *; [done | | |].
  - subst r1. apply andb_true_iff in Hb as [Hy _]. congruence.
  - subst r2. apply andb_true_iff in Ha as [Hx _]. congruence.
  - injection E as -> E. apply andb_true_iff in Ha as [_ Ha]. apply andb_true_iff in Hb as [_ Hb].
    destruct (IH b Ha Hb H1 H2 E) as [-> ->]. done.
Qed.

(** Reading one escaped character back; [None] at the closing quote. *)
Definition unescape (l : list ascii) : option (ascii * list ascii) :=
  match l with
  | "\"%char :: "u"%char :: _ :: _ :: h :: d :: r =>
      let digit c := let n := nat_of_ascii c in if (n <? 58)%nat then (n - 48)%nat else (n - 87)%nat in
      Some (ascii_of_nat (16 * digit h + digit d), r)
  | "\"%char :: c :: r =>
      Some (if Ascii.eqb c "b" then ascii_of_nat 8 else if Ascii.eqb c "f" then ascii_of_nat 12
            else if Ascii.eqb c "n" then ascii_of_nat 10 else if Ascii.eqb c "r" then ascii_of_nat 13
            else if Ascii.eqb c "t" then ascii_of_nat 9 else c, r)
  | c :: r => if Ascii.eqb c "034" then None else Some (c, r)
  | [] => None
  end.

Lemma unescape_escape c r : unescape (escape_char c ++ r) = Some (c, r).
Proof. destruct c as [[] [] [] [] [] [] [] []]; reflexivity. Qed.

Lemma quote_inj s t r1 r2 : quote s ++ r1 = quote t ++ r2 -> s = t /\ r1 = r2.
Proof.
  unfold quote. simpl. intros [= E].
  assert (Hl : forall a b, (flat_map escape_char a ++ ["034"%char]) ++ r1
                     = (flat_map escape_char b ++ ["034"%char]) ++ r2 -> a = b /\ r1 = r2).
  { induction a as [|x a IH]; intros [|y b]; simpl; rewrite <- ?app_assoc; simpl.
    - by intros [= ->].
    - intros H%(f_equal unescape). by rewrite unescape_escape in H.
    - intros H%(f_equal unescape). by rewrite unescape_escape in H.
    - intros H%(f_equal unescape). rewrite !unescape_escape in H. injection H as -> H.
      destruct (IH b) as [-> ->]; [by rewrite <- !app_assoc | done]. }
  apply Hl in E as [E ->]. split; [| done].
  by rewrite <- (of_chars_chars s), E, of_chars_chars.
Qed.

Definition is_num (c : ascii) : bool := is_digit c || Ascii.eqb c "-".

Lemma int_chars_num z : forallb is_num (int_chars z) = true /\ int_chars z <> [].
Proof.
  unfold int_chars, chars.
  assert (Hu : forall d, forallb is_num (list_ascii_of_string (NilEmpty.string_of_uint d)) = true)
    by (induction d; simpl; auto).
  assert (Hz : forall d, forallb is_num (list_ascii_of_string (NilZero.string_of_uint d)) = true
                   /\ list_ascii_of_string (NilZero.string_of_uint d) <> []).
  { intros d. unfold NilZero.string_of_uint. destruct d; (split; [exact (Hu _) || done | done]). }
  destruct (Z.to_int z) as [d|d]; simpl; [apply Hz |]. split; [| done].
  exact (proj1 (Hz d)).
Qed.

Lemma int_chars_inj a b : int_chars a = int_chars b -> a = b.
Proof.
  unfold int_chars. intros E.
  assert (E2 : NilZero.string_of_int (Z.to_int a) = NilZero.string_of_int (Z.to_int b)).
  { rewrite <- (of_chars_chars (NilZero.string_of_int (Z.to_int a))), E. apply of_chars_chars. }
  apply (f_equal NilZero.int_of_string) in E2.
  assert (Hn : forall z, Z.to_int z <> Decimal.Pos Decimal.Nil /\ Z.to_int z <> Decimal.Neg Decimal.Nil).
  { intros z. split; intros H; apply (f_equal Z.of_int) in H as H';
      rewrite DecimalZ.of_to in H'; subst z; discriminate. }
  rewrite !NilZero.isi in E2 by apply Hn. injection E2 as E2.
  apply (f_equal Z.of_int) in E2. by rewrite !DecimalZ.of_to in E2.
Qed.

(** Printing without the sort: the text of a normalised value. *)
Fixpoint enc (v : json) : list ascii :=
  match v with
  | JNull => chars "null"
  | JBool true => chars "true"
  | JBool false => chars "false"
  | JInt z => int_chars z
  | JStr s => quote s
  | JList l => "["%char :: join "," (map enc l) ++ ["]"%char]
  | JObj fs =>
      "{"%char :: join "," (map (fun kv => member_chars (kv.1, enc kv.2)) fs) ++ ["}"%char]
  end.

Lemma dumps_normalize v : dumps_chars v = enc (normalize v).
Proof.
  induction v as [| [] | | | l IH | fs IH] using json_ind'; try done; simpl.
  - do 3 f_equal. rewrite map_map. induction IH as [|x l Hx _ IHl]; simpl; [done |]. by rewrite Hx, IHl.
  - do 3 f_equal.
    etransitivity;
      [| exact (map_map (fun kv : string * json => (kv.1, enc kv.2)) member_chars _)].
    f_equal.
    rewrite <- (sorted_map str_ltb fst fst (fun kv : string * json => (kv.1, enc kv.2))) by done.
    f_equal. rewrite map_map. induction IH as [|x r Hx _ IHr]; simpl; [done |]. by rewrite Hx, IHr.
Qed.

(** What may follow a value in a longer text. *)
Definition ends_value (r : list ascii) : Prop :=
  match r with
  | [] => True
  | c :: _ => c = ","%char \/ c = "]"%char \/ c = "}"%char
  end.

(** [e x] can be told from every other [e y] whatever follows, and does not
    start like the end of a sequence. *)
Definition prefix_code {A} (e : A -> list ascii) (x : A) : Prop :=
  (forall y r1 r2, ends_value r1 -> ends_value r2 ->
     e x ++ r1 = e y ++ r2 -> x = y /\ r1 = r2)
  /\ match e x with [] => False | c :: _ => ~ ends_value [c] end.

Lemma ends_value_head c r : ends_value (c :: r) <-> ends_value [c].
Proof. done. Qed.

Lemma join_inj {A} (e : A -> list ascii) (c : ascii) l :
  c = "]"%char \/ c = "}"%char -> (forall y, exists d r, e y = d :: r /\ ~ ends_value [d]) ->
  Forall (prefix_code e) l ->
  forall m r1 r2, join "," (map e l) ++ c :: r1 = join "," (map e m) ++ c :: r2 ->
    l = m /\ r1 = r2.
Proof.
  intros Hc Hhd. induction 1 as [|x l [Hx Hxhd] Hl IH]; intros m r1 r2 E.
  - destruct m as [|y m]; simpl in E; [by injection E |].
    destruct (Hhd y) as (d & r & Hy & Hd).
    destruct m; simpl in E; rewrite Hy in E; injection E as <- _; simpl in Hd; tauto.
  - destruct m as [|y m].
    { simpl in E. destruct (e x) as [|d r] eqn:Ex; [done |].
      destruct l; simpl in E; injection E as -> _; simpl in Hxhd; tauto. }
    assert (Hcc : forall r, ends_value (c :: r)) by (intros r; simpl; tauto).
    destruct l as [|x' l], m as [|y' m]; cbn [map join] in E; rewrite <- ?app_assoc in E.
    + apply Hx in E as [-> [= ->]]; auto.
    + apply Hx in E as [-> E]; [| auto | simpl; auto]. injection E as E.
      destruct Hc; subst c; discriminate.
    + apply Hx in E as [-> E]; [| simpl; auto | auto]. injection E as E.
      destruct Hc; subst c; discriminate.
    + apply Hx in E as [-> E]; [| simpl; auto | simpl; auto].
      injection E as E. apply (IH (y' :: m)) in E as [-> ->]. done.
Qed.

Lemma int_chars_head z : exists d r, int_chars z = d :: r /\ is_num d = true.
Proof.
  destruct (int_chars_num z) as [H Hn]. destruct (int_chars z) as [|d r]; [done |].
  simpl in H. apply andb_true_iff in H as [? _]. eauto.
Qed.

Lemma num_not_end c : is_num c = true -> ~ ends_value [c].
Proof. intros H [-> | [-> | ->]]; discriminate. Qed.

Lemma enc_head v : exists d r, enc v = d :: r /\ ~ ends_value [d].
Proof.
  destruct v as [|[]|z|t|l|fs]; simpl; eauto 10.
  all: try (eexists _, _; split; [reflexivity | intros [? | [? | ?]]; discriminate]).
  destruct (int_chars_head z) as (d & r & -> & Hd). eauto using num_not_end.
Qed.

(** The six kinds of value start differently. *)
Definition kind_of (c : ascii) : nat :=
  if is_num c then 2
  else if Ascii.eqb c "034" then 3 else if Ascii.eqb c "[" then 4 else if Ascii.eqb c "{" then 5
  else if Ascii.eqb c "n" then 0 else 1.
Definition json_kind (v : json) : nat :=
  match v with JNull => 0 | JBool _ => 1 | JInt _ => 2 | JStr _ => 3 | JList _ => 4 | JObj _ => 5 end.

Lemma enc_kind v r1 w r2 : enc v ++ r1 = enc w ++ r2 -> json_kind v = json_kind w.
Proof.
  assert (Hk : forall u, exists d r, enc u = d :: r /\ kind_of d = json_kind u).
  { intros [|[]|z|t|l|fs]; try (eexists _, _; split; reflexivity).
    simpl. destruct (int_chars_head z) as (d & r & -> & Hd). eexists _, _. split; [done |].
    unfold kind_of. by rewrite Hd. }
  intros E. destruct (Hk v) as (d & r & Hv & <-), (Hk w) as (d' & r' & Hw & <-).
  rewrite Hv, Hw in E. by injection E as ->.
Qed.

Lemma member_prefix_code (kv : string * json) :
  prefix_code enc kv.2 -> prefix_code (fun kv => member_chars (kv.1, enc kv.2)) kv.
Proof.
  intros [Hv _]. split; [| intros [? | [? | ?]]; discriminate].
  intros [k' v'] r1 r2 H1 H2 E. destruct kv as [k v]. unfold member_chars in E.
  cbn [fst snd] in *. rewrite <- !app_assoc in E. apply quote_inj in E as [-> [= E]].
  apply Hv in E as [-> ->]; done.
Qed.

Lemma enc_head_match v : match enc v with [] => False | c :: _ => ~ ends_value [c] end.
Proof. by destruct (enc_head v) as (d & r & -> & Hd). Qed.

Lemma enc_prefix_code v : prefix_code enc v.
Proof.
  induction v as [| b | z | t | l IH | fs IH] using json_ind';
    (split; [| apply enc_head_match]);
    intros w r1 r2 H1 H2 E; pose proof (enc_kind _ _ _ _ E) as K; destruct w; try discriminate K.
  - split; [done | by injection E].
  - destruct b, b0; injection E; try discriminate; auto.
  - apply span_inj with (f := is_num) in E; try apply int_chars_num.
    + destruct E as [E ->]. split; [| done]. f_equal. by apply int_chars_inj.
    + destruct r1; [done |]. destruct H1 as [-> | [-> | ->]]; done.
    + destruct r2; [done |]. destruct H2 as [-> | [-> | ->]]; done.
  - apply quote_inj in E as [-> ->]. done.
  - simpl in E. injection E as E. rewrite <- !app_assoc in E. simpl in E.
    apply join_inj in E as [-> ->]; auto using enc_head.
  - simpl in E. injection E as E. rewrite <- !app_assoc in E. simpl in E.
    apply (join_inj (fun kv => member_chars (kv.1, enc kv.2))) in E as [-> ->]; auto.
    + intros [k u]. eexists _, _. split; [reflexivity | intros [? | [? | ?]]; discriminate].
    + eapply Forall_impl; [exact IH |]. apply member_prefix_code.
Qed.

(** Equal canonical texts: the values agree up to the order of dict members. *)
Lemma dumps_inj v w : dumps v = dumps w -> normalize v = normalize w.
Proof.
  unfold dumps. intros E%(f_equal chars). rewrite !chars_of_chars, !dumps_normalize in E.
  rewrite <- (app_nil_r (enc (normalize v))), <- (app_nil_r (enc (normalize w))) in E.
  by apply (proj1 (enc_prefix_code (normalize v))) in E as [-> _].
Qed.

(** The end of an encoded text cannot be confused with a character. *)
Definition utf8_decode (l : list ascii) : option (ascii * list ascii) :=
  match l with
  | [] => None
  | x :: r =>
      if (nat_of_ascii x <? 128)%nat then Some (x, r)
      else match r with
           | y :: r' => Some (ascii_of_nat ((nat_of_ascii x - 192) * 64 + (nat_of_ascii y - 128)), r')
           | [] => None
           end
  end.

Lemma utf8_decode_char c r : utf8_decode (utf8_char c ++ r) = Some (c, r).
Proof. destruct c as [[] [] [] [] [] [] [] []]; reflexivity. Qed.

Lemma utf8_inj s t : utf8 s = utf8 t -> s = t.
Proof.
  unfold utf8. intros E%(f_equal chars). rewrite !chars_of_chars in E.
  rewrite <- (of_chars_chars s), <- (of_chars_chars t). f_equal.
  revert E. generalize (chars t). induction (chars s) as [|x a IH]; intros [|y b] E; [done | | |];
    apply (f_equal utf8_decode) in E; simpl in E; rewrite ?utf8_decode_char in E; try done.
  injection E as -> E. f_equal. by apply IH.
Qed.

(** ** The order of a dict's members does not matter *)

Lemma chars_ltb_total a b : chars_ltb a b = false -> chars_ltb b a = false -> a = b.
Proof.
  revert b; induction a as [|x a IH]; intros [|y b]; simpl; try done.
  intros [H1%N.ltb_ge H1']%orb_false_iff [H2%N.ltb_ge H2']%orb_false_iff.
  assert (N_of_ascii x = N_of_ascii y) as E by lia.
  rewrite E, N.eqb_refl in *. simpl in *.
  assert (x = y) as -> by (rewrite <- (ascii_N_embedding x), E; apply ascii_N_embedding).
  f_equal. by apply IH.
Qed.

Lemma str_ltb_total a b : str_ltb a b = false -> str_ltb b a = false -> a = b.
Proof.
  intros H1 H2. rewrite <- (of_chars_chars a), <- (of_chars_chars b). f_equal.
  by apply chars_ltb_total.
Qed.

Section MemberOrder.
Context {A : Type}.
Implicit Types fs gs : list (string * A).
Local Notation sort := (sorted str_ltb (fst (A := string) (B := A))).

Lemma sorted_unique fs gs :
  StronglySorted (key_le str_ltb fst) fs -> StronglySorted (key_le str_ltb fst) gs ->
  NoDup (map fst fs) -> Permutation fs gs -> fs = gs.
Proof.
  intros Hfs. revert gs. induction Hfs as [|x fs _ IH Hx]; intros gs Hgs Hnd Hp.
  { by apply Permutation_nil_l in Hp as <-. }
  destruct gs as [|y gs]; [by apply Permutation_nil_r in Hp |].
  assert (x = y) as <-.
  { apply StronglySorted_inv in Hgs as [_ Hy].
    assert (Hxin : x ∈ y :: gs) by (rewrite <- Hp; constructor).
    assert (Hyin : y ∈ x :: fs) by (rewrite Hp; constructor).
    apply elem_of_cons in Hxin as [-> | Hxin]; [done |].
    apply elem_of_cons in Hyin as [-> | Hyin]; [done |].
    rewrite Forall_forall in Hx, Hy. pose proof (Hx _ Hyin) as H1. pose proof (Hy _ Hxin) as H2.
    assert (x.1 = y.1) as E by (by apply str_ltb_total).
    apply NoDup_cons in Hnd as [Hnot _]. exfalso. apply Hnot. rewrite E.
    by apply (list_elem_of_fmap_2 fst). }
  f_equal. apply IH.
  - by apply StronglySorted_inv in Hgs as [? _].
  - by apply NoDup_cons in Hnd as [_ ?].
  - by apply Permutation_cons_inv in Hp.
Qed.

Lemma sorted_members fs gs :
  NoDup (map fst fs) -> Permutation fs gs -> sort fs = sort gs.
Proof.
  intros Hnd Hp.
  apply sorted_unique; try (apply sorted_sorted; [exact str_ltb_asym | exact str_ltb_trans]).
  - rewrite (fmap_Permutation fst _ _ (sorted_perm str_ltb fst fs)). exact Hnd.
  - by rewrite !sorted_perm.
Qed.
End MemberOrder.

(** A concrete function for evaluation where the SHA-256 hex digest is a
    parameter: it has the digest's length. *)
Definition example_digest (s : string) : string :=
  String.substring 0 64
    (s +:+ "0000000000000000000000000000000000000000000000000000000000000000").

Lemma length_substring n s : (n <= String.length s)%nat -> String.length (String.substring 0 n s) = n.
Proof.
  revert s. induction n as [|n IH]; intros [|c s] H; simpl in *; try lia. rewrite IH; lia.
Qed.

Lemma example_digest_length s : len (example_digest s) = 64%Z.
Proof.
  unfold len, example_digest. rewrite length_substring; [done |].
  induction s as [|c s IH]; simpl; [done |]. lia.
Qed.

(** ** Equal digests *)

(** Two different texts with one SHA-256 digest. *)
Definition collision (sha256_hex : string -> string) : Prop :=
  exists x y, x <> y /\ sha256_hex x = sha256_hex y.

Lemma stable_sha256_inj sha256_hex v w :
  stable_sha256 sha256_hex v = stable_sha256 sha256_hex w ->
  normalize v = normalize w \/ collision sha256_hex.
Proof.
  intros E. destruct (decide (utf8 (dumps v) = utf8 (dumps w))) as [Heq | Hne].
  - left. by apply dumps_inj, utf8_inj.
  - right. by exists (utf8 (dumps v)), (utf8 (dumps w)).
Qed.

Lemma members_inj (fs gs : list (string * json)) :
  map fst fs = map fst gs -> NoDup (map fst fs) -> Permutation fs gs -> fs = gs.
Proof.
  revert gs. induction fs as [|[k a] fs IH]; intros [|[k' b] gs]; simpl; try done.
  intros [= <- Hk] [Hnin Hnd]%NoDup_cons Hp.
  assert ((k, a) ∈ (k, b) :: gs) as Hin by (rewrite <- Hp; constructor).
  apply elem_of_cons in Hin as [[= ->] | Hin].
  - f_equal. apply IH; [done | done |]. by apply Permutation_cons_inv in Hp.
  - exfalso. apply Hnin. rewrite Hk. apply list_elem_of_fmap. by exists (k, a).
Qed.

(** Two dicts written with the same keys in the same order. *)
Lemma normalize_members fs gs :
  normalize (JObj fs) = normalize (JObj gs) ->
  map fst fs = map fst gs -> NoDup (map fst fs) ->
  map (fun kv => normalize kv.2) fs = map (fun kv => normalize kv.2) gs.
Proof.
  simpl. intros [= E] Hk Hnd. set (norm := fun kv : string * json => (kv.1, normalize kv.2)) in *.
  assert (map norm fs = map norm gs) as Hm.
  { apply members_inj; rewrite ?map_map; [exact Hk | exact Hnd |].
    rewrite <- (sorted_perm str_ltb fst (map norm fs)), E. apply sorted_perm. }
  apply (f_equal (map snd)) in Hm. rewrite !map_map in Hm. exact Hm.
Qed.

Lemma normalize_strs l : normalize (JStrs l) = JStrs l.
Proof. unfold JStrs. simpl. f_equal. induction l; simpl; congruence. Qed.

Lemma map_JStr_inj a b : map JStr a = map JStr b -> a = b.
Proof.
  revert b. induction a as [|x a IH]; intros [|y b]; simpl; try done.
  intros [= -> E]. f_equal. by apply IH.
Qed.

Lemma normalize_opt_str o : normalize (JOpt JStr o) = JOpt JStr o.
Proof. by destruct o. Qed.

Lemma JOpt_str_inj a b : JOpt JStr a = JOpt JStr b -> a = b.
Proof. destruct a, b; simpl; congruence. Qed.

Module Digest.

(** the hashed bytes of a canonical text determine the value and nothing
    else does: two values have the same bytes exactly when they are the same up
    to the order of dict members, and that order never matters. So a digest
    collision of [stable_sha256] is a SHA-256 collision. *)
Theorem canonical_bytes_determine_value v w :
  (utf8 (dumps v) = utf8 (dumps w) <-> normalize v = normalize w)
  /\ (forall sha256_hex fs gs, NoDup (map fst fs) -> Permutation fs gs ->
        stable_sha256 sha256_hex (JObj fs) = stable_sha256 sha256_hex (JObj gs)).
Proof.
  split; [split |].
  - intros E. by apply dumps_inj, utf8_inj.
  - intros E. unfold dumps. by rewrite !dumps_normalize, E.
  - intros h fs gs Hnd Hp. unfold stable_sha256, dumps. rewrite !dumps_normalize. simpl.
    set (norm := fun kv : string * json => (kv.1, normalize kv.2)).
    assert (sorted str_ltb fst (map norm fs) = sorted str_ltb fst (map norm gs)) as ->; [| done].
    apply sorted_members; [| by apply fmap_Permutation].
    rewrite map_map. exact Hnd.
Qed.

Example canonical_bytes_determine_value_witness :
  stable_sha256 (fun b => b) (JObj [("market", JStr "US"); ("version", JInt 1)])
  = stable_sha256 (fun b => b) (JObj [("version", JInt 1); ("market", JStr "US")]).
Proof.
  apply (proj2 (canonical_bytes_determine_value JNull JNull)).
  - apply (bool_decide_eq_true_1 (NoDup ["market"; "version"]%string)). reflexivity.
  - constructor.
Defined.

End Digest.
