(* ===== verification/Countries.v ===== *)
(** ISO country codes: [app/core/countries.py].

    The registrant's and the provider's markets are stored as normalised
    ISO 3166-1 alpha-2 codes. The table is the source's, row by row. *)

From S2P Require Import Prelude PyStr.
#[local] Open Scope Z_scope.

Module Countries.

Definition ISO_3166_1_ALPHA2 : list (string * string) :=
  [ ("AF", "Afghanistan");
    ("AX", text "Åland Islands");
    ("AL", "Albania");
    ("DZ", "Algeria");
    ("AS", "American Samoa");
    ("AD", "Andorra");
    ("AO", "Angola");
    ("AI", "Anguilla");
    ("AQ", "Antarctica");
    ("AG", "Antigua and Barbuda");
    ("AR", "Argentina");
    ("AM", "Armenia");
    ("AW", "Aruba");
    ("AU", "Australia");
    ("AT", "Austria");
    ("AZ", "Azerbaijan");
    ("BS", "Bahamas");
    ("BH", "Bahrain");
    ("BD", "Bangladesh");
    ("BB", "Barbados");
    ("BY", "Belarus");
    ("BE", "Belgium");
    ("BZ", "Belize");
    ("BJ", "Benin");
    ("BM", "Bermuda");
    ("BT", "Bhutan");
    ("BO", "Bolivia");
    ("BQ", "Bonaire, Sint Eustatius and Saba");
    ("BA", "Bosnia and Herzegovina");
    ("BW", "Botswana");
    ("BV", "Bouvet Island");
    ("BR", "Brazil");
    ("IO", "British Indian Ocean Territory");
    ("BN", "Brunei Darussalam");
    ("BG", "Bulgaria");
    ("BF", "Burkina Faso");
    ("BI", "Burundi");
    ("CV", "Cabo Verde");
    ("KH", "Cambodia");
    ("CM", "Cameroon");
    ("CA", "Canada");
    ("KY", "Cayman Islands");
    ("CF", "Central African Republic");
    ("TD", "Chad");
    ("CL", "Chile");
    ("CN", "China");
    ("CX", "Christmas Island");
    ("CC", "Cocos (Keeling) Islands");
    ("CO", "Colombia");
    ("KM", "Comoros");
    ("CG", "Congo");
    ("CD", "Congo, Democratic Republic of the");
    ("CK", "Cook Islands");
    ("CR", "Costa Rica");
    ("CI", text "Côte d'Ivoire");
    ("HR", "Croatia");
    ("CU", "Cuba");
    ("CW", text "Curaçao");
    ("CY", "Cyprus");
    ("CZ", "Czechia");
    ("DK", "Denmark");
    ("DJ", "Djibouti");
    ("DM", "Dominica");
    ("DO", "Dominican Republic");
    ("EC", "Ecuador");
    ("EG", "Egypt");
    ("SV", "El Salvador");
    ("GQ", "Equatorial Guinea");
    ("ER", "Eritrea");
    ("EE", "Estonia");
    ("SZ", "Eswatini");
    ("ET", "Ethiopia");
    ("FK", "Falkland Islands");
    ("FO", "Faroe Islands");
    ("FJ", "Fiji");
    ("FI", "Finland");
    ("FR", "France");
    ("GF", "French Guiana");
    ("PF", "French Polynesia");
    ("TF", "French Southern Territories");
    ("GA", "Gabon");
    ("GM", "Gambia");
    ("GE", "Georgia");
    ("DE", "Germany");
    ("GH", "Ghana");
    ("GI", "Gibraltar");
    ("GR", "Greece");
    ("GL", "Greenland");
    ("GD", "Grenada");
    ("GP", "Guadeloupe");
    ("GU", "Guam");
    ("GT", "Guatemala");
    ("GG", "Guernsey");
    ("GN", "Guinea");
    ("GW", "Guinea-Bissau");
    ("GY", "Guyana");
    ("HT", "Haiti");
    ("HM", "Heard Island and McDonald Islands");
    ("VA", "Holy See");
    ("HN", "Honduras");
    ("HK", "Hong Kong");
    ("HU", "Hungary");
    ("IS", "Iceland");
    ("IN", "India");
    ("ID", "Indonesia");
    ("IR", "Iran");
    ("IQ", "Iraq");
    ("IE", "Ireland");
    ("IM", "Isle of Man");
    ("IL", "Israel");
    ("IT", "Italy");
    ("JM", "Jamaica");
    ("JP", "Japan");
    ("JE", "Jersey");
    ("JO", "Jordan");
    ("KZ", "Kazakhstan");
    ("KE", "Kenya");
    ("KI", "Kiribati");
    ("KP", "Korea, Democratic People's Republic of");
    ("KR", "Korea, Republic of");
    ("KW", "Kuwait");
    ("KG", "Kyrgyzstan");
    ("LA", "Lao People's Democratic Republic");
    ("LV", "Latvia");
    ("LB", "Lebanon");
    ("LS", "Lesotho");
    ("LR", "Liberia");
    ("LY", "Libya");
    ("LI", "Liechtenstein");
    ("LT", "Lithuania");
    ("LU", "Luxembourg");
    ("MO", "Macao");
    ("MG", "Madagascar");
    ("MW", "Malawi");
    ("MY", "Malaysia");
    ("MV", "Maldives");
    ("ML", "Mali");
    ("MT", "Malta");
    ("MH", "Marshall Islands");
    ("MQ", "Martinique");
    ("MR", "Mauritania");
    ("MU", "Mauritius");
    ("YT", "Mayotte");
    ("MX", "Mexico");
    ("FM", "Micronesia");
    ("MD", "Moldova");
    ("MC", "Monaco");
    ("MN", "Mongolia");
    ("ME", "Montenegro");
    ("MS", "Montserrat");
    ("MA", "Morocco");
    ("MZ", "Mozambique");
    ("MM", "Myanmar");
    ("NA", "Namibia");
    ("NR", "Nauru");
    ("NP", "Nepal");
    ("NL", "Netherlands");
    ("NC", "New Caledonia");
    ("NZ", "New Zealand");
    ("NI", "Nicaragua");
    ("NE", "Niger");
    ("NG", "Nigeria");
    ("NU", "Niue");
    ("NF", "Norfolk Island");
    ("MK", "North Macedonia");
    ("MP", "Northern Mariana Islands");
    ("NO", "Norway");
    ("OM", "Oman");
    ("PK", "Pakistan");
    ("PW", "Palau");
    ("PS", "Palestine, State of");
    ("PA", "Panama");
    ("PG", "Papua New Guinea");
    ("PY", "Paraguay");
    ("PE", "Peru");
    ("PH", "Philippines");
    ("PN", "Pitcairn");
    ("PL", "Poland");
    ("PT", "Portugal");
    ("PR", "Puerto Rico");
    ("QA", "Qatar");
    ("RE", text "Réunion");
    ("RO", "Romania");
    ("RU", "Russian Federation");
    ("RW", "Rwanda");
    ("BL", text "Saint Barthélemy");
    ("SH", "Saint Helena, Ascension and Tristan da Cunha");
    ("KN", "Saint Kitts and Nevis");
    ("LC", "Saint Lucia");
    ("MF", "Saint Martin (French part)");
    ("PM", "Saint Pierre and Miquelon");
    ("VC", "Saint Vincent and the Grenadines");
    ("WS", "Samoa");
    ("SM", "San Marino");
    ("ST", "Sao Tome and Principe");
    ("SA", "Saudi Arabia");
    ("SN", "Senegal");
    ("RS", "Serbia");
    ("SC", "Seychelles");
    ("SL", "Sierra Leone");
    ("SG", "Singapore");
    ("SX", "Sint Maarten (Dutch part)");
    ("SK", "Slovakia");
    ("SI", "Slovenia");
    ("SB", "Solomon Islands");
    ("SO", "Somalia");
    ("ZA", "South Africa");
    ("GS", "South Georgia and the South Sandwich Islands");
    ("SS", "South Sudan");
    ("ES", "Spain");
    ("LK", "Sri Lanka");
    ("SD", "Sudan");
    ("SR", "Suriname");
    ("SJ", "Svalbard and Jan Mayen");
    ("SE", "Sweden");
    ("CH", "Switzerland");
    ("SY", "Syrian Arab Republic");
    ("TW", "Taiwan");
    ("TJ", "Tajikistan");
    ("TZ", "Tanzania");
    ("TH", "Thailand");
    ("TL", "Timor-Leste");
    ("TG", "Togo");
    ("TK", "Tokelau");
    ("TO", "Tonga");
    ("TT", "Trinidad and Tobago");
    ("TN", "Tunisia");
    ("TR", text "Türkiye");
    ("TM", "Turkmenistan");
    ("TC", "Turks and Caicos Islands");
    ("TV", "Tuvalu");
    ("UG", "Uganda");
    ("UA", "Ukraine");
    ("AE", "United Arab Emirates");
    ("GB", "United Kingdom");
    ("US", "United States");
    ("UM", "United States Minor Outlying Islands");
    ("UY", "Uruguay");
    ("UZ", "Uzbekistan");
    ("VU", "Vanuatu");
    ("VE", "Venezuela");
    ("VN", "Viet Nam");
    ("VG", "Virgin Islands (British)");
    ("VI", "Virgin Islands (U.S.)");
    ("WF", "Wallis and Futuna");
    ("EH", "Western Sahara");
    ("YE", "Yemen");
    ("ZM", "Zambia");
    ("ZW", "Zimbabwe") ]%string.

(** [{code: name for code, name in ISO_3166_1_ALPHA2}]: a later row would
    replace an earlier one. *)
Definition COUNTRY_NAMES : gmap string string :=
  foldl (fun m row => <[row.1 := row.2]> m) ∅ ISO_3166_1_ALPHA2.
Definition COUNTRY_CODES : list string := map fst ISO_3166_1_ALPHA2.

(** [None] for [None] and for an empty text ([cleaned or None]). *)
Definition normalize_country_code (value : option string) : option string :=
  match value with
  | None => None
  | Some v => let cleaned := upper (strip v) in
      if nonempty cleaned then Some cleaned else None
  end.

Definition is_valid_country_code (value : option string) : bool :=
  match normalize_country_code value with
  | Some code => existsb (String.eqb code) COUNTRY_CODES
  | None => false
  end.

(** [COUNTRY_NAMES[code.strip().upper()]]; [None] is the source's [KeyError]. *)
Definition country_name (code : string) : option string :=
  COUNTRY_NAMES !! upper (strip code).

(** [sorted(ISO_3166_1_ALPHA2, key=lambda item: item[1].casefold())]. *)
Definition country_options : list (string * string) :=
  sorted str_ltb (fun item => casefold item.2) ISO_3166_1_ALPHA2.

(** ** The table *)

Definition iso_code (s : string) : bool :=
  (String.length s =? 2)%nat && all_char is_ascii_upper s.

Lemma codes_well_formed : forallb iso_code COUNTRY_CODES = true.
Proof. vm_compute. reflexivity. Qed.

Lemma codes_unique : NoDup COUNTRY_CODES.
Proof.
  apply (bool_decide_eq_true_1 (NoDup COUNTRY_CODES)). vm_compute. reflexivity.
Qed.

Lemma elem_of_codes code :
  existsb (String.eqb code) COUNTRY_CODES = true <-> code ∈ COUNTRY_CODES.
Proof.
  rewrite existsb_exists. split.
  - intros (x & Hx & ->%String.eqb_eq). by apply list_elem_of_In.
  - intros H. exists code. split; [by apply list_elem_of_In | apply String.eqb_refl].
Qed.

Lemma names_lookup code name :
  COUNTRY_NAMES !! code = Some name <-> (code, name) ∈ ISO_3166_1_ALPHA2.
Proof.
  unfold COUNTRY_NAMES. revert code name.
  assert (Hgen : forall l (m : gmap string string) code name,
    NoDup (map fst l) ->
    (forall c, c ∈ map fst l -> m !! c = None) ->
    foldl (fun m row => <[row.1 := row.2]> m) m l !! code = Some name
    <-> (code, name) ∈ l \/ m !! code = Some name).
  { induction l as [|[c n] l IH]; intros m code name Hnd Hm; simpl; [set_solver |].
    apply NoDup_cons in Hnd as [Hc Hnd]. rewrite IH; [| done |].
    - destruct (decide (code = c)) as [-> | Hne].
      + rewrite lookup_insert_eq. specialize (Hm c ltac:(set_solver)).
        assert ((c, name) ∉ l).
        { intros Hin. apply Hc. apply (list_elem_of_fmap_2 fst l) in Hin. exact Hin. }
        set_solver.
      + rewrite lookup_insert_ne by done. set_solver.
    - intros c' Hc'. rewrite lookup_insert_ne by set_solver. apply Hm. set_solver. }
  intros code name. rewrite Hgen; [| exact codes_unique |].
  - rewrite lookup_empty. naive_solver.
  - intros. apply lookup_empty.
Qed.

Lemma in_codes_named code :
  code ∈ COUNTRY_CODES <-> is_Some (COUNTRY_NAMES !! code).
Proof.
  unfold COUNTRY_CODES. split.
  - intros ([c n] & -> & Hin)%list_elem_of_fmap. exists n. by apply names_lookup.
  - intros [n Hn%names_lookup]. apply (list_elem_of_fmap_2 fst) in Hn. exact Hn.
Qed.

Lemma code_iso code : code ∈ COUNTRY_CODES -> iso_code code = true.
Proof.
  intros H%list_elem_of_In. pose proof codes_well_formed as Hall.
  rewrite forallb_forall in Hall. by apply Hall.
Qed.

(** A stored code is already normalised. *)
Lemma upper_char_upper c : is_ascii_upper c = true -> upper_char c = c /\ isspace c = false.
Proof. destruct c as [[] [] [] [] [] [] [] []]; vm_compute; done. Qed.

Lemma normalize_iso code :
  iso_code code = true -> normalize_country_code (Some code) = Some code.
Proof.
  unfold iso_code. intros [Hl Ha]%andb_true_iff. unfold normalize_country_code.
  destruct code as [|x [|y [|]]]; try discriminate. cbn in Ha.
  apply andb_true_iff in Ha as [Hx [Hy _]%andb_true_iff].
  destruct (upper_char_upper x Hx) as [Hux Hsx]. destruct (upper_char_upper y Hy) as [Huy Hsy].
  unfold strip, lstrip_chars, rstrip_chars. cbn. rewrite Hsx. cbn. rewrite Hsy. cbn.
  by rewrite Hux, Huy.
Qed.

Lemma valid_code value :
  is_valid_country_code value = true <->
  exists code, normalize_country_code value = Some code /\ code ∈ COUNTRY_CODES.
Proof.
  unfold is_valid_country_code. destruct (normalize_country_code value) as [c|].
  - rewrite elem_of_codes. naive_solver.
  - naive_solver.
Qed.

Lemma normalize_idemp value code :
  normalize_country_code value = Some code -> normalize_country_code (Some code) = Some code.
Proof.
  unfold normalize_country_code. destruct value as [v|]; [| done].
  destruct (nonempty (upper (strip v))) eqn:E; [| done]. intros [= <-].
  by rewrite strip_upper, strip_idemp, upper_idemp, E.
Qed.

(** a value that passes country validation always has a display name. The
    validated code is in the table, is stored in its normalised form, and the
    lookup by code cannot raise. *)
Theorem valid_country_has_name v :
  is_valid_country_code (Some v) = true <->
  exists code name,
    normalize_country_code (Some v) = Some code
    /\ normalize_country_code (Some code) = Some code
    /\ country_name v = Some name /\ (code, name) ∈ ISO_3166_1_ALPHA2.
Proof.
  rewrite valid_code. split.
  - intros (code & Hn & Hin). exists code.
    destruct (proj1 (in_codes_named code) Hin) as [name Hname]. exists name.
    split; [done |]. split; [by apply normalize_iso, code_iso |].
    unfold country_name, normalize_country_code in *. destruct (nonempty _); [| done].
    injection Hn as Hn. rewrite Hn. split; [done | by apply names_lookup].
  - intros (code & name & Hn & _ & _ & Hin%names_lookup). exists code.
    split; [done |]. apply in_codes_named. eauto.
Qed.

Lemma country_options_sorted :
  StronglySorted (key_le str_ltb (fun item : string * string => casefold item.2)) country_options.
Proof. apply sorted_sorted; [exact str_ltb_asym | exact str_ltb_trans]. Qed.

End Countries.
