(* ===== verification/Clock.v ===== *)
(** Time as the source computes with it.

    A [datetime] is its instant in microseconds since the Unix epoch (a naive
    value is read as UTC, as [aware_utc] does), together with whether it
    carries a time zone. Python's [datetime.timestamp()] is a binary64
    division, [timestamp() * 1000] a binary64 product and [int] truncates, so
    [epoch_ms] is modelled with the two correctly rounded operations
    ([round64], round to nearest, ties to even, on the normal range: a
    [datetime] lies between the years 1 and 9999 and neither overflow nor
    subnormal results occur). *)

From S2P Require Import Prelude.
#[local] Open Scope Z_scope.

(** ** Correct rounding to binary64 *)
Module Float64.

(** Nearest integer to [n / d], ties to even. *)
Definition rne (n d : Z) : Z :=
  let q := n / d in
  let r := n mod d in
  if 2 * r <? d then q
  else if d <? 2 * r then q + 1
  else if Z.even q then q else q + 1.

(** [n / (d * 2^e)] as a fraction of integers. *)
Definition scale (n d e : Z) : Z * Z :=
  if 0 <=? e then (n, d * 2 ^ e) else (n * 2 ^ (- e), d).

(** The exponent [e] with [2^52 <= n / (d * 2^e) < 2^53]. *)
Definition fexp (n d : Z) : Z :=
  let e0 := Z.log2 n - Z.log2 d - 53 in
  let '(n', d') := scale n d e0 in
  if 2 ^ 53 * d' <=? n' then e0 + 1 else e0.

(** The binary64 value nearest to [n / d] as mantissa and exponent. *)
Definition round64 (n d : Z) : Z * Z :=
  if n =? 0 then (0, 0)
  else
    let e := fexp (Z.abs n) d in
    let '(n', d') := scale (Z.abs n) d e in
    (Z.sgn n * rne n' d', e).

(** Product with the integer [k], as binary64 computes it. *)
Definition mul_int (x : Z * Z) (k : Z) : Z * Z :=
  let '(m, e) := x in
  if 0 <=? e then round64 (m * k * 2 ^ e) 1 else round64 (m * k) (2 ^ (- e)).

(** [int(x)]: truncation towards zero. *)
Definition trunc (x : Z * Z) : Z :=
  let '(m, e) := x in
  if 0 <=? e then m * 2 ^ e else Z.quot m (2 ^ (- e)).

Lemma rne_bounds n d : 0 < d -> n * 2 - d <= 2 * (d * rne n d) <= n * 2 + d.
Proof.
  intros Hd. unfold rne.
  pose proof (Z.div_mod n d ltac:(lia)). pose proof (Z.mod_pos_bound n d Hd).
  destruct (2 * (n mod d) <? d) eqn:E1; bool_simpl; [nia |].
  destruct (d <? 2 * (n mod d)) eqn:E2; bool_simpl; [nia |].
  destruct (Z.even _); nia.
Qed.

(** An integer quotient is not rounded, and rounding is monotone against
    integer bounds. *)
Lemma rne_ge n d q : 0 < d -> d * q <= n -> q <= rne n d.
Proof.
  intros Hd Hq. unfold rne. assert (q <= n / d) by (apply Z.div_le_lower_bound; lia).
  split_ifs; lia.
Qed.

Lemma rne_le n d q : 0 < d -> n <= d * q -> rne n d <= q.
Proof. intros Hd Hq. pose proof (rne_bounds n d Hd). nia. Qed.

(** The exponent is the only one that normalises the mantissa. *)
Lemma fexp_neg n d k :
  0 < d -> 0 < n -> 0 <= k ->
  2 ^ 52 * d <= n * 2 ^ k < 2 ^ 53 * d -> fexp n d = - k.
Proof.
  intros Hd Hn Hk [Hlo Hhi].
  assert (Hl : Z.log2 (n * 2 ^ k) = Z.log2 n + k)
    by (rewrite Z.log2_mul_pow2; lia).
  assert (Z.log2 d + 52 <= Z.log2 n + k).
  { rewrite <- Hl. replace (Z.log2 d + 52) with (Z.log2 (d * 2 ^ 52))
      by (rewrite Z.log2_mul_pow2; lia). apply Z.log2_le_mono. lia. }
  assert (Z.log2 n + k <= Z.log2 d + 53).
  { rewrite <- Hl. replace (Z.log2 d + 53) with (Z.log2 (d * 2 ^ 53))
      by (rewrite Z.log2_mul_pow2; lia). apply Z.log2_le_mono. lia. }
  unfold fexp, scale.
  assert (Z.log2 n - Z.log2 d - 53 = - k \/ Z.log2 n - Z.log2 d - 53 = - k - 1)
    as [-> | ->] by lia.
  - destruct (0 <=? - k) eqn:E; bool_simpl.
    + assert (k = 0) as -> by lia. rewrite Z.pow_0_r in *.
      destruct (_ <=? _) eqn:E2; bool_simpl; lia.
    + replace (- - k) with k by lia.
      destruct (_ <=? _) eqn:E2; bool_simpl; lia.
  - destruct (0 <=? - k - 1) eqn:E; bool_simpl; [lia |].
    replace (- (- k - 1)) with (Z.succ k) by lia. rewrite Z.pow_succ_r by lia.
    destruct (_ <=? _) eqn:E2; bool_simpl; lia.
Qed.

Lemma round64_neg n d k :
  0 < d -> 0 < n -> 0 < k ->
  2 ^ 52 * d <= n * 2 ^ k < 2 ^ 53 * d ->
  round64 n d = (rne (n * 2 ^ k) d, - k).
Proof.
  intros Hd Hn Hk Hb. unfold round64.
  destruct (n =? 0) eqn:E; bool_simpl; [lia |].
  rewrite Z.abs_eq, (fexp_neg n d k) by lia. unfold scale.
  destruct (0 <=? - k) eqn:E2; bool_simpl; [lia |].
  replace (- - k) with k by lia. rewrite Z.sgn_pos by lia. f_equal. lia.
Qed.

Lemma mul_int_neg m j k : 0 < k -> mul_int (m, - k) j = round64 (m * j) (2 ^ k).
Proof.
  intros Hk. unfold mul_int. destruct (0 <=? - k) eqn:E; bool_simpl; [lia |].
  by replace (- - k) with k by lia.
Qed.

Lemma trunc_neg m k : 0 < k -> 0 <= m -> trunc (m, - k) = m / 2 ^ k.
Proof.
  intros Hk Hm. unfold trunc. destruct (0 <=? - k) eqn:E; bool_simpl; [lia |].
  replace (- - k) with k by lia. by rewrite Z.quot_div_nonneg by lia.
Qed.

End Float64.
Import Float64.

(** ** datetime *)

Record datetime := Datetime {
  dt_us : Z;      (** microseconds since the epoch, naive values read as UTC *)
  dt_aware : bool (** [tzinfo is not None] *)
}.

(** [aware_utc] of the login lock and of the submission ledger. *)
Definition aware_utc (now : datetime) : datetime := Datetime (dt_us now) true.

(** [now + timedelta(microseconds=us)]; [timedelta(seconds=s)] is [1000000 * s]. *)
Definition dt_add (now : datetime) (us : Z) : datetime :=
  Datetime (dt_us now + us) (dt_aware now).
Definition seconds (s : Z) : Z := 1000000 * s.
Definition milliseconds (ms : Z) : Z := 1000 * ms.

(** [timedelta.total_seconds()]: an integer division in binary64. *)
Definition total_seconds (us : Z) : Z * Z := round64 us 1000000.

(** [int(aware_utc(now).timestamp() * 1000)]. *)
Definition epoch_ms (now : datetime) : Z :=
  trunc (mul_int (total_seconds (dt_us (aware_utc now))) 1000).

(** The truncated seconds of a short duration are at least the whole seconds. *)
Lemma total_seconds_ge us :
  0 <= us < 2 ^ 52 -> us / 1000000 <= trunc (total_seconds us).
Proof.
  intros Hus. unfold total_seconds, round64.
  destruct (us =? 0) eqn:E; bool_simpl; [by subst |].
  rewrite Z.abs_eq, Z.sgn_pos by lia.
  assert (Hl : Z.log2 us < 52) by (apply Z.log2_lt_pow2; lia).
  assert (Hf : exists k, 0 < k /\ fexp us 1000000 = - k).
  { unfold fexp. change (Z.log2 1000000) with 19.
    destruct (scale _ _ _) as [n' d'].
    destruct (_ <=? _); [exists (33 + 38 - Z.log2 us) | exists (72 - Z.log2 us)]; split; lia. }
  destruct Hf as (k & Hk & ->). unfold scale.
  destruct (0 <=? - k) eqn:E2; bool_simpl; [lia |].
  replace (- - k) with k by lia.
  assert (Hq : us / 1000000 * 2 ^ k <= rne (us * 2 ^ k) 1000000).
  { apply rne_ge; [lia |]. pose proof (Z.mul_div_le us 1000000 ltac:(lia)).
    assert (0 < 2 ^ k) by lia. nia. }
  assert (0 <= us / 1000000) by (apply Z.div_pos; lia).
  assert (0 < 2 ^ k) by lia.
  rewrite trunc_neg by nia. apply Z.div_le_lower_bound; lia.
Qed.

(** [datetime(1970, 1, 1, tzinfo=UTC) + timedelta(milliseconds=millis)]. *)
Definition from_epoch_ms (millis : Z) : datetime := Datetime (1000 * millis) true.

(** The instants at which [epoch_ms] is exact: 2004-11-03 to 2038-01-19. *)
Definition in_window (now : datetime) : Prop :=
  1099511627776000 <= dt_us now < 2147483648000000.

(** [f(x)]'s binary64 product with 1000 truncates to the exact millisecond as
    long as the product keeps the quotient's number of fraction bits minus 10. *)
Lemma window_product m us :
  1099511627776000 <= us < 2147483648000000 ->
  us * 2 ^ 22 * 2 - 1000000 <= 2 * (1000000 * m) <= us * 2 ^ 22 * 2 + 1000000 ->
  us / 1000 * 2 ^ 12 <= rne (m * 1000 * 2 ^ 12) (2 ^ 22) < (us / 1000 + 1) * 2 ^ 12.
Proof.
  intros Hus Hm.
  pose proof (Z.div_mod us 1000 ltac:(lia)). pose proof (Z.mod_pos_bound us 1000 ltac:(lia)).
  pose proof (rne_bounds (m * 1000 * 2 ^ 12) (2 ^ 22) ltac:(lia)).
  set (q := us / 1000) in *. set (r := us mod 1000) in *.
  change (2 ^ 22) with 4194304 in *. change (2 ^ 12) with 4096 in *.
  set (x := rne (m * 1000 * 4096) 4194304) in *.
  lia.
Qed.

Lemma window_normal m us :
  1099511627776000 <= us < 2147483648000000 ->
  us * 2 ^ 22 * 2 - 1000000 <= 2 * (1000000 * m) <= us * 2 ^ 22 * 2 + 1000000 ->
  0 < m * 1000 /\ 2 ^ 52 * 2 ^ 22 <= m * 1000 * 2 ^ 12 < 2 ^ 53 * 2 ^ 22.
Proof. intros Hus Hm. change (2 ^ 22) with 4194304 in *. lia. Qed.

(** In the window [epoch_ms] is the floor of the exact quotient. *)
Lemma epoch_ms_floor now : in_window now -> epoch_ms now = dt_us now / 1000.
Proof.
  intros Hw. unfold in_window in Hw. unfold epoch_ms, total_seconds. simpl dt_us.
  set (us := dt_us now) in *.
  rewrite (round64_neg us 1000000 22) by lia.
  pose proof (rne_bounds (us * 2 ^ 22) 1000000 ltac:(lia)) as Hm.
  set (m := rne (us * 2 ^ 22) 1000000) in *. clearbody m.
  destruct (window_normal m us Hw Hm) as [Hpos Hnorm].
  rewrite mul_int_neg, (round64_neg (m * 1000) (2 ^ 22) 12) by done.
  pose proof (window_product m us Hw Hm) as Hp.
  assert (0 <= us / 1000) by (apply Z.div_pos; lia).
  rewrite trunc_neg by lia. symmetry.
  apply Z.div_unique with (r := rne (m * 1000 * 2 ^ 12) (2 ^ 22) - 2 ^ 12 * (us / 1000));
    lia.
Qed.

Lemma epoch_ms_mono a b :
  in_window a -> in_window b -> dt_us a <= dt_us b -> epoch_ms a <= epoch_ms b.
Proof. intros Ha Hb Hab. rewrite !epoch_ms_floor by done. apply Z.div_le_mono; lia. Qed.

Lemma epoch_ms_add_seconds now s :
  in_window now -> in_window (dt_add now (seconds s)) ->
  epoch_ms (dt_add now (seconds s)) = epoch_ms now + 1000 * s.
Proof.
  intros Ha Hb. rewrite !epoch_ms_floor by done. unfold dt_add, seconds. simpl.
  replace (dt_us now + 1000000 * s) with (dt_us now + 1000 * s * 1000) by lia.
  by rewrite Z.div_add by lia.
Qed.

Lemma epoch_ms_from_epoch_ms n :
  in_window (from_epoch_ms n) -> epoch_ms (from_epoch_ms n) = n.
Proof.
  intros Hw. rewrite epoch_ms_floor by done. unfold from_epoch_ms. simpl.
  rewrite Z.mul_comm. apply Z.div_mul. lia.
Qed.

Lemma from_epoch_ms_window now : in_window now -> in_window (from_epoch_ms (epoch_ms now)).
Proof.
  intros Hw. rewrite epoch_ms_floor by done. unfold in_window in *. simpl.
  pose proof (Z.div_mod (dt_us now) 1000 ltac:(lia)).
  pose proof (Z.mod_pos_bound (dt_us now) 1000 ltac:(lia)). lia.
Qed.

Lemma epoch_ms_aware now : epoch_ms (aware_utc now) = epoch_ms now.
Proof. done. Qed.

#[export] Hint Rewrite epoch_ms_aware : clock.

(** Between 2004-11-03 and 2038-01-19 the millisecond arithmetic is exact,
    although it goes through binary64: [epoch_ms] is the instant rounded down,
    a stored millisecond read back and converted again is itself, and the
    comparison of two instants never inverts. *)
Theorem epoch_ms_exact a b :
  in_window a -> in_window b ->
  epoch_ms a = dt_us a / 1000
  /\ epoch_ms (from_epoch_ms (epoch_ms a)) = epoch_ms a
  /\ (dt_us a <= dt_us b -> epoch_ms a <= epoch_ms b).
Proof.
  intros Ha Hb. split; [by apply epoch_ms_floor |]. split.
  - rewrite epoch_ms_floor by (by apply from_epoch_ms_window). simpl.
    rewrite Z.mul_comm. apply Z.div_mul. lia.
  - intros Hle. rewrite !epoch_ms_floor by done. apply Z.div_le_mono; lia.
Qed.

Example epoch_ms_exact_witness :
  let a := Datetime 1700000000123456 true in
  let b := Datetime 1700000000123999 false in
  epoch_ms a = dt_us a / 1000
  /\ epoch_ms (from_epoch_ms (epoch_ms a)) = epoch_ms a
  /\ (dt_us a <= dt_us b -> epoch_ms a <= epoch_ms b).
Proof. apply (epoch_ms_exact (Datetime 1700000000123456 true)); split; reflexivity || discriminate. Defined.

(** Past the window the round trip can lose a millisecond. *)
Lemma epoch_ms_round_trip_loses :
  epoch_ms (from_epoch_ms 2159650603969) = 2159650603968.
Proof. vm_compute. reflexivity. Qed.
