(* ===== verification/Connector.v ===== *)
(** Connector reliability contracts: [app/domain/entities/connector_reliability.py].

    The failure categories, breaker states and operational states every
    connector shares, the validated policies, and the failure results. *)

From S2P Require Import Prelude PyStr Json.
#[local] Open Scope Z_scope.

(** [ValueError(message)]. *)
Inductive value_error := ValueError (message : string).

Module Connector.

Inductive ConnectorFailureKind :=
| TIMEOUT | QUOTA | RATE_LIMIT | CREDENTIAL | PARTIAL | UNAVAILABLE_FAILURE
| KILL_SWITCH | CIRCUIT_OPEN | UNKNOWN.

#[global] Instance failure_kind_eq_dec : EqDecision ConnectorFailureKind.
Proof. solve_decision. Defined.

Definition failure_kind_value (k : ConnectorFailureKind) : string :=
  match k with
  | TIMEOUT => "timeout" | QUOTA => "quota" | RATE_LIMIT => "rate_limit"
  | CREDENTIAL => "credential" | PARTIAL => "partial"
  | UNAVAILABLE_FAILURE => "unavailable" | KILL_SWITCH => "kill_switch"
  | CIRCUIT_OPEN => "circuit_open" | UNKNOWN => "unknown"
  end.

(** [frozenset(ConnectorFailureKind)]. *)
Definition all_failure_kinds : list ConnectorFailureKind :=
  [TIMEOUT; QUOTA; RATE_LIMIT; CREDENTIAL; PARTIAL; UNAVAILABLE_FAILURE;
   KILL_SWITCH; CIRCUIT_OPEN; UNKNOWN].

Lemma all_failure_kinds_complete k : k ∈ all_failure_kinds.
Proof. destruct k; set_solver. Qed.

Inductive CircuitBreakerState := CLOSED | OPEN | HALF_OPEN.

#[global] Instance breaker_state_eq_dec : EqDecision CircuitBreakerState.
Proof. solve_decision. Defined.

Definition breaker_state_value (s : CircuitBreakerState) : string :=
  match s with CLOSED => "closed" | OPEN => "open" | HALF_OPEN => "half_open" end.

Inductive ConnectorOperationalStatus := AVAILABLE | DISABLED | UNAVAILABLE.

#[global] Instance operational_status_eq_dec : EqDecision ConnectorOperationalStatus.
Proof. solve_decision. Defined.

Definition operational_status_value (s : ConnectorOperationalStatus) : string :=
  match s with
  | AVAILABLE => "available" | DISABLED => "disabled" | UNAVAILABLE => "unavailable"
  end.

Lemma breaker_state_value_inj a b : breaker_state_value a = breaker_state_value b -> a = b.
Proof. by destruct a, b. Qed.

Lemma operational_status_value_inj a b :
  operational_status_value a = operational_status_value b -> a = b.
Proof. by destruct a, b. Qed.

(** ** Policies, validated when they are built *)

Record TimeoutPolicy := { timeout_ms : Z }.

Definition make_TimeoutPolicy (ms : Z) : result value_error TimeoutPolicy :=
  raise! ValueError "timeout_ms must be at least 1" when ms <? 1 in Ok {| timeout_ms := ms |}.

Definition TimeoutPolicy_to_dict (p : TimeoutPolicy) : json :=
  JObj [("timeout_ms", JInt (timeout_ms p))]%string.

Record BoundedRetryPolicy := { max_attempts : Z; retry_on : list string }.

Definition make_BoundedRetryPolicy (n : Z) (on : list string)
    : result value_error BoundedRetryPolicy :=
  raise! ValueError "max_attempts must be at least 1" when n <? 1 in
  Ok {| max_attempts := n; retry_on := on |}.

Definition BoundedRetryPolicy_to_dict (p : BoundedRetryPolicy) : json :=
  JObj [("max_attempts", JInt (max_attempts p)); ("retry_on", JStrs (retry_on p))]%string.

(** ** Failure results *)

Record QuotaFailure := {
  qf_kind : ConnectorFailureKind; qf_retryable : bool;
  qf_retry_after_ms : option Z; qf_message : string
}.
Definition QuotaFailure_to_dict (f : QuotaFailure) : json :=
  JObj [("kind", JStr (failure_kind_value (qf_kind f)));
        ("retryable", JBool (qf_retryable f));
        ("retry_after_ms", JOpt JInt (qf_retry_after_ms f));
        ("message", JStr (qf_message f))]%string.

Record CredentialFailure := {
  cf_kind : ConnectorFailureKind; cf_retryable : bool; cf_message : string
}.
Definition CredentialFailure_to_dict (f : CredentialFailure) : json :=
  JObj [("kind", JStr (failure_kind_value (cf_kind f)));
        ("retryable", JBool (cf_retryable f)); ("message", JStr (cf_message f))]%string.

Record PartialFailure := {
  pf_kind : ConnectorFailureKind; pf_retryable : bool;
  completed_capabilities : list string; missing_capabilities : list string;
  pf_message : string
}.
Definition PartialFailure_to_dict (f : PartialFailure) : json :=
  JObj [("kind", JStr (failure_kind_value (pf_kind f)));
        ("retryable", JBool (pf_retryable f));
        ("completed_capabilities", JStrs (completed_capabilities f));
        ("missing_capabilities", JStrs (missing_capabilities f));
        ("message", JStr (pf_message f))]%string.

(** ** Controls *)

Record KillSwitch := { engaged : bool; ks_reason : option string }.
Definition KillSwitch_to_dict (k : KillSwitch) : json :=
  JObj [("engaged", JBool (engaged k)); ("reason", JOpt JStr (ks_reason k))]%string.

Record CircuitBreakerSnapshot := { snapshot_state : CircuitBreakerState; cb_reason : option string }.

(** [state != OPEN]. *)
Definition allows_execution (s : CircuitBreakerSnapshot) : bool :=
  negb (bool_decide (snapshot_state s = OPEN)).
Definition CircuitBreakerSnapshot_to_dict (s : CircuitBreakerSnapshot) : json :=
  JObj [("state", JStr (breaker_state_value (snapshot_state s)));
        ("reason", JOpt JStr (cb_reason s))]%string.

#[global] Instance kill_switch_eq_dec : EqDecision KillSwitch.
Proof. solve_decision. Defined.

End Connector.
