(* ===== verification/Breaker.v ===== *)
(** Research-provider circuit breaker: [app/research/reliability_state.py].

    [Breaker] is the validated state of one provider and market, its
    transitions, the permission check, the HALF_OPEN probe lease, and the
    health report. [sha256_hex] is [hashlib.sha256(...).hexdigest()]. *)

From S2P Require Import Prelude PyStr Json Countries Clock Connector.
Import Connector.
#[local] Open Scope Z_scope.

(** What the breaker's code raises. [HalfOpenProbeAlreadyClaimed] and
    [ReliabilityRevisionConflict] carry their arguments. *)
Inductive rel_exn :=
| RelValueError (message : string)
| HalfOpenProbeAlreadyClaimed (provider_id market : string)
| ReliabilityRevisionConflict (provider_id market : string) (expected_revision : Z).

Module Breaker.

(** ** Failure categories *)

Definition BREAKER_AFFECTING_FAILURES : list ConnectorFailureKind :=
  [TIMEOUT; UNAVAILABLE_FAILURE; UNKNOWN].
Definition BREAKER_NEUTRAL_FAILURES : list ConnectorFailureKind :=
  [RATE_LIMIT; QUOTA; CREDENTIAL; KILL_SWITCH; CIRCUIT_OPEN; PARTIAL].

Definition failure_affects_breaker (k : ConnectorFailureKind) : bool :=
  bool_decide (k ∈ BREAKER_AFFECTING_FAILURES).

(** The import-time check of the module. *)
Lemma classified_exactly_once k :
  (k ∈ BREAKER_AFFECTING_FAILURES /\ k ∉ BREAKER_NEUTRAL_FAILURES)
  \/ (k ∉ BREAKER_AFFECTING_FAILURES /\ k ∈ BREAKER_NEUTRAL_FAILURES).
Proof. destruct k; [left | right | right | right | right | left | right | right | left]; set_solver. Qed.

(** ** Records *)

(** [f"{provider}|{code}"]. *)
Definition reliability_record_key (provider_id market : string) : result rel_exn string :=
  let provider := strip provider_id in
  raise! RelValueError "provider_id is required and cannot contain '|'"
    when negb (nonempty provider) || has_char "|" provider in
  match Countries.normalize_country_code (Some market) with
  | None => Err (RelValueError "market must be a valid ISO country code")
  | Some code =>
      raise! RelValueError "market must be a valid ISO country code"
        when negb (Countries.is_valid_country_code (Some code)) in
      Ok (provider +:+ String "|" code)
  end.

Record BreakerPolicy := { failure_threshold : Z; recovery_window_ms : Z }.

Definition make_BreakerPolicy (threshold window_ms : Z) : result rel_exn BreakerPolicy :=
  raise! RelValueError "failure_threshold must be at least 1" when threshold <? 1 in
  raise! RelValueError "recovery_window_ms must be at least 1" when window_ms <? 1 in
  Ok {| failure_threshold := threshold; recovery_window_ms := window_ms |}.

Definition default_policy : BreakerPolicy :=
  {| failure_threshold := 3; recovery_window_ms := 30000 |}.

Record ProviderReliabilityState := {
  provider_id : string;
  market : string;
  updated_at : datetime;
  state : CircuitBreakerState;
  consecutive_failure_count : Z;
  last_failure_category : option ConnectorFailureKind;
  opened_at : option datetime;
  last_attempt_at : option datetime;
  last_success_at : option datetime;
  reopen_at : option datetime;
  revision : Z;
  half_open_probe_claim_digest : option string;
  half_open_probe_claimed_at : option datetime;
  half_open_probe_expires_at : option datetime
}.

#[global] Instance datetime_eq_dec : EqDecision datetime.
Proof. solve_decision. Defined.
#[global] Instance reliability_state_eq_dec : EqDecision ProviderReliabilityState.
Proof. solve_decision. Defined.

(** ** Validation: [__post_init__] *)

Definition _require_aware (value : datetime) (field : string) : result rel_exn unit :=
  guard_raise (negb (dt_aware value)) (RelValueError (field +:+ " must be timezone-aware")).

Definition require_aware_opt (value : option datetime) (field : string) : result rel_exn unit :=
  match value with Some v => _require_aware v field | None => Ok tt end.

Definition _require_digest (value field : string) : result rel_exn unit :=
  guard_raise (negb (len value =? 64) || any_char (fun c => negb (is_lower_hex c)) value)
    (RelValueError (field +:+ " must be an opaque sha256 digest")).

(** [a < b] of two aware instants. *)
Definition dt_ltb (a b : datetime) : bool := dt_us a <? dt_us b.
Definition dt_leb (a b : datetime) : bool := dt_us a <=? dt_us b.

Definition _validate_probe_lease (s : ProviderReliabilityState) : result rel_exn unit :=
  let digest := half_open_probe_claim_digest s in
  let claimed := half_open_probe_claimed_at s in
  let expires := half_open_probe_expires_at s in
  let present := is_some digest || is_some claimed || is_some expires in
  if negb (bool_decide (state s = HALF_OPEN)) then
    guard_raise present
      (RelValueError "a probe lease exists only while the breaker is half-open")
  else if negb present then Ok tt
  else
    match digest, claimed, expires with
    | Some d, Some c, Some x =>
        raise! RelValueError
            "a half-open probe lease requires digest, claimed_at, and expires_at"
          when negb (nonempty d) in
        let! _ := _require_digest d "half_open_probe_claim_digest" in
        guard_raise (dt_leb x c)
          (RelValueError "half-open probe lease expiry must be after claimed_at")
    | _, _, _ =>
        Err (RelValueError
               "a half-open probe lease requires digest, claimed_at, and expires_at")
    end.

Definition with_identity (p m : string) (s : ProviderReliabilityState) :=
  {| provider_id := p; market := m; updated_at := updated_at s; state := state s;
     consecutive_failure_count := consecutive_failure_count s;
     last_failure_category := last_failure_category s; opened_at := opened_at s;
     last_attempt_at := last_attempt_at s; last_success_at := last_success_at s;
     reopen_at := reopen_at s; revision := revision s;
     half_open_probe_claim_digest := half_open_probe_claim_digest s;
     half_open_probe_claimed_at := half_open_probe_claimed_at s;
     half_open_probe_expires_at := half_open_probe_expires_at s |}.

(** The open window belongs to the state it is stored with. *)
Definition check_window (s : ProviderReliabilityState) : result rel_exn unit :=
  match state s with
  | OPEN =>
      raise! RelValueError "an open breaker requires opened_at and reopen_at"
        when negb (is_some (opened_at s)) || negb (is_some (reopen_at s)) in
      guard_raise (consecutive_failure_count s <? 1)
        (RelValueError "an open breaker requires a failure count")
  | CLOSED =>
      guard_raise (is_some (opened_at s) || is_some (reopen_at s))
        (RelValueError "a closed breaker cannot retain an open window")
  | HALF_OPEN => Ok tt
  end.

(** [ProviderReliabilityState(...)]: the stored object has the normalised
    provider and market, or the construction raises. *)
Definition post_init (s0 : ProviderReliabilityState) : result rel_exn ProviderReliabilityState :=
  let! _ := _require_aware (updated_at s0) "updated_at" in
  let! key := reliability_record_key (provider_id s0) (market s0) in
  let s := with_identity (before "|" key) (after "|" key) s0 in
  raise! RelValueError "failure count and revision must be non-negative"
    when (consecutive_failure_count s <? 0) || (revision s <? 0) in
  let! _ := require_aware_opt (opened_at s) "opened_at" in
  let! _ := require_aware_opt (last_attempt_at s) "last_attempt_at" in
  let! _ := require_aware_opt (last_success_at s) "last_success_at" in
  let! _ := require_aware_opt (reopen_at s) "reopen_at" in
  let! _ := require_aware_opt (half_open_probe_claimed_at s) "half_open_probe_claimed_at" in
  let! _ := require_aware_opt (half_open_probe_expires_at s) "half_open_probe_expires_at" in
  let! _ := _validate_probe_lease s in
  let! _ := check_window s in
  Ok s.

(** ** Transitions

    [dataclasses.replace] builds a new object, so every transition validates
    its result again; the [set_] functions are its keyword arguments. *)

Definition set_transition (st : CircuitBreakerState) (count : Z)
    (opened reopen : option datetime) (now : datetime) (s : ProviderReliabilityState) :=
  {| provider_id := provider_id s; market := market s; updated_at := now; state := st;
     consecutive_failure_count := count; last_failure_category := last_failure_category s;
     opened_at := opened; last_attempt_at := last_attempt_at s;
     last_success_at := last_success_at s; reopen_at := reopen; revision := revision s;
     half_open_probe_claim_digest := half_open_probe_claim_digest s;
     half_open_probe_claimed_at := half_open_probe_claimed_at s;
     half_open_probe_expires_at := half_open_probe_expires_at s |}.

Definition set_probe (digest : option string) (claimed expires : option datetime)
    (s : ProviderReliabilityState) :=
  {| provider_id := provider_id s; market := market s; updated_at := updated_at s;
     state := state s; consecutive_failure_count := consecutive_failure_count s;
     last_failure_category := last_failure_category s; opened_at := opened_at s;
     last_attempt_at := last_attempt_at s; last_success_at := last_success_at s;
     reopen_at := reopen_at s; revision := revision s;
     half_open_probe_claim_digest := digest; half_open_probe_claimed_at := claimed;
     half_open_probe_expires_at := expires |}.

(** [**_NO_PROBE_LEASE]. *)
Definition no_probe_lease := set_probe None None None.

Definition set_attempt (failure : option ConnectorFailureKind) (success : option datetime)
    (now : datetime) (s : ProviderReliabilityState) :=
  {| provider_id := provider_id s; market := market s; updated_at := now; state := state s;
     consecutive_failure_count := consecutive_failure_count s;
     last_failure_category := failure; opened_at := opened_at s;
     last_attempt_at := Some now; last_success_at := success;
     reopen_at := reopen_at s; revision := revision s;
     half_open_probe_claim_digest := half_open_probe_claim_digest s;
     half_open_probe_claimed_at := half_open_probe_claimed_at s;
     half_open_probe_expires_at := half_open_probe_expires_at s |}.

Definition set_revision (r : Z) (s : ProviderReliabilityState) :=
  {| provider_id := provider_id s; market := market s; updated_at := updated_at s;
     state := state s; consecutive_failure_count := consecutive_failure_count s;
     last_failure_category := last_failure_category s; opened_at := opened_at s;
     last_attempt_at := last_attempt_at s; last_success_at := last_success_at s;
     reopen_at := reopen_at s; revision := r;
     half_open_probe_claim_digest := half_open_probe_claim_digest s;
     half_open_probe_claimed_at := half_open_probe_claimed_at s;
     half_open_probe_expires_at := half_open_probe_expires_at s |}.

Definition closed_reliability_state (p m : string) (now : datetime)
    : result rel_exn ProviderReliabilityState :=
  post_init
    {| provider_id := p; market := m; updated_at := now; state := CLOSED;
       consecutive_failure_count := 0; last_failure_category := None; opened_at := None;
       last_attempt_at := None; last_success_at := None; reopen_at := None; revision := 0;
       half_open_probe_claim_digest := None; half_open_probe_claimed_at := None;
       half_open_probe_expires_at := None |}.

Definition advance_recovery (s : ProviderReliabilityState) (now : datetime)
    : result rel_exn ProviderReliabilityState :=
  let! _ := _require_aware now "now" in
  match state s, reopen_at s with
  | OPEN, Some reopen =>
      if dt_ltb now reopen then Ok s
      else post_init (set_transition HALF_OPEN (consecutive_failure_count s)
                        (opened_at s) (reopen_at s) now s)
  | _, _ => Ok s
  end.

Definition record_failure (s : ProviderReliabilityState) (kind : ConnectorFailureKind)
    (now : datetime) (policy : BreakerPolicy) : result rel_exn ProviderReliabilityState :=
  let! _ := _require_aware now "now" in
  let! current := advance_recovery s now in
  let! recorded := post_init (set_attempt (Some kind) (last_success_at current) now current) in
  if negb (failure_affects_breaker kind) then Ok recorded
  else
    let count := consecutive_failure_count recorded + 1 in
    if bool_decide (state recorded = HALF_OPEN) || (failure_threshold policy <=? count) then
      post_init (no_probe_lease
        (set_transition OPEN count (Some now)
           (Some (dt_add now (milliseconds (recovery_window_ms policy)))) now recorded))
    else
      post_init (no_probe_lease (set_transition CLOSED count None None now recorded)).

Definition record_success (s : ProviderReliabilityState) (now : datetime)
    : result rel_exn ProviderReliabilityState :=
  let! _ := _require_aware now "now" in
  if bool_decide (state s = OPEN) then Ok s
  else post_init (no_probe_lease
         (set_transition CLOSED 0 None None now
            (set_attempt (last_failure_category s) (Some now) now s))).

(** ** Permission *)

(** The three [False] markers of the decision are constants of this slice. *)
Record ReliabilityDecision := {
  execution_permitted : bool;
  block_reason : option string;
  breaker : ProviderReliabilityState
}.

Definition make_decision (permitted : bool) (reason : option string)
    (b : ProviderReliabilityState) : result rel_exn ReliabilityDecision :=
  raise! RelValueError "a permitted decision cannot carry a block reason"
    when permitted && is_some reason in
  raise! RelValueError "a blocked decision requires a reason"
    when negb permitted && negb (match reason with Some r => nonempty r | None => false end) in
  Ok {| execution_permitted := permitted; block_reason := reason; breaker := b |}.

Definition assess_execution_permission (s : ProviderReliabilityState)
    (operational_status : ConnectorOperationalStatus) (kill_switch : KillSwitch)
    (now : datetime) : result rel_exn ReliabilityDecision :=
  let! _ := _require_aware now "now" in
  if engaged kill_switch then make_decision false (Some "kill_switch"%string) s
  else if bool_decide (operational_status = DISABLED)
  then make_decision false (Some "provider_disabled"%string) s
  else if negb (bool_decide (operational_status = AVAILABLE))
  then make_decision false (Some "provider_unavailable"%string) s
  else
    let! advanced := advance_recovery s now in
    if bool_decide (state advanced = OPEN)
    then make_decision false (Some "circuit_open"%string) advanced
    else make_decision true None advanced.

(** ** The HALF_OPEN probe lease *)

Definition probe_lease_is_active (s : ProviderReliabilityState) (now : datetime)
    : result rel_exn bool :=
  let! _ := _require_aware now "now" in
  Ok (bool_decide (state s = HALF_OPEN)
      && match half_open_probe_claim_digest s with Some d => nonempty d | None => false end
      && match half_open_probe_expires_at s with Some x => dt_ltb now x | None => false end).

Section ProbeLease.
Variable sha256_hex : string -> string.

Definition half_open_probe_digest (claim_capability : string) : result rel_exn string :=
  raise! RelValueError "probe capability must be an opaque token"
    when len claim_capability <? 16 in
  Ok (stable_sha256 sha256_hex
        (JObj [("kind", JStr "sprint38_half_open_probe_lease_v1");
               ("capability", JStr claim_capability)]%string)).

(** [lease] in microseconds. *)
Definition apply_half_open_probe_lease (s : ProviderReliabilityState) (now : datetime)
    (lease : Z) (claim_capability : string) : result rel_exn ProviderReliabilityState :=
  let! _ := _require_aware now "now" in
  raise! RelValueError "probe lease must be bounded and positive" when lease <=? 0 in
  let! advanced := advance_recovery s now in
  match state advanced with
  | CLOSED => Err (RelValueError "a closed breaker does not take a half-open probe lease")
  | OPEN => Err (RelValueError "an open breaker cannot take a probe lease")
  | HALF_OPEN =>
      let! active := probe_lease_is_active advanced now in
      if (active : bool)
      then Err (HalfOpenProbeAlreadyClaimed (provider_id advanced) (market advanced))
      else
        let! digest := half_open_probe_digest claim_capability in
        post_init (set_transition (state advanced) (consecutive_failure_count advanced)
          (opened_at advanced) (reopen_at advanced) now
          (set_probe (Some digest) (Some now) (Some (dt_add now lease)) advanced))
  end.
End ProbeLease.

(** ** The type invariant *)

Definition aware_opt (o : option datetime) : Prop :=
  match o with Some d => dt_aware d = true | None => True end.

(** The identity the constructor stores: stripped, upper case, one separator. *)
Definition normal_identity (p m : string) : Prop :=
  reliability_record_key p m = Ok (p +:+ String "|" m) /\ has_char "|" p = false.

Definition is_digest (d : string) : Prop := len d = 64 /\ all_char is_lower_hex d = true.

Definition lease_ok (s : ProviderReliabilityState) : Prop :=
  match half_open_probe_claim_digest s, half_open_probe_claimed_at s,
        half_open_probe_expires_at s with
  | None, None, None => True
  | Some d, Some c, Some x => state s = HALF_OPEN /\ is_digest d /\ dt_us c < dt_us x
  | _, _, _ => False
  end.

Definition window_ok (s : ProviderReliabilityState) : Prop :=
  match state s with
  | OPEN => is_Some (opened_at s) /\ is_Some (reopen_at s) /\ 1 <= consecutive_failure_count s
  | CLOSED => opened_at s = None /\ reopen_at s = None
  | HALF_OPEN => True
  end.

Record wf (s : ProviderReliabilityState) : Prop := {
  wf_updated : dt_aware (updated_at s) = true;
  wf_identity : normal_identity (provider_id s) (market s);
  wf_count : 0 <= consecutive_failure_count s;
  wf_revision : 0 <= revision s;
  wf_opened : aware_opt (opened_at s);
  wf_attempt : aware_opt (last_attempt_at s);
  wf_success : aware_opt (last_success_at s);
  wf_reopen : aware_opt (reopen_at s);
  wf_claimed : aware_opt (half_open_probe_claimed_at s);
  wf_expires : aware_opt (half_open_probe_expires_at s);
  wf_lease : lease_ok s;
  wf_window : window_ok s
}.

Lemma require_aware_ok d f : _require_aware d f = Ok tt <-> dt_aware d = true.
Proof. unfold _require_aware. rewrite guard_raise_ok. apply negb_false_iff. Qed.

Lemma require_aware_opt_ok o f : require_aware_opt o f = Ok tt <-> aware_opt o.
Proof. destruct o; simpl; [apply require_aware_ok | done]. Qed.

Lemma record_key_parts p m k :
  reliability_record_key p m = Ok k ->
  normal_identity (before "|" k) (after "|" k)
  /\ k = before "|" k +:+ String "|" (after "|" k).
Proof.
  unfold reliability_record_key. cbv zeta.
  destruct (negb (nonempty (strip p)) || has_char "|" (strip p)) eqn:E1;
    cbn [guard_raise rbind]; [done |].
  destruct (Countries.normalize_country_code (Some m)) as [c|] eqn:Ec; [| done].
  destruct (Countries.is_valid_country_code (Some c)) eqn:E2; cbn [guard_raise rbind negb]; [| done].
  intros [= <-]. pose proof E1 as [_ Hbar]%orb_false_iff.
  rewrite before_sep, after_sep by done. split; [| done]. split; [| done].
  unfold reliability_record_key. rewrite strip_idemp, E1. cbn [guard_raise rbind].
  rewrite (Countries.normalize_idemp (Some m) c) by done. by rewrite E2.
Qed.

Lemma _require_digest_ok d f : _require_digest d f = Ok tt <-> is_digest d.
Proof.
  unfold _require_digest, is_digest, any_char, all_char.
  rewrite guard_raise_ok, orb_false_iff, negb_false_iff, Z.eqb_eq. split; intros [H1 H2]; split; auto.
  - apply forallb_forall. intros c Hc. destruct (is_lower_hex c) eqn:E; [done |].
    assert (existsb (fun c => negb (is_lower_hex c)) (chars d) = true) as H
      by (apply existsb_exists; exists c; by rewrite E).
    congruence.
  - apply not_true_iff_false. intros (c & Hc & E)%existsb_exists.
    rewrite forallb_forall in H2. by rewrite H2 in E.
Qed.

Lemma validate_lease_ok s : _validate_probe_lease s = Ok tt <-> lease_ok s.
Proof.
  unfold _validate_probe_lease, lease_ok.
  destruct (half_open_probe_claim_digest s) as [d|], (half_open_probe_claimed_at s) as [c|],
    (half_open_probe_expires_at s) as [x|]; simpl;
    destruct (bool_decide_reflect (state s = HALF_OPEN)) as [Hs|Hs]; simpl;
    try (split; [discriminate | tauto]); try done.
  - split.
    + intros H. res_simpl. unfold dt_leb in *. bool_simpl.
      split; [done |]. split; [by eapply _require_digest_ok |].
      lia.
    + intros (_ & Hd & Hlt). rewrite (proj2 (nonempty_true d)); simpl.
      * rewrite (proj2 (_require_digest_ok d _) Hd). simpl. apply guard_raise_ok.
        unfold dt_leb. apply Z.leb_gt. lia.
      * intros ->. destruct Hd as [Hd _]. discriminate.
Qed.

Lemma check_window_ok s : check_window s = Ok tt <-> window_ok s.
Proof.
  unfold check_window, window_ok. destruct (state s); [| | done].
  - rewrite guard_raise_ok, orb_false_iff. destruct (opened_at s), (reopen_at s); naive_solver.
  - rewrite rbind_unit_ok, !guard_raise_ok, orb_false_iff, !negb_false_iff, Z.ltb_ge.
    destruct (opened_at s), (reopen_at s); unfold is_Some; naive_solver.
Qed.

(** Construction succeeds with a well-formed object or raises. *)
Lemma post_init_iff s0 s :
  post_init s0 = Ok s <->
  wf s /\ s = with_identity (provider_id s) (market s) s0
  /\ reliability_record_key (provider_id s0) (market s0)
     = Ok (provider_id s +:+ String "|" (market s)).
Proof.
  unfold post_init. rewrite rbind_unit_ok, require_aware_ok.
  destruct (reliability_record_key (provider_id s0) (market s0)) as [key|e] eqn:Hk;
    cbn [rbind]; [| naive_solver].
  destruct (record_key_parts _ _ _ Hk) as [Hid Hkey].
  rewrite !rbind_unit_ok, guard_raise_ok, orb_false_iff, !Z.ltb_ge, !require_aware_opt_ok,
    validate_lease_ok, check_window_ok.
  split.
  - intros (Hu & [Hc Hr] & H1 & H2 & H3 & H4 & H5 & H6 & H7 & H8 & [= <-]).
    split; [by constructor |]. split; [done |]. f_equal. exact Hkey.
  - intros ([] & E & [= Hkey']). rewrite Hkey' in *.
    destruct wf_identity0 as [_ Hbar]. rewrite before_sep, after_sep by done.
    rewrite E in wf_updated0. rewrite <- E. by repeat split.
Qed.

Lemma wf_post_init s : wf s -> post_init s = Ok s.
Proof.
  intros H. apply post_init_iff. split; [done |]. split; [by destruct s |]. apply (wf_identity s H).
Qed.

Lemma post_init_wf s0 s : post_init s0 = Ok s -> wf s.
Proof. by intros [? _]%post_init_iff. Qed.

(** ** Every operation on a stored state succeeds and keeps the invariant

    A stored state is well formed and the clock is aware, so no operation
    raises; the lemmas give the exact result. *)

Lemma wf_keeps_identity s t :
  wf s -> provider_id t = provider_id s -> market t = market s -> normal_identity (provider_id t) (market t).
Proof. intros H -> ->. apply H. Qed.

(** [recovered s now]: the OPEN window has ended. *)
Definition recovered (s : ProviderReliabilityState) (now : datetime) : bool :=
  bool_decide (state s = OPEN)
  && match reopen_at s with Some r => negb (dt_ltb now r) | None => false end.

Definition advanced (s : ProviderReliabilityState) (now : datetime) : ProviderReliabilityState :=
  if recovered s now
  then set_transition HALF_OPEN (consecutive_failure_count s) (opened_at s) (reopen_at s) now s
  else s.

Lemma aware_ok now f : dt_aware now = true -> _require_aware now f = Ok tt.
Proof. apply require_aware_ok. Qed.

Lemma lease_none s :
  lease_ok s -> state s <> HALF_OPEN ->
  half_open_probe_claim_digest s = None /\ half_open_probe_claimed_at s = None
  /\ half_open_probe_expires_at s = None.
Proof. unfold lease_ok. repeat case_match; naive_solver. Qed.

Lemma wf_advanced s now : wf s -> dt_aware now = true -> wf (advanced s now).
Proof.
  intros Hs Hnow. unfold advanced, recovered.
  destruct (bool_decide_reflect (state s = OPEN)) as [Ho|]; [| done]. simpl.
  destruct (match reopen_at s with Some r => negb (dt_ltb now r) | None => false end); [| done].
  destruct Hs. constructor; try done; simpl.
  unfold lease_ok; simpl. destruct (lease_none s) as (-> & -> & ->); [done | congruence | done].
Qed.

Lemma advance_recovery_ok s now :
  wf s -> dt_aware now = true -> advance_recovery s now = Ok (advanced s now).
Proof.
  intros Hs Hnow. pose proof (wf_advanced s now Hs Hnow) as Ha. revert Ha.
  unfold advance_recovery, advanced, recovered. rewrite aware_ok by done. cbn [rbind].
  destruct (state s) eqn:E; simpl; [done | | done].
  destruct (reopen_at s) as [r|]; simpl; [| done].
  destruct (dt_ltb now r); simpl; [done |]. apply wf_post_init.
Qed.

Definition policy_ok (p : BreakerPolicy) : Prop :=
  1 <= failure_threshold p /\ 1 <= recovery_window_ms p.

Lemma make_policy_ok t w p : make_BreakerPolicy t w = Ok p -> policy_ok p.
Proof. unfold make_BreakerPolicy. intros H. res_simpl. bool_simpl. unfold policy_ok; simpl. lia. Qed.

(** What a failure and a success leave behind. *)
Definition attempted (s : ProviderReliabilityState) (k : ConnectorFailureKind) (now : datetime) :=
  let a := advanced s now in set_attempt (Some k) (last_success_at a) now a.

Definition failed (s : ProviderReliabilityState) (k : ConnectorFailureKind) (now : datetime)
    (p : BreakerPolicy) : ProviderReliabilityState :=
  let r := attempted s k now in
  let count := consecutive_failure_count r + 1 in
  if negb (failure_affects_breaker k) then r
  else if bool_decide (state r = HALF_OPEN) || (failure_threshold p <=? count)
  then no_probe_lease (set_transition OPEN count (Some now)
         (Some (dt_add now (milliseconds (recovery_window_ms p)))) now r)
  else no_probe_lease (set_transition CLOSED count None None now r).

Definition succeeded (s : ProviderReliabilityState) (now : datetime) : ProviderReliabilityState :=
  if bool_decide (state s = OPEN) then s
  else no_probe_lease (set_transition CLOSED 0 None None now
         (set_attempt (last_failure_category s) (Some now) now s)).

Lemma wf_attempted s k now : wf s -> dt_aware now = true -> wf (attempted s k now).
Proof.
  intros Hs Hnow. destruct (wf_advanced s now Hs Hnow). by constructor.
Qed.

Lemma wf_failed s k now p :
  wf s -> dt_aware now = true -> wf (failed s k now p).
Proof.
  intros Hs Hnow. pose proof (wf_attempted s k now Hs Hnow) as Hr. unfold failed.
  pose proof (wf_count _ (wf_advanced s now Hs Hnow)).
  destruct (negb _); [done |]. destruct (_ || _); destruct Hr; constructor; simpl; try done; try lia.
  unfold window_ok; simpl. split; [eauto |]. split; [eauto | lia].
Qed.

Lemma record_failure_ok s k now p :
  wf s -> dt_aware now = true -> record_failure s k now p = Ok (failed s k now p).
Proof.
  intros Hs Hnow. pose proof (wf_failed s k now p Hs Hnow) as Hf. revert Hf.
  unfold record_failure, failed. rewrite aware_ok, advance_recovery_ok by done. cbn [rbind].
  fold (attempted s k now). rewrite wf_post_init by (by apply wf_attempted). cbn [rbind].
  destruct (negb _); [done |].
  destruct (_ || _); apply wf_post_init.
Qed.

Lemma wf_succeeded s now : wf s -> dt_aware now = true -> wf (succeeded s now).
Proof.
  intros Hs Hnow. unfold succeeded. destruct (bool_decide _); [done |].
  destruct Hs. constructor; simpl; done || lia.
Qed.

Lemma record_success_ok s now :
  wf s -> dt_aware now = true -> record_success s now = Ok (succeeded s now).
Proof.
  intros Hs Hnow. pose proof (wf_succeeded s now Hs Hnow) as Hf. revert Hf.
  unfold record_success, succeeded. rewrite aware_ok by done. cbn [rbind].
  destruct (bool_decide _); [done |]. apply wf_post_init.
Qed.

(** The permission decision, case by case. *)
Definition permission_of (s : ProviderReliabilityState) (status : ConnectorOperationalStatus)
    (ks : KillSwitch) (now : datetime) : ReliabilityDecision :=
  if engaged ks then Build_ReliabilityDecision false (Some "kill_switch"%string) s
  else match status with
       | DISABLED => Build_ReliabilityDecision false (Some "provider_disabled"%string) s
       | UNAVAILABLE => Build_ReliabilityDecision false (Some "provider_unavailable"%string) s
       | AVAILABLE =>
           let a := advanced s now in
           if bool_decide (state a = OPEN)
           then Build_ReliabilityDecision false (Some "circuit_open"%string) a
           else Build_ReliabilityDecision true None a
       end.

Lemma assess_ok s status ks now :
  wf s -> dt_aware now = true ->
  assess_execution_permission s status ks now = Ok (permission_of s status ks now).
Proof.
  intros Hs Hnow. unfold assess_execution_permission, permission_of.
  rewrite aware_ok by done. cbn [rbind]. destruct (engaged ks); [done |].
  destruct status; simpl; [| done | done].
  rewrite advance_recovery_ok by done. cbn [rbind]. by destruct (bool_decide _).
Qed.

Lemma wf_permission s status ks now :
  wf s -> dt_aware now = true -> wf (breaker (permission_of s status ks now)).
Proof.
  intros Hs Hnow. unfold permission_of. destruct (engaged ks); [done |].
  destruct status; try done. cbv zeta. destruct (bool_decide _); by apply wf_advanced.
Qed.

Definition lease_active (s : ProviderReliabilityState) (now : datetime) : bool :=
  bool_decide (state s = HALF_OPEN)
  && match half_open_probe_claim_digest s with Some d => nonempty d | None => false end
  && match half_open_probe_expires_at s with Some x => dt_ltb now x | None => false end.

Section Lease.
Variable sha256_hex : string -> string.
Hypothesis sha256_hex_digest : forall b, is_digest (sha256_hex b).

Definition leased (s : ProviderReliabilityState) (now : datetime) (lease : Z) (cap : string) :=
  let a := advanced s now in
  set_transition (state a) (consecutive_failure_count a) (opened_at a) (reopen_at a) now
    (set_probe (Some (stable_sha256 sha256_hex
                 (JObj [("kind", JStr "sprint38_half_open_probe_lease_v1");
                        ("capability", JStr cap)]%string)))
       (Some now) (Some (dt_add now lease)) a).

Lemma wf_leased s now lease cap :
  wf s -> dt_aware now = true -> 0 < lease -> state (advanced s now) = HALF_OPEN ->
  wf (leased s now lease cap).
Proof.
  intros Hs Hnow Hl Hst. destruct (wf_advanced s now Hs Hnow). constructor; simpl; try done.
  unfold lease_ok; simpl. split; [done |]. split; [apply sha256_hex_digest | lia].
Qed.

(** The lease: who may take it, and what a refusal says. *)
Lemma apply_lease_ok s now lease cap :
  wf s -> dt_aware now = true -> 0 < lease -> 16 <= len cap ->
  apply_half_open_probe_lease sha256_hex s now lease cap =
  match state (advanced s now) with
  | CLOSED => Err (RelValueError "a closed breaker does not take a half-open probe lease")
  | OPEN => Err (RelValueError "an open breaker cannot take a probe lease")
  | HALF_OPEN =>
      if lease_active (advanced s now) now
      then Err (HalfOpenProbeAlreadyClaimed (provider_id s) (market s))
      else Ok (leased s now lease cap)
  end.
Proof.
  intros Hs Hnow Hl Hcap. unfold apply_half_open_probe_lease.
  rewrite aware_ok, (proj2 (Z.leb_gt _ _)), advance_recovery_ok by done. cbn [rbind guard_raise].
  destruct (state (advanced s now)) eqn:E; [done | done |].
  unfold probe_lease_is_active. rewrite aware_ok by done. cbn [rbind].
  change (bool_decide (state (advanced s now) = HALF_OPEN) && _ && _)
    with (lease_active (advanced s now) now).
  destruct (lease_active _ _).
  - do 2 f_equal; unfold advanced; by destruct (recovered s now).
  - unfold half_open_probe_digest. rewrite (proj2 (Z.ltb_ge _ _)) by done.
    cbn [rbind guard_raise]. rewrite <- E. by apply wf_post_init, wf_leased.
Qed.
End Lease.

End Breaker.
