(* ===== verification/BreakerSpec.v ===== *)
(** The breaker's contract, and that the code implements it.

    [BreakerSpec] is the three-phase automaton the module documents, over
    instants in microseconds. [Refinement] shows each operation of
    [Breaker] is one step of it on well-formed states and never raises there,
    and proves the properties of event sequences. *)

From S2P Require Import Prelude PyStr Json Countries Clock Connector Breaker.
Import Connector Breaker.
#[local] Open Scope Z_scope.

Module BreakerSpec.

(** A phase, with the failures counted since the last success, the end of the
    open window, and the end of the probe lease, if one is held. *)
Inductive phase :=
| PClosed (failures : Z)
| POpen (failures reopen : Z)
| PHalfOpen (failures : Z) (lease : option Z).

Definition tick (ph : phase) (now : Z) : phase :=
  match ph with
  | POpen n reopen => if now <? reopen then ph else PHalfOpen n None
  | _ => ph
  end.

Definition failure (ph : phase) (affecting : bool) (now : Z) (threshold window : Z) : phase :=
  let ph := tick ph now in
  if negb affecting then ph
  else
    match ph with
    | PHalfOpen n _ => POpen (n + 1) (now + window)
    | PClosed n | POpen n _ =>
        if threshold <=? n + 1 then POpen (n + 1) (now + window) else PClosed (n + 1)
    end.

Definition success (ph : phase) : phase :=
  match ph with POpen _ _ => ph | _ => PClosed 0 end.

(** Whether the breaker lets an attempt through. *)
Definition passes (ph : phase) (now : Z) : bool :=
  match tick ph now with POpen _ _ => false | _ => true end.

(** A lease until [now + lease], if the one recovery slot is free. *)
Definition take_lease (ph : phase) (now lease : Z) : option phase :=
  match tick ph now with
  | PHalfOpen n None => Some (PHalfOpen n (Some (now + lease)))
  | PHalfOpen n (Some x) => if now <? x then None else Some (PHalfOpen n (Some (now + lease)))
  | _ => None
  end.

Inductive event :=
| Failure (affecting : bool) (now : Z)
| Success (now : Z)
| Permission (now : Z)
| Lease (now lease : Z).

Definition event_time (e : event) : Z :=
  match e with Failure _ t | Success t | Permission t | Lease t _ => t end.

Section Steps.
Variables threshold window : Z.

Definition step (ph : phase) (e : event) : phase :=
  match e with
  | Failure a t => failure ph a t threshold window
  | Success _ => success ph
  | Permission t => tick ph t
  | Lease t l => match take_lease ph t l with Some ph' => ph' | None => ph end
  end.

Fixpoint run (ph : phase) (es : list event) : phase :=
  match es with
  | [] => ph
  | e :: r => run (step ph e) r
  end.

Lemma run_app ph es es' : run ph (es ++ es') = run (run ph es) es'.
Proof. revert ph; induction es as [|e es IH]; intros ph; simpl; [done | apply IH]. Qed.

(** While the breaker is not closed it has counted its threshold. *)
Definition counted (ph : phase) : Prop :=
  match ph with
  | PClosed n => 0 <= n < threshold
  | POpen n _ | PHalfOpen n _ => threshold <= n
  end.

Lemma tick_counted ph t : counted ph -> counted (tick ph t).
Proof. destruct ph; simpl; try done. by destruct (_ <? _). Qed.

Lemma step_counted ph e : 1 <= threshold -> counted ph -> counted (step ph e).
Proof.
  intros Ht H. destruct e as [a t | t | t | t l]; simpl.
  - pose proof (tick_counted ph t H) as Hk. unfold failure.
    destruct a; [| done]. destruct (tick ph t); simpl in *; try lia;
      destruct (threshold <=? failures + 1) eqn:E; bool_simpl; simpl; lia.
  - destruct ph; simpl in *; lia.
  - by apply tick_counted.
  - pose proof (tick_counted ph t H) as Hk. unfold take_lease.
    destruct (tick ph t) as [| |n [x|]]; simpl in *; try done. by destruct (_ <? _).
Qed.

Lemma run_counted ph es : 1 <= threshold -> counted ph -> counted (run ph es).
Proof. intros Ht. revert ph. induction es; intros ph H; simpl; auto using step_counted. Qed.

(** Events before the end of the window leave an open breaker open, and an
    affecting failure only moves the end of the window. *)
Lemma open_step n r e :
  1 <= threshold -> threshold <= n -> event_time e < r ->
  (exists n', step (POpen n r) e = POpen n' r /\ threshold <= n')
  \/ (exists n' t, e = Failure true t /\ step (POpen n r) e = POpen n' (t + window)
      /\ threshold <= n').
Proof.
  intros Ht Hn He.
  assert (Htick : forall t, t < r -> tick (POpen n r) t = POpen n r).
  { intros t Hr. simpl. by rewrite (proj2 (Z.ltb_lt _ _)). }
  destruct e as [[|] t | t | t | t l]; simpl event_time in He; cbn [step].
  - right. exists (n + 1), t. split; [done |]. unfold failure. rewrite Htick by done. simpl.
    rewrite (proj2 (Z.leb_le _ _)) by lia. split; [done | lia].
  - left. exists n. unfold failure. by rewrite Htick.
  - left. by exists n.
  - left. exists n. by rewrite Htick.
  - left. exists n. unfold take_lease. by rewrite Htick.
Qed.
End Steps.

End BreakerSpec.

Module BreakerRefinement.
Import BreakerSpec.

Section Calls.
Variable sha256_hex : string -> string.
Hypothesis sha256_hex_digest : forall b, is_digest (sha256_hex b).
Variable policy : BreakerPolicy.
Hypothesis policy_valid : policy_ok policy.

Definition abs (s : ProviderReliabilityState) : phase :=
  let n := consecutive_failure_count s in
  match state s with
  | CLOSED => PClosed n
  | OPEN => POpen n (match reopen_at s with Some r => dt_us r | None => 0 end)
  | HALF_OPEN => PHalfOpen n (option_map dt_us (half_open_probe_expires_at s))
  end.

(** The operations on one breaker, in the order they arrive. *)
Inductive call :=
| CallFailure (kind : ConnectorFailureKind) (now : datetime)
| CallSuccess (now : datetime)
| CallPermission (status : ConnectorOperationalStatus) (ks : KillSwitch) (now : datetime)
| CallLease (now : datetime) (lease : Z) (capability : string).

Definition call_time (c : call) : datetime :=
  match c with
  | CallFailure _ t | CallSuccess t | CallPermission _ _ t | CallLease t _ _ => t
  end.

Definition call_ok (c : call) : Prop :=
  dt_aware (call_time c) = true
  /\ match c with CallLease _ l cap => 0 < l /\ 16 <= len cap | _ => True end.

Definition do_call (s : ProviderReliabilityState) (c : call)
    : result rel_exn ProviderReliabilityState :=
  match c with
  | CallFailure k t => record_failure s k t policy
  | CallSuccess t => record_success s t
  | CallPermission status ks t =>
      let! d := assess_execution_permission s status ks t in Ok (breaker d)
  | CallLease t l cap => apply_half_open_probe_lease sha256_hex s t l cap
  end.

(** The caller keeps the stored state when an operation raises. *)
Definition exec (s : ProviderReliabilityState) (c : call) : ProviderReliabilityState :=
  match do_call s c with Ok s' => s' | Err _ => s end.

Fixpoint exec_all (s : ProviderReliabilityState) (cs : list call) : ProviderReliabilityState :=
  match cs with
  | [] => s
  | c :: r => exec_all (exec s c) r
  end.

(** Whether an attempt would be let through now. *)
Definition permitted (s : ProviderReliabilityState) (now : datetime) : bool :=
  match assess_execution_permission s AVAILABLE {| engaged := false; ks_reason := None |} now with
  | Ok d => execution_permitted d
  | Err _ => false
  end.

(** A permission check that stops before the breaker does not move it. *)
Definition event_of (c : call) : option event :=
  match c with
  | CallFailure k t => Some (Failure (failure_affects_breaker k) (dt_us t))
  | CallSuccess t => Some (Success (dt_us t))
  | CallPermission status ks t =>
      if negb (engaged ks) && bool_decide (status = AVAILABLE)
      then Some (Permission (dt_us t)) else None
  | CallLease t l _ => Some (Lease (dt_us t) l)
  end.

Definition threshold := failure_threshold policy.
Definition window := milliseconds (recovery_window_ms policy).

Definition spec_step (ph : phase) (c : call) : phase :=
  match event_of c with Some e => step threshold window ph e | None => ph end.

Lemma abs_advanced s now : wf s -> abs (advanced s now) = tick (abs s) (dt_us now).
Proof.
  intros Hs. pose proof (wf_window s Hs) as Hw. pose proof (lease_none s (wf_lease s Hs)) as Hl.
  unfold advanced, recovered, abs. unfold window_ok in Hw.
  destruct (state s) eqn:E; simpl; try by rewrite E.
  destruct Hw as (_ & [r Hr] & _). rewrite Hr. unfold dt_ltb.
  destruct (dt_us now <? dt_us r) eqn:Et; simpl; [by rewrite E, Hr |].
  destruct Hl as (_ & _ & ->); [congruence | done].
Qed.

Lemma abs_failed s k now :
  wf s ->
  abs (failed s k now policy)
  = failure (abs s) (failure_affects_breaker k) (dt_us now) threshold window.
Proof.
  intros Hs. unfold failed, failure. rewrite <- abs_advanced by done.
  destruct (failure_affects_breaker k); simpl; [| done].
  unfold abs. simpl. unfold threshold, window.
  destruct (state (advanced s now)); simpl; try done; by destruct (_ <=? _).
Qed.

Lemma abs_succeeded s now : abs (succeeded s now) = success (abs s).
Proof. unfold succeeded, abs. destruct (state s) eqn:E; simpl; try done. by rewrite E. Qed.

Lemma lease_active_abs s now :
  wf s -> state s = HALF_OPEN ->
  lease_active s now
  = match half_open_probe_expires_at s with Some x => dt_us now <? dt_us x | None => false end.
Proof.
  intros Hs Hst. unfold lease_active. rewrite bool_decide_true by done. simpl.
  pose proof (wf_lease s Hs) as Hl. unfold lease_ok in Hl.
  destruct (half_open_probe_claim_digest s) as [d|], (half_open_probe_claimed_at s),
    (half_open_probe_expires_at s); try done.
  rewrite (proj2 (nonempty_true d)); [done |]. destruct Hl as (_ & [Hd _] & _). by intros ->.
Qed.

(** The lease is granted exactly when the automaton grants it. *)
Lemma lease_outcome s t l cap :
  wf s -> dt_aware t = true -> 0 < l -> 16 <= len cap ->
  match apply_half_open_probe_lease sha256_hex s t l cap, take_lease (abs s) (dt_us t) l with
  | Ok s', Some ph => abs s' = ph
  | Err _, None => True
  | _, _ => False
  end.
Proof.
  intros Hs Haw Hl Hcap. rewrite apply_lease_ok by done. unfold take_lease.
  rewrite <- abs_advanced by done. pose proof (wf_advanced s t Hs Haw) as Ha.
  pose proof (lease_active_abs _ t Ha) as Hact. unfold abs.
  destruct (state (advanced s t)) eqn:E; try done. rewrite Hact by done.
  destruct (half_open_probe_expires_at (advanced s t)) as [x|]; simpl; [| by rewrite E].
  destruct (dt_us t <? dt_us x); simpl; [done | by rewrite E].
Qed.

Lemma wf_exec s c : wf s -> call_ok c -> wf (exec s c).
Proof.
  intros Hs [Haw Hc]. unfold exec. destruct c as [k t | t | st ks t | t l cap]; simpl in *.
  - rewrite record_failure_ok by done. by apply wf_failed.
  - rewrite record_success_ok by done. by apply wf_succeeded.
  - rewrite assess_ok by done. simpl. unfold permission_of.
    destruct (engaged ks); [done |]. destruct st; try done. cbv zeta.
    destruct (bool_decide _); simpl; by apply wf_advanced.
  - destruct Hc as [Hl Hcap]. rewrite apply_lease_ok by done.
    destruct (state (advanced s t)) eqn:E; try done. destruct (lease_active _ _); [done |].
    by apply wf_leased.
Qed.

Lemma wf_exec_all s cs : wf s -> Forall call_ok cs -> wf (exec_all s cs).
Proof.
  intros Hs Hcs. revert s Hs. induction Hcs; intros s Hs; simpl; [done |]. auto using wf_exec.
Qed.

Lemma abs_exec s c : wf s -> call_ok c -> abs (exec s c) = spec_step (abs s) c.
Proof.
  intros Hs [Haw Hc]. unfold exec, spec_step.
  destruct c as [k t | t | st ks t | t l cap]; simpl in *.
  - rewrite record_failure_ok by done. by apply abs_failed.
  - rewrite record_success_ok by done. apply abs_succeeded.
  - rewrite assess_ok by done. simpl. unfold permission_of.
    destruct (engaged ks); [done |]. destruct st; simpl; try done.
    rewrite <- abs_advanced by done. by destruct (bool_decide _).
  - destruct Hc as [Hl Hcap]. pose proof (lease_outcome s t l cap Hs Haw Hl Hcap) as Ho.
    destruct (apply_half_open_probe_lease sha256_hex s t l cap), (take_lease (abs s) (dt_us t) l);
      by rewrite ?Ho.
Qed.

Definition spec_run (ph : phase) (cs : list call) : phase := foldl spec_step ph cs.

Lemma abs_exec_all s cs : wf s -> Forall call_ok cs -> abs (exec_all s cs) = spec_run (abs s) cs.
Proof.
  intros Hs Hcs. revert s Hs. induction Hcs as [|c cs Hc _ IH]; intros s Hs; simpl; [done |].
  rewrite IH by (by apply wf_exec). by rewrite abs_exec.
Qed.

Lemma permitted_abs s now :
  wf s -> dt_aware now = true -> permitted s now = passes (abs s) (dt_us now).
Proof.
  intros Hs Hnow. unfold permitted. rewrite assess_ok by done. unfold permission_of, passes.
  simpl. rewrite <- abs_advanced by done. unfold abs.
  by destruct (state (advanced s now)).
Qed.

(** C33: every operation implements the three-phase automaton. On a stored
    state, at an aware instant, each operation leaves a stored state whose
    phase is the automaton's next phase; failures, successes and permission
    checks never raise; a lease is granted exactly when the automaton grants
    one; and an available provider is let through exactly when the automaton
    passes. *)
Theorem breaker_refines_spec s c :
  wf s -> call_ok c ->
  wf (exec s c) /\ abs (exec s c) = spec_step (abs s) c
  /\ is_ok (do_call s c)
     = match c with
       | CallLease t l _ => is_some (take_lease (abs s) (dt_us t) l)
       | _ => true
       end
  /\ permitted s (call_time c) = passes (abs s) (dt_us (call_time c)).
Proof.
  intros Hs Hc. split; [by apply wf_exec |]. split; [by apply abs_exec |].
  destruct Hc as [Haw Hc]. split; [| by apply permitted_abs].
  destruct c as [k t | t | st ks t | t l cap]; simpl in *.
  - by rewrite record_failure_ok.
  - by rewrite record_success_ok.
  - by rewrite assess_ok.
  - destruct Hc as [Hl Hcap]. pose proof (lease_outcome s t l cap Hs Haw Hl Hcap) as Ho.
    by destruct (apply_half_open_probe_lease sha256_hex s t l cap),
      (take_lease (abs s) (dt_us t) l).
Qed.

Definition failures_of (fs : list (ConnectorFailureKind * datetime)) : list call :=
  map (fun f => CallFailure f.1 f.2) fs.

Definition affecting (fs : list (ConnectorFailureKind * datetime)) : Z :=
  Z.of_nat (length (filter (fun f => failure_affects_breaker f.1 = true) fs)).

Lemma failures_count fs n :
  0 <= n -> n + affecting fs < threshold ->
  spec_run (PClosed n) (failures_of fs) = PClosed (n + affecting fs).
Proof.
  unfold affecting. revert n. induction fs as [|[k t] fs IH]; intros n Hn Hlt; simpl.
  { f_equal. simpl. lia. }
  unfold spec_step. simpl. unfold failure. simpl.
  rewrite filter_cons in *. destruct (decide _) as [E|E]; simpl in *.
  - rewrite E. simpl. rewrite (proj2 (Z.leb_gt _ _)) by lia. rewrite IH by lia. f_equal. lia.
  - rewrite (not_true_is_false _ E). simpl. by apply IH.
Qed.

Lemma closed_state_phase p m now s :
  closed_reliability_state p m now = Ok s -> wf s /\ abs s = PClosed 0.
Proof. intros (Hwf & E & _)%post_init_iff. split; [done |]. by rewrite E. Qed.

Lemma failures_ok fs : Forall (fun f => dt_aware f.2 = true) fs -> Forall call_ok (failures_of fs).
Proof. induction 1; simpl; constructor; [split; done | done]. Qed.

Lemma affecting_nonneg fs : 0 <= affecting fs.
Proof. unfold affecting. lia. Qed.

(** The breaker opens at the threshold, not before. From a missing row,
    while fewer than [failure_threshold] breaker-worthy failures have been
    recorded (whatever the neutral ones between them) an available provider
    is let through; the failure that reaches the threshold blocks it until
    the recovery window has passed, and it is let through again from then
    on. *)
Theorem opens_at_threshold p m t0 s0 fs k t now :
  closed_reliability_state p m t0 = Ok s0 ->
  Forall (fun f => dt_aware f.2 = true) fs -> dt_aware t = true -> dt_aware now = true ->
  affecting fs = threshold - 1 -> failure_affects_breaker k = true ->
  let before_last := exec_all s0 (failures_of fs) in
  let after_last := exec before_last (CallFailure k t) in
  permitted before_last now = true
  /\ permitted after_last now = (dt_us t + window <=? dt_us now).
Proof.
  intros Hs0 Hfs Ht Hnow Hn Hk b a.
  destruct (closed_state_phase _ _ _ _ Hs0) as [Hwf Habs].
  pose proof (affecting_nonneg fs).
  assert (Hb : abs b = PClosed (threshold - 1)).
  { unfold b. rewrite abs_exec_all, Habs, failures_count by (done || lia || by apply failures_ok).
    f_equal. lia. }
  assert (Hwb : wf b) by (apply wf_exec_all; [done | by apply failures_ok]).
  assert (Hc : call_ok (CallFailure k t)) by done.
  rewrite !permitted_abs by (done || by apply wf_exec).
  unfold a. rewrite abs_exec, Hb by done. split; [done |].
  unfold spec_step. simpl. unfold failure. rewrite Hk. simpl.
  rewrite (proj2 (Z.leb_le _ _)) by lia. unfold passes. simpl.
  destruct (dt_us now <? dt_us t + window) eqn:E; bool_simpl; symmetry.
  - apply Z.leb_gt. lia.
  - apply Z.leb_le. lia.
Qed.

Lemma spec_open_run n r cs lo :
  1 <= threshold -> threshold <= n -> lo + window <= r ->
  Forall (fun c => lo <= dt_us (call_time c) < lo + window) cs ->
  exists n' r', spec_run (POpen n r) cs = POpen n' r' /\ threshold <= n' /\ lo + window <= r'.
Proof.
  intros Ht Hn Hr Hcs. revert n r Hn Hr.
  induction Hcs as [|c cs Hc _ IH]; intros n r Hn Hr; [by exists n, r |].
  change (spec_run (POpen n r) (c :: cs)) with (spec_run (spec_step (POpen n r) c) cs).
  unfold spec_step. destruct (event_of c) as [e|] eqn:He; [| by apply IH].
  assert (Hte : event_time e = dt_us (call_time c)).
  { destruct c as [k t | t | st ks t | t l cap]; simpl in He;
      [| | destruct (_ && _); [| done] |]; by injection He as <-. }
  destruct (open_step threshold window n r e Ht Hn ltac:(lia)) as [(n' & -> & Hn') | (n' & t & -> & -> & Hn')].
  - by apply IH.
  - simpl in Hte. apply IH; [done | lia].
Qed.

Definition row_counted (s : ProviderReliabilityState) : Prop := counted threshold (abs s).

(** Nothing reopens the breaker early. After a failure at [t] that leaves
    the breaker open, no sequence of later operations of any kind within the
    recovery window - successes, neutral failures, lease attempts, permission
    checks, further failures - lets an attempt through inside that window. *)
Theorem open_window_blocks s k t cs now :
  wf s -> row_counted s -> dt_aware t = true -> dt_aware now = true ->
  let opened := exec s (CallFailure k t) in
  failure_affects_breaker k = true -> state opened = OPEN ->
  Forall call_ok cs ->
  Forall (fun c => dt_us t <= dt_us (call_time c) < dt_us t + window) cs ->
  dt_us t <= dt_us now < dt_us t + window ->
  permitted (exec_all opened cs) now = false.
Proof.
  intros Hs Hcnt Ht Hnow opened Hk Ho Hcs Hin Hn.
  assert (Hc : call_ok (CallFailure k t)) by done.
  assert (Hwo : wf opened) by (by apply wf_exec).
  destruct policy_valid as [Hthr _].
  pose proof (step_counted threshold window (abs s) (Failure true (dt_us t)) Hthr Hcnt) as Hco.
  assert (Habs : abs opened = step threshold window (abs s) (Failure true (dt_us t))).
  { unfold opened. rewrite abs_exec by done. unfold spec_step. simpl. by rewrite Hk. }
  rewrite <- Habs in Hco.
  assert (Hph : exists n, abs opened = POpen n (dt_us t + window)).
  { assert (Hop : exists n r, abs opened = POpen n r) by (unfold abs; rewrite Ho; eauto).
    rewrite Habs in *. simpl in *. unfold failure in *. simpl in *.
    destruct (tick (abs s) (dt_us t)); simpl in *; try destruct (_ <=? _);
      destruct Hop as (? & ? & Hop); (discriminate || eauto). }
  destruct Hph as [n Hph]. rewrite Hph in Hco. simpl in Hco.
  rewrite permitted_abs by (done || by apply wf_exec_all).
  rewrite abs_exec_all, Hph by done.
  destruct (spec_open_run n (dt_us t + window) cs (dt_us t)) as (n' & r' & -> & _ & Hr'); try done.
  unfold passes. simpl. by rewrite (proj2 (Z.ltb_lt _ _)) by lia.
Qed.

(** Operations that are not the outcome of an attempt. *)
Definition no_outcome (c : call) : Prop :=
  match c with
  | CallFailure k _ => failure_affects_breaker k = false
  | CallSuccess _ => False
  | _ => True
  end.

Lemma lease_held_run n x cs :
  Forall (fun c => no_outcome c /\ dt_us (call_time c) < x) cs ->
  spec_run (PHalfOpen n (Some x)) cs = PHalfOpen n (Some x).
Proof.
  induction 1 as [|c cs [Hno Hx] _ IH]; simpl; [done |]. rewrite <- IH at 2. f_equal.
  unfold spec_step. destruct c as [k t | t | st ks t | t l cap]; simpl in *; try done.
  - by rewrite Hno.
  - by destruct (_ && _).
  - unfold take_lease. simpl. by rewrite (proj2 (Z.ltb_lt _ _)).
Qed.

(** one probe at a time. Once a lease is granted at [t] for [l], every
    other lease attempt before [t + l] is refused, whatever permission
    checks, neutral failures and lease attempts come between, unless an
    outcome of the probe is recorded; the first attempt at [t + l] or later
    gets the slot, so a crashed worker cannot hold it. *)
Theorem half_open_single_probe s t l cap s1 cs t' l' cap' :
  wf s -> call_ok (CallLease t l cap) -> call_ok (CallLease t' l' cap') ->
  apply_half_open_probe_lease sha256_hex s t l cap = Ok s1 ->
  Forall call_ok cs ->
  Forall (fun c => no_outcome c /\ dt_us (call_time c) < dt_us t + l) cs ->
  is_ok (apply_half_open_probe_lease sha256_hex (exec_all s1 cs) t' l' cap')
  = (dt_us t + l <=? dt_us t').
Proof.
  intros Hs [Ht [Hl Hcap]] [Ht' [Hl' Hcap']] Hgrant Hcs Hno. simpl in *.
  pose proof (lease_outcome s t l cap Hs Ht Hl Hcap) as Ho. rewrite Hgrant in Ho.
  assert (Hw1 : wf s1).
  { pose proof (wf_exec s (CallLease t l cap) Hs ltac:(done)) as H.
    unfold exec in H. simpl in H. by rewrite Hgrant in H. }
  destruct (take_lease (abs s) (dt_us t) l) as [ph|] eqn:Htake; [| done].
  assert (Hph : exists n, ph = PHalfOpen n (Some (dt_us t + l))).
  { unfold take_lease in Htake. destruct (tick (abs s) (dt_us t)) as [| |n [x|]]; try done;
      [destruct (_ <? _); [done |] |]; injection Htake as <-; eauto. }
  destruct Hph as [n ->].
  assert (Hw2 : wf (exec_all s1 cs)) by (by apply wf_exec_all).
  pose proof (lease_outcome (exec_all s1 cs) t' l' cap' Hw2 Ht' Hl' Hcap') as Ho'.
  rewrite abs_exec_all, Ho, lease_held_run in Ho' by done.
  unfold take_lease in Ho'. simpl in Ho'.
  destruct (dt_us t' <? dt_us t + l) eqn:E; bool_simpl;
    destruct (apply_half_open_probe_lease sha256_hex (exec_all s1 cs) t' l' cap'); try done;
    simpl; symmetry; [apply Z.leb_gt | apply Z.leb_le]; lia.
Qed.
End Calls.
End BreakerRefinement.

Module BreakerExamples.
Import BreakerSpec BreakerRefinement.

Definition digest0 (_ : string) : string := of_chars (repeat "0"%char 64).
Definition at_s (s : Z) : datetime := Datetime (1700000000000000 + 1000000 * s) true.
Definition probe_cap : string := "probe-capability-0001".

Lemma digest0_ok b : is_digest (digest0 b).
Proof. split; reflexivity. Qed.

Lemma default_policy_ok : policy_ok default_policy.
Proof. split; discriminate. Qed.

Definition fresh : ProviderReliabilityState :=
  Build_ProviderReliabilityState "shopify" "US" (at_s 0) CLOSED 0 None None None None None 0
    None None None.

Lemma fresh_eq : closed_reliability_state " shopify" "us " (at_s 0) = Ok fresh.
Proof. vm_compute. reflexivity. Qed.

Lemma fresh_wf : wf fresh.
Proof. apply (post_init_wf _ _ fresh_eq). Qed.

Definition two_failures : list (ConnectorFailureKind * datetime) :=
  [(TIMEOUT, at_s 1); (RATE_LIMIT, at_s 2); (UNKNOWN, at_s 3)].

(** Closed with two failures counted: one more opens it. *)
Definition worn : ProviderReliabilityState :=
  exec_all digest0 default_policy fresh (failures_of two_failures).

Lemma worn_wf : wf worn.
Proof.
  apply wf_exec_all; [exact digest0_ok | exact fresh_wf |].
  repeat constructor.
Qed.

(** Open since second 4, and half open from second 40. *)
Definition tripped : ProviderReliabilityState :=
  exec digest0 default_policy worn (CallFailure TIMEOUT (at_s 4)).

Lemma tripped_wf : wf tripped.
Proof. apply wf_exec; [exact digest0_ok | exact worn_wf | by split]. Qed.

Example breaker_refines_spec_witness :
  let c := CallFailure TIMEOUT (at_s 4) in
  wf (exec digest0 default_policy worn c)
  /\ abs (exec digest0 default_policy worn c) = spec_step default_policy (abs worn) c
  /\ is_ok (do_call digest0 default_policy worn c) = true
  /\ permitted worn (call_time c) = passes (abs worn) (dt_us (call_time c)).
Proof.
  apply (breaker_refines_spec digest0 digest0_ok default_policy worn (CallFailure TIMEOUT (at_s 4)));
    [exact worn_wf | by split].
Defined.

Example opens_at_threshold_witness :
  permitted (exec_all digest0 default_policy fresh (failures_of two_failures)) (at_s 33) = true
  /\ permitted (exec digest0 default_policy
       (exec_all digest0 default_policy fresh (failures_of two_failures))
       (CallFailure TIMEOUT (at_s 4))) (at_s 33)
     = (dt_us (at_s 4) + window default_policy <=? dt_us (at_s 33)).
Proof.
  apply (opens_at_threshold digest0 digest0_ok default_policy
           " shopify" "us " (at_s 0) fresh two_failures TIMEOUT (at_s 4) (at_s 33));
    [exact fresh_eq | repeat constructor | reflexivity ..].
Defined.

Lemma worn_counted : row_counted default_policy worn.
Proof. vm_compute. split; [discriminate | reflexivity]. Qed.

Lemma tripped_open : state (exec digest0 default_policy worn (CallFailure TIMEOUT (at_s 4))) = OPEN.
Proof. vm_compute. reflexivity. Qed.

Example open_window_blocks_witness :
  permitted (exec_all digest0 default_policy
               (exec digest0 default_policy worn (CallFailure TIMEOUT (at_s 4)))
               [CallSuccess (at_s 5); CallLease (at_s 6) (seconds 30) probe_cap]) (at_s 33)
  = false.
Proof.
  refine (open_window_blocks digest0 digest0_ok default_policy default_policy_ok worn TIMEOUT
           (at_s 4) [CallSuccess (at_s 5); CallLease (at_s 6) (seconds 30) probe_cap] (at_s 33)
           worn_wf worn_counted eq_refl eq_refl eq_refl tripped_open _ _ _).
  - repeat constructor; vm_compute; discriminate.
  - repeat constructor; vm_compute; discriminate.
  - split; [discriminate | reflexivity].
Defined.

Definition granted : ProviderReliabilityState :=
  exec digest0 default_policy tripped (CallLease (at_s 40) (seconds 30) probe_cap).

Lemma granted_eq :
  apply_half_open_probe_lease digest0 tripped (at_s 40) (seconds 30) probe_cap = Ok granted.
Proof. vm_compute. reflexivity. Qed.

Example half_open_single_probe_witness :
  is_ok (apply_half_open_probe_lease digest0
    (exec_all digest0 default_policy granted
       [CallPermission AVAILABLE (Build_KillSwitch false None) (at_s 45);
        CallFailure QUOTA (at_s 46)]) (at_s 50) (seconds 30) "another-capability")
  = (dt_us (at_s 40) + seconds 30 <=? dt_us (at_s 50)).
Proof.
  refine (half_open_single_probe digest0 digest0_ok default_policy tripped (at_s 40) (seconds 30)
           probe_cap granted
           [CallPermission AVAILABLE (Build_KillSwitch false None) (at_s 45);
            CallFailure QUOTA (at_s 46)] (at_s 50) (seconds 30) "another-capability"
           tripped_wf _ _ granted_eq _ _).
  - repeat split; vm_compute; discriminate.
  - repeat split; vm_compute; discriminate.
  - repeat constructor.
  - repeat constructor.
Defined.

End BreakerExamples.
