(* ===== verification/Health.v ===== *)
(** The research-provider health report of [app/research/reliability_state.py]:
    one row per provider, built from authoritative facts, and its aggregate.
    The rows validate themselves as they are built. *)

From S2P Require Import Prelude PyStr Clock Connector Breaker.
Import Connector Breaker.
#[local] Open Scope Z_scope.

Module Health.

Definition _operationally_available (operational_status : string) (kill_switch_engaged : bool)
    (breaker_state : string) (test_fixture : bool) : bool :=
  String.eqb operational_status (operational_status_value AVAILABLE)
  && negb kill_switch_engaged
  && String.eqb breaker_state (breaker_state_value CLOSED)
  && negb test_fixture.

Definition _merchant_available := _operationally_available.

Definition _evidence_backed_healthy (operationally_available : bool)
    (last_success : option datetime) : bool :=
  operationally_available && is_some last_success.

Record ResearchProviderHealth := {
  h_provider_id : string;
  h_market : string;
  h_operational_status : string;
  h_kill_switch_engaged : bool;
  h_breaker_state : string;
  h_consecutive_failure_count : Z;
  h_last_failure_category : option string;
  h_last_success_at : option datetime;
  routing_present : bool;
  certification_present : bool;
  certified : bool;
  h_test_fixture : bool;
  operationally_available : bool;
  healthy : bool;
  merchant_available : bool;
  live : bool;
  live_block_reasons : list string;
  breaker_revision : Z
}.

Definition in_reasons (r : string) (h : ResearchProviderHealth) : bool :=
  existsb (String.eqb r) (live_block_reasons h).

(** [__post_init__]. *)
Definition health_post_init (h : ResearchProviderHealth) : result rel_exn ResearchProviderHealth :=
  let available := _merchant_available (h_operational_status h) (h_kill_switch_engaged h)
                     (h_breaker_state h) (h_test_fixture h) in
  raise! RelValueError "operational availability must follow status, kill switch, and breaker"
    when negb (Bool.eqb (operationally_available h) available) in
  raise! RelValueError "merchant availability follows the serving contract"
    when negb (Bool.eqb (merchant_available h) available) in
  raise! RelValueError "healthy requires eligibility and a recorded successful attempt"
    when negb (Bool.eqb (healthy h) (_evidence_backed_healthy available (h_last_success_at h))) in
  raise! RelValueError "this reliability slice cannot claim a live provider" when live h in
  raise! RelValueError "certified mirrors certification presence and nothing else"
    when negb (Bool.eqb (certified h) (certification_present h)) in
  raise! RelValueError "live execution stays not operational"
    when negb (in_reasons "live_execution_not_operational" h) in
  raise! RelValueError "absent routing must keep live execution blocked"
    when negb (routing_present h) && negb (in_reasons "routing_absent" h) in
  Ok h.

Definition build_research_provider_health (provider market : string)
    (operational_status : ConnectorOperationalStatus) (kill_switch_engaged : bool)
    (b : ProviderReliabilityState) (routing certification fixture : bool)
    : result rel_exn ResearchProviderHealth :=
  let available := _operationally_available (operational_status_value operational_status)
                     kill_switch_engaged (breaker_state_value (state b)) fixture in
  let reasons :=
    ["live_execution_not_operational"]
    ++ (if negb routing then ["routing_absent"] else [])
    ++ (if negb available then ["merchant_unavailable"] else []) in
  health_post_init
    {| h_provider_id := provider; h_market := market;
       h_operational_status := operational_status_value operational_status;
       h_kill_switch_engaged := kill_switch_engaged;
       h_breaker_state := breaker_state_value (state b);
       h_consecutive_failure_count := consecutive_failure_count b;
       h_last_failure_category := option_map failure_kind_value (last_failure_category b);
       h_last_success_at := last_success_at b;
       routing_present := routing; certification_present := certification;
       certified := certification; h_test_fixture := fixture;
       operationally_available := available;
       healthy := _evidence_backed_healthy available (last_success_at b);
       merchant_available := available; live := false;
       live_block_reasons := reasons; breaker_revision := revision b |}.

Record ResearchProviderHealthReport := {
  rows : list ResearchProviderHealth;
  report_merchant_available : bool;
  report_live : bool;
  live_evidence : bool
}.

Definition report_post_init (r : ResearchProviderHealthReport)
    : result rel_exn ResearchProviderHealthReport :=
  raise! RelValueError "aggregated research health must not claim live evidence"
    when report_live r || live_evidence r in
  raise! RelValueError "aggregate merchant availability must match the rows"
    when negb (Bool.eqb (report_merchant_available r) (existsb merchant_available (rows r))) in
  Ok r.

Definition aggregate_research_provider_health (hs : list ResearchProviderHealth)
    : result rel_exn ResearchProviderHealthReport :=
  report_post_init
    {| rows := hs; report_merchant_available := existsb merchant_available hs;
       report_live := false; live_evidence := false |}.

(** ** What a row says *)

Lemma available_iff status ks b fixture :
  _operationally_available (operational_status_value status) ks (breaker_state_value (state b)) fixture
  = true <-> status = AVAILABLE /\ ks = false /\ state b = CLOSED /\ fixture = false.
Proof.
  unfold _operationally_available. rewrite !andb_true_iff, !negb_true_iff, !String.eqb_eq. split.
  - intros [[[H1%operational_status_value_inj H2] H3%breaker_state_value_inj] H4]. done.
  - by intros (-> & -> & -> & ->).
Qed.

(** Building a row never raises; the row is the one the facts determine. *)
Lemma build_health_ok p m status ks b routing cert fixture :
  exists h, build_research_provider_health p m status ks b routing cert fixture = Ok h
    /\ merchant_available h
       = _operationally_available (operational_status_value status) ks
           (breaker_state_value (state b)) fixture
    /\ healthy h = merchant_available h && is_some (last_success_at b)
    /\ live h = false /\ certified h = cert
    /\ live_block_reasons h
       = ["live_execution_not_operational"] ++ (if routing then [] else ["routing_absent"])
         ++ (if merchant_available h then [] else ["merchant_unavailable"]).
Proof.
  unfold build_research_provider_health, health_post_init, _merchant_available. cbv zeta.
  cbn [operationally_available merchant_available healthy live certified certification_present
       routing_present h_operational_status h_kill_switch_engaged h_breaker_state
       h_test_fixture h_last_success_at].
  rewrite !eqb_reflx. cbn [negb guard_raise rbind in_reasons live_block_reasons existsb app].
  unfold in_reasons. cbn [live_block_reasons existsb app String.eqb].
  destruct routing; (eexists; split; [reflexivity |]);
    simpl; by destruct (_operationally_available _ _ _ _).
Qed.

(** A healthy row is backed by evidence. The row the report builds says
    healthy exactly when the provider's status is AVAILABLE, its kill switch is
    off, its breaker is closed, it is not a test fixture, and a successful
    attempt has been recorded; certification and routing never make it
    healthy, and no row is ever live. *)
Theorem healthy_iff p m status ks b routing cert fixture :
  exists h, build_research_provider_health p m status ks b routing cert fixture = Ok h
    /\ (healthy h = true <->
         status = AVAILABLE /\ ks = false /\ state b = CLOSED /\ fixture = false
         /\ is_Some (last_success_at b))
    /\ live h = false /\ "live_execution_not_operational"%string ∈ live_block_reasons h.
Proof.
  destruct (build_health_ok p m status ks b routing cert fixture)
    as (h & Hh & Hm & Hhealthy & Hl & _ & Hr).
  exists h. split; [done |]. split; [| split; [done | rewrite Hr; set_solver]].
  rewrite Hhealthy, andb_true_iff, Hm, available_iff.
  destruct (last_success_at b); unfold is_Some; simpl; naive_solver.
Qed.

End Health.
