(* ===== verification/PyState.v ===== *)
(** Python dictionaries and methods that read and change an object's state.

    A [dict] with text keys is its items in insertion order: assigning to a
    present key keeps its place, popping a key and assigning it again moves it
    to the end. A method is an [act]: it returns or raises, and leaves a state
    either way. *)

From S2P Require Import Prelude.
#[local] Open Scope Z_scope.

(** ** [dict] *)

Definition dict (V : Type) : Type := list (string * V).

Section Dict.
Context {V : Type}.
Implicit Types d : dict V.

Definition has_key (k : string) (kv : string * V) : bool := String.eqb (fst kv) k.

(** [d.get(k)], [d[k] = v], [d.pop(k, None)]. *)
Definition d_get (k : string) d : option V := snd <$> List.find (has_key k) d.
Definition d_set (k : string) (v : V) d : dict V :=
  if existsb (has_key k) d then map (fun kv => if has_key k kv then (k, v) else kv) d
  else d ++ [(k, v)].
Definition d_pop (k : string) d : dict V := List.filter (fun kv => negb (has_key k kv)) d.

Definition keys_ok d : Prop := NoDup (map fst d).

Lemma has_key_iff k kv : has_key k kv = true <-> fst kv = k.
Proof. apply String.eqb_eq. Qed.

Lemma has_key_self k (v : V) : has_key k (k, v) = true.
Proof. apply String.eqb_refl. Qed.

Lemma has_key_ne k k' (v : V) : k' <> k -> has_key k' (k, v) = false.
Proof. intros Hne. apply String.eqb_neq. simpl. congruence. Qed.

Lemma d_get_app k d d' :
  d_get k (d ++ d') = match d_get k d with Some v => Some v | None => d_get k d' end.
Proof.
  unfold d_get. induction d as [|kv d IH]; simpl; [done |]. by destruct (has_key k kv).
Qed.

Lemma d_get_none k d : d_get k d = None <-> existsb (has_key k) d = false.
Proof.
  unfold d_get. induction d as [|kv d IH]; simpl; [done |]. by destruct (has_key k kv).
Qed.

Lemma d_get_set_eq k v d : d_get k (d_set k v d) = Some v.
Proof.
  unfold d_set. destruct (existsb (has_key k) d) eqn:E.
  - unfold d_get. induction d as [|kv d IH]; simpl in *; [done |].
    destruct (has_key k kv) eqn:Ek; simpl; [by rewrite has_key_self | by rewrite Ek, IH].
  - apply d_get_none in E. rewrite d_get_app, E. unfold d_get. simpl. by rewrite has_key_self.
Qed.

Lemma d_get_set_ne k k' v d : k' <> k -> d_get k' (d_set k v d) = d_get k' d.
Proof.
  intros Hne. unfold d_set. destruct (existsb (has_key k) d).
  - unfold d_get. induction d as [|kv d IH]; simpl; [done |].
    destruct (has_key k kv) eqn:Ek; simpl.
    + apply has_key_iff in Ek. rewrite has_key_ne by done.
      destruct (has_key k' kv) eqn:Ek'; [| done]. apply has_key_iff in Ek'. congruence.
    + by destruct (has_key k' kv).
  - rewrite d_get_app. destruct (d_get k' d); [done |]. unfold d_get. simpl.
    by rewrite has_key_ne.
Qed.

Lemma d_get_pop_eq k d : d_get k (d_pop k d) = None.
Proof.
  unfold d_get, d_pop. induction d as [|kv d IH]; simpl; [done |].
  destruct (has_key k kv) eqn:E; simpl; [done | by rewrite E].
Qed.

Lemma d_get_pop_ne k k' d : k' <> k -> d_get k' (d_pop k d) = d_get k' d.
Proof.
  intros Hne. unfold d_get, d_pop. induction d as [|kv d IH]; simpl; [done |].
  destruct (has_key k kv) eqn:E; simpl; [| by destruct (has_key k' kv)].
  destruct (has_key k' kv) eqn:E'; [| done].
  apply has_key_iff in E, E'. congruence.
Qed.

Lemma d_keys_set k v d :
  map fst (d_set k v d) = if existsb (has_key k) d then map fst d else map fst d ++ [k].
Proof.
  unfold d_set. destruct (existsb (has_key k) d); [| by rewrite map_app].
  rewrite map_map. apply map_ext. intros kv. destruct (has_key k kv) eqn:E; [| done].
  apply has_key_iff in E. done.
Qed.

Lemma keys_ok_set k v d : keys_ok d -> keys_ok (d_set k v d).
Proof.
  intros Hd. unfold keys_ok. rewrite d_keys_set. destruct (existsb (has_key k) d) eqn:E; [done |].
  apply NoDup_snoc; [done |]. intros (kv & -> & Hin)%list_elem_of_fmap.
  apply not_true_iff_false in E. apply E, existsb_exists. exists kv.
  split; [by apply list_elem_of_In | by apply has_key_iff].
Qed.

Lemma keys_ok_filter (f : string * V -> bool) d : keys_ok d -> keys_ok (List.filter f d).
Proof. apply NoDup_map_filter_all. Qed.

Lemma keys_ok_pop k d : keys_ok d -> keys_ok (d_pop k d).
Proof. apply keys_ok_filter. Qed.

Lemma d_get_elem k v d : d_get k d = Some v -> (k, v) ∈ d.
Proof.
  unfold d_get. destruct (List.find _ d) as [[k' v']|] eqn:E; [| done]. simpl. intros [= ->].
  apply find_some in E as [Hin Hk%has_key_iff]. simpl in Hk. subst. by apply list_elem_of_In.
Qed.

Lemma elem_d_get k v d : keys_ok d -> (k, v) ∈ d -> d_get k d = Some v.
Proof.
  intros Hd Hin. unfold d_get. destruct (List.find (has_key k) d) as [kv|] eqn:E.
  - apply find_some in E as [Hkv Ek%has_key_iff]. apply list_elem_of_In in Hkv.
    by rewrite (NoDup_map_inj fst d kv (k, v) Hd Hkv Hin Ek).
  - apply list_elem_of_In in Hin. pose proof (find_none _ _ E _ Hin) as Hk.
    by rewrite has_key_self in Hk.
Qed.
End Dict.

(** ** Methods *)

Definition act (S E A : Type) : Type := S -> result E A * S.

Section Act.
Context {S E : Type}.

Definition a_ret {A} (a : A) : act S E A := fun s => (Ok a, s).
Definition a_err {A} (e : E) : act S E A := fun s => (Err e, s).
Definition a_lift {A} (r : result E A) : act S E A := fun s => (r, s).
Definition a_get : act S E S := fun s => (Ok s, s).
Definition a_mod (f : S -> S) : act S E unit := fun s => (Ok tt, f s).
Definition a_bind {A B} (m : act S E A) (k : A -> act S E B) : act S E B :=
  fun s => match m s with
           | (Ok a, s') => k a s'
           | (Err e, s') => (Err e, s')
           end.
Definition a_guard (c : bool) (e : E) : act S E unit := a_lift (guard_raise c e).
End Act.

Notation "'do!' x := m 'in' k" := (a_bind m (fun x => k))
  (at level 10, x pattern, m at level 100, k at level 200) : py_scope.
Notation "'refuse!' e 'when' c 'in' k" := (a_bind (a_guard c e) (fun _ => k))
  (at level 10, e at level 100, c at level 100, k at level 200) : py_scope.

(** [act_run]: a method call in the goal is run up to its next decision. *)
Ltac act_run := cbv [a_bind a_ret a_err a_lift a_get a_mod a_guard guard_raise rbind].
