(* ===== verification/OpStore.v ===== *)
(** The operational entity store: [app/infrastructure/persistence/operational_store.py]
    over [app/infrastructure/database/models/operational_entity.py].

    A session's view of the [operational_entities] table is its rows in the
    order of their primary keys. The statements run one after another in the
    session; a statement that breaks a unique constraint raises
    [IntegrityError], which [translate_db_error] turns into
    [PersistenceConflictError]. [payload] is the JSON column: the entity
    stores are generic in it, and the codec is an argument of the
    operations. *)

From S2P Require Import Prelude PyStr.
#[local] Open Scope Z_scope.

Inductive store_exn :=
| PersistenceConflictError
| DecodeError.

(** [class OperationalEntityModel], the columns the store reads or writes. *)
Record op_row (P : Type) := OpRow {
  op_id : Z;
  op_store : string;
  op_entity : string;
  op_secondary : option string;
  op_owner : option string;
  op_payload : P;
  op_seq : Z
}.
Arguments OpRow {P}.
Arguments op_id {P}.
Arguments op_store {P}.
Arguments op_entity {P}.
Arguments op_secondary {P}.
Arguments op_owner {P}.
Arguments op_payload {P}.
Arguments op_seq {P}.

(** The table and its autoincrement counter. *)
Record op_table (P : Type) := OpTable { op_rows : list (op_row P); op_next_id : Z }.
Arguments OpTable {P}.
Arguments op_rows {P}.
Arguments op_next_id {P}.

Module OperationalStore.

Section Store.
Context {P T : Type} (encode_entity : T -> P) (decode_entity : P -> option T).
Implicit Types (t : op_table P) (r : op_row P).

Definition opt_eqb (a b : option string) : bool :=
  match a, b with
  | Some x, Some y => String.eqb x y
  | _, _ => false
  end.

Definition is_entity (store entity_id : string) r : bool :=
  String.eqb (op_store r) store && String.eqb (op_entity r) entity_id.

(** [_get_row]. *)
Definition _get_row (store entity_id : string) t : option (op_row P) :=
  List.find (is_entity store entity_id) (op_rows t).

(** [func.max(seq)] over the store, [None] when it is empty. *)
Definition max_seq (store : string) t : option Z :=
  foldl (fun m r =>
    if String.eqb (op_store r) store
    then Some (match m with Some x => Z.max x (op_seq r) | None => op_seq r end) else m)
    None (op_rows t).

(** [int(current or 0) + 1]. *)
Definition _next_seq (store : string) t : Z := default 0 (max_seq store t) + 1.

(** [uq_operational_store_entity] and [uq_operational_store_secondary]; a
    [NULL] secondary key is never a duplicate. *)
Definition violates (r1 r2 : op_row P) : bool :=
  String.eqb (op_store r1) (op_store r2)
  && (String.eqb (op_entity r1) (op_entity r2)
      || opt_eqb (op_secondary r1) (op_secondary r2)).

(** [session.add(row); session.flush()]. *)
Definition insert_row (store entity_id : string) (secondary owner : option string)
    (payload : P) (seq : Z) t : result store_exn unit * op_table P :=
  let r := OpRow (op_next_id t) store entity_id secondary owner payload seq in
  if existsb (violates r) (op_rows t) then (Err PersistenceConflictError, t)
  else (Ok tt, OpTable (op_rows t ++ [r]) (op_next_id t + 1)).

Definition upsert (store entity_id : string) (entity : T) (secondary owner : option string) t
    : result store_exn T * op_table P :=
  let payload := encode_entity entity in
  match _get_row store entity_id t with
  | None =>
      match insert_row store entity_id secondary owner payload (_next_seq store t) t with
      | (Ok _, t') => (Ok entity, t')
      | (Err e, t') => (Err e, t')
      end
  | Some existing =>
      let updated := OpRow (op_id existing) store entity_id secondary owner payload
                       (op_seq existing) in
      if existsb (fun r => negb (op_id r =? op_id existing) && violates updated r) (op_rows t)
      then (Err PersistenceConflictError, t)
      else (Ok entity,
            OpTable (map (fun r => if op_id r =? op_id existing then updated else r) (op_rows t))
              (op_next_id t))
  end.

Definition decoded (r : op_row P) : result store_exn T :=
  match decode_entity (op_payload r) with Some e => Ok e | None => Err DecodeError end.

Definition get (store entity_id : string) t : result store_exn (option T) :=
  match _get_row store entity_id t with
  | None => Ok None
  | Some r => let! e := decoded r in Ok (Some e)
  end.

Definition get_versioned (store entity_id : string) t
    : result store_exn (option (T * Z * option string)) :=
  match _get_row store entity_id t with
  | None => Ok None
  | Some r => let! e := decoded r in Ok (Some (e, op_seq r, op_owner r))
  end.

Definition insert_versioned (store entity_id : string) (entity : T) (version : Z)
    (owner : option string) t : result store_exn T * op_table P :=
  match insert_row store entity_id None owner (encode_entity entity) version t with
  | (Ok _, t') => (Ok entity, t')
  | (Err e, t') => (Err e, t')
  end.

(** [UPDATE ... WHERE store = .. AND entity_id = .. AND seq = ..]: the row
    count, and the secondary key is left as it is. *)
Definition at_version (store entity_id : string) (version : Z) r : bool :=
  is_entity store entity_id r && (op_seq r =? version).

Definition compare_and_swap (store entity_id : string) (entity : T)
    (expected_version new_version : Z) (owner : option string) t
    : result store_exn bool * op_table P :=
  let hit := at_version store entity_id expected_version in
  (Ok (existsb hit (op_rows t)),
   OpTable
     (map (fun r => if hit r
                    then OpRow (op_id r) (op_store r) (op_entity r) (op_secondary r) owner
                           (encode_entity entity) new_version
                    else r) (op_rows t))
     (op_next_id t)).

Definition remove (hit : op_row P -> bool) t : bool * op_table P :=
  (existsb hit (op_rows t),
   OpTable (List.filter (fun r => negb (hit r)) (op_rows t)) (op_next_id t)).

Definition delete_versioned (store entity_id : string) (expected_version : Z) t
    : bool * op_table P :=
  remove (at_version store entity_id expected_version) t.

Definition get_by_secondary (store secondary : string) t : result store_exn (option T) :=
  match List.find (fun r => String.eqb (op_store r) store
                            && opt_eqb (op_secondary r) (Some secondary)) (op_rows t) with
  | None => Ok None
  | Some r => let! e := decoded r in Ok (Some e)
  end.

(** [ORDER BY seq, id], ascending or with the sequence descending. *)
Definition seq_order (reverse : bool) (a b : Z * Z) : bool :=
  if fst a =? fst b then snd a <? snd b
  else if reverse then fst b <? fst a else fst a <? fst b.

Fixpoint decode_all (rs : list (op_row P)) : result store_exn (list T) :=
  match rs with
  | [] => Ok []
  | r :: rest => let! e := decoded r in let! es := decode_all rest in Ok (e :: es)
  end.

Definition take_limit {A} (limit : option Z) (l : list A) : list A :=
  match limit with Some n => firstn (Z.to_nat (Z.max 0 n)) l | None => l end.

Definition list_ (store : string) (owner : option string) (limit : option Z) (reverse : bool)
    (predicate : option (T -> bool)) t : result store_exn (list T) :=
  let rows :=
    List.filter (fun r => String.eqb (op_store r) store
      && match owner with Some o => opt_eqb (op_owner r) (Some o) | None => true end)
      (op_rows t) in
  let ordered := sorted (seq_order reverse) (fun r => (op_seq r, op_id r)) rows in
  match predicate with
  | None => decode_all (take_limit limit ordered)
  | Some p => let! items := decode_all ordered in Ok (take_limit limit (List.filter p items))
  end.

Definition list_newest_inserted (store : string) (limit : Z) t : result store_exn (list T) :=
  decode_all (take_limit (Some limit)
    (sorted (fun a b => b <? a) op_id
       (List.filter (fun r => String.eqb (op_store r) store) (op_rows t)))).

Definition insert_immutable (store entity_id : string) (entity : T)
    (secondary owner : option string) (version : Z) t : result store_exn T * op_table P :=
  match insert_row store entity_id secondary owner (encode_entity entity) version t with
  | (Ok _, t') => (Ok entity, t')
  | (Err e, t') => (Err e, t')
  end.

Definition delete (store entity_id : string) t : bool * op_table P :=
  remove (is_entity store entity_id) t.

Definition clear_store (store : string) t : op_table P :=
  (remove (fun r => String.eqb (op_store r) store) t).2.

Definition clear_stores (stores : list string) t : op_table P :=
  foldl (fun t s => clear_store s t) t stores.

Definition count (store : string) (owner : option string) t : Z :=
  Z.of_nat (length (List.filter (fun r => String.eqb (op_store r) store
    && match owner with Some o => opt_eqb (op_owner r) (Some o) | None => true end)
    (op_rows t))).
End Store.

Lemma decode_all_spec {P T} (decode_entity : P -> option T) rs es :
  decode_all decode_entity rs = Ok es ->
  Forall2 (fun r e => decode_entity (op_payload r) = Some e) rs es.
Proof.
  revert es. induction rs as [|r rs IH]; simpl; intros es E; [injection E as <-; constructor |].
  apply rbind_ok_inv in E as (e & Hd & E). apply rbind_ok_inv in E as (es' & Hes & [= <-]).
  constructor; [| by apply IH]. unfold decoded in Hd. destruct (decode_entity _); congruence.
Qed.

(** ** The table invariant

    Primary keys grow with insertion, and the two unique constraints hold. *)
Section Invariant.
Context {P : Type}.
Implicit Types (t : op_table P) (r : op_row P) (rs : list (op_row P)).

Record table_ok t : Prop := {
  ok_sorted : StronglySorted (fun a b => op_id a < op_id b) (op_rows t);
  ok_next : Forall (fun r => op_id r < op_next_id t) (op_rows t);
  ok_unique : forall r1 r2, r1 ∈ op_rows t -> r2 ∈ op_rows t ->
    op_id r1 <> op_id r2 -> violates r1 r2 = false
}.

Lemma table_ok_empty : table_ok (OpTable [] 1).
Proof. split; simpl; [constructor | constructor | intros r1 r2 H; by apply elem_of_nil in H]. Qed.

Lemma opt_eqb_sym a b : opt_eqb a b = opt_eqb b a.
Proof. destruct a, b; simpl; try done. apply String.eqb_sym. Qed.

Lemma violates_sym r1 r2 : violates r1 r2 = violates r2 r1.
Proof.
  unfold violates. rewrite (String.eqb_sym (op_store r1)), (String.eqb_sym (op_entity r1)).
  by rewrite (opt_eqb_sym (op_secondary r1)).
Qed.

Lemma is_entity_iff s e r : is_entity s e r = true <-> op_store r = s /\ op_entity r = e.
Proof. unfold is_entity. by rewrite andb_true_iff, !String.eqb_eq. Qed.

(** A primary key names one row. *)
Lemma same_id rs r1 r2 :
  StronglySorted (fun a b : op_row P => op_id a < op_id b) rs ->
  r1 ∈ rs -> r2 ∈ rs -> op_id r1 = op_id r2 -> r1 = r2.
Proof.
  induction 1 as [|x rs _ IH Hx]; intros H1 H2 E; [by apply elem_of_nil in H1 |].
  rewrite Forall_forall in Hx.
  apply elem_of_cons in H1 as [-> | H1], H2 as [-> | H2]; try done.
  - specialize (Hx _ H2). lia.
  - specialize (Hx _ H1). lia.
  - auto.
Qed.

(** [(store, entity_id)] names one row too. *)
Lemma same_entity t s e r1 r2 :
  table_ok t -> r1 ∈ op_rows t -> r2 ∈ op_rows t ->
  is_entity s e r1 = true -> is_entity s e r2 = true -> r1 = r2.
Proof.
  intros Ht H1 H2 [Hs1 He1]%is_entity_iff [Hs2 He2]%is_entity_iff.
  destruct (decide (op_id r1 = op_id r2)) as [E|E].
  - by eapply same_id; [apply Ht | ..].
  - pose proof (ok_unique t Ht r1 r2 H1 H2 E) as Hv. unfold violates in Hv.
    by rewrite Hs1, He1, Hs2, He2, !String.eqb_refl in Hv.
Qed.

Lemma get_row_some t s e r :
  table_ok t ->
  _get_row s e t = Some r <-> r ∈ op_rows t /\ is_entity s e r = true.
Proof.
  intros Ht. unfold _get_row. split.
  - intros [H1 H2]%find_some. by rewrite list_elem_of_In.
  - intros [Hin He]. destruct (List.find (is_entity s e) (op_rows t)) as [r'|] eqn:E.
    + apply find_some in E as [Hin' He']. rewrite <- list_elem_of_In in Hin'.
      f_equal. by eapply same_entity.
    + apply list_elem_of_In in Hin. by rewrite (find_none _ _ E _ Hin) in He.
Qed.

Lemma get_row_none t s e :
  _get_row s e t = None <-> forall r, r ∈ op_rows t -> is_entity s e r = false.
Proof.
  unfold _get_row. split.
  - intros E r Hr%list_elem_of_In. by apply (find_none _ _ E).
  - intros H. destruct (List.find _ _) as [r|] eqn:E; [| done].
    apply find_some in E as [Hin He]. rewrite <- list_elem_of_In in Hin.
    by rewrite (H r Hin) in He.
Qed.

(** The entities of one store have distinct ids. *)
Lemma store_entities_nodup t s :
  table_ok t -> NoDup (map op_entity (List.filter (fun r => String.eqb (op_store r) s) (op_rows t))).
Proof.
  intros [Hs _ Hu]. revert Hs Hu. generalize (op_rows t). clear t. intros rs.
  induction 1 as [|x rs _ IH Hx]; intros Hu; simpl; [constructor |].
  assert (NoDup (map op_entity (List.filter (fun r => String.eqb (op_store r) s) rs))) as Hnd
    by (apply IH; intros; apply Hu; set_solver).
  destruct (String.eqb_spec (op_store x) s) as [Es | _]; [| done]. simpl.
  apply NoDup_cons. split; [| done]. intros (y & Ey & Hy)%list_elem_of_fmap.
  apply list_elem_of_In, filter_In in Hy as [Hy%list_elem_of_In Hys%String.eqb_eq].
  rewrite Forall_forall in Hx. pose proof (Hx y Hy) as Hlt.
  specialize (Hu x y ltac:(set_solver) ltac:(set_solver) ltac:(lia)). unfold violates in Hu.
  by rewrite Es, Hys, Ey, !String.eqb_refl in Hu.
Qed.

Lemma get_row_ext t t' s e :
  table_ok t -> table_ok t' ->
  (forall r, is_entity s e r = true -> r ∈ op_rows t <-> r ∈ op_rows t') ->
  _get_row s e t = _get_row s e t'.
Proof.
  intros Ht Ht' H. destruct (_get_row s e t) as [r|] eqn:E.
  - apply get_row_some in E as [Hin He]; [| done]. symmetry. apply get_row_some; [done |].
    split; [by apply H | done].
  - symmetry. apply get_row_none. intros r Hr.
    destruct (is_entity s e r) eqn:He; [| done].
    rewrite <- He. apply (proj1 (get_row_none t s e) E). by apply H.
Qed.

(** ** Insertion *)

Lemma insert_row_conflict t s e sec own p v r :
  _get_row s e t = Some r ->
  insert_row s e sec own p v t = (Err PersistenceConflictError, t).
Proof.
  intros [Hin [Hs He]%is_entity_iff]%find_some. unfold insert_row.
  destruct (existsb _ _) eqn:E; [done |]. exfalso.
  apply not_true_iff_false in E. apply E, existsb_exists. exists r. split; [done |].
  unfold violates. simpl. by rewrite Hs, He, !String.eqb_refl.
Qed.

(** An insertion either conflicts and changes nothing, or appends the row. *)
Lemma insert_row_ok t s e sec own p v :
  table_ok t ->
  insert_row s e sec own p v t = (Err PersistenceConflictError, t)
  \/ exists r t', insert_row s e sec own p v t = (Ok tt, t')
     /\ table_ok t' /\ op_rows t' = op_rows t ++ [r]
     /\ r = OpRow (op_next_id t) s e sec own p v /\ _get_row s e t = None.
Proof.
  intros Ht. unfold insert_row. destruct (existsb _ _) eqn:E; [by left | right].
  eexists _, _. split; [done |]. split; [| split; [done | split; [done |]]].
  - assert (Hnew : forall r', r' ∈ op_rows t ->
      violates (OpRow (op_next_id t) s e sec own p v) r' = false).
    { intros r' Hr'%list_elem_of_In. apply not_true_iff_false. intros Hv.
      apply not_true_iff_false in E. apply E, existsb_exists. eauto. }
    destruct Ht as [Hs Hn Hu]. split; simpl.
    + clear -Hs Hn. induction Hs as [|x rs Hs IH Hx]; simpl; [repeat constructor |].
      apply Forall_cons in Hn as [Hxn Hn]. constructor; [by apply IH |].
      apply Forall_app; split; [done | by repeat constructor].
    + apply Forall_app; split; [| repeat constructor; simpl; lia].
      eapply Forall_impl; [exact Hn |]. simpl. lia.
    + intros r1 r2 [H1 | ->%list_elem_of_singleton]%elem_of_app
        [H2 | ->%list_elem_of_singleton]%elem_of_app Hne; auto.
      * rewrite violates_sym. auto.
      * done.
  - apply get_row_none. intros r' Hr'. destruct (is_entity s e r') eqn:He; [| done].
    apply is_entity_iff in He as [Hs He]. exfalso.
    apply not_true_iff_false in E. apply E, existsb_exists. exists r'.
    split; [by apply list_elem_of_In |]. unfold violates. simpl.
    by rewrite Hs, He, !String.eqb_refl.
Qed.

(** A fresh entity without a secondary key is always inserted. *)
Lemma insert_fresh t s e own p v :
  table_ok t -> _get_row s e t = None ->
  exists t' r, insert_row s e None own p v t = (Ok tt, t') /\ table_ok t'
    /\ _get_row s e t' = Some r /\ op_payload r = p /\ op_seq r = v /\ op_owner r = own
    /\ (forall s' e', (s', e') <> (s, e) -> _get_row s' e' t' = _get_row s' e' t).
Proof.
  intros Ht Hnone.
  destruct (insert_row_ok t s e None own p v Ht) as [Hc | (r & t' & Hi & Ht' & Hrows & Hr & _)].
  - exfalso. unfold insert_row in Hc. destruct (existsb _ _) eqn:E; [| done].
    apply existsb_exists in E as (x & Hin & Hv). unfold violates in Hv. simpl in Hv.
    rewrite orb_false_r in Hv. apply andb_true_iff in Hv as [H1%String.eqb_eq H2%String.eqb_eq].
    apply list_elem_of_In in Hin.
    assert (is_entity s e x = true) as He by (by apply is_entity_iff).
    by rewrite (proj1 (get_row_none t s e) Hnone x Hin) in He.
  - assert (Hself : is_entity s e r = true) by (subst r; by apply is_entity_iff).
    exists t', r. split; [done |]. split; [done |]. split.
    { apply get_row_some; [done |]. rewrite Hrows. set_solver. }
    split; [by subst r |]. split; [by subst r |]. split; [by subst r |].
    intros s' e' Hne. apply get_row_ext; [done | done |]. intros x Hx. rewrite Hrows.
    rewrite elem_of_app, list_elem_of_singleton. split; [| auto].
    intros [? | ->]; [done |]. exfalso.
    apply is_entity_iff in Hself as [<- <-]. apply is_entity_iff in Hx as [<- <-]. done.
Qed.

(** ** Updates and deletions *)

(** What the constraints look at. *)
Definition same_keys (f : op_row P -> op_row P) : Prop :=
  forall r, op_id (f r) = op_id r /\ op_store (f r) = op_store r
            /\ op_entity (f r) = op_entity r /\ op_secondary (f r) = op_secondary r.

Lemma sorted_map_id (f : op_row P -> op_row P) rs :
  (forall r, op_id (f r) = op_id r) ->
  StronglySorted (fun a b => op_id a < op_id b) rs ->
  StronglySorted (fun a b => op_id a < op_id b) (map f rs).
Proof.
  intros Hf. induction 1 as [|x rs _ IH Hx]; simpl; constructor; [done |].
  rewrite Forall_map. eapply Forall_impl; [exact Hx |]. intros y Hy. simpl. by rewrite !Hf.
Qed.

Lemma table_ok_map f t :
  same_keys f -> table_ok t -> table_ok (OpTable (map f (op_rows t)) (op_next_id t)).
Proof.
  intros Hf [Hs Hn Hu]. split; simpl.
  - apply sorted_map_id; [apply Hf | done].
  - rewrite Forall_map. eapply Forall_impl; [exact Hn |]. intros r Hr. simpl.
    by rewrite (proj1 (Hf r)).
  - intros ? ? (r1 & -> & H1)%list_elem_of_fmap (r2 & -> & H2)%list_elem_of_fmap.
    destruct (Hf r1) as (-> & ? & ? & ?), (Hf r2) as (-> & ? & ? & ?).
    intros Hne. unfold violates. specialize (Hu r1 r2 H1 H2 Hne). unfold violates in Hu.
    congruence.
Qed.

Lemma table_ok_filter (keep : op_row P -> bool) t :
  table_ok t -> table_ok (OpTable (List.filter keep (op_rows t)) (op_next_id t)).
Proof.
  intros [Hs Hn Hu]. split; simpl.
  - clear -Hs. induction Hs as [|x rs _ IH Hx]; simpl; [constructor |].
    destruct (keep x); [| done]. constructor; [done |].
    rewrite Forall_forall in Hx |- *. intros y [Hy _]%list_elem_of_In%filter_In.
    apply Hx. by apply list_elem_of_In.
  - rewrite Forall_forall in Hn |- *. intros y [Hy _]%list_elem_of_In%filter_In.
    apply Hn. by apply list_elem_of_In.
  - intros r1 r2 [H1 _]%list_elem_of_In%filter_In [H2 _]%list_elem_of_In%filter_In.
    apply Hu; by apply list_elem_of_In.
Qed.

Lemma remove_ok hit t : table_ok t -> table_ok (remove hit t).2.
Proof. apply table_ok_filter. Qed.

Lemma map_id_off (f : op_row P -> op_row P) rs :
  (forall r, r ∈ rs -> f r = r) -> map f rs = rs.
Proof. induction rs; intros H; simpl; [done |]. rewrite H, IHrs; set_solver. Qed.

Lemma other_entity s e s' e' r :
  (s', e') <> (s, e) -> is_entity s' e' r = true -> is_entity s e r = false.
Proof.
  intros Hne [H1 H2]%is_entity_iff. apply not_true_iff_false.
  intros [H3 H4]%is_entity_iff. congruence.
Qed.

(** A deletion at a version removes that row or, when the row has moved on,
    nothing. *)
Lemma delete_versioned_spec t s e v :
  table_ok t ->
  let t' := (delete_versioned s e v t).2 in
  table_ok t'
  /\ _get_row s e t' = match _get_row s e t with
                       | Some r => if op_seq r =? v then None else Some r
                       | None => None
                       end
  /\ (forall s' e', (s', e') <> (s, e) -> _get_row s' e' t' = _get_row s' e' t).
Proof.
  intros Ht t'. assert (Ht' : table_ok t') by by apply remove_ok.
  assert (Hin : forall x, x ∈ op_rows t' <-> x ∈ op_rows t /\ at_version s e v x = false).
  { intros x. unfold t'. simpl. rewrite !list_elem_of_In, filter_In. by rewrite negb_true_iff. }
  split; [done |]. split.
  - destruct (_get_row s e t) as [r|] eqn:E.
    + apply get_row_some in E as [Hr He]; [| done]. destruct (op_seq r =? v) eqn:Ev.
      * apply get_row_none. intros x [Hx Hv]%Hin. apply not_true_iff_false. intros Hxe.
        rewrite (same_entity t s e x r Ht Hx Hr Hxe He) in Hv. unfold at_version in Hv.
        by rewrite He, Ev in Hv.
      * apply get_row_some; [done |]. split; [| done]. apply Hin. split; [done |].
        unfold at_version. by rewrite He, Ev.
    + apply get_row_none. intros x [Hx _]%Hin. by apply (proj1 (get_row_none t s e) E).
  - intros s' e' Hne. apply get_row_ext; [done | done |]. intros x Hx. rewrite Hin.
    split; [by intros [] |]. intros Hx'. split; [done |]. unfold at_version.
    by rewrite (other_entity s e s' e' x Hne Hx).
Qed.

Section Cas.
Context {T : Type} (encode_entity : T -> P).

(** The row a swap leaves. *)
Definition swapped r (entity : T) (v : Z) (owner : option string) : op_row P :=
  OpRow (op_id r) (op_store r) (op_entity r) (op_secondary r) owner (encode_entity entity) v.

Lemma cas_ok t s e entity ev nv own r :
  table_ok t -> _get_row s e t = Some r -> op_seq r = ev ->
  exists t', compare_and_swap encode_entity s e entity ev nv own t = (Ok true, t')
    /\ table_ok t' /\ _get_row s e t' = Some (swapped r entity nv own)
    /\ (forall s' e', (s', e') <> (s, e) -> _get_row s' e' t' = _get_row s' e' t).
Proof.
  intros Ht Hr Hv. apply get_row_some in Hr as [Hin He]; [| done].
  unfold compare_and_swap. set (hit := at_version s e ev).
  set (f := fun r => if hit r then swapped r entity nv own else r).
  assert (Hhit : hit r = true).
  { unfold hit, at_version. by rewrite He, Hv, Z.eqb_refl. }
  assert (Hent : forall s' e' x, is_entity s' e' (f x) = is_entity s' e' x)
    by (intros; unfold f; by destruct (hit x)).
  assert (Ht' : table_ok (OpTable (map f (op_rows t)) (op_next_id t))).
  { apply table_ok_map; [| done]. intros x. unfold f. by destruct (hit x). }
  exists (OpTable (map f (op_rows t)) (op_next_id t)). split.
  { change (existsb (at_version s e ev)) with (existsb hit). fold hit.
    f_equal. f_equal. apply existsb_exists. exists r. split; [by apply list_elem_of_In | done]. }
  split; [exact Ht' |]. split.
  - apply get_row_some; [exact Ht' |]. simpl.
    assert (swapped r entity nv own = f r) as -> by (unfold f; by rewrite Hhit).
    split; [by apply list_elem_of_fmap_2 | by rewrite Hent].
  - intros s' e' Hne. apply get_row_ext; [exact Ht' | done |]. simpl. intros x Hx.
    pose proof (other_entity s e s' e' x Hne Hx) as Hno.
    assert (Hfx : f x = x) by (unfold f, hit, at_version; by rewrite Hno).
    split.
    + intros (y & Hy & Hyin)%list_elem_of_fmap. subst x. rewrite Hent in Hx.
      pose proof (other_entity s e s' e' y Hne Hx) as Hno'.
      assert (f y = y) as -> by (unfold f, hit, at_version; by rewrite Hno'). done.
    + intros Hxin. rewrite <- Hfx. by apply list_elem_of_fmap_2.
Qed.

Lemma cas_stale t s e entity ev nv own :
  table_ok t -> (forall r, _get_row s e t = Some r -> op_seq r <> ev) ->
  compare_and_swap encode_entity s e entity ev nv own t = (Ok false, t).
Proof.
  intros Ht Hstale. unfold compare_and_swap.
  assert (Hno : forall r, r ∈ op_rows t -> at_version s e ev r = false).
  { intros r Hin. unfold at_version. destruct (is_entity s e r) eqn:He; [| done]. simpl.
    apply Z.eqb_neq, Hstale. by apply get_row_some. }
  f_equal.
  - f_equal. apply not_true_iff_false. intros (r & Hin & Hr)%existsb_exists.
    rewrite Hno in Hr by (by apply list_elem_of_In). done.
  - rewrite map_id_off; [by destruct t |]. intros r Hr. by rewrite Hno.
Qed.
End Cas.
End Invariant.

(** ** All the writes of the store *)
Section Writes.
Context {P T : Type} (encode_entity : T -> P) (decode_entity : P -> option T).
Implicit Types (t : op_table P).

Inductive write :=
| Upsert (store id : string) (entity : T) (secondary owner : option string)
| InsertVersioned (store id : string) (entity : T) (version : Z) (owner : option string)
| CompareAndSwap (store id : string) (entity : T) (expected new : Z) (owner : option string)
| DeleteVersioned (store id : string) (expected : Z)
| InsertImmutable (store id : string) (entity : T) (secondary owner : option string) (version : Z)
| Delete (store id : string)
| ClearStores (stores : list string).

(** Whether the write raised, and the table it leaves. *)
Definition perform (w : write) t : bool * op_table P :=
  match w with
  | Upsert s e x sec own => let '(r, t') := upsert encode_entity s e x sec own t in (is_ok r, t')
  | InsertVersioned s e x v own =>
      let '(r, t') := insert_versioned encode_entity s e x v own t in (is_ok r, t')
  | CompareAndSwap s e x ev nv own =>
      let '(r, t') := compare_and_swap encode_entity s e x ev nv own t in (is_ok r, t')
  | DeleteVersioned s e ev => (true, (delete_versioned s e ev t).2)
  | InsertImmutable s e x sec own v =>
      let '(r, t') := insert_immutable encode_entity s e x sec own v t in (is_ok r, t')
  | Delete s e => (true, (delete s e t).2)
  | ClearStores ss => (true, clear_stores ss t)
  end.

Fixpoint perform_all (ws : list write) t : op_table P :=
  match ws with
  | [] => t
  | w :: rest => perform_all rest (perform w t).2
  end.

(** An update of one row keeps the constraints when it breaks none. *)
Lemma table_ok_update t (r new : op_row P) :
  table_ok t -> r ∈ op_rows t -> op_id new = op_id r ->
  (forall x, x ∈ op_rows t -> op_id x <> op_id r -> violates new x = false) ->
  table_ok (OpTable (map (fun x => if op_id x =? op_id r then new else x) (op_rows t))
              (op_next_id t)).
Proof.
  intros [Hs Hn Hu] Hr Hid Hnew. set (f := fun x => if op_id x =? op_id r then new else x).
  assert (Hf : forall x, op_id (f x) = op_id x).
  { intros x. unfold f. destruct (op_id x =? op_id r) eqn:E; bool_simpl; congruence. }
  split; simpl.
  - by apply sorted_map_id.
  - rewrite Forall_map. eapply Forall_impl; [exact Hn |]. intros x Hx. simpl. by rewrite Hf.
  - intros ? ? (x & -> & Hx)%list_elem_of_fmap (y & -> & Hy)%list_elem_of_fmap.
    rewrite !Hf. intros Hne. unfold f.
    destruct (op_id x =? op_id r) eqn:Ex, (op_id y =? op_id r) eqn:Ey; bool_simpl.
    + congruence.
    + by apply Hnew.
    + rewrite violates_sym. by apply Hnew.
    + by apply Hu.
Qed.

Lemma insert_row_preserves t s e sec own p v :
  table_ok t -> table_ok (insert_row s e sec own p v t).2.
Proof.
  intros Ht. destruct (insert_row_ok t s e sec own p v Ht) as [-> | (r & t' & -> & H & _)]; done.
Qed.

Lemma upsert_preserves t s e x sec own :
  table_ok t -> table_ok (upsert encode_entity s e x sec own t).2.
Proof.
  intros Ht. unfold upsert. destruct (_get_row s e t) as [r|] eqn:E.
  - destruct (existsb _ _) eqn:Ex; [done |]. simpl.
    apply get_row_some in E as [Hin He]; [| done].
    apply table_ok_update; [done | done | done |].
    intros y Hy Hne. apply not_true_iff_false. intros Hv.
    apply not_true_iff_false in Ex. apply Ex, existsb_exists. exists y.
    split; [by apply list_elem_of_In |]. rewrite Hv, andb_true_r.
    by apply negb_true_iff, Z.eqb_neq.
  - pose proof (insert_row_preserves t s e sec own (encode_entity x) (_next_seq s t) Ht) as H.
    by destruct (insert_row _ _ _ _ _ _ _) as [[] t'].
Qed.

Lemma cas_preserves t s e x ev nv own :
  table_ok t -> table_ok (compare_and_swap encode_entity s e x ev nv own t).2.
Proof.
  intros Ht. simpl. apply table_ok_map; [| done]. intros r. by destruct (at_version _ _ _ r).
Qed.

Lemma clear_stores_preserves t ss : table_ok t -> table_ok (clear_stores ss t).
Proof.
  unfold clear_stores. revert t. induction ss as [|s ss IH]; intros t Ht; simpl; [done |].
  apply IH. by apply remove_ok.
Qed.

Lemma perform_preserves w t : table_ok t -> table_ok (perform w t).2.
Proof.
  intros Ht. destruct w as [s e x sec own | s e x v own | s e x ev nv own | s e ev
                           | s e x sec own v | s e | ss]; simpl.
  - pose proof (upsert_preserves t s e x sec own Ht) as H. by destruct (upsert _ _ _ _ _ _ _).
  - unfold insert_versioned.
    pose proof (insert_row_preserves t s e None own (encode_entity x) v Ht) as H.
    by destruct (insert_row _ _ _ _ _ _ _) as [[] t'].
  - by apply cas_preserves.
  - by apply remove_ok.
  - unfold insert_immutable.
    pose proof (insert_row_preserves t s e sec own (encode_entity x) v Ht) as H.
    by destruct (insert_row _ _ _ _ _ _ _) as [[] t'].
  - by apply remove_ok.
  - by apply clear_stores_preserves.
Qed.

Lemma perform_all_preserves ws t : table_ok t -> table_ok (perform_all ws t).
Proof. revert t. induction ws; intros t Ht; simpl; auto using perform_preserves. Qed.

(** Whatever writes are performed, in any order, the table keeps one row
    per [(store, entity_id)], one row per [(store, secondary_key)] that is
    set, and primary keys that grow in insertion order; and a compare-and-swap
    takes effect exactly when the row is at the expected version. *)
Theorem store_writes_keep_constraints ws s e x ev nv own :
  let t := perform_all ws (OpTable [] 1) in
  table_ok t
  /\ match _get_row s e t with
     | Some r => if op_seq r =? ev
                 then (compare_and_swap encode_entity s e x ev nv own t).1 = Ok true
                      /\ _get_row s e (compare_and_swap encode_entity s e x ev nv own t).2
                         = Some (swapped encode_entity r x nv own)
                 else compare_and_swap encode_entity s e x ev nv own t = (Ok false, t)
     | None => compare_and_swap encode_entity s e x ev nv own t = (Ok false, t)
     end.
Proof.
  intros t. assert (Ht : table_ok t) by apply perform_all_preserves, table_ok_empty.
  split; [done |]. destruct (_get_row s e t) as [r|] eqn:E.
  - destruct (op_seq r =? ev) eqn:Ev; bool_simpl.
    + destruct (cas_ok encode_entity t s e x ev nv own r Ht E Ev) as (t' & -> & _ & H & _). done.
    + apply cas_stale; [done |]. intros r' Hr'. congruence.
  - apply cas_stale; [done |]. intros r' Hr'. congruence.
Qed.
End Writes.

End OperationalStore.
