(* ===== verification/VersionedStore.v ===== *)
(** One store of the [operational_entities] table, read and written by version.

    The repositories keep one entity per row, with the row's [seq] as its
    revision. [store_ok] says so of one store of the table; the lemmas say what
    [get_versioned], [insert_versioned] and [compare_and_swap] do then, and that
    they leave every other row of the table alone. *)

From S2P Require Import Prelude PyStr OpStore.
Import OperationalStore.
#[local] Open Scope Z_scope.

(** The rows of [t'] are those of [t] but for one entity. *)
Definition off {P} (store k : string) (t t' : op_table P) : Prop :=
  forall s e, (s, e) <> (store, k) -> _get_row s e t' = _get_row s e t.

Section VersionedStore.
Context {P T : Type} (encode_entity : T -> P) (decode_entity : P -> option T).
Context (store : string) (good : string -> T -> Prop) (rev : T -> Z).
Implicit Types (t : op_table P) (x y : T).

Definition row_at t (k : string) : option T :=
  match _get_row store k t with Some r => decode_entity (op_payload r) | None => None end.

(** Every row of the store holds a good entity at its own revision. *)
Definition rows_ok t : Prop :=
  forall k r, _get_row store k t = Some r ->
    exists x, decode_entity (op_payload r) = Some x /\ good k x /\ op_seq r = rev x.

Lemma row_at_some t k x :
  rows_ok t -> row_at t k = Some x ->
  exists r, _get_row store k t = Some r /\ decode_entity (op_payload r) = Some x
    /\ good k x /\ op_seq r = rev x.
Proof.
  intros Hok E. unfold row_at in E. destruct (_get_row store k t) as [r|] eqn:Er; [| done].
  destruct (Hok k r Er) as (y & Hd & Hg & Hs). rewrite Hd in E. injection E as <-. eauto.
Qed.

Lemma row_at_good t k x : rows_ok t -> row_at t k = Some x -> good k x.
Proof. intros Hok E. by destruct (row_at_some t k x Hok E) as (r & _ & _ & H & _). Qed.

Lemma row_at_none t k : rows_ok t -> row_at t k = None -> _get_row store k t = None.
Proof.
  intros Hok E. unfold row_at in E. destruct (_get_row store k t) as [r|] eqn:Er; [| done].
  destruct (Hok k r Er) as (y & Hd & _). congruence.
Qed.

Lemma get_versioned_row t k :
  rows_ok t ->
  get_versioned decode_entity store k t
  = Ok (match row_at t k with
        | Some x => Some (x, rev x, match _get_row store k t with Some r => op_owner r | None => None end)
        | None => None
        end).
Proof.
  intros Hok. unfold get_versioned, row_at, decoded.
  destruct (_get_row store k t) as [r|] eqn:Er; [| done].
  destruct (Hok k r Er) as (y & Hd & _ & Hs). by rewrite Hd, <- Hs.
Qed.

Lemma rows_ok_off s e t t' :
  off s e t t' -> s <> store -> rows_ok t -> rows_ok t' /\ forall k, row_at t' k = row_at t k.
Proof.
  intros Hoff Hs Hok. split.
  - intros k r Hr. rewrite Hoff in Hr by congruence. by apply Hok.
  - intros k. unfold row_at. by rewrite Hoff by congruence.
Qed.

(** The entity of [k] replaced by [y], everything else as it was. *)
Definition put (k : string) y t t' : Prop :=
  table_ok t' /\ rows_ok t' /\ row_at t' k = Some y /\ off store k t t'
  /\ forall j, j <> k -> row_at t' j = row_at t j.

Lemma put_intro k y t t' r :
  rows_ok t -> table_ok t' -> _get_row store k t' = Some r ->
  decode_entity (op_payload r) = Some y -> good k y -> op_seq r = rev y ->
  off store k t t' -> put k y t t'.
Proof.
  intros Hok Ht' Hr Hd Hg Hs Hoff. split; [done |]. split; [| split; [| split; [done |]]].
  - intros j r' Hr'. destruct (decide (j = k)) as [-> | Hne].
    + rewrite Hr in Hr'. injection Hr' as <-. eauto.
    + rewrite Hoff in Hr' by congruence. by apply Hok.
  - unfold row_at. by rewrite Hr.
  - intros j Hne. unfold row_at. by rewrite Hoff by congruence.
Qed.

Context (decode_encode : forall k x, good k x -> decode_entity (encode_entity x) = Some x).

(** A compare-and-swap at the revision of the row replaces it. *)
Lemma cas_hit t k x y own :
  table_ok t -> rows_ok t -> row_at t k = Some x -> good k y ->
  exists t', compare_and_swap encode_entity store k y (rev x) (rev y) own t = (Ok true, t')
    /\ put k y t t'.
Proof.
  intros Ht Hok E Hg. destruct (row_at_some t k x Hok E) as (r & Er & _ & _ & Hs).
  destruct (cas_ok encode_entity t store k y (rev x) (rev y) own r Ht Er Hs)
    as (t' & Hc & Ht' & Hr' & Hoff).
  exists t'. split; [done |]. eapply put_intro; [done | done | exact Hr' | | done | done | done].
  simpl. by eapply decode_encode.
Qed.

(** At any other revision it changes nothing. *)
Lemma cas_miss t k y v w own :
  table_ok t -> rows_ok t -> (forall x, row_at t k = Some x -> rev x <> v) ->
  compare_and_swap encode_entity store k y v w own t = (Ok false, t).
Proof.
  intros Ht Hok Hne. apply cas_stale; [done |]. intros r Er.
  destruct (Hok k r Er) as (x & Hd & _ & ->). apply Hne. unfold row_at. by rewrite Er.
Qed.

Lemma insert_new t k y own :
  table_ok t -> rows_ok t -> row_at t k = None -> good k y ->
  exists t', insert_versioned encode_entity store k y (rev y) own t = (Ok y, t') /\ put k y t t'.
Proof.
  intros Ht Hok E Hg. apply row_at_none in E; [| done].
  destruct (insert_fresh t store k own (encode_entity y) (rev y) Ht E)
    as (t' & r & Hi & Ht' & Hr & Hp & Hs & _ & Hoff).
  exists t'. unfold insert_versioned. rewrite Hi. split; [done |].
  eapply put_intro; [done | done | exact Hr | | done | done | done].
  rewrite Hp. by eapply decode_encode.
Qed.

Lemma insert_taken t k x y v own :
  rows_ok t -> row_at t k = Some x ->
  insert_versioned encode_entity store k y v own t = (Err PersistenceConflictError, t).
Proof.
  intros Hok E. destruct (row_at_some t k x Hok E) as (r & Er & _).
  unfold insert_versioned. by erewrite insert_row_conflict.
Qed.
End VersionedStore.
