(* ===== verification/BreakerRepo.v ===== *)
(** Where breaker rows live: [app/research/reliability_repository.py].

    [RepoInterface] is what the gate and the live permission need from a
    repository: an optimistic compare-and-swap on the row's revision. The
    in-memory repository and the operational-store repository implement it;
    [Gate] and [commits] are written against the interface. *)

From S2P Require Import Prelude PyStr Json Countries Clock Connector Breaker BreakerSpec OpStore.
Import Connector Breaker.
#[local] Open Scope Z_scope.

Module RepoInterface.

(** [type ResearchReliabilityRepository]. *)
Class ReliabilityRepository (S : Type) := {
  load : string -> string -> datetime -> S -> result rel_exn ProviderReliabilityState;
  save : ProviderReliabilityState -> Z -> S -> result rel_exn ProviderReliabilityState * S
}.

(** The key of a state, and the key it is read back under. *)
Definition key_of (s : ProviderReliabilityState) : string :=
  provider_id s +:+ String "|" (market s).

Definition row_revision (row : option ProviderReliabilityState) : Z :=
  match row with Some s => revision s | None => 0 end.

(** A repository is a map from keys to stored states whose revision counts
    the saves; a save whose expected revision is not the row's is refused and
    changes nothing. *)
Class RepositoryLaws (S : Type) `{ReliabilityRepository S} := {
  repo_ok : S -> Prop;
  row : S -> string -> option ProviderReliabilityState;
  row_wf : forall st k s, repo_ok st -> row st k = Some s -> wf s /\ key_of s = k /\ 1 <= revision s;
  load_spec : forall p m now st,
    repo_ok st ->
    load p m now st =
      match reliability_record_key p m with
      | Err e => Err e
      | Ok k => match row st k with
                | Some s => Ok s
                | None => closed_reliability_state p m now
                end
      end;
  save_spec : forall s expected st,
    repo_ok st -> wf s -> 0 <= expected ->
    if row_revision (row st (key_of s)) =? expected
    then exists st', save s expected st = (Ok (set_revision (expected + 1) s), st')
         /\ repo_ok st' /\ row st' (key_of s) = Some (set_revision (expected + 1) s)
         /\ (forall k, k <> key_of s -> row st' k = row st k)
    else save s expected st
         = (Err (ReliabilityRevisionConflict (provider_id s) (market s) expected), st)
}.

Lemma wf_key s : wf s -> reliability_record_key (provider_id s) (market s) = Ok (key_of s).
Proof. intros H. apply (wf_identity s H). Qed.

Lemma wf_set_revision r s : wf s -> 0 <= r -> wf (set_revision r s).
Proof. intros [] Hr. by constructor. Qed.

Lemma key_of_advanced s now : key_of (advanced s now) = key_of s.
Proof. unfold advanced. by destruct (recovered s now). Qed.

Lemma key_of_failed s k now policy : key_of (failed s k now policy) = key_of s.
Proof.
  rewrite <- (key_of_advanced s now). unfold failed.
  destruct (negb _); [done |]. by destruct (_ || _).
Qed.

Lemma key_of_permission s status ks now :
  key_of (breaker (permission_of s status ks now)) = key_of s.
Proof.
  unfold permission_of. cbv zeta. destruct (engaged ks); [done |].
  destruct status; try done. destruct (bool_decide _); apply key_of_advanced.
Qed.

End RepoInterface.

(** ** [InMemoryResearchReliabilityRepository] *)
Module InMemoryRepository.
Import RepoInterface.

Abbreviation rows := (gmap string ProviderReliabilityState).

Definition load (p m : string) (now : datetime) (t : rows)
    : result rel_exn ProviderReliabilityState :=
  let! key := reliability_record_key p m in
  match t !! key with
  | None => closed_reliability_state p m now
  | Some stored => Ok stored
  end.

Definition save (s : ProviderReliabilityState) (expected_revision : Z) (t : rows)
    : result rel_exn ProviderReliabilityState * rows :=
  match reliability_record_key (provider_id s) (market s) with
  | Err e => (Err e, t)
  | Ok key =>
      let current_revision := match t !! key with None => 0 | Some c => revision c end in
      if negb (current_revision =? expected_revision)
      then (Err (ReliabilityRevisionConflict (provider_id s) (market s) expected_revision), t)
      else
        match post_init (set_revision (expected_revision + 1) s) with
        | Err e => (Err e, t)
        | Ok stored => (Ok stored, <[key := stored]> t)
        end
  end.

Definition row_count (p m : string) (t : rows) : result rel_exn Z :=
  let! key := reliability_record_key p m in
  Ok (match t !! key with Some _ => 1 | None => 0 end).

Definition restore_row (p m : string) (s : option ProviderReliabilityState) (t : rows)
    : result rel_exn rows :=
  let! key := reliability_record_key p m in
  Ok (match s with None => delete key t | Some s => <[key := s]> t end).

#[global] Instance memory_repository : ReliabilityRepository rows := {
  RepoInterface.load := load;
  RepoInterface.save := save
}.

Definition rows_ok (t : rows) : Prop :=
  forall k s, t !! k = Some s -> wf s /\ key_of s = k /\ 1 <= revision s.

#[global] Program Instance memory_repository_laws : RepositoryLaws rows := {
  repo_ok := rows_ok;
  row := fun t k => t !! k
}.
Next Obligation. intros st k s H. apply H. Qed.
Next Obligation.
  intros p m now st _. simpl. unfold load.
  destruct (reliability_record_key p m) as [k|]; [| done]. simpl. by destruct (st !! k).
Qed.
Next Obligation.
  intros s expected t Ht Hs He. simpl. unfold save. rewrite wf_key by done.
  change (match t !! key_of s with None => 0 | Some c => revision c end)
    with (row_revision (t !! key_of s)).
  destruct (_ =? expected); simpl; [| done].
  assert (Hw : wf (set_revision (expected + 1) s)) by (apply wf_set_revision; [done | lia]).
  rewrite wf_post_init by done. eexists. split; [done |]. split; [| split].
  - intros k s' Hk. destruct (decide (k = key_of s)) as [-> | Hne].
    + rewrite lookup_insert_eq in Hk. injection Hk as <-. split; [done |]. split; [done |].
      simpl. lia.
    + rewrite lookup_insert_ne in Hk by done. by apply Ht.
  - apply lookup_insert_eq.
  - intros k Hk. by apply lookup_insert_ne.
Qed.

End InMemoryRepository.

(** ** [OperationalResearchReliabilityRepository] *)
Module OperationalRepository.
Import RepoInterface OperationalStore.

Definition RESEARCH_PROVIDER_RELIABILITY : string := "research.provider_reliability".

Section Operational.
Context {P : Type} (encode_entity : ProviderReliabilityState -> P)
        (decode_entity : P -> option ProviderReliabilityState).
Implicit Types t : op_table P.

(** What the repository's callers see of a store error: a conflict is a
    revision conflict, a payload that does not decode is a bare error. *)
Definition undecodable : rel_exn := RelValueError "undecodable payload".

Definition load (p m : string) (now : datetime) t : result rel_exn ProviderReliabilityState :=
  let! key := reliability_record_key p m in
  match get_versioned decode_entity RESEARCH_PROVIDER_RELIABILITY key t with
  | Err _ => Err undecodable
  | Ok None => closed_reliability_state p m now
  | Ok (Some (s, seq, _)) =>
      if negb (revision s =? seq) then post_init (set_revision seq s) else Ok s
  end.

Definition conflict (s : ProviderReliabilityState) (expected : Z) : rel_exn :=
  ReliabilityRevisionConflict (provider_id s) (market s) expected.

Definition save (s : ProviderReliabilityState) (expected_revision : Z) t
    : result rel_exn ProviderReliabilityState * op_table P :=
  match reliability_record_key (provider_id s) (market s) with
  | Err e => (Err e, t)
  | Ok key =>
      match post_init (set_revision (expected_revision + 1) s) with
      | Err e => (Err e, t)
      | Ok stored =>
          if expected_revision =? 0 then
            match get_versioned decode_entity RESEARCH_PROVIDER_RELIABILITY key t with
            | Err _ => (Err undecodable, t)
            | Ok (Some _) => (Err (conflict s expected_revision), t)
            | Ok None =>
                match insert_versioned encode_entity RESEARCH_PROVIDER_RELIABILITY key stored
                        (revision stored) None t with
                | (Ok _, t') => (Ok stored, t')
                | (Err _, t') => (Err (conflict s expected_revision), t')
                end
            end
          else
            match compare_and_swap encode_entity RESEARCH_PROVIDER_RELIABILITY key stored
                    expected_revision (revision stored) None t with
            | (Ok true, t') => (Ok stored, t')
            | (_, t') => (Err (conflict s expected_revision), t')
            end
      end
  end.
End Operational.

Section OperationalLaws.
Context {P : Type} (encode_entity : ProviderReliabilityState -> P)
        (decode_entity : P -> option ProviderReliabilityState)
        (decode_encode : forall s, wf s -> decode_entity (encode_entity s) = Some s).
Implicit Types t : op_table P.

Definition op_row_of t (k : string) : option ProviderReliabilityState :=
  match _get_row RESEARCH_PROVIDER_RELIABILITY k t with
  | Some r => decode_entity (op_payload r)
  | None => None
  end.

(** The rows of the store hold well-formed states at their own revision. *)
Definition op_ok t : Prop :=
  table_ok t /\ forall k r, _get_row RESEARCH_PROVIDER_RELIABILITY k t = Some r ->
    exists s, decode_entity (op_payload r) = Some s /\ wf s /\ key_of s = k
      /\ op_seq r = revision s /\ 1 <= revision s.

Lemma op_load_spec p m now t :
  op_ok t ->
  load decode_entity p m now t =
    match reliability_record_key p m with
    | Err e => Err e
    | Ok k => match op_row_of t k with
              | Some s => Ok s
              | None => closed_reliability_state p m now
              end
    end.
Proof.
  intros [_ Hrows]. unfold load. destruct (reliability_record_key p m) as [k|]; [| done].
  simpl. unfold get_versioned, op_row_of.
  destruct (_get_row _ k t) as [r|] eqn:E; [| done].
  destruct (Hrows k r E) as (s & Hd & _ & _ & Hseq & _).
  unfold decoded. rewrite Hd. simpl. by rewrite Hseq, Z.eqb_refl.
Qed.

Lemma op_ok_update t t' k r :
  op_ok t -> table_ok t' -> _get_row RESEARCH_PROVIDER_RELIABILITY k t' = Some r ->
  (exists s, decode_entity (op_payload r) = Some s /\ wf s /\ key_of s = k
     /\ op_seq r = revision s /\ 1 <= revision s) ->
  (forall k', k' <> k -> _get_row RESEARCH_PROVIDER_RELIABILITY k' t'
                         = _get_row RESEARCH_PROVIDER_RELIABILITY k' t) ->
  op_ok t'.
Proof.
  intros [_ Hrows] Ht' Hk Hr Hoff. split; [done |]. intros k' r' Hr'.
  destruct (decide (k' = k)) as [-> | Hne].
  - rewrite Hk in Hr'. by injection Hr' as <-.
  - rewrite Hoff in Hr' by done. by apply Hrows.
Qed.

(** A save at the row's revision writes that row and no other of the table. *)
Lemma op_save_row s expected t :
  op_ok t -> wf s -> 0 <= expected ->
  if row_revision (op_row_of t (key_of s)) =? expected
  then exists t' r, save encode_entity decode_entity s expected t
                    = (Ok (set_revision (expected + 1) s), t')
       /\ table_ok t' /\ _get_row RESEARCH_PROVIDER_RELIABILITY (key_of s) t' = Some r
       /\ decode_entity (op_payload r) = Some (set_revision (expected + 1) s)
       /\ op_seq r = expected + 1
       /\ (forall s' e', (s', e') <> (RESEARCH_PROVIDER_RELIABILITY, key_of s) ->
            _get_row s' e' t' = _get_row s' e' t)
  else save encode_entity decode_entity s expected t = (Err (conflict s expected), t).
Proof.
  intros Hok Hs He. pose proof Hok as [Ht Hrows]. unfold save. rewrite wf_key by done.
  set (stored := set_revision (expected + 1) s).
  assert (Hw : wf stored) by (apply wf_set_revision; [done | lia]).
  rewrite wf_post_init by done.
  unfold op_row_of at 1. unfold get_versioned.
  destruct (_get_row RESEARCH_PROVIDER_RELIABILITY (key_of s) t) as [r|] eqn:Er.
  - destruct (Hrows _ _ Er) as (c & Hd & Hwc & Hkc & Hseq & Hrev).
    unfold decoded. rewrite Hd. cbn [rbind row_revision].
    destruct (revision c =? expected) eqn:Ee; bool_simpl.
    + rewrite (proj2 (Z.eqb_neq expected 0)) by lia.
      destruct (cas_ok encode_entity t RESEARCH_PROVIDER_RELIABILITY (key_of s) stored expected
                  (revision stored) None r Ht Er ltac:(congruence))
        as (t' & -> & Ht' & Hr' & Hoff).
      exists t'. eexists. split; [done |]. split; [done |]. split; [exact Hr' |].
      split; [simpl; by apply decode_encode | done].
    + destruct (expected =? 0) eqn:E0; bool_simpl; [done |].
      rewrite cas_stale; [done | done |]. intros r' Hr'. rewrite Er in Hr'.
      injection Hr' as <-. congruence.
  - cbn [row_revision]. destruct (0 =? expected) eqn:Ee; bool_simpl.
    + subst expected. rewrite Z.eqb_refl. unfold insert_versioned.
      destruct (insert_fresh t RESEARCH_PROVIDER_RELIABILITY (key_of s) None
                (encode_entity stored) (revision stored) Ht Er)
        as (t' & r & -> & Ht' & Hr' & Hpay & Hseq & _ & Hoff).
      exists t', r. rewrite Hpay. split; [done |]. split; [done |]. split; [done |].
      split; [by apply decode_encode | done].
    + rewrite (proj2 (Z.eqb_neq expected 0)) by lia. rewrite cas_stale; [done | done |].
      intros r' Hr'. congruence.
Qed.

Lemma op_save_spec s expected t :
  op_ok t -> wf s -> 0 <= expected ->
  if row_revision (op_row_of t (key_of s)) =? expected
  then exists t', save encode_entity decode_entity s expected t
                  = (Ok (set_revision (expected + 1) s), t')
       /\ op_ok t' /\ op_row_of t' (key_of s) = Some (set_revision (expected + 1) s)
       /\ (forall k, k <> key_of s -> op_row_of t' k = op_row_of t k)
  else save encode_entity decode_entity s expected t = (Err (conflict s expected), t).
Proof.
  intros Hok Hs He. pose proof (op_save_row s expected t Hok Hs He) as H.
  destruct (_ =? _); [| done]. destruct H as (t' & r & -> & Ht' & Hr' & Hd & Hseq & Hoff).
  exists t'. split; [done |]. split; [| split].
  - eapply op_ok_update; [exact Hok | exact Ht' | exact Hr' | |].
    + exists (set_revision (expected + 1) s). split; [done |].
      split; [apply wf_set_revision; [done | lia] |]. split; [done |]. split; [done |]. simpl. lia.
    + intros k' Hne. apply Hoff. congruence.
  - unfold op_row_of. by rewrite Hr'.
  - intros k Hk. unfold op_row_of. rewrite Hoff by congruence. done.
Qed.

Definition operational_repository : ReliabilityRepository (op_table P) := {|
  RepoInterface.load := load decode_entity;
  RepoInterface.save := save encode_entity decode_entity
|}.

#[local] Existing Instance operational_repository.

Definition operational_laws : RepositoryLaws (op_table P).
Proof.
  refine {| repo_ok := op_ok; row := op_row_of |}.
  - intros t k s [_ Hrows] Hk. unfold op_row_of in Hk.
    destruct (_get_row _ k t) as [r|] eqn:E; [| done].
    destruct (Hrows k r E) as (s' & Hd & ? & ? & ? & ?). rewrite Hd in Hk. by injection Hk as <-.
  - intros p m now t Ht. by apply op_load_spec.
  - intros s expected t Ht Hs He. by apply op_save_spec.
Defined.
End OperationalLaws.

End OperationalRepository.

(** ** [ResearchReliabilityGate] *)
Module Gate.
Import RepoInterface.

Section Gate.
Context {S : Type} `{ReliabilityRepository S}.
Variable policy : BreakerPolicy.

Definition record_failure (p m : string) (kind : ConnectorFailureKind) (now : datetime) (st : S)
    : result rel_exn ProviderReliabilityState * S :=
  match load p m now st with
  | Err e => (Err e, st)
  | Ok current =>
      match Breaker.record_failure current kind now policy with
      | Err e => (Err e, st)
      | Ok updated => save updated (revision current) st
      end
  end.

Definition record_success (p m : string) (now : datetime) (st : S)
    : result rel_exn ProviderReliabilityState * S :=
  match load p m now st with
  | Err e => (Err e, st)
  | Ok current =>
      match Breaker.record_success current now with
      | Err e => (Err e, st)
      | Ok updated =>
          if bool_decide (updated = current) then (Ok current, st)
          else save updated (revision current) st
      end
  end.

Definition permission (p m : string) (status : ConnectorOperationalStatus) (ks : KillSwitch)
    (now : datetime) (st : S) : result rel_exn ReliabilityDecision * S :=
  match load p m now st with
  | Err e => (Err e, st)
  | Ok current =>
      match assess_execution_permission current status ks now with
      | Err e => (Err e, st)
      | Ok decision =>
          if negb (bool_decide (state (breaker decision) = state current)) then
            match save (breaker decision) (revision current) st with
            | (Ok saved, st') =>
                (make_decision (execution_permitted decision) (block_reason decision) saved, st')
            | (Err e, st') => (Err e, st')
            end
          else (Ok decision, st)
      end
  end.

(** The gate is also given to callers as one operation. *)
Inductive gate_call :=
| GateFailure (p m : string) (kind : ConnectorFailureKind) (now : datetime)
| GateSuccess (p m : string) (now : datetime)
| GatePermission (p m : string) (status : ConnectorOperationalStatus) (ks : KillSwitch)
    (now : datetime).

Definition gate_time (c : gate_call) : datetime :=
  match c with
  | GateFailure _ _ _ now | GateSuccess _ _ now | GatePermission _ _ _ _ now => now
  end.

Definition do_gate (c : gate_call) (st : S)
    : result rel_exn (ProviderReliabilityState + ReliabilityDecision) * S :=
  match c with
  | GateFailure p m k now =>
      let '(r, st') := record_failure p m k now st in ((let! s := r in Ok (inl s)), st')
  | GateSuccess p m now =>
      let '(r, st') := record_success p m now st in ((let! s := r in Ok (inl s)), st')
  | GatePermission p m status ks now =>
      let '(r, st') := permission p m status ks now st in ((let! d := r in Ok (inr d)), st')
  end.

Fixpoint do_gates (cs : list gate_call) (st : S)
    : list (result rel_exn (ProviderReliabilityState + ReliabilityDecision)) * S :=
  match cs with
  | [] => ([], st)
  | c :: rest =>
      let '(r, st1) := do_gate c st in
      let '(rs, st2) := do_gates rest st1 in (r :: rs, st2)
  end.
End Gate.

(** ** The gate over a lawful repository *)
Section GateLaws.
Context {S : Type} `{RepositoryLaws S}.
Variable policy : BreakerPolicy.

Definition rows_agree {S'} `{RepositoryLaws S'} (a : S) (b : S') : Prop :=
  forall k, row a k = row b k.

(** A load gives a well-formed state, at the row's revision and key. *)
Lemma load_wf p m now st s :
  repo_ok st -> load p m now st = Ok s ->
  wf s /\ row_revision (row st (key_of s)) = revision s
  /\ reliability_record_key p m = Ok (key_of s).
Proof.
  intros Hst. rewrite load_spec by done.
  destruct (reliability_record_key p m) as [k|] eqn:Hk; [| done].
  destruct (row st k) as [r|] eqn:Hr.
  - intros [= ->]. destruct (row_wf st k s Hst Hr) as (Hw & <- & Hrev).
    by rewrite Hr.
  - intros (Hw & E & Hkey)%post_init_iff. cbn in Hkey. rewrite Hk in Hkey. injection Hkey as ->.
    split; [done |]. unfold key_of. rewrite Hr. split; [| done]. by rewrite E.
Qed.
End GateLaws.

Section Agreement.
Context {A B : Type} `{RepositoryLaws A} `{RepositoryLaws B}.
Variable policy : BreakerPolicy.

Definition agree (a : A) (b : B) : Prop :=
  repo_ok a /\ repo_ok b /\ forall k, row a k = row b k.

Lemma load_agree p m now a b : agree a b -> load p m now a = load p m now b.
Proof.
  intros (Ha & Hb & Hr). rewrite !load_spec by done.
  destruct (reliability_record_key p m) as [k|]; [| done]. by rewrite Hr.
Qed.

Lemma save_agree s e a b :
  agree a b -> wf s -> 0 <= e ->
  (save s e a).1 = (save s e b).1 /\ agree (save s e a).2 (save s e b).2.
Proof.
  intros (Ha & Hb & Hr) Hs He.
  pose proof (save_spec s e a Ha Hs He) as HA. pose proof (save_spec s e b Hb Hs He) as HB.
  rewrite <- Hr in HB. destruct (_ =? e).
  - destruct HA as (a' & -> & Ha' & Hra & Hoa). destruct HB as (b' & -> & Hb' & Hrb & Hob).
    split; [done |]. split; [done |]. split; [done |]. intros k.
    destruct (decide (k = key_of s)) as [-> | Hne]; simpl; [by rewrite Hra, Hrb |].
    by rewrite Hoa, Hob.
  - rewrite HA, HB. done.
Qed.

Lemma do_gate_agree c a b :
  agree a b -> dt_aware (gate_time c) = true ->
  (do_gate policy c a).1 = (do_gate policy c b).1
  /\ agree (do_gate policy c a).2 (do_gate policy c b).2.
Proof.
  intros Hab Hnow. pose proof Hab as (Ha & _).
  destruct c as [p m k now | p m now | p m status ks now]; simpl in *.
  - unfold record_failure. rewrite <- (load_agree p m now a b Hab).
    destruct (load p m now a) as [s|] eqn:Hl; [| done].
    destruct (load_wf p m now a s Ha Hl) as (Hw & _).
    rewrite record_failure_ok by done.
    destruct (save_agree (failed s k now policy) (revision s) a b Hab) as [E Hag];
      [by apply wf_failed | apply Hw |].
    destruct (save _ _ a), (save _ _ b). simpl in *. by rewrite E.
  - unfold record_success. rewrite <- (load_agree p m now a b Hab).
    destruct (load p m now a) as [s|] eqn:Hl; [| done].
    destruct (load_wf p m now a s Ha Hl) as (Hw & _).
    rewrite record_success_ok by done. destruct (bool_decide _); [done |].
    destruct (save_agree (succeeded s now) (revision s) a b Hab) as [E Hag];
      [by apply wf_succeeded | apply Hw |].
    destruct (save _ _ a), (save _ _ b). simpl in *. by rewrite E.
  - unfold permission. rewrite <- (load_agree p m now a b Hab).
    destruct (load p m now a) as [s|] eqn:Hl; [| done].
    destruct (load_wf p m now a s Ha Hl) as (Hw & _).
    rewrite assess_ok by done. destruct (negb _); [| done].
    destruct (save_agree (breaker (permission_of s status ks now)) (revision s) a b Hab)
      as [E Hag]; [by apply wf_permission | apply Hw |].
    destruct (save _ _ a) as [ra sa], (save _ _ b) as [rb sb]. simpl in *. subst rb.
    by destruct ra.
Qed.

Lemma do_gates_agree cs a b :
  agree a b -> Forall (fun c => dt_aware (gate_time c) = true) cs ->
  (do_gates policy cs a).1 = (do_gates policy cs b).1
  /\ agree (do_gates policy cs a).2 (do_gates policy cs b).2.
Proof.
  intros Hab Hcs. revert a b Hab. induction Hcs as [|c cs Hc _ IH]; intros a b Hab; [done |].
  simpl. destruct (do_gate_agree c a b Hab Hc) as [E Hag].
  destruct (do_gate policy c a) as [ra a'], (do_gate policy c b) as [rb b']. simpl in *.
  subst rb. destruct (IH a' b' Hag) as [E2 Hag2].
  destruct (do_gates policy cs a') as [ras a2], (do_gates policy cs b') as [rbs b2].
  simpl in *. by subst.
Qed.
End Agreement.

End Gate.

Module RepoRefinement.
Import RepoInterface Gate.

(** The production repository is the in-memory one. Over any payload codec
    that reads back what it wrote, every sequence of gate calls on an empty
    [operational_entities] table gives the results the in-memory repository
    gives, call by call, and leaves the same rows. *)
Theorem operational_refines_memory {P : Type}
    (encode_entity : ProviderReliabilityState -> P)
    (decode_entity : P -> option ProviderReliabilityState)
    (decode_encode : forall s, wf s -> decode_entity (encode_entity s) = Some s)
    policy cs :
  Forall (fun c => dt_aware (gate_time c) = true) cs ->
  let mem := do_gates policy cs (∅ : InMemoryRepository.rows) in
  let ops := @do_gates _ (OperationalRepository.operational_repository encode_entity decode_entity)
               policy cs (OpTable [] 1) in
  mem.1 = ops.1
  /\ forall k, mem.2 !! k = OperationalRepository.op_row_of decode_entity ops.2 k.
Proof.
  intros Hcs mem ops.
  pose proof (@do_gates_agree InMemoryRepository.rows (op_table P) _
                InMemoryRepository.memory_repository_laws _
                (OperationalRepository.operational_laws encode_entity decode_entity decode_encode)
                policy cs ∅ (OpTable [] 1)) as Hagree.
  destruct Hagree as [E (_ & _ & Hrows)].
  - split; [intros k s Hk; by rewrite lookup_empty in Hk |]. split.
    + split; [apply OperationalStore.table_ok_empty | intros k r Hk; discriminate].
    + intros k. apply lookup_empty.
  - exact Hcs.
  - split; [exact E | exact Hrows].
Qed.

Example operational_refines_memory_witness :
  let calls := [GateFailure "shopify" "us" TIMEOUT (BreakerExamples.at_s 1);
                GateSuccess " shopify" "US" (BreakerExamples.at_s 2)] in
  let mem := do_gates default_policy calls (∅ : InMemoryRepository.rows) in
  let ops := @do_gates _ (OperationalRepository.operational_repository (fun s => s) Some)
               default_policy calls (OpTable [] 1) in
  mem.1 = ops.1
  /\ forall k, mem.2 !! k = OperationalRepository.op_row_of Some ops.2 k.
Proof.
  apply (operational_refines_memory (fun s => s) Some (fun s _ => eq_refl) default_policy).
  repeat constructor.
Defined.

End RepoRefinement.

(** ** [assess_persisted_live_permission] *)
Module LivePermission.
Import RepoInterface Gate.

(** The [False] markers of the permission are constants of this slice. *)
Record FutureLiveConnectorPermission := {
  live_permitted : bool;
  live_block_reason : option string;
  reliability : ReliabilityDecision;
  live_mode_enabled : bool;
  routing_present : bool;
  certification_present : bool
}.

Definition permission_post_init (f : FutureLiveConnectorPermission)
    : result rel_exn FutureLiveConnectorPermission :=
  raise! RelValueError "a permitted future attempt cannot carry a block reason"
    when live_permitted f && is_some (live_block_reason f) in
  raise! RelValueError "a blocked future attempt requires a reason"
    when negb (live_permitted f)
         && negb (match live_block_reason f with Some r => nonempty r | None => false end) in
  raise! RelValueError "live mode cannot override a blocked persisted breaker"
    when live_permitted f && negb (execution_permitted (reliability f)) in
  raise! RelValueError "a disabled live mode cannot permit a connector attempt"
    when live_permitted f && negb (live_mode_enabled f) in
  Ok f.

Section Live.
Context {S : Type} `{ReliabilityRepository S}.

Definition live_outcome (d : ReliabilityDecision) (mode routing certification : bool)
    : bool * option string :=
  if negb (execution_permitted d) then (false, block_reason d)
  else if negb routing then (false, Some "routing_absent"%string)
  else if negb certification then (false, Some "certification_absent"%string)
  else if negb mode then (false, Some "mode_not_live"%string)
  else (true, None).

Definition assess_persisted_live_permission (p m : string)
    (status : ConnectorOperationalStatus) (ks : KillSwitch) (now : datetime)
    (mode routing certification : bool) (st : S)
    : result rel_exn FutureLiveConnectorPermission * S :=
  match permission p m status ks now st with
  | (Err e, st') => (Err e, st')
  | (Ok d, st') =>
      let '(permitted, reason) := live_outcome d mode routing certification in
      (permission_post_init
         {| live_permitted := permitted; live_block_reason := reason; reliability := d;
            live_mode_enabled := mode; routing_present := routing;
            certification_present := certification |}, st')
  end.
End Live.

Section LiveLaws.
Context {S : Type} `{RepositoryLaws S}.

(** What the gate's permission returns and stores. *)
Lemma permission_ok p m status ks now st s :
  repo_ok st -> dt_aware now = true -> load p m now st = Ok s ->
  exists d st', permission p m status ks now st = (Ok d, st') /\ repo_ok st'
    /\ execution_permitted d = execution_permitted (permission_of s status ks now)
    /\ block_reason d = block_reason (permission_of s status ks now).
Proof.
  intros Hst Hnow Hl. destruct (load_wf p m now st s Hst Hl) as (Hw & Hrev & _).
  unfold permission. rewrite Hl, assess_ok by done.
  destruct (negb _) eqn:E; [| eauto 8].
  pose proof (wf_permission s status ks now Hw Hnow) as Hwp.
  pose proof (key_of_permission s status ks now) as Hk.
  pose proof (save_spec _ (revision s) st Hst Hwp (wf_revision s Hw)) as Hsave.
  rewrite Hk, Hrev, Z.eqb_refl in Hsave. destruct Hsave as (st' & -> & Hst' & _).
  unfold permission_of. cbv zeta.
  destruct (engaged ks);
    [| destruct status; [destruct (bool_decide (state (advanced s now) = OPEN)) |..]];
    (eexists _, _; split; [reflexivity | by repeat split]).
Qed.

(** A blocked decision says why. *)
Definition explained (d : ReliabilityDecision) : Prop :=
  execution_permitted d = false -> exists r, block_reason d = Some r /\ nonempty r = true.

Lemma permission_reason s status ks now : explained (permission_of s status ks now).
Proof.
  unfold explained, permission_of. cbv zeta. destruct (engaged ks); [by eexists |].
  destruct status; [| by eexists | by eexists]. destruct (bool_decide _); [by eexists | done].
Qed.

Lemma live_outcome_valid d mode routing cert permitted reason :
  live_outcome d mode routing cert = (permitted, reason) -> explained d ->
  let f := {| live_permitted := permitted; live_block_reason := reason; reliability := d;
              live_mode_enabled := mode; routing_present := routing;
              certification_present := cert |} in
  permission_post_init f = Ok f.
Proof.
  unfold live_outcome, permission_post_init, explained. simpl. intros Ho Hd.
  destruct (execution_permitted d) eqn:E; simpl in Ho.
  - destruct routing, cert, mode; simpl in Ho; by injection Ho as <- <-.
  - injection Ho as <- <-. destruct (Hd eq_refl) as (r & -> & Hr). simpl. by rewrite Hr.
Qed.

(** nothing overrides the persisted breaker. The live permission never
    raises on a lawful repository, and it is granted exactly when the kill
    switch is off, the provider's status is AVAILABLE, the persisted breaker
    lets an attempt through now, routing and certification are present, and
    the live mode is on; a refusal always carries a reason, and the
    controls are reported strongest first. *)
Theorem live_permission_iff p m status ks now mode routing cert (st : S) s :
  repo_ok st -> dt_aware now = true -> load p m now st = Ok s ->
  exists f st',
    assess_persisted_live_permission p m status ks now mode routing cert st = (Ok f, st')
    /\ repo_ok st'
    /\ (live_permitted f = true <->
         engaged ks = false /\ status = AVAILABLE
         /\ BreakerRefinement.permitted s now = true
         /\ routing = true /\ cert = true /\ mode = true)
    /\ (live_permitted f = false -> exists r, live_block_reason f = Some r /\ nonempty r = true)
    /\ (engaged ks = true -> live_block_reason f = Some "kill_switch"%string).
Proof.
  intros Hst Hnow Hl. destruct (load_wf p m now st s Hst Hl) as (Hw & _).
  destruct (permission_ok p m status ks now st s Hst Hnow Hl) as (d & st' & Hp & Hst' & He & Hb).
  unfold assess_persisted_live_permission. rewrite Hp.
  destruct (live_outcome d mode routing cert) as [permitted reason] eqn:Ho.
  eexists _, st'.
  rewrite (live_outcome_valid d mode routing cert permitted reason Ho);
    [| unfold explained; rewrite He, Hb; apply permission_reason].
  split; [done |]. split; [done |]. simpl.
  unfold live_outcome in Ho. rewrite He, Hb in Ho. unfold BreakerRefinement.permitted.
  rewrite assess_ok by done. unfold permission_of in *. cbv zeta in *. simpl.
  destruct (engaged ks); [| destruct status;
    [destruct (bool_decide (state (advanced s now) = OPEN)); simpl in *;
     [| destruct routing; [destruct cert; [destruct mode |] |]] |..]];
    simpl in Ho; injection Ho as <- <-;
    (split; [naive_solver | split; [intros; eauto; discriminate | naive_solver]]).
Qed.
End LiveLaws.

Example live_permission_iff_witness :
  exists f st',
    assess_persisted_live_permission "shopify" "US" AVAILABLE (Build_KillSwitch false None)
      (BreakerExamples.at_s 0) true true true (∅ : InMemoryRepository.rows) = (Ok f, st')
    /\ repo_ok st'
    /\ (live_permitted f = true <->
         false = false /\ AVAILABLE = AVAILABLE
         /\ BreakerRefinement.permitted BreakerExamples.fresh (BreakerExamples.at_s 0) = true
         /\ true = true /\ true = true /\ true = true)
    /\ (live_permitted f = false -> exists r, live_block_reason f = Some r /\ nonempty r = true)
    /\ (false = true -> live_block_reason f = Some "kill_switch"%string).
Proof.
  apply (live_permission_iff "shopify" "US" AVAILABLE (Build_KillSwitch false None)
           (BreakerExamples.at_s 0) true true true (∅ : InMemoryRepository.rows)
           BreakerExamples.fresh).
  - intros k s Hk. by rewrite lookup_empty in Hk.
  - reflexivity.
  - vm_compute. reflexivity.
Defined.

End LivePermission.

(** ** Concurrent workers on one row

    Two workers may load the same row; each then computes its update and
    saves it against the revision it loaded. An interleaving is a sequence of
    such loads and commits. *)
Module Workers.
Import RepoInterface BreakerSpec BreakerRefinement.

Section Workers.
Context {S : Type} `{RepositoryLaws S}.
Variable sha256_hex : string -> string.
Hypothesis sha256_hex_digest : forall b, is_digest (sha256_hex b).
Variable policy : BreakerPolicy.
Variables p m : string.

Inductive action :=
| ALoad (worker : nat) (now : datetime)
| ACommit (worker : nat) (c : call).

Record config := Config {
  stored : S;
  loaded : nat -> option ProviderReliabilityState;
  committed : list call;
  refused : nat
}.

Definition set_loaded (w : nat) (s : option ProviderReliabilityState)
    (l : nat -> option ProviderReliabilityState) : nat -> option ProviderReliabilityState :=
  fun w' => if (w' =? w)%nat then s else l w'.

(** The gate does not save a success that changes nothing, nor a permission
    check that leaves the breaker's state. *)
Definition unsaved (c : call) (before after : ProviderReliabilityState) : bool :=
  match c with
  | CallSuccess _ => bool_decide (after = before)
  | CallPermission _ _ _ => bool_decide (state after = state before)
  | _ => false
  end.

Definition act (cfg : config) (a : action) : config :=
  match a with
  | ALoad w now =>
      match load p m now (stored cfg) with
      | Ok s => Config (stored cfg) (set_loaded w (Some s) (loaded cfg))
                  (committed cfg) (refused cfg)
      | Err _ => cfg
      end
  | ACommit w c =>
      match loaded cfg w with
      | None => cfg
      | Some s =>
          match do_call sha256_hex policy s c with
          | Err _ => cfg
          | Ok s' =>
              if unsaved c s s' then cfg
              else
                match save s' (revision s) (stored cfg) with
                | (Ok _, st) => Config st (set_loaded w None (loaded cfg))
                                  (committed cfg ++ [c]) (refused cfg)
                | (Err _, st) => Config st (set_loaded w None (loaded cfg))
                                   (committed cfg) (Datatypes.S (refused cfg))
                end
          end
      end
  end.

Definition run_actions (cfg : config) (acts : list action) : config := foldl act cfg acts.

Definition action_ok (a : action) : Prop :=
  match a with ALoad _ now => dt_aware now = true | ACommit _ c => call_ok c end.

Variable key : string.
Hypothesis key_eq : reliability_record_key p m = Ok key.

Definition row_phase (st : S) : phase :=
  match row st key with Some s => abs s | None => PClosed 0 end.

Definition serial (log : list call) : phase := spec_run policy (PClosed 0) log.

Record inv (cfg : config) : Prop := {
  inv_ok : repo_ok (stored cfg);
  inv_revision : row_revision (row (stored cfg) key) = Z.of_nat (length (committed cfg));
  inv_phase : row_phase (stored cfg) = serial (committed cfg);
  inv_loaded : forall w s, loaded cfg w = Some s ->
    wf s /\ key_of s = key /\ revision s <= Z.of_nat (length (committed cfg))
    /\ (revision s = Z.of_nat (length (committed cfg)) -> abs s = serial (committed cfg))
}.

Lemma load_current now st s :
  repo_ok st -> load p m now st = Ok s ->
  wf s /\ key_of s = key /\ row_revision (row st key) = revision s /\ abs s = row_phase st.
Proof.
  intros Hst Hl. destruct (Gate.load_wf p m now st s Hst Hl) as (Hw & Hrev & Hk).
  rewrite key_eq in Hk. injection Hk as Hk. rewrite <- Hk in Hrev.
  split; [done |]. split; [done |]. split; [done |].
  unfold row_phase. rewrite load_spec, key_eq in Hl by done.
  destruct (row st key) as [r|] eqn:Er; [by injection Hl as -> |].
  by apply closed_state_phase in Hl as [_ ->].
Qed.

Lemma do_call_key s c s' :
  wf s -> call_ok c -> do_call sha256_hex policy s c = Ok s' ->
  wf s' /\ key_of s' = key_of s /\ abs s' = spec_step policy (abs s) c.
Proof.
  intros Hs Hc Hd.
  pose proof (wf_exec sha256_hex sha256_hex_digest policy s c Hs Hc) as Hw.
  pose proof (abs_exec sha256_hex sha256_hex_digest policy s c Hs Hc) as Ha.
  unfold exec in Hw, Ha. rewrite Hd in Hw, Ha. split; [done |]. split; [| done].
  destruct Hc as [Haw Hc]. destruct c as [k t | t | status ks t | t l cap]; simpl in *.
  - rewrite record_failure_ok in Hd by done. injection Hd as <-. apply key_of_failed.
  - rewrite record_success_ok in Hd by done. injection Hd as <-. unfold succeeded.
    by destruct (bool_decide _).
  - rewrite assess_ok in Hd by done. injection Hd as <-. apply key_of_permission.
  - destruct Hc as [Hl Hcap]. rewrite apply_lease_ok in Hd by done.
    destruct (state (advanced s t)); try done. destruct (lease_active _ _); [done |].
    injection Hd as <-. apply key_of_advanced.
Qed.

Lemma act_inv cfg a : inv cfg -> action_ok a -> inv (act cfg a).
Proof.
  intros Hinv Ha. pose proof Hinv as [Hok Hrev Hph Hld]. destruct a as [w now | w c]; simpl.
  - destruct (load p m now (stored cfg)) as [s|] eqn:Hl; [| done].
    destruct (load_current now _ s Hok Hl) as (Hw & Hk & Hr & Habs).
    constructor; simpl; try done. intros w' s'. unfold set_loaded.
    destruct (w' =? w)%nat; [| apply Hld]. intros [= <-]. split; [done |]. split; [done |]. split; [lia |]. intros _. congruence.
  - destruct (loaded cfg w) as [s|] eqn:Hs; [| done].
    destruct (do_call sha256_hex policy s c) as [s'|] eqn:Hd; [| done].
    destruct (unsaved c s s'); [done |].
    destruct (Hld w s Hs) as (Hw & Hk & Hle & Hcur).
    destruct (do_call_key s c s' Hw Ha Hd) as (Hw' & Hk' & Habs').
    pose proof (save_spec s' (revision s) _ Hok Hw' (wf_revision s Hw)) as Hsave.
    rewrite Hk', Hk, Hrev in Hsave.
    assert (Hrest : forall w' x, set_loaded w None (loaded cfg) w' = Some x -> loaded cfg w' = Some x)
      by (intros w' x; unfold set_loaded; by destruct (w' =? w)%nat).
    destruct (_ =? revision s) eqn:E; bool_simpl.
    + destruct Hsave as (st' & -> & Hok' & Hrow & _).
      assert (Hlen : Z.of_nat (length (committed cfg ++ [c])) = revision s + 1)
        by (rewrite length_app; simpl; lia).
      constructor; simpl; try done.
      * rewrite Hrow, Hlen. done.
      * unfold row_phase. rewrite Hrow. unfold serial, spec_run. rewrite foldl_snoc.
        fold (spec_run policy (PClosed 0) (committed cfg)). fold (serial (committed cfg)).
        rewrite <- Hcur by lia. exact Habs'.
      * intros w' x Hx. apply Hrest in Hx. destruct (Hld w' x Hx) as (? & ? & ? & ?).
        rewrite Hlen. split; [done |]. split; [done |]. split; lia.
    + rewrite Hsave. constructor; simpl; try done. intros w' x Hx. apply Hrest in Hx. by apply (Hld w').
Qed.

Lemma run_inv cfg acts : inv cfg -> Forall action_ok acts -> inv (run_actions cfg acts).
Proof.
  intros Hinv Hacts. revert cfg Hinv. unfold run_actions.
  induction Hacts as [|a acts Ha _ IH]; intros cfg Hinv; simpl; [done |].
  by apply IH, act_inv.
Qed.

(** C30: concurrent updates are serialised and none is lost. Whatever the
    interleaving of the workers' loads and commits, starting without a row,
    the stored breaker is the automaton run over the committed operations in
    the order they committed, and its revision is their number: an operation
    computed on a stale row is refused with [ReliabilityRevisionConflict] and
    changes nothing. *)
Theorem commits_are_serial st acts :
  repo_ok st -> row st key = None -> Forall action_ok acts ->
  let cfg := run_actions (Config st (fun _ => None) [] 0) acts in
  row_phase (stored cfg) = serial (committed cfg)
  /\ row_revision (row (stored cfg) key) = Z.of_nat (length (committed cfg)).
Proof.
  intros Hst Hnone Hacts cfg.
  destruct (run_inv (Config st (fun _ => None) [] 0) acts) as [_ Hrev Hph _]; [| done | done].
  constructor; simpl; try done; [by rewrite Hnone | unfold row_phase; by rewrite Hnone].
Qed.
End Workers.

(** A gate call is a load and a commit with nothing in between. *)
Lemma gate_failure_is_load_commit {S : Type} `{ReliabilityRepository S} sha256_hex policy p m w k now
    (st : S) l log n :
  stored (run_actions sha256_hex policy p m (Config st l log n)
            [ALoad w now; ACommit w (CallFailure k now)])
  = match load p m now st with
    | Ok _ => (Gate.record_failure policy p m k now st).2
    | Err _ => stored (act sha256_hex policy p m (Config st l log n) (ACommit w (CallFailure k now)))
    end.
Proof.
  cbn [run_actions foldl act stored]. unfold Gate.record_failure.
  destruct (load p m now st) as [s|] eqn:E; [| done]. cbn [stored loaded].
  unfold act. cbn [loaded stored]. unfold set_loaded at 1. rewrite Nat.eqb_refl.
  cbn [do_call unsaved]. destruct (record_failure s k now policy) as [s'|]; [| done].
  destruct (save s' (revision s) st) as [[] st']; done.
Qed.

(** Two workers load the missing row; both count a failure; one must retry. *)
Import BreakerExamples.
Definition race : list action :=
  [ALoad 1 (at_s 1); ALoad 2 (at_s 1); ACommit 1 (CallFailure TIMEOUT (at_s 2));
   ACommit 2 (CallFailure TIMEOUT (at_s 3)); ALoad 2 (at_s 3);
   ACommit 2 (CallFailure TIMEOUT (at_s 4))].

Example commits_are_serial_witness :
  let cfg := run_actions digest0 default_policy "shopify" "US"
    (Config (∅ : InMemoryRepository.rows) (fun _ => None) [] 0) race in
  row_phase "shopify|US" (stored cfg) = serial default_policy (committed cfg)
  /\ row_revision (row (stored cfg) "shopify|US") = Z.of_nat (length (committed cfg)).
Proof.
  apply (commits_are_serial digest0 digest0_ok default_policy "shopify" "US" "shopify|US").
  - vm_compute. reflexivity.
  - intros k s Hk. by rewrite lookup_empty in Hk.
  - reflexivity.
  - repeat constructor.
Defined.

Example race_refuses_one :
  let cfg := run_actions digest0 default_policy "shopify" "US"
    (Config (∅ : InMemoryRepository.rows) (fun _ => None) [] 0) race in
  (length (committed cfg), refused cfg) = (2%nat, 1%nat).
Proof. vm_compute. reflexivity. Qed.

End Workers.
