(* ===== verification/Research.v ===== *)
(** Research planning data: [app/domain/entities/research_execution.py] and the
    scope of [app/domain/entities/research_authorization.py].

    Each dataclass is a record with the constructor the source runs
    ([make_...] or [..._post_init]): it raises [ValueError] or returns the
    stored object. [Literal] fields are texts that the constructor checks.
    A calendar date is its proleptic ordinal, a commission rate a binary64
    pair. *)

From S2P Require Import Prelude PyStr Json Countries Clock Connector.
Import Connector.
#[local] Open Scope Z_scope.

Module Research.

Abbreviation outcome A := (result value_error A).

Definition one_of (s : string) (l : list string) : bool := existsb (String.eqb s) l.
Definition py_true (s : string) : bool := nonempty s.
Definition some_text (s : option string) : bool :=
  match s with Some t => nonempty t | None => false end.

(** ** Capabilities *)

Inductive ResearchCapability :=
| PRODUCT_DISCOVERY | OFFER_DISCOVERY | CURRENT_PRICING | AVAILABILITY | SHIPPING
| TAXES_IMPORT | PROMOTION_EVIDENCE | WARRANTY_EVIDENCE | PRODUCT_SPECIFICATION
| REVIEW_COMMUNITY_EVIDENCE.

#[global] Instance capability_eq_dec : EqDecision ResearchCapability.
Proof. solve_decision. Defined.

Definition capability_value (c : ResearchCapability) : string :=
  match c with
  | PRODUCT_DISCOVERY => "product_discovery" | OFFER_DISCOVERY => "offer_discovery"
  | CURRENT_PRICING => "current_pricing" | AVAILABILITY => "availability"
  | SHIPPING => "shipping" | TAXES_IMPORT => "taxes_import"
  | PROMOTION_EVIDENCE => "promotion_evidence" | WARRANTY_EVIDENCE => "warranty_evidence"
  | PRODUCT_SPECIFICATION => "product_specification"
  | REVIEW_COMMUNITY_EVIDENCE => "review_community_evidence"
  end.

Lemma capability_value_inj a b : capability_value a = capability_value b -> a = b.
Proof. by destruct a, b. Qed.

Definition DESTINATION_SENSITIVE_CAPABILITIES : list ResearchCapability := [SHIPPING; TAXES_IMPORT].
Definition MARKET_SENSITIVE_CAPABILITIES : list ResearchCapability :=
  [PRODUCT_DISCOVERY; OFFER_DISCOVERY; CURRENT_PRICING; AVAILABILITY; SHIPPING; TAXES_IMPORT;
   PROMOTION_EVIDENCE].

Definition destination_capability (c : ResearchCapability) : bool :=
  bool_decide (c ∈ DESTINATION_SENSITIVE_CAPABILITIES).

(** A market field: normalised, and refused unless it is an ISO code. *)
Definition checked_market (message market : string) : outcome string :=
  match Countries.normalize_country_code (Some market) with
  | None => Err (ValueError message)
  | Some code =>
      raise! ValueError message when negb (Countries.is_valid_country_code (Some code)) in Ok code
  end.

Record TrustedMarketContext := { country_code : string; market_source : string }.

Definition make_TrustedMarketContext (country source : string) : outcome TrustedMarketContext :=
  let! code := checked_market "trusted market must be a valid ISO 3166-1 alpha-2 code" country in
  raise! ValueError "market context must be server_trusted"
    when negb (String.eqb source "server_trusted") in
  Ok {| country_code := code; market_source := source |}.

Definition TrustedMarketContext_to_dict (m : TrustedMarketContext) : json :=
  JObj [("country_code", JStr (country_code m)); ("source", JStr (market_source m))]%string.

(** ** Certifications *)

Record ResearchProviderCertification := {
  c_provider_id : string;
  c_capability : ResearchCapability;
  c_market : string;
  c_version : string;
  c_status : string;
  c_policy : string;
  c_source : option string;
  c_source_scope : string;
  c_test_fixture : bool;
  c_certification_id : string
}.

(** The two ways a record names its source. *)
Definition check_source_scope (what : string) (scope : string) (source : option string)
    : outcome unit :=
  if String.eqb scope "exact" then
    guard_raise (negb (some_text source))
      (ValueError ("exact " +:+ what +:+ " requires an explicit source identity"))
  else if String.eqb scope "source_agnostic" then
    guard_raise (is_some source)
      (ValueError ("source-agnostic " +:+ what +:+ " must not name a source"))
  else Err (ValueError "source_scope must be exact or source_agnostic").

Definition certification_post_init (c : ResearchProviderCertification)
    : outcome ResearchProviderCertification :=
  raise! ValueError "provider_id is required" when negb (py_true (c_provider_id c)) in
  raise! ValueError "certification_version is required" when negb (py_true (c_version c)) in
  let! code := checked_market "certification market must be a valid ISO country code" (c_market c) in
  raise! ValueError "certification status is unknown and fails closed"
    when negb (one_of (c_status c) ["certified"; "revoked"; "disabled"; "pending"; "expired"]) in
  raise! ValueError "certification policy is unknown and fails closed"
    when negb (one_of (c_policy c) ["allowed"; "restricted"; "prohibited"; "unknown"]) in
  let! _ := check_source_scope "certification" (c_source_scope c) (c_source c) in
  Ok {| c_provider_id := c_provider_id c; c_capability := c_capability c; c_market := code;
        c_version := c_version c; c_status := c_status c; c_policy := c_policy c;
        c_source := c_source c; c_source_scope := c_source_scope c;
        c_test_fixture := c_test_fixture c; c_certification_id := c_certification_id c |}.

Definition EXECUTABLE_CERTIFICATION_STATUS : string := "certified".

Definition is_executable (c : ResearchProviderCertification) : bool :=
  String.eqb (c_status c) EXECUTABLE_CERTIFICATION_STATUS && String.eqb (c_policy c) "allowed".

Definition is_production_eligible (c : ResearchProviderCertification) : bool :=
  String.eqb (c_status c) EXECUTABLE_CERTIFICATION_STATUS && String.eqb (c_policy c) "allowed"
  && negb (c_test_fixture c).

(** The five texts of a lookup key, in order. *)
Definition cert_key : Type := string * string * string * string * string.

Definition certification_lookup_key (c : ResearchProviderCertification) : cert_key :=
  (c_provider_id c, capability_value (c_capability c), c_market c, c_source_scope c,
   default "" (c_source c)).

Definition certification_to_dict (c : ResearchProviderCertification) : json :=
  JObj [("certification_id", JStr (c_certification_id c));
        ("provider_id", JStr (c_provider_id c));
        ("capability", JStr (capability_value (c_capability c)));
        ("market", JStr (c_market c)); ("source", JOpt JStr (c_source c));
        ("source_scope", JStr (c_source_scope c)); ("status", JStr (c_status c));
        ("policy", JStr (c_policy c)); ("certification_version", JStr (c_version c));
        ("test_fixture", JBool (c_test_fixture c))]%string.

(** ** Certification evidence: never grants anything *)

Record ResearchProviderCertificationEvidence := {
  e_provider_id : string;
  e_capability : ResearchCapability;
  e_market : string;
  e_evidence_source : string;
  e_source : option string;
  e_source_scope : string;
  e_version : string;
  e_program_reference : string;
  e_evidence_date : option Z;
  e_review_date : option Z;
  e_reviewer : string;
  e_restrictions : list string;
  e_attribution : list string;
  e_review_after : option Z;
  e_completeness : string;
  e_notes : string;
  e_test_fixture : bool;
  e_evidence_id : string
}.

Fixpoint _require_text_items (items : list string) : outcome (list string) :=
  match items with
  | [] => Ok []
  | item :: rest =>
      raise! ValueError "restriction and attribution items must be non-empty"
        when negb (nonempty (strip item)) in
      let! cleaned := _require_text_items rest in Ok (strip item :: cleaned)
  end.

Definition evidence_post_init (e : ResearchProviderCertificationEvidence)
    : outcome ResearchProviderCertificationEvidence :=
  raise! ValueError "provider_id is required" when negb (py_true (e_provider_id e)) in
  raise! ValueError "evidence_source is required"
    when negb (nonempty (strip (e_evidence_source e))) in
  let! code := checked_market "evidence market must be a valid ISO country code" (e_market e) in
  let! _ := check_source_scope "evidence" (e_source_scope e) (e_source e) in
  raise! ValueError "evidence completeness is unknown and fails closed"
    when negb (one_of (e_completeness e) ["incomplete"; "recorded"]) in
  raise! ValueError "review_date requires a reviewer"
    when is_some (e_review_date e) && negb (nonempty (strip (e_reviewer e))) in
  let! restrictions := _require_text_items (e_restrictions e) in
  let! attribution := _require_text_items (e_attribution e) in
  Ok {| e_provider_id := e_provider_id e; e_capability := e_capability e; e_market := code;
        e_evidence_source := strip (e_evidence_source e); e_source := e_source e;
        e_source_scope := e_source_scope e; e_version := strip (e_version e);
        e_program_reference := strip (e_program_reference e);
        e_evidence_date := e_evidence_date e; e_review_date := e_review_date e;
        e_reviewer := strip (e_reviewer e); e_restrictions := restrictions;
        e_attribution := attribution; e_review_after := e_review_after e;
        e_completeness := e_completeness e; e_notes := strip (e_notes e);
        e_test_fixture := e_test_fixture e; e_evidence_id := e_evidence_id e |}.

Definition evidence_lookup_key (e : ResearchProviderCertificationEvidence) : cert_key :=
  (e_provider_id e, capability_value (e_capability e), e_market e, e_source_scope e,
   default "" (e_source e)).

#[global] Instance cert_key_eq_dec : EqDecision cert_key.
Proof. solve_decision. Defined.

Definition binds_to (e : ResearchProviderCertificationEvidence)
    (c : ResearchProviderCertification) : bool :=
  bool_decide (evidence_lookup_key e = certification_lookup_key c)
  && (negb (nonempty (e_version e)) || String.eqb (e_version e) (c_version c)).

Definition decision_readiness_reason (e : ResearchProviderCertificationEvidence) (as_of : Z)
    : option string :=
  if negb (String.eqb (e_completeness e) "recorded") then Some "evidence_incomplete"%string
  else if negb (is_some (e_review_date e)) || negb (nonempty (e_reviewer e))
  then Some "reviewer_missing"%string
  else if match e_review_after e with Some d => d <? as_of | None => false end
  then Some "evidence_stale"%string
  else None.

Definition is_decision_ready (e : ResearchProviderCertificationEvidence) (as_of : Z) : bool :=
  negb (is_some (decision_readiness_reason e as_of)).

(** ** Routing policies and provider descriptors *)

Record ResearchProviderRoutingPolicy := {
  p_provider_id : string; p_routing_priority : Z; p_test_fixture : bool
}.

Definition make_ResearchProviderRoutingPolicy (provider : string) (priority : Z) (fixture : bool)
    : outcome ResearchProviderRoutingPolicy :=
  raise! ValueError "provider_id is required" when negb (py_true provider) in
  Ok {| p_provider_id := provider; p_routing_priority := priority; p_test_fixture := fixture |}.

Definition routing_policy_to_dict (p : ResearchProviderRoutingPolicy) : json :=
  JObj [("provider_id", JStr (p_provider_id p)); ("routing_priority", JInt (p_routing_priority p));
        ("test_fixture", JBool (p_test_fixture p))]%string.

Record ResearchProviderDescriptor := {
  d_provider_id : string;
  d_provider_type : string;
  d_supported_markets : list string;
  d_supported_capabilities : list ResearchCapability;
  d_supported_sources : list string;
  d_operational_status : ConnectorOperationalStatus;
  d_test_fixture : bool;
  d_kill_switch : KillSwitch;
  d_circuit_breaker : CircuitBreakerSnapshot;
  d_affiliate_commission_rate : option (Z * Z);
  d_may_expand_evaluated_set : bool;
  d_can_provide_pricing : bool;
  d_can_provide_shipping_taxes : bool;
  d_can_provide_product_evidence : bool;
  d_can_provide_review_evidence : bool
}.

Definition with_markets (codes : list string) (d : ResearchProviderDescriptor) :=
  {| d_provider_id := d_provider_id d; d_provider_type := d_provider_type d;
     d_supported_markets := codes; d_supported_capabilities := d_supported_capabilities d;
     d_supported_sources := d_supported_sources d; d_operational_status := d_operational_status d;
     d_test_fixture := d_test_fixture d; d_kill_switch := d_kill_switch d;
     d_circuit_breaker := d_circuit_breaker d;
     d_affiliate_commission_rate := d_affiliate_commission_rate d;
     d_may_expand_evaluated_set := d_may_expand_evaluated_set d;
     d_can_provide_pricing := d_can_provide_pricing d;
     d_can_provide_shipping_taxes := d_can_provide_shipping_taxes d;
     d_can_provide_product_evidence := d_can_provide_product_evidence d;
     d_can_provide_review_evidence := d_can_provide_review_evidence d |}.

Definition descriptor_post_init (d : ResearchProviderDescriptor)
    : outcome ResearchProviderDescriptor :=
  raise! ValueError "provider_id is required" when negb (py_true (d_provider_id d)) in
  let codes := map (fun m => default "" (Countries.normalize_country_code (Some m)))
                 (d_supported_markets d) in
  raise! ValueError "supported_markets must be valid ISO country codes"
    when existsb (fun c => negb (nonempty c)
                           || negb (Countries.is_valid_country_code (Some c))) codes in
  raise! ValueError "provider_type is unknown and fails closed"
    when negb (one_of (d_provider_type d)
                 ["merchant"; "manufacturer"; "community"; "public_web"; "test"]) in
  raise! ValueError "test fixtures must use provider_type='test'"
    when d_test_fixture d && negb (String.eqb (d_provider_type d) "test") in
  raise! ValueError "provider_type='test' requires test_fixture=True"
    when negb (d_test_fixture d) && String.eqb (d_provider_type d) "test" in
  Ok (with_markets codes d).

Definition is_operationally_available (d : ResearchProviderDescriptor) : bool :=
  bool_decide (d_operational_status d = Connector.AVAILABLE)
  && negb (engaged (d_kill_switch d)) && allows_execution (d_circuit_breaker d).

Definition descriptor_to_dict (d : ResearchProviderDescriptor) : json :=
  JObj [("provider_id", JStr (d_provider_id d)); ("provider_type", JStr (d_provider_type d));
        ("supported_markets", JStrs (d_supported_markets d));
        ("supported_capabilities", JStrs (map capability_value (d_supported_capabilities d)));
        ("supported_sources", JStrs (d_supported_sources d));
        ("operational_status", JStr (operational_status_value (d_operational_status d)));
        ("test_fixture", JBool (d_test_fixture d));
        ("kill_switch", KillSwitch_to_dict (d_kill_switch d));
        ("circuit_breaker", CircuitBreakerSnapshot_to_dict (d_circuit_breaker d));
        ("may_expand_evaluated_set", JBool (d_may_expand_evaluated_set d));
        ("can_provide_pricing", JBool (d_can_provide_pricing d));
        ("can_provide_shipping_taxes", JBool (d_can_provide_shipping_taxes d));
        ("can_provide_product_evidence", JBool (d_can_provide_product_evidence d));
        ("can_provide_review_evidence", JBool (d_can_provide_review_evidence d))]%string.

(** ** Eligibility audits, steps and blocked requirements *)

Record ProviderEligibility := {
  el_provider_id : string;
  eligible : bool;
  reasons : list string;
  el_capability : option ResearchCapability;
  el_market : option string;
  el_source : option string
}.

Definition eligibility_to_dict (e : ProviderEligibility) : json :=
  JObj [("provider_id", JStr (el_provider_id e)); ("eligible", JBool (eligible e));
        ("reasons", JStrs (reasons e));
        ("capability", JOpt (fun c => JStr (capability_value c)) (el_capability e));
        ("market", JOpt JStr (el_market e)); ("source", JOpt JStr (el_source e))]%string.

Record ResearchProviderStep := {
  step_index : Z;
  s_provider_id : string;
  s_provider_type : string;
  s_capability : ResearchCapability;
  source_identities : list string;
  s_market : option string;
  s_certification_id : string;
  s_certification_version : string;
  selection_reason : string;
  s_attempted : bool
}.

Definition step_post_init (s : ResearchProviderStep) : outcome ResearchProviderStep :=
  raise! ValueError "Sprint 31 planning must not mark a provider as attempted"
    when s_attempted s in
  raise! ValueError "step_index must be at least 1" when step_index s <? 1 in
  Ok s.

Definition step_to_dict (s : ResearchProviderStep) : json :=
  JObj [("step_index", JInt (step_index s)); ("provider_id", JStr (s_provider_id s));
        ("provider_type", JStr (s_provider_type s));
        ("capability", JStr (capability_value (s_capability s)));
        ("source_identities", JStrs (source_identities s)); ("market", JOpt JStr (s_market s));
        ("certification_id", JStr (s_certification_id s));
        ("certification_version", JStr (s_certification_version s));
        ("selection_reason", JStr (selection_reason s)); ("attempted", JBool false)]%string.

(** [fabricated_value] is [None] by its type. *)
Record BlockedRequirement := {
  b_capability : ResearchCapability;
  b_reason : string;
  b_detail : string;
  b_unknown : bool;
  b_material : bool
}.

Definition blocked_post_init (b : BlockedRequirement) : outcome BlockedRequirement :=
  raise! ValueError "blocked requirements remain unknown until certified execution"
    when negb (b_unknown b) in
  Ok b.

Definition blocked_to_dict (b : BlockedRequirement) : json :=
  JObj [("capability", JStr (capability_value (b_capability b))); ("reason", JStr (b_reason b));
        ("detail", JStr (b_detail b)); ("unknown", JBool true);
        ("material_to_final_cost", JBool (b_material b)); ("fabricated_value", JNull)]%string.

(** ** The authorised scope and the planning request *)

Record FrozenResearchScope := {
  sc_reason : string;
  evaluated_product_ids : list string;
  outside_set_product_names : list string;
  requested_evidence_topics : list string;
  requested_sources : list string;
  destination_label : option string;
  expansion_required : bool;
  freshness_required : bool;
  canonical_update_may_be_required : bool
}.

(** The members of [digest_payload]. *)
Definition scope_payload_fields (s : FrozenResearchScope) : list (string * json) :=
  [("reason", JStr (sc_reason s)); ("evaluated_product_ids", JStrs (evaluated_product_ids s));
   ("outside_set_product_names", JStrs (outside_set_product_names s));
   ("requested_evidence_topics", JStrs (requested_evidence_topics s));
   ("requested_sources", JStrs (requested_sources s));
   ("destination_label", JOpt JStr (destination_label s));
   ("expansion_required", JBool (expansion_required s));
   ("freshness_required", JBool (freshness_required s));
   ("canonical_update_may_be_required", JBool (canonical_update_may_be_required s))]%string.

Definition scope_digest_payload (s : FrozenResearchScope) : json := JObj (scope_payload_fields s).

Record ResearchExecutionRequest := {
  r_request_id : string;
  r_request_version : Z;
  r_authorization_id : string;
  r_authorization_version : Z;
  r_decision_id : string;
  r_context_version : Z;
  r_conversation_id : string;
  r_proposal_id : string;
  r_proposal_version : Z;
  r_scope : FrozenResearchScope;
  r_scope_digest : string;
  r_idempotency_key : string;
  r_market : option TrustedMarketContext
}.

Definition request_post_init (r : ResearchExecutionRequest) : outcome ResearchExecutionRequest :=
  raise! ValueError "execution_request_id is required" when negb (py_true (r_request_id r)) in
  raise! ValueError "execution_request_version must be at least 1" when r_request_version r <? 1 in
  raise! ValueError "authorization_id is required" when negb (py_true (r_authorization_id r)) in
  raise! ValueError "scope_digest must be a SHA-256 hex digest"
    when negb (py_true (r_scope_digest r)) || negb (len (r_scope_digest r) =? 64) in
  raise! ValueError "authorization_idempotency_key is required"
    when negb (py_true (r_idempotency_key r)) in
  Ok r.

(** ** The plan *)

Record ResearchExecutionPlan := {
  plan_id : string;
  plan_version : Z;
  pl_authorization_id : string;
  pl_authorization_version : Z;
  pl_decision_id : string;
  pl_context_version : Z;
  pl_conversation_id : string;
  pl_proposal_id : string;
  pl_proposal_version : Z;
  pl_scope_digest : string;
  required_capabilities : list ResearchCapability;
  eligible_steps : list ResearchProviderStep;
  blocked_requirements : list BlockedRequirement;
  eligibility_audit : list ProviderEligibility;
  support_status : string;
  plan_digest : string;
  pl_outside_set_product_names : list string;
  pl_requested_sources : list string;
  pl_market : option TrustedMarketContext;
  execution_available : bool;
  execution_implemented : bool;
  plan_ready : bool;
  source_checked : bool;
  pl_attempted : bool
}.

Definition plan_post_init (p : ResearchExecutionPlan) : outcome ResearchExecutionPlan :=
  let ready := String.eqb (support_status p) "ready" in
  raise! ValueError "plan_id is required" when negb (py_true (plan_id p)) in
  raise! ValueError "plan_version must be at least 1" when plan_version p <? 1 in
  raise! ValueError "plan_digest must be a SHA-256 hex digest"
    when negb (py_true (plan_digest p)) || negb (len (plan_digest p) =? 64) in
  raise! ValueError "live research execution is not available" when execution_available p in
  raise! ValueError "certified provider execution is not implemented"
    when execution_implemented p in
  raise! ValueError "a planned provider is not an attempted or checked source"
    when source_checked p || pl_attempted p in
  raise! ValueError "plan_ready requires support_status='ready'" when plan_ready p && negb ready in
  raise! ValueError "ready plans must set plan_ready=True" when ready && negb (plan_ready p) in
  raise! ValueError "ready plans cannot carry blocked requirements"
    when ready && match blocked_requirements p with [] => false | _ => true end in
  raise! ValueError "ready plans require at least one certified step"
    when ready && match eligible_steps p with [] => true | _ => false end in
  Ok p.

Definition plan_public_fields (p : ResearchExecutionPlan) : list (string * json) :=
  [("plan_id", JStr (plan_id p)); ("plan_version", JInt (plan_version p));
   ("authorization_id", JStr (pl_authorization_id p));
   ("authorization_version", JInt (pl_authorization_version p));
   ("decision_id", JStr (pl_decision_id p));
   ("canonical_context_version", JInt (pl_context_version p));
   ("support_status", JStr (support_status p)); ("plan_ready", JBool (plan_ready p));
   ("execution_available", JBool false); ("execution_implemented", JBool false);
   ("execution_started", JBool false); ("source_checked", JBool false);
   ("blocked_capability_count", JInt (Z.of_nat (length (blocked_requirements p))));
   ("required_capability_count", JInt (Z.of_nat (length (required_capabilities p))));
   ("outside_set_product_names", JStrs (pl_outside_set_product_names p))]%string.

Definition plan_to_public_dict (p : ResearchExecutionPlan) : json := JObj (plan_public_fields p).

Definition plan_to_dict (p : ResearchExecutionPlan) : json :=
  JObj (plan_public_fields p ++
    [("conversation_id", JStr (pl_conversation_id p)); ("proposal_id", JStr (pl_proposal_id p));
     ("proposal_version", JInt (pl_proposal_version p));
     ("scope_digest", JStr (pl_scope_digest p)); ("plan_digest", JStr (plan_digest p));
     ("required_capabilities", JStrs (map capability_value (required_capabilities p)));
     ("eligible_steps", JList (map step_to_dict (eligible_steps p)));
     ("blocked_requirements", JList (map blocked_to_dict (blocked_requirements p)));
     ("eligibility_audit", JList (map eligibility_to_dict (eligibility_audit p)));
     ("requested_sources", JStrs (pl_requested_sources p));
     ("market", JOpt TrustedMarketContext_to_dict (pl_market p))]%string).

Record ResearchPlanningResult := {
  planned : bool; rp_reason : string; rp_plan : option ResearchExecutionPlan
}.

Definition planning_result_post_init (r : ResearchPlanningResult) : outcome ResearchPlanningResult :=
  raise! ValueError "planned results require a ResearchExecutionPlan"
    when planned r && negb (is_some (rp_plan r)) in
  raise! ValueError "rejected planning must not return a plan"
    when negb (planned r) && is_some (rp_plan r) in
  Ok r.

End Research.
