(* ===== verification/Catalogs.v ===== *)
(** The three trusted authorities of research planning:
    [app/research/registry.py] (what a provider can do technically),
    [app/research/certification.py] (what it is certified for) and
    [app/research/routing.py] (which of two certified ones is preferred), with
    the metadata-only provider of [app/research/providers.py].

    A catalog is its dict and the order its keys were registered in. *)

From S2P Require Import Prelude PyStr Json Countries Connector Research.
Import Connector Research.
#[local] Open Scope Z_scope.

(** ** The dict and the registration order all three keep *)
Module Catalog.

Section Catalog.
Context {K V : Type} `{Countable K}.

Record catalog := { allow_test : bool; entries : gmap K V; order : list K }.

Definition empty_catalog (allow : bool) : catalog :=
  {| allow_test := allow; entries := ∅; order := [] |}.

(** [self._order.append(key); self._records[key] = value]. *)
Definition add (k : K) (v : V) (c : catalog) : catalog :=
  {| allow_test := allow_test c; entries := <[k := v]> (entries c); order := order c ++ [k] |}.

(** [tuple(self._records[key] for key in self._order)]. *)
Definition listing (c : catalog) : list V := omap (fun k => entries c !! k) (order c).

(** Every key is listed once and has its entry. *)
Definition catalog_ok (c : catalog) : Prop :=
  NoDup (order c) /\ forall k, k ∈ order c <-> is_Some (entries c !! k).

Lemma empty_ok allow : catalog_ok (empty_catalog allow).
Proof.
  split; [constructor |]. intros k. simpl. rewrite lookup_empty.
  split; [intros Hk; by apply elem_of_nil in Hk | by intros [? [=]]].
Qed.

Lemma add_ok k v c : catalog_ok c -> entries c !! k = None -> catalog_ok (add k v c).
Proof.
  intros [Hnd Hin] Hk. split; simpl.
  - apply NoDup_app. split; [done |]. split; [| apply NoDup_singleton].
    intros x Hx ->%list_elem_of_singleton. apply Hin in Hx as [? Hx]. congruence.
  - intros x. rewrite elem_of_app, list_elem_of_singleton, Hin.
    destruct (decide (x = k)) as [-> | Hne].
    + rewrite lookup_insert_eq, Hk. unfold is_Some. naive_solver.
    + rewrite lookup_insert_ne by done. naive_solver.
Qed.

Lemma replace_ok k v c :
  catalog_ok c -> is_Some (entries c !! k) ->
  catalog_ok {| allow_test := allow_test c; entries := <[k := v]> (entries c); order := order c |}.
Proof.
  intros [Hnd Hin] Hk. split; [done |]. simpl. intros x. rewrite Hin.
  destruct (decide (x = k)) as [-> | Hne];
    [rewrite lookup_insert_eq; unfold is_Some; naive_solver | by rewrite lookup_insert_ne].
Qed.

(** The listing is the entries, each once. *)
Lemma elem_of_listing c v :
  catalog_ok c -> v ∈ listing c <-> exists k, entries c !! k = Some v.
Proof.
  intros [_ Hin]. unfold listing. rewrite list_elem_of_omap. split.
  - intros (k & _ & Hk). eauto.
  - intros (k & Hk). exists k. split; [| done]. apply Hin. eauto.
Qed.

Lemma listing_add k v c :
  catalog_ok c -> entries c !! k = None -> listing (add k v c) = listing c ++ [v].
Proof.
  intros [_ Hin] Hk. unfold listing. simpl. rewrite omap_app. simpl.
  rewrite lookup_insert_eq. f_equal.
  assert (Hno : k ∉ order c) by (rewrite Hin, Hk; by intros [? [=]]).
  clear Hin Hk. induction (order c) as [|x l IH]; csimpl; [done |].
  rewrite lookup_insert_ne by set_solver. rewrite IH by set_solver. done.
Qed.
End Catalog.
Arguments catalog K V {_ _}.

End Catalog.
Import Catalog.

(** ** [StaticResearchProvider] *)
Module Provider.

(** A provider is its descriptor; [execute] always raises. *)
Definition _dedupe (l : list string) : list string := dedupe_loop [] l.

Definition _technical_ineligibility_reasons (d : ResearchProviderDescriptor)
    (capability : ResearchCapability) (market source : option string) : list string :=
  _dedupe
    ((if negb (is_operationally_available d) then
        if engaged (d_kill_switch d) then ["kill_switch"%string]
        else if negb (allows_execution (d_circuit_breaker d)) then ["circuit_open"%string]
        else ["provider_unavailable"%string]
      else [])
     ++ (if bool_decide (capability ∈ d_supported_capabilities d) then []
         else ["provider_capability_not_supported"%string])
     ++ match market with
        | None => ["missing_market_context"%string]
        | Some m => if one_of m (d_supported_markets d) then []
                    else ["provider_market_not_supported"%string]
        end
     ++ match source with
        | Some s => if one_of s (d_supported_sources d) then [] else ["source_not_supported"%string]
        | None => []
        end).

Definition supports (d : ResearchProviderDescriptor) (capability : ResearchCapability)
    (market source : option string) : ProviderEligibility :=
  let rs := _technical_ineligibility_reasons d capability market source in
  {| el_provider_id := d_provider_id d;
     eligible := match rs with [] => true | _ => false end;
     reasons := match rs with [] => ["technical_capability_market_source"%string] | _ => rs end;
     el_capability := Some capability; el_market := market; el_source := source |}.

(** What technical support means. *)
Definition technical (d : ResearchProviderDescriptor) (capability : ResearchCapability)
    (market source : option string) : Prop :=
  is_operationally_available d = true /\ capability ∈ d_supported_capabilities d
  /\ (exists m, market = Some m /\ m ∈ d_supported_markets d)
  /\ (forall s, source = Some s -> s ∈ d_supported_sources d).

Lemma one_of_elem s l : one_of s l = true <-> s ∈ l.
Proof.
  unfold one_of. rewrite existsb_exists. split.
  - intros (x & Hx & ->%String.eqb_eq). by apply list_elem_of_In.
  - intros H. exists s. split; [by apply list_elem_of_In | apply String.eqb_refl].
Qed.

Lemma one_of_not s l : one_of s l = false -> s ∉ l.
Proof. intros H Hin%one_of_elem. congruence. Qed.

Lemma dedupe_nil l : _dedupe l = [] <-> l = [].
Proof.
  unfold _dedupe. rewrite dedupe_loop_nil. split; [| by intros ->].
  destruct l as [|x l]; [done |]. intros H. specialize (H x ltac:(constructor)).
  by apply elem_of_nil in H.
Qed.

Lemma technical_reasons_nil d capability market source :
  _technical_ineligibility_reasons d capability market source = []
  <-> technical d capability market source.
Proof.
  unfold _technical_ineligibility_reasons, technical. rewrite dedupe_nil, !app_nil.
  destruct (is_operationally_available d); simpl;
    [| split; [by repeat case_match; intros [? _] | by intros [? _]]].
  destruct (bool_decide_reflect (capability ∈ d_supported_capabilities d)); [| naive_solver].
  destruct market as [m|]; [| naive_solver].
  destruct (one_of m (d_supported_markets d)) eqn:Em;
    [apply one_of_elem in Em | apply one_of_not in Em].
  - destruct source as [src|]; [| naive_solver].
    destruct (one_of src (d_supported_sources d)) eqn:Es;
      [apply one_of_elem in Es | apply one_of_not in Es]; naive_solver.
  - naive_solver.
Qed.

(** The router's own reading of a provider: eligible means technical support. *)
Lemma supports_eligible d capability market source :
  eligible (supports d capability market source) = true
  <-> technical d capability market source.
Proof.
  rewrite <- technical_reasons_nil. unfold supports. simpl.
  by destruct (_technical_ineligibility_reasons _ _ _ _).
Qed.

(** A technical reason is never the word for support. *)
Lemma technical_reasons_plain d capability market source :
  "technical_capability_market_source"%string
  ∉ _technical_ineligibility_reasons d capability market source.
Proof.
  unfold _technical_ineligibility_reasons, _dedupe.
  rewrite elem_of_dedupe_loop, !elem_of_app. intros [[H | [H | [H | H]]] _]; revert H;
    repeat case_match; rewrite ?elem_of_nil, ?list_elem_of_singleton; done.
Qed.

End Provider.

(** ** [ResearchProviderRegistry] *)
Module Registry.
Import Provider.

Definition ResearchProviderRegistry : Type := catalog string ResearchProviderDescriptor.

Definition register (d : ResearchProviderDescriptor) (r : ResearchProviderRegistry)
    : outcome ResearchProviderRegistry :=
  raise! ValueError "test providers cannot be registered in the production registry"
    when d_test_fixture d && negb (allow_test r) in
  raise! ValueError ("duplicate provider_id: " +:+ d_provider_id d)
    when is_some (entries r !! d_provider_id d) in
  Ok (add (d_provider_id d) d r).

Fixpoint register_all (ds : list ResearchProviderDescriptor) (r : ResearchProviderRegistry)
    : outcome ResearchProviderRegistry :=
  match ds with
  | [] => Ok r
  | d :: rest => let! r' := register d r in register_all rest r'
  end.

Definition make_registry (ds : list ResearchProviderDescriptor) (allow : bool)
    : outcome ResearchProviderRegistry := register_all ds (empty_catalog allow).

Definition get (provider_id : string) (r : ResearchProviderRegistry)
    : option ResearchProviderDescriptor := entries r !! provider_id.

Definition list_providers (r : ResearchProviderRegistry) : list ResearchProviderDescriptor :=
  listing r.

Section Fingerprint.
Variable sha256_hex : string -> string.

Definition fingerprint (r : ResearchProviderRegistry) : string :=
  stable_sha256 sha256_hex
    (JObj [("kind", JStr "research_provider_registry_v1");
           ("providers", JList (map (fun d =>
              JObj [("provider_id", JStr (d_provider_id d));
                    ("supported_markets", JStrs (d_supported_markets d));
                    ("supported_capabilities",
                     JStrs (map capability_value (d_supported_capabilities d)));
                    ("supported_sources", JStrs (d_supported_sources d))])
              (list_providers r)))]%string).
End Fingerprint.

(** Every provider is stored under its own id, and a registry without test
    providers holds no fixture. *)
Record registry_ok (r : ResearchProviderRegistry) : Prop := {
  reg_catalog : catalog_ok r;
  reg_keys : forall k d, entries r !! k = Some d -> d_provider_id d = k;
  reg_fixture : forall k d, entries r !! k = Some d -> allow_test r = false -> d_test_fixture d = false
}.

Lemma empty_registry_ok allow : registry_ok (empty_catalog allow).
Proof. split; [apply empty_ok | |]; intros k d; simpl; rewrite lookup_empty; done. Qed.

Lemma register_ok d r r' : registry_ok r -> register d r = Ok r' -> registry_ok r'.
Proof.
  intros [Hc Hk Hf] H. unfold register in H. apply rbind_unit_ok in H as [H1 H].
  apply rbind_unit_ok in H as [H2 [= <-]]. apply guard_raise_ok in H1, H2.
  assert (Hnone : entries r !! d_provider_id d = None).
  { by destruct (entries r !! d_provider_id d). }
  split; simpl.
  - by apply add_ok.
  - intros k x. destruct (decide (k = d_provider_id d)) as [-> | Hne];
      [rewrite lookup_insert_eq; by intros [= <-] | rewrite lookup_insert_ne by done; apply Hk].
  - intros k x. destruct (decide (k = d_provider_id d)) as [-> | Hne].
    + rewrite lookup_insert_eq. intros [= <-] Hallow. rewrite Hallow in H1. simpl in H1.
      by rewrite andb_true_r in H1.
    + rewrite lookup_insert_ne by done. apply Hf.
Qed.

Lemma register_all_ok ds r r' : registry_ok r -> register_all ds r = Ok r' -> registry_ok r'.
Proof.
  revert r. induction ds as [|d ds IH]; intros r Hr H; simpl in H; [by injection H as <-|].
  apply rbind_ok_inv in H as (r1 & H1 & H). eapply IH; [| exact H]. by eapply register_ok.
Qed.

(** One provider per id in the listing. *)
Lemma list_providers_unique r d1 d2 :
  registry_ok r -> d1 ∈ list_providers r -> d2 ∈ list_providers r ->
  d_provider_id d1 = d_provider_id d2 -> d1 = d2.
Proof.
  intros [Hc Hk _] H1 H2 E. apply elem_of_listing in H1 as [k1 H1], H2 as [k2 H2]; try done.
  pose proof (Hk _ _ H1). pose proof (Hk _ _ H2). congruence.
Qed.

End Registry.

(** ** [ResearchProviderCertificationCatalog] *)
Module Certifications.

Definition ResearchProviderCertificationCatalog : Type :=
  catalog cert_key ResearchProviderCertification.

Definition with_certification_id (id : string) (c : ResearchProviderCertification) :=
  {| c_provider_id := c_provider_id c; c_capability := c_capability c; c_market := c_market c;
     c_version := c_version c; c_status := c_status c; c_policy := c_policy c;
     c_source := c_source c; c_source_scope := c_source_scope c;
     c_test_fixture := c_test_fixture c; c_certification_id := id |}.

Section Certifications.
Variable sha256_hex : string -> string.

Definition _certification_id (c : ResearchProviderCertification) : string :=
  "research-cert:" +:+ stable_sha256 sha256_hex
    (JObj [("kind", JStr "research_provider_certification_v1");
           ("provider_id", JStr (c_provider_id c));
           ("capability", JStr (capability_value (c_capability c)));
           ("market", JStr (c_market c)); ("source", JOpt JStr (c_source c));
           ("source_scope", JStr (c_source_scope c)); ("status", JStr (c_status c));
           ("policy", JStr (c_policy c)); ("certification_version", JStr (c_version c))]%string).

(** [replace(stored, certification_id=...)] validates the record again. *)
Definition stored_record (c : ResearchProviderCertification)
    : outcome ResearchProviderCertification :=
  if nonempty (c_certification_id c) then Ok c
  else certification_post_init (with_certification_id (_certification_id c) c).

Definition refused_fixture (c : ResearchProviderCertification)
    (t : ResearchProviderCertificationCatalog) : outcome unit :=
  guard_raise (c_test_fixture c && negb (allow_test t))
    (ValueError "test certifications cannot be registered in the production catalog").

Definition key_text (c : ResearchProviderCertification) : string :=
  c_provider_id c +:+ "/" +:+ capability_value (c_capability c) +:+ "/" +:+ c_market c
  +:+ "/" +:+ (if some_text (c_source c) then default "" (c_source c) else "source_agnostic").

Definition register (c : ResearchProviderCertification) (t : ResearchProviderCertificationCatalog)
    : outcome ResearchProviderCertificationCatalog :=
  let! _ := refused_fixture c t in
  let! stored := stored_record c in
  let key := certification_lookup_key stored in
  raise! ValueError ("duplicate certification for " +:+ key_text stored)
    when is_some (entries t !! key) in
  Ok (add key stored t).

Definition replace (c : ResearchProviderCertification) (t : ResearchProviderCertificationCatalog)
    : outcome ResearchProviderCertificationCatalog :=
  let! _ := refused_fixture c t in
  let! stored := stored_record c in
  let key := certification_lookup_key stored in
  raise! ValueError ("no existing certification to replace for " +:+ key_text stored)
    when negb (is_some (entries t !! key)) in
  Ok {| allow_test := allow_test t; entries := <[key := stored]> (entries t); order := order t |}.

Definition make_research_provider_certification (provider : string)
    (capability : ResearchCapability) (market version status policy : string)
    (source : option string) (scope : string) (fixture : bool)
    : outcome ResearchProviderCertification :=
  let! record := certification_post_init
    {| c_provider_id := provider; c_capability := capability; c_market := market;
       c_version := version; c_status := status; c_policy := policy; c_source := source;
       c_source_scope := scope; c_test_fixture := fixture; c_certification_id := "" |} in
  certification_post_init (with_certification_id (_certification_id record) record).

Definition fingerprint (t : ResearchProviderCertificationCatalog) : string :=
  stable_sha256 sha256_hex
    (JObj [("kind", JStr "research_provider_certification_catalog_v1");
           ("records", JList (map certification_to_dict (listing t)))]%string).
End Certifications.

Definition records_for_provider (provider : string) (t : ResearchProviderCertificationCatalog)
    : list ResearchProviderCertification :=
  List.filter (fun c => String.eqb (c_provider_id c) provider) (listing t).

Definition lookup_cert (provider : string) (capability : ResearchCapability) (market : string)
    (source : option string) (t : ResearchProviderCertificationCatalog)
    : option ResearchProviderCertification :=
  entries t !! match source with
               | None => (provider, capability_value capability, market, "source_agnostic", "")
               | Some s => (provider, capability_value capability, market, "exact", s)
               end%string.

(** Every certification is stored under its own key. *)
Record certs_ok (t : ResearchProviderCertificationCatalog) : Prop := {
  cert_catalog : catalog_ok t;
  cert_keys : forall k c, entries t !! k = Some c -> certification_lookup_key c = k;
  cert_fixture : forall k c, entries t !! k = Some c -> allow_test t = false ->
    c_test_fixture c = false
}.

(** The exact record, and no other, answers a lookup. *)
Lemma lookup_cert_exact t provider capability market source c :
  certs_ok t -> lookup_cert provider capability market source t = Some c ->
  c_provider_id c = provider /\ c_capability c = capability /\ c_market c = market
  /\ match source with
     | Some s => c_source_scope c = "exact"%string /\ default ""%string (c_source c) = s
     | None => c_source_scope c = "source_agnostic"%string
     end.
Proof.
  intros Ht H. apply (cert_keys t Ht) in H. unfold certification_lookup_key in H.
  destruct source; injection H as -> Hcap -> -> Hs; apply capability_value_inj in Hcap; auto.
Qed.

Lemma stored_fixture sha256_hex c s :
  stored_record sha256_hex c = Ok s -> c_test_fixture s = c_test_fixture c.
Proof.
  unfold stored_record. destruct (nonempty _); [by intros [= <-] |].
  unfold certification_post_init. intros H.
  apply rbind_unit_ok in H as [_ H]. apply rbind_unit_ok in H as [_ H].
  apply rbind_ok_inv in H as (code & _ & H).
  do 3 (apply rbind_unit_ok in H as [_ H]). by injection H as <-.
Qed.

Lemma register_keeps sha256_hex c t t' :
  certs_ok t -> register sha256_hex c t = Ok t' -> certs_ok t'.
Proof.
  intros [Hc Hk Hf] H. unfold register in H. apply rbind_unit_ok in H as [H1 H].
  apply rbind_ok_inv in H as (stored & Hs & H). apply rbind_unit_ok in H as [H2 [= <-]].
  apply guard_raise_ok in H2.
  assert (Hnone : entries t !! certification_lookup_key stored = None)
    by (by destruct (entries t !! certification_lookup_key stored)).
  assert (Hfix : c_test_fixture stored = c_test_fixture c) by (by eapply stored_fixture).
  split; simpl.
  - by apply add_ok.
  - intros k x. destruct (decide (k = certification_lookup_key stored)) as [-> | Hne];
      [rewrite lookup_insert_eq; by intros [= <-] | rewrite lookup_insert_ne by done; apply Hk].
  - intros k x. destruct (decide (k = certification_lookup_key stored)) as [-> | Hne].
    + rewrite lookup_insert_eq. intros [= <-] Hallow. unfold refused_fixture in H1.
      apply guard_raise_ok in H1. rewrite Hallow, andb_true_r in H1. congruence.
    + rewrite lookup_insert_ne by done. apply Hf.
Qed.

End Certifications.

(** ** [ResearchProviderRoutingPolicyCatalog] *)
Module Routing.

Definition ResearchProviderRoutingPolicyCatalog : Type :=
  catalog string ResearchProviderRoutingPolicy.

Definition register (p : ResearchProviderRoutingPolicy) (t : ResearchProviderRoutingPolicyCatalog)
    : outcome ResearchProviderRoutingPolicyCatalog :=
  raise! ValueError "test routing policies cannot be registered in the production catalog"
    when p_test_fixture p && negb (allow_test t) in
  raise! ValueError ("duplicate routing policy for provider_id: " +:+ p_provider_id p)
    when is_some (entries t !! p_provider_id p) in
  Ok (add (p_provider_id p) p t).

Definition lookup_policy (provider : string) (t : ResearchProviderRoutingPolicyCatalog)
    : option ResearchProviderRoutingPolicy := entries t !! provider.

Definition _CONFIGURED_BUCKET : Z := 0.
Definition _UNCONFIGURED_BUCKET : Z := 1.

Definition sort_key (t : ResearchProviderRoutingPolicyCatalog) (provider : string)
    : Z * Z * string :=
  match lookup_policy provider t with
  | None => (_UNCONFIGURED_BUCKET, 0, provider)
  | Some p => (_CONFIGURED_BUCKET, p_routing_priority p, provider)
  end.

(** Python's order of the three-tuples. *)
Definition key_ltb (a b : Z * Z * string) : bool :=
  let '(a1, a2, a3) := a in
  let '(b1, b2, b3) := b in
  (a1 <? b1) || (a1 =? b1) && ((a2 <? b2) || (a2 =? b2) && str_ltb a3 b3).

Definition fingerprint (sha256_hex : string -> string) (t : ResearchProviderRoutingPolicyCatalog)
    : string :=
  stable_sha256 sha256_hex
    (JObj [("kind", JStr "research_provider_routing_policy_catalog_v1");
           ("records", JList (map (fun p =>
              JObj [("provider_id", JStr (p_provider_id p));
                    ("routing_priority", JInt (p_routing_priority p))])
              (sorted str_ltb p_provider_id (listing t))))]%string).

Definition production_research_provider_routing_policy_catalog
    : ResearchProviderRoutingPolicyCatalog := empty_catalog false.

Lemma key_ltb_asym a b : key_ltb a b = true -> key_ltb b a = false.
Proof.
  destruct a as [[a1 a2] a3], b as [[b1 b2] b3]. unfold key_ltb.
  rewrite !orb_true_iff, !andb_true_iff, !orb_true_iff, !andb_true_iff, !Z.ltb_lt, !Z.eqb_eq.
  intros H. apply not_true_iff_false.
  rewrite !orb_true_iff, !andb_true_iff, !orb_true_iff, !andb_true_iff, !Z.ltb_lt, !Z.eqb_eq.
  destruct H as [? | [? [? | [? H]]]]; [lia | lia |].
  apply str_ltb_asym in H. rewrite H. intros [? | [? [? | [? ?]]]]; lia || discriminate.
Qed.

Lemma key_ltb_trans a b c : key_ltb b a = false -> key_ltb c b = false -> key_ltb c a = false.
Proof.
  destruct a as [[a1 a2] a3], b as [[b1 b2] b3], c as [[c1 c2] c3]. unfold key_ltb.
  rewrite <- !not_true_iff_false.
  rewrite !orb_true_iff, !andb_true_iff, !orb_true_iff, !andb_true_iff, !Z.ltb_lt, !Z.eqb_eq.
  intros H1 H2 [H | [H [H' | [H' H3]]]]; [| |].
  - lia.
  - lia.
  - assert (a1 = b1) by lia. assert (a2 = b2) by lia.
    assert (str_ltb b3 a3 = false) by (apply not_true_iff_false; intros ?; apply H1; right; split; [lia | right; split; [lia | done]]).
    assert (str_ltb c3 b3 = false) by (apply not_true_iff_false; intros ?; apply H2; right; split; [lia | right; split; [lia | done]]).
    by rewrite (str_ltb_trans a3 b3 c3) in H3.
Qed.

End Routing.
