(* ===== verification/Eligibility.v ===== *)
(** Which certified provider may serve a requirement:
    [app/research/capabilities.py] and [app/research/eligibility.py].

    A provider is eligible when it supports the requirement technically and
    the certification catalog holds the exact record for it; the routing
    policy only orders the eligible ones. *)

From S2P Require Import Prelude PyStr Json Countries Connector Research Catalogs.
Import Connector Research Catalog.
#[local] Open Scope Z_scope.

(** ** Required capabilities of a scope *)
Module Capabilities.

Definition _TOPIC_CAPABILITIES : list (list string * ResearchCapability) :=
  [(["price"; "pricing"; "cost"], CURRENT_PRICING);
   (["ship"; "delivery"; "deliver"], SHIPPING);
   (["tax"; "duty"; "duties"; "import"], TAXES_IMPORT);
   (["warrant"], WARRANTY_EVIDENCE);
   (["review"; "reddit"; "community"; "youtube"], REVIEW_COMMUNITY_EVIDENCE);
   (["spec"; "microphone"; "mic"; "battery"; "anc"], PRODUCT_SPECIFICATION);
   (["available"; "availability"; "stock"], AVAILABILITY);
   (["promo"; "voucher"; "discount"], PROMOTION_EVIDENCE)]%string.

Definition _capabilities_for_topic (topic : string) : list ResearchCapability :=
  let lowered := casefold topic in
  omap (fun row : list string * ResearchCapability =>
          if existsb (fun needle => contains needle lowered) row.1 then Some row.2 else None)
    _TOPIC_CAPABILITIES.

Definition _dedupe (items : list ResearchCapability) : list ResearchCapability :=
  dedupe_loop [] items.

(** [if items:] for a list. *)
Definition any_item {A} (l : list A) : bool := match l with [] => false | _ => true end.

Definition derive_required_capabilities (scope : FrozenResearchScope) : list ResearchCapability :=
  let is_reason r := String.eqb (sc_reason scope) r in
  let required :=
    (if is_reason "outside_evaluated_set" || any_item (outside_set_product_names scope)
     then [PRODUCT_DISCOVERY; OFFER_DISCOVERY] else [])
    ++ (if is_reason "evaluated_set_expansion" || expansion_required scope
        then [PRODUCT_DISCOVERY; OFFER_DISCOVERY] else [])
    ++ (if is_reason "freshness_required" || freshness_required scope
        then [CURRENT_PRICING] else [])
    ++ (if is_reason "requested_source" || any_item (requested_sources scope)
        then [OFFER_DISCOVERY; CURRENT_PRICING] else [])
    ++ (if is_reason "reevaluation_required" || some_text (destination_label scope)
        then [SHIPPING; TAXES_IMPORT] else []) in
  let required :=
    if is_reason "insufficient_evidence" && negb (any_item required)
    then required ++ [PRODUCT_SPECIFICATION] else required in
  _dedupe (required ++ flat_map _capabilities_for_topic (requested_evidence_topics scope)).

Example derive_example :
  derive_required_capabilities
    {| sc_reason := "requested_source"; evaluated_product_ids := [];
       outside_set_product_names := []; requested_evidence_topics := ["Price and SHIPPING"%string];
       requested_sources := ["shopify"%string]; destination_label := None;
       expansion_required := false; freshness_required := true;
       canonical_update_may_be_required := false |}
  = [CURRENT_PRICING; OFFER_DISCOVERY; SHIPPING].
Proof. vm_compute. reflexivity. Qed.

End Capabilities.

Module Eligibility.

Definition DESTINATION_REEVALUATION_IMPLEMENTED : bool := false.

Definition destination_sensitive_required (scope_has_destination : bool) : bool :=
  scope_has_destination && negb DESTINATION_REEVALUATION_IMPLEMENTED.

Definition _dedupe (l : list string) : list string := dedupe_loop [] l.

Definition _POLICY_REASONS (policy : string) : string := "policy_not_allowed".

Definition _missing_certification_reasons (t : Certifications.ResearchProviderCertificationCatalog)
    (provider : string) (capability : ResearchCapability) (market : string)
    (source : option string) : list string :=
  let records := Certifications.records_for_provider provider t in
  let same_capability := List.filter (fun c => bool_decide (c_capability c = capability)) records in
  let same_market := List.filter (fun c => String.eqb (c_market c) market) same_capability in
  match records, same_capability, same_market with
  | [], _, _ => ["certification_missing"]
  | _, [], _ => ["certification_capability_mismatch"]
  | _, _, [] => ["certification_market_mismatch"]
  | _, _, _ =>
      match source with
      | None => ["certification_missing"]
      | Some s =>
          if existsb (fun c => String.eqb (c_source_scope c) "exact"
                               && match c_source c with Some x => String.eqb x s | None => false end)
               same_market
          then ["certification_missing"] else ["certification_source_mismatch"]
      end
  end%string.

Definition _certification_decision (t : Certifications.ResearchProviderCertificationCatalog)
    (provider : string) (capability : ResearchCapability) (market : string)
    (source : option string) : option ResearchProviderCertification * list string :=
  match Certifications.lookup_cert provider capability market source t with
  | Some c =>
      (Some c,
       (if negb (String.eqb (c_status c) "certified")
        then ["certification_"%string +:+ c_status c] else [])
       ++ (if negb (String.eqb (c_policy c) "allowed") then [_POLICY_REASONS (c_policy c)] else []))
  | None => (None, _missing_certification_reasons t provider capability market source)
  end.

Definition evaluate_provider (d : ResearchProviderDescriptor)
    (t : Certifications.ResearchProviderCertificationCatalog) (capability : ResearchCapability)
    (market source : option string)
    : ProviderEligibility * option ResearchProviderCertification :=
  let technical := Provider.supports d capability market source in
  let rs := if bool_decide (reasons technical = ["technical_capability_market_source"%string])
            then [] else reasons technical in
  let '(record, rs) :=
    match market with
    | Some m =>
        if negb (one_of "missing_market_context" rs) then
          let '(record, cert_reasons) :=
            _certification_decision t (d_provider_id d) capability m source in
          (record, rs ++ cert_reasons)
        else (None, rs)
    | None => (None, rs)
    end in
  let ordered := _dedupe rs in
  let eligible := match ordered with [] => true | _ => false end in
  ({| el_provider_id := d_provider_id d; eligible := eligible;
      reasons := match ordered with
                 | [] => ["certified_capability_market_source"%string]
                 | _ => ordered
                 end;
      el_capability := Some capability; el_market := market; el_source := source |},
   if eligible then record else None).

(** A match of the selection loop. *)
Abbreviation match_ :=
  (ResearchProviderDescriptor * ResearchProviderCertification * option string)%type.

(** [sources_to_try]. *)
Definition sources_to_try (d : ResearchProviderDescriptor) (source : option string)
    : list (option string) :=
  match source with
  | Some s => [Some s]
  | None => None :: map Some (sorted str_ltb (fun s => s) (d_supported_sources d))
  end.

(** The inner loop: every source is audited; the first eligible one is kept. *)
Fixpoint try_sources (d : ResearchProviderDescriptor)
    (t : Certifications.ResearchProviderCertificationCatalog) (capability : ResearchCapability)
    (market : option string) (srcs : list (option string)) (matched : option match_)
    : option match_ * list ProviderEligibility :=
  match srcs with
  | [] => (matched, [])
  | src :: rest =>
      let '(decision, record) := evaluate_provider d t capability market src in
      let matched' :=
        match record, matched with
        | Some c, None => if eligible decision then Some (d, c, src) else matched
        | _, _ => matched
        end in
      let '(m, audits) := try_sources d t capability market rest matched' in
      (m, decision :: audits)
  end.

(** The outer loop: the matches and the audits, in registry order. *)
Fixpoint try_providers (ds : list ResearchProviderDescriptor)
    (t : Certifications.ResearchProviderCertificationCatalog) (capability : ResearchCapability)
    (market source : option string) : list match_ * list ProviderEligibility :=
  match ds with
  | [] => ([], [])
  | d :: rest =>
      let '(m, audits) := try_sources d t capability market (sources_to_try d source) None in
      let '(ms, more) := try_providers rest t capability market source in
      (match m with Some x => x :: ms | None => ms end, audits ++ more)
  end.

Definition match_key (routing : Routing.ResearchProviderRoutingPolicyCatalog) (x : match_)
    : Z * Z * string := Routing.sort_key routing (d_provider_id x.1.1).

Definition select_certified_provider (registry : Registry.ResearchProviderRegistry)
    (t : Certifications.ResearchProviderCertificationCatalog)
    (routing : Routing.ResearchProviderRoutingPolicyCatalog)
    (capability : ResearchCapability) (market source : option string)
    : option match_ * list ProviderEligibility :=
  let '(found, audits) :=
    try_providers (Registry.list_providers registry) t capability market source in
  (head (sorted Routing.key_ltb (match_key routing) found), audits).

(** ** Reasons *)

Definition _selection_reason (audits : list ProviderEligibility) (selected : string)
    (routing : Routing.ResearchProviderRoutingPolicyCatalog) : string :=
  let eligible_ids := _dedupe (map el_provider_id (List.filter eligible audits)) in
  if (length eligible_ids <=? 1)%nat then "certified_capability_market_source"
  else if is_some (Routing.lookup_policy selected routing) then "trusted_routing_priority"
  else "provider_id_fallback".

Definition all_have (r : string) (audits : list ProviderEligibility) : bool :=
  forallb (fun a => one_of r (reasons a)) audits.
Definition all_have_either (r1 r2 : string) (audits : list ProviderEligibility) : bool :=
  forallb (fun a => one_of r1 (reasons a) || one_of r2 (reasons a)) audits.

(** The first reason of a list that every audit shares. *)
Definition first_shared (rs : list string) (audits : list ProviderEligibility) : option string :=
  List.find (fun r => all_have r audits) rs.

Definition _blocked_reason (audits : list ProviderEligibility) (source : option string) : string :=
  if negb (Capabilities.any_item audits) || existsb eligible audits
  then "blocked_missing_certified_provider"
  else if all_have "certification_missing" audits then "certification_missing"
  else
    match first_shared ["kill_switch"; "circuit_open"; "provider_unavailable";
                        "certification_revoked"; "certification_disabled";
                        "certification_pending"; "certification_expired"]%string audits with
    | Some r => r
    | None =>
        if is_some source
           && all_have_either "source_not_supported" "certification_source_mismatch" audits
        then if all_have "source_not_supported" audits then "source_not_supported"
             else "certification_source_mismatch"
        else if all_have "provider_market_not_supported" audits
        then "provider_market_not_supported"
        else if all_have "certification_market_mismatch" audits
        then "certification_market_mismatch"
        else if all_have_either "provider_capability_not_supported"
                  "certification_capability_mismatch" audits
        then if all_have "provider_capability_not_supported" audits
             then "provider_capability_not_supported" else "certification_capability_mismatch"
        else if all_have "policy_not_allowed" audits then "policy_not_allowed"
        else "blocked_missing_certified_provider"
    end.

Definition _blocked_detail (capability : ResearchCapability) (source : option string)
    (market : string) : string :=
  "No certified provider for " +:+ capability_value capability +:+ " in " +:+ market +:+ " from "
  +:+ (if some_text source then default "" source else "any permitted source") +:+ ".".

(** ** [assign_capability_step] *)

Definition blocked_requirement (capability : ResearchCapability) (reason detail : string)
    (material : bool) : outcome BlockedRequirement :=
  blocked_post_init
    {| b_capability := capability; b_reason := reason; b_detail := detail; b_unknown := true;
       b_material := material |}.

Section Assign.
Variables (registry : Registry.ResearchProviderRegistry)
          (t : Certifications.ResearchProviderCertificationCatalog)
          (routing : Routing.ResearchProviderRoutingPolicyCatalog)
          (capability : ResearchCapability).

Definition make_step (index : Z) (x : match_) (market : string) (requested : option string)
    (audits : list ProviderEligibility) : outcome ResearchProviderStep :=
  let '(d, c, matched) := x in
  step_post_init
    {| step_index := index; s_provider_id := d_provider_id d;
       s_provider_type := d_provider_type d; s_capability := capability;
       source_identities :=
         if some_text requested then [default "" requested]%string
         else if some_text matched then [default "" matched]%string else [];
       s_market := Some market; s_certification_id := c_certification_id c;
       s_certification_version := c_version c;
       selection_reason := _selection_reason audits (d_provider_id d) routing;
       s_attempted := false |}.

(** The loop over the requested sources; [n] steps have been assigned. *)
Fixpoint assign_sources (srcs : list (option string)) (market : string) (step_index n : Z)
    : outcome (list ResearchProviderStep * list BlockedRequirement * list ProviderEligibility) :=
  match srcs with
  | [] => Ok ([], [], [])
  | requested :: rest =>
      match select_certified_provider registry t routing capability (Some market) requested with
      | (None, audits) =>
          let! b := blocked_requirement capability (_blocked_reason audits requested)
                      (_blocked_detail capability requested market)
                      (destination_capability capability) in
          let! (steps, blocked, more) := assign_sources rest market step_index n in
          Ok (steps, b :: blocked, audits ++ more)
      | (Some x, audits) =>
          let! s := make_step (step_index + n) x market requested audits in
          let! (steps, blocked, more) := assign_sources rest market step_index (n + 1) in
          Ok (s :: steps, blocked, audits ++ more)
      end
  end.

Definition assign_capability_step (market : option TrustedMarketContext)
    (sources : list string) (step_index : Z) (destination_sensitive : bool)
    : outcome (list ResearchProviderStep * list BlockedRequirement * list ProviderEligibility) :=
  if destination_sensitive && destination_capability capability then
    let! b := blocked_requirement capability "destination_support_not_ready"
      ("Destination-sensitive cost is owned by Sprint 37. "
       +:+ "The router will not estimate shipping or taxes.") true in
    Ok ([], [b], [])
  else
    match market with
    | None =>
        let! b := blocked_requirement capability "missing_market_context"
          "Trusted market context is required and must not be fabricated."
          (destination_capability capability) in
        Ok ([], [b], [])
    | Some m =>
        assign_sources (match sources with [] => [None] | _ => map Some sources end)
          (country_code m) step_index 0
    end.
End Assign.

(** ** Eligibility is technical support and an exact executable certification *)

Section Laws.
Context (t : Certifications.ResearchProviderCertificationCatalog).

(** What makes provider [d] usable for a source: [c] is the exact record. *)
Definition certified_for (d : ResearchProviderDescriptor) (capability : ResearchCapability)
    (market source : option string) (c : ResearchProviderCertification) : Prop :=
  Provider.technical d capability market source
  /\ exists m, market = Some m
     /\ Certifications.lookup_cert (d_provider_id d) capability m source t = Some c
     /\ is_executable c = true.

Lemma supports_reasons d capability market source :
  (if bool_decide (reasons (Provider.supports d capability market source)
                   = ["technical_capability_market_source"%string])
   then [] else reasons (Provider.supports d capability market source))
  = Provider._technical_ineligibility_reasons d capability market source.
Proof.
  unfold Provider.supports. simpl.
  pose proof (Provider.technical_reasons_plain d capability market source) as Hno.
  destruct (Provider._technical_ineligibility_reasons d capability market source) as [|r rs].
  - by rewrite bool_decide_true.
  - rewrite bool_decide_false; [done |]. intros [= -> ->]. apply Hno. constructor.
Qed.

Lemma missing_reasons_some provider capability market source :
  _missing_certification_reasons t provider capability market source <> [].
Proof. unfold _missing_certification_reasons. by repeat case_match. Qed.

Lemma market_given d capability m source :
  one_of "missing_market_context"
    (Provider._technical_ineligibility_reasons d capability (Some m) source) = false.
Proof.
  apply not_true_iff_false. rewrite Provider.one_of_elem.
  unfold Provider._technical_ineligibility_reasons, Provider._dedupe.
  rewrite elem_of_dedupe_loop, !elem_of_app. intros [[H | [H | [H | H]]] _]; revert H;
    repeat case_match; rewrite ?elem_of_nil, ?list_elem_of_singleton; done.
Qed.

Lemma decision_reasons provider capability m source :
  (_certification_decision t provider capability m source).2 = [] <->
  exists c, Certifications.lookup_cert provider capability m source t = Some c
            /\ is_executable c = true.
Proof.
  unfold _certification_decision, is_executable, EXECUTABLE_CERTIFICATION_STATUS.
  destruct (Certifications.lookup_cert _ _ _ _ _) as [c|]; simpl.
  - rewrite app_nil.
    transitivity (String.eqb (c_status c) "certified" && String.eqb (c_policy c) "allowed" = true).
    + destruct (String.eqb (c_status c) "certified"), (String.eqb (c_policy c) "allowed");
        simpl; split; try done; by intros [? ?].
    + split; [eauto | by intros (c' & [= <-] & ?)].
  - split; [intros H; by apply missing_reasons_some in H | by intros (? & [=] & _)].
Qed.

Lemma eligible_iff d capability market source :
  eligible (evaluate_provider d t capability market source).1 = true
  <-> exists c, certified_for d capability market source c.
Proof.
  unfold evaluate_provider. rewrite supports_reasons.
  destruct market as [m|].
  - rewrite market_given. cbn [negb].
    pose proof (decision_reasons (d_provider_id d) capability m source) as Hd.
    destruct (_certification_decision t (d_provider_id d) capability m source) as [rec cr].
    cbn [snd fst eligible] in *.
    transitivity (_dedupe (Provider._technical_ineligibility_reasons d capability (Some m) source
                           ++ cr) = []); [by destruct (_dedupe _) |].
    rewrite (Provider.dedupe_nil _), app_nil, Provider.technical_reasons_nil, Hd.
    unfold certified_for. naive_solver.
  - cbn [eligible fst].
    transitivity (_dedupe (Provider._technical_ineligibility_reasons d capability None source) = []);
      [by destruct (_dedupe _) |].
    rewrite (Provider.dedupe_nil _), Provider.technical_reasons_nil.
    unfold certified_for, Provider.technical. naive_solver.
Qed.

(** The record that comes with a decision. *)
Lemma record_iff d capability market source c :
  (evaluate_provider d t capability market source).2 = Some c
  <-> certified_for d capability market source c.
Proof.
  pose proof (eligible_iff d capability market source) as He. revert He.
  unfold evaluate_provider. rewrite supports_reasons. destruct market as [m|].
  - rewrite market_given. cbn [negb]. unfold _certification_decision.
    assert (Hl : forall c', certified_for d capability (Some m) source c' ->
      Certifications.lookup_cert (d_provider_id d) capability m source t = Some c')
      by (by intros c' (_ & m' & [= <-] & ? & _)).
    destruct (Certifications.lookup_cert (d_provider_id d) capability m source t) as [c0|] eqn:E;
      cbn [fst snd eligible]; set (b := match _ with [] => true | _ => false end); intros He.
    + split.
      * destruct b; [intros [= <-] | done]. destruct (proj1 He eq_refl) as [c' Hc'].
        pose proof (Hl c' Hc') as [= <-]. done.
      * intros Hc. rewrite (proj2 He) by eauto. by pose proof (Hl c Hc) as [= <-].
    + split; [by destruct b |]. intros Hc. by specialize (Hl c Hc).
  - cbn [fst snd]. intros _. split; [by destruct (_dedupe _) |].
    by intros (_ & m & [=] & _).
Qed.

Lemma eligible_record d capability market source :
  eligible (evaluate_provider d t capability market source).1 = true
  <-> is_Some (evaluate_provider d t capability market source).2.
Proof.
  rewrite eligible_iff. unfold is_Some. split; intros [c Hc]; exists c; by apply record_iff.
Qed.

(** The first eligible source of the list, with its record. *)
Lemma try_sources_kept d capability market srcs x :
  (try_sources d t capability market srcs (Some x)).1 = Some x.
Proof.
  induction srcs as [|src srcs IH]; [done |]. cbn [try_sources].
  destruct (evaluate_provider d t capability market src) as [el rec].
  assert (match rec with Some _ => Some x | None => Some x end = Some x) as Hx by (by destruct rec).
  destruct rec; simpl; destruct (try_sources _ _ _ _ _ _); done.
Qed.

Lemma try_sources_spec d capability market srcs :
  match (try_sources d t capability market srcs None).1 with
  | Some (d', c, src) => d' = d /\ src ∈ srcs /\ certified_for d capability market src c
  | None => forall src c, src ∈ srcs -> ~ certified_for d capability market src c
  end.
Proof.
  induction srcs as [|src srcs IH]; cbn [try_sources].
  { intros src c H. by apply elem_of_nil in H. }
  pose proof (eligible_record d capability market src) as Her.
  pose proof (record_iff d capability market src) as Hrec.
  destruct (evaluate_provider d t capability market src) as [el [c|]]; cbn [fst snd] in *.
  - assert (eligible el = true) as -> by (apply Her; eauto).
    pose proof (try_sources_kept d capability market srcs (d, c, src)) as Hk.
    cbv beta iota zeta.
    destruct (try_sources d t capability market srcs (Some (d, c, src))) as [m audits].
    cbn [fst] in *. subst m. split; [done |]. split; [constructor |]. by apply Hrec.
  - destruct (try_sources d t capability market srcs None) as [m audits]. simpl in *.
    destruct m as [[[d' c'] src']|].
    + destruct IH as (? & ? & ?). split; [done |]. split; [by constructor | done].
    + intros s c [-> | Hs]%elem_of_cons; [| by apply IH].
      intros Hc%Hrec. discriminate.
Qed.

Definition usable (d : ResearchProviderDescriptor) (capability : ResearchCapability)
    (market source : option string) : Prop :=
  exists src c, src ∈ sources_to_try d source /\ certified_for d capability market src c.

Lemma try_providers_spec ds capability market source x :
  x ∈ (try_providers ds t capability market source).1 <->
  x.1.1 ∈ ds /\ (try_sources x.1.1 t capability market (sources_to_try x.1.1 source) None).1 = Some x.
Proof.
  induction ds as [|d ds IH]; cbn [try_providers].
  { split; [intros H; by apply elem_of_nil in H | intros [H _]; by apply elem_of_nil in H]. }
  pose proof (try_sources_spec d capability market (sources_to_try d source)) as Hs.
  destruct (try_sources d t capability market (sources_to_try d source) None) as [m a1] eqn:Em.
  destruct (try_providers ds t capability market source) as [ms a2].
  simpl in *. rewrite elem_of_cons.
  destruct m as [[[d' c] src]|].
  - destruct Hs as (-> & _ & _). rewrite elem_of_cons, IH. split.
    + intros [-> | [H1 H2]]; [| by auto]. simpl. rewrite Em. auto.
    + intros [[E | H1] H2]; [| by auto]. left. rewrite E, Em in H2. by injection H2 as <-.
  - rewrite IH. split; [by intros [H1 H2]; auto |].
    intros [[E | H1] H2]; [| by auto]. rewrite E, Em in H2. done.
Qed.

Lemma match_usable d capability market source :
  usable d capability market source <->
  exists x, (try_sources d t capability market (sources_to_try d source) None).1 = Some x.
Proof.
  pose proof (try_sources_spec d capability market (sources_to_try d source)) as Hs.
  destruct (try_sources d t capability market (sources_to_try d source) None) as [[[[d' c] src]|] a];
    simpl in *.
  - destruct Hs as (_ & Hin & Hc). split; [eauto |]. intros _. by exists src, c.
  - split; [| by intros [? [=]]]. intros (src & c & Hin & Hc). by apply Hs in Hc.
Qed.

(** An audit never overstates. A provider is reported eligible for a
    capability, market and source exactly when it is operationally available,
    supports all three, and the catalog holds the record for exactly these
    with status [certified] and policy [allowed]; the record returned is that
    record. Technical support alone never makes a provider eligible. *)
Theorem eligible_means_certified d capability market source :
  (eligible (evaluate_provider d t capability market source).1 = true
   <-> exists c, certified_for d capability market source c)
  /\ (forall c, (evaluate_provider d t capability market source).2 = Some c
                <-> certified_for d capability market source c).
Proof. split; [apply eligible_iff | intros c; apply record_iff]. Qed.
End Laws.

(** ** The selection *)

Section Selection.
Context (registry : Registry.ResearchProviderRegistry)
        (t : Certifications.ResearchProviderCertificationCatalog)
        (routing : Routing.ResearchProviderRoutingPolicyCatalog).

Definition better (a b : ResearchProviderDescriptor) : Prop :=
  Routing.key_ltb (Routing.sort_key routing (d_provider_id b))
    (Routing.sort_key routing (d_provider_id a)) = false.

Lemma selection_spec capability market source :
  match (select_certified_provider registry t routing capability market source).1 with
  | Some (d, c, src) =>
      d ∈ Registry.list_providers registry /\ src ∈ sources_to_try d source
      /\ certified_for t d capability market src c
      /\ (try_sources d t capability market (sources_to_try d source) None).1 = Some (d, c, src)
      /\ (forall d', d' ∈ Registry.list_providers registry ->
            usable t d' capability market source -> better d d')
  | None => forall d, d ∈ Registry.list_providers registry ->
              ~ usable t d capability market source
  end.
Proof.
  unfold select_certified_provider.
  pose proof (try_providers_spec t (Registry.list_providers registry) capability market source)
    as Hall.
  destruct (try_providers (Registry.list_providers registry) t capability market source)
    as [found audits]. simpl in *.
  destruct (sorted Routing.key_ltb (match_key routing) found) as [|x rest] eqn:Es; simpl.
  - assert (found = []) as ->.
    { apply Permutation_nil. rewrite <- Es. apply sorted_perm. }
    intros d Hd (x & Hx)%match_usable. pose proof (try_sources_spec t d capability market
      (sources_to_try d source)) as Hs. rewrite Hx in Hs. destruct x as [[d' c] src].
    destruct Hs as (-> & _). assert ((d, c, src) ∈ ([] : list match_)) as H by (by apply Hall).
    by apply elem_of_nil in H.
  - destruct (sorted_head_least Routing.key_ltb (match_key routing)
                Routing.key_ltb_asym Routing.key_ltb_trans found x rest Es) as [Hin Hleast].
    destruct x as [[d c] src]. apply Hall in Hin as [Hd Hm]. cbn [fst snd] in Hd, Hm.
    pose proof (try_sources_spec t d capability market (sources_to_try d source)) as Hs.
    rewrite Hm in Hs. destruct Hs as (_ & Hsrc & Hc).
    split; [done |]. split; [done |]. split; [done |]. split; [done |].
    intros d' Hd' (x & Hx)%match_usable.
    pose proof (try_sources_spec t d' capability market (sources_to_try d' source)) as Hs'.
    rewrite Hx in Hs'. destruct x as [[d'' c'] src']. destruct Hs' as (-> & _).
    apply (Hleast (d', c', src')). by apply Hall.
Qed.

(** Selection is sound, complete and optimal. The selected provider is a
    registered one, certified for the capability and market at the source it
    was matched on; no usable provider sorts before it (configured priority
    first, lower wins, then the provider id); and nothing is selected only
    when no registered provider is usable. *)
Theorem selection_is_optimal capability market source :
  match (select_certified_provider registry t routing capability market source).1 with
  | Some (d, c, src) =>
      d ∈ Registry.list_providers registry /\ src ∈ sources_to_try d source
      /\ certified_for t d capability market src c
      /\ (forall d', d' ∈ Registry.list_providers registry ->
            usable t d' capability market source -> better d d')
  | None => forall d, d ∈ Registry.list_providers registry ->
              ~ usable t d capability market source
  end.
Proof.
  pose proof (selection_spec capability market source) as H.
  destruct (select_certified_provider _ _ _ _ _ _).1 as [[[d c] src]|]; naive_solver.
Qed.
End Selection.

End Eligibility.
