(* ===== verification/Authorization.v ===== *)
(** Research authorizations: [app/domain/entities/research_authorization.py],
    [app/domain/entities/research_proposal.py], the owner of
    [app/domain/entities/shopping_assistant.py], and the functions of
    [app/services/research_authorization.py] that create, validate, cancel,
    invalidate and consume one authorization.

    An authorization is bound to its owner, conversation, decision, context
    version, proposal and scope by digests; validation fails closed on the
    first binding that changed. *)

From S2P Require Import Prelude PyStr Json Clock Connector Research.
Import Research.
#[local] Open Scope Z_scope.

Module Authorization.

(** The exceptions of the service. *)
Inductive auth_exn :=
| NotFound (resource_id : string)
| ValidationError (message : string)
| ConsumptionConflict (conversation_id reason : string)
| BadValue (e : value_error).

(** A dataclass constructor inside the service. *)
Definition lift {A} (m : outcome A) : result auth_exn A :=
  match m with Ok a => Ok a | Err e => Err (BadValue e) end.

(** ** The owner of a conversation *)

Record ConversationOwner := {
  principal_type : string;
  principal_id : string;
  session_id : string;
  o_expires_at : datetime
}.

Definition owner_post_init (o : ConversationOwner) : outcome ConversationOwner :=
  raise! ValueError "principal_type must be guest or account"
    when negb (one_of (principal_type o) ["guest"; "account"]) in
  raise! ValueError "principal_id must contain 1 to 128 characters"
    when negb (py_true (principal_id o)) || (128 <? len (principal_id o)) in
  raise! ValueError "session_id must contain 1 to 128 characters"
    when negb (py_true (session_id o)) || (128 <? len (session_id o)) in
  raise! ValueError "expires_at must be timezone-aware" when negb (dt_aware (o_expires_at o)) in
  Ok o.

(** Expiry is not identity. *)
Definition has_same_identity (a b : ConversationOwner) : bool :=
  String.eqb (principal_type a) (principal_type b)
  && String.eqb (principal_id a) (principal_id b)
  && String.eqb (session_id a) (session_id b).

(** ** Proposals *)

Record ResearchProposal := {
  rp_proposal_id : string;
  rp_decision_id : string;
  rp_proposal_version : Z;
  rp_why : string;
  rp_status : string;
  rp_proposal_text : string;
  rp_scope_text : string;
  rp_evaluated_product_ids : list string;
  rp_conversation_id : option string;
  rp_requested_evidence_topics : list string;
  rp_outside_set_product_names : list string;
  rp_requested_sources : list string;
  rp_destination_label : option string;
  rp_expansion_required : bool;
  rp_freshness_required : bool;
  rp_canonical_update_may_be_required : bool;
  rp_confirmation_required : bool;
  rp_session_best_piq_product_id : option string;
  rp_original_best_piq_product_id : option string;
  rp_context_version : Z;
  rp_replaced_proposal_id : option string;
  rp_authorization_id : option string;
  rp_created_at : option datetime;
  rp_updated_at : option datetime
}.

Definition is_pending (p : ResearchProposal) : bool :=
  String.eqb (rp_status p) "pending_confirmation".

Definition is_confirmation_recorded (p : ResearchProposal) : bool :=
  String.eqb (rp_status p) "research_confirmation_received_but_execution_unavailable".

Definition proposal_post_init (p : ResearchProposal) : outcome ResearchProposal :=
  raise! ValueError "proposal_id is required" when negb (py_true (rp_proposal_id p)) in
  raise! ValueError "decision_id is required" when negb (py_true (rp_decision_id p)) in
  raise! ValueError "proposal_version must be at least 1" when rp_proposal_version p <? 1 in
  raise! ValueError "canonical_context_version must be at least 1"
    when rp_context_version p <? 1 in
  raise! ValueError "proposal_text is required"
    when negb (nonempty (strip (rp_proposal_text p))) in
  raise! ValueError "scope_text is required" when negb (nonempty (strip (rp_scope_text p))) in
  raise! ValueError "a pending proposal always requires explicit confirmation"
    when is_pending p && negb (rp_confirmation_required p) in
  Ok p.

Definition CONTRACT_PENDING_STATUS : string := "awaiting_explicit_confirmation".

Definition proposal_to_contract (p : ResearchProposal) : json :=
  JObj [("proposal_id", JStr (rp_proposal_id p)); ("question", JStr (rp_proposal_text p));
        ("requested_product_ids", JStrs (rp_evaluated_product_ids p));
        ("status", JStr (if is_pending p then CONTRACT_PENDING_STATUS else rp_status p))]%string.

(** ** Authorizations *)

Definition AUTHORIZATION_VERSION : Z := 1.
Definition IDEMPOTENCY_KEY_AUTHORITY : string := "server_derived_owner_conversation_proposal_scope".
Definition _TERMINAL_STATUSES : list string := ["consumed"; "cancelled"; "invalidated"]%string.
Definition PENDING : string := "authorized_pending_execution".

Record ResearchAuthorization := {
  a_id : string;
  a_version : Z;
  a_owner_binding : string;
  a_conversation_id : string;
  a_decision_id : string;
  a_context_version : Z;
  a_proposal_id : string;
  a_proposal_version : Z;
  a_scope : FrozenResearchScope;
  a_scope_digest : string;
  a_proposal_reason : string;
  a_evaluated_product_ids : list string;
  a_idempotency_key : string;
  a_status : string;
  a_created_at : datetime;
  a_updated_at : option datetime;
  a_execution_available : bool
}.

Definition authorization_post_init (a : ResearchAuthorization) : outcome ResearchAuthorization :=
  raise! ValueError "authorization_id is required" when negb (py_true (a_id a)) in
  raise! ValueError "authorization_version must be at least 1" when a_version a <? 1 in
  raise! ValueError "owner_binding is required" when negb (py_true (a_owner_binding a)) in
  raise! ValueError "conversation_id is required" when negb (py_true (a_conversation_id a)) in
  raise! ValueError "decision_id is required" when negb (py_true (a_decision_id a)) in
  raise! ValueError "canonical_context_version must be at least 1"
    when a_context_version a <? 1 in
  raise! ValueError "proposal_id is required" when negb (py_true (a_proposal_id a)) in
  raise! ValueError "proposal_version must be at least 1" when a_proposal_version a <? 1 in
  raise! ValueError "scope_digest must be a SHA-256 hex digest"
    when negb (py_true (a_scope_digest a)) || negb (len (a_scope_digest a) =? 64) in
  raise! ValueError "idempotency_key is required" when negb (py_true (a_idempotency_key a)) in
  raise! ValueError "live research execution is not available" when a_execution_available a in
  Ok a.

Definition is_pending_execution (a : ResearchAuthorization) : bool :=
  String.eqb (a_status a) PENDING.

Definition is_terminal (a : ResearchAuthorization) : bool := one_of (a_status a) _TERMINAL_STATUSES.

(** [replace(authorization, status=..., updated_at=now, execution_available=False)]. *)
Definition with_status (status : string) (now : datetime) (a : ResearchAuthorization) :=
  {| a_id := a_id a; a_version := a_version a; a_owner_binding := a_owner_binding a;
     a_conversation_id := a_conversation_id a; a_decision_id := a_decision_id a;
     a_context_version := a_context_version a; a_proposal_id := a_proposal_id a;
     a_proposal_version := a_proposal_version a; a_scope := a_scope a;
     a_scope_digest := a_scope_digest a; a_proposal_reason := a_proposal_reason a;
     a_evaluated_product_ids := a_evaluated_product_ids a;
     a_idempotency_key := a_idempotency_key a; a_status := status;
     a_created_at := a_created_at a; a_updated_at := Some now; a_execution_available := false |}.

Record ResearchAuthorizationValidation := {
  valid : bool; v_reason : string; v_authorization : option ResearchAuthorization;
  v_execution_available : bool
}.

Definition validation_to_dict (v : ResearchAuthorizationValidation) : json :=
  JObj [("valid", JBool (valid v)); ("reason", JStr (v_reason v));
        ("authorization_id", JOpt (fun a => JStr (a_id a)) (v_authorization v));
        ("status", JOpt (fun a => JStr (a_status a)) (v_authorization v));
        ("execution_available", JBool false)]%string.

Record AuthorizedResearchHandoff := {
  h_authorization_id : string;
  h_authorization_version : Z;
  h_conversation_id : string;
  h_decision_id : string;
  h_context_version : Z;
  h_proposal_id : string;
  h_proposal_version : Z;
  h_scope : FrozenResearchScope;
  h_scope_digest : string;
  h_idempotency_key : string;
  h_status : string;
  h_execution_available : bool
}.

Definition handoff_post_init (h : AuthorizedResearchHandoff) : outcome AuthorizedResearchHandoff :=
  raise! ValueError "live research execution is not available" when h_execution_available h in
  raise! ValueError "handoff requires authorized_pending_execution"
    when negb (String.eqb (h_status h) PENDING) in
  Ok h.

(** ** The service *)

Definition SUPPORTED_SCHEMA_VERSIONS : list string := ["1.0"; "1.1"; "1.2"]%string.

Definition frozen_scope_from_proposal (p : ResearchProposal) : FrozenResearchScope :=
  {| sc_reason := rp_why p; evaluated_product_ids := rp_evaluated_product_ids p;
     outside_set_product_names := rp_outside_set_product_names p;
     requested_evidence_topics := rp_requested_evidence_topics p;
     requested_sources := rp_requested_sources p; destination_label := rp_destination_label p;
     expansion_required := rp_expansion_required p; freshness_required := rp_freshness_required p;
     canonical_update_may_be_required := rp_canonical_update_may_be_required p |}.

Definition _find_by_idempotency (existing : list ResearchAuthorization) (key : string)
    : option ResearchAuthorization :=
  last (List.filter (fun a => String.eqb (a_idempotency_key a) key) existing).

Definition _require_authorizable_proposal (p : ResearchProposal) (conversation : string)
    : result auth_exn unit :=
  raise! ValidationError "A cancelled or replaced research proposal cannot be authorized."
    when one_of (rp_status p) ["cancelled"; "replaced"] in
  raise! ValidationError "Only an explicit confirmation of the active proposal can be authorized."
    when negb (is_pending p || is_confirmation_recorded p) in
  raise! ValidationError "Research authorization requires a trusted proposal identity."
    when negb (py_true (rp_proposal_id p)) || negb (py_true (rp_decision_id p)) in
  raise! ValidationError "Research authorization is bound to the owning conversation."
    when some_text (rp_conversation_id p)
         && negb (String.eqb (default ""%string (rp_conversation_id p)) conversation) in
  raise! ValidationError "Research authorization cannot be created without a trusted frozen scope."
    when negb (nonempty (strip (rp_scope_text p))) || negb (py_true (rp_why p)) in
  Ok tt.

(** [_CLIENT_SCOPE_KEYS]. *)
Definition _CLIENT_SCOPE_KEYS : list string :=
  ["requested_sources"; "outside_set_product_names"; "requested_evidence_topics";
   "destination_label"; "expansion_required"; "freshness_required"; "research_scope"; "scope";
   "evaluated_product_ids"]%string.

Definition ignore_client_scope_overrides {A} (payload : list (string * A)) : list (string * A) :=
  List.filter (fun kv => negb (one_of kv.1 _CLIENT_SCOPE_KEYS)) payload.

Section Service.
(** [hashlib.sha256(...).hexdigest()]. *)
Variable sha256_hex : string -> string.

Definition owner_binding_digest (o : ConversationOwner) : string :=
  stable_sha256 sha256_hex
    (JObj [("principal_type", JStr (principal_type o)); ("principal_id", JStr (principal_id o));
           ("session_id", JStr (session_id o))]%string).

Definition scope_digest_value (decision : string) (context_version : Z) (proposal : string)
    (proposal_version : Z) (scope : FrozenResearchScope) : json :=
  JObj ([("decision_id", JStr decision); ("canonical_context_version", JInt context_version);
         ("proposal_id", JStr proposal); ("proposal_version", JInt proposal_version)]%string
        ++ scope_payload_fields scope).

Definition research_scope_digest (decision : string) (context_version : Z) (proposal : string)
    (proposal_version : Z) (scope : FrozenResearchScope) : string :=
  stable_sha256 sha256_hex
    (scope_digest_value decision context_version proposal proposal_version scope).

Definition proposal_digest (p : ResearchProposal) : string :=
  research_scope_digest (rp_decision_id p) (rp_context_version p) (rp_proposal_id p)
    (rp_proposal_version p) (frozen_scope_from_proposal p).

Definition idempotency_material (owner : ConversationOwner) (conversation decision : string)
    (context_version : Z) (proposal : string) (proposal_version : Z) (scope_digest : string)
    : json :=
  JObj [("kind", JStr "research_authorization_v1"); ("authority", JStr IDEMPOTENCY_KEY_AUTHORITY);
        ("owner_binding", JStr (owner_binding_digest owner));
        ("conversation_id", JStr conversation); ("decision_id", JStr decision);
        ("canonical_context_version", JInt context_version); ("proposal_id", JStr proposal);
        ("proposal_version", JInt proposal_version); ("scope_digest", JStr scope_digest)]%string.

Definition derive_authorization_idempotency_key (owner : ConversationOwner)
    (conversation decision : string) (context_version : Z) (proposal : string)
    (proposal_version : Z) (scope_digest : string) : string :=
  "research-auth:" +:+ stable_sha256 sha256_hex
    (idempotency_material owner conversation decision context_version proposal proposal_version
       scope_digest).

(** [make_id] is the identifier the factory returns, taken only when a new
    authorization is built. The client token is never used. *)
Definition create_research_authorization_from_proposal (p : ResearchProposal)
    (owner : ConversationOwner) (conversation : string) (now : datetime) (make_id : string)
    (existing : list ResearchAuthorization) (schema_version : option string)
    : result auth_exn ResearchAuthorization :=
  let! _ := _require_authorizable_proposal p conversation in
  raise! ValidationError
      "Research authorization requires a trusted schema 1.0, 1.1, or 1.2 decision."
    when match schema_version with
         | Some v => negb (one_of v SUPPORTED_SCHEMA_VERSIONS)
         | None => false
         end in
  let digest := proposal_digest p in
  let key := derive_authorization_idempotency_key owner conversation (rp_decision_id p)
               (rp_context_version p) (rp_proposal_id p) (rp_proposal_version p) digest in
  match _find_by_idempotency existing key with
  | Some matched => Ok matched
  | None =>
      lift (authorization_post_init
        {| a_id := make_id; a_version := AUTHORIZATION_VERSION;
           a_owner_binding := owner_binding_digest owner; a_conversation_id := conversation;
           a_decision_id := rp_decision_id p; a_context_version := rp_context_version p;
           a_proposal_id := rp_proposal_id p; a_proposal_version := rp_proposal_version p;
           a_scope := frozen_scope_from_proposal p; a_scope_digest := digest;
           a_proposal_reason := rp_why p;
           a_evaluated_product_ids := rp_evaluated_product_ids p; a_idempotency_key := key;
           a_status := PENDING; a_created_at := now; a_updated_at := Some now;
           a_execution_available := false |})
  end.

Definition rejected (reason : string) (a : ResearchAuthorization)
    : ResearchAuthorizationValidation :=
  {| valid := false; v_reason := reason; v_authorization := Some a;
     v_execution_available := false |}.

(** The check of the proposal the caller holds: the reason it fails, if any. *)
Definition proposal_mismatch (p : ResearchProposal) (a : ResearchAuthorization) : option string :=
  if negb (String.eqb (rp_proposal_id p) (a_proposal_id a)) then Some "proposal_id_mismatch"%string
  else if negb (rp_proposal_version p =? a_proposal_version a)
  then Some "proposal_version_mismatch"%string
  else if negb (String.eqb (proposal_digest p) (a_scope_digest a))
  then Some "scope_digest_mismatch"%string
  else None.

(** The first binding or status that fails, in the order of the checks. *)
Definition binding_failure (a : ResearchAuthorization) (conversation decision : string)
    (context_version : Z) (proposal : option ResearchProposal)
    (expected_scope_digest expected_proposal_id : option string)
    (expected_proposal_version : option Z) : option string :=
  if negb (String.eqb (a_conversation_id a) conversation) then Some "wrong_conversation"%string
  else if negb (String.eqb (a_decision_id a) decision) then Some "wrong_decision"%string
  else if negb (a_context_version a =? context_version) then Some "stale_context_version"%string
  else if some_text expected_proposal_id
          && negb (String.eqb (a_proposal_id a) (default ""%string expected_proposal_id))
  then Some "proposal_id_mismatch"%string
  else if match expected_proposal_version with
          | Some v => negb (a_proposal_version a =? v)
          | None => false
          end
  then Some "proposal_version_mismatch"%string
  else
    match match proposal with Some p => proposal_mismatch p a | None => None end with
    | Some r => Some r
    | None =>
        if some_text expected_scope_digest
           && negb (String.eqb (default ""%string expected_scope_digest) (a_scope_digest a))
        then Some "scope_digest_mismatch"%string
        else if String.eqb (a_status a) "cancelled" then Some "cancelled"%string
        else if String.eqb (a_status a) "invalidated" then Some "invalidated"%string
        else if String.eqb (a_status a) "consumed" then Some "consumed"%string
        else if negb (is_pending_execution a) then Some "invalid_status"%string
        else None
    end.

Definition validate_research_authorization_for_execution
    (authorization : option ResearchAuthorization) (owner : ConversationOwner)
    (conversation decision : string) (context_version : Z) (proposal : option ResearchProposal)
    (expected_scope_digest expected_proposal_id : option string)
    (expected_proposal_version : option Z) : result auth_exn ResearchAuthorizationValidation :=
  match authorization with
  | None => Ok {| valid := false; v_reason := "not_found"; v_authorization := None;
                  v_execution_available := false |}
  | Some a =>
      raise! NotFound (a_id a)
        when negb (String.eqb (a_owner_binding a) (owner_binding_digest owner)) in
      match binding_failure a conversation decision context_version proposal
              expected_scope_digest expected_proposal_id expected_proposal_version with
      | Some reason => Ok (rejected reason a)
      | None => Ok {| valid := true; v_reason := PENDING; v_authorization := Some a;
                      v_execution_available := false |}
      end
  end.

Definition handoff_of (a : ResearchAuthorization) : AuthorizedResearchHandoff :=
  {| h_authorization_id := a_id a; h_authorization_version := a_version a;
     h_conversation_id := a_conversation_id a; h_decision_id := a_decision_id a;
     h_context_version := a_context_version a; h_proposal_id := a_proposal_id a;
     h_proposal_version := a_proposal_version a; h_scope := a_scope a;
     h_scope_digest := a_scope_digest a; h_idempotency_key := a_idempotency_key a;
     h_status := a_status a; h_execution_available := false |}.

Definition get_authorized_research_handoff (authorization : option ResearchAuthorization)
    (owner : ConversationOwner) (conversation decision : string) (context_version : Z)
    (proposal : option ResearchProposal) (expected_scope_digest : option string)
    : result auth_exn (option AuthorizedResearchHandoff) :=
  let! r := validate_research_authorization_for_execution authorization owner conversation decision
              context_version proposal expected_scope_digest None None in
  match valid r, v_authorization r with
  | true, Some a => let! h := lift (handoff_post_init (handoff_of a)) in Ok (Some h)
  | _, _ => Ok None
  end.

(** [replace] validates the record again. *)
Definition replaced_status (status : string) (now : datetime) (a : ResearchAuthorization)
    : result auth_exn ResearchAuthorization :=
  lift (authorization_post_init (with_status status now a)).

Definition cancel_research_authorization (a : ResearchAuthorization) (now : datetime)
    : result auth_exn ResearchAuthorization :=
  if String.eqb (a_status a) "consumed" then Ok a
  else if String.eqb (a_status a) "cancelled" then Ok a
  else replaced_status "cancelled" now a.

Definition invalidate_research_authorization (a : ResearchAuthorization) (now : datetime)
    : result auth_exn ResearchAuthorization :=
  if one_of (a_status a) ["consumed"; "cancelled"; "invalidated"]%string then Ok a
  else replaced_status "invalidated" now a.

Definition mark_research_authorization_consumed (a : ResearchAuthorization) (now : datetime)
    : result auth_exn ResearchAuthorization :=
  raise! ValidationError "Only an authorized_pending_execution authorization can be consumed."
    when negb (is_pending_execution a) in
  replaced_status "consumed" now a.

(** [authorized_execution_id] of [app/services/research_execution.py]. *)
Definition authorized_execution_id (idempotency_key : string) : outcome string :=
  raise! ValueError "execution identity requires a server research authorization key"
    when negb (startswith "research-auth:" idempotency_key) in
  Ok ("research-exec:" +:+ String.substring 0 32 (stable_sha256 sha256_hex
        (JObj [("kind", JStr "sprint38_authorized_execution_v1");
               ("authorization_idempotency_key", JStr idempotency_key)]%string))).

(** The stored execution a consumed authorization may resume. *)
Record execution_claim := {
  x_execution_id : string;
  x_plan_id : string;
  x_authorization_id : string;
  x_authorization_version : Z;
  x_decision_id : string;
  x_state : string;
  x_claim_active : bool
}.

Definition resume_failure (a : ResearchAuthorization) (owner : ConversationOwner)
    (conversation decision : string) (context_version : Z) (proposal : string)
    (proposal_version : Z) (scope_digest : string) (x : execution_claim)
    (requested_plan : string) : option string :=
  if negb (String.eqb (a_owner_binding a) (owner_binding_digest owner))
  then Some "wrong_owner"%string
  else if negb (String.eqb (a_conversation_id a) conversation) then Some "wrong_conversation"%string
  else if negb (String.eqb (a_decision_id a) decision)
          || negb (String.eqb (a_decision_id a) (x_decision_id x))
  then Some "wrong_decision"%string
  else if negb (a_context_version a =? context_version) then Some "stale_context_version"%string
  else if negb (String.eqb (a_proposal_id a) proposal) then Some "proposal_id_mismatch"%string
  else if negb (a_proposal_version a =? proposal_version)
  then Some "proposal_version_mismatch"%string
  else if negb (String.eqb (a_scope_digest a) scope_digest) then Some "scope_digest_mismatch"%string
  else if String.eqb (a_status a) "cancelled" then Some "cancelled"%string
  else if String.eqb (a_status a) "invalidated" then Some "invalidated"%string
  else if negb (String.eqb (a_status a) "consumed") then Some "not_consumed"%string
  else if x_claim_active x then Some "execution_already_claimed"%string
  else if negb (String.eqb (x_state x) "claimed_for_attempt")
  then Some "consumed_authorization_not_resumable"%string
  else if negb (String.eqb (a_id a) (x_authorization_id x))
          || negb (a_version a =? x_authorization_version x)
  then Some "consumed_authorization_execution_mismatch"%string
  else if negb (String.eqb requested_plan (x_plan_id x))
  then Some "authorization_plan_conflict"%string
  else None.

Definition validate_consumed_authorization_for_execution_resume
    (authorization : option ResearchAuthorization) (owner : ConversationOwner)
    (conversation decision : string) (context_version : Z) (proposal : string)
    (proposal_version : Z) (scope_digest : string) (x : execution_claim)
    (requested_plan : string) : result auth_exn ResearchAuthorizationValidation :=
  match authorization with
  | None => Ok {| valid := false; v_reason := "not_found"; v_authorization := None;
                  v_execution_available := false |}
  | Some a =>
      match resume_failure a owner conversation decision context_version proposal
              proposal_version scope_digest x requested_plan with
      | Some reason => Ok (rejected reason a)
      | None =>
          let! expected := lift (authorized_execution_id (a_idempotency_key a)) in
          Ok (if negb (String.eqb (x_execution_id x) expected)
              then rejected "consumed_authorization_execution_mismatch" a
              else {| valid := true; v_reason := "consumed_execution_resumable";
                      v_authorization := Some a; v_execution_available := false |})
      end
  end.
End Service.

(** ** The authorizations of a conversation *)

(** Replaces the item with the same id, or appends. *)
Definition upsert_authorization (existing : list ResearchAuthorization)
    (a : ResearchAuthorization) : list ResearchAuthorization :=
  let same x := String.eqb (a_id x) (a_id a) in
  let updated := map (fun x => if same x then a else x) existing in
  if existsb same existing then updated else updated ++ [a].

Definition current_unconsumed_authorization (existing : list ResearchAuthorization)
    : option ResearchAuthorization := last (List.filter is_pending_execution existing).

(** ** What a digest binds *)

Section Binding.
Context (sha256_hex : string -> string).

Lemma scope_digest_binds d c p v s d' c' p' v' s' :
  research_scope_digest sha256_hex d c p v s = research_scope_digest sha256_hex d' c' p' v' s' ->
  (d = d' /\ c = c' /\ p = p' /\ v = v' /\ s = s') \/ collision sha256_hex.
Proof.
  intros [E | E]%stable_sha256_inj; [left | by right].
  apply normalize_members in E;
    [| reflexivity | apply (bool_decide_eq_true_1 (NoDup _)); reflexivity].
  cbn [map app scope_payload_fields snd] in E. rewrite !normalize_strs, !normalize_opt_str in E.
  cbn [normalize] in E.
  injection E as -> -> -> -> Hr He Ho Ht Hs Hd Hx Hf Hc.
  apply map_JStr_inj in He, Ho, Ht, Hs. apply JOpt_str_inj in Hd.
  destruct s, s'; simpl in *; subst. done.
Qed.

Lemma owner_digest_binds o o' :
  owner_binding_digest sha256_hex o = owner_binding_digest sha256_hex o' ->
  has_same_identity o o' = true \/ collision sha256_hex.
Proof.
  intros [E | E]%stable_sha256_inj; [left | by right].
  apply normalize_members in E;
    [| reflexivity | apply (bool_decide_eq_true_1 (NoDup _)); reflexivity].
  injection E as E1 E2 E3. unfold has_same_identity. by rewrite E1, E2, E3, !String.eqb_refl.
Qed.

Lemma key_binds o cv d c p v g o' cv' d' c' p' v' g' :
  derive_authorization_idempotency_key sha256_hex o cv d c p v g
  = derive_authorization_idempotency_key sha256_hex o' cv' d' c' p' v' g' ->
  (owner_binding_digest sha256_hex o = owner_binding_digest sha256_hex o'
   /\ cv = cv' /\ d = d' /\ c = c' /\ p = p' /\ v = v' /\ g = g') \/ collision sha256_hex.
Proof.
  unfold derive_authorization_idempotency_key.
  intros E%(inj (String.append "research-auth:")).
  apply stable_sha256_inj in E as [E | E]; [left | by right].
  apply normalize_members in E;
    [| reflexivity | apply (bool_decide_eq_true_1 (NoDup _)); reflexivity].
  by injection E as -> -> -> -> -> -> ->.
Qed.

(** An authorization the service built: its digests are those of its fields. *)
Definition genuine (a : ResearchAuthorization) : Prop :=
  exists o, a_owner_binding a = owner_binding_digest sha256_hex o
    /\ a_scope_digest a = research_scope_digest sha256_hex (a_decision_id a) (a_context_version a)
                            (a_proposal_id a) (a_proposal_version a) (a_scope a)
    /\ a_idempotency_key a
       = derive_authorization_idempotency_key sha256_hex o (a_conversation_id a) (a_decision_id a)
           (a_context_version a) (a_proposal_id a) (a_proposal_version a) (a_scope_digest a).

(** The authorization is the one proposal [p] of [o] in [conversation] gets. *)
Definition authorizes (a : ResearchAuthorization) (p : ResearchProposal) (o : ConversationOwner)
    (conversation : string) : Prop :=
  a_owner_binding a = owner_binding_digest sha256_hex o /\ a_conversation_id a = conversation
  /\ a_decision_id a = rp_decision_id p /\ a_context_version a = rp_context_version p
  /\ a_proposal_id a = rp_proposal_id p /\ a_proposal_version a = rp_proposal_version p
  /\ a_scope_digest a = proposal_digest sha256_hex p
  /\ a_scope a = frozen_scope_from_proposal p.

Lemma find_by_idempotency_some existing key a :
  _find_by_idempotency existing key = Some a -> a ∈ existing /\ a_idempotency_key a = key.
Proof.
  unfold _find_by_idempotency. intros H%last_Some_elem_of.
  apply list_elem_of_In, filter_In in H as [H E%String.eqb_eq]. by apply list_elem_of_In in H.
Qed.

Lemma find_by_idempotency_none existing key a :
  _find_by_idempotency existing key = None -> a ∈ existing -> a_idempotency_key a <> key.
Proof.
  unfold _find_by_idempotency. intros H%last_None Hin E.
  assert (In a (List.filter (fun x => String.eqb (a_idempotency_key x) key) existing)) as Hf.
  { apply filter_In. split; [by apply list_elem_of_In | by apply String.eqb_eq]. }
  by rewrite H in Hf.
Qed.

Lemma authorization_post_init_id a b : authorization_post_init a = Ok b -> b = a.
Proof.
  unfold authorization_post_init. intros H.
  do 11 (apply rbind_unit_ok in H as [_ H]). by injection H as <-.
Qed.

Lemma lift_ok {A} (m : outcome A) a : lift m = Ok a <-> m = Ok a.
Proof. destruct m; simpl; naive_solver. Qed.

(** A created authorization, new or reused, is the proposal's own. *)
Lemma create_spec p o conversation now id existing schema a :
  Forall genuine existing ->
  create_research_authorization_from_proposal sha256_hex p o conversation now id existing schema
    = Ok a ->
  (genuine a /\ authorizes a p o conversation) \/ collision sha256_hex.
Proof.
  intros Hex H. unfold create_research_authorization_from_proposal in H.
  apply rbind_ok_inv in H as (_ & _ & H). apply rbind_unit_ok in H as [_ H].
  destruct (_find_by_idempotency existing _) as [m|] eqn:Em.
  - injection H as <-. apply find_by_idempotency_some in Em as [Hin Hkey].
    pose proof (proj1 (Forall_forall _ _) Hex m Hin) as Hg.
    destruct Hg as (o' & Ho & Hs & Hk). rewrite Hk in Hkey.
    apply key_binds in Hkey as [(Eo & Ecv & Ed & Ec & Ep & Ev & Eg) | Hc]; [| by right].
    pose proof Eg as Eg'. rewrite Hs in Eg'.
    apply scope_digest_binds in Eg' as [(_ & _ & _ & _ & Esc) | Hc]; [left | by right].
    split; [by exists o' |]. unfold authorizes. rewrite Ho. auto 10.
  - apply lift_ok, authorization_post_init_id in H as ->. left.
    split; [by exists o |]. unfold authorizes. simpl. auto 10.
Qed.
End Binding.


(** ** Validation *)

Section Validation.
Context (sha256_hex : string -> string).

(** Everything that must still hold for the caller. *)
Definition bound (a : ResearchAuthorization) (conversation decision : string)
    (context_version : Z) (proposal : option ResearchProposal)
    (expected_scope_digest expected_proposal_id : option string)
    (expected_proposal_version : option Z) : Prop :=
  a_conversation_id a = conversation /\ a_decision_id a = decision
  /\ a_context_version a = context_version
  /\ (forall i, expected_proposal_id = Some i -> i <> ""%string -> a_proposal_id a = i)
  /\ (forall v, expected_proposal_version = Some v -> a_proposal_version a = v)
  /\ (forall p, proposal = Some p ->
        rp_proposal_id p = a_proposal_id a /\ rp_proposal_version p = a_proposal_version a
        /\ proposal_digest sha256_hex p = a_scope_digest a)
  /\ (forall g, expected_scope_digest = Some g -> g <> ""%string -> g = a_scope_digest a)
  /\ a_status a = PENDING.

Lemma expected_text_ok (e : option string) (x : string) :
  some_text e && negb (String.eqb x (default ""%string e)) = false
  <-> forall i, e = Some i -> i <> ""%string -> x = i.
Proof.
  destruct e as [i|]; simpl; [| naive_solver]. unfold some_text.
  destruct (nonempty i) eqn:En; simpl.
  - apply nonempty_true in En. rewrite negb_false_iff, String.eqb_eq. naive_solver.
  - apply nonempty_false in En. naive_solver.
Qed.

Lemma proposal_mismatch_none p a :
  proposal_mismatch sha256_hex p a = None <->
  rp_proposal_id p = a_proposal_id a /\ rp_proposal_version p = a_proposal_version a
  /\ proposal_digest sha256_hex p = a_scope_digest a.
Proof.
  unfold proposal_mismatch.
  destruct (String.eqb_spec (rp_proposal_id p) (a_proposal_id a)); simpl; [| naive_solver].
  destruct (Z.eqb_spec (rp_proposal_version p) (a_proposal_version a)); simpl; [| naive_solver].
  destruct (String.eqb_spec (proposal_digest sha256_hex p) (a_scope_digest a)); simpl;
    naive_solver.
Qed.

Lemma status_failure_none a :
  (if String.eqb (a_status a) "cancelled" then Some "cancelled"%string
   else if String.eqb (a_status a) "invalidated" then Some "invalidated"%string
   else if String.eqb (a_status a) "consumed" then Some "consumed"%string
   else if negb (is_pending_execution a) then Some "invalid_status"%string
   else None) = None <-> a_status a = PENDING.
Proof.
  unfold is_pending_execution. split.
  - repeat case_match; try done. intros _. by apply String.eqb_eq, negb_false_iff.
  - intros ->. reflexivity.
Qed.

Lemma binding_failure_none a conversation decision cv proposal esd epi epv :
  binding_failure sha256_hex a conversation decision cv proposal esd epi epv = None
  <-> bound a conversation decision cv proposal esd epi epv.
Proof.
  unfold binding_failure, bound.
  destruct (String.eqb_spec (a_conversation_id a) conversation); simpl; [| naive_solver].
  destruct (String.eqb_spec (a_decision_id a) decision); simpl; [| naive_solver].
  destruct (Z.eqb_spec (a_context_version a) cv); simpl; [| naive_solver].
  rewrite <- expected_text_ok.
  destruct (some_text epi && _); simpl; [naive_solver |].
  destruct (match epv with Some v => _ | None => false end) eqn:Ev.
  { split; [done |]. intros (_ & _ & _ & _ & Hv & _). destruct epv as [v|]; [| done].
    rewrite (Hv v eq_refl), Z.eqb_refl in Ev. done. }
  assert (Hv : forall v, epv = Some v -> a_proposal_version a = v).
  { intros v ->. by apply Z.eqb_eq, negb_false_iff. }
  destruct (match proposal with Some p => _ | None => None end) as [r|] eqn:Ep.
  { split; [done |]. intros (_ & _ & _ & _ & _ & Hp & _). destruct proposal as [p|]; [| done].
    specialize (Hp p eq_refl). apply proposal_mismatch_none in Hp. congruence. }
  assert (Hp : forall p, proposal = Some p ->
    rp_proposal_id p = a_proposal_id a /\ rp_proposal_version p = a_proposal_version a
    /\ proposal_digest sha256_hex p = a_scope_digest a).
  { intros p ->. by apply proposal_mismatch_none. }
  assert (Hg : (forall g, esd = Some g -> g <> ""%string -> g = a_scope_digest a)
    <-> some_text esd && negb (String.eqb (default ""%string esd) (a_scope_digest a)) = false).
  { rewrite String.eqb_sym, expected_text_ok. naive_solver. }
  rewrite Hg. destruct (some_text esd && _); [naive_solver |].
  etransitivity; [apply status_failure_none | naive_solver].
Qed.

Lemma binding_failure_text a conversation decision cv proposal esd epi epv r :
  binding_failure sha256_hex a conversation decision cv proposal esd epi epv = Some r ->
  nonempty r = true.
Proof.
  unfold binding_failure, proposal_mismatch. intros H.
  repeat case_match; simplify_eq; reflexivity.
Qed.

Lemma validate_spec a owner conversation decision cv proposal esd epi epv :
  a_owner_binding a = owner_binding_digest sha256_hex owner ->
  exists v, validate_research_authorization_for_execution sha256_hex (Some a) owner conversation
              decision cv proposal esd epi epv = Ok v
    /\ v_authorization v = Some a /\ v_execution_available v = false
    /\ (valid v = true <-> bound a conversation decision cv proposal esd epi epv)
    /\ nonempty (v_reason v) = true.
Proof.
  intros E. unfold validate_research_authorization_for_execution.
  rewrite E, String.eqb_refl. cbn [negb guard_raise rbind].
  pose proof (binding_failure_none a conversation decision cv proposal esd epi epv) as Hb.
  destruct (binding_failure _ _ _ _ _ _ _ _ _) as [r|] eqn:Er; eexists; (split; [done |]).
  - apply binding_failure_text in Er. simpl. naive_solver.
  - simpl. naive_solver.
Qed.

Lemma handoff_spec a owner conversation decision cv proposal esd :
  a_owner_binding a = owner_binding_digest sha256_hex owner ->
  exists h, get_authorized_research_handoff sha256_hex (Some a) owner conversation decision cv
              proposal esd = Ok h
    /\ (is_some h = true <-> bound a conversation decision cv proposal esd None None)
    /\ (forall x, h = Some x -> x = handoff_of a).
Proof.
  intros E. unfold get_authorized_research_handoff.
  destruct (validate_spec a owner conversation decision cv proposal esd None None E)
    as (v & -> & Ha & _ & Hv & _).
  cbn [rbind]. rewrite Ha. destruct (valid v); [| exists None; naive_solver].
  pose proof (proj1 Hv eq_refl) as (_ & _ & _ & _ & _ & _ & _ & Hs).
  unfold handoff_post_init. simpl. rewrite Hs. simpl.
  eexists. split; [done |]. split; [naive_solver |]. by intros x [= <-].
Qed.

(** Validation fails closed. An authorization is reported valid exactly when
    the owner, the conversation, the decision, the context version, every
    expectation the caller states and the proposal it holds still match and the
    authorization is still pending; another owner learns nothing but "not
    found"; every other failure is reported with a reason and without raising;
    and the handoff packet exists exactly for a valid authorization and carries
    its own frozen scope and bindings. *)
Theorem validation_fails_closed a owner conversation decision cv proposal esd epi epv :
  let out := validate_research_authorization_for_execution sha256_hex (Some a) owner conversation
               decision cv proposal esd epi epv in
  let handoff := get_authorized_research_handoff sha256_hex (Some a) owner conversation decision cv
                   proposal esd in
  if String.eqb (a_owner_binding a) (owner_binding_digest sha256_hex owner) then
    exists v, out = Ok v /\ v_authorization v = Some a /\ v_execution_available v = false
      /\ (valid v = true <-> bound a conversation decision cv proposal esd epi epv)
      /\ nonempty (v_reason v) = true
      /\ exists h, handoff = Ok h
         /\ (is_some h = true <-> bound a conversation decision cv proposal esd None None)
         /\ (forall x, h = Some x -> x = handoff_of a)
  else out = Err (NotFound (a_id a)) /\ handoff = Err (NotFound (a_id a)).
Proof.
  cbv zeta. destruct (String.eqb_spec (a_owner_binding a) (owner_binding_digest sha256_hex owner))
    as [E | E].
  - destruct (validate_spec a owner conversation decision cv proposal esd epi epv E)
      as (v & -> & H). destruct (handoff_spec a owner conversation decision cv proposal esd E)
      as (h & -> & Hh).
    destruct H as (H1 & H2 & H3 & H4). exists v. do 5 (split; [done |]). by exists h.
  - unfold get_authorized_research_handoff, validate_research_authorization_for_execution.
    apply String.eqb_neq in E. by rewrite E.
Qed.

(** C36: the approved scope cannot be widened. If an authorization, new or reused,
    is created for proposal [p] and validates for a caller holding proposal
    [q], then the caller is the owner it was created for, in the same
    conversation, and [q] asks for exactly the scope that was approved - or two
    different texts with one SHA-256 digest have been found. *)
Theorem approved_scope_is_bound p o conversation now id existing schema a
    q o' conversation' decision cv esd epi epv v :
  Forall (genuine sha256_hex) existing ->
  create_research_authorization_from_proposal sha256_hex p o conversation now id existing schema
    = Ok a ->
  validate_research_authorization_for_execution sha256_hex (Some a) o' conversation' decision cv
    (Some q) esd epi epv = Ok v ->
  valid v = true ->
  (has_same_identity o o' = true /\ conversation' = conversation
   /\ rp_decision_id q = rp_decision_id p /\ rp_context_version q = rp_context_version p
   /\ rp_proposal_id q = rp_proposal_id p /\ rp_proposal_version q = rp_proposal_version p
   /\ frozen_scope_from_proposal q = frozen_scope_from_proposal p
   /\ a_scope a = frozen_scope_from_proposal q)
  \/ collision sha256_hex.
Proof.
  intros Hex Hc Hv Hvalid.
  apply create_spec in Hc as [[_ Ha] | Hc]; [| by right | done].
  destruct Ha as (Ho & Hcv & Hd & Hcx & Hp & Hpv & Hg & Hs).
  destruct (decide (a_owner_binding a = owner_binding_digest sha256_hex o')) as [E | E].
  - destruct (validate_spec a o' conversation' decision cv (Some q) esd epi epv E)
      as (v' & Hv' & _ & _ & Hb & _).
    rewrite Hv in Hv'. injection Hv' as <-. apply Hb in Hvalid as (Hc1 & _ & _ & _ & _ & Hq & _).
    destruct (Hq q eq_refl) as (_ & _ & Eg). rewrite Hg in Eg.
    apply scope_digest_binds in Eg as [(-> & -> & -> & -> & Es) | Hc]; [| by right].
    rewrite Ho in E. apply owner_digest_binds in E as [Eo | Hc]; [left | by right].
    rewrite Hs, Es. split; [done |]. split; [congruence |]. done.
  - unfold validate_research_authorization_for_execution in Hv.
    apply String.eqb_neq in E. by rewrite E in Hv.
Qed.
End Validation.



Module AuthorizationExamples.

Definition shopper : ConversationOwner :=
  {| principal_type := "guest"; principal_id := "g-1"; session_id := "s-1";
     o_expires_at := Datetime 1800000000000000 true |}.

Definition proposal0 : ResearchProposal :=
  {| rp_proposal_id := "prop-1"; rp_decision_id := "dec-1"; rp_proposal_version := 1;
     rp_why := "freshness_required"; rp_status := "pending_confirmation";
     rp_proposal_text := "Check current prices?"; rp_scope_text := "current prices";
     rp_evaluated_product_ids := ["p1"; "p2"]%string; rp_conversation_id := Some "c-1"%string;
     rp_requested_evidence_topics := []; rp_outside_set_product_names := [];
     rp_requested_sources := ["shopify"%string]; rp_destination_label := None;
     rp_expansion_required := false; rp_freshness_required := true;
     rp_canonical_update_may_be_required := false; rp_confirmation_required := true;
     rp_session_best_piq_product_id := None; rp_original_best_piq_product_id := None;
     rp_context_version := 1; rp_replaced_proposal_id := None; rp_authorization_id := None;
     rp_created_at := None; rp_updated_at := None |}.

Definition noon : datetime := Datetime 1700000000000000 true.

Definition created_with (existing : list ResearchAuthorization)
    : result auth_exn ResearchAuthorization :=
  create_research_authorization_from_proposal example_digest proposal0 shopper "c-1" noon "auth-1"
    existing (Some "1.2"%string).

Definition authorization0 : ResearchAuthorization :=
  {| a_id := "auth-1"; a_version := 1;
     a_owner_binding := owner_binding_digest example_digest shopper;
     a_conversation_id := "c-1"; a_decision_id := "dec-1"; a_context_version := 1;
     a_proposal_id := "prop-1"; a_proposal_version := 1;
     a_scope := frozen_scope_from_proposal proposal0;
     a_scope_digest := proposal_digest example_digest proposal0;
     a_proposal_reason := "freshness_required"; a_evaluated_product_ids := ["p1"; "p2"]%string;
     a_idempotency_key :=
       derive_authorization_idempotency_key example_digest shopper "c-1" "dec-1" 1 "prop-1" 1
         (proposal_digest example_digest proposal0);
     a_status := PENDING; a_created_at := noon; a_updated_at := Some noon;
     a_execution_available := false |}.

Example created_eq : created_with [] = Ok authorization0.
Proof. vm_compute. reflexivity. Qed.

Example authorization0_valid : authorization_post_init authorization0 = Ok authorization0.
Proof. vm_compute. reflexivity. Qed.

(** A second confirmation reuses the authorization. *)
Example reused_eq : created_with [authorization0] = Ok authorization0.
Proof. vm_compute. reflexivity. Qed.

Example genuine0 : genuine example_digest authorization0.
Proof. exists shopper. repeat split; reflexivity. Qed.

Example validated_eq :
  validate_research_authorization_for_execution example_digest (Some authorization0) shopper "c-1"
    "dec-1" 1 (Some proposal0) None None None
  = Ok {| valid := true; v_reason := PENDING; v_authorization := Some authorization0;
          v_execution_available := false |}.
Proof. vm_compute. reflexivity. Qed.

Example approved_scope_is_bound_witness :
  a_scope authorization0 = frozen_scope_from_proposal proposal0 \/ collision example_digest.
Proof.
  destruct (approved_scope_is_bound example_digest proposal0 shopper "c-1" noon "auth-1"
    [authorization0] (Some "1.2"%string) authorization0 proposal0 shopper "c-1" "dec-1" 1 None None
    None _ (proj2 (Forall_singleton _ _) genuine0) reused_eq validated_eq eq_refl)
    as [H | H]; [left; apply H | by right].
Defined.

End AuthorizationExamples.

End Authorization.
