(* ===== verification/Conversation.v ===== *)
(** Conversations and the life of their research authorizations: the turn,
    decision reference and context of [app/domain/entities/shopping_assistant.py],
    [app/domain/conversation_continuity.py], [consume_exact_research_authorization]
    of [app/services/research_authorization.py] and
    [ResearchProposalService._authorization_for_persist] of
    [app/services/propose_research.py].

    Module [Context]: the records and the continuity checks. Module
    [Lifecycle]: every way a stored authorization changes, as steps of one
    conversation. The session refinement is a parameter: these parts only keep
    it. *)

From S2P Require Import Prelude PyStr Json Clock Connector Research Authorization.
Import Research Authorization.
#[local] Open Scope Z_scope.

Module Context.

(** ** The records *)

Record DecisionContextReference := {
  dc_decision_id : string;
  dc_context_version : Z;
  dc_evaluated_product_ids : list string;
  dc_piqscore_sha256 : string;
  dc_recommendation_sha256 : string;
  dc_evidence_ids : list string
}.

#[global] Instance reference_eq_dec : EqDecision DecisionContextReference.
Proof. solve_decision. Defined.

(** [len(x) != len(set(x))]. *)
Definition has_duplicates (l : list string) : bool := negb (bool_decide (NoDup l)).

Definition reference_post_init (r : DecisionContextReference) : outcome DecisionContextReference :=
  raise! ValueError "decision_id is required" when negb (py_true (dc_decision_id r)) in
  raise! ValueError "context_version must be at least 1" when dc_context_version r <? 1 in
  raise! ValueError "evaluated_product_ids must not be empty"
    when match dc_evaluated_product_ids r with [] => true | _ => false end in
  raise! ValueError "evaluated_product_ids must be unique"
    when has_duplicates (dc_evaluated_product_ids r) in
  raise! ValueError "evaluated_product_ids must not contain empty values"
    when existsb (fun p => negb (py_true p)) (dc_evaluated_product_ids r) in
  raise! ValueError "evidence_ids must be unique" when has_duplicates (dc_evidence_ids r) in
  raise! ValueError "canonical_piqscore_snapshot_sha256 must be a lowercase SHA-256 digest"
    when negb (is_hex64 (dc_piqscore_sha256 r)) in
  raise! ValueError "recommendation_snapshot_sha256 must be a lowercase SHA-256 digest"
    when negb (is_hex64 (dc_recommendation_sha256 r)) in
  Ok r.

Record ConversationTurn := {
  role : string;
  t_intent : option string;
  product_ids : list string;
  product_names : list string;
  query : string;
  t_created_at : datetime;
  turn_id : option string;
  t_decision_id : option string;
  t_context_version : option Z;
  action : option string
}.

Section Context.
(** [SessionRecommendationRefinement]. *)
Context {Refinement : Type}.

Record ConversationContext := {
  conversation_id : string;
  turns : list ConversationTurn;
  expires_at : datetime;
  last_intent : option string;
  last_product_ids : list string;
  last_product_names : list string;
  last_category : option string;
  owner : option ConversationOwner;
  decision_context : option DecisionContextReference;
  session_refinement : option Refinement;
  research_proposal : option ResearchProposal;
  research_authorizations : list ResearchAuthorization;
  persistence_version : Z
}.

Definition context_post_init (c : ConversationContext) : outcome ConversationContext :=
  raise! ValueError "a decision-bound conversation requires an owner"
    when is_some (decision_context c) && negb (is_some (owner c)) in
  raise! ValueError "persistence_version must not be negative" when persistence_version c <? 0 in
  Ok c.

Definition research_authorization (c : ConversationContext) : option ResearchAuthorization :=
  last (research_authorizations c).

Definition with_authorizations (l : list ResearchAuthorization) (c : ConversationContext)
    : ConversationContext :=
  {| conversation_id := conversation_id c; turns := turns c; expires_at := expires_at c;
     last_intent := last_intent c; last_product_ids := last_product_ids c;
     last_product_names := last_product_names c; last_category := last_category c;
     owner := owner c; decision_context := decision_context c;
     session_refinement := session_refinement c; research_proposal := research_proposal c;
     research_authorizations := l; persistence_version := persistence_version c |}.

(** ** Continuity *)

Inductive drift := ContextDrift (conversation reason : string).

(** [set(a) - set(b)] is non-empty. *)
Definition escapes (a b : list string) : bool := existsb (fun x => negb (one_of x b)) a.

Definition turn_drift (r : DecisionContextReference) (t : ConversationTurn) : option string :=
  if match t_decision_id t with
     | Some d => negb (String.eqb d (dc_decision_id r))
     | None => false
     end
  then Some "turn decision_id does not match the canonical decision"%string
  else if match t_context_version t with
          | Some v => (v <? 1) || (dc_context_version r <? v)
          | None => false
          end
  then Some "turn context_version does not match the canonical decision"%string
  else if escapes (product_ids t) (dc_evaluated_product_ids r)
  then Some "turn contains a product outside the canonical evaluated set"%string
  else None.

Fixpoint first_drift (r : DecisionContextReference) (ts : list ConversationTurn) : option string :=
  match ts with
  | [] => None
  | t :: rest => match turn_drift r t with Some e => Some e | None => first_drift r rest end
  end.

Definition require_context_membership (c : ConversationContext) : result drift unit :=
  match decision_context c with
  | None => Ok tt
  | Some r =>
      raise! ContextDrift (conversation_id c)
          "last product state contains a product outside the canonical evaluated set"
        when escapes (last_product_ids c) (dc_evaluated_product_ids r) in
      match first_drift r (turns c) with
      | Some e => Err (ContextDrift (conversation_id c) e)
      | None => Ok tt
      end
  end.

Definition require_stable_decision_context (existing : option ConversationContext)
    (updated : ConversationContext) : result drift unit :=
  raise! ContextDrift (conversation_id updated)
      "bound decision identity, version, evaluated set, or digests changed"
    when match existing with
         | Some e => is_some (decision_context e)
                     && negb (bool_decide (decision_context updated = decision_context e))
         | None => false
         end in
  require_context_membership updated.

Definition require_verified_research_context_advance (existing updated : ConversationContext)
    : result drift unit :=
  let refuse reason := Err (ContextDrift (conversation_id updated) reason) in
  match decision_context existing, decision_context updated with
  | Some previous, Some nxt =>
      match owner existing, owner updated with
      | Some o, Some o' =>
          if negb (has_same_identity o o')
          then refuse "research advance cannot change the conversation owner"%string
          else if negb (String.eqb (dc_decision_id previous) (dc_decision_id nxt))
          then refuse "research advance cannot change the decision"%string
          else if negb (dc_context_version nxt =? dc_context_version previous + 1)
          then refuse "research advance must move to the next context version"%string
          else if negb (bool_decide (dc_evaluated_product_ids previous
                                     = dc_evaluated_product_ids nxt))
          then refuse "research advance cannot change the evaluated product set"%string
          else if negb (String.eqb (dc_piqscore_sha256 previous) (dc_piqscore_sha256 nxt))
          then refuse "research advance cannot change the canonical PiqScore digest"%string
          else if negb (String.eqb (dc_recommendation_sha256 previous)
                                   (dc_recommendation_sha256 nxt))
          then refuse "research advance cannot change the Recommendation digest"%string
          else require_context_membership updated
      | _, _ => refuse "research advance requires an owner"%string
      end
  | _, _ => refuse "research advance requires an existing bound decision"%string
  end.
End Context.
Arguments ConversationContext : clear implicits.

End Context.
Import Context.

(** ** Every way the authorizations of a conversation change *)
Module Lifecycle.

(** The arguments of a consumption. *)
Record consumption := {
  k_owner : ConversationOwner;
  k_authorization_id : string;
  k_authorization_version : Z;
  k_decision_id : string;
  k_context_version : Z;
  k_proposal_id : string;
  k_proposal_version : Z;
  k_scope_digest : string;
  k_idempotency_key : string;
  k_now : datetime
}.

Definition identity_matches (conversation : string) (k : consumption) (a : ResearchAuthorization)
    : bool :=
  (a_version a =? k_authorization_version k)
  && String.eqb (a_conversation_id a) conversation
  && String.eqb (a_decision_id a) (k_decision_id k)
  && (a_context_version a =? k_context_version k)
  && String.eqb (a_proposal_id a) (k_proposal_id k)
  && (a_proposal_version a =? k_proposal_version k)
  && String.eqb (a_scope_digest a) (k_scope_digest k)
  && String.eqb (a_idempotency_key a) (k_idempotency_key k).

(** The confirmation, cancellation or replacement of a proposal. *)
Record persistence := {
  ps_lifecycle : string;
  ps_proposal : option ResearchProposal;
  ps_owner : ConversationOwner;
  ps_now : datetime;
  ps_make_id : string;
  ps_schema_version : option string
}.

Section Lifecycle.
Context {Refinement : Type} (sha256_hex : string -> string).

Definition named (i : string) (a : ResearchAuthorization) : bool := String.eqb (a_id a) i.

Definition consume_exact_research_authorization (c : ConversationContext Refinement)
    (k : consumption) : result auth_exn (ConversationContext Refinement) :=
  let conflict reason := ConsumptionConflict (conversation_id c) reason in
  raise! conflict "wrong_owner"%string
    when negb match owner c with
              | Some o => has_same_identity o (k_owner k)
              | None => false
              end in
  match List.filter (named (k_authorization_id k)) (research_authorizations c) with
  | [current] =>
      raise! conflict "wrong_owner"%string
        when negb (String.eqb (a_owner_binding current)
                     (owner_binding_digest sha256_hex (k_owner k))) in
      raise! conflict "authorization_identity_mismatch"%string
        when negb (identity_matches (conversation_id c) k current) in
      raise! conflict "already_consumed"%string
        when String.eqb (a_status current) "consumed" in
      raise! conflict "not_pending"%string when negb (is_pending_execution current) in
      let! consumed := mark_research_authorization_consumed current (k_now k) in
      let replaced := map (fun a => if named (k_authorization_id k) a then consumed else a)
                        (research_authorizations c) in
      lift (context_post_init (with_authorizations replaced c))
  | _ => Err (conflict "authorization_not_found"%string)
  end.

Definition _authorization_for_persist (e : persistence) (conversation : string)
    (existing : list ResearchAuthorization)
    : result auth_exn (option ResearchAuthorization * bool) :=
  let is_lifecycle l := String.eqb (ps_lifecycle e) l in
  let current := current_unconsumed_authorization existing in
  if is_lifecycle "confirm" || is_lifecycle "reconfirm" then
    match ps_proposal e with
    | None => Ok (None, false)
    | Some p =>
        let! a := create_research_authorization_from_proposal sha256_hex p (ps_owner e)
                    conversation (ps_now e) (ps_make_id e) existing (ps_schema_version e) in
        Ok (Some a, negb (existsb (named (a_id a)) existing))
    end
  else
    match current with
    | Some x =>
        if is_lifecycle "cancel"
        then let! a := cancel_research_authorization x (ps_now e) in Ok (Some a, false)
        else if is_lifecycle "replace"
        then let! a := invalidate_research_authorization x (ps_now e) in Ok (Some a, false)
        else Ok (None, false)
    | None => Ok (None, false)
    end.

(** The authorizations the next save stores. *)
Definition persist (e : persistence) (conversation : string)
    (existing : list ResearchAuthorization) : result auth_exn (list ResearchAuthorization) :=
  let! (a, created) := _authorization_for_persist e conversation existing in
  Ok match a with Some x => upsert_authorization existing x | None => existing end.

(** ** Steps *)

Inductive event := Persist (e : persistence) | Consume (k : consumption).

Definition perform (v : event) (c : ConversationContext Refinement)
    : result auth_exn (ConversationContext Refinement) :=
  match v with
  | Persist e =>
      let! l := persist e (conversation_id c) (research_authorizations c) in
      Ok (with_authorizations l c)
  | Consume k => consume_exact_research_authorization c k
  end.

(** A refused operation stores nothing. *)
Definition step (c : ConversationContext Refinement) (v : event)
    : ConversationContext Refinement :=
  match perform v c with Ok c' => c' | Err _ => c end.

Definition run (vs : list event) (c : ConversationContext Refinement)
    : ConversationContext Refinement := foldl step c vs.

(** The identifiers the factory hands out. *)
Definition new_ids (vs : list event) : list string :=
  omap (fun v => match v with Persist e => Some (ps_make_id e) | Consume _ => None end) vs.

(** The consumptions of one idempotency key that succeeded. *)
Fixpoint consumptions (key : string) (vs : list event) (c : ConversationContext Refinement)
    : nat :=
  match vs with
  | [] => 0
  | v :: rest =>
      (match v with
       | Consume k => if String.eqb (k_idempotency_key k) key && is_ok (perform v c) then 1 else 0
       | Persist _ => 0
       end + consumptions key rest (step c v))%nat
  end.

(** One authorization per id and per idempotency key. *)
Definition unique_authorizations (l : list ResearchAuthorization) : Prop :=
  NoDup (map a_id l) /\ NoDup (map a_idempotency_key l).

(** ** One step changes at most one authorization *)

Inductive changes (l : list ResearchAuthorization)
    : option string -> list ResearchAuthorization -> Prop :=
| Unchanged o : changes l o l
| Created i a :
    a_id a = i -> a_status a = PENDING ->
    a_idempotency_key a ∉ map a_idempotency_key l -> changes l (Some i) (l ++ [a])
| Settled o x s now :
    x ∈ l -> a_status x = PENDING -> one_of s _TERMINAL_STATUSES = true ->
    changes l o (map (fun a => if named (a_id x) a then with_status s now x else a) l).

Lemma named_iff i a : named i a = true <-> a_id a = i.
Proof. apply String.eqb_eq. Qed.

(** Replacing an item by one that keeps a field keeps that field's list. *)
Lemma replaced_field {B} (f : ResearchAuthorization -> B) l x y :
  NoDup (map a_id l) -> x ∈ l -> f y = f x ->
  map f (map (fun a => if named (a_id x) a then y else a) l) = map f l.
Proof.
  intros Hnd Hx Hf. rewrite map_map. apply map_ext_in. intros a Ha%list_elem_of_In.
  destruct (named (a_id x) a) eqn:E; [| done]. apply named_iff in E.
  by rewrite (NoDup_map_inj a_id l a x).
Qed.

Lemma replaced_self l x :
  NoDup (map a_id l) -> x ∈ l -> map (fun a => if named (a_id x) a then x else a) l = l.
Proof.
  intros Hnd Hx. rewrite <- (map_id l) at 2. apply map_ext_in. intros a Ha%list_elem_of_In.
  destruct (named (a_id x) a) eqn:E; [| done]. apply named_iff in E. by apply (NoDup_map_inj a_id l).
Qed.

Lemma upsert_replaces l x y :
  x ∈ l -> a_id y = a_id x ->
  upsert_authorization l y = map (fun a => if named (a_id x) a then y else a) l.
Proof.
  intros Hx E. unfold upsert_authorization. rewrite E.
  change (fun a => String.eqb (a_id a) (a_id x)) with (named (a_id x)). cbv zeta.
  assert (existsb (named (a_id x)) l = true) as ->; [| done].
  apply existsb_exists. exists x. split; [by apply list_elem_of_In | by apply named_iff].
Qed.

Lemma upsert_appends l y : a_id y ∉ map a_id l -> upsert_authorization l y = l ++ [y].
Proof.
  intros Hn. unfold upsert_authorization. cbv zeta.
  assert (Hf : forall a, a ∈ l -> String.eqb (a_id a) (a_id y) = false).
  { intros a Ha. apply String.eqb_neq. intros E. apply Hn. rewrite <- E.
    by apply list_elem_of_fmap_2. }
  assert (existsb (fun a => String.eqb (a_id a) (a_id y)) l = false) as ->.
  { apply not_true_iff_false. intros (a & Ha%list_elem_of_In & E)%existsb_exists.
    by rewrite Hf in E. }
  f_equal. rewrite <- (map_id l) at 2. apply map_ext_in. intros a Ha%list_elem_of_In.
  by rewrite Hf.
Qed.

Lemma replaced_status_ok s now a b : replaced_status s now a = Ok b -> b = with_status s now a.
Proof. intros H. by apply lift_ok, authorization_post_init_id in H. Qed.

Lemma current_pending l x :
  current_unconsumed_authorization l = Some x -> x ∈ l /\ a_status x = PENDING.
Proof.
  intros H%last_Some_elem_of. apply list_elem_of_In, filter_In in H as [H E].
  split; [by apply list_elem_of_In | by apply String.eqb_eq].
Qed.

Lemma settle_changes l o x s now y :
  NoDup (map a_id l) -> x ∈ l -> a_status x = PENDING -> one_of s _TERMINAL_STATUSES = true ->
  replaced_status s now x = Ok y -> changes l o (upsert_authorization l y).
Proof.
  intros Hnd Hx Hp Hs Hy. apply replaced_status_ok in Hy as ->.
  rewrite (upsert_replaces l x) by done. by apply Settled.
Qed.

Lemma persist_changes e cv l l' :
  unique_authorizations l -> ps_make_id e ∉ map a_id l ->
  persist e cv l = Ok l' -> changes l (Some (ps_make_id e)) l'.
Proof.
  intros [Hnd Hkeys] Hnew H. unfold persist in H.
  apply rbind_ok_inv in H as ([o created] & H & [= <-]). unfold _authorization_for_persist in H.
  destruct (_ || _).
  - destruct (ps_proposal e) as [p|]; [| injection H as <- <-; apply Unchanged].
    apply rbind_ok_inv in H as (a & H & [= <- _]).
    unfold create_research_authorization_from_proposal in H.
    apply rbind_ok_inv in H as (_ & _ & H). apply rbind_unit_ok in H as [_ H].
    destruct (_find_by_idempotency l _) as [m|] eqn:Em.
    + injection H as <-. apply find_by_idempotency_some in Em as [Hm _].
      rewrite (upsert_replaces l m), replaced_self by done. apply Unchanged.
    + apply lift_ok, authorization_post_init_id in H as ->.
      rewrite upsert_appends by done. apply Created; [done | done |].
      intros (b & Hb & Hin)%list_elem_of_fmap.
      by apply (find_by_idempotency_none l _ b Em Hin).
  - destruct (current_unconsumed_authorization l) as [x|] eqn:Ex;
      [| injection H as <- <-; apply Unchanged].
    apply current_pending in Ex as [Hx Hp].
    destruct (String.eqb (ps_lifecycle e) "cancel").
    + apply rbind_ok_inv in H as (a & H & [= <- _]). unfold cancel_research_authorization in H.
      rewrite Hp in H. exact (settle_changes l _ x "cancelled" _ a Hnd Hx Hp eq_refl H).
    + destruct (String.eqb (ps_lifecycle e) "replace"); [| injection H as <- <-; apply Unchanged].
      apply rbind_ok_inv in H as (a & H & [= <- _]).
      unfold invalidate_research_authorization in H. rewrite Hp in H.
      exact (settle_changes l _ x "invalidated" _ a Hnd Hx Hp eq_refl H).
Qed.

(** What a consumption that succeeds has checked, and what it stores. *)
Lemma consume_ok c k c' :
  consume_exact_research_authorization c k = Ok c' ->
  exists x o, research_authorizations c' =
      map (fun a => if named (a_id x) a then with_status "consumed" (k_now k) x else a)
        (research_authorizations c)
    /\ c' = with_authorizations (research_authorizations c') c
    /\ x ∈ research_authorizations c /\ a_id x = k_authorization_id k /\ a_status x = PENDING
    /\ owner c = Some o /\ has_same_identity o (k_owner k) = true
    /\ a_owner_binding x = owner_binding_digest sha256_hex (k_owner k)
    /\ identity_matches (conversation_id c) k x = true.
Proof.
  intros H. unfold consume_exact_research_authorization in H. cbv zeta in H.
  apply rbind_unit_ok in H as [Ho%guard_raise_ok H].
  destruct (List.filter _ _) as [|x [|]] eqn:Ef; [done | | done].
  apply rbind_unit_ok in H as [Hb%guard_raise_ok H].
  apply rbind_unit_ok in H as [Hi%guard_raise_ok H].
  apply rbind_unit_ok in H as [_ H]. apply rbind_unit_ok in H as [Hp%guard_raise_ok H].
  apply rbind_ok_inv in H as (y & Hy & H).
  apply lift_ok in H. unfold context_post_init in H. apply rbind_unit_ok in H as [_ H].
  apply rbind_unit_ok in H as [_ [= <-]].
  unfold mark_research_authorization_consumed in Hy. apply rbind_unit_ok in Hy as [_ Hy].
  apply replaced_status_ok in Hy as ->.
  assert (In x (List.filter (named (k_authorization_id k)) (research_authorizations c))) as Hx
    by (rewrite Ef; by left).
  apply filter_In in Hx as [Hx Hn%named_iff]. apply negb_false_iff in Ho, Hb, Hi, Hp.
  destruct (owner c) as [o|] eqn:Eo; [| done].
  exists x, o. simpl. rewrite Hn. split; [done |]. split; [done |].
  split; [by apply list_elem_of_In |]. split; [done |]. split; [by apply String.eqb_eq |].
  split; [done |]. split; [done |]. split; [by apply String.eqb_eq | done].
Qed.

Definition event_id (v : event) : option string :=
  match v with Persist e => Some (ps_make_id e) | Consume _ => None end.

Lemma step_changes c v :
  unique_authorizations (research_authorizations c) ->
  (forall i, event_id v = Some i -> i ∉ map a_id (research_authorizations c)) ->
  changes (research_authorizations c) (event_id v) (research_authorizations (step c v)).
Proof.
  intros Hu Hnew. unfold step. destruct (perform v c) as [c'|] eqn:E; [| apply Unchanged].
  destruct v as [e | k]; simpl in *.
  - apply rbind_ok_inv in E as (l & Hl & [= <-]). simpl.
    apply (persist_changes e (conversation_id c)); [done | by apply Hnew | done].
  - apply consume_ok in E as (x & o & -> & _ & Hx & _ & Hp & _). by apply Settled.
Qed.

Lemma changes_unique l o l' :
  unique_authorizations l -> (forall i, o = Some i -> i ∉ map a_id l) -> changes l o l' ->
  unique_authorizations l'.
Proof.
  intros [Hnd Hkeys] Hnew Hc. revert Hnew.
  destruct Hc as [o' | i a Ei Hs Hk | o' x s now Hx Hp Hs]; intros Hnew; [by split | |].
  - split; rewrite map_app; apply NoDup_snoc; [done | | done | done].
    rewrite Ei. by apply Hnew.
  - split; by rewrite replaced_field.
Qed.

Lemma changes_ids l o l' z :
  NoDup (map a_id l) -> changes l o l' -> z ∈ map a_id l' -> z ∈ map a_id l \/ o = Some z.
Proof.
  intros Hnd [o' | i a Ei Hs Hk | o' x s now Hx Hp Hs]; [by left | |].
  - rewrite map_app, elem_of_app. intros [Hz | ->%list_elem_of_singleton]; [by left | right].
    by rewrite Ei.
  - rewrite replaced_field by done. by left.
Qed.

(** Terminal authorizations are never touched again. *)
Lemma terminal_kept l o l' a :
  NoDup (map a_id l) -> changes l o l' -> a ∈ l -> is_terminal a = true -> a ∈ l'.
Proof.
  intros Hnd [o' | i b Ei Hs Hk | o' x s now Hx Hp Hs] Ha Ht; [done | |].
  - apply elem_of_app. by left.
  - apply list_elem_of_In, in_map_iff. exists a.
    destruct (named (a_id x) a) eqn:E; [| split; [done | by apply list_elem_of_In]].
    apply named_iff in E. rewrite (NoDup_map_inj a_id l a x Hnd Ha Hx E) in Ht.
    unfold is_terminal in Ht. by rewrite Hp in Ht.
Qed.

Lemma step_fresh (c : ConversationContext Refinement) v vs :
  NoDup (map a_id (research_authorizations c) ++ new_ids (v :: vs)) ->
  forall i, event_id v = Some i -> i ∉ map a_id (research_authorizations c).
Proof.
  intros (_ & Hd & _)%NoDup_app i Ei Hi. apply (Hd i Hi).
  destruct v; simplify_eq/=. constructor.
Qed.

Lemma step_keeps_fresh (c : ConversationContext Refinement) v vs :
  unique_authorizations (research_authorizations c) ->
  NoDup (map a_id (research_authorizations c) ++ new_ids (v :: vs)) ->
  unique_authorizations (research_authorizations (step c v))
  /\ NoDup (map a_id (research_authorizations (step c v)) ++ new_ids vs).
Proof.
  intros Hu Hnd. pose proof (step_fresh c v vs Hnd) as Hnew.
  pose proof (step_changes c v Hu Hnew) as Hc.
  pose proof (changes_unique _ _ _ Hu Hnew Hc) as Hu'. split; [done |].
  apply NoDup_app in Hnd as (Hids & Hd & Hrest). apply NoDup_app.
  split; [apply Hu' |]. split.
  - intros z Hz Hin. apply (changes_ids _ _ _ z Hids Hc) in Hz as [Hz | Ev].
    + apply (Hd z Hz). destruct v; simplify_eq/=; [by constructor | done].
    + destruct v; simplify_eq/=. apply NoDup_cons in Hrest as [Hn _]. by apply Hn.
  - destruct v; [by apply NoDup_cons in Hrest as [_ ?] | done].
Qed.

(** A terminal authorization's key can no longer be consumed. *)
Lemma terminal_not_consumed vs (c : ConversationContext Refinement) a :
  unique_authorizations (research_authorizations c) ->
  NoDup (map a_id (research_authorizations c) ++ new_ids vs) ->
  a ∈ research_authorizations c -> is_terminal a = true ->
  consumptions (a_idempotency_key a) vs c = 0%nat.
Proof.
  revert c. induction vs as [|v vs IH]; intros c Hu Hnd Ha Ht; [done |]. cbn [consumptions].
  destruct (step_keeps_fresh c v vs Hu Hnd) as [Hu' Hnd'].
  pose proof (step_changes c v Hu (step_fresh c v vs Hnd)) as Hc.
  rewrite IH; [| done | done | by eapply terminal_kept; [apply Hu | ..] | done].
  destruct v as [e | k]; [done |].
  destruct (String.eqb_spec (k_idempotency_key k) (a_idempotency_key a)) as [Ek |]; [| done].
  destruct (perform (Consume k) c) as [c'|] eqn:E; [| done]. exfalso. simpl in E.
  apply consume_ok in E as (x & o & _ & _ & Hx & _ & Hp & _ & _ & _ & Hm).
  unfold identity_matches in Hm. bool_simpl.
  assert (x = a) as ->; [| unfold is_terminal in Ht; by rewrite Hp in Ht].
  apply (NoDup_map_inj a_idempotency_key _ x a (proj2 Hu) Hx Ha). rewrite <- Ek.
  by apply String.eqb_eq.
Qed.

Lemma consumed_terminal (c : ConversationContext Refinement) k c' :
  NoDup (map a_id (research_authorizations c)) ->
  consume_exact_research_authorization c k = Ok c' ->
  exists a, a ∈ research_authorizations c' /\ is_terminal a = true
            /\ a_idempotency_key a = k_idempotency_key k.
Proof.
  intros Hnd H. apply consume_ok in H as (x & o & -> & _ & Hx & _ & _ & _ & _ & _ & Hm).
  exists (with_status "consumed" (k_now k) x). split; [| split; [done |]].
  - apply list_elem_of_In, in_map_iff. exists x. split; [| by apply list_elem_of_In].
    unfold named. by rewrite String.eqb_refl.
  - unfold identity_matches in Hm. bool_simpl. by apply String.eqb_eq.
Qed.

(** C7: an approval is spent at most once. Whatever confirmations, cancellations,
    replacements and consumptions reach a conversation, in any order and by
    anyone, it keeps one authorization per id and per idempotency key; an
    authorization that was consumed, cancelled or invalidated never changes
    again and its key cannot be consumed; and no key is consumed twice. The
    only assumption is that the identifier factory does not repeat itself. *)
Theorem authorization_spent_once vs (c : ConversationContext Refinement) :
  unique_authorizations (research_authorizations c) ->
  NoDup (map a_id (research_authorizations c) ++ new_ids vs) ->
  let c' := run vs c in
  unique_authorizations (research_authorizations c')
  /\ (forall a, a ∈ research_authorizations c -> is_terminal a = true ->
        a ∈ research_authorizations c' /\ consumptions (a_idempotency_key a) vs c = 0%nat)
  /\ (forall key, (consumptions key vs c <= 1)%nat).
Proof.
  cbv zeta. revert c. induction vs as [|v vs IH]; intros c Hu Hnd.
  { split; [done |]. split; [done |]. simpl. lia. }
  destruct (step_keeps_fresh c v vs Hu Hnd) as [Hu' Hnd'].
  pose proof (step_changes c v Hu (step_fresh c v vs Hnd)) as Hc.
  destruct (IH (step c v) Hu' Hnd') as (H1 & H2 & H3). split; [done |]. split.
  - intros a Ha Ht. split; [| by apply terminal_not_consumed].
    apply (H2 a); [by eapply terminal_kept; [apply Hu | ..] | done].
  - intros key. cbn [consumptions]. specialize (H3 key). destruct v as [e | k]; [lia |].
    destruct (String.eqb_spec (k_idempotency_key k) key) as [Ek |]; [| simpl; lia].
    destruct (perform (Consume k) c) as [c'|] eqn:E; [| simpl; lia].
    assert (Es : step c (Consume k) = c') by (unfold step; by rewrite E).
    apply consumed_terminal in E as (a & Ha & Ht & Ea); [| apply Hu].
    rewrite <- Es in Ha. destruct (H2 a Ha Ht) as [_ H0]. rewrite Ea, Ek in H0.
    simpl. lia.
Qed.

(** ** A consumption is exact *)

(** What a consumption names: the pending authorization of this owner, with
    every binding it was approved with. *)
Definition consumable (c : ConversationContext Refinement) (k : consumption)
    (x : ResearchAuthorization) : Prop :=
  x ∈ research_authorizations c /\ a_id x = k_authorization_id k /\ a_status x = PENDING
  /\ (exists o, owner c = Some o /\ has_same_identity o (k_owner k) = true)
  /\ a_owner_binding x = owner_binding_digest sha256_hex (k_owner k)
  /\ identity_matches (conversation_id c) k x = true.

Lemma filter_named_none l i : i ∉ map a_id l -> List.filter (named i) l = [].
Proof.
  induction l as [|y l IH]; [done |]. simpl. intros [Hne Hn]%not_elem_of_cons.
  unfold named at 1. destruct (String.eqb_spec (a_id y) i); [congruence | by apply IH].
Qed.

Lemma filter_named l x :
  NoDup (map a_id l) -> x ∈ l -> List.filter (named (a_id x)) l = [x].
Proof.
  induction l as [|y l IH]; [by intros _ H%elem_of_nil |].
  simpl. intros [Hnin Hnd]%NoDup_cons Hx. unfold named at 1.
  destruct (String.eqb_spec (a_id y) (a_id x)) as [E | E].
  - assert (x = y) as ->.
    { apply elem_of_cons in Hx as [-> | Hx]; [done |].
      exfalso. apply Hnin. rewrite E. by apply list_elem_of_fmap_2. }
    f_equal. by apply filter_named_none.
  - apply elem_of_cons in Hx as [-> | Hx]; [done |]. by apply IH.
Qed.

Lemma with_status_valid s now a :
  authorization_post_init a = Ok a ->
  authorization_post_init (with_status s now a) = Ok (with_status s now a).
Proof.
  unfold authorization_post_init. intros H.
  do 11 (apply rbind_unit_ok in H as [?%guard_raise_ok H]). simpl.
  repeat match goal with E : _ = false |- _ => rewrite E; clear E end. done.
Qed.

Lemma consume_complete c k x :
  context_post_init c = Ok c -> NoDup (map a_id (research_authorizations c)) ->
  authorization_post_init x = Ok x -> consumable c k x ->
  is_ok (consume_exact_research_authorization c k) = true.
Proof.
  intros Hc Hnd Hv (Hx & Hid & Hp & (o & Ho & Hso) & Hb & Hm).
  unfold consume_exact_research_authorization. cbv zeta.
  rewrite Ho, Hso. cbn [negb guard_raise rbind]. rewrite <- Hid, filter_named by done.
  rewrite Hb, String.eqb_refl, Hm. unfold is_pending_execution. rewrite Hp.
  unfold mark_research_authorization_consumed, is_pending_execution. rewrite Hp.
  unfold replaced_status. rewrite with_status_valid by done.
  unfold context_post_init in *. simpl. rewrite Ho. rewrite andb_false_r. simpl.
  apply rbind_unit_ok in Hc as [_ Hc]. apply rbind_unit_ok in Hc as [Hc%guard_raise_ok _].
  by rewrite Hc.
Qed.

(** A refusal is a conflict, and nothing was consumable. *)
Lemma consume_error c k e :
  context_post_init c = Ok c -> NoDup (map a_id (research_authorizations c)) ->
  Forall (fun a => authorization_post_init a = Ok a) (research_authorizations c) ->
  consume_exact_research_authorization c k = Err e ->
  (exists reason, e = ConsumptionConflict (conversation_id c) reason)
  /\ forall x, ~ consumable c k x.
Proof.
  intros Hc Hnd Hall H.
  assert (Hno : forall x, ~ consumable c k x).
  { intros x Hx. pose proof (consume_complete c k x Hc Hnd) as Hok. rewrite H in Hok.
    pose proof (proj1 (Forall_forall _ _) Hall x (proj1 Hx)) as Hv. by specialize (Hok Hv Hx). }
  split; [| done]. revert H. unfold consume_exact_research_authorization. cbv zeta.
  destruct (owner c) as [o|] eqn:Eo; [| intros [= <-]; eauto].
  destruct (has_same_identity o (k_owner k)) eqn:Es; [| intros [= <-]; eauto].
  cbn [negb guard_raise rbind].
  destruct (List.filter _ _) as [|x [|]] eqn:Ef; [intros [= <-]; eauto | | intros [= <-]; eauto].
  assert (In x (List.filter (named (k_authorization_id k)) (research_authorizations c)))
    as [Hx Hn%named_iff]%filter_In by (rewrite Ef; by left).
  destruct (String.eqb (a_owner_binding x) _) eqn:Eb; [| intros [= <-]; eauto].
  destruct (identity_matches _ _ _) eqn:Em; [| intros [= <-]; eauto].
  destruct (String.eqb (a_status x) "consumed"); [intros [= <-]; eauto |].
  destruct (is_pending_execution x) eqn:Ep; [| intros [= <-]; eauto].
  intros _. exfalso. apply (Hno x). apply String.eqb_eq in Ep, Eb.
  split; [by apply list_elem_of_In |]. do 2 (split; [done |]). split; [by exists o | done].
Qed.

(** A consumption is exact. On a valid conversation it succeeds exactly when
    the named authorization is there, pending, of this owner and unchanged in
    every binding; it then marks that one consumed and changes nothing else of
    the conversation; and it refuses with a conflict otherwise. *)
Theorem consume_is_exact c k :
  context_post_init c = Ok c -> NoDup (map a_id (research_authorizations c)) ->
  Forall (fun a => authorization_post_init a = Ok a) (research_authorizations c) ->
  match consume_exact_research_authorization c k with
  | Ok c' => exists x, consumable c k x
      /\ c' = with_authorizations
                (map (fun a => if named (a_id x) a then with_status "consumed" (k_now k) x else a)
                   (research_authorizations c)) c
  | Err e => (exists reason, e = ConsumptionConflict (conversation_id c) reason)
             /\ forall x, ~ consumable c k x
  end.
Proof.
  intros Hc Hnd Hall. destruct (consume_exact_research_authorization c k) as [c'|e] eqn:E.
  - apply consume_ok in E as (x & o & El & -> & Hx & Hi & Hp & Ho & Hs & Hb & Hm).
    exists x. split; [| by rewrite El]. do 3 (split; [done |]). split; [by exists o | done].
  - by apply consume_error.
Qed.
End Lifecycle.

Module Examples.
Import AuthorizationExamples.

Definition conversation0 : ConversationContext unit :=
  {| conversation_id := "c-1"; turns := []; expires_at := Datetime 1700000600000000 true;
     last_intent := None; last_product_ids := []; last_product_names := []; last_category := None;
     owner := Some shopper; decision_context := None; session_refinement := None;
     research_proposal := Some proposal0; research_authorizations := [authorization0];
     persistence_version := 3 |}.

Definition spend : consumption :=
  {| k_owner := shopper; k_authorization_id := "auth-1"; k_authorization_version := 1;
     k_decision_id := "dec-1"; k_context_version := 1; k_proposal_id := "prop-1";
     k_proposal_version := 1; k_scope_digest := proposal_digest example_digest proposal0;
     k_idempotency_key := a_idempotency_key authorization0; k_now := noon |}.

Definition confirm_again : persistence :=
  {| ps_lifecycle := "reconfirm"; ps_proposal := Some proposal0; ps_owner := shopper;
     ps_now := noon; ps_make_id := "auth-2"; ps_schema_version := None |}.

Definition history : list event := [Consume spend; Persist confirm_again; Consume spend].

(** Confirming again after the spend does not make a second authorization. *)
Example history_spends_once :
  consumptions example_digest (a_idempotency_key authorization0) history conversation0 = 1%nat
  /\ map a_status (research_authorizations (run example_digest history conversation0))
     = ["consumed"%string].
Proof. vm_compute. split; reflexivity. Qed.

Example authorization_spent_once_witness :
  (consumptions example_digest (a_idempotency_key authorization0) history conversation0 <= 1)%nat.
Proof.
  refine (proj2 (proj2 (authorization_spent_once example_digest history conversation0 _ _)) _).
  - split; apply NoDup_singleton.
  - apply (bool_decide_eq_true_1 (NoDup _)). vm_compute. reflexivity.
Defined.

Example consume_is_exact_witness :
  match consume_exact_research_authorization example_digest conversation0 spend with
  | Ok c' => exists x, consumable example_digest conversation0 spend x
      /\ c' = with_authorizations
                (map (fun a => if named (a_id x) a then with_status "consumed" noon x else a)
                   [authorization0]) conversation0
  | Err e => (exists reason, e = ConsumptionConflict "c-1" reason)
             /\ forall x, ~ consumable example_digest conversation0 spend x
  end.
Proof.
  apply (consume_is_exact example_digest conversation0 spend eq_refl (NoDup_singleton _)).
  apply Forall_singleton. exact authorization0_valid.
Defined.
End Examples.

End Lifecycle.
