(* ===== verification/ConversationRepo.v ===== *)
(** Where conversations live: [InMemoryConversationRepository] of
    [app/intelligence/shopping_assistant/memory.py] and
    [SqlAlchemyConversationRepository] of
    [app/infrastructure/database/repositories/shopping_conversation_repository.py],
    behind the port of [app/domain/interfaces/shopping_assistant_repository.py].

    Module [Common]: what the two classes share word for word. Module [Port]:
    the calls and answers. Module [Memory]: a dictionary under one lock. Module
    [Sql]: rows of [operational_entities], where other workers act between the
    sessions of a method and between the statements of a session. Every method
    reads its clock once. *)

From S2P Require Import Prelude PyStr Json Clock Connector PyState OpStore Research Authorization Conversation.
Import Research Authorization Context Lifecycle.
#[local] Open Scope Z_scope.

(** The exceptions the methods raise. *)
Inductive conv_exn :=
| VersionConflict (conversation : string) (expected : Z)
| OwnershipError (conversation reason : string)
| DriftError (d : drift)
| KeyError (message : string)
| SchemaError (conversation : string)
| AuthorizationError (e : auth_exn)
| InvalidContext (e : value_error).

Module Common.

Definition DEFAULT_TTL_SECONDS : Z := 30 * 60.
Definition MAX_TURNS : Z := 12.

(** What the constructor stores. *)
Record settings := { ttl_seconds : Z; max_turns : Z }.

Definition make_settings (ttl turns : Z) : outcome settings :=
  raise! ValueError "ttl_seconds must be at least 1" when ttl <? 1 in
  raise! ValueError "max_turns must be at least 1" when turns <? 1 in
  Ok {| ttl_seconds := ttl; max_turns := turns |}.

(** A conversation turn appended, with what else the caller learned. *)
Record turn_update := {
  u_turn : ConversationTurn;
  u_last_intent : option string;
  u_last_product_ids : list string;
  u_last_product_names : list string;
  u_last_category : option string
}.

Definition INTENTS : list string :=
  ["recommendation"; "comparison"; "worth_buying"; "best_offer"; "complaints";
   "buy_now_or_wait"; "use_case"; "seller_trust"; "general"]%string.

Section Common.
Context {Refinement : Type} (cfg : settings) (now : datetime).
Notation Ctx := (ConversationContext Refinement).

Definition _is_expired (c : Ctx) : bool :=
  (dt_us (expires_at c) <=? dt_us now)
  || match owner c with Some o => dt_us (o_expires_at o) <=? dt_us now | None => false end.

Definition _require_active_owner (conversation : string) (o : option ConversationOwner)
    : result conv_exn unit :=
  guard_raise match o with Some o => dt_us (o_expires_at o) <=? dt_us now | None => false end
    (OwnershipError conversation "owner binding is expired").

Definition deadline : datetime := dt_add now (seconds (ttl_seconds cfg)).

Definition drifted {A} (m : result drift A) : result conv_exn A :=
  match m with Ok a => Ok a | Err d => Err (DriftError d) end.

(** [replace(...)] runs the dataclass checks again. *)
Definition checked (c : Ctx) : result conv_exn Ctx :=
  match context_post_init c with Ok c => Ok c | Err e => Err (InvalidContext e) end.

(** [turns[-max_turns:]]. *)
Definition recent (ts : list ConversationTurn) : list ConversationTurn :=
  drop (length ts - Z.to_nat (max_turns cfg)) ts.

Definition with_turns (ts : list ConversationTurn) (c : Ctx) : Ctx :=
  {| conversation_id := conversation_id c; turns := ts; expires_at := expires_at c;
     last_intent := last_intent c; last_product_ids := last_product_ids c;
     last_product_names := last_product_names c; last_category := last_category c;
     owner := owner c; decision_context := decision_context c;
     session_refinement := session_refinement c; research_proposal := research_proposal c;
     research_authorizations := research_authorizations c;
     persistence_version := persistence_version c |}.

Definition with_version (v : Z) (c : Ctx) : Ctx :=
  {| conversation_id := conversation_id c; turns := turns c; expires_at := expires_at c;
     last_intent := last_intent c; last_product_ids := last_product_ids c;
     last_product_names := last_product_names c; last_category := last_category c;
     owner := owner c; decision_context := decision_context c;
     session_refinement := session_refinement c; research_proposal := research_proposal c;
     research_authorizations := research_authorizations c; persistence_version := v |}.

(** Owner and decision of a binding, with a fresh deadline. *)
Definition with_decision (o : ConversationOwner) (r : DecisionContextReference) (c : Ctx) : Ctx :=
  {| conversation_id := conversation_id c; turns := turns c; expires_at := deadline;
     last_intent := last_intent c; last_product_ids := dc_evaluated_product_ids r;
     last_product_names := last_product_names c; last_category := last_category c;
     owner := Some o; decision_context := Some r;
     session_refinement := session_refinement c; research_proposal := research_proposal c;
     research_authorizations := research_authorizations c;
     persistence_version := persistence_version c |}.

Definition with_owner (o : ConversationOwner) (c : Ctx) : Ctx :=
  {| conversation_id := conversation_id c; turns := turns c; expires_at := deadline;
     last_intent := last_intent c; last_product_ids := last_product_ids c;
     last_product_names := last_product_names c; last_category := last_category c;
     owner := Some o; decision_context := decision_context c;
     session_refinement := session_refinement c; research_proposal := research_proposal c;
     research_authorizations := research_authorizations c;
     persistence_version := persistence_version c |}.

(** A new conversation. *)
Definition fresh_context (i : string) (o : option ConversationOwner)
    (r : option DecisionContextReference) : Ctx :=
  {| conversation_id := i; turns := []; expires_at := deadline; last_intent := None;
     last_product_ids := []; last_product_names := []; last_category := None; owner := o;
     decision_context := r; session_refinement := None; research_proposal := None;
     research_authorizations := []; persistence_version := 0 |}.

(** [a or b] on tuples and texts. *)
Definition or_list (a b : list string) : list string := match a with [] => b | _ => a end.
Definition or_text (a b : option string) : option string := if some_text a then a else b.

Definition intent_value (u : turn_update) (c : Ctx) : option string :=
  match u_last_intent u with
  | Some i => if one_of i INTENTS then Some i else last_intent c
  | None => last_intent c
  end.

Definition with_turn (u : turn_update) (c : Ctx) : Ctx :=
  {| conversation_id := conversation_id c; turns := recent (turns c ++ [u_turn u]);
     expires_at := deadline; last_intent := intent_value u c;
     last_product_ids := or_list (u_last_product_ids u) (last_product_ids c);
     last_product_names := or_list (u_last_product_names u) (last_product_names c);
     last_category := or_text (u_last_category u) (last_category c);
     owner := owner c; decision_context := decision_context c;
     session_refinement := session_refinement c; research_proposal := research_proposal c;
     research_authorizations := research_authorizations c;
     persistence_version := persistence_version c |}.

(** [existing.owner is not None and (updated.owner is None or not
    existing.owner.has_same_identity(updated.owner))]. *)
Definition owner_changes (existing updated : Ctx) : bool :=
  match owner existing, owner updated with
  | Some o, Some o' => negb (has_same_identity o o')
  | Some _, None => true
  | None, _ => false
  end.

Definition owned_by (o : ConversationOwner) (c : Ctx) : bool :=
  match owner c with Some o' => has_same_identity o' o | None => false end.

Definition not_found (i : string) : conv_exn := KeyError ("conversation not found: " +:+ i).
Definition owner_mismatch (i : string) : conv_exn := OwnershipError i "owner identity mismatch".
Definition rebind_required (i : string) : conv_exn :=
  OwnershipError i "owner changes require explicit rebind".
Definition cannot_replace (i : string) : conv_exn :=
  DriftError (ContextDrift i
    "bound decision context cannot be replaced without explicit research").

(** The conversation a turn is appended to. *)
Definition append_target (i new_id : string) (expected_version : option Z) (found : option Ctx)
    : result conv_exn Ctx :=
  match found, expected_version with
  | Some e, _ => Ok e
  | None, Some v => Err (VersionConflict i v)
  | None, None => checked (fresh_context (if py_true i then i else new_id) None None)
  end.

Definition authorized (m : result auth_exn Ctx) : result conv_exn Ctx :=
  match m with Ok c => Ok c | Err e => Err (AuthorizationError e) end.

Definition conversation_missing (i : string) : conv_exn :=
  AuthorizationError (ConsumptionConflict i "conversation_missing").

(** The latest of the matching conversations: the last of the stable sort. *)
Variable refinement_version : Refinement -> Z.

Definition bound_key (c : Ctx) : Z * Z :=
  (match session_refinement c with Some r => refinement_version r | None => 0 end,
   persistence_version c).

Definition pair_ltb (a b : Z * Z) : bool := (a.1 <? b.1) || ((a.1 =? b.1) && (a.2 <? b.2)).

Definition latest (matches : list Ctx) : option Ctx := last (sorted pair_ltb bound_key matches).

Definition bound_to (o : ConversationOwner) (decision : string) (c : Ctx) : bool :=
  negb (_is_expired c)
  && match decision_context c with
     | Some r => String.eqb (dc_decision_id r) decision
     | None => false
     end
  && owned_by o c.
End Common.
End Common.
Import Common.

(** ** The port [ConversationRepository] *)
Module Port.

(** One call, with the identifier the factory returns where it is asked. *)
Inductive call (Refinement : Type) :=
| CallCreate (new_id : string) (o : option ConversationOwner)
    (r : option DecisionContextReference)
| CallGet (i : string)
| CallGetForOwner (i : string) (o : ConversationOwner)
| CallSave (c : ConversationContext Refinement) (expected_version : option Z)
| CallBind (i : string) (o : ConversationOwner) (r : DecisionContextReference)
    (expected_version : option Z)
| CallAdvance (i : string) (o : ConversationOwner) (r : DecisionContextReference)
    (expected_version : option Z)
| CallRebind (i : string) (current_owner new_owner : ConversationOwner)
    (expected_version : option Z)
| CallAppend (i new_id : string) (u : turn_update) (expected_version : option Z)
| CallConsume (i : string) (k : consumption) (expected_version : Z)
| CallFind (o : ConversationOwner) (decision : string)
| CallCleanup (limit : Z).

(** What a call returns. *)
Inductive answer (Refinement : Type) :=
| Found (c : option (ConversationContext Refinement))
| Stored (c : ConversationContext Refinement)
| Removed (n : Z).

#[global] Arguments CallCreate {Refinement}.
#[global] Arguments CallGet {Refinement}.
#[global] Arguments CallGetForOwner {Refinement}.
#[global] Arguments CallSave {Refinement}.
#[global] Arguments CallBind {Refinement}.
#[global] Arguments CallAdvance {Refinement}.
#[global] Arguments CallRebind {Refinement}.
#[global] Arguments CallAppend {Refinement}.
#[global] Arguments CallConsume {Refinement}.
#[global] Arguments CallFind {Refinement}.
#[global] Arguments CallCleanup {Refinement}.
#[global] Arguments Found {Refinement}.
#[global] Arguments Stored {Refinement}.
#[global] Arguments Removed {Refinement}.

(** The answer of a method. *)
Definition answered {Refinement S A} (f : A -> answer Refinement) (m : act S conv_exn A)
    : act S conv_exn (answer Refinement) :=
  do! a := m in a_ret (f a).

End Port.
Import Port.

(** ** [InMemoryConversationRepository] *)
Module Memory.
Section Memory.
Context {Refinement : Type} (refinement_version : Refinement -> Z) (sha256_hex : string -> string).
Variables (cfg : settings) (now : datetime).
Notation Ctx := (ConversationContext Refinement).
Notation method := (act (dict Ctx) conv_exn).

Definition get (i : string) : method (option Ctx) :=
  do! d := a_get in
  match d_get i d with
  | None => a_ret None
  | Some c =>
      if _is_expired now c then do! _ := a_mod (d_pop i) in a_ret None else a_ret (Some c)
  end.

Definition get_for_owner (i : string) (o : ConversationOwner) : method (option Ctx) :=
  do! c := get i in
  a_ret (match c with Some c => if owned_by o c then Some c else None | None => None end).

Definition save (c : Ctx) (expected_version : option Z) : method Ctx :=
  do! _ := a_lift (_require_active_owner now (conversation_id c) (owner c)) in
  do! existing := get (conversation_id c) in
  do! _ := a_lift (drifted (require_stable_decision_context existing c)) in
  let expected := default (persistence_version c) expected_version in
  do! next_version :=
    match existing with
    | None =>
        refuse! VersionConflict (conversation_id c) expected when negb (expected =? 0) in a_ret 1
    | Some e =>
        refuse! VersionConflict (conversation_id c) expected
          when negb (expected =? persistence_version e) in
        refuse! rebind_required (conversation_id c) when owner_changes e c in
        a_ret (persistence_version e + 1)
    end in
  do! stored := a_lift (checked (with_version next_version (with_turns (recent cfg (turns c)) c))) in
  do! _ := a_mod (d_set (conversation_id c) stored) in
  a_ret stored.

Definition create (new_id : string) (o : option ConversationOwner)
    (r : option DecisionContextReference) : method Ctx :=
  do! c := a_lift (checked (fresh_context cfg now new_id o r)) in
  save c None.

(** [self.get(...)], a [KeyError] when there is none. *)
Definition require (i : string) : method Ctx :=
  do! existing := get i in
  match existing with None => a_err (not_found i) | Some e => a_ret e end.

Definition bind_decision_context (i : string) (o : ConversationOwner)
    (r : DecisionContextReference) (expected_version : option Z) : method Ctx :=
  do! _ := a_lift (_require_active_owner now i (Some o)) in
  do! existing := require i in
  refuse! owner_mismatch i when is_some (owner existing) && negb (owned_by o existing) in
  refuse! cannot_replace i
    when is_some (decision_context existing)
         && negb (bool_decide (decision_context existing = Some r)) in
  do! updated := a_lift (checked (with_decision cfg now o r existing)) in
  save updated (Some (default (persistence_version existing) expected_version)).

Definition advance_verified_research_context (i : string) (o : ConversationOwner)
    (r : DecisionContextReference) (expected_version : option Z) : method Ctx :=
  do! _ := a_lift (_require_active_owner now i (Some o)) in
  do! existing := require i in
  refuse! owner_mismatch i when negb (owned_by o existing) in
  if bool_decide (decision_context existing = Some r) then a_ret existing else
  do! updated := a_lift (checked (with_decision cfg now o r existing)) in
  do! _ := a_lift (drifted (require_verified_research_context_advance existing updated)) in
  let expected := default (persistence_version existing) expected_version in
  refuse! VersionConflict i expected when negb (expected =? persistence_version existing) in
  do! stored := a_lift (checked (with_version (persistence_version existing + 1)
                                   (with_turns (recent cfg (turns updated)) updated))) in
  do! _ := a_lift (drifted (require_context_membership stored)) in
  do! _ := a_mod (d_set i stored) in
  a_ret stored.

Definition rebind_owner (i : string) (current_owner new_owner : ConversationOwner)
    (expected_version : option Z) : method Ctx :=
  do! _ := a_lift (_require_active_owner now i (Some new_owner)) in
  do! existing := require i in
  refuse! OwnershipError i "current owner identity mismatch"
    when negb (owned_by current_owner existing) in
  let expected := default (persistence_version existing) expected_version in
  refuse! VersionConflict i expected when negb (expected =? persistence_version existing) in
  do! rebound := a_lift (checked (with_version (persistence_version existing + 1)
                                    (with_owner cfg now new_owner existing))) in
  do! _ := a_mod (d_set i rebound) in
  a_ret rebound.

Definition append_turn (i new_id : string) (u : turn_update) (expected_version : option Z)
    : method Ctx :=
  do! found := get i in
  do! existing := a_lift (append_target cfg now i new_id expected_version found) in
  do! updated := a_lift (checked (with_turn cfg now u existing)) in
  do! _ := a_lift (drifted (require_context_membership updated)) in
  save updated (Some (default (persistence_version existing) expected_version)).

(** [[...][:limit]] of the expired keys, in the dictionary's order. *)
Definition cleanup_expired (limit : Z) : method Z :=
  if limit <=? 0 then a_ret 0 else
  do! d := a_get in
  let expired := firstn (Z.to_nat limit)
                   (map fst (List.filter (fun kv => _is_expired now kv.2) d)) in
  do! _ := a_mod (fun d => foldl (fun d k => d_pop k d) d expired) in
  a_ret (Z.of_nat (length expired)).

Definition consume_research_authorization (i : string) (k : consumption) (expected_version : Z)
    : method Ctx :=
  do! found := get i in
  match found with
  | None => a_err (conversation_missing i)
  | Some context =>
      do! updated := a_lift (authorized (consume_exact_research_authorization sha256_hex context k)) in
      save updated (Some expected_version)
  end.

Definition restore_row (i : string) (c : option Ctx) : method unit :=
  a_mod (match c with None => d_pop i | Some c => d_set i c end).

Definition find_bound_for_owner (o : ConversationOwner) (decision : string)
    : method (option Ctx) :=
  do! d := a_get in
  a_ret (latest refinement_version (List.filter (bound_to now o decision) (map snd d))).

Definition perform_call (v : call Refinement) : method (answer Refinement) :=
  match v with
  | CallCreate i o r => answered Stored (create i o r)
  | CallGet i => answered Found (get i)
  | CallGetForOwner i o => answered Found (get_for_owner i o)
  | CallSave c v => answered Stored (save c v)
  | CallBind i o r v => answered Stored (bind_decision_context i o r v)
  | CallAdvance i o r v => answered Stored (advance_verified_research_context i o r v)
  | CallRebind i o o' v => answered Stored (rebind_owner i o o' v)
  | CallAppend i n u v => answered Stored (append_turn i n u v)
  | CallConsume i k v => answered Stored (consume_research_authorization i k v)
  | CallFind o x => answered Found (find_bound_for_owner o x)
  | CallCleanup n => answered Removed (cleanup_expired n)
  end.
End Memory.

End Memory.

(** ** [SqlAlchemyConversationRepository] *)
Module Sql.
Import OperationalStore.

Definition SHOPPING_CONVERSATIONS : string := "shopping_assistant.conversations".

Section Sql.
Context {Refinement : Type} (refinement_version : Refinement -> Z) (sha256_hex : string -> string).
Context {P : Type} (encode_entity : ConversationContext Refinement -> P)
        (decode_entity : P -> option (ConversationContext Refinement)).
Variables (cfg : settings) (now : datetime).
(** What other workers commit at the i-th place of a method where they can. *)
Variable env : nat -> op_table P -> op_table P.
Notation Ctx := (ConversationContext Refinement).
Notation method := (act (op_table P) conv_exn).

(** A method raises only before its session has written, so a rollback has
    nothing to undo. *)
Definition others (n : nat) : method unit := a_mod (env n).

Definition _owner_key (o : option ConversationOwner) : option string :=
  match o with
  | None => None
  | Some o =>
      Some (principal_type o +:+ ":" +:+ sha256_hex (utf8
              (principal_type o +:+ String "000"%char (principal_id o
                 +:+ String "000"%char (session_id o)))))
  end.

(** [ops.get_versioned] and [_require_version_integrity]. *)
Definition _load (i : string) : method (option Ctx) :=
  do! t := a_get in
  match get_versioned decode_entity SHOPPING_CONVERSATIONS i t with
  | Err _ => a_err (SchemaError i)
  | Ok None => a_ret None
  | Ok (Some (c, row_version, _)) =>
      refuse! SchemaError (conversation_id c) when negb (persistence_version c =? row_version) in
      a_ret (Some c)
  end.

Definition get (i : string) : method (option Ctx) :=
  do! found := _load i in
  match found with
  | None => a_ret None
  | Some c =>
      if _is_expired now c then
        do! _ := others 0 in
        do! _ := a_mod (fun t =>
          (delete_versioned SHOPPING_CONVERSATIONS i (persistence_version c) t).2) in
        a_ret None
      else a_ret (Some c)
  end.

Definition get_for_owner (i : string) (o : ConversationOwner) : method (option Ctx) :=
  do! c := get i in
  a_ret (match c with Some c => if owned_by o c then Some c else None | None => None end).

Definition _compare_and_swap (c : Ctx) (expected_version : Z) : method Ctx :=
  do! stored := a_lift (checked (with_version (expected_version + 1)
                                   (with_turns (recent cfg (turns c)) c))) in
  do! _ := others 2 in
  fun t =>
    match compare_and_swap encode_entity SHOPPING_CONVERSATIONS (conversation_id c) stored
            expected_version (expected_version + 1) (_owner_key (owner stored)) t with
    | (Ok true, t') => (Ok stored, t')
    | (_, t') => (Err (VersionConflict (conversation_id c) expected_version), t')
    end.

Definition save (c : Ctx) (expected_version : option Z) : method Ctx :=
  do! _ := a_lift (_require_active_owner now (conversation_id c) (owner c)) in
  do! bounded := a_lift (checked (with_turns (recent cfg (turns c)) c)) in
  do! _ := a_lift (drifted (require_context_membership bounded)) in
  let expected := default (persistence_version c) expected_version in
  do! loaded := _load (conversation_id c) in
  match loaded with
  | None =>
      refuse! VersionConflict (conversation_id c) expected when negb (expected =? 0) in
      do! stored := a_lift (checked (with_version 1 bounded)) in
      do! _ := others 2 in
      fun t =>
        match insert_versioned encode_entity SHOPPING_CONVERSATIONS (conversation_id c) stored 1
                (_owner_key (owner stored)) t with
        | (Ok c', t') => (Ok c', t')
        | (Err _, t') => (Err (VersionConflict (conversation_id c) expected), t')
        end
  | Some existing =>
      refuse! rebind_required (conversation_id existing) when owner_changes existing bounded in
      do! _ := a_lift (drifted (require_stable_decision_context (Some existing) bounded)) in
      _compare_and_swap bounded expected
  end.

Definition create (new_id : string) (o : option ConversationOwner)
    (r : option DecisionContextReference) : method Ctx :=
  do! c := a_lift (checked (fresh_context cfg now new_id o r)) in
  save c None.

(** [self.get(...)], a [KeyError] when there is none. *)
Definition require (i : string) : method Ctx :=
  do! existing := get i in
  match existing with None => a_err (not_found i) | Some e => a_ret e end.

Definition bind_decision_context (i : string) (o : ConversationOwner)
    (r : DecisionContextReference) (expected_version : option Z) : method Ctx :=
  do! _ := a_lift (_require_active_owner now i (Some o)) in
  do! existing := require i in
  refuse! owner_mismatch i when is_some (owner existing) && negb (owned_by o existing) in
  refuse! cannot_replace i
    when is_some (decision_context existing)
         && negb (bool_decide (decision_context existing = Some r)) in
  do! updated := a_lift (checked (with_decision cfg now o r existing)) in
  do! _ := a_lift (drifted (require_context_membership updated)) in
  do! _ := others 1 in
  _compare_and_swap updated (default (persistence_version existing) expected_version).

Definition advance_verified_research_context (i : string) (o : ConversationOwner)
    (r : DecisionContextReference) (expected_version : option Z) : method Ctx :=
  do! _ := a_lift (_require_active_owner now i (Some o)) in
  do! existing := require i in
  refuse! owner_mismatch i when negb (owned_by o existing) in
  if bool_decide (decision_context existing = Some r) then a_ret existing else
  do! updated := a_lift (checked (with_decision cfg now o r existing)) in
  do! _ := a_lift (drifted (require_verified_research_context_advance existing updated)) in
  let expected := default (persistence_version existing) expected_version in
  do! _ := others 1 in
  do! loaded := _load i in
  match loaded with
  | None => a_err (not_found i)
  | Some current =>
      refuse! VersionConflict i expected when negb (persistence_version current =? expected) in
      do! _ := a_lift (drifted (require_verified_research_context_advance current updated)) in
      _compare_and_swap updated expected
  end.

Definition rebind_owner (i : string) (current_owner new_owner : ConversationOwner)
    (expected_version : option Z) : method Ctx :=
  do! _ := a_lift (_require_active_owner now i (Some new_owner)) in
  do! existing := require i in
  refuse! OwnershipError i "current owner identity mismatch"
    when negb (owned_by current_owner existing) in
  do! rebound := a_lift (checked (with_owner cfg now new_owner existing)) in
  do! _ := others 1 in
  _compare_and_swap rebound (default (persistence_version existing) expected_version).

Definition append_turn (i new_id : string) (u : turn_update) (expected_version : option Z)
    : method Ctx :=
  do! found := get i in
  do! existing := a_lift (append_target cfg now i new_id expected_version found) in
  do! updated := a_lift (checked (with_turn cfg now u existing)) in
  do! _ := a_lift (drifted (require_context_membership updated)) in
  do! _ := others 1 in
  save updated (Some (default (persistence_version existing) expected_version)).

Definition consume_research_authorization (i : string) (k : consumption) (expected_version : Z)
    : method Ctx :=
  do! found := get i in
  match found with
  | None => a_err (conversation_missing i)
  | Some context =>
      do! updated := a_lift (authorized
                       (consume_exact_research_authorization sha256_hex context k)) in
      do! _ := others 1 in
      save updated (Some expected_version)
  end.

(** [ops.list(...)]. *)
Definition listed (o : option string) (limit : option Z) (p : Ctx -> bool) : method (list Ctx) :=
  fun t =>
    match list_ decode_entity SHOPPING_CONVERSATIONS o limit false (Some p) t with
    | Ok l => (Ok l, t)
    | Err _ => (Err (SchemaError ""), t)
    end.

Definition find_bound_for_owner (o : ConversationOwner) (decision : string)
    : method (option Ctx) :=
  do! matches := listed (_owner_key (Some o)) None (bound_to now o decision) in
  a_ret (latest refinement_version matches).

(** The deletions of a cleanup: how many rows were still at their version. *)
Fixpoint delete_all (cs : list Ctx) (removed : Z) : method Z :=
  match cs with
  | [] => a_ret removed
  | c :: rest =>
      do! _ := others (3 + length rest) in
      do! hit := (fun t =>
        let '(b, t') := delete_versioned SHOPPING_CONVERSATIONS (conversation_id c)
                          (persistence_version c) t in (Ok b, t')) in
      delete_all rest (if hit : bool then removed + 1 else removed)
  end.

Definition cleanup_expired (limit : Z) : method Z :=
  if limit <=? 0 then a_ret 0 else
  do! expired := listed None (Some limit) (_is_expired now) in
  do! _ := others 0 in
  delete_all expired 0.

Definition perform_call (v : call Refinement) : method (answer Refinement) :=
  match v with
  | CallCreate i o r => answered Stored (create i o r)
  | CallGet i => answered Found (get i)
  | CallGetForOwner i o => answered Found (get_for_owner i o)
  | CallSave c v => answered Stored (save c v)
  | CallBind i o r v => answered Stored (bind_decision_context i o r v)
  | CallAdvance i o r v => answered Stored (advance_verified_research_context i o r v)
  | CallRebind i o o' v => answered Stored (rebind_owner i o o' v)
  | CallAppend i n u v => answered Stored (append_turn i n u v)
  | CallConsume i k v => answered Stored (consume_research_authorization i k v)
  | CallFind o x => answered Found (find_bound_for_owner o x)
  | CallCleanup n => answered Removed (cleanup_expired n)
  end.

Definition sql_row (t : op_table P) (i : string) : option Ctx :=
  match _get_row SHOPPING_CONVERSATIONS i t with
  | Some r => decode_entity (op_payload r)
  | None => None
  end.
End Sql.
End Sql.
