(* ===== verification/ConversationHistory.v ===== *)
(** What may happen to a conversation.

    Module [History]: the changes a method may make, as a relation on the row
    of one conversation. [MemoryHistory] and [SqlHistory]: every method of the
    two repositories of [ConversationRepo] is one such change, the second while
    other workers write. Module [Lineage]: what holds of a conversation over
    its whole life. *)

From stdpp Require Import relations.
From S2P Require Import Prelude PyStr Json Clock Connector PyState OpStore Research Authorization Conversation ConversationRepo.
Import Research Authorization Context Lifecycle Common Port.
#[local] Open Scope Z_scope.

(** ** What may happen to a conversation *)
Module History.
Section History.
Context {Refinement : Type} (sha256_hex : string -> string) (cfg : settings).
Notation Ctx := (ConversationContext Refinement).
Implicit Types (c e : Ctx) (v : call Refinement).

(** The row a context is stored as. *)
Definition stored_as (n : Z) c : Ctx := with_version n (with_turns (recent cfg (turns c)) c).

(** A stored conversation under its id. *)
Record row_ok (i : string) c : Prop := {
  ok_id : conversation_id c = i;
  ok_version : 1 <= persistence_version c;
  ok_turns : (length (turns c) <= Z.to_nat (max_turns cfg))%nat;
  ok_valid : context_post_init c = Ok c;
  ok_members : require_context_membership c = Ok tt
}.

(** [expected_version], when the caller gives one. *)
Definition expects (ev : option Z) c : Prop :=
  match ev with Some x => x = persistence_version c | None => True end.

(** The id of a conversation a turn opens. *)
Definition opened_id (i new_id : string) : string := if py_true i then i else new_id.

(** One method [v] at time [now], on the conversation [i]: every write is
    based on the row it replaces, at the version the caller expects. *)
Inductive change (now : datetime) v (i : string) : option Ctx -> option Ctx -> Prop :=
| Kept r : change now v i r r
| Created o r : v = CallCreate i o r ->
    change now v i None (Some (stored_as 1 (fresh_context cfg now i o r)))
| SavedNew c0 ev : v = CallSave c0 ev -> conversation_id c0 = i ->
    default (persistence_version c0) ev = 0 -> change now v i None (Some (stored_as 1 c0))
| AppendedNew a new_id u : v = CallAppend a new_id u None -> i = opened_id a new_id ->
    change now v i None
      (Some (stored_as 1 (with_turn cfg now u (fresh_context cfg now i None None))))
| Saved c0 ev c : v = CallSave c0 ev -> conversation_id c0 = i ->
    default (persistence_version c0) ev = persistence_version c ->
    owner_changes c c0 = false ->
    (is_some (decision_context c) = true -> decision_context c0 = decision_context c) ->
    change now v i (Some c) (Some (stored_as (persistence_version c + 1) c0))
| Bound o r ev c : v = CallBind i o r ev -> expects ev c ->
    (owner c = None \/ owned_by o c = true) ->
    (decision_context c = None \/ decision_context c = Some r) ->
    change now v i (Some c)
      (Some (stored_as (persistence_version c + 1) (with_decision cfg now o r c)))
| Advanced o r ev c : v = CallAdvance i o r ev -> expects ev c -> owned_by o c = true ->
    require_verified_research_context_advance c (with_decision cfg now o r c) = Ok tt ->
    change now v i (Some c)
      (Some (stored_as (persistence_version c + 1) (with_decision cfg now o r c)))
| Rebound o o' ev c : v = CallRebind i o o' ev -> expects ev c -> owned_by o c = true ->
    change now v i (Some c)
      (Some (with_version (persistence_version c + 1) (with_owner cfg now o' c)))
| Appended a new_id u ev c : v = CallAppend a new_id u ev -> a = i -> expects ev c ->
    change now v i (Some c)
      (Some (stored_as (persistence_version c + 1) (with_turn cfg now u c)))
| Consumed k x c u : v = CallConsume i k x -> x = persistence_version c ->
    consume_exact_research_authorization sha256_hex c k = Ok u ->
    change now v i (Some c) (Some (stored_as (persistence_version c + 1) u)).

(** What a lookup was asked for. *)
Definition asked now v c : Prop :=
  match v with
  | CallGet i => conversation_id c = i
  | CallGetForOwner i o => conversation_id c = i /\ owned_by o c = true
  | CallFind o decision => bound_to now o decision c = true
  | _ => False
  end.

(** A method is honest when it changes the rows as above, and what it answers
    is what is stored; a method that raises changes nothing. *)
Definition honest (now : datetime) v (rows : string -> option Ctx)
    (answer : result conv_exn (answer Refinement)) (rows' : string -> option Ctx) : Prop :=
  (forall i, change now v i (rows i) (rows' i))
  /\ match answer with
     | Ok (Stored c) => rows' (conversation_id c) = Some c
     | Ok (Found (Some c)) =>
         rows' (conversation_id c) = Some c /\ _is_expired now c = false /\ asked now v c
     | Ok _ => forall i, rows' i = rows i
     | Err _ => forall i, rows' i = rows i
     end.

Lemma honest_ext now v (rows rows0 rows' : string -> option Ctx) answer :
  (forall i, rows i = rows0 i) -> honest now v rows answer rows' -> honest now v rows0 answer rows'.
Proof.
  intros Heq [Hc Ha]. split; [intros i; rewrite <- Heq; apply Hc |].
  destruct answer as [[[c|]|c|n]|e]; try done; intros i; rewrite <- Heq; apply Ha.
Qed.

(** The removal of expired conversations. *)
Definition expiry (now : datetime) (rows rows' : string -> option Ctx) : Prop :=
  forall i, rows' i = rows i
    \/ exists c, rows i = Some c /\ _is_expired now c = true /\ rows' i = None.

End History.

(** ** Rows *)
Section Rows.
Context {Refinement : Type} (cfg : settings).
Notation Ctx := (ConversationContext Refinement).
Implicit Types (c e : Ctx).

Lemma recent_length ts : (length (recent cfg ts) <= Z.to_nat (max_turns cfg))%nat.
Proof. unfold recent. rewrite length_drop. lia. Qed.

Lemma recent_short ts :
  (length ts <= Z.to_nat (max_turns cfg))%nat -> recent cfg ts = ts.
Proof. intros H. unfold recent. by replace (_ - _)%nat with 0%nat by lia. Qed.

Lemma recent_idem ts : recent cfg (recent cfg ts) = recent cfg ts.
Proof. apply recent_short, recent_length. Qed.

Lemma with_turns_self c : with_turns (turns c) c = c.
Proof. by destruct c. Qed.

Lemma first_drift_none r ts : first_drift r ts = None <-> Forall (fun t => turn_drift r t = None) ts.
Proof.
  induction ts as [|t ts IH]; simpl; [split; [constructor | done] |].
  rewrite Forall_cons, <- IH. destruct (turn_drift r t); naive_solver.
Qed.

Lemma members_iff c :
  require_context_membership c = Ok tt <->
  match decision_context c with
  | None => True
  | Some r => escapes (last_product_ids c) (dc_evaluated_product_ids r) = false
              /\ Forall (fun t => turn_drift r t = None) (turns c)
  end.
Proof.
  unfold require_context_membership. destruct (decision_context c) as [r|]; [| done].
  rewrite <- first_drift_none. destruct (escapes _ _); simpl; [naive_solver |].
  destruct (first_drift r (turns c)); naive_solver.
Qed.

(** Older turns may be dropped. *)
Lemma members_recent c :
  require_context_membership c = Ok tt ->
  require_context_membership (with_turns (recent cfg (turns c)) c) = Ok tt.
Proof.
  rewrite !members_iff. simpl. destruct (decision_context c) as [r|]; [| done].
  intros [? ?]. split; [done |]. by apply Forall_drop.
Qed.

Lemma members_version n c :
  require_context_membership (with_version n c) = Ok tt <-> require_context_membership c = Ok tt.
Proof. by rewrite !members_iff. Qed.

Lemma checked_ok c c' : checked c = Ok c' -> c' = c /\ context_post_init c = Ok c.
Proof.
  unfold checked, context_post_init. destruct (guard_raise _ _) as [[]|]; simpl; [| done].
  destruct (guard_raise _ _) as [[]|]; simpl; [| done]. by intros [= ->].
Qed.

Lemma valid_iff c :
  context_post_init c = Ok c <->
  (is_some (decision_context c) = true -> is_some (owner c) = true) /\ 0 <= persistence_version c.
Proof.
  unfold context_post_init. destruct (is_some (decision_context c)), (is_some (owner c)); simpl;
    destruct (persistence_version c <? 0) eqn:E; simpl; bool_simpl; naive_solver lia.
Qed.

Lemma checked_valid c : context_post_init c = Ok c -> checked c = Ok c.
Proof. unfold checked. by intros ->. Qed.

Lemma expects_default ev c : default (persistence_version c) ev = persistence_version c -> expects ev c.
Proof. by destruct ev. Qed.

Lemma not_owned o e :
  is_some (owner e) && negb (owned_by o e) = false -> owner e = None \/ owned_by o e = true.
Proof. unfold owned_by. destruct (owner e); simpl; [intros ?%negb_false_iff; by right | by left]. Qed.

Lemma stored_ok n c i :
  conversation_id c = i -> 1 <= n ->
  context_post_init (stored_as cfg n c) = Ok (stored_as cfg n c) ->
  require_context_membership (with_turns (recent cfg (turns c)) c) = Ok tt ->
  row_ok cfg i (stored_as cfg n c).
Proof.
  intros. split; try done. apply recent_length.
Qed.
End Rows.
End History.

(** ** The dictionary keeps to it *)
Module MemoryHistory.
Import Memory History.
Section MemoryHistory.
Context {Refinement : Type} (refinement_version : Refinement -> Z) (sha256_hex : string -> string).
Variables (cfg : settings) (now : datetime).
Notation Ctx := (ConversationContext Refinement).
Implicit Types (c e : Ctx) (d : dict Ctx).

Definition rows_ok d : Prop := keys_ok d /\ forall i c, d_get i d = Some c -> row_ok cfg i c.

Lemma rows_ok_set i c d : rows_ok d -> row_ok cfg i c -> rows_ok (d_set i c d).
Proof.
  intros [Hk Hd] Hc. split; [by apply keys_ok_set |]. intros j x.
  destruct (decide (j = i)) as [-> | Hne]; [rewrite d_get_set_eq; by intros [= <-] |].
  rewrite d_get_set_ne by done. apply Hd.
Qed.

Lemma rows_ok_pop i d : rows_ok d -> rows_ok (d_pop i d).
Proof.
  intros [Hk Hd]. split; [by apply keys_ok_pop |]. intros j x.
  destruct (decide (j = i)) as [-> | Hne]; [by rewrite d_get_pop_eq |].
  rewrite d_get_pop_ne by done. apply Hd.
Qed.

(** [get] removes the conversation when it has expired. *)
Lemma get_spec i d :
  rows_ok d -> exists d0, get now i d = (Ok (d_get i d0), d0) /\ rows_ok d0
    /\ expiry now (fun j => d_get j d) (fun j => d_get j d0)
    /\ (forall c, d_get i d0 = Some c -> _is_expired now c = false).
Proof.
  intros Hd. unfold get. act_run. destruct (d_get i d) as [c|] eqn:E.
  - destruct (_is_expired now c) eqn:Ex.
    + exists (d_pop i d). rewrite d_get_pop_eq. split; [done |]. split; [by apply rows_ok_pop |].
      split; [| done]. intros j. destruct (decide (j = i)) as [-> | Hne].
      * right. exists c. by rewrite d_get_pop_eq.
      * left. by rewrite d_get_pop_ne.
    + exists d. rewrite E. split; [done |]. split; [done |]. split; [by left | naive_solver].
  - exists d. rewrite E. split; [done |]. split; [done |]. split; [by left | done].
Qed.

Lemma get_live i d :
  (forall c, d_get i d = Some c -> _is_expired now c = false) -> get now i d = (Ok (d_get i d), d).
Proof.
  intros H. unfold get. act_run. destruct (d_get i d) as [c|]; [| done]. by rewrite (H c).
Qed.

(** What [save] does on a dictionary without an expired row of that id. *)
Lemma save_spec c ev d :
  rows_ok d -> (forall e, d_get (conversation_id c) d = Some e -> _is_expired now e = false) ->
  let n := match d_get (conversation_id c) d with Some e => persistence_version e | None => 0 end in
  match save cfg now c ev d with
  | (Ok stored, d') =>
      d' = d_set (conversation_id c) stored d /\ stored = stored_as cfg (n + 1) c
      /\ default (persistence_version c) ev = n /\ row_ok cfg (conversation_id c) stored
      /\ (forall e, d_get (conversation_id c) d = Some e ->
            owner_changes e c = false
            /\ (is_some (decision_context e) = true -> decision_context c = decision_context e))
  | (Err _, d') => d' = d
  end.
Proof.
  intros Hd Hlive n. unfold save. unfold a_bind at 1, a_lift at 1.
  destruct (_require_active_owner _ _ _) as [u|]; [| done].
  unfold a_bind at 1. rewrite get_live by done.
  unfold a_bind at 1, a_lift at 1. unfold require_stable_decision_context.
  set (found := d_get (conversation_id c) d) in *.
  destruct (match found with Some e => _ | None => false end) eqn:Estable; [done |].
  cbn [guard_raise rbind]. destruct (require_context_membership c) as [[]|] eqn:Em; [| done].
  cbn [drifted]. apply members_recent with (cfg := cfg) in Em.
  assert (Hstable : forall e, found = Some e -> is_some (decision_context e) = true ->
    decision_context c = decision_context e).
  { intros e -> He. rewrite He in Estable. cbn in Estable. by bool_simpl. }
  clear Estable. destruct found as [e|] eqn:Ef; act_run; cbv zeta.
  - destruct (negb (_ =? persistence_version e)) eqn:Ev; [done |].
    destruct (owner_changes e c) eqn:Eo; [done |].
    destruct (checked _) as [x|] eqn:Ex; [| done]. apply checked_ok in Ex as [-> Hvalid].
    bool_simpl. split; [done |]. split; [done |]. split; [done |]. split.
    + apply stored_ok; [done | | done | done]. pose proof (ok_version _ _ _ (proj2 Hd _ _ Ef)). lia.
    + intros e' [= <-]. split; [done |]. by apply Hstable.
  - destruct (negb (_ =? 0)) eqn:Ev; [done |].
    destruct (checked _) as [x|] eqn:Ex; [| done]. apply checked_ok in Ex as [-> Hvalid].
    bool_simpl. split; [done |]. split; [done |]. split; [done |]. split; [| done].
    by apply stored_ok.
Qed.

Lemma save_run c ev d :
  rows_ok d -> exists d0, rows_ok d0 /\ expiry now (fun j => d_get j d) (fun j => d_get j d0)
    /\ (forall e, d_get (conversation_id c) d0 = Some e -> _is_expired now e = false)
    /\ (save cfg now c ev d = save cfg now c ev d0 \/ exists x, save cfg now c ev d = (Err x, d)).
Proof.
  intros Hd. destruct (get_spec (conversation_id c) d Hd) as (d0 & Hget & Hd0 & Hex & Hlive).
  exists d0. split; [done |]. split; [done |]. split; [done |].
  unfold save, a_bind, a_lift.
  destruct (_require_active_owner _ _ _) as [u|x]; [left | right; by exists x].
  by rewrite Hget, (get_live (conversation_id c) d0).
Qed.

Lemma expiry_refl (rows : string -> option Ctx) : expiry now rows rows.
Proof. by left. Qed.

Notation rows_of d := (fun j => d_get j d).
Notation honest_step := (honest sha256_hex cfg now).

(** One method: it removes an expired conversation, then acts. *)
Definition acts v d (m : act (dict Ctx) conv_exn (answer Refinement)) : Prop :=
  rows_ok (m d).2 /\ exists d0, expiry now (rows_of d) (rows_of d0)
    /\ honest_step v (rows_of d0) (m d).1 (rows_of (m d).2).

Lemma kept_honest v d (a : result conv_exn (answer Refinement)) :
  match a with
  | Ok (Stored c) => d_get (conversation_id c) d = Some c
  | Ok (Found (Some c)) =>
      d_get (conversation_id c) d = Some c /\ _is_expired now c = false /\ asked now v c
  | _ => True
  end -> honest_step v (rows_of d) a (rows_of d).
Proof. intros Ha. split; [intros i; apply Kept |]. destruct a as [[[c|]|c|n]|e]; done. Qed.

Lemma set_honest v i c d :
  conversation_id c = i -> change sha256_hex cfg now v i (d_get i d) (Some c) ->
  honest_step v (rows_of d) (Ok (Stored c)) (rows_of (d_set i c d)).
Proof.
  intros Hi Hc. split; [| by rewrite Hi, d_get_set_eq]. intros j.
  destruct (decide (j = i)) as [-> | Hne]; [by rewrite d_get_set_eq |].
  rewrite d_get_set_ne by done. apply Kept.
Qed.

(** A save whose effect the method allows. *)
Lemma save_acts v c ev d :
  rows_ok d ->
  (forall d0, rows_ok d0 -> expiry now (rows_of d) (rows_of d0) ->
    match d_get (conversation_id c) d0 with
    | Some e =>
        _is_expired now e = false -> default (persistence_version c) ev = persistence_version e ->
        owner_changes e c = false ->
        (is_some (decision_context e) = true -> decision_context c = decision_context e) ->
        change sha256_hex cfg now v (conversation_id c) (Some e)
          (Some (stored_as cfg (persistence_version e + 1) c))
    | None => default (persistence_version c) ev = 0 ->
        change sha256_hex cfg now v (conversation_id c) None (Some (stored_as cfg 1 c))
    end) ->
  acts v d (answered Stored (save cfg now c ev)).
Proof.
  intros Hd Hchange. destruct (save_run c ev d Hd) as (d0 & Hd0 & Hex & Hlive & Hrun).
  pose proof (Hchange d0 Hd0 Hex) as Hv. pose proof (save_spec c ev d0 Hd0 Hlive) as Hs.
  unfold acts, answered. act_run. destruct Hrun as [-> | [x ->]].
  - destruct (save cfg now c ev d0) as [[stored|x] d'] eqn:E; simpl in *; cycle 1.
    { subst d'. split; [done |]. exists d0. split; [done |]. by apply kept_honest. }
    destruct Hs as (-> & Est & Hev & Hrow & Hold). split; [by apply rows_ok_set |].
    exists d0. split; [done |]. apply set_honest; [by apply (ok_id _ _ _ Hrow) |].
    rewrite Est. destruct (d_get (conversation_id c) d0) as [e|]; [| by apply Hv].
    destruct (Hold e eq_refl). apply Hv; auto.
  - simpl. split; [done |]. exists d. split; [apply expiry_refl | by apply kept_honest].
Qed.

Lemma expiry_trans (r1 r2 r3 : string -> option Ctx) :
  expiry now r1 r2 -> expiry now r2 r3 -> expiry now r1 r3.
Proof.
  intros H1 H2 i. destruct (H2 i) as [E2 | (c & Ec & Hx & E2)].
  - rewrite E2. apply H1.
  - destruct (H1 i) as [E1 | (c' & _ & _ & E1)]; [| congruence].
    right. exists c. split; [congruence | done].
Qed.

Lemma acts_from v d d0 (m m0 : act (dict Ctx) conv_exn (answer Refinement)) :
  expiry now (rows_of d) (rows_of d0) -> m d = m0 d0 -> acts v d0 m0 -> acts v d m.
Proof.
  intros Hex E (Hok & d1 & Hex1 & Hh). unfold acts. rewrite E. split; [done |].
  exists d1. split; [by eapply expiry_trans | done].
Qed.

Lemma acts_kept v d a (m : act (dict Ctx) conv_exn (answer Refinement)) :
  rows_ok d -> m d = (a, d) -> honest_step v (rows_of d) a (rows_of d) -> acts v d m.
Proof.
  intros Hd E H. unfold acts. rewrite E. split; [done |]. exists d.
  split; [apply expiry_refl | done].
Qed.

Lemma acts_raise v d x (m : act (dict Ctx) conv_exn (answer Refinement)) :
  rows_ok d -> m d = (Err x, d) -> acts v d m.
Proof. intros. apply (acts_kept v d (Err x)); [done | done | by apply kept_honest]. Qed.

Lemma require_spec i d :
  rows_ok d -> exists d0, rows_ok d0 /\ expiry now (rows_of d) (rows_of d0)
    /\ match d_get i d0 with
       | None => require now i d = (Err (not_found i), d0)
       | Some e => require now i d = (Ok e, d0) /\ _is_expired now e = false
       end.
Proof.
  intros Hd. destruct (get_spec i d Hd) as (d0 & Hget & Hd0 & Hex & Hlive).
  exists d0. split; [done |]. split; [done |]. unfold require. unfold a_bind. rewrite Hget.
  destruct (d_get i d0) as [e|]; [| done]. split; [done | by apply Hlive].
Qed.

(** How the rules pass through the statements of a method. *)
Lemma acts_lift {A} v d (r : result conv_exn A) (k : A -> act (dict Ctx) conv_exn Ctx) :
  rows_ok d -> (forall a, r = Ok a -> acts v d (answered Stored (k a))) ->
  acts v d (answered Stored (a_bind (a_lift r) k)).
Proof.
  intros Hd Hk. destruct r as [a|x]; [by apply (Hk a) |]. by apply (acts_raise v d x).
Qed.

Lemma acts_refuse v d (x : conv_exn) (b : bool) (k : unit -> act (dict Ctx) conv_exn Ctx) :
  rows_ok d -> (b = false -> acts v d (answered Stored (k tt))) ->
  acts v d (answered Stored (a_bind (a_guard b x) k)).
Proof. intros Hd Hk. apply acts_lift; [done |]. intros [] ->%guard_raise_ok. by apply Hk. Qed.

Lemma acts_get v i d (k : option Ctx -> act (dict Ctx) conv_exn Ctx) :
  rows_ok d ->
  (forall d0, rows_ok d0 -> (forall e, d_get i d0 = Some e -> _is_expired now e = false) ->
     acts v d0 (answered Stored (k (d_get i d0)))) ->
  acts v d (answered Stored (a_bind (get now i) k)).
Proof.
  intros Hd Hk. destruct (get_spec i d Hd) as (d0 & Hget & Hd0 & Hex & Hlive).
  apply (acts_from v d d0 _ (answered Stored (k (d_get i d0)))); [done | | by apply Hk].
  unfold answered, a_bind. by rewrite Hget.
Qed.

Lemma acts_require v i d (k : Ctx -> act (dict Ctx) conv_exn Ctx) :
  rows_ok d ->
  (forall d0 e, rows_ok d0 -> d_get i d0 = Some e -> row_ok cfg i e -> _is_expired now e = false ->
     acts v d0 (answered Stored (k e))) ->
  acts v d (answered Stored (a_bind (require now i) k)).
Proof.
  intros Hd Hk. destruct (require_spec i d Hd) as (d0 & Hd0 & Hex & Hreq).
  destruct (d_get i d0) as [e|] eqn:E.
  - destruct Hreq as [Hreq Hlive].
    apply (acts_from v d d0 _ (answered Stored (k e))); [done | |].
    + unfold answered, a_bind. by rewrite Hreq.
    + apply Hk; [done | done | by apply (proj2 Hd0) | done].
  - apply (acts_from v d d0 _ (a_err (not_found i))); [done | | by eapply acts_raise].
    unfold answered, a_bind. by rewrite Hreq.
Qed.

(** Storing a new version of the row at hand. *)
Lemma acts_store v i c d :
  rows_ok d -> row_ok cfg i c -> change sha256_hex cfg now v i (d_get i d) (Some c) ->
  acts v d (answered Stored (a_bind (a_mod (d_set i c)) (fun _ => a_ret c))).
Proof.
  intros Hd Hc Hv. split; [by apply rows_ok_set |]. exists d.
  split; [apply expiry_refl |]. apply set_honest; [apply Hc | done].
Qed.

Lemma get_acts i d : rows_ok d -> acts (CallGet i) d (answered Found (get now i)).
Proof.
  intros Hd. destruct (get_spec i d Hd) as (d0 & Hget & Hd0 & Hex & Hlive).
  apply (acts_from _ d d0 _ (a_ret (Found (d_get i d0)))); [done | |].
  - unfold answered, a_bind. by rewrite Hget.
  - apply (acts_kept _ d0 (Ok (Found (d_get i d0)))); [done | done |]. apply kept_honest.
    destruct (d_get i d0) as [c|] eqn:E; [| done].
    pose proof (ok_id _ _ _ (proj2 Hd0 i c E)) as Hi. rewrite Hi. eauto.
Qed.

Lemma get_for_owner_acts i o d :
  rows_ok d -> acts (CallGetForOwner i o) d (answered Found (get_for_owner now i o)).
Proof.
  intros Hd. destruct (get_spec i d Hd) as (d0 & Hget & Hd0 & Hex & Hlive).
  set (out := match d_get i d0 with Some c => if owned_by o c then Some c else None | None => None end).
  apply (acts_from _ d d0 _ (a_ret (Found out))); [done | |].
  - unfold answered, get_for_owner, a_bind. by rewrite Hget.
  - apply (acts_kept _ d0 (Ok (Found out))); [done | done |]. apply kept_honest. unfold out.
    destruct (d_get i d0) as [c|] eqn:E; [| done]. destruct (owned_by o c) eqn:Eo; [| done].
    pose proof (ok_id _ _ _ (proj2 Hd0 i c E)) as Hi. rewrite Hi. simpl. eauto.
Qed.

Lemma create_acts i o r d : rows_ok d -> acts (CallCreate i o r) d (answered Stored (create cfg now i o r)).
Proof.
  intros Hd. apply acts_lift; [done |]. intros c [-> _]%checked_ok.
  apply save_acts; [done |]. intros d0 Hd0 _. simpl.
  destruct (d_get i d0) as [e|] eqn:E; [| intros _; by eapply Created].
  intros _ Hv. pose proof (ok_version _ _ _ (proj2 Hd0 i e E)). lia.
Qed.

Lemma save_call_acts c ev d : rows_ok d -> acts (CallSave c ev) d (answered Stored (save cfg now c ev)).
Proof.
  intros Hd. apply save_acts; [done |]. intros d0 Hd0 _.
  destruct (d_get (conversation_id c) d0) as [e|] eqn:E; intros; [by eapply Saved | by eapply SavedNew].
Qed.

Lemma bind_acts i o r ev d :
  rows_ok d -> acts (CallBind i o r ev) d (answered Stored (bind_decision_context cfg now i o r ev)).
Proof.
  intros Hd. apply acts_lift; [done |]. intros _ _.
  apply acts_require; [done |]. intros d0 e Hd0 E He Hlive.
  apply acts_refuse; [done |]. intros Ho%not_owned. apply acts_refuse; [done |]. intros Hdc.
  apply acts_lift; [done |]. intros u [-> _]%checked_ok. apply save_acts; [done |].
  intros d1 Hd1 Hex. simpl. rewrite (ok_id _ _ _ He).
  assert (d_get i d1 = Some e) as ->.
  { destruct (Hex i) as [-> | (x & Hx & Hx' & _)]; [done |]. rewrite E in Hx. congruence. }
  intros _ Hv _ _. apply (Bound _ _ _ _ _ o r ev); [done | by apply expects_default | done |].
  revert Hdc. destruct (decision_context e); simpl; intros Hdc; [right | by left]. by bool_simpl.
Qed.

Lemma advance_acts i o r ev d :
  rows_ok d ->
  acts (CallAdvance i o r ev) d (answered Stored (advance_verified_research_context cfg now i o r ev)).
Proof.
  intros Hd. apply acts_lift; [done |]. intros _ _.
  apply acts_require; [done |]. intros d0 e Hd0 E He Hlive.
  apply acts_refuse; [done |]. intros Ho%negb_false_iff.
  destruct (bool_decide (decision_context e = Some r)) eqn:Er.
  { apply (acts_kept _ d0 (Ok (Stored e))); [done | done |]. apply kept_honest.
    by rewrite (ok_id _ _ _ He). }
  apply acts_lift; [done |]. intros u [-> _]%checked_ok.
  apply acts_lift; [done |]. intros [] Hadv. cbv zeta.
  apply acts_refuse; [done |]. intros Hv. apply negb_false_iff, Z.eqb_eq in Hv.
  apply acts_lift; [done |]. intros stored [-> Hvalid]%checked_ok.
  apply acts_lift; [done |]. intros [] Hm. apply acts_store; [done | |].
  - destruct (require_context_membership _) as [[]|] eqn:Em in Hm; [| done].
    apply stored_ok; [apply He | pose proof (ok_version _ _ _ He); lia | done | done].
  - rewrite E. eapply Advanced; [done | by apply expects_default | done |].
    by destruct (require_verified_research_context_advance _ _) as [[]|].
Qed.

Lemma rebind_acts i o o' ev d :
  rows_ok d -> acts (CallRebind i o o' ev) d (answered Stored (rebind_owner cfg now i o o' ev)).
Proof.
  intros Hd. apply acts_lift; [done |]. intros _ _.
  apply acts_require; [done |]. intros d0 e Hd0 E He Hlive.
  apply acts_refuse; [done |]. intros Ho%negb_false_iff. cbv zeta.
  apply acts_refuse; [done |]. intros Hv. apply negb_false_iff, Z.eqb_eq in Hv.
  apply acts_lift; [done |]. intros stored [-> Hvalid]%checked_ok. apply acts_store; [done | |].
  - destruct He as [Hi Hver Hlen _ Hm]. split; try done. simpl. lia.
  - rewrite E. eapply Rebound; [done | by apply expects_default | done].
Qed.

(** A save over the live row the method has read. *)
Lemma acts_resave v i c ev d e :
  rows_ok d -> d_get i d = Some e -> _is_expired now e = false -> conversation_id c = i ->
  (default (persistence_version c) ev = persistence_version e ->
   change sha256_hex cfg now v i (Some e) (Some (stored_as cfg (persistence_version e + 1) c))) ->
  acts v d (answered Stored (save cfg now c ev)).
Proof.
  intros Hd E Hlive Hi Hv. apply save_acts; [done |]. intros d1 Hd1 Hex. rewrite Hi.
  assert (d_get i d1 = Some e) as ->; [| by intros _ ? _ _; apply Hv].
  destruct (Hex i) as [-> | (x & Hx & Hx' & _)]; [done |]. rewrite E in Hx. congruence.
Qed.

Lemma append_acts i n u ev d :
  rows_ok d -> acts (CallAppend i n u ev) d (answered Stored (append_turn cfg now i n u ev)).
Proof.
  intros Hd. apply acts_get; [done |]. intros d0 Hd0 Hlive.
  apply acts_lift; [done |]. intros e He. apply acts_lift; [done |]. intros c [-> _]%checked_ok.
  apply acts_lift; [done |]. intros _ _. destruct (d_get i d0) as [x|] eqn:E; simpl in He.
  - injection He as <-. pose proof (proj2 Hd0 i x E) as Hx.
    apply (acts_resave _ i _ _ _ x); [done | done | by apply Hlive | apply Hx |].
    intros Hv. eapply Appended; [done | done | by apply expects_default].
  - destruct ev as [z|]; [done |]. apply checked_ok in He as [-> _].
    apply save_acts; [done |]. intros d1 Hd1 _. simpl.
    destruct (d_get _ d1) as [y|] eqn:Ey; [| intros _; by eapply AppendedNew].
    intros _ Hv. pose proof (ok_version _ _ _ (proj2 Hd1 _ _ Ey)). lia.
Qed.

Lemma consume_acts i k x d :
  rows_ok d ->
  acts (CallConsume i k x) d (answered Stored (consume_research_authorization sha256_hex cfg now i k x)).
Proof.
  intros Hd. apply acts_get; [done |]. intros d0 Hd0 Hlive.
  destruct (d_get i d0) as [c|] eqn:E; [| by eapply acts_raise].
  apply acts_lift; [done |]. intros u Hu.
  assert (consume_exact_research_authorization sha256_hex c k = Ok u) as Hc
    by (revert Hu; unfold authorized; destruct (consume_exact_research_authorization _ c k); congruence).
  clear Hu. pose proof (consume_ok _ c k u Hc) as (a & ow & _ & Hu & _).
  apply (acts_resave _ i _ _ _ c); [done | done | by apply Hlive | |].
  - rewrite Hu. simpl. apply (ok_id _ _ _ (proj2 Hd0 _ _ E)).
  - intros Hv. by eapply Consumed.
Qed.

Lemma latest_elem l c : latest refinement_version l = Some c -> c ∈ l.
Proof. intros H%last_Some_elem_of. by apply elem_of_sorted in H. Qed.

Lemma find_acts o x d :
  rows_ok d -> acts (CallFind o x) d (answered Found (find_bound_for_owner refinement_version now o x)).
Proof.
  intros Hd. eapply acts_kept; [done | done |]. apply kept_honest.
  destruct (latest _ _) as [c|] eqn:E; [| done].
  apply latest_elem, list_elem_of_In, filter_In in E as [Hin Hb].
  apply in_map_iff in Hin as ([k c'] & Ec & Hin%list_elem_of_In). simpl in Ec. subst c'.
  apply elem_d_get in Hin; [| apply Hd]. rewrite (ok_id _ _ _ (proj2 Hd _ _ Hin)).
  split; [done |]. split; [| done]. unfold bound_to in Hb. by bool_simpl.
Qed.

Lemma d_get_pops ks d j :
  d_get j (foldl (fun d k => d_pop k d) d ks) = if bool_decide (j ∈ ks) then None else d_get j d.
Proof.
  revert d. induction ks as [|k ks IH]; intros d; simpl; [done |]. rewrite IH.
  destruct (decide (j = k)) as [-> | Hne].
  - rewrite d_get_pop_eq, (bool_decide_true (k ∈ k :: ks)) by set_solver.
    by destruct (bool_decide _).
  - rewrite d_get_pop_ne by done. erewrite bool_decide_ext; [done | set_solver].
Qed.

Lemma rows_ok_pops ks d : rows_ok d -> rows_ok (foldl (fun d k => d_pop k d) d ks).
Proof. revert d. induction ks; simpl; auto using rows_ok_pop. Qed.

Lemma cleanup_acts n d : rows_ok d -> acts (CallCleanup n) d (answered Removed (cleanup_expired now n)).
Proof.
  intros Hd. unfold cleanup_expired. destruct (n <=? 0).
  { eapply acts_kept; [done | done | by apply kept_honest]. }
  set (ks := firstn (Z.to_nat n) (map fst (List.filter (fun kv => _is_expired now kv.2) d))).
  set (d' := foldl (fun d k => d_pop k d) d ks).
  split; [by apply rows_ok_pops |]. exists d'. split; [| by apply kept_honest].
  intros j. unfold d'. rewrite d_get_pops. case_bool_decide as Hj; [right | by left].
  assert (j ∈ map fst (List.filter (fun kv => _is_expired now kv.2) d)) as Hk.
  { unfold ks in Hj. rewrite <- (take_drop (Z.to_nat n)). apply elem_of_app. by left. }
  apply list_elem_of_In, in_map_iff in Hk as ([k c] & <- & [Hin Hx]%filter_In).
  exists c. split; [| done]. apply elem_d_get; [apply Hd | by apply list_elem_of_In].
Qed.

(** Every method of the in-memory repository keeps the stored
    conversations well formed. It removes at most expired conversations and
    then makes one change: a new conversation at version 1, or the named
    conversation replaced by the method's own update of the very row it
    replaces, at the version the caller expected and one version later, with
    the owner and the bound decision kept unless the method is a rebind by the
    current owner or a verified advance. What it returns is what is stored,
    lookups return live conversations of the owner asked for, and a method
    that raises stores nothing. *)
Theorem memory_methods_are_atomic v d :
  rows_ok d ->
  let '(out, d') := perform_call refinement_version sha256_hex cfg now v d in
  rows_ok d'
  /\ exists d0, expiry now (rows_of d) (rows_of d0)
       /\ honest sha256_hex cfg now v (rows_of d0) out (rows_of d').
Proof.
  intros Hd. assert (Ha : acts v d (perform_call refinement_version sha256_hex cfg now v)).
  { destruct v; simpl; auto using create_acts, get_acts, get_for_owner_acts, save_call_acts,
      bind_acts, advance_acts, rebind_acts, append_acts, consume_acts, find_acts, cleanup_acts. }
  unfold acts in Ha. by destruct (perform_call _ _ _ _ _ _).
Qed.
End MemoryHistory.
End MemoryHistory.

(** ** So do the rows of the operational store *)
Module SqlHistory.
Import OperationalStore Sql History.
Section SqlHistory.
Context {Refinement : Type} (refinement_version : Refinement -> Z) (sha256_hex : string -> string).
Notation Ctx := (ConversationContext Refinement).
Context {P : Type} (encode_entity : Ctx -> P) (decode_entity : P -> option Ctx)
        (decode_encode : forall c, context_post_init c = Ok c -> decode_entity (encode_entity c) = Some c).
Variables (cfg : settings) (now : datetime).
Implicit Types (c e : Ctx) (t : op_table P) (v : call Refinement).
Notation rows := (sql_row decode_entity).

(** The store holds one well-formed conversation per id, at its own version. *)
Definition sql_ok t : Prop :=
  table_ok t /\ forall i r, _get_row SHOPPING_CONVERSATIONS i t = Some r ->
    exists c, decode_entity (op_payload r) = Some c /\ row_ok cfg i c
      /\ op_seq r = persistence_version c /\ op_owner r = _owner_key sha256_hex (owner c).

(** While a method runs, other workers write newer versions of conversations,
    open new ones and remove some: the conversations they may remove are not
    opened again within it, so that a version number names one row. *)
Variable removable : string -> Prop.
Definition moves_on (r r' : string -> option Ctx) : Prop :=
  forall i, match r i with
    | Some c => (removable i /\ r' i = None)
        \/ exists c', r' i = Some c' /\ (c' = c \/ persistence_version c < persistence_version c')
    | None => removable i -> r' i = None
    end.

Variable env : nat -> op_table P -> op_table P.
Definition others_ok : Prop :=
  forall n t, sql_ok t -> sql_ok (env n t) /\ moves_on (rows t) (rows (env n t)).
Hypothesis Henv : others_ok.

(** An expected version is one the caller has seen: no later one, and not the
    0 of a new conversation where the stored one may be removed. *)
Definition seen_before (i : string) (x : Z) (r : option Ctx) : Prop :=
  match r with
  | Some c => x <= persistence_version c /\ (x = 0 -> ~ removable i)
  | None => True
  end.
Definition observed v t : Prop :=
  match v with
  | CallSave c ev =>
      seen_before (conversation_id c) (default (persistence_version c) ev) (rows t (conversation_id c))
  | CallBind i _ _ (Some x) | CallAdvance i _ _ (Some x) | CallRebind i _ _ (Some x)
  | CallAppend i _ _ (Some x) | CallConsume i _ x => seen_before i x (rows t i)
  | _ => True
  end.

(** The table when the method's write takes effect. *)
Definition meanwhile : op_table P -> op_table P -> Prop :=
  rtc (fun a b => (exists n, b = env n a) \/ expiry now (rows a) (rows b)).

Definition acts v t (m : act (op_table P) conv_exn (answer Refinement)) : Prop :=
  sql_ok (m t).2 /\ exists t0, meanwhile t t0
    /\ honest sha256_hex cfg now v (rows t0) (m t).1 (rows (m t).2).

Lemma row_some t i c :
  sql_ok t -> rows t i = Some c <-> exists r, _get_row SHOPPING_CONVERSATIONS i t = Some r
    /\ decode_entity (op_payload r) = Some c /\ row_ok cfg i c
    /\ op_seq r = persistence_version c.
Proof.
  intros [_ Ht]. unfold sql_row. destruct (_get_row _ i t) as [r|] eqn:E.
  - destruct (Ht i r E) as (c' & Hd & Hrow & Hs & _). split.
    + intros H. exists r. assert (c' = c) as -> by congruence. done.
    + intros (r' & [= <-] & H & _). done.
  - split; [done |]. by intros (r' & ? & _).
Qed.

Lemma row_none t i : sql_ok t -> rows t i = None <-> _get_row SHOPPING_CONVERSATIONS i t = None.
Proof.
  intros [_ Ht]. unfold sql_row. destruct (_get_row _ i t) as [r|] eqn:E; [| done].
  destruct (Ht i r E) as (c' & Hd & _). by rewrite Hd.
Qed.

Lemma sql_load_spec i t : sql_ok t -> _load decode_entity i t = (Ok (rows t i), t).
Proof.
  intros Ht. unfold _load. act_run. unfold get_versioned.
  destruct (_get_row SHOPPING_CONVERSATIONS i t) as [r|] eqn:E.
  - destruct (proj2 Ht i r E) as (c & Hd & Hrow & Hs & _). unfold decoded. rewrite Hd.
    cbn [rbind]. rewrite Hs, Z.eqb_refl. simpl. unfold sql_row. by rewrite E, Hd.
  - unfold sql_row. by rewrite E.
Qed.

(** A table that agrees with another one but for the row of [i]. *)
Lemma sql_ok_update t t' i r c :
  sql_ok t -> table_ok t' -> _get_row SHOPPING_CONVERSATIONS i t' = Some r ->
  decode_entity (op_payload r) = Some c -> row_ok cfg i c -> op_seq r = persistence_version c ->
  op_owner r = _owner_key sha256_hex (owner c) ->
  (forall s j, (s, j) <> (SHOPPING_CONVERSATIONS, i) -> _get_row s j t' = _get_row s j t) ->
  sql_ok t' /\ rows t' i = Some c /\ forall j, j <> i -> rows t' j = rows t j.
Proof.
  intros Ht Ht' Hr Hd Hrow Hs Ho Hoff. split; [| split].
  - split; [done |]. intros j x Hx. destruct (decide (j = i)) as [-> | Hne].
    + rewrite Hr in Hx. injection Hx as <-. by exists c.
    + rewrite Hoff in Hx by congruence. by apply Ht.
  - unfold sql_row. by rewrite Hr.
  - intros j Hne. unfold sql_row. by rewrite Hoff by congruence.
Qed.

(** The row a method has read is still there, or a newer version of it, or it
    was removed for good. *)
Definition seen i e (r : option Ctx) : Prop :=
  match r with
  | Some e' => e' = e \/ persistence_version e < persistence_version e'
  | None => removable i
  end.

Lemma env_ok n t : sql_ok t -> sql_ok (env n t).
Proof. intros Ht. by apply Henv. Qed.

Lemma seen_self i e r : r = Some e -> seen i e r.
Proof. intros ->. by left. Qed.

Lemma env_seen n t i e : sql_ok t -> seen i e (rows t i) -> seen i e (rows (env n t) i).
Proof.
  intros Ht Hs. pose proof (proj2 (Henv n t Ht) i) as Hn. unfold seen in *.
  destruct (rows t i) as [e'|]; [| by rewrite (Hn Hs)].
  destruct Hn as [[Hr ->] | (e'' & -> & Hle)]; [done |].
  destruct Hs as [-> | ?], Hle as [-> | ?]; [by left | by right | by right | right; lia].
Qed.

Lemma seen_at i x e r :
  seen i e r -> x <= persistence_version e ->
  match r with Some e' => persistence_version e' = x -> e' = e /\ x = persistence_version e
             | None => True end.
Proof. destruct r as [e'|]; [intros [-> | Hlt] Hx E; [done | lia] | done]. Qed.

(** A new version of a row, swapped in at the version that was expected. *)
Lemma swap_spec t i e stored x :
  sql_ok t -> rows t i = Some e -> persistence_version e = x ->
  row_ok cfg i stored -> persistence_version stored = x + 1 ->
  exists t', compare_and_swap encode_entity SHOPPING_CONVERSATIONS i stored x (x + 1)
      (_owner_key sha256_hex (owner stored)) t = (Ok true, t')
    /\ sql_ok t' /\ rows t' i = Some stored /\ forall j, j <> i -> rows t' j = rows t j.
Proof.
  intros Ht E Hx Hrow Hv. apply row_some in E as (r & Er & Hd & He & Hs); [| done].
  destruct (cas_ok encode_entity t SHOPPING_CONVERSATIONS i stored x (x + 1)
              (_owner_key sha256_hex (owner stored)) r (proj1 Ht) Er ltac:(congruence))
    as (t' & Hc & Ht' & Hr' & Hoff).
  exists t'. split; [done |]. eapply sql_ok_update; [done | done | exact Hr' | | done | | done | done].
  - simpl. apply decode_encode, (ok_valid _ _ _ Hrow).
  - simpl. lia.
Qed.

Lemma swap_stale t i stored x own :
  sql_ok t -> (forall e, rows t i = Some e -> persistence_version e <> x) ->
  compare_and_swap encode_entity SHOPPING_CONVERSATIONS i stored x (x + 1) own t = (Ok false, t).
Proof.
  intros Ht Hne. apply cas_stale; [apply Ht |]. intros r Er Hs.
  destruct (proj2 Ht i r Er) as (c & Hd & Hrow & Hs' & _).
  apply (Hne c); [| congruence]. apply row_some; [done | eauto].
Qed.

Lemma recent_twice n c : stored_as cfg n (with_turns (recent cfg (turns c)) c) = stored_as cfg n c.
Proof. unfold stored_as, with_turns. simpl. by rewrite recent_idem. Qed.

(** [_compare_and_swap] of an update of [e], which the method has read, at a
    version the caller has seen: it replaces [e] itself or nothing. *)
Lemma cas_spec t i c e x :
  sql_ok t -> seen i e (rows t i) -> x <= persistence_version e -> 1 <= persistence_version e ->
  conversation_id c = i ->
  require_context_membership (with_turns (recent cfg (turns c)) c) = Ok tt ->
  let tw := env 2 t in
  match _compare_and_swap sha256_hex encode_entity cfg env c x t with
  | (Ok stored, t') =>
      stored = stored_as cfg (persistence_version e + 1) c /\ x = persistence_version e
      /\ rows tw i = Some e /\ sql_ok t' /\ rows t' i = Some stored
      /\ forall j, j <> i -> rows t' j = rows tw j
  | (Err _, t') => t' = t \/ t' = tw
  end.
Proof.
  intros Ht Hseen Hx He Hi Hm tw. unfold _compare_and_swap, others. act_run.
  destruct (checked _) as [stored|] eqn:Es; [| by left]. apply checked_ok in Es as [-> Hvalid].
  fold (stored_as cfg (x + 1) c) in *. fold tw. rewrite Hi.
  assert (Htw : sql_ok tw) by by apply env_ok.
  pose proof (seen_at i x e _ (env_seen 2 t i e Ht Hseen) Hx) as Hat. fold tw in Hat.
  destruct (rows tw i) as [e'|] eqn:Ew.
  2: { rewrite swap_stale; [by right | done |]. intros y Hy. by rewrite Ew in Hy. }
  destruct (decide (persistence_version e' = x)) as [Hv | Hv].
  - destruct (Hat Hv) as [-> ->]. clear Hat Hv.
    assert (Hrow : row_ok cfg i (stored_as cfg (persistence_version e + 1) c))
      by (apply stored_ok; [done | lia | done | done]).
    destruct (swap_spec tw i e _ (persistence_version e) Htw Ew eq_refl Hrow eq_refl)
      as (t' & -> & Ht' & Hr & Hoff). eauto 10.
  - rewrite swap_stale; [by right | done |]. intros y Hy. rewrite Ew in Hy. congruence.
Qed.

(** An insertion takes effect exactly when there is still no row. *)
Lemma insert_spec t i stored :
  sql_ok t -> row_ok cfg i stored -> persistence_version stored = 1 ->
  match insert_versioned encode_entity SHOPPING_CONVERSATIONS i stored 1
          (_owner_key sha256_hex (owner stored)) t with
  | (Ok c, t') => c = stored /\ rows t i = None /\ sql_ok t' /\ rows t' i = Some stored
                  /\ forall j, j <> i -> rows t' j = rows t j
  | (Err _, t') => t' = t
  end.
Proof.
  intros Ht Hrow Hv. unfold insert_versioned.
  destruct (_get_row SHOPPING_CONVERSATIONS i t) as [r|] eqn:E.
  - by rewrite (insert_row_conflict _ _ _ _ _ _ _ _ E).
  - destruct (insert_fresh t SHOPPING_CONVERSATIONS i (_owner_key sha256_hex (owner stored))
                (encode_entity stored) 1 (proj1 Ht) E)
      as (t' & r & -> & Ht' & Hr & Hpay & Hseq & Hown & Hoff).
    split; [done |]. split; [by apply row_none |].
    eapply sql_ok_update; [done | done | exact Hr | | done | by rewrite Hv | done | done].
    rewrite Hpay. apply decode_encode, (ok_valid _ _ _ Hrow).
Qed.

Lemma sql_save_spec t c ev :
  sql_ok t ->
  (forall e, rows t (conversation_id c) = Some e ->
   default (persistence_version c) ev <= persistence_version e) ->
  let tw := env 2 t in
  match save sha256_hex encode_entity decode_entity cfg now env c ev t with
  | (Ok stored, t') =>
      sql_ok t' /\ rows t' (conversation_id c) = Some stored
      /\ (forall j, j <> conversation_id c -> rows t' j = rows tw j)
      /\ rows tw (conversation_id c) = rows t (conversation_id c)
      /\ match rows t (conversation_id c) with
         | None => default (persistence_version c) ev = 0 /\ stored = stored_as cfg 1 c
         | Some e =>
             default (persistence_version c) ev = persistence_version e
             /\ owner_changes e c = false
             /\ (is_some (decision_context e) = true -> decision_context c = decision_context e)
             /\ stored = stored_as cfg (persistence_version e + 1) c
         end
  | (Err _, t') => t' = t \/ t' = tw
  end.
Proof.
  intros Ht Hseen tw. unfold save. set (x := default (persistence_version c) ev) in *.
  set (bounded := with_turns (recent cfg (turns c)) c).
  unfold a_bind at 1, a_lift at 1. destruct (_require_active_owner _ _ _) as [u|]; [| by left].
  unfold a_bind at 1, a_lift at 1. fold bounded.
  destruct (checked bounded) as [b|] eqn:Eb; [| by left]. apply checked_ok in Eb as [-> _].
  unfold a_bind at 1, a_lift at 1.
  destruct (require_context_membership bounded) as [[]|] eqn:Em; [| by left]. cbn [drifted].
  unfold a_bind at 1. rewrite sql_load_spec by done.
  destruct (rows t (conversation_id c)) as [e|] eqn:Er.
  - unfold a_bind at 1, a_guard at 1, a_lift at 1.
    destruct (owner_changes e bounded) eqn:Eo; [by left |]. cbn [guard_raise].
    unfold a_bind at 1, a_lift at 1. unfold require_stable_decision_context.
    destruct (is_some (decision_context e) && _) eqn:Es; [by left |]. cbn [guard_raise rbind].
    rewrite Em. cbn [drifted].
    pose proof (cas_spec t (conversation_id c) bounded e x Ht (seen_self _ _ _ Er) (Hseen e eq_refl)
      ltac:(apply row_some in Er as (r & _ & _ & Hrow & _); [apply Hrow | done]) eq_refl) as Hc.
    specialize (Hc ltac:(by rewrite (recent_short cfg (turns bounded)) by apply recent_length)).
    cbv zeta in Hc. fold tw in Hc.
    destruct (_compare_and_swap _ _ _ _ _ _ _) as [[stored|y] t']; [| done].
    destruct Hc as (-> & -> & Hw & Ht' & Hr' & Hoff). split; [done |]. split; [done |].
    split; [done |]. split; [done |]. split; [done |]. split; [done |].
    split; [| apply recent_twice]. intros He. rewrite He in Es. cbn in Es. by bool_simpl.
  - unfold a_bind at 1, a_guard at 1, a_lift at 1.
    destruct (negb (x =? 0)) eqn:Ex; [by left |]. cbn [guard_raise].
    unfold a_bind at 1, a_lift at 1. destruct (checked _) as [stored|] eqn:Es; [| by left].
    apply checked_ok in Es as [-> Hvalid]. unfold a_bind at 1, others at 1, a_mod at 1. fold tw.
    assert (Hrow : row_ok cfg (conversation_id c) (with_version 1 bounded))
      by (apply (stored_ok cfg 1 c); [done | lia | done | done]).
    pose proof (insert_spec tw (conversation_id c) _ (env_ok 2 t Ht) Hrow eq_refl) as Hi.
    destruct (insert_versioned _ _ _ _ _ _ _) as [[y|y] t']; [| by right].
    destruct Hi as (-> & Hw & Ht' & Hr' & Hoff). split; [done |]. split; [done |].
    split; [done |]. split; [done |]. bool_simpl. done.
Qed.

(** ** Methods *)

Notation honest_step := (honest sha256_hex cfg now).

Lemma meanwhile_env n t : meanwhile t (env n t).
Proof. apply rtc_once. left. by exists n. Qed.

Lemma sql_kept_honest v t (a : result conv_exn (answer Refinement)) :
  match a with
  | Ok (Stored c) => rows t (conversation_id c) = Some c
  | Ok (Found (Some c)) =>
      rows t (conversation_id c) = Some c /\ _is_expired now c = false /\ asked now v c
  | _ => True
  end -> honest_step v (rows t) a (rows t).
Proof. intros Ha. split; [intros i; apply Kept |]. destruct a as [[[c|]|c|n]|e]; done. Qed.

Lemma sql_acts_from v t t0 (m m0 : act (op_table P) conv_exn (answer Refinement)) :
  meanwhile t t0 -> m t = m0 t0 -> acts v t0 m0 -> acts v t m.
Proof.
  intros Hex E (Hok & t1 & Hex1 & Hh). unfold acts. rewrite E. split; [done |].
  exists t1. split; [by etrans | done].
Qed.

Lemma sql_acts_kept v t t0 a (m : act (op_table P) conv_exn (answer Refinement)) :
  sql_ok t0 -> meanwhile t t0 -> m t = (a, t0) -> honest_step v (rows t0) a (rows t0) -> acts v t m.
Proof. intros Hd Hm E H. unfold acts. rewrite E. split; [done |]. by exists t0. Qed.

Lemma sql_acts_raise v t t0 x (m : act (op_table P) conv_exn (answer Refinement)) :
  sql_ok t0 -> meanwhile t t0 -> m t = (Err x, t0) -> acts v t m.
Proof. intros. by eapply sql_acts_kept, (sql_kept_honest v t0 (Err x)). Qed.

Lemma sql_acts_lift {A} v t (r : result conv_exn A) (k : A -> act (op_table P) conv_exn Ctx) :
  sql_ok t -> (forall a, r = Ok a -> acts v t (answered Stored (k a))) ->
  acts v t (answered Stored (a_bind (a_lift r) k)).
Proof.
  intros Ht Hk. destruct r as [a|x]; [by apply (Hk a) |].
  by apply (sql_acts_raise v t t x); [| apply rtc_refl |].
Qed.

Lemma sql_acts_refuse v t (x : conv_exn) (b : bool) (k : unit -> act (op_table P) conv_exn Ctx) :
  sql_ok t -> (b = false -> acts v t (answered Stored (k tt))) ->
  acts v t (answered Stored (a_bind (a_guard b x) k)).
Proof. intros Ht Hk. apply sql_acts_lift; [done |]. intros [] ->%guard_raise_ok. by apply Hk. Qed.

Lemma acts_others v n t (k : unit -> act (op_table P) conv_exn Ctx) :
  sql_ok t -> (sql_ok (env n t) -> acts v (env n t) (answered Stored (k tt))) ->
  acts v t (answered Stored (a_bind (others env n) k)).
Proof.
  intros Ht Hk. apply (sql_acts_from v t (env n t) _ (answered Stored (k tt)));
    [apply meanwhile_env | done | by apply Hk, env_ok].
Qed.

(** A deletion removes the row at the version it names. *)
Lemma delete_rows t i x :
  sql_ok t ->
  let t' := (delete_versioned SHOPPING_CONVERSATIONS i x t).2 in
  sql_ok t'
  /\ rows t' i = match rows t i with
                 | Some e => if persistence_version e =? x then None else Some e
                 | None => None
                 end
  /\ forall j, j <> i -> rows t' j = rows t j.
Proof.
  intros Ht t'. destruct (delete_versioned_spec t SHOPPING_CONVERSATIONS i x (proj1 Ht))
    as (Ht' & Hi & Hoff). fold t' in Ht', Hi, Hoff.
  split; [split; [done |] | split].
  - intros j r' Hr'. destruct (decide (j = i)) as [-> | Hne].
    + rewrite Hi in Hr'. destruct (_get_row _ i t) as [r|] eqn:Er; [| done].
      destruct (_ =? _); [done |]. injection Hr' as <-. by apply Ht.
    + rewrite Hoff in Hr' by congruence. by apply Ht.
  - unfold sql_row. rewrite Hi. destruct (_get_row _ i t) as [r|] eqn:Er; [| done].
    destruct (proj2 Ht i r Er) as (c & Hd & _ & Hs & _). rewrite Hd, <- Hs.
    destruct (_ =? _); [done |]. by rewrite Hd.
  - intros j Hne. unfold sql_row. by rewrite Hoff by congruence.
Qed.

Lemma expired_delete t i c :
  sql_ok t -> seen i c (rows t i) -> _is_expired now c = true ->
  let t' := (delete_versioned SHOPPING_CONVERSATIONS i (persistence_version c) t).2 in
  sql_ok t' /\ expiry now (rows t) (rows t').
Proof.
  intros Ht Hs Hx t'. destruct (delete_rows t i (persistence_version c) Ht) as (Ht' & Hi & Hoff).
  fold t' in Ht', Hi, Hoff. split; [done |]. intros j.
  destruct (decide (j = i)) as [-> | Hne]; [| left; by apply Hoff].
  unfold seen in Hs. destruct (rows t i) as [e|]; [| by left].
  rewrite Hi. destruct (_ =? _) eqn:E; [| by left]. right. exists e. split; [done |].
  split; [| done]. bool_simpl. destruct Hs as [-> | ?]; [done | lia].
Qed.

Lemma sql_get_spec i t :
  sql_ok t -> exists found t0, get decode_entity now env i t = (Ok found, t0) /\ sql_ok t0
    /\ meanwhile t t0
    /\ match found with
       | Some c => t0 = t /\ rows t i = Some c /\ row_ok cfg i c /\ _is_expired now c = false
       | None => True
       end.
Proof.
  intros Ht. unfold get. unfold a_bind at 1. rewrite sql_load_spec by done.
  destruct (rows t i) as [c|] eqn:E; [| exists None, t; repeat split; (apply Ht || apply rtc_refl)].
  destruct (_is_expired now c) eqn:Ex.
  - assert (Hseen : seen i c (rows (env 0 t) i)) by (apply env_seen; [done | by apply seen_self]).
    destruct (expired_delete (env 0 t) i c (env_ok 0 t Ht) Hseen Ex) as [Hok Hexp].
    exists None, (delete_versioned SHOPPING_CONVERSATIONS i (persistence_version c) (env 0 t)).2.
    split; [done |]. split; [done |]. split; [| done].
    etrans; [apply (meanwhile_env 0) |]. apply rtc_once. by right.
  - exists (Some c), t. split; [done |]. split; [done |]. split; [apply rtc_refl |].
    split; [done |]. split; [done |]. split; [| done].
    apply row_some in E as (r & _ & _ & Hrow & _); [apply Hrow | done].
Qed.

Lemma sql_acts_require v i t (k : Ctx -> act (op_table P) conv_exn Ctx) :
  sql_ok t ->
  (forall e, rows t i = Some e -> row_ok cfg i e -> _is_expired now e = false ->
     acts v t (answered Stored (k e))) ->
  acts v t (answered Stored (a_bind (require decode_entity now env i) k)).
Proof.
  intros Ht Hk. destruct (sql_get_spec i t Ht) as ([e|] & t0 & Hget & Ht0 & Hm & Hf).
  - destruct Hf as (-> & E & Hrow & Hx).
    apply (sql_acts_from v t t _ (answered Stored (k e))); [done | | by apply Hk].
    unfold answered, require, a_bind. by rewrite Hget.
  - eapply sql_acts_raise; [exact Ht0 | done |]. unfold answered, require, a_bind. by rewrite Hget.
Qed.

(** A save whose effect the method allows. *)
Lemma sql_save_acts v c ev t :
  sql_ok t ->
  (forall e, rows t (conversation_id c) = Some e ->
   default (persistence_version c) ev <= persistence_version e) ->
  match rows t (conversation_id c) with
  | Some e =>
      default (persistence_version c) ev = persistence_version e ->
      owner_changes e c = false ->
      (is_some (decision_context e) = true -> decision_context c = decision_context e) ->
      change sha256_hex cfg now v (conversation_id c) (Some e)
        (Some (stored_as cfg (persistence_version e + 1) c))
  | None => default (persistence_version c) ev = 0 ->
      change sha256_hex cfg now v (conversation_id c) None (Some (stored_as cfg 1 c))
  end ->
  acts v t (answered Stored (save sha256_hex encode_entity decode_entity cfg now env c ev)).
Proof.
  intros Ht Hseen Hv. pose proof (sql_save_spec t c ev Ht Hseen) as Hs. cbv zeta in Hs.
  destruct (save _ _ _ _ _ _ c ev t) as [[stored|x] t'] eqn:E.
  - destruct Hs as (Ht' & Hr & Hoff & Hw & Hrow). unfold acts, answered, a_bind. rewrite E.
    split; [done |]. exists (env 2 t). split; [apply meanwhile_env |].
    assert (Hi : conversation_id stored = conversation_id c).
    { destruct (rows t (conversation_id c)); [by destruct Hrow as (_ & _ & _ & ->) |].
      by destruct Hrow as (_ & ->). }
    split; [| simpl; by rewrite Hi]. intros j. simpl.
    destruct (decide (j = conversation_id c)) as [-> | Hne]; [| rewrite Hoff by done; apply Kept].
    rewrite Hr, Hw. destruct (rows t (conversation_id c)) as [e|].
    + destruct Hrow as (? & ? & ? & ->). auto.
    + destruct Hrow as (? & ->). auto.
  - destruct Hs as [-> | ->].
    + eapply sql_acts_raise; [exact Ht | apply rtc_refl |]. unfold answered, a_bind. by rewrite E.
    + eapply sql_acts_raise; [by apply env_ok | apply (meanwhile_env 2) |].
      unfold answered, a_bind. by rewrite E.
Qed.

(** A swap over the row the method has read. *)
Lemma cas_acts v i c e x t :
  sql_ok t -> seen i e (rows t i) -> x <= persistence_version e -> row_ok cfg i e ->
  conversation_id c = i ->
  require_context_membership (with_turns (recent cfg (turns c)) c) = Ok tt ->
  (x = persistence_version e ->
   change sha256_hex cfg now v i (Some e) (Some (stored_as cfg (persistence_version e + 1) c))) ->
  acts v t (answered Stored (_compare_and_swap sha256_hex encode_entity cfg env c x)).
Proof.
  intros Ht Hseen Hx He Hi Hm Hv.
  pose proof (cas_spec t i c e x Ht Hseen Hx (ok_version _ _ _ He) Hi Hm) as Hs. cbv zeta in Hs.
  destruct (_compare_and_swap _ _ _ _ c x t) as [[stored|y] t'] eqn:E.
  - destruct Hs as (-> & Ex & Hw & Ht' & Hr & Hoff). unfold acts, answered, a_bind. rewrite E.
    split; [done |]. exists (env 2 t). split; [apply meanwhile_env |].
    split; [| simpl; by rewrite Hi]. intros j. simpl.
    destruct (decide (j = i)) as [-> | Hne]; [| rewrite Hoff by done; apply Kept].
    rewrite Hr, Hw. by apply Hv.
  - destruct Hs as [-> | ->].
    + eapply sql_acts_raise; [exact Ht | apply rtc_refl |]. unfold answered, a_bind. by rewrite E.
    + eapply sql_acts_raise; [by apply env_ok | apply (meanwhile_env 2) |].
      unfold answered, a_bind. by rewrite E.
Qed.

Lemma sql_get_acts i t : sql_ok t -> acts (CallGet i) t (answered Found (get decode_entity now env i)).
Proof.
  intros Ht. destruct (sql_get_spec i t Ht) as (found & t0 & Hget & Ht0 & Hm & Hf).
  apply (sql_acts_kept _ t t0 (Ok (Found found))); [done | done | |].
  - unfold answered, a_bind. by rewrite Hget.
  - apply sql_kept_honest. destruct found as [c|]; [| done]. destruct Hf as (-> & E & Hrow & Hx).
    rewrite (ok_id _ _ _ Hrow). split; [done |]. split; [done | apply Hrow].
Qed.

Lemma sql_get_for_owner_acts i o t :
  sql_ok t -> acts (CallGetForOwner i o) t (answered Found (get_for_owner decode_entity now env i o)).
Proof.
  intros Ht. destruct (sql_get_spec i t Ht) as (found & t0 & Hget & Ht0 & Hm & Hf).
  apply (sql_acts_kept _ t t0 (Ok (Found (match found with
    Some c => if owned_by o c then Some c else None | None => None end)))); [done | done | |].
  - unfold answered, get_for_owner, a_bind. by rewrite Hget.
  - apply sql_kept_honest. destruct found as [c|]; [| done]. destruct (owned_by o c) eqn:Eo; [| done].
    destruct Hf as (-> & E & Hrow & Hx). rewrite (ok_id _ _ _ Hrow).
    split; [done |]. split; [done | split; [apply Hrow | done]].
Qed.

Lemma sql_create_acts i o r t :
  sql_ok t ->
  acts (CallCreate i o r) t
    (answered Stored (create sha256_hex encode_entity decode_entity cfg now env i o r)).
Proof.
  intros Ht. apply sql_acts_lift; [done |]. intros c [-> _]%checked_ok.
  assert (Hv : forall e, rows t i = Some e -> 1 <= persistence_version e).
  { intros e E. apply row_some in E as (? & _ & _ & Hrow & _); [apply Hrow | done]. }
  apply sql_save_acts; [done | simpl; intros e E; specialize (Hv e E); lia |].
  simpl. destruct (rows t i) as [e|] eqn:E.
  - intros Hz. specialize (Hv e eq_refl). lia.
  - intros _. by eapply Created.
Qed.

Lemma sql_save_call_acts c ev t :
  sql_ok t -> observed (CallSave c ev) t ->
  acts (CallSave c ev) t
    (answered Stored (save sha256_hex encode_entity decode_entity cfg now env c ev)).
Proof.
  intros Ht Ho. apply sql_save_acts; [done | |].
  { intros e E. simpl in Ho. rewrite E in Ho. apply Ho. }
  destruct (rows t (conversation_id c)) as [e|] eqn:E; intros; [by eapply Saved | by eapply SavedNew].
Qed.

Lemma observed_le i ev e : match ev with Some x => seen_before i x (Some e) | None => True end ->
  default (persistence_version e) ev <= persistence_version e.
Proof. destruct ev; simpl; [by intros [? _] | lia]. Qed.

Lemma observed_kept i ev e : match ev with Some x => seen_before i x (Some e) | None => True end ->
  1 <= persistence_version e -> default (persistence_version e) ev = 0 -> ~ removable i.
Proof. destruct ev; simpl; [by intros [_ ?] | lia]. Qed.

Lemma seen_env1 t i e : sql_ok t -> rows t i = Some e -> seen i e (rows (env 1 t) i).
Proof. intros Ht E. apply env_seen; [done | by apply seen_self]. Qed.

Lemma sql_bind_acts i o r ev t :
  sql_ok t -> observed (CallBind i o r ev) t ->
  acts (CallBind i o r ev) t
    (answered Stored (bind_decision_context sha256_hex encode_entity decode_entity cfg now env i o r ev)).
Proof.
  intros Ht Hobs. apply sql_acts_lift; [done |]. intros _ _.
  apply sql_acts_require; [done |]. intros e E He Hlive. simpl in Hobs. rewrite E in Hobs.
  apply sql_acts_refuse; [done |]. intros Ho%not_owned.
  apply sql_acts_refuse; [done |]. intros Hdc.
  apply sql_acts_lift; [done |]. intros u [-> _]%checked_ok. apply sql_acts_lift; [done |]. intros [] Hm.
  destruct (require_context_membership _) as [[]|] eqn:Em in Hm; [| done].
  apply acts_others; [done |]. intros Ht1.
  apply (cas_acts _ i _ e); [done | by apply seen_env1 | by eapply observed_le | done | apply He | |].
  - by apply members_recent.
  - intros Hv%expects_default.
    apply (Bound _ _ _ _ _ o r ev); [done | done | done |].
    revert Hdc. destruct (decision_context e); simpl; intros Hdc; [right | by left]. by bool_simpl.
Qed.

Lemma sql_advance_acts i o r ev t :
  sql_ok t -> observed (CallAdvance i o r ev) t ->
  acts (CallAdvance i o r ev) t
    (answered Stored
       (advance_verified_research_context sha256_hex encode_entity decode_entity cfg now env i o r ev)).
Proof.
  intros Ht Hobs. apply sql_acts_lift; [done |]. intros _ _.
  apply sql_acts_require; [done |]. intros e E He Hlive. simpl in Hobs. rewrite E in Hobs.
  apply sql_acts_refuse; [done |]. intros Ho%negb_false_iff.
  destruct (bool_decide (decision_context e = Some r)) eqn:Er.
  { apply (sql_acts_kept _ t t (Ok (Stored e))); [done | apply rtc_refl | done |]. apply sql_kept_honest.
    by rewrite (ok_id _ _ _ He). }
  apply sql_acts_lift; [done |]. intros u [-> _]%checked_ok.
  apply sql_acts_lift; [done |]. intros [] _. cbv zeta.
  apply acts_others; [done |]. intros Ht1. pose proof (seen_env1 t i e Ht E) as Hseen.
  apply (sql_acts_from _ _ (env 1 t) _ (answered Stored (match rows (env 1 t) i with
    | None => a_err (not_found i)
    | Some current =>
        refuse! VersionConflict i (default (persistence_version e) ev)
          when negb (persistence_version current =? default (persistence_version e) ev) in
        do! _ := a_lift (drifted (require_verified_research_context_advance current
                                    (with_decision cfg now o r e))) in
        _compare_and_swap sha256_hex encode_entity cfg env (with_decision cfg now o r e)
          (default (persistence_version e) ev)
    end))); [apply rtc_refl | |].
  { unfold answered, a_bind at 1 2. rewrite sql_load_spec by done. by destruct (rows (env 1 t) i). }
  pose proof (seen_at i (default (persistence_version e) ev) e _ Hseen (observed_le i ev e Hobs)) as Hat.
  destruct (rows (env 1 t) i) as [current|] eqn:Ec;
    [| by apply (sql_acts_raise _ _ (env 1 t) (not_found i)); [| apply rtc_refl |]].
  apply sql_acts_refuse; [done |]. intros Hv. apply negb_false_iff, Z.eqb_eq in Hv.
  destruct (Hat Hv) as [-> Hx]. apply sql_acts_lift; [done |]. intros [] Hadv.
  destruct (require_verified_research_context_advance _ _) as [[]|] eqn:Ea in Hadv; [| done].
  apply (cas_acts _ i _ e); [done | by apply seen_self | by eapply observed_le | done | apply He | |].
  - apply members_recent. revert Ea. unfold require_verified_research_context_advance.
    simpl. repeat case_match; congruence.
  - intros Hv'%expects_default. by eapply Advanced.
Qed.

Lemma stored_short n c :
  (length (turns c) <= Z.to_nat (max_turns cfg))%nat -> stored_as cfg n c = with_version n c.
Proof. intros H. unfold stored_as. by rewrite recent_short, with_turns_self. Qed.

Lemma sql_rebind_acts i o o' ev t :
  sql_ok t -> observed (CallRebind i o o' ev) t ->
  acts (CallRebind i o o' ev) t
    (answered Stored (rebind_owner sha256_hex encode_entity decode_entity cfg now env i o o' ev)).
Proof.
  intros Ht Hobs. apply sql_acts_lift; [done |]. intros _ _.
  apply sql_acts_require; [done |]. intros e E He Hlive. simpl in Hobs. rewrite E in Hobs.
  apply sql_acts_refuse; [done |]. intros Ho%negb_false_iff.
  apply sql_acts_lift; [done |]. intros u [-> _]%checked_ok. apply acts_others; [done |]. intros Ht1.
  apply (cas_acts _ i _ e); [done | by apply seen_env1 | by eapply observed_le | done | apply He | |].
  - apply members_recent. apply (ok_members _ _ _ He).
  - intros Hv%expects_default. rewrite stored_short by apply He.
    by eapply Rebound.
Qed.

(** A save over the row the method has read, at a version seen with it. *)
Lemma sql_acts_resave v i c ev e t :
  sql_ok t -> seen i e (rows t i) -> default (persistence_version c) ev <= persistence_version e ->
  (default (persistence_version c) ev = 0 -> ~ removable i) -> conversation_id c = i ->
  (default (persistence_version c) ev = persistence_version e ->
   change sha256_hex cfg now v i (Some e) (Some (stored_as cfg (persistence_version e + 1) c))) ->
  acts v t (answered Stored (save sha256_hex encode_entity decode_entity cfg now env c ev)).
Proof.
  intros Ht Hseen Hx Hk Hi Hv. pose proof (seen_at i _ e _ Hseen Hx) as Hat. unfold seen in Hseen.
  apply sql_save_acts; [done | |]; rewrite Hi.
  - intros e' E. rewrite E in Hseen. destruct Hseen as [-> | ?]; lia.
  - destruct (rows t i) as [e'|]; [| by intros Hz; destruct (Hk Hz)]. intros Hx' _ _.
    destruct (Hat (eq_sym Hx')) as [-> ?]. by apply Hv.
Qed.

Lemma sql_acts_get v i t (k : option Ctx -> act (op_table P) conv_exn Ctx) :
  sql_ok t ->
  (forall t0, sql_ok t0 -> acts v t0 (answered Stored (k None))) ->
  (forall e, rows t i = Some e -> row_ok cfg i e -> _is_expired now e = false ->
     acts v t (answered Stored (k (Some e)))) ->
  acts v t (answered Stored (a_bind (get decode_entity now env i) k)).
Proof.
  intros Ht Hnone Hsome. destruct (sql_get_spec i t Ht) as ([e|] & t0 & Hget & Ht0 & Hm & Hf).
  - destruct Hf as (-> & E & Hrow & Hx).
    apply (sql_acts_from v t t _ (answered Stored (k (Some e)))); [done | | by apply Hsome].
    unfold answered, a_bind. by rewrite Hget.
  - apply (sql_acts_from v t t0 _ (answered Stored (k None))); [done | | by apply Hnone].
    unfold answered, a_bind. by rewrite Hget.
Qed.

Lemma sql_append_acts i n u ev t :
  sql_ok t -> observed (CallAppend i n u ev) t ->
  acts (CallAppend i n u ev) t
    (answered Stored (append_turn sha256_hex encode_entity decode_entity cfg now env i n u ev)).
Proof.
  intros Ht Hobs. apply sql_acts_get; [done | |].
  - intros t0 Ht0. apply sql_acts_lift; [done |]. simpl. destruct ev as [z|]; [done |].
    intros e [-> _]%checked_ok. apply sql_acts_lift; [done |]. intros c [-> _]%checked_ok.
    apply sql_acts_lift; [done |]. intros _ _. apply acts_others; [done |]. intros Ht1.
    assert (Hv : forall y e, rows (env 1 t0) y = Some e -> 1 <= persistence_version e).
    { intros y e E. apply row_some in E as (? & _ & _ & Hrow & _); [apply Hrow | done]. }
    apply sql_save_acts; [done | simpl; intros e E; specialize (Hv _ e E); lia |].
    simpl. destruct (rows (env 1 t0) _) as [e|] eqn:E.
    + intros Hz. specialize (Hv _ e E). lia.
    + intros _. by eapply AppendedNew.
  - intros e E He Hlive. simpl in Hobs. rewrite E in Hobs. apply sql_acts_lift; [done |]. simpl.
    intros e' [= <-]. apply sql_acts_lift; [done |]. intros c [-> _]%checked_ok.
    apply sql_acts_lift; [done |]. intros _ _. apply acts_others; [done |]. intros Ht1.
    apply (sql_acts_resave _ i _ _ e);
      [done | by apply seen_env1 | by apply (observed_le i ev e)
      | apply (observed_kept i ev e Hobs), He | apply He |].
    intros Hv. eapply Appended; [done | done |]. by apply expects_default.
Qed.

Lemma sql_consume_acts i k x t :
  sql_ok t -> observed (CallConsume i k x) t ->
  acts (CallConsume i k x) t
    (answered Stored
       (consume_research_authorization sha256_hex encode_entity decode_entity cfg now env i k x)).
Proof.
  intros Ht Hobs. apply sql_acts_get; [done | |].
  - intros t0 Ht0. eapply sql_acts_raise; [exact Ht0 | apply rtc_refl | done].
  - intros c E Hc Hlive. simpl in Hobs. rewrite E in Hobs. apply sql_acts_lift; [done |]. intros u Hu.
    assert (consume_exact_research_authorization sha256_hex c k = Ok u) as Hk
      by (revert Hu; unfold authorized; destruct (consume_exact_research_authorization _ c k); congruence).
    clear Hu. pose proof (consume_ok _ c k u Hk) as (a & ow & _ & Hu & _).
    apply acts_others; [done |]. intros Ht1.
    apply (sql_acts_resave _ i _ _ c); [done | by apply seen_env1 | apply Hobs | apply Hobs | |].
    + rewrite Hu. apply Hc.
    + intros Hv. by eapply Consumed.
Qed.

(** The selected rows and what they decode to. *)
Lemma decoded_rows t (keep : op_row P -> bool) rs es :
  sql_ok t -> (forall r, keep r = true -> op_store r = SHOPPING_CONVERSATIONS) ->
  Permutation rs (List.filter keep (op_rows t)) ->
  Forall2 (fun r c => decode_entity (op_payload r) = Some c) rs es ->
  NoDup (map conversation_id es) /\ Forall (fun c => rows t (conversation_id c) = Some c) es.
Proof.
  intros Ht Hkeep Hperm Hdec.
  assert (Hrs : forall r c, r ∈ rs -> decode_entity (op_payload r) = Some c ->
    op_entity r = conversation_id c /\ rows t (conversation_id c) = Some c).
  { intros r c Hr Hd. rewrite Hperm in Hr. apply list_elem_of_In, filter_In in Hr as [Hr Hk].
    assert (Hg : _get_row SHOPPING_CONVERSATIONS (op_entity r) t = Some r).
    { apply get_row_some; [apply Ht |]. apply list_elem_of_In in Hr.
      split; [done | apply is_entity_iff]. auto. }
    destruct (proj2 Ht _ _ Hg) as (c' & Hd' & Hrow & _). assert (c' = c) as -> by congruence.
    rewrite (ok_id _ _ _ Hrow). split; [done |]. unfold sql_row. by rewrite Hg. }
  assert (Hnd : NoDup (map op_entity rs)).
  { rewrite Hperm. apply (NoDup_map_filter _ _ (fun r => String.eqb (op_store r) SHOPPING_CONVERSATIONS)).
    - intros r Hr%Hkeep. by apply String.eqb_eq.
    - by apply store_entities_nodup, Ht. }
  assert (map conversation_id es = map op_entity rs
          /\ Forall (fun c => rows t (conversation_id c) = Some c) es) as [-> Hs]; [| done].
  clear -Hdec Hrs. induction Hdec as [|r c rs es Hd _ IH]; [by split |].
  destruct (Hrs r c ltac:(set_solver) Hd) as [E Hr]. simpl.
  destruct IH as [-> IH]; [set_solver |]. rewrite E. split; [done | by constructor].
Qed.

(** The conversations of a listing are stored, match, and have distinct ids. *)
Lemma listed_spec o limit p t :
  sql_ok t ->
  match listed decode_entity o limit p t with
  | (Ok l, t') => t' = t /\ NoDup (map conversation_id l)
      /\ Forall (fun c => rows t (conversation_id c) = Some c /\ p c = true) l
  | (Err _, t') => t' = t
  end.
Proof.
  intros Ht. unfold listed, list_. set (rs := sorted _ _ _).
  destruct (decode_all decode_entity rs) as [es|] eqn:Ed; [| done].
  cbn [rbind]. split; [done |]. apply decode_all_spec in Ed.
  eapply decoded_rows in Ed as [Hnd Hs]; [| done | | apply sorted_perm]; cycle 1.
  { intros r [Hr _]%andb_true_iff. by apply String.eqb_eq. }
  apply (NoDup_map_filter_all _ p) in Hnd.
  assert (Hf : Forall (fun c => rows t (conversation_id c) = Some c /\ p c = true) (List.filter p es)).
  { rewrite Forall_forall in Hs |- *. intros c [Hc Hp]%list_elem_of_In%filter_In.
    split; [apply Hs; by apply list_elem_of_In | done]. }
  destruct limit as [n|]; simpl; [| done]. split; [| by apply Forall_take].
  rewrite <- firstn_map. rewrite <- (take_drop (Z.to_nat (Z.max 0 n))) in Hnd.
  by apply NoDup_app in Hnd as [? _].
Qed.

Lemma sql_find_acts o x t :
  sql_ok t ->
  acts (CallFind o x) t
    (answered Found (find_bound_for_owner refinement_version sha256_hex decode_entity now o x)).
Proof.
  intros Ht. pose proof (listed_spec (_owner_key sha256_hex (Some o)) None (bound_to now o x) t Ht) as Hl.
  unfold answered, find_bound_for_owner.
  destruct (listed _ _ _ _ t) as [[l|e] t'] eqn:E.
  - destruct Hl as (-> & _ & Hl).
    apply (sql_acts_kept _ t t (Ok (Found (latest refinement_version l)))); [done | apply rtc_refl | |].
    + unfold a_bind. by rewrite E.
    + apply sql_kept_honest. destruct (latest _ l) as [c|] eqn:Ec; [| done].
      apply MemoryHistory.latest_elem in Ec. rewrite Forall_forall in Hl.
      destruct (Hl c Ec) as [Hr Hb]. split; [done |]. split; [| done].
      unfold bound_to in Hb. by bool_simpl.
  - subst t'. eapply sql_acts_raise; [done | apply rtc_refl |]. unfold a_bind. by rewrite E.
Qed.

Lemma delete_all_spec cs n t :
  sql_ok t -> NoDup (map conversation_id cs) ->
  Forall (fun c => seen (conversation_id c) c (rows t (conversation_id c)) /\ _is_expired now c = true) cs ->
  exists n' t', delete_all env cs n t = (Ok n', t') /\ sql_ok t' /\ meanwhile t t'.
Proof.
  revert n t. induction cs as [|c cs IH]; intros n t Ht Hnd Hall.
  { exists n, t. split; [done |]. split; [done | apply rtc_refl]. }
  apply NoDup_cons in Hnd as [Hc Hnd]. apply Forall_cons in Hall as [[Hseen Hx] Hall].
  set (t1 := env (3 + length cs) t). assert (Ht1 : sql_ok t1) by by apply env_ok.
  destruct (expired_delete t1 _ c Ht1 (env_seen _ _ _ _ Ht Hseen) Hx) as [Ht2 Hexp].
  set (d := delete_versioned SHOPPING_CONVERSATIONS (conversation_id c) (persistence_version c) t1) in *.
  destruct (IH (if d.1 then n + 1 else n) d.2 Ht2 Hnd) as (n' & t' & E & Ht' & Hm).
  { rewrite Forall_forall in Hall |- *. intros y Hy. destruct (Hall y Hy) as [Hs Hxy].
    split; [| done]. apply (env_seen (3 + length cs)) in Hs; [| done]. fold t1 in Hs.
    destruct (delete_rows t1 (conversation_id c) (persistence_version c) Ht1) as (_ & _ & Hoff).
    fold d in Hoff. rewrite Hoff; [done |]. intros Ei. apply Hc. rewrite <- Ei.
    by apply list_elem_of_fmap_2. }
  exists n', t'. split; [| split; [done |]].
  - cbn [delete_all]. unfold others. act_run. fold t1. fold d. rewrite <- E. by destruct d.
  - etrans; [apply meanwhile_env |]. etrans; [apply rtc_once; right; exact Hexp | done].
Qed.

Lemma sql_cleanup_acts n t :
  sql_ok t -> acts (CallCleanup n) t (answered Removed (cleanup_expired decode_entity now env n)).
Proof.
  intros Ht. unfold cleanup_expired. destruct (n <=? 0).
  { eapply sql_acts_kept; [exact Ht | apply rtc_refl | done | by apply sql_kept_honest]. }
  pose proof (listed_spec None (Some n) (_is_expired now) t Ht) as Hl.
  destruct (listed _ _ _ _ t) as [[l|e] t'] eqn:E.
  - destruct Hl as (-> & Hnd & Hl).
    destruct (delete_all_spec l 0 (env 0 t) (env_ok 0 t Ht) Hnd) as (m & t' & Ed & Ht' & Hm).
    { rewrite Forall_forall in Hl |- *. intros c Hc. destruct (Hl c Hc) as [Hr Hx].
      split; [| done]. apply env_seen; [done | by apply seen_self]. }
    apply (sql_acts_kept _ t t' (Ok (Removed m))); [done | | | by apply sql_kept_honest].
    + etrans; [apply (meanwhile_env 0) | done].
    + unfold answered, others. act_run. rewrite E. by rewrite Ed.
  - subst t'. eapply sql_acts_raise; [done | apply rtc_refl |]. unfold answered. act_run. by rewrite E.
Qed.

End SqlHistory.
End SqlHistory.

(** ** The life of a conversation *)
Module Lineage.
Import History.
Section Lineage.
Context {Refinement : Type} (sha256_hex : string -> string) (cfg : settings).
Notation Ctx := (ConversationContext Refinement).
Implicit Types (c : Ctx) (v : call Refinement) (rows : string -> option Ctx).

(** Calls of any workers, in the order they took effect, during which the
    conversation [i] was not removed as expired. *)
Inductive lived (i : string) : list (datetime * call Refinement)
    -> (string -> option Ctx) -> (string -> option Ctx) -> Prop :=
| LivedNil rows : lived i [] rows rows
| LivedStep now v h rows rows0 out rows1 rows2 :
    expiry now rows rows0 -> is_Some (rows0 i) ->
    honest sha256_hex cfg now v rows0 out rows1 ->
    lived i h rows1 rows2 -> lived i ((now, v) :: h) rows rows2.

Definition rebinds (i : string) v : bool :=
  match v with CallRebind j _ _ _ => String.eqb j i | _ => false end.
Definition advances (i : string) v : bool :=
  match v with CallAdvance j _ _ _ => String.eqb j i | _ => false end.

(** The same principal still owns it. *)
Definition same_owner c c' : Prop :=
  forall o, owner c = Some o -> exists o', owner c' = Some o' /\ has_same_identity o o' = true.

(** The same decision is still bound, at the same or a later version. *)
Definition same_decision c c' : Prop :=
  forall r, decision_context c = Some r -> exists r', decision_context c' = Some r'
    /\ dc_decision_id r' = dc_decision_id r
    /\ dc_evaluated_product_ids r' = dc_evaluated_product_ids r
    /\ dc_piqscore_sha256 r' = dc_piqscore_sha256 r
    /\ dc_recommendation_sha256 r' = dc_recommendation_sha256 r
    /\ dc_context_version r <= dc_context_version r'.

Lemma identity_iff a b :
  has_same_identity a b = true <->
  principal_type a = principal_type b /\ principal_id a = principal_id b /\ session_id a = session_id b.
Proof. unfold has_same_identity. rewrite !andb_true_iff, !String.eqb_eq. tauto. Qed.

Lemma identity_refl a : has_same_identity a a = true.
Proof. by apply identity_iff. Qed.

Lemma same_owner_refl c : same_owner c c.
Proof. intros o E. exists o. split; [done | apply identity_refl]. Qed.

Lemma same_owner_trans a b c : same_owner a b -> same_owner b c -> same_owner a c.
Proof.
  intros Hab Hbc o Eo. destruct (Hab o Eo) as (o' & Eo' & H1).
  destruct (Hbc o' Eo') as (o'' & Eo'' & H2). exists o''. split; [done |].
  apply identity_iff in H1 as (?&?&?), H2 as (?&?&?). apply identity_iff. repeat split; congruence.
Qed.

Lemma same_decision_refl c : same_decision c c.
Proof. intros r E. exists r. repeat split; (done || lia). Qed.

Lemma same_decision_trans a b c : same_decision a b -> same_decision b c -> same_decision a c.
Proof.
  intros Hab Hbc r Er. destruct (Hab r Er) as (r' & Er' & ? & ? & ? & ? & ?).
  destruct (Hbc r' Er') as (r'' & Er'' & ? & ? & ? & ? & ?). exists r''.
  repeat split; (congruence || lia).
Qed.

Lemma owned_same o c c' : owned_by o c = true -> owner c' = Some o -> same_owner c c'.
Proof. unfold owned_by. intros Ho E x Ex. rewrite Ex in Ho. by exists o. Qed.

Lemma advance_checks c c' :
  require_verified_research_context_advance c c' = Ok tt -> same_decision c c'.
Proof.
  unfold require_verified_research_context_advance. intros H r Er. rewrite Er in H.
  destruct (decision_context c') as [r'|]; [| done]. exists r'. split; [done |].
  repeat case_match; try done. bool_simpl. apply String.eqb_eq in H3, H6, H7.
  repeat split; (congruence || lia).
Qed.

(** What one change does to the conversation it replaces. *)
Lemma change_keeps now v i c c' :
  change sha256_hex cfg now v i (Some c) (Some c') ->
  (c' = c \/ persistence_version c' = persistence_version c + 1)
  /\ (rebinds i v = false -> same_owner c c') /\ same_decision c c'
  /\ (advances i v = false -> forall r, decision_context c = Some r -> decision_context c' = Some r).
Proof.
  intros Hc. remember (Some c) as x eqn:Ex. remember (Some c') as x' eqn:Ex'.
  destruct Hc as [r0 | | | | c0 ev c1 Ev Ei Hx Hown Hdec | o r ev c1 Ev Hx Ho Hd
                 | o r ev c1 Ev Hx Ho Hadv | o o' ev c1 Ev Hx Ho | a n u ev c1 Ev Ea Hx
                 | k z c1 u Ev Hx Hu]; simplify_eq/=.
  - split; [by left |]. split; [intros _; exact (same_owner_refl _) |].
    split; [exact (same_decision_refl _) | done].
  - split; [by right |]. split; [| split; [| intros _ r Er]].
    + intros _ o Eo. unfold owner_changes in Hown. rewrite Eo in Hown. simpl.
      destruct (owner c0) as [o'|]; [| done]. exists o'. bool_simpl. done.
    + intros r Er. exists r. simpl. rewrite Hdec by by rewrite Er. repeat split; (done || lia).
    + by rewrite Hdec by by rewrite Er.
  - split; [by right |]. split; [intros _ | split; [| intros _ r' Er]].
    + destruct Ho as [E | E]; [intros x; by rewrite E | by eapply owned_same].
    + intros r' Er. destruct Hd as [E | E]; [congruence |]. exists r'.
      assert (r' = r) as -> by congruence. repeat split; (done || lia).
    + destruct Hd; congruence.
  - split; [by right |]. split; [intros _; by eapply owned_same |].
    split; [by apply advance_checks in Hadv | by rewrite String.eqb_refl].
  - split; [by right |]. split; [by rewrite String.eqb_refl |].
    split; [exact (same_decision_refl c) | done].
  - split; [by right |]. split; [intros _; exact (same_owner_refl c) |].
    split; [exact (same_decision_refl c) | done].
  - apply consume_ok in Hu as (a & o & _ & -> & _). split; [by right |].
    split; [intros _; exact (same_owner_refl c) |]. split; [exact (same_decision_refl c) | done].
Qed.

(** a conversation that is not removed keeps its identity under any calls
    of any workers: every write moves it one version on and equal versions mean
    equal rows; the owner stays the same principal unless its conversation is
    rebound; and a bound decision keeps its id, evaluated products and canonical
    digests forever, its context version never falls, and without a verified
    advance it does not change at all. *)
Theorem conversation_keeps_identity i h rows rows' c :
  lived i h rows rows' -> rows i = Some c ->
  exists c', rows' i = Some c'
    /\ persistence_version c <= persistence_version c' <= persistence_version c + Z.of_nat (length h)
    /\ (persistence_version c' = persistence_version c -> c' = c)
    /\ (forallb (fun nv => negb (rebinds i nv.2)) h = true -> same_owner c c')
    /\ same_decision c c'
    /\ (forallb (fun nv => negb (advances i nv.2)) h = true ->
        forall r, decision_context c = Some r -> decision_context c' = Some r).
Proof.
  intros Hl. revert c.
  induction Hl as [rows | now v h rows rows0 out rows1 rows2 Hexp [c0 E0] [Hchange _] Hl IH];
    intros c E.
  { exists c. split; [done |]. split; [simpl; lia |]. split; [done |].
    split; [intros _; apply same_owner_refl |]. split; [apply same_decision_refl | done]. }
  assert (c0 = c) as -> by (destruct (Hexp i) as [E' | (x & _ & _ & E')]; congruence).
  specialize (Hchange i). rewrite E0 in Hchange.
  assert (exists c1, rows1 i = Some c1) as [c1 E1] by (inversion Hchange; eauto).
  rewrite E1 in Hchange. apply change_keeps in Hchange as (Hv & Ho & Hd & Ha).
  destruct (IH c1 E1) as (c2 & E2 & Hv2 & Heq & Ho2 & Hd2 & Ha2). exists c2.
  split; [done |]. split; [destruct Hv as [-> | Hv]; cbn [length]; lia |]. split.
  { intros Hs. destruct Hv as [-> | Hv]; [by apply Heq | lia]. }
  simpl. split; [| split; [by eapply same_decision_trans |]].
  - intros [Hr Hh]%andb_true_iff. apply negb_true_iff in Hr.
    eapply same_owner_trans; [by apply Ho | by apply Ho2].
  - intros [Hr Hh]%andb_true_iff r Er. apply negb_true_iff in Hr. apply Ha2; [done | by apply Ha].
Qed.
End Lineage.
End Lineage.

Module Examples.
Import AuthorizationExamples Conversation.Lifecycle.Examples History.

Definition defaults : settings := {| ttl_seconds := DEFAULT_TTL_SECONDS; max_turns := MAX_TURNS |}.
Definition no_version (r : unit) : Z := 0.

Lemma conversation0_ok : row_ok defaults "c-1" conversation0.
Proof. split; try reflexivity; simpl; [lia |]. apply Nat.le_0_l. Qed.

Definition one_conversation : dict (ConversationContext unit) := [("c-1"%string, conversation0)].

Lemma one_conversation_ok : MemoryHistory.rows_ok defaults one_conversation.
Proof.
  split; [apply NoDup_singleton |]. intros i c H%d_get_elem.
  apply list_elem_of_singleton in H as [= -> ->]. exact conversation0_ok.
Qed.

(** The authorization of a conversation is consumed at its version. *)
Definition spend_call : call unit := CallConsume "c-1" spend 3.

Example memory_methods_are_atomic_witness :
  let '(out, d') := Memory.perform_call no_version example_digest defaults noon spend_call
                      one_conversation in
  MemoryHistory.rows_ok defaults d'
  /\ exists d0, expiry noon (fun j => d_get j one_conversation) (fun j => d_get j d0)
       /\ honest example_digest defaults noon spend_call (fun j => d_get j d0) out
            (fun j => d_get j d').
Proof.
  exact (MemoryHistory.memory_methods_are_atomic no_version example_digest defaults noon
           spend_call one_conversation one_conversation_ok).
Defined.

(** It is stored at version 4, with the authorization consumed, and the second
    consumption of the same caller is a version conflict. *)
Example spend_stores :
  let '(out, d') := Memory.perform_call no_version example_digest defaults noon spend_call
                      one_conversation in
  match out with
  | Ok (Stored c) => map a_status (research_authorizations c) = ["consumed"%string]
                     /\ persistence_version c = 4 /\ d_get "c-1" d' = Some c
  | _ => False
  end
  /\ (Memory.perform_call no_version example_digest defaults noon
        (CallSave conversation0 None) d').1 = Err (VersionConflict "c-1" 3).
Proof. vm_compute. repeat split; reflexivity. Qed.

Definition conversation2 : ConversationContext unit := {|
  conversation_id := "c-2"; turns := []; expires_at := expires_at conversation0;
  last_intent := None; last_product_ids := []; last_product_names := []; last_category := None;
  owner := Some shopper; decision_context := None; session_refinement := None;
  research_proposal := None; research_authorizations := []; persistence_version := 3 |}.

Lemma conversation2_ok : row_ok defaults "c-2" conversation2.
Proof. split; try reflexivity; simpl; [lia |]. apply Nat.le_0_l. Qed.

Definition two_rows : op_table (ConversationContext unit) :=
  let own := Sql._owner_key example_digest (Some shopper) in
  OpTable [OpRow 1 Sql.SHOPPING_CONVERSATIONS "c-1" None own conversation0 3;
           OpRow 2 Sql.SHOPPING_CONVERSATIONS "c-2" None own conversation2 3] 3.

Lemma two_rows_table : OperationalStore.table_ok two_rows.
Proof.
  split; simpl.
  - repeat constructor; set_solver.
  - repeat constructor.
  - intros r1 r2 H1 H2. set_unfold. destruct H1 as [-> | [-> | []]], H2 as [-> | [-> | []]]; done.
Qed.

Lemma two_rows_ok : SqlHistory.sql_ok example_digest Some defaults two_rows.
Proof.
  split; [exact two_rows_table |]. intros i r [H [_ Hi]%OperationalStore.is_entity_iff]%OperationalStore.get_row_some;
    [| exact two_rows_table].
  set_unfold. destruct H as [-> | [-> | []]]; simpl in Hi; subst i;
    [exists conversation0 | exists conversation2];
    (split; [done |]); (split; [apply conversation0_ok || apply conversation2_ok | done]).
Qed.

(** Another worker cleans up: it removes the conversation [i] at version 3. *)
Definition cleaner (i : string) (n : nat) (t : op_table (ConversationContext unit)) :=
  (OperationalStore.delete_versioned Sql.SHOPPING_CONVERSATIONS i 3 t).2.

Lemma cleaner_ok i :
  SqlHistory.others_ok example_digest Some defaults (fun j => j = i) (cleaner i).
Proof.
  intros n t Ht.
  destruct (SqlHistory.delete_rows example_digest Some defaults t i 3 Ht) as (Ht' & Hi & Hoff).
  fold (cleaner i n t) in Ht', Hi, Hoff. split; [done |]. intros j.
  destruct (decide (j = i)) as [-> | Hne].
  - rewrite Hi. destruct (Sql.sql_row Some t i) as [c|]; [| done].
    destruct (_ =? 3); [by left | right; eauto].
  - rewrite (Hoff j Hne). destruct (Sql.sql_row Some t j) as [c|]; [right; eauto | done].
Qed.


(** The authorization is spent and the other conversation is gone; where the
    other worker removes the very conversation, the spending stores nothing. *)
Example spend_while_cleaning :
  (let t' := (Sql.perform_call no_version example_digest (fun c => c) Some defaults noon
                (cleaner "c-2") spend_call two_rows).2 in
   option_map persistence_version (Sql.sql_row Some t' "c-1") = Some 4
   /\ Sql.sql_row Some t' "c-2" = None)
  /\ (let '(out, t') := Sql.perform_call no_version example_digest (fun c => c) Some defaults noon
                (cleaner "c-1") spend_call two_rows in
      out = Err (VersionConflict "c-1" 3) /\ Sql.sql_row Some t' "c-1" = None).
Proof. vm_compute. repeat split; reflexivity. Qed.

Definition after_spend : dict (ConversationContext unit) :=
  (Memory.perform_call no_version example_digest defaults noon spend_call one_conversation).2.

Lemma spend_lived :
  Lineage.lived example_digest defaults "c-1" [(noon, spend_call)]
    (fun j => d_get j one_conversation) (fun j => d_get j after_spend).
Proof.
  eapply Lineage.LivedStep with (rows0 := fun j => d_get j one_conversation)
    (out := (Memory.perform_call no_version example_digest defaults noon spend_call one_conversation).1).
  - by left.
  - by exists conversation0.
  - pose proof (MemoryHistory.consume_acts example_digest defaults noon "c-1" spend 3
                  one_conversation one_conversation_ok) as (_ & d0 & Hexp & Hh).
    assert (forall j, d_get j d0 = d_get j one_conversation) as Heq.
    { intros j. destruct (Hexp j) as [E | (c & Ec & Hx & _)]; [done |].
      apply d_get_elem, list_elem_of_singleton in Ec as [= -> ->]. by vm_compute in Hx. }
    exact (honest_ext example_digest defaults noon spend_call _ _ _ _ Heq Hh).
  - apply Lineage.LivedNil.
Qed.

Example conversation_keeps_identity_witness :
  exists c', d_get "c-1" after_spend = Some c'
    /\ 3 <= persistence_version c' <= 4
    /\ (persistence_version c' = 3 -> c' = conversation0)
    /\ (true = true -> Lineage.same_owner conversation0 c')
    /\ Lineage.same_decision conversation0 c'
    /\ (true = true ->
        forall r, decision_context conversation0 = Some r -> decision_context c' = Some r).
Proof.
  exact (Lineage.conversation_keeps_identity example_digest defaults "c-1" _ _ _ conversation0
           spend_lived eq_refl).
Defined.
End Examples.
