(* ===== verification/LiveMode.v ===== *)
(** The live gate: [app/market/support.py] and
    [app/research/sprint38_live_execution.py].

    Module [LiveGate]: whether one exact target may run live. Module [Scripted]:
    the scripted execution ledger and its connectors, which retry and trip
    their own breaker. Connectors are objects that a run changes, so they live
    in a heap and a tuple of connectors is a list of references: the same
    connector may be named twice. *)

From S2P Require Import Prelude PyStr Json Countries Clock Connector Breaker PyState Research Catalogs.
Import Connector Research.
#[local] Open Scope Z_scope.

(** ** The gate *)
Module LiveGate.

(** [CertifiedShoppingMarketCatalog]: a frozen set of codes. *)
Definition is_certified (markets : list string) (code : option string) : bool :=
  match Countries.normalize_country_code code with
  | Some c => nonempty c && one_of c markets
  | None => false
  end.

Definition may_invoke_connector (markets : list string) (code : option string) : bool :=
  is_certified markets code.

Definition production_certified_shopping_markets : list string := [].

Record LiveResearchTarget := {
  lt_market : string; lt_capability : ResearchCapability; lt_source : string
}.

Record LiveModeAssessment := {
  enabled : bool; la_mode : string; la_reasons : list string; fixture_accepted : bool
}.

Definition assessment_check (a : LiveModeAssessment) : outcome LiveModeAssessment :=
  raise! ValueError "an enabled live mode cannot carry blocking reasons"
    when enabled a && match la_reasons a with [] => false | _ => true end in
  raise! ValueError "a fixture provider cannot satisfy the live gate" when fixture_accepted a in
  Ok a.

Definition _technical_support_gaps (d : ResearchProviderDescriptor) (r : LiveResearchTarget)
    : list string :=
  (if d_test_fixture d then ["fixture_cannot_satisfy_live_gate"%string] else [])
  ++ (if bool_decide (lt_capability r ∈ d_supported_capabilities d) then []
      else ["provider_capability_not_supported"%string])
  ++ (if one_of (lt_market r) (d_supported_markets d) then []
      else ["provider_market_not_supported"%string])
  ++ (if one_of (lt_source r) (d_supported_sources d) then [] else ["source_not_supported"%string]).

Section Gate.
Variables (registry : Registry.ResearchProviderRegistry)
          (routing : Routing.ResearchProviderRoutingPolicyCatalog).

(** What keeps one certified record from serving the target. *)
Definition local_gaps (r : LiveResearchTarget) (c : ResearchProviderCertification) : list string :=
  match Registry.get (c_provider_id c) registry with
  | None => ["provider_not_registered"%string]
  | Some d =>
      _technical_support_gaps d r
      ++ match Routing.lookup_policy (c_provider_id c) routing with
         | Some p => if p_test_fixture p then ["routing_absent"%string] else []
         | None => ["routing_absent"%string]
         end
      ++ (if is_operationally_available d then []
          else ["provider_not_operationally_eligible"%string])
  end.

Definition add_unseen (seen new : list string) : list string := seen ++ dedupe_loop seen new.

Fixpoint eligibility_gaps (r : LiveResearchTarget) (cs : list ResearchProviderCertification)
    (seen : list string) : list string :=
  match cs with
  | [] => seen
  | c :: rest =>
      match local_gaps r c with
      | [] => []
      | gaps => eligibility_gaps r rest (add_unseen seen gaps)
      end
  end.

Definition _eligibility_gaps (r : LiveResearchTarget) (cs : list ResearchProviderCertification)
    : list string := eligibility_gaps r cs [].

Definition matches (r : LiveResearchTarget) (c : ResearchProviderCertification) : bool :=
  bool_decide (c_capability c = lt_capability r) && String.eqb (c_market c) (lt_market r)
  && bool_decide (c_source c = Some (lt_source r)) && String.eqb (c_source_scope c) "exact".

Definition certification_reasons (r : LiveResearchTarget)
    (records : list ResearchProviderCertification) : list string :=
  let matching := List.filter (matches r) records in
  let real := List.filter (fun c => is_production_eligible c && negb (c_test_fixture c)) matching in
  match real with
  | [] => "no_certified_real_connector"%string
            :: (if existsb c_test_fixture matching
                then ["fixture_cannot_satisfy_live_gate"%string] else [])
  | _ => _eligibility_gaps r real
  end.

Definition assess_live_research_mode (mode : string) (r : LiveResearchTarget)
    (certifications : Certifications.ResearchProviderCertificationCatalog)
    (certified_markets : list string) (trace_handling_present : bool)
    : outcome LiveModeAssessment :=
  let reasons :=
    (if String.eqb mode "live" then [] else ["mode_not_live"%string])
    ++ (if trace_handling_present then [] else ["trace_handling_absent"%string])
    ++ (if one_of (lt_market r) certified_markets then [] else ["market_not_eligible"%string])
    ++ certification_reasons r (Catalog.listing certifications) in
  let unique := dedupe_loop [] reasons in
  assessment_check
    {| enabled := match unique with [] => true | _ => false end; la_mode := mode;
       la_reasons := unique; fixture_accepted := false |}.

(** *** When the gate is open *)

(** A certified record whose registered provider can serve the target now. *)
Definition serves (r : LiveResearchTarget) (c : ResearchProviderCertification) : Prop :=
  matches r c = true /\ is_production_eligible c = true
  /\ exists d p, Registry.get (c_provider_id c) registry = Some d
     /\ Routing.lookup_policy (c_provider_id c) routing = Some p
     /\ p_test_fixture p = false /\ d_test_fixture d = false
     /\ is_operationally_available d = true
     /\ lt_capability r ∈ d_supported_capabilities d
     /\ lt_market r ∈ d_supported_markets d /\ lt_source r ∈ d_supported_sources d.

Lemma technical_nil d r :
  _technical_support_gaps d r = [] <->
  d_test_fixture d = false /\ lt_capability r ∈ d_supported_capabilities d
  /\ lt_market r ∈ d_supported_markets d /\ lt_source r ∈ d_supported_sources d.
Proof.
  unfold _technical_support_gaps. rewrite !app_nil.
  rewrite <- !Provider.one_of_elem.
  destruct (d_test_fixture d); [naive_solver |].
  destruct (bool_decide_reflect (lt_capability r ∈ d_supported_capabilities d)); [| naive_solver].
  destruct (one_of (lt_market r) _), (one_of (lt_source r) _); naive_solver.
Qed.

Lemma local_nil r c :
  local_gaps r c = [] <->
  exists d p, Registry.get (c_provider_id c) registry = Some d
     /\ Routing.lookup_policy (c_provider_id c) routing = Some p
     /\ p_test_fixture p = false /\ d_test_fixture d = false
     /\ is_operationally_available d = true
     /\ lt_capability r ∈ d_supported_capabilities d
     /\ lt_market r ∈ d_supported_markets d /\ lt_source r ∈ d_supported_sources d.
Proof.
  unfold local_gaps. destruct (Registry.get _ _) as [d|]; [| by split; [| intros (? & ? & ? & _)]].
  rewrite !app_nil, technical_nil. split.
  - intros (Ht & Hp & Ha). destruct (Routing.lookup_policy _ _) as [p|]; [| done].
    destruct (p_test_fixture p) eqn:Ep; [done |].
    destruct (is_operationally_available d) eqn:Ea; [| done]. exists d, p. tauto.
  - intros (d' & p & [= <-] & -> & -> & H1 & -> & H2). tauto.
Qed.

Lemma eligibility_nil r cs seen :
  (seen <> [] \/ cs <> []) ->
  eligibility_gaps r cs seen = [] <-> exists c, c ∈ cs /\ local_gaps r c = [].
Proof.
  revert seen. induction cs as [|c cs IH]; intros seen Hne; simpl.
  { split; [naive_solver | intros (c & H & _); by apply elem_of_nil in H]. }
  destruct (local_gaps r c) as [|g gs] eqn:Eg.
  - split; [| done]. intros _. exists c. split; [apply elem_of_cons; auto | done].
  - rewrite IH.
    + split; intros (c' & Hin & Hc').
      * exists c'. split; [apply elem_of_cons; auto | done].
      * apply elem_of_cons in Hin as [-> | Hin]; [congruence | eauto].
    + left. unfold add_unseen. destruct seen; [| done]. simpl app.
      rewrite (Provider.dedupe_nil (g :: gs)). done.
Qed.

Lemma certification_reasons_nil r cs :
  certification_reasons r cs = [] <-> exists c, c ∈ cs /\ serves r c.
Proof.
  unfold certification_reasons.
  set (real := List.filter (fun c => is_production_eligible c && negb (c_test_fixture c))
                 (List.filter (matches r) cs)).
  assert (forall c, c ∈ real <-> c ∈ cs /\ matches r c = true /\ is_production_eligible c = true)
    as Hreal.
  { intros c. unfold real. rewrite list_elem_of_In, !filter_In, <- list_elem_of_In, andb_true_iff.
    assert (is_production_eligible c = true -> negb (c_test_fixture c) = true) as He
      by (unfold is_production_eligible; rewrite !andb_true_iff; tauto). naive_solver. }
  destruct real as [|x l] eqn:E.
  - split; [discriminate |]. intros (c & Hin & Hm & He & _).
    assert (c ∈ (@nil ResearchProviderCertification)) as H by (apply Hreal; auto).
    by apply elem_of_nil in H.
  - rewrite <- E in Hreal |- *. unfold _eligibility_gaps. rewrite eligibility_nil by (rewrite E; auto).
    unfold serves. setoid_rewrite local_nil. setoid_rewrite Hreal. naive_solver.
Qed.

(** The gate is open exactly in live mode, with traces, for a certified market
    with a real certified record whose provider serves the target now. *)
Lemma live_gate_iff mode r certs markets present :
  exists a, assess_live_research_mode mode r certs markets present = Ok a
  /\ fixture_accepted a = false
  /\ (enabled a = true <->
      mode = "live"%string /\ present = true /\ lt_market r ∈ markets
      /\ exists c, c ∈ Catalog.listing certs /\ serves r c)
  /\ (enabled a = true <-> la_reasons a = []).
Proof.
  unfold assess_live_research_mode.
  set (rs := _ ++ _). cbv zeta.
  assert (dedupe_loop [] rs = [] <-> mode = "live"%string /\ present = true /\ lt_market r ∈ markets
      /\ exists c, c ∈ Catalog.listing certs /\ serves r c) as Hnil.
  { rewrite (Provider.dedupe_nil rs). unfold rs.
    rewrite !app_nil, certification_reasons_nil, <- Provider.one_of_elem.
    destruct (String.eqb_spec mode "live"), present, (one_of (lt_market r) markets); naive_solver. }
  unfold assessment_check. simpl.
  destruct (dedupe_loop [] rs) as [|x l] eqn:E; simpl; eexists; split; try done; simpl; naive_solver.
Qed.
End Gate.
End LiveGate.

(** ** The scripted execution ledger *)
Module Scripted.

Inductive ScriptedKind := success | timeout | rate_limit | server_error | credential.

#[global] Instance scripted_kind_eq_dec : EqDecision ScriptedKind.
Proof. solve_decision. Defined.

Record ScriptedResponse := {
  sr_kind : ScriptedKind; sr_offers : list string; sr_retry_after_ms : option Z
}.

Definition response_check (r : ScriptedResponse) : outcome ScriptedResponse :=
  raise! ValueError "unsuccessful scripted responses cannot carry offers"
    when negb (bool_decide (sr_kind r = success))
         && match sr_offers r with [] => false | _ => true end in
  Ok r.

Record ScriptedConnector := {
  sc_provider_id : string;
  sc_responses : list ScriptedResponse;
  sc_capability : ResearchCapability;
  sc_test_fixture : bool;
  sc_operational_status : ConnectorOperationalStatus;
  sc_kill_switch : KillSwitch;
  sc_circuit_breaker : CircuitBreakerSnapshot;
  sc_retry_policy : BoundedRetryPolicy;
  sc_timeout_policy : TimeoutPolicy;
  sc_index : nat
}.

Definition connector_check (c : ScriptedConnector) : outcome ScriptedConnector :=
  raise! ValueError "scripted connectors are test fixtures and are not live"
    when negb (sc_test_fixture c) in
  raise! ValueError "timeout_ms must be at least 1" when timeout_ms (sc_timeout_policy c) <? 1 in
  Ok c.

Definition advance_to (breaker : CircuitBreakerSnapshot) (i : nat) (c : ScriptedConnector)
    : ScriptedConnector :=
  {| sc_provider_id := sc_provider_id c; sc_responses := sc_responses c;
     sc_capability := sc_capability c; sc_test_fixture := sc_test_fixture c;
     sc_operational_status := sc_operational_status c; sc_kill_switch := sc_kill_switch c;
     sc_circuit_breaker := breaker; sc_retry_policy := sc_retry_policy c;
     sc_timeout_policy := sc_timeout_policy c; sc_index := i |}.

(** [RuntimeError] of a script that has run out, and the [ValueError]s of the
    ledger's records. *)
Inductive script_exn := ScriptExhausted | ScriptValueError (e : value_error).

(** [next_response]: the response, and the connector past it. *)
Definition next_response (c : ScriptedConnector)
    : result script_exn (ScriptedResponse * ScriptedConnector) :=
  match sc_responses c !! sc_index c with
  | None => Err ScriptExhausted
  | Some r => Ok (r, advance_to (sc_circuit_breaker c) (S (sc_index c)) c)
  end.

Inductive step_outcome := step_succeeded | step_failed | step_timed_out | step_not_attempted.

#[global] Instance step_outcome_eq_dec : EqDecision step_outcome.
Proof. solve_decision. Defined.

Record ExecutionTraceStep := {
  xs_provider_id : string;
  xs_capability : ResearchCapability;
  xs_outcome : step_outcome;
  xs_attempted : bool;
  xs_offers : Z;
  xs_test_fixture : bool;
  xs_live : bool;
  xs_error : option string;
  xs_started_at : option datetime;
  xs_finished_at : option datetime;
  xs_attempt_count : Z
}.

Definition step_check (s : ExecutionTraceStep) : outcome ExecutionTraceStep :=
  raise! ValueError "this foundation cannot record a live source attempt" when xs_live s in
  raise! ValueError "evaluated offer count cannot be negative" when xs_offers s <? 0 in
  raise! ValueError "failed attempts cannot invent evaluated offers"
    when negb (bool_decide (xs_outcome s = step_succeeded)) && negb (xs_offers s =? 0) in
  Ok s.

Definition _step (c : ScriptedConnector) (o : step_outcome) (attempted : bool) (offers : Z)
    (error : option string) (started finished : option datetime) (attempts : Z)
    : result script_exn ExecutionTraceStep :=
  match step_check
    {| xs_provider_id := sc_provider_id c; xs_capability := sc_capability c; xs_outcome := o;
       xs_attempted := attempted; xs_offers := offers; xs_test_fixture := true;
       xs_live := false; xs_error := error; xs_started_at := started;
       xs_finished_at := finished; xs_attempt_count := attempts |} with
  | Ok s => Ok s
  | Err e => Err (ScriptValueError e)
  end.

Definition _operational (c : ScriptedConnector) : bool :=
  bool_decide (sc_operational_status c = AVAILABLE)
  && negb (engaged (sc_kill_switch c)) && allows_execution (sc_circuit_breaker c).

Definition _blocked_reason (c : ScriptedConnector) : string :=
  if engaged (sc_kill_switch c) then failure_kind_value KILL_SWITCH
  else if bool_decide (snapshot_state (sc_circuit_breaker c) = OPEN)
  then failure_kind_value CIRCUIT_OPEN
  else "provider_disabled".

Definition _kind_for (k : ScriptedKind) : ConnectorFailureKind :=
  match k with
  | timeout => TIMEOUT
  | rate_limit => RATE_LIMIT
  | server_error => UNAVAILABLE_FAILURE
  | credential => CREDENTIAL
  | success => UNKNOWN
  end.

(** [_RETRYABLE.get(kind, False)]. *)
Definition _RETRYABLE (k : ConnectorFailureKind) : bool :=
  match k with TIMEOUT | RATE_LIMIT | UNAVAILABLE_FAILURE => true | _ => false end.

Definition _may_retry (p : BoundedRetryPolicy) (k : ConnectorFailureKind) (attempts : Z) : bool :=
  if max_attempts p <=? attempts then false
  else if negb (_RETRYABLE k) then false
  else one_of (failure_kind_value k) (retry_on p).

Section Run.
(** The readings of the clock, in order, and the breaker's threshold. *)
Variables (now : nat -> datetime) (failure_threshold : Z).

(** The [while True] of [_run_connector] over the responses that remain; the
    breaker trips on the connector itself. *)
Fixpoint attempt_loop (rest : list ScriptedResponse) (c : ScriptedConnector)
    (started : datetime) (tick : nat) (attempts failures : Z)
    : result script_exn ExecutionTraceStep * ScriptedConnector * nat :=
  match rest with
  | [] => (Err ScriptExhausted, c, tick)
  | r :: rest' =>
      let attempts := attempts + 1 in
      let kind := _kind_for (sr_kind r) in
      let taken := advance_to (sc_circuit_breaker c) (S (sc_index c)) c in
      if bool_decide (sr_kind r = success) then
        (_step taken step_succeeded true (Z.of_nat (length (sr_offers r))) None (Some started)
           (Some (now tick)) attempts, taken, S tick)
      else
        let failures := failures + 1 in
        let c' := if failure_threshold <=? failures
                  then advance_to {| snapshot_state := OPEN;
                                     cb_reason := Some (failure_kind_value kind) |}
                         (sc_index taken) taken
                  else taken in
        if negb (_may_retry (sc_retry_policy c') kind attempts) then
          (_step c' (if bool_decide (kind = TIMEOUT) then step_timed_out else step_failed) true 0
             (Some (failure_kind_value kind)) (Some started) (Some (now tick)) attempts, c', S tick)
        else attempt_loop rest' c' started tick attempts failures
  end.

Definition not_run (c : ScriptedConnector) (error : string) : result script_exn ExecutionTraceStep :=
  _step c step_not_attempted false 0 (Some error) None None 0.

Definition _run_connector (c : ScriptedConnector) (tick : nat)
    : result script_exn ExecutionTraceStep * ScriptedConnector * nat :=
  if engaged (sc_kill_switch c) || negb (_operational c)
  then (not_run c (_blocked_reason c), c, S tick)
  else if bool_decide (snapshot_state (sc_circuit_breaker c) = OPEN)
  then (not_run c (failure_kind_value CIRCUIT_OPEN), c, S tick)
  else attempt_loop (drop (sc_index c) (sc_responses c)) c (now tick) (S tick) 0 0.

(** [tuple(_run_connector(connector, ...) for connector in connectors)] over
    the objects of the heap. *)
Definition heap : Type := nat -> ScriptedConnector.
Definition update (h : heap) (ref : nat) (c : ScriptedConnector) : heap :=
  fun r => if (r =? ref)%nat then c else h r.

Fixpoint run_all (refs : list nat) (h : heap) (tick : nat)
    : result script_exn (list ExecutionTraceStep) * heap * nat :=
  match refs with
  | [] => (Ok [], h, tick)
  | ref :: rest =>
      match _run_connector (h ref) tick with
      | (Err e, c, tick) => (Err e, update h ref c, tick)
      | (Ok s, c, tick) =>
          match run_all rest (update h ref c) tick with
          | (Ok ss, h', tick') => (Ok (s :: ss), h', tick')
          | (Err e, h', tick') => (Err e, h', tick')
          end
      end
  end.
End Run.

(** *** The ledger *)

Record ExecutionTrace := {
  xt_execution_id : string;
  xt_steps : list ExecutionTraceStep;
  xt_started_at : option datetime;
  xt_finished_at : option datetime
}.

Definition sources (p : ExecutionTraceStep -> bool) (t : ExecutionTrace) : list string :=
  map xs_provider_id (List.filter p (xt_steps t)).
Definition has_outcome (o : step_outcome) (s : ExecutionTraceStep) : bool :=
  bool_decide (xs_outcome s = o).
Definition attempted_sources : ExecutionTrace -> list string := sources xs_attempted.
Definition succeeded_sources : ExecutionTrace -> list string := sources (has_outcome step_succeeded).
Definition failed_sources : ExecutionTrace -> list string := sources (has_outcome step_failed).
Definition timed_out_sources : ExecutionTrace -> list string := sources (has_outcome step_timed_out).
Definition evaluated_offer_count (t : ExecutionTrace) : Z :=
  foldr (fun s n => xs_offers s + n) 0 (xt_steps t).

Inductive ExecutionState := queued | running | partial | completed | failed | cancelled.

#[global] Instance ledger_state_eq_dec : EqDecision ExecutionState.
Proof. solve_decision. Defined.

Record LiveResearchExecution := {
  le_execution_id : string;
  le_owner_id : string;
  le_decision_id : string;
  le_confirmation_key : string;
  le_state : ExecutionState;
  le_explicit : bool;
  le_trace : ExecutionTrace;
  le_replaces_prior : bool;
  le_no_merchants : bool;
  le_disclosure : option string
}.

(** The trace's [live] is the constant [False]. *)
Definition execution_check (e : LiveResearchExecution) : result script_exn LiveResearchExecution :=
  raise! ScriptValueError (ValueError "this foundation must not replace a prior decision")
    when le_replaces_prior e in
  Ok e.

Definition _replace (e : LiveResearchExecution) (st : ExecutionState)
    : result script_exn LiveResearchExecution :=
  execution_check
    {| le_execution_id := le_execution_id e; le_owner_id := le_owner_id e;
       le_decision_id := le_decision_id e; le_confirmation_key := le_confirmation_key e;
       le_state := st; le_explicit := le_explicit e; le_trace := le_trace e;
       le_replaces_prior := false; le_no_merchants := le_no_merchants e;
       le_disclosure := le_disclosure e |}.

Definition NO_MERCHANTS_DISCLOSURE : string :=
  "No live merchant result is available for this request. Your previous decision is unchanged.".

Definition PARTIAL_DISCLOSURE : string :=
  "Some non-live test sources failed. This is not a live multi-merchant result. " +:+
  "The previous decision is unchanged.".

Definition some_source (l : list string) : bool := match l with [] => false | _ => true end.

Definition _finish (e : LiveResearchExecution) (t : ExecutionTrace) (connectors : Z)
    : result script_exn LiveResearchExecution :=
  let ok := some_source (succeeded_sources t) in
  let '(st, none, disclosure) :=
    if negb (some_source (attempted_sources t)) || ((connectors <=? 1) && negb ok)
    then (failed, true, Some NO_MERCHANTS_DISCLOSURE)
    else if (length (succeeded_sources t) <? length (attempted_sources t))%nat
    then (partial, false, Some PARTIAL_DISCLOSURE)
    else (completed, false, None) in
  execution_check
    {| le_execution_id := le_execution_id e; le_owner_id := le_owner_id e;
       le_decision_id := le_decision_id e; le_confirmation_key := le_confirmation_key e;
       le_state := st; le_explicit := true; le_trace := t; le_replaces_prior := false;
       le_no_merchants := none; le_disclosure := disclosure |}.

(** A refusal names its reason; [started] and [connectors_invoked] are false. *)
Definition refusal : Type := string.

Section Ledger.
Variable sha256_hex : string -> string.

Definition _execution_id (owner key : string) : string :=
  "research-exec:" +:+ String.substring 0 32 (stable_sha256 sha256_hex
    (JObj [("kind", JStr "sprint38_research_execution_v1"); ("owner_id", JStr owner);
           ("confirmation_key", JStr key)]%string)).

Definition records : Type := gmap (string * string) LiveResearchExecution.

Definition confirm (owner key decision : string) (explicit : bool) (rs : records)
    : result script_exn (LiveResearchExecution + refusal) * records :=
  if negb explicit then (Ok (inr "explicit_confirmation_required"%string), rs)
  else if negb (py_true owner) || negb (py_true key) || negb (py_true decision)
  then (Ok (inr "owner_bound_confirmation_required"%string), rs)
  else
    match rs !! (owner, key) with
    | Some e =>
        if negb (String.eqb (le_decision_id e) decision)
        then (Ok (inr "confirmation_key_decision_conflict"%string), rs)
        else (Ok (inl e), rs)
    | None =>
        let i := _execution_id owner key in
        match execution_check
          {| le_execution_id := i; le_owner_id := owner; le_decision_id := decision;
             le_confirmation_key := key; le_state := queued; le_explicit := true;
             le_trace := {| xt_execution_id := i; xt_steps := []; xt_started_at := None;
                            xt_finished_at := None |};
             le_replaces_prior := false; le_no_merchants := false; le_disclosure := None |} with
        | Ok e => (Ok (inl e), <[(owner, key) := e]> rs)
        | Err x => (Err x, rs)
        end
    end.

Definition _is_authoritative (stored supplied : LiveResearchExecution) : bool :=
  le_explicit stored && String.eqb (le_owner_id supplied) (le_owner_id stored)
  && String.eqb (le_confirmation_key supplied) (le_confirmation_key stored)
  && String.eqb (le_execution_id supplied) (le_execution_id stored)
  && String.eqb (le_decision_id supplied) (le_decision_id stored).

(** What a run touches: the records, the connector objects, the clock. *)
Record world := World { w_records : records; w_heap : heap; w_tick : nat }.

Definition run (now : nat -> datetime) (failure_threshold : Z) (e : LiveResearchExecution)
    (connectors : list nat) (certified : Z) (w : world)
    : result script_exn (LiveResearchExecution + refusal) * world :=
  let key := (le_owner_id e, le_confirmation_key e) in
  match w_records w !! key with
  | None => (Ok (inr "explicit_confirmation_required"%string), w)
  | Some current =>
      if negb (_is_authoritative current e)
      then (Ok (inr "explicit_confirmation_required"%string), w)
      else if negb (bool_decide (le_state current = queued)) then (Ok (inl current), w)
      else if negb (certified =? Z.of_nat (length connectors))
      then (Ok (inr "connector_count_mismatch"%string), w)
      else
        let started := now (w_tick w) in
        match _replace current running with
        | Err x => (Err x, World (w_records w) (w_heap w) (S (w_tick w)))
        | Ok started_execution =>
            match run_all now failure_threshold connectors (w_heap w) (S (w_tick w)) with
            | (Err x, h, tick) => (Err x, World (w_records w) h tick)
            | (Ok steps, h, tick) =>
                let t := {| xt_execution_id := le_execution_id e; xt_steps := steps;
                            xt_started_at := Some started; xt_finished_at := Some (now tick) |} in
                match _finish started_execution t certified with
                | Err x => (Err x, World (w_records w) h (S tick))
                | Ok done => (Ok (inl done), World (<[key := done]> (w_records w)) h (S tick))
                end
            end
        end
  end.
End Ledger.

(** *** Health of the registered connectors *)

Record ConnectorHealthRow := {
  hr_provider_id : string;
  hr_operational_status : string;
  hr_healthy : bool;
  hr_live : bool;
  hr_available : bool;
  hr_kill_switch_engaged : bool;
  hr_breaker_state : string;
  hr_test_fixture : bool
}.

Definition health_row (d : ResearchProviderDescriptor) : ConnectorHealthRow :=
  {| hr_provider_id := d_provider_id d;
     hr_operational_status := operational_status_value (d_operational_status d);
     hr_healthy := false; hr_live := false;
     hr_available := is_operationally_available d && negb (d_test_fixture d);
     hr_kill_switch_engaged := engaged (d_kill_switch d);
     hr_breaker_state := breaker_state_value (snapshot_state (d_circuit_breaker d));
     hr_test_fixture := d_test_fixture d |}.

(** The rows, and whether a merchant is available. *)
Definition aggregate_connector_health (ds : list ResearchProviderDescriptor)
    : list ConnectorHealthRow * bool :=
  (map health_row ds, existsb hr_available (map health_row ds)).

End Scripted.

(** ** Retries end *)
Module Retries.
Import Scripted.
Section Retries.
Variables (now : nat -> datetime) (failure_threshold : Z).

Definition usable (c : ScriptedConnector) : bool :=
  negb (engaged (sc_kill_switch c)) && _operational c.

(** The responses an attempt takes: failures that may be retried, then the one
    that ends it. [n] attempts were made before. *)
Inductive taken (p : BoundedRetryPolicy) (n : Z) : list ScriptedResponse -> step_outcome -> Prop :=
| taken_success r : sr_kind r = success -> taken p n [r] step_succeeded
| taken_failure r :
    sr_kind r <> success -> _may_retry p (_kind_for (sr_kind r)) (n + 1) = false ->
    taken p n [r] (if bool_decide (_kind_for (sr_kind r) = TIMEOUT)
                   then step_timed_out else step_failed)
| taken_retry r rs o :
    sr_kind r <> success -> _may_retry p (_kind_for (sr_kind r)) (n + 1) = true ->
    taken p (n + 1) rs o -> taken p n (r :: rs) o.

(** The failures among the responses of a run. *)
Definition failures_of (o : step_outcome) (rs : list ScriptedResponse) : Z :=
  Z.of_nat (length rs) - (if bool_decide (o = step_succeeded) then 1 else 0).

Lemma failures_nonneg p n rs o : taken p n rs o -> 0 <= failures_of o rs.
Proof.
  intros H. assert (1 <= Z.of_nat (length rs)) by (destruct H; simpl; lia).
  unfold failures_of. destruct (bool_decide _); lia.
Qed.

Lemma step_ok c o attempted offers error started finished attempts :
  0 <= offers -> (o = step_succeeded \/ offers = 0) ->
  exists s, _step c o attempted offers error started finished attempts = Ok s
    /\ xs_outcome s = o /\ xs_attempted s = attempted /\ xs_attempt_count s = attempts.
Proof.
  intros Hn Ho. unfold _step, step_check. cbn [xs_live xs_offers xs_outcome guard_raise rbind].
  rewrite (proj2 (Z.ltb_ge _ _)) by done. cbn [guard_raise rbind].
  assert (negb (bool_decide (o = step_succeeded)) && negb (offers =? 0) = false) as ->.
  { destruct Ho as [-> | ->]; [done |]. by rewrite andb_false_r. }
  cbn [guard_raise rbind]. eexists. done.
Qed.

(** What the loop leaves of the connector and of the clock. *)
Record loop_end (c c' : ScriptedConnector) (rest rs : list ScriptedResponse)
    (s : ExecutionTraceStep) (attempts failures : Z) : Prop := {
  end_prefix : rs `prefix_of` rest;
  end_taken : taken (sc_retry_policy c) attempts rs (xs_outcome s);
  end_attempted : xs_attempted s = true;
  end_count : xs_attempt_count s = attempts + Z.of_nat (length rs);
  end_bound : xs_attempt_count s <= max_attempts (sc_retry_policy c);
  end_index : sc_index c' = (sc_index c + length rs)%nat;
  end_breaker : snapshot_state (sc_circuit_breaker c') = OPEN <->
    snapshot_state (sc_circuit_breaker c) = OPEN
    \/ (0 < failures_of (xs_outcome s) rs
        /\ failure_threshold <= failures + failures_of (xs_outcome s) rs)
}.

(** Failures that may all be retried: nothing in them ends the run. *)
Fixpoint all_retried (p : BoundedRetryPolicy) (n : Z) (rs : list ScriptedResponse) : Prop :=
  match rs with
  | [] => True
  | r :: rest => sr_kind r <> success /\ _may_retry p (_kind_for (sr_kind r)) (n + 1) = true
                 /\ all_retried p (n + 1) rest
  end.

(** The script ran out under the loop: all of it was taken, none of it ended
    the run, and it was shorter than the attempts that were left. *)
Record ran_out (c c' : ScriptedConnector) (rest : list ScriptedResponse) (attempts failures : Z)
    : Prop := {
  out_retried : all_retried (sc_retry_policy c) attempts rest;
  out_short : attempts + Z.of_nat (length rest) < max_attempts (sc_retry_policy c);
  out_index : sc_index c' = (sc_index c + length rest)%nat;
  out_breaker : snapshot_state (sc_circuit_breaker c') = OPEN <->
    snapshot_state (sc_circuit_breaker c) = OPEN
    \/ (rest <> [] /\ failure_threshold <= failures + Z.of_nat (length rest))
}.

Lemma loop_ends rest c started tick attempts failures :
  0 <= attempts < max_attempts (sc_retry_policy c) ->
  (exists rs s c', attempt_loop now failure_threshold rest c started tick attempts failures
                   = (Ok s, c', S tick)
     /\ loop_end c c' rest rs s attempts failures)
  \/ exists c', attempt_loop now failure_threshold rest c started tick attempts failures
                = (Err ScriptExhausted, c', tick)
     /\ ran_out c c' rest attempts failures.
Proof.
  revert c attempts failures. induction rest as [|r rest IH]; intros c n m Hn.
  { right. exists c. split; [done |]. split; simpl; [done | lia | lia | tauto]. }
  cbn [attempt_loop]. cbv zeta.
  set (tk := advance_to (sc_circuit_breaker c) (S (sc_index c)) c).
  destruct (bool_decide_reflect (sr_kind r = success)) as [Hr | Hr].
  - destruct (step_ok tk step_succeeded true (Z.of_nat (length (sr_offers r))) None (Some started)
                (Some (now tick)) (n + 1)) as (s & -> & Ho & Ha & Hc); [lia | by left |].
    left. exists [r], s, tk. split; [done |]. constructor; rewrite ?Ho, ?Hc; simpl; try lia; try done.
    + by exists rest.
    + by constructor.
    + unfold failures_of. simpl. intuition (congruence || lia).
  - set (c' := if failure_threshold <=? m + 1 then _ else tk).
    assert (sc_retry_policy c' = sc_retry_policy c /\ sc_index c' = S (sc_index c)
      /\ (snapshot_state (sc_circuit_breaker c') = OPEN <->
          snapshot_state (sc_circuit_breaker c) = OPEN \/ failure_threshold <= m + 1)) as (Hp & Hi & Hb).
    { unfold c'. destruct (Z.leb_spec failure_threshold (m + 1)); simpl; intuition (congruence || lia). }
    clearbody c'. destruct (_may_retry _ _ _) eqn:Em; rewrite Hp in Em; cbn [negb].
    + assert (n + 1 < max_attempts (sc_retry_policy c)) as Hlt.
      { unfold _may_retry in Em. destruct (_ <=? _) eqn:E; [done |]. bool_simpl. lia. }
      destruct (IH c' (n + 1) (m + 1)) as [(rs & s & c2 & E & []) | (c2 & E & [])]; [rewrite Hp; lia | |].
      2: { rewrite Hp in *. right. exists c2. split; [exact E |]. split; [done | simpl; lia | simpl; lia |].
           rewrite out_breaker0, Hb. simpl. destruct rest; simpl; intuition (try lia || done). }
      left. rewrite Hp in *. exists (r :: rs), s, c2. split; [done |].
      pose proof (failures_nonneg _ _ _ _ end_taken0).
      assert (failures_of (xs_outcome s) (r :: rs) = 1 + failures_of (xs_outcome s) rs) as Hfs
        by (unfold failures_of; simpl; lia).
      constructor; rewrite ?Hfs; simpl; try lia; try done.
      * by apply prefix_cons.
      * by constructor.
      * rewrite end_breaker0, Hb. intuition lia.
    + set (o := if bool_decide (_kind_for (sr_kind r) = TIMEOUT) then step_timed_out else step_failed).
      destruct (step_ok c' o true 0 (Some (failure_kind_value (_kind_for (sr_kind r))))
                  (Some started) (Some (now tick)) (n + 1)) as (s & -> & Ho & Ha & Hc); [lia | by right |].
      assert (failures_of o [r] = 1) as Hf
        by (unfold failures_of, o; by destruct (bool_decide (_ = TIMEOUT))).
      left. exists [r], s, c'. split; [done |]. constructor; rewrite ?Ho, ?Hc, ?Hf; simpl; try lia; try done.
      * by exists rest.
      * by constructor.
      * rewrite Hb. intuition lia.
Qed.

(** What a run of a connector ends with. *)
Definition run_end (c : ScriptedConnector) (tick : nat)
    (out : result script_exn ExecutionTraceStep * ScriptedConnector * nat) : Prop :=
  let rest := drop (sc_index c) (sc_responses c) in
  if usable c then
    (exists rs s c', out = (Ok s, c', S (S tick)) /\ loop_end c c' rest rs s 0 0 /\ 1 <= xs_attempt_count s)
    \/ exists c', out = (Err ScriptExhausted, c', S tick) /\ ran_out c c' rest 0 0
  else exists s, out = (Ok s, c, S tick)
    /\ xs_outcome s = step_not_attempted /\ xs_attempted s = false /\ xs_attempt_count s = 0.

(** C38: the retry loop ends. A connector whose policy allows at least one
    attempt either is not usable - killed, disabled or tripped -, and then gives
    one step that is not attempted, taking no response; or it takes at most
    [max_attempts] responses - retryable failures up to the one that ends the
    run, which is a success, or a failure that may not be retried - and gives
    one attempted step for them; or its script, being shorter than that and of
    retryable failures only, runs out, which is an error without a step. The
    breaker opens exactly when the failures reached the threshold. *)
Theorem retries_terminate c tick :
  1 <= max_attempts (sc_retry_policy c) -> run_end c tick (_run_connector now failure_threshold c tick).
Proof.
  intros Hmax. unfold run_end, _run_connector. cbv zeta.
  assert (engaged (sc_kill_switch c) || negb (_operational c) = negb (usable c)) as ->
    by (unfold usable; by destruct (engaged _), (_operational c)).
  destruct (usable c) eqn:Hu; cbn [negb].
  2: { destruct (step_ok c step_not_attempted false 0 (Some (_blocked_reason c)) None None 0) as (s & E & Ho & Ha & Hc);
         [lia | by right |]. exists s. unfold not_run. rewrite E. done. }
  assert (bool_decide (snapshot_state (sc_circuit_breaker c) = OPEN) = false) as ->.
  { unfold usable, _operational, allows_execution in Hu. rewrite !andb_true_iff in Hu.
    destruct Hu as (_ & _ & Hu). by apply negb_true_iff. }
  destruct (loop_ends (drop (sc_index c) (sc_responses c)) c (now tick) (S tick) 0 0)
    as [(rs & s & c' & E & Hend) | (c' & E & Hout)]; [lia | left | right; by exists c'].
  exists rs, s, c'. split; [done |]. split; [done |].
  rewrite (end_count _ _ _ _ _ _ _ Hend). destruct (end_taken _ _ _ _ _ _ _ Hend); simpl; lia.
Qed.
End Retries.

Definition sample_connector (rs : list ScriptedResponse) : ScriptedConnector :=
  {| sc_provider_id := "scripted"; sc_responses := rs; sc_capability := CURRENT_PRICING;
     sc_test_fixture := true; sc_operational_status := AVAILABLE;
     sc_kill_switch := {| engaged := false; ks_reason := None |};
     sc_circuit_breaker := {| snapshot_state := CLOSED; cb_reason := None |};
     sc_retry_policy := {| max_attempts := 2; retry_on := ["timeout"; "rate_limit"; "unavailable"] |};
     sc_timeout_policy := {| timeout_ms := 5000 |}; sc_index := 0 |}.

Definition reply (k : ScriptedKind) : ScriptedResponse :=
  {| sr_kind := k; sr_offers := if bool_decide (k = success) then ["offer"%string] else [];
     sr_retry_after_ms := None |}.

Lemma retries_terminate_witness :
  run_end 3 (sample_connector [reply timeout; reply success; reply success]) 0
    (_run_connector (fun n => Datetime (Z.of_nat n) true) 3
       (sample_connector [reply timeout; reply success; reply success]) 0).
Proof.
  apply (retries_terminate (fun n => Datetime (Z.of_nat n) true) 3
           (sample_connector [reply timeout; reply success; reply success]) 0).
  vm_compute. discriminate.
Defined.

(** One timeout and nothing after it: the script runs out. *)
Example script_runs_out :
  (_run_connector (fun n => Datetime (Z.of_nat n) true) 3 (sample_connector [reply timeout]) 0).1.1
  = Err ScriptExhausted.
Proof. reflexivity. Qed.

(** A timeout that is retried once; a credential failure that is not. *)
Example retried_once :
  let '(r, c, _) := _run_connector (fun n => Datetime (Z.of_nat n) true) 3
                      (sample_connector [reply timeout; reply success; reply success]) 0 in
  match r with Ok s => (xs_outcome s, xs_attempt_count s, sc_index c) | Err _ => (step_failed, 0, 0%nat) end
  = (step_succeeded, 2, 2%nat).
Proof. reflexivity. Qed.

Example credential_not_retried :
  let '(r, c, _) := _run_connector (fun n => Datetime (Z.of_nat n) true) 1
                      (sample_connector [reply credential; reply success]) 0 in
  match r with
  | Ok s => (xs_outcome s, xs_attempt_count s, snapshot_state (sc_circuit_breaker c))
  | Err _ => (step_succeeded, 0, CLOSED)
  end = (step_failed, 1, OPEN).
Proof. reflexivity. Qed.

End Retries.
