(* ===== verification/Execution.v ===== *)
(** Authorized executions: the traces of
    [app/domain/entities/research_execution.py] and the durable record of
    [app/research/authorized_execution_repository.py].

    Module [Trace]: what one attempt and a whole execution may claim. Module
    [Record]: the stored execution, its validation and its state machine. The
    repositories are in [ExecutionRepo]. The states are the constructors of the
    source's [Literal] type, so the checks for an unknown state have no case. *)

From S2P Require Import Prelude PyStr Json Clock Connector Breaker Research.
Import Connector Research.
#[local] Open Scope Z_scope.

Definition aware_some (o : option datetime) : bool :=
  match o with Some d => dt_aware d | None => false end.

(** [a < b] of two instants the code has checked to be aware. *)
Definition before (a b : datetime) : bool := dt_us a <? dt_us b.

Definition is_nil {A} (l : list A) : bool := match l with [] => true | _ => false end.

(** ** Traces *)
Module Trace.

Definition require_durable_evidence_reference (evidence : string) : outcome unit :=
  raise! ValueError "evidence ids must be durable evidence references"
    when negb (nonempty evidence) || negb (String.eqb evidence (strip evidence)) in
  guard_raise (is_hex64 evidence) (ValueError "normalized offer digests are not evidence ids").

(** [for evidence_id in ids: require_durable_evidence_reference(evidence_id)]. *)
Fixpoint require_references (ids : list string) : outcome unit :=
  match ids with
  | [] => Ok tt
  | e :: rest => let! _ := require_durable_evidence_reference e in require_references rest
  end.

Inductive TraceAttemptStatus := not_attempted | succeeded | failed | timed_out | outcome_unknown.

#[global] Instance status_eq_dec : EqDecision TraceAttemptStatus.
Proof. solve_decision. Defined.

Record ResearchExecutionTraceStep := {
  ts_plan_id : string;
  ts_provider_id : string;
  ts_capability : ResearchCapability;
  ts_market : option string;
  ts_source : option string;
  ts_attempted : bool;
  ts_status : TraceAttemptStatus;
  ts_evidence_ids : list string;
  ts_started_at : option datetime;
  ts_finished_at : option datetime;
  ts_error_category : option string;
  ts_offers : Z;
  ts_freshness_checked_at : option datetime
}.

#[global] Instance trace_step_eq_dec : EqDecision ResearchExecutionTraceStep.
Proof. solve_decision. Defined.

Definition unattempted_check (s : ResearchExecutionTraceStep) : outcome unit :=
  raise! ValueError "an unattempted step cannot claim an attempt status"
    when negb (bool_decide (ts_status s = not_attempted)) in
  raise! ValueError "unattempted steps cannot have execution facts"
    when negb (is_nil (ts_evidence_ids s)) || is_some (ts_started_at s)
         || is_some (ts_finished_at s) in
  raise! ValueError "unattempted steps cannot claim offers or freshness"
    when negb (ts_offers s =? 0) || is_some (ts_freshness_checked_at s) in
  guard_raise (is_some (ts_error_category s) || is_some (ts_source s))
    (ValueError "unattempted steps cannot carry a source or error").

(** Offers, evidence and error category against the attempt's status. *)
Definition outcome_check (s : ResearchExecutionTraceStep) : outcome unit :=
  if bool_decide (ts_status s = succeeded) then
    raise! ValueError "a succeeded step requires offers and no error category"
      when (ts_offers s <? 1) || is_some (ts_error_category s) in
    require_references (ts_evidence_ids s)
  else
    raise! ValueError "a non-success step cannot invent evaluated offers"
      when negb (ts_offers s =? 0) || negb (is_nil (ts_evidence_ids s)) in
    guard_raise (negb (some_text (ts_error_category s)))
      (ValueError "a non-success attempt requires an error category").

Definition freshness_check (s : ResearchExecutionTraceStep) : outcome unit :=
  match ts_freshness_checked_at s with
  | None => Ok tt
  | Some f =>
      raise! ValueError "freshness_checked_at must be timezone-aware" when negb (dt_aware f) in
      guard_raise (negb (bool_decide (ts_status s = succeeded)))
        (ValueError "freshness is recorded only for a succeeded attempt")
  end.

(** [ResearchExecutionTraceStep.__post_init__]. *)
Definition step_check (s : ResearchExecutionTraceStep) : outcome unit :=
  raise! ValueError "evaluated offer count cannot be negative" when ts_offers s <? 0 in
  if negb (ts_attempted s) then unattempted_check s
  else
    raise! ValueError "an attempted step needs a real attempt status"
      when bool_decide (ts_status s = not_attempted) in
    raise! ValueError "an attempted step requires source and market"
      when negb (some_text (ts_source s)) || negb (is_some (ts_market s)) in
    match ts_started_at s, ts_finished_at s with
    | Some b, Some e =>
        raise! ValueError "attempt timestamps must be timezone-aware"
          when negb (dt_aware b) || negb (dt_aware e) in
        raise! ValueError "attempt finish must not precede the start" when before e b in
        let! _ := outcome_check s in
        freshness_check s
    | _, _ => Err (ValueError "an attempted step requires start and finish timestamps")
    end.

Record ResearchExecutionTrace := {
  tr_plan_id : string;
  tr_steps : list ResearchExecutionTraceStep;
  attempted_sources : list string;
  succeeded_sources : list string;
  failed_sources : list string;
  timed_out_sources : list string;
  tr_offers : Z
}.

#[global] Instance trace_eq_dec : EqDecision ResearchExecutionTrace.
Proof. solve_decision. Defined.

(** [step.source for step in steps if ... and step.source]. *)
Definition sources_where (p : ResearchExecutionTraceStep -> bool)
    (steps : list ResearchExecutionTraceStep) : list string :=
  omap (fun s => if p s && some_text (ts_source s) then ts_source s else None) steps.

Definition with_status (st : TraceAttemptStatus) (s : ResearchExecutionTraceStep) : bool :=
  bool_decide (ts_status s = st).

Definition sum_offers (steps : list ResearchExecutionTraceStep) : Z :=
  foldr (fun s n => ts_offers s + n) 0 steps.

Definition differ (a b : list string) : bool := negb (bool_decide (a = b)).

(** [ResearchExecutionTrace.__post_init__]. *)
Definition trace_check (t : ResearchExecutionTrace) : outcome unit :=
  if is_nil (tr_steps t) then
    guard_raise
      (negb (is_nil (attempted_sources t)) || negb (is_nil (succeeded_sources t))
       || negb (is_nil (failed_sources t)) || negb (is_nil (timed_out_sources t))
       || negb (tr_offers t =? 0))
      (ValueError "an empty execution trace cannot claim attempts")
  else
    raise! ValueError "planning must not put an unattempted step on an execution trace"
      when existsb (fun s => negb (ts_attempted s)) (tr_steps t) in
    raise! ValueError "every trace step must use the trace plan_id"
      when existsb (fun s => negb (String.eqb (ts_plan_id s) (tr_plan_id t))) (tr_steps t) in
    raise! ValueError "attempted_sources must match the attempted steps"
      when differ (sources_where (fun _ => true) (tr_steps t)) (attempted_sources t) in
    raise! ValueError "succeeded_sources must match succeeded steps"
      when differ (sources_where (with_status succeeded) (tr_steps t)) (succeeded_sources t) in
    raise! ValueError "failed_sources must match failed steps"
      when differ (sources_where (with_status failed) (tr_steps t)) (failed_sources t) in
    raise! ValueError "timed_out_sources must match timed-out steps"
      when differ (sources_where (with_status timed_out) (tr_steps t)) (timed_out_sources t) in
    guard_raise (negb (sum_offers (tr_steps t) =? tr_offers t))
      (ValueError "evaluated_offer_count must match the steps").

Definition empty_execution_trace (plan : string) : ResearchExecutionTrace :=
  {| tr_plan_id := plan; tr_steps := []; attempted_sources := []; succeeded_sources := [];
     failed_sources := []; timed_out_sources := []; tr_offers := 0 |}.

(** A constructor call: the object is stored when its checks pass. *)
Definition make_step (s : ResearchExecutionTraceStep) : outcome ResearchExecutionTraceStep :=
  let! _ := step_check s in Ok s.
Definition make_trace (t : ResearchExecutionTrace) : outcome ResearchExecutionTrace :=
  let! _ := trace_check t in Ok t.

Lemma empty_trace_valid plan : make_trace (empty_execution_trace plan) = Ok (empty_execution_trace plan).
Proof. reflexivity. Qed.

End Trace.
Import Trace.

(** ** The durable record *)
Module Record.

Inductive AuthorizedExecutionState :=
| prepared_unavailable | claimed_for_attempt | running | completed | state_failed
| state_outcome_unknown.

#[global] Instance execution_state_eq_dec : EqDecision AuthorizedExecutionState.
Proof. solve_decision. Defined.

Definition state_value (s : AuthorizedExecutionState) : string :=
  match s with
  | prepared_unavailable => "prepared_unavailable"
  | claimed_for_attempt => "claimed_for_attempt"
  | running => "running"
  | completed => "completed"
  | state_failed => "failed"
  | state_outcome_unknown => "outcome_unknown"
  end.

(** [_TERMINAL_EXECUTION_STATES]. *)
Definition terminal (s : AuthorizedExecutionState) : bool :=
  match s with completed | state_failed | state_outcome_unknown => true | _ => false end.

Record DurableAuthorizedExecution := {
  execution_id : string;
  authorization_id : string;
  authorization_version : Z;
  decision_id : string;
  x_plan : string;
  created_at : datetime;
  updated_at : datetime;
  revision : Z;
  state : AuthorizedExecutionState;
  claimed_at : option datetime;
  claim_expires_at : option datetime;
  claim_digest : option string;
  attempt_started_at : option datetime;
  finished_at : option datetime;
  attempted_provider_id : option string;
  attempted_capability : option string;
  attempted_market : option string;
  attempted_source : option string;
  x_outcome : option string;
  error_category : option string;
  evaluated_offer_count : Z;
  normalized_offer_count : Z;
  returned_currencies : list string;
  normalized_amount_minors : list Z;
  evidence_ids : list string;
  normalized_offer_digests : list string;
  observation_kind : option string;
  request_digest : option string;
  trace : option ResearchExecutionTrace;
  raw_response_persisted : bool
}.

#[global] Instance execution_eq_dec : EqDecision DurableAuthorizedExecution.
Proof. solve_decision. Defined.

(** The keyword arguments of [dataclasses.replace] the code uses. *)
Definition set_saved (created updated : datetime) (rev : Z) (r : DurableAuthorizedExecution)
    : DurableAuthorizedExecution :=
  {| execution_id := execution_id r; authorization_id := authorization_id r;
     authorization_version := authorization_version r; decision_id := decision_id r;
     x_plan := x_plan r; created_at := created; updated_at := updated; revision := rev;
     state := state r; claimed_at := claimed_at r; claim_expires_at := claim_expires_at r;
     claim_digest := claim_digest r; attempt_started_at := attempt_started_at r;
     finished_at := finished_at r; attempted_provider_id := attempted_provider_id r;
     attempted_capability := attempted_capability r; attempted_market := attempted_market r;
     attempted_source := attempted_source r; x_outcome := x_outcome r;
     error_category := error_category r; evaluated_offer_count := evaluated_offer_count r;
     normalized_offer_count := normalized_offer_count r;
     returned_currencies := returned_currencies r;
     normalized_amount_minors := normalized_amount_minors r; evidence_ids := evidence_ids r;
     normalized_offer_digests := normalized_offer_digests r;
     observation_kind := observation_kind r; request_digest := request_digest r;
     trace := trace r; raw_response_persisted := raw_response_persisted r |}.

Definition set_revision (rev : Z) (r : DurableAuthorizedExecution) : DurableAuthorizedExecution :=
  set_saved (created_at r) (updated_at r) rev r.

Definition is_sha256_text (d : string) : bool := is_hex64 d.

Definition _validate_claim_fields (r : DurableAuthorizedExecution) : outcome unit :=
  let present := is_some (claimed_at r) || is_some (claim_expires_at r)
                 || is_some (claim_digest r) in
  if bool_decide (state r = prepared_unavailable) || terminal (state r) then
    guard_raise present (ValueError "this execution state cannot carry an active claim")
  else
    match claimed_at r, claim_expires_at r, claim_digest r with
    | Some c, Some x, Some d =>
        raise! ValueError "a claim requires claimed_at, claim_expires_at, and claim_digest"
          when negb (nonempty d) in
        raise! ValueError "claim timestamps must be timezone-aware"
          when negb (dt_aware c) || negb (dt_aware x) in
        raise! ValueError "claim expiry must be after claimed_at" when negb (before c x) in
        guard_raise (negb (is_sha256_text d))
          (ValueError "claim_digest must be an opaque sha256 digest")
    | _, _, _ =>
        Err (ValueError "a claim requires claimed_at, claim_expires_at, and claim_digest")
    end.

Definition _require_offer_digests (digests : list string) : outcome unit :=
  guard_raise (existsb (fun d => negb (is_sha256_text d)) digests)
    (ValueError "normalized offer digests must be sha256 digests").

Definition identity (r : DurableAuthorizedExecution) : list (option string) :=
  [attempted_provider_id r; attempted_capability r; attempted_market r; attempted_source r].

(** Prepared and claimed executions: nothing has been attempted. *)
Definition check_unattempted (r : DurableAuthorizedExecution) : outcome unit :=
  raise! ValueError "a claim is not an attempt"
    when is_some (attempt_started_at r) || is_some (finished_at r) || is_some (x_outcome r) in
  raise! ValueError "a claim cannot store attempt facts"
    when existsb some_text (identity r) || is_some (trace r) || is_some (request_digest r) in
  raise! ValueError "a claim cannot store normalized results"
    when negb (is_nil (evidence_ids r)) || negb (is_nil (normalized_offer_digests r))
         || negb (is_nil (returned_currencies r)) || negb (is_nil (normalized_amount_minors r)) in
  raise! ValueError "a claim cannot store offer counts"
    when negb (evaluated_offer_count r =? 0) || negb (normalized_offer_count r =? 0) in
  guard_raise (is_some (observation_kind r) || is_some (error_category r))
    (ValueError "a claim cannot store an observation or error").

Definition check_running (r : DurableAuthorizedExecution) : outcome unit :=
  raise! ValueError "running has no durable outcome yet"
    when is_some (finished_at r) || is_some (x_outcome r) || is_some (trace r) in
  guard_raise (negb (is_nil (evidence_ids r)) || negb (is_nil (normalized_offer_digests r))
               || negb (evaluated_offer_count r =? 0) || negb (normalized_offer_count r =? 0))
    (ValueError "running cannot store an outcome count").

Definition text_is (o : option string) (s : string) : bool :=
  match o with Some t => String.eqb t s | None => false end.

(** What each terminal state may say. *)
Definition check_terminal_state (r : DurableAuthorizedExecution) : outcome unit :=
  match state r with
  | completed =>
      raise! ValueError "completed requires a succeeded outcome"
        when negb (text_is (x_outcome r) "succeeded") || is_some (error_category r) in
      raise! ValueError "completed requires at least one normalized offer"
        when evaluated_offer_count r <? 1 in
      raise! ValueError "completed observations must be synthetic or production"
        when negb (text_is (observation_kind r) "synthetic"
                   || text_is (observation_kind r) "production") in
      guard_raise (negb (Z.of_nat (length (normalized_offer_digests r))
                         =? normalized_offer_count r))
        (ValueError "normalized offer digests must match the normalized offer count")
  | state_failed =>
      raise! ValueError "failed requires a failure outcome and error category"
        when negb (text_is (x_outcome r) "failed" || text_is (x_outcome r) "timed_out")
             || negb (some_text (error_category r)) in
      raise! ValueError "a failed attempt cannot invent offers"
        when negb (evaluated_offer_count r =? 0) || negb (is_nil (evidence_ids r))
             || negb (is_nil (normalized_offer_digests r)) in
      guard_raise (is_some (observation_kind r) && negb (text_is (observation_kind r) "synthetic"))
        (ValueError "a failure observation cannot be labeled live")
  | _ =>
      raise! ValueError "outcome_unknown cannot be labeled success or failure"
        when negb (text_is (x_outcome r) "outcome_unknown")
             || negb (text_is (error_category r) "outcome_unknown") in
      guard_raise (negb (evaluated_offer_count r =? 0) || negb (is_nil (evidence_ids r))
                   || negb (is_nil (normalized_offer_digests r)) || is_some (observation_kind r))
        (ValueError "an unknown outcome has no offer and no observation class")
  end.

Definition check_terminal (r : DurableAuthorizedExecution) (started : datetime) : outcome unit :=
  raise! ValueError "a terminal attempt requires finished_at"
    when match finished_at r with
         | Some f => negb (dt_aware f) || before f started
         | None => true
         end in
  raise! ValueError "a terminal attempt requires the authoritative trace"
    when match trace r with
         | Some t => negb (String.eqb (tr_plan_id t) (x_plan r))
         | None => true
         end in
  raise! ValueError "a terminal attempt requires an outcome" when negb (is_some (x_outcome r)) in
  let! _ := require_references (evidence_ids r) in
  let! _ := _require_offer_digests (normalized_offer_digests r) in
  raise! ValueError "returned currencies must match the normalized offer count"
    when negb (Z.of_nat (length (returned_currencies r)) =? normalized_offer_count r) in
  raise! ValueError "normalized amounts must match the normalized offer count"
    when negb (Z.of_nat (length (normalized_amount_minors r)) =? normalized_offer_count r) in
  raise! ValueError "evaluated and normalized offer counts must match"
    when negb (evaluated_offer_count r =? normalized_offer_count r) in
  check_terminal_state r.

Definition _validate_attempt_fields (r : DurableAuthorizedExecution) : outcome unit :=
  match state r with
  | prepared_unavailable | claimed_for_attempt => check_unattempted r
  | _ =>
      match attempt_started_at r with
      | None => Err (ValueError "an attempt requires attempt_started_at")
      | Some started =>
          raise! ValueError "an attempt requires attempt_started_at"
            when negb (dt_aware started) in
          raise! ValueError "an attempt records provider, capability, market, and source"
            when negb (forallb some_text (identity r)) in
          if bool_decide (state r = running) then check_running r else check_terminal r started
      end
  end.

(** [DurableAuthorizedExecution.__post_init__]. *)
Definition execution_check (r : DurableAuthorizedExecution) : outcome unit :=
  raise! ValueError "execution_id must be the server-derived research execution id"
    when negb (startswith "research-exec:" (execution_id r)) in
  raise! ValueError "authorization_id is required" when negb (py_true (authorization_id r)) in
  raise! ValueError "authorization_version must be at least 1" when authorization_version r <? 1 in
  raise! ValueError "decision_id and plan_id are required"
    when negb (py_true (decision_id r)) || negb (py_true (x_plan r)) in
  raise! ValueError "revision must be at least 1" when revision r <? 1 in
  raise! ValueError "execution timestamps must be timezone-aware"
    when negb (dt_aware (created_at r)) || negb (dt_aware (updated_at r)) in
  raise! ValueError "raw Shopify responses must not be persisted" when raw_response_persisted r in
  raise! ValueError "this execution record cannot store a live observation"
    when text_is (observation_kind r) "live" in
  raise! ValueError "offer counts cannot be negative"
    when (evaluated_offer_count r <? 0) || (normalized_offer_count r <? 0) in
  let! _ := _validate_claim_fields r in
  _validate_attempt_fields r.

Definition make_execution (r : DurableAuthorizedExecution) : outcome DurableAuthorizedExecution :=
  let! _ := execution_check r in Ok r.

(** The record [bind] creates. *)
Definition prepared (i auth : string) (auth_version : Z) (decision plan : string)
    (now : datetime) : DurableAuthorizedExecution :=
  {| execution_id := i; authorization_id := auth; authorization_version := auth_version;
     decision_id := decision; x_plan := plan; created_at := now; updated_at := now;
     revision := 1; state := prepared_unavailable; claimed_at := None; claim_expires_at := None;
     claim_digest := None; attempt_started_at := None; finished_at := None;
     attempted_provider_id := None; attempted_capability := None; attempted_market := None;
     attempted_source := None; x_outcome := None; error_category := None;
     evaluated_offer_count := 0; normalized_offer_count := 0; returned_currencies := [];
     normalized_amount_minors := []; evidence_ids := []; normalized_offer_digests := [];
     observation_kind := None; request_digest := None; trace := None;
     raw_response_persisted := false |}.

(** ** Validation, in words *)

Lemma check_claim_ok r :
  execution_check r = Ok tt -> state r = claimed_for_attempt \/ state r = running ->
  exists c x d, claimed_at r = Some c /\ claim_expires_at r = Some x /\ claim_digest r = Some d
    /\ dt_aware c = true /\ dt_aware x = true /\ dt_us c < dt_us x /\ is_hex64 d = true.
Proof.
  intros H Hst. unfold execution_check in H. res_simpl.
  match goal with H : _validate_claim_fields _ = _ |- _ => rename H into Hc end.
  unfold _validate_claim_fields in Hc.
  assert (bool_decide (state r = prepared_unavailable) || terminal (state r) = false) as E
    by (by destruct Hst as [-> | ->]).
  rewrite E in Hc. destruct (claimed_at r) as [c|], (claim_expires_at r) as [x|],
    (claim_digest r) as [d|]; try done. res_simpl. unfold before, is_sha256_text in *. bool_simpl.
  eauto 12.
Qed.

Lemma check_no_claim r :
  execution_check r = Ok tt -> state r = prepared_unavailable \/ terminal (state r) = true ->
  claimed_at r = None /\ claim_expires_at r = None /\ claim_digest r = None.
Proof.
  intros H Hst. unfold execution_check in H. res_simpl.
  match goal with H : _validate_claim_fields _ = _ |- _ => rename H into Hc end.
  unfold _validate_claim_fields in Hc.
  assert (bool_decide (state r = prepared_unavailable) || terminal (state r) = true) as E
    by (destruct Hst as [-> | ->]; [done | apply orb_true_r]).
  rewrite E in Hc. res_simpl. bool_simpl.
  destruct (claimed_at r), (claim_expires_at r), (claim_digest r); done.
Qed.

End Record.
