(* ===== verification/ExecutionRepo.v ===== *)
(** Where authorized executions live: the two repositories of
    [app/research/authorized_execution_repository.py].

    Module [Pins]: what no write may change. Module [MemoryExecutions]: a
    dictionary. Module [SqlExecutions]: rows of [operational_entities], where
    other workers commit between the sessions and statements of a method.
    Module [ExecutionHistory]: what the calls of any workers do to a row. *)

From S2P Require Import Prelude PyStr Json Clock Connector Breaker PyState OpStore VersionedStore Research Authorization Execution.
Import Connector Research Execution.Record.
#[local] Open Scope Z_scope.

Inductive exec_exn :=
| ExecutionValueError (message : string)
| AuthorizationPlanConflict (binding : DurableAuthorizedExecution)
| AuthorizedExecutionRevisionConflict (execution : string) (expected_revision : Z)
| ExecutionPersistence (e : store_exn).

Notation Execution := DurableAuthorizedExecution.

(** A constructor or an identity that raises [ValueError]. *)
Definition valued {A} (m : outcome A) : result exec_exn A :=
  match m with Ok a => Ok a | Err (ValueError m) => Err (ExecutionValueError m) end.

Module Pins.

Definition identity_error : exec_exn :=
  ExecutionValueError "authorization identity does not match the stored execution".

Definition _require_same_plan (existing : Execution) (decision plan : string)
    : result exec_exn Execution :=
  raise! identity_error when negb (String.eqb (decision_id existing) decision) in
  raise! AuthorizationPlanConflict existing when negb (String.eqb (x_plan existing) plan) in
  Ok existing.

Definition _require_same_pins (current record : Execution) : result exec_exn unit :=
  raise! AuthorizationPlanConflict current
    when negb (String.eqb (x_plan record) (x_plan current)) in
  guard_raise
    (negb (String.eqb (decision_id record) (decision_id current))
     || negb (String.eqb (authorization_id record) (authorization_id current))
     || negb (authorization_version record =? authorization_version current)
     || negb (String.eqb (execution_id record) (execution_id current)))
    identity_error.

(** What an execution is pinned to. *)
Definition same_pins (a b : Execution) : Prop :=
  x_plan a = x_plan b /\ decision_id a = decision_id b /\ authorization_id a = authorization_id b
  /\ authorization_version a = authorization_version b /\ execution_id a = execution_id b
  /\ created_at a = created_at b.

Lemma require_same_plan_ok e d p x :
  _require_same_plan e d p = Ok x <-> x = e /\ decision_id e = d /\ x_plan e = p.
Proof.
  unfold _require_same_plan. destruct (String.eqb_spec (decision_id e) d);
    cbn [negb guard_raise rbind]; [| naive_solver].
  destruct (String.eqb_spec (x_plan e) p); cbn [negb guard_raise rbind]; naive_solver.
Qed.

Lemma require_same_pins_ok c r :
  _require_same_pins c r = Ok tt <->
  x_plan r = x_plan c /\ decision_id r = decision_id c
  /\ authorization_id r = authorization_id c
  /\ authorization_version r = authorization_version c /\ execution_id r = execution_id c.
Proof.
  unfold _require_same_pins. destruct (String.eqb_spec (x_plan r) (x_plan c));
    cbn [negb guard_raise rbind]; [| naive_solver].
  rewrite guard_raise_ok, !orb_false_iff, !negb_false_iff, !String.eqb_eq, Z.eqb_eq.
  naive_solver.
Qed.

(** The record [cas_replace] stores over [current]. *)
Definition replacement (current record : Execution) (expected : Z) : Execution :=
  set_saved (created_at current) (updated_at record) (expected + 1) record.

(** The record [save] stores over [current]. *)
Definition resaved (current record : Execution) (expected : Z) : Execution :=
  set_saved (created_at current) (updated_at record) (expected + 1) current.

End Pins.
Import Pins.

Definition stale (record : Execution) (expected : Z) : exec_exn :=
  AuthorizedExecutionRevisionConflict (execution_id record) expected.

(** The arguments of [bind]. *)
Record binding_request := {
  b_key : string; b_decision : string; b_plan : string;
  b_authorization : string; b_version : Z; b_now : datetime
}.

Definition new_execution (i : string) (b : binding_request) : result exec_exn Execution :=
  valued (make_execution
    (prepared i (b_authorization b) (b_version b) (b_decision b) (b_plan b) (b_now b))).

(** ** [InMemoryAuthorizedExecutionRepository] *)
Module MemoryExecutions.
Section Memory.
Variable sha256_hex : string -> string.
Notation method := (act (dict Execution) exec_exn).

Definition get (i : string) : method (option Execution) := do! d := a_get in a_ret (d_get i d).

Definition row_count : method Z := do! d := a_get in a_ret (Z.of_nat (length d)).

Definition bind (b : binding_request) : method Execution :=
  do! i := a_lift (valued (Authorization.authorized_execution_id sha256_hex (b_key b))) in
  do! existing := get i in
  match existing with
  | Some e => a_lift (_require_same_plan e (b_decision b) (b_plan b))
  | None =>
      do! record := a_lift (new_execution i b) in
      do! raced := get i in
      match raced with
      | Some e => a_lift (_require_same_plan e (b_decision b) (b_plan b))
      | None => do! _ := a_mod (d_set i record) in a_ret record
      end
  end.

(** The stored row when its revision is the expected one. *)
Definition current_at (record : Execution) (expected : Z) : method Execution :=
  do! current := get (execution_id record) in
  match current with
  | None => a_err (stale record expected)
  | Some c => refuse! stale record expected when negb (revision c =? expected) in a_ret c
  end.

Definition save (record : Execution) (expected : Z) : method Execution :=
  do! c := current_at record expected in
  do! _ := a_lift (_require_same_plan c (decision_id record) (x_plan record)) in
  do! stored := a_lift (valued (make_execution (resaved c record expected))) in
  do! _ := a_mod (d_set (execution_id record) stored) in
  a_ret stored.

Definition cas_replace (record : Execution) (expected : Z) : method Execution :=
  do! c := current_at record expected in
  do! _ := a_lift (_require_same_pins c record) in
  do! stored := a_lift (valued (make_execution (replacement c record expected))) in
  do! _ := a_mod (d_set (execution_id record) stored) in
  a_ret stored.

Definition restore_row (i : string) (record : option Execution) : method unit :=
  a_mod (match record with None => d_pop i | Some r => d_set i r end).
End Memory.
End MemoryExecutions.

(** ** [OperationalAuthorizedExecutionRepository] *)
Module SqlExecutions.
Import OperationalStore.

Definition RESEARCH_AUTHORIZED_EXECUTIONS : string := "research.authorized_executions".

Section Sql.
Variable sha256_hex : string -> string.
Context {P : Type} (encode_entity : Execution -> P) (decode_entity : P -> option Execution).
(** What other workers commit at the i-th place of a method where they can. *)
Variable env : nat -> op_table P -> op_table P.
Notation method := (act (op_table P) exec_exn).

Definition others (n : nat) : method unit := a_mod (env n).

Definition _load (i : string) : method (option Execution) := fun t =>
  match get_versioned decode_entity RESEARCH_AUTHORIZED_EXECUTIONS i t with
  | Err e => (Err (ExecutionPersistence e), t)
  | Ok None => (Ok None, t)
  | Ok (Some (record, seq, _)) =>
      if negb (revision record =? seq)
      then match valued (make_execution (set_revision seq record)) with
           | Ok r => (Ok (Some r), t)
           | Err e => (Err e, t)
           end
      else (Ok (Some record), t)
  end.

Definition get (i : string) : method (option Execution) := _load i.

Definition row_count : method Z :=
  do! t := a_get in a_ret (count RESEARCH_AUTHORIZED_EXECUTIONS None t).

Definition insert (i : string) (record : Execution) : method Execution := fun t =>
  match insert_versioned encode_entity RESEARCH_AUTHORIZED_EXECUTIONS i record 1 None t with
  | (Ok r, t') => (Ok r, t')
  | (Err e, t') => (Err (ExecutionPersistence e), t')
  end.

Definition bind_once (i : string) (b : binding_request) : method Execution :=
  do! existing := _load i in
  match existing with
  | Some e => a_lift (_require_same_plan e (b_decision b) (b_plan b))
  | None =>
      do! record := a_lift (new_execution i b) in
      do! _ := others 1 in
      insert i record
  end.

(** A lost insert reads the winner in a new session. *)
Definition bind (b : binding_request) : method Execution :=
  do! i := a_lift (valued (Authorization.authorized_execution_id sha256_hex (b_key b))) in
  fun t =>
    match bind_once i b t with
    | (Err (ExecutionPersistence PersistenceConflictError), t1) =>
        (do! _ := others 0 in
         do! winner := _load i in
         match winner with
         | None => a_err (ExecutionPersistence PersistenceConflictError)
         | Some w => a_lift (_require_same_plan w (b_decision b) (b_plan b))
         end) t1
    | done => done
    end.

Definition current_at (record : Execution) (expected : Z) : method Execution :=
  do! current := _load (execution_id record) in
  match current with
  | None => a_err (stale record expected)
  | Some c => refuse! stale record expected when negb (revision c =? expected) in a_ret c
  end.

(** [if not ops.compare_and_swap(...): raise]. *)
Definition swap (record stored : Execution) (expected : Z) : method Execution :=
  do! _ := others 0 in
  fun t =>
    match compare_and_swap encode_entity RESEARCH_AUTHORIZED_EXECUTIONS (execution_id record)
            stored expected (revision stored) None t with
    | (Ok true, t') => (Ok stored, t')
    | (_, t') => (Err (stale record expected), t')
    end.

Definition save (record : Execution) (expected : Z) : method Execution :=
  do! c := current_at record expected in
  do! _ := a_lift (_require_same_plan c (decision_id record) (x_plan record)) in
  do! stored := a_lift (valued (make_execution (resaved c record expected))) in
  swap record stored expected.

Definition cas_replace (record : Execution) (expected : Z) : method Execution :=
  do! c := current_at record expected in
  do! _ := a_lift (_require_same_pins c record) in
  do! stored := a_lift (valued (make_execution (replacement c record expected))) in
  swap record stored expected.
End Sql.
End SqlExecutions.

(** ** What the methods do to a row *)
Module ExecutionRows.
Import OperationalStore SqlExecutions.

(** A stored execution: valid, under its own id. *)
Definition good (i : string) (r : Execution) : Prop :=
  execution_check r = Ok tt /\ execution_id r = i.

Definition write_result (row : option Execution) (record : Execution) (expected : Z)
    (check : Execution -> result exec_exn Execution) : result exec_exn Execution :=
  match row with
  | None => Err (stale record expected)
  | Some c => raise! stale record expected when negb (revision c =? expected) in check c
  end.

(** A full compare-and-swap, and a [save], of the row they find. *)
Definition cas_result (row : option Execution) (record : Execution) (expected : Z)
    : result exec_exn Execution :=
  write_result row record expected (fun c =>
    let! _ := _require_same_pins c record in
    valued (make_execution (replacement c record expected))).

Definition save_result (row : option Execution) (record : Execution) (expected : Z)
    : result exec_exn Execution :=
  write_result row record expected (fun c =>
    let! _ := _require_same_plan c (decision_id record) (x_plan record) in
    valued (make_execution (resaved c record expected))).

Definition bind_result (row : option Execution) (i : string) (b : binding_request)
    : result exec_exn Execution :=
  match row with
  | Some e => _require_same_plan e (b_decision b) (b_plan b)
  | None => new_execution i b
  end.

Lemma valued_ok {A} (m : outcome A) a : valued m = Ok a <-> m = Ok a.
Proof. destruct m as [x | [msg]]; simpl; naive_solver. Qed.

Lemma make_execution_ok r x : make_execution r = Ok x <-> x = r /\ execution_check r = Ok tt.
Proof.
  unfold make_execution. destruct (execution_check r) as [[]|]; simpl; naive_solver.
Qed.

Lemma make_checked r : execution_check r = Ok tt -> make_execution r = Ok r.
Proof. intros H. by apply make_execution_ok. Qed.

Lemma cas_result_ok row record expected s :
  cas_result row record expected = Ok s <->
  exists c, row = Some c /\ revision c = expected /\ _require_same_pins c record = Ok tt
    /\ s = replacement c record expected /\ execution_check s = Ok tt.
Proof.
  unfold cas_result, write_result. destruct row as [c|]; [| naive_solver].
  destruct (Z.eqb_spec (revision c) expected) as [E | E]; cbn [negb guard_raise rbind];
    [| naive_solver].
  destruct (_require_same_pins c record) as [[]|] eqn:Ep; cbn [rbind]; 
    [| split; [done | intros (? & [= <-] & _ & Hp & _); congruence]].
  rewrite valued_ok, make_execution_ok. naive_solver.
Qed.

Lemma save_result_ok row record expected s :
  save_result row record expected = Ok s <->
  exists c, row = Some c /\ revision c = expected /\ decision_id c = decision_id record
    /\ x_plan c = x_plan record
    /\ s = resaved c record expected /\ execution_check s = Ok tt.
Proof.
  unfold save_result, write_result. destruct row as [c|]; [| naive_solver].
  destruct (Z.eqb_spec (revision c) expected) as [E | E]; cbn [negb guard_raise rbind];
    [| naive_solver].
  destruct (_require_same_plan c _ _) as [x|] eqn:Ep; cbn [rbind].
  - apply require_same_plan_ok in Ep as (-> & Hd & Hp).
    rewrite valued_ok, make_execution_ok. naive_solver.
  - split; [done |]. intros (c' & [= <-] & _ & Hd & Hp & _).
    rewrite (proj2 (require_same_plan_ok c _ _ c)) in Ep by done. done.
Qed.

Lemma bind_result_new i b s :
  bind_result None i b = Ok s <->
  s = prepared i (b_authorization b) (b_version b) (b_decision b) (b_plan b) (b_now b)
  /\ execution_check s = Ok tt.
Proof. simpl. unfold new_execution. rewrite valued_ok, make_execution_ok. naive_solver. Qed.

(** A write keeps what the execution is pinned to and is the next revision. *)
Lemma cas_keeps_pins c record s :
  cas_result (Some c) record (revision c) = Ok s ->
  same_pins s c /\ revision s = revision c + 1 /\ good (execution_id c) s /\ execution_id record = execution_id c.
Proof.
  intros (c' & [= <-] & _ & Hp & -> & Hs)%cas_result_ok.
  apply require_same_pins_ok in Hp as (? & ? & ? & ? & ?).
  unfold same_pins, good. simpl. naive_solver.
Qed.

(** The in-memory methods, in one step. *)
Lemma memory_cas_spec record expected (d : dict Execution) :
  MemoryExecutions.cas_replace record expected d =
  let r := cas_result (d_get (execution_id record) d) record expected in
  (r, match r with Ok s => d_set (execution_id record) s d | Err _ => d end).
Proof.
  unfold MemoryExecutions.cas_replace, MemoryExecutions.current_at, MemoryExecutions.get,
    cas_result, write_result. act_run.
  destruct (d_get (execution_id record) d) as [c|]; [| done].
  destruct (negb (revision c =? expected)); [done |].
  destruct (_require_same_pins c record) as [[]|]; [| done].
  by destruct (valued _).
Qed.

Lemma memory_save_spec record expected (d : dict Execution) :
  MemoryExecutions.save record expected d =
  let r := save_result (d_get (execution_id record) d) record expected in
  (r, match r with Ok s => d_set (execution_id record) s d | Err _ => d end).
Proof.
  unfold MemoryExecutions.save, MemoryExecutions.current_at, MemoryExecutions.get,
    save_result, write_result. act_run.
  destruct (d_get (execution_id record) d) as [c|]; [| done].
  destruct (negb (revision c =? expected)); [done |].
  destruct (_require_same_plan c _ _); [| done]. by destruct (valued _).
Qed.

Lemma memory_bind_spec sha256_hex b (d : dict Execution) :
  MemoryExecutions.bind sha256_hex b d =
  match valued (Authorization.authorized_execution_id sha256_hex (b_key b)) with
  | Err e => (Err e, d)
  | Ok i =>
      let r := bind_result (d_get i d) i b in
      (r, match d_get i d, r with None, Ok s => d_set i s d | _, _ => d end)
  end.
Proof.
  unfold MemoryExecutions.bind, MemoryExecutions.get, bind_result. act_run.
  destruct (valued _) as [i|]; [| done].
  destruct (d_get i d) as [e|] eqn:E; [done |].
  destruct (new_execution i b); [| done]. by rewrite E.
Qed.

Section Sql.
Variable sha256_hex : string -> string.
Context {P : Type} (encode_entity : Execution -> P) (decode_entity : P -> option Execution)
        (decode_encode : forall r, execution_check r = Ok tt ->
                                   decode_entity (encode_entity r) = Some r).
Variable env : nat -> op_table P -> op_table P.
Implicit Types t : op_table P.

Notation store_rows_ok := (rows_ok decode_entity RESEARCH_AUTHORIZED_EXECUTIONS good revision).
Notation at_row := (row_at decode_entity RESEARCH_AUTHORIZED_EXECUTIONS).
Notation puts := (put decode_entity RESEARCH_AUTHORIZED_EXECUTIONS good revision).

Definition sql_ok t : Prop := table_ok t /\ store_rows_ok t.

Lemma decode_good k r : good k r -> decode_entity (encode_entity r) = Some r.
Proof. intros [H _]. by apply decode_encode. Qed.

Lemma execution_load_spec i t : sql_ok t -> _load decode_entity i t = (Ok (at_row t i), t).
Proof.
  intros [_ Ht]. unfold _load.
  rewrite (get_versioned_row decode_entity RESEARCH_AUTHORIZED_EXECUTIONS good revision t i Ht).
  destruct (at_row t i) as [r|]; [| done]. by rewrite Z.eqb_refl.
Qed.

(** Other workers never rewrite a revision, and never remove an execution. *)
Definition newer (r r' : option Execution) : Prop :=
  match r with
  | None => True
  | Some e => exists e', r' = Some e' /\ (e' = e \/ revision e < revision e')
  end.

Definition others_ok : Prop :=
  forall n t, sql_ok t -> sql_ok (env n t) /\ forall i, newer (at_row t i) (at_row (env n t) i).

(** A write that read [t] is the write of the row it finds after the others,
    or the row has moved on. *)
Lemma sql_swap_spec t record expected c stored :
  others_ok -> sql_ok t -> at_row t (execution_id record) = Some c -> revision c = expected ->
  good (execution_id record) stored -> revision stored = expected + 1 ->
  match at_row (env 0 t) (execution_id record) with
  | Some c' => if revision c' =? expected
               then c' = c /\ exists t', swap encode_entity env record stored expected t = (Ok stored, t')
                    /\ puts (execution_id record) stored (env 0 t) t'
               else swap encode_entity env record stored expected t
                    = (Err (stale record expected), env 0 t)
  | None => False
  end.
Proof.
  intros Henv Ht Hc Hrev Hg Hst. destruct (Henv 0%nat t Ht) as [[Ht0 Hr0] Hnew].
  specialize (Hnew (execution_id record)). rewrite Hc in Hnew. destruct Hnew as (c' & E & Hlt).
  rewrite E. unfold swap, others. act_run. rewrite Hst.
  destruct (Z.eqb_spec (revision c') expected) as [He | He].
  - assert (c' = c) as -> by (destruct Hlt; [done | lia]). split; [done |].
    destruct (cas_hit encode_entity decode_entity _ good revision decode_good (env 0 t)
                (execution_id record) c stored None Ht0 Hr0 E Hg) as (t' & Hcas & Hput).
    rewrite Hrev, Hst in Hcas. rewrite Hcas. eauto.
  - rewrite (cas_miss encode_entity decode_entity _ good revision (env 0 t)
               (execution_id record) stored expected (expected + 1) None Ht0 Hr0); [done |].
    intros x Hx. congruence.
Qed.

(** A compare-and-swap with nothing in between. *)
Lemma sql_cas_alone record expected t :
  sql_ok t ->
  let r := cas_result (at_row t (execution_id record)) record expected in
  exists t', cas_replace encode_entity decode_entity (fun _ t => t) record expected t = (r, t')
    /\ match r with Ok s => puts (execution_id record) s t t' | Err _ => t' = t end.
Proof.
  intros Ht r. unfold r, cas_replace, current_at. act_run. rewrite execution_load_spec by done.
  unfold cas_result, write_result.
  destruct (at_row t (execution_id record)) as [c|] eqn:Ec; [| eauto].
  destruct (Z.eqb_spec (revision c) expected) as [Erev | Erev]; cbn [negb guard_raise rbind]; [| eauto].
  destruct (_require_same_pins c record) as [[]|] eqn:Ep; cbn [rbind]; [| eauto].
  destruct (valued _) as [s|] eqn:Ev; [| eauto].
  apply valued_ok, make_execution_ok in Ev as [-> Hs].
  unfold swap, others. act_run. destruct Ht as [Ht0 Hr0].
  assert (good (execution_id record) (replacement c record expected)) as Hg by (split; done).
  destruct (cas_hit encode_entity decode_entity _ good revision decode_good t
              (execution_id record) c _ None Ht0 Hr0 Ec Hg) as (t' & Hcas & Hput).
  rewrite Erev in Hcas. rewrite Hcas. eauto.
Qed.
End Sql.
End ExecutionRows.

(** ** What any workers do to the executions *)
Module ExecutionHistory.
Import OperationalStore SqlExecutions ExecutionRows.

Inductive call :=
| Get (i : string)
| Bind (b : binding_request)
| Save (record : Execution) (expected : Z)
| CasReplace (record : Execution) (expected : Z).

Section Histories.
Context {sha256_hex : string -> string} {P : Type}
        {encode_entity : Execution -> P} {decode_entity : P -> option Execution}.
Notation at_row := (row_at decode_entity RESEARCH_AUTHORIZED_EXECUTIONS).
Notation ok := (sql_ok decode_entity).
Notation puts := (put decode_entity RESEARCH_AUTHORIZED_EXECUTIONS good revision).
Implicit Types (t : op_table P) (env : nat -> op_table P -> op_table P).

Definition call_run env (c : call) : act (op_table P) exec_exn (option Execution) :=
  match c with
  | Get i => get decode_entity i
  | Bind b => do! r := bind sha256_hex encode_entity decode_entity env b in a_ret (Some r)
  | Save record expected =>
      do! r := save encode_entity decode_entity env record expected in a_ret (Some r)
  | CasReplace record expected =>
      do! r := cas_replace encode_entity decode_entity env record expected in a_ret (Some r)
  end.

(** Calls of any workers: at every place where others may commit during a
    call, whole histories of calls may run. *)
Inductive runs : op_table P -> op_table P -> Prop :=
| Idle t : runs t t
| Then t1 t2 t3 : runs t1 t2 -> runs t2 t3 -> runs t1 t3
| Call env c t : (forall n u, runs u (env n u)) -> runs t (call_run env c t).2.

(** An execution that exists keeps its pins; any change is a later revision. *)
Definition pinned (r r' : option Execution) : Prop :=
  match r with
  | None => True
  | Some e => exists e', r' = Some e' /\ same_pins e' e /\ (e' = e \/ revision e < revision e')
  end.

Definition moves t t' : Prop := ok t' /\ forall i, pinned (at_row t i) (at_row t' i).

Lemma same_pins_refl e : same_pins e e.
Proof. by unfold same_pins. Qed.

Lemma pinned_refl r : pinned r r.
Proof. destruct r as [e|]; simpl; [| done]. exists e. auto using same_pins_refl. Qed.

Lemma pinned_trans r1 r2 r3 : pinned r1 r2 -> pinned r2 r3 -> pinned r1 r3.
Proof.
  destruct r1 as [e1|]; [| done]. intros (e2 & -> & Hp & Hr) (e3 & -> & Hp' & Hr').
  exists e3. split; [done |]. split; [unfold same_pins in *; intuition congruence |].
  destruct Hr as [-> | ?], Hr' as [-> | ?]; auto with lia.
Qed.

Lemma moves_refl t : ok t -> moves t t.
Proof. intros H. split; [done | intros i; apply pinned_refl]. Qed.

Lemma moves_trans t1 t2 t3 : moves t1 t2 -> moves t2 t3 -> moves t1 t3.
Proof. intros [_ H1] [Ht H2]. split; [done |]. intros i. by eapply pinned_trans. Qed.

(** One row written over another of the same pins, or where there was none. *)
Lemma put_moves i s t t' : puts i s t t' -> pinned (at_row t i) (Some s) -> moves t t'.
Proof.
  intros (Ht & Hr & Hs & _ & Hoff) Hp. split; [by split |]. intros j.
  destruct (decide (j = i)) as [-> | Hj]; [by rewrite Hs |]. rewrite Hoff by done. apply pinned_refl.
Qed.

Lemma moves_others_ok env : (forall n u, ok u -> moves u (env n u)) -> others_ok decode_entity env.
Proof.
  intros H n u Hu. destruct (H n u Hu) as [Hok Hrows]. split; [done |]. intros i.
  specialize (Hrows i). destruct (at_row u i) as [e|]; [| done].
  destruct Hrows as (e' & -> & _ & Hr). simpl. eauto.
Qed.

Hypothesis decode_encode :
  forall r, execution_check r = Ok tt -> decode_entity (encode_entity r) = Some r.

Lemma swap_moves env t record expected c stored :
  (forall n u, ok u -> moves u (env n u)) -> ok t ->
  at_row t (execution_id record) = Some c -> revision c = expected ->
  good (execution_id record) stored -> same_pins stored c -> revision stored = expected + 1 ->
  moves t (swap encode_entity env record stored expected t).2.
Proof.
  intros Henv Ht Hc Hrev Hg Hpins Hst.
  pose proof (sql_swap_spec encode_entity decode_entity decode_encode env t record expected c stored
                (moves_others_ok env Henv) Ht Hc Hrev Hg Hst) as H.
  destruct (at_row (env 0%nat t) (execution_id record)) as [c'|] eqn:E; [| done].
  destruct (revision c' =? expected).
  - destruct H as (-> & t' & -> & Hput). apply (moves_trans _ (env 0%nat t)); [by apply Henv |].
    eapply put_moves; [exact Hput |]. rewrite E. exists stored. split; [done |].
    split; [done | right; lia].
  - rewrite H. by apply Henv.
Qed.

Lemma insert_moves i s t :
  ok t -> good i s -> revision s = 1 -> moves t (insert encode_entity i s t).2.
Proof.
  intros Ht Hg Hs. unfold insert. destruct Ht as [Ht Hr]. destruct (at_row t i) as [e|] eqn:E.
  - rewrite (insert_taken encode_entity decode_entity _ good revision t i e s 1 None Hr E).
    apply moves_refl. by split.
  - destruct (insert_new encode_entity decode_entity _ good revision (decode_good _ _ decode_encode)
                t i s None Ht Hr E Hg) as (t' & Hi & Hput).
    rewrite Hs in Hi. rewrite Hi. eapply put_moves; [exact Hput |]. by rewrite E.
Qed.

(** A method that first reads its row. *)
Lemma current_moves env t record expected (k : Execution -> act (op_table P) exec_exn Execution) :
  ok t ->
  (forall c, at_row t (execution_id record) = Some c -> revision c = expected -> moves t (k c t).2) ->
  moves t ((do! c := current_at decode_entity record expected in k c) t).2.
Proof.
  intros Ht Hk. unfold current_at. act_run. rewrite execution_load_spec by done.
  destruct (at_row t (execution_id record)) as [c|]; [| by apply moves_refl].
  destruct (Z.eqb_spec (revision c) expected); cbn [negb]; [by apply Hk | by apply moves_refl].
Qed.

Lemma row_good t i c : ok t -> at_row t i = Some c -> good i c.
Proof. intros [_ Hr] Hc. exact (row_at_good decode_entity _ good revision t i c Hr Hc). Qed.

Lemma save_moves env t record expected :
  (forall n u, ok u -> moves u (env n u)) -> ok t ->
  moves t (save encode_entity decode_entity env record expected t).2.
Proof.
  intros Henv Ht. apply current_moves; [exact env | done |]. intros c Hc Hrev. act_run.
  destruct (_require_same_plan c _ _) as [x|] eqn:Ep; [| by apply moves_refl].
  destruct (valued _) as [s|] eqn:Ev; [| by apply moves_refl].
  apply valued_ok, make_execution_ok in Ev as [-> Hs].
  destruct (row_good t _ c Ht Hc) as [_ Hid].
  by eapply swap_moves.
Qed.

Lemma cas_moves env t record expected :
  (forall n u, ok u -> moves u (env n u)) -> ok t ->
  moves t (cas_replace encode_entity decode_entity env record expected t).2.
Proof.
  intros Henv Ht. apply current_moves; [exact env | done |]. intros c Hc Hrev. act_run.
  destruct (_require_same_pins c record) as [[]|] eqn:Ep; [| by apply moves_refl].
  destruct (valued _) as [s|] eqn:Ev; [| by apply moves_refl].
  apply valued_ok, make_execution_ok in Ev as [-> Hs].
  apply require_same_pins_ok in Ep.
  eapply swap_moves; try done. unfold same_pins; simpl; intuition.
Qed.

Lemma bind_moves env b t :
  (forall n u, ok u -> moves u (env n u)) -> ok t ->
  moves t (bind sha256_hex encode_entity decode_entity env b t).2.
Proof.
  intros Henv Ht. unfold bind. act_run. destruct (valued _) as [i|]; [| by apply moves_refl].
  assert (moves t (bind_once encode_entity decode_entity env i b t).2) as Honce.
  { unfold bind_once. act_run. rewrite execution_load_spec by done.
    destruct (at_row t i) as [e|]; [by apply moves_refl |].
    destruct (new_execution i b) as [s|] eqn:Es; [| by apply moves_refl].
    apply (bind_result_new i b s) in Es as [-> Hs]. unfold others. act_run.
    apply (moves_trans _ (env 1%nat t)); [by apply Henv |].
    by apply insert_moves; [apply Henv | split |]. }
  destruct (bind_once _ _ _ _ _ t) as [r t1]. cbn [snd] in Honce.
  assert (forall A (m : act (op_table P) exec_exn A), (forall u, ok u -> (m u).2 = u) ->
            moves t ((do! _ := others env 0 in m) t1).2) as Hread.
  { intros A m Hm. unfold others. act_run. apply (moves_trans _ t1); [done |].
    destruct (Henv 0%nat t1) as [Hok Hrows]; [by apply Honce |]. rewrite Hm by done. by split. }
  destruct r as [s | [| | | [|]]]; try done. apply Hread. intros u Hu. act_run.
  rewrite execution_load_spec by done. by destruct (at_row u i).
Qed.

(** C37: stored executions stay what the constructor accepts. Let any workers
    bind, save, compare-and-swap and read executions, each call broken by
    whole histories of other calls wherever the database lets others commit.
    Then every row still decodes to a record the validation accepts, under its
    own id and with the row's version as its revision; and an execution that
    existed keeps its plan, decision, authorization, id and creation instant
    for ever, unchanged or at a later revision. *)
Theorem executions_stay_well_formed t t' : runs t t' -> ok t -> moves t t'.
Proof.
  induction 1 as [t | t1 t2 t3 _ IH1 _ IH2 | env c t _ Henv]; intros Ht.
  - by apply moves_refl.
  - apply (moves_trans _ t2); [by apply IH1 |]. by apply IH2, IH1.
  - destruct c; simpl; unfold get; act_run; rewrite ?execution_load_spec by done.
    + by apply moves_refl.
    + pose proof (bind_moves env b t Henv Ht) as H. by destruct (bind _ _ _ _ _ _) as [[] ?].
    + pose proof (save_moves env t record expected Henv Ht) as H.
      by destruct (save _ _ _ _ _ _) as [[] ?].
    + pose proof (cas_moves env t record expected Henv Ht) as H.
      by destruct (cas_replace _ _ _ _ _ _) as [[] ?].
Qed.
End Histories.

Definition hash0 (b : string) : string := String.concat "" (repeat "0123456789abcdef"%string 4).
Definition noon : datetime := Datetime 1700000000000000 true.
Definition binding0 : binding_request :=
  {| b_key := "research-auth:key-0"; b_decision := "dec-1"; b_plan := "plan-1"; b_authorization := "auth-1";
     b_version := 1; b_now := noon |}.

(** The execution [binding0] prepares, and a worker that saves it. *)
Definition bound : op_table Execution :=
  (call_run (sha256_hex := hash0) (encode_entity := id) (decode_entity := Some)
     (fun _ t => t) (Bind binding0) (OpTable [] 1)).2.
Definition saved : op_table Execution :=
  (call_run (sha256_hex := hash0) (encode_entity := id) (decode_entity := Some) (fun _ t => t)
     (Save (prepared (String.append "research-exec:" (substring 0 32 (hash0 ""))) "auth-1" 1 "dec-1" "plan-1" noon) 1)
     bound).2.

Example saved_revision : map op_seq (op_rows saved) = [2].
Proof. vm_compute. reflexivity. Qed.

Lemma executions_stay_well_formed_witness : moves (decode_entity := Some) (OpTable [] 1) saved.
Proof.
  apply (executions_stay_well_formed (sha256_hex := hash0) (encode_entity := id)).
  - done.
  - apply (Then _ bound); apply Call; intros; apply Idle.
  - split; [apply table_ok_empty |]. intros k r H. discriminate H.
Defined.

End ExecutionHistory.
