(* ===== verification/ClaimTx.v ===== *)
(** The unit of work of a live start: [ClaimTransaction] of
    [app/research/live_start_claim.py].

    Module [Rows]: the three kinds of rows a claim commits, as maps, with the
    writes of one transaction over them. Module [TxInterface]: the protocol as
    a class, and its laws: other workers commit between the calls, a call may
    find the database down, the writes of the transaction are its own until it
    commits, and then all of them are visible at once. The two
    implementations are in [ClaimTxMemory] and [ClaimTxSql]. *)

From S2P Require Import Prelude PyStr Json Clock Connector Breaker PyState OpStore BreakerRepo Research Authorization Conversation ConversationRepo ConversationHistory Execution ExecutionRepo.
Import Connector Breaker Research Authorization Context Lifecycle Common.
Import Execution.Record Pins ExecutionRows.
#[local] Open Scope Z_scope.

(** ** Rows and writes *)
Module Rows.
Section Rows.
Context {Refinement : Type}.
Notation Ctx := (ConversationContext Refinement).

Record rows := Rows {
  exec_at : string -> option Execution;
  brk_at : string -> option ProviderReliabilityState;
  conv_at : string -> option Ctx
}.

(** Equal at every key. *)
Definition rows_eq (a b : rows) : Prop :=
  (forall i, exec_at a i = exec_at b i) /\ (forall k, brk_at a k = brk_at b k)
  /\ forall i, conv_at a i = conv_at b i.

#[global] Instance rows_equivalence : Equivalence rows_eq.
Proof.
  split.
  - by intros a.
  - intros a b (H1 & H2 & H3). by repeat split.
  - intros a b c (H1 & H2 & H3) (H4 & H5 & H6). repeat split; intros; congruence.
Qed.

(** [WDrop]: the removal of an expired conversation a read has found. *)
Inductive write :=
| WExec (r : Execution)
| WBreaker (s : ProviderReliabilityState)
| WConversation (c : Ctx)
| WDrop (i : string).

Definition set_at {V} (k : string) (v : option V) (f : string -> option V) : string -> option V :=
  fun k' => if String.eqb k' k then v else f k'.

Definition apply_write (p : rows) (w : write) : rows :=
  match w with
  | WExec r => Rows (set_at (execution_id r) (Some r) (exec_at p)) (brk_at p) (conv_at p)
  | WBreaker s => Rows (exec_at p) (set_at (RepoInterface.key_of s) (Some s) (brk_at p)) (conv_at p)
  | WConversation c => Rows (exec_at p) (brk_at p) (set_at (conversation_id c) (Some c) (conv_at p))
  | WDrop i => Rows (exec_at p) (brk_at p) (set_at i None (conv_at p))
  end.

(** What the transaction itself reads. *)
Definition view (ws : list write) (p : rows) : rows := foldl apply_write p ws.

Inductive row_key := KExec (i : string) | KBreaker (k : string) | KConversation (i : string).

#[global] Instance row_key_eq_dec : EqDecision row_key.
Proof. solve_decision. Defined.

Definition key_of_write (w : write) : row_key :=
  match w with
  | WExec r => KExec (execution_id r)
  | WBreaker s => KBreaker (RepoInterface.key_of s)
  | WConversation c => KConversation (conversation_id c)
  | WDrop i => KConversation i
  end.

Definition same_row (k : row_key) (a b : rows) : Prop :=
  match k with
  | KExec i => exec_at a i = exec_at b i
  | KBreaker k => brk_at a k = brk_at b k
  | KConversation i => conv_at a i = conv_at b i
  end.

Lemma rows_eq_iff a b : rows_eq a b <-> forall k, same_row k a b.
Proof.
  split.
  - intros (H1 & H2 & H3) [i | k | i]; simpl; auto.
  - intros H. split; [intros i; apply (H (KExec i)) |].
    split; [intros k; apply (H (KBreaker k)) | intros i; apply (H (KConversation i))].
Qed.

Lemma set_at_eq {V} k (v : option V) f : set_at k v f k = v.
Proof. unfold set_at. by rewrite String.eqb_refl. Qed.

Lemma set_at_ne {V} k k' (v : option V) f : k' <> k -> set_at k v f k' = f k'.
Proof. intros H. unfold set_at. by destruct (String.eqb_spec k' k). Qed.

Lemma same_row_refl k a : same_row k a a.
Proof. by destruct k. Qed.

Lemma same_row_sym k a b : same_row k a b -> same_row k b a.
Proof. destruct k; simpl; congruence. Qed.

Lemma same_row_trans k a b c : same_row k a b -> same_row k b c -> same_row k a c.
Proof. destruct k; simpl; congruence. Qed.

(** A write changes its own row and no other. *)
Lemma apply_other w p k : key_of_write w <> k -> same_row k (apply_write p w) p.
Proof.
  destruct w, k; simpl; intros H; try done; apply set_at_ne; congruence.
Qed.

Lemma apply_same w p q : same_row (key_of_write w) (apply_write p w) (apply_write q w).
Proof. destruct w; simpl; by rewrite !set_at_eq. Qed.

Lemma apply_agree w p q k : same_row k p q -> same_row k (apply_write p w) (apply_write q w).
Proof.
  intros H. destruct (decide (key_of_write w = k)) as [<- | Hne]; [apply apply_same |].
  eapply same_row_trans; [by apply apply_other |]. eapply same_row_trans; [exact H |].
  by apply same_row_sym, apply_other.
Qed.

Lemma view_app ws vs p : view (ws ++ vs) p = view vs (view ws p).
Proof. apply foldl_app. Qed.

Lemma view_agree ws p q k : same_row k p q -> same_row k (view ws p) (view ws q).
Proof.
  revert p q. induction ws as [|w ws IH]; intros p q H; simpl; [done |]. apply IH, apply_agree, H.
Qed.

(** A row the transaction has not written is the shared one. *)
Lemma view_other ws p k : k ∉ map key_of_write ws -> same_row k (view ws p) p.
Proof.
  revert p. induction ws as [|w ws IH]; intros p H; simpl in *; [apply same_row_refl |].
  apply not_elem_of_cons in H as [Hne Hin].
  eapply same_row_trans; [by apply IH |]. by apply apply_other.
Qed.

Lemma view_proper ws p q : rows_eq p q -> rows_eq (view ws p) (view ws q).
Proof. rewrite !rows_eq_iff. intros H k. apply view_agree, H. Qed.

(** A row the transaction has written does not depend on the shared one. *)
Lemma view_written ws p q k : k ∈ map key_of_write ws -> same_row k (view ws p) (view ws q).
Proof.
  revert p q. induction ws as [|w ws IH]; intros p q; simpl; [by intros H%elem_of_nil |].
  intros [-> | H]%elem_of_cons; [apply view_agree, apply_same | by apply IH].
Qed.

(** *** What other workers may do meanwhile *)

Variable cfg : settings.

(** Stored rows are valid, under their own keys. *)
Record rows_ok (p : rows) : Prop := {
  ok_exec : forall i r, exec_at p i = Some r -> good i r;
  ok_brk : forall k s, brk_at p k = Some s ->
    wf s /\ RepoInterface.key_of s = k /\ 1 <= Breaker.revision s;
  ok_conv : forall i c, conv_at p i = Some c -> History.row_ok cfg i c;
  ok_auth : forall i c, conv_at p i = Some c ->
    Forall (fun a => Authorization.authorization_post_init a = Ok a) (research_authorizations c)
}.

(** A revision is never rewritten and never removed. *)
Definition newer_brk (r r' : option ProviderReliabilityState) : Prop :=
  match r with
  | None => True
  | Some s => exists s', r' = Some s' /\ (s' = s \/ Breaker.revision s < Breaker.revision s')
  end.

Record evolves (p q : rows) : Prop := {
  ev_ok : rows_ok q;
  ev_exec : forall i, newer (exec_at p i) (exec_at q i);
  ev_brk : forall k, newer_brk (brk_at p k) (brk_at q k)
}.

(** Only expired conversations went away. *)
Definition calm (clock : datetime) (p q : rows) : Prop :=
  (forall i, exec_at q i = exec_at p i) /\ (forall k, brk_at q k = brk_at p k)
  /\ History.expiry clock (conv_at p) (conv_at q).

Lemma newer_refl (r : option Execution) : newer r r.
Proof. destruct r; simpl; eauto. Qed.
Lemma newer_brk_refl r : newer_brk r r.
Proof. destruct r; simpl; eauto. Qed.

Lemma newer_trans (a b c : option Execution) : newer a b -> newer b c -> newer a c.
Proof.
  destruct a as [x|]; [| done]. intros (y & -> & Hy) (z & -> & Hz). exists z. split; [done |].
  destruct Hy as [-> | Hy], Hz as [-> | Hz]; auto. right. lia.
Qed.
Lemma newer_brk_trans a b c : newer_brk a b -> newer_brk b c -> newer_brk a c.
Proof.
  destruct a as [x|]; [| done]. intros (y & -> & Hy) (z & -> & Hz). exists z. split; [done |].
  destruct Hy as [-> | Hy], Hz as [-> | Hz]; auto. right. lia.
Qed.

Lemma evolves_refl p : rows_ok p -> evolves p p.
Proof. intros H. split; [done | intros; apply newer_refl | intros; apply newer_brk_refl]. Qed.

Lemma evolves_trans p q r : evolves p q -> evolves q r -> evolves p r.
Proof.
  intros [_ H1 H2] [H3 H4 H5]. split; [done | intros i | intros k];
    [eapply newer_trans | eapply newer_brk_trans]; eauto.
Qed.

Lemma calm_refl clock p : calm clock p p.
Proof. repeat split; by left. Qed.

Lemma calm_trans clock p q r : calm clock p q -> calm clock q r -> calm clock p r.
Proof.
  intros (H1 & H2 & H3) (H4 & H5 & H6). split; [| split].
  - intros i. by rewrite H4, H1.
  - intros k. by rewrite H5, H2.
  - intros i. destruct (H6 i) as [-> | (c & E & Hx & ->)]; [apply H3 |]. right.
    destruct (H3 i) as [E' | (c' & _ & _ & E')]; [| congruence]. exists c. by rewrite <- E', E.
Qed.
End Rows.
Arguments rows : clear implicits.
Arguments write : clear implicits.
End Rows.
Import Rows.

(** ** The protocol *)
Module TxInterface.

Inductive tx_exn :=
| TxExecution (e : exec_exn)
| TxBreaker (e : rel_exn)
| TxConversation (e : conv_exn)
| TxUnavailable.

(** [_AuthorizationConsumption]. *)
Record AuthorizationConsumption := {
  ac_conversation_id : string; ac_consumption : consumption; ac_expected_version : Z
}.

Class ClaimTransaction (Refinement T : Type) := {
  lock_for_claim : act T tx_exn unit;
  load_execution : string -> act T tx_exn (option Execution);
  reload_execution : string -> act T tx_exn (option Execution);
  load_breaker : string -> string -> datetime -> act T tx_exn ProviderReliabilityState;
  load_conversation : string -> act T tx_exn (option (ConversationContext Refinement));
  consume_authorization :
    AuthorizationConsumption -> act T tx_exn (ConversationContext Refinement);
  cas_execution : Execution -> Z -> act T tx_exn Execution;
  cas_breaker : ProviderReliabilityState -> Z -> act T tx_exn ProviderReliabilityState;
  commit : act T tx_exn unit;
  rollback : act T tx_exn unit;
  close : act T tx_exn unit
}.

Section Laws.
Context {Refinement T : Type}.
Variables (sha256_hex : string -> string) (cfg : settings).
Notation Ctx := (ConversationContext Refinement).
Implicit Types (p q : rows Refinement) (ws : list (write Refinement)) (σ : T).

(** The breaker a read returns. *)
Definition breaker_result p (provider market : string) (now : datetime)
    : result rel_exn ProviderReliabilityState :=
  match reliability_record_key provider market with
  | Err e => Err e
  | Ok k => match brk_at p k with
            | Some s => Ok s
            | None => closed_reliability_state provider market now
            end
  end.

Definition swap_breaker_result p (s : ProviderReliabilityState) (expected : Z)
    : result rel_exn ProviderReliabilityState :=
  if RepoInterface.row_revision (brk_at p (RepoInterface.key_of s)) =? expected
  then Ok (Breaker.set_revision (expected + 1) s)
  else Err (ReliabilityRevisionConflict (Breaker.provider_id s) (Breaker.market s) expected).

(** The conversation a consumption stores, when it stores one. *)
Definition consumed_row p (a : AuthorizationConsumption) (c : Ctx) : Prop :=
  exists e u, conv_at p (ac_conversation_id a) = Some e
    /\ persistence_version e = ac_expected_version a
    /\ consume_exact_research_authorization sha256_hex e (ac_consumption a) = Ok u
    /\ c = History.stored_as cfg (persistence_version e + 1) u.

Definition unwritten_conversation (i : string) ws : Prop :=
  KConversation i ∉ map key_of_write ws.

(** Rows the transaction has written are its own until it ends; the others
    move the rest as [can] allows. *)
Definition others (can : rows Refinement -> rows Refinement -> Prop) ws p q : Prop :=
  can p q /\ forall k, k ∈ map key_of_write ws -> same_row k p q.

(** The others act, then the call finds the database down or does what [does]
    says on the rows it sees. [at_ σ p ws]: other workers see [p] and the
    transaction has written [ws] over it. [quiet]: no other worker and no
    failure until the transaction ends. *)
Definition ran (can : rows Refinement -> rows Refinement -> Prop)
    (at_ : T -> rows Refinement -> list (write Refinement) -> Prop) (quiet : T -> Prop)
    (clock : datetime) {A} σ p ws (r : result tx_exn A * T)
    (does : rows Refinement -> result tx_exn A -> list (write Refinement) -> Prop) : Prop :=
  exists q vs, others can ws p q /\ at_ r.2 q (ws ++ vs)
    /\ (quiet σ -> quiet r.2 /\ calm clock p q /\ r.1 <> Err TxUnavailable)
    /\ ((r.1 = Err TxUnavailable /\ vs = []) \/ does q r.1 vs).

(** The errors of a consumption that the services handle. *)
Definition handled (x : conv_exn) : bool :=
  match x with
  | VersionConflict _ _ | OwnershipError _ _ | AuthorizationError (Authorization.NotFound _)
  | AuthorizationError (Authorization.ValidationError _)
  | AuthorizationError (Authorization.ConsumptionConflict _ _) => true
  | _ => false
  end.

Class TransactionLaws `{ClaimTransaction Refinement T} := {
  (** What other workers may do to the shared rows. *)
  can : rows Refinement -> rows Refinement -> Prop;
  can_refl : forall p, rows_ok cfg p -> can p p;
  can_trans : forall p q r, can p q -> can q r -> can p r;
  can_evolves : forall p q, can p q -> evolves cfg p q;

  tx_at : T -> rows Refinement -> list (write Refinement) -> Prop;
  quiet : T -> Prop;
  (** The clock of the conversation repository. *)
  clock : datetime;
  runs {A} σ p ws (r : result tx_exn A * T) does := ran can tx_at quiet clock σ p ws r does;

  tx_rows_ok : forall σ p ws, tx_at σ p ws -> rows_ok cfg p;

  lock_law : forall σ p ws, tx_at σ p ws ->
    runs σ p ws (lock_for_claim σ) (fun q r vs => r = Ok tt /\ vs = []);
  load_law : forall σ p ws i, tx_at σ p ws ->
    runs σ p ws (load_execution i σ) (fun q r vs => r = Ok (exec_at (view ws q) i) /\ vs = []);
  reload_law : forall σ p ws i, tx_at σ p ws ->
    runs σ p ws (reload_execution i σ) (fun q r vs => r = Ok (exec_at (view ws q) i) /\ vs = []);
  load_breaker_law : forall σ p ws provider market now, tx_at σ p ws ->
    runs σ p ws (load_breaker provider market now σ)
      (fun q r vs => vs = [] /\
         r = match breaker_result (view ws q) provider market now with
             | Ok s => Ok s
             | Err e => Err (TxBreaker e)
             end);
  load_conversation_law : forall σ p ws i, tx_at σ p ws -> unwritten_conversation i ws ->
    runs σ p ws (load_conversation i σ)
      (fun q r vs =>
         (vs = [] /\ r = Ok (conv_at q i)
          /\ forall c, conv_at q i = Some c -> _is_expired clock c = false)
         \/ (vs = [WDrop i] /\ r = Ok None
             /\ exists c, conv_at q i = Some c /\ _is_expired clock c = true));
  consume_law : forall σ p ws a, tx_at σ p ws -> unwritten_conversation (ac_conversation_id a) ws ->
    0 <= ac_expected_version a ->
    runs σ p ws (consume_authorization a σ)
      (fun q r vs =>
         match r with
         | Ok c => vs = [WConversation c] /\ consumed_row q a c
         | Err e => (exists x, e = TxConversation x /\ handled x = true)
             /\ forall e u, conv_at q (ac_conversation_id a) = Some e ->
                  _is_expired clock e = false -> persistence_version e = ac_expected_version a ->
                  consume_exact_research_authorization sha256_hex e (ac_consumption a) <> Ok u
         end);
  cas_execution_law : forall σ p ws record expected, tx_at σ p ws ->
    runs σ p ws (cas_execution record expected σ)
      (fun q r vs =>
         match cas_result (exec_at (view ws q) (execution_id record)) record expected with
         | Ok s => r = Ok s /\ vs = [WExec s]
         | Err e => r = Err (TxExecution e) /\ vs = []
         end);
  cas_breaker_law : forall σ p ws s expected, tx_at σ p ws -> wf s -> 0 <= expected ->
    runs σ p ws (cas_breaker s expected σ)
      (fun q r vs =>
         match swap_breaker_result (view ws q) s expected with
         | Ok s' => r = Ok s' /\ vs = [WBreaker s']
         | Err e => r = Err (TxBreaker e) /\ vs = []
         end);
  (** A commit publishes every write, or none when it raises. *)
  commit_law : forall σ p ws, tx_at σ p ws ->
    exists q, others can ws p q /\ (quiet σ -> calm clock p q)
      /\ ((commit σ).1 = Ok tt /\ tx_at (commit σ).2 (view ws q) []
          \/ ((commit σ).1 = Err TxUnavailable /\ tx_at (commit σ).2 q ws /\ ~ quiet σ));
  (** A rollback leaves no trace of the transaction. *)
  rollback_law : forall σ p ws, tx_at σ p ws ->
    exists q, others can [] p q /\ (quiet σ -> calm clock p q)
      /\ (rollback σ).1 = Ok tt /\ tx_at (rollback σ).2 q [];
  close_law : forall σ p, tx_at σ p [] -> (close σ).1 = Ok tt /\ tx_at (close σ).2 p []
}.
End Laws.
End TxInterface.
