(* ===== verification/ClaimTxMemory.v ===== *)
(** [InMemoryClaimTransaction] of [app/research/live_start_claim.py]: the three
    in-memory repositories, written in place, with the rows a rollback puts
    back. *)

From S2P Require Import Prelude PyStr Json Clock Connector Breaker PyState OpStore BreakerRepo Research Authorization Conversation ConversationRepo ConversationHistory Execution ExecutionRepo ClaimTx.
Import Connector Breaker Research Authorization Context Lifecycle Common.
Import Execution.Record Pins ExecutionRows Rows TxInterface.
#[local] Open Scope Z_scope.

(** ** Consumption, on the row it finds *)
Module Consumption.
Section Consumption.
Context {Refinement : Type} (sha256_hex : string -> string) (cfg : settings) (now : datetime).
Notation Ctx := (ConversationContext Refinement).
Implicit Types (c : Ctx) (d : dict Ctx).

(** A stored conversation a consumption may meet. *)
Definition conversation_ok (i : string) c : Prop :=
  History.row_ok cfg i c
  /\ Forall (fun a => authorization_post_init a = Ok a) (research_authorizations c).

Lemma spent_valid s n a :
  authorization_post_init a = Ok a -> authorization_post_init (with_status s n a) = Ok (with_status s n a).
Proof.
  unfold authorization_post_init, with_status. cbn. intros H.
  repeat match type of H with
  | rbind (guard_raise ?c _) _ = _ =>
      destruct c eqn:?; [discriminate |]; cbn [guard_raise rbind] in H |- *
  end. done.
Qed.

(** A consumption of a stored conversation succeeds or raises an error the
    services handle; it keeps everything but the authorizations. *)
Lemma consume_total i c k :
  conversation_ok i c ->
  match consume_exact_research_authorization sha256_hex c k with
  | Ok u => exists l, u = with_authorizations l c
            /\ Forall (fun a => authorization_post_init a = Ok a) l
  | Err e => handled (AuthorizationError e) = true
  end.
Proof.
  intros [Hrow Hauth]. unfold consume_exact_research_authorization. cbv zeta.
  destruct (negb _); [done |]. cbn [guard_raise rbind].
  destruct (List.filter _ _) as [|a [|? ?]] eqn:Ef; [done | | done].
  assert (authorization_post_init a = Ok a) as Ha.
  { rewrite Forall_forall in Hauth. apply Hauth.
    assert (In a (List.filter (named (k_authorization_id k)) (research_authorizations c))) as H
      by (rewrite Ef; left; done).
    apply filter_In in H as [H _]. by apply list_elem_of_In. }
  destruct (negb (String.eqb _ _)); [done |]. cbn [guard_raise rbind].
  destruct (negb (identity_matches _ _ _)); [done |]. cbn [guard_raise rbind].
  destruct (String.eqb _ _); [done |]. cbn [guard_raise rbind].
  destruct (negb (is_pending_execution a)) eqn:Ep; [done |]. cbn [guard_raise rbind].
  unfold mark_research_authorization_consumed. rewrite Ep. cbn [guard_raise rbind].
  unfold replaced_status. rewrite (spent_valid "consumed" (k_now k) a Ha). cbn [lift rbind].
  set (l := map _ _).
  assert (context_post_init (with_authorizations l c) = Ok (with_authorizations l c)) as ->.
  { pose proof (History.ok_valid _ _ _ Hrow) as Hv. revert Hv. unfold context_post_init. cbn.
    destruct (is_some _ && _); [done |]. cbn. by destruct (_ <? 0). }
  cbn [lift]. exists l. split; [done |]. unfold l. apply Forall_map.
  eapply Forall_impl; [exact Hauth |]. intros x Hx. simpl.
  destruct (named _ x); [| done]. by apply spent_valid.
Qed.

(** The stored successor of a consumed conversation. *)
Definition successor c (l : list ResearchAuthorization) : Ctx :=
  History.stored_as cfg (persistence_version c + 1) (with_authorizations l c).

Lemma members_with_authorizations l c :
  require_context_membership (with_authorizations l c) = require_context_membership c.
Proof. reflexivity. Qed.

Lemma successor_valid i c l :
  conversation_ok i c -> context_post_init (successor c l) = Ok (successor c l).
Proof.
  intros [[_ Hv _ Hp _] _]. apply History.valid_iff in Hp as [Ho _]. apply History.valid_iff.
  simpl. split; [exact Ho | lia].
Qed.

Lemma successor_ok i c l :
  conversation_ok i c -> Forall (fun a => authorization_post_init a = Ok a) l ->
  conversation_ok i (successor c l).
Proof.
  intros Hc Hl. pose proof Hc as [Hrow _]. split; [| exact Hl].
  apply History.stored_ok; [apply Hrow | | by eapply successor_valid |].
  - pose proof (History.ok_version _ _ _ Hrow). simpl. lia.
  - apply (History.members_recent cfg). apply (History.ok_members _ _ _ Hrow).
Qed.

Lemma live_owner i c :
  _is_expired now c = false -> _require_active_owner now i (owner c) = Ok tt.
Proof.
  intros [_ H]%orb_false_iff. unfold _require_active_owner. by rewrite H.
Qed.

Lemma owner_kept l c : owner_changes c (with_authorizations l c) = false.
Proof.
  unfold owner_changes. simpl. destruct (owner c) as [o|]; [| done].
  unfold has_same_identity. by rewrite !String.eqb_refl.
Qed.

(** [save] of a consumed conversation that is live. *)
Lemma memory_save_run i c l x d :
  d_get i d = Some c -> conversation_ok i c -> _is_expired now c = false ->
  Memory.save cfg now (with_authorizations l c) (Some x) d =
  if x =? persistence_version c then (Ok (successor c l), d_set i (successor c l) d)
  else (Err (VersionConflict i x), d).
Proof.
  intros E Hc Hlive. pose proof Hc as [Hrow _]. pose proof (History.ok_id _ _ _ Hrow) as Hi.
  unfold Memory.save. act_run. change (conversation_id (with_authorizations l c)) with (conversation_id c).
  change (owner (with_authorizations l c)) with (owner c). rewrite Hi, live_owner by done.
  unfold Memory.get. act_run. rewrite E, Hlive. unfold require_stable_decision_context.
  change (decision_context (with_authorizations l c)) with (decision_context c).
  rewrite bool_decide_true by done. rewrite andb_false_r. cbn [guard_raise rbind].
  rewrite members_with_authorizations, (History.ok_members _ _ _ Hrow). cbn [drifted default]. unfold id.
  destruct (x =? persistence_version c); cbn [negb]; [| done]. rewrite owner_kept.
  fold (History.stored_as cfg (persistence_version c + 1) (with_authorizations l c)).
  fold (successor c l). by rewrite (History.checked_valid _ (successor_valid i c l Hc)).
Qed.

(** [consume_research_authorization] of a dictionary. *)
Definition consume_result (row : option Ctx) (a : AuthorizationConsumption) : result conv_exn Ctx :=
  match row with
  | None => Err (conversation_missing (ac_conversation_id a))
  | Some c =>
      let! u := authorized (consume_exact_research_authorization sha256_hex c (ac_consumption a)) in
      if ac_expected_version a =? persistence_version c
      then Ok (successor c (research_authorizations u))
      else Err (VersionConflict (ac_conversation_id a) (ac_expected_version a))
  end.

Definition live_row (row : option Ctx) : option Ctx :=
  match row with Some c => if _is_expired now c then None else Some c | None => None end.

Lemma consume_result_spec p row a :
  (forall c, row = Some c -> conversation_ok (ac_conversation_id a) c
                             /\ conv_at p (ac_conversation_id a) = Some c
                             /\ _is_expired now c = false) ->
  match consume_result row a with
  | Ok c => consumed_row sha256_hex cfg p a c /\ conversation_ok (ac_conversation_id a) c
            /\ conversation_id c = ac_conversation_id a
  | Err e => handled e = true
             /\ forall c u, row = Some c -> persistence_version c = ac_expected_version a ->
                  consume_exact_research_authorization sha256_hex c (ac_consumption a) <> Ok u
  end.
Proof.
  intros Hrow. unfold consume_result. destruct row as [c|]; [| by split].
  destruct (Hrow c eq_refl) as (Hc & Hp & Hlive).
  pose proof (consume_total (ac_conversation_id a) c (ac_consumption a) Hc) as Ht.
  destruct (consume_exact_research_authorization _ _ _) as [u|e] eqn:Eu;
    cbn [authorized rbind]; [| split; [done | intros c' u [= <-] _; congruence]].
  destruct Ht as (l & -> & Hl). change (research_authorizations (with_authorizations l c)) with l.
  destruct (Z.eqb_spec (ac_expected_version a) (persistence_version c)) as [Ev | Ev].
  - split; [| split; [by apply successor_ok | apply Hc]]. exists c, (with_authorizations l c).
    split; [done |]. split; [by symmetry |]. split; [exact Eu | reflexivity].
  - split; [done |]. intros c' u' [= <-] Hv. congruence.
Qed.

Lemma memory_consume i k x d :
  let a := {| ac_conversation_id := i; ac_consumption := k; ac_expected_version := x |} in
  (forall c, d_get i d = Some c -> conversation_ok i c) ->
  Memory.consume_research_authorization sha256_hex cfg now i k x d =
  let r := consume_result (live_row (d_get i d)) a in
  (r, match r with
      | Ok c => d_set i c d
      | Err _ => match d_get i d with Some c => if _is_expired now c then d_pop i d else d | None => d end
      end).
Proof.
  intros a Hd. unfold Memory.consume_research_authorization. unfold a_bind at 1. unfold Memory.get.
  act_run. destruct (d_get i d) as [c|] eqn:E; simpl live_row; [| done].
  destruct (_is_expired now c) eqn:Ex; [done |]. unfold consume_result, a. cbn [ac_conversation_id ac_consumption ac_expected_version].
  pose proof (consume_total i c k (Hd c eq_refl)) as Ht.
  destruct (consume_exact_research_authorization _ _ _) as [u|e]; cbn [authorized rbind]; [| done].
  destruct Ht as (l & -> & Hl). rewrite (memory_save_run i c l x d E (Hd c eq_refl) Ex).
  change (research_authorizations (with_authorizations l c)) with l.
  by destruct (x =? persistence_version c).
Qed.
End Consumption.
End Consumption.

(** ** The transaction *)
Module MemoryTx.
Import BreakerRepo.RepoInterface Consumption.
Section MemoryTx.
Context {Refinement : Type}.
Variables (sha256_hex : string -> string) (cfg : settings) (now : datetime).
Notation Ctx := (ConversationContext Refinement).

(** The three repositories, and the rows from before the transaction's own
    writes: [_exec_previous], [_rel_previous], [_conv_previous]. *)
Record memory_tx := MemoryTx {
  m_exec : dict Execution;
  m_brk : gmap string ProviderReliabilityState;
  m_conv : dict Ctx;
  exec_previous : dict (option Execution);
  rel_previous : dict (string * string * option ProviderReliabilityState);
  conv_previous : dict (option Ctx)
}.
Notation tx := (act memory_tx tx_exn).

Definition with_exec d σ := MemoryTx d (m_brk σ) (m_conv σ) (exec_previous σ) (rel_previous σ) (conv_previous σ).
Definition with_brk b σ := MemoryTx (m_exec σ) b (m_conv σ) (exec_previous σ) (rel_previous σ) (conv_previous σ).
Definition with_conv d σ := MemoryTx (m_exec σ) (m_brk σ) d (exec_previous σ) (rel_previous σ) (conv_previous σ).
Definition remember_exec i v σ :=
  MemoryTx (m_exec σ) (m_brk σ) (m_conv σ) (d_set i v (exec_previous σ)) (rel_previous σ) (conv_previous σ).
Definition remember_rel k v σ :=
  MemoryTx (m_exec σ) (m_brk σ) (m_conv σ) (exec_previous σ) (d_set k v (rel_previous σ)) (conv_previous σ).
Definition remember_conv i v σ :=
  MemoryTx (m_exec σ) (m_brk σ) (m_conv σ) (exec_previous σ) (rel_previous σ) (d_set i v (conv_previous σ)).
Definition forget σ := MemoryTx (m_exec σ) (m_brk σ) (m_conv σ) [] [] [].

(** A repository method inside the transaction. *)
Definition on_exec {A} (m : act (dict Execution) exec_exn A) : tx A := fun σ =>
  match m (m_exec σ) with
  | (Ok a, d) => (Ok a, with_exec d σ)
  | (Err e, d) => (Err (TxExecution e), with_exec d σ)
  end.
Definition on_conv {A} (m : act (dict Ctx) conv_exn A) : tx A := fun σ =>
  match m (m_conv σ) with
  | (Ok a, d) => (Ok a, with_conv d σ)
  | (Err e, d) => (Err (TxConversation e), with_conv d σ)
  end.
Definition on_brk {A} (m : act (gmap string ProviderReliabilityState) rel_exn A) : tx A := fun σ =>
  match m (m_brk σ) with
  | (Ok a, b) => (Ok a, with_brk b σ)
  | (Err e, b) => (Err (TxBreaker e), with_brk b σ)
  end.

(** Reads of the reliability repository. *)
Definition brk_read {A} (f : gmap string ProviderReliabilityState -> result rel_exn A) : tx A :=
  on_brk (fun b => (f b, b)).

Definition load_execution (i : string) : tx (option Execution) := on_exec (MemoryExecutions.get i).
Definition load_breaker (provider market : string) (at_ : datetime) : tx ProviderReliabilityState :=
  brk_read (InMemoryRepository.load provider market at_).
Definition load_conversation (i : string) : tx (option Ctx) := on_conv (Memory.get now i).

Definition known {V} (k : string) (d : dict V) : bool := is_some (d_get k d).

Definition consume_authorization (a : AuthorizationConsumption) : tx Ctx :=
  let i := ac_conversation_id a in
  do! σ := a_get in
  do! _ := (if known i (conv_previous σ) then a_ret tt
            else do! previous := load_conversation i in a_mod (remember_conv i previous)) in
  on_conv (Memory.consume_research_authorization sha256_hex cfg now i (ac_consumption a)
             (ac_expected_version a)).

Definition cas_execution (record : Execution) (expected : Z) : tx Execution :=
  do! σ := a_get in
  do! _ := (if known (execution_id record) (exec_previous σ) then a_ret tt
            else do! previous := load_execution (execution_id record) in
                 a_mod (remember_exec (execution_id record) previous)) in
  on_exec (MemoryExecutions.cas_replace record expected).

Definition cas_breaker (s : ProviderReliabilityState) (expected : Z) : tx ProviderReliabilityState :=
  let p := Breaker.provider_id s in
  let m := Breaker.market s in
  do! key := brk_read (fun _ => reliability_record_key p m) in
  do! σ := a_get in
  do! _ := (if known key (rel_previous σ) then a_ret tt
            else
              do! rows := brk_read (InMemoryRepository.row_count p m) in
              do! previous :=
                (if rows =? 1
                 then do! s0 := load_breaker p m (Breaker.updated_at s) in a_ret (Some s0)
                 else a_ret None) in
              a_mod (remember_rel key (p, m, previous))) in
  on_brk (InMemoryRepository.save s expected).

Definition commit : tx unit := a_mod forget.

Definition restore_execs (prev : dict (option Execution)) (d : dict Execution) : dict Execution :=
  foldl (fun d kv => (MemoryExecutions.restore_row kv.1 kv.2 d).2) d prev.
Definition restore_convs (prev : dict (option Ctx)) (d : dict Ctx) : dict Ctx :=
  foldl (fun d kv => (Memory.restore_row kv.1 kv.2 d).2) d prev.
Definition restore_brks (prev : dict (string * string * option ProviderReliabilityState))
    (b : gmap string ProviderReliabilityState)
    : result rel_exn (gmap string ProviderReliabilityState) :=
  foldl (fun b kv => let! b := b in
                     InMemoryRepository.restore_row kv.2.1.1 kv.2.1.2 kv.2.2 b) (Ok b) prev.

Definition rollback : tx unit := fun σ =>
  let d := restore_execs (exec_previous σ) (m_exec σ) in
  match restore_brks (rel_previous σ) (m_brk σ) with
  | Err e => (Err (TxBreaker e), with_exec d σ)
  | Ok b => (Ok tt, MemoryTx d b (restore_convs (conv_previous σ) (m_conv σ)) [] [] [])
  end.

#[global] Instance memory_transaction : ClaimTransaction Refinement memory_tx := {
  TxInterface.lock_for_claim := a_ret tt;
  TxInterface.load_execution := load_execution;
  TxInterface.reload_execution := load_execution;
  TxInterface.load_breaker := load_breaker;
  TxInterface.load_conversation := load_conversation;
  TxInterface.consume_authorization := consume_authorization;
  TxInterface.cas_execution := cas_execution;
  TxInterface.cas_breaker := cas_breaker;
  TxInterface.commit := commit;
  TxInterface.rollback := rollback;
  TxInterface.close := a_ret tt
}.

(** A new transaction over the stores. *)
Definition begin_tx (d : dict Execution) (b : gmap string ProviderReliabilityState) (c : dict Ctx)
    : memory_tx := MemoryTx d b c [] [] [].

Definition rows_of σ : rows Refinement :=
  Rows (fun i => d_get i (m_exec σ)) (fun k => m_brk σ !! k) (fun i => d_get i (m_conv σ)).

(** Only the reads of this transaction drop an expired conversation. *)
Definition memory_can (p q : rows Refinement) : Prop := rows_ok cfg q /\ calm now p q.

(** The stores hold the shared rows with the writes applied, and the rows of
    the written keys are remembered. *)
Record memory_at σ (p : rows Refinement) (ws : list (write Refinement)) : Prop := {
  at_rows : rows_eq (view ws p) (rows_of σ);
  at_shared : rows_ok cfg p;
  at_view : rows_ok cfg (rows_of σ);
  at_keys : keys_ok (m_conv σ);
  at_exec : forall i v, d_get i (exec_previous σ) = Some v -> v = exec_at p i;
  at_brk : forall k v, d_get k (rel_previous σ) = Some v ->
    v.2 = brk_at p k /\ reliability_record_key v.1.1 v.1.2 = Ok k;
  at_conv : forall i v, d_get i (conv_previous σ) = Some v -> v = conv_at p i;
  at_known : forall k, k ∈ map key_of_write ws ->
    match k with
    | KExec i => known i (exec_previous σ) = true
    | KBreaker k => known k (rel_previous σ) = true
    | KConversation i => known i (conv_previous σ) = true
    end;
  at_exec_keys : keys_ok (exec_previous σ);
  at_brk_keys : keys_ok (rel_previous σ);
  at_conv_keys : keys_ok (conv_previous σ)
}.

Implicit Types (σ : memory_tx) (p q : rows Refinement) (ws : list (write Refinement)).

Lemma rows_ok_eq p q : rows_eq p q -> rows_ok cfg p -> rows_ok cfg q.
Proof.
  intros (H1 & H2 & H3) []. split; intros ? ?; rewrite <- ?H1, <- ?H2, <- ?H3; eauto.
Qed.

Lemma eq_exec p σ s d :
  rows_eq p (rows_of σ) -> (forall i, d_get i d = set_at (execution_id s) (Some s) (fun i => d_get i (m_exec σ)) i) ->
  rows_eq (apply_write p (WExec s)) (rows_of (with_exec d σ)).
Proof.
  intros (H1 & H2 & H3) Hd. split; [| split; [exact H2 | exact H3]]. intros i. simpl.
  rewrite Hd. unfold set_at. by destruct (String.eqb i (execution_id s)).
Qed.

Lemma d_get_set k i (v : Execution) d : d_get i (d_set k v d) = set_at k (Some v) (fun i => d_get i d) i.
Proof.
  destruct (decide (i = k)) as [-> | Hne]; [by rewrite d_get_set_eq, set_at_eq |].
  by rewrite d_get_set_ne, set_at_ne.
Qed.

Lemma memory_evolves p q : memory_can p q -> evolves cfg p q.
Proof.
  intros [Hq (H1 & H2 & _)]. split; [done | intros i; rewrite H1; apply newer_refl |].
  intros k. rewrite H2. apply newer_brk_refl.
Qed.

Notation runs := (ran memory_can memory_at (fun _ => True) now).

(** A call that changes no row and no memory of the transaction. *)
Lemma runs_pure {A} σ p ws (r : result tx_exn A)
    (does : rows Refinement -> result tx_exn A -> list (write Refinement) -> Prop) :
  memory_at σ p ws -> r <> Err TxUnavailable -> does p r [] -> runs σ p ws (r, σ) does.
Proof.
  intros Hat Hr Hd. exists p, []. rewrite app_nil_r. split; [| split; [done | split; [| by right]]].
  - split; [split; [apply Hat | apply calm_refl] | intros; apply same_row_refl].
  - intros _. split; [done |]. split; [apply calm_refl | done].
Qed.

Lemma with_exec_self σ : with_exec (m_exec σ) σ = σ.
Proof. by destruct σ. Qed.
Lemma with_brk_self σ : with_brk (m_brk σ) σ = σ.
Proof. by destruct σ. Qed.
Lemma with_conv_self σ : with_conv (m_conv σ) σ = σ.
Proof. by destruct σ. Qed.

Lemma load_exec_run σ i : load_execution i σ = (Ok (d_get i (m_exec σ)), σ).
Proof.
  unfold load_execution, on_exec, MemoryExecutions.get. act_run. by rewrite with_exec_self.
Qed.

Lemma brk_read_run {A} (f : gmap string ProviderReliabilityState -> result rel_exn A) σ :
  brk_read f σ = (match f (m_brk σ) with Ok a => Ok a | Err e => Err (TxBreaker e) end, σ).
Proof.
  unfold brk_read, on_brk. destruct (f (m_brk σ)); by rewrite with_brk_self.
Qed.

Lemma at_exec_row σ p ws i : memory_at σ p ws -> exec_at (view ws p) i = d_get i (m_exec σ).
Proof. intros []. apply at_rows0. Qed.
Lemma at_brk_row σ p ws k : memory_at σ p ws -> brk_at (view ws p) k = m_brk σ !! k.
Proof. intros []. apply at_rows0. Qed.

(** A conversation the transaction has not written is the shared one. *)
Lemma at_conv_row σ p ws i :
  memory_at σ p ws -> unwritten_conversation i ws -> conv_at p i = d_get i (m_conv σ).
Proof.
  intros Hat Hi. destruct Hat as [(_ & _ & H) _ _ _ _ _ _ _ _ _ _].
  specialize (H i). pose proof (view_other ws p (KConversation i) Hi) as Hv. simpl in *. congruence.
Qed.

Lemma load_breaker_run σ p ws provider market at_ :
  memory_at σ p ws ->
  load_breaker provider market at_ σ
  = (match breaker_result (view ws p) provider market at_ with
     | Ok s => Ok s | Err e => Err (TxBreaker e) end, σ).
Proof.
  intros Hat. unfold load_breaker. rewrite brk_read_run. unfold InMemoryRepository.load, breaker_result.
  destruct (reliability_record_key provider market) as [k|]; cbn [rbind]; [| done].
  rewrite (at_brk_row _ _ _ _ Hat). by destruct (m_brk σ !! k).
Qed.

(** Dropping an expired conversation that is not remembered: for the others,
    it is gone. *)
Definition dropped (i : string) p : rows Refinement :=
  Rows (exec_at p) (brk_at p) (set_at i None (conv_at p)).

Lemma dropped_ok i p : rows_ok cfg p -> rows_ok cfg (dropped i p).
Proof.
  intros []. split; try done; intros j c; simpl; unfold set_at; destruct (String.eqb j i); eauto; done.
Qed.

Lemma dropped_calm i p c : conv_at p i = Some c -> _is_expired now c = true -> calm now p (dropped i p).
Proof.
  intros Hc Hx. split; [done |]. split; [done |]. intros j. simpl. unfold set_at.
  destruct (String.eqb_spec j i) as [-> |]; [right; eauto | by left].
Qed.

Lemma pop_rows σ i p ws :
  rows_eq (view ws p) (rows_of σ) ->
  rows_eq (dropped i (view ws p)) (rows_of (with_conv (d_pop i (m_conv σ)) σ)).
Proof.
  intros (H1 & H2 & H3). split; [exact H1 |]. split; [exact H2 |]. intros j. simpl. unfold set_at.
  destruct (String.eqb_spec j i) as [-> | Hne]; [by rewrite d_get_pop_eq |].
  rewrite d_get_pop_ne by done. apply H3.
Qed.

Lemma view_dropped i p ws :
  unwritten_conversation i ws -> rows_eq (view ws (dropped i p)) (dropped i (view ws p)).
Proof.
  intros Hi. apply rows_eq_iff. intros k. destruct (decide (k = KConversation i)) as [-> | Hne].
  - pose proof (view_other ws (dropped i p) (KConversation i) Hi) as H. simpl in *.
    by rewrite H, !set_at_eq.
  - assert (same_row k (dropped i p) p) as Hk.
    { destruct k; try done. simpl. apply set_at_ne. congruence. }
    eapply same_row_trans; [by apply view_agree |]. destruct k; try done. simpl.
    symmetry. apply set_at_ne. congruence.
Qed.

(** The read of a conversation. *)
Lemma load_conversation_at σ p ws i :
  memory_at σ p ws -> unwritten_conversation i ws ->
  exists r σ', load_conversation i σ = (Ok r, σ')
    /\ exec_previous σ' = exec_previous σ /\ rel_previous σ' = rel_previous σ
    /\ conv_previous σ' = conv_previous σ /\ r = live_row now (d_get i (m_conv σ))
    /\ r = d_get i (m_conv σ')
    /\ ((exists q, memory_can p q /\ (forall k, k ∈ map key_of_write ws -> same_row k p q)
          /\ memory_at σ' q ws /\ r = conv_at q i)
        \/ (r = None /\ memory_at σ' p (ws ++ [WDrop i]) /\ known i (conv_previous σ) = true
            /\ exists c, conv_at p i = Some c /\ _is_expired now c = true)).
Proof.
  intros Hat Hi. pose proof (at_conv_row _ _ _ _ Hat Hi) as Hrow.
  unfold load_conversation, on_conv, Memory.get. act_run.
  destruct (d_get i (m_conv σ)) as [c|] eqn:E; simpl live_row.
  2:{ rewrite with_conv_self. exists None, σ. repeat (split; [done |]). left. exists p.
      split; [split; [apply Hat | apply calm_refl] |]. split; [intros; apply same_row_refl |]. done. }
  destruct (_is_expired now c) eqn:Ex.
  2:{ rewrite with_conv_self. exists (Some c), σ. repeat (split; [done |]). left. exists p.
      split; [split; [apply Hat | apply calm_refl] |]. split; [intros; apply same_row_refl |]. done. }
  exists None, (with_conv (d_pop i (m_conv σ)) σ). repeat (split; [done |]).
  split; [symmetry; apply (d_get_pop_eq i (m_conv σ)) |].
  assert (rows_ok cfg (rows_of (with_conv (d_pop i (m_conv σ)) σ))) as Hok.
  { eapply rows_ok_eq; [apply (pop_rows σ i p ws), Hat |]. apply dropped_ok.
    eapply rows_ok_eq; [symmetry; apply Hat | apply Hat]. }
  destruct (known i (conv_previous σ)) eqn:Ek; [right | left].
  - split; [done |]. split; [| eauto]. destruct Hat. split; try done.
    + rewrite view_app. apply (pop_rows σ i p ws at_rows0).
    + by apply keys_ok_pop.
    + intros k. rewrite map_app, elem_of_app. intros [Hk | ->%list_elem_of_singleton]; [by apply at_known0 | done].
  - exists (dropped i p). split; [| split; [| split]].
    + split; [by apply dropped_ok, Hat | by eapply dropped_calm].
    + intros k Hk. destruct k as [| | j]; try done. simpl. symmetry. apply set_at_ne.
      intros ->. by apply Hi.
    + destruct Hat. split; try done.
      * etrans; [by apply view_dropped |]. by apply pop_rows.
      * by apply dropped_ok.
      * by apply keys_ok_pop.
      * intros j v Hv. simpl. unfold set_at. destruct (String.eqb_spec j i) as [-> | Hne]; [| by apply at_conv0].
        exfalso. unfold known in Ek. simpl in Hv. by rewrite Hv in Ek.
    + simpl. by rewrite set_at_eq.
Qed.

Lemma load_conversation_runs σ p ws i :
  memory_at σ p ws -> unwritten_conversation i ws ->
  runs σ p ws (load_conversation i σ)
    (fun q r vs =>
       (vs = [] /\ r = Ok (conv_at q i)
        /\ forall c, conv_at q i = Some c -> _is_expired now c = false)
       \/ (vs = [WDrop i] /\ r = Ok None
           /\ exists c, conv_at q i = Some c /\ _is_expired now c = true)).
Proof.
  intros Hat Hi. destruct (load_conversation_at σ p ws i Hat Hi)
    as (r & σ' & -> & _ & _ & _ & Hr & _ & [(q & Hcan & Hsame & Hat' & Hq) | (-> & Hat' & _ & Hx)]).
  - exists q, []. rewrite app_nil_r. split; [done |]. split; [done |].
    split; [intros _; split; [done | split; [apply Hcan | done]] |]. right. left.
    split; [done |]. split; [by rewrite Hq |]. rewrite <- Hq, Hr. unfold live_row.
    intros c. destruct (d_get i (m_conv σ)) as [x|]; [| done].
    destruct (_is_expired now x) eqn:E; [done |]. by intros [= <-].
  - exists p, [WDrop i]. split; [split; [split; [apply Hat | apply calm_refl] | intros; apply same_row_refl] |].
    split; [done |]. split; [intros _; split; [done | split; [apply calm_refl | done]] |].
    right. right. done.
Qed.

(** A remembered row is the row from before the transaction. *)
Lemma remember_conv_at σ p ws i :
  memory_at σ p ws -> unwritten_conversation i ws -> 
  memory_at (remember_conv i (conv_at p i) σ) p ws.
Proof.
  intros [] Hi. split; try done.
  - intros j v. simpl. destruct (decide (j = i)) as [-> | Hne].
    + rewrite d_get_set_eq. by intros [= <-].
    + rewrite d_get_set_ne by done. apply at_conv0.
  - intros k Hk. specialize (at_known0 k Hk). destruct k as [| | j]; try done. unfold known in *. simpl.
    destruct (decide (j = i)) as [-> | Hne]; [by rewrite d_get_set_eq | by rewrite d_get_set_ne].
  - by apply keys_ok_set.
Qed.

Lemma store_conv_at σ p ws i c :
  memory_at σ p ws -> conversation_ok cfg i c -> conversation_id c = i ->
  known i (conv_previous σ) = true ->
  memory_at (with_conv (d_set i c (m_conv σ)) σ) p (ws ++ [WConversation c]).
Proof.
  intros Hat [Hc Ha] Hid Hk. destruct Hat. split; try done.
  - rewrite view_app. destruct at_rows0 as (H1 & H2 & H3). split; [exact H1 |]. split; [exact H2 |].
    intros j. simpl. rewrite Hid. unfold set_at. destruct (String.eqb_spec j i) as [-> | Hne];
      [by rewrite d_get_set_eq | rewrite d_get_set_ne by done; apply H3].
  - destruct at_view0. split; [done | done | |]; intros j x; simpl; (destruct (decide (j = i)) as [-> | Hne];
      [rewrite d_get_set_eq; by intros [= <-] | rewrite d_get_set_ne by done;
       first [apply (ok_conv0 j) | apply (ok_auth0 j)]]).
  - by apply keys_ok_set.
  - intros k. rewrite map_app, elem_of_app. intros [Hin | ->%list_elem_of_singleton]; [by apply at_known0 |].
    simpl. by rewrite Hid.
Qed.

Lemma pop_conv_at σ p ws i :
  memory_at σ p ws -> known i (conv_previous σ) = true ->
  memory_at (with_conv (d_pop i (m_conv σ)) σ) p (ws ++ [WDrop i]).
Proof.
  intros Hat Hk. assert (rows_ok cfg (rows_of (with_conv (d_pop i (m_conv σ)) σ))) as Hok.
  { eapply rows_ok_eq; [apply (pop_rows σ i p ws), Hat |]. apply dropped_ok.
    eapply rows_ok_eq; [symmetry; apply Hat | apply Hat]. }
  destruct Hat. split; try done.
  - rewrite view_app. apply (pop_rows σ i p ws at_rows0).
  - by apply keys_ok_pop.
  - intros k. rewrite map_app, elem_of_app. intros [Hin | ->%list_elem_of_singleton]; [by apply at_known0 | done].
Qed.

Lemma conversation_at_ok σ p ws i c :
  memory_at σ p ws -> d_get i (m_conv σ) = Some c -> conversation_ok cfg i c.
Proof. intros [] E. split; [by eapply at_view0 | by eapply (ok_auth cfg _ at_view0 i)]. Qed.

Notation consume_does a := (fun q r vs =>
  match r with
  | Ok c => vs = [WConversation c] /\ consumed_row sha256_hex cfg q a c
  | Err e => (exists x, e = TxConversation x /\ handled x = true)
      /\ forall e u, conv_at q (ac_conversation_id a) = Some e ->
           _is_expired now e = false -> persistence_version e = ac_expected_version a ->
           consume_exact_research_authorization sha256_hex e (ac_consumption a) <> Ok u
  end).

Lemma consume_known σ p ws a :
  memory_at σ p ws -> unwritten_conversation (ac_conversation_id a) ws ->
  known (ac_conversation_id a) (conv_previous σ) = true ->
  runs σ p ws (on_conv (Memory.consume_research_authorization sha256_hex cfg now
                 (ac_conversation_id a) (ac_consumption a) (ac_expected_version a)) σ)
    (consume_does a).
Proof.
  intros Hat Hi Hk. pose proof (at_conv_row _ _ _ _ Hat Hi) as Hrow. unfold on_conv.
  rewrite memory_consume by (intros c; by apply (conversation_at_ok σ p ws)).
  assert ({| ac_conversation_id := ac_conversation_id a; ac_consumption := ac_consumption a;
             ac_expected_version := ac_expected_version a |} = a) as -> by by destruct a.
  set (row := live_row now (d_get (ac_conversation_id a) (m_conv σ))).
  pose proof (consume_result_spec sha256_hex cfg now p row a) as Hspec.
  specialize (Hspec ltac:(unfold row, live_row; intros c Hc;
    destruct (d_get _ (m_conv σ)) as [x|] eqn:E; [| done];
    destruct (_is_expired now x) eqn:Ex; [done |]; injection Hc as <-;
    split; [by eapply conversation_at_ok | by rewrite Hrow])).
  cbv zeta. destruct (consume_result sha256_hex cfg row a) as [c|x].
  - destruct Hspec as (Hc & Hok & Hid). exists p, [WConversation c].
    split; [split; [split; [apply Hat | apply calm_refl] | intros; apply same_row_refl] |].
    split; [by apply store_conv_at |].
    split; [intros _; split; [done | split; [apply calm_refl | done]] |]. by right.
  - destruct Hspec as [Hh Hno].
    exists p, (match d_get (ac_conversation_id a) (m_conv σ) with
               | Some c => if _is_expired now c then [WDrop (ac_conversation_id a)] else []
               | None => [] end).
    split; [split; [split; [apply Hat | apply calm_refl] | intros; apply same_row_refl] |].
    split.
    { simpl. destruct (d_get _ (m_conv σ)) as [c|] eqn:E; [destruct (_is_expired now c) |];
        rewrite ?app_nil_r, ?with_conv_self; [by apply pop_conv_at | done | done]. }
    split; [intros _; split; [done | split; [apply calm_refl | done]] |].
    right. split; [eauto |]. intros e u He Hlive. apply Hno. unfold row, live_row.
    by rewrite <- Hrow, He, Hlive.
Qed.

Lemma consume_runs σ p ws a :
  memory_at σ p ws -> unwritten_conversation (ac_conversation_id a) ws ->
  runs σ p ws (consume_authorization a σ) (consume_does a).
Proof.
  intros Hat Hi. unfold consume_authorization. unfold a_bind at 1, a_get at 1.
  destruct (known (ac_conversation_id a) (conv_previous σ)) eqn:Ek.
  { unfold a_bind at 1, a_ret at 1. by apply consume_known. }
  destruct (load_conversation_at σ p ws _ Hat Hi)
    as (r & σ' & E & _ & _ & Hprev & _ & _ & [(q & Hcan & Hsame & Hat' & Hq) | (_ & _ & Hx & _)]); [| congruence].
  unfold a_bind at 1. unfold a_bind at 1. rewrite E. unfold a_mod at 1. cbn beta iota.
  rewrite Hq. pose proof (remember_conv_at σ' q ws _ Hat' Hi) as Hat2.
  destruct (consume_known _ q ws a Hat2 Hi) as (q' & vs & [Hc Hs] & H).
  { unfold known. simpl. by rewrite d_get_set_eq. }
  exists q', vs. split.
  - split; [| intros k Hk; eapply same_row_trans; eauto]. destruct Hcan, Hc.
    split; [done | by eapply calm_trans].
  - destruct H as (H1 & H2 & H3). split; [done |]. split; [| done].
    intros _. destruct (H2 I) as (? & ? & ?). split; [done |]. split; [| done].
    eapply calm_trans; [apply Hcan | done].
Qed.

(** The compare-and-swap of an execution. *)
Lemma cas_execution_known σ p ws record expected :
  memory_at σ p ws -> known (execution_id record) (exec_previous σ) = true ->
  runs σ p ws (on_exec (MemoryExecutions.cas_replace record expected) σ)
    (fun q r vs =>
       match cas_result (exec_at (view ws q) (execution_id record)) record expected with
       | Ok s => r = Ok s /\ vs = [WExec s]
       | Err e => r = Err (TxExecution e) /\ vs = []
       end).
Proof.
  intros Hat Hk. unfold on_exec. rewrite memory_cas_spec. cbv zeta.
  rewrite <- (at_exec_row σ p ws _ Hat).
  destruct (cas_result _ record expected) as [s|e] eqn:E.
  - pose proof E as (c & Ec & _ & _ & Hs & Hv)%cas_result_ok.
    assert (execution_id s = execution_id record) as Hid by by subst s.
    exists p, [WExec s]. split; [split; [split; [apply Hat | apply calm_refl] | intros; apply same_row_refl] |].
    split; [| split; [intros _; split; [done | split; [apply calm_refl | done]] | right; by rewrite E]].
    simpl. destruct Hat. split; try done.
    + rewrite view_app. apply eq_exec; [done |]. intros i. rewrite Hid. apply d_get_set.
    + destruct at_view0. split; try done. intros i r. simpl. rewrite d_get_set. unfold set_at.
      destruct (String.eqb_spec i (execution_id record)) as [-> | Hne]; [| apply ok_exec0].
      intros [= <-]. by split.
    + intros k. rewrite map_app, elem_of_app. intros [Hin | ->%list_elem_of_singleton]; [by apply at_known0 |].
      simpl. by rewrite Hid.
  - rewrite with_exec_self. apply runs_pure; [done | done |]. by rewrite E.
Qed.

Lemma remember_exec_at σ p ws i :
  memory_at σ p ws -> known i (exec_previous σ) = false ->
  memory_at (remember_exec i (d_get i (m_exec σ)) σ) p ws.
Proof.
  intros Hat Hk. assert (d_get i (m_exec σ) = exec_at p i) as ->.
  { rewrite <- (at_exec_row _ _ _ _ Hat). apply (view_other ws p (KExec i)). intros Hin.
    pose proof (at_known _ _ _ Hat _ Hin). simpl in *. congruence. }
  destruct Hat. split; try done.
  - intros j v. simpl. destruct (decide (j = i)) as [-> | Hne].
    + rewrite d_get_set_eq. by intros [= <-].
    + rewrite d_get_set_ne by done. apply at_exec0.
  - intros k Hin. specialize (at_known0 k Hin). destruct k as [j | |]; try done. unfold known in *. simpl.
    destruct (decide (j = i)) as [-> | Hne]; [by rewrite d_get_set_eq | by rewrite d_get_set_ne].
  - by apply keys_ok_set.
Qed.

Lemma cas_execution_runs σ p ws record expected :
  memory_at σ p ws ->
  runs σ p ws (cas_execution record expected σ)
    (fun q r vs =>
       match cas_result (exec_at (view ws q) (execution_id record)) record expected with
       | Ok s => r = Ok s /\ vs = [WExec s]
       | Err e => r = Err (TxExecution e) /\ vs = []
       end).
Proof.
  intros Hat. unfold cas_execution. unfold a_bind at 1, a_get at 1.
  destruct (known (execution_id record) (exec_previous σ)) eqn:Ek.
  { unfold a_bind at 1, a_ret at 1. by apply cas_execution_known. }
  unfold a_bind at 1. unfold a_bind at 1. rewrite load_exec_run. unfold a_mod at 1. cbn beta iota.
  apply (cas_execution_known (remember_exec (execution_id record) _ σ) p ws).
  - by apply remember_exec_at.
  - unfold known. simpl. by rewrite d_get_set_eq.
Qed.

(** The compare-and-swap of a breaker. *)
Lemma brk_rows_ok σ p ws : memory_at σ p ws -> InMemoryRepository.rows_ok (m_brk σ).
Proof. intros [] k s H. by apply at_view0. Qed.

Lemma cas_breaker_known σ p ws s expected :
  memory_at σ p ws -> wf s -> 0 <= expected -> known (key_of s) (rel_previous σ) = true ->
  runs σ p ws (on_brk (InMemoryRepository.save s expected) σ)
    (fun q r vs =>
       match swap_breaker_result (view ws q) s expected with
       | Ok s' => r = Ok s' /\ vs = [WBreaker s']
       | Err e => r = Err (TxBreaker e) /\ vs = []
       end).
Proof.
  intros Hat Hs He Hk. unfold on_brk.
  pose proof (save_spec s expected (m_brk σ) (brk_rows_ok _ _ _ Hat) Hs He) as Hsave. simpl in Hsave.
  pose proof (at_brk_row _ _ _ (key_of s) Hat) as Hrow.
  destruct (row_revision (m_brk σ !! key_of s) =? expected) eqn:Er.
  - destruct Hsave as (b & -> & Hok & Hkey & Hoff). set (s' := Breaker.set_revision (expected + 1) s) in *.
    assert (swap_breaker_result (view ws p) s expected = Ok s') as Hr
      by (unfold swap_breaker_result; by rewrite Hrow, Er).
    exists p, [WBreaker s']. split; [split; [split; [apply Hat | apply calm_refl] | intros; apply same_row_refl] |].
    split; [| split; [intros _; split; [done | split; [apply calm_refl | done]] | right; by rewrite Hr]].
    simpl. destruct Hat. split; try done.
    + rewrite view_app. destruct at_rows0 as (H1 & H2 & H3). split; [exact H1 |]. split; [| exact H3].
      intros k. simpl. change (key_of s') with (key_of s). unfold set_at.
      destruct (String.eqb_spec k (key_of s)) as [-> | Hne]; [done |]. rewrite Hoff by done. apply H2.
    + destruct at_view0. split; try done.
    + intros k. rewrite map_app, elem_of_app. intros [Hin | ->%list_elem_of_singleton]; [by apply at_known0 | done].
  - rewrite Hsave, with_brk_self. apply runs_pure; [done | done |].
    unfold swap_breaker_result. by rewrite Hrow, Er.
Qed.

Lemma remember_rel_at σ p ws k pm m :
  memory_at σ p ws -> known k (rel_previous σ) = false -> reliability_record_key pm m = Ok k ->
  memory_at (remember_rel k (pm, m, m_brk σ !! k) σ) p ws.
Proof.
  intros Hat Hk Hkey. assert (m_brk σ !! k = brk_at p k) as ->.
  { rewrite <- (at_brk_row _ _ _ _ Hat). apply (view_other ws p (KBreaker k)). intros Hin.
    pose proof (at_known _ _ _ Hat _ Hin). simpl in *. congruence. }
  destruct Hat. split; try done.
  - intros j v. simpl. destruct (decide (j = k)) as [-> | Hne].
    + rewrite d_get_set_eq. by intros [= <-].
    + rewrite d_get_set_ne by done. apply at_brk0.
  - intros r Hin. specialize (at_known0 r Hin). destruct r as [| j |]; try done. unfold known in *. simpl.
    destruct (decide (j = k)) as [-> | Hne]; [by rewrite d_get_set_eq | by rewrite d_get_set_ne].
  - by apply keys_ok_set.
Qed.

Lemma cas_breaker_runs σ p ws s expected :
  memory_at σ p ws -> wf s -> 0 <= expected ->
  runs σ p ws (cas_breaker s expected σ)
    (fun q r vs =>
       match swap_breaker_result (view ws q) s expected with
       | Ok s' => r = Ok s' /\ vs = [WBreaker s']
       | Err e => r = Err (TxBreaker e) /\ vs = []
       end).
Proof.
  intros Hat Hs He. pose proof (wf_key s Hs) as Hkey. unfold cas_breaker. cbv zeta.
  unfold a_bind at 1. rewrite brk_read_run, Hkey. cbn beta iota.
  unfold a_bind at 1, a_get at 1. destruct (known (key_of s) (rel_previous σ)) eqn:Ek.
  { unfold a_bind at 1, a_ret at 1. by apply cas_breaker_known. }
  assert ((do! rows := brk_read (InMemoryRepository.row_count (Breaker.provider_id s) (Breaker.market s)) in
           do! previous :=
             (if rows =? 1
              then do! s0 := load_breaker (Breaker.provider_id s) (Breaker.market s) (Breaker.updated_at s)
                   in a_ret (Some s0)
              else a_ret None) in
           a_mod (remember_rel (key_of s) (Breaker.provider_id s, Breaker.market s, previous))) σ
          = (Ok tt, remember_rel (key_of s) (Breaker.provider_id s, Breaker.market s,
                                             m_brk σ !! key_of s) σ)) as Hrem.
  { unfold a_bind at 1. rewrite brk_read_run. unfold InMemoryRepository.row_count. rewrite Hkey.
    cbn [rbind]. unfold load_breaker. act_run. destruct (m_brk σ !! key_of s) as [s0|] eqn:E; simpl (_ =? 1); cbn beta iota.
    - rewrite brk_read_run. unfold InMemoryRepository.load. rewrite Hkey. cbn [rbind]. by rewrite E.
    - done. }
  unfold a_bind at 1. rewrite Hrem. apply cas_breaker_known; try done.
  - by apply remember_rel_at.
  - unfold known. simpl. by rewrite d_get_set_eq.
Qed.

(** *** The end of the transaction *)

Lemma commit_runs σ p ws :
  memory_at σ p ws -> memory_at (forget σ) (view ws p) [].
Proof.
  intros Hat. pose proof (at_view _ _ _ Hat) as Hv. destruct Hat. split; try done.
  - eapply rows_ok_eq; [symmetry; exact at_rows0 | done].
  - by intros k H%elem_of_nil.
  - constructor.
  - constructor.
  - constructor.
Qed.

(** Putting back a dictionary of remembered rows. *)
Definition put_back {V} (d : dict V) (kv : string * option V) : dict V :=
  match kv.2 with None => d_pop kv.1 d | Some r => d_set kv.1 r d end.

Lemma put_back_get {V} (prev : dict (option V)) (d : dict V) i :
  keys_ok prev ->
  d_get i (foldl put_back d prev) = match d_get i prev with Some v => v | None => d_get i d end.
Proof.
  revert d. induction prev as [|[k v] prev IH]; intros d Hk; simpl; [done |].
  apply NoDup_cons in Hk as [Hnin Hk]. rewrite IH by done.
  change (d_get i ((k, v) :: prev))
    with (snd <$> List.find (has_key i) ((k, v) :: prev)). simpl.
  destruct (has_key i (k, v)) eqn:E.
  - apply has_key_iff in E. simpl in E. subst k. simpl.
    destruct (d_get i prev) as [w|] eqn:Ew.
    { apply d_get_elem in Ew. exfalso. apply Hnin. by apply (list_elem_of_fmap_2 fst) in Ew. }
    unfold put_back. simpl. destruct v; [apply d_get_set_eq | apply d_get_pop_eq].
  - change (snd <$> List.find (has_key i) prev) with (d_get i prev). destruct (d_get i prev); [done |].
    assert (i <> k) by (intros ->; by rewrite has_key_self in E).
    unfold put_back. simpl. destruct v; [by apply d_get_set_ne | by apply d_get_pop_ne].
Qed.

Lemma put_back_keys {V} (prev : dict (option V)) (d : dict V) :
  keys_ok d -> keys_ok (foldl put_back d prev).
Proof.
  revert d. induction prev as [|[k v] prev IH]; intros d Hd; simpl; [done |]. apply IH.
  unfold put_back. simpl. destruct v; [by apply keys_ok_set | by apply keys_ok_pop].
Qed.

Lemma restore_execs_eq prev d : restore_execs prev d = foldl put_back d prev.
Proof.
  unfold restore_execs. revert d. induction prev as [|[k v] prev IH]; intros d; simpl; [done |].
  rewrite IH. by destruct v.
Qed.

Lemma restore_convs_eq prev d : restore_convs prev d = foldl put_back d prev.
Proof.
  unfold restore_convs. revert d. induction prev as [|[k v] prev IH]; intros d; simpl; [done |].
  rewrite IH. by destruct v.
Qed.

Lemma restore_brks_spec prev b :
  keys_ok prev ->
  (forall k v, d_get k prev = Some v -> reliability_record_key v.1.1 v.1.2 = Ok k) ->
  exists b', restore_brks prev b = Ok b'
    /\ forall k, b' !! k = match d_get k prev with Some v => v.2 | None => b !! k end.
Proof.
  unfold restore_brks. revert b. induction prev as [|[k v] prev IH]; intros b Hk Hkey; simpl; [eauto |].
  pose proof (Hkey k v (elem_d_get _ _ _ Hk ltac:(apply elem_of_cons; auto))) as Hv.
  apply NoDup_cons in Hk as [Hnin Hk].
  unfold InMemoryRepository.restore_row at 2. rewrite Hv. cbn [rbind].
  destruct (IH (match v.2 with None => delete k b | Some s => <[k := s]> b end) Hk) as (b' & -> & Hb').
  { intros j w Hw. apply Hkey. assert (j <> k) as Hne.
    { intros ->. apply d_get_elem in Hw. apply Hnin. by apply (list_elem_of_fmap_2 fst) in Hw. }
    unfold d_get in *. simpl. by rewrite has_key_ne. }
  exists b'. split; [done |]. intros j. rewrite Hb'.
  change (d_get j ((k, v) :: prev)) with (snd <$> List.find (has_key j) ((k, v) :: prev)). simpl.
  destruct (has_key j (k, v)) eqn:E.
  - apply has_key_iff in E. simpl in E. subst k. simpl.
    destruct (d_get j prev) as [w|] eqn:Ew.
    { apply d_get_elem in Ew. exfalso. apply Hnin. by apply (list_elem_of_fmap_2 fst) in Ew. }
    destruct v.2; [apply lookup_insert_eq | apply lookup_delete_eq].
  - change (snd <$> List.find (has_key j) prev) with (d_get j prev). destruct (d_get j prev); [done |].
    assert (k <> j) by (intros ->; by rewrite has_key_self in E).
    destruct v.2; [by apply lookup_insert_ne | by apply lookup_delete_ne].
Qed.

Lemma known_false {V} k (d : dict V) : known k d = false <-> d_get k d = None.
Proof. unfold known. by destruct (d_get k d). Qed.

(** A rollback puts every row the transaction has written back. *)
Lemma rollback_runs σ p ws :
  memory_at σ p ws -> exists σ', rollback σ = (Ok tt, σ') /\ memory_at σ' p [].
Proof.
  intros Hat. unfold rollback.
  destruct (restore_brks_spec (rel_previous σ) (m_brk σ) (at_brk_keys _ _ _ Hat)
              (fun k v H => proj2 (at_brk _ _ _ Hat k v H))) as (b & -> & Hb).
  eexists. split; [done |].
  assert (rows_eq p (rows_of (MemoryTx (restore_execs (exec_previous σ) (m_exec σ)) b
                                (restore_convs (conv_previous σ) (m_conv σ)) [] [] []))) as Hrows.
  { destruct Hat. assert (forall k, k ∉ map key_of_write ws -> same_row k p (rows_of σ)) as Hun.
    { intros k Hk. rewrite rows_eq_iff in at_rows0. eapply same_row_trans; [| apply at_rows0].
      by apply same_row_sym, view_other. }
    rewrite restore_execs_eq, restore_convs_eq.
    split; [| split]; intros k; simpl; rewrite ?put_back_get, ?Hb by done.
    - destruct (d_get k (exec_previous σ)) as [v|] eqn:E; [by rewrite (at_exec0 _ _ E) |].
      apply (Hun (KExec k)). intros Hin%at_known0. by rewrite (proj2 (known_false _ _) E) in Hin.
    - destruct (d_get k (rel_previous σ)) as [v|] eqn:E; [by rewrite (proj1 (at_brk0 _ _ E)) |].
      apply (Hun (KBreaker k)). intros Hin%at_known0. by rewrite (proj2 (known_false _ _) E) in Hin.
    - destruct (d_get k (conv_previous σ)) as [v|] eqn:E; [by rewrite (at_conv0 _ _ E) |].
      apply (Hun (KConversation k)). intros Hin%at_known0. by rewrite (proj2 (known_false _ _) E) in Hin. }
  split; try done; try apply NoDup_nil_2.
  - apply Hat.
  - eapply rows_ok_eq; [exact Hrows | apply Hat].
  - simpl. rewrite restore_convs_eq. apply put_back_keys, Hat.
  - by intros k H%elem_of_nil.
Qed.

#[global] Instance memory_laws : TransactionLaws (Refinement := Refinement) (T := memory_tx) sha256_hex cfg.
Proof.
  refine {| can := memory_can; tx_at := memory_at; quiet := fun _ => True; clock := now |}.
  - intros p Hp. split; [done | apply calm_refl].
  - intros p q r [_ H1] [H2 H3]. split; [done | by eapply calm_trans].
  - apply memory_evolves.
  - by intros σ p ws [].
  - intros σ p ws Hat. by apply runs_pure.
  - intros σ p ws i Hat. simpl. rewrite load_exec_run, <- (at_exec_row σ p ws i Hat). by apply runs_pure.
  - intros σ p ws i Hat. simpl. rewrite load_exec_run, <- (at_exec_row σ p ws i Hat). by apply runs_pure.
  - intros σ p ws provider market at_ Hat. simpl. rewrite (load_breaker_run σ p ws) by done.
    apply runs_pure; [done | by destruct (breaker_result _ _ _ _) | done].
  - intros σ p ws i Hat Hi. by apply load_conversation_runs.
  - intros σ p ws a Hat Hi _. by apply consume_runs.
  - intros σ p ws record expected Hat. by apply cas_execution_runs.
  - intros σ p ws s expected Hat Hs He. by apply cas_breaker_runs.
  - intros σ p ws Hat. exists p. split; [split; [split; [apply Hat | apply calm_refl] | intros; apply same_row_refl] |].
    split; [intros; apply calm_refl |]. left. split; [done |]. by apply commit_runs.
  - intros σ p ws Hat. destruct (rollback_runs σ p ws Hat) as (σ' & E & Hat'). exists p.
    split; [split; [split; [apply Hat | apply calm_refl] | intros; apply same_row_refl] |].
    split; [intros; apply calm_refl |]. simpl. rewrite E. done.
  - done.
Defined.
End MemoryTx.
End MemoryTx.
