(* ===== verification/ClaimTxSql.v ===== *)
(** [OperationalClaimTransaction] of [app/research/live_start_claim.py]: one
    database session over the three stores of [operational_entities].

    A session sees the committed table with its own writes laid over it. Before
    each call other workers may have committed, but not to a row this session
    has written and holds; and the call may find the database down. A rollback
    drops the session's writes, a commit lays them into the table. A commit
    that raises has not committed. *)

From S2P Require Import Prelude PyStr Json Clock Connector Breaker PyState OpStore VersionedStore BreakerRepo Research Authorization Conversation ConversationRepo ConversationHistory Execution ExecutionRepo ClaimTx ClaimTxMemory.
Import Connector Breaker Research Authorization Context Lifecycle Common.
Import Execution.Record Pins ExecutionRows Rows TxInterface Consumption.
Import OperationalStore.
#[local] Open Scope Z_scope.

(** ** Writes laid over a table *)
Module Overlay.
Section Overlay.
Context {P : Type}.
Implicit Types t : op_table P.

(** What a row says: payload, version and owner key. *)
Definition content : Type := P * Z * option string.
Definition content_of (store key : string) t : option content :=
  match _get_row store key t with
  | Some r => Some (op_payload r, op_seq r, op_owner r)
  | None => None
  end.

(** A row written, or removed. *)
Definition entry : Type := string * string * option content.

Definition put_entry t (e : entry) : op_table P :=
  let '(s, k, c) := e in
  match c with
  | None => (OperationalStore.delete s k t).2
  | Some (p, q, o) =>
      match _get_row s k t with
      | Some _ =>
          OpTable (map (fun r => if is_entity s k r
                                 then OpRow (op_id r) (op_store r) (op_entity r) (op_secondary r) o p q
                                 else r) (op_rows t)) (op_next_id t)
      | None => (insert_row s k None o p q t).2
      end
  end.

Definition overlay (own : list entry) t : op_table P := foldl put_entry t own.

Lemma content_ext s k t t' : _get_row s k t' = _get_row s k t -> content_of s k t' = content_of s k t.
Proof. unfold content_of. by intros ->. Qed.

Lemma delete_row s k t :
  table_ok t ->
  let t' := (OperationalStore.delete s k t).2 in
  table_ok t' /\ _get_row s k t' = None
  /\ forall s' k', (s', k') <> (s, k) -> _get_row s' k' t' = _get_row s' k' t.
Proof.
  intros Ht t'. assert (table_ok t') as Ht' by by apply remove_ok.
  assert (forall x, x ∈ op_rows t' <-> x ∈ op_rows t /\ is_entity s k x = false) as Hin.
  { intros x. unfold t'. simpl. rewrite !list_elem_of_In, filter_In. by rewrite negb_true_iff. }
  split; [done |]. split.
  - apply get_row_none. by intros r [_ H]%Hin.
  - intros s' k' Hne. apply get_row_ext; [done | done |]. intros r Hr. rewrite Hin.
    split; [tauto |]. intros H. split; [done |]. by eapply other_entity.
Qed.

Lemma update_row s k p q o t r :
  table_ok t -> _get_row s k t = Some r ->
  let t' := put_entry t (s, k, Some (p, q, o)) in
  table_ok t' /\ content_of s k t' = Some (p, q, o)
  /\ forall s' k', (s', k') <> (s, k) -> _get_row s' k' t' = _get_row s' k' t.
Proof.
  intros Ht Hr. cbn [put_entry]. rewrite Hr.
  set (f := fun r => if is_entity s k r
                     then OpRow (op_id r) (op_store r) (op_entity r) (op_secondary r) o p q else r).
  assert (same_keys f) as Hf by (intros x; unfold f; by destruct (is_entity s k x)).
  assert (Hent : forall s' e' x, is_entity s' e' (f x) = is_entity s' e' x)
    by (intros; unfold f; by destruct (is_entity s k x)).
  assert (table_ok (OpTable (map f (op_rows t)) (op_next_id t))) as Ht' by by apply table_ok_map.
  split; [done |]. apply get_row_some in Hr as [Hin He]; [| done]. split.
  - unfold content_of. rewrite (proj2 (get_row_some _ s k (f r) Ht')).
    + unfold f. by rewrite He.
    + split; [by apply list_elem_of_fmap_2 | by rewrite Hent].
  - intros s' k' Hne. apply get_row_ext; [done | done |]. intros x Hx. simpl. split.
    + intros (y & -> & Hy)%list_elem_of_fmap. rewrite Hent in Hx.
      unfold f. by rewrite (other_entity s k s' k' y Hne Hx).
    + intros Hx'. apply list_elem_of_fmap. exists x. split; [| done]. unfold f.
      by rewrite (other_entity s k s' k' x Hne Hx).
Qed.

(** An entry decides its own row and leaves the others. *)
Lemma put_entry_spec s k c t :
  table_ok t ->
  table_ok (put_entry t (s, k, c)) /\ content_of s k (put_entry t (s, k, c)) = c
  /\ forall s' k', (s', k') <> (s, k) ->
       content_of s' k' (put_entry t (s, k, c)) = content_of s' k' t.
Proof.
  intros Ht. destruct c as [[[p q] o]|].
  - destruct (_get_row s k t) as [r|] eqn:Er.
    + destruct (update_row s k p q o t r Ht Er) as (H1 & H2 & H3). split; [done |]. split; [done |].
      intros s' k' Hne. by apply content_ext, H3.
    + cbn [put_entry]. rewrite Er.
      destruct (insert_fresh t s k o p q Ht Er) as (t' & r & -> & Ht' & Hr & Hp & Hs & Ho & Hoff).
      split; [done |]. split; [unfold content_of; simpl; by rewrite Hr, Hp, Hs, Ho |].
      intros s' k' Hne. by apply content_ext, Hoff.
  - destruct (delete_row s k t Ht) as (H1 & H2 & H3). cbn [put_entry]. split; [done |].
    split; [unfold content_of; by rewrite H2 |]. intros s' k' Hne. by apply content_ext, H3.
Qed.

#[global] Arguments put_entry : simpl never.

Lemma overlay_ok own t : table_ok t -> table_ok (overlay own t).
Proof.
  revert t. induction own as [|[[s k] c] own IH]; intros t Ht; simpl; [done |].
  by apply IH, put_entry_spec.
Qed.

(** A row the entries leave alone is the table's; a row they write is theirs. *)
Lemma overlay_other own t s k :
  table_ok t -> (s, k) ∉ map fst own -> content_of s k (overlay own t) = content_of s k t.
Proof.
  revert t. induction own as [|[[s' k'] c] own IH]; intros t Ht Hn; simpl in *; [done |].
  apply not_elem_of_cons in Hn as [Hne Hn].
  destruct (put_entry_spec s' k' c t Ht) as (H1 & _ & H3). rewrite IH by done. by apply H3.
Qed.

Lemma overlay_agree own t t' s k :
  table_ok t -> table_ok t' -> content_of s k t = content_of s k t' ->
  content_of s k (overlay own t) = content_of s k (overlay own t').
Proof.
  revert t t'. induction own as [|[[s' k'] c] own IH]; intros t t' Ht Ht' E; simpl; [done |].
  destruct (put_entry_spec s' k' c t Ht) as (H1 & H2 & H3).
  destruct (put_entry_spec s' k' c t' Ht') as (H1' & H2' & H3').
  apply IH; [done | done |]. destruct (decide ((s, k) = (s', k'))) as [[= -> ->] | Hne].
  - by rewrite H2, H2'.
  - by rewrite H3, H3'.
Qed.
End Overlay.
Arguments content : clear implicits.
Arguments entry : clear implicits.
End Overlay.
Import Overlay.

(** ** The session *)
Module SqlTx.
Import BreakerRepo.OperationalRepository Sql SqlExecutions.
Section SqlTx.
Context {Refinement P : Type}.
Variables (sha256_hex : string -> string) (cfg : settings) (now : datetime).
Notation Ctx := (ConversationContext Refinement).
Context (encode_exec : Execution -> P) (decode_exec : P -> option Execution)
        (encode_brk : ProviderReliabilityState -> P) (decode_brk : P -> option ProviderReliabilityState)
        (encode_conv : Ctx -> P) (decode_conv : P -> option Ctx).

(** What happens before a call: other workers commit around the rows this
    session holds, and the database may be down. *)
Record event := Event {
  ev_others : list (string * string) -> op_table P -> op_table P;
  ev_down : bool
}.

Record session := Session {
  s_base : op_table P;
  s_own : list (entry P);
  s_script : list event
}.
Notation tx := (act session tx_exn).

(** What the session's statements see. *)
Definition seen (σ : session) : op_table P := overlay (s_own σ) (s_base σ).

Definition next (σ : session) : session * bool :=
  match s_script σ with
  | [] => (σ, false)
  | e :: rest =>
      (Session (ev_others e (map fst (s_own σ)) (s_base σ)) (s_own σ) rest, ev_down e)
  end.

Definition version_of (store key : string) (t : op_table P) : option Z :=
  op_seq <$> _get_row store key t.

(** A repository method on the row of [key]; when it has moved the row to
    another version, or removed it, the session holds the row. *)
Definition statement {A E} (wrap : E -> tx_exn) (store key : string) (m : act (op_table P) E A)
    : tx A := fun σ =>
  let '(σ, down) := next σ in
  if down then (Err TxUnavailable, σ)
  else
    let '(r, t') := m (seen σ) in
    (match r with Ok a => Ok a | Err e => Err (wrap e) end,
     if bool_decide (version_of store key t' = version_of store key (seen σ)) then σ
     else Session (s_base σ) (s_own σ ++ [(store, key, content_of store key t')]) (s_script σ)).

(** [BEGIN IMMEDIATE] on SQLite, nothing elsewhere. *)
Definition lock_for_claim : tx unit := fun σ =>
  let '(σ, down) := next σ in if down then (Err TxUnavailable, σ) else (Ok tt, σ).

Definition load_execution (i : string) : tx (option Execution) :=
  statement TxExecution RESEARCH_AUTHORIZED_EXECUTIONS i (SqlExecutions.get decode_exec i).

(** The key of a row that is not there is never looked up. *)
Definition breaker_key (provider market : string) : string :=
  match reliability_record_key provider market with Ok k => k | Err _ => "" end.

Definition load_breaker (provider market : string) (at_ : datetime) : tx ProviderReliabilityState :=
  statement TxBreaker RESEARCH_PROVIDER_RELIABILITY (breaker_key provider market)
    (fun t => (OperationalRepository.load decode_brk provider market at_ t, t)).

(** Within one method nobody commits in between: its last statement compares
    the version again. *)
Notation alone := (fun (_ : nat) (t : op_table P) => t).

Definition load_conversation (i : string) : tx (option Ctx) :=
  statement TxConversation SHOPPING_CONVERSATIONS i (Sql.get decode_conv now alone i).

Definition consume_authorization (a : AuthorizationConsumption) : tx Ctx :=
  statement TxConversation SHOPPING_CONVERSATIONS (ac_conversation_id a)
    (Sql.consume_research_authorization sha256_hex encode_conv decode_conv cfg now alone
       (ac_conversation_id a) (ac_consumption a) (ac_expected_version a)).

Definition cas_execution (record : Execution) (expected : Z) : tx Execution :=
  statement TxExecution RESEARCH_AUTHORIZED_EXECUTIONS (execution_id record)
    (SqlExecutions.cas_replace encode_exec decode_exec alone record expected).

Definition cas_breaker (s : ProviderReliabilityState) (expected : Z) : tx ProviderReliabilityState :=
  statement TxBreaker RESEARCH_PROVIDER_RELIABILITY
    (breaker_key (Breaker.provider_id s) (Breaker.market s))
    (OperationalRepository.save encode_brk decode_brk s expected).

Definition commit : tx unit := fun σ =>
  let '(σ, down) := next σ in
  if down then (Err TxUnavailable, σ) else (Ok tt, Session (seen σ) [] (s_script σ)).

Definition rollback : tx unit := fun σ => (Ok tt, Session (s_base σ) [] (s_script σ)).

#[global] Instance sql_transaction : ClaimTransaction Refinement session := {
  TxInterface.lock_for_claim := lock_for_claim;
  TxInterface.load_execution := load_execution;
  TxInterface.reload_execution := load_execution;
  TxInterface.load_breaker := load_breaker;
  TxInterface.load_conversation := load_conversation;
  TxInterface.consume_authorization := consume_authorization;
  TxInterface.cas_execution := cas_execution;
  TxInterface.cas_breaker := cas_breaker;
  TxInterface.commit := commit;
  TxInterface.rollback := rollback;
  TxInterface.close := rollback
}.

(** *** The rows of a table *)

Definition exec_of (t : op_table P) : string -> option Execution :=
  row_at decode_exec RESEARCH_AUTHORIZED_EXECUTIONS t.
Definition brk_of (t : op_table P) : string -> option ProviderReliabilityState := op_row_of decode_brk t.
Definition conv_of (t : op_table P) : string -> option Ctx := sql_row decode_conv t.
Definition table_rows (t : op_table P) : rows Refinement := Rows (exec_of t) (brk_of t) (conv_of t).

Definition place (k : row_key) : string * string :=
  match k with
  | KExec i => (RESEARCH_AUTHORIZED_EXECUTIONS, i)
  | KBreaker k => (RESEARCH_PROVIDER_RELIABILITY, k)
  | KConversation i => (SHOPPING_CONVERSATIONS, i)
  end.

Lemma place_inj j k : place j = place k -> j = k.
Proof.
  destruct j, k; cbn [place]; try (by intros [= ->]); intros H;
    exfalso; apply (f_equal fst) in H; vm_compute in H; discriminate.
Qed.

(** What a row of the three stores may hold. *)
Definition fine (s k : string) (c : content P) : Prop :=
  let '(p, q, o) := c in
  (s = RESEARCH_AUTHORIZED_EXECUTIONS ->
     exists r, decode_exec p = Some r /\ good k r /\ q = Execution.Record.revision r)
  /\ (s = RESEARCH_PROVIDER_RELIABILITY ->
     exists x, decode_brk p = Some x /\ wf x /\ RepoInterface.key_of x = k /\ q = Breaker.revision x
       /\ 1 <= Breaker.revision x)
  /\ (s = SHOPPING_CONVERSATIONS ->
     exists c, decode_conv p = Some c /\ conversation_ok cfg k c /\ q = persistence_version c
       /\ o = _owner_key sha256_hex (owner c)).

Definition all_fine (t : op_table P) : Prop :=
  table_ok t /\ forall s k c, content_of s k t = Some c -> fine s k c.

Lemma same_content_row k t t' :
  content_of (place k).1 (place k).2 t = content_of (place k).1 (place k).2 t' ->
  same_row k (table_rows t) (table_rows t').
Proof.
  unfold content_of, table_rows, exec_of, brk_of, conv_of. destruct k; simpl; intros E;
    unfold row_at, op_row_of, sql_row; destruct (_get_row _ _ t), (_get_row _ _ t'); try done; congruence.
Qed.

Lemma fine_row s k r t :
  all_fine t -> _get_row s k t = Some r -> fine s k (op_payload r, op_seq r, op_owner r).
Proof. intros [_ H] Hr. apply H. unfold content_of. by rewrite Hr. Qed.

Lemma fine_exec t : all_fine t -> ExecutionRows.sql_ok decode_exec t.
Proof.
  intros Ht. split; [apply Ht |]. intros k r Hr. destruct (fine_row _ _ _ _ Ht Hr) as (H & _ & _).
  by apply H.
Qed.

Lemma fine_brk t : all_fine t -> op_ok decode_brk t.
Proof.
  intros Ht. split; [apply Ht |]. intros k r Hr. destruct (fine_row _ _ _ _ Ht Hr) as (_ & H & _).
  destruct (H eq_refl) as (x & ? & ? & ? & ? & ?). eauto 10.
Qed.

Lemma fine_conv t : all_fine t -> SqlHistory.sql_ok sha256_hex decode_conv cfg t.
Proof.
  intros Ht. split; [apply Ht |]. intros k r Hr. destruct (fine_row _ _ _ _ Ht Hr) as (_ & _ & H).
  destruct (H eq_refl) as (c & ? & [? ?] & ? & ?). eauto 10.
Qed.

Lemma fine_rows t : all_fine t -> rows_ok cfg (table_rows t).
Proof.
  intros Ht. split; simpl.
  - intros i r Hr. by eapply (row_at_good decode_exec _ good), Hr; apply fine_exec.
  - intros k s Hs. unfold brk_of, op_row_of in Hs. destruct (_get_row _ k t) as [r|] eqn:Er; [| done].
    destruct (fine_row _ _ _ _ Ht Er) as (_ & H & _). destruct (H eq_refl) as (x & Hd & ? & ? & _ & ?).
    rewrite Hd in Hs. injection Hs as <-. done.
  - intros i c Hc. unfold conv_of, sql_row in Hc. destruct (_get_row _ i t) as [r|] eqn:Er; [| done].
    destruct (fine_row _ _ _ _ Ht Er) as (_ & _ & H). destruct (H eq_refl) as (x & Hd & [? ?] & _).
    rewrite Hd in Hc. by injection Hc as <-.
  - intros i c Hc. unfold conv_of, sql_row in Hc. destruct (_get_row _ i t) as [r|] eqn:Er; [| done].
    destruct (fine_row _ _ _ _ Ht Er) as (_ & _ & H). destruct (H eq_refl) as (x & Hd & [? ?] & _).
    rewrite Hd in Hc. by injection Hc as <-.
Qed.

Lemma put_fine s k c t :
  all_fine t -> (forall x, c = Some x -> fine s k x) -> all_fine (put_entry t (s, k, c)).
Proof.
  intros [Ht Hf] Hc. destruct (put_entry_spec s k c t Ht) as (H1 & H2 & H3). split; [done |].
  intros s' k' x Hx. destruct (decide ((s', k') = (s, k))) as [[= -> ->] | Hne].
  - rewrite H2 in Hx. by apply Hc.
  - rewrite H3 in Hx by done. by apply Hf.
Qed.

(** *** The session keeps to the protocol *)

Context (decode_encode_exec : forall r, execution_check r = Ok tt ->
           decode_exec (encode_exec r) = Some r)
        (decode_encode_brk : forall s, wf s -> decode_brk (encode_brk s) = Some s)
        (decode_encode_conv : forall c, context_post_init c = Ok c ->
           decode_conv (encode_conv c) = Some c).
(** What other workers may do to the rows. *)
Variable can : rows Refinement -> rows Refinement -> Prop.
Context (can_same : forall p q, rows_ok cfg p -> rows_eq p q -> can p q)
        (can_step : forall p q r, can p q -> can q r -> can p r)
        (can_newer : forall p q, can p q -> evolves cfg p q).

Definition event_ok (e : event) : Prop :=
  forall locks t, all_fine t ->
    all_fine (ev_others e locks t) /\ can (table_rows t) (table_rows (ev_others e locks t))
    /\ forall x, x ∈ locks -> content_of x.1 x.2 (ev_others e locks t) = content_of x.1 x.2 t.

Record sql_at (σ : session) (p : rows Refinement) (ws : list (Rows.write Refinement)) : Prop := {
  sa_base : all_fine (s_base σ);
  sa_seen : all_fine (seen σ);
  sa_shared : rows_eq p (table_rows (s_base σ));
  sa_view : rows_eq (view ws p) (table_rows (seen σ));
  sa_keys : forall k, k ∈ map key_of_write ws <-> place k ∈ map fst (s_own σ);
  sa_script : Forall event_ok (s_script σ)
}.

Definition sql_quiet (σ : session) : Prop := s_script σ = [].

Lemma sql_at_ok σ p ws : sql_at σ p ws -> rows_ok cfg p.
Proof.
  intros []. pose proof (fine_rows _ sa_base0) as Hf. destruct sa_shared0 as (H1 & H2 & H3).
  destruct Hf. split; intros ? ?; rewrite ?H1, ?H2, ?H3; eauto.
Qed.

(** The others commit around the rows the session holds. *)
Lemma next_at σ p ws :
  sql_at σ p ws ->
  exists q, TxInterface.others can ws p q /\ sql_at (next σ).1 q ws
    /\ (sql_quiet σ -> sql_quiet (next σ).1 /\ calm now p q /\ (next σ).2 = false).
Proof.
  intros Hat. unfold next, sql_quiet. destruct (s_script σ) as [|e rest] eqn:Es.
  { exists p. split; [split; [| intros; apply same_row_refl] |].
    - apply can_same; [by eapply sql_at_ok | done].
    - split; [done |]. intros _. split; [done |]. split; [apply calm_refl | done]. }
  set (locks := map fst (s_own σ)). set (base' := ev_others e locks (s_base σ)).
  destruct Hat. rewrite Es in sa_script0. apply Forall_cons in sa_script0 as [He Hrest].
  destruct (He locks (s_base σ) sa_base0) as (Hf & Hcan & Hlock). fold base' in Hf, Hcan, Hlock.
  assert (forall s k, (s, k) ∈ locks -> content_of s k (overlay (s_own σ) base') = content_of s k (seen σ)) as Hin.
  { intros s k Hk. apply overlay_agree; [apply Hf | apply sa_base0 | by apply (Hlock (s, k))]. }
  assert (forall s k, (s, k) ∉ locks -> content_of s k (overlay (s_own σ) base') = content_of s k base') as Hout.
  { intros s k Hk. apply overlay_other; [apply Hf | done]. }
  assert (all_fine (overlay (s_own σ) base')) as Hseen.
  { split; [apply overlay_ok, Hf |]. intros s k c. destruct (decide ((s, k) ∈ locks)) as [Hk | Hk].
    - rewrite Hin by done. apply sa_seen0.
    - rewrite Hout by done. apply Hf. }
  exists (table_rows base'). split; [| split; [| done]].
  - split.
    + eapply can_step; [| exact Hcan]. apply can_same; [| done].
      pose proof (fine_rows _ sa_base0) as Hr. destruct sa_shared0 as (H1 & H2 & H3).
      destruct Hr. split; intros ? ?; rewrite ?H1, ?H2, ?H3; eauto.
    + intros k Hk. rewrite rows_eq_iff in sa_shared0. eapply same_row_trans; [apply sa_shared0 |].
      apply same_content_row. symmetry. apply (Hlock (place k)). by apply sa_keys0.
  - split; simpl; try done. change (seen (Session base' (s_own σ) rest)) with (overlay (s_own σ) base').
    apply rows_eq_iff. intros k. destruct (decide (k ∈ map key_of_write ws)) as [Hk | Hk].
    + eapply same_row_trans; [by apply (view_written ws _ p) |].
      rewrite rows_eq_iff in sa_view0. eapply same_row_trans; [apply sa_view0 |].
      apply same_content_row. symmetry. apply Hin. rewrite <- surjective_pairing. by apply sa_keys0.
    + eapply same_row_trans; [by apply view_other |]. apply same_content_row. symmetry.
      apply Hout. rewrite <- surjective_pairing. intros H. by apply Hk, sa_keys0.
Qed.

(** One more row is the session's own. *)
Lemma grow σ p ws w s k t' :
  sql_at σ p ws -> place (key_of_write w) = (s, k) -> all_fine t' ->
  (forall s' k', (s', k') <> (s, k) -> content_of s' k' t' = content_of s' k' (seen σ)) ->
  rows_eq (apply_write (view ws p) w) (table_rows t') ->
  sql_at (Session (s_base σ) (s_own σ ++ [(s, k, content_of s k t')]) (s_script σ)) p (ws ++ [w]).
Proof.
  intros [] Hw Ht' Hoff Hrows.
  assert (seen (Session (s_base σ) (s_own σ ++ [(s, k, content_of s k t')]) (s_script σ))
          = put_entry (seen σ) (s, k, content_of s k t')) as Hseen
    by (unfold seen, overlay; simpl; by rewrite foldl_app).
  split; simpl; try done.
  - rewrite Hseen. apply put_fine; [done |]. intros c. apply Ht'.
  - rewrite view_app. simpl. etrans; [exact Hrows |]. apply rows_eq_iff. intros j.
    apply same_content_row. rewrite Hseen.
    destruct (put_entry_spec s k (content_of s k t') (seen σ) (proj1 sa_seen0)) as (_ & H2 & H3).
    destruct (place j) as [s' k'] eqn:Ej. cbn [fst snd]. destruct (decide ((s', k') = (s, k))) as [[= -> ->] | Hne].
    + by rewrite H2.
    + rewrite H3 by done. by apply Hoff.
  - intros j. rewrite !map_app, !elem_of_app, sa_keys0. simpl.
    rewrite !list_elem_of_singleton. split; intros [H | H]; auto.
    + subst j. by right.
    + right. apply place_inj. congruence.
Qed.

Notation runs := (ran can sql_at sql_quiet now).

(** A call runs one method on what the session then sees: the method may leave
    the table, or write one row. *)
Lemma statement_runs {A E} (wrap : E -> tx_exn) s k (m : act (op_table P) E A) σ p ws does :
  sql_at σ p ws -> (forall e, wrap e <> TxUnavailable) ->
  (forall σ1 q, sql_at σ1 q ws ->
     let '(r, t') := m (seen σ1) in
     let r' := match r with Ok a => Ok a | Err e => Err (wrap e) end in
     (t' = seen σ1 /\ does q r' [])
     \/ exists w, version_of s k t' <> version_of s k (seen σ1) /\ place (key_of_write w) = (s, k)
        /\ all_fine t'
        /\ (forall s' k', (s', k') <> (s, k) -> content_of s' k' t' = content_of s' k' (seen σ1))
        /\ rows_eq (apply_write (view ws q) w) (table_rows t') /\ does q r' [w]) ->
  runs σ p ws (statement wrap s k m σ) does.
Proof.
  intros Hat Hwrap Hm. destruct (next_at σ p ws Hat) as (q & Hq & Hat1 & Hquiet).
  unfold statement. destruct (next σ) as [σ1 down]. cbn [fst snd] in *. destruct down.
  { exists q, []. rewrite app_nil_r. split; [done |]. split; [done |].
    split; [intros Hs; by destruct (Hquiet Hs) as (_ & _ & ?) | by left]. }
  specialize (Hm σ1 q Hat1). destruct (m (seen σ1)) as [r t'].
  assert (match r with Ok a => Ok a | Err e => Err (wrap e) end <> Err TxUnavailable) as Hne
    by (destruct r; [done |]; intros [= H]; by eapply Hwrap).
  destruct Hm as [[-> Hd] | (w & Hv & Hw & Ht' & Hoff & Hrows & Hd)].
  - rewrite bool_decide_true by done. exists q, []. rewrite app_nil_r. split; [done |].
    split; [done |]. split; [| by right]. intros Hs. destruct (Hquiet Hs) as (? & ? & _). done.
  - rewrite bool_decide_false by done. exists q, [w]. split; [done |].
    split; [by eapply grow |]. split; [| by right].
    intros Hs. destruct (Hquiet Hs) as (? & ? & _). done.
Qed.
(** A table that differs from the session's in the row of one write. *)
Lemma wrote σ q ws w s k t' r :
  sql_at σ q ws -> place (key_of_write w) = (s, k) -> table_ok t' -> off s k (seen σ) t' ->
  _get_row s k t' = r -> (forall x, r = Some x -> fine s k (op_payload x, op_seq x, op_owner x)) ->
  same_row (key_of_write w) (apply_write (view ws q) w) (table_rows t') ->
  all_fine t'
  /\ (forall s' k', (s', k') <> (s, k) -> content_of s' k' t' = content_of s' k' (seen σ))
  /\ rows_eq (apply_write (view ws q) w) (table_rows t').
Proof.
  intros [] Hw Ht' Hoff Hr Hf Hsame.
  assert (forall s' k', (s', k') <> (s, k) -> content_of s' k' t' = content_of s' k' (seen σ)) as Hc
    by (intros; by apply content_ext, Hoff).
  split; [| split; [done |]].
  - split; [done |]. intros s' k' c Hx. destruct (decide ((s', k') = (s, k))) as [[= -> ->] | Hne].
    + unfold content_of in Hx. destruct (_get_row s k t') as [x|]; [| done]. injection Hx as <-.
      by apply Hf.
    + rewrite Hc in Hx by done. by apply sa_seen0.
  - apply rows_eq_iff. intros j. destruct (decide (key_of_write w = j)) as [<- | Hne]; [done |].
    eapply same_row_trans; [by apply apply_other |]. rewrite rows_eq_iff in sa_view0.
    eapply same_row_trans; [apply sa_view0 |]. apply same_content_row. symmetry.
    assert (place j <> (s, k)) by (rewrite <- Hw; intros E; by apply Hne, eq_sym, place_inj).
    destruct (place j) as [s' k']. by apply Hc.
Qed.

Lemma fine_exec_row k p q o r :
  decode_exec p = Some r -> good k r -> q = Execution.Record.revision r ->
  fine RESEARCH_AUTHORIZED_EXECUTIONS k (p, q, o).
Proof. intros. split; [eauto |]. split; intros H'; vm_compute in H'; discriminate. Qed.

Lemma fine_brk_row k p q o x :
  decode_brk p = Some x -> wf x -> RepoInterface.key_of x = k -> q = Breaker.revision x ->
  1 <= Breaker.revision x -> fine RESEARCH_PROVIDER_RELIABILITY k (p, q, o).
Proof.
  intros. split; [intros H'; vm_compute in H'; discriminate |].
  split; [eauto 10 | intros H'; vm_compute in H'; discriminate].
Qed.

Lemma fine_conv_row k p q c :
  decode_conv p = Some c -> conversation_ok cfg k c -> q = persistence_version c ->
  fine SHOPPING_CONVERSATIONS k (p, q, _owner_key sha256_hex (owner c)).
Proof.
  intros. split; [intros H'; vm_compute in H'; discriminate |].
  split; [intros H'; vm_compute in H'; discriminate | eauto 10].
Qed.

(** A method that only reads. *)
Lemma reads {A E} (wrap : E -> tx_exn) s k (m : act (op_table P) E A) σ p ws
    (f : op_table P -> result E A) does :
  sql_at σ p ws -> (forall e, wrap e <> TxUnavailable) ->
  (forall t, all_fine t -> m t = (f t, t)) ->
  (forall σ1 q, sql_at σ1 q ws ->
     does q (match f (seen σ1) with Ok a => Ok a | Err e => Err (wrap e) end) []) ->
  runs σ p ws (statement wrap s k m σ) does.
Proof.
  intros Hat Hw Hm Hd. apply statement_runs; [done | done |]. intros σ1 q Hq.
  rewrite Hm by apply Hq. left. split; [done | by apply Hd].
Qed.

Lemma lock_runs σ p ws :
  sql_at σ p ws -> runs σ p ws (lock_for_claim σ) (fun q r vs => r = Ok tt /\ vs = []).
Proof.
  intros Hat. destruct (next_at σ p ws Hat) as (q & Hq & Hat1 & Hquiet). unfold lock_for_claim.
  destruct (next σ) as [σ1 down]. cbn [fst snd] in *. exists q, []. rewrite app_nil_r.
  split; [done |]. destruct down; (split; [done |]); split; try (by left); try (by right).
  - intros Hs. by destruct (Hquiet Hs) as (_ & _ & ?).
  - intros Hs. destruct (Hquiet Hs) as (? & ? & _). done.
Qed.

Lemma load_execution_runs σ p ws i :
  sql_at σ p ws ->
  runs σ p ws (load_execution i σ) (fun q r vs => r = Ok (exec_at (view ws q) i) /\ vs = []).
Proof.
  intros Hat. unfold load_execution.
  apply (reads _ _ _ _ _ _ _ (fun t => Ok (exec_of t i))); [done | done | |].
  - intros t Ht. by apply (execution_load_spec decode_exec), fine_exec.
  - intros σ1 q []. split; [| done]. destruct sa_view0 as (-> & _). done.
Qed.

Lemma load_breaker_runs σ p ws provider market at_ :
  sql_at σ p ws ->
  runs σ p ws (load_breaker provider market at_ σ)
    (fun q r vs => vs = [] /\ r = match breaker_result (view ws q) provider market at_ with
                                  | Ok s => Ok s
                                  | Err e => Err (TxBreaker e)
                                  end).
Proof.
  intros Hat. unfold load_breaker.
  apply (reads _ _ _ _ _ _ _ (fun t => breaker_result (table_rows t) provider market at_)); [done | done | |].
  - intros t Ht. f_equal. apply (op_load_spec decode_brk). by apply fine_brk.
  - intros σ1 q []. split; [done |]. unfold breaker_result.
    destruct (reliability_record_key provider market) as [k|]; [| done].
    destruct sa_view0 as (_ & -> & _). done.
Qed.
Lemma conv_row_of t i :
  all_fine t ->
  match conv_of t i with
  | None => _get_row SHOPPING_CONVERSATIONS i t = None
  | Some c => conversation_ok cfg i c
      /\ exists r, _get_row SHOPPING_CONVERSATIONS i t = Some r /\ op_seq r = persistence_version c
  end.
Proof.
  intros Ht. unfold conv_of, sql_row. destruct (_get_row _ i t) as [r|] eqn:Er; [| done].
  destruct (fine_row _ _ _ _ Ht Er) as (_ & _ & H). destruct (H eq_refl) as (c & -> & Hc & Hq & _). eauto.
Qed.

(** The removal of a row at its version. *)
Lemma drop_row t i c :
  all_fine t -> conv_of t i = Some c ->
  let t' := (delete_versioned SHOPPING_CONVERSATIONS i (persistence_version c) t).2 in
  table_ok t' /\ off SHOPPING_CONVERSATIONS i t t' /\ _get_row SHOPPING_CONVERSATIONS i t' = None
  /\ version_of SHOPPING_CONVERSATIONS i t' <> version_of SHOPPING_CONVERSATIONS i t.
Proof.
  intros Ht Hc t'. pose proof (conv_row_of t i Ht) as H. rewrite Hc in H. destruct H as (_ & r & Er & Es).
  destruct (delete_versioned_spec t SHOPPING_CONVERSATIONS i (persistence_version c) (proj1 Ht))
    as (Ht' & Hi & Hoff). fold t' in Ht', Hi, Hoff. rewrite Er, Es, Z.eqb_refl in Hi.
  split; [done |]. split; [exact Hoff |]. split; [done |]. unfold version_of. by rewrite Hi, Er.
Qed.

Lemma drop_wrote σ q ws i t' :
  sql_at σ q ws -> table_ok t' -> off SHOPPING_CONVERSATIONS i (seen σ) t' ->
  _get_row SHOPPING_CONVERSATIONS i t' = None ->
  all_fine t'
  /\ (forall s' k', (s', k') <> (SHOPPING_CONVERSATIONS, i) -> content_of s' k' t' = content_of s' k' (seen σ))
  /\ rows_eq (apply_write (view ws q) (WDrop i)) (table_rows t').
Proof.
  intros Hat Ht' Hoff Hi. apply (wrote σ q ws (WDrop i) _ _ _ None); try done.
  simpl. rewrite set_at_eq. unfold conv_of, sql_row. by rewrite Hi.
Qed.

(** The conversation a session sees is the shared one until it writes it. *)
Lemma conv_shared σ q ws i :
  sql_at σ q ws -> unwritten_conversation i ws -> conv_at q i = conv_of (seen σ) i.
Proof.
  intros [] Hi. destruct sa_view0 as (_ & _ & H). etrans; [| exact (H i)]. symmetry.
  by apply (view_other ws q (KConversation i)).
Qed.

Lemma sql_load_conversation_runs σ p ws i :
  sql_at σ p ws -> unwritten_conversation i ws ->
  runs σ p ws (load_conversation i σ)
    (fun q r vs =>
       (vs = [] /\ r = Ok (conv_at q i) /\ forall c, conv_at q i = Some c -> _is_expired now c = false)
       \/ (vs = [WDrop i] /\ r = Ok None
           /\ exists c, conv_at q i = Some c /\ _is_expired now c = true)).
Proof.
  intros Hat Hi. unfold load_conversation. apply statement_runs; [done | done |]. intros σ1 q Hq.
  rewrite (conv_shared σ1 q ws i Hq Hi). pose proof (sa_seen _ _ _ Hq) as Hf.
  unfold Sql.get. act_run. rewrite (SqlHistory.sql_load_spec sha256_hex decode_conv cfg) by by apply fine_conv.
  change (sql_row decode_conv (seen σ1) i) with (conv_of (seen σ1) i).
  destruct (conv_of (seen σ1) i) as [c|] eqn:Ec; [| left; split; [done | by left]].
  destruct (_is_expired now c) eqn:Ex.
  - right. exists (WDrop i). destruct (drop_row _ _ _ Hf Ec) as (Ht' & Hoff & Hnone & Hv).
    split; [exact Hv |]. split; [done |].
    destruct (drop_wrote σ1 q ws i _ Hq Ht' Hoff Hnone) as (H1 & H2 & H3).
    split; [exact H1 |]. split; [exact H2 |]. split; [exact H3 |]. right. eauto.
  - left. split; [done |]. left. split; [done |]. split; [done |]. by intros x [= <-].
Qed.
(** [save] of a consumed conversation that is live. *)
Lemma sql_save i c l x t :
  all_fine t -> conv_of t i = Some c -> _is_expired now c = false ->
  Forall (fun a => authorization_post_init a = Ok a) l -> 0 <= x ->
  let m := Sql.save sha256_hex encode_conv decode_conv cfg now alone (with_authorizations l c) (Some x) in
  if x =? persistence_version c
  then exists t' r, m t = (Ok (successor cfg c l), t')
       /\ table_ok t' /\ off SHOPPING_CONVERSATIONS i t t'
       /\ _get_row SHOPPING_CONVERSATIONS i t' = Some r
       /\ decode_conv (op_payload r) = Some (successor cfg c l)
       /\ op_seq r = persistence_version c + 1
       /\ op_owner r = _owner_key sha256_hex (owner (successor cfg c l))
  else m t = (Err (VersionConflict i x), t).
Proof.
  intros Hf E Hlive Hl Hx m. pose proof (fine_conv t Hf) as Hok.
  pose proof (conv_row_of t i Hf) as Hc. rewrite E in Hc. destruct Hc as [Hc (r & Er & Hs)].
  pose proof Hc as [Hrow _]. pose proof (History.ok_id _ _ _ Hrow) as Hi.
  pose proof Hrow as [_ _ _ Hv%History.valid_iff _].
  assert (forall n, 0 <= n -> checked (History.stored_as cfg n (with_authorizations l c))
                              = Ok (History.stored_as cfg n (with_authorizations l c))) as Hch.
  { intros n Hn. apply History.checked_valid, History.valid_iff. by split; [apply Hv |]. }
  set (stored := History.stored_as cfg (x + 1) (with_authorizations l c)).
  assert (m t = match compare_and_swap encode_conv SHOPPING_CONVERSATIONS i stored x (x + 1)
                        (_owner_key sha256_hex (owner stored)) t with
                | (Ok true, t') => (Ok stored, t')
                | (_, t') => (Err (VersionConflict i x), t')
                end) as ->.
  { unfold m, Sql.save. unfold a_bind at 1, a_lift at 1.
  change (conversation_id (with_authorizations l c)) with (conversation_id c).
  change (owner (with_authorizations l c)) with (owner c). rewrite Hi, live_owner by done.
  unfold a_bind at 1, a_lift at 1.
  set (bounded := with_turns (recent cfg (turns (with_authorizations l c))) (with_authorizations l c)).
  assert (checked bounded = Ok bounded) as -> by (apply History.checked_valid, History.valid_iff; exact Hv).
  assert (require_context_membership bounded = Ok tt) as Hm
    by (apply History.members_recent, (History.ok_members _ _ _ Hrow)).
  unfold a_bind at 1, a_lift at 1. rewrite Hm.
  cbn [drifted default]. cbv zeta. unfold id. unfold a_bind at 1.
  rewrite (SqlHistory.sql_load_spec sha256_hex decode_conv cfg) by done.
  change (sql_row decode_conv t i) with (conv_of t i). rewrite E.
  unfold a_bind at 1, a_guard at 1, a_lift at 1. change (owner_changes c bounded) with (owner_changes c (with_authorizations l c)).
  rewrite owner_kept. cbn [guard_raise]. unfold a_bind at 1, a_lift at 1, require_stable_decision_context.
  change (decision_context bounded) with (decision_context c).
  rewrite bool_decide_true by done. rewrite andb_false_r. cbn [guard_raise rbind].
  rewrite Hm.
  cbn [drifted]. unfold Sql._compare_and_swap. unfold a_bind at 1, a_lift at 1.
  fold (History.stored_as cfg (x + 1) bounded). unfold bounded at 1. rewrite SqlHistory.recent_twice.
  rewrite Hch by lia. fold stored. unfold a_bind at 1, Sql.others at 1, a_mod at 1.
  change (conversation_id bounded) with (conversation_id c). by rewrite Hi. }
  destruct (Z.eqb_spec x (persistence_version c)) as [-> | Hne].
  - change stored with (successor cfg c l).
    destruct (cas_ok encode_conv t SHOPPING_CONVERSATIONS i (successor cfg c l) (persistence_version c)
                (persistence_version c + 1) (_owner_key sha256_hex (owner (successor cfg c l))) r
                (proj1 Hf) Er Hs) as (t' & -> & Ht' & Hr' & Hoff).
    exists t'. eexists. split; [done |]. split; [done |]. split; [exact Hoff |]. split; [exact Hr' |].
    split; [| done]. simpl. apply decode_encode_conv. by eapply successor_valid.
  - rewrite (SqlHistory.swap_stale sha256_hex encode_conv decode_conv cfg); [done | done |].
    intros e He. change (conv_of t i = Some e) in He. congruence.
Qed.
Lemma sql_consume_runs σ p ws a :
  sql_at σ p ws -> unwritten_conversation (ac_conversation_id a) ws -> 0 <= ac_expected_version a ->
  runs σ p ws (consume_authorization a σ)
    (fun q r vs =>
       match r with
       | Ok c => vs = [WConversation c] /\ consumed_row sha256_hex cfg q a c
       | Err e => (exists x, e = TxConversation x /\ handled x = true)
           /\ forall e u, conv_at q (ac_conversation_id a) = Some e ->
                _is_expired now e = false -> persistence_version e = ac_expected_version a ->
                consume_exact_research_authorization sha256_hex e (ac_consumption a) <> Ok u
       end).
Proof.
  intros Hat Hi Hx. unfold consume_authorization. apply statement_runs; [done | done |]. intros σ1 q Hq.
  pose proof (conv_shared σ1 q ws _ Hq Hi) as Hshared. pose proof (sa_seen _ _ _ Hq) as Hf.
  destruct a as [i k x]. cbn [ac_conversation_id ac_consumption ac_expected_version] in *.
  rewrite Hshared. unfold Sql.consume_research_authorization. unfold a_bind at 1.
  unfold Sql.get. act_run. rewrite (SqlHistory.sql_load_spec sha256_hex decode_conv cfg) by by apply fine_conv.
  change (sql_row decode_conv (seen σ1) i) with (conv_of (seen σ1) i) in *.
  destruct (conv_of (seen σ1) i) as [c|] eqn:Ec; [| left; split; [done |]; split; [by eexists |]; done].
  pose proof (conv_row_of _ i Hf) as Hc. rewrite Ec in Hc. destruct Hc as [Hc (r & Er & Hs)].
  destruct (_is_expired now c) eqn:Ex.
  { right. exists (WDrop i). destruct (drop_row _ _ _ Hf Ec) as (Ht' & Hoff & Hnone & Hv).
    destruct (drop_wrote σ1 q ws i _ Hq Ht' Hoff Hnone) as (H1 & H2 & H3).
    split; [exact Hv |]. split; [done |]. split; [exact H1 |]. split; [exact H2 |]. split; [exact H3 |].
    split; [by eexists |]. intros e u [= <-]. congruence. }
  pose proof (consume_total sha256_hex cfg i c k Hc) as Ht.
  destruct (consume_exact_research_authorization _ _ _) as [u|e] eqn:Eu; cbn [authorized].
  2: { left. split; [done |]. split; [by eexists |]. intros e' u' [= <-] _ _. congruence. }
  destruct Ht as (l & -> & Hl).
  pose proof (sql_save i c l x (seen σ1) Hf Ec Ex Hl Hx) as Hsave. cbv zeta in Hsave.
  unfold Sql.others at 1, a_mod at 1.
  destruct (Z.eqb_spec x (persistence_version c)) as [-> | Hne].
  - destruct Hsave as (t' & r' & -> & Ht' & Hoff & Hr' & Hd & Hs' & Ho). right.
    exists (WConversation (successor cfg c l)).
    assert (conversation_id (successor cfg c l) = i) as Hid by apply Hc.
    split; [unfold version_of; rewrite Hr', Er; simpl; intros [=]; lia |].
    split; [cbn [key_of_write place]; by rewrite Hid |].
    destruct (wrote σ1 q ws (WConversation (successor cfg c l)) SHOPPING_CONVERSATIONS i t' (Some r'))
      as (H1 & H2 & H3); try done.
    + cbn [key_of_write place]. by rewrite Hid.
    + intros y [= <-]. rewrite Ho. apply fine_conv_row; [done | by apply successor_ok | done].
    + cbn [key_of_write same_row apply_write conv_at]. rewrite set_at_eq, Hid.
      unfold table_rows. cbn [conv_at]. unfold conv_of, sql_row. by rewrite Hr', Hd.
    + split; [exact H1 |]. split; [exact H2 |]. split; [exact H3 |]. split; [done |].
      exists c, (with_authorizations l c). done.
  - rewrite Hsave. left. split; [done |]. split; [by eexists |].
    intros e' u' [= <-] _ Hv. congruence.
Qed.

Lemma sql_cas_execution_runs σ p ws record expected :
  sql_at σ p ws ->
  runs σ p ws (cas_execution record expected σ)
    (fun q r vs =>
       match cas_result (exec_at (view ws q) (execution_id record)) record expected with
       | Ok s => r = Ok s /\ vs = [WExec s]
       | Err e => r = Err (TxExecution e) /\ vs = []
       end).
Proof.
  intros Hat. unfold cas_execution. apply statement_runs; [done | done |]. intros σ1 q Hq.
  pose proof (fine_exec _ (sa_seen _ _ _ Hq)) as Hok.
  assert (exec_at (view ws q) (execution_id record) = exec_of (seen σ1) (execution_id record)) as ->
    by (destruct (sa_view _ _ _ Hq) as (H & _); apply H).
  destruct (sql_cas_alone encode_exec decode_exec decode_encode_exec record expected _ Hok) as (t' & -> & H).
  fold (exec_of (seen σ1)) in *.
  destruct (cas_result _ record expected) as [s|e] eqn:E; [| subst t'; by left]. right.
  apply cas_result_ok in E as (c & Ec & Hrev & _ & Hs & _).
  assert (execution_id s = execution_id record) as Hid by by subst s.
  destruct H as (Ht' & Hrows & Hrow & Hoff & _).
  apply (row_at_some decode_exec _ good Execution.Record.revision) in Hrow as (r' & Hr' & Hd & Hg & Hq'); [| done].
  apply (row_at_some decode_exec _ good Execution.Record.revision) in Ec as (r & Er & _ & _ & Hseq); [| apply Hok].
  exists (WExec s). split; [| split; [cbn [key_of_write place]; by rewrite Hid |]].
  { unfold version_of. rewrite Hr', Er. simpl. intros [= H]. subst s. simpl in *. lia. }
  destruct (wrote σ1 q ws (WExec s) RESEARCH_AUTHORIZED_EXECUTIONS (execution_id record) t' (Some r'))
    as (H1 & H2 & H3); try done.
  - cbn [key_of_write place]. by rewrite Hid.
  - intros y [= <-]. by eapply fine_exec_row.
  - cbn [key_of_write same_row apply_write exec_at]. rewrite set_at_eq, Hid.
    unfold table_rows. cbn [exec_at]. unfold exec_of, row_at. by rewrite Hr', Hd.
Qed.

Lemma sql_cas_breaker_runs σ p ws s expected :
  sql_at σ p ws -> wf s -> 0 <= expected ->
  runs σ p ws (cas_breaker s expected σ)
    (fun q r vs =>
       match swap_breaker_result (view ws q) s expected with
       | Ok s' => r = Ok s' /\ vs = [WBreaker s']
       | Err e => r = Err (TxBreaker e) /\ vs = []
       end).
Proof.
  intros Hat Hs He. unfold cas_breaker. apply statement_runs; [done | done |]. intros σ1 q Hq.
  pose proof (fine_brk _ (sa_seen _ _ _ Hq)) as Hok.
  unfold swap_breaker_result. unfold breaker_key. rewrite (RepoInterface.wf_key s Hs).
  set (k := RepoInterface.key_of s) in *.
  assert (brk_at (view ws q) k = op_row_of decode_brk (seen σ1) k) as ->
    by (destruct (sa_view _ _ _ Hq) as (_ & H & _); apply H).
  pose proof (op_save_row encode_brk decode_brk decode_encode_brk s expected _ Hok Hs He) as H.
  fold k in H. destruct (Z.eqb_spec (RepoInterface.row_revision (op_row_of decode_brk (seen σ1) k)) expected)
    as [Erev | Erev]; [| rewrite H; by left].
  destruct H as (t' & r' & -> & Ht' & Hr' & Hd & Hseq & Hoff). right.
  exists (WBreaker (Breaker.set_revision (expected + 1) s)).
  split; [| split; [done |]].
  { unfold version_of. rewrite Hr'. simpl. rewrite Hseq. intros H. unfold op_row_of in Erev.
    destruct (_get_row RESEARCH_PROVIDER_RELIABILITY k (seen σ1)) as [r|] eqn:Er; [| done].
    destruct (proj2 Hok k r Er) as (x & Hdx & _ & _ & Hsx & _). rewrite Hdx in Erev. simpl in *.
    injection H as H. lia. }
  destruct (wrote σ1 q ws (WBreaker (Breaker.set_revision (expected + 1) s))
              RESEARCH_PROVIDER_RELIABILITY k t' (Some r')) as (H1 & H2 & H3); try done.
  - intros y [= <-]. eapply fine_brk_row; [exact Hd | apply RepoInterface.wf_set_revision; [done | lia] | done | done |].
    simpl. lia.
  - cbn [key_of_write same_row apply_write brk_at]. rewrite set_at_eq.
    unfold table_rows. cbn [brk_at]. unfold brk_of, op_row_of.
    change (RepoInterface.key_of (Breaker.set_revision (expected + 1) s)) with k. by rewrite Hr', Hd.
Qed.
(** *** The end of the transaction *)

Lemma sql_commit_runs σ p ws :
  sql_at σ p ws ->
  exists q, TxInterface.others can ws p q /\ (sql_quiet σ -> calm now p q)
    /\ ((commit σ).1 = Ok tt /\ sql_at (commit σ).2 (view ws q) []
        \/ ((commit σ).1 = Err TxUnavailable /\ sql_at (commit σ).2 q ws /\ ~ sql_quiet σ)).
Proof.
  intros Hat. destruct (next_at σ p ws Hat) as (q & Hq & Hat1 & Hquiet). exists q. split; [done |].
  split; [by intros Hs; destruct (Hquiet Hs) as (_ & ? & _) |].
  unfold commit. destruct (next σ) as [σ1 down]. cbn [fst snd] in *. destruct down.
  - right. split; [done |]. split; [done |]. intros Hs. by destruct (Hquiet Hs) as (_ & _ & ?).
  - left. split; [done |]. destruct Hat1. split; try done; simpl. intros k. split; intros H%elem_of_nil; done.
Qed.

Lemma rollback_at σ p ws : sql_at σ p ws -> sql_at (rollback σ).2 p [].
Proof. intros []. split; try done; simpl. intros k. split; intros H%elem_of_nil; done. Qed.

Definition sql_laws : TransactionLaws (Refinement := Refinement) (T := session) sha256_hex cfg.
Proof.
  refine {| TxInterface.can := can; tx_at := sql_at; quiet := sql_quiet; clock := now |}.
  - intros p Hp. by apply can_same.
  - exact can_step.
  - exact can_newer.
  - exact sql_at_ok.
  - exact lock_runs.
  - exact load_execution_runs.
  - exact load_execution_runs.
  - exact load_breaker_runs.
  - exact sql_load_conversation_runs.
  - exact sql_consume_runs.
  - exact sql_cas_execution_runs.
  - exact sql_cas_breaker_runs.
  - exact sql_commit_runs.
  - intros σ p ws Hat. exists p. split; [split; [| intros; apply same_row_refl] |].
    + apply can_same; [by eapply sql_at_ok | done].
    + split; [intros; apply calm_refl |]. split; [done | by eapply rollback_at].
  - intros σ p Hat. split; [done | by eapply rollback_at].
Defined.

(** A new session over a table. *)
Lemma begin_session t script :
  all_fine t -> Forall event_ok script -> sql_at (Session t [] script) (table_rows t) [].
Proof. intros Ht Hs. split; try done. intros k. simpl. split; intros H%elem_of_nil; done. Qed.
End SqlTx.
End SqlTx.
