(* ===== verification/LiveStart.v ===== *)
(** The live-start claim: [app/research/live_start_claim.py].

    Module [Claims]: the claim of one execution row, the checks of a later
    outcome write and the result record. Module [Service]: the claim service,
    over any unit of work that keeps the protocol of [ClaimTx]. The theorems
    about it are in [LiveStartSafety]. *)

From S2P Require Import Prelude PyStr Json Clock Connector Breaker PyState OpStore Research Catalogs Authorization Conversation ConversationRepo LiveMode Execution ExecutionRepo ClaimTx.
Import Connector Research Authorization Context Lifecycle.
Import Execution.Record TxInterface.
#[local] Open Scope Z_scope.

(** What the service raises: the errors of its unit of work, of the breaker,
    of the authorization checks, of a constructor, [IndexError] of an empty
    sequence, and the claim's own refusal. *)
Inductive start_exn :=
| StartTx (e : tx_exn)
| StartBreaker (e : rel_exn)
| StartAuth (e : auth_exn)
| StartValue (e : value_error)
| StartIndex
| ExecutionAlreadyClaimed (execution : string).

Definition breaker_part {A} (m : result rel_exn A) : result start_exn A :=
  match m with Ok a => Ok a | Err e => Err (StartBreaker e) end.
Definition value_part {A} (m : outcome A) : result start_exn A :=
  match m with Ok a => Ok a | Err e => Err (StartValue e) end.

(** ** The claim of a row *)
Module Claims.

(** Durations in microseconds. *)
Definition EXECUTION_CLAIM_LEASE : Z := 30 * 1000000.
Definition HALF_OPEN_PROBE_LEASE : Z := 30 * 1000000.
Definition SHOPIFY_LIVE_HTTP_TIMEOUT : Z := 5000 * 1000.
Definition LIVE_CONNECTOR_CLEANUP_MARGIN : Z := 1 * 1000000.

(** The error is a [RuntimeError]. *)
Definition _require_connector_timeout_fits_leases : outcome unit :=
  let budget := SHOPIFY_LIVE_HTTP_TIMEOUT + LIVE_CONNECTOR_CLEANUP_MARGIN in
  guard_raise ((EXECUTION_CLAIM_LEASE <=? budget) || (HALF_OPEN_PROBE_LEASE <=? budget))
    (ValueError ("future connector timeout plus safety margin must be shorter than "
                 +:+ "the execution claim lease and the HALF_OPEN probe lease")).

Record ActiveClaimCheck := { ck_valid : bool; ck_reason : option string }.

Definition claim_check (v : bool) (reason : option string) : outcome ActiveClaimCheck :=
  raise! ValueError "a valid claim check cannot carry a reason" when v && is_some reason in
  raise! ValueError "an invalid claim check requires a reason" when negb v && negb (some_text reason) in
  Ok {| ck_valid := v; ck_reason := reason |}.

Record LiveStartClaimResult := {
  claimed : bool;
  lr_execution_id : option string;
  lr_state : option string;
  lr_block_reason : option string;
  lr_claim_expires_at : option datetime;
  half_open_probe_lease_acquired : bool;
  connector_invoked : bool;
  http_invoked : bool;
  live_execution_started : bool;
  authorization_consumed : bool;
  lr_attempted : bool;
  lr_source_checked : bool;
  claim_capability : option string;
  probe_capability : option string
}.

Definition claim_result_check (r : LiveStartClaimResult) : outcome LiveStartClaimResult :=
  raise! ValueError "a live-start claim must not invoke a connector or HTTP"
    when connector_invoked r || http_invoked r || live_execution_started r in
  raise! ValueError "a live-start claim must not attempt or check a source"
    when lr_attempted r || lr_source_checked r in
  raise! ValueError "authorization is consumed only when the claim commits"
    when authorization_consumed r && negb (claimed r) in
  raise! ValueError "a claimed result cannot carry a block reason"
    when claimed r && is_some (lr_block_reason r) in
  raise! ValueError "a refused claim requires a block reason"
    when negb (claimed r) && negb (some_text (lr_block_reason r)) in
  raise! ValueError "a claim is claimed_for_attempt until a connector starts"
    when claimed r && negb (text_is (lr_state r) "claimed_for_attempt") in
  raise! ValueError "a claim requires an expiry"
    when claimed r && negb (is_some (lr_claim_expires_at r)) in
  raise! ValueError "a probe lease is not acquired when the claim is refused"
    when half_open_probe_lease_acquired r && negb (claimed r) in
  raise! ValueError "the claiming worker must receive the claim capability"
    when claimed r && negb (some_text (claim_capability r)) in
  raise! ValueError "the claiming worker must receive the probe capability"
    when half_open_probe_lease_acquired r && negb (some_text (probe_capability r)) in
  raise! ValueError "a probe capability exists only when the lease is acquired"
    when negb (half_open_probe_lease_acquired r) && is_some (probe_capability r) in
  Ok r.

Definition claim_result_to_public_dict (isoformat : datetime -> string) (r : LiveStartClaimResult) : json :=
  JObj [("claimed", JBool (claimed r)); ("execution_id", JOpt JStr (lr_execution_id r));
        ("state", JOpt JStr (lr_state r)); ("block_reason", JOpt JStr (lr_block_reason r));
        ("claim_expires_at", JOpt (fun d => JStr (isoformat d)) (lr_claim_expires_at r));
        ("half_open_probe_lease_acquired", JBool (half_open_probe_lease_acquired r));
        ("connector_invoked", JBool false); ("http_invoked", JBool false);
        ("live_execution_started", JBool false);
        ("authorization_consumed", JBool (authorization_consumed r));
        ("attempted", JBool false); ("source_checked", JBool false)]%string.

Definition _refused (reason : string) (execution st : option string) : outcome LiveStartClaimResult :=
  claim_result_check
    {| claimed := false; lr_execution_id := execution; lr_state := st;
       lr_block_reason := Some reason; lr_claim_expires_at := None;
       half_open_probe_lease_acquired := false; connector_invoked := false;
       http_invoked := false; live_execution_started := false; authorization_consumed := false;
       lr_attempted := false; lr_source_checked := false; claim_capability := None;
       probe_capability := None |}.

(** [replace(current, state=..., claimed_at=..., claim_expires_at=...,
    claim_digest=..., updated_at=...)]. *)
Definition set_claim (now expires : datetime) (digest : string) (r : Execution) : Execution :=
  {| execution_id := execution_id r; authorization_id := authorization_id r;
     authorization_version := authorization_version r; decision_id := decision_id r;
     x_plan := x_plan r; created_at := created_at r; updated_at := now; revision := revision r;
     state := claimed_for_attempt; claimed_at := Some now; claim_expires_at := Some expires;
     claim_digest := Some digest; attempt_started_at := attempt_started_at r;
     finished_at := finished_at r; attempted_provider_id := attempted_provider_id r;
     attempted_capability := attempted_capability r; attempted_market := attempted_market r;
     attempted_source := attempted_source r; x_outcome := x_outcome r;
     error_category := error_category r; evaluated_offer_count := evaluated_offer_count r;
     normalized_offer_count := normalized_offer_count r;
     returned_currencies := returned_currencies r;
     normalized_amount_minors := normalized_amount_minors r; evidence_ids := evidence_ids r;
     normalized_offer_digests := normalized_offer_digests r;
     observation_kind := observation_kind r; request_digest := request_digest r;
     trace := trace r; raw_response_persisted := raw_response_persisted r |}.

Definition _claim_is_active (r : Execution) (now : datetime) : bool :=
  bool_decide (state r = claimed_for_attempt)
  && match claim_expires_at r with Some x => before now x | None => false end.

Section Digest.
Variable sha256_hex : string -> string.

Definition claim_digest_of (capability : string) : string :=
  stable_sha256 sha256_hex (JObj [("kind", JStr "sprint38_execution_claim_v1");
                                  ("capability", JStr capability)]%string).

Definition execution_claim_digest (capability : string) : outcome string :=
  raise! ValueError "claim capability must be an opaque token" when len capability <? 16 in
  Ok (claim_digest_of capability).

Definition apply_execution_claim (current : Execution) (now : datetime) (lease : Z)
    (capability : string) : result start_exn Execution :=
  let value m := StartValue (ValueError m) in
  raise! value "now must be timezone-aware"%string when negb (dt_aware now) in
  raise! value "execution claim lease must be bounded and positive"%string when lease <=? 0 in
  raise! value "ambiguous_outcome_requires_reconciliation"%string
    when bool_decide (state current = running) in
  raise! value "execution_terminal"%string when terminal (state current) in
  raise! value "execution state cannot be claimed"%string
    when negb (bool_decide (state current = prepared_unavailable)
               || bool_decide (state current = claimed_for_attempt)) in
  raise! ExecutionAlreadyClaimed (execution_id current) when _claim_is_active current now in
  let! digest := value_part (execution_claim_digest capability) in
  value_part (make_execution (set_claim now (dt_add now lease) digest current)).

Definition validate_active_execution_claim (r : Execution) (capability : string) (now : datetime)
    : outcome ActiveClaimCheck :=
  raise! ValueError "now must be timezone-aware" when negb (dt_aware now) in
  if negb (bool_decide (state r = claimed_for_attempt))
  then claim_check false (Some "execution_not_claimed"%string)
  else if match claim_expires_at r with Some x => negb (before now x) | None => true end
  then claim_check false (Some "execution_claim_expired"%string)
  else match execution_claim_digest capability with
       | Err _ => claim_check false (Some "execution_claim_identity_mismatch"%string)
       | Ok expected =>
           if negb (bool_decide (claim_digest r = Some expected))
           then claim_check false (Some "execution_claim_identity_mismatch"%string)
           else claim_check true None
       end.

Definition validate_active_half_open_probe (s : Breaker.ProviderReliabilityState)
    (capability : string) (now : datetime) : result start_exn ActiveClaimCheck :=
  raise! StartValue (ValueError "now must be timezone-aware") when negb (dt_aware now) in
  if negb (bool_decide (Breaker.state s = HALF_OPEN))
  then value_part (claim_check false (Some "half_open_probe_not_active"%string))
  else
    let! active := breaker_part (Breaker.probe_lease_is_active s now) in
    if negb active then value_part (claim_check false (Some "half_open_probe_expired"%string))
    else value_part
      match Breaker.half_open_probe_digest sha256_hex capability with
      | Err _ => claim_check false (Some "half_open_probe_identity_mismatch"%string)
      | Ok expected =>
          if negb (bool_decide (Breaker.half_open_probe_claim_digest s = Some expected))
          then claim_check false (Some "half_open_probe_identity_mismatch"%string)
          else claim_check true None
      end.
End Digest.
End Claims.
Import Claims.

(** ** The service *)
Module Service.

Record LiveStartClaimRequest := {
  q_authorization : ResearchAuthorization;
  q_owner : ConversationOwner;
  q_plan : ResearchExecutionPlan;
  q_provider_id : string;
  q_market : string;
  q_capability : ResearchCapability;
  q_source : string;
  q_now : datetime;
  q_operational_status : ConnectorOperationalStatus;
  q_kill_switch : KillSwitch;
  q_registry : Registry.ResearchProviderRegistry;
  q_certifications : Certifications.ResearchProviderCertificationCatalog;
  q_routing : Routing.ResearchProviderRoutingPolicyCatalog;
  q_certified_markets : list string;
  q_mode : string
}.

Record _ClaimObservation := {
  ob_execution : Execution;
  ob_expected_execution_revision : Z;
  ob_breaker : option Breaker.ProviderReliabilityState;
  ob_expected_breaker_revision : option Z;
  ob_claim_capability : string;
  ob_probe_capability : option string;
  ob_consumption : option AuthorizationConsumption
}.

Inductive observed := Refusal (r : LiveStartClaimResult) | Observation (o : _ClaimObservation).

Definition _pin_reason (e : Execution) (q : LiveStartClaimRequest) : option string :=
  let plan := q_plan q in
  let a := q_authorization q in
  if negb (String.eqb (plan_id plan) (x_plan e)) then Some "authorization_plan_conflict"%string
  else if negb (String.eqb (pl_authorization_id plan) (authorization_id e))
          || negb (pl_authorization_version plan =? authorization_version e)
          || negb (String.eqb (pl_decision_id plan) (decision_id e))
          || negb (String.eqb (pl_authorization_id plan) (a_id a))
          || negb (pl_authorization_version plan =? a_version a)
          || negb (String.eqb (pl_decision_id plan) (a_decision_id a))
  then Some "execution_pin_mismatch"%string
  else None.

Definition _plan_target_matches (q : LiveStartClaimRequest) : bool :=
  existsb (fun s => String.eqb (s_provider_id s) (q_provider_id q)
                    && bool_decide (s_market s = Some (q_market q))
                    && bool_decide (s_capability s = q_capability q)
                    && one_of (q_source q) (source_identities s))
    (eligible_steps (q_plan q)).

Definition _effective_status (q : LiveStartClaimRequest) : ConnectorOperationalStatus :=
  match Registry.get (q_provider_id q) (q_registry q) with
  | None => q_operational_status q
  | Some d => if negb (bool_decide (d_operational_status d = AVAILABLE)) then d_operational_status d
              else q_operational_status q
  end.

Definition _effective_kill_switch (q : LiveStartClaimRequest) : KillSwitch :=
  if engaged (q_kill_switch q) then q_kill_switch q
  else match Registry.get (q_provider_id q) (q_registry q) with
       | Some d => if engaged (d_kill_switch d) then d_kill_switch d else q_kill_switch q
       | None => q_kill_switch q
       end.

Definition permission_for (q : LiveStartClaimRequest) (b : Breaker.ProviderReliabilityState)
    : result start_exn Breaker.ReliabilityDecision :=
  breaker_part (Breaker.assess_execution_permission b (_effective_status q)
                  (_effective_kill_switch q) (q_now q)).

Definition _gate_reason (q : LiveStartClaimRequest) (b : Breaker.ProviderReliabilityState)
    : result start_exn (option string) :=
  let! assessment := value_part (LiveGate.assess_live_research_mode (q_registry q) (q_routing q)
    (q_mode q) {| LiveGate.lt_market := q_market q; LiveGate.lt_capability := q_capability q;
                  LiveGate.lt_source := q_source q |}
    (q_certifications q) (q_certified_markets q) true) in
  let reasons := LiveGate.la_reasons assessment in
  if one_of "fixture_cannot_satisfy_live_gate" reasons
  then Ok (Some "fixture_cannot_satisfy_live_gate"%string)
  else
    let earlier := List.filter
      (fun r => negb (String.eqb r "provider_not_operationally_eligible")) reasons in
    match LiveGate.enabled assessment, earlier with
    | false, r :: _ => Ok (Some r)
    | is_enabled, _ =>
        let! decision := permission_for q b in
        if negb (Breaker.execution_permitted decision) then Ok (Breaker.block_reason decision)
        else if negb is_enabled
        then match reasons with r :: _ => Ok (Some r) | [] => Err StartIndex end
        else Ok None
    end.

Definition _exact_stored_authorization {Refinement} (c : ConversationContext Refinement)
    (presented : ResearchAuthorization) : string + ResearchAuthorization :=
  match List.filter (named (a_id presented)) (research_authorizations c) with
  | [stored] =>
      if (a_version stored =? a_version presented)
         && String.eqb (a_conversation_id stored) (a_conversation_id presented)
         && String.eqb (a_decision_id stored) (a_decision_id presented)
         && (a_context_version stored =? a_context_version presented)
         && String.eqb (a_proposal_id stored) (a_proposal_id presented)
         && (a_proposal_version stored =? a_proposal_version presented)
         && String.eqb (a_scope_digest stored) (a_scope_digest presented)
         && String.eqb (a_idempotency_key stored) (a_idempotency_key presented)
         && String.eqb (a_owner_binding stored) (a_owner_binding presented)
      then inr stored
      else inl "authorization_identity_mismatch"%string
  | _ => inl "authorization_not_found"%string
  end.

(** The checks of the loaded execution, in their order. *)
Definition execution_refusal (e : Execution) (q : LiveStartClaimRequest) : option string :=
  match _pin_reason e q with
  | Some pin => Some pin
  | None =>
      if negb (_plan_target_matches q) then Some "plan_target_mismatch"%string
      else if bool_decide (state e = running)
      then Some "ambiguous_outcome_requires_reconciliation"%string
      else if terminal (state e) then Some "execution_terminal"%string
      else if _claim_is_active e (q_now q) then Some "execution_already_claimed"%string
      else None
  end.

Definition refused_for (reason : string) (e : Execution) : result start_exn LiveStartClaimResult :=
  value_part (_refused reason (Some (execution_id e)) (Some (state_value (state e)))).

Section Service.
Context {Refinement T : Type} `{!ClaimTransaction Refinement T}.
Variable sha256_hex : string -> string.
(** The leases, and the tokens the factory hands out next. *)
Variables (claim_lease probe_lease : Z) (claim_token probe_token : string).
Notation Ctx := (ConversationContext Refinement).
Notation tx := (act T start_exn).
Implicit Types (q : LiveStartClaimRequest) (e : Execution).

Definition on {A} (m : act T tx_exn A) : tx A := fun σ =>
  match m σ with
  | (Ok a, σ') => (Ok a, σ')
  | (Err x, σ') => (Err (StartTx x), σ')
  end.

(** A claim that refuses. *)
Definition stop (reason : string) (e : Execution) : tx observed :=
  do! r := a_lift (refused_for reason e) in a_ret (Refusal r).

(** The half-open probe of a claim: a reason to refuse, or the leased breaker
    with its capability, when the breaker is half-open. *)
Definition probe_step q (permission : Breaker.ReliabilityDecision)
    : result start_exn (string + option (Breaker.ProviderReliabilityState * string)) :=
  let b := Breaker.breaker permission in
  match Breaker.state b with
  | HALF_OPEN =>
      match Breaker.apply_half_open_probe_lease sha256_hex b (q_now q) probe_lease probe_token with
      | Ok leased => Ok (inr (Some (leased, probe_token)))
      | Err (HalfOpenProbeAlreadyClaimed _ _) => Ok (inl "half_open_probe_already_claimed"%string)
      | Err x => Err (StartBreaker x)
      end
  | CLOSED => Ok (inr None)
  | OPEN => Ok (inl "circuit_open"%string)
  end.

Definition probe_taken q (permission : Breaker.ReliabilityDecision) : result start_exn bool :=
  if bool_decide (Breaker.state (Breaker.breaker permission) = HALF_OPEN)
  then breaker_part (Breaker.probe_lease_is_active (Breaker.breaker permission) (q_now q))
  else Ok false.

(** The row as it would be claimed, or a reason to refuse. *)
Definition claim_step q e : result start_exn (string + Execution) :=
  match apply_execution_claim sha256_hex e (q_now q) claim_lease claim_token with
  | Ok next => Ok (inr next)
  | Err (ExecutionAlreadyClaimed _) => Ok (inl "execution_already_claimed"%string)
  | Err (StartValue (ValueError reason)) =>
      if one_of reason ["ambiguous_outcome_requires_reconciliation"; "execution_terminal";
                        "execution state cannot be claimed"]
      then Ok (inl reason)
      else Err (StartValue (ValueError reason))
  | Err x => Err x
  end.

Definition resume_of q e (stored : ResearchAuthorization) (claim_active : bool)
    : result auth_exn ResearchAuthorizationValidation :=
  let plan := q_plan q in
  validate_consumed_authorization_for_execution_resume sha256_hex (Some stored) (q_owner q)
    (pl_conversation_id plan) (pl_decision_id plan) (pl_context_version plan)
    (pl_proposal_id plan) (pl_proposal_version plan) (pl_scope_digest plan)
    {| x_execution_id := execution_id e; x_plan_id := x_plan e;
       x_authorization_id := authorization_id e;
       x_authorization_version := authorization_version e;
       x_decision_id := decision_id e; x_state := state_value (state e);
       x_claim_active := claim_active |}
    (plan_id plan).

(** A consumed authorization: this claim may only resume its own execution. *)
Definition resume_commitment q e (stored : ResearchAuthorization) (claim_active : bool)
    : result start_exn (LiveStartClaimResult + option AuthorizationConsumption) :=
  let refuse reason := let! r := refused_for reason e in Ok (inl r) in
  if _claim_is_active e (q_now q) then refuse "execution_already_claimed"%string
  else match resume_of q e stored claim_active with
       | Err x => Err (StartAuth x)
       | Ok resume => if negb (valid resume) then refuse (v_reason resume) else Ok (inr None)
       end.

Definition consumption_of q (c : Ctx) (stored : ResearchAuthorization) : AuthorizationConsumption :=
  {| ac_conversation_id := conversation_id c;
     ac_consumption := {| k_owner := q_owner q; k_authorization_id := a_id stored;
                          k_authorization_version := a_version stored;
                          k_decision_id := a_decision_id stored;
                          k_context_version := a_context_version stored;
                          k_proposal_id := a_proposal_id stored;
                          k_proposal_version := a_proposal_version stored;
                          k_scope_digest := a_scope_digest stored;
                          k_idempotency_key := a_idempotency_key stored; k_now := q_now q |};
     ac_expected_version := persistence_version c |}.

(** A pending authorization is consumed with the claim. *)
Definition pending_commitment q e (c : Ctx) (stored : ResearchAuthorization)
    : result start_exn (LiveStartClaimResult + option AuthorizationConsumption) :=
  let plan := q_plan q in
  let refuse reason := let! r := refused_for reason e in Ok (inl r) in
  match validate_research_authorization_for_execution sha256_hex (Some stored) (q_owner q)
          (pl_conversation_id plan) (pl_decision_id plan) (pl_context_version plan) None
          (Some (pl_scope_digest plan)) (Some (pl_proposal_id plan))
          (Some (pl_proposal_version plan)) with
  | Err (NotFound _) => refuse "wrong_owner"%string
  | Err x => Err (StartAuth x)
  | Ok v =>
      if negb (valid v)
      then refuse (if nonempty (v_reason v) then v_reason v else "invalid_status"%string)
      else Ok (inr (Some (consumption_of q c stored)))
  end.

Definition _authorization_commitment q e (claim_active : bool)
    : tx (LiveStartClaimResult + option AuthorizationConsumption) :=
  let refuse reason := do! r := a_lift (refused_for reason e) in a_ret (inl r) in
  do! found := on (load_conversation (a_conversation_id (q_authorization q))) in
  match found with
  | None => refuse "authorization_conversation_missing"%string
  | Some c =>
      if negb match owner c with Some o => has_same_identity o (q_owner q) | None => false end
      then refuse "wrong_owner"%string
      else
        match _exact_stored_authorization c (q_authorization q) with
        | inl reason => refuse reason
        | inr stored =>
            if String.eqb (a_status stored) "consumed" then
              do! current :=
                (if negb (_claim_is_active e (q_now q))
                 then do! latest := on (reload_execution (execution_id e)) in
                      a_ret (default e latest)
                 else a_ret e) in
              a_lift (resume_commitment q current stored claim_active)
            else a_lift (pending_commitment q e c stored)
        end
  end.

Definition _observe_claim q : tx observed :=
  do! i := a_lift (value_part (authorized_execution_id sha256_hex
                                 (a_idempotency_key (q_authorization q)))) in
  do! found := on (load_execution i) in
  match found with
  | None => do! r := a_lift (value_part (_refused "execution_not_prepared" (Some i) None)) in
            a_ret (Refusal r)
  | Some e =>
      match execution_refusal e q with
      | Some reason => stop reason e
      | None =>
          do! b := on (load_breaker (q_provider_id q) (q_market q) (q_now q)) in
          do! blocked := a_lift (_gate_reason q b) in
          match blocked with
          | Some reason => stop reason e
          | None =>
              do! permission := a_lift (permission_for q b) in
              do! taken := a_lift (probe_taken q permission) in
              if taken : bool then stop "half_open_probe_already_claimed"%string e
              else
                do! next := a_lift (claim_step q e) in
                match next with
                | inl reason => stop reason e
                | inr next_execution =>
                    do! probe := a_lift (probe_step q permission) in
                    match probe with
                    | inl reason => stop reason e
                    | inr lease =>
                        do! commitment := _authorization_commitment q e false in
                        match commitment with
                        | inl r => a_ret (Refusal r)
                        | inr consumption =>
                            a_ret (Observation
                              {| ob_execution := next_execution;
                                 ob_expected_execution_revision := revision e;
                                 ob_breaker := fst <$> lease;
                                 ob_expected_breaker_revision :=
                                   (fun _ => Breaker.revision b) <$> lease;
                                 ob_claim_capability := claim_token;
                                 ob_probe_capability := snd <$> lease;
                                 ob_consumption := consumption |})
                        end
                    end
                end
          end
      end
  end.

(** [PersistenceError], [OperationalError] and [DBAPIError]. *)
Definition persistence_failure (x : tx_exn) : bool :=
  match x with
  | TxUnavailable | TxExecution (ExecutionPersistence PersistenceConflictError)
  | TxConversation (SchemaError _) => true
  | _ => false
  end.

Definition unavailable (execution : option string) : tx LiveStartClaimResult :=
  do! _ := on rollback in a_lift (value_part (_refused "claim_persistence_unavailable" execution None)).

Definition _observe q : tx observed := fun σ =>
  match _observe_claim q σ with
  | (Err (StartTx x), σ') =>
      if persistence_failure x then (do! r := unavailable None in a_ret (Refusal r)) σ'
      else (Err (StartTx x), σ')
  | done => done
  end.

(** The writes of a claim, and whether it took the probe. *)
Definition commit_claim (o : _ClaimObservation) : tx (Execution * bool) :=
  do! stored := on (cas_execution (ob_execution o) (ob_expected_execution_revision o)) in
  do! acquired :=
    (match ob_breaker o, ob_expected_breaker_revision o with
     | Some b, Some expected => do! _ := on (cas_breaker b expected) in a_ret true
     | _, _ => a_ret false
     end) in
  do! _ := (match ob_consumption o with
            | Some a => do! _ := on (consume_authorization a) in a_ret tt
            | None => a_ret tt
            end) in
  do! _ := on commit in
  a_ret (stored, acquired).

(** What a lost race is reported as. *)
Definition lost_race (x : tx_exn) : option string :=
  match x with
  | TxExecution (AuthorizedExecutionRevisionConflict _ _) => Some "execution_already_claimed"%string
  | TxBreaker (ReliabilityRevisionConflict _ _ _) => Some "half_open_probe_already_claimed"%string
  | TxConversation c => if handled c then Some "authorization_consumption_conflict"%string else None
  | _ => None
  end.

Definition refuse_lost (reason execution : string) : tx LiveStartClaimResult :=
  do! _ := on rollback in
  do! current := on (load_execution execution) in
  a_lift (value_part (_refused reason (Some execution) ((fun c => state_value (state c)) <$> current))).

Definition _finish (x : observed) : tx LiveStartClaimResult :=
  match x with
  | Refusal r => do! _ := on rollback in a_ret r
  | Observation o => fun σ =>
      match commit_claim o σ with
      | (Ok (stored, acquired), σ') =>
          (value_part (claim_result_check
             {| claimed := true; lr_execution_id := Some (execution_id stored);
                lr_state := Some (state_value (state stored)); lr_block_reason := None;
                lr_claim_expires_at := claim_expires_at stored;
                half_open_probe_lease_acquired := acquired; connector_invoked := false;
                http_invoked := false; live_execution_started := false;
                authorization_consumed := is_some (ob_consumption o); lr_attempted := false;
                lr_source_checked := false; claim_capability := Some (ob_claim_capability o);
                probe_capability := ob_probe_capability o |}), σ')
      | (Err (StartTx x), σ') =>
          match lost_race x with
          | Some reason => refuse_lost reason (execution_id (ob_execution o)) σ'
          | None => if persistence_failure x
                    then unavailable (Some (execution_id (ob_execution o))) σ'
                    else (Err (StartTx x), σ')
          end
      | (Err x, σ') => (Err x, σ')
      end
  end.

Definition locked_claim q : tx LiveStartClaimResult := fun σ =>
  match on lock_for_claim σ with
  | (Err (StartTx x), σ') =>
      if persistence_failure x then unavailable None σ' else (Err (StartTx x), σ')
  | (Err x, σ') => (Err x, σ')
  | (Ok _, σ') => (do! o := _observe q in _finish o) σ'
  end.

(** [finally: transaction.close()]. *)
Definition claim q : tx LiveStartClaimResult := fun σ =>
  let '(r, σ') := locked_claim q σ in
  match on close σ' with
  | (Ok _, σ'') => (r, σ'')
  | (Err x, σ'') => (Err x, σ'')
  end.
End Service.
End Service.
