(* ===== verification/LiveStartSafety.v ===== *)
(** What a live-start claim does to the shared rows.

    Module [Effects]: running a method of the service over any lawful unit of
    work. Module [Starts]: the reads and the writes of a claim, and the
    theorems: a claim commits all of its rows or none, active claims of one
    execution do not overlap, a claim whose worker died can be taken over, and
    what the service raises. The theorems hold for both units of work;
    [Examples] runs them on the in-memory one. *)

From S2P Require Import Prelude PyStr Json Clock Connector Breaker BreakerSpec PyState OpStore BreakerRepo Research Catalogs Authorization Conversation ConversationRepo ConversationHistory LiveMode Execution ExecutionRepo ClaimTx ClaimTxMemory ClaimTxSql LiveStart.
Import Connector Research Authorization Context Lifecycle Common.
Import Execution.Record ExecutionRows Rows TxInterface Claims Service.
#[local] Open Scope Z_scope.

(** ** Methods over a lawful unit of work *)
Module Effects.
Section Effects.
Context {Refinement T : Type} `{CT : !ClaimTransaction Refinement T}.
Context {sha256_hex : string -> string} {cfg : settings}
        `{L : !TransactionLaws (Refinement := Refinement) (T := T) sha256_hex cfg}.
Notation can := (TxInterface.can sha256_hex cfg).
Notation tx_at := (TxInterface.tx_at sha256_hex cfg).
Notation quiet := (TxInterface.quiet sha256_hex cfg).
Notation clock := (TxInterface.clock sha256_hex cfg).
Notation runs := (TxInterface.runs sha256_hex cfg).
Notation rows := (rows Refinement).
Notation writes := (list (Rows.write Refinement)).
Implicit Types (p q : rows) (ws vs : writes) (σ : T).

Lemma others_refl p ws : rows_ok cfg p -> others can ws p p.
Proof. intros Hp. split; [by apply (can_refl sha256_hex cfg) | intros; apply same_row_refl]. Qed.

Lemma others_app p q r ws vs : others can ws p q -> others can (ws ++ vs) q r -> others can ws p r.
Proof.
  intros [H1 H2] [H3 H4]. split; [by eapply (can_trans sha256_hex cfg) |]. intros k Hk.
  eapply same_row_trans; [by apply H2 |]. apply H4. rewrite map_app, elem_of_app. by left.
Qed.

(** [m], from a transaction that has written [ws] over the shared rows [p],
    ends after the others have moved them to [q] and it has written [vs] more;
    [Q] relates the three. When [b], nobody else acts and nothing fails. *)
Definition does (b : bool) σ p ws {A} (m : act T start_exn A)
    (Q : rows -> result start_exn A -> writes -> Prop) : Prop :=
  (b = true -> quiet σ) ->
  exists q vs, others can ws p q /\ tx_at (m σ).2 q (ws ++ vs)
    /\ (b = true -> calm clock p q /\ quiet (m σ).2) /\ Q q (m σ).1 vs.

Lemma does_lift b σ p ws {A} (r : result start_exn A) (Q : rows -> result start_exn A -> writes -> Prop) :
  tx_at σ p ws -> Q p r [] -> does b σ p ws (a_lift r) Q.
Proof.
  intros Hat HQ Hq. exists p, []. rewrite app_nil_r. split; [by eapply others_refl, (tx_rows_ok sha256_hex cfg) |].
  split; [done |]. split; [| done]. intros Hb. split; [apply calm_refl | by apply Hq].
Qed.

Lemma does_ret b σ p ws {A} (a : A) (Q : rows -> result start_exn A -> writes -> Prop) :
  tx_at σ p ws -> Q p (Ok a) [] -> does b σ p ws (a_ret a) Q.
Proof. apply (does_lift b σ p ws (Ok a)). Qed.

Lemma does_weaken b σ p ws {A} (m : act T start_exn A) (Q Q' : rows -> result start_exn A -> writes -> Prop) :
  does b σ p ws m Q -> (forall q r vs, others can ws p q -> (b = true -> calm clock p q) -> Q q r vs -> Q' q r vs) ->
  does b σ p ws m Q'.
Proof.
  intros Hm HQ Hq. destruct (Hm Hq) as (q & vs & H1 & H2 & H3 & H4). exists q, vs.
  split; [done |]. split; [done |]. split; [done |]. apply HQ; [done | | done].
  intros Hb. by apply H3.
Qed.

Lemma does_bind b σ p ws {A B} (m : act T start_exn A) (k : A -> act T start_exn B)
    (Q : rows -> result start_exn B -> writes -> Prop) :
  does b σ p ws m (fun q r vs =>
    match r with
    | Ok a => forall σ', tx_at σ' q (ws ++ vs) ->
        does b σ' q (ws ++ vs) (k a) (fun q' r' vs' => Q q' r' (vs ++ vs'))
    | Err e => Q q (Err e) vs
    end) ->
  does b σ p ws (a_bind m k) Q.
Proof.
  intros Hm Hq. destruct (Hm Hq) as (q & vs & H1 & H2 & H3 & H4). unfold a_bind.
  destruct (m σ) as [[a|e] σ1]; cbn [fst snd] in *; [| by exists q, vs].
  destruct (H4 σ1 H2) as (q' & vs' & H1' & H2' & H3' & H4'); [intros Hb; by apply H3 |].
  exists q', (vs ++ vs'). split; [by eapply others_app |]. rewrite app_assoc. split; [done |].
  split; [| done]. intros Hb. destruct (H3 Hb), (H3' Hb). split; [by eapply calm_trans | done].
Qed.

(** A method of the unit of work. *)
Lemma does_on b σ p ws {A} (m : act T tx_exn A) D (Q : rows -> result start_exn A -> writes -> Prop) :
  runs σ p ws (m σ) D ->
  (forall q r vs, others can ws p q -> (b = true -> calm clock p q) -> D q r vs ->
     Q q (match r with Ok a => Ok a | Err e => Err (StartTx e) end) vs) ->
  (b = false -> forall q, others can ws p q -> Q q (Err (StartTx TxUnavailable)) []) ->
  does b σ p ws (on m) Q.
Proof.
  intros (q & vs & H1 & H2 & H3 & H4) HD Hdown Hq. exists q, vs. unfold on.
  destruct (m σ) as [r σ'] eqn:E. cbn [fst snd] in *.
  assert ((match r with Ok a => (Ok a, σ') | Err x => (Err (StartTx x), σ') end)
          = (match r with Ok a => Ok a | Err x => Err (StartTx x) end, σ')) as -> by by destruct r.
  split; [done |]. split; [done |].
  split; [intros Hb; destruct (H3 (Hq Hb)) as (? & ? & _); done |].
  destruct H4 as [[-> ->] | Hd].
  - destruct b; [| by apply Hdown]. exfalso. by apply (proj2 (proj2 (H3 (Hq eq_refl)))).
  - apply HD; [done | | done]. intros Hb. by apply (H3 (Hq Hb)).
Qed.

Lemma rolled_back σ p ws :
  tx_at σ p ws ->
  exists q, others can [] p q /\ (quiet σ -> calm clock p q)
    /\ on rollback σ = (Ok tt, (rollback σ).2) /\ tx_at (rollback σ).2 q [].
Proof.
  intros Hat. destruct (rollback_law sha256_hex cfg σ p ws Hat) as (q & H1 & H2 & H3 & H4). exists q.
  split; [done |]. split; [done |]. split; [| done]. unfold on.
  destruct (rollback σ) as [r σ']. cbn [fst snd] in *. by subst r.
Qed.
Lemma closed_total provider market now k :
  dt_aware now = true -> Breaker.reliability_record_key provider market = Ok k ->
  exists s, Breaker.closed_reliability_state provider market now = Ok s.
Proof.
  intros Hnow Hk. unfold Breaker.closed_reliability_state, Breaker.post_init. cbn.
  rewrite Breaker.aware_ok, Hk by done. cbn. eauto.
Qed.

(** A read finds a well-formed breaker, or the names make no key. *)
Lemma breaker_result_wf p provider market now :
  rows_ok cfg p -> dt_aware now = true ->
  match breaker_result p provider market now with
  | Ok b => Breaker.wf b
  | Err x => Breaker.reliability_record_key provider market = Err x
  end.
Proof.
  intros Hp Hnow. unfold breaker_result.
  destruct (Breaker.reliability_record_key _ _) as [k|x] eqn:Ek; [| done].
  destruct (brk_at p k) as [b|] eqn:Eb; [by eapply ok_brk |].
  destruct (closed_total _ _ now k Hnow Ek) as (b & Ec). rewrite Ec.
  by destruct (BreakerRefinement.closed_state_phase _ _ _ _ Ec).
Qed.

(** It is the stored row, or a new one where there is none. *)
Lemma breaker_result_row p provider market now b :
  rows_ok cfg p -> breaker_result p provider market now = Ok b ->
  Breaker.reliability_record_key provider market = Ok (RepoInterface.key_of b)
  /\ (brk_at p (RepoInterface.key_of b) = Some b
      \/ brk_at p (RepoInterface.key_of b) = None /\ Breaker.revision b = 0).
Proof.
  intros Hp. unfold breaker_result. destruct (Breaker.reliability_record_key _ _) as [k|] eqn:Ek; [| done].
  destruct (brk_at p k) as [s|] eqn:Eb.
  - intros [= <-]. destruct (ok_brk cfg p Hp k s Eb) as (_ & -> & _). auto.
  - unfold Breaker.closed_reliability_state. intros (_ & E & Hk)%Breaker.post_init_iff.
    simpl in Hk. rewrite Hk in Ek. injection Ek as <-. split; [done |]. right. split; [done | by rewrite E].
Qed.

(** A breaker row that still has the revision that was read has not moved. *)
Lemma same_breaker p q provider market now b :
  breaker_result p provider market now = Ok b -> rows_ok cfg p -> can p q ->
  RepoInterface.row_revision (brk_at q (RepoInterface.key_of b)) = Breaker.revision b ->
  breaker_result q provider market now = Ok b.
Proof.
  intros Hb Hp Hcan%(can_evolves sha256_hex cfg) Hr.
  destruct (breaker_result_row p provider market now b Hp Hb) as [Hk Hrow].
  assert (brk_at q (RepoInterface.key_of b) = brk_at p (RepoInterface.key_of b)) as E.
  { destruct Hrow as [E | [E E0]].
    - pose proof (ev_brk cfg _ _ Hcan (RepoInterface.key_of b)) as Hn. rewrite E in Hn |- *.
      destruct Hn as (s & Es & [-> | Hlt]); [done |]. rewrite Es in Hr. simpl in Hr. lia.
    - rewrite E. destruct (brk_at q _) as [s|] eqn:Es; [| done].
      destruct (ok_brk cfg q (ev_ok cfg _ _ Hcan) _ s Es) as (_ & _ & H1). simpl in Hr. lia. }
  revert Hb. unfold breaker_result. by rewrite Hk, E.
Qed.
End Effects.
End Effects.

(** ** What the checks of a claim say *)
Module Decisions.
Section Decisions.
Variable sha256_hex : string -> string.
Hypothesis sha256_hex_digest : forall b, Breaker.is_digest (sha256_hex b).
Variables (claim_lease probe_lease : Z) (claim_token probe_token : string).

(** The configuration of the service: positive leases and opaque tokens. *)
Definition configured : Prop :=
  0 < claim_lease /\ 0 < probe_lease /\ 16 <= len claim_token /\ 16 <= len probe_token.
Hypothesis Hconf : configured.
Implicit Types (q : LiveStartClaimRequest) (e : Execution) (b : Breaker.ProviderReliabilityState).

Lemma refused_ok reason i st :
  nonempty reason = true ->
  exists r, _refused reason i st = Ok r /\ claimed r = false /\ lr_block_reason r = Some reason
    /\ lr_execution_id r = i /\ authorization_consumed r = false /\ claim_capability r = None.
Proof. intros H. unfold _refused, claim_result_check. cbn. rewrite H. cbn. eauto 10. Qed.

Lemma refused_for_ok reason e :
  nonempty reason = true ->
  exists r, refused_for reason e = Ok r /\ claimed r = false /\ lr_block_reason r = Some reason.
Proof.
  intros H. unfold refused_for.
  destruct (refused_ok reason (Some (execution_id e)) (Some (state_value (state e))) H)
    as (r & -> & ? & ? & _). simpl. eauto.
Qed.

Lemma digest_hex s : Breaker.is_digest s -> is_hex64 s = true.
Proof.
  intros [Hl Hc]. unfold is_hex64. rewrite Hc, andb_true_r. apply Nat.eqb_eq. unfold len in Hl. lia.
Qed.

Lemma long_nonempty t : 16 <= len t -> nonempty t = true.
Proof. destruct t; [done | done]. Qed.

(** A prepared execution, or one whose claim has run out, can be claimed. *)
Lemma claim_valid i e now d :
  good i e -> state e = prepared_unavailable \/ state e = claimed_for_attempt ->
  dt_aware now = true -> is_hex64 d = true ->
  execution_check (set_claim now (dt_add now claim_lease) d e) = Ok tt.
Proof.
  intros [He _] Hst Hnow Hd. revert He. unfold execution_check.
  destruct (negb (startswith _ _)) eqn:E1; [done |]. cbn [guard_raise rbind].
  destruct (negb (py_true (authorization_id e))) eqn:E2; [done |]. cbn [guard_raise rbind].
  destruct (authorization_version e <? 1) eqn:E3; [done |]. cbn [guard_raise rbind].
  destruct (negb (py_true (decision_id e)) || _) eqn:E4; [done |]. cbn [guard_raise rbind].
  destruct (revision e <? 1) eqn:E5; [done |]. cbn [guard_raise rbind].
  destruct (negb (dt_aware (created_at e)) || _) eqn:E6; [done |]. cbn [guard_raise rbind].
  destruct (raw_response_persisted e) eqn:E7; [done |]. cbn [guard_raise rbind].
  destruct (text_is (observation_kind e) "live") eqn:E8; [done |]. cbn [guard_raise rbind].
  destruct ((evaluated_offer_count e <? 0) || _) eqn:E9; [done |]. cbn [guard_raise rbind].
  destruct (_validate_claim_fields e) as [[]|]; [| done]. cbn [rbind].
  intros Ha. cbn [set_claim execution_id authorization_id authorization_version decision_id x_plan revision
          created_at updated_at raw_response_persisted observation_kind evaluated_offer_count
          normalized_offer_count].
  rewrite ?E2, ?E3, ?E4, ?E5, ?E7, ?E8, ?E9. cbn [guard_raise rbind]. apply orb_false_iff in E6 as [-> _]. rewrite Hnow.
  cbn [negb orb guard_raise rbind]. rewrite ?E7, ?E8, ?E9. cbn [guard_raise rbind].
  assert (_validate_claim_fields (set_claim now (dt_add now claim_lease) d e) = Ok tt) as ->.
  { unfold _validate_claim_fields. cbn. rewrite Hnow. unfold is_sha256_text. rewrite Hd.
    assert (nonempty d = true) as ->.
    { destruct d; [by vm_compute in Hd | done]. }
    assert (before now (dt_add now claim_lease) = true) as ->.
    { unfold before. apply Z.ltb_lt. simpl. destruct Hconf. lia. }
    done. }
  cbn [rbind]. revert Ha. unfold _validate_attempt_fields. cbn [state set_claim].
  by destruct Hst as [-> | ->].
Qed.

Lemma replacement_valid e record n :
  execution_check record = Ok tt -> dt_aware (created_at e) = true -> 0 <= n ->
  execution_check (Pins.replacement e record n) = Ok tt.
Proof.
  intros Hr Hc Hn. revert Hr. unfold execution_check, Pins.replacement.
  cbn [set_saved execution_id authorization_id authorization_version decision_id x_plan revision
       created_at updated_at raw_response_persisted observation_kind evaluated_offer_count
       normalized_offer_count].
  destruct (negb (startswith _ _)); [done |]. cbn [guard_raise rbind].
  destruct (negb (py_true (authorization_id record))); [done |]. cbn [guard_raise rbind].
  destruct (authorization_version record <? 1); [done |]. cbn [guard_raise rbind].
  destruct (negb (py_true (decision_id record)) || _); [done |]. cbn [guard_raise rbind].
  destruct (revision record <? 1); [done |]. cbn [guard_raise rbind].
  rewrite (proj2 (Z.ltb_ge (n + 1) 1)) by lia. rewrite Hc. cbn [negb orb guard_raise rbind].
  destruct (negb (dt_aware (created_at record)) || negb (dt_aware (updated_at record))) eqn:E; [done |].
  apply orb_false_iff in E as [_ ->]. done.
Qed.
Definition claimed_row q e : Execution :=
  set_claim (q_now q) (dt_add (q_now q) claim_lease) (claim_digest_of sha256_hex claim_token) e.

(** The states a claim starts from. *)
Lemma refusal_none e q :
  execution_refusal e q = None ->
  (state e = prepared_unavailable \/ state e = claimed_for_attempt)
  /\ _claim_is_active e (q_now q) = false /\ _pin_reason e q = None /\ _plan_target_matches q = true.
Proof.
  unfold execution_refusal. destruct (_pin_reason e q); [done |].
  destruct (_plan_target_matches q); [| done]. cbn [negb].
  destruct (bool_decide_reflect (state e = running)); [done |].
  destruct (terminal (state e)) eqn:Et; [done |]. destruct (_claim_is_active _ _); [done |].
  intros _. destruct (state e); naive_solver.
Qed.

Lemma claim_step_ok i e q :
  good i e -> execution_refusal e q = None -> dt_aware (q_now q) = true ->
  claim_step sha256_hex claim_lease claim_token q e = Ok (inr (claimed_row q e)).
Proof.
  intros He Hr Hnow. apply refusal_none in Hr as (Hst & Hact & _ & _).
  pose proof Hconf as (Hl & _ & Ht & _). unfold claim_step, apply_execution_claim.
  rewrite Hnow, (proj2 (Z.leb_gt _ _)) by done. cbn [negb guard_raise rbind].
  assert (bool_decide (state e = running) = false /\ terminal (state e) = false
          /\ bool_decide (state e = prepared_unavailable)
             || bool_decide (state e = claimed_for_attempt) = true) as (-> & -> & ->)
    by (by destruct Hst as [-> | ->]).
  cbn [negb guard_raise rbind]. rewrite Hact. unfold execution_claim_digest.
  rewrite (proj2 (Z.ltb_ge _ _)) by done. cbn [guard_raise rbind value_part].
  rewrite make_checked; [done |]. eapply claim_valid; [done | done | done |].
  apply digest_hex, sha256_hex_digest.
Qed.

(** Every reason of the live gate is a text. *)
Lemma app_texts (l l' : list string) :
  Forall (fun r => nonempty r = true) l -> Forall (fun r => nonempty r = true) l' ->
  Forall (fun r => nonempty r = true) (l ++ l').
Proof. intros. by apply Forall_app. Qed.

Lemma dedupe_texts (seen l : list string) :
  Forall (fun r => nonempty r = true) l -> Forall (fun r => nonempty r = true) (dedupe_loop seen l).
Proof.
  rewrite !Forall_forall. intros H x [Hx _]%elem_of_dedupe_loop. by apply H.
Qed.

Ltac texts :=
  repeat first [ apply app_texts | apply dedupe_texts | apply Forall_cons_2; [reflexivity |]
               | apply Forall_nil_2 | case_match ].

Lemma gap_texts registry routing r cs seen :
  Forall (fun r => nonempty r = true) seen ->
  Forall (fun r => nonempty r = true) (LiveGate.eligibility_gaps registry routing r cs seen).
Proof.
  revert seen. induction cs as [|c cs IH]; intros seen Hs; simpl; [done |].
  destruct (LiveGate.local_gaps registry routing r c) as [|g gs] eqn:E; [constructor |].
  apply IH. unfold LiveGate.add_unseen. apply app_texts; [done |]. apply dedupe_texts. rewrite <- E.
  unfold LiveGate.local_gaps, LiveGate._technical_support_gaps. texts.
Qed.

Lemma gate_texts registry routing mode r certs markets present a :
  LiveGate.assess_live_research_mode registry routing mode r certs markets present = Ok a ->
  Forall (fun r => nonempty r = true) (LiveGate.la_reasons a).
Proof.
  unfold LiveGate.assess_live_research_mode, LiveGate.assessment_check. cbv zeta. cbn.
  destruct (_ && _); [done |]. intros [= <-]. cbn. apply dedupe_texts.
  repeat apply app_texts; [case_match; texts | case_match; texts | case_match; texts |].
  unfold LiveGate.certification_reasons. cbv zeta.
  destruct (List.filter _ (List.filter _ _)); [texts | apply gap_texts; constructor].
Qed.

Lemma permission_total q b :
  Breaker.wf b -> dt_aware (q_now q) = true ->
  permission_for q b
  = Ok (Breaker.permission_of b (_effective_status q) (_effective_kill_switch q) (q_now q)).
Proof. intros Hb Hnow. unfold permission_for. by rewrite Breaker.assess_ok. Qed.

(** The permission blocks with a reason, or lets a recovered breaker through. *)
Lemma permission_cases b status ks now :
  let d := Breaker.permission_of b status ks now in
  if Breaker.execution_permitted d
  then Breaker.breaker d = Breaker.advanced b now /\ Breaker.state (Breaker.advanced b now) <> OPEN
  else exists r, Breaker.block_reason d = Some r /\ nonempty r = true.
Proof.
  unfold Breaker.permission_of. cbv zeta. destruct (engaged ks); [simpl; eauto |].
  destruct status; try (simpl; by eauto).
  destruct (bool_decide_reflect (Breaker.state (Breaker.advanced b now) = OPEN)); simpl; eauto.
Qed.

(** The gate answers; without a reason the breaker lets the attempt through. *)
Lemma gate_total q b :
  Breaker.wf b -> dt_aware (q_now q) = true ->
  exists r, _gate_reason q b = Ok r
    /\ match r with
       | Some reason => nonempty reason = true
       | None => exists d, permission_for q b = Ok d
                  /\ Breaker.breaker d = Breaker.advanced b (q_now q)
                  /\ Breaker.state (Breaker.advanced b (q_now q)) <> OPEN
       end.
Proof.
  intros Hb Hnow. unfold _gate_reason. rewrite permission_total by done.
  set (target := {| LiveGate.lt_market := _ |}).
  destruct (LiveGate.live_gate_iff (q_registry q) (q_routing q) (q_mode q) target
              (q_certifications q) (q_certified_markets q) true) as (a & Ha & _ & _ & Hen).
  rewrite Ha. cbn [value_part rbind]. pose proof (gate_texts _ _ _ _ _ _ _ _ Ha) as Ht.
  destruct (one_of _ _); [eexists; split; [done | done] |].
  set (earlier := List.filter _ _).
  assert (Forall (fun r => nonempty r = true) earlier) as Hearlier.
  { rewrite Forall_forall in *. intros x Hx%list_elem_of_In. apply filter_In in Hx as [Hx _].
    apply Ht. by apply list_elem_of_In. }
  set (d := Breaker.permission_of b _ _ _). pose proof (permission_cases b (_effective_status q)
    (_effective_kill_switch q) (q_now q)) as Hd. cbv zeta in Hd. fold d in Hd.
  assert (exists r, (let! decision := Ok d in
     if negb (Breaker.execution_permitted decision) then Ok (Breaker.block_reason decision)
     else if negb (LiveGate.enabled a)
          then match LiveGate.la_reasons a with r :: _ => Ok (Some r) | [] => Err StartIndex end
          else Ok None) = Ok r /\ match r with
       | Some reason => nonempty reason = true
       | None => exists d', Ok (E := start_exn) d = Ok d' /\ Breaker.breaker d' = Breaker.advanced b (q_now q)
                  /\ Breaker.state (Breaker.advanced b (q_now q)) <> OPEN
       end) as Hrest.
  { cbn [rbind]. destruct (Breaker.execution_permitted d).
    - destruct (LiveGate.enabled a) eqn:Een; cbn [negb].
      + exists None. split; [done |]. exists d. destruct Hd. done.
      + destruct (LiveGate.la_reasons a) as [|r rs] eqn:Er; [naive_solver |].
        exists (Some r). split; [done |]. by inversion Ht.
    - destruct Hd as (r & -> & Hr). exists (Some r). done. }
  destruct (LiveGate.enabled a); [exact Hrest |]. destruct earlier as [|r rs]; [exact Hrest |].
  exists (Some r). split; [done |]. by inversion Hearlier.
Qed.
(** *** The half-open probe *)

(** The lease a claim takes: when the breaker is half-open. *)
Definition lease_of q b : option (Breaker.ProviderReliabilityState * string) :=
  let a := Breaker.advanced b (q_now q) in
  match Breaker.state a with
  | HALF_OPEN => Some (Breaker.leased sha256_hex a (q_now q) probe_lease probe_token, probe_token)
  | _ => None
  end.

Lemma advanced_twice b now :
  Breaker.state (Breaker.advanced b now) <> OPEN ->
  Breaker.advanced (Breaker.advanced b now) now = Breaker.advanced b now.
Proof.
  intros H. unfold Breaker.advanced at 1. unfold Breaker.recovered. by rewrite bool_decide_false.
Qed.

Lemma probe_taken_ok q b d :
  dt_aware (q_now q) = true -> Breaker.breaker d = Breaker.advanced b (q_now q) ->
  probe_taken q d = Ok (Breaker.lease_active (Breaker.advanced b (q_now q)) (q_now q)).
Proof.
  intros Hnow E. unfold probe_taken. rewrite E. unfold Breaker.lease_active.
  destruct (bool_decide_reflect (Breaker.state (Breaker.advanced b (q_now q)) = HALF_OPEN)) as [H | H];
    [| done]. unfold Breaker.probe_lease_is_active. rewrite Breaker.aware_ok by done.
  cbn [rbind breaker_part]. by rewrite bool_decide_true.
Qed.

Lemma probe_step_ok q b d :
  Breaker.wf b -> dt_aware (q_now q) = true -> Breaker.breaker d = Breaker.advanced b (q_now q) ->
  Breaker.state (Breaker.advanced b (q_now q)) <> OPEN ->
  Breaker.lease_active (Breaker.advanced b (q_now q)) (q_now q) = false ->
  probe_step sha256_hex probe_lease probe_token q d = Ok (inr (lease_of q b)).
Proof.
  intros Hb Hnow E Hopen Hact. unfold probe_step, lease_of. rewrite E. cbv zeta.
  destruct (Breaker.state (Breaker.advanced b (q_now q))) eqn:Es; [done | done |].
  destruct Hconf as (_ & Hl & _ & Ht).
  rewrite (Breaker.apply_lease_ok sha256_hex sha256_hex_digest) by
    (done || by apply Breaker.wf_advanced).
  rewrite advanced_twice by congruence. by rewrite Es, Hact.
Qed.

Lemma lease_wf q b l t :
  Breaker.wf b -> dt_aware (q_now q) = true -> lease_of q b = Some (l, t) ->
  Breaker.wf l /\ RepoInterface.key_of l = RepoInterface.key_of b /\ t = probe_token
  /\ Breaker.state (Breaker.advanced b (q_now q)) = HALF_OPEN.
Proof.
  intros Hb Hnow. unfold lease_of. cbv zeta.
  destruct (Breaker.state (Breaker.advanced b (q_now q))) eqn:Es; [done | done |]. intros [= <- <-].
  destruct Hconf as (_ & Hl & _ & _). split; [| split; [| done]].
  - apply Breaker.wf_leased; try done; [by apply Breaker.wf_advanced |].
    by rewrite advanced_twice by congruence.
  - rewrite <- (RepoInterface.key_of_advanced b (q_now q)). unfold Breaker.leased.
    by rewrite advanced_twice by congruence.
Qed.

(** A half-open breaker is a stored one. *)
(** *** The authorization *)

Lemma resume_text a o conv dec cv pr pv sd x plan r :
  resume_failure sha256_hex a o conv dec cv pr pv sd x plan = Some r -> nonempty r = true.
Proof. unfold resume_failure. intros H. repeat case_match; simplify_eq; reflexivity. Qed.

Lemma resume_total q e stored active i :
  authorized_execution_id sha256_hex (a_idempotency_key stored) = Ok i ->
  exists v, resume_of sha256_hex q e stored active = Ok v /\ nonempty (v_reason v) = true.
Proof.
  intros Hi. unfold resume_of, validate_consumed_authorization_for_execution_resume. cbv zeta.
  destruct (resume_failure _ _ _ _ _ _ _ _ _ _ _) as [r|] eqn:E.
  - eexists. split; [done |]. by eapply resume_text.
  - rewrite Hi. cbn [lift rbind]. eexists. split; [done |]. by destruct (negb _).
Qed.

Lemma resume_commitment_total q e stored active i :
  authorized_execution_id sha256_hex (a_idempotency_key stored) = Ok i ->
  exists x, resume_commitment sha256_hex q e stored active = Ok x
    /\ match x with
       | inl r => claimed r = false
       | inr o => o = None /\ _claim_is_active e (q_now q) = false
           /\ exists v, resume_of sha256_hex q e stored active = Ok v /\ valid v = true
       end.
Proof.
  intros Hi. unfold resume_commitment. cbv zeta. destruct (_claim_is_active e (q_now q)).
  { destruct (refused_for_ok "execution_already_claimed" e eq_refl) as (r & -> & Hr & _). cbn. eauto. }
  destruct (resume_total q e stored active i Hi) as (v & Ev & Hv). rewrite Ev.
  destruct (valid v) eqn:E; cbn [negb].
  { exists (inr None). split; [done |]. split; [done |]. split; [done |]. by exists v. }
  destruct (refused_for_ok (v_reason v) e Hv) as (r & -> & Hr & _). cbn. eauto.
Qed.

Definition validation_of q stored : result auth_exn ResearchAuthorizationValidation :=
  let plan := q_plan q in
  validate_research_authorization_for_execution sha256_hex (Some stored) (q_owner q)
    (pl_conversation_id plan) (pl_decision_id plan) (pl_context_version plan) None
    (Some (pl_scope_digest plan)) (Some (pl_proposal_id plan)) (Some (pl_proposal_version plan)).

Lemma pending_commitment_total {Refinement} q e (c : ConversationContext Refinement) stored :
  exists x, pending_commitment sha256_hex q e c stored = Ok x
    /\ match x with
       | inl r => claimed r = false
       | inr o => o = Some (consumption_of q c stored)
           /\ exists v, validation_of q stored = Ok v /\ valid v = true
       end.
Proof.
  unfold pending_commitment. cbv zeta. fold (validation_of q stored).
  destruct (validation_of q stored) as [v|x] eqn:Ev.
  - destruct (valid v) eqn:E; cbn [negb].
    { exists (inr (Some (consumption_of q c stored))). split; [done |]. split; [done |]. by exists v. }
    set (reason := if nonempty (v_reason v) then _ else _).
    assert (nonempty reason = true) as Hr
      by (unfold reason; by destruct (nonempty (v_reason v)) eqn:En).
    destruct (refused_for_ok reason e Hr) as (r & -> & ? & _). cbn. eauto.
  - unfold validation_of, validate_research_authorization_for_execution in Ev. cbv zeta in Ev.
    destruct (negb _); cbn [guard_raise rbind] in Ev; [| by case_match]. injection Ev as <-.
    destruct (refused_for_ok "wrong_owner" e eq_refl) as (r & -> & ? & _). cbn. eauto.
Qed.

(** The stored authorization is the presented one, up to its status. *)
Lemma exact_key {Refinement} (c : ConversationContext Refinement) a stored :
  _exact_stored_authorization c a = inr stored -> a_idempotency_key stored = a_idempotency_key a.
Proof.
  unfold _exact_stored_authorization. destruct (List.filter _ _) as [|x [|? ?]]; [done | | done].
  destruct (_ && _) eqn:E; [| done]. intros [= <-]. rewrite !andb_true_iff, !String.eqb_eq in E. tauto.
Qed.
End Decisions.
End Decisions.

(** ** A claim, start to end *)
Module Starts.
Import Effects Decisions.
Section Starts.
Context {Refinement T : Type} `{CT : !ClaimTransaction Refinement T}.
Context {sha256_hex : string -> string} {cfg : settings}
        `{L : !TransactionLaws (Refinement := Refinement) (T := T) sha256_hex cfg}.
Hypothesis sha256_hex_digest : forall b, Breaker.is_digest (sha256_hex b).
Variables (claim_lease probe_lease : Z) (claim_token probe_token : string).
Hypothesis Hconf : configured claim_lease probe_lease claim_token probe_token.
Notation can := (TxInterface.can sha256_hex cfg).
Notation tx_at := (TxInterface.tx_at sha256_hex cfg).
Notation quiet := (TxInterface.quiet sha256_hex cfg).
Notation clock := (TxInterface.clock sha256_hex cfg).
Notation rows := (rows Refinement).
Notation writes := (list (Rows.write Refinement)).
Notation Ctx := (ConversationContext Refinement).
Notation claimed_row := (claimed_row sha256_hex claim_lease claim_token).
Notation lease_of := (lease_of sha256_hex probe_lease probe_token).
Notation observe_claim := (_observe_claim sha256_hex claim_lease probe_lease claim_token probe_token).
Implicit Types (p : rows) (ws vs : writes) (σ : T) (q : LiveStartClaimRequest) (e : Execution).

Definition conversation_of q : string := a_conversation_id (q_authorization q).
Definition execution_of q : outcome string :=
  authorized_execution_id sha256_hex (a_idempotency_key (q_authorization q)).

(** What a claim has seen of the execution and the breaker. *)
Record grounds q p0 (i : string) e (b : Breaker.ProviderReliabilityState) : Prop := {
  g_id : execution_of q = Ok i;
  g_exec : good i e;
  g_claimable : execution_refusal e q = None;
  g_breaker : breaker_result p0 (q_provider_id q) (q_market q) (q_now q) = Ok b;
  g_wf : Breaker.wf b;
  g_gate : _gate_reason q b = Ok None;
  g_probe : Breaker.lease_active (Breaker.advanced b (q_now q)) (q_now q) = false
}.

(** What it has seen of the authorization: a pending one, which it will
    consume, or a consumed one that may resume this execution. *)
Definition committing q p2 e (o : option AuthorizationConsumption) : Prop :=
  exists c stored, conv_at p2 (conversation_of q) = Some c
    /\ (exists w, owner c = Some w /\ has_same_identity w (q_owner q) = true)
    /\ _exact_stored_authorization c (q_authorization q) = inr stored
    /\ match o with
       | None => a_status stored = "consumed"%string
                 /\ exists v, resume_of sha256_hex q e stored false = Ok v /\ valid v = true
       | Some a => a = consumption_of q c stored
                   /\ exists v, validation_of sha256_hex q stored = Ok v /\ valid v = true
       end.

Definition observation_from q e (b : Breaker.ProviderReliabilityState)
    (o : option AuthorizationConsumption) : _ClaimObservation :=
  {| ob_execution := claimed_row q e; ob_expected_execution_revision := revision e;
     ob_breaker := fst <$> lease_of q b;
     ob_expected_breaker_revision := (fun _ => Breaker.revision b) <$> lease_of q b;
     ob_claim_capability := claim_token; ob_probe_capability := snd <$> lease_of q b;
     ob_consumption := o |}.

Lemma can_newer p p' i : can p p' -> newer (exec_at p i) (exec_at p' i).
Proof. intros H%(can_evolves sha256_hex cfg). by apply (ev_exec cfg). Qed.

Lemma newer_some e i p p' :
  newer (Some e) (exec_at p i) -> can p p' -> newer (Some e) (exec_at p' i).
Proof. intros H1 H2. eapply newer_trans; [exact H1 | by apply can_newer]. Qed.

(** A refusal in the middle of the checks. *)
Lemma does_stop b σ p ws reason e (Q : rows -> result start_exn observed -> writes -> Prop) :
  tx_at σ p ws -> nonempty reason = true ->
  (forall r, claimed r = false -> Q p (Ok (Refusal r)) []) ->
  does b σ p ws (stop reason e) Q.
Proof.
  intros Hat Hr HQ. unfold stop. destruct (refused_for_ok reason e Hr) as (r & Er & Hc & _).
  rewrite Er. apply (does_ret b σ p ws (Refusal r)); [done | by apply HQ].
Qed.

Lemma does_refuse b σ p ws {A} reason e (Q : rows -> result start_exn (LiveStartClaimResult + A) -> writes -> Prop) :
  tx_at σ p ws -> nonempty reason = true ->
  (forall r, claimed r = false -> Q p (Ok (inl r)) []) ->
  does b σ p ws (do! r := a_lift (refused_for reason e) in a_ret (inl r)) Q.
Proof.
  intros Hat Hr HQ. destruct (refused_for_ok reason e Hr) as (r & Er & Hc & _). rewrite Er.
  apply (does_ret b σ p ws (inl r)); [done | by apply HQ].
Qed.

Lemma refusal_text e q r : execution_refusal e q = Some r -> nonempty r = true.
Proof.
  unfold execution_refusal, _pin_reason. intros H. repeat case_match; simplify_eq; reflexivity.
Qed.

Lemma exact_text (c : Ctx) a r : _exact_stored_authorization c a = inl r -> nonempty r = true.
Proof. unfold _exact_stored_authorization. intros H. repeat case_match; simplify_eq; reflexivity. Qed.

(** The last look at the execution before a resume. *)
Definition latest_of q e : act T start_exn Execution :=
  if negb (_claim_is_active e (q_now q))
  then do! latest := on (reload_execution (execution_id e)) in a_ret (default e latest)
  else a_ret e.

Lemma latest_does b σ p q i e (Q : rows -> result start_exn Execution -> writes -> Prop) :
  tx_at σ p [] -> good i e -> newer (Some e) (exec_at p i) ->
  (forall p' latest, can p p' -> newer (Some e) (Some latest) -> newer (Some latest) (exec_at p' i) ->
     Q p' (Ok latest) []) ->
  (b = false -> forall p', Q p' (Err (StartTx TxUnavailable)) []) ->
  does b σ p [] (latest_of q e) Q.
Proof.
  intros Hat He Hnew HQ Hdown. unfold latest_of. destruct (_claim_is_active e (q_now q)); cbn [negb].
  { apply does_ret; [done |]. apply HQ; [by apply (can_refl sha256_hex cfg), (tx_rows_ok sha256_hex cfg σ p []) |
      apply newer_refl | done]. }
  apply does_bind. eapply does_on; [by apply (reload_law sha256_hex cfg) | | by intros ? ? _; apply Hdown].
  intros p' r vs [Hcan _] _ [-> ->]. simpl. intros σ' Hat'. apply does_ret; [done |].
  destruct He as [_ ->]. pose proof (newer_some e i p p' Hnew Hcan) as Hnew'.
  destruct (exec_at p' i) as [e'|] eqn:E; [| by destruct Hnew' as (? & ? & _)].
  simpl. unfold id. apply HQ; [done | done |]. rewrite E. apply newer_refl.
Qed.

Lemma commitment_does b σ p q i e :
  tx_at σ p [] -> execution_of q = Ok i -> good i e -> newer (Some e) (exec_at p i) ->
  does b σ p [] (_authorization_commitment sha256_hex q e false) (fun p' r vs =>
    match r with
    | Ok (inl x) => claimed x = false
    | Ok (inr o) => vs = [] /\ exists p2 latest, can p p2 /\ can p2 p'
        /\ newer (Some e) (Some latest) /\ newer (Some latest) (exec_at p' i)
        /\ committing q p2 latest o
    | Err x => vs = [] /\ x = StartTx TxUnavailable
    end).
Proof.
  intros Hat Hi He Hnew. unfold _authorization_commitment. apply does_bind.
  eapply does_on; [apply (load_conversation_law sha256_hex cfg); [done | apply not_elem_of_nil] | | done].
  intros p2 r vs [Hcan _] _ [(-> & -> & _) | (-> & -> & _)]; intros σ2 Hat2.
  2: by apply does_refuse.
  destruct (conv_at p2 _) as [c|] eqn:Ec; [| by apply does_refuse].
  destruct (negb _) eqn:Eo; [by apply does_refuse |].
  destruct (_exact_stored_authorization c (q_authorization q)) as [reason|stored] eqn:Es;
    [apply does_refuse; [done | by eapply exact_text | done] |].
  assert (exists w, owner c = Some w /\ has_same_identity w (q_owner q) = true) as Howner.
  { destruct (owner c) as [w|]; [| done]. exists w. split; [done |]. by apply negb_false_iff. }
  assert (authorized_execution_id sha256_hex (a_idempotency_key stored) = Ok i) as Hkey
    by (by rewrite (exact_key c _ _ Es)).
  pose proof (newer_some e i p p2 Hnew Hcan) as Hnew2.
  destruct (String.eqb_spec (a_status stored) "consumed") as [Hst | Hst].
  - apply does_bind. eapply (latest_does b σ2 p2 q i e); [done | done | done | | done].
    intros p3 latest Hcan3 Hl1 Hl2 σ3 Hat3. apply does_lift; [done |].
    destruct (resume_commitment_total sha256_hex q latest stored false i Hkey)
      as ([x|o] & -> & H); [done |]. destruct H as (-> & _ & Hv). split; [done |].
    exists p2, latest. repeat (split; [done |]). exists c, stored. done.
  - apply does_lift; [done |].
    destruct (pending_commitment_total sha256_hex q e c stored) as ([x|o] & -> & H); [done |].
    destruct H as [-> Hv]. split; [done |]. exists p2, e.
    split; [done |]. split; [by apply (can_refl sha256_hex cfg), (tx_rows_ok sha256_hex cfg σ2 p2 []) |].
    split; [apply newer_refl |]. split; [done |]. exists c, stored. done.
Qed.
(** What a claim may raise: the request names no execution or no breaker, or
    the database is down. *)
Definition raises q (x : start_exn) : Prop :=
  match x with
  | StartValue v => execution_of q = Err v
  | StartTx (TxBreaker v) => Breaker.reliability_record_key (q_provider_id q) (q_market q) = Err v
  | StartTx TxUnavailable => True
  | _ => False
  end.

Lemma breaker_read p q :
  rows_ok cfg p -> dt_aware (q_now q) = true ->
  match breaker_result p (q_provider_id q) (q_market q) (q_now q) with
  | Ok b => Breaker.wf b
  | Err x => Breaker.reliability_record_key (q_provider_id q) (q_market q) = Err x
  end.
Proof. apply breaker_result_wf. Qed.

(** An observation relates what was seen to the rows it ends with. *)
Definition observed_at p q p' (o : _ClaimObservation) : Prop :=
  exists i e b p0 p2 latest cons,
    can p p0 /\ can p0 p' /\ can p p2 /\ can p2 p' /\ grounds q p0 i e b
    /\ newer (Some e) (Some latest) /\ newer (Some latest) (exec_at p' i)
    /\ committing q p2 latest cons /\ o = observation_from q e b cons.

Lemma observe_rest_does bb σ p0 q i e b :
  dt_aware (q_now q) = true -> tx_at σ p0 [] -> newer (Some e) (exec_at p0 i) ->
  execution_of q = Ok i -> good i e -> execution_refusal e q = None -> Breaker.wf b ->
  breaker_result p0 (q_provider_id q) (q_market q) (q_now q) = Ok b ->
  forall blocked, _gate_reason q b = Ok blocked ->
  match blocked with
  | Some reason => nonempty reason = true
  | None => exists d, permission_for q b = Ok d
             /\ Breaker.breaker d = Breaker.advanced b (q_now q)
             /\ Breaker.state (Breaker.advanced b (q_now q)) <> OPEN
  end ->
  does bb σ p0 []
    match blocked with
    | Some reason => stop reason e
    | None =>
        do! permission := a_lift (permission_for q b) in
        do! taken := a_lift (probe_taken q permission) in
        if taken : bool then stop "half_open_probe_already_claimed"%string e
        else
          do! next := a_lift (claim_step sha256_hex claim_lease claim_token q e) in
          match next with
          | inl reason => stop reason e
          | inr next_execution =>
              do! probe := a_lift (probe_step sha256_hex probe_lease probe_token q permission) in
              match probe with
              | inl reason => stop reason e
              | inr lease =>
                  do! commitment := _authorization_commitment sha256_hex q e false in
                  match commitment with
                  | inl r => a_ret (Refusal r)
                  | inr consumption =>
                      a_ret (Observation
                        {| ob_execution := next_execution;
                           ob_expected_execution_revision := revision e;
                           ob_breaker := fst <$> lease;
                           ob_expected_breaker_revision := (fun _ => Breaker.revision b) <$> lease;
                           ob_claim_capability := claim_token;
                           ob_probe_capability := snd <$> lease;
                           ob_consumption := consumption |})
                  end
              end
          end
    end
    (fun p' r vs => match r with
                    | Ok (Refusal x) => claimed x = false
                    | Ok (Observation o) => vs = [] /\ observed_at p0 q p' o
                    | Err x => vs = [] /\ raises q x
                    end).
Proof.
  intros Hnow Hat Hnew Hi He Hr Hb Eb blocked Hgate Hblocked. destruct blocked as [reason|];
    [by apply does_stop |]. destruct Hblocked as (d & Ed & Ebd & Hopen).
  apply does_bind. rewrite Ed. apply does_lift; [done |]. simpl app. intros σ1 Hat1.
  apply does_bind. rewrite (probe_taken_ok _ b) by done. apply does_lift; [done |]. simpl app. intros σ2 Hat2.
  destruct (Breaker.lease_active _ _) eqn:Eact; [by apply does_stop |].
  apply does_bind. rewrite (claim_step_ok sha256_hex sha256_hex_digest _ _ _ _ Hconf i) by done.
  apply does_lift; [done |]. simpl app. intros σ3 Hat3. apply does_bind.
  rewrite (probe_step_ok sha256_hex sha256_hex_digest _ _ _ _ Hconf q b) by done.
  apply does_lift; [done |]. simpl app. intros σ4 Hat4. apply does_bind.
  eapply does_weaken; [by apply (commitment_does bb σ4 p0 q i e) |].
  intros p' r vs [Hcan _] _ Hr'. destruct r as [[x|o]|x].
  - intros σ5 Hat5. by apply does_ret.
  - destruct Hr' as (-> & p2 & latest & H1 & H2 & H3 & H4 & H5). intros σ5 Hat5.
    apply does_ret; [done |]. split; [done |]. exists i, e, b, p0, p2, latest, o.
    split; [by apply (can_refl sha256_hex cfg), (tx_rows_ok sha256_hex cfg σ p0 []) |].
    repeat (split; [done |]). done.
  - destruct Hr' as [-> ->]. done.
Qed.

Lemma observe_does bb σ p q :
  dt_aware (q_now q) = true -> tx_at σ p [] ->
  does bb σ p [] (observe_claim q) (fun p' r vs =>
    match r with
    | Ok (Refusal x) => claimed x = false
    | Ok (Observation o) => vs = [] /\ observed_at p q p' o
    | Err x => vs = [] /\ raises q x
    end).
Proof.
  intros Hnow Hat. unfold _observe_claim. apply does_bind. fold (execution_of q).
  destruct (execution_of q) as [i|v] eqn:Hi; [| by apply does_lift].
  apply does_lift; [done |]. simpl app. intros σ1 Hat1. apply does_bind.
  eapply does_on; [by apply (load_law sha256_hex cfg) | | done].
  intros p1 r vs [Hcan1 _] _ [-> ->]. simpl app. intros σ2 Hat2. change (view [] p1) with p1.
  destruct (exec_at p1 i) as [e|] eqn:Ee.
  2: { destruct (refused_ok "execution_not_prepared" (Some i) None eq_refl) as (x & Ex & Hx & _).
       rewrite Ex. by apply (does_ret bb σ2 p1 [] (Refusal x)). }
  pose proof (tx_rows_ok sha256_hex cfg σ2 p1 [] Hat2) as Hok1.
  pose proof (ok_exec cfg p1 Hok1 i e Ee) as He.
  assert (newer (Some e) (exec_at p1 i)) as Hnew1 by (rewrite Ee; apply newer_refl).
  destruct (execution_refusal e q) as [reason|] eqn:Er;
    [apply does_stop; [done | by eapply refusal_text | done] |].
  apply does_bind. eapply does_on; [by apply (load_breaker_law sha256_hex cfg) | | done].
  intros p0 r vs [Hcan0 _] _ [-> ->]. change (view [] p0) with p0.
  assert (rows_ok cfg p0) as Hok0 by by apply (can_evolves sha256_hex cfg) in Hcan0 as [].
  pose proof (breaker_read p0 q Hok0 Hnow) as Hb.
  destruct (breaker_result p0 _ _ _) as [b|x] eqn:Eb; [| done]. simpl app. intros σ3 Hat3.
  destruct (gate_total q b Hb Hnow) as (blocked & Egate & Hblocked).
  apply does_bind. rewrite Egate. apply does_lift; [done |]. simpl app. intros σ4 Hat4.
  assert (newer (Some e) (exec_at p0 i)) as Hnew0 by by eapply newer_some.
  eapply does_weaken; [by eapply (observe_rest_does bb σ4 p0 q i e b) |].
  intros p' r vs [Hcan _] _ Hr. destruct r as [[x|o]|x]; [done | | done]. destruct Hr as [-> Ho].
  split; [done |]. destruct Ho as (i' & e' & b' & p0' & p2 & latest & cons & H1 & H2 & H3 & H4 & H5).
  exists i', e', b', p0', p2, latest, cons.
  assert (can p p0) as Hp by by eapply (can_trans sha256_hex cfg).
  split; [by eapply (can_trans sha256_hex cfg) |]. split; [done |].
  split; [by eapply (can_trans sha256_hex cfg) | done].
Qed.
(** *** The writes *)

(** The row a claim stores. *)
Definition stored_claim q e : Execution := Pins.replacement e (claimed_row q e) (revision e).

Definition probe_write q (b : Breaker.ProviderReliabilityState) : writes :=
  match lease_of q b with
  | Some (l, _) => [WBreaker (Breaker.set_revision (Breaker.revision b + 1) l)]
  | None => []
  end.

Inductive consumption_write p1 : option AuthorizationConsumption -> writes -> Prop :=
| Resumes : consumption_write p1 None []
| Consumes a c : consumed_row sha256_hex cfg p1 a c -> consumption_write p1 (Some a) [WConversation c].

(** Everything a claim writes over [p1]. *)
Definition claim_writes q e b cw : writes := WExec (stored_claim q e) :: probe_write q b ++ cw.

(** The rows a claim is about, as they are when it commits. *)
Record writes_over q p1 i e b (cons : option AuthorizationConsumption) (vs : writes) : Prop := {
  wo_exec : exec_at p1 i = Some e;
  wo_breaker : is_some (lease_of q b) = true -> brk_at p1 (RepoInterface.key_of b) = Some b;
  wo_writes : exists cw, consumption_write p1 cons cw /\ vs = claim_writes q e b cw
}.

Lemma stored_claim_ok q e :
  dt_aware (q_now q) = true -> execution_refusal e q = None -> good (execution_id e) e ->
  cas_result (Some e) (claimed_row q e) (revision e) = Ok (stored_claim q e).
Proof.
  intros Hnow (Hst & _)%refusal_none He. pose proof (proj1 He) as Hc. apply cas_result_ok. exists e.
  split; [done |]. split; [done |]. split; [by apply Pins.require_same_pins_ok |]. split; [done |].
  assert (1 <= revision e /\ dt_aware (created_at e) = true) as [Hrev Hcr].
  { unfold execution_check in Hc. res_simpl. bool_simpl. split; [lia | done]. }
  apply replacement_valid; [| done | lia].
  eapply claim_valid; [exact Hconf | exact He | done | done | apply digest_hex, sha256_hex_digest].
Qed.

Lemma cas_lost i e e' q :
  good i e -> newer (Some e) (Some e') -> e' <> e ->
  cas_result (Some e') (claimed_row q e) (revision e) = Err (stale (claimed_row q e) (revision e)).
Proof.
  intros _ (x & [= <-] & [-> | Hlt]) Hne; [done |]. unfold cas_result, write_result.
  rewrite (proj2 (Z.eqb_neq _ _)) by lia. done.
Qed.

(** A breaker that was half-open was a stored row. *)
Lemma stored_breaker p0 q b :
  rows_ok cfg p0 -> breaker_result p0 (q_provider_id q) (q_market q) (q_now q) = Ok b ->
  is_some (lease_of q b) = true -> brk_at p0 (RepoInterface.key_of b) = Some b.
Proof.
  intros Hp Hb Hl. unfold breaker_result in Hb.
  destruct (Breaker.reliability_record_key _ _) as [k|]; [| done].
  destruct (brk_at p0 k) as [b'|] eqn:E.
  - injection Hb as <-. by destruct (ok_brk cfg p0 Hp k b' E) as (_ & -> & _).
  - exfalso. unfold lease_of in Hl. cbv zeta in Hl.
    assert (Breaker.state b = CLOSED) as Hc.
    { pose proof (BreakerRefinement.closed_state_phase _ _ _ _ Hb) as [_ Ha].
      unfold BreakerRefinement.abs in Ha. by destruct (Breaker.state b). }
    assert (Breaker.advanced b (q_now q) = b) as Ea
      by (unfold Breaker.advanced, Breaker.recovered; by rewrite Hc).
    rewrite Ea, Hc in Hl. done.
Qed.

Lemma breaker_kept p0 p1 q b :
  can p0 p1 -> brk_at p0 (RepoInterface.key_of b) = Some b ->
  exists b', brk_at p1 (RepoInterface.key_of b) = Some b'
    /\ (b' = b \/ Breaker.revision b < Breaker.revision b').
Proof.
  intros H%(can_evolves sha256_hex cfg) E. pose proof (ev_brk cfg _ _ H (RepoInterface.key_of b)) as Hn.
  by rewrite E in Hn.
Qed.

Lemma consumed_id p a c :
  rows_ok cfg p -> consumed_row sha256_hex cfg p a c -> conversation_id c = ac_conversation_id a.
Proof.
  intros Hp (e & u & He & _ & Hu & ->). cbn.
  pose proof (ok_conv cfg p Hp _ _ He) as Hrow.
  pose proof (Consumption.consume_total sha256_hex cfg (ac_conversation_id a) e (ac_consumption a)
    (conj Hrow (ok_auth cfg p Hp _ _ He))) as Ht. rewrite Hu in Ht. destruct Ht as (l & -> & _).
  apply (History.ok_id _ _ _ Hrow).
Qed.

(** The consumption a claim asks for names a version a stored row has had. *)
Lemma committing_version p2 q e a :
  rows_ok cfg p2 -> committing q p2 e (Some a) -> 0 <= ac_expected_version a.
Proof.
  intros Hp (c & stored & Hc & _ & _ & -> & _). cbn.
  pose proof (History.ok_version _ _ _ (ok_conv cfg p2 Hp _ _ Hc)). lia.
Qed.
(** A failure in the middle of the writes is one the service handles. *)
Definition handled_failure (x : start_exn) : Prop :=
  exists y, x = StartTx y /\ (is_some (lost_race y) = true \/ persistence_failure y = true).

Definition probe_step_of (o : _ClaimObservation) : act T start_exn bool :=
  match ob_breaker o, ob_expected_breaker_revision o with
  | Some b, Some expected => do! _ := on (cas_breaker b expected) in a_ret true
  | _, _ => a_ret false
  end.

Definition consumption_step_of (o : _ClaimObservation) : act T start_exn unit :=
  match ob_consumption o with
  | Some a => do! _ := on (consume_authorization a) in a_ret tt
  | None => a_ret tt
  end.

(** What a claim does before it commits. *)
Definition write_claim (o : _ClaimObservation) : act T start_exn (Execution * bool) :=
  do! stored := on (cas_execution (ob_execution o) (ob_expected_execution_revision o)) in
  do! acquired := probe_step_of o in
  do! _ := consumption_step_of o in
  a_ret (stored, acquired).

Lemma commit_claim_steps o σ :
  commit_claim o σ = (do! x := write_claim o in do! _ := on commit in a_ret x) σ.
Proof.
  cbv [commit_claim write_claim probe_step_of consumption_step_of a_bind a_ret].
  destruct (on (cas_execution _ _) σ) as [[stored|x] σ1]; [| done].
  destruct (ob_breaker o) as [l|], (ob_expected_breaker_revision o) as [n|];
    try destruct (on (cas_breaker l n) σ1) as [[l'|x] σ2]; try done;
    (destruct (ob_consumption o) as [a|]; [destruct (on (consume_authorization a) _) as [[c|x] σ3] |];
     [by destruct (on commit σ3) as [[[]|?] ?] | done | by destruct (on commit _) as [[[]|?] ?]]).
Qed.

Lemma unavailable_handled : handled_failure (StartTx TxUnavailable).
Proof. exists TxUnavailable. split; [done | by right]. Qed.

Lemma probe_does bb σ p q i e b p0 cons :
  dt_aware (q_now q) = true -> tx_at σ p [WExec (stored_claim q e)] -> can p0 p ->
  rows_ok cfg p0 -> grounds q p0 i e b ->
  does bb σ p [WExec (stored_claim q e)] (probe_step_of (observation_from q e b cons))
    (fun p' r vs =>
       match r with
       | Ok acquired => acquired = is_some (lease_of q b) /\ vs = probe_write q b
           /\ (is_some (lease_of q b) = true -> brk_at p' (RepoInterface.key_of b) = Some b)
       | Err x => handled_failure x
       end).
Proof.
  intros Hnow Hat Hcan Hp0 Hg. unfold probe_step_of, observation_from, probe_write. cbn.
  destruct (lease_of q b) as [[l t]|] eqn:El; cbn; [| apply does_ret; done].
  destruct (lease_wf sha256_hex sha256_hex_digest _ _ _ _ Hconf q b l t (g_wf _ _ _ _ _ Hg) Hnow El) as (Hl & Hk & _ & _).
  apply does_bind. eapply does_on;
    [apply (cas_breaker_law sha256_hex cfg); [exact Hat | exact Hl | apply (Breaker.wf_revision _ (g_wf _ _ _ _ _ Hg))] | |].
  2: { intros _ p' _. apply unavailable_handled. }
  intros p1 r vs [Hcan1 _] _ Hr. unfold swap_breaker_result in Hr.
  assert (brk_at (view [WExec (stored_claim q e)] p1) = brk_at p1) as Hview by done.
  rewrite Hview, Hk in Hr.
  destruct (Z.eqb_spec (RepoInterface.row_revision (brk_at p1 (RepoInterface.key_of b))) (Breaker.revision b))
    as [E | E]; destruct Hr as [-> ->].
  2: { eexists. split; [done | by left]. }
  intros σ1 Hat1. apply does_ret; [done |]. split; [done |]. split; [done |]. intros _.
  pose proof (stored_breaker p0 q b Hp0 (g_breaker _ _ _ _ _ Hg)) as Hst.
  rewrite El in Hst. specialize (Hst eq_refl).
  destruct (breaker_kept p0 p1 q b) as (b' & Eb & Hb'); [by eapply (can_trans sha256_hex cfg) | done |].
  rewrite Eb in E. cbn in E. destruct Hb' as [-> | ?]; [done | lia].
Qed.
Lemma consumption_does bb σ p q e b cons p2 latest :
  tx_at σ p (WExec (stored_claim q e) :: probe_write q b) -> rows_ok cfg p2 ->
  committing q p2 latest cons ->
  does bb σ p (WExec (stored_claim q e) :: probe_write q b)
    (consumption_step_of (observation_from q e b cons))
    (fun p' r vs => match r with Ok _ => consumption_write p' cons vs | Err x => handled_failure x end).
Proof.
  intros Hat Hp2 Hc. unfold consumption_step_of, observation_from. cbn.
  destruct cons as [a|]; [| apply does_ret; [done | constructor]].
  assert (unwritten_conversation (ac_conversation_id a) (WExec (stored_claim q e) :: probe_write q b)) as Hun.
  { unfold unwritten_conversation, probe_write. destruct (lease_of q b) as [[l t]|]; cbn;
      rewrite !elem_of_cons, elem_of_nil; intuition congruence. }
  apply does_bind. eapply does_on;
    [apply (consume_law sha256_hex cfg); [exact Hat | exact Hun | by eapply committing_version] | |].
  2: { intros _ p' _. apply unavailable_handled. }
  intros p' r vs _ _ Hr. destruct r as [c|x].
  - destruct Hr as [-> Hr]. intros σ' Hat'. apply does_ret; [done |]. rewrite app_nil_r. by constructor.
  - destruct Hr as [(y & -> & Hy) _]. eexists. split; [done |]. left. cbn. by rewrite Hy.
Qed.

Lemma consumption_write_agree p p' a o vs :
  rows_ok cfg p -> consumption_write p o vs -> others can (a ++ vs) p p' -> consumption_write p' o vs.
Proof.
  intros Hp Hc [_ Hsame]. destruct Hc as [|k c Hc]; constructor.
  pose proof (consumed_id p k c Hp Hc) as Hid. destruct Hc as (e & u & He & H).
  exists e, u. split; [| done]. rewrite <- He. symmetry.
  specialize (Hsame (KConversation (conversation_id c))). rewrite Hid in Hsame. apply Hsame.
  rewrite map_app, elem_of_app. right. cbn. rewrite Hid. by apply elem_of_cons; left.
Qed.

(** Once written, the rows a claim is about are the transaction's. *)
Lemma writes_over_agree q p p' i e b cons vs :
  rows_ok cfg p -> good i e -> dt_aware (q_now q) = true -> Breaker.wf b ->
  writes_over q p i e b cons vs -> others can vs p p' -> writes_over q p' i e b cons vs.
Proof.
  intros Hp He Hnow Hb [H1 H2 (cw & Hcw & ->)] Hoth. pose proof Hoth as [_ Hsame]. split.
  - rewrite <- H1. symmetry. apply (Hsame (KExec i)). destruct He as [_ <-]. by apply elem_of_cons; left.
  - intros Hl. rewrite <- (H2 Hl). symmetry. apply (Hsame (KBreaker (RepoInterface.key_of b))).
    unfold claim_writes, probe_write. destruct (lease_of q b) as [[l t]|] eqn:El; [| done].
    destruct (lease_wf sha256_hex sha256_hex_digest _ _ _ _ Hconf q b l t Hb Hnow El) as (_ & Hk & _).
    cbn. rewrite <- Hk. apply elem_of_cons; right. by apply elem_of_cons; left.
  - exists cw. split; [| done].
    by eapply (consumption_write_agree p p' (WExec (stored_claim q e) :: probe_write q b)).
Qed.

Lemma write_does bb σ p pstart q i e b p0 p2 latest cons :
  dt_aware (q_now q) = true -> tx_at σ p [] -> can pstart p0 -> can p0 p -> can pstart p2 ->
  grounds q p0 i e b ->
  newer (Some e) (Some latest) -> newer (Some latest) (exec_at p i) -> committing q p2 latest cons ->
  does bb σ p [] (write_claim (observation_from q e b cons)) (fun p' r vs =>
    match r with
    | Ok x => x = (stored_claim q e, is_some (lease_of q b)) /\ latest = e
              /\ writes_over q p' i e b cons vs
    | Err x => handled_failure x
    end).
Proof.
  intros Hnow Hat Hp0 H0p Hp2 Hg Hnew1 Hnew2 Hcom. pose proof Hg as [_ He Hr _ Hb _ _].
  assert (rows_ok cfg p0) as Hok0 by by apply (can_evolves sha256_hex cfg) in Hp0 as [].
  assert (rows_ok cfg p2) as Hok2 by by apply (can_evolves sha256_hex cfg) in Hp2 as [].
  pose proof (proj2 He) as Hid. unfold write_claim. apply does_bind.
  eapply does_on; [by apply (cas_execution_law sha256_hex cfg) | | intros _ p' _; apply unavailable_handled].
  intros p1 r vs [Hcan1 _] _ Hres. change (view [] p1) with p1 in Hres. cbn [ob_execution ob_expected_execution_revision observation_from] in Hres.
  change (execution_id (claimed_row q e)) with (execution_id e) in Hres. rewrite Hid in Hres.
  assert (newer (Some latest) (exec_at p1 i)) as Hnew by by eapply newer_some.
  destruct Hnew as (e' & Ee & He').
  destruct (decide (e' = e)) as [-> | Hne].
  2: { rewrite Ee, (cas_lost i) in Hres; [| done | | done].
       - destruct Hres as [-> ->]. eexists. split; [done | by left].
       - eapply newer_trans; [exact Hnew1 |]. exists e'. split; [done |]. by destruct He'; [left | right]. }
  assert (latest = e) as ->.
  { destruct Hnew1 as (x & [= <-] & [Hx | Hx]); [done |]. destruct He' as [? | ?]; [done | lia]. }
  rewrite Ee, stored_claim_ok in Hres by (done || by rewrite Hid). destruct Hres as [-> ->].
  simpl app. intros σ1 Hat1. apply does_bind.
  eapply does_weaken; [eapply (probe_does bb σ1 p1 q i e b p0 cons);
    [done | done | by eapply (can_trans sha256_hex cfg) | done | done] |].
  intros p3 r vs [_ Hsame3] _ Hprobe. destruct r as [acquired|x]; [| done].
  destruct Hprobe as (-> & -> & Hbrk). intros σ3 Hat3. apply does_bind.
  eapply does_weaken; [by eapply (consumption_does bb σ3 p3 q e b cons p2 e) |].
  intros p4 r vs [_ Hsame4] _ Hcw. destruct r as [[]|x]; [| done].
  intros σ4 Hat4. apply does_ret; [done |]. split; [done |]. split; [done |]. rewrite app_nil_r. split.
  - rewrite <- Ee. symmetry. etrans; [apply (Hsame3 (KExec i)) | apply (Hsame4 (KExec i))];
      rewrite <- Hid; by apply elem_of_cons; left.
  - intros Hl. rewrite <- (Hbrk Hl). symmetry. apply (Hsame4 (KBreaker (RepoInterface.key_of b))).
    unfold probe_write. destruct (lease_of q b) as [[l t]|] eqn:El; [| done].
    destruct (lease_wf sha256_hex sha256_hex_digest _ _ _ _ Hconf q b l t Hb Hnow El) as (_ & Hk & _).
    cbn. rewrite <- Hk. apply elem_of_cons; right. by apply elem_of_cons; left.
  - by exists vs.
Qed.
(** *** The end of a claim *)

Notation claim := (claim sha256_hex claim_lease probe_lease claim_token probe_token).
Notation finish := (_finish (Refinement := Refinement) (T := T)).

(** What the claiming worker is told. *)
Definition start_result q (i : string) b (cons : option AuthorizationConsumption) : LiveStartClaimResult :=
  {| claimed := true; lr_execution_id := Some i; lr_state := Some "claimed_for_attempt"%string;
     lr_block_reason := None; lr_claim_expires_at := Some (dt_add (q_now q) claim_lease);
     half_open_probe_lease_acquired := is_some (lease_of q b); connector_invoked := false;
     http_invoked := false; live_execution_started := false;
     authorization_consumed := is_some cons; lr_attempted := false; lr_source_checked := false;
     claim_capability := Some claim_token; probe_capability := snd <$> lease_of q b |}.

Lemma start_result_ok q i b cons : claim_result_check (start_result q i b cons) = Ok (start_result q i b cons).
Proof.
  destruct Hconf as (_ & _ & Ht & Hp). apply long_nonempty in Ht, Hp.
  unfold claim_result_check, start_result, some_text. cbn. rewrite Ht, andb_false_r. unfold lease_of. cbv zeta.
  destruct (Breaker.state _); cbn; rewrite ?Hp; done.
Qed.

(** A claim that went through: from what it saw at [p0] and [p2] to its
    writes over [p1], which are all there is between [p1] and [p']. *)
Definition started q p p' (r : LiveStartClaimResult) : Prop :=
  exists i e b cons p0 p2 p1 vs,
    can p p0 /\ can p0 p1 /\ can p p2 /\ can p2 p1
    /\ grounds q p0 i e b /\ committing q p2 e cons
    /\ writes_over q p1 i e b cons vs /\ p' = view vs p1
    /\ r = start_result q i b cons.

Lemma unavailable_ends σ p ws i :
  tx_at σ p ws ->
  exists p' r, can p p' /\ tx_at (unavailable i σ).2 p' [] /\ (unavailable i σ).1 = Ok r /\ claimed r = false.
Proof.
  intros Hat. destruct (rolled_back σ p ws Hat) as (p' & [Hcan _] & _ & E & Hat').
  unfold unavailable, a_bind, a_lift. rewrite E.
  destruct (refused_ok "claim_persistence_unavailable" i None eq_refl) as (r & -> & Hr & _).
  by exists p', r.
Qed.

Lemma refuse_lost_ends σ p ws reason i :
  tx_at σ p ws -> nonempty reason = true ->
  exists p', can p p' /\ tx_at (refuse_lost reason i σ).2 p' []
    /\ ((exists r, (refuse_lost reason i σ).1 = Ok r /\ claimed r = false)
        \/ (refuse_lost reason i σ).1 = Err (StartTx TxUnavailable)).
Proof.
  intros Hat Hr. destruct (rolled_back σ p ws Hat) as (p1 & [Hcan _] & _ & E & Hat1).
  assert (refuse_lost reason i σ
    = match load_execution i (rollback σ).2 with
      | (Ok c, σ2) => (value_part (_refused reason (Some i) ((fun c => state_value (state c)) <$> c)), σ2)
      | (Err x, σ2) => (Err (StartTx x), σ2)
      end) as ->.
  { unfold refuse_lost, a_bind. rewrite E. unfold on, a_lift. by destruct (load_execution _ _) as [[]]. }
  destruct (load_law sha256_hex cfg (rollback σ).2 p1 [] i Hat1) as (p2 & vs & [Hcan2 _] & Hat2 & _ & Hd).
  destruct (load_execution i (rollback σ).2) as [r σ2]. cbn [fst snd] in *.
  assert (can p p2) as H by by eapply (can_trans sha256_hex cfg).
  destruct Hd as [[-> ->] | [-> ->]].
  - exists p2. split; [done |]. split; [done | by right].
  - exists p2. split; [done |].
    destruct (refused_ok reason (Some i) ((fun c => state_value (state c)) <$> exec_at (view [] p2) i) Hr)
      as (r & Er & Hc & _). rewrite Er. split; [done |]. left. by exists r.
Qed.

Lemma lost_text x r : lost_race x = Some r -> nonempty r = true.
Proof.
  unfold lost_race. intros H. repeat case_match; simplify_eq; reflexivity.
Qed.

Lemma failed_ends σ p ws x i R σ' :
  tx_at σ p ws -> is_some (lost_race x) = true \/ persistence_failure x = true ->
  match lost_race x with
  | Some reason => refuse_lost reason i σ
  | None => if persistence_failure x then unavailable (Some i) σ else (Err (StartTx x), σ)
  end = (R, σ') ->
  exists p', can p p' /\ tx_at σ' p' []
    /\ ((exists r, R = Ok r /\ claimed r = false) \/ R = Err (StartTx TxUnavailable)).
Proof.
  intros Hat Hx E. destruct (lost_race x) as [reason|] eqn:El.
  - pose proof (refuse_lost_ends σ p ws reason i Hat ltac:(by eapply lost_text)) as H. by rewrite E in H.
  - destruct Hx as [Hx | Hx]; [done |]. rewrite Hx in E.
    destruct (unavailable_ends σ p ws (Some i) Hat) as (p' & r & H1 & H2 & H3 & H4).
    rewrite E in H2, H3. simpl in *. eauto 10.
Qed.

Lemma finish_ends σ p pstart q o R σ' :
  dt_aware (q_now q) = true -> tx_at σ p [] -> can pstart p -> observed_at pstart q p o ->
  finish (Observation o) σ = (R, σ') ->
  exists p', tx_at σ' p' []
    /\ ((exists r, R = Ok r /\ claimed r = true /\ started q pstart p' r)
        \/ can pstart p'
           /\ ((exists r, R = Ok r /\ claimed r = false) \/ R = Err (StartTx TxUnavailable))).
Proof.
  intros Hnow Hat Hp (i & e & b & p0 & p2 & latest & cons & H1 & H2 & H3 & H4 & Hg & Hn1 & Hn2 & Hc & ->).
  pose proof Hg as [_ He _ _ Hb _ _].
  destruct (write_does false σ p pstart q i e b p0 p2 latest cons Hnow Hat H1 H2 H3 Hg Hn1 Hn2 Hc)
    as (p' & vs & [Hcan Hsame] & Hat' & _ & Hw); [done |].
  unfold _finish. rewrite commit_claim_steps. unfold a_bind at 1.
  destruct (write_claim (observation_from q e b cons) σ) as [[x|x] σ1] eqn:Ew; cbn [fst snd] in *.
  2: { destruct Hw as (y & -> & Hy). intros E.
       destruct (failed_ends σ1 p' vs y _ R σ' Hat' Hy E) as (p3 & Hp3 & Hat3 & Hr).
       exists p3. split; [exact Hat3 |]. right. split; [| exact Hr].
       eapply (can_trans sha256_hex cfg); [exact Hp |]. by eapply (can_trans sha256_hex cfg). }
  destruct Hw as (-> & -> & Hw). unfold a_bind.
  destruct (commit_law sha256_hex cfg σ1 p' vs Hat') as (p1 & Hoth & _ & Hcommit).
  unfold on. destruct (commit σ1) as [r σ2]. cbn [fst snd] in *.
  assert (can p p1) as Hpp1 by (eapply (can_trans sha256_hex cfg); [exact Hcan | apply Hoth]).
  destruct Hcommit as [[-> Hat2] | (-> & Hat2 & _)].
  2: { intros E. destruct (failed_ends σ2 p1 vs TxUnavailable _ R σ' Hat2 ltac:(by right) E)
         as (p3 & Hp3 & Hat3 & Hr). exists p3. split; [exact Hat3 |]. right. split; [| exact Hr].
       eapply (can_trans sha256_hex cfg); [exact Hp |]. by eapply (can_trans sha256_hex cfg). }
  change (a_ret (stored_claim q e, is_some (lease_of q b)) σ2)
    with (Ok (E := start_exn) (stored_claim q e, is_some (lease_of q b)), σ2). cbv beta iota.
  match goal with |- context [claim_result_check ?r] => assert (r = start_result q i b cons) as -> end.
  { unfold start_result. destruct He as [_ Hid]. by rewrite <- Hid. }
  rewrite start_result_ok. intros [= <- <-]. exists (view vs p1). split; [exact Hat2 |]. left.
  exists (start_result q i b cons). split; [done |]. split; [done |].
  exists i, e, b, cons, p0, p2, p1, vs. assert (can p0 p1 /\ can p2 p1) as [? ?]
    by (split; by eapply (can_trans sha256_hex cfg)).
  repeat (split; [done |]). split; [| done].
  eapply writes_over_agree; [| exact He | done | done | exact Hw | exact Hoth].
  by apply (can_evolves sha256_hex cfg) in Hcan as [].
Qed.

(** A claim, with everything it may end with. *)
Lemma claim_ends σ p q R σ' :
  dt_aware (q_now q) = true -> tx_at σ p [] -> claim q σ = (R, σ') ->
  exists p', tx_at σ' p' []
    /\ ((exists r, R = Ok r /\ claimed r = true /\ started q p p' r)
        \/ can p p' /\ ((exists r, R = Ok r /\ claimed r = false) \/ (exists x, R = Err x /\ raises q x))).
Proof.
  intros Hnow Hat. unfold Service.claim.
  destruct (locked_claim sha256_hex claim_lease probe_lease claim_token probe_token q σ) as [R0 σ0] eqn:E0.
  assert (exists p', tx_at σ0 p' []
    /\ ((exists r, R0 = Ok r /\ claimed r = true /\ started q p p' r)
        \/ can p p' /\ ((exists r, R0 = Ok r /\ claimed r = false) \/ (exists x, R0 = Err x /\ raises q x)))) as H.
  2: { destruct H as (p' & Hat' & H). destruct (close_law sha256_hex cfg σ0 p' Hat') as [Hc Hat''].
       unfold on. destruct (close σ0) as [[]]; cbn [fst snd] in *; [| done].
       intros [= <- <-]. by exists p'. }
  revert E0. unfold locked_claim.
  destruct (lock_law sha256_hex cfg σ p [] Hat) as (p1 & vs & [Hcan1 _] & Hat1 & _ & Hlock).
  unfold on at 1. destruct (lock_for_claim σ) as [r σ1]. cbn [fst snd] in *.
  destruct Hlock as [[-> ->] | [-> ->]].
  { cbn [persistence_failure]. intros E.
    destruct (unavailable_ends σ1 p1 _ None Hat1) as (p' & r & H1 & H2 & H3 & H4).
    rewrite E in H2, H3. cbn [fst snd] in *. exists p'. split; [exact H2 |]. right.
    split; [by eapply (can_trans sha256_hex cfg) |]. left. eauto. }
  unfold a_bind. unfold _observe.
  destruct (observe_does false σ1 p1 q Hnow Hat1) as (p2 & vs & [Hcan2 _] & Hat2 & _ & Hobs); [done |].
  destruct (observe_claim q σ1) as [[[r|o]|x] σ2]; cbn [fst snd] in *.
  - (* a refusal *)
    unfold _finish. unfold a_bind. intros E.
    destruct (rolled_back σ2 p2 _ Hat2) as (p' & [Hcan _] & _ & Er & Hat'). rewrite Er in E.
    injection E as <- <-. exists p'. split; [exact Hat' |]. right.
    split; [eapply (can_trans sha256_hex cfg); [exact Hcan1 | by eapply (can_trans sha256_hex cfg)] |].
    left. by exists r.
  - (* an observation *)
    destruct Hobs as [-> Ho]. intros E.
    destruct (finish_ends σ2 p2 p1 q o _ _ Hnow Hat2 Hcan2 Ho E) as (p' & Hat' & [(r & -> & Hr & Hs) | [Hcan Hr]]).
    + exists p'. split; [done |]. left. exists r. split; [done |]. split; [done |].
      destruct Hs as (i & e & b & cons & q0 & q2 & q1 & ws & G1 & G2 & G3 & G).
      exists i, e, b, cons, q0, q2, q1, ws.
      split; [by eapply (can_trans sha256_hex cfg) |]. split; [done |].
      split; [by eapply (can_trans sha256_hex cfg) | exact G].
    + exists p'. split; [done |]. right. split; [by eapply (can_trans sha256_hex cfg) |].
      destruct Hr as [Hr | ->]; [by left | right]. by eexists.
  - (* an exception while it looks *)
    destruct Hobs as [-> Hx].
    assert (can p p2) as Hcan by by eapply (can_trans sha256_hex cfg).
    destruct x as [y|y|y|y| |y]; try (by intros [= <- <-]; exists p2; eauto 10).
    destruct (persistence_failure y) eqn:Ey.
    2: { intros [= <- <-]. exists p2. split; [done |]. right. split; [done |]. right. by eexists. }
    unfold a_bind. destruct (unavailable_ends σ2 p2 _ None Hat2) as (p3 & r & H1 & H2 & H3 & H4).
    destruct (unavailable None σ2) as [R3 σ3]. cbn [fst snd] in *. subst R3. unfold a_ret at 1.
    unfold _finish, a_bind. intros E.
    destruct (rolled_back σ3 p3 _ H2) as (p' & [Hcan' _] & _ & Er & Hat'). rewrite Er in E.
    injection E as <- <-. exists p'. split; [exact Hat' |]. right.
    split; [eapply (can_trans sha256_hex cfg); [exact Hcan | by eapply (can_trans sha256_hex cfg)] |].
    left. by exists r.
Qed.
(** *** When nobody else acts *)

(** The rows allow the request: the execution can be claimed, the gate is open
    over a breaker whose probe is free, and the authorization of a live
    conversation is pending, or consumed by this very execution. *)
Record admissible q p (i : string) e (b : Breaker.ProviderReliabilityState) (c : Ctx)
    (stored : ResearchAuthorization) : Prop := {
  ad_id : execution_of q = Ok i;
  ad_exec : exec_at p i = Some e;
  ad_claimable : execution_refusal e q = None;
  ad_breaker : breaker_result p (q_provider_id q) (q_market q) (q_now q) = Ok b;
  ad_gate : _gate_reason q b = Ok None;
  ad_probe : Breaker.lease_active (Breaker.advanced b (q_now q)) (q_now q) = false;
  ad_conversation : conv_at p (conversation_of q) = Some c;
  ad_live : _is_expired clock c = false;
  ad_owner : exists w, owner c = Some w /\ has_same_identity w (q_owner q) = true;
  ad_stored : _exact_stored_authorization c (q_authorization q) = inr stored;
  ad_authorized :
    if String.eqb (a_status stored) "consumed"
    then exists v, resume_of sha256_hex q e stored false = Ok v /\ valid v = true
    else exists v, validation_of sha256_hex q stored = Ok v /\ valid v = true
}.

(** The consumption the claim will ask for. *)
Definition asks q (c : Ctx) (stored : ResearchAuthorization) : option AuthorizationConsumption :=
  if String.eqb (a_status stored) "consumed" then None else Some (consumption_of q c stored).

Lemma admissible_calm q p p' i e b c stored :
  calm clock p p' -> admissible q p i e b c stored -> admissible q p' i e b c stored.
Proof.
  intros (H1 & H2 & H3) []. split; try done.
  - by rewrite H1.
  - revert ad_breaker0. unfold breaker_result. destruct (Breaker.reliability_record_key _ _); [| done].
    by rewrite H2.
  - destruct (H3 (conversation_of q)) as [-> | (c' & E & Hx & _)]; [done | congruence].
Qed.

Lemma commitment_grants σ p q i e b c stored :
  admissible q p i e b c stored -> good i e -> tx_at σ p [] ->
  does true σ p [] (_authorization_commitment sha256_hex q e false)
    (fun p' r vs => r = Ok (inr (asks q c stored)) /\ vs = []).
Proof.
  intros Had He Hat. unfold _authorization_commitment. apply does_bind.
  eapply does_on; [apply (load_conversation_law sha256_hex cfg); [done | apply not_elem_of_nil] | | done].
  intros p2 r vs _ Hcalm Hr. specialize (Hcalm eq_refl).
  apply (admissible_calm _ _ p2) in Had; [| done]. pose proof Had as [].
  cbv beta in Hr. unfold conversation_of in ad_conversation0. rewrite ad_conversation0 in Hr.
  destruct Hr as [(-> & -> & _) | (_ & _ & c' & [= <-] & Hx)]; [| congruence].
  intros σ2 Hat2. destruct ad_owner0 as (w & Ew & Hw). rewrite Ew, Hw, ad_stored0. cbn [negb].
  unfold asks. destruct (String.eqb (a_status stored) "consumed").
  - destruct ad_authorized0 as (v & Ev & Hv). apply refusal_none in ad_claimable0 as (_ & Hact & _).
    apply does_bind. rewrite Hact. cbn [negb]. apply does_bind.
    eapply does_on; [by apply (reload_law sha256_hex cfg) | | done].
    intros p3 r vs _ Hcalm3 [-> ->] σ3 Hat3. specialize (Hcalm3 eq_refl). apply does_ret; [done |].
    intros σ4 Hat4. apply does_lift; [done |]. destruct He as [_ Hid]. rewrite Hid.
    destruct Hcalm3 as (H1 & _). change (view ([] ++ []) p3) with p3. rewrite H1, ad_exec0. simpl. unfold id, resume_commitment.
    cbv zeta. by rewrite Hact, Ev, Hv.
  - destruct ad_authorized0 as (v & Ev & Hv). apply does_lift; [done |].
    unfold pending_commitment. cbv zeta. fold (validation_of sha256_hex q stored). by rewrite Ev, Hv.
Qed.

Lemma observe_grants σ p q i e b c stored :
  dt_aware (q_now q) = true -> admissible q p i e b c stored -> tx_at σ p [] ->
  does true σ p [] (observe_claim q)
    (fun p' r vs => r = Ok (Observation (observation_from q e b (asks q c stored))) /\ vs = []).
Proof.
  intros Hnow Had Hat. unfold _observe_claim. apply does_bind. fold (execution_of q).
  rewrite (ad_id _ _ _ _ _ _ _ Had). apply does_lift; [done |]. simpl app. intros σ1 Hat1. apply does_bind.
  eapply does_on; [by apply (load_law sha256_hex cfg) | | done].
  intros p1 r vs [Hcan1 _] Hcalm [-> ->]. apply (admissible_calm _ _ p1) in Had; [| by apply Hcalm].
  change (view [] p1) with p1. simpl app. intros σ2 Hat2.
  assert (good i e) as He by (eapply ok_exec; [by eapply (tx_rows_ok sha256_hex cfg) | apply Had]).
  rewrite (ad_exec _ _ _ _ _ _ _ Had), (ad_claimable _ _ _ _ _ _ _ Had). apply does_bind.
  eapply does_on; [by apply (load_breaker_law sha256_hex cfg) | | done].
  intros p2 r vs _ Hcalm2 [-> ->]. apply (admissible_calm _ _ p2) in Had; [| by apply Hcalm2].
  change (view [] p2) with p2. rewrite (ad_breaker _ _ _ _ _ _ _ Had). simpl app. intros σ3 Hat3.
  assert (Breaker.wf b) as Hb.
  { pose proof (breaker_read p2 q (tx_rows_ok sha256_hex cfg _ _ _ Hat3) Hnow) as H.
    by rewrite (ad_breaker _ _ _ _ _ _ _ Had) in H. }
  destruct (gate_total q b Hb Hnow) as (blocked & Egate & Hd).
  rewrite (ad_gate _ _ _ _ _ _ _ Had) in Egate. injection Egate as <-.
  destruct Hd as (d & Ed & Ebd & Hopen). apply does_bind. rewrite (ad_gate _ _ _ _ _ _ _ Had).
  apply does_lift; [done |]. simpl app. intros σ4 Hat4. apply does_bind. rewrite Ed.
  apply does_lift; [done |]. simpl app. intros σ5 Hat5. apply does_bind.
  rewrite (probe_taken_ok _ b), (ad_probe _ _ _ _ _ _ _ Had) by done.
  apply does_lift; [done |]. simpl app. intros σ6 Hat6. apply does_bind.
  rewrite (claim_step_ok sha256_hex sha256_hex_digest _ _ _ _ Hconf i) by
    (done || apply (ad_claimable _ _ _ _ _ _ _ Had)).
  apply does_lift; [done |]. simpl app. intros σ7 Hat7. apply does_bind.
  rewrite (probe_step_ok sha256_hex sha256_hex_digest _ _ _ _ Hconf q b) by
    (done || apply (ad_probe _ _ _ _ _ _ _ Had)).
  apply does_lift; [done |]. simpl app. intros σ8 Hat8. apply does_bind.
  eapply does_weaken; [by eapply (commitment_grants σ8 p2 q i e b c stored) |].
  intros p' r vs _ _ [-> ->] σ9 Hat9. by apply does_ret.
Qed.

(** A valid pending authorization of the conversation is consumed. *)
Lemma consumption_accepted p q i e b c stored :
  rows_ok cfg p -> admissible q p i e b c stored ->
  String.eqb (a_status stored) "consumed" = false ->
  exists u, consume_exact_research_authorization sha256_hex c (ac_consumption (consumption_of q c stored)) = Ok u.
Proof.
  intros Hp Had Hst. pose proof Had as []. destruct ad_owner0 as (w & Ew & Hw). rewrite Hst in ad_authorized0.
  destruct ad_authorized0 as (v & Ev & Hv).
  pose proof (ok_conv cfg p Hp _ _ ad_conversation0) as Hrow. pose proof (ok_auth cfg p Hp _ _ ad_conversation0) as Hauth.
  pose proof (Consumption.consume_total sha256_hex cfg (conversation_of q) c (ac_consumption (consumption_of q c stored))
    (conj Hrow Hauth)) as Ht.
  destruct (consume_exact_research_authorization _ _ _) as [u|x] eqn:Ec; [eauto |]. exfalso. revert Ec.
  assert (a_owner_binding stored = owner_binding_digest sha256_hex (q_owner q)
          /\ a_status stored = PENDING) as [Hbind Hpend].
  { unfold validation_of in Ev. cbv zeta in Ev.
    destruct (decide (a_owner_binding stored = owner_binding_digest sha256_hex (q_owner q))) as [E | E].
    - destruct (validate_spec sha256_hex stored (q_owner q) (pl_conversation_id (q_plan q))
        (pl_decision_id (q_plan q)) (pl_context_version (q_plan q)) None (Some (pl_scope_digest (q_plan q)))
        (Some (pl_proposal_id (q_plan q))) (Some (pl_proposal_version (q_plan q))) E)
        as (v' & Ev' & _ & _ & Hb & _).
      rewrite Ev in Ev'. injection Ev' as <-. apply Hb in Hv as (_ & _ & _ & _ & _ & _ & _ & Hs). done.
    - unfold validate_research_authorization_for_execution in Ev. apply String.eqb_neq in E. by rewrite E in Ev. }
  pose proof ad_stored0 as Hx. unfold _exact_stored_authorization in Hx.
  destruct (List.filter _ _) as [|x' [|? ?]] eqn:Ef; [done | | done].
  destruct (_ && _) eqn:Em; [| done]. injection Hx as ->. rewrite !andb_true_iff, !String.eqb_eq in Em.
  assert (a_id stored = a_id (q_authorization q)) as Eid.
  { assert (In stored (List.filter (named (a_id (q_authorization q))) (research_authorizations c))) as Hin
      by (rewrite Ef; by left). apply filter_In in Hin as [_ Hn]. by apply String.eqb_eq. }
  assert (a_conversation_id stored = conversation_id c) as Ecid
    by (rewrite (History.ok_id _ _ _ Hrow); unfold conversation_of; tauto).
  unfold consume_exact_research_authorization, consumption_of. cbn. rewrite Ew, Hw. cbn. rewrite Eid, Ef.
  rewrite Hbind, String.eqb_refl. cbn. unfold identity_matches. cbn.
  rewrite !Z.eqb_refl, !String.eqb_refl, Ecid, String.eqb_refl. cbn. rewrite Hst. cbn.
  unfold is_pending_execution, mark_research_authorization_consumed, is_pending_execution. rewrite Hpend.
  cbn. unfold replaced_status.
  assert (authorization_post_init stored = Ok stored) as Hs.
  { rewrite Forall_forall in Hauth. apply Hauth. apply list_elem_of_In.
    assert (In stored (List.filter (named (a_id (q_authorization q))) (research_authorizations c))) as Hin
      by (rewrite Ef; by left). by apply filter_In in Hin as [? _]. }
  rewrite (Consumption.spent_valid "consumed" (q_now q) stored Hs). cbn.
  pose proof (History.ok_valid _ _ _ Hrow) as Hval. revert Hval. unfold context_post_init. cbn.
  destruct (is_some _ && _); [done |]. cbn. by destruct (_ <? 0).
Qed.
Lemma write_grants σ p q i e b c stored :
  dt_aware (q_now q) = true -> admissible q p i e b c stored -> tx_at σ p [] ->
  does true σ p [] (write_claim (observation_from q e b (asks q c stored)))
    (fun p' r vs => exists x, r = Ok x).
Proof.
  intros Hnow Had Hat. pose proof (tx_rows_ok sha256_hex cfg _ _ _ Hat) as Hp.
  pose proof (ok_exec cfg p Hp _ _ (ad_exec _ _ _ _ _ _ _ Had)) as He.
  pose proof (breaker_read p q Hp Hnow) as Hb. rewrite (ad_breaker _ _ _ _ _ _ _ Had) in Hb.
  unfold write_claim. apply does_bind. eapply does_on; [by apply (cas_execution_law sha256_hex cfg) | | done].
  intros p1 r vs _ Hcalm1 Hr. apply (admissible_calm _ _ p1) in Had; [| by apply Hcalm1].
  cbv beta in Hr. change (view [] p1) with p1 in Hr. cbn [ob_execution ob_expected_execution_revision observation_from] in Hr.
  change (execution_id (claimed_row q e)) with (execution_id e) in Hr.
  rewrite (proj2 He), (ad_exec _ _ _ _ _ _ _ Had), stored_claim_ok in Hr by
    (done || (by rewrite (proj2 He)) || apply (ad_claimable _ _ _ _ _ _ _ Had)).
  destruct Hr as [-> ->]. simpl app. intros σ1 Hat1. apply does_bind.
  apply (does_weaken true σ1 p1 _ _ (fun p' r vs => calm clock p1 p'
    /\ r = Ok (is_some (lease_of q b)) /\ vs = probe_write q b)).
  { unfold probe_step_of, observation_from, probe_write. cbn.
    destruct (lease_of q b) as [[l t]|] eqn:El; cbn; [| apply does_ret; [done | split; [apply calm_refl | done]]].
    destruct (lease_wf sha256_hex sha256_hex_digest _ _ _ _ Hconf q b l t Hb Hnow El) as (Hl & Hk & _ & _).
    apply does_bind. eapply does_on;
      [apply (cas_breaker_law sha256_hex cfg); [exact Hat1 | exact Hl | apply (Breaker.wf_revision _ Hb)] | | done].
    intros p2 r vs _ Hcalm2 Hr. specialize (Hcalm2 eq_refl). cbv beta in Hr. unfold swap_breaker_result in Hr.
    change (brk_at (view [WExec (stored_claim q e)] p2)) with (brk_at p2) in Hr.
    apply (admissible_calm _ _ p2) in Had; [| done].
    assert (is_some (lease_of q b) = true) as Hsome by by rewrite El.
    destruct Hcalm2 as (C1 & C2 & C3). rewrite Hk, C2 in Hr.
    rewrite (stored_breaker p1 q b (tx_rows_ok sha256_hex cfg _ _ _ Hat1)) in Hr; [| | done].
    - cbn [RepoInterface.row_revision] in Hr. rewrite Z.eqb_refl in Hr. destruct Hr as [-> ->].
      intros σ2 Hat2. apply does_ret; [done |]. split; [by split |]. done.
    - rewrite <- (ad_breaker _ _ _ _ _ _ _ Had). unfold breaker_result.
      destruct (Breaker.reliability_record_key _ _); [by rewrite C2 | done]. }
  intros p3 r vs _ _ (Hcalm3 & -> & ->). intros σ3 Hat3. apply does_bind.
  apply (admissible_calm _ _ p3) in Had; [| done].
  apply (does_weaken true σ3 p3 _ _ (fun p' r vs => r = Ok tt)).
  2: { intros p4 r vs _ _ -> σ4 Hat4. apply does_ret; [done | by eexists]. }
  unfold consumption_step_of, observation_from, asks. cbn.
  destruct (String.eqb (a_status stored) "consumed") eqn:Est; [by apply does_ret |].
  pose proof (ok_conv cfg p3 (tx_rows_ok sha256_hex cfg _ _ _ Hat3) _ _ (ad_conversation _ _ _ _ _ _ _ Had)) as Hrow.
  assert (unwritten_conversation (conversation_id c) (WExec (stored_claim q e) :: probe_write q b)) as Hun.
  { unfold unwritten_conversation, probe_write. destruct (lease_of q b) as [[l t]|]; cbn;
      rewrite !elem_of_cons, elem_of_nil; intuition congruence. }
  apply does_bind. eapply does_on; [apply (consume_law sha256_hex cfg); [exact Hat3 | exact Hun |] | | done].
  { cbn. pose proof (History.ok_version _ _ _ Hrow). lia. }
  intros p4 r vs [Hcan4 _] Hcalm4 Hr. specialize (Hcalm4 eq_refl). apply (admissible_calm _ _ p4) in Had; [| done].
  destruct r as [c'|x]; [intros σ4 Hat4; by apply does_ret |]. exfalso. destruct Hr as [_ Hr].
  assert (rows_ok cfg p4) as Hp4 by by apply (can_evolves sha256_hex cfg) in Hcan4 as [].
  destruct (consumption_accepted p4 q i e b c stored Hp4 Had Est) as (u & Hu).
  cbn [ac_conversation_id consumption_of] in Hr. rewrite (History.ok_id _ _ _ Hrow) in Hr.
  by apply (Hr c u (ad_conversation _ _ _ _ _ _ _ Had) (ad_live _ _ _ _ _ _ _ Had) eq_refl).
Qed.

Lemma admissible_grounds q p i e b c stored :
  rows_ok cfg p -> dt_aware (q_now q) = true -> admissible q p i e b c stored ->
  grounds q p i e b /\ committing q p e (asks q c stored).
Proof.
  intros Hp Hnow Had. pose proof (breaker_read p q Hp Hnow) as Hb. destruct Had. rewrite ad_breaker0 in Hb. split.
  - split; try done. by eapply ok_exec.
  - exists c, stored. split; [done |]. split; [done |]. split; [done |]. unfold asks.
    destruct (String.eqb_spec (a_status stored) "consumed"); done.
Qed.

Lemma claim_grants σ p q i e b c stored :
  dt_aware (q_now q) = true -> quiet σ -> tx_at σ p [] -> admissible q p i e b c stored ->
  (claim q σ).1 = Ok (start_result q i b (asks q c stored)).
Proof.
  intros Hnow Hquiet Hat Had.
  destruct (lock_law sha256_hex cfg σ p [] Hat) as (p1 & vs & [Hcan1 _] & Hat1 & Hq1 & Hlock).
  destruct (Hq1 Hquiet) as (Hquiet1 & Hcalm1 & Hne). destruct Hlock as [[? _] | [Elock ->]]; [done |].
  apply (admissible_calm _ _ p1) in Had; [| done].
  destruct (observe_grants _ p1 q i e b c stored Hnow Had Hat1 ltac:(done))
    as (p2 & vs & [Hcan2 _] & Hat2 & Hq2 & Eo & ->).
  destruct (Hq2 eq_refl) as [Hcalm2 Hquiet2]. apply (admissible_calm _ _ p2) in Had; [| done].
  pose proof (tx_rows_ok sha256_hex cfg _ _ _ Hat2) as Hok2.
  destruct (admissible_grounds _ _ _ _ _ _ _ Hok2 Hnow Had) as [Hg Hc].
  pose proof (can_refl sha256_hex cfg p2 Hok2) as Hrefl.
  destruct (write_grants _ p2 q i e b c stored Hnow Had Hat2 ltac:(done))
    as (p3' & vs' & _ & _ & _ & x & Ex).
  destruct (write_does true _ p2 p2 q i e b p2 p2 e (asks q c stored) Hnow Hat2 Hrefl Hrefl Hrefl Hg
              (newer_refl (Some e)) ltac:(rewrite (ad_exec _ _ _ _ _ _ _ Had); apply newer_refl) Hc ltac:(done))
    as (p3 & vs & _ & Hat3 & Hq3 & Hw). rewrite Ex in Hw. destruct Hw as (-> & _ & _).
  destruct (Hq3 eq_refl) as [_ Hquiet3].
  destruct (commit_law sha256_hex cfg _ p3 _ Hat3) as (p4 & _ & _ & [[Ecommit Hat4] | (_ & _ & Hn)]); [| done].
  unfold Service.claim, locked_claim, on at 1. destruct (lock_for_claim σ) as [rl σ1]. cbn [fst snd] in *.
  subst rl. unfold a_bind at 1. unfold _observe. destruct (observe_claim q σ1) as [ro σ2].
  cbn [fst snd] in *. subst ro. unfold _finish. rewrite commit_claim_steps. unfold a_bind at 1.
  destruct (write_claim _ σ2) as [rw σ3]. cbn [fst snd] in *. subst rw. unfold a_bind at 1.
  unfold on at 1. destruct (commit σ3) as [rc σ4]. cbn [fst snd] in *. subst rc.
  change (a_ret (stored_claim q e, is_some (lease_of q b)) σ4)
    with (Ok (E := start_exn) (stored_claim q e, is_some (lease_of q b)), σ4). cbv beta iota.
  match goal with |- context [claim_result_check ?r] =>
    assert (r = start_result q i b (asks q c stored)) as -> end.
  { unfold start_result. pose proof (g_exec _ _ _ _ _ Hg) as [_ Hid]. by rewrite <- Hid. }
  rewrite start_result_ok. destruct (close_law sha256_hex cfg σ4 _ Hat4) as [Hclose _].
  unfold on. destruct (close σ4) as [[] ?]; [done | done].
Qed.
End Starts.
End Starts.
