(* ===== verification/LiveStartHistory.v ===== *)
(** The live-start claim, as its users see it: the theorems of
    [app/research/live_start_claim.py].

    Module [Histories]: sequences of claims and of everything else that
    happens to execution rows, and that the claims of one execution never
    overlap. Module [Theorems]: the claim service over any lawful unit of
    work. Module [Examples]: a store with one prepared execution. *)

From S2P Require Import Prelude PyStr Json Clock Connector Breaker BreakerSpec PyState OpStore BreakerRepo Research Catalogs Authorization Conversation ConversationRepo ConversationHistory LiveMode Execution ExecutionRepo ClaimTx ClaimTxMemory ClaimTxSql LiveStart LiveStartSafety.
Import Connector Research Authorization Context Lifecycle Common.
Import Execution.Record ExecutionRows Rows TxInterface Claims Service.
Import Effects Decisions Starts.
#[local] Open Scope Z_scope.

(** ** Histories of claims *)
Module Histories.

(** A granted claim: the execution, the capability it was granted under, when,
    and until when. *)
Record claim_event := ClaimEvent {
  ev_execution : string; ev_capability : string; ev_now : datetime; ev_expires : datetime }.

Section Histories.
Context {Refinement : Type} (sha256_hex : string -> string) (cfg : settings).
Notation rows := (rows Refinement).
Notation writes_over := (Starts.writes_over (sha256_hex := sha256_hex) (cfg := cfg)).
Notation stored_claim := (Starts.stored_claim (sha256_hex := sha256_hex)).
Implicit Types (p : rows) (h : list claim_event).

(** Everything else: a new execution is prepared, or an attempt starts or
    ends; other rows may change in any way. *)
Definition background p p' : Prop :=
  forall i, exec_at p' i = exec_at p i
    \/ (exec_at p i = None /\ exists r, exec_at p' i = Some r /\ state r = prepared_unavailable)
    \/ exists r r', exec_at p i = Some r /\ exec_at p' i = Some r'
         /\ (state r' = running \/ terminal (state r') = true).

(** Claims by any workers, each under its own leases, capability and probe
    capability, with whatever else happens in between. *)
Inductive history : rows -> list claim_event -> rows -> Prop :=
| NoClaim p : history p [] p
| Background p h p' p'' : history p h p' -> background p' p'' -> history p h p''
| Claim p h p1 claim_lease probe_lease claim_token probe_token q i e b cons vs :
    configured claim_lease probe_lease claim_token probe_token ->
    history p h p1 -> good i e -> execution_refusal e q = None ->
    writes_over claim_lease probe_lease claim_token probe_token q p1 i e b cons vs ->
    history p (h ++ [ClaimEvent i claim_token (q_now q) (dt_add (q_now q) claim_lease)]) (view vs p1).

(** No claim of an execution is granted before the earlier ones have run out. *)
Definition disjoint h : Prop :=
  forall h1 a h2 c h3, h = h1 ++ a :: h2 ++ c :: h3 -> ev_execution a = ev_execution c ->
    dt_us (ev_expires a) <= dt_us (ev_now c).

Lemma history_app p1 h1 p2 h2 p3 : history p1 h1 p2 -> history p2 h2 p3 -> history p1 (h1 ++ h2) p3.
Proof.
  intros H1 H2. induction H2 as [| | p h p0 cl pl ct pt q i e b cons vs Hc _ IH He Hr Hw].
  - by rewrite app_nil_r.
  - eapply Background; [by apply IHhistory | done].
  - rewrite app_assoc. eapply Claim; [exact Hc | by apply IH | exact He | exact Hr | exact Hw].
Qed.

Lemma consumption_exec o p cw p0 i :
  consumption_write (sha256_hex := sha256_hex) (cfg := cfg) p o cw -> exec_at (view cw p0) i = exec_at p0 i.
Proof. by intros []. Qed.

(** A claim writes its own execution and no other. *)
Lemma claim_exec cl pl ct pt q p i e b cons vs j :
  good i e -> writes_over cl pl ct pt q p i e b cons vs ->
  exec_at (view vs p) j
  = if String.eqb j i then Some (stored_claim cl ct q e) else exec_at p j.
Proof.
  intros [_ Hid] [_ _ (cw & Hcw & ->)]. unfold claim_writes. simpl. rewrite view_app.
  rewrite (consumption_exec _ _ _ _ _ Hcw). unfold probe_write.
  destruct (lease_of _ _ _ _ _) as [[l t]|]; simpl; unfold set_at; by rewrite Hid.
Qed.

(** An execution with a granted claim is claimed until then, or past it. *)
Definition busy_until (x : datetime) (r : option Execution) : Prop :=
  exists e, r = Some e
    /\ ((state e = claimed_for_attempt
         /\ exists y, claim_expires_at e = Some y /\ dt_us x <= dt_us y)
        \/ state e = running \/ terminal (state e) = true).

Lemma busy_background p p' i x :
  background p p' -> busy_until x (exec_at p i) -> busy_until x (exec_at p' i).
Proof.
  intros H Hb. destruct (H i) as [-> | [(E & _) | (r & r' & _ & E' & Hr)]]; [done | |].
  - destruct Hb as (e & Ee & _). congruence.
  - exists r'. by split; [| right].
Qed.

Lemma history_busy p h p' :
  history p h p' -> disjoint h /\ forall a, a ∈ h -> busy_until (ev_expires a) (exec_at p' (ev_execution a)).
Proof.
  intros Hh. induction Hh as [p | p h p' p'' _ [IH1 IH2] Hbg
    | p h p1 cl pl ct pt q i e b cons vs [Hlease _] _ [IH1 IH2] He Hr Hw].
  - split; [| by intros a ?%elem_of_nil]. intros h1 a h2 c h3 E. by destruct h1.
  - split; [done |]. intros a Ha. eapply busy_background; [exact Hbg | by apply IH2].
  - set (new := ClaimEvent _ _ _).
    assert (forall a, a ∈ h -> ev_execution a = i -> dt_us (ev_expires a) <= dt_us (q_now q)) as Hbefore.
    { intros a Ha Hi. destruct (IH2 a Ha) as (e' & Ee & Hst). rewrite Hi, (wo_exec _ _ _ _ _ _ _ _ _ _ _ Hw) in Ee.
      injection Ee as <-. apply refusal_none in Hr as (Hs & Hact & _).
      destruct Hst as [[Hst (y & Ey & Hy)] | Hst].
      - unfold _claim_is_active in Hact. rewrite Hst, bool_decide_true, Ey in Hact by done.
        unfold before in Hact. simpl in Hact. apply Z.ltb_ge in Hact. lia.
      - exfalso. destruct Hs as [Hs | Hs], Hst as [Hst | Hst]; rewrite Hs in Hst; done. }
    split.
    + intros h1 a h2 c h3 E Hi. destruct h3 as [|d h3 _] using rev_ind.
      * rewrite app_comm_cons, app_assoc in E. apply app_inj_tail in E as [E <-].
        apply Hbefore; [| by rewrite Hi]. rewrite E, !elem_of_app, elem_of_cons. auto.
      * rewrite app_comm_cons, !app_assoc in E. rewrite app_comm_cons, app_assoc in E.
        apply app_inj_tail in E as [E _]. rewrite <- app_assoc, <- app_comm_cons in E. by eapply IH1.
    + intros a Ha. rewrite (claim_exec cl pl ct pt q p1 i e b cons vs) by done.
      destruct (String.eqb_spec (ev_execution a) i) as [Hi | Hi].
      * exists (stored_claim cl ct q e). split; [done |]. left. split; [done |].
        exists (dt_add (q_now q) cl). split; [done |].
        apply elem_of_app in Ha as [Ha | ->%list_elem_of_singleton]; [| done].
        pose proof (Hbefore a Ha Hi). simpl. lia.
      * apply elem_of_app in Ha as [Ha | ->%list_elem_of_singleton]; [by apply IH2 | done].
Qed.
End Histories.
End Histories.

(** ** The claim service *)
Module Theorems.
Import Histories.
Section Theorems.
Context {Refinement T : Type} `{CT : !ClaimTransaction Refinement T}.
Context {sha256_hex : string -> string} {cfg : settings}
        `{L : !TransactionLaws (Refinement := Refinement) (T := T) sha256_hex cfg}.
Hypothesis sha256_hex_digest : forall b, Breaker.is_digest (sha256_hex b).
Variables (claim_lease probe_lease : Z) (claim_token probe_token : string).
Hypothesis Hconf : configured claim_lease probe_lease claim_token probe_token.
Notation can := (TxInterface.can sha256_hex cfg).
Notation tx_at := (TxInterface.tx_at sha256_hex cfg).
Notation quiet := (TxInterface.quiet sha256_hex cfg).
Notation claim := (claim sha256_hex claim_lease probe_lease claim_token probe_token).
Notation started := (started (sha256_hex := sha256_hex) (cfg := cfg)
                       claim_lease probe_lease claim_token probe_token).
Notation execution_of := (execution_of (sha256_hex := sha256_hex)).
Notation history := (history (Refinement := Refinement) sha256_hex cfg).
Implicit Types (p : rows Refinement) (σ : T) (q : LiveStartClaimRequest).

(** C4: a claim commits all of its rows or none. Whatever other workers
    commit between its statements, and wherever the database fails: a claim
    that is granted has written, in one step over the rows [p1] it met, the
    execution claimed at its next revision, the leased breaker exactly when the
    breaker was half-open, and the consumed authorization exactly when it was
    pending; the execution, the breaker and the conversation in [p1] are the
    ones its checks had seen. A claim that is refused, or that raises, has
    changed nothing: only the others moved the rows. *)
Theorem claim_is_all_or_nothing σ p q :
  dt_aware (q_now q) = true -> tx_at σ p [] ->
  exists p', tx_at (claim q σ).2 p' []
    /\ match (claim q σ).1 with
       | Ok r => if claimed r then started q p p' r else can p p'
       | Err _ => can p p'
       end.
Proof.
  intros Hnow Hat. destruct (claim q σ) as [R σ'] eqn:E.
  destruct (claim_ends sha256_hex_digest _ _ _ _ Hconf σ p q R σ' Hnow Hat E)
    as (p' & Hat' & [(r & -> & Hr & Hs) | [Hcan [(r & -> & Hr) | (x & -> & _)]]]);
    exists p'; simpl; rewrite ?Hr; done.
Qed.

(** What a claim raises. A request that names an execution and a breaker
    is answered with a result, or the database went down while the service
    reported a lost race; no other exception leaves the service, and the
    transaction is over without a write of its own. *)
Theorem claim_answers_or_database_is_down σ p q i k :
  dt_aware (q_now q) = true -> tx_at σ p [] -> execution_of q = Ok i ->
  Breaker.reliability_record_key (q_provider_id q) (q_market q) = Ok k ->
  match (claim q σ).1 with
  | Ok _ => True
  | Err x => x = StartTx TxUnavailable /\ exists p', tx_at (claim q σ).2 p' [] /\ can p p'
  end.
Proof.
  intros Hnow Hat Hi Hk. destruct (claim q σ) as [R σ'] eqn:E.
  destruct (claim_ends sha256_hex_digest _ _ _ _ Hconf σ p q R σ' Hnow Hat E)
    as (p' & Hat' & [(r & -> & _) | [Hcan [(r & -> & _) | (x & -> & Hx)]]]); [done | done |].
  simpl. split; [| by exists p']. destruct x as [y|y|y|y| |y]; try done.
  - destruct y as [y|y|y|]; try done. simpl in Hx. congruence.
  - simpl in Hx. congruence.
Qed.

(** A granted claim only brings rows to later revisions. *)
Lemma writes_evolve p q i e b cons vs :
  dt_aware (q_now q) = true -> rows_ok cfg p -> rows_ok cfg (view vs p) -> good i e -> Breaker.wf b ->
  Starts.writes_over (sha256_hex := sha256_hex) (cfg := cfg)
    claim_lease probe_lease claim_token probe_token q p i e b cons vs ->
  evolves cfg p (view vs p).
Proof.
  intros Hnow Hp Hq He Hb Hw. split; [done | |].
  - intros j. rewrite (claim_exec _ _ _ _ _ _ q p i e b cons vs) by done.
    destruct (String.eqb_spec j i) as [-> | Hj]; [| apply newer_refl].
    rewrite (wo_exec _ _ _ _ _ _ _ _ _ _ _ Hw). eexists. split; [done |]. right. simpl. lia.
  - intros k. destruct Hw as [_ Hrow (cw & Hcw & ->)]. unfold claim_writes. simpl. rewrite view_app.
    assert (forall p0, brk_at (view cw p0) = brk_at p0) as -> by by destruct Hcw.
    unfold probe_write. destruct (lease_of _ _ _ q b) as [[l t]|] eqn:El; [| apply newer_brk_refl].
    destruct (lease_wf sha256_hex sha256_hex_digest _ _ _ _ Hconf q b l t Hb Hnow El) as (_ & Hk & _).
    simpl. unfold set_at. change (RepoInterface.key_of (Breaker.set_revision _ l)) with (RepoInterface.key_of l).
    rewrite Hk. destruct (String.eqb_spec k (RepoInterface.key_of b)) as [-> | Hne]; [| apply newer_brk_refl].
    rewrite Hrow by done. eexists. split; [done |]. right. simpl. lia.
Qed.

Lemma started_evolves p q p' r :
  dt_aware (q_now q) = true -> rows_ok cfg p' -> started q p p' r -> evolves cfg p p'.
Proof.
  intros Hnow Hok (i & e & b & cons & p0 & p2 & p1 & vs & H1 & H2 & _ & _ & Hg & _ & Hw & -> & _).
  assert (evolves cfg p p1) as Hp by by eapply (can_evolves sha256_hex cfg), (can_trans sha256_hex cfg).
  eapply evolves_trans; [exact Hp |].
  apply (writes_evolve p1 q i e b cons vs); [done | apply Hp | done | apply Hg | apply Hg | done].
Qed.

(** What a claim does is again something a worker may do between the
    statements of another. *)
Lemma claim_recorded σ p q :
  dt_aware (q_now q) = true -> (forall p p', can p p' -> exists h, history p h p') -> tx_at σ p [] ->
  exists h p', tx_at (claim q σ).2 p' [] /\ evolves cfg p p' /\ history p h p'
    /\ forall r, (claim q σ).1 = Ok r -> claimed r = true ->
         exists h0 i, execution_of q = Ok i
           /\ h = h0 ++ [ClaimEvent i claim_token (q_now q) (dt_add (q_now q) claim_lease)].
Proof.
  intros Hnow Hall Hat. destruct (claim q σ) as [R σ'] eqn:E.
  destruct (claim_ends sha256_hex_digest _ _ _ _ Hconf σ p q R σ' Hnow Hat E) as (p' & Hat' & Hends).
  pose proof (tx_rows_ok sha256_hex cfg _ _ _ Hat') as Hok'.
  destruct Hends as [(r & -> & Hr & Hst) | [Hcan Hno]].
  - pose proof (started_evolves p q p' r Hnow Hok' Hst) as Hev.
    destruct Hst as (i & e & b & cons & q0 & q2 & p1 & vs & H1 & H2 & _ & _ & Hg & _ & Hw & -> & _).
    destruct (Hall p p1) as (h0 & Hh0); [by eapply (can_trans sha256_hex cfg) |].
    eexists _, (view vs p1). split; [exact Hat' |]. split; [exact Hev |].
    split; [eapply Claim; [exact Hconf | exact Hh0 | apply Hg | apply Hg | exact Hw] |].
    intros _ _ _. exists h0, i. split; [apply Hg | done].
  - destruct (Hall p p' Hcan) as (h' & Hh'). exists h', p'. split; [done |].
    split; [by apply (can_evolves sha256_hex cfg) |]. split; [done |]. simpl. intros r -> Hr.
    destruct Hno as [(r' & [= <-] & Hr') | (x & ? & _)]; congruence.
Qed.

(** C5: active claims never overlap. Let the other workers claim executions
    themselves - each under its own leases, capability and probe capability -,
    prepare executions, start or finish attempts, in any order between the
    statements of this claim, and touch the execution rows in no other way.
    Then the claims of all workers form one history in which a claim of an
    execution is granted only when every earlier claim of it has run out; a
    granted claim is the last one of that history, under this worker's
    capability; and what this claim does is again something a worker may do
    between the statements of another. *)
Theorem claims_do_not_overlap σ p0 h p q :
  dt_aware (q_now q) = true ->
  (forall p p', can p p' -> exists h, history p h p') ->
  history p0 h p -> tx_at σ p [] ->
  exists h' p', tx_at (claim q σ).2 p' [] /\ history p0 (h ++ h') p' /\ disjoint (h ++ h')
    /\ evolves cfg p p' /\ history p h' p'
    /\ forall r, (claim q σ).1 = Ok r -> claimed r = true ->
         exists h0 i, execution_of q = Ok i
           /\ h' = h0 ++ [ClaimEvent i claim_token (q_now q) (dt_add (q_now q) claim_lease)].
Proof.
  intros Hnow Hall Hh Hat.
  destruct (claim_recorded σ p q Hnow Hall Hat) as (h' & p' & Hat' & Hev & Hh' & Hr).
  assert (history p0 (h ++ h') p') as Hj by by eapply history_app.
  exists h', p'. split; [done |]. split; [done |]. split; [| done].
  by eapply history_busy.
Qed.

(** C27: a claim that may be granted is granted. When nobody else acts and
    the database answers, a request is granted as soon as the rows allow it.
    In particular an execution whose worker died can be taken over by any
    worker from the moment its claim has run out, although its authorization
    is consumed by then: the takeover consumes nothing and keeps the claim to
    the one execution the authorization was consumed for. *)
Theorem admissible_claim_is_granted σ p q i e b c stored :
  dt_aware (q_now q) = true -> quiet σ -> tx_at σ p [] ->
  admissible (L := L) q p i e b c stored ->
  exists r, (claim q σ).1 = Ok r /\ claimed r = true /\ lr_execution_id r = Some i
    /\ lr_claim_expires_at r = Some (dt_add (q_now q) claim_lease)
    /\ (authorization_consumed r = true <-> a_status stored <> "consumed"%string).
Proof.
  intros Hnow Hquiet Hat Had.
  rewrite (claim_grants sha256_hex_digest _ _ _ _ Hconf σ p q i e b c stored) by done.
  eexists. split; [done |]. split; [done |]. split; [done |]. split; [done |]. simpl. unfold asks.
  destruct (String.eqb_spec (a_status stored) "consumed"); simpl; naive_solver.
Qed.
(** Only the current capability passes the check of a later outcome write.
    The row of a granted claim accepts a capability exactly until the claim
    expires, and only the one handed to the worker that holds it: a worker
    whose execution was taken over is turned away, or two texts with one
    SHA-256 digest have been found. *)
Theorem only_the_holder_passes q e capability now :
  dt_aware now = true -> 16 <= len capability ->
  let row := Starts.stored_claim (sha256_hex := sha256_hex) claim_lease claim_token q e in
  exists ck, validate_active_execution_claim sha256_hex row capability now = Ok ck
    /\ (ck_valid ck = true ->
        dt_us now < dt_us (q_now q) + claim_lease /\ (capability = claim_token \/ collision sha256_hex))
    /\ (capability = claim_token -> dt_us now < dt_us (q_now q) + claim_lease -> ck_valid ck = true).
Proof.
  clear Hconf. intros Hnow Hlen row. unfold validate_active_execution_claim. rewrite Hnow. cbn [negb guard_raise rbind].
  assert (bool_decide (state row = claimed_for_attempt) = true) as -> by done. cbn [negb].
  change (claim_expires_at row) with (Some (dt_add (q_now q) claim_lease)).
  unfold execution_claim_digest. rewrite (proj2 (Z.ltb_ge _ _)) by done. cbn [guard_raise rbind].
  change (claim_digest row) with (Some (claim_digest_of sha256_hex claim_token)).
  unfold before. destruct (Z.ltb_spec (dt_us now) (dt_us (dt_add (q_now q) claim_lease))) as [H | H];
    simpl in H; cbn [negb].
  - destruct (bool_decide_reflect (Some (claim_digest_of sha256_hex claim_token)
                                   = Some (claim_digest_of sha256_hex capability))) as [E | E]; cbn.
    + eexists. split; [done |]. split; [| done]. intros _. split; [lia |]. injection E as E.
      unfold claim_digest_of in E. apply stable_sha256_inj in E as [E | E]; [left | by right].
      apply normalize_members in E; [by injection E as -> | reflexivity |].
      apply (bool_decide_eq_true_1 (NoDup _)). reflexivity.
    + eexists. split; [done |]. split; [done |]. intros ->. done.
  - eexists. split; [done |]. split; [done |]. intros _ ?. lia.
Qed.
End Theorems.
End Theorems.

(** ** On the database *)
Module Database.
Import OperationalStore SqlTx.
Section Database.
Context {Refinement P : Type} (sha256_hex : string -> string) (cfg : settings) (now : datetime).
Hypothesis sha256_hex_digest : forall b, Breaker.is_digest (sha256_hex b).
Notation Ctx := (ConversationContext Refinement).
Context (encode_exec : Execution -> P) (decode_exec : P -> option Execution)
        (encode_brk : Breaker.ProviderReliabilityState -> P)
        (decode_brk : P -> option Breaker.ProviderReliabilityState)
        (encode_conv : Ctx -> P) (decode_conv : P -> option Ctx)
        (decode_encode_exec : forall r, execution_check r = Ok tt -> decode_exec (encode_exec r) = Some r)
        (decode_encode_brk : forall s, Breaker.wf s -> decode_brk (encode_brk s) = Some s)
        (decode_encode_conv : forall c, context_post_init c = Ok c -> decode_conv (encode_conv c) = Some c).
Variables (claim_lease probe_lease : Z) (claim_token probe_token : string).
Hypothesis Hconf : configured claim_lease probe_lease claim_token probe_token.
Notation rows_of_table := (table_rows decode_exec decode_brk decode_conv).
Notation table_fine := (all_fine sha256_hex cfg decode_exec decode_brk decode_conv).
(** Other workers never rewrite or remove a revision of an execution or a
    breaker; conversations they may change at will. *)
Notation outside := (event_ok sha256_hex cfg decode_exec decode_brk decode_conv (evolves cfg)).

Lemma evolves_same (p p' : rows Refinement) : rows_ok cfg p -> rows_eq p p' -> evolves cfg p p'.
Proof.
  intros Hp Heq. pose proof Heq as (H1 & H2 & _). split.
  - by apply (MemoryTx.rows_ok_eq cfg p).
  - intros i. rewrite H1. apply newer_refl.
  - intros k. rewrite H2. apply newer_brk_refl.
Qed.

Definition database_laws : TransactionLaws (Refinement := Refinement) (T := session) sha256_hex cfg :=
  sql_laws sha256_hex cfg now encode_exec decode_exec encode_brk decode_brk encode_conv decode_conv
    decode_encode_exec decode_encode_brk decode_encode_conv (evolves cfg) evolves_same
    (evolves_trans cfg) (fun p q H => H).

(** Other workers that keep revisions and grant claims, prepare and attempt
    executions, and do nothing else to execution rows. *)
Definition workers (p q : rows Refinement) : Prop :=
  evolves cfg p q /\ exists h, Histories.history sha256_hex cfg p h q.

Lemma history_workers_same p q : rows_ok cfg p -> rows_eq p q -> workers p q.
Proof.
  intros Hp Heq. split; [by apply evolves_same |]. exists [].
  eapply Histories.Background; [apply Histories.NoClaim |]. intros i. left. symmetry. apply (proj1 Heq).
Qed.

Lemma history_workers_trans p q r : workers p q -> workers q r -> workers p r.
Proof.
  intros [H1 (h1 & A1)] [H2 (h2 & A2)]. split; [by eapply evolves_trans |].
  exists (h1 ++ h2). by eapply Histories.history_app.
Qed.

Definition workers_laws : TransactionLaws (Refinement := Refinement) (T := session) sha256_hex cfg :=
  sql_laws sha256_hex cfg now encode_exec decode_exec encode_brk decode_brk encode_conv decode_conv
    decode_encode_exec decode_encode_brk decode_encode_conv workers history_workers_same history_workers_trans
    (fun p q H => proj1 H).

(** Another worker's whole claim, in a session of its own, when no row of
    this session is in its way. *)
Definition claim_between q (locks : list (string * string)) (t : op_table P) : op_table P :=
  match locks with
  | [] => s_base (Service.claim
            (ClaimTransaction0 := sql_transaction sha256_hex cfg now encode_exec decode_exec encode_brk
                                    decode_brk encode_conv decode_conv)
            sha256_hex claim_lease probe_lease claim_token probe_token q (Session t [] [])).2
  | _ => t
  end.

Lemma claim_between_ok q down :
  dt_aware (q_now q) = true ->
  event_ok sha256_hex cfg decode_exec decode_brk decode_conv workers (Event (claim_between q) down).
Proof.
  intros Hnow [|k locks] t Ht; simpl.
  2: { split; [done |]. split; [| done]. apply history_workers_same; [by eapply fine_rows | done]. }
  destruct (Theorems.claim_recorded (L := workers_laws) sha256_hex_digest _ _ _ _ Hconf
              (Session t [] []) (table_rows decode_exec decode_brk decode_conv t) q Hnow (fun p q H => proj2 H))
    as (h & p' & Hat & Hev & Hh & _).
  { change (sql_at sha256_hex cfg decode_exec decode_brk decode_conv workers
              (Session t [] []) (table_rows decode_exec decode_brk decode_conv t) []).
    by apply begin_session. }
  destruct Hat as [Hbase _ Hrows _ _ _]. split; [exact Hbase |]. split.
  - eapply history_workers_trans; [split; [exact Hev | by exists h] |]. apply history_workers_same; [apply Hev | done].
  - by intros x ?%elem_of_nil.
Qed.

(** A live start on the database. One session over the three stores of
    [operational_entities], other workers committing to any row the session
    has not written, the database down at any statement: the claim leaves a
    well-formed table, with all of its rows when it is granted and none of
    them otherwise. *)
Theorem database_claim_is_all_or_nothing t script q :
  dt_aware (q_now q) = true -> table_fine t -> Forall outside script ->
  let out := Service.claim
    (ClaimTransaction0 := sql_transaction sha256_hex cfg now encode_exec decode_exec encode_brk decode_brk
                            encode_conv decode_conv)
    sha256_hex claim_lease probe_lease claim_token probe_token q (Session t [] script) in
  table_fine (s_base out.2)
  /\ exists p', rows_eq p' (rows_of_table (s_base out.2))
     /\ match out.1 with
        | Ok r => if claimed r
                  then Starts.started (L := database_laws) claim_lease probe_lease claim_token probe_token
                         q (rows_of_table t) p' r
                  else evolves cfg (rows_of_table t) p'
        | Err _ => evolves cfg (rows_of_table t) p'
        end.
Proof.
  intros Hnow Ht Hs out.
  assert (tx_at sha256_hex cfg (TransactionLaws := database_laws) (Session t [] script) (rows_of_table t) []) as Hat
    by (change (sql_at sha256_hex cfg decode_exec decode_brk decode_conv (evolves cfg)
                  (Session t [] script) (rows_of_table t) []); by apply begin_session).
  destruct out as [R σ'] eqn:E. unfold out in E.
  destruct (claim_ends (L := database_laws) sha256_hex_digest _ _ _ _ Hconf (Session t [] script)
              (rows_of_table t) q R σ' Hnow Hat E)
    as (p' & Hat' & H). cbn [fst snd]. destruct Hat' as [Hbase _ Hrows _ _ _].
  split; [exact Hbase |]. exists p'. split; [exact Hrows |].
  destruct H as [(r & -> & Hr & Hst) | [Hcan [(r & -> & Hr) | (x & -> & _)]]]; rewrite ?Hr; done.
Qed.
End Database.
End Database.

(** ** One prepared execution *)
Module Examples.
Import Histories BreakerSpec.BreakerExamples AuthorizationExamples Catalog MemoryTx.

Definition key0 : string := "research-auth:0001".
Definition execution0 : string := "research-exec:00000000000000000000000000000000".
Definition worker_1 : string := "worker-1-capability".
Definition worker_2 : string := "worker-2-capability".
Definition probe_1 : string := "probe-1-capability-0".

Definition shop : ResearchProviderDescriptor :=
  {| d_provider_id := "shopify"; d_provider_type := "merchant"; d_supported_markets := ["US"%string];
     d_supported_capabilities := [CURRENT_PRICING]; d_supported_sources := ["shopify"%string];
     d_operational_status := AVAILABLE; d_test_fixture := false;
     d_kill_switch := {| engaged := false; ks_reason := None |};
     d_circuit_breaker := {| snapshot_state := CLOSED; cb_reason := None |};
     d_affiliate_commission_rate := None; d_may_expand_evaluated_set := false;
     d_can_provide_pricing := true; d_can_provide_shipping_taxes := false;
     d_can_provide_product_evidence := false; d_can_provide_review_evidence := false |}.

Definition certificate : ResearchProviderCertification :=
  {| c_provider_id := "shopify"; c_capability := CURRENT_PRICING; c_market := "US"; c_version := "1";
     c_status := "certified"; c_policy := "allowed"; c_source := Some "shopify"%string;
     c_source_scope := "exact"; c_test_fixture := false; c_certification_id := "cert-1" |}.

Definition step0 : ResearchProviderStep :=
  {| step_index := 1; s_provider_id := "shopify"; s_provider_type := "merchant";
     s_capability := CURRENT_PRICING; source_identities := ["shopify"%string];
     s_market := Some "US"%string; s_certification_id := "cert-1"; s_certification_version := "1";
     selection_reason := "certified"; s_attempted := false |}.

Definition scope0 : string := proposal_digest digest0 proposal0.

Definition plan0 : ResearchExecutionPlan :=
  {| plan_id := "plan-1"; plan_version := 1; pl_authorization_id := "auth-1";
     pl_authorization_version := 1; pl_decision_id := "dec-1"; pl_context_version := 1;
     pl_conversation_id := "c-1"; pl_proposal_id := "prop-1"; pl_proposal_version := 1;
     pl_scope_digest := scope0; required_capabilities := [CURRENT_PRICING]; eligible_steps := [step0];
     blocked_requirements := []; eligibility_audit := []; support_status := "ready";
     plan_digest := scope0; pl_outside_set_product_names := []; pl_requested_sources := [];
     pl_market := None; execution_available := false; execution_implemented := false;
     plan_ready := true; source_checked := false; pl_attempted := false |}.

Definition authorization (status : string) : ResearchAuthorization :=
  {| a_id := "auth-1"; a_version := 1; a_owner_binding := owner_binding_digest digest0 shopper;
     a_conversation_id := "c-1"; a_decision_id := "dec-1"; a_context_version := 1;
     a_proposal_id := "prop-1"; a_proposal_version := 1;
     a_scope := frozen_scope_from_proposal proposal0; a_scope_digest := scope0;
     a_proposal_reason := "freshness_required"; a_evaluated_product_ids := ["p1"; "p2"]%string;
     a_idempotency_key := key0; a_status := status; a_created_at := noon;
     a_updated_at := Some noon; a_execution_available := false |}.

Definition conversation (status : string) (version : Z) : ConversationContext unit :=
  {| conversation_id := "c-1"; turns := []; expires_at := Datetime 1700000600000000 true;
     last_intent := None; last_product_ids := []; last_product_names := []; last_category := None;
     owner := Some shopper; decision_context := None; session_refinement := None;
     research_proposal := Some proposal0; research_authorizations := [authorization status];
     persistence_version := version |}.

Definition request (now : datetime) : LiveStartClaimRequest :=
  {| q_authorization := authorization PENDING; q_owner := shopper; q_plan := plan0;
     q_provider_id := "shopify"; q_market := "US"; q_capability := CURRENT_PRICING;
     q_source := "shopify"; q_now := now; q_operational_status := AVAILABLE;
     q_kill_switch := {| engaged := false; ks_reason := None |};
     q_registry := add "shopify"%string shop (empty_catalog false);
     q_certifications := add (certification_lookup_key certificate) certificate (empty_catalog false);
     q_routing := add "shopify"%string {| p_provider_id := "shopify"; p_routing_priority := 1;
                                          p_test_fixture := false |} (empty_catalog false);
     q_certified_markets := ["US"%string]; q_mode := "live" |}.

Definition defaults : settings := {| ttl_seconds := DEFAULT_TTL_SECONDS; max_turns := MAX_TURNS |}.

Definition prepared0 : Execution :=
  prepared execution0 "auth-1" 1 "dec-1" "plan-1" noon.

(** What the first worker left behind before it died. *)
Definition abandoned : Execution :=
  Starts.stored_claim (sha256_hex := digest0) EXECUTION_CLAIM_LEASE worker_1 (request noon) prepared0.

Definition store (e : Execution) (status : string) (version : Z) : memory_tx (Refinement := unit) :=
  begin_tx [(execution0, e)] ∅ [("c-1"%string, conversation status version)].

Definition rows0 (e : Execution) (status : string) (version : Z) : rows unit :=
  rows_of (store e status version).

Lemma prepared0_ok : good execution0 prepared0.
Proof. by split; vm_compute. Qed.

Lemma abandoned_ok : good execution0 abandoned.
Proof. by split; vm_compute. Qed.

Lemma configured0 token :
  16 <= len token ->
  configured EXECUTION_CLAIM_LEASE HALF_OPEN_PROBE_LEASE token probe_1.
Proof. intros H. repeat split; done. Qed.

Lemma store_rows e status version :
  good execution0 e -> 1 <= version -> rows_ok defaults (rows0 e status version).
Proof.
  intros He Hv. split; simpl.
  - intros i r H%d_get_elem. apply list_elem_of_singleton in H as [= -> ->]. done.
  - intros k b H. by rewrite lookup_empty in H.
  - intros i c H%d_get_elem. apply list_elem_of_singleton in H as [= -> ->].
    split; try reflexivity; simpl; [lia | apply Nat.le_0_l |].
    unfold context_post_init. simpl. by rewrite (proj2 (Z.ltb_ge _ _)) by lia.
  - intros i c H%d_get_elem. apply list_elem_of_singleton in H as [= -> ->].
    apply Forall_singleton. vm_compute. reflexivity.
Qed.

Lemma store_at e status version :
  good execution0 e -> 1 <= version ->
  memory_at defaults (store e status version) (rows0 e status version) [].
Proof.
  intros He Hv. pose proof (store_rows e status version He Hv). split; try done; try apply NoDup_nil_2.
  - apply NoDup_singleton.
  - by intros k Hk%elem_of_nil.
Qed.

(** The in-memory unit of work, its clock at [now]. *)
Definition laws0 (now : datetime)
    : TransactionLaws (Refinement := unit) (T := memory_tx) digest0 defaults :=
  memory_laws digest0 defaults now.

Lemma store_tx now e status version :
  good execution0 e -> 1 <= version ->
  TxInterface.tx_at digest0 defaults (TransactionLaws := laws0 now)
    (store e status version) (rows0 e status version) [].
Proof. exact (store_at e status version). Qed.

Lemma prepared_tx now :
  TxInterface.tx_at digest0 defaults (TransactionLaws := laws0 now)
    (store prepared0 PENDING 3) (rows0 prepared0 PENDING 3) [].
Proof. by apply store_tx; [apply prepared0_ok |]. Qed.

Lemma abandoned_tx now :
  TxInterface.tx_at digest0 defaults (TransactionLaws := laws0 now)
    (store abandoned "consumed" 4) (rows0 abandoned "consumed" 4) [].
Proof. by apply store_tx; [apply abandoned_ok |]. Qed.

Definition second : datetime := dt_add noon 31000000.

Lemma noon_aware : dt_aware (q_now (request noon)) = true.
Proof. reflexivity. Qed.
Lemma second_aware : dt_aware (q_now (request second)) = true.
Proof. reflexivity. Qed.
Lemma configured_1 : configured EXECUTION_CLAIM_LEASE HALF_OPEN_PROBE_LEASE worker_1 probe_1.
Proof. by apply configured0. Qed.
Lemma configured_2 : configured EXECUTION_CLAIM_LEASE HALF_OPEN_PROBE_LEASE worker_2 probe_1.
Proof. by apply configured0. Qed.

Definition claim_at (now : datetime) (token : string) (σ : memory_tx (Refinement := unit)) :=
  Service.claim (ClaimTransaction0 := memory_transaction digest0 defaults now)
    digest0 EXECUTION_CLAIM_LEASE HALF_OPEN_PROBE_LEASE token probe_1 (request now) σ.

Example first_claim_is_granted :
  match (claim_at noon worker_1 (store prepared0 PENDING 3)).1 with
  | Ok r => claimed r = true /\ authorization_consumed r = true
  | Err _ => False
  end.
Proof. vm_compute. done. Qed.

Example claim_is_all_or_nothing_witness :
  exists p' r, (claim_at noon worker_1 (store prepared0 PENDING 3)).1 = Ok r
    /\ Starts.started (L := laws0 noon) EXECUTION_CLAIM_LEASE HALF_OPEN_PROBE_LEASE
         worker_1 probe_1 (request noon) (rows0 prepared0 PENDING 3) p' r.
Proof.
  pose proof first_claim_is_granted as Hg.
  destruct (Theorems.claim_is_all_or_nothing (L := laws0 noon) digest0_ok _ _ _ _
    configured_1 (store prepared0 PENDING 3) (rows0 prepared0 PENDING 3) (request noon)
    noon_aware (prepared_tx noon)) as (p' & _ & H).
  unfold claim_at in Hg |- *. destruct (Service.claim _ _ _ _ _ _ _) as [[r|x] σ']; [| done].
  cbn [fst] in *. destruct Hg as [Hr _]. rewrite Hr in H. by exists p', r.
Defined.

Lemma execution_of_request now : Starts.execution_of (sha256_hex := digest0) (request now) = Ok execution0.
Proof. vm_compute. reflexivity. Qed.

Lemma breaker_of_request : Breaker.reliability_record_key "shopify" "US" = Ok "shopify|US"%string.
Proof. vm_compute. reflexivity. Qed.

Example claim_answers_or_database_is_down_witness :
  match (claim_at noon worker_1 (store prepared0 PENDING 3)).1 with
  | Ok _ => True
  | Err x => x = StartTx TxUnavailable
  end.
Proof.
  pose proof (Theorems.claim_answers_or_database_is_down (L := laws0 noon) digest0_ok
    _ _ _ _ configured_1 (store prepared0 PENDING 3) (rows0 prepared0 PENDING 3)
    (request noon) execution0 "shopify|US" noon_aware (prepared_tx noon)
    (execution_of_request noon) breaker_of_request) as H.
  unfold claim_at. destruct (Service.claim _ _ _ _ _ _ _) as [[r|x] σ']; [done | apply H].
Defined.

(** 31 seconds later another worker takes the abandoned execution over. *)
Example takeover_is_granted :
  match (claim_at second worker_2 (store abandoned "consumed" 4)).1 with
  | Ok r => claimed r = true /\ authorization_consumed r = false
  | Err _ => False
  end.
Proof. vm_compute. done. Qed.

(** A second too early it is refused. *)
Example early_takeover_is_refused :
  match (claim_at (dt_add noon 29000000) worker_2 (store abandoned "consumed" 4)).1 with
  | Ok r => lr_block_reason r = Some "execution_already_claimed"%string
  | Err _ => False
  end.
Proof. vm_compute. done. Qed.

Lemma abandoned_admissible :
  Starts.admissible (L := laws0 second) (request second) (rows0 abandoned "consumed" 4) execution0 abandoned
    (Breaker.Build_ProviderReliabilityState "shopify" "US" second CLOSED 0 None None None None None 0
       None None None)
    (conversation "consumed" 4) (authorization "consumed").
Proof.
  split.
  - apply execution_of_request.
  - reflexivity.
  - vm_compute. reflexivity.
  - vm_compute. reflexivity.
  - vm_compute. reflexivity.
  - vm_compute. reflexivity.
  - reflexivity.
  - change (_is_expired second (conversation "consumed" 4) = false). vm_compute. reflexivity.
  - exists shopper. by split.
  - vm_compute. reflexivity.
  - vm_compute. eexists. split; reflexivity.
Qed.

Example admissible_claim_is_granted_witness :
  exists r, (claim_at second worker_2 (store abandoned "consumed" 4)).1 = Ok r /\ claimed r = true
    /\ lr_execution_id r = Some execution0.
Proof.
  destruct (Theorems.admissible_claim_is_granted (L := laws0 second) digest0_ok _ _ _ _
    configured_2 (store abandoned "consumed" 4) (rows0 abandoned "consumed" 4) (request second)
    execution0 abandoned _ _ _ second_aware I (abandoned_tx second) abandoned_admissible)
    as (r & H1 & H2 & H3 & _). exists r. exact (conj H1 (conj H2 H3)).
Defined.

Example only_the_holder_passes_witness :
  exists ck, validate_active_execution_claim digest0 abandoned worker_1 (at_s 1) = Ok ck.
Proof.
  destruct (Theorems.only_the_holder_passes (sha256_hex := digest0) EXECUTION_CLAIM_LEASE worker_1
    (request noon) prepared0 worker_1 (at_s 1) eq_refl ltac:(done)) as (ck & H & _). exists ck. exact H.
Defined.
(** *** On the database *)
Import SqlTx.

(** The payload column holds any of the three entities. *)
Inductive payload :=
| PExec (e : Execution)
| PBreaker (b : Breaker.ProviderReliabilityState)
| PConv (c : ConversationContext unit).

Definition as_exec (x : payload) : option Execution := match x with PExec e => Some e | _ => None end.
Definition as_brk (x : payload) : option Breaker.ProviderReliabilityState :=
  match x with PBreaker b => Some b | _ => None end.
Definition as_conv (x : payload) : option (ConversationContext unit) :=
  match x with PConv c => Some c | _ => None end.

Definition table_of (e : Execution) (status : string) (version : Z) : op_table payload :=
  OpTable [OpRow 1 SqlExecutions.RESEARCH_AUTHORIZED_EXECUTIONS execution0 None None (PExec e) (revision e);
           OpRow 2 Sql.SHOPPING_CONVERSATIONS "c-1" None (Sql._owner_key digest0 (Some shopper))
             (PConv (conversation status version)) version] 3.

Definition table0 : op_table payload := table_of prepared0 PENDING 3.

Lemma table_of_fine e status version :
  good execution0 e -> 1 <= version ->
  all_fine digest0 defaults as_exec as_brk as_conv (table_of e status version).
Proof.
  intros He Hv. split.
  - split; simpl.
    + repeat constructor; by vm_compute.
    + repeat constructor.
    + intros r1 r2. rewrite !elem_of_cons, !elem_of_nil.
      intros [-> | [-> | []]] [-> | [-> | []]]; done.
  - intros s k [[p v] o] H. unfold Overlay.content_of, OperationalStore._get_row in H. simpl in H.
    destruct (OperationalStore.is_entity s k _) eqn:E1 in H.
    { apply OperationalStore.is_entity_iff in E1 as [<- <-]. injection H as <- <- <-.
      apply (fine_exec_row digest0 defaults) with (r := e); [done | apply He | done]. }
    destruct (OperationalStore.is_entity s k _) eqn:E2 in H; [| done].
    apply OperationalStore.is_entity_iff in E2 as [<- <-]. injection H as <- <- <-.
    apply (fine_conv_row digest0 defaults) with (c := conversation status version); [done | | done].
    destruct (store_rows e status version He Hv) as [_ _ H1 H2].
    split; [by apply (H1 "c-1"%string) | by apply (H2 "c-1"%string)].
Qed.

Lemma table0_fine : all_fine digest0 defaults as_exec as_brk as_conv table0.
Proof. by apply table_of_fine; [apply prepared0_ok |]. Qed.

(** Nobody else acts; the database goes down when the claim commits. *)
Definition outage : list event := repeat (Event (P := payload) (fun _ t => t) false) 6
                                  ++ [Event (fun _ t => t) true].

Lemma outage_ok : Forall (event_ok digest0 defaults as_exec as_brk as_conv (evolves defaults)) outage.
Proof.
  assert (forall d, event_ok digest0 defaults as_exec as_brk as_conv (evolves defaults)
                      (Event (P := payload) (fun _ t => t) d)) as H.
  { intros d locks t Ht. split; [done |]. split; [| done].
    apply evolves_refl. by eapply fine_rows. }
  unfold outage. simpl. repeat (apply Forall_cons_2; [apply H |]). apply Forall_nil_2.
Qed.

Definition database_claim :=
  Service.claim (ClaimTransaction0 := sql_transaction digest0 defaults noon PExec as_exec PBreaker as_brk
                                        PConv as_conv)
    digest0 EXECUTION_CLAIM_LEASE HALF_OPEN_PROBE_LEASE worker_1 probe_1 (request noon).

Example database_claim_is_granted :
  match (database_claim (Session table0 [] [])).1 with
  | Ok r => claimed r = true /\ authorization_consumed r = true
  | Err _ => False
  end.
Proof. vm_compute. done. Qed.

Example outage_is_refused :
  match database_claim (Session table0 [] outage) with
  | (Ok r, σ) => claimed r = false
      /\ lr_block_reason r = Some "claim_persistence_unavailable"%string /\ s_base σ = table0
  | (Err _, _) => False
  end.
Proof. vm_compute. done. Qed.

Example database_claim_is_all_or_nothing_witness :
  exists p', rows_eq p' (table_rows as_exec as_brk as_conv (s_base (database_claim (Session table0 [] outage)).2))
    /\ evolves defaults (table_rows as_exec as_brk as_conv table0) p'.
Proof.
  pose proof outage_is_refused as Hout.
  destruct (Database.database_claim_is_all_or_nothing digest0 defaults noon digest0_ok PExec as_exec
    PBreaker as_brk PConv as_conv (fun _ _ => eq_refl) (fun _ _ => eq_refl) (fun _ _ => eq_refl)
    _ _ _ _ configured_1 table0 outage (request noon) noon_aware table0_fine outage_ok)
    as (_ & p' & Hrows & H).
  unfold database_claim in *. destruct (Service.claim _ _ _ _ _ _ _) as [[r|x] σ']; [| done].
  destruct Hout as [Hr _]. cbn [fst snd] in *. rewrite Hr in H. exists p'. exact (conj Hrows H).
Defined.

(** *** Two workers *)

(** While the second worker looks, 31 seconds past noon, the claim the first
    one made at noon under its own capability is committed. *)
Definition first_worker_claims : list event :=
  [Event (Database.claim_between digest0 defaults noon PExec as_exec PBreaker as_brk PConv as_conv
            EXECUTION_CLAIM_LEASE HALF_OPEN_PROBE_LEASE worker_1 probe_1 (request noon)) false].

Lemma first_worker_ok :
  Forall (event_ok digest0 defaults as_exec as_brk as_conv (Database.workers digest0 defaults))
    first_worker_claims.
Proof.
  apply Forall_singleton. apply (Database.claim_between_ok digest0 defaults noon digest0_ok PExec as_exec
    PBreaker as_brk PConv as_conv (fun _ _ => eq_refl) (fun _ _ => eq_refl) (fun _ _ => eq_refl)
    _ _ _ _ configured_1 (request noon)). reflexivity.
Qed.

Definition laws_between (now : datetime)
    : TransactionLaws (Refinement := unit) (T := session (P := payload)) digest0 defaults :=
  Database.workers_laws digest0 defaults now PExec as_exec PBreaker as_brk PConv as_conv
    (fun _ _ => eq_refl) (fun _ _ => eq_refl) (fun _ _ => eq_refl).

Lemma two_workers_tx :
  TxInterface.tx_at digest0 defaults (TransactionLaws := laws_between second)
    (Session table0 [] first_worker_claims) (table_rows as_exec as_brk as_conv table0) [].
Proof.
  change (sql_at digest0 defaults as_exec as_brk as_conv (Database.workers digest0 defaults)
            (Session table0 [] first_worker_claims) (table_rows as_exec as_brk as_conv table0) []).
  apply begin_session; [apply table0_fine | apply first_worker_ok].
Qed.

Definition second_worker (now : datetime) :=
  Service.claim (ClaimTransaction0 := sql_transaction digest0 defaults now PExec as_exec PBreaker as_brk
                                        PConv as_conv)
    digest0 EXECUTION_CLAIM_LEASE HALF_OPEN_PROBE_LEASE worker_2 probe_1 (request now).

(** The second worker takes the execution over from the first, a second after
    its claim ran out. *)
Example second_worker_takes_over :
  match (second_worker second (Session table0 [] first_worker_claims)).1 with
  | Ok r => claimed r = true /\ authorization_consumed r = false
  | Err _ => False
  end.
Proof. vm_compute. done. Qed.

(** Two seconds earlier it is turned away. *)
Example second_worker_is_too_early :
  match (second_worker (dt_add noon 29000000) (Session table0 [] first_worker_claims)).1 with
  | Ok r => lr_block_reason r = Some "execution_already_claimed"%string
  | Err _ => False
  end.
Proof. vm_compute. done. Qed.

Example claims_do_not_overlap_witness :
  exists h0 p', let new := ClaimEvent execution0 worker_2 second (dt_add second EXECUTION_CLAIM_LEASE) in
    history digest0 defaults (table_rows as_exec as_brk as_conv table0) (h0 ++ [new]) p'
    /\ disjoint (h0 ++ [new])
    /\ evolves defaults (table_rows as_exec as_brk as_conv table0) p'.
Proof.
  pose proof second_worker_takes_over as Hg.
  destruct (Theorems.claims_do_not_overlap (L := laws_between second) digest0_ok _ _ _ _
    configured_2 (Session table0 [] first_worker_claims) _ [] _
    (request second) second_aware (fun p q H => proj2 H) (NoClaim _ _ _) two_workers_tx)
    as (h' & p' & _ & Hh & Hd & Hev & _ & Hr).
  unfold second_worker in Hg. destruct (Service.claim _ _ _ _ _ _ _) as [[r|x] σ']; [| done].
  destruct Hg as [Hc _]. destruct (Hr r eq_refl Hc) as (h0 & i & Hi & ->).
  rewrite (execution_of_request second) in Hi. injection Hi as <-. exists h0, p'.
  exact (conj Hh (conj Hd Hev)).
Defined.
End Examples.
