(* ===== verification/ShopifyCatalog.v ===== *)
(** The Shopify catalog exchange: the request the adapter sends and what it
    makes of a response.

    Module [Request]: the JSON-RPC bodies of
    [app/research/shopify_global_catalog_ph_probe.py]. Module [Response]: the
    transport results of [shopify_global_catalog_transport.py], the envelope
    classification of [shopify_global_catalog_reliability.py] and
    [_interpret] of [shopify_global_catalog_execution.py].

    The normalization of one product variant
    ([normalize_shopify_global_catalog_offer]) is an argument: what the adapter
    does holds for any normalizer. *)

From S2P Require Import Prelude PyStr Json Clock Connector PyState Research.
Import Connector Research.
#[local] Open Scope Z_scope.

(** ** What is sent *)
Module Request.

Definition GLOBAL_CATALOG_ENDPOINT : string := "https://catalog.shopify.com/api/ucp/mcp".
Definition SHOPIFY_TECHNICAL_TEST_AGENT_PROFILE_URL : string :=
  "https://shopify.dev/ucp/agent-profiles/2026-08-25/valid-with-capabilities.json".
Definition ANONYMOUS_USER_AGENT : string := "PiqSavi-Sprint32-PH-Coverage-Probe/1.0".
Definition PH_COUNTRY : string := "PH".
Definition SEARCH_TOOL : string := "search_catalog".
Definition GET_PRODUCT_TOOL : string := "get_product".
Definition FORBIDDEN_LOOKUP_TOOL : string := "lookup_catalog".
Definition FIRST_PAGE_LIMIT : Z := 10.
Definition AFFILIATE_FORBIDDEN_REQUEST_KEYS : list string :=
  ["catalog_id"; "saved_catalog_slug"; "promoted"; "commission"; "affiliate"; "utm_source";
   "utm_medium"; "utm_campaign"]%string.

(** [ProbeContractError]. *)
Inductive contract_error := ProbeContractError (message : string).

(** [bool(value)] of a JSON value. *)
Definition truthy (v : json) : bool :=
  match v with
  | JNull => false
  | JBool b => b
  | JInt z => negb (z =? 0)
  | JStr s => nonempty s
  | JList l => match l with [] => false | _ => true end
  | JObj fs => match fs with [] => false | _ => true end
  end.

Definition field_true (k : string) (d : dict json) : bool :=
  match d_get k d with Some v => truthy v | None => false end.

Definition _reject_monetized_or_bulk_catalog (catalog : dict json) : result contract_error unit :=
  match List.find (fun k => existsb (has_key k) catalog) AFFILIATE_FORBIDDEN_REQUEST_KEYS with
  | Some key => Err (ProbeContractError ("organic PH probe forbids catalog field " +:+ key))
  | None =>
      raise! ProbeContractError "PH probe forbids pagination beyond the first page"
        when match d_get "pagination" catalog with
             | Some (JObj p) => field_true "cursor" p
             | _ => false
             end in
      raise! ProbeContractError "PH probe forbids bulk catalog ids" when field_true "ids" catalog in
      guard_raise (field_true "like" catalog)
        (ProbeContractError "PH probe forbids image/similar-item catalog crawling")
  end.

(** The default profile: Shopify's technical fixture. *)
Definition agent_profile_meta : json :=
  JObj [("ucp-agent", JObj [("profile", JStr SHOPIFY_TECHNICAL_TEST_AGENT_PROFILE_URL)])]%string.
Definition ph_catalog_context : json :=
  JObj [("address_country", JStr PH_COUNTRY); ("currency", JStr "PHP"); ("language", JStr "en")]%string.
Definition ph_catalog_filters : json :=
  JObj [("ships_to", JObj [("country", JStr PH_COUNTRY)]); ("available", JBool true)]%string.

Definition arguments (catalog : dict json) : result contract_error json :=
  let! _ := _reject_monetized_or_bulk_catalog catalog in
  Ok (JObj [("meta", agent_profile_meta); ("catalog", JObj catalog)]%string).

Definition build_search_catalog_arguments (query : string) : result contract_error json :=
  arguments [("query", JStr query); ("filters", ph_catalog_filters); ("context", ph_catalog_context);
             ("view", JStr "offer"); ("pagination", JObj [("limit", JInt FIRST_PAGE_LIMIT)])]%string.

Definition build_get_product_arguments (product_id : string) : result contract_error json :=
  raise! ProbeContractError "get_product requires exactly one product id"
    when negb (nonempty product_id) || has_char ","%char product_id in
  arguments [("id", JStr product_id); ("filters", ph_catalog_filters);
             ("context", ph_catalog_context)]%string.

Definition build_jsonrpc_request (tool_name : string) (args : json) (request_id : Z)
    : result contract_error json :=
  raise! ProbeContractError "lookup_catalog is forbidden for this PH probe"
    when String.eqb tool_name FORBIDDEN_LOOKUP_TOOL in
  raise! ProbeContractError ("unsupported catalog tool " +:+ tool_name)
    when negb (String.eqb tool_name SEARCH_TOOL) && negb (String.eqb tool_name GET_PRODUCT_TOOL) in
  Ok (JObj [("jsonrpc", JStr "2.0"); ("method", JStr "tools/call"); ("id", JInt request_id);
            ("params", JObj [("name", JStr tool_name); ("arguments", args)])]%string).

Definition anonymous_http_headers : dict string :=
  [("Content-Type", "application/json"); ("Accept", "application/json");
   ("User-Agent", ANONYMOUS_USER_AGENT)]%string.

(** The members of a request the code checks before it sends one. *)
Lemma search_arguments_ok query : is_ok (build_search_catalog_arguments query) = true.
Proof. reflexivity. Qed.

Lemma product_arguments_ok product :
  nonempty product = true -> has_char ","%char product = false ->
  is_ok (build_get_product_arguments product) = true.
Proof. intros H1 H2. unfold build_get_product_arguments. by rewrite H1, H2. Qed.
End Request.

(** ** What comes back *)
Module Response.
Import Request.

(** A decoded JSON body; a float is kept as its text, which nothing reads. *)
Inductive value :=
| VNull
| VBool (b : bool)
| VInt (z : Z)
| VFloat (text : string)
| VStr (s : string)
| VList (items : list value)
| VDict (fields : list (string * value)).

Definition dict_of (o : option value) : option (dict value) :=
  match o with Some (VDict d) => Some d | _ => None end.
Definition is_null (o : option value) : bool :=
  match o with None | Some VNull => true | _ => false end.
Definition is_true (o : option value) : bool :=
  match o with Some (VBool b) => b | _ => false end.

Record CatalogTransportResult := {
  status_code : Z;
  payload : option (dict value);
  timed_out : bool;
  malformed : bool;
  transport_unavailable : bool;
  raw_body_persisted : bool
}.

Definition transport_result_check (r : CatalogTransportResult) : outcome CatalogTransportResult :=
  raise! ValueError "raw Shopify bodies must not be persisted" when raw_body_persisted r in
  raise! ValueError "a timeout is not a connection failure"
    when timed_out r && transport_unavailable r in
  raise! ValueError "a timeout has no payload"
    when timed_out r && (is_some (payload r) || malformed r) in
  raise! ValueError "a connection failure has no HTTP response"
    when transport_unavailable r
         && (is_some (payload r) || malformed r || negb (status_code r =? 0)) in
  Ok r.

(** [validate_catalog_tool_response]; [None] is [ProbeResponseError]. *)
Definition validate_catalog_tool_response (p : dict value) : option (dict value) :=
  if negb (is_null (d_get "error" p)) then None
  else
    match (match dict_of (d_get "result" p) with
           | Some r => Some r
           | None => match dict_of (d_get "structuredContent" p) with Some _ => Some p | None => None end
           end) with
    | None => None
    | Some r => if is_true (d_get "isError" r) then None else dict_of (d_get "structuredContent" r)
    end.

Definition dicts_of (o : option value) : list (dict value) :=
  match o with Some (VList l) => omap (fun v => dict_of (Some v)) l | _ => [] end.

Definition products_from_catalog_payload (p : dict value) : option (list (dict value)) :=
  match validate_catalog_tool_response p with
  | None => None
  | Some content =>
      Some (dicts_of (d_get "products" content)
            ++ match dict_of (d_get "product" content) with Some d => [d] | None => [] end)
  end.

Definition variants_from_product (product : dict value) : list (dict value) :=
  match d_get "variants" product with
  | Some (VList l) => dicts_of (Some (VList l))
  | _ => [[]]
  end.

Record ShopifyFailClosedClassification := {
  fail_closed : bool; usable_offer : bool; fc_reason : string;
  fc_failure_kind : option ConnectorFailureKind; fc_partial : option PartialFailure
}.

Definition _closed (reason : string) (kind : ConnectorFailureKind) : ShopifyFailClosedClassification :=
  {| fail_closed := true; usable_offer := false; fc_reason := reason; fc_failure_kind := Some kind;
     fc_partial := None |}.

Definition classify_shopify_synthetic_partial : ShopifyFailClosedClassification :=
  {| fail_closed := true; usable_offer := false; fc_reason := "partial_response";
     fc_failure_kind := Some PARTIAL;
     fc_partial := Some {| pf_kind := PARTIAL; pf_retryable := false;
                           completed_capabilities := ["product_discovery"%string];
                           missing_capabilities := ["current_pricing"%string];
                           pf_message := "synthetic partial shopify catalog response" |} |}.

(** Of a body that is a JSON object. *)
Definition classify_shopify_catalog_envelope (p : dict value) : ShopifyFailClosedClassification :=
  if negb (is_null (d_get "error" p)) then _closed "jsonrpc_error" UNAVAILABLE_FAILURE
  else if match dict_of (d_get "result" p) with
          | Some r => is_true (d_get "isError" r) | None => false end
  then _closed "mcp_is_error" UNAVAILABLE_FAILURE
  else match products_from_catalog_payload p with
       | None => _closed "malformed_jsonrpc" UNKNOWN
       | Some [] => classify_shopify_synthetic_partial
       | Some _ => {| fail_closed := false; usable_offer := false; fc_reason := "envelope_accepted";
                      fc_failure_kind := None; fc_partial := None |}
       end.

(** ** Offers *)

Inductive SourceMode := FIXTURE | IMPORTED | LIVE.
Inductive ProductAvailability := IN_STOCK | OUT_OF_STOCK | LIMITED | PREORDER | AVAILABILITY_UNKNOWN.

#[global] Instance source_mode_eq_dec : EqDecision SourceMode.
Proof. solve_decision. Defined.

Definition source_mode_value (m : SourceMode) : string :=
  match m with FIXTURE => "fixture" | IMPORTED => "imported" | LIVE => "live" end.

(** [availability.value], [None] for the unknown one. *)
Definition availability_text (a : ProductAvailability) : option string :=
  match a with
  | IN_STOCK => Some "in_stock"%string | OUT_OF_STOCK => Some "out_of_stock"%string
  | LIMITED => Some "limited"%string | PREORDER => Some "preorder"%string
  | AVAILABILITY_UNKNOWN => None
  end.

Record money_line := { ml_amount_minor : option Z; ml_status : string }.

(** The fields of [ShopifyNormalizedOffer] the adapter reads. *)
Record ShopifyNormalizedOffer := {
  o_product_id : string;
  o_variant_id : option string;
  o_seller_identity : string;
  o_availability : ProductAvailability;
  o_currency : string;
  o_price_amount_minor : Z;
  o_checked_at : datetime;
  o_source_mode : SourceMode;
  o_observation_kind : string;
  o_shipping : money_line; o_taxes : money_line; o_import_charges : money_line;
  o_voucher : money_line;
  o_price_state : string
}.

(** What stops a normalization: its own refusal, or any other exception. *)
Inductive normalize_exn := ShopifyNormalizationRefusal (reason : string) | NormalizeError.
(** What leaves [_interpret]. *)
Inductive interpret_exn := ProbeResponseError | InterpretError.

Definition FAKE_TRANSPORT_OBSERVATION_KIND : string := "synthetic".

Inductive attempt_outcome := attempt_succeeded | attempt_failed | attempt_timed_out.

Record _Interpreted := {
  success : bool;
  attempt_status : attempt_outcome;
  failure_kind : option ConnectorFailureKind;
  i_error_category : option string;
  offers : list ShopifyNormalizedOffer
}.

Definition not_interpreted (st : attempt_outcome) (kind : ConnectorFailureKind) (category : string)
    : _Interpreted :=
  {| success := false; attempt_status := st; failure_kind := Some kind;
     i_error_category := Some category; offers := [] |}.

Section Interpret.
(** [normalize_shopify_global_catalog_offer(product, variant, checked_at=..,
    observation_kind=.., ph_query_context=True)]. *)
Variable normalize : dict value -> dict value -> datetime -> string ->
                     result normalize_exn ShopifyNormalizedOffer.

Definition is_live (o : ShopifyNormalizedOffer) : bool :=
  String.eqb (o_observation_kind o) "live" || bool_decide (o_source_mode o = LIVE).

(** One product after the other: the offers so far, or why none is used. *)
Fixpoint normalize_variants (product : dict value) (variants : list (dict value))
    (checked_at : datetime) (production : bool) (found : list ShopifyNormalizedOffer)
    : result interpret_exn (list ShopifyNormalizedOffer + string) :=
  match variants with
  | [] => Ok (inl found)
  | variant :: rest =>
      match normalize product variant checked_at
              (if production then "live"%string else FAKE_TRANSPORT_OBSERVATION_KIND) with
      | Err (ShopifyNormalizationRefusal reason) => Ok (inr reason)
      | Err NormalizeError => Err InterpretError
      | Ok offer =>
          if production && negb (is_live offer) then Ok (inr "production_observation_required"%string)
          else if negb production && is_live offer then Ok (inr "live_observation_forbidden"%string)
          else normalize_variants product rest checked_at production (found ++ [offer])
      end
  end.

Fixpoint normalize_products (products : list (dict value)) (checked_at : datetime)
    (production : bool) (found : list ShopifyNormalizedOffer)
    : result interpret_exn (list ShopifyNormalizedOffer + string) :=
  match products with
  | [] => Ok (inl found)
  | product :: rest =>
      match variants_from_product product with
      | [] => Ok (inr "normalization_refusal"%string)
      | variants =>
          let! step := normalize_variants product variants checked_at production found in
          match step with
          | inr reason => Ok (inr reason)
          | inl found' => normalize_products rest checked_at production found'
          end
      end
  end.

(** The offers, or the reason of the refusal. *)
Definition _normalize_all (p : dict value) (checked_at : datetime) (production : bool)
    : result interpret_exn (list ShopifyNormalizedOffer + string) :=
  match products_from_catalog_payload p with
  | None => Err ProbeResponseError
  | Some [] => Ok (inr "normalization_refusal"%string)
  | Some products => normalize_products products checked_at production []
  end.

Definition _interpret (r : CatalogTransportResult) (checked_at : datetime) (production : bool)
    : result interpret_exn _Interpreted :=
  let failed := not_interpreted attempt_failed in
  let status := status_code r in
  if timed_out r then Ok (not_interpreted attempt_timed_out TIMEOUT "timeout")
  else if transport_unavailable r then Ok (failed UNAVAILABLE_FAILURE "unavailable"%string)
  else if status =? 429 then Ok (failed RATE_LIMIT "rate_limit"%string)
  else if (status =? 401) || (status =? 403) then Ok (failed CREDENTIAL "credential"%string)
  else if (500 <=? status) && (status <=? 599) then Ok (failed UNAVAILABLE_FAILURE "unavailable"%string)
  else if negb (status =? 200) then Ok (failed UNKNOWN "http_error"%string)
  else match malformed r, payload r with
       | true, _ | _, None => Ok (failed UNKNOWN "malformed_jsonrpc"%string)
       | false, Some p =>
           let envelope := classify_shopify_catalog_envelope p in
           if fail_closed envelope then
             let kind := default UNKNOWN (fc_failure_kind envelope) in
             Ok (failed kind (if nonempty (fc_reason envelope) then fc_reason envelope
                              else failure_kind_value kind))
           else
             let! all := _normalize_all p checked_at production in
             match all with
             | inr refusal =>
                 Ok (failed PARTIAL (if nonempty refusal then refusal else "normalization_refusal"%string))
             | inl [] => Ok (failed PARTIAL "normalization_refusal"%string)
             | inl (o :: os) =>
                 Ok {| success := true; attempt_status := attempt_succeeded; failure_kind := None;
                       i_error_category := None; offers := o :: os |}
             end
       end.
End Interpret.
End Response.
