(* ===== verification/Attempt.v ===== *)
(** One connector attempt, from a claim to a durable outcome:
    [app/research/shopify_global_catalog_execution.py].

    Module [Permits]: who may use which transport. Module [Results]: the
    result record and what an outcome stores. Module [Adapter]: the two
    transactions around the HTTP call, the call itself, and the reconciliation
    of an attempt whose outcome was lost. The theorems are in [AttemptSafety]. *)

From S2P Require Import Prelude PyStr Json Clock Connector Breaker PyState OpStore Research Catalogs Authorization Conversation ConversationRepo LiveMode Execution ExecutionRepo ClaimTx LiveStart ShopifyCatalog.
Import Connector Research Authorization Context Lifecycle.
Import ShopifyCatalog.Request ShopifyCatalog.Response.
Import Execution.Trace Execution.Record TxInterface Claims.
#[local] Open Scope Z_scope.

(** ** Permits and transports *)
Module Permits.

(** The three permit classes; any other object is no permit. *)
Inductive CatalogTransportPermit :=
| BoundedFakeTransportPermit
| ProductionShapeHarnessPermit
| ProductionShopifyTransportPermit
| OtherObject.

Record ProductionTransportAuthority := { proves_production_transport : bool }.

(** [UrllibJsonTransport] with its authority, or an injected object. *)
Inductive JsonPostTransport :=
| UrllibJsonTransport (authority : option ProductionTransportAuthority)
| InjectedTransport.

(** [ProductionShopifyTransportPermit.__post_init__]. *)
Definition make_production_permit (server_authority : bool) (block_reasons : list string)
    : outcome CatalogTransportPermit :=
  raise! ValueError "production shopify transport permit requires every gate to be open"
    when negb server_authority && negb (is_nil block_reasons) in
  Ok ProductionShopifyTransportPermit.

(** The error is a [RuntimeError]. *)
Definition issue_production_shopify_transport_permit (block_reasons : list string)
    : outcome CatalogTransportPermit :=
  raise! ValueError "a transport permit cannot be issued while a gate is closed"
    when negb (is_nil block_reasons) in
  make_production_permit true block_reasons.

Definition production_live_evidence_authorized (permit : CatalogTransportPermit)
    (transport : JsonPostTransport) : bool :=
  match permit, transport with
  | ProductionShopifyTransportPermit, UrllibJsonTransport (Some authority) =>
      proves_production_transport authority
  | _, _ => false
  end.

Inductive permit_mode := synthetic_mode | harness_mode | production_mode.

Definition _permit_mode (permit : CatalogTransportPermit) : option permit_mode :=
  match permit with
  | BoundedFakeTransportPermit => Some synthetic_mode
  | ProductionShapeHarnessPermit => Some harness_mode
  | ProductionShopifyTransportPermit => Some production_mode
  | OtherObject => None
  end.

Inductive execution_authority := no_authority | synthetic_authority | production_authority.

#[global] Instance authority_eq_dec : EqDecision execution_authority.
Proof. solve_decision. Defined.

(** [_result_authority(permit) or "none"]. *)
Definition _result_authority (permit : CatalogTransportPermit) : execution_authority :=
  match _permit_mode permit with
  | Some production_mode => production_authority
  | Some _ => synthetic_authority
  | None => no_authority
  end.

(** The production gates, over the catalogs the deployment composes. *)
Definition SHOPPING_RESEARCH_EXECUTION_MODE : string := "disabled".
Definition SHOPIFY_LIVE_CALL_PERMITTED : bool := false.
Definition PIQSAVI_UCP_AGENT_PROFILE_PRODUCTION_DEPLOYED : bool := false.
Definition LIVE_RESEARCH_EXECUTION_OPERATIONAL : bool := false.

Section Gates.
Variables (registry : Registry.ResearchProviderRegistry)
          (certifications : Certifications.ResearchProviderCertificationCatalog)
          (routing : Routing.ResearchProviderRoutingPolicyCatalog).

Definition production_live_mode_assessment : outcome LiveGate.LiveModeAssessment :=
  LiveGate.assess_live_research_mode registry routing SHOPPING_RESEARCH_EXECUTION_MODE
    {| LiveGate.lt_market := "PH"; LiveGate.lt_capability := CURRENT_PRICING;
       LiveGate.lt_source := "shopify_global_catalog" |}
    certifications LiveGate.production_certified_shopping_markets true.

Definition production_shopify_execution_block_reasons : outcome (list string) :=
  let! assessment := production_live_mode_assessment in
  let reasons := LiveGate.la_reasons assessment in
  let mode :=
    if negb (String.eqb SHOPPING_RESEARCH_EXECUTION_MODE "live") && negb (one_of "mode_not_live" reasons)
    then ["mode_not_live"%string] else [] in
  let call := if SHOPIFY_LIVE_CALL_PERMITTED then [] else ["shopify_live_call_not_permitted"%string] in
  let profile := if PIQSAVI_UCP_AGENT_PROFILE_PRODUCTION_DEPLOYED then []
                 else ["production_ucp_profile_undeployed"%string] in
  Ok (dedupe_loop [] (reasons ++ mode ++ call ++ profile)).
End Gates.
End Permits.

(** ** Results and stored outcomes *)
Module Results.
Import Permits.

(** An attempt the server trusts. *)
Record ShopifyCatalogAttempt := {
  at_permit : CatalogTransportPermit;
  at_authorization : ResearchAuthorization;
  at_owner : ConversationOwner;
  at_plan : ResearchExecutionPlan;
  at_step : ResearchProviderStep;
  at_source : string;
  at_operation : string;
  at_claim_capability : string;
  at_operational_status : ConnectorOperationalStatus;
  at_catalog_query : option string;
  at_product_id : option string;
  at_probe_capability : option string;
  at_kill_switch : KillSwitch
}.

Record NormalizedOfferFact := {
  f_product_id : string; f_variant_id : option string; f_seller_identity : string;
  f_amount_minor : Z; f_currency : string; f_availability : option string;
  f_observed_at : datetime; f_digest : string; f_observation_kind : string;
  f_source_mode : string; f_provider_id : string; f_capability : string; f_market : string;
  f_source : string
}.

Definition fact_is_live (f : NormalizedOfferFact) : bool :=
  String.eqb (f_observation_kind f) "production" && String.eqb (f_source_mode f) "live".

Record VerifiedLiveOfferExecution := {
  v_execution_id : string; v_decision_id : string; v_plan_id : string;
  v_permit_marker : string; v_authority : ProductionTransportAuthority;
  v_facts : list NormalizedOfferFact
}.

Definition verified_check (v : VerifiedLiveOfferExecution) : outcome VerifiedLiveOfferExecution :=
  raise! ValueError "verified live evidence requires the production transport permit"
    when negb (String.eqb (v_permit_marker v) "production_shopify_transport") in
  raise! ValueError "verified live evidence requires production transport authority"
    when negb (proves_production_transport (v_authority v)) in
  raise! ValueError "verified live evidence requires execution, decision, and plan pins"
    when negb (nonempty (v_execution_id v)) || negb (nonempty (v_decision_id v))
         || negb (nonempty (v_plan_id v)) in
  raise! ValueError "verified live evidence requires normalized production facts"
    when is_nil (v_facts v) in
  raise! ValueError "verified live facts must be production observations"
    when negb (forallb fact_is_live (v_facts v)) in
  Ok v.

Record ShopifyExecutionResult := {
  er_attempted : bool;
  er_transport_invoked : bool;
  er_persisted : bool;
  er_state : option string;
  er_block_reason : option string;
  er_outcome : option string;
  er_error_category : option string;
  er_failure_kind : option string;
  er_evaluated_offer_count : Z;
  er_normalized_offer_count : Z;
  er_returned_currencies : list string;
  er_observation_kind : option string;
  er_source_mode_live : bool;
  er_raw_response_persisted : bool;
  er_live_operational : bool;
  er_prior_decision_preserved : bool;
  er_retry_count : Z;
  er_real_shopify_call_count : Z;
  er_claim_released : bool;
  er_trace : option ResearchExecutionTrace;
  er_blocking_reasons : list string;
  er_unknown_cost_components : list string;
  er_transport_outcome_ambiguous : bool;
  er_offer_facts : list NormalizedOfferFact;
  er_authority : execution_authority;
  er_verified : option VerifiedLiveOfferExecution
}.

Definition terminal_text (s : option string) : bool :=
  match s with Some t => one_of t ["completed"; "failed"; "outcome_unknown"]%string | None => false end.

Definition durable_success (r : ShopifyExecutionResult) : bool :=
  er_persisted r && text_is (er_state r) "completed" && text_is (er_outcome r) "succeeded".

(** The last part of [ShopifyExecutionResult.__post_init__]. *)
Definition authority_check (r : ShopifyExecutionResult) : outcome unit :=
  if bool_decide (er_authority r = production_authority) then
    raise! ValueError "only a verified production success can record live source mode"
      when er_source_mode_live r && negb (durable_success r) in
    raise! ValueError "production success requires verified production evidence"
      when durable_success r && (negb (text_is (er_observation_kind r) "production")
                                 || negb (is_some (er_verified r))) in
    raise! ValueError "a failed production attempt cannot verify live evidence"
      when negb (durable_success r) && is_some (er_verified r) in
    guard_raise (negb (forallb fact_is_live (er_offer_facts r)))
      (ValueError "production offer facts must stay production live observations")
  else
    raise! ValueError "synthetic execution cannot record live operation"
      when er_source_mode_live r || er_live_operational r in
    raise! ValueError "synthetic execution cannot verify production evidence"
      when is_some (er_verified r) || text_is (er_observation_kind r) "production" in
    guard_raise
      (existsb (fun f => one_of (f_observation_kind f) ["live"; "production"]%string
                         || String.eqb (f_source_mode f) "live") (er_offer_facts r))
      (ValueError "adapter offer facts cannot be labeled live").

Definition result_check (r : ShopifyExecutionResult) : outcome ShopifyExecutionResult :=
  raise! ValueError "real Shopify call count cannot be negative"
    when er_real_shopify_call_count r <? 0 in
  raise! ValueError "the Shopify path does not retry" when negb (er_retry_count r =? 0) in
  raise! ValueError "raw Shopify responses must not be persisted" when er_raw_response_persisted r in
  raise! ValueError "an execution result cannot be labeled live"
    when text_is (er_observation_kind r) "live" in
  raise! ValueError "transport implies an attempt"
    when er_transport_invoked r && negb (er_attempted r) in
  raise! ValueError "a persisted outcome is terminal"
    when er_persisted r && negb (terminal_text (er_state r)) in
  raise! ValueError "execution must preserve the prior decision"
    when negb (er_prior_decision_preserved r) in
  raise! ValueError "offer counts cannot be negative"
    when (er_evaluated_offer_count r <? 0) || (er_normalized_offer_count r <? 0) in
  let! _ := authority_check r in
  Ok r.

Definition _refused (reason : string) (attempted invoked : bool) (st : option string)
    (blocking : list string) (ambiguous : bool) : outcome ShopifyExecutionResult :=
  result_check
    {| er_attempted := attempted; er_transport_invoked := invoked; er_persisted := false;
       er_state := st; er_block_reason := Some reason; er_outcome := None;
       er_error_category := None; er_failure_kind := None; er_evaluated_offer_count := 0;
       er_normalized_offer_count := 0; er_returned_currencies := []; er_observation_kind := None;
       er_source_mode_live := false; er_raw_response_persisted := false;
       er_live_operational := false; er_prior_decision_preserved := true; er_retry_count := 0;
       er_real_shopify_call_count := 0; er_claim_released := false; er_trace := None;
       er_blocking_reasons := if is_nil blocking then [reason] else blocking;
       er_unknown_cost_components := []; er_transport_outcome_ambiguous := ambiguous;
       er_offer_facts := []; er_authority := no_authority; er_verified := None |}.

(** A refusal before anything was attempted. *)
Definition refused_at (reason : string) (st : option string) : outcome ShopifyExecutionResult :=
  _refused reason false false st [] false.

Definition _stored_observation_kind (ok live_authority : bool) : option string :=
  if live_authority then (if ok then Some "production"%string else None)
  else Some FAKE_TRANSPORT_OBSERVATION_KIND.

Definition status_value (s : TraceAttemptStatus) : string :=
  match s with
  | not_attempted => "not_attempted" | succeeded => "succeeded" | failed => "failed"
  | timed_out => "timed_out" | outcome_unknown => "outcome_unknown"
  end.

Definition trace_status (s : attempt_outcome) : TraceAttemptStatus :=
  match s with
  | attempt_succeeded => succeeded | attempt_failed => failed | attempt_timed_out => timed_out
  end.

(** The attempt status is the outcome's text. *)
Definition _state_for (s : TraceAttemptStatus) : AuthorizedExecutionState :=
  match s with
  | succeeded => completed
  | outcome_unknown => state_outcome_unknown
  | _ => state_failed
  end.

(** [_trace]. *)
Definition attempt_trace (a : ShopifyCatalogAttempt) (started finished : datetime)
    (st : TraceAttemptStatus) (category : option string) (n : Z) : outcome ResearchExecutionTrace :=
  let source := at_source a in
  let when_status s := if bool_decide (st = s) then [source] else [] in
  let! step := make_step
    {| ts_plan_id := plan_id (at_plan a); ts_provider_id := s_provider_id (at_step a);
       ts_capability := s_capability (at_step a); ts_market := s_market (at_step a);
       ts_source := Some source; ts_attempted := true; ts_status := st; ts_evidence_ids := [];
       ts_started_at := Some started; ts_finished_at := Some finished;
       ts_error_category := category; ts_offers := n; ts_freshness_checked_at := None |} in
  make_trace
    {| tr_plan_id := plan_id (at_plan a); tr_steps := [step]; attempted_sources := [source];
       succeeded_sources := when_status succeeded; failed_sources := when_status failed;
       timed_out_sources := when_status timed_out; tr_offers := n |}.

(** [replace(execution, state="running", ...)]. *)
Definition set_running (a : ShopifyCatalogAttempt) (started : datetime) (digest : string)
    (r : Execution) : Execution :=
  {| execution_id := execution_id r; authorization_id := authorization_id r;
     authorization_version := authorization_version r; decision_id := decision_id r;
     x_plan := x_plan r; created_at := created_at r; updated_at := started;
     revision := revision r; state := running; claimed_at := claimed_at r;
     claim_expires_at := claim_expires_at r; claim_digest := claim_digest r;
     attempt_started_at := Some started; finished_at := finished_at r;
     attempted_provider_id := Some (s_provider_id (at_step a));
     attempted_capability := Some (capability_value (s_capability (at_step a)));
     attempted_market := s_market (at_step a); attempted_source := Some (at_source a);
     x_outcome := x_outcome r; error_category := error_category r;
     evaluated_offer_count := evaluated_offer_count r;
     normalized_offer_count := normalized_offer_count r;
     returned_currencies := returned_currencies r;
     normalized_amount_minors := normalized_amount_minors r; evidence_ids := evidence_ids r;
     normalized_offer_digests := normalized_offer_digests r;
     observation_kind := observation_kind r; request_digest := Some digest;
     trace := trace r; raw_response_persisted := raw_response_persisted r |}.

Section Digests.
Variable sha256_hex : string -> string.

Definition _normalized_offer_digest (o : ShopifyNormalizedOffer) : string :=
  stable_sha256 sha256_hex
    (JObj [("kind", JStr "shopify_normalized_offer_v1"); ("product_id", JStr (o_product_id o));
           ("variant_id", JOpt JStr (o_variant_id o)); ("currency", JStr (o_currency o));
           ("amount_minor", JInt (o_price_amount_minor o)); ("seller", JStr (o_seller_identity o))]%string).

Definition stripped (o : option string) : string := strip (default ""%string o).
Definition some_if_text (s : string) : option string := if nonempty s then Some s else None.

(** The canonical text holds the float [5.0], so it is written out: the
    members in the order of their keys. *)
Definition _request_digest (a : ShopifyCatalogAttempt) : string :=
  let digest_of key o :=
    match some_if_text (stripped o) with
    | None => JNull
    | Some t => JStr (stable_sha256 sha256_hex (JObj [(key, JStr t)]))
    end in
  let member key v := member_chars (key, v) in
  sha256_hex (utf8 (of_chars ("{"%char :: join ","%char
    [member "endpoint"%string (quote GLOBAL_CATALOG_ENDPOINT);
     member "kind"%string (quote "shopify_catalog_request_v1");
     member "product_id_digest"%string (dumps_chars (digest_of "product_id"%string (at_product_id a)));
     member "query_digest"%string (dumps_chars (digest_of "query"%string (at_catalog_query a)));
     member "timeout_seconds"%string (chars "5.0");
     member "tool"%string (quote (at_operation a))] ++ ["}"%char]))).

(** [_terminal_record]: [replace(execution, ...)] with the outcome. *)
Definition set_terminal (finished : datetime) (st : TraceAttemptStatus) (category : option string)
    (os : list ShopifyNormalizedOffer) (digest kind : option string)
    (t : ResearchExecutionTrace) (r : Execution) : Execution :=
  let n := Z.of_nat (length os) in
  {| execution_id := execution_id r; authorization_id := authorization_id r;
     authorization_version := authorization_version r; decision_id := decision_id r;
     x_plan := x_plan r; created_at := created_at r; updated_at := finished;
     revision := revision r; state := _state_for st; claimed_at := None;
     claim_expires_at := None; claim_digest := None;
     attempt_started_at := attempt_started_at r; finished_at := Some finished;
     attempted_provider_id := attempted_provider_id r;
     attempted_capability := attempted_capability r; attempted_market := attempted_market r;
     attempted_source := attempted_source r; x_outcome := Some (status_value st);
     error_category := category; evaluated_offer_count := n; normalized_offer_count := n;
     returned_currencies := map o_currency os; normalized_amount_minors := map o_price_amount_minor os;
     evidence_ids := []; normalized_offer_digests := map _normalized_offer_digest os;
     observation_kind := kind; request_digest := digest; trace := Some t;
     raw_response_persisted := false |}.

Definition _terminal_record (e : Execution) (a : ShopifyCatalogAttempt) (finished : datetime)
    (st : TraceAttemptStatus) (category : option string) (os : list ShopifyNormalizedOffer)
    (digest kind : option string) : outcome Execution :=
  match attempt_started_at e with
  | None => Err (ValueError "a terminal attempt requires attempt_started_at")
  | Some started =>
      let! t := attempt_trace a started finished st category (Z.of_nat (length os)) in
      make_execution (set_terminal finished st category os digest kind t e)
  end.

Definition _offer_facts (a : ShopifyCatalogAttempt) (os : list ShopifyNormalizedOffer)
    (live_authority : bool) : list NormalizedOfferFact :=
  map (fun o =>
    {| f_product_id := o_product_id o; f_variant_id := o_variant_id o;
       f_seller_identity := o_seller_identity o; f_amount_minor := o_price_amount_minor o;
       f_currency := o_currency o; f_availability := availability_text (o_availability o);
       f_observed_at := o_checked_at o; f_digest := _normalized_offer_digest o;
       f_observation_kind := if live_authority then "production"%string
                             else FAKE_TRANSPORT_OBSERVATION_KIND;
       f_source_mode := source_mode_value (if live_authority then LIVE else FIXTURE);
       f_provider_id := s_provider_id (at_step a);
       f_capability := capability_value (s_capability (at_step a));
       f_market := match s_market (at_step a) with
                   | Some m => if nonempty m then m else PH_COUNTRY | None => PH_COUNTRY end;
       f_source := at_source a |}) os.
End Digests.

Definition _UNKNOWN_COSTS : list string := ["shipping"; "tax"; "import"; "voucher"]%string.

Definition cost_known (o : ShopifyNormalizedOffer) : bool :=
  existsb (fun l => is_some (ml_amount_minor l) || negb (String.eqb (ml_status l) "unknown"))
    [o_shipping o; o_taxes o; o_import_charges o; o_voucher o]
  || String.eqb (o_price_state o) "final_effective_cost".

Definition _unknown_costs (os : list ShopifyNormalizedOffer) : list string :=
  if is_nil os || existsb cost_known os then [] else _UNKNOWN_COSTS.

Definition _verified_live_execution (a : ShopifyCatalogAttempt) (stored : Execution)
    (facts : list NormalizedOfferFact) (transport : JsonPostTransport)
    : outcome (option VerifiedLiveOfferExecution) :=
  if negb (production_live_evidence_authorized (at_permit a) transport) || is_nil facts then Ok None
  else if negb (bool_decide (state stored = completed)) || negb (text_is (x_outcome stored) "succeeded")
  then Ok None
  else match transport with
       | UrllibJsonTransport (Some authority) =>
           let! v := verified_check
             {| v_execution_id := execution_id stored; v_decision_id := decision_id stored;
                v_plan_id := x_plan stored; v_permit_marker := "production_shopify_transport";
                v_authority := authority; v_facts := facts |} in
           Ok (Some v)
       | _ => Ok None
       end.

Definition _from_stored (stored : Execution) (invoked : bool) (kind : option ConnectorFailureKind)
    (unknown_costs : list string) (facts : list NormalizedOfferFact)
    (given : execution_authority) (verified : option VerifiedLiveOfferExecution)
    : outcome ShopifyExecutionResult :=
  let authority :=
    if bool_decide (given = no_authority) && text_is (observation_kind stored) "synthetic"
    then synthetic_authority else given in
  let production := bool_decide (authority = production_authority) in
  result_check
    {| er_attempted := true; er_transport_invoked := invoked; er_persisted := true;
       er_state := Some (state_value (state stored)); er_block_reason := None;
       er_outcome := x_outcome stored; er_error_category := error_category stored;
       er_failure_kind := failure_kind_value <$> kind;
       er_evaluated_offer_count := evaluated_offer_count stored;
       er_normalized_offer_count := normalized_offer_count stored;
       er_returned_currencies := returned_currencies stored;
       er_observation_kind := observation_kind stored;
       er_source_mode_live := production && bool_decide (state stored = completed)
                              && text_is (x_outcome stored) "succeeded";
       er_raw_response_persisted := false;
       er_live_operational := production && LIVE_RESEARCH_EXECUTION_OPERATIONAL;
       er_prior_decision_preserved := true; er_retry_count := 0; er_real_shopify_call_count := 0;
       er_claim_released := negb (is_some (claim_digest stored)); er_trace := trace stored;
       er_blocking_reasons := []; er_unknown_cost_components := unknown_costs;
       er_transport_outcome_ambiguous := false; er_offer_facts := facts;
       er_authority := authority; er_verified := verified |}.
End Results.

(** ** The adapter *)
Module Adapter.
Import Permits Results.

Definition SHOPIFY_GLOBAL_CATALOG_PROVIDER_ID : string := "ph-shopify-global-catalog".
Definition _SUPPORTED : list ResearchCapability :=
  [PRODUCT_DISCOVERY; OFFER_DISCOVERY; CURRENT_PRICING; AVAILABILITY].

(** What [execute] raises: an error of one of its transactions, or of the
    interpretation of the response. *)
Inductive adapter_exn := AdapterStart (e : start_exn) | AdapterInterpret (e : interpret_exn).

(** One call of [post_json]; the timeout is in microseconds. *)
Record http_call := {
  h_endpoint : string; h_headers : dict string; h_payload : json; h_timeout : Z
}.

Record _PreparedCall := {
  pc_execution : Execution; pc_payload : json; pc_headers : dict string; pc_request_digest : string
}.

(** *** Checks that read no row *)

(** The checks of the attempt itself. *)
Definition local_reason (a : ShopifyCatalogAttempt) (transport : JsonPostTransport) : option string :=
  let step := at_step a in
  let query := stripped (at_catalog_query a) in
  let product := default ""%string (at_product_id a) in
  match _permit_mode (at_permit a) with
  | None => Some "transport_permit_required"
  | Some mode =>
      if match mode with
         | production_mode => negb (production_live_evidence_authorized (at_permit a) transport)
         | _ => false
         end
      then Some "production_transport_authority_required"
      else if match mode, transport with
              | production_mode, _ => false
              | _, UrllibJsonTransport _ => true
              | _, _ => false
              end
      then Some "synthetic_permit_cannot_use_production_transport"
      else if negb (bool_decide (s_capability step ∈ _SUPPORTED)) then Some "capability_not_supported"
      else if String.eqb (at_operation a) FORBIDDEN_LOOKUP_TOOL
              || negb (one_of (at_operation a) [SEARCH_TOOL; GET_PRODUCT_TOOL])
      then Some "catalog_tool_forbidden"
      else if negb (String.eqb (s_provider_id step) SHOPIFY_GLOBAL_CATALOG_PROVIDER_ID)
      then Some "provider_not_shopify"
      else if negb (bool_decide (s_market step = Some PH_COUNTRY)) then Some "market_not_supported"
      else if negb (String.eqb (at_source a) "shopify_global_catalog")
              || negb (one_of (at_source a) (source_identities step))
      then Some "source_not_supported"
      else if String.eqb (at_operation a) SEARCH_TOOL then
        if negb (nonempty query) || nonempty product then Some "catalog_query_required" else None
      else if negb (nonempty product) || has_char ","%char product || negb (nonempty (strip product))
      then Some "catalog_product_id_invalid"
      else None
  end%string.

Definition _local_refusal (a : ShopifyCatalogAttempt) (transport : JsonPostTransport)
    : outcome (option ShopifyExecutionResult) :=
  match local_reason a transport with
  | None => Ok None
  | Some reason => let! r := refused_at reason None in Ok (Some r)
  end.

Definition _same_step (l r : ResearchProviderStep) : bool :=
  (step_index l =? step_index r) && String.eqb (s_provider_id l) (s_provider_id r)
  && bool_decide (s_capability l = s_capability r) && bool_decide (s_market l = s_market r)
  && bool_decide (source_identities l = source_identities r)
  && String.eqb (s_certification_id l) (s_certification_id r)
  && String.eqb (s_certification_version l) (s_certification_version r).

(** The pins and the state of the loaded execution. *)
Definition pinned_reason (a : ShopifyCatalogAttempt) (e : Execution) : option string :=
  let plan := at_plan a in
  let auth := at_authorization a in
  if negb (String.eqb (x_plan e) (plan_id plan)) then Some "authorization_plan_conflict"%string
  else if negb (String.eqb (authorization_id e) (a_id auth))
          || negb (authorization_version e =? a_version auth)
          || negb (String.eqb (decision_id e) (pl_decision_id plan))
          || negb (String.eqb (decision_id e) (a_decision_id auth))
  then Some "execution_pin_mismatch"%string
  else if negb (existsb (_same_step (at_step a)) (eligible_steps plan))
  then Some "plan_target_mismatch"%string
  else if bool_decide (state e = running)
  then Some "ambiguous_outcome_requires_reconciliation"%string
  else if terminal (state e) then Some "execution_terminal"%string
  else None.

Definition _budget_ok (expires : option datetime) (now : datetime) : bool :=
  match expires with
  | None => false
  | Some x => SHOPIFY_LIVE_HTTP_TIMEOUT + LIVE_CONNECTOR_CLEANUP_MARGIN <=? dt_us x - dt_us now
  end.

Definition step_market (a : ShopifyCatalogAttempt) : string :=
  match s_market (at_step a) with Some m => if nonempty m then m else PH_COUNTRY | None => PH_COUNTRY end.

Definition _catalog_payload (a : ShopifyCatalogAttempt) : result contract_error json :=
  let! args :=
    (if String.eqb (at_operation a) SEARCH_TOOL
     then build_search_catalog_arguments (stripped (at_catalog_query a))
     else build_get_product_arguments (stripped (at_product_id a))) in
  build_jsonrpc_request (at_operation a) args 1.

Definition carries_credentials (headers : dict string) : bool :=
  existsb (fun kv => String.eqb kv.1 "Authorization"
                     || one_of (lower kv.1) ["authorization"; "signature"; "x-signature"]%string) headers.

(** [_read_clock]. *)
Definition _read_clock (moment : datetime) : outcome datetime :=
  raise! ValueError "clock must return a timezone-aware datetime" when negb (dt_aware moment) in
  Ok moment.

Section Adapter.
Context {Refinement T : Type} `{!ClaimTransaction Refinement T}.
Variable sha256_hex : string -> string.
(** The class of the transport object, what its [post_json] does ([None]: it
    raises), the normalizer and the breaker policy. *)
Variables (transport : JsonPostTransport)
          (post_json : http_call -> option CatalogTransportResult)
          (normalize : dict value -> dict value -> datetime -> string ->
                       result normalize_exn ShopifyNormalizedOffer)
          (policy : Breaker.BreakerPolicy).
Notation Ctx := (ConversationContext Refinement).
Notation tx := (act T start_exn).
Notation on := Service.on.
Implicit Types (a : ShopifyCatalogAttempt) (e : Execution).

Definition _execution_id a : outcome string :=
  authorized_execution_id sha256_hex (a_idempotency_key (at_authorization a)).

Definition _probe_reason (b : Breaker.ProviderReliabilityState) a (now : datetime)
    : result start_exn (option string) :=
  if bool_decide (Breaker.state b = HALF_OPEN) then
    match at_probe_capability a with
    | Some capability =>
        if negb (nonempty capability) then Ok (Some "half_open_probe_not_active"%string)
        else
          let! check := validate_active_half_open_probe sha256_hex b capability now in
          if negb (ck_valid check) then Ok (ck_reason check)
          else if negb (_budget_ok (Breaker.half_open_probe_expires_at b) now)
          then Ok (Some "claim_budget_insufficient"%string)
          else Ok None
    | None => Ok (Some "half_open_probe_not_active"%string)
    end
  else if is_some (at_probe_capability a) then Ok (Some "half_open_probe_not_active"%string)
  else Ok None.

(** What the stored conversation says of the authorization. *)
Definition stored_authorization_reason a e (c : Ctx) : outcome (option string) :=
  if negb match owner c with Some o => has_same_identity o (at_owner a) | None => false end
  then Ok (Some "wrong_owner"%string)
  else
    match List.filter (named (a_id (at_authorization a))) (research_authorizations c) with
    | [stored] =>
        if negb (String.eqb (a_status stored) "consumed") then Ok (Some "authorization_not_consumed"%string)
        else if negb (a_version stored =? authorization_version e)
                || negb (String.eqb (a_decision_id stored) (decision_id e))
                || negb (String.eqb (a_idempotency_key stored)
                           (a_idempotency_key (at_authorization a)))
                || negb (String.eqb (a_scope_digest stored) (pl_scope_digest (at_plan a)))
        then Ok (Some "authorization_identity_mismatch"%string)
        else if negb (String.eqb (owner_binding_digest sha256_hex (at_owner a)) (a_owner_binding stored))
        then Ok (Some "wrong_owner"%string)
        else
          let! i := authorized_execution_id sha256_hex (a_idempotency_key stored) in
          if negb (String.eqb (execution_id e) i)
          then Ok (Some "consumed_authorization_execution_mismatch"%string)
          else Ok None
    | _ => Ok (Some "authorization_not_found"%string)
    end.

Definition _authorization_reason a e : tx (option string) :=
  do! found := on (load_conversation (a_conversation_id (at_authorization a))) in
  match found with
  | None => a_ret (Some "authorization_conversation_missing"%string)
  | Some c => a_lift (value_part (stored_authorization_reason a e c))
  end.

(** The claim of the loaded execution, at the start of the attempt. *)
Definition claim_reason a e (started : datetime) : outcome (option string) :=
  match pinned_reason a e with
  | Some reason => Ok (Some reason)
  | None =>
      let! claim := validate_active_execution_claim sha256_hex e (at_claim_capability a) started in
      if negb (ck_valid claim)
      then Ok (Some (match ck_reason claim with
                     | Some r => if nonempty r then r else "execution_not_claimed"%string
                     | None => "execution_not_claimed"%string end))
      else if negb (_budget_ok (claim_expires_at e) started) then Ok (Some "claim_budget_insufficient"%string)
      else Ok None
  end.

(** [_pre_transport_reason] of an execution that was found. *)
Definition _pre_transport_reason a e (started : datetime) : tx (option string) :=
  do! early := a_lift (value_part (claim_reason a e started)) in
  match early with
  | Some reason => a_ret (Some reason)
  | None =>
      do! unauthorized := _authorization_reason a e in
      match unauthorized with
      | Some reason => a_ret (Some reason)
      | None =>
          do! b := on (load_breaker (s_provider_id (at_step a)) (step_market a) started) in
          do! permission := a_lift (breaker_part
            (Breaker.assess_execution_permission b (at_operational_status a) (at_kill_switch a) started)) in
          if negb (Breaker.execution_permitted permission) then a_ret (Breaker.block_reason permission)
          else a_lift (_probe_reason (Breaker.breaker permission) a started)
      end
  end.

Definition refuse_start {A} (reason : string) (st : option string) : tx (ShopifyExecutionResult + A) :=
  do! r := a_lift (value_part (refused_at reason st)) in a_ret (inl r).

(** [try: cas_execution(running, ...) except AuthorizedExecutionRevisionConflict]. *)
Definition store_running a e (running_row : Execution) (body : json) (headers : dict string)
    (digest : string) : tx (ShopifyExecutionResult + _PreparedCall) := fun σ =>
  match on (cas_execution running_row (revision e)) σ with
  | (Ok stored, σ') =>
      (Ok (inr {| pc_execution := stored; pc_payload := body; pc_headers := headers;
                  pc_request_digest := digest |}), σ')
  | (Err (StartTx (TxExecution (AuthorizedExecutionRevisionConflict _ _))), σ') =>
      refuse_start "stale_claim_rejected" (Some (state_value (state e))) σ'
  | (Err x, σ') => (Err x, σ')
  end.

Definition _begin_attempt a (started : datetime) : tx (ShopifyExecutionResult + _PreparedCall) :=
  do! i := a_lift (value_part (_execution_id a)) in
  do! found := on (load_execution i) in
  match found with
  | None => refuse_start "execution_not_prepared" None
  | Some e =>
      let st := Some (state_value (state e)) in
      do! refusal := _pre_transport_reason a e started in
      match refusal with
      | Some reason => refuse_start reason st
      | None =>
          match _catalog_payload a with
          | Err _ => refuse_start "catalog_contract_rejected" st
          | Ok body =>
              let headers := anonymous_http_headers in
              if carries_credentials headers then refuse_start "catalog_contract_rejected" st
              else
                let digest := _request_digest sha256_hex a in
                do! row := a_lift (value_part (make_execution (set_running a started digest e))) in
                store_running a e row body headers digest
          end
      end
  end.

(** [finally: transaction.close()]. *)
Definition closing {A} (m : tx A) : tx A := fun σ =>
  let '(r, σ') := m σ in
  match on close σ' with
  | (Ok _, σ'') => (r, σ'')
  | (Err x, σ'') => (Err x, σ'')
  end.

(** [except (PersistenceError, OperationalError, DBAPIError)]. *)
Definition or_else {A} (m : tx A) (handler : tx A) : tx A := fun σ =>
  match m σ with
  | (Err (StartTx x), σ') =>
      if Service.persistence_failure x then handler σ' else (Err (StartTx x), σ')
  | done => done
  end.

Definition rolled_back {A} (m : tx A) : tx A := do! _ := on rollback in m.

(** The first transaction: the attempt is running, or it is refused. *)
Definition start_phase a (started : datetime) : tx (ShopifyExecutionResult + _PreparedCall) :=
  let unavailable := rolled_back (refuse_start "attempt_persistence_unavailable" None) in
  closing (
    do! prepared := or_else (do! _ := on lock_for_claim in _begin_attempt a started) unavailable in
    match prepared with
    | inl r => rolled_back (a_ret (inl r))
    | inr c => or_else (do! _ := on commit in a_ret (inr c)) unavailable
    end).

(** *** The outcome *)

Definition _validate_running_claim e (capability : string) (now : datetime) : outcome ActiveClaimCheck :=
  if negb (bool_decide (state e = running)) then claim_check false (Some "execution_not_running"%string)
  else if match claim_expires_at e with
          | Some x => negb (Execution.before now x) | None => true end
  then claim_check false (Some "execution_claim_expired"%string)
  else match execution_claim_digest sha256_hex capability with
       | Err _ => claim_check false (Some "execution_claim_identity_mismatch"%string)
       | Ok expected =>
           if negb (bool_decide (claim_digest e = Some expected))
           then claim_check false (Some "execution_claim_identity_mismatch"%string)
           else claim_check true None
       end.

(** A failed attempt without a kind is an [AssertionError]. *)
Definition _next_breaker (b : Breaker.ProviderReliabilityState) (i : _Interpreted) (now : datetime)
    : result start_exn Breaker.ProviderReliabilityState :=
  if success i then breaker_part (Breaker.record_success b now)
  else
    match failure_kind i with
    | None => Err (StartValue (ValueError "assertion"))
    | Some kind =>
        let! updated := breaker_part (Breaker.record_failure b kind now policy) in
        if bool_decide (Breaker.state updated = HALF_OPEN)
           && some_text (Breaker.half_open_probe_claim_digest updated)
        then breaker_part (Breaker.post_init (Breaker.no_probe_lease updated))
        else Ok updated
    end.

(** A refusal after the call was sent. *)
Definition refuse_sent {A} (reason : string) (st : option string) (invoked : bool)
    : tx (ShopifyExecutionResult + A) :=
  rolled_back (do! r := a_lift (value_part (_refused reason true invoked st [] false)) in a_ret (inl r)).

Definition running_text : option string := Some "running"%string.

(** [except AuthorizedExecutionRevisionConflict] and
    [except ReliabilityRevisionConflict]. *)
Definition stale_outcome (x : tx_exn) : bool :=
  match x with
  | TxExecution (AuthorizedExecutionRevisionConflict _ _) | TxBreaker (ReliabilityRevisionConflict _ _ _) => true
  | _ => false
  end.

Definition store_outcome (invoked : bool) (m : tx Execution)
    : tx (ShopifyExecutionResult + Execution) := fun σ =>
  match m σ with
  | (Ok saved, σ') => (Ok (inr saved), σ')
  | (Err (StartTx x), σ') =>
      if stale_outcome x then refuse_sent "stale_outcome_rejected" running_text invoked σ'
      else if Service.persistence_failure x
      then refuse_sent "outcome_persistence_unavailable" running_text invoked σ'
      else (Err (StartTx x), σ')
  | (Err x, σ') => (Err x, σ')
  end.

(** The rows an outcome writes, over the execution and the breaker it read. *)
Definition save_outcome (record : Execution) e (next b : Breaker.ProviderReliabilityState) : tx Execution :=
  do! saved := on (cas_execution record (revision e)) in
  do! _ := on (cas_breaker next (Breaker.revision b)) in
  do! _ := on commit in
  a_ret saved.

Definition record_outcome a (call : _PreparedCall) (i : _Interpreted) (finished : datetime)
    (invoked : bool) (found : option Execution) : tx (ShopifyExecutionResult + Execution) :=
  match found with
  | None => refuse_sent "execution_not_prepared" None invoked
  | Some e =>
      let st := Some (state_value (state e)) in
      if negb (bool_decide (state e = running)) then refuse_sent "execution_terminal" st invoked
      else
        do! holder := a_lift (value_part (_validate_running_claim e (at_claim_capability a) finished)) in
        if negb (ck_valid holder)
        then refuse_sent (match ck_reason holder with
                      | Some r => if nonempty r then r else "execution_claim_expired"%string
                      | None => "execution_claim_expired"%string end) st invoked
        else
          do! b := on (load_breaker (s_provider_id (at_step a)) (step_market a) finished) in
          do! probe := a_lift (_probe_reason b a finished) in
          match probe with
          | Some reason => refuse_sent reason running_text invoked
          | None =>
              if success i && bool_decide (Breaker.state b = OPEN)
              then refuse_sent "circuit_open" running_text invoked
              else
                do! next := a_lift (_next_breaker b i finished) in
                do! record := a_lift (value_part
                  (_terminal_record sha256_hex e a finished (trace_status (attempt_status i))
                     (i_error_category i) (offers i) (Some (pc_request_digest call))
                     (_stored_observation_kind (success i)
                        (production_live_evidence_authorized (at_permit a) transport)))) in
                store_outcome invoked (save_outcome record e next b)
          end
  end.

(** The second transaction: the saved outcome, or a refusal. *)
Definition outcome_phase a (call : _PreparedCall) (i : _Interpreted) (finished : datetime)
    (invoked : bool) : tx (ShopifyExecutionResult + Execution) :=
  closing (
    do! found := or_else
      (do! _ := on lock_for_claim in
       do! found := on (reload_execution (execution_id (pc_execution call))) in a_ret (inr found))
      (refuse_sent "outcome_persistence_unavailable" running_text invoked) in
    match found with
    | inl r => a_ret (inl r)
    | inr found => record_outcome a call i finished invoked found
    end).

Definition outcome_result a (i : _Interpreted) (invoked : bool) (saved : Execution)
    : outcome ShopifyExecutionResult :=
  let live := production_live_evidence_authorized (at_permit a) transport in
  let facts := if success i then _offer_facts sha256_hex a (offers i) live else [] in
  let! verified := _verified_live_execution a saved facts transport in
  _from_stored saved invoked (failure_kind i) (if success i then _unknown_costs (offers i) else [])
    facts (_result_authority (at_permit a)) verified.

Definition _commit_outcome a (call : _PreparedCall) (i : _Interpreted) (finished : datetime)
    (invoked : bool) : tx ShopifyExecutionResult :=
  do! ended := outcome_phase a call i finished invoked in
  match ended with
  | inl r => a_ret r
  | inr saved => a_lift (value_part (outcome_result a i invoked saved))
  end.

(** *** The attempt *)

(** What the process does: its transactions, and the calls it has sent. *)
Notation process := (act (T * list http_call) adapter_exn).

Definition with_tx {A} (m : tx A) : process A := fun '(σ, sent) =>
  match m σ with
  | (Ok r, σ') => (Ok r, (σ', sent))
  | (Err x, σ') => (Err (AdapterStart x), (σ', sent))
  end.

Definition raising {A} (m : outcome A) : process A :=
  a_lift (match m with Ok r => Ok r | Err x => Err (AdapterStart (StartValue x)) end).

Definition send (call : http_call) : process (option CatalogTransportResult) := fun '(σ, sent) =>
  (Ok (post_json call), (σ, sent ++ [call])).

Definition call_of (call : _PreparedCall) : http_call :=
  {| h_endpoint := GLOBAL_CATALOG_ENDPOINT; h_headers := pc_headers call;
     h_payload := pc_payload call; h_timeout := SHOPIFY_LIVE_HTTP_TIMEOUT |}.

(** [started] and [finished] are the two readings of the clock. *)
Definition execute a (started finished : datetime) : process ShopifyExecutionResult :=
  do! local := raising (_local_refusal a transport) in
  match local with
  | Some r => a_ret r
  | None =>
      do! started := raising (_read_clock started) in
      do! prepared := with_tx (start_phase a started) in
      match prepared with
      | inl r => a_ret r
      | inr call =>
          do! response := send (call_of call) in
          match response with
          | None => raising (_refused "ambiguous_transport_outcome" true false running_text [] true)
          | Some response =>
              do! finished := raising (_read_clock finished) in
              if Execution.before finished started
              then raising (_refused "attempt_clock_regressed" true true running_text [] false)
              else
                do! i := a_lift (match _interpret normalize response finished
                                         (production_live_evidence_authorized (at_permit a) transport) with
                                 | Ok i => Ok i
                                 | Err x => Err (AdapterInterpret x)
                                 end) in
                with_tx (_commit_outcome a call i finished true)
          end
      end
  end.

(** *** After a crash *)

Definition refuse_running {A} (reason : string) : tx (ShopifyExecutionResult + A) :=
  refuse_sent reason running_text false.
Definition refuse_other {A} (reason : string) (st : option string) : tx (ShopifyExecutionResult + A) :=
  rolled_back (refuse_start reason st).

Definition reached (limit : option datetime) (now : datetime) : bool :=
  match limit with Some x => negb (Execution.before now x) | None => true end.

Definition reconcile_row a (finished : datetime) (found : option Execution)
    : tx (ShopifyExecutionResult + Execution) :=
  match found with
  | None => refuse_other "execution_not_prepared" None
  | Some e =>
      if negb (bool_decide (state e = running))
      then refuse_other (if terminal (state e) then "execution_terminal" else "execution_not_running")
             (Some (state_value (state e)))
      else if negb (reached (claim_expires_at e) finished) then refuse_running "attempt_still_claimed"
      else if negb (reached (attempt_started_at e) finished) then refuse_running "attempt_clock_regressed"
      else
        do! record := a_lift (value_part
          (_terminal_record sha256_hex e a finished outcome_unknown (Some "outcome_unknown"%string) []
             (request_digest e) None)) in
        store_outcome false (do! saved := on (cas_execution record (revision e)) in
                             do! _ := on commit in a_ret saved)
  end.

(** [reconcile_ambiguous]; the reading of the clock is an argument. *)
Definition reconcile_ambiguous a (finished : datetime) : tx ShopifyExecutionResult :=
  do! finished := a_lift (value_part (_read_clock finished)) in
  do! ended := closing (
    do! found := or_else
      (do! _ := on lock_for_claim in
       do! i := a_lift (value_part (_execution_id a)) in
       do! found := on (load_execution i) in a_ret (inr found))
      (rolled_back (do! r := a_lift (value_part (refused_at "outcome_persistence_unavailable" None)) in
                    a_ret (inl r))) in
    match found with
    | inl r => a_ret (inl r)
    | inr found => reconcile_row a finished found
    end) in
  match ended with
  | inl r => a_ret r
  | inr saved =>
      a_lift (value_part (_from_stored saved false None [] [] no_authority None))
  end.
End Adapter.

(** [execute_production_shopify_catalog]: the continuation is called with the
    transport when every gate is open. *)
Definition execute_production_shopify_catalog {S E} (reasons : list string)
    (continuation : option (act S E ShopifyExecutionResult)) (failing : value_error -> E)
    : act S E ShopifyExecutionResult :=
  let refused reason blocking :=
    a_lift (match _refused reason false false None blocking false with
            | Ok r => Ok r | Err x => Err (failing x) end) in
  match reasons with
  | reason :: _ => refused reason reasons
  | [] => match continuation with
          | None => refused "production_composition_context_required"%string
                      ["production_composition_context_required"%string]
          | Some continue => continue
          end
  end.
End Adapter.
