(* ===== verification/AttemptSafety.v ===== *)
(** What an attempt does to the shared rows and to the outside world: the
    theorems of [app/research/shopify_global_catalog_execution.py].

    Module [Settling]: methods that end their transaction, over any lawful
    unit of work. Module [Phases]: the transaction before the HTTP call, the
    one after it, and the reconciliation. Module [Theorems]: no execution is
    sent to the provider twice, an outcome is stored whole or not at all, and a
    lost attempt is closed without a call. *)

From S2P Require Import Prelude PyStr Json Clock Connector Breaker BreakerSpec PyState OpStore BreakerRepo Research Catalogs Authorization Conversation ConversationRepo ConversationHistory LiveMode Execution ExecutionRepo ClaimTx ClaimTxMemory ClaimTxSql LiveStart LiveStartSafety ShopifyCatalog Attempt.
Import Connector Research Authorization Context Lifecycle Common.
Import ShopifyCatalog.Request ShopifyCatalog.Response.
Import Execution.Trace Execution.Record ExecutionRows Rows TxInterface Claims.
Import Effects Permits Results Adapter.
#[local] Open Scope Z_scope.

(** ** Methods that end their transaction *)
Module Settling.
Section Settling.
Context {Refinement T : Type} `{CT : !ClaimTransaction Refinement T}.
Context {sha256_hex : string -> string} {cfg : settings}
        `{L : !TransactionLaws (Refinement := Refinement) (T := T) sha256_hex cfg}.
Notation can := (TxInterface.can sha256_hex cfg).
Notation tx_at := (TxInterface.tx_at sha256_hex cfg).
Notation quiet := (TxInterface.quiet sha256_hex cfg).
Notation clock := (TxInterface.clock sha256_hex cfg).
Notation rows := (rows Refinement).
Notation writes := (list (Rows.write Refinement)).
Implicit Types (p q : rows) (ws vs : writes) (σ : T).

(** [m] ends with no transaction open; [Q] is what the others then see. *)
Definition settles σ {A} (m : act T start_exn A) (Q : rows -> result start_exn A -> Prop) : Prop :=
  exists p', tx_at (m σ).2 p' [] /\ Q p' (m σ).1.

Lemma settles_weaken σ {A} (m : act T start_exn A) (Q Q' : rows -> result start_exn A -> Prop) :
  settles σ m Q -> (forall p r, Q p r -> Q' p r) -> settles σ m Q'.
Proof. intros (p' & H1 & H2) HQ. exists p'. auto. Qed.

(** A body that touches nothing. *)
Definition pure {A} (m : act T start_exn A) (r : result start_exn A) : Prop := forall σ, m σ = (r, σ).

Lemma settles_pure σ p {A} (m : act T start_exn A) r (Q : rows -> result start_exn A -> Prop) :
  tx_at σ p [] -> pure m r -> Q p r -> settles σ m Q.
Proof. intros Hat Hm HQ. exists p. by rewrite Hm. Qed.

Lemma settles_rolled_back σ p ws {A} (m : act T start_exn A) r (Q : rows -> result start_exn A -> Prop) :
  tx_at σ p ws -> pure m r ->
  (forall q, can p q -> (quiet σ -> calm clock p q) -> Q q r) ->
  settles σ (Adapter.rolled_back m) Q.
Proof.
  intros Hat Hm HQ. destruct (Effects.rolled_back σ p ws Hat) as (q & [Hcan _] & Hc & E & Hat').
  exists q. unfold Adapter.rolled_back, a_bind. rewrite E, Hm. split; [done | by apply HQ].
Qed.

Lemma settles_closing σ {A} (m : act T start_exn A) (Q : rows -> result start_exn A -> Prop) :
  settles σ m Q -> settles σ (closing m) Q.
Proof.
  intros (p' & Hat & HQ). exists p'. unfold closing. destruct (m σ) as [r σ'] eqn:E. cbn [fst snd] in *.
  destruct (close_law sha256_hex cfg σ' p' Hat) as [Hr Hat']. unfold Service.on.
  destruct (close σ') as [c σ'']. cbn [fst snd] in *. by subst c.
Qed.

Lemma settles_bind b σ p {A B} (m : act T start_exn A) (k : A -> act T start_exn B) D
    (Q : rows -> result start_exn B -> Prop) :
  (b = true -> quiet σ) -> does b σ p [] m D ->
  (forall q r vs σ', can p q -> (b = true -> calm clock p q /\ quiet σ') -> tx_at σ' q vs -> D q r vs ->
     match r with Ok a => settles σ' (k a) Q | Err e => vs = [] /\ Q q (Err e) end) ->
  settles σ (a_bind m k) Q.
Proof.
  intros Hq Hm Hk. destruct (Hm Hq) as (q & vs & [Hcan _] & Hat & Hb & HD). unfold settles, a_bind.
  destruct (m σ) as [r σ'] eqn:E. cbn [fst snd app] in *.
  specialize (Hk q r vs σ' Hcan Hb Hat HD). destruct r as [x|x].
  - exact Hk.
  - destruct Hk as [-> HQ]. by exists q.
Qed.

Lemma settles_then σ {A B} (m : act T start_exn A) (k : A -> act T start_exn B)
    (Q1 : rows -> result start_exn A -> Prop) (Q : rows -> result start_exn B -> Prop) :
  settles σ m Q1 ->
  (forall p' r σ', tx_at σ' p' [] -> Q1 p' r ->
     match r with Ok a => settles σ' (k a) Q | Err e => Q p' (Err e) end) ->
  settles σ (a_bind m k) Q.
Proof.
  intros (p' & Hat & H1) Hk. unfold settles, a_bind. destruct (m σ) as [r σ'] eqn:E.
  cbn [fst snd] in *. specialize (Hk p' r σ' Hat H1). destruct r; [exact Hk | by exists p'].
Qed.

(** A body under [except (PersistenceError, OperationalError, DBAPIError)]. *)
Lemma settles_guarded b σ p {A B} (m h : act T start_exn A) (k : A -> act T start_exn B) D
    (Q : rows -> result start_exn B -> Prop) :
  (b = true -> quiet σ) -> does b σ p [] m D ->
  (forall q r vs σ', can p q -> (b = true -> calm clock p q /\ quiet σ') -> tx_at σ' q vs -> D q r vs ->
     match r with
     | Ok a => settles σ' (k a) Q
     | Err (StartTx x) => if Service.persistence_failure x then settles σ' (a_bind h k) Q
                          else vs = [] /\ Q q (Err (StartTx x))
     | Err e => vs = [] /\ Q q (Err e)
     end) ->
  settles σ (a_bind (or_else m h) k) Q.
Proof.
  intros Hq Hm Hk. destruct (Hm Hq) as (q & vs & [Hcan _] & Hat & Hb & HD). unfold settles, or_else, a_bind at 1.
  unfold a_bind at 1. destruct (m σ) as [r σ'] eqn:E. cbn [fst snd app] in *.
  specialize (Hk q r vs σ' Hcan Hb Hat HD). destruct r as [x|x]; [exact Hk |].
  destruct x as [x|x|x|x| |x]; try (destruct Hk as [-> HQ]; by exists q).
  destruct (Service.persistence_failure x); [exact Hk | destruct Hk as [-> HQ]; by exists q].
Qed.

Lemma settles_on σ p {A B} (m : act T tx_exn A) (k : A -> act T start_exn B) D
    (Q : rows -> result start_exn B -> Prop) :
  TxInterface.runs sha256_hex cfg σ p [] (m σ) D ->
  (forall q, can p q -> Q q (Err (StartTx TxUnavailable))) ->
  (forall q r vs σ', can p q -> tx_at σ' q vs -> D q r vs ->
     match r with Ok a => settles σ' (k a) Q | Err x => vs = [] /\ Q q (Err (StartTx x)) end) ->
  settles σ (a_bind (Service.on m) k) Q.
Proof.
  intros (q & vs & [Hcan _] & Hat & _ & H) Hdown Hk. unfold settles, Service.on, a_bind.
  destruct (m σ) as [r σ'] eqn:E. cbn [fst snd app] in *. destruct H as [[-> ->] | HD].
  - exists q. auto.
  - specialize (Hk q r vs σ' Hcan Hat HD). destruct r; [exact Hk | destruct Hk as [-> HQ]; by exists q].
Qed.

Lemma settles_lift σ p {A B} (r : result start_exn A) (k : A -> act T start_exn B)
    (Q : rows -> result start_exn B -> Prop) :
  tx_at σ p [] -> match r with Ok a => settles σ (k a) Q | Err x => Q p (Err x) end ->
  settles σ (a_bind (a_lift r) k) Q.
Proof. intros Hat H. destruct r; [exact H | by exists p]. Qed.

Lemma settles_commit σ p ws {A} (x : A) (k : act T start_exn A) (Q : rows -> result start_exn A -> Prop) :
  tx_at σ p ws ->
  (forall q, others can ws p q -> (quiet σ -> calm clock p q) -> Q (view ws q) (Ok x)) ->
  (forall q σ', can p q -> ~ quiet σ -> tx_at σ' q ws -> settles σ' k Q) ->
  settles σ (or_else (do! _ := Service.on commit in a_ret x) k) Q.
Proof.
  intros Hat Hok Hdown. destruct (commit_law sha256_hex cfg σ p ws Hat) as (q & Ho & Hc & H).
  unfold settles, or_else, Service.on, a_bind. destruct (commit σ) as [r σ'] eqn:E. cbn [fst snd] in *.
  destruct H as [[-> Hat'] | (-> & Hat' & Hq)].
  - exists (view ws q). split; [done | by apply Hok].
  - cbn. by apply (Hdown q σ' (proj1 Ho)).
Qed.
(** A method of the unit of work when nobody else acts and nothing fails. *)
Lemma quiet_on σ p ws {A B} (m : act T tx_exn A) (k : A -> act T start_exn B) D
    (Q : result start_exn B * T -> Prop) :
  quiet σ -> TxInterface.runs sha256_hex cfg σ p ws (m σ) D ->
  (forall q r vs σ', calm clock p q -> quiet σ' -> tx_at σ' q (ws ++ vs) -> D q r vs ->
     match r with Ok a => Q (k a σ') | Err x => Q (Err (StartTx x), σ') end) ->
  Q (a_bind (Service.on m) k σ).
Proof.
  intros Hq (q & vs & Ho & Hat & Hc & H) Hk. destruct (Hc Hq) as (Hq' & Hcalm & Hne).
  unfold Service.on, a_bind. destruct (m σ) as [r σ'] eqn:E. cbn [fst snd] in *.
  destruct H as [[-> _] | HD]; [done |]. specialize (Hk q r vs σ' Hcalm Hq' Hat HD). by destruct r.
Qed.

Lemma quiet_commit σ p ws {A} (x : A) (Q : result start_exn A * T -> Prop) :
  quiet σ -> tx_at σ p ws ->
  (forall q σ', calm clock p q -> tx_at σ' (view ws q) [] -> Q (Ok x, σ')) ->
  Q ((do! _ := Service.on commit in a_ret x) σ).
Proof.
  intros Hq Hat HQ. destruct (commit_law sha256_hex cfg σ p ws Hat) as (q & _ & Hc & H).
  unfold Service.on, a_bind. destruct (commit σ) as [r σ']. cbn [fst snd] in *.
  destruct H as [[-> Hat'] | (_ & _ & Hn)]; [by apply (HQ q σ'); [apply Hc |] | done].
Qed.

(** [m] ends with [ws] written and not committed. *)
Definition leaves σ {A} (m : act T start_exn A) (D : rows -> writes -> result start_exn A -> Prop) : Prop :=
  exists p' ws, tx_at (m σ).2 p' ws /\ D p' ws (m σ).1.

Lemma leaves_on σ p ws {A B} (m : act T tx_exn A) (k : A -> act T start_exn B) D
    (Q : rows -> writes -> result start_exn B -> Prop) :
  TxInterface.runs sha256_hex cfg σ p ws (m σ) D ->
  (forall q, others can ws p q -> Q q ws (Err (StartTx TxUnavailable))) ->
  (forall q r vs σ', others can ws p q -> tx_at σ' q (ws ++ vs) -> D q r vs ->
     match r with Ok a => leaves σ' (k a) Q | Err x => Q q (ws ++ vs) (Err (StartTx x)) end) ->
  leaves σ (a_bind (Service.on m) k) Q.
Proof.
  intros (q & vs & Ho & Hat & _ & H) Hdown Hk. unfold leaves, Service.on, a_bind.
  destruct (m σ) as [r σ'] eqn:E. cbn [fst snd] in *. destruct H as [[-> ->] | HD].
  - exists q, ws. rewrite app_nil_r in Hat. auto.
  - specialize (Hk q r vs σ' Ho Hat HD). destruct r; [exact Hk | by exists q, (ws ++ vs)].
Qed.

Lemma leaves_commit σ p ws {A} (x : A) (Q : rows -> writes -> result start_exn A -> Prop) :
  tx_at σ p ws ->
  (forall q, others can ws p q -> Q (view ws q) [] (Ok x) /\ Q q ws (Err (StartTx TxUnavailable))) ->
  leaves σ (do! _ := Service.on commit in a_ret x) Q.
Proof.
  intros Hat HQ. destruct (commit_law sha256_hex cfg σ p ws Hat) as (q & Ho & _ & H).
  destruct (HQ q Ho) as [H1 H2]. unfold leaves, Service.on, a_bind.
  destruct (commit σ) as [r σ'] eqn:E. cbn [fst snd] in *.
  destruct H as [[-> Hat'] | (-> & Hat' & _)]; [by exists (view ws q), [] | by exists q, ws].
Qed.
End Settling.
End Settling.

(** ** The transactions of an attempt *)
Module Phases.
Import Settling.

(** A result that reports no stored outcome. *)
Definition unsaved (attempted invoked : bool) (r : ShopifyExecutionResult) : Prop :=
  er_persisted r = false /\ er_attempted r = attempted /\ er_transport_invoked r = invoked.

Lemma refused_unsaved reason attempted invoked st blocking ambiguous :
  (invoked = true -> attempted = true) ->
  exists r, Results._refused reason attempted invoked st blocking ambiguous = Ok r
    /\ unsaved attempted invoked r /\ er_block_reason r = Some reason.
Proof.
  intros H. unfold Results._refused, result_check. cbn.
  assert (invoked && negb attempted = false) as -> by (destruct invoked; [by rewrite H | done]).
  cbn. eexists. split; [done |]. by repeat split.
Qed.

Section Phases.
Context {Refinement T : Type} `{CT : !ClaimTransaction Refinement T}.
Context {sha256_hex : string -> string} {cfg : settings}
        `{L : !TransactionLaws (Refinement := Refinement) (T := T) sha256_hex cfg}.
Context {transport : JsonPostTransport} {policy : Breaker.BreakerPolicy}.
Notation can := (TxInterface.can sha256_hex cfg).
Notation tx_at := (TxInterface.tx_at sha256_hex cfg).
Notation quiet := (TxInterface.quiet sha256_hex cfg).
Notation clock := (TxInterface.clock sha256_hex cfg).
Notation rows := (rows Refinement).
Notation writes := (list (Rows.write Refinement)).
Notation Ctx := (ConversationContext Refinement).
Notation execution_id_of := (_execution_id sha256_hex).
Implicit Types (p q : rows) (ws vs : writes) (σ : T) (a : ShopifyCatalogAttempt) (e : Execution).

Lemma does_ext b σ p ws {A} (m m' : act T start_exn A) (Q : rows -> result start_exn A -> writes -> Prop) :
  m σ = m' σ -> does b σ p ws m' Q -> does b σ p ws m Q.
Proof. unfold does. by intros ->. Qed.

(** The result of a method is looked at, its state is not. *)
Lemma does_map b σ p ws {A B} (m : act T start_exn A) (m' : act T start_exn B)
    (g : result start_exn A -> result start_exn B) (Q : rows -> result start_exn B -> writes -> Prop) :
  m' σ = (g (m σ).1, (m σ).2) -> does b σ p ws m (fun q r vs => Q q (g r) vs) -> does b σ p ws m' Q.
Proof. unfold does. by intros ->. Qed.

Lemma can_self σ p ws : tx_at σ p ws -> can p p.
Proof. intros Hat. by apply (can_refl sha256_hex cfg), (tx_rows_ok sha256_hex cfg σ p ws). Qed.

Lemma can_end p q : can p q -> can q q.
Proof. intros H%(can_evolves sha256_hex cfg). apply (can_refl sha256_hex cfg), H. Qed.

Lemma refuse_start_pure {A} reason st :
  exists r, @pure T _ (refuse_start (A := A) reason st) (Ok (inl r)) /\ unsaved false false r.
Proof.
  destruct (refused_unsaved reason false false st [] false) as (r & E & Hr & _); [done |].
  exists r. split; [| done]. intros σ. unfold refuse_start, refused_at. by rewrite E.
Qed.

Lemma refuse_start_does b σ p ws {A} reason st
    (Q : rows -> result start_exn (ShopifyExecutionResult + A) -> writes -> Prop) :
  tx_at σ p ws -> (forall r, unsaved false false r -> Q p (Ok (inl r)) []) ->
  does b σ p ws (refuse_start reason st) Q.
Proof.
  intros Hat HQ. destruct (@refuse_start_pure A reason st) as (r & Hp & Hr).
  eapply (does_ext b σ p ws _ (a_ret (inl r))); [by rewrite Hp |].
  apply does_ret; [done | by apply HQ].
Qed.

(** What the checks before the call have seen of the conversation and of the
    breaker, in rows that the others had left on the way from [p] to [q]. *)
Record cleared a e (started : datetime) p q : Prop := {
  cl_authorized : exists p0 (c : Ctx), can p p0 /\ can p0 q
    /\ conv_at p0 (a_conversation_id (at_authorization a)) = Some c
    /\ stored_authorization_reason sha256_hex a e c = Ok None;
  cl_breaker : exists p0 b d, can p p0 /\ can p0 q
    /\ breaker_result p0 (s_provider_id (at_step a)) (step_market a) started = Ok b
    /\ Breaker.assess_execution_permission b (at_operational_status a) (at_kill_switch a) started = Ok d
    /\ Breaker.execution_permitted d = true
    /\ _probe_reason sha256_hex (Breaker.breaker d) a started = Ok None
}.

Lemma cleared_later a e started p' p q q' :
  can p' p -> can q q' -> cleared a e started p q -> cleared a e started p' q'.
Proof.
  intros H1 H2 [(p0 & c & H3 & H4 & H5) (p2 & b & d & H6 & H7 & H8)].
  split; [exists p0, c | exists p2, b, d];
    (split; [by eapply (can_trans sha256_hex cfg) |]; split; [by eapply (can_trans sha256_hex cfg) | done]).
Qed.

Lemma blocked_text s status ks now d :
  Breaker.assess_execution_permission s status ks now = Ok d -> Breaker.execution_permitted d = false ->
  exists reason, Breaker.block_reason d = Some reason.
Proof.
  unfold Breaker.assess_execution_permission, Breaker.make_decision. intros H Hp.
  repeat (res_step || case_match); simplify_eq/=; eauto.
Qed.

Lemma authorization_does b σ p a e :
  tx_at σ p [] ->
  does b σ p [] (_authorization_reason sha256_hex a e) (fun q r vs =>
    match r with
    | Ok None => vs = [] /\ exists c : Ctx, conv_at q (a_conversation_id (at_authorization a)) = Some c
                  /\ stored_authorization_reason sha256_hex a e c = Ok None
    | Ok (Some _) => True
    | Err _ => vs = []
    end).
Proof.
  intros Hat. unfold _authorization_reason. apply does_bind.
  eapply does_on; [apply (load_conversation_law sha256_hex cfg); [done | apply not_elem_of_nil] | | done].
  intros q r vs [Hcan _] _ [(-> & -> & _) | (-> & -> & _)]; intros σ' Hat'.
  2: by apply does_ret.
  destruct (conv_at q _) as [c|] eqn:Ec; [| by apply does_ret].
  apply does_lift; [done |]. destruct (stored_authorization_reason _ a e c) as [[r|]|x] eqn:Er; [done | | done].
  split; [done |]. by exists c.
Qed.

Lemma pre_transport_does b σ p a e started :
  tx_at σ p [] ->
  does b σ p [] (_pre_transport_reason sha256_hex a e started) (fun q r vs =>
    match r with
    | Ok None => vs = [] /\ claim_reason sha256_hex a e started = Ok None /\ cleared a e started p q
    | Ok (Some _) => True
    | Err _ => vs = []
    end).
Proof.
  intros Hat. unfold _pre_transport_reason. apply does_bind.
  destruct (claim_reason sha256_hex a e started) as [early|x] eqn:Ec; [| by apply does_lift].
  apply does_lift; [done |]. simpl app. intros σ1 Hat1. destruct early as [reason|]; [by apply does_ret |].
  apply does_bind. eapply does_weaken; [by apply authorization_does |].
  intros q r vs [Hcan _] _ Hr. destruct r as [[reason|]|x]; [| | done].
  { intros σ2 Hat2. by apply does_ret. }
  destruct Hr as (-> & c & Hc & Ha). simpl app. intros σ2 Hat2. apply does_bind.
  eapply does_on; [by apply (load_breaker_law sha256_hex cfg) | | done].
  intros q2 r vs [Hcan2 _] _ [-> ->]. change (view [] q2) with q2.
  destruct (breaker_result q2 _ _ _) as [s|x] eqn:Eb; [| done]. simpl app. intros σ3 Hat3.
  apply does_bind. destruct (Breaker.assess_execution_permission _ _ _ _) as [d|x] eqn:Ed;
    [| by apply does_lift]. apply does_lift; [done |]. simpl app. intros σ4 Hat4.
  destruct (Breaker.execution_permitted d) eqn:Ep; cbn [negb].
  2:{ apply does_ret; [done |].
       by destruct (blocked_text _ _ _ _ _ Ed Ep) as (reason & ->). }
  apply does_lift; [done |]. destruct (_probe_reason _ _ _ _) as [[reason|]|x] eqn:Eq; [done | | done].
  split; [done |]. split; [done |]. split.
  - exists q, c. done.
  - exists q2, s, d. split; [by eapply (can_trans sha256_hex cfg) |].
    split; [by eapply can_self |]. done.
Qed.

(** An attempt that will be sent: what it found, and the running row [c] holds. *)
Record attempting a (started : datetime) p q (c : _PreparedCall) (i : string) e : Prop := {
  an_id : execution_id_of a = Ok i;
  an_exec : exec_at q i = Some e;
  an_claim : claim_reason sha256_hex a e started = Ok None;
  an_cleared : cleared a e started p q;
  an_row : pc_execution c = Pins.replacement e
             (set_running a started (_request_digest sha256_hex a) e) (revision e);
  an_body : _catalog_payload a = Ok (pc_payload c);
  an_headers : pc_headers c = anonymous_http_headers;
  an_digest : pc_request_digest c = _request_digest sha256_hex a
}.

(** A row that still has the revision that was read is the row that was read. *)
Lemma same_revision p q i e c :
  exec_at p i = Some e -> can p q -> exec_at q i = Some c -> revision c = revision e -> c = e.
Proof.
  intros E Hcan Ec Hr. pose proof (Starts.can_newer p q i Hcan) as H. rewrite E, Ec in H.
  destruct H as (e' & [= <-] & [-> | Hlt]); [done | lia].
Qed.

Lemma store_running_does b σ p i a e row body headers digest :
  tx_at σ p [] -> execution_id row = i ->
  does b σ p [] (store_running a e row body headers digest) (fun q r vs =>
    match r with
    | Ok (inl x) => unsaved false false x
    | Ok (inr c) => vs = [WExec (pc_execution c)]
        /\ cas_result (exec_at q i) row (revision e) = Ok (pc_execution c)
        /\ c = {| pc_execution := pc_execution c; pc_payload := body; pc_headers := headers;
                  pc_request_digest := digest |}
    | Err _ => vs = []
    end).
Proof.
  intros Hat Hi. destruct (@refuse_start_pure _PreparedCall "stale_claim_rejected"
                             (Some (state_value (state e)))) as (x & Hx & Hu).
  eapply (does_map b σ p [] (Service.on (cas_execution row (revision e))) _ (fun r =>
    match r with
    | Ok stored => Ok (inr {| pc_execution := stored; pc_payload := body; pc_headers := headers;
                              pc_request_digest := digest |})
    | Err (StartTx (TxExecution (AuthorizedExecutionRevisionConflict _ _))) => Ok (inl x)
    | Err x => Err x
    end)).
  { unfold store_running. destruct (Service.on _ σ) as [[s|[[[]| | |]| | | | |]] σ']; try done; by rewrite Hx. }
  eapply does_on; [by apply (cas_execution_law sha256_hex cfg) | | done].
  intros q r vs _ _ Hr. change (view [] q) with q in Hr. rewrite Hi in Hr.
  destruct (cas_result _ row _) as [s|y] eqn:Ec.
  - destruct Hr as [-> ->]. done.
  - destruct Hr as [-> ->]. by destruct y.
Qed.

Lemma begin_does b σ p a started :
  tx_at σ p [] ->
  does b σ p [] (_begin_attempt sha256_hex a started) (fun q r vs =>
    match r with
    | Ok (inl x) => unsaved false false x
    | Ok (inr c) => vs = [WExec (pc_execution c)] /\ exists i e, attempting a started p q c i e
    | Err _ => vs = []
    end).
Proof.
  intros Hat. unfold _begin_attempt. apply does_bind.
  destruct (execution_id_of a) as [i|v] eqn:Hi; [| by apply does_lift].
  apply does_lift; [done |]. simpl app. intros σ1 Hat1. apply does_bind.
  eapply does_on; [by apply (load_law sha256_hex cfg) | | done].
  intros p1 r vs [Hcan1 _] _ [-> ->]. simpl app. intros σ2 Hat2. change (view [] p1) with p1.
  destruct (exec_at p1 i) as [e|] eqn:Ee; [| by apply refuse_start_does].
  destruct (ok_exec cfg p1 (tx_rows_ok sha256_hex cfg σ2 p1 [] Hat2) i e Ee) as [_ Hid].
  cbv zeta. apply does_bind. eapply does_weaken; [by apply pre_transport_does |].
  intros p2 r vs [Hcan2 _] _ Hr. destruct r as [[reason|]|x]; [| | done].
  { intros σ3 Hat3. by apply refuse_start_does. }
  destruct Hr as (-> & Hclaim & Hclear). simpl app. intros σ3 Hat3.
  destruct (_catalog_payload a) as [body|x] eqn:Eb; [| by apply refuse_start_does].
  change (carries_credentials anonymous_http_headers) with false. cbn iota.
  apply does_bind. destruct (make_execution _) as [row|x] eqn:Er; [| by apply does_lift].
  apply make_execution_ok in Er as [-> Hrow].
  apply does_lift; [done |]. simpl app. intros σ4 Hat4.
  eapply does_weaken; [by apply (store_running_does b σ4 p2 i) |].
  intros q r vs [Hcan3 _] _ Hr. destruct r as [[x|c]|x]; [done | | done].
  destruct Hr as (-> & Hcas & ->). split; [done |]. exists i, e.
  assert (can p1 q) as Hcan by by eapply (can_trans sha256_hex cfg).
  apply cas_result_ok in Hcas as (e' & Eq & Hrev & _ & Hs & _).
  assert (e' = e) as -> by by eapply same_revision.
  split; try done. eapply (cleared_later a e started p p1 p2 q); [exact Hcan1 | done | done].
Qed.

(** The first transaction: refused or failed, and only the others moved the
    rows; or the running row is committed, in one step. *)
Lemma start_settles σ p a started :
  tx_at σ p [] ->
  settles (sha256_hex := sha256_hex) (cfg := cfg) σ (start_phase sha256_hex a started) (fun p' r =>
    match r with
    | Ok (inl x) => can p p' /\ unsaved false false x
    | Ok (inr c) => exists q i e, can p q /\ attempting a started p q c i e
                      /\ p' = view [WExec (pc_execution c)] q
    | Err _ => can p p'
    end).
Proof.
  intros Hat. apply settles_closing.
  destruct (@refuse_start_pure _PreparedCall "attempt_persistence_unavailable" None) as (u & Hu & Huns).
  assert (forall σ' q ws, can p q -> tx_at σ' q ws ->
    settles (sha256_hex := sha256_hex) (cfg := cfg) σ'
      (Adapter.rolled_back (refuse_start (A := _PreparedCall) "attempt_persistence_unavailable" None))
      (fun p' r => exists x, r = Ok (inl x) /\ can p p' /\ unsaved false false x)) as Hfail.
  { intros σ' q ws Hcan Hat'. eapply (settles_rolled_back σ' q ws _ _ _ Hat' Hu).
    intros q' Hcan' _. exists u. split; [done |]. split; [by eapply (can_trans sha256_hex cfg) | done]. }
  eapply (settles_guarded false σ p _ _ _ (fun q r vs =>
    match r with
    | Ok (inl x) => unsaved false false x
    | Ok (inr c) => vs = [WExec (pc_execution c)] /\ exists i e, attempting a started p q c i e
    | Err _ => vs = []
    end)); [done | |].
  { apply does_bind. eapply does_on; [by apply (lock_law sha256_hex cfg) | | done].
    intros q r vs [Hcan _] _ [-> ->]. simpl app. intros σ1 Hat1.
    eapply does_weaken; [by apply begin_does |]. intros q2 [[x|c]|x] vs [Hcan2 _] _ H; try done.
    destruct H as (-> & i & e & [H1 H2 H3 H4 H5]). split; [done |]. exists i, e. split; try done.
    eapply cleared_later; [exact Hcan | by eapply can_end | exact H4]. }
  intros q r vs σ' Hcan _ Hat' H. destruct r as [[x|c]|x].
  - eapply (settles_rolled_back σ' q vs _ (Ok (inl x))); [done | done |].
    intros q' Hcan' _. split; [by eapply (can_trans sha256_hex cfg) | done].
  - destruct H as (-> & i & e & H).
    apply (settles_commit σ' q [WExec (pc_execution c)] (inr c)); [done | |].
    + intros q' [Hcan' Hsame] _. exists q', i, e. split; [by eapply (can_trans sha256_hex cfg) |].
      split; [| done]. destruct H as [H1 H2 H3 H4 H5]. split; try done.
      * rewrite <- H2. symmetry. apply (Hsame (KExec i)). rewrite H5. simpl.
        destruct (ok_exec cfg q (tx_rows_ok sha256_hex cfg σ' q _ Hat') i e H2) as [_ ->].
        by apply list_elem_of_singleton.
      * by eapply cleared_later; [eapply can_self | exact Hcan' |].
    + intros q' σ2 Hcan' _ Hat2. eapply settles_weaken; [eapply Hfail; [| done] |].
      { by eapply (can_trans sha256_hex cfg). }
      by intros p' r (y & -> & Hy).
  - assert (vs = [] /\ can p q) as [-> Hc] by done.
    destruct x as [x|x|x|x| |x]; try done.
    destruct (Service.persistence_failure x); [| done].
    eapply settles_then; [by apply (Hfail σ' q []) |]. intros p' r σ2 Hat2 (y & -> & Hc2 & Hy).
    eapply (settles_rolled_back σ2 p' [] _ (Ok (inl y))); [done | done |].
    intros q' Hcan' _. split; [by eapply (can_trans sha256_hex cfg) | done].
Qed.

(** *** The outcome *)

Lemma refuse_sent_settles σ p q ws {A} reason st invoked (Q : rows -> result start_exn (ShopifyExecutionResult + A) -> Prop) :
  tx_at σ q ws -> can p q ->
  (forall p' x, can p p' -> unsaved true invoked x -> Q p' (Ok (inl x))) ->
  settles (sha256_hex := sha256_hex) (cfg := cfg) σ (refuse_sent reason st invoked) Q.
Proof.
  intros Hat Hcan HQ. destruct (refused_unsaved reason true invoked st [] false) as (x & E & Hx & _); [done |].
  eapply (settles_rolled_back σ q ws _ (Ok (inl x))); [done | intros σ'; by rewrite E |].
  intros q' Hcan' _. apply HQ; [by eapply (can_trans sha256_hex cfg) | done].
Qed.

(** The next breaker state is well formed, under the key of the one before. *)
Lemma next_breaker_ok b (i : _Interpreted) finished n :
  Breaker.wf b -> dt_aware finished = true -> _next_breaker policy b i finished = Ok n ->
  Breaker.wf n /\ RepoInterface.key_of n = RepoInterface.key_of b.
Proof.
  intros Hb Hnow. unfold _next_breaker. destruct (success i).
  - rewrite Breaker.record_success_ok by done. intros [= <-]. split; [by apply Breaker.wf_succeeded |].
    unfold Breaker.succeeded. by destruct (bool_decide _).
  - destruct (ShopifyCatalog.Response.failure_kind i) as [k|]; [| done].
    rewrite Breaker.record_failure_ok by done. cbn [breaker_part rbind].
    pose proof (Breaker.wf_failed b k finished policy Hb Hnow) as Hf.
    pose proof (RepoInterface.key_of_failed b k finished policy) as Hk.
    destruct (_ && _); [| by intros [= <-]].
    destruct (Breaker.post_init _) as [s|] eqn:Es; [| done]. intros [= <-].
    apply Breaker.post_init_iff in Es as (Hs & E & Hkey). split; [done |]. rewrite <- Hk.
    destruct (Breaker.wf_identity _ Hf) as [Hid _]. simpl in Hkey. rewrite Hid in Hkey.
    unfold RepoInterface.key_of in *. by injection Hkey.
Qed.

Notation outcome_writes saved b next :=
  [WExec saved; WBreaker (Breaker.set_revision (Breaker.revision b + 1) next)].

(** An error the second transaction turns into a refusal. *)
Definition refusable (x : start_exn) : Prop :=
  exists y, x = StartTx y /\ (stale_outcome y = true \/ Service.persistence_failure y = true).

(** The three calls of the save: all of it over the rows that were read, or
    an error. *)
Lemma save_leaves σ p p1 p2 e b next record provider market finished :
  tx_at σ p [] -> can p1 p -> can p2 p -> rows_ok cfg p2 ->
  exec_at p1 (execution_id record) = Some e ->
  breaker_result p2 provider market finished = Ok b ->
  Breaker.wf next -> RepoInterface.key_of next = RepoInterface.key_of b -> 0 <= Breaker.revision b ->
  leaves (sha256_hex := sha256_hex) (cfg := cfg) σ (save_outcome record e next b) (fun p' ws r =>
    match r with
    | Ok saved => ws = [] /\ exists q, can p q /\ exec_at q (execution_id record) = Some e
        /\ breaker_result q provider market finished = Ok b
        /\ saved = Pins.replacement e record (revision e)
        /\ execution_check saved = Ok tt /\ p' = view (outcome_writes saved b next) q
    | Err x => can p p' /\ (ws = [] \/ refusable x)
    end).
Proof.
  intros Hat Hc1 Hc2 Hok He Hb Hn Hkey Hrev. unfold save_outcome.
  assert (refusable (StartTx TxUnavailable)) as Hdown by (eexists; split; [done | by right]).
  eapply leaves_on; [by apply (cas_execution_law sha256_hex cfg) | |].
  { intros q [Hcan _]. auto. }
  intros q1 r vs σ1 [Hcan1 _] Hat1 Hr. cbv beta in Hr. change (view [] q1) with q1 in Hr.
  destruct (cas_result (exec_at q1 (execution_id record)) record (revision e)) as [saved|x] eqn:Ec;
    destruct Hr as [-> ->]; [| by split; [| left]].
  pose proof Ec as (c & Ec1 & Erev & _ & Hsaved & Hcheck)%cas_result_ok.
  assert (c = e) as ->.
  { eapply same_revision; [exact He | | exact Ec1 | exact Erev]. by eapply (can_trans sha256_hex cfg). }
  assert (execution_id saved = execution_id record) as Hid by by rewrite Hsaved.
  eapply leaves_on; [by apply (cas_breaker_law sha256_hex cfg) | |].
  { intros q [Hcan _]. split; [by eapply (can_trans sha256_hex cfg) | by right]. }
  intros q2 r vs σ2 [Hcan2 Hsame2] Hat2 Hr. cbv beta in Hr. unfold swap_breaker_result in Hr.
  change (brk_at (view ([] ++ [WExec saved]) q2)) with (brk_at q2) in Hr. rewrite Hkey in Hr.
  assert (can p q2) as Hp2 by by eapply (can_trans sha256_hex cfg).
  destruct (Z.eqb_spec (RepoInterface.row_revision (brk_at q2 (RepoInterface.key_of b))) (Breaker.revision b))
    as [Eb | Eb]; destruct Hr as [-> ->].
  2: { split; [done | right]. eexists. split; [done | by left]. }
  eapply leaves_commit; [exact Hat2 |]. intros q3 [Hcan3 Hsame3].
  assert (can p q3) as Hp3 by by eapply (can_trans sha256_hex cfg).
  split; [| split; [done | by right]]. split; [done |]. exists q3. split; [done |].
  split; [| split; [| by repeat split]].
  - rewrite <- Ec1. symmetry. transitivity (exec_at q2 (execution_id record)).
    + apply (Hsame2 (KExec (execution_id record))). rewrite <- Hid. by apply list_elem_of_singleton.
    + apply (Hsame3 (KExec (execution_id record))). rewrite <- Hid. by apply elem_of_cons; left.
  - eapply same_breaker; [exact Hb | exact Hok | by eapply (can_trans sha256_hex cfg) |].
    rewrite <- Eb. f_equal. symmetry. apply (Hsame3 (KBreaker (RepoInterface.key_of b))).
    rewrite <- Hkey. apply elem_of_cons. right. by apply list_elem_of_singleton.
Qed.

Lemma store_settles σ p invoked (m : act T start_exn Execution) D
    (Q : rows -> result start_exn (ShopifyExecutionResult + Execution) -> Prop) :
  leaves (sha256_hex := sha256_hex) (cfg := cfg) σ m D ->
  (forall q ws r, D q ws r ->
     match r with
     | Ok saved => ws = [] /\ Q q (Ok (inr saved))
     | Err x => can p q /\ (ws = [] \/ refusable x)
     end) ->
  (forall p' x, can p p' -> unsaved true invoked x -> Q p' (Ok (inl x))) ->
  (forall p' x, can p p' -> Q p' (Err x)) ->
  settles (sha256_hex := sha256_hex) (cfg := cfg) σ (store_outcome invoked m) Q.
Proof.
  intros (q & ws & Hat & HD) H Hgive Herr. specialize (H _ _ _ HD). unfold settles, store_outcome.
  destruct (m σ) as [[saved|x] σ'] eqn:E; cbn [fst snd] in *; [destruct H as [-> HQ]; by exists q |].
  destruct H as [Hcan Hx].
  assert (forall reason, settles (sha256_hex := sha256_hex) (cfg := cfg) σ'
            (refuse_sent reason running_text invoked) Q) as Hg.
  { intros reason. by eapply refuse_sent_settles. }
  destruct x as [x|x|x|x| |x].
  1: { destruct (stale_outcome x) eqn:E1; [apply Hg |].
       destruct (Service.persistence_failure x) eqn:E2; [apply Hg |].
       destruct Hx as [-> | (y & [= <-] & [? | ?])]; [| congruence..].
       exists q. split; [done | by apply Herr]. }
  all: destruct Hx as [-> | (y & [=] & _)]; exists q; split; [done | by apply Herr].
Qed.

(** The rows of an outcome, and what they were made of. *)
Record outcome_of a (call : _PreparedCall) (i : _Interpreted) (finished : datetime) q
    (saved e record : Execution) (b next : Breaker.ProviderReliabilityState) : Prop := {
  oc_exec : exec_at q (execution_id (pc_execution call)) = Some e;
  oc_running : state e = running;
  oc_holder : exists ck, _validate_running_claim sha256_hex e (at_claim_capability a) finished = Ok ck
                /\ ck_valid ck = true;
  oc_breaker : breaker_result q (s_provider_id (at_step a)) (step_market a) finished = Ok b;
  oc_probe : _probe_reason sha256_hex b a finished = Ok None;
  oc_open : success i && bool_decide (Breaker.state b = OPEN) = false;
  oc_next : _next_breaker policy b i finished = Ok next;
  oc_record : _terminal_record sha256_hex e a finished (trace_status (attempt_status i))
                (i_error_category i) (offers i) (Some (pc_request_digest call))
                (_stored_observation_kind (success i)
                   (production_live_evidence_authorized (at_permit a) transport)) = Ok record;
  oc_saved : saved = Pins.replacement e record (revision e);
  oc_valid : execution_check saved = Ok tt
}.

(** How the second transaction ends. *)
Definition outcome_ends p a call i finished invoked p'
    (r : result start_exn (ShopifyExecutionResult + Execution)) : Prop :=
  match r with
  | Ok (inl x) => can p p' /\ unsaved true invoked x
  | Ok (inr saved) => exists q e record b next, can p q
      /\ outcome_of a call i finished q saved e record b next
      /\ p' = view (outcome_writes saved b next) q
  | Err _ => can p p'
  end.

Lemma terminal_record_ok e a finished st category os digest kind record :
  _terminal_record sha256_hex e a finished st category os digest kind = Ok record ->
  exists started t, attempt_started_at e = Some started
    /\ attempt_trace a started finished st category (Z.of_nat (length os)) = Ok t
    /\ record = set_terminal sha256_hex finished st category os digest kind t e
    /\ execution_check record = Ok tt.
Proof.
  unfold _terminal_record. destruct (attempt_started_at e) as [started|]; [| done].
  destruct (attempt_trace _ _ _ _ _ _) as [t|] eqn:Et; [| done]. cbn [rbind].
  intros [-> H]%make_execution_ok. exists started, t. done.
Qed.

Lemma record_settles σ p p1 a call i finished invoked :
  dt_aware finished = true -> tx_at σ p1 [] -> can p p1 ->
  settles (sha256_hex := sha256_hex) (cfg := cfg) σ
    (record_outcome sha256_hex transport policy a call i finished invoked
       (exec_at p1 (execution_id (pc_execution call))))
    (outcome_ends p a call i finished invoked).
Proof.
  intros Hnow Hat Hcan. unfold record_outcome.
  assert (forall σ' q reason st, can p q -> tx_at σ' q [] ->
    settles (sha256_hex := sha256_hex) (cfg := cfg) σ' (refuse_sent reason st invoked)
      (outcome_ends p a call i finished invoked)) as Hgive.
  { intros σ' q reason st Hq Hat'. eapply refuse_sent_settles; [exact Hat' | exact Hq |]. by simpl. }
  destruct (exec_at p1 _) as [e|] eqn:Ee; [| by eapply Hgive].
  destruct (ok_exec cfg p1 (tx_rows_ok sha256_hex cfg σ p1 [] Hat) _ e Ee) as [_ Hid]. cbv zeta.
  destruct (bool_decide_reflect (state e = running)) as [Hrun | _]; cbn [negb]; [| by eapply Hgive].
  eapply settles_lift; [exact Hat |].
  destruct (_validate_running_claim _ _ _ _) as [ck|x] eqn:Eck; cbn [value_part]; [| done].
  destruct (ck_valid ck) eqn:Eval; cbn [negb]; [| by eapply Hgive].
  eapply settles_on; [by apply (load_breaker_law sha256_hex cfg) | |].
  { intros q Hq. simpl. by eapply (can_trans sha256_hex cfg). }
  intros p2 r vs σ2 Hcan2 Hat2 [-> ->]. change (view [] p2) with p2.
  assert (can p p2) as Hp2 by by eapply (can_trans sha256_hex cfg).
  pose proof (tx_rows_ok sha256_hex cfg σ2 p2 [] Hat2) as Hok2.
  pose proof (breaker_result_wf p2 (s_provider_id (at_step a)) (step_market a) finished Hok2 Hnow) as Hb.
  destruct (breaker_result p2 _ _ _) as [b|x] eqn:Eb; [| done].
  eapply settles_lift; [exact Hat2 |].
  destruct (_probe_reason _ b a finished) as [[reason|]|x] eqn:Ep; [by eapply Hgive | | done].
  destruct (success i && _) eqn:Eo; [by eapply Hgive |].
  eapply settles_lift; [exact Hat2 |].
  destruct (_next_breaker policy b i finished) as [next|x] eqn:En; [| done].
  eapply settles_lift; [exact Hat2 |].
  destruct (_terminal_record _ _ _ _ _ _ _ _ _) as [record|x] eqn:Er; cbn [value_part]; [| done].
  destruct (next_breaker_ok b i finished next Hb Hnow En) as [Hn Hk].
  pose proof (terminal_record_ok _ _ _ _ _ _ _ _ _ Er) as (started & t & _ & _ & Hrec & _).
  assert (execution_id record = execution_id (pc_execution call)) as Hrid by by rewrite Hrec.
  eapply (store_settles σ2 p).
  - apply (save_leaves σ2 p2 p1 p2 e b next record (s_provider_id (at_step a)) (step_market a) finished); try done.
    + by eapply can_self.
    + by rewrite Hrid.
    + apply (Breaker.wf_revision _ Hb).
  - intros q ws [saved|x].
    + intros (-> & q' & Hq & He & Hbq & Hs & Hv & ->). split; [done |].
      exists q', e, record, b, next. split; [by eapply (can_trans sha256_hex cfg) |].
      split; [| done]. split; try done; [by rewrite <- Hrid | by exists ck].
    + intros [Hq Hx]. split; [by eapply (can_trans sha256_hex cfg) | done].
  - by simpl.
  - by simpl.
Qed.

(** The second transaction: the outcome and the breaker in one step over the
    running row it is for, or nothing. *)
Lemma outcome_settles σ p a call i finished invoked :
  dt_aware finished = true -> tx_at σ p [] ->
  settles (sha256_hex := sha256_hex) (cfg := cfg) σ
    (outcome_phase sha256_hex transport policy a call i finished invoked)
    (outcome_ends p a call i finished invoked).
Proof.
  intros Hnow Hat. apply settles_closing.
  eapply (settles_guarded false σ p _ _ _ (fun q r vs => vs = [] /\
    match r with
    | Ok found => found = inr (exec_at q (execution_id (pc_execution call)))
    | Err _ => True
    end)); [done | |].
  { apply does_bind. eapply does_on; [by apply (lock_law sha256_hex cfg) | | done].
    intros q r vs _ _ [-> ->]. simpl app. intros σ1 Hat1. apply does_bind.
    eapply does_on; [by apply (reload_law sha256_hex cfg) | | done].
    intros q1 r vs _ _ [-> ->]. simpl app. intros σ2 Hat2. by apply does_ret. }
  intros q r vs σ' Hcan _ Hat' [-> Hr]. destruct r as [found|x].
  - subst found. by apply record_settles.
  - destruct x as [x|x|x|x| |x]; try done.
    destruct (Service.persistence_failure x); [| done].
    eapply settles_then; [eapply (refuse_sent_settles σ' p q [] _ _ _ (fun p' r => exists x, r = Ok (inl x) /\ can p p' /\ unsaved true invoked x)); [done | done |] |].
    { intros p' y Hp' Hy. by exists y. }
    intros p' r σ2 Hat2 (y & -> & Hp' & Hy). by apply (settles_pure σ2 p' _ (Ok (inl y))).
Qed.

(** *** Reconciliation *)

(** A running row past its claim, and the record that closes it. *)
Record lost a finished q i e record : Prop := {
  lo_exec : exec_at q i = Some e;
  lo_running : state e = running;
  lo_expired : reached (claim_expires_at e) finished = true;
  lo_record : _terminal_record sha256_hex e a finished outcome_unknown (Some "outcome_unknown"%string) []
                (request_digest e) None = Ok record;
  lo_valid : execution_check (Pins.replacement e record (revision e)) = Ok tt
}.

Definition reconciled p a finished (i : string) p'
    (r : result start_exn (ShopifyExecutionResult + Execution)) : Prop :=
  match r with
  | Ok (inl x) => can p p' /\ er_persisted x = false
  | Ok (inr saved) => exists q e record, can p q /\ lost a finished q i e record
      /\ saved = Pins.replacement e record (revision e) /\ p' = view [WExec saved] q
  | Err _ => can p p'
  end.

Lemma refuse_other_settles σ p q ws {A} reason st
    (Q : rows -> result start_exn (ShopifyExecutionResult + A) -> Prop) :
  tx_at σ q ws -> can p q ->
  (forall p' x, can p p' -> er_persisted x = false -> Q p' (Ok (inl x))) ->
  settles (sha256_hex := sha256_hex) (cfg := cfg) σ (refuse_other reason st) Q.
Proof.
  intros Hat Hcan HQ. destruct (@refuse_start_pure A reason st) as (x & Hx & Hu).
  eapply (settles_rolled_back σ q ws _ _ _ Hat Hx). intros q' Hcan' _.
  apply HQ; [by eapply (can_trans sha256_hex cfg) | apply Hu].
Qed.

Lemma reconcile_row_settles σ p p1 a i finished :
  tx_at σ p1 [] -> can p p1 ->
  settles (sha256_hex := sha256_hex) (cfg := cfg) σ
    (reconcile_row sha256_hex a finished (exec_at p1 i)) (reconciled p a finished i).
Proof.
  intros Hat Hcan. unfold reconcile_row.
  assert (forall reason, settles (sha256_hex := sha256_hex) (cfg := cfg) σ (refuse_running reason)
            (reconciled p a finished i)) as Hrunning.
  { intros reason. eapply refuse_sent_settles; [exact Hat | exact Hcan |]. intros p' x ? Hx. split; [done | apply Hx]. }
  destruct (exec_at p1 i) as [e|] eqn:Ee; [| by eapply refuse_other_settles].
  destruct (ok_exec cfg p1 (tx_rows_ok sha256_hex cfg σ p1 [] Hat) i e Ee) as [_ Hid].
  destruct (bool_decide_reflect (state e = running)) as [Hrun | _]; cbn [negb];
    [| by eapply refuse_other_settles].
  destruct (reached (claim_expires_at e) finished) eqn:Ex; cbn [negb]; [| apply Hrunning].
  destruct (reached (attempt_started_at e) finished); cbn [negb]; [| apply Hrunning].
  eapply settles_lift; [exact Hat |].
  destruct (_terminal_record _ _ _ _ _ _ _ _ _) as [record|x] eqn:Er; cbn [value_part]; [| done].
  pose proof (terminal_record_ok _ _ _ _ _ _ _ _ _ Er) as (started & t & _ & _ & Hrec & _).
  assert (execution_id record = i) as Hrid by by rewrite Hrec.
  eapply (store_settles σ p _ _ (fun p' ws r =>
    match r with
    | Ok saved => ws = [] /\ reconciled p a finished i p' (Ok (inr saved))
    | Err x => can p p' /\ (ws = [] \/ refusable x)
    end)); [| by intros | intros p' x ? Hx; split; [done | apply Hx] | by simpl].
  assert (refusable (StartTx TxUnavailable)) as Hdown by (eexists; split; [done | by right]).
  eapply leaves_on; [by apply (cas_execution_law sha256_hex cfg) | |].
  { intros q [Hq _]. split; [by eapply (can_trans sha256_hex cfg) | by left]. }
  intros q1 r vs σ1 [Hcan1 _] Hat1 Hr. cbv beta in Hr. change (view [] q1) with q1 in Hr. rewrite Hrid in Hr.
  assert (can p q1) as Hpq by by eapply (can_trans sha256_hex cfg).
  destruct (cas_result _ record (revision e)) as [saved|x] eqn:Ec; destruct Hr as [-> ->];
    [| by split; [| left]].
  apply cas_result_ok in Ec as (c & Ec1 & Erev & _ & Hsaved & Hcheck).
  assert (c = e) as -> by by eapply same_revision.
  eapply leaves_commit; [exact Hat1 |]. intros q2 [Hcan2 Hsame].
  assert (can p q2) by by eapply (can_trans sha256_hex cfg).
  split; [| by split; [| right]]. split; [done |]. exists q2, e, record.
  split; [done |]. split; [| done]. split; try done; [| by rewrite <- Hsaved].
  rewrite <- Ec1. symmetry. apply (Hsame (KExec i)). rewrite Hsaved. simpl. rewrite Hrid.
  by apply list_elem_of_singleton.
Qed.
End Phases.
End Phases.

(** ** What is reported *)
Module Reports.
Import Settling Phases.
Section Reports.
Context {Refinement T : Type} `{CT : !ClaimTransaction Refinement T}.
Context {sha256_hex : string -> string} {cfg : settings}
        `{L : !TransactionLaws (Refinement := Refinement) (T := T) sha256_hex cfg}.
Context {transport : JsonPostTransport} {policy : Breaker.BreakerPolicy}
        {normalize : dict value -> dict value -> datetime -> string ->
                     result normalize_exn ShopifyNormalizedOffer}.
Implicit Types (a : ShopifyCatalogAttempt) (e : Execution) (i : _Interpreted).

(** A success has offers; a failure has none, and a kind. *)
Definition interpreted i : Prop :=
  if success i then attempt_status i = attempt_succeeded /\ offers i <> []
  else attempt_status i <> attempt_succeeded /\ offers i = [].

Lemma interpret_shape r checked production i :
  _interpret normalize r checked production = Ok i -> interpreted i.
Proof.
  unfold _interpret, not_interpreted. intros H. unfold interpreted.
  repeat (res_step || case_match); simplify_eq/=; try congruence; by split.
Qed.

(** The permit the local checks let through: what it proves, and what its
    results may say. *)
Lemma local_authority a :
  local_reason a transport = None ->
  if production_live_evidence_authorized (at_permit a) transport
  then _result_authority (at_permit a) = production_authority
       /\ exists authority, transport = UrllibJsonTransport (Some authority)
                         /\ proves_production_transport authority = true
  else _result_authority (at_permit a) = synthetic_authority.
Proof.
  unfold local_reason, _result_authority, production_live_evidence_authorized. intros H.
  destruct (at_permit a); simpl in *; try done.
  destruct transport as [[authority|]|]; simpl in *; try done.
  destruct (proves_production_transport authority) eqn:E; simpl in *; [eauto | done].
Qed.

Lemma facts_live a os :
  forallb fact_is_live (_offer_facts sha256_hex a os true) = true.
Proof. apply forallb_forall. intros f (o & <- & _)%in_map_iff. reflexivity. Qed.

Lemma facts_synthetic a os :
  existsb (fun f => one_of (f_observation_kind f) ["live"; "production"]%string
                    || String.eqb (f_source_mode f) "live") (_offer_facts sha256_hex a os false) = false.
Proof. induction os; simpl; done. Qed.

(** The pins of a valid row. *)
Lemma pins_present r :
  execution_check r = Ok tt ->
  nonempty (execution_id r) = true /\ nonempty (decision_id r) = true /\ nonempty (x_plan r) = true.
Proof.
  unfold execution_check. intros H.
  destruct (startswith _ (execution_id r)) eqn:E1; [| done]. cbn [negb guard_raise rbind] in H.
  destruct (py_true (authorization_id r)); [| done]. cbn [negb guard_raise rbind] in H.
  destruct (authorization_version r <? 1); [done |]. cbn [guard_raise rbind] in H.
  destruct (py_true (decision_id r)) eqn:E2; [| done].
  destruct (py_true (x_plan r)) eqn:E3; [| done].
  split; [by destruct (execution_id r) | done].
Qed.

Ltac simplify_checks :=
  cbn -[is_nil forallb existsb fact_is_live nonempty Z.of_nat];
  change (bool_decide (completed = completed)) with true;
  change (bool_decide (state_failed = completed)) with false;
  change (bool_decide (production_authority = no_authority)) with false;
  change (bool_decide (production_authority = production_authority)) with true;
  change (bool_decide (synthetic_authority = no_authority)) with false;
  change (bool_decide (synthetic_authority = production_authority)) with false;
  rewrite ?andb_false_r;
  cbn -[is_nil forallb existsb fact_is_live nonempty Z.of_nat].

(** A stored outcome is reported: no check of the result refuses it. *)
Lemma outcome_reported a call i finished invoked (q : rows Refinement) saved e record b next :
  local_reason a transport = None -> interpreted i ->
  outcome_of (sha256_hex := sha256_hex) (transport := transport) (policy := policy)
    a call i finished q saved e record b next ->
  exists x, outcome_result sha256_hex transport a i invoked saved = Ok x
    /\ er_persisted x = true /\ er_transport_invoked x = invoked
    /\ er_state x = Some (state_value (state saved)).
Proof.
  intros Hloc Hi Ho. destruct (terminal_record_ok _ _ _ _ _ _ _ _ _ (oc_record _ _ _ _ _ _ _ _ _ _ Ho))
    as (started & t & _ & _ & Hrec & _).
  pose proof (pins_present saved (oc_valid _ _ _ _ _ _ _ _ _ _ Ho)) as (Hp1 & Hp2 & Hp3).
  pose proof (oc_saved _ _ _ _ _ _ _ _ _ _ Ho) as Hs. rewrite Hrec in Hs. clear Ho Hrec.
  pose proof (local_authority a Hloc) as Hauth. unfold interpreted in Hi.
  unfold outcome_result, _verified_live_execution, _from_stored.
  assert (forall n : nat, Z.of_nat n <? 0 = false) as Hn by (intros n; apply Z.ltb_ge; lia).
  destruct (production_live_evidence_authorized (at_permit a) transport) eqn:El.
  - destruct Hauth as (-> & authority & -> & Hproof). destruct (success i) eqn:Es.
    + destruct Hi as [Hst Hos]. rewrite Hst in Hs.
      destruct (offers i) as [|o os]; [done |]. cbn [negb orb].
      pose proof (facts_live a (o :: os)) as Hf. set (facts := _offer_facts _ _ _ _) in *.
      assert (is_nil facts = false) as Hnil by done. rewrite Hnil. clearbody facts.
      assert (state saved = completed /\ x_outcome saved = Some "succeeded"%string
              /\ observation_kind saved = Some "production"%string) as (E1 & E2 & E3) by by rewrite Hs.
      rewrite E1, E2. unfold verified_check. simplify_checks. rewrite Hproof, Hp1, Hp2, Hp3, Hnil, Hf.
      unfold result_check, authority_check, durable_success. simplify_checks. rewrite E3. simplify_checks.
      rewrite Hf, Hs, ?andb_false_r. simplify_checks. rewrite !Hn. simplify_checks. eauto.
    + destruct Hi as [Hst Hos].
      assert (state saved = state_failed /\ observation_kind saved = None) as (E1 & E3).
      { rewrite Hs. destruct (attempt_status i); done. }
      simplify_checks. unfold result_check, authority_check, durable_success. simplify_checks.
      rewrite E1, E3. simplify_checks. rewrite Hs. simplify_checks. rewrite !Hn. simplify_checks. eauto.
  - rewrite Hauth. cbn [negb orb].
    set (facts := if success i then _offer_facts _ _ _ _ else []).
    assert (existsb (fun f => one_of (f_observation_kind f) ["live"; "production"]%string
              || String.eqb (f_source_mode f) "live") facts = false) as Hf.
    { unfold facts. destruct (success i); [apply facts_synthetic | done]. }
    clearbody facts.
    assert ((state saved = completed \/ state saved = state_failed)
            /\ observation_kind saved = Some "synthetic"%string) as (E1 & E3).
    { rewrite Hs. destruct (attempt_status i); simpl; auto. }
    unfold result_check, authority_check. simplify_checks. rewrite E3. simplify_checks.
    assert (evaluated_offer_count saved <? 0 = false /\ normalized_offer_count saved <? 0 = false)
      as [H1 H2] by (rewrite Hs; simpl; by rewrite !Hn).
    rewrite H1, H2. destruct E1 as [E1 | E1]; rewrite E1; simplify_checks; rewrite Hf; eauto.
Qed.

Lemma reconciled_reported a finished (q : rows Refinement) j e record :
  lost (sha256_hex := sha256_hex) a finished q j e record ->
  exists x, _from_stored (Pins.replacement e record (revision e)) false None [] [] no_authority None = Ok x
    /\ er_persisted x = true /\ er_transport_invoked x = false
    /\ er_state x = Some "outcome_unknown"%string /\ er_claim_released x = true.
Proof.
  intros [_ _ _ Hr _]. apply terminal_record_ok in Hr as (started & t & _ & _ & -> & _).
  eexists. split; [reflexivity | done].
Qed.
End Reports.
End Reports.

(** ** An attempt *)
Module Attempts.
Import Settling Phases Reports.
Section Attempts.
Context {Refinement T : Type} `{CT : !ClaimTransaction Refinement T}.
Context {sha256_hex : string -> string} {cfg : settings}
        `{L : !TransactionLaws (Refinement := Refinement) (T := T) sha256_hex cfg}.
Context (transport : JsonPostTransport) (post_json : http_call -> option CatalogTransportResult)
        (normalize : dict value -> dict value -> datetime -> string ->
                     result normalize_exn ShopifyNormalizedOffer)
        (policy : Breaker.BreakerPolicy).
Notation can := (TxInterface.can sha256_hex cfg).
Notation tx_at := (TxInterface.tx_at sha256_hex cfg).
Notation rows := (rows Refinement).
Notation execute := (execute sha256_hex transport post_json normalize policy).
Notation attempting := (attempting (sha256_hex := sha256_hex) (cfg := cfg)).
Notation outcome_of := (outcome_of (sha256_hex := sha256_hex) (transport := transport) (policy := policy)).
Implicit Types (p q : rows) (σ : T) (a : ShopifyCatalogAttempt) (e : Execution).

(** The rows an attempt leaves, from the rows [p1] with the running execution. *)
Inductive finished_attempt a (c : _PreparedCall) (finished : datetime) p1 :
    rows -> result adapter_exn ShopifyExecutionResult -> Prop :=
| LeftRunning p' r :
    can p1 p' ->
    match r with Ok x => er_attempted x = true /\ er_persisted x = false | Err _ => True end ->
    finished_attempt a c finished p1 p' r
| Stored response i q saved e record b next x :
    post_json (call_of c) = Some response ->
    _interpret normalize response finished
      (production_live_evidence_authorized (at_permit a) transport) = Ok i ->
    can p1 q -> outcome_of a c i finished q saved e record b next ->
    er_persisted x = true -> er_state x = Some (state_value (state saved)) ->
    finished_attempt a c finished p1
      (view [WExec saved; WBreaker (Breaker.set_revision (Breaker.revision b + 1) next)] q) (Ok x).

(** How [execute] ends. *)
Inductive attempt_ends a (started finished : datetime) p :
    list http_call -> rows -> result adapter_exn ShopifyExecutionResult -> Prop :=
| NotSent p' r :
    can p p' ->
    match r with Ok x => unsaved false false x | Err _ => True end ->
    attempt_ends a started finished p [] p' r
| Sent q c i e p' r :
    can p q -> attempting a started p q c i e ->
    finished_attempt a c finished (view [WExec (pc_execution c)] q) p' r ->
    attempt_ends a started finished p [call_of c] p' r.

Lemma local_refusal_ok a r :
  _local_refusal a transport = Ok r ->
  match r with Some x => unsaved false false x | None => local_reason a transport = None end.
Proof.
  unfold _local_refusal. destruct (local_reason a transport) as [reason|]; [| by intros [= <-]].
  destruct (refused_unsaved reason false false None [] false) as (x & E & Hx & _); [done |].
  unfold refused_at. rewrite E. by intros [= <-].
Qed.

(** A refusal after the call. *)
Lemma refused_after reason invoked ambiguous :
  exists x, _refused reason true invoked running_text [] ambiguous = Ok x
    /\ er_attempted x = true /\ er_persisted x = false.
Proof.
  destruct (refused_unsaved reason true invoked running_text [] ambiguous) as (x & E & (H1 & H2 & _) & _); [done |].
  by exists x.
Qed.

Lemma with_settles {A B} σ log (m : act T start_exn A) (k : A -> act (T * list http_call) adapter_exn B)
    (Q : rows -> result start_exn A -> Prop) (G : rows -> list http_call -> result adapter_exn B -> Prop) :
  settles (sha256_hex := sha256_hex) (cfg := cfg) σ m Q ->
  (forall p' r σ', tx_at σ' p' [] -> Q p' r ->
     match r with
     | Ok x => exists p'', tx_at (k x (σ', log)).2.1 p'' [] /\ G p'' (k x (σ', log)).2.2 (k x (σ', log)).1
     | Err x => G p' log (Err (AdapterStart x))
     end) ->
  exists p', tx_at (a_bind (with_tx m) k (σ, log)).2.1 p' []
    /\ G p' (a_bind (with_tx m) k (σ, log)).2.2 (a_bind (with_tx m) k (σ, log)).1.
Proof.
  intros (p' & Hat & HQ) Hk. unfold a_bind, with_tx. destruct (m σ) as [r σ'] eqn:E. cbn [fst snd] in *.
  specialize (Hk p' r σ' Hat HQ). destruct r; [exact Hk | by exists p'].
Qed.

Notation running_rows c q := (view [WExec (pc_execution c)] q).

(** From the answer of the provider to the end. *)
Lemma outcome_process_ends σ log p1 a c response i finished :
  local_reason a transport = None -> dt_aware finished = true -> tx_at σ p1 [] ->
  post_json (call_of c) = Some response ->
  _interpret normalize response finished (production_live_evidence_authorized (at_permit a) transport) = Ok i ->
  let out := with_tx (_commit_outcome sha256_hex transport policy a c i finished true) (σ, log) in
  exists p', tx_at out.2.1 p' [] /\ out.2.2 = log /\ finished_attempt a c finished p1 p' out.1.
Proof.
  intros Hloc Hnow Hat Hpost Hint out.
  pose proof (interpret_shape _ _ _ _ Hint) as Hshape.
  assert (settles (sha256_hex := sha256_hex) (cfg := cfg) σ
            (_commit_outcome sha256_hex transport policy a c i finished true)
            (fun p' r => finished_attempt a c finished p1 p'
               (match r with Ok x => Ok x | Err x => Err (AdapterStart x) end))) as (p' & Hat' & HQ).
  { unfold _commit_outcome. eapply settles_then; [by apply (outcome_settles σ p1 a c i finished true) |].
    intros p' r σ' Hat' Hr. destruct r as [[x|saved]|x]; simpl in Hr.
    - exists p'. split; [done |]. destruct Hr as [Hcan Hx]. apply LeftRunning; [done | by destruct Hx as (? & ? & _)].
    - destruct Hr as (q & e & record & b & next & Hcan & Ho & ->).
      destruct (outcome_reported a c i finished true q saved e record b next Hloc Hshape Ho)
        as (x & Ex & Hp & _ & Hst).
      rewrite Ex. eexists. split; [exact Hat' |]. by eapply Stored.
    - by apply LeftRunning. }
  exists p'. unfold out, with_tx. destruct (_commit_outcome _ _ _ _ _ _ _ _ σ) as [[x|x] σ']; done.
Qed.

Lemma raising_ok {A B} (x : A) (k : A -> act (T * list http_call) adapter_exn B) st :
  a_bind (raising (Ok x)) k st = k x st.
Proof. done. Qed.

Lemma raising_err {A B} x (k : A -> act (T * list http_call) adapter_exn B) st :
  a_bind (raising (Err x)) k st = (Err (AdapterStart (StartValue x)), st).
Proof. done. Qed.

Lemma read_clock_ok moment now : _read_clock moment = Ok now -> now = moment /\ dt_aware now = true.
Proof. unfold _read_clock. destruct (dt_aware moment) eqn:E; [by intros [= <-] | done]. Qed.

(** What happens once the running row is committed. *)
Definition transmit a (started finished : datetime) (c : _PreparedCall)
    : act (T * list http_call) adapter_exn ShopifyExecutionResult :=
  do! response := send post_json (call_of c) in
  match response with
  | None => raising (_refused "ambiguous_transport_outcome" true false running_text [] true)
  | Some response =>
      do! finished := raising (_read_clock finished) in
      if Execution.before finished started
      then raising (_refused "attempt_clock_regressed" true true running_text [] false)
      else
        do! i := a_lift (match _interpret normalize response finished
                                 (production_live_evidence_authorized (at_permit a) transport) with
                         | Ok i => Ok i
                         | Err x => Err (AdapterInterpret x)
                         end) in
        with_tx (_commit_outcome sha256_hex transport policy a c i finished true)
  end.

Lemma execute_unfold a started finished st :
  execute a started finished st
  = a_bind (raising (_local_refusal a transport)) (fun local =>
      match local with
      | Some r => a_ret r
      | None => a_bind (raising (_read_clock started)) (fun started =>
          a_bind (with_tx (start_phase sha256_hex a started)) (fun prepared =>
            match prepared with inl r => a_ret r | inr c => transmit a started finished c end))
      end) st.
Proof. done. Qed.

Lemma transmit_unfold a started finished c σ log :
  transmit a started finished c (σ, log)
  = match post_json (call_of c) with
    | None => raising (_refused "ambiguous_transport_outcome" true false running_text [] true)
    | Some response =>
        do! finished := raising (_read_clock finished) in
        if Execution.before finished started
        then raising (_refused "attempt_clock_regressed" true true running_text [] false)
        else
          do! i := a_lift (match _interpret normalize response finished
                                   (production_live_evidence_authorized (at_permit a) transport) with
                           | Ok i => Ok i
                           | Err x => Err (AdapterInterpret x)
                           end) in
          with_tx (_commit_outcome sha256_hex transport policy a c i finished true)
    end (σ, log ++ [call_of c]).
Proof. unfold transmit, send, a_bind at 1. by destruct (post_json (call_of c)). Qed.

Lemma transmit_ends σ log p1 a started finished c :
  local_reason a transport = None -> tx_at σ p1 [] ->
  let out := transmit a started finished c (σ, log) in
  exists p', tx_at out.2.1 p' [] /\ out.2.2 = log ++ [call_of c]
    /\ finished_attempt a c finished p1 p' out.1.
Proof.
  intros Hloc Hat. pose proof (can_self σ p1 [] Hat) as Hpp. cbv zeta. rewrite !transmit_unfold.
  assert (forall r : result adapter_exn ShopifyExecutionResult,
    match r with Ok x => er_attempted x = true /\ er_persisted x = false | Err _ => True end ->
    finished_attempt a c finished p1 p1 r) as Hleft by (intros; by apply LeftRunning).
  destruct (post_json (call_of c)) as [response|] eqn:Epost.
  2: { destruct (refused_after "ambiguous_transport_outcome" false true) as (x & -> & Hx).
       exists p1. split; [done |]. split; [done |]. by apply Hleft. }
  destruct (_read_clock finished) as [finished'|x] eqn:Ef; rewrite ?raising_err, ?raising_ok;
    [| exists p1; split; [done |]; split; [done |]; by apply Hleft].
  apply read_clock_ok in Ef as [-> Hnow]. destruct (Execution.before finished started).
  { destruct (refused_after "attempt_clock_regressed" true false) as (x & -> & Hx).
    exists p1. split; [done |]. split; [done |]. by apply Hleft. }
  destruct (_interpret _ _ _ _) as [i|x] eqn:Ei.
  - by eapply (outcome_process_ends σ (log ++ [call_of c]) p1 a c response i finished).
  - exists p1. split; [done |]. split; [done |]. by apply Hleft.
Qed.

(** An attempt sends nothing, or exactly one call for the row it has just set
    running; what it leaves is stored whole or not at all. *)
Lemma execute_ends σ log p a started finished :
  tx_at σ p [] ->
  let out := execute a started finished (σ, log) in
  exists p', tx_at out.2.1 p' [] /\ exists calls, out.2.2 = log ++ calls
    /\ attempt_ends a started finished p calls p' out.1.
Proof.
  intros Hat. pose proof (can_self σ p [] Hat) as Hpp. cbv zeta. rewrite !execute_unfold.
  assert (forall r : result adapter_exn ShopifyExecutionResult,
    match r with Ok x => unsaved false false x | Err _ => True end ->
    exists p', tx_at σ p' [] /\ exists calls, log = log ++ calls
      /\ attempt_ends a started finished p calls p' r) as Hstop.
  { intros r Hr. exists p. split; [done |]. exists []. rewrite app_nil_r. split; [done |]. by apply NotSent. }
  destruct (_local_refusal a transport) as [[x|]|x] eqn:El; rewrite ?raising_err, ?raising_ok;
    [| | by apply Hstop].
  { apply local_refusal_ok in El. by apply Hstop. }
  apply local_refusal_ok in El.
  destruct (_read_clock started) as [started'|x] eqn:Es; rewrite ?raising_err, ?raising_ok; [| by apply Hstop].
  apply read_clock_ok in Es as [-> _]. clear Hstop.
  apply (with_settles σ log (start_phase sha256_hex a started) _ _
    (fun p' log' r => exists calls, log' = log ++ calls /\ attempt_ends a started finished p calls p' r)
    (start_settles σ p a started Hat)).
  intros p' r σ' Hat' Hr. destruct r as [[x|c]|x].
  - destruct Hr as [Hcan Hx]. exists p'. split; [done |]. exists []. rewrite app_nil_r.
    split; [done |]. by apply NotSent.
  - destruct Hr as (q & i & e & Hcan & Hatt & ->).
    destruct (transmit_ends σ' log _ a started finished c El Hat') as (p'' & H1 & H2 & H3).
    exists p''. split; [exact H1 |]. exists [call_of c]. split; [exact H2 |]. by eapply Sent.
  - exists []. rewrite app_nil_r. split; [done |]. by apply NotSent.
Qed.
End Attempts.
End Attempts.
