(* ===== verification/AttemptHistory.v ===== *)
(** One connector attempt, as its users see it: the theorems of
    [app/research/shopify_global_catalog_execution.py].

    Module [AttemptRuns]: sequences of attempts and of everything else that
    happens to execution rows, and that no execution starts twice. Module
    [AttemptTheorems]: the adapter over any lawful unit of work. Module
    [AttemptExamples]: a store with one claimed execution. *)

From S2P Require Import Prelude PyStr Json Clock Connector Breaker BreakerSpec PyState OpStore BreakerRepo Research Catalogs Authorization Conversation ConversationRepo ConversationHistory LiveMode Execution ExecutionRepo ClaimTx ClaimTxMemory ClaimTxSql LiveStart LiveStartSafety LiveStartHistory ShopifyCatalog Attempt AttemptSafety.
Import Connector Research Authorization Context Lifecycle Common.
Import ShopifyCatalog.Request ShopifyCatalog.Response.
Import Execution.Trace Execution.Record ExecutionRows Rows TxInterface Claims.
Import Effects Permits Results Adapter Settling Phases Reports Attempts.
#[local] Open Scope Z_scope.

(** ** Histories of attempts *)
Module AttemptRuns.
Section Runs.
Context {Refinement : Type}.
Notation rows := (rows Refinement).
Implicit Types (p : rows) (h : list string).

(** The attempt of an execution is under way or over. *)
Definition begun (r : option Execution) : Prop :=
  exists e, r = Some e /\ (state e = running \/ terminal (state e) = true).

(** Everything else, the outcomes included, takes no execution back. *)
Definition keeps_begun p p' : Prop := forall i, begun (exec_at p i) -> begun (exec_at p' i).

(** Executions set running by any workers, each listed when it is. *)
Inductive attempts : rows -> list string -> rows -> Prop :=
| NoAttempt p : attempts p [] p
| Meanwhile p h p' p'' : attempts p h p' -> keeps_begun p' p'' -> attempts p h p''
| Attempted p h q e running_row :
    attempts p h q -> exec_at q (execution_id running_row) = Some e -> ~ begun (Some e) ->
    state running_row = running ->
    attempts p (h ++ [execution_id running_row]) (view [WExec running_row] q).

Lemma attempts_app p1 h1 p2 h2 p3 : attempts p1 h1 p2 -> attempts p2 h2 p3 -> attempts p1 (h1 ++ h2) p3.
Proof.
  intros H1 H2. induction H2 as [| | p h q e r _ IH He Hn Hr].
  - by rewrite app_nil_r.
  - eapply Meanwhile; [by apply IHattempts | done].
  - rewrite app_assoc. eapply Attempted; [by apply IH | exact He | exact Hn | exact Hr].
Qed.

Lemma attempts_distinct p h p' :
  attempts p h p' -> NoDup h /\ forall i, i ∈ h -> begun (exec_at p' i).
Proof.
  induction 1 as [p | p h p' p'' _ [IH1 IH2] Hk | p h q e r _ [IH1 IH2] He Hn Hr].
  - split; [constructor | by intros i ?%elem_of_nil].
  - split; [done |]. auto.
  - split.
    + apply NoDup_app. split; [done |]. split; [| apply NoDup_singleton].
      intros i Hi ->%list_elem_of_singleton. apply Hn. rewrite <- He. by apply IH2.
    + intros i Hi. simpl. unfold set_at. destruct (String.eqb_spec i (execution_id r)) as [-> | Hne].
      * exists r. split; [done | by left].
      * apply elem_of_app in Hi as [Hi | ->%list_elem_of_singleton]; [by apply IH2 | done].
Qed.
End Runs.
End AttemptRuns.

(** ** The adapter *)
Module AttemptTheorems.
Import AttemptRuns.
Section Theorems.
Context {Refinement T : Type} `{CT : !ClaimTransaction Refinement T}.
Context {sha256_hex : string -> string} {cfg : settings}
        `{L : !TransactionLaws (Refinement := Refinement) (T := T) sha256_hex cfg}.
Context (transport : JsonPostTransport) (post_json : http_call -> option CatalogTransportResult)
        (normalize : dict value -> dict value -> datetime -> string ->
                     result normalize_exn ShopifyNormalizedOffer)
        (policy : Breaker.BreakerPolicy).
Notation can := (TxInterface.can sha256_hex cfg).
Notation tx_at := (TxInterface.tx_at sha256_hex cfg).
Notation quiet := (TxInterface.quiet sha256_hex cfg).
Notation clock := (TxInterface.clock sha256_hex cfg).
Notation rows := (rows Refinement).
Notation execute := (execute sha256_hex transport post_json normalize policy).
Notation attempting := (attempting (sha256_hex := sha256_hex) (cfg := cfg)).
Notation outcome_of := (outcome_of (sha256_hex := sha256_hex) (transport := transport) (policy := policy)).
Notation running_rows c q := (view [WExec (pc_execution c)] q).
Implicit Types (p q : rows) (σ : T) (a : ShopifyCatalogAttempt) (e : Execution).

(** An attempt only starts from a claimed execution. *)
Lemma claim_reason_claimed a e started :
  claim_reason sha256_hex a e started = Ok None -> state e = claimed_for_attempt.
Proof.
  unfold claim_reason. destruct (pinned_reason a e); [done |].
  destruct (validate_active_execution_claim _ _ _ _) as [ck|] eqn:E; [| done]. cbn [rbind].
  destruct (ck_valid ck) eqn:Ev; [| done]. intros _. revert E. unfold validate_active_execution_claim.
  destruct (dt_aware started); [| done]. cbn [negb guard_raise rbind].
  destruct (bool_decide_reflect (state e = claimed_for_attempt)) as [H | H]; [done |].
  cbn [negb]. unfold claim_check. intros E. repeat (res_step || case_match); simplify_eq/=.
Qed.

Lemma attempting_row a started p q c i e :
  rows_ok cfg q -> attempting a started p q c i e ->
  execution_id (pc_execution c) = i /\ exec_at q i = Some e /\ ~ begun (Some e)
  /\ state (pc_execution c) = running.
Proof.
  intros Hok [_ He Hclaim _ Hrow _ _ _]. destruct (ok_exec cfg q Hok i e He) as [_ Hid].
  split; [by rewrite Hrow |]. split; [done |]. split; [| by rewrite Hrow].
  apply claim_reason_claimed in Hclaim. intros (e' & [= <-] & [H | H]); by rewrite Hclaim in H.
Qed.

(** An attempt adds itself to the history the others make around it. *)
Lemma attempt_recorded p a started finished calls p' r :
  (forall p p', can p p' -> exists h, attempts p h p') ->
  attempt_ends transport post_json normalize policy a started finished p calls p' r ->
  exists h', attempts p h' p' /\ (calls = [] \/ exists call i, calls = [call] /\ i ∈ h'
               /\ _execution_id sha256_hex a = Ok i).
Proof.
  intros Hall [p2 r' Hcan _ | q c i e p2 r' Hcan Hatt Hfin].
  { destruct (Hall p p2 Hcan) as (h' & Hh'). exists h'. auto. }
  destruct (attempting_row a started p q c i e (ev_ok cfg p q (can_evolves sha256_hex cfg p q Hcan)) Hatt)
    as (Hid & He & Hnb & Hrun).
  destruct (Hall p q Hcan) as (h1 & Hh1).
  assert (attempts p (h1 ++ [i]) (running_rows c q)) as Hstart.
  { rewrite <- Hid. eapply Attempted; [exact Hh1 | by rewrite Hid | exact Hnb | exact Hrun]. }
  assert (exists h2, attempts (running_rows c q) h2 p2) as (h2 & Hh2).
  { destruct Hfin as [p3 r' Hcan' _ | response j q' saved e' record b next x _ _ Hcan' Ho _ _]; [by apply Hall |].
    destruct (Hall _ _ Hcan') as (h2 & Hh2). exists h2. eapply Meanwhile; [exact Hh2 |].
    intros k Hk. simpl. unfold set_at. destruct (String.eqb_spec k (execution_id saved)) as [-> | _]; [| done].
    exists saved. split; [done |]. right. destruct Ho as [_ _ _ _ _ _ _ Hrec -> _].
    apply terminal_record_ok in Hrec as (? & ? & _ & _ & -> & _). simpl.
    by destruct (attempt_status j). }
  exists ((h1 ++ [i]) ++ h2). split; [by eapply attempts_app |]. right. exists (call_of c), i.
  split; [done |]. split; [| apply (an_id _ _ _ _ _ _ _ Hatt)].
  rewrite !elem_of_app, list_elem_of_singleton. auto.
Qed.

(** C3: the provider is called at most once for an execution. Any number of
    workers may run attempts over the same rows, concurrently with claims,
    outcomes and reconciliations that never take a started execution back, and
    the database may fail anywhere. Then the executions that were ever sent
    are distinct, this attempt has sent nothing or exactly one call, and that
    call is accounted to the execution of its authorization in the list of all
    of them. *)
Theorem http_at_most_once σ log p0 h p a started finished :
  (forall p p', can p p' -> exists h, attempts p h p') ->
  attempts p0 h p -> tx_at σ p [] ->
  let out := execute a started finished (σ, log) in
  exists p' h', tx_at out.2.1 p' [] /\ attempts p0 (h ++ h') p' /\ NoDup (h ++ h')
    /\ (out.2.2 = log
        \/ exists call i, out.2.2 = log ++ [call] /\ i ∈ h' /\ _execution_id sha256_hex a = Ok i).
Proof.
  intros Hall Hh Hat out.
  destruct (execute_ends transport post_json normalize policy σ log p a started finished Hat)
    as (p' & Hat' & calls & Hlog & Hends). fold out in Hat', Hlog, Hends. clearbody out.
  destruct (attempt_recorded _ _ _ _ _ _ _ Hall Hends) as (h' & Hh' & Hcalls).
  exists p', h'. assert (attempts p0 (h ++ h') p') as Hj by by eapply attempts_app.
  split; [done |]. split; [done |]. split; [by apply (attempts_distinct p0 _ p') |].
  destruct Hcalls as [-> | (call & i & -> & Hi & Hid)]; [left; by rewrite Hlog, app_nil_r | right].
  by exists call, i.
Qed.

(** C6: an outcome is stored whole and reported, or it is not stored. An
    attempt that reports a stored outcome has written, in one step, the
    terminal execution over the running row it holds the claim of and the next
    state of the breaker it read, both made from the answer of its own single
    call; no check of the result stands between the commit and the report. An
    attempt that reports no stored outcome, or raises, has written nothing
    beyond the running row. *)
Theorem outcome_is_stored_whole σ log p a started finished :
  tx_at σ p [] ->
  let out := execute a started finished (σ, log) in
  exists p', tx_at out.2.1 p' []
    /\ match out.1 with
       | Ok r =>
           if er_persisted r then
             exists q c i e q' response j saved e' record b next,
               out.2.2 = log ++ [call_of c] /\ can p q /\ attempting a started p q c i e
               /\ post_json (call_of c) = Some response
               /\ _interpret normalize response finished
                    (production_live_evidence_authorized (at_permit a) transport) = Ok j
               /\ can (running_rows c q) q' /\ outcome_of a c j finished q' saved e' record b next
               /\ er_state r = Some (state_value (state saved))
               /\ p' = view [WExec saved; WBreaker (Breaker.set_revision (Breaker.revision b + 1) next)] q'
           else can p p' \/ exists q c i e, can p q /\ attempting a started p q c i e
                                     /\ can (running_rows c q) p'
       | Err _ => can p p' \/ exists q c i e, can p q /\ attempting a started p q c i e
                                       /\ can (running_rows c q) p'
       end.
Proof.
  intros Hat out.
  destruct (execute_ends transport post_json normalize policy σ log p a started finished Hat)
    as (p' & Hat' & calls & Hlog & Hends). fold out in Hat', Hlog, Hends. clearbody out.
  exists p'. split; [exact Hat' |]. clear Hat'.
  destruct Hends as [p' r Hcan Hr | q c i e p' r Hcan Hatt Hfin].
  - destruct r as [r|]; [| by left]. destruct Hr as (-> & _). by left.
  - destruct Hfin as [p' r Hcan' Hr | response j q' saved e' record b next x Hpost Hint Hcan' Ho Hp Hs].
    + assert (exists q c i e, can p q /\ attempting a started p q c i e /\ can (running_rows c q) p') as Hex
        by by exists q, c, i, e.
      destruct r as [r|]; [destruct Hr as [_ ->] |]; by right.
    + rewrite Hp. exists q, c, i, e, q', response, j, saved, e', record, b, next. done.
Qed.

(** *** Reconciliation *)

(** The transaction of a reconciliation. *)
Definition reconcile_tx a (finished : datetime) : act T start_exn (ShopifyExecutionResult + Execution) :=
  closing (
    do! found := or_else
      (do! _ := Service.on lock_for_claim in
       do! i := a_lift (value_part (_execution_id sha256_hex a)) in
       do! found := Service.on (load_execution i) in a_ret (inr found))
      (Adapter.rolled_back (do! r := a_lift (value_part (refused_at "outcome_persistence_unavailable" None)) in
                    a_ret (inl r))) in
    match found with
    | inl r => a_ret (inl r)
    | inr found => reconcile_row sha256_hex a finished found
    end).

Lemma reconcile_unfold a finished :
  reconcile_ambiguous sha256_hex a finished
  = do! finished := a_lift (value_part (_read_clock finished)) in
    do! ended := reconcile_tx a finished in
    match ended with
    | inl r => a_ret r
    | inr saved => a_lift (value_part (_from_stored saved false None [] [] no_authority None))
    end.
Proof. done. Qed.

Lemma reconcile_tx_settles σ p a finished :
  tx_at σ p [] ->
  settles (sha256_hex := sha256_hex) (cfg := cfg) σ (reconcile_tx a finished) (fun p' r =>
    match r with
    | Ok (inl x) => can p p' /\ er_persisted x = false
    | Ok (inr saved) => exists i, _execution_id sha256_hex a = Ok i
        /\ reconciled (sha256_hex := sha256_hex) (cfg := cfg) p a finished i p' (Ok (inr saved))
    | Err _ => can p p'
    end).
Proof.
  intros Hat. apply settles_closing. eapply (settles_guarded false σ p _ _ _ (fun q r vs => vs = [] /\
    match r with
    | Ok found => exists i, _execution_id sha256_hex a = Ok i /\ found = inr (exec_at q i)
    | Err _ => True
    end)); [done | |].
  { apply does_bind. eapply does_on; [by apply (lock_law sha256_hex cfg) | | done].
    intros q r vs _ _ [-> ->]. simpl app. intros σ1 Hat1. apply does_bind.
    destruct (_execution_id sha256_hex a) as [i|x]; [| by apply does_lift].
    apply does_lift; [done |]. simpl app. intros σ2 Hat2. apply does_bind.
    eapply does_on; [by apply (load_law sha256_hex cfg) | | done].
    intros q1 r vs _ _ [-> ->]. simpl app. intros σ3 Hat3. apply does_ret; [done |].
    split; [done |]. by exists i. }
  intros q r vs σ' Hcan _ Hat' [-> Hr]. destruct r as [found|x].
  + destruct Hr as (i & Hi & ->).
    eapply settles_weaken; [by apply (reconcile_row_settles σ' p q a i finished) |].
    intros p' [[x|saved]|x] H; [done | by exists i | done].
  + destruct x as [x|x|x|x| |x]; try done.
    destruct (Service.persistence_failure x); [| done].
    destruct (refused_unsaved "outcome_persistence_unavailable" false false None [] false)
      as (u & Eu & (Hu & _) & _); [done |].
    eapply (settles_then _ _ _ (fun p' r => r = Ok (inl u) /\ can p p')).
    * eapply (settles_rolled_back σ' q [] _ (Ok (inl u))); [done | |].
      { intros σ2. unfold refused_at. by rewrite Eu. }
      intros q' Hcan' _. split; [done |]. by eapply (can_trans sha256_hex cfg).
    * intros p' r σ2 Hat2 [-> Hp']. by apply (settles_pure σ2 p' _ (Ok (inl u))).
Qed.

(** A reconciliation closes lost attempts and nothing else. It closes the
    running execution of the authorization, over its unchanged row, once the
    claim of the worker has run out; the outcome it stores is unknown, the
    breaker and every other row are left alone, and the provider is not
    called. In every other case it has written nothing. *)
Theorem reconciliation_closes_only_lost σ p a finished :
  tx_at σ p [] ->
  let out := reconcile_ambiguous sha256_hex a finished σ in
  exists p', tx_at out.2 p' []
    /\ match out.1 with
       | Ok x => if er_persisted x
                 then exists q i e record, _execution_id sha256_hex a = Ok i /\ can p q
                        /\ lost (sha256_hex := sha256_hex) a finished q i e record
                        /\ er_state x = Some "outcome_unknown"%string
                        /\ p' = view [WExec (Pins.replacement e record (revision e))] q
                 else can p p'
       | Err _ => can p p'
       end.
Proof.
  intros Hat. pose proof (can_self σ p [] Hat) as Hpp. cbv zeta. rewrite !reconcile_unfold.
  change (settles (sha256_hex := sha256_hex) (cfg := cfg) σ
    (do! finished := a_lift (value_part (_read_clock finished)) in
     do! ended := reconcile_tx a finished in
     match ended with
     | inl r => a_ret r
     | inr saved => a_lift (value_part (_from_stored saved false None [] [] no_authority None))
     end) (fun p' r =>
     match r with
     | Ok x => if er_persisted x
               then exists q i e record, _execution_id sha256_hex a = Ok i /\ can p q
                      /\ lost (sha256_hex := sha256_hex) a finished q i e record
                      /\ er_state x = Some "outcome_unknown"%string
                      /\ p' = view [WExec (Pins.replacement e record (revision e))] q
               else can p p'
     | Err _ => can p p'
     end)).
  eapply settles_lift; [exact Hat |].
  destruct (_read_clock finished) as [f|x] eqn:Ef; cbn [value_part]; [| done].
  apply read_clock_ok in Ef as [-> _].
  eapply settles_then; [by apply reconcile_tx_settles |].
  intros p' r σ' Hat' Hr. destruct r as [[x|saved]|x].
  - destruct Hr as [Hcan Hx]. apply (settles_pure σ' p' _ (Ok x)); [done | done |]. by rewrite Hx.
  - destruct Hr as (i & Hi & q & e & record & Hcan & Hlost & -> & ->).
    destruct (reconciled_reported a finished q i e record Hlost) as (x & -> & Hp & _ & Hs & _).
    eexists. split; [exact Hat' |]. cbn. rewrite Hp. exists q, i, e, record. done.
  - done.
Qed.

(** The trace of a lost attempt. *)
Lemma unknown_trace a started finished :
  dt_aware started = true -> dt_aware finished = true -> Execution.before finished started = false ->
  nonempty (at_source a) = true -> is_some (s_market (at_step a)) = true ->
  exists t, attempt_trace a started finished outcome_unknown (Some "outcome_unknown"%string) 0 = Ok t
    /\ tr_plan_id t = plan_id (at_plan a).
Proof.
  intros Hs Hf Hb Hsrc Hm. unfold attempt_trace, make_step. cbv zeta.
  destruct (at_source a) as [|ch src]; [done |]. set (st := {| ts_plan_id := _ |}).
  assert (step_check st = Ok tt) as ->.
  { unfold step_check. cbn. rewrite Hm, Hs, Hf, Hb. reflexivity. }
  cbn [rbind]. set (t := {| tr_plan_id := _ |}). exists t. split; [| done].
  assert (trace_check t = Ok tt) as Ht.
  { unfold trace_check. cbn. rewrite String.eqb_refl.
    assert (differ [String ch src] [String ch src] = false) as ->; [| reflexivity].
    unfold differ. by rewrite bool_decide_true. }
  unfold make_trace. by rewrite Ht.
Qed.

(** The record that closes a valid running row. *)
Lemma unknown_record a finished i e :
  good i e -> state e = running -> x_plan e = plan_id (at_plan a) ->
  nonempty (at_source a) = true -> is_some (s_market (at_step a)) = true ->
  dt_aware finished = true -> reached (attempt_started_at e) finished = true ->
  exists record, _terminal_record sha256_hex e a finished outcome_unknown (Some "outcome_unknown"%string) []
                   (request_digest e) None = Ok record
    /\ execution_check (Pins.replacement e record (revision e)) = Ok tt.
Proof.
  intros [Hc _] Hrun Hplan Hsrc Hm Hf Hr. unfold _terminal_record.
  assert (exists started, attempt_started_at e = Some started /\ dt_aware started = true
          /\ forallb some_text (identity e) = true) as (started & Es & Hs & Hid).
  { revert Hc. unfold execution_check. intros Hc. res_simpl.
    match goal with H : _validate_attempt_fields e = _ |- _ => revert H end.
    unfold _validate_attempt_fields. rewrite Hrun.
    destruct (attempt_started_at e) as [started|]; [| done]. intros Hv. res_simpl. bool_simpl. eauto. }
  rewrite Es in Hr |- *. cbn in Hr. apply negb_true_iff in Hr.
  destruct (unknown_trace a started finished Hs Hf Hr Hsrc Hm) as (t & Et & Htp). cbn [length].
  change (Z.of_nat 0) with 0. rewrite Et. cbn [rbind].
  set (record := set_terminal _ _ _ _ _ _ _ _ _).
  assert (execution_check record = Ok tt) as Hrec.
  { assert (_validate_claim_fields record = Ok tt) as Hclaim by done.
    assert (_validate_attempt_fields record = Ok tt) as Hattempt.
    { unfold _validate_attempt_fields. change (attempt_started_at record) with (attempt_started_at e).
      change (identity record) with (identity e). change (state record) with state_outcome_unknown.
      rewrite Es, Hs, Hid. unfold check_terminal. cbn. rewrite Hf, Hr, Htp, <- Hplan, String.eqb_refl.
      reflexivity. }
    revert Hc. unfold execution_check. rewrite Hclaim, Hattempt. clear Hclaim Hattempt Hr Hid. intros Hc.
    res_simpl. bool_simpl. unfold record.
    cbn [set_terminal execution_id authorization_id authorization_version decision_id x_plan revision
         created_at updated_at raw_response_persisted observation_kind evaluated_offer_count
         normalized_offer_count].
    repeat match goal with
    | H : ?x = true |- context [negb ?x] => rewrite H
    | H : 1 <= ?x |- context [?x <? 1] => rewrite (proj2 (Z.ltb_ge x 1)) by exact H
    end.
    reflexivity. }
  exists record. split; [by apply make_checked |].
  apply Decisions.replacement_valid; [done | |];
    unfold execution_check in Hc; res_simpl; bool_simpl; [done | lia].
Qed.

(** Reading the row when nobody else acts. *)
Lemma quiet_found σ p a i :
  quiet σ -> tx_at σ p [] -> _execution_id sha256_hex a = Ok i ->
  exists q σ', calm clock p q /\ quiet σ' /\ tx_at σ' q []
    /\ (do! _ := Service.on lock_for_claim in
        do! i := a_lift (value_part (_execution_id sha256_hex a)) in
        do! found := Service.on (load_execution i) in
        a_ret (inr (A := ShopifyExecutionResult) found)) σ = (Ok (inr (exec_at q i)), σ').
Proof.
  intros Hq Hat Hi. rewrite Hi.
  apply (quiet_on σ p [] _ _ _ (fun out => exists q σ', calm clock p q /\ quiet σ' /\ tx_at σ' q []
    /\ out = (Ok (inr (exec_at q i)), σ')) Hq (lock_law sha256_hex cfg σ p [] Hat)).
  intros q r vs σ1 Hcalm Hq1 Hat1 [-> ->].
  apply (quiet_on σ1 q [] _ _ _ (fun out => exists q σ', calm clock p q /\ quiet σ' /\ tx_at σ' q []
    /\ out = (Ok (inr (exec_at q i)), σ')) Hq1 (load_law sha256_hex cfg σ1 q [] i Hat1)).
  intros q2 r vs σ2 Hcalm2 Hq2 Hat2 [-> ->]. exists q2, σ2. split; [by eapply calm_trans | done].
Qed.

(** The writes of the reconciliation when nobody else acts. *)
Lemma quiet_reconcile σ p a finished i e record :
  quiet σ -> tx_at σ p [] -> exec_at p i = Some e -> state e = running ->
  reached (claim_expires_at e) finished = true -> reached (attempt_started_at e) finished = true ->
  _terminal_record sha256_hex e a finished outcome_unknown (Some "outcome_unknown"%string) []
    (request_digest e) None = Ok record ->
  execution_check (Pins.replacement e record (revision e)) = Ok tt ->
  let saved := Pins.replacement e record (revision e) in
  exists q σ', calm clock p q /\ tx_at σ' (view [WExec saved] q) []
    /\ reconcile_row sha256_hex a finished (exec_at p i) σ = (Ok (inr saved), σ').
Proof.
  intros Hq Hat He Hrun Hx Hs Hrec Hok saved. unfold reconcile_row.
  rewrite He, Hx, Hs, bool_decide_true by done. cbn [negb]. rewrite Hrec. cbn [value_part].
  pose proof (terminal_record_ok _ _ _ _ _ _ _ _ _ Hrec) as (started & t & _ & _ & Hr & _).
  destruct (ok_exec cfg p (tx_rows_ok sha256_hex cfg σ p [] Hat) i e He) as [_ Hid].
  assert (execution_id record = i) as Hrid by by rewrite Hr.
  change ((do! record := a_lift (Ok record) in store_outcome false
    (do! s := Service.on (cas_execution record (revision e)) in do! _ := Service.on commit in a_ret s)) σ)
    with (store_outcome false
      (do! s := Service.on (cas_execution record (revision e)) in do! _ := Service.on commit in a_ret s) σ).
  unfold store_outcome.
  enough (exists q σ', calm clock p q /\ tx_at σ' (view [WExec saved] q) []
    /\ (do! s := Service.on (cas_execution record (revision e)) in
        do! _ := Service.on commit in a_ret s) σ = (Ok saved, σ')) as (q & σ' & H1 & H2 & ->)
    by by exists q, σ'.
  apply (quiet_on σ p [] _ _ _ (fun out => exists q σ', calm clock p q
    /\ tx_at σ' (view [WExec saved] q) [] /\ out = (Ok saved, σ')) Hq
    (cas_execution_law sha256_hex cfg σ p [] record (revision e) Hat)).
  intros q r vs σ1 Hcalm Hq1 Hat1 Hd. cbv beta in Hd. change (view [] q) with q in Hd.
  rewrite Hrid, (proj1 Hcalm i), He in Hd.
  rewrite (proj2 (cas_result_ok (Some e) record (revision e) saved)) in Hd.
  2: { exists e. split; [done |]. split; [done |]. split; [| done].
       apply Pins.require_same_pins_ok. by rewrite Hr. }
  destruct Hd as [-> ->].
  apply (quiet_commit σ1 q [WExec saved] saved (fun out => exists q σ', calm clock p q
    /\ tx_at σ' (view [WExec saved] q) [] /\ out = (Ok saved, σ')) Hq1 Hat1).
  intros q' σ2 Hcalm' Hat2. exists q', σ2. split; [by eapply calm_trans | done].
Qed.

(** The transaction of the reconciliation when nobody else acts. *)
Lemma quiet_reconcile_tx σ p a finished i e record :
  quiet σ -> tx_at σ p [] -> _execution_id sha256_hex a = Ok i ->
  exec_at p i = Some e -> state e = running ->
  reached (claim_expires_at e) finished = true -> reached (attempt_started_at e) finished = true ->
  _terminal_record sha256_hex e a finished outcome_unknown (Some "outcome_unknown"%string) []
    (request_digest e) None = Ok record ->
  execution_check (Pins.replacement e record (revision e)) = Ok tt ->
  let saved := Pins.replacement e record (revision e) in
  exists q σ', calm clock p q /\ tx_at σ' (view [WExec saved] q) []
    /\ reconcile_tx a finished σ = (Ok (inr saved), σ').
Proof.
  intros Hq Hat Hi He Hrun Hx Hs Hrec Hok saved.
  unfold reconcile_tx, closing.
  enough (exists q σ', calm clock p q /\ tx_at σ' (view [WExec saved] q) []
    /\ (do! found := or_else
          (do! _ := Service.on lock_for_claim in
           do! i := a_lift (value_part (_execution_id sha256_hex a)) in
           do! found := Service.on (load_execution i) in a_ret (inr found))
          (Adapter.rolled_back (do! r := a_lift (value_part (refused_at "outcome_persistence_unavailable" None)) in
                        a_ret (inl r))) in
        match found with
        | inl r => a_ret (inl r)
        | inr found => reconcile_row sha256_hex a finished found
        end) σ = (Ok (inr saved), σ')) as (q & σ' & Hc & Ha & ->).
  { exists q. destruct (close_law sha256_hex cfg σ' _ Ha) as [Hc1 Hc2]. unfold Service.on.
    destruct (close σ') as [c σ'']. cbn [fst snd] in *. subst c. exists σ''. done. }
  destruct (quiet_found σ p a i Hq Hat Hi) as (q & σ1 & Hc1 & Hq1 & Hat1 & Ef).
  assert (exec_at q i = Some e) as Heq by by rewrite (proj1 Hc1 i).
  destruct (quiet_reconcile σ1 q a finished i e record Hq1 Hat1 Heq Hrun Hx Hs Hrec Hok)
    as (q2 & σ2 & Hc2 & Hat2 & E2).
  exists q2, σ2. split; [by eapply calm_trans |]. split; [done |].
  unfold or_else, a_bind at 1. by rewrite Ef.
Qed.

(** C29: a lost attempt is closed. Let the worker of a running execution be
    gone: once its claim has run out, a reconciliation that meets no other
    worker and no failure of the database ends it with the outcome unknown and
    the claim released, whatever the worker had sent or received. Every valid
    running row can be closed this way, so no execution stays running for
    want of a worker. *)
Theorem lost_attempt_is_closed σ p a finished i e :
  dt_aware finished = true -> quiet σ -> tx_at σ p [] ->
  _execution_id sha256_hex a = Ok i -> exec_at p i = Some e -> state e = running ->
  x_plan e = plan_id (at_plan a) -> nonempty (at_source a) = true ->
  is_some (s_market (at_step a)) = true ->
  reached (claim_expires_at e) finished = true -> reached (attempt_started_at e) finished = true ->
  exists x q record, (reconcile_ambiguous sha256_hex a finished σ).1 = Ok x
    /\ er_persisted x = true /\ er_state x = Some "outcome_unknown"%string
    /\ er_claim_released x = true /\ er_transport_invoked x = false
    /\ calm clock p q /\ state record = state_outcome_unknown
    /\ tx_at (reconcile_ambiguous sha256_hex a finished σ).2
         (view [WExec (Pins.replacement e record (revision e))] q) [].
Proof.
  intros Hnow Hq Hat Hi He Hrun Hplan Hsrc Hm Hx Hs.
  destruct (unknown_record a finished i e (ok_exec cfg p (tx_rows_ok sha256_hex cfg σ p [] Hat) i e He)
    Hrun Hplan Hsrc Hm Hnow Hs) as (record & Hrec & Hok).
  assert (lost (sha256_hex := sha256_hex) a finished p i e record) as Hlost by done.
  destruct (reconciled_reported a finished p i e record Hlost) as (x & Ex & Hp & Hinv & Hst & Hrel).
  destruct (quiet_reconcile_tx σ p a finished i e record Hq Hat Hi He Hrun Hx Hs Hrec Hok)
    as (q & σ' & Hcalm & Hat' & E).
  exists x, q, record. rewrite !reconcile_unfold. unfold _read_clock. rewrite Hnow.
  cbn [negb guard_raise rbind value_part].
  change ((do! finished := a_lift (Ok finished) in do! ended := reconcile_tx a finished in
    match ended with
    | inl r => a_ret r
    | inr saved => a_lift (value_part (_from_stored saved false None [] [] no_authority None))
    end) σ) with ((do! ended := reconcile_tx a finished in
    match ended with
    | inl r => a_ret r
    | inr saved => a_lift (value_part (_from_stored saved false None [] [] no_authority None))
    end) σ).
  unfold a_bind. rewrite E, Ex.
  apply terminal_record_ok in Hrec as (started & t & _ & _ & -> & _). exact
    (conj eq_refl (conj Hp (conj Hst (conj Hrel (conj Hinv (conj Hcalm (conj eq_refl Hat'))))))).
Qed.
End Theorems.

(** Production calls are switched off. Whatever providers, certifications
    and routing policies the deployment composes, the production gates answer
    with reasons, the compiled-in ones among them; no transport permit can be
    issued, and the production entry point refuses with all of the reasons
    before it runs anything: its continuation is never called. *)
Theorem production_calls_are_off registry certifications routing :
  exists reasons,
    production_shopify_execution_block_reasons registry certifications routing = Ok reasons
    /\ ["mode_not_live"; "shopify_live_call_not_permitted"; "production_ucp_profile_undeployed"]%string ⊆ reasons
    /\ (exists e, issue_production_shopify_transport_permit reasons = Err e)
    /\ forall (S E : Type) (continuation : option (act S E ShopifyExecutionResult)) failing σ,
         exists r, execute_production_shopify_catalog reasons continuation failing σ = (Ok r, σ)
           /\ unsaved false false r /\ er_blocking_reasons r = reasons.
Proof.
  unfold production_shopify_execution_block_reasons, production_live_mode_assessment.
  set (target := {| LiveGate.lt_market := _ |}).
  destruct (LiveGate.live_gate_iff registry routing SHOPPING_RESEARCH_EXECUTION_MODE target
              certifications LiveGate.production_certified_shopping_markets true) as (g & -> & _).
  cbn [rbind]. set (reasons := dedupe_loop _ _). exists reasons. split; [done |].
  assert (["mode_not_live"; "shopify_live_call_not_permitted"; "production_ucp_profile_undeployed"]%string
          ⊆ reasons) as Hin.
  { intros x Hx. unfold reasons. apply elem_of_dedupe_loop. split; [| apply not_elem_of_nil].
    rewrite !elem_of_app.
    apply elem_of_cons in Hx as [-> | Hx].
    - destruct (one_of "mode_not_live" (LiveGate.la_reasons g)) eqn:E; [left; by apply Provider.one_of_elem |].
      right. left. by apply list_elem_of_singleton.
    - right. right. cbn. set_solver. }
  split; [exact Hin |]. destruct reasons as [|reason rest] eqn:Er.
  { exfalso. by apply (not_elem_of_nil (A := string) "mode_not_live"%string), Hin, elem_of_cons; left. }
  split; [by eexists |]. intros S E continuation failing σ.
  unfold execute_production_shopify_catalog, _refused, result_check. cbn.
  eexists. split; [reflexivity | done].
Qed.
End AttemptTheorems.

(** ** On the database *)
Module AttemptDatabase.
Import AttemptRuns AttemptTheorems OperationalStore SqlTx.
Section Database.
Context {Refinement P : Type} (sha256_hex : string -> string) (cfg : settings) (now : datetime).
Notation Ctx := (ConversationContext Refinement).
Context (encode_exec : Execution -> P) (decode_exec : P -> option Execution)
        (encode_brk : Breaker.ProviderReliabilityState -> P)
        (decode_brk : P -> option Breaker.ProviderReliabilityState)
        (encode_conv : Ctx -> P) (decode_conv : P -> option Ctx)
        (decode_encode_exec : forall r, execution_check r = Ok tt -> decode_exec (encode_exec r) = Some r)
        (decode_encode_brk : forall s, Breaker.wf s -> decode_brk (encode_brk s) = Some s)
        (decode_encode_conv : forall c, context_post_init c = Ok c -> decode_conv (encode_conv c) = Some c).
Context (transport : JsonPostTransport) (post_json : http_call -> option CatalogTransportResult)
        (normalize : dict value -> dict value -> datetime -> string ->
                     result normalize_exn ShopifyNormalizedOffer)
        (policy : Breaker.BreakerPolicy).
Notation rows_of_table := (table_rows decode_exec decode_brk decode_conv).
Notation table_fine := (all_fine sha256_hex cfg decode_exec decode_brk decode_conv).

(** Other workers keep revisions, and set executions running by attempts. *)
Definition workers (p q : rows Refinement) : Prop := evolves cfg p q /\ exists h, attempts p h q.

Lemma workers_same p q : rows_ok cfg p -> rows_eq p q -> workers p q.
Proof.
  intros Hp Heq. split; [by apply LiveStartHistory.Database.evolves_same |]. exists [].
  eapply Meanwhile; [apply NoAttempt |]. intros i Hi. by rewrite <- (proj1 Heq i).
Qed.

Lemma workers_trans p q r : workers p q -> workers q r -> workers p r.
Proof.
  intros [H1 (h1 & A1)] [H2 (h2 & A2)]. split; [by eapply evolves_trans |].
  exists (h1 ++ h2). by eapply attempts_app.
Qed.

Definition attempt_laws : TransactionLaws (Refinement := Refinement) (T := session) sha256_hex cfg :=
  sql_laws sha256_hex cfg now encode_exec decode_exec encode_brk decode_brk encode_conv decode_conv
    decode_encode_exec decode_encode_brk decode_encode_conv workers workers_same workers_trans
    (fun p q H => proj1 H).

(** C28: on the database too the provider is called at most once for an
    execution. Workers attempt executions in their own sessions over the
    tables of [operational_entities], their commits fall between the
    statements of this attempt, and the database may be down at any of them:
    the executions any of them has set running are distinct, and this attempt
    has sent nothing or one call, for an execution of that list. *)
Theorem database_http_at_most_once t0 t h script a started finished log :
  table_fine t -> attempts t0 h (rows_of_table t) ->
  Forall (event_ok sha256_hex cfg decode_exec decode_brk decode_conv workers) script ->
  let out := Adapter.execute
    (ClaimTransaction0 := sql_transaction sha256_hex cfg now encode_exec decode_exec encode_brk decode_brk
                            encode_conv decode_conv)
    sha256_hex transport post_json normalize policy a started finished (Session t [] script, log) in
  table_fine (s_base out.2.1)
  /\ exists p' h', rows_eq p' (rows_of_table (s_base out.2.1)) /\ attempts t0 (h ++ h') p' /\ NoDup (h ++ h')
     /\ (out.2.2 = log
         \/ exists call i, out.2.2 = log ++ [call] /\ i ∈ h' /\ _execution_id sha256_hex a = Ok i).
Proof.
  intros Ht Hh Hs out.
  assert (tx_at sha256_hex cfg (TransactionLaws := attempt_laws) (Session t [] script) (rows_of_table t) []) as Hat
    by (change (sql_at sha256_hex cfg decode_exec decode_brk decode_conv workers
                  (Session t [] script) (rows_of_table t) []); by apply begin_session).
  destruct (execute_ends (L := attempt_laws) transport post_json normalize policy (Session t [] script) log
              (rows_of_table t) a started finished Hat) as (p' & Hat' & calls & Hlog & Hends).
  destruct (attempt_recorded (L := attempt_laws) _ _ _ _ _ _ _ _ _ _ _ (fun p q H => proj2 H) Hends)
    as (h' & Hh' & Hcalls).
  destruct Hat' as [Hbase _ Hrows _ _ _]. split; [exact Hbase |]. exists p', h'.
  assert (attempts t0 (h ++ h') p') as Hj by by eapply attempts_app.
  split; [exact Hrows |]. split; [exact Hj |]. split; [by apply (attempts_distinct t0 _ p') |].
  destruct Hcalls as [-> | (call & i & -> & Hi & Hid)]; [left; by rewrite <- (app_nil_r log) | right].
  by exists call, i.
Qed.
End Database.
End AttemptDatabase.

(** ** One claimed execution *)
Module AttemptExamples.
Import AttemptRuns AttemptTheorems BreakerSpec.BreakerExamples AuthorizationExamples MemoryTx.
Import LiveStartHistory.Examples.

Definition step_ph : ResearchProviderStep :=
  {| step_index := 1; s_provider_id := SHOPIFY_GLOBAL_CATALOG_PROVIDER_ID; s_provider_type := "merchant";
     s_capability := CURRENT_PRICING; source_identities := ["shopify_global_catalog"%string];
     s_market := Some PH_COUNTRY; s_certification_id := "cert-1"; s_certification_version := "1";
     selection_reason := "certified"; s_attempted := false |}.

Definition plan_ph : ResearchExecutionPlan :=
  {| plan_id := "plan-1"; plan_version := 1; pl_authorization_id := "auth-1";
     pl_authorization_version := 1; pl_decision_id := "dec-1"; pl_context_version := 1;
     pl_conversation_id := "c-1"; pl_proposal_id := "prop-1"; pl_proposal_version := 1;
     pl_scope_digest := scope0; required_capabilities := [CURRENT_PRICING]; eligible_steps := [step_ph];
     blocked_requirements := []; eligibility_audit := []; support_status := "ready";
     plan_digest := scope0; pl_outside_set_product_names := []; pl_requested_sources := [];
     pl_market := None; execution_available := false; execution_implemented := false;
     plan_ready := true; source_checked := false; pl_attempted := false |}.

(** The worker that holds the claim of [abandoned] searches for a lamp. *)
Definition attempt0 : ShopifyCatalogAttempt :=
  {| at_permit := BoundedFakeTransportPermit; at_authorization := authorization "consumed";
     at_owner := shopper; at_plan := plan_ph; at_step := step_ph;
     at_source := "shopify_global_catalog"; at_operation := SEARCH_TOOL;
     at_claim_capability := worker_1; at_operational_status := AVAILABLE;
     at_catalog_query := Some "lamp"%string; at_product_id := None; at_probe_capability := None;
     at_kill_switch := {| engaged := false; ks_reason := None |} |}.

(** A provider with one product, and its only offer. *)
Definition one_product (call : http_call) : option CatalogTransportResult :=
  Some {| status_code := 200;
          ShopifyCatalog.Response.payload := Some [("result", VDict [("structuredContent",
            VDict [("products", VList [VDict [("id", VStr "p1")]])])])]%string;
          ShopifyCatalog.Response.timed_out := false; malformed := false; transport_unavailable := false;
          raw_body_persisted := false |}.

Definition line0 : money_line := {| ml_amount_minor := None; ml_status := "unknown" |}.

Definition one_offer (product variant : dict value) (checked : datetime) (kind : string)
    : result normalize_exn ShopifyNormalizedOffer :=
  Ok {| o_product_id := "p1"; o_variant_id := None; o_seller_identity := "lamps.example";
        o_availability := IN_STOCK; o_currency := "PHP"; o_price_amount_minor := 129900;
        o_checked_at := checked; o_source_mode := FIXTURE; o_observation_kind := kind;
        o_shipping := line0; o_taxes := line0; o_import_charges := line0; o_voucher := line0;
        o_price_state := "listed" |}.

Definition policy0 : Breaker.BreakerPolicy :=
  {| Breaker.failure_threshold := 3; Breaker.recovery_window_ms := 30000 |}.

Definition run (started finished : datetime) (σ : memory_tx (Refinement := unit)) :=
  Adapter.execute (ClaimTransaction0 := memory_transaction digest0 defaults noon)
    digest0 InjectedTransport one_product one_offer policy0 attempt0 started finished (σ, []).

Lemma memory_attempts now p p' :
  TxInterface.can digest0 defaults (TransactionLaws := laws0 now) p p' -> exists h, attempts p h p'.
Proof.
  intros [_ [H _]]. exists []. eapply Meanwhile; [apply NoAttempt |]. intros i Hi. by rewrite H.
Qed.

(** The attempt is sent, and its outcome stored. *)
Example attempt_is_stored :
  match run (at_s 1) (at_s 2) (store abandoned "consumed" 4) with
  | (Ok r, (_, log)) => er_persisted r = true /\ er_state r = Some "completed"%string /\ length log = 1%nat
  | (Err _, _) => False
  end.
Proof. vm_compute. done. Qed.

Example http_at_most_once_witness :
  exists p' h' call, (run (at_s 1) (at_s 2) (store abandoned "consumed" 4)).2.2 = [call]
    /\ execution0 ∈ h' /\ attempts (rows0 abandoned "consumed" 4) h' p' /\ NoDup h'.
Proof.
  pose proof attempt_is_stored as Hg.
  destruct (AttemptTheorems.http_at_most_once (L := laws0 noon) InjectedTransport one_product one_offer policy0
    (store abandoned "consumed" 4) [] (rows0 abandoned "consumed" 4) [] (rows0 abandoned "consumed" 4)
    attempt0 (at_s 1) (at_s 2) (memory_attempts noon) (NoAttempt _) (abandoned_tx noon))
    as (p' & h' & _ & Hh & Hd & Hlog).
  unfold run in Hg |- *. destruct (Adapter.execute _ _ _ _ _ _ _ _ _) as [[r|x] [σ' log]]; [| done].
  cbn [fst snd] in *. destruct Hg as (_ & _ & Hlen).
  destruct Hlog as [-> | (call & i & -> & Hi & Hid)]; [done |].
  rewrite (execution_of_request noon : _execution_id digest0 attempt0 = Ok execution0) in Hid.
  injection Hid as <-. exists p', h', call. exact (conj eq_refl (conj Hi (conj Hh Hd))).
Defined.

Example outcome_is_stored_whole_witness :
  exists q c j saved e record b next,
    AttemptSafety.Phases.outcome_of (Refinement := unit) (sha256_hex := digest0) (transport := InjectedTransport) (policy := policy0)
      attempt0 c j (at_s 2) q saved e record b next
    /\ state_value (state saved) = "completed"%string.
Proof.
  pose proof attempt_is_stored as Hg.
  destruct (AttemptTheorems.outcome_is_stored_whole (L := laws0 noon) InjectedTransport one_product one_offer
    policy0 (store abandoned "consumed" 4) [] (rows0 abandoned "consumed" 4) attempt0 (at_s 1) (at_s 2)
    (abandoned_tx noon)) as (p' & _ & H).
  unfold run in Hg. destruct (Adapter.execute _ _ _ _ _ _ _ _ _) as [[r|x] [σ' log]]; [| done].
  cbn [fst snd] in *. destruct Hg as (Hp & Hs & _). rewrite Hp in H.
  destruct H as (q & c & i & e & q' & response & j & saved & e' & record & b & next & _ & _ & _ & _ & _ & _ & Ho & Est & _).
  rewrite Est in Hs. injection Hs as Hs. exists q', c, j, saved, e', record, b, next. exact (conj Ho Hs).
Defined.

(** The worker died after its running row was committed. *)
Definition interrupted : Execution :=
  Pins.replacement abandoned (set_running attempt0 (at_s 1) (_request_digest digest0 attempt0) abandoned)
    (revision abandoned).

Lemma interrupted_ok : good execution0 interrupted.
Proof. by split; vm_compute. Qed.

Lemma interrupted_tx now :
  TxInterface.tx_at digest0 defaults (TransactionLaws := laws0 now)
    (store interrupted "consumed" 4) (rows0 interrupted "consumed" 4) [].
Proof. by apply store_tx; [apply interrupted_ok |]. Qed.

Definition reconcile_at (finished : datetime) (σ : memory_tx (Refinement := unit)) :=
  reconcile_ambiguous (ClaimTransaction0 := memory_transaction digest0 defaults noon)
    digest0 attempt0 finished σ.

(** Before the claim has run out the row is left alone. *)
Example early_reconciliation_is_refused :
  match (reconcile_at (at_s 29) (store interrupted "consumed" 4)).1 with
  | Ok r => er_block_reason r = Some "attempt_still_claimed"%string
  | Err _ => False
  end.
Proof. vm_compute. done. Qed.

Example reconciliation_is_stored :
  match (reconcile_at second (store interrupted "consumed" 4)).1 with
  | Ok r => er_persisted r = true
  | Err _ => False
  end.
Proof. vm_compute. done. Qed.

Example reconciliation_closes_only_lost_witness :
  exists q i e record, lost (Refinement := unit) (sha256_hex := digest0) attempt0 second q i e record.
Proof.
  pose proof reconciliation_is_stored as Hg.
  destruct (AttemptTheorems.reconciliation_closes_only_lost (L := laws0 noon)
    (store interrupted "consumed" 4) (rows0 interrupted "consumed" 4) attempt0 second (interrupted_tx noon))
    as (p' & _ & H).
  unfold reconcile_at in Hg. destruct (reconcile_ambiguous _ _ _ _) as [[r|x] σ']; [| done].
  cbn [fst snd] in *. rewrite Hg in H. destruct H as (q & i & e & record & _ & _ & Hl & _).
  exists q, i, e, record. exact Hl.
Defined.

Lemma interrupted_running :
  exec_at (rows0 interrupted "consumed" 4) execution0 = Some interrupted /\ state interrupted = running.
Proof. done. Qed.

Example lost_attempt_is_closed_witness :
  exists x, (reconcile_at second (store interrupted "consumed" 4)).1 = Ok x
    /\ er_state x = Some "outcome_unknown"%string /\ er_claim_released x = true.
Proof.
  destruct (AttemptTheorems.lost_attempt_is_closed (L := laws0 noon)
    (store interrupted "consumed" 4) (rows0 interrupted "consumed" 4) attempt0 second execution0 interrupted
    second_aware I (interrupted_tx noon) (execution_of_request noon) (proj1 interrupted_running)
    (proj2 interrupted_running) eq_refl eq_refl eq_refl eq_refl eq_refl)
    as (x & q & record & Hx & _ & Hs & Hc & _). exists x. exact (conj Hx (conj Hs Hc)).
Defined.

(** *** On the database *)
Import SqlTx.

(** Other workers come and go between the statements and change nothing; the
    database is down at one statement of the second transaction. *)
Definition flaky : list event := repeat (Event (P := payload) (fun _ t => t) false) 7
                                 ++ [Event (fun _ t => t) true].

Lemma flaky_ok : Forall (event_ok digest0 defaults as_exec as_brk as_conv (AttemptDatabase.workers defaults)) flaky.
Proof.
  assert (forall d, event_ok digest0 defaults as_exec as_brk as_conv (AttemptDatabase.workers defaults)
                      (Event (P := payload) (fun _ t => t) d)) as H.
  { intros d locks t Ht. split; [done |]. split; [| done].
    apply AttemptDatabase.workers_same; [| done]. by eapply fine_rows. }
  unfold flaky. simpl. repeat (apply Forall_cons_2; [apply H |]). apply Forall_nil_2.
Qed.

Definition claimed_table : op_table payload := table_of abandoned "consumed" 4.

Definition database_run (script : list event) :=
  Adapter.execute (ClaimTransaction0 := sql_transaction digest0 defaults noon PExec as_exec PBreaker as_brk
                                          PConv as_conv)
    digest0 InjectedTransport one_product one_offer policy0 attempt0 (at_s 1) (at_s 2)
    (Session claimed_table [] script, []).

(** One call was sent, and the outcome was lost. *)
Example database_attempt_is_lost :
  match database_run flaky with
  | (Ok r, (_, log)) => er_block_reason r = Some "outcome_persistence_unavailable"%string /\ length log = 1%nat
  | (Err _, _) => False
  end.
Proof. vm_compute. done. Qed.

Lemma claimed_fine : all_fine digest0 defaults as_exec as_brk as_conv claimed_table.
Proof. by apply table_of_fine; [apply abandoned_ok |]. Qed.

Lemma claimed_history :
  attempts (table_rows as_exec as_brk as_conv claimed_table) [] (table_rows as_exec as_brk as_conv claimed_table).
Proof. constructor. Qed.

Example database_http_at_most_once_witness :
  exists p' h', attempts (table_rows as_exec as_brk as_conv claimed_table) h' p' /\ NoDup h'
    /\ execution0 ∈ h' /\ length (database_run flaky).2.2 = 1%nat.
Proof.
  pose proof database_attempt_is_lost as Hg.
  destruct (AttemptDatabase.database_http_at_most_once digest0 defaults noon PExec as_exec
    PBreaker as_brk PConv as_conv (fun _ _ => eq_refl) (fun _ _ => eq_refl) (fun _ _ => eq_refl)
    InjectedTransport one_product one_offer policy0
    (table_rows as_exec as_brk as_conv claimed_table) claimed_table [] flaky attempt0 (at_s 1) (at_s 2) []
    claimed_fine claimed_history flaky_ok)
    as (_ & p' & h' & _ & Hh & Hd & Hlog).
  unfold database_run in *. destruct (Adapter.execute _ _ _ _ _ _ _ _ _) as [[r|x] [σ' log]]; [| done].
  cbn [fst snd] in *. destruct Hg as [_ Hlen].
  destruct Hlog as [-> | (call & i & -> & Hi & Hid)]; [done |].
  rewrite (execution_of_request noon : _execution_id digest0 attempt0 = Ok execution0) in Hid.
  injection Hid as <-. exists p', h'. exact (conj Hh (conj Hd (conj Hi Hlen))).
Defined.

End AttemptExamples.
