(* ===== verification/Router.v ===== *)
(** Planning authorised research: [app/services/research_execution_router.py].

    A validated authorization is turned into a plan over the certified
    providers; nothing is executed. [plan_authorized_research] takes the two
    catalogs the caller resolved. *)

From stdpp Require Import sorting.
From S2P Require Import Prelude PyStr Json Countries Clock Connector Research Catalogs.
From S2P Require Import Eligibility Authorization.
Import Connector Research Catalog Capabilities Eligibility Authorization.
#[local] Open Scope Z_scope.

Module Router.

Definition PLAN_VERSION : Z := 1.
Definition EXECUTION_REQUEST_VERSION : Z := 1.

(** ** The status of a plan *)

Definition has_step (steps : list ResearchProviderStep) (c : ResearchCapability) : bool :=
  existsb (fun s => bool_decide (s_capability s = c)) steps.
Definition has_block (blocked : list BlockedRequirement) (c : ResearchCapability) : bool :=
  existsb (fun b => bool_decide (b_capability b = c)) blocked.

(** [covered = {steps' capabilities} - blocked_caps]. *)
Definition covered (steps : list ResearchProviderStep) (blocked : list BlockedRequirement)
    (c : ResearchCapability) : bool := has_step steps c && negb (has_block blocked c).

Definition _support_status (required : list ResearchCapability)
    (steps : list ResearchProviderStep) (blocked : list BlockedRequirement)
    (destination_sensitive : bool) (market : option TrustedMarketContext) (reason : string)
    : string :=
  let missing := List.filter (fun c => negb (covered steps blocked c)) required in
  let blocked_reason r := existsb (fun b => String.eqb (b_reason b) r) blocked in
  let reevaluation := String.eqb reason "reevaluation_required" in
  match required with
  | [] => "unsupported"
  | _ =>
      match missing with
      | [] => "ready"
      | _ =>
          match steps with
          | [] =>
              if negb (is_some market) || blocked_reason "missing_market_context"%string
              then "blocked_market_context"
              else if destination_sensitive && forallb destination_capability missing
              then "blocked_market_context"
              else if reevaluation && blocked_reason "destination_support_not_ready"%string
              then "blocked_market_context"
              else "blocked_missing_certified_provider"
          | _ =>
              if destination_sensitive && reevaluation && forallb destination_capability missing
              then "blocked_market_context" else "partially_supported"
          end
      end
  end%string.

Section Router.
Variable sha256_hex : string -> string.

(** ** The request *)

Definition execution_request_from_handoff (h : AuthorizedResearchHandoff)
    (trusted_market : option TrustedMarketContext) : outcome ResearchExecutionRequest :=
  let request_id := "research-exec-req:" +:+ stable_sha256 sha256_hex
    (JObj [("kind", JStr "research_execution_request_v1");
           ("authorization_id", JStr (h_authorization_id h));
           ("authorization_version", JInt (h_authorization_version h));
           ("scope_digest", JStr (h_scope_digest h))]%string) in
  request_post_init
    {| r_request_id := request_id; r_request_version := EXECUTION_REQUEST_VERSION;
       r_authorization_id := h_authorization_id h;
       r_authorization_version := h_authorization_version h; r_decision_id := h_decision_id h;
       r_context_version := h_context_version h; r_conversation_id := h_conversation_id h;
       r_proposal_id := h_proposal_id h; r_proposal_version := h_proposal_version h;
       r_scope := h_scope h; r_scope_digest := h_scope_digest h;
       r_idempotency_key := h_idempotency_key h; r_market := trusted_market |}.

(** ** The plan *)

Definition research_plan_digest (request : ResearchExecutionRequest)
    (required : list ResearchCapability) (steps : list ResearchProviderStep)
    (blocked : list BlockedRequirement) (status : string)
    (registry_fingerprint certification_fingerprint routing_fingerprint : string) : string :=
  stable_sha256 sha256_hex
    (JObj [("kind", JStr "research_execution_plan_v1");
           ("authorization_id", JStr (r_authorization_id request));
           ("authorization_version", JInt (r_authorization_version request));
           ("scope_digest", JStr (r_scope_digest request));
           ("market", JOpt (fun m => JStr (country_code m)) (r_market request));
           ("required_capabilities", JStrs (map capability_value required));
           ("provider_ids", JStrs (map s_provider_id steps));
           ("capability_assignments", JList (map (fun s =>
              JObj [("provider_id", JStr (s_provider_id s));
                    ("capability", JStr (capability_value (s_capability s)));
                    ("sources", JStrs (source_identities s)); ("market", JOpt JStr (s_market s));
                    ("certification_id", JStr (s_certification_id s));
                    ("certification_version", JStr (s_certification_version s))]) steps));
           ("blocked", JList (map (fun b =>
              JObj [("capability", JStr (capability_value (b_capability b)));
                    ("reason", JStr (b_reason b))]) blocked));
           ("status", JStr status); ("registry_fingerprint", JStr registry_fingerprint);
           ("certification_fingerprint", JStr certification_fingerprint);
           ("routing_policy_fingerprint", JStr routing_fingerprint)]%string).

Section Plan.
Variables (registry : Registry.ResearchProviderRegistry)
          (catalog : Certifications.ResearchProviderCertificationCatalog)
          (routing : Routing.ResearchProviderRoutingPolicyCatalog).

Definition plan_parts : Type :=
  list ResearchProviderStep * list BlockedRequirement * list ProviderEligibility.

(** The loop over the required capabilities. *)
Fixpoint assign_capabilities (market : option TrustedMarketContext) (sources : list string)
    (destination_sensitive : bool) (next_index : Z) (required : list ResearchCapability)
    : outcome plan_parts :=
  match required with
  | [] => Ok ([], [], [])
  | capability :: rest =>
      let! (assigned, blocked, audits) :=
        assign_capability_step registry catalog routing capability market sources next_index
          destination_sensitive in
      let! (more_steps, more_blocked, more_audits) :=
        assign_capabilities market sources destination_sensitive
          (next_index + Z.max (Z.of_nat (length assigned)) 1) rest in
      Ok (assigned ++ more_steps, blocked ++ more_blocked, audits ++ more_audits)
  end.

(** The scope's own sensitivity, or a re-evaluation. *)
Definition plan_destination_sensitive (scope : FrozenResearchScope) : bool :=
  destination_sensitive_required (some_text (destination_label scope))
  || String.eqb (sc_reason scope) "reevaluation_required".

Definition build_execution_plan (request : ResearchExecutionRequest)
    : outcome ResearchExecutionPlan :=
  let scope := r_scope request in
  let required := derive_required_capabilities scope in
  let! (steps, blocked, audits) :=
    assign_capabilities (r_market request) (requested_sources scope)
      (plan_destination_sensitive scope) 1 required in
  let status := _support_status required steps blocked (plan_destination_sensitive scope)
                  (r_market request) (sc_reason scope) in
  let digest := research_plan_digest request required steps blocked status
                  (Registry.fingerprint sha256_hex registry)
                  (Certifications.fingerprint sha256_hex catalog)
                  (Routing.fingerprint sha256_hex routing) in
  plan_post_init
    {| plan_id := "research-plan:" +:+ digest; plan_version := PLAN_VERSION;
       pl_authorization_id := r_authorization_id request;
       pl_authorization_version := r_authorization_version request;
       pl_decision_id := r_decision_id request; pl_context_version := r_context_version request;
       pl_conversation_id := r_conversation_id request; pl_proposal_id := r_proposal_id request;
       pl_proposal_version := r_proposal_version request;
       pl_scope_digest := r_scope_digest request; required_capabilities := required;
       eligible_steps := steps; blocked_requirements := blocked; eligibility_audit := audits;
       support_status := status; plan_digest := digest;
       pl_outside_set_product_names := outside_set_product_names scope;
       pl_requested_sources := requested_sources scope; pl_market := r_market request;
       execution_available := false; execution_implemented := false;
       plan_ready := String.eqb status "ready"; source_checked := false; pl_attempted := false |}.

Definition plan_authorized_research (authorization : option ResearchAuthorization)
    (owner : ConversationOwner) (conversation decision : string) (context_version : Z)
    (trusted_market : option TrustedMarketContext) (proposal : option ResearchProposal)
    (expected_scope_digest expected_proposal_id : option string)
    (expected_proposal_version : option Z) : result auth_exn ResearchPlanningResult :=
  let rejected reason :=
    lift (planning_result_post_init
            {| planned := false; rp_reason := reason; rp_plan := None |}) in
  let! validation :=
    validate_research_authorization_for_execution sha256_hex authorization owner conversation
      decision context_version proposal expected_scope_digest expected_proposal_id
      expected_proposal_version in
  if negb (valid validation) then rejected (v_reason validation)
  else
    let! handoff := get_authorized_research_handoff sha256_hex authorization owner conversation
                      decision context_version proposal expected_scope_digest in
    match handoff with
    | None => rejected "stale_authorization"%string
    | Some h =>
        let! request := lift (execution_request_from_handoff h trusted_market) in
        let! plan := lift (build_execution_plan request) in
        lift (planning_result_post_init
          {| planned := true; rp_reason := support_status plan; rp_plan := Some plan |})
    end.
End Plan.
End Router.

(** ** What an assignment promises *)

(** Strictly increasing step numbers in [lo, hi). *)
Definition indices (lo hi : Z) (l : list Z) : Prop :=
  StronglySorted Z.lt l /\ Forall (fun i => lo <= i < hi) l.

Lemma indices_nil lo hi : indices lo hi [].
Proof. split; constructor. Qed.

Lemma indices_app lo mid hi a b :
  lo <= mid <= hi -> indices lo mid a -> indices mid hi b -> indices lo hi (a ++ b).
Proof.
  intros Hm [Ha1 Ha2] [Hb1 Hb2]. rewrite Forall_forall in Ha2, Hb2. split.
  - apply StronglySorted_app. split; [| done]. intros x y Hx Hy.
    specialize (Ha2 x Hx). specialize (Hb2 y Hy). lia.
  - apply Forall_forall. intros x [Hx | Hx]%elem_of_app;
      [specialize (Ha2 x Hx) | specialize (Hb2 x Hx)]; lia.
Qed.

Lemma indices_cons lo hi l : indices (lo + 1) hi l -> lo < hi -> indices lo hi (lo :: l).
Proof.
  intros H Hlt. destruct (decide (lo + 1 <= hi)); [| lia].
  apply (indices_app lo (lo + 1) hi [lo]); [lia | | done].
  split; [repeat constructor |]. constructor; [lia | constructor].
Qed.

(** The sources the loop of [assign_capability_step] asks for. *)
Definition requested_of (sources : list string) : list (option string) :=
  match sources with [] => [None] | _ => map Some sources end.

Section Assignment.
Context (registry : Registry.ResearchProviderRegistry)
        (t : Certifications.ResearchProviderCertificationCatalog)
        (routing : Routing.ResearchProviderRoutingPolicyCatalog).

(** A step is backed by the best registered provider that holds the exact
    certified record, for one of the requested sources. *)
Definition certified_step (market : string) (requested : option string)
    (s : ResearchProviderStep) : Prop :=
  exists d c src,
    d ∈ Registry.list_providers registry /\ src ∈ sources_to_try d requested
    /\ certified_for t d (s_capability s) (Some market) src c
    /\ (forall d', d' ∈ Registry.list_providers registry ->
          usable t d' (s_capability s) (Some market) requested -> better routing d d')
    /\ s_provider_id s = d_provider_id d /\ s_provider_type s = d_provider_type d
    /\ s_market s = Some market /\ s_certification_id s = c_certification_id c
    /\ s_certification_version s = c_version c /\ s_attempted s = false
    /\ (some_text requested = true -> source_identities s = [default ""%string requested]).

(** What one capability contributes to a plan. *)
Record part (capability : ResearchCapability) (market : option TrustedMarketContext)
    (sources : list string) (lo : Z) (steps : list ResearchProviderStep)
    (blocked : list BlockedRequirement) : Prop := {
  part_steps : forall s, s ∈ steps -> s_capability s = capability
    /\ exists m requested, market = Some m /\ requested ∈ requested_of sources
       /\ certified_step (country_code m) requested s;
  part_blocked : forall b, b ∈ blocked -> b_capability b = capability /\ b_unknown b = true;
  part_indices : indices lo (lo + Z.of_nat (length steps)) (map step_index steps);
  part_answered : steps <> [] \/ blocked <> []
}.

Lemma blocked_requirement_ok capability reason detail material :
  exists b, blocked_requirement capability reason detail material = Ok b
            /\ b_capability b = capability /\ b_unknown b = true.
Proof. eexists. split; [reflexivity | done]. Qed.

Lemma assign_sources_spec capability market srcs lo n :
  1 <= lo + n ->
  exists steps blocked audits,
    assign_sources registry t routing capability srcs market lo n = Ok (steps, blocked, audits)
    /\ (forall s, s ∈ steps -> s_capability s = capability
          /\ exists requested, requested ∈ srcs /\ certified_step market requested s)
    /\ (forall b, b ∈ blocked -> b_capability b = capability /\ b_unknown b = true)
    /\ indices (lo + n) (lo + n + Z.of_nat (length steps)) (map step_index steps)
    /\ (srcs <> [] -> steps <> [] \/ blocked <> []).
Proof.
  revert n. induction srcs as [|requested srcs IH]; intros n Hn; cbn [assign_sources].
  { exists [], [], []. split; [done |].
    do 2 (split; [by intros ? H%elem_of_nil |]). split; [apply indices_nil | done]. }
  pose proof (selection_spec registry t routing capability (Some market) requested) as Hsel.
  destruct (select_certified_provider _ _ _ _ _ _) as [[[[d c] src]|] audits]; cbn [fst] in Hsel.
  - destruct Hsel as (Hd & Hsrc & Hc & _ & Hbest).
    unfold make_step, step_post_init. cbn [s_attempted step_index guard_raise rbind].
    assert ((lo + n <? 1) = false) as -> by lia. cbn [guard_raise rbind].
    destruct (IH (n + 1) ltac:(lia)) as (steps & blocked & more & -> & H1 & H2 & H3 & _).
    cbn [rbind]. eexists _, _, _. split; [reflexivity |]. split; [| split; [done |]].
    + intros s [-> | Hs]%elem_of_cons.
      * simpl. split; [done |]. exists requested. split; [constructor |].
        exists d, c, src. simpl. do 10 (split; [done |]). by intros ->.
      * destruct (H1 s Hs) as (? & r & ? & ?). split; [done |]. exists r. by split; [constructor |].
    + split; [| by left]. cbn [map length step_index]. apply indices_cons; [| lia].
      replace (lo + n + 1) with (lo + (n + 1)) by lia.
      by replace (lo + n + Z.of_nat (S (length steps)))
        with (lo + (n + 1) + Z.of_nat (length steps)) by lia.
  - destruct (blocked_requirement_ok capability (_blocked_reason audits requested)
      (_blocked_detail capability requested market) (destination_capability capability))
      as (b & -> & Hb). cbn [rbind].
    destruct (IH n Hn) as (steps & blocked & more & -> & H1 & H2 & H3 & _).
    cbn [rbind]. exists steps, (b :: blocked), (audits ++ more). split; [done |]. split.
    + intros s Hs. destruct (H1 s Hs) as (? & r & ? & ?). split; [done |].
      exists r. by split; [constructor |].
    + split; [| split; [done | by right]]. by intros b' [-> | Hb']%elem_of_cons; [| apply H2].
Qed.

Lemma blocked_part capability market sources lo b :
  b_capability b = capability /\ b_unknown b = true -> part capability market sources lo [] [b].
Proof.
  intros Hb. split; [by intros ? H%elem_of_nil | | apply indices_nil | by right].
  by intros b' ->%list_elem_of_singleton.
Qed.

Lemma assign_capability_spec capability market sources lo sensitive :
  1 <= lo ->
  exists steps blocked audits,
    assign_capability_step registry t routing capability market sources lo sensitive
      = Ok (steps, blocked, audits)
    /\ part capability market sources lo steps blocked
    /\ (sensitive = true -> destination_capability capability = true -> steps = []).
Proof.
  intros Hlo. unfold assign_capability_step. destruct (sensitive && _) eqn:Es.
  { destruct (blocked_requirement_ok capability "destination_support_not_ready"
      ("Destination-sensitive cost is owned by Sprint 37. "
         +:+ "The router will not estimate shipping or taxes.") true) as (b & -> & Hb).
    exists [], [b], []. split; [done |]. by split; [apply blocked_part |]. }
  assert (Hs : sensitive = true -> destination_capability capability = true -> False)
    by (intros H1 H2; by rewrite H1, H2 in Es). destruct market as [m|].
  - destruct (assign_sources_spec capability (country_code m) (requested_of sources) lo 0
                ltac:(lia)) as (steps & blocked & audits & E & H1 & H2 & H3 & H4).
    unfold requested_of in E. rewrite E. exists steps, blocked, audits. split; [done |].
    split; [| by intros ? ?; exfalso; apply Hs]. rewrite Z.add_0_r in H3.
    split; [| done | done | by apply H4; destruct sources].
    intros s Hin. destruct (H1 s Hin) as (? & r & ? & ?). split; [done |]. by exists m, r.
  - destruct (blocked_requirement_ok capability "missing_market_context"
      "Trusted market context is required and must not be fabricated."
      (destination_capability capability)) as (b & -> & Hb).
    exists [], [b], []. split; [done |]. by split; [apply blocked_part |].
Qed.
End Assignment.

(** ** Plans *)

Section PlanLaws.
Context (registry : Registry.ResearchProviderRegistry)
        (t : Certifications.ResearchProviderCertificationCatalog)
        (routing : Routing.ResearchProviderRoutingPolicyCatalog).

(** What the loop over the required capabilities collects. *)
Record collected (required : list ResearchCapability) (market : option TrustedMarketContext)
    (sources : list string) (sensitive : bool) (lo : Z) (steps : list ResearchProviderStep)
    (blocked : list BlockedRequirement) : Prop := {
  col_steps : forall s, s ∈ steps -> s_capability s ∈ required
    /\ exists m requested, market = Some m /\ requested ∈ requested_of sources
       /\ certified_step registry t routing (country_code m) requested s;
  col_blocked : forall b, b ∈ blocked -> b_capability b ∈ required /\ b_unknown b = true;
  col_answered : forall c, c ∈ required ->
    (exists s, s ∈ steps /\ s_capability s = c) \/ (exists b, b ∈ blocked /\ b_capability b = c);
  col_sensitive : sensitive = true -> forall s, s ∈ steps ->
    destination_capability (s_capability s) = false;
  col_indices : exists hi, lo <= hi /\ indices lo hi (map step_index steps)
}.

Lemma collected_cons c required market sources sensitive lo steps blocked steps' blocked' :
  part registry t routing c market sources lo steps blocked ->
  (sensitive = true -> destination_capability c = true -> steps = []) ->
  collected required market sources sensitive
    (lo + Z.max (Z.of_nat (length steps)) 1) steps' blocked' ->
  collected (c :: required) market sources sensitive lo (steps ++ steps') (blocked ++ blocked').
Proof.
  intros [P1 P2 P3 P4] Hd [C1 C2 C3 C4 (hi & Hle & C5)]. split.
  - intros s [Hs | Hs]%elem_of_app.
    + destruct (P1 s Hs) as (-> & H). split; [constructor | done].
    + destruct (C1 s Hs) as (H & H'). by split; [constructor |].
  - intros b [Hb | Hb]%elem_of_app.
    + destruct (P2 b Hb) as (-> & H). split; [constructor | done].
    + destruct (C2 b Hb) as (H & H'). by split; [constructor |].
  - intros x [-> | Hx]%elem_of_cons.
    + destruct P4 as [Hne | Hne].
      * destruct steps as [|s steps]; [done |]. left. exists s.
        split; [constructor | apply P1; constructor].
      * destruct blocked as [|b blocked]; [done |]. right. exists b.
        split; [constructor | apply P2; constructor].
    + destruct (C3 x Hx) as [(s & Hs & E) | (b & Hb & E)]; [left; exists s | right; exists b];
        (split; [apply elem_of_app; by right | done]).
  - intros Hsen s [Hs | Hs]%elem_of_app; [| by apply C4].
    destruct (P1 s Hs) as (-> & _). destruct (destination_capability c) eqn:E; [| done].
    rewrite (Hd Hsen eq_refl) in Hs. by apply elem_of_nil in Hs.
  - exists hi. split; [lia |]. rewrite map_app.
    apply (indices_app lo (lo + Z.max (Z.of_nat (length steps)) 1)); [lia | | done].
    destruct P3 as [S1 S2]. split; [done |]. eapply Forall_impl; [exact S2 |]. simpl. lia.
Qed.

Lemma assign_capabilities_spec market sources sensitive lo required :
  1 <= lo ->
  exists steps blocked audits,
    assign_capabilities registry t routing market sources sensitive lo required
      = Ok (steps, blocked, audits)
    /\ collected required market sources sensitive lo steps blocked.
Proof.
  revert lo. induction required as [|c required IH]; intros lo Hlo; cbn [assign_capabilities].
  - exists [], [], []. split; [done |].
    split; try by intros ? H%elem_of_nil.
    + by intros _ ? H%elem_of_nil.
    + exists lo. split; [lia | apply indices_nil].
  - destruct (assign_capability_spec registry t routing c market sources lo sensitive Hlo)
      as (steps & blocked & audits & -> & Hp & Hd). cbn [rbind].
    destruct (IH (lo + Z.max (Z.of_nat (length steps)) 1) ltac:(lia))
      as (steps' & blocked' & audits' & -> & Hc). cbn [rbind].
    exists (steps ++ steps'), (blocked ++ blocked'), (audits ++ audits').
    split; [done | by apply collected_cons].
Qed.

Lemma has_step_iff steps c : has_step steps c = true <-> exists s, s ∈ steps /\ s_capability s = c.
Proof.
  unfold has_step. rewrite existsb_exists. split; intros (s & Hs & E); exists s.
  - split; [by apply list_elem_of_In | by apply bool_decide_eq_true in E].
  - split; [by apply list_elem_of_In | by apply bool_decide_eq_true].
Qed.

Lemma has_block_iff blocked c :
  has_block blocked c = true <-> exists b, b ∈ blocked /\ b_capability b = c.
Proof.
  unfold has_block. rewrite existsb_exists. split; intros (s & Hs & E); exists s.
  - split; [by apply list_elem_of_In | by apply bool_decide_eq_true in E].
  - split; [by apply list_elem_of_In | by apply bool_decide_eq_true].
Qed.

Lemma missing_nil required steps blocked :
  List.filter (fun c => negb (covered steps blocked c)) required = []
  <-> forall c, c ∈ required -> covered steps blocked c = true.
Proof.
  split.
  - intros E c Hc. destruct (covered steps blocked c) eqn:Ec; [done |].
    assert (In c (List.filter (fun c => negb (covered steps blocked c)) required)) as H.
    { apply filter_In. split; [by apply list_elem_of_In | by rewrite Ec]. }
    by rewrite E in H.
  - intros H. induction required as [|c required IH]; [done |]. simpl.
    rewrite (H c) by constructor. apply IH. intros x Hx. apply H. by constructor.
Qed.

Lemma status_ready required steps blocked sensitive market reason :
  String.eqb (_support_status required steps blocked sensitive market reason) "ready" = true
  <-> required <> [] /\ forall c, c ∈ required -> covered steps blocked c = true.
Proof.
  rewrite <- missing_nil. unfold _support_status. cbv zeta.
  destruct required as [|c required]; [naive_solver |].
  destruct (List.filter _ _); [naive_solver |].
  split; [| by intros [_ ?]]. repeat case_match; discriminate.
Qed.

(** Everything answered: ready means that nothing was blocked. *)
Lemma ready_iff required market sources sensitive lo steps blocked reason :
  collected required market sources sensitive lo steps blocked ->
  String.eqb (_support_status required steps blocked sensitive market reason) "ready" = true
  <-> required <> [] /\ blocked = [].
Proof.
  intros [_ C2 C3 _ _]. rewrite status_ready. split; intros [Hne H]; (split; [done |]).
  - destruct blocked as [|b blocked]; [done |]. exfalso.
    destruct (C2 b ltac:(constructor)) as [Hb _]. specialize (H _ Hb). unfold covered in H.
    apply andb_true_iff in H as [_ H%negb_true_iff]. apply not_true_iff_false in H.
    apply H, has_block_iff. exists b. split; [constructor | done].
  - subst blocked. intros c Hc. unfold covered. simpl. rewrite andb_true_r.
    apply has_step_iff. destruct (C3 c Hc) as [H | (b & Hb%elem_of_nil & _)]; done.
Qed.
End PlanLaws.

Section Plans.
Context (sha256_hex : string -> string)
        (registry : Registry.ResearchProviderRegistry)
        (t : Certifications.ResearchProviderCertificationCatalog)
        (routing : Routing.ResearchProviderRoutingPolicyCatalog).
(** A SHA-256 hex digest has 64 characters. *)
Hypothesis digest_length : forall s, len (sha256_hex s) = 64.

Lemma digest_text s : nonempty (sha256_hex s) = true.
Proof.
  apply nonempty_true. intros E. pose proof (digest_length s) as H. rewrite E in H. discriminate.
Qed.

Lemma build_plan_spec request :
  exists p, build_execution_plan sha256_hex registry t routing request = Ok p
    /\ collected registry t routing (derive_required_capabilities (r_scope request))
         (r_market request) (requested_sources (r_scope request))
         (plan_destination_sensitive (r_scope request)) 1
         (eligible_steps p) (blocked_requirements p)
    /\ required_capabilities p = derive_required_capabilities (r_scope request)
    /\ plan_ready p = String.eqb (support_status p) "ready"
    /\ (plan_ready p = true <->
          required_capabilities p <> [] /\ blocked_requirements p = [])
    /\ pl_scope_digest p = r_scope_digest request
    /\ pl_authorization_id p = r_authorization_id request
    /\ execution_available p = false /\ execution_implemented p = false
    /\ source_checked p = false /\ pl_attempted p = false.
Proof.
  unfold build_execution_plan. cbv zeta.
  destruct (assign_capabilities_spec registry t routing (r_market request)
    (requested_sources (r_scope request)) (plan_destination_sensitive (r_scope request)) 1
    (derive_required_capabilities (r_scope request)) ltac:(lia))
    as (steps & blocked & audits & -> & Hc). cbn [rbind].
  set (status := _support_status _ _ _ _ _ _).
  set (digest := research_plan_digest _ _ _ _ _ _ _ _ _).
  assert (Hd : nonempty digest = true /\ len digest = 64)
    by (split; [apply digest_text | apply digest_length]).
  clearbody digest. destruct Hd as [Hne Hlen].
  pose proof (ready_iff registry t routing _ _ _ _ _ _ _ (sc_reason (r_scope request)) Hc)
    as Hready. fold status in Hready. clearbody status.
  unfold plan_post_init. cbn. unfold py_true. rewrite Hne, Hlen.
  destruct (String.eqb status "ready") eqn:Er; cbn.
  - destruct (proj1 Hready eq_refl) as [Hreq ->].
    destruct steps as [|s steps].
    { exfalso. destruct (derive_required_capabilities (r_scope request)) as [|c l]; [done |].
      destruct (col_answered _ _ _ _ _ _ _ _ _ _ Hc c ltac:(constructor))
        as [(x & Hx & _) | (x & Hx & _)]; by apply elem_of_nil in Hx. }
    eexists. split; [reflexivity |]. cbn. rewrite Er. by repeat split_and.
  - eexists. split; [reflexivity |]. cbn. rewrite Er. by repeat split_and.
Qed.

(** C8: a plan is sound and complete, and planning never fails. For every
    request the builder returns a plan whose required capabilities are those of
    the approved scope; every step serves a required capability in the trusted
    market through the best registered provider with the exact certified record
    for a requested source; every required capability is served or declared
    blocked and unknown; no destination-dependent cost is planned for a
    destination-sensitive scope; the plan is ready exactly when something is
    required and nothing is blocked; the steps are numbered upwards from one;
    and no plan claims that anything was executed or checked. *)
Theorem plan_is_sound request :
  exists p, build_execution_plan sha256_hex registry t routing request = Ok p
    /\ required_capabilities p = derive_required_capabilities (r_scope request)
    /\ (forall s, s ∈ eligible_steps p -> s_capability s ∈ required_capabilities p
          /\ exists m requested, r_market request = Some m
             /\ requested ∈ requested_of (requested_sources (r_scope request))
             /\ certified_step registry t routing (country_code m) requested s)
    /\ (forall c, c ∈ required_capabilities p ->
          (exists s, s ∈ eligible_steps p /\ s_capability s = c)
          \/ (exists b, b ∈ blocked_requirements p /\ b_capability b = c /\ b_unknown b = true))
    /\ (plan_destination_sensitive (r_scope request) = true ->
          forall s, s ∈ eligible_steps p -> destination_capability (s_capability s) = false)
    /\ (plan_ready p = true <-> required_capabilities p <> [] /\ blocked_requirements p = [])
    /\ (exists hi, indices 1 hi (map step_index (eligible_steps p)))
    /\ execution_available p = false /\ source_checked p = false /\ pl_attempted p = false.
Proof.
  destruct (build_plan_spec request) as (p & E & [C1 C2 C3 C4 (hi & _ & C5)] & Hreq & _ & Hready
    & _ & _ & H1 & _ & H2 & H3).
  exists p. rewrite Hreq in *. split; [done |]. split; [done |]. split; [done |]. split.
  - intros c Hc. destruct (C3 c Hc) as [H | (b & Hb & Ec)]; [by left | right].
    exists b. split; [done |]. split; [done | by apply C2].
  - split; [done |]. split; [done |]. split; [by exists hi | done].
Qed.

Lemma request_of_handoff a market :
  authorization_post_init a = Ok a ->
  exists request, execution_request_from_handoff sha256_hex (handoff_of a) market = Ok request
    /\ r_scope request = a_scope a /\ r_market request = market
    /\ r_scope_digest request = a_scope_digest a /\ r_authorization_id request = a_id a.
Proof.
  unfold authorization_post_init. intros H.
  do 11 (apply rbind_unit_ok in H as [?%guard_raise_ok H]).
  unfold execution_request_from_handoff, request_post_init, handoff_of. cbv zeta. cbn.
  repeat match goal with E : _ = false |- _ => rewrite E; clear E end. cbn. by eexists.
Qed.

(** Research is planned only for the approved scope. For a stored
    authorization the planner answers "not found" to any other owner and
    otherwise never raises; it plans exactly when every binding still holds;
    and the plan it returns is the plan of the authorization's own frozen
    scope, whatever else the caller sends. *)
Theorem planning_needs_authorization a owner conversation decision cv market proposal esd epi epv :
  authorization_post_init a = Ok a ->
  let out := plan_authorized_research sha256_hex registry t routing (Some a) owner conversation
               decision cv market proposal esd epi epv in
  if String.eqb (a_owner_binding a) (owner_binding_digest sha256_hex owner) then
    exists r, out = Ok r
      /\ (planned r = true <->
            bound sha256_hex a conversation decision cv proposal esd epi epv)
      /\ (planned r = true <-> is_some (rp_plan r) = true)
      /\ forall p, rp_plan r = Some p ->
           exists request, build_execution_plan sha256_hex registry t routing request = Ok p
             /\ r_scope request = a_scope a /\ r_market request = market
             /\ pl_scope_digest p = a_scope_digest a /\ pl_authorization_id p = a_id a
  else out = Err (NotFound (a_id a)).
Proof.
  intros Hv. cbv zeta.
  destruct (String.eqb_spec (a_owner_binding a) (owner_binding_digest sha256_hex owner)) as [E | E].
  - unfold plan_authorized_research. cbv zeta.
    destruct (validate_spec sha256_hex a owner conversation decision cv proposal esd epi epv E)
      as (v & -> & _ & _ & Hb & _). cbn [rbind].
    destruct (valid v) eqn:Evalid; cbn [negb].
    + pose proof (proj1 Hb eq_refl) as Hbound.
      destruct (handoff_spec sha256_hex a owner conversation decision cv proposal esd E)
        as (h & -> & Hsome & Hx). cbn [rbind].
      assert (bound sha256_hex a conversation decision cv proposal esd None None) as Hb0.
      { destruct Hbound as (B1 & B2 & B3 & _ & _ & B6 & B7 & B8). unfold bound.
        do 3 (split; [done |]). split; [by intros ? [=] |]. by split; [intros ? [=] |]. }
      apply Hsome in Hb0. destruct h as [x|]; [| done]. rewrite (Hx x eq_refl).
      destruct (request_of_handoff a market Hv) as (request & -> & R1 & R2 & R3 & R4).
      cbn [lift rbind]. destruct (build_plan_spec request)
        as (p & Ep & _ & _ & _ & _ & P1 & P2 & _). rewrite Ep. cbn.
      eexists. split; [reflexivity |]. cbn. split; [naive_solver |]. split; [done |].
      intros p' [= <-]. exists request. rewrite <- R3, <- R4. done.
    + eexists. split; [reflexivity |]. cbn. split; [naive_solver |]. split; [done |].
      by intros p [=].
  - unfold plan_authorized_research, validate_research_authorization_for_execution.
    apply String.eqb_neq in E. by rewrite E.
Qed.
End Plans.

(** ** Commissions *)

(** The same provider under another commission rate. *)
Definition with_rate (rate : option (Z * Z)) (d : ResearchProviderDescriptor) :=
  {| d_provider_id := d_provider_id d; d_provider_type := d_provider_type d;
     d_supported_markets := d_supported_markets d;
     d_supported_capabilities := d_supported_capabilities d;
     d_supported_sources := d_supported_sources d;
     d_operational_status := d_operational_status d; d_test_fixture := d_test_fixture d;
     d_kill_switch := d_kill_switch d; d_circuit_breaker := d_circuit_breaker d;
     d_affiliate_commission_rate := rate;
     d_may_expand_evaluated_set := d_may_expand_evaluated_set d;
     d_can_provide_pricing := d_can_provide_pricing d;
     d_can_provide_shipping_taxes := d_can_provide_shipping_taxes d;
     d_can_provide_product_evidence := d_can_provide_product_evidence d;
     d_can_provide_review_evidence := d_can_provide_review_evidence d |}.

Section Commission.
Context (rates : string -> option (Z * Z)).

Definition repriced (d : ResearchProviderDescriptor) : ResearchProviderDescriptor :=
  with_rate (rates (d_provider_id d)) d.

(** The registry after every commission has been renegotiated. *)
Definition reprice (r : Registry.ResearchProviderRegistry) : Registry.ResearchProviderRegistry :=
  {| allow_test := allow_test r; entries := repriced <$> entries r; order := order r |}.

Definition repriced_match (x : match_) : match_ := (repriced x.1.1, x.1.2, x.2).

Lemma list_reprice r :
  Registry.list_providers (reprice r) = map repriced (Registry.list_providers r).
Proof.
  unfold Registry.list_providers, listing. simpl.
  induction (order r) as [|k l IH]; csimpl; [done |].
  rewrite lookup_fmap. destruct (entries r !! k); csimpl; by rewrite IH.
Qed.

Lemma try_sources_repriced d t capability market srcs matched :
  try_sources (repriced d) t capability market srcs (option_map repriced_match matched)
  = (option_map repriced_match (try_sources d t capability market srcs matched).1,
     (try_sources d t capability market srcs matched).2).
Proof.
  revert matched. induction srcs as [|src srcs IH]; intros matched; [done |]. cbn [try_sources].
  change (evaluate_provider (repriced d) t capability market src)
    with (evaluate_provider d t capability market src).
  destruct (evaluate_provider d t capability market src) as [el record].
  set (m1 := match record with Some c => _ | None => option_map repriced_match matched end).
  set (m2 := match record with Some c => _ | None => matched end).
  assert (m1 = option_map repriced_match m2) as ->.
  { unfold m1, m2. destruct record, matched; simpl; try done. by destruct (eligible el). }
  rewrite IH. by destruct (try_sources d t capability market srcs m2).
Qed.

Lemma try_providers_repriced ds t capability market source :
  try_providers (map repriced ds) t capability market source
  = (map repriced_match (try_providers ds t capability market source).1,
     (try_providers ds t capability market source).2).
Proof.
  induction ds as [|d ds IH]; [done |]. cbn [map try_providers].
  change (sources_to_try (repriced d) source) with (sources_to_try d source).
  pose proof (try_sources_repriced d t capability market (sources_to_try d source) None) as H.
  simpl in H. rewrite H, IH.
  destruct (try_sources d t capability market (sources_to_try d source) None) as [m a].
  destruct (try_providers ds t capability market source) as [ms more]. by destruct m.
Qed.

Lemma select_repriced r t routing capability market source :
  select_certified_provider (reprice r) t routing capability market source
  = (option_map repriced_match
       (select_certified_provider r t routing capability market source).1,
     (select_certified_provider r t routing capability market source).2).
Proof.
  unfold select_certified_provider. rewrite list_reprice, try_providers_repriced.
  destruct (try_providers (Registry.list_providers r) t capability market source) as [ms audits].
  simpl. rewrite (sorted_map _ (match_key routing) _ repriced_match) by done.
  by destruct (sorted _ _ ms).
Qed.

Lemma assign_sources_repriced r t routing capability srcs market lo n :
  assign_sources (reprice r) t routing capability srcs market lo n
  = assign_sources r t routing capability srcs market lo n.
Proof.
  revert n. induction srcs as [|requested srcs IH]; intros n; [done |]. cbn [assign_sources].
  rewrite select_repriced.
  destruct (select_certified_provider r t routing capability (Some market) requested)
    as [[[[d c] src]|] audits]; cbn [option_map fst snd]; by rewrite IH.
Qed.

Lemma assign_capability_repriced r t routing capability market sources lo sensitive :
  assign_capability_step (reprice r) t routing capability market sources lo sensitive
  = assign_capability_step r t routing capability market sources lo sensitive.
Proof.
  unfold assign_capability_step. destruct (_ && _); [done |]. destruct market; [| done].
  apply assign_sources_repriced.
Qed.

Lemma assign_capabilities_repriced r t routing market sources sensitive lo required :
  assign_capabilities (reprice r) t routing market sources sensitive lo required
  = assign_capabilities r t routing market sources sensitive lo required.
Proof.
  revert lo. induction required as [|c required IH]; intros lo; [done |].
  cbn [assign_capabilities]. rewrite assign_capability_repriced.
  destruct (assign_capability_step r t routing c market sources lo sensitive)
    as [[[steps blocked] audits]|]; cbn [rbind]; [| done]. by rewrite IH.
Qed.

Lemma fingerprint_repriced sha256_hex r :
  Registry.fingerprint sha256_hex (reprice r) = Registry.fingerprint sha256_hex r.
Proof. unfold Registry.fingerprint. by rewrite list_reprice, map_map. Qed.

(** C35: commissions cannot buy a place. Whatever commission rates the providers
    pay, the planner makes the same plan: the same providers in the same steps,
    the same audit, the same refusals, the same status and the same digest. *)
Theorem commissions_are_ignored sha256_hex registry t routing request :
  build_execution_plan sha256_hex (reprice registry) t routing request
  = build_execution_plan sha256_hex registry t routing request.
Proof.
  unfold build_execution_plan. by rewrite assign_capabilities_repriced, fingerprint_repriced.
Qed.
End Commission.

Module Examples.
Import AuthorizationExamples.

Definition shop : ResearchProviderDescriptor :=
  {| d_provider_id := "shopify"; d_provider_type := "merchant"; d_supported_markets := ["US"%string];
     d_supported_capabilities := [CURRENT_PRICING; OFFER_DISCOVERY];
     d_supported_sources := ["shopify"%string]; d_operational_status := Connector.AVAILABLE;
     d_test_fixture := false; d_kill_switch := {| engaged := false; ks_reason := None |};
     d_circuit_breaker := {| snapshot_state := CLOSED; cb_reason := None |}; d_affiliate_commission_rate := None;
     d_may_expand_evaluated_set := false; d_can_provide_pricing := true;
     d_can_provide_shipping_taxes := false; d_can_provide_product_evidence := false;
     d_can_provide_review_evidence := false |}.

Definition certificate (capability : ResearchCapability) : ResearchProviderCertification :=
  {| c_provider_id := "shopify"; c_capability := capability; c_market := "US";
     c_version := "1"; c_status := "certified"; c_policy := "allowed";
     c_source := Some "shopify"%string; c_source_scope := "exact"; c_test_fixture := false;
     c_certification_id := "cert-1" |}.

(** The registered provider is certified for prices only. *)
Definition registry0 : Registry.ResearchProviderRegistry :=
  add "shopify"%string shop (empty_catalog false).
Definition catalog0 : Certifications.ResearchProviderCertificationCatalog :=
  add (certification_lookup_key (certificate CURRENT_PRICING)) (certificate CURRENT_PRICING)
    (empty_catalog false).
Definition routing0 : Routing.ResearchProviderRoutingPolicyCatalog := empty_catalog false.

Definition market0 : TrustedMarketContext :=
  {| country_code := "US"; market_source := "server_trusted" |}.

Definition plan0 : result auth_exn ResearchPlanningResult :=
  plan_authorized_research example_digest registry0 catalog0 routing0 (Some authorization0) shopper
    "c-1" "dec-1" 1 (Some market0) (Some proposal0) None None None.

(** Prices are planned, the offers are blocked, so the plan is not ready. *)
Example plan0_outcome :
  match plan0 with
  | Ok r => match rp_plan r with
            | Some p => planned r = true /\ rp_reason r = "partially_supported"%string
                /\ map s_capability (eligible_steps p) = [CURRENT_PRICING]
                /\ map b_capability (blocked_requirements p) = [OFFER_DISCOVERY]
                /\ plan_ready p = false
            | None => False
            end
  | Err _ => False
  end.
Proof. vm_compute. repeat split. Qed.

Definition request0 : ResearchExecutionRequest :=
  {| r_request_id := "req-1"; r_request_version := 1; r_authorization_id := "auth-1";
     r_authorization_version := 1; r_decision_id := "dec-1"; r_context_version := 1;
     r_conversation_id := "c-1"; r_proposal_id := "prop-1"; r_proposal_version := 1;
     r_scope := frozen_scope_from_proposal proposal0;
     r_scope_digest := proposal_digest example_digest proposal0; r_idempotency_key := "key-1";
     r_market := Some market0 |}.

Example plan_is_sound_witness :
  exists p, build_execution_plan example_digest registry0 catalog0 routing0 request0 = Ok p
    /\ required_capabilities p = derive_required_capabilities (r_scope request0).
Proof.
  destruct (plan_is_sound example_digest registry0 catalog0 routing0 example_digest_length request0)
    as (p & H1 & H2 & _). exists p. exact (conj H1 H2).
Defined.

Example planning_needs_authorization_witness : exists r, plan0 = Ok r /\ planned r = true.
Proof.
  pose proof (planning_needs_authorization example_digest registry0 catalog0 routing0
    example_digest_length authorization0 shopper "c-1" "dec-1" 1 (Some market0) (Some proposal0)
    None None None authorization0_valid) as H.
  assert (String.eqb (a_owner_binding authorization0) (owner_binding_digest example_digest shopper)
          = true) as E by apply String.eqb_refl.
  cbv zeta in H. rewrite E in H.
  destruct H as (r & H & Hp & _). exists r. split; [exact H |]. apply Hp.
  apply binding_failure_none. vm_compute. reflexivity.
Defined.
End Examples.

End Router.
