(* ===== verification/Preparation.v ===== *)
(** Preparing confirmed research: [app/services/research_execution.py].

    A confirmed authorization is planned, checked against what the caller may
    have tried to override, and bound to one durable execution; nothing is
    executed. Module [Binding]: the three binding stores behind one interface.
    Module [Preparing]: the preparation. *)

From S2P Require Import Prelude PyStr Json Countries Clock Connector PyState OpStore VersionedStore Research Catalogs Authorization Conversation LiveMode Execution ExecutionRepo ShopifyCatalog Attempt Eligibility Router.
Import Connector Research Authorization Authorization.Authorization Router.Router Execution.Trace Execution.Record Attempt.Permits.
#[local] Open Scope Z_scope.

(** ** Binding an authorization to an execution *)
Module Binding.

(** [PinnedExecution]. *)
Record PinnedExecution := { pe_execution_id : string; pe_decision_id : string; pe_plan_id : string }.

(** What [bind] may raise, as the caller distinguishes it. *)
Inductive bind_exn :=
| BindValueError (message : string)
| BindPlanConflict (binding : PinnedExecution)
| BindRevisionConflict
| BindPersistence (e : store_exn).

Class ExecutionBindingStore (S : Type) := bind : binding_request -> act S bind_exn PinnedExecution.

(** *** [AuthorizedExecutionLedger] *)

Record AuthorizedExecutionBinding := {
  ab_execution_id : string; ab_decision_id : string; ab_plan_id : string; ab_state : string
}.

Definition binding_check (b : AuthorizedExecutionBinding) : outcome AuthorizedExecutionBinding :=
  raise! ValueError "this slice cannot mark an execution running or completed"
    when negb (String.eqb (ab_state b) "prepared_unavailable") in
  Ok b.

Definition pinned_binding (b : AuthorizedExecutionBinding) : PinnedExecution :=
  {| pe_execution_id := ab_execution_id b; pe_decision_id := ab_decision_id b;
     pe_plan_id := ab_plan_id b |}.

Definition bind_valued {A} (m : outcome A) : result bind_exn A :=
  match m with Ok a => Ok a | Err (ValueError text) => Err (BindValueError text) end.

Section Stores.
Variable sha256_hex : string -> string.

(** Keyed by the authorization key; the other arguments are dropped. *)
Definition ledger_bind (b : binding_request) : act (dict AuthorizedExecutionBinding) bind_exn PinnedExecution :=
  do! d := a_get in
  match d_get (b_key b) d with
  | Some e =>
      refuse! BindValueError "authorization identity does not match the stored execution"
        when negb (String.eqb (ab_decision_id e) (b_decision b)) in
      refuse! BindPlanConflict (pinned_binding e) when negb (String.eqb (ab_plan_id e) (b_plan b)) in
      a_ret (pinned_binding e)
  | None =>
      do! i := a_lift (bind_valued (authorized_execution_id sha256_hex (b_key b))) in
      do! binding := a_lift (bind_valued (binding_check
        {| ab_execution_id := i; ab_decision_id := b_decision b; ab_plan_id := b_plan b;
           ab_state := "prepared_unavailable" |})) in
      do! _ := a_mod (d_set (b_key b) binding) in
      a_ret (pinned_binding binding)
  end.

Definition ledger_get (key : string) (d : dict AuthorizedExecutionBinding)
    : option AuthorizedExecutionBinding := d_get key d.

Definition ledger_len (d : dict AuthorizedExecutionBinding) : Z := Z.of_nat (length d).

#[global] Instance ledger_store : ExecutionBindingStore (dict AuthorizedExecutionBinding) := ledger_bind.

(** *** The two repositories *)

Definition pinned_execution (r : Execution) : PinnedExecution :=
  {| pe_execution_id := execution_id r; pe_decision_id := decision_id r; pe_plan_id := x_plan r |}.

Definition bind_error (e : exec_exn) : bind_exn :=
  match e with
  | ExecutionValueError m => BindValueError m
  | AuthorizationPlanConflict r => BindPlanConflict (pinned_execution r)
  | AuthorizedExecutionRevisionConflict _ _ => BindRevisionConflict
  | ExecutionPersistence e => BindPersistence e
  end.

Definition pinned {S} (m : act S exec_exn Execution) : act S bind_exn PinnedExecution := fun s =>
  match m s with
  | (Ok r, s') => (Ok (pinned_execution r), s')
  | (Err e, s') => (Err (bind_error e), s')
  end.

Definition memory_store : ExecutionBindingStore (dict Execution) :=
  fun b => pinned (MemoryExecutions.bind sha256_hex b).

Definition sql_store {P} (encode : Execution -> P) (decode : P -> option Execution)
    (env : nat -> op_table P -> op_table P) : ExecutionBindingStore (op_table P) :=
  fun b => pinned (SqlExecutions.bind sha256_hex encode decode env b).
End Stores.
End Binding.

(** ** Preparation *)
Module Preparing.
Import Binding.

Inductive PreparationOutcome :=
| prepared_but_live_unavailable | blocked_live_mode | blocked_routing | blocked_provider
| blocked_market | blocked_capability | blocked_authorization | blocked_persistence
| caller_target_rejected.

#[global] Instance preparation_outcome_eq_dec : EqDecision PreparationOutcome.
Proof. solve_decision. Defined.

Definition outcome_value (o : PreparationOutcome) : string :=
  match o with
  | prepared_but_live_unavailable => "prepared_but_live_unavailable"
  | blocked_live_mode => "blocked_live_mode" | blocked_routing => "blocked_routing"
  | blocked_provider => "blocked_provider" | blocked_market => "blocked_market"
  | blocked_capability => "blocked_capability" | blocked_authorization => "blocked_authorization"
  | blocked_persistence => "blocked_persistence"
  | caller_target_rejected => "caller_target_rejected"
  end.

Definition AUTHORIZATION_CONSUMPTION_ON_PREPARATION : bool := false.

Record ResearchExecutionPreparation := {
  pp_outcome : PreparationOutcome;
  pp_reason : string;
  pp_decision_id : string;
  pp_execution_id : option string;
  pp_authorization_status : option string;
  pp_plan_id : option string;
  pp_trace : ResearchExecutionTrace;
  pp_blocking_reasons : list string;
  pp_assessed_targets : list (string * string * string);
  pp_authorization_consumed : bool;
  pp_execution_started : bool;
  pp_execution_completed : bool;
  pp_source_checked : bool;
  pp_attempted : bool;
  pp_live : bool;
  pp_connectors_invoked : bool;
  pp_shopify_live_call_count : Z;
  pp_shopify_execute_invoked : bool;
  pp_prior_decision_preserved : bool;
  pp_prior_decision_id : string;
  pp_execution_available : bool;
  pp_execution_implemented : bool;
  pp_trusted_plan : option ResearchExecutionPlan
}.

Definition populated (t : ResearchExecutionTrace) : bool :=
  negb (is_nil (tr_steps t)) || negb (is_nil (attempted_sources t))
  || negb (is_nil (succeeded_sources t)) || negb (is_nil (failed_sources t))
  || negb (is_nil (timed_out_sources t)) || negb (tr_offers t =? 0).

(** [ResearchExecutionPreparation.__post_init__]. *)
Definition preparation_check (p : ResearchExecutionPreparation) : outcome ResearchExecutionPreparation :=
  raise! ValueError "preparation must not consume an authorization"
    when pp_authorization_consumed p || AUTHORIZATION_CONSUMPTION_ON_PREPARATION in
  raise! ValueError "preparation must not start or complete execution"
    when pp_execution_started p || pp_execution_completed p in
  raise! ValueError "preparation must not claim a source was checked or live"
    when pp_source_checked p || pp_attempted p || pp_live p in
  raise! ValueError "preparation must not call a connector or Shopify"
    when pp_connectors_invoked p || pp_shopify_execute_invoked p
         || negb (pp_shopify_live_call_count p =? 0) in
  raise! ValueError "live research execution is not available"
    when pp_execution_available p || pp_execution_implemented p in
  raise! ValueError "preparation must preserve the prior decision"
    when negb (pp_prior_decision_preserved p) in
  raise! ValueError "preparation must not replace the prior decision"
    when nonempty (pp_prior_decision_id p)
         && negb (String.eqb (pp_prior_decision_id p) (pp_decision_id p)) in
  raise! ValueError "preparation must not populate an authoritative trace"
    when populated (pp_trace p) in
  Ok p.

Definition preparation_to_public_dict (p : ResearchExecutionPreparation) : json :=
  JObj [("outcome", JStr (outcome_value (pp_outcome p))); ("reason", JStr (pp_reason p));
        ("execution_id", JOpt JStr (pp_execution_id p));
        ("authorization_status", JOpt JStr (pp_authorization_status p));
        ("authorization_consumed", JBool false); ("execution_started", JBool false);
        ("execution_completed", JBool false); ("source_checked", JBool false);
        ("attempted", JBool false); ("live", JBool false); ("connectors_invoked", JBool false);
        ("prior_decision_preserved", JBool true); ("plan_id", JOpt JStr (pp_plan_id p));
        ("blocking_reasons", JStrs (pp_blocking_reasons p))]%string.

(** The scripted trace is the one of [LiveMode]; it is never [live]. *)
Definition project_to_authoritative_trace (plan : string) (scripted : option Scripted.ExecutionTrace)
    : outcome ResearchExecutionTrace :=
  raise! ValueError "A scripted execution trace is not production evidence and cannot disagree with the empty authoritative trace."
    when match scripted with
         | Some t => negb (is_nil (Scripted.xt_steps t)) || negb (is_nil (Scripted.attempted_sources t))
                     || negb (is_nil (Scripted.succeeded_sources t))
         | None => false
         end in
  Ok (empty_execution_trace plan).

Definition preparation (o : PreparationOutcome) (reason decision : string)
    (execution status plan : option string) (t : ResearchExecutionTrace) (blocking : list string)
    (targets : list (string * string * string)) (prior : string)
    (trusted : option ResearchExecutionPlan) : outcome ResearchExecutionPreparation :=
  preparation_check
    {| pp_outcome := o; pp_reason := reason; pp_decision_id := decision; pp_execution_id := execution;
       pp_authorization_status := status; pp_plan_id := plan; pp_trace := t;
       pp_blocking_reasons := blocking; pp_assessed_targets := targets;
       pp_authorization_consumed := false; pp_execution_started := false;
       pp_execution_completed := false; pp_source_checked := false; pp_attempted := false;
       pp_live := false; pp_connectors_invoked := false; pp_shopify_live_call_count := 0;
       pp_shopify_execute_invoked := false; pp_prior_decision_preserved := true;
       pp_prior_decision_id := prior; pp_execution_available := false;
       pp_execution_implemented := false; pp_trusted_plan := trusted |}.

Definition _refusal (o : PreparationOutcome) (reason decision : string) (plan status : option string)
    : outcome ResearchExecutionPreparation :=
  let! t := project_to_authoritative_trace
              (match plan with Some p => if nonempty p then p else "unplanned"%string
                             | None => "unplanned"%string end) None in
  preparation o reason decision None status plan t
    (if nonempty reason then [reason] else []) [] decision None.

(** *** The checks of a plan *)

Definition _plan_matches_authorization (p : ResearchExecutionPlan) (a : ResearchAuthorization) : bool :=
  String.eqb (pl_authorization_id p) (a_id a) && (pl_authorization_version p =? a_version a)
  && String.eqb (pl_decision_id p) (a_decision_id a) && (pl_context_version p =? a_context_version a)
  && String.eqb (pl_conversation_id p) (a_conversation_id a)
  && String.eqb (pl_proposal_id p) (a_proposal_id a) && (pl_proposal_version p =? a_proposal_version a)
  && String.eqb (pl_scope_digest p) (a_scope_digest a).

(** What a browser may send along. *)
Record caller_target := {
  caller_market : option string; caller_capability : option string;
  caller_source : option string; caller_provider_id : option string
}.

Definition no_target : caller_target :=
  {| caller_market := None; caller_capability := None; caller_source := None;
     caller_provider_id := None |}.

(** [{step.market for step in steps if step.market}]. *)
Definition step_markets (p : ResearchExecutionPlan) : list string :=
  omap (fun s => if some_text (s_market s) then s_market s else None) (eligible_steps p).

Definition market_rejected (p : ResearchExecutionPlan) (m : string) : bool :=
  negb (bool_decide (Some m = country_code <$> pl_market p))
  || (negb (is_nil (step_markets p)) && negb (one_of m (step_markets p))).

Definition capability_rejected (p : ResearchExecutionPlan) (c : string) : bool :=
  negb (one_of c (map (fun s => capability_value (s_capability s)) (eligible_steps p)
                  ++ map capability_value (required_capabilities p))).

Definition source_rejected (p : ResearchExecutionPlan) (s : string) : bool :=
  negb (one_of s (pl_requested_sources p ++ concat (map source_identities (eligible_steps p)))).

Definition provider_rejected (p : ResearchExecutionPlan) (i : string) : bool :=
  negb (one_of i (map s_provider_id (eligible_steps p))).

Definition given (test : string -> bool) (o : option string) : bool :=
  match o with Some t => test t | None => false end.

Definition _caller_override_reason (p : ResearchExecutionPlan) (c : caller_target) : option string :=
  if given (market_rejected p) (caller_market c) then Some "caller_market_rejected"%string
  else if given (capability_rejected p) (caller_capability c) then Some "caller_capability_rejected"%string
  else if given (source_rejected p) (caller_source c) then Some "caller_source_rejected"%string
  else if given (provider_rejected p) (caller_provider_id c) then Some "caller_provider_rejected"%string
  else None.

Definition or_reason (l : list string) (d : string) : list string := if is_nil l then [d] else l.

Definition _blocked_plan_outcome (p : ResearchExecutionPlan) : PreparationOutcome * list string :=
  let reasons := dedupe_loop [] (map b_reason (blocked_requirements p)) in
  if existsb (fun b => destination_capability (b_capability b)
                       && String.eqb (b_reason b) "destination_support_not_ready") (blocked_requirements p)
  then (blocked_capability, or_reason reasons "destination_support_not_ready")
  else if String.eqb (support_status p) "blocked_market_context" || one_of "missing_market_context" reasons
  then (blocked_market, or_reason reasons "missing_market_context")
  else (blocked_provider, or_reason reasons "blocked_missing_certified_provider").

Section Prepare.
Variable sha256_hex : string -> string.
(** The catalogs the caller resolved: its own, or the production ones. *)
Variables (registry : Registry.ResearchProviderRegistry)
          (catalog : Certifications.ResearchProviderCertificationCatalog)
          (routing : Routing.ResearchProviderRoutingPolicyCatalog).

(** The reasons and the targets of one source of a step. *)
Definition assess_source (market : string) (capability : ResearchCapability) (source : string)
    : outcome (list string * (string * string * string)) :=
  let target := {| LiveGate.lt_market := market; LiveGate.lt_capability := capability;
                   LiveGate.lt_source := source |} in
  let! a := LiveGate.assess_live_research_mode registry routing
              Permits.SHOPPING_RESEARCH_EXECUTION_MODE target catalog
              LiveGate.production_certified_shopping_markets true in
  Ok (LiveGate.la_reasons a
      ++ (if LiveGate.enabled a then ["live_execution_not_operational"%string] else []),
      (market, capability_value capability, source)).

Fixpoint assess_sources (market : string) (capability : ResearchCapability) (sources : list string)
    : outcome (list string * list (string * string * string)) :=
  match sources with
  | [] => Ok ([], [])
  | source :: rest =>
      let! here := assess_source market capability source in
      let! more := assess_sources market capability rest in
      Ok (here.1 ++ more.1, here.2 :: more.2)
  end.

Fixpoint assess_steps (steps : list ResearchProviderStep)
    : outcome (list string * list (string * string * string)) :=
  match steps with
  | [] => Ok ([], [])
  | step :: rest =>
      let! here :=
        match s_market step, source_identities step with
        | Some market, _ :: _ =>
            if nonempty market then assess_sources market (s_capability step) (source_identities step)
            else Ok (["plan_step_target_incomplete"%string], [])
        | _, _ => Ok (["plan_step_target_incomplete"%string], [])
        end in
      let! more := assess_steps rest in
      Ok (here.1 ++ more.1, here.2 ++ more.2)
  end.

Definition _assess_plan (p : ResearchExecutionPlan)
    : outcome (PreparationOutcome * list string * list (string * string * string)) :=
  if is_nil (eligible_steps p) then Ok (_blocked_plan_outcome p, [])
  else
    let! found := assess_steps (eligible_steps p) in
    let unique := dedupe_loop [] found.1 in
    let reasons :=
      if negb (String.eqb Permits.SHOPPING_RESEARCH_EXECUTION_MODE "live") && negb (one_of "mode_not_live" unique)
      then "mode_not_live"%string :: unique else unique in
    Ok (prepared_but_live_unavailable, reasons, found.2).

End Prepare.

(** *** The Shopify refusal of the deployment *)

Record ShopifyExecutionRefusal := {
  sr_provider_id : string; called_shopify : bool; http_invoked : bool; execute_invoked : bool;
  sr_reasons : list string
}.

Definition refusal_check (r : ShopifyExecutionRefusal) : outcome ShopifyExecutionRefusal :=
  raise! ValueError "Sprint 38 foundation must not call Shopify"
    when called_shopify r || http_invoked r || execute_invoked r in
  Ok r.

(** The three catalogs of a deployment, and what a caller may pass instead. *)
Record catalogs := {
  cs_registry : Registry.ResearchProviderRegistry;
  cs_certifications : Certifications.ResearchProviderCertificationCatalog;
  cs_routing : Routing.ResearchProviderRoutingPolicyCatalog
}.

Record caller_catalogs := {
  cc_registry : option Registry.ResearchProviderRegistry;
  cc_certifications : option Certifications.ResearchProviderCertificationCatalog;
  cc_routing : option Routing.ResearchProviderRoutingPolicyCatalog
}.

Definition no_catalogs : caller_catalogs :=
  {| cc_registry := None; cc_certifications := None; cc_routing := None |}.

(** [registry or production_research_provider_registry()], and the others. *)
Definition resolve (production : catalogs) (c : caller_catalogs) : catalogs :=
  {| cs_registry := default (cs_registry production) (cc_registry c);
     cs_certifications := default (cs_certifications production) (cc_certifications c);
     cs_routing := default (cs_routing production) (cc_routing c) |}.

Definition refuse_shopify_execution (production : catalogs) : outcome ShopifyExecutionRefusal :=
  let provider := Registry.get Attempt.Adapter.SHOPIFY_GLOBAL_CATALOG_PROVIDER_ID (cs_registry production) in
  let! assessment := Permits.production_live_mode_assessment (cs_registry production)
                       (cs_certifications production) (cs_routing production) in
  let reasons :=
    (if match provider with None => true | Some d => negb (is_operationally_available d) end
     then ["provider_disabled"%string] else [])
    ++ (if is_nil (Catalog.listing (cs_routing production)) then ["routing_absent"%string] else [])
    ++ (if Permits.PIQSAVI_UCP_AGENT_PROFILE_PRODUCTION_DEPLOYED then []
        else ["production_profile_undeployed"%string])
    ++ (if Permits.SHOPIFY_LIVE_CALL_PERMITTED then [] else ["live_shopify_call_not_permitted"%string])
    ++ (if LiveGate.enabled assessment then [] else ["live_mode_closed"%string])
    ++ (if LiveGate.is_certified LiveGate.production_certified_shopping_markets (Some "PH"%string) then []
        else ["public_market_not_activated"%string]) in
  refusal_check
    {| sr_provider_id := Attempt.Adapter.SHOPIFY_GLOBAL_CATALOG_PROVIDER_ID; called_shopify := false;
       http_invoked := false; execute_invoked := false; sr_reasons := reasons |}.

(** *** [execute_research_plan] and [prepare_confirmed_research] *)

Inductive prep_exn :=
| PrepValueError (message : string)
| PrepAuth (e : auth_exn)
| PrepRuntimeError (message : string).

Definition prep_valued {A} (m : outcome A) : result prep_exn A :=
  match m with Ok a => Ok a | Err (ValueError text) => Err (PrepValueError text) end.

Definition prep_auth {A} (m : result auth_exn A) : result prep_exn A :=
  match m with
  | Ok a => Ok a
  | Err (BadValue (ValueError text)) => Err (PrepValueError text)
  | Err e => Err (PrepAuth e)
  end.

Definition _refuse_shopify_if_planned (production : catalogs) (p : ResearchExecutionPlan)
    : result prep_exn unit :=
  if existsb (fun s => String.eqb (s_provider_id s) Attempt.Adapter.SHOPIFY_GLOBAL_CATALOG_PROVIDER_ID)
       (eligible_steps p)
  then
    let! r := prep_valued (refuse_shopify_execution production) in
    guard_raise (called_shopify r || http_invoked r || execute_invoked r)
      (PrepRuntimeError "Shopify preparation must not perform a live call")
  else Ok tt.

Section Execute.
Variable sha256_hex : string -> string.
Variable production : catalogs.
Context {S : Type} {store : ExecutionBindingStore S}.
Notation method := (act S prep_exn).

(** What the caller says about the authorization it holds. *)
Record expectations := {
  e_conversation : option string; e_decision : option string; e_context_version : option Z;
  e_proposal : option ResearchProposal; e_scope_digest : option string;
  e_proposal_id : option string; e_proposal_version : option Z
}.

(** [text or fallback]. *)
Definition or_text (o : option string) (fallback : string) : string :=
  match o with Some t => if nonempty t then t else fallback | None => fallback end.

(** The plan after its binding: assessed, with an empty trace, never started. *)
Definition bound_preparation (c : caller_catalogs) (p : ResearchExecutionPlan)
    (a : ResearchAuthorization) (binding : PinnedExecution) : result prep_exn ResearchExecutionPreparation :=
  let cs := resolve production c in
  let! (o, reasons, targets) :=
    prep_valued (_assess_plan (cs_registry cs) (cs_certifications cs) (cs_routing cs) p) in
  let! _ := _refuse_shopify_if_planned production p in
  let! t := prep_valued (project_to_authoritative_trace (plan_id p) None) in
  prep_valued (preparation o
    (match reasons with r :: _ => r | [] => outcome_value o end)
    (a_decision_id a) (Some (pe_execution_id binding)) (Some (a_status a)) (Some (pe_plan_id binding))
    t reasons targets (a_decision_id a) (Some p)).

Definition refuse_prepared (o : PreparationOutcome) (reason decision : string)
    (plan status : option string) : method ResearchExecutionPreparation :=
  a_lift (prep_valued (_refusal o reason decision plan status)).

(** [try: store.bind(...)] with its two handlers. *)
Definition bind_or_refuse (c : caller_catalogs) (now : datetime) (p : ResearchExecutionPlan)
    (a : ResearchAuthorization) : method ResearchExecutionPreparation := fun s =>
  match bind {| b_key := a_idempotency_key a; b_decision := a_decision_id a; b_plan := plan_id p;
                b_authorization := a_id a; b_version := a_version a; b_now := now |} s with
  | (Ok binding, s') => (bound_preparation c p a binding, s')
  | (Err (BindPlanConflict _), s') =>
      refuse_prepared blocked_authorization "authorization_plan_conflict" (a_decision_id a) None
        (Some (a_status a)) s'
  | (Err (BindPersistence _ | BindRevisionConflict), s') =>
      refuse_prepared blocked_persistence "execution_persistence_unavailable" (a_decision_id a) None
        (Some (a_status a)) s'
  | (Err (BindValueError text), s') => (Err (PrepValueError text), s')
  end.

Definition execute_research_plan (plan : option ResearchExecutionPlan)
    (authorization : option ResearchAuthorization) (owner : option ConversationOwner)
    (e : expectations) (caller : caller_target) (c : caller_catalogs) (now : datetime)
    : method ResearchExecutionPreparation :=
  match plan with
  | None => a_err (PrepValueError "A research execution plan is required")
  | Some p =>
      let decision := or_text (e_decision e) (pl_decision_id p) in
      match authorization, owner with
      | Some a, Some o =>
          do! validation := a_lift (prep_auth
            (validate_research_authorization_for_execution sha256_hex (Some a) o
               (or_text (e_conversation e) (pl_conversation_id p)) decision
               (default (pl_context_version p) (e_context_version e)) (e_proposal e)
               (e_scope_digest e) (e_proposal_id e) (e_proposal_version e))) in
          match valid validation, v_authorization validation with
          | true, Some validated =>
              if negb (_plan_matches_authorization p validated) then
                refuse_prepared blocked_authorization "plan_authorization_mismatch" decision
                  (Some (plan_id p)) (Some (a_status a))
              else
                match _caller_override_reason p caller with
                | Some reason =>
                    refuse_prepared caller_target_rejected reason decision (Some (plan_id p))
                      (Some (a_status a))
                | None => bind_or_refuse c now p a
                end
          | _, _ =>
              refuse_prepared blocked_authorization (v_reason validation) decision
                (Some (plan_id p)) (Some (a_status a))
          end
      | _, _ => refuse_prepared blocked_authorization "not_found" decision (Some (plan_id p)) None
      end
  end.

(** The market is the country code of the shopper's validated selection;
    without one it is the product default. *)
Definition INTENDED_FIRST_MARKET_COUNTRY : string := "PH".

Definition prepare_confirmed_research (a : ResearchAuthorization) (owner : ConversationOwner)
    (conversation decision : string) (context_version : Z) (proposal : option ResearchProposal)
    (selected_market : option string) (caller : caller_target) (c : caller_catalogs) (now : datetime)
    : method ResearchExecutionPreparation :=
  let cs := resolve production c in
  do! trusted := a_lift (prep_valued
    (make_TrustedMarketContext (default INTENDED_FIRST_MARKET_COUNTRY selected_market) "server_trusted")) in
  do! r := a_lift (prep_auth
    (plan_authorized_research sha256_hex (cs_registry cs) (cs_certifications cs) (cs_routing cs) (Some a)
       owner conversation decision context_version (Some trusted) proposal None None None)) in
  match planned r, rp_plan r with
  | true, Some p =>
      execute_research_plan (Some p) (Some a) (Some owner)
        {| e_conversation := Some conversation; e_decision := Some decision;
           e_context_version := Some context_version; e_proposal := proposal;
           e_scope_digest := None; e_proposal_id := None; e_proposal_version := None |} caller c now
  | _, _ => refuse_prepared blocked_authorization (rp_reason r) decision None (Some (a_status a))
  end.
End Execute.
End Preparing.
