(* ===== verification/PreparationSafety.v ===== *)
(** What preparation guarantees.

    Module [Pinning]: the law of a binding store - a binding, once made, is the
    binding for ever - and its proof for the ledger, the in-memory repository
    and the database repository among other workers. Module [Prepared]: what a
    preparation answers, and that one authorization is bound to one plan. *)

From S2P Require Import Prelude PyStr Json Countries Clock Connector PyState OpStore VersionedStore Research Catalogs Authorization Conversation LiveMode Execution ExecutionRepo ShopifyCatalog Attempt Eligibility Router Preparation.
Import Connector Research Authorization Authorization.Authorization Router.Router Execution.Trace Execution.Record.
#[local] Open Scope Z_scope.

(** ** Binding stores *)
Module Pinning.
Import Preparation.Binding Pins ExecutionRows.

(** What one [bind] may do. [held] reads the binding of an authorization key. *)
Class BindingLaws (sha256_hex : string -> string) (S : Type) {store : ExecutionBindingStore S} := {
  lawful : S -> Prop;
  held : S -> string -> option PinnedExecution;
  later s s' := lawful s' /\ forall key e, held s key = Some e -> held s' key = Some e;
  held_id s key e : lawful s -> held s key = Some e ->
    authorized_execution_id sha256_hex key = Ok (pe_execution_id e);
  bind_law b s : lawful s ->
    later s (bind b s).2 /\
    match (bind b s).1 with
    | Ok e => held (bind b s).2 (b_key b) = Some e
              /\ pe_decision_id e = b_decision b /\ pe_plan_id e = b_plan b
    | Err (BindPlanConflict e) => held (bind b s).2 (b_key b) = Some e /\ pe_plan_id e <> b_plan b
    | Err _ => True
    end
}.

Section Laws.
Variable sha256_hex : string -> string.
Notation id_of := (authorized_execution_id sha256_hex).

(** *** The ledger *)
#[global] Program Instance ledger_laws :
  @BindingLaws sha256_hex (dict AuthorizedExecutionBinding) (ledger_store sha256_hex) := {
  lawful d := forall key e, d_get key d = Some e -> id_of key = Ok (ab_execution_id e);
  held d key := pinned_binding <$> d_get key d
}.
Next Obligation.
  intros d key e Hd H. simpl in *. apply fmap_Some in H as (x & H & ->). exact (Hd key x H).
Qed.
Next Obligation.
  intros b d Hd. unfold bind, ledger_store, ledger_bind. act_run.
  destruct (d_get (b_key b) d) as [e|] eqn:E.
  - destruct (String.eqb_spec (ab_decision_id e) (b_decision b)) as [Ed | Ed]; cbn [negb];
      [| by repeat split].
    destruct (String.eqb_spec (ab_plan_id e) (b_plan b)) as [Ep | Ep]; cbn [negb fst snd];
      rewrite E; by repeat split.
  - destruct (id_of (b_key b)) as [i | [text]] eqn:Ei; simpl; [| done].
    rewrite d_get_set_eq. split; [| done]. split.
    + intros key e. destruct (decide (key = b_key b)) as [-> | Hk].
      * rewrite d_get_set_eq. by intros [= <-].
      * rewrite d_get_set_ne by done. apply Hd.
    + intros key e. destruct (decide (key = b_key b)) as [-> | Hk]; [by rewrite E |].
      by rewrite d_get_set_ne.
Qed.

(** *** The repositories *)

Lemma same_plan_answer e d p :
  match _require_same_plan e d p with
  | Ok x => x = e /\ decision_id e = d /\ x_plan e = p
  | Err (AuthorizationPlanConflict x) => x = e /\ x_plan e <> p
  | Err (ExecutionValueError _) => True
  | Err _ => False
  end.
Proof.
  unfold _require_same_plan. destruct (String.eqb_spec (decision_id e) d);
    cbn [negb guard_raise rbind]; [| done].
  by destruct (String.eqb_spec (x_plan e) p); cbn [negb guard_raise rbind].
Qed.

(** The binding read off the rows of a repository. *)
Definition row_binding (at_row : string -> option Execution) (key : string) : option PinnedExecution :=
  match id_of key with Ok i => pinned_execution <$> at_row i | Err _ => None end.

(** What a repository's [bind] leaves at the row of its id. *)
Definition bind_leaves (b : binding_request) (r : result exec_exn Execution)
    (at_row : string -> option Execution) : Prop :=
  match r with
  | Ok e => exists i, id_of (b_key b) = Ok i /\ at_row i = Some e
              /\ decision_id e = b_decision b /\ x_plan e = b_plan b
  | Err (AuthorizationPlanConflict e) =>
      exists i, id_of (b_key b) = Ok i /\ at_row i = Some e /\ x_plan e <> b_plan b
  | Err _ => True
  end.

Lemma same_plan_leaves b i e (at_row : string -> option Execution) :
  id_of (b_key b) = Ok i -> at_row i = Some e ->
  bind_leaves b (_require_same_plan e (b_decision b) (b_plan b)) at_row.
Proof.
  intros Hi He. pose proof (same_plan_answer e (b_decision b) (b_plan b)) as H.
  destruct (_require_same_plan _ _ _) as [x | []]; simpl; try done.
  - destruct H as (-> & H1 & H2). by exists i.
  - destruct H as (-> & H). by exists i.
Qed.

(** A repository whose [bind] leaves that is a lawful binding store. *)
Lemma pinned_law {S} (m : act S exec_exn Execution) b s (at_row : S -> string -> option Execution)
    (ok : S -> Prop) :
  ok (m s).2 ->
  (forall i e, at_row s i = Some e ->
     exists e', at_row (m s).2 i = Some e' /\ pinned_execution e' = pinned_execution e) ->
  bind_leaves b (m s).1 (at_row (m s).2) ->
  (ok (pinned m s).2 /\ forall key e, row_binding (at_row s) key = Some e ->
                               row_binding (at_row (pinned m s).2) key = Some e)
  /\ match (pinned m s).1 with
     | Ok e => row_binding (at_row (pinned m s).2) (b_key b) = Some e
               /\ pe_decision_id e = b_decision b /\ pe_plan_id e = b_plan b
     | Err (BindPlanConflict e) =>
         row_binding (at_row (pinned m s).2) (b_key b) = Some e /\ pe_plan_id e <> b_plan b
     | Err _ => True
     end.
Proof.
  intros Hok Hkeep Hleaves. unfold pinned, row_binding.
  destruct (m s) as [r s'] eqn:Em. cbn [fst snd] in *.
  assert (forall key e,
    match id_of key with Ok i => pinned_execution <$> at_row s i | Err _ => None end = Some e ->
    match id_of key with Ok i => pinned_execution <$> at_row s' i | Err _ => None end = Some e) as H.
  { intros key e. destruct (id_of key) as [i|]; [| done].
    intros (x & Hx & ->)%fmap_Some. destruct (Hkeep i x Hx) as (x' & -> & Hp). simpl. by rewrite Hp. }
  destruct r as [e | []]; cbn [fst snd]; (split; [by split |]); try done.
  - destruct Hleaves as (i & -> & -> & H1 & H2). done.
  - destruct Hleaves as (i & -> & -> & H1). done.
Qed.

(** *** The in-memory repository *)

Definition memory_good (d : dict Execution) : Prop :=
  forall i e, d_get i d = Some e -> execution_id e = i.

Lemma row_binding_id (at_row : string -> option Execution) key e :
  (forall i x, at_row i = Some x -> execution_id x = i) ->
  row_binding at_row key = Some e -> id_of key = Ok (pe_execution_id e).
Proof.
  intros Hgood. unfold row_binding. destruct (id_of key) as [i|]; [| done].
  intros (x & Hx & ->)%fmap_Some. cbn. by rewrite (Hgood i x Hx).
Qed.

#[global] Program Instance memory_laws :
  @BindingLaws sha256_hex (dict Execution) (memory_store sha256_hex) := {
  lawful := memory_good;
  held d key := row_binding (fun i => d_get i d) key
}.
Next Obligation. intros d key e Hd H. exact (row_binding_id _ key e Hd H). Qed.
Next Obligation.
  intros b d Hd. unfold bind, memory_store.
  apply (pinned_law (MemoryExecutions.bind sha256_hex b) b d (fun d i => d_get i d));
    rewrite memory_bind_spec;
    destruct (id_of (b_key b)) as [i | [text]] eqn:Ei; simpl; try done; try (by eauto).
  - destruct (d_get i d) as [e|] eqn:E; [done |].
    destruct (bind_result None i b) as [s|] eqn:Es; [| done].
    apply bind_result_new in Es as [-> _]. intros j x.
    destruct (decide (j = i)) as [-> | Hj]; [rewrite d_get_set_eq; by intros [= <-] |].
    rewrite d_get_set_ne by done. apply Hd.
  - intros j x Hx. destruct (d_get i d) as [e|] eqn:E; [by eauto |].
    destruct (bind_result None i b) as [s|]; [| by eauto].
    rewrite d_get_set_ne by congruence. eauto.
  - destruct (d_get i d) as [e|] eqn:E; cbn [bind_result].
    + by apply (same_plan_leaves b i e).
    + destruct (new_execution i b) as [s|err] eqn:Es.
      * pose proof (proj1 (bind_result_new i b s) Es) as [-> _].
        exists i. by rewrite d_get_set_eq.
      * revert Es. unfold new_execution. destruct (make_execution _) as [|[]]; simpl; intros [= <-]; done.
Qed.
End Laws.

(** *** The database repository *)
Section Sql.
Context (sha256_hex : string -> string) {P : Type}
        (encode_entity : Execution -> P) (decode_entity : P -> option Execution)
        (decode_encode : forall r, execution_check r = Ok tt ->
                                   decode_entity (encode_entity r) = Some r)
        (env : nat -> op_table P -> op_table P).
Implicit Types t : op_table P.
Notation at_row := (row_at decode_entity SqlExecutions.RESEARCH_AUTHORIZED_EXECUTIONS).
Notation ok := (sql_ok decode_entity).
Notation moves := (ExecutionHistory.moves (decode_entity := decode_entity)).

(** Other workers keep the rows valid and the pins of every row. *)
Hypothesis others_move : forall n t, ok t -> moves t (env n t).

Lemma insert_leaves b i s t :
  ok t -> good i s -> revision s = 1 ->
  authorized_execution_id sha256_hex (b_key b) = Ok i ->
  decision_id s = b_decision b -> x_plan s = b_plan b ->
  let out := SqlExecutions.insert encode_entity i s t in
  bind_leaves sha256_hex b out.1 (at_row out.2).
Proof.
  intros [Ht Hr] Hg Hs Hi Hd Hp. cbv zeta. unfold SqlExecutions.insert.
  destruct (at_row t i) as [e|] eqn:E.
  - by rewrite (insert_taken encode_entity decode_entity _ good revision t i e s 1 None Hr E).
  - destruct (insert_new encode_entity decode_entity _ good revision (decode_good _ _ decode_encode)
                t i s None Ht Hr E Hg) as (t' & Hins & Hput).
    rewrite Hs in Hins. rewrite Hins. cbn. exists i. destruct Hput as (_ & _ & Hrow & _). done.
Qed.

Lemma sql_bind_leaves b t :
  ok t ->
  let out := SqlExecutions.bind sha256_hex encode_entity decode_entity env b t in
  bind_leaves sha256_hex b out.1 (at_row out.2).
Proof.
  intros Ht. cbv zeta. unfold SqlExecutions.bind. act_run.
  destruct (authorized_execution_id sha256_hex (b_key b)) as [i | [text]] eqn:Ei; [| done].
  cbn [valued].
  assert (forall u, ok u ->
    let out := SqlExecutions.bind_once encode_entity decode_entity env i b u in
    bind_leaves sha256_hex b out.1 (at_row out.2) /\ ok out.2) as Honce.
  { intros u Hu. cbv zeta. unfold SqlExecutions.bind_once, SqlExecutions.others. act_run.
    rewrite execution_load_spec by done.
    destruct (at_row u i) as [e|] eqn:E; [split; [by apply (same_plan_leaves sha256_hex b i e) | done] |].
    destruct (new_execution i b) as [s|err] eqn:Es.
    - destruct (proj1 (bind_result_new i b s) Es) as [-> Hs].
      destruct (others_move 1%nat u Hu) as [Hu' _]. split.
      + by apply insert_leaves.
      + by apply (ExecutionHistory.insert_moves decode_encode).
    - split; [| done]. revert Es. unfold new_execution.
      destruct (make_execution _) as [|[]]; simpl; intros [= <-]; done. }
  destruct (Honce t Ht) as [Hl Hok]. destruct (SqlExecutions.bind_once _ _ _ _ _ t) as [r u].
  cbn [fst snd] in *.
  destruct r as [s | [| | | [|]]]; try exact Hl.
  unfold SqlExecutions.others. act_run. destruct (others_move 0%nat u Hok) as [Hu _].
  rewrite execution_load_spec by done.
  destruct (at_row (env 0%nat u) i) as [w|] eqn:E; [| done].
  by apply (same_plan_leaves sha256_hex b i w).
Qed.

Program Definition sql_laws :
  @BindingLaws sha256_hex (op_table P) (sql_store sha256_hex encode_entity decode_entity env) :=
  Build_BindingLaws sha256_hex (op_table P) (sql_store sha256_hex encode_entity decode_entity env)
    ok (fun t => row_binding sha256_hex (at_row t)) _ _.
Next Obligation.
  intros t key e Ht H. apply (row_binding_id sha256_hex (at_row t)); [| done].
  intros i x Hx. by destruct (ExecutionHistory.row_good t i x Ht Hx).
Qed.
Next Obligation.
  intros b t Ht. apply (pinned_law sha256_hex _ b t at_row).
  - by apply ExecutionHistory.bind_moves.
  - intros i e He. destruct (ExecutionHistory.bind_moves (sha256_hex := sha256_hex) decode_encode env b t others_move Ht) as [_ H].
    specialize (H i). rewrite He in H. destruct H as (e' & -> & Hp & _). exists e'. split; [done |].
    destruct Hp as (H1 & H2 & _ & _ & H5 & _). unfold pinned_execution. congruence.
  - by apply sql_bind_leaves.
Qed.
End Sql.
End Pinning.

(** ** Preparations *)
Module Prepared.
Import Preparation.Binding Preparation.Preparing Pinning.

(** Nothing in a preparation says that anything ran. *)
Definition refused (o : PreparationOutcome) (reason decision : string) (plan status : option string)
    (r : ResearchExecutionPreparation) : Prop :=
  pp_outcome r = o /\ pp_reason r = reason /\ pp_decision_id r = decision
  /\ pp_execution_id r = None /\ pp_plan_id r = plan /\ pp_authorization_status r = status
  /\ pp_trusted_plan r = None.

Lemma refusal_spec o reason decision plan status :
  exists r, _refusal o reason decision plan status = Ok r /\ refused o reason decision plan status r.
Proof.
  unfold _refusal, preparation, preparation_check. cbn. rewrite String.eqb_refl, andb_false_r. cbn.
  eexists. split; [reflexivity |]. by repeat split.
Qed.

Lemma assess_sources_total registry catalog routing market capability sources :
  exists x, assess_sources registry catalog routing market capability sources = Ok x.
Proof.
  induction sources as [|source rest [x IH]]; [by eexists |]. cbn [assess_sources].
  unfold assess_source. cbv zeta.
  destruct (LiveGate.live_gate_iff registry routing Attempt.Permits.SHOPPING_RESEARCH_EXECUTION_MODE
    {| LiveGate.lt_market := market; LiveGate.lt_capability := capability;
       LiveGate.lt_source := source |} catalog LiveGate.production_certified_shopping_markets true)
    as (g & -> & _). cbn [rbind]. rewrite IH. by eexists.
Qed.

Lemma assess_steps_total registry catalog routing steps :
  exists x, assess_steps registry catalog routing steps = Ok x.
Proof.
  induction steps as [|step rest [x IH]]; [by eexists |]. cbn [assess_steps].
  assert (exists here, match s_market step, source_identities step with
    | Some market, _ :: _ =>
        if nonempty market
        then assess_sources registry catalog routing market (s_capability step) (source_identities step)
        else Ok (["plan_step_target_incomplete"%string], [])
    | _, _ => Ok (["plan_step_target_incomplete"%string], [])
    end = Ok here) as [here ->].
  { destruct (s_market step) as [m|], (source_identities step); eauto.
    destruct (nonempty m); eauto using assess_sources_total. }
  cbn [rbind]. rewrite IH. by eexists.
Qed.

(** What a bound plan is told: planned steps are never live, and a plan
    without steps says what blocks it. *)
Definition assessed (p : ResearchExecutionPlan) (o : PreparationOutcome) (reasons : list string) : Prop :=
  reasons <> []
  /\ (o = prepared_but_live_unavailable <-> eligible_steps p <> [])
  /\ (eligible_steps p <> [] -> "mode_not_live"%string ∈ reasons).

Lemma or_reason_some l d : or_reason l d <> [].
Proof. by destruct l. Qed.

Lemma assess_plan_spec registry catalog routing p :
  exists o reasons targets,
    _assess_plan registry catalog routing p = Ok (o, reasons, targets) /\ assessed p o reasons.
Proof.
  unfold _assess_plan. destruct (eligible_steps p) as [|step rest] eqn:Es; cbn [is_nil].
  - unfold _blocked_plan_outcome. cbv zeta. unfold assessed. rewrite Es.
    destruct (existsb _ _); [| destruct (_ || _)]; do 3 eexists; (split; [reflexivity |]);
      split; try apply or_reason_some; by split.
  - destruct (assess_steps_total registry catalog routing (step :: rest)) as [found ->].
    cbn [rbind]. unfold assessed. rewrite Es. do 3 eexists. split; [reflexivity |].
    set (unique := dedupe_loop [] found.1).
    assert ("mode_not_live"%string ∈ (if negb (String.eqb Attempt.Permits.SHOPPING_RESEARCH_EXECUTION_MODE "live")
              && negb (one_of "mode_not_live" unique) then "mode_not_live"%string :: unique else unique)) as Hin.
    { cbn [negb String.eqb]. destruct (one_of "mode_not_live" unique) eqn:E; cbn.
      - by apply Provider.one_of_elem.
      - by apply elem_of_cons; left. }
    split; [intros H; rewrite H in Hin; by apply elem_of_nil in Hin |]. by split.
Qed.

(** A preparation that names an execution. *)
Definition named (p : ResearchExecutionPlan) (a : ResearchAuthorization) (b : PinnedExecution)
    (r : ResearchExecutionPreparation) : Prop :=
  pp_execution_id r = Some (pe_execution_id b) /\ pp_plan_id r = Some (pe_plan_id b)
  /\ pp_decision_id r = a_decision_id a /\ pp_authorization_status r = Some (a_status a)
  /\ pp_trusted_plan r = Some p /\ pp_trace r = empty_execution_trace (plan_id p)
  /\ assessed p (pp_outcome r) (pp_blocking_reasons r) /\ pp_reason r ∈ pp_blocking_reasons r.

Lemma shopify_is_refused production p : _refuse_shopify_if_planned production p = Ok tt.
Proof.
  unfold _refuse_shopify_if_planned. destruct (existsb _ _); [| done].
  unfold refuse_shopify_execution, Attempt.Permits.production_live_mode_assessment. cbv zeta.
  match goal with |- context [LiveGate.assess_live_research_mode ?g ?r ?m ?t ?c ?k ?x] =>
    destruct (LiveGate.live_gate_iff g r m t c k x) as (gate & -> & _) end.
  reflexivity.
Qed.

Lemma bound_preparation_spec production c p a b :
  exists r, bound_preparation production c p a b = Ok r /\ named p a b r.
Proof.
  unfold bound_preparation. cbv zeta.
  destruct (assess_plan_spec (cs_registry (resolve production c)) (cs_certifications (resolve production c))
              (cs_routing (resolve production c)) p) as (o & reasons & targets & -> & Ha).
  cbn [prep_valued rbind]. rewrite shopify_is_refused. cbn [rbind project_to_authoritative_trace prep_valued].
  unfold preparation, preparation_check. cbn. rewrite String.eqb_refl, andb_false_r. cbn.
  eexists. split; [reflexivity |]. unfold named. cbn. repeat (split; [done |]).
  destruct Ha as (Hne & _). destruct reasons; [done |]. by apply elem_of_cons; left.
Qed.

(** *** What a request answers *)

Section Requests.
Context (sha256_hex : string -> string) (production : catalogs)
        {S : Type} {store : ExecutionBindingStore S}.
Implicit Types (s : S) (p : ResearchExecutionPlan) (a : ResearchAuthorization).

Definition binding_of p a (now : datetime) : binding_request :=
  {| b_key := a_idempotency_key a; b_decision := a_decision_id a; b_plan := plan_id p;
     b_authorization := a_id a; b_version := a_version a; b_now := now |}.

(** The answer to one [bind]: a preparation that names the binding, a refusal
    without an execution, or the store's [ValueError]. *)
Definition bind_answer p a (out : result bind_exn PinnedExecution * S)
    (answer : result prep_exn ResearchExecutionPreparation * S) : Prop :=
  answer.2 = out.2 /\
  match out.1 with
  | Ok b => exists r, answer.1 = Ok r /\ named p a b r
  | Err (BindValueError text) => answer.1 = Err (PrepValueError text)
  | Err (BindPlanConflict _) =>
      exists r, answer.1 = Ok r
        /\ refused blocked_authorization "authorization_plan_conflict" (a_decision_id a) None
             (Some (a_status a)) r
  | Err _ =>
      exists r, answer.1 = Ok r
        /\ refused blocked_persistence "execution_persistence_unavailable" (a_decision_id a) None
             (Some (a_status a)) r
  end.

Lemma refuse_prepared_spec o reason decision plan status s :
  exists r, refuse_prepared o reason decision plan status s = (Ok r, s)
    /\ refused o reason decision plan status r.
Proof.
  destruct (refusal_spec o reason decision plan status) as (r & E & Hr). exists r.
  unfold refuse_prepared, a_lift. by rewrite E.
Qed.

Lemma bind_or_refuse_spec c now p a s :
  bind_answer p a (bind (binding_of p a now) s) (bind_or_refuse production c now p a s).
Proof.
  unfold bind_or_refuse, bind_answer. fold (binding_of p a now).
  destruct (bind (binding_of p a now) s) as [[b | []] s'];
    try match goal with |- context [refuse_prepared ?o ?r ?d ?p ?t ?u] =>
      destruct (refuse_prepared_spec o r d p t u) as (answer & -> & Hr) end;
    cbn [fst snd]; (split; [done |]); try done; try by exists answer.
  destruct (bound_preparation_spec production c p a b) as (r & -> & Hr). by exists r.
Qed.

(** A request of a caller. *)
Inductive request :=
| ExecutePlan (plan : option ResearchExecutionPlan) (authorization : option ResearchAuthorization)
    (owner : option ConversationOwner) (e : expectations) (caller : caller_target)
    (c : caller_catalogs) (now : datetime)
| PrepareConfirmed (a : ResearchAuthorization) (owner : ConversationOwner)
    (conversation decision : string) (context_version : Z) (proposal : option ResearchProposal)
    (selected_market : option string) (caller : caller_target) (c : caller_catalogs) (now : datetime).

Definition request_run (q : request) : act S prep_exn ResearchExecutionPreparation :=
  match q with
  | ExecutePlan plan authorization owner e caller c now =>
      execute_research_plan sha256_hex production plan authorization owner e caller c now
  | PrepareConfirmed a owner conversation decision cv proposal market caller c now =>
      prepare_confirmed_research sha256_hex production a owner conversation decision cv proposal market
        caller c now
  end.

(** The authorization key a request is about. *)
Definition request_key (q : request) : option string :=
  match q with
  | ExecutePlan _ authorization _ _ _ _ _ => a_idempotency_key <$> authorization
  | PrepareConfirmed a _ _ _ _ _ _ _ _ _ => Some (a_idempotency_key a)
  end.

(** Either nothing was bound, the state is the same and no execution is named,
    or there was one [bind] for the authorization's own decision and key. *)
Definition run_answers (q : request) s (answer : result prep_exn ResearchExecutionPreparation * S) : Prop :=
  (answer.2 = s /\ forall r, answer.1 = Ok r -> pp_execution_id r = None)
  \/ exists p a now, request_key q = Some (a_idempotency_key a)
       /\ bind_answer p a (bind (binding_of p a now) s) answer.

Lemma refused_answers q o reason decision plan status s :
  run_answers q s (refuse_prepared o reason decision plan status s).
Proof.
  left. destruct (refuse_prepared_spec o reason decision plan status s) as (r & -> & Hr).
  split; [done |]. intros r' [= <-]. apply Hr.
Qed.

Lemma execute_answers plan authorization owner e caller c now s :
  run_answers (ExecutePlan plan authorization owner e caller c now) s
    (execute_research_plan sha256_hex production plan authorization owner e caller c now s).
Proof.
  unfold execute_research_plan. destruct plan as [p|]; [| by left]. cbv zeta.
  destruct authorization as [a|]; [| by apply refused_answers].
  destruct owner as [o|]; [| by apply refused_answers].
  unfold a_bind at 1, a_lift at 1.
  destruct (prep_auth _) as [v|]; [| by left].
  destruct (valid v), (v_authorization v) as [x|]; try by apply refused_answers.
  destruct (negb _); [by apply refused_answers |].
  destruct (_caller_override_reason p caller); [by apply refused_answers |].
  right. exists p, a, now. split; [done |]. apply bind_or_refuse_spec.
Qed.

Lemma request_answers q s : run_answers q s (request_run q s).
Proof.
  destruct q; [apply execute_answers |]. cbn [request_run]. unfold prepare_confirmed_research. cbv zeta.
  unfold a_bind at 1, a_lift at 1. destruct (prep_valued _) as [m|]; [| by left].
  unfold a_bind at 1, a_lift at 1. destruct (prep_auth _) as [r|]; [| by left].
  destruct (planned r), (rp_plan r) as [p|]; try by apply refused_answers.
  exact (execute_answers (Some p) (Some a) (Some owner) _ caller c now s).
Qed.
End Requests.

(** *** Histories *)

Section Histories.
Context (sha256_hex : string -> string) (production : catalogs)
        {S : Type} {store : ExecutionBindingStore S} {laws : BindingLaws sha256_hex S}.
Implicit Types s : S.

(** Requests of any callers, and anything else that keeps the bindings: the
    claims, attempts and saves of other services. *)
Inductive prepares : S -> S -> Prop :=
| Nothing s : prepares s s
| Request q s s' : prepares (request_run sha256_hex production q s).2 s' -> prepares s s'
| Elsewhere s s' s'' : later s s' -> prepares s' s'' -> prepares s s''.

Lemma later_trans s1 s2 s3 : later s1 s2 -> later s2 s3 -> later s1 s3.
Proof. intros [_ H1] [H H2]. split; [done |]. auto. Qed.

Lemma request_later q s : lawful s -> later s (request_run sha256_hex production q s).2.
Proof.
  intros Hs. destruct (request_answers sha256_hex production q s) as [[-> _] | (p & a & now & _ & H & _)].
  - by split.
  - rewrite H. by apply bind_law.
Qed.

Lemma prepares_later s s' : lawful s -> prepares s s' -> later s s'.
Proof.
  intros Hs H. revert Hs. induction H as [s | q s s' _ IH | s s' s'' H _ IH]; intros Hs.
  - by split.
  - pose proof (request_later q s Hs) as H. eapply later_trans; [exact H | by apply IH; destruct H].
  - eapply later_trans; [exact H | by apply IH; destruct H].
Qed.

(** A preparation that names an execution names what is held. *)
Lemma named_is_held q s r i :
  lawful s -> (request_run sha256_hex production q s).1 = Ok r -> pp_execution_id r = Some i ->
  exists key e p, request_key q = Some key
    /\ held (request_run sha256_hex production q s).2 key = Some e
    /\ pp_trusted_plan r = Some p /\ pe_plan_id e = plan_id p
    /\ i = pe_execution_id e /\ pp_plan_id r = Some (pe_plan_id e)
    /\ pp_decision_id r = pe_decision_id e.
Proof.
  intros Hs Hr Hi.
  destruct (request_answers sha256_hex production q s) as [[_ H] | (p & a & now & Hq & E & H)].
  { rewrite (H r Hr) in Hi. done. }
  destruct (bind_law (binding_of p a now) s Hs) as [_ Hb]. rewrite Hr in H. rewrite E.
  destruct ((bind (binding_of p a now) s).1) as [e | []];
    [| discriminate | | | ]; destruct H as (r' & [= <-] & H);
    try (destruct H as (_ & _ & _ & H & _); congruence).
  destruct Hb as (Hh & Hd & Hp). destruct H as (H1 & H2 & H3 & _ & H5 & _).
  exists (a_idempotency_key a), e, p. simpl in *. rewrite H1 in Hi. injection Hi as <-.
  repeat (split; [congruence || done |]). congruence.
Qed.

(** C14: one authorization prepares one execution of one plan. Once a
    preparation has named an execution for an authorization, whatever requests
    follow - other plans, other catalogs, other markets, other processes, a
    restart - and whatever the claims and attempts of other services write in
    between, every later preparation for the same authorization names that
    very execution with that very plan and decision, or names none; a later
    preparation that built a different plan is refused; and the execution's id
    is the one derived from the authorization's key. *)
Theorem one_authorization_one_plan q1 q2 key s1 s2 r1 r2 i :
  lawful s1 -> request_key q1 = Some key -> request_key q2 = Some key ->
  (request_run sha256_hex production q1 s1).1 = Ok r1 -> pp_execution_id r1 = Some i ->
  prepares (request_run sha256_hex production q1 s1).2 s2 ->
  (request_run sha256_hex production q2 s2).1 = Ok r2 ->
  authorized_execution_id sha256_hex key = Ok i
  /\ plan_id <$> pp_trusted_plan r1 = pp_plan_id r1
  /\ (pp_execution_id r2 = None
      \/ pp_execution_id r2 = Some i /\ pp_plan_id r2 = pp_plan_id r1
         /\ pp_decision_id r2 = pp_decision_id r1
         /\ plan_id <$> pp_trusted_plan r2 = plan_id <$> pp_trusted_plan r1).
Proof.
  intros Hs K1 K2 R1 I1 Hp R2.
  destruct (named_is_held q1 s1 r1 i Hs R1 I1) as (k1 & e1 & p1 & Hk1 & H1 & T1 & P1 & Ei & Pl1 & D1).
  assert (k1 = key) as -> by congruence.
  pose proof (request_later q1 s1 Hs) as [Hs1 _].
  destruct (prepares_later _ _ Hs1 Hp) as [Hs2 Hkeep].
  split; [rewrite Ei; exact (held_id _ key e1 Hs1 H1) |]. split; [rewrite T1, Pl1; simpl; by rewrite P1 |].
  destruct (pp_execution_id r2) as [j|] eqn:I2; [right | by left].
  destruct (named_is_held q2 s2 r2 j Hs2 R2 I2) as (k2 & e2 & p2 & Hk2 & H2 & T2 & P2 & Ej & Pl2 & D2).
  assert (k2 = key) as -> by congruence.
  pose proof (request_later q2 s2 Hs2) as [_ Hkeep2].
  apply Hkeep, Hkeep2 in H1. rewrite H2 in H1. injection H1 as ->.
  rewrite T1, T2, Pl1, Pl2, D1, D2, Ej, Ei. simpl. rewrite <- P1, <- P2. done.
Qed.
End Histories.

(** *** A confirmed authorization *)

Section Confirmed.
Context (sha256_hex : string -> string) (production : catalogs)
        {S : Type} {store : ExecutionBindingStore S}.
Hypothesis digest_length : forall s, len (sha256_hex s) = 64.

Lemma request_post_init_ok r x : request_post_init r = Ok x -> x = r.
Proof. unfold request_post_init. intros H. res_simpl. congruence. Qed.

Lemma plan_post_init_ok p x : plan_post_init p = Ok x -> x = p.
Proof. unfold plan_post_init. cbv zeta. intros H. res_simpl. congruence. Qed.

(** A plan built for an authorization's handoff is a plan of it. *)
Lemma built_plan_matches registry t routing a market request p :
  execution_request_from_handoff sha256_hex (handoff_of a) market = Ok request ->
  build_execution_plan sha256_hex registry t routing request = Ok p ->
  _plan_matches_authorization p a = true.
Proof.
  intros Hr%request_post_init_ok Hp. subst request. unfold build_execution_plan in Hp.
  apply rbind_ok_inv in Hp as ([[steps blocked] audits] & _ & Hp%plan_post_init_ok). subst p.
  unfold _plan_matches_authorization. cbn. by rewrite !String.eqb_refl, !Z.eqb_refl.
Qed.

(** Planning a stored authorization of this owner. *)
Lemma plan_spec registry t routing a owner conversation decision cv market proposal :
  authorization_post_init a = Ok a ->
  a_owner_binding a = owner_binding_digest sha256_hex owner ->
  exists r, plan_authorized_research sha256_hex registry t routing (Some a) owner conversation decision cv
              market proposal None None None = Ok r
    /\ (planned r = true <-> bound sha256_hex a conversation decision cv proposal None None None)
    /\ (planned r = true -> exists p request, rp_plan r = Some p
         /\ execution_request_from_handoff sha256_hex (handoff_of a) market = Ok request
         /\ build_execution_plan sha256_hex registry t routing request = Ok p).
Proof.
  intros Hv E. unfold plan_authorized_research. cbv zeta.
  destruct (validate_spec sha256_hex a owner conversation decision cv proposal None None None E)
    as (v & -> & _ & _ & Hb & _). cbn [rbind].
  destruct (valid v) eqn:Evalid; cbn [negb].
  - destruct (handoff_spec sha256_hex a owner conversation decision cv proposal None E)
      as (h & -> & Hsome & Hx). cbn [rbind].
    destruct h as [x|]; [| by pose proof (proj2 Hsome (proj1 Hb eq_refl))]. rewrite (Hx x eq_refl).
    destruct (request_of_handoff sha256_hex a market Hv) as (request & Er & _). rewrite Er.
    cbn [lift rbind]. destruct (build_plan_spec sha256_hex registry t routing digest_length request)
      as (p & Ep & _). rewrite Ep. cbn.
    eexists. split; [reflexivity |]. cbn. split; [exact Hb |].
    intros _. by exists p, request.
  - eexists. split; [reflexivity |]. cbn. by split.
Qed.

(** C15: preparation follows the authorization, and nothing else. For a stored
    authorization, another owner gets "not found". When a binding no longer
    holds, the answer is a refusal with no plan and nothing is bound.
    Otherwise the plan is the one built from the authorization's own frozen
    scope in the shopper's selected market - whatever market, capability,
    source or provider the browser sends along, which can only turn the answer
    into a rejection that binds nothing. A preparation that goes through makes
    one [bind] of that plan for the authorization's key and decision, names
    the bound execution, carries an empty trace and is never live: a plan with
    steps is told that the mode is not live, and a plan without steps is told
    what blocks it; a pinned other plan and a failing store are refusals. *)
Theorem preparation_follows_the_authorization a owner conversation decision cv proposal market trusted
    caller c now (s : S) :
  authorization_post_init a = Ok a ->
  make_TrustedMarketContext (default INTENDED_FIRST_MARKET_COUNTRY market) "server_trusted" = Ok trusted ->
  let out := prepare_confirmed_research sha256_hex production a owner conversation decision cv proposal
               market caller c now s in
  if negb (String.eqb (a_owner_binding a) (owner_binding_digest sha256_hex owner)) then
    out = (Err (PrepAuth (NotFound (a_id a))), s)
  else
    (~ bound sha256_hex a conversation decision cv proposal None None None ->
       exists r reason, out = (Ok r, s)
         /\ refused blocked_authorization reason decision None (Some (a_status a)) r)
    /\ (bound sha256_hex a conversation decision cv proposal None None None ->
       exists p request,
         execution_request_from_handoff sha256_hex (handoff_of a) (Some trusted) = Ok request
         /\ (let cs := resolve production c in
             build_execution_plan sha256_hex (cs_registry cs) (cs_certifications cs) (cs_routing cs)
               request = Ok p)
         /\ match _caller_override_reason p caller with
            | Some reason =>
                exists r, out = (Ok r, s)
                  /\ refused caller_target_rejected reason (or_text (Some decision) (a_decision_id a))
                       (Some (plan_id p)) (Some (a_status a)) r
            | None => bind_answer p a (bind (binding_of p a now) s) out
            end).
Proof.
  intros Hv Hm. cbv zeta. unfold prepare_confirmed_research. cbv zeta. rewrite Hm.
  destruct (String.eqb_spec (a_owner_binding a) (owner_binding_digest sha256_hex owner)) as [E | E];
    cbn [negb].
  2: { unfold plan_authorized_research, validate_research_authorization_for_execution.
       apply String.eqb_neq in E. by rewrite E. }
  set (cs := resolve production c).
  destruct (plan_spec (cs_registry cs) (cs_certifications cs) (cs_routing cs) a owner conversation decision
              cv (Some trusted) proposal Hv E) as (r & Er & Hb & Hyes).
  act_run. cbn [prep_valued]. rewrite Er. cbn [prep_auth].
  destruct (planned r) eqn:Ep.
  - pose proof (proj1 Hb eq_refl) as Hbound. split; [done |]. intros _.
    destruct (Hyes eq_refl) as (p & request & -> & Hreq & Hplan). exists p, request.
    split; [done |]. split; [done |].
    pose proof (built_plan_matches _ _ _ a (Some trusted) request p Hreq Hplan) as Hmatch.
    assert (pl_conversation_id p = a_conversation_id a /\ pl_decision_id p = a_decision_id a) as [Ec Ed].
    { revert Hmatch. unfold _plan_matches_authorization. rewrite !andb_true_iff, !String.eqb_eq. tauto. }
    destruct Hbound as (B1 & B2 & B3 & B4).
    unfold execute_research_plan. cbn [e_conversation e_decision e_context_version e_proposal
      e_scope_digest e_proposal_id e_proposal_version from_option id].
    assert (or_text (Some conversation) (pl_conversation_id p) = conversation) as Hc
      by (cbn; rewrite Ec; by destruct (nonempty conversation)).
    assert (or_text (Some decision) (pl_decision_id p) = decision) as Hd
      by (cbn; rewrite Ed; by destruct (nonempty decision)).
    cbv zeta. rewrite Hc, Hd.
    destruct (validate_spec sha256_hex a owner conversation decision cv proposal None None None E)
      as (v & Ev & Ha & _ & Hvb & _).
    act_run. rewrite Ev. cbn [prep_auth]. rewrite Ha, (proj2 Hvb) by (by repeat split_and).
    rewrite Hmatch. cbn [negb].
    destruct (_caller_override_reason p caller) as [reason|].
    + destruct (refuse_prepared_spec caller_target_rejected reason decision (Some (plan_id p))
                  (Some (a_status a)) s) as (x & -> & Hx).
      exists x. split; [done |]. rewrite <- Ed, Hd. exact Hx.
    + apply bind_or_refuse_spec.
  - split; [| by intros Hbound%Hb]. intros _.
    destruct (refuse_prepared_spec blocked_authorization (rp_reason r) decision None (Some (a_status a)) s)
      as (x & -> & Hx). by exists x, (rp_reason r).
Qed.
End Confirmed.
End Prepared.

(** ** Examples *)
Module PreparationExamples.
Import Preparation.Binding Preparation.Preparing Pinning Prepared.
Import AuthorizationExamples Router.Router.Examples.

Definition catalogs0 : catalogs :=
  {| cs_registry := registry0; cs_certifications := catalog0; cs_routing := routing0 |}.

Definition confirmed (market : string) (caller : caller_target) : request :=
  PrepareConfirmed authorization0 shopper "c-1" "dec-1" 1 (Some proposal0) (Some market) caller no_catalogs
    noon.

#[local] Existing Instance memory_store.
#[local] Instance memory0 : ExecutionBindingStore (dict Execution) := memory_store example_digest.
#[local] Instance laws0 : BindingLaws example_digest (dict Execution) := memory_laws example_digest.

Definition first := request_run example_digest catalogs0 (confirmed "US" no_target) ([] : dict Execution).
Definition second := request_run example_digest catalogs0 (confirmed "US" no_target) first.2.

(** The browser asks for another provider. *)
Definition steered : caller_target :=
  {| caller_market := None; caller_capability := None; caller_source := None;
     caller_provider_id := Some "evil"%string |}.

Example preparations_run :
  match first.1, second.1 with
  | Ok r1, Ok r2 =>
      pp_outcome r1 = prepared_but_live_unavailable
      /\ is_some (pp_execution_id r1) = true /\ pp_execution_id r2 = pp_execution_id r1
      /\ length first.2 = 1%nat /\ second.2 = first.2
  | _, _ => False
  end
  /\ (pp_outcome <$> match (request_run example_digest catalogs0 (confirmed "US" steered) first.2).1 with
                     | Ok r => Some r | Err _ => None end) = Some caller_target_rejected.
Proof. vm_compute. repeat split. Qed.

Lemma first_named : exists r i, first.1 = Ok r /\ pp_execution_id r = Some i.
Proof. vm_compute. do 2 eexists. split; reflexivity. Qed.

Lemma second_named : exists r, second.1 = Ok r.
Proof. vm_compute. by eexists. Qed.

Lemma one_authorization_one_plan_witness :
  exists r1 r2 i, first.1 = Ok r1 /\ second.1 = Ok r2
    /\ authorized_execution_id example_digest (a_idempotency_key authorization0) = Ok i
    /\ (pp_execution_id r2 = None \/ pp_execution_id r2 = Some i).
Proof.
  destruct first_named as (r1 & i & E1 & I1). destruct second_named as (r2 & E2).
  exists r1, r2, i. split; [exact E1 |]. split; [exact E2 |].
  assert (lawful (BindingLaws := laws0) []) as Hs by (intros j e H; discriminate H).
  destruct (one_authorization_one_plan example_digest catalogs0 (laws := laws0)
              (confirmed "US" no_target) (confirmed "US" no_target) (a_idempotency_key authorization0)
              [] first.2 r1 r2 i Hs eq_refl eq_refl E1 I1 (Nothing _ _ _) E2) as (H1 & _ & H2).
  split; [exact H1 |]. destruct H2 as [H2 | (H2 & _)]; [left | right]; exact H2.
Defined.

Lemma preparation_follows_the_authorization_witness :
  exists p request,
    execution_request_from_handoff example_digest (handoff_of authorization0) (Some market0) = Ok request
    /\ build_execution_plan example_digest registry0 catalog0 routing0 request = Ok p
    /\ bind_answer p authorization0 (bind (binding_of p authorization0 noon) []) first.
Proof.
  pose proof (preparation_follows_the_authorization example_digest catalogs0 (store := memory0)
    example_digest_length authorization0 shopper "c-1" "dec-1" 1 (Some proposal0) (Some "US"%string) market0
    no_target no_catalogs noon [] authorization0_valid eq_refl) as H.
  cbv zeta in H. rewrite String.eqb_refl in H. destruct H as (_ & H).
  destruct H as (p & request & H1 & H2 & H3).
  { apply binding_failure_none. vm_compute. reflexivity. }
  exists p, request. split; [exact H1 |]. split; [exact H2 | exact H3].
Defined.
End PreparationExamples.
