(* ===== verification/SqlRetry.v ===== *)
(** The retry loop shared by the PostgreSQL stores.

    [failed_login_lock_store.py], [rate_limit_store.py] and
    [shopping_submission_store.py] run one transaction body per attempt inside
    [with self._session()] (commit on success, rollback on an exception) and
    retry a bounded number of times. The database is a parameter: before every
    attempt other sessions may have committed anything, and any attempt may
    fail with a database error. *)

From S2P Require Import Prelude PyStr.

Inductive db_error :=
| IntegrityError
| OperationalError (message : string)
| OtherDbError.

Definition retryable (exc : db_error) : bool :=
  match exc with
  | IntegrityError => true
  | OperationalError m =>
      let message := lower m in
      existsb (fun token => contains token message)
        ["locked"; "busy"; "deadlock"; "serialization"; "could not serialize"]%string
  | OtherDbError => false
  end.

(** How a transaction body can end other than by committing: the store's own
    [_Retry], a database error, or the store's [Unavailable] exception. *)
Inductive txn_error :=
| TxnRetry
| TxnDb (e : db_error)
| TxnUnavailable.

Definition txn_again (e : txn_error) : bool :=
  match e with
  | TxnRetry => true
  | TxnDb e => retryable e
  | TxnUnavailable => false
  end.

Section Retry.
Context {T A U : Type}.
(** [unavailable] is the exception the store raises when it gives up. *)
Variable unavailable : U.

(** What the database does around one attempt. *)
Record attempt_env := AttemptEnv {
  env_others : T -> T;
  env_fault : option db_error
}.
Definition quiet : attempt_env := AttemptEnv (fun t => t) None.

Definition attempt (env : attempt_env) (body : T -> result txn_error A * T) (t : T)
    : result txn_error A * T :=
  let t0 := env_others env t in
  match env_fault env with
  | Some e => (Err (TxnDb e), t0)
  | None => match body t0 with
            | (Ok a, t1) => (Ok a, t1)
            | (Err e, _) => (Err e, t0)
            end
  end.

(** [for _ in range(MAX_ATTEMPTS)]: [once k] is the [k]-th transaction, with
    the table it leaves behind. *)
Fixpoint retry (fuel : nat) (once : nat -> T -> result txn_error A * T) (t : T)
    : result U A * T :=
  match fuel with
  | O => (Err unavailable, t)
  | S fuel =>
      match once O t with
      | (Ok a, t1) => (Ok a, t1)
      | (Err e, t1) => if txn_again e
                       then retry fuel (fun k => once (S k)) t1
                       else (Err unavailable, t1)
      end
  end.

Definition attempts (fuel : nat) (envs : nat -> attempt_env)
    (body : T -> result txn_error A * T) : T -> result U A * T :=
  retry fuel (fun k => attempt (envs k) body).

(** A bounded retry loop ends with the one attempt that committed, or with
    [unavailable], when the failing attempts only move the table along [R]. *)
Lemma retry_outcome (R : T -> T -> Prop) `{!PreOrder R} fuel once t :
  (forall k t e t', once k t = (Err e, t') -> R t t') ->
  (exists k t0 a t', (k < fuel)%nat /\ R t t0 /\ once k t0 = (Ok a, t')
     /\ retry fuel once t = (Ok a, t'))
  \/ exists t', R t t' /\ retry fuel once t = (Err unavailable, t').
Proof.
  revert once t. induction fuel as [|fuel IH]; intros once t Hfail; [by right; exists t |].
  simpl. destruct (once O t) as [[a|e] t1] eqn:Eo.
  { left. exists O, t, a, t1. split; [lia |]. by split. }
  pose proof (Hfail O t e t1 Eo) as HR. destruct (txn_again e); [| by right; exists t1].
  destruct (IH (fun k => once (S k)) t1 (fun k => Hfail (S k)))
    as [(k & t0 & a & t' & Hk & HR' & Ho & ->) | (t' & HR' & ->)].
  - left. exists (S k), t0, a, t'. split; [lia |]. split; [by transitivity t1 | done].
  - right. exists t'. split; [by transitivity t1 | done].
Qed.

(** The table after the other sessions ran before attempts [0 .. k-1]. *)
Fixpoint others_run (envs : nat -> attempt_env) (k : nat) (t : T) : T :=
  match k with
  | O => t
  | S k => others_run (fun j => envs (S j)) k (env_others (envs O) t)
  end.

(** One of the two ways a bounded retry loop ends: the body committed once, on
    the table the other sessions left; or nothing of ours was committed. *)
Definition committed_once (fuel : nat) (envs : nat -> attempt_env)
    (body : T -> result txn_error A * T) (t : T) (out : result U A * T) : Prop :=
  exists k a t', (k < fuel)%nat /\ env_fault (envs k) = None
    /\ body (others_run envs (S k) t) = (Ok a, t') /\ out = (Ok a, t').
Definition gave_up (fuel : nat) (envs : nat -> attempt_env) (t : T)
    (out : result U A * T) : Prop :=
  exists k, (k <= fuel)%nat /\ out = (Err unavailable, others_run envs k t).

Lemma attempts_outcome fuel envs body t :
  committed_once fuel envs body t (attempts fuel envs body t)
  \/ gave_up fuel envs t (attempts fuel envs body t).
Proof.
  revert envs t. induction fuel as [|fuel IH]; intros envs t.
  { right. exists O. split; [lia | done]. }
  assert (Hnext : forall t1, t1 = env_others (envs O) t ->
    committed_once (S fuel) envs body t (attempts fuel (fun k => envs (S k)) body t1)
    \/ gave_up (S fuel) envs t (attempts fuel (fun k => envs (S k)) body t1)).
  { intros t1 ->. destruct (IH (fun k => envs (S k)) (env_others (envs O) t))
      as [(k & a & t' & Hk & Hf & Hb & ->) | (k & Hk & ->)].
    - left. exists (S k), a, t'. split; [lia | done].
    - right. exists (S k). split; [lia | done]. }
  assert (Hstop : gave_up (S fuel) envs t (Err unavailable, env_others (envs O) t))
    by (exists 1%nat; split; [lia | done]).
  unfold attempts, attempt in *. simpl. destruct (env_fault (envs O)) as [e|] eqn:Ef.
  - destruct (txn_again _); [by apply Hnext | by right].
  - destruct (body (env_others (envs O) t)) as [[a|e] t1] eqn:Eb.
    + left. exists O, a, t1. split; [lia | done].
    + destruct (txn_again e); [by apply Hnext | by right].
Qed.

(** A single body that always commits needs one quiet attempt. *)
Lemma attempts_quiet fuel body t a t' :
  body t = (Ok a, t') -> attempts (S fuel) (fun _ => quiet) body t = (Ok a, t').
Proof. intros Hb. unfold attempts, attempt. simpl. by rewrite Hb. Qed.
End Retry.
Arguments attempt_env : clear implicits.
Arguments quiet {T}.
