(* ===== verification/RateLimit.v ===== *)
(** HTTP and authentication rate limiting: [app/launch/rate_limit_backend.py]
    (backend selection and the sliding-window store), [app/launch/rate_limit.py]
    (the configurable limiter and the path classifier) and the auth hook of
    [app/auth/security.py]. *)

From S2P Require Import Prelude PyStr Clock.
Import Float64.
#[local] Open Scope Z_scope.

Inductive rate_exn :=
| RateLimitUnavailable
| RateLimitConfigurationError
| IndexError   (** [bucket[0]] of an empty deque *)
| KeyError.    (** a rules table without a ["default"] rule *)

Record RateLimitConsumption := Consumption {
  allowed : bool;
  limit : Z;
  remaining : Z;
  retry_after_seconds : Z;
  hits : Z
}.

(** ** Backend selection *)
Module Backend.

Inductive backend := memory | postgres.

Record settings := Settings {
  app_env : string;
  rate_limit_backend : option backend
}.

Definition shared_environment (env : string) : bool :=
  String.eqb env "staging" || String.eqb env "production".

Definition resolve_rate_limit_backend (cfg : settings) : result rate_exn backend :=
  if shared_environment (app_env cfg) then
    match rate_limit_backend cfg with
    | Some memory => Err RateLimitConfigurationError
    | _ => Ok postgres
    end
  else match rate_limit_backend cfg with
       | Some postgres => Ok postgres
       | _ => Ok memory
       end.

(** staging and production never count in process memory: the resolved
    backend there is PostgreSQL or the configuration is rejected. *)
Theorem shared_environments_use_postgres cfg :
  (app_env cfg = "staging" \/ app_env cfg = "production")%string ->
  resolve_rate_limit_backend cfg <> Ok memory
  /\ (rate_limit_backend cfg <> Some memory -> resolve_rate_limit_backend cfg = Ok postgres).
Proof.
  intros Henv. unfold resolve_rate_limit_backend, shared_environment.
  replace (_ || _) with true by (destruct Henv as [-> | ->]; done).
  destruct (rate_limit_backend cfg) as [[|]|]; split; congruence.
Qed.

Example shared_environments_use_postgres_witness :
  resolve_rate_limit_backend (Settings "staging" None) <> Ok memory
  /\ (rate_limit_backend (Settings "staging" None) <> Some memory ->
      resolve_rate_limit_backend (Settings "staging" None) = Ok postgres).
Proof. apply (shared_environments_use_postgres (Settings "staging" None)). by left. Defined.

End Backend.

(** ** The store protocol *)

Class RateLimitStore (St : Type) := {
  store_consume : string -> string -> Z -> Z -> datetime -> St ->
    result rate_exn RateLimitConsumption * St;
  store_reset : option string -> option string -> St -> result rate_exn unit * St
}.

(** ** The sliding-window store *)
Module MemoryStore.

(** [defaultdict(deque)] keyed by [(scope, identity)]. *)
Abbreviation events := (gmap (string * string) (list datetime)).

(** [while bucket and now - bucket[0] > window: bucket.popleft()]. *)
Fixpoint pop_expired (now : datetime) (window : Z) (bucket : list datetime) : list datetime :=
  match bucket with
  | [] => []
  | t :: rest => if window <? dt_us now - dt_us t then pop_expired now window rest else bucket
  end.

Definition consume (scope identity : string) (lim window_seconds : Z) (now : datetime)
    (ev : events) : result rate_exn RateLimitConsumption * events :=
  let window := seconds window_seconds in
  let now := aware_utc now in
  let bucket := pop_expired now window (default [] (ev !! (scope, identity))) in
  let ev1 := <[(scope, identity) := bucket]> ev in
  if lim <=? Z.of_nat (length bucket) then
    match bucket with
    | [] => (Err IndexError, ev1)
    | oldest :: _ =>
        let retry := Z.max 1
          (trunc (total_seconds (dt_us oldest + window - dt_us now)) + 1) in
        (Ok (Consumption false lim 0 retry (Z.of_nat (length bucket))), ev1)
    end
  else
    let bucket1 := bucket ++ [now] in
    let hits := Z.of_nat (length bucket1) in
    (Ok (Consumption true lim (Z.max 0 (lim - hits)) 0 hits),
     <[(scope, identity) := bucket1]> ev).

Definition reset (scope identity : option string) (ev : events) : result rate_exn unit * events :=
  (Ok tt,
   match scope, identity with
   | None, None => ∅
   | Some s, None => filter (fun kv => kv.1.1 <> s) ev
   | None, Some i => filter (fun kv => kv.1.2 <> i) ev
   | Some s, Some i => delete (s, i) ev
   end).

#[global] Instance memory_store : RateLimitStore events := {
  store_consume := consume;
  store_reset := reset
}.

(** A bucket in time order. *)
Fixpoint in_order (bucket : list datetime) : Prop :=
  match bucket with
  | [] => True
  | t :: rest => Forall (fun u => dt_us t <= dt_us u) rest /\ in_order rest
  end.

Lemma in_order_snoc b now :
  in_order b -> Forall (fun u => dt_us u <= dt_us now) b -> in_order (b ++ [now]).
Proof.
  induction b as [|t b IH]; simpl; [by split |].
  intros [Ht Hb] Hall. inversion Hall; subst. split; [| by apply IH].
  apply Forall_app. by rewrite Forall_singleton.
Qed.

(** Popping keeps exactly the events inside the window. *)
Lemma pop_expired_filter now window b :
  in_order b ->
  pop_expired now window b = filter (fun u => dt_us now - dt_us u <= window) b
  /\ in_order (pop_expired now window b).
Proof.
  induction b as [|t b IH]; simpl; [done |]. intros [Ht Hb].
  destruct (window <? dt_us now - dt_us t) eqn:E; bool_simpl.
  - rewrite filter_cons_False by lia. by apply IH.
  - split; [| by split]. rewrite filter_cons_True by lia. f_equal. symmetry.
    apply filter_all. eapply Forall_impl; [exact Ht |]. simpl. lia.
Qed.

Lemma pop_expired_suffix now window b :
  exists old, b = old ++ pop_expired now window b
    /\ Forall (fun u => window < dt_us now - dt_us u) old.
Proof.
  induction b as [|t b IH]; simpl; [by exists [] |].
  destruct (window <? dt_us now - dt_us t) eqn:E; bool_simpl; [| by exists []].
  destruct IH as (old & Hb & Hold). exists (t :: old). simpl. rewrite <- Hb.
  split; [done | by constructor].
Qed.

(** ** Requests against the store *)

Record request := Request {
  rq_scope : string;
  rq_identity : string;
  rq_limit : Z;
  rq_window : Z;
  rq_now : datetime
}.
Definition rq_key (r : request) : string * string := (rq_scope r, rq_identity r).

Definition serve (r : request) (ev : events) : result rate_exn RateLimitConsumption * events :=
  consume (rq_scope r) (rq_identity r) (rq_limit r) (rq_window r) (rq_now r) ev.

(** The times at which requests of [key] were allowed, oldest first. *)
Fixpoint granted (key : string * string) (rs : list request) (ev : events)
    (acc : list datetime) : list datetime * events :=
  match rs with
  | [] => (acc, ev)
  | r :: rest =>
      let '(res, ev1) := serve r ev in
      granted key rest ev1
        (match res with
         | Ok c => if bool_decide (rq_key r = key) && allowed c
                   then acc ++ [aware_utc (rq_now r)] else acc
         | Err _ => acc
         end)
  end.

(** Requests arrive in time order and those of [key] use one limit and window. *)
Fixpoint arrivals (key : string * string) (lim win : Z) (since : Z) (rs : list request) : Prop :=
  match rs with
  | [] => True
  | r :: rest =>
      since <= dt_us (rq_now r)
      /\ (rq_key r = key -> rq_limit r = lim /\ rq_window r = win)
      /\ arrivals key lim win (dt_us (rq_now r)) rest
  end.

Definition last_arrival (since : Z) (rs : list request) : Z :=
  default since ((fun r => dt_us (rq_now r)) <$> last rs).

(** The bucket is the recent end of the granted times, and what was popped
    from it is out of the window for good. *)
Definition bucket_inv (key : string * string) (lim win since : Z) (ev : events)
    (acc : list datetime) : Prop :=
  let bucket := default [] (ev !! key) in
  in_order bucket
  /\ Forall (fun u => dt_us u <= since) bucket
  /\ Z.of_nat (length bucket) <= lim
  /\ exists old, acc = old ++ bucket
       /\ Forall (fun u => seconds win < since - dt_us u) old.

Lemma serve_other key r ev :
  rq_key r <> key -> (serve r ev).2 !! key = ev !! key.
Proof.
  intros Hne. unfold serve, consume. unfold rq_key in Hne.
  destruct (_ <=? _); [destruct (pop_expired _ _ _) |]; simpl; by rewrite lookup_insert_ne.
Qed.

Lemma bucket_inv_serve lim win since ev acc r :
  let key := rq_key r in
  1 <= lim -> since <= dt_us (rq_now r) -> rq_limit r = lim -> rq_window r = win ->
  bucket_inv key lim win since ev acc ->
  exists c, (serve r ev).1 = Ok c
    /\ bucket_inv key lim win (dt_us (rq_now r)) (serve r ev).2
         (if allowed c then acc ++ [aware_utc (rq_now r)] else acc).
Proof.
  intros key Hlim Hsince Hl Hw (Hord & Hle & Hlen & old & Hacc & Hold).
  unfold serve, consume. rewrite Hl, Hw.
  change (rq_scope r, rq_identity r) with key.
  set (b := default [] (ev !! key)) in *. set (now := aware_utc (rq_now r)).
  destruct (pop_expired_suffix now (seconds win) b) as (old' & Hb & Hold').
  destruct (pop_expired_filter now (seconds win) b Hord) as [_ Hord'].
  set (b' := pop_expired now (seconds win) b) in *.
  assert (Hle' : Forall (fun u => dt_us u <= dt_us now) b').
  { rewrite Hb in Hle. apply Forall_app in Hle as [_ Hle].
    eapply Forall_impl; [exact Hle |]. simpl. intros u Hu. unfold now. simpl. lia. }
  assert (Hsplit : acc = (old ++ old') ++ b') by (by rewrite Hacc, Hb, <- app_assoc at 1).
  assert (Hexp : Forall (fun u => seconds win < dt_us now - dt_us u) (old ++ old')).
  { apply Forall_app. split; [| done]. eapply Forall_impl; [exact Hold |].
    simpl. unfold now. simpl. lia. }
  assert (Hlen' : Z.of_nat (length b') <= lim).
  { rewrite Hb, length_app in Hlen. lia. }
  destruct (lim <=? Z.of_nat (length b')) eqn:E; bool_simpl.
  - destruct b' as [|oldest rest] eqn:Eb'; [simpl in *; lia |].
    eexists. split; [done |]. simpl. unfold bucket_inv. rewrite lookup_insert_eq. simpl.
    split; [exact Hord' |]. split; [exact Hle' |]. split; [exact Hlen' |].
    by exists (old ++ old').
  - eexists. split; [done |]. simpl. unfold bucket_inv. rewrite lookup_insert_eq. simpl.
    split; [by apply in_order_snoc |]. split; [by apply Forall_app; rewrite Forall_singleton |].
    split; [rewrite length_app; simpl; lia |].
    exists (old ++ old'). split; [| done]. by rewrite Hsplit, <- !app_assoc.
Qed.

Lemma granted_inv key lim win rs since ev acc :
  1 <= lim -> arrivals key lim win since rs -> bucket_inv key lim win since ev acc ->
  let out := granted key rs ev acc in
  bucket_inv key lim win (last_arrival since rs) out.2 out.1.
Proof.
  intros Hlim. revert since ev acc.
  induction rs as [|r rs IH]; intros since ev acc Harr Hinv; [done |].
  destruct Harr as (Hs & Hk & Hrest). simpl.
  assert (Hla : last_arrival since (r :: rs) = last_arrival (dt_us (rq_now r)) rs).
  { unfold last_arrival. destruct rs as [|r' rs']; [done |]. rewrite last_cons_cons.
    destruct (last (r' :: rs')) eqn:E; [done |]. by apply last_None in E. }
  rewrite Hla.
  destruct (decide (rq_key r = key)) as [Heq | Hne].
  - destruct (Hk Heq) as [Hl Hw]. subst key.
    destruct (bucket_inv_serve lim win since ev acc r Hlim Hs Hl Hw Hinv) as (c & Hc & Hinv').
    destruct (serve r ev) as [res ev1]. simpl in *. rewrite Hc. apply IH; [done |].
    rewrite bool_decide_true by done. done.
  - pose proof (serve_other key r ev Hne) as Ho.
    destruct (serve r ev) as [res ev1]. simpl in *. apply IH; [done |].
    replace (match res with Ok _ => _ | Err _ => _ end) with acc
      by (destruct res; [by rewrite bool_decide_false by done | done]).
    destruct Hinv as (H1 & H2 & H3 & old & H4 & H5). unfold bucket_inv. rewrite Ho.
    split; [done |]. split; [eapply Forall_impl; [exact H2 |]; simpl; lia |].
    split; [done |]. exists old. split; [done |].
    eapply Forall_impl; [exact H5 |]. simpl. lia.
Qed.

(** C40: over any interleaving of requests for any keys that arrive in time
    order, at most [lim] requests of one key are allowed in any window. *)
Theorem sliding_window_bound key lim win since rs later :
  1 <= lim -> arrivals key lim win since rs -> last_arrival since rs <= later ->
  Z.of_nat (length (filter (fun u => later - dt_us u <= seconds win)
                      (granted key rs ∅ []).1)) <= lim.
Proof.
  intros Hlim Harr Hlater.
  destruct (granted_inv key lim win rs since ∅ [] Hlim Harr) as (_ & _ & Hlen & old & Heq & Hold).
  { unfold bucket_inv. rewrite lookup_empty. simpl. repeat split; try constructor; [lia |].
    by exists []. }
  rewrite Heq, filter_app, (filter_none _ old), app_nil_l.
  - pose proof (length_filter (fun u => later - dt_us u <= seconds win)
                  (default [] ((granted key rs ∅ []).2 !! key))). lia.
  - eapply Forall_impl; [exact Hold |]. simpl. lia.
Qed.

(** The retry hint of a refused request is sufficient: with no other request
    in between, the same request is allowed once that many seconds have passed. *)
Theorem retry_after_is_enough r ev c ev1 :
  in_order (default [] (ev !! rq_key r)) ->
  Forall (fun u => dt_us u <= dt_us (rq_now r)) (default [] (ev !! rq_key r)) ->
  Z.of_nat (length (default [] (ev !! rq_key r))) <= rq_limit r ->
  0 <= seconds (rq_window r) < 2 ^ 52 ->
  serve r ev = (Ok c, ev1) -> allowed c = false ->
  exists c' ev2,
    serve (Request (rq_scope r) (rq_identity r) (rq_limit r) (rq_window r)
             (dt_add (rq_now r) (seconds (retry_after_seconds c)))) ev1 = (Ok c', ev2)
    /\ allowed c' = true.
Proof.
  intros Hord Hle Hlen Hwin Hserve Hno. unfold serve, consume, rq_key in *.
  set (key := (rq_scope r, rq_identity r)) in *. set (b := default [] (ev !! key)) in *.
  set (now := aware_utc (rq_now r)) in *. set (w := seconds (rq_window r)) in *.
  destruct (pop_expired_suffix now w b) as (old & Hb & _).
  destruct (pop_expired_filter now w b Hord) as [Hfil _].
  set (b' := pop_expired now w b) in *.
  assert (Hlen' : Z.of_nat (length b') <= rq_limit r) by (rewrite Hb, length_app in Hlen; lia).
  destruct (rq_limit r <=? _) eqn:E; [| by injection Hserve as <- _].
  destruct b' as [|oldest rest] eqn:Eb'; [done |]. injection Hserve as <- <-.
  assert (Hold : dt_us now - dt_us oldest <= w /\ dt_us oldest <= dt_us now).
  { assert (Hin : oldest ∈ filter (fun u => dt_us now - dt_us u <= w) b)
      by (rewrite <- Hfil; apply elem_of_cons; auto).
    apply list_elem_of_filter in Hin as [H1 H2]. rewrite Forall_forall in Hle.
    split; [done | by apply Hle]. }
  cbn [retry_after_seconds rq_scope rq_identity rq_limit rq_window rq_now].
  rewrite lookup_insert_eq. simpl default.
  set (rt := Z.max 1 _).
  assert (Hrt : w < dt_us now + seconds rt - dt_us oldest).
  { set (x := dt_us oldest + w - dt_us now) in *.
    pose proof (total_seconds_ge x ltac:(lia)) as Hts.
    pose proof (Z.div_mod x 1000000 ltac:(lia)). pose proof (Z.mod_pos_bound x 1000000 ltac:(lia)).
    unfold rt, seconds. change (dt_us (rq_now r)) with (dt_us now). fold x. lia. }
  set (later := aware_utc (dt_add (rq_now r) (seconds rt))).
  assert (Hpop : (length (pop_expired later w (oldest :: rest)) <= length rest)%nat).
  { assert (Hexp : (w <? dt_us later - dt_us oldest) = true)
      by (apply Z.ltb_lt; exact Hrt).
    cbn [pop_expired]. rewrite Hexp.
    destruct (pop_expired_suffix later w rest) as (o & Ho & _).
    apply (f_equal length) in Ho. rewrite length_app in Ho. lia. }
  simpl length in Hlen'.
  fold w key. rewrite (proj2 (Z.leb_gt _ _)) by lia. eauto.
Qed.

End MemoryStore.

(** ** The configurable limiter *)
Module Limiter.

Record RateLimitRule := Rule {
  rule_max_requests : Z;
  rule_window_seconds : Z
}.

Record RateLimitDecision := Decision {
  d_allowed : bool;
  d_bucket : string;
  d_limit : Z;
  d_remaining : Z;
  d_retry_after_seconds : Z;
  d_key : string;
  d_unavailable : bool
}.

Section Limiter.
Context {St : Type} `{RateLimitStore St}.

Record ConfigurableRateLimiter := MkLimiter {
  lim_rules : gmap string RateLimitRule;
  lim_enabled : bool;
  lim_store : St
}.

Definition with_store (l : ConfigurableRateLimiter) (st : St) : ConfigurableRateLimiter :=
  MkLimiter (lim_rules l) (lim_enabled l) st.

Definition set_enabled (enabled : bool) (l : ConfigurableRateLimiter)
    : ConfigurableRateLimiter :=
  MkLimiter (lim_rules l) enabled (lim_store l).

(** [self._rules.get(bucket) or self._rules["default"]]. *)
Definition rule_for (bucket : string) (l : ConfigurableRateLimiter)
    : result rate_exn RateLimitRule :=
  match lim_rules l !! bucket with
  | Some r => Ok r
  | None => match lim_rules l !! "default"%string with
            | Some r => Ok r
            | None => Err KeyError
            end
  end.

Definition check (bucket identity : string) (now : datetime) (l : ConfigurableRateLimiter)
    : result rate_exn RateLimitDecision * ConfigurableRateLimiter :=
  match rule_for bucket l with
  | Err e => (Err e, l)
  | Ok rule =>
      let key := (bucket +:+ ":" +:+ identity)%string in
      if negb (lim_enabled l) then
        (Ok (Decision true bucket (rule_max_requests rule) (rule_max_requests rule) 0 key
               false), l)
      else
        match store_consume bucket identity (rule_max_requests rule)
                (rule_window_seconds rule) now (lim_store l) with
        | (Err RateLimitUnavailable, st) =>
            (Ok (Decision false bucket (rule_max_requests rule) 0 0 key true),
             with_store l st)
        | (Err e, st) => (Err e, with_store l st)
        | (Ok c, st) =>
            (Ok (Decision (allowed c) bucket (limit c) (remaining c)
                   (retry_after_seconds c) key false), with_store l st)
        end
  end.

(** [key.partition(":")]: the text before the separator, whether it occurs,
    and the text after it. *)
Fixpoint partition_colon (s : string) : string * bool * string :=
  match s with
  | EmptyString => (EmptyString, false, EmptyString)
  | String c r =>
      if Ascii.eqb c ":"%char then (EmptyString, true, r)
      else let '(a, found, b) := partition_colon r in (String c a, found, b)
  end.

(** Several store resets in a row; the first exception ends the call. *)
Fixpoint reset_scopes (scopes : list string) (st : St) : result rate_exn unit * St :=
  match scopes with
  | [] => (Ok tt, st)
  | s :: rest => match store_reset (Some s) None st with
                 | (Ok _, st1) => reset_scopes rest st1
                 | (Err e, st1) => (Err e, st1)
                 end
  end.

Definition reset (key : option string) (l : ConfigurableRateLimiter)
    : result rate_exn unit * ConfigurableRateLimiter :=
  let '(res, st) :=
    match key with
    | None => reset_scopes (map_to_list (lim_rules l)).*1 (lim_store l)
    | Some key =>
        let '(scope, separator, identity) := partition_colon key in
        if separator && bool_decide (is_Some (lim_rules l !! scope))
        then store_reset (Some scope) (Some identity) (lim_store l)
        else store_reset None (Some key) (lim_store l)
    end in
  (res, with_store l st).

(** [RateLimiterHook.check] of [app/auth/security.py]: the store's
    [Unavailable] denies the attempt. *)
Definition auth_hook_check (max_attempts window_seconds : Z) (key : string) (now : datetime)
    (st : St) : result rate_exn bool * St :=
  match store_consume "auth" key max_attempts window_seconds now st with
  | (Ok c, st1) => (Ok (allowed c), st1)
  | (Err RateLimitUnavailable, st1) => (Ok false, st1)
  | (Err e, st1) => (Err e, st1)
  end.

Definition auth_hook_reset (key : string) (st : St) : result rate_exn unit * St :=
  match store_reset (Some "auth"%string) (Some key) st with
  | (Ok _, st1) => (Ok tt, st1)
  | (Err RateLimitUnavailable, st1) => (Ok tt, st1)
  | (Err e, st1) => (Err e, st1)
  end.
End Limiter.
Arguments ConfigurableRateLimiter : clear implicits.

(** ** [classify_path] *)

Definition normalize_path (path : string) : string :=
  let p := rstrip_of "/"%char (before "#"%char (before "?"%char path)) in
  if nonempty p then p else "/".

Definition classify_path (method path : string) : string :=
  let normalized := normalize_path path in
  let post := String.eqb (upper method) "POST" in
  if endswith "/auth/login" normalized && post then "login"
  else if endswith "/auth/register" normalized && post then "registration"
  else if (endswith "/auth/password-reset" normalized
           || endswith "/auth/password-reset/confirm" normalized
           || endswith "/auth/verify-email" normalized
           || endswith "/auth/verify-email/confirm" normalized
           || endswith "/auth/email-change" normalized
           || endswith "/auth/email-change/confirm" normalized) && post then "auth_email"
  else if endswith "/early-access/events" normalized && post then "early_access_events"
  else if endswith "/early-access" normalized && post then "registration"
  else if contains "/affiliate" normalized then "affiliate"
  else if contains "/merchants" normalized || startswith "/api/v1/admin" normalized
       then "merchant"
  else if contains "/recommendations" normalized then "recommendations"
  else if contains "/marketplace/search" normalized
          || contains "/dealscore/search" normalized
          || contains "/price-history/search" normalized
          || endswith "/search" normalized then "search"
  else "default".

Example classify_examples :
  classify_path "post" "/api/v1/auth/login/?next=/search" = "login"%string
  /\ classify_path "GET" "/api/v1/auth/login" = "default"%string
  /\ classify_path "GET" "/api/v1/merchants/7#a" = "merchant"%string
  /\ classify_path "GET" "/api/v1/marketplace/search" = "search"%string.
Proof. repeat split; vm_compute; reflexivity. Qed.

(** neither a query string, nor a fragment, nor a trailing slash moves a
    request to another bucket. *)
Theorem classify_path_ignores_suffixes m p q :
  has_char "?"%char p = false ->
  classify_path m (p +:+ String "?"%char q) = classify_path m p
  /\ (has_char "#"%char p = false ->
      (has_char "?"%char q = false ->
       classify_path m (p +:+ String "#"%char q) = classify_path m p)
      /\ classify_path m (p +:+ "/") = classify_path m p).
Proof.
  intros Hp. assert (Hsame : forall a b, normalize_path a = normalize_path b ->
    classify_path m a = classify_path m b) by (intros a b Hab; unfold classify_path; by rewrite Hab).
  unfold normalize_path in Hsame. split; [| intros Hh; split].
  - apply Hsame. by rewrite before_sep, (before_absent "?"%char p) by done.
  - intros Hq. apply Hsame.
    rewrite (before_absent "?"%char (_ +:+ _)), (before_absent "?"%char p) by
      (done || by rewrite has_char_app, Hp).
    by rewrite before_sep, (before_absent "#"%char p) by done.
  - apply Hsame.
    rewrite !(before_absent _ (_ +:+ _)), !(before_absent _ p) by
      (done || by rewrite has_char_app, ?Hp, ?Hh).
    by rewrite rstrip_of_snoc.
Qed.

Example classify_path_ignores_suffixes_witness :
  classify_path "POST" "/auth/login?next=/x" = classify_path "POST" "/auth/login".
Proof.
  exact (proj1 (classify_path_ignores_suffixes "POST" "/auth/login" "next=/x" eq_refl)).
Defined.

(** The limiter fails closed. A request is let through only when limiting
    is switched off (and then the store is not touched) or when the store
    itself allowed it; a store that cannot answer denies. *)
Theorem check_fails_closed {St} `{RateLimitStore St} bucket identity now
    (l l' : ConfigurableRateLimiter St) d :
  check bucket identity now l = (Ok d, l') ->
  (lim_enabled l = false -> d_allowed d = true /\ l' = l)
  /\ (lim_enabled l = true ->
      exists rule res st, rule_for bucket l = Ok rule
        /\ store_consume bucket identity (rule_max_requests rule) (rule_window_seconds rule)
             now (lim_store l) = (res, st)
        /\ l' = with_store l st
        /\ (d_allowed d = true <-> exists c, res = Ok c /\ allowed c = true)
        /\ (d_unavailable d = true <-> res = Err RateLimitUnavailable)).
Proof.
  unfold check. destruct (rule_for bucket l) as [rule|e]; [| done].
  destruct (lim_enabled l) eqn:Een; simpl.
  - destruct (store_consume _ _ _ _ _ _) as [[c|[| | |]] st] eqn:Es; try done;
      intros [= <- <-]; (split; [done |]); intros _;
      (exists rule; eexists _, st; split; [done |]; split; [done |]; split; [done |]); simpl;
      naive_solver.
  - intros [= <- <-]. by split.
Qed.

End Limiter.

(** ** The hypotheses of the theorems hold of concrete runs *)
Module Examples.
Import MemoryStore Limiter.

Definition at_us (us : Z) : datetime := Datetime (1700000000000000 + us) true.
Definition req (us : Z) : request := Request "login" "ip:1" 2 60 (at_us us).
Definition three_requests : list request := [req 0; req 5; req 30000000].

Example sliding_window_bound_witness :
  Z.of_nat (length (filter (fun u => 1700000040000000 - dt_us u <= seconds 60)
     (granted ("login", "ip:1")%string three_requests ∅ []).1)) <= 2.
Proof.
  apply (sliding_window_bound ("login", "ip:1")%string 2 60 1700000000000000);
    vm_compute; intuition discriminate.
Defined.

Definition full_events : events := (serve (req 5) (serve (req 0) ∅).2).2.

Example retry_after_is_enough_witness :
  exists c' ev2,
    serve (Request "login" "ip:1" 2 60 (dt_add (at_us 1000000) (seconds 60)))
      (serve (req 1000000) full_events).2 = (Ok c', ev2) /\ allowed c' = true.
Proof.
  apply (retry_after_is_enough (req 1000000) full_events (Consumption false 2 0 60 2)
           (serve (req 1000000) full_events).2).
  - vm_compute. repeat constructor; discriminate.
  - change (default [] (full_events !! rq_key (req 1000000))) with [at_us 0; at_us 5].
    repeat constructor; vm_compute; discriminate.
  - vm_compute. discriminate.
  - vm_compute. split; [discriminate | reflexivity].
  - vm_compute. reflexivity.
  - reflexivity.
Defined.

Definition broken_store : RateLimitStore unit := {|
  store_consume := fun _ _ _ _ _ st => (Err RateLimitUnavailable, st);
  store_reset := fun _ _ st => (Err RateLimitUnavailable, st)
|}.

Definition one_rule : ConfigurableRateLimiter unit :=
  MkLimiter {[ "default"%string := Rule 120 60 ]} true tt.
Definition denied : RateLimitDecision := Decision false "login" 120 0 0 "login:ip" true.

Example check_fails_closed_witness :
  (lim_enabled one_rule = false -> d_allowed denied = true /\ one_rule = one_rule)
  /\ (lim_enabled one_rule = true ->
      exists rule res st, rule_for "login" one_rule = Ok rule
        /\ @store_consume unit broken_store "login" "ip" (rule_max_requests rule)
             (rule_window_seconds rule) (at_us 0) (lim_store one_rule) = (res, st)
        /\ one_rule = with_store one_rule st
        /\ (d_allowed denied = true <-> exists c, res = Ok c /\ allowed c = true)
        /\ (d_unavailable denied = true <-> res = Err RateLimitUnavailable)).
Proof.
  apply (@check_fails_closed unit broken_store "login" "ip" (at_us 0) one_rule one_rule denied).
  vm_compute. reflexivity.
Defined.

End Examples.
