(* ===== verification/RateLimitSql.v ===== *)
(** The shared rate-limit counters:
    [app/infrastructure/database/rate_limit_store.py].

    One row per [(scope, identity_key)] with a fixed window. [sha256_hex] is
    [hashlib.sha256(...).hexdigest()], a parameter. *)

From S2P Require Import Prelude PyStr Clock SqlRetry RateLimit.
Import Float64.
#[local] Open Scope Z_scope.

Record counter_row := CounterRow {
  window_started_ms : Z;
  row_hits : Z;
  expires_at_ms : Z
}.

Module SqlRateStore.
Abbreviation table := (gmap (string * string) counter_row).

Section Store.
Variable sha256_hex : string -> string.

Definition MAX_ATTEMPTS : nat := 8.

(** [_epoch_ms] of this module: the same binary64 arithmetic as [epoch_ms]. *)
Definition rate_epoch_ms (now : datetime) : Z :=
  trunc (mul_int (total_seconds (dt_us now)) 1000).

Definition storage_identity (identity : string) : string :=
  if (len identity <=? 128) && negb (has_char (ascii_of_nat 0) identity)
  then identity else ("h:" +:+ sha256_hex identity)%string.

(** [DELETE ... WHERE expires_at_ms < now_ms]. *)
Definition delete_expired (now_ms : Z) (t : table) : table :=
  filter (fun kv => (expires_at_ms kv.2 <? now_ms) = false) t.

(** [UPDATE ... SET hits = hits + 1 WHERE ... RETURNING hits]. *)
Definition increment (key : string * string) (lim now_ms : Z) (t : table)
    : option counter_row * table :=
  match t !! key with
  | Some r =>
      if (row_hits r <? lim) && (now_ms <=? expires_at_ms r)
      then let r' := CounterRow (window_started_ms r) (row_hits r + 1) (expires_at_ms r) in
           (Some r', <[key := r']> t)
      else (None, t)
  | None => (None, t)
  end.

Definition consume_once (scope identity : string) (lim window_seconds now_ms : Z) (t : table)
    : result txn_error RateLimitConsumption * table :=
  let key := (scope, identity) in
  let expires_ms := now_ms + window_seconds * 1000 in
  let t1 := delete_expired now_ms t in
  match increment key lim now_ms t1 with
  | (Some r, t2) =>
      (Ok (Consumption true lim (Z.max 0 (lim - row_hits r)) 0 (row_hits r)), t2)
  | (None, t2) =>
      match t2 !! key with
      | None => (** the nested INSERT succeeds *)
          (Ok (Consumption true lim (Z.max 0 (lim - 1)) 0 1),
           <[key := CounterRow now_ms 1 expires_ms]> t2)
      | Some existing => (** the INSERT violates the primary key *)
          if expires_at_ms existing <? now_ms then (Err TxnRetry, t2)
          else if row_hits existing <? lim then (Err TxnRetry, t2)
          else
            let retry := Z.max 1 (trunc (round64 (expires_at_ms existing - now_ms) 1000) + 1) in
            (Ok (Consumption false lim 0 retry (row_hits existing)), t2)
      end
  end.

Definition consume (envs : nat -> attempt_env table) (scope identity : string)
    (lim window_seconds : Z) (now : datetime) (t : table)
    : result rate_exn RateLimitConsumption * table :=
  if (lim <? 1) || (window_seconds <? 1) || negb (nonempty scope) || (64 <? len scope)
  then (Err RateLimitUnavailable, t)
  else attempts RateLimitUnavailable MAX_ATTEMPTS envs
         (consume_once scope (storage_identity identity) lim window_seconds
            (rate_epoch_ms now)) t.

(** One optional [WHERE column = value] of the DELETE. *)
Definition column_matches (wanted : option string) (value : string) : bool :=
  match wanted with
  | Some w => String.eqb w value
  | None => true
  end.

Definition reset (fault : option db_error) (scope identity : option string) (t : table)
    : result rate_exn unit * table :=
  let stored_identity := storage_identity <$> identity in
  match fault with
  | Some _ => (Err RateLimitUnavailable, t)
  | None =>
      (Ok tt, filter (fun kv => (column_matches scope kv.1.1
                                && column_matches stored_identity kv.1.2) = false) t)
  end.

(** ** One isolated consume, in one look at the row *)

Definition live_row (now_ms : Z) (o : option counter_row) : option counter_row :=
  match o with
  | Some r => if expires_at_ms r <? now_ms then None else Some r
  | None => None
  end.

Lemma lookup_delete_expired now_ms t key :
  delete_expired now_ms t !! key = live_row now_ms (t !! key).
Proof.
  unfold delete_expired. rewrite map_lookup_filter.
  destruct (t !! key) as [r|]; simpl; [| done]. by destruct (_ <? _).
Qed.

(** An isolated transaction never asks for a retry. *)
Lemma consume_once_spec scope identity lim win now_ms t :
  let key := (scope, identity) in
  let t1 := delete_expired now_ms t in
  consume_once scope identity lim win now_ms t =
  match live_row now_ms (t !! key) with
  | None => (Ok (Consumption true lim (Z.max 0 (lim - 1)) 0 1),
             <[key := CounterRow now_ms 1 (now_ms + win * 1000)]> t1)
  | Some r =>
      if row_hits r <? lim
      then (Ok (Consumption true lim (Z.max 0 (lim - (row_hits r + 1))) 0 (row_hits r + 1)),
            <[key := CounterRow (window_started_ms r) (row_hits r + 1) (expires_at_ms r)]> t1)
      else (Ok (Consumption false lim 0
                  (Z.max 1 (trunc (round64 (expires_at_ms r - now_ms) 1000) + 1))
                  (row_hits r)), t1)
  end.
Proof.
  cbv zeta. unfold consume_once, increment. rewrite !lookup_delete_expired.
  destruct (t !! (scope, identity)) as [r|] eqn:Et; simpl.
  - destruct (expires_at_ms r <? now_ms) eqn:E; simpl.
    + by rewrite lookup_delete_expired, Et; simpl; rewrite E.
    + rewrite (proj2 (Z.leb_le now_ms (expires_at_ms r))) by (bool_simpl; lia).
      rewrite andb_true_r. destruct (row_hits r <? lim) eqn:E2; [done |].
      rewrite lookup_delete_expired, Et. simpl. by rewrite E, E, E2.
  - by rewrite lookup_delete_expired, Et.
Qed.

(** ** Requests of one key against the counter *)

(** [served now_ms lim win r]: the outcome of one request on a key's row. *)
Definition row_step (lim win now_ms : Z) (o : option counter_row) : bool * counter_row :=
  match live_row now_ms o with
  | None => (true, CounterRow now_ms 1 (now_ms + win * 1000))
  | Some r => if row_hits r <? lim
              then (true, CounterRow (window_started_ms r) (row_hits r + 1) (expires_at_ms r))
              else (false, r)
  end.

Lemma consume_once_row scope identity lim win now_ms t :
  let key := (scope, identity) in
  exists c t', consume_once scope identity lim win now_ms t = (Ok c, t')
    /\ allowed c = (row_step lim win now_ms (t !! key)).1
    /\ t' !! key = Some (row_step lim win now_ms (t !! key)).2
    /\ forall key', key' <> key -> t' !! key' = live_row now_ms (t !! key').
Proof.
  intros key. rewrite consume_once_spec. unfold row_step. fold key.
  destruct (live_row now_ms (t !! key)) as [r|] eqn:El;
    [destruct (row_hits r <? lim) |]; (eexists _, _; split; [done |]; split; [done |]).
  all: split; [rewrite ?lookup_insert_eq, ?lookup_delete_expired; done |].
  all: intros key' Hne; rewrite ?lookup_insert_ne by done; apply lookup_delete_expired.
Qed.

(** Whatever the other sessions do, a consumed request is counted exactly
    once, on the row the other sessions left and within 8 attempts, and is
    allowed exactly when that row has no live window or a count below the
    limit; otherwise the store is unavailable and this session changed nothing. *)
Theorem consume_exactly_once envs scope identity lim win now t :
  let key := (scope, storage_identity identity) in
  let now_ms := rate_epoch_ms now in
  let out := consume envs scope identity lim win now t in
  1 <= lim -> 1 <= win -> scope <> ""%string -> len scope <= 64 ->
  (exists k c t', (k < 8)%nat /\ env_fault (envs k) = None /\ out = (Ok c, t')
     /\ let tk := others_run envs (S k) t in
        allowed c = (row_step lim win now_ms (tk !! key)).1
        /\ t' !! key = Some (row_step lim win now_ms (tk !! key)).2
        /\ forall key', key' <> key -> t' !! key' = live_row now_ms (tk !! key'))
  \/ gave_up RateLimitUnavailable 8 envs t out.
Proof.
  intros key now_ms out Hl Hw Hs Hlen. unfold out, consume.
  replace (_ || _) with false.
  2: { symmetry. rewrite !orb_false_iff, !Z.ltb_ge, negb_false_iff, nonempty_true. lia || done. }
  destruct (attempts_outcome RateLimitUnavailable MAX_ATTEMPTS envs
              (consume_once scope (storage_identity identity) lim win now_ms) t)
    as [(k & a & t' & Hk & Hf & Hb & Heq) | Hg]; [left | by right].
  destruct (consume_once_row scope (storage_identity identity) lim win now_ms
              (others_run envs (S k) t)) as (c & t'' & Hc & Hrow).
  rewrite Hc in Hb. injection Hb as -> ->. exists k, a, t'. done.
Qed.

(** ** The fixed window bounds what one key gets *)

Record request := Request {
  q_scope : string;
  q_identity : string;
  q_limit : Z;
  q_window : Z;
  q_now : datetime
}.

Definition request_key (q : request) : string * string :=
  (q_scope q, storage_identity (q_identity q)).

(** The parameters [consume] accepts. *)
Definition request_ok (q : request) : Prop :=
  1 <= q_limit q /\ 1 <= q_window q /\ q_scope q <> ""%string /\ len (q_scope q) <= 64.

Definition granted (out : result rate_exn RateLimitConsumption) : bool :=
  match out with Ok c => allowed c | Err _ => false end.

(** One committed request of any client, counting what [key] was granted since
    the window of its row started. *)
Definition serve_step (key : string * string) (st : table * Z) (q : request) : table * Z :=
  let '(t, n) := st in
  let '(out, t') := consume (fun _ => quiet) (q_scope q) (q_identity q) (q_limit q) (q_window q)
                      (q_now q) t in
  let running := is_some (live_row (rate_epoch_ms (q_now q)) (t !! key)) in
  (t', (if running then n else 0)
       + (if bool_decide (request_key q = key) && granted out then 1 else 0)).

Definition window_state (lim win : Z) (key : string * string) (st : table * Z) : Prop :=
  match st.1 !! key with
  | Some r => row_hits r = st.2 /\ 1 <= st.2 <= lim
              /\ expires_at_ms r = window_started_ms r + win * 1000
  | None => st.2 = 0
  end.

Lemma serve_step_keeps lim win key st q :
  1 <= lim -> request_ok q ->
  (request_key q = key -> q_limit q = lim /\ q_window q = win) ->
  window_state lim win key st -> window_state lim win key (serve_step key st q).
Proof.
  intros Hlim (Hl & Hw & Hs & Hlen) Hkey Hst. destruct st as [t n]. unfold serve_step, consume.
  replace (_ || _) with false.
  2: { symmetry. rewrite !orb_false_iff, !Z.ltb_ge, negb_false_iff, nonempty_true. lia || done. }
  set (now_ms := rate_epoch_ms (q_now q)).
  destruct (consume_once_row (q_scope q) (storage_identity (q_identity q)) (q_limit q)
              (q_window q) now_ms t) as (c & t' & Hc & Hal & Hrow & Hoth).
  unfold MAX_ATTEMPTS. rewrite (attempts_quiet _ _ _ _ _ _ Hc). fold (request_key q) in *.
  unfold window_state in *. simpl in *.
  destruct (bool_decide_reflect (request_key q = key)) as [E | E]; simpl.
  - destruct (Hkey E) as [E1 E2]. rewrite E, E1, E2 in Hal, Hrow. rewrite Hrow, Hal. unfold row_step.
    destruct (t !! key) as [r|]; simpl; [| lia].
    destruct (expires_at_ms r <? now_ms); simpl; [lia |].
    destruct (row_hits r <? lim) eqn:El; bool_simpl; simpl; lia.
  - rewrite Hoth by congruence. destruct (t !! key) as [r|]; simpl; [| lia].
    destruct (expires_at_ms r <? now_ms); simpl; lia.
Qed.

(** The fixed window bounds what one key gets. In any sequence of committed
    requests of any clients, in which the requests of one key all use limit
    [lim] and window [win], the number of grants that key got since its current
    window started is the count its row stores, never exceeds [lim], and the
    row ends [win] seconds after the window started. *)
Theorem fixed_window_bound lim win key qs :
  1 <= lim -> Forall request_ok qs ->
  Forall (fun q => request_key q = key -> q_limit q = lim /\ q_window q = win) qs ->
  let '(t, n) := foldl (serve_step key) (∅, 0) qs in
  n <= lim
  /\ match t !! key with
     | Some r => row_hits r = n /\ expires_at_ms r = window_started_ms r + win * 1000
     | None => n = 0
     end.
Proof.
  intros Hlim Hok Hkey.
  assert (H : window_state lim win key (foldl (serve_step key) (∅, 0) qs)).
  { revert Hok Hkey. induction qs as [|q qs IH] using rev_ind; [by intros _ _ |].
    rewrite !Forall_app, !Forall_singleton. intros [Hok Hq] [Hkey Hqk]. rewrite foldl_snoc.
    apply serve_step_keeps; auto. }
  unfold window_state in H. destruct (foldl _ _ _) as [t n]. simpl in H.
  destruct (t !! key); [| lia]. destruct H as (H1 & H2 & H3). split; [lia | done].
Qed.

End Store.

Example consume_exactly_once_witness :
  let sha (_ : string) : string := ""%string in
  let out := consume sha (fun _ => quiet) "login" "ip:1" 5 60 (Datetime 1700000000000000 true) ∅ in
  (exists k c t', (k < 8)%nat /\ env_fault (@quiet table) = None /\ out = (Ok c, t')
     /\ let tk := others_run (fun _ => quiet) (S k) (∅ : table) in
        let key := ("login", "ip:1")%string in
        allowed c = (row_step 5 60 1700000000000 (tk !! key)).1
        /\ t' !! key = Some (row_step 5 60 1700000000000 (tk !! key)).2
        /\ forall key', key' <> key -> t' !! key' = live_row 1700000000000 (tk !! key'))
  \/ gave_up RateLimitUnavailable 8 (fun _ => quiet) ∅ out.
Proof.
  apply (consume_exactly_once (fun _ => ""%string) (fun _ => quiet) "login" "ip:1" 5 60
           (Datetime 1700000000000000 true)); [lia | lia | discriminate | vm_compute; discriminate].
Defined.

Definition burst : list request :=
  map (fun us => Request "login" "ip:1" 2 60 (Datetime us true))
    [1700000000000000; 1700000010000000; 1700000020000000; 1700000061000000]
  ++ [Request "search" "ip:2" 5 60 (Datetime 1700000062000000 true)].

Example fixed_window_bound_witness :
  let '(t, n) := foldl (serve_step (fun _ => ""%string) ("login", "ip:1"))%string (∅, 0) burst in
  n <= 2
  /\ match t !! ("login", "ip:1")%string with
     | Some r => row_hits r = n /\ expires_at_ms r = window_started_ms r + 60 * 1000
     | None => n = 0
     end.
Proof.
  apply (fixed_window_bound (fun _ => ""%string) 2 60 ("login", "ip:1")%string burst); [lia | |].
  - repeat constructor; vm_compute; discriminate.
  - repeat constructor; first [reflexivity | discriminate].
Defined.

End SqlRateStore.
