(* ===== verification/LoginLock.v ===== *)
(** The failed-login lock: [app/launch/failed_login_lock.py].

    Module [LockPolicy]: the data, the identity check and the abstract row
    with its transition, in milliseconds. Module [LockInterface]: the store
    protocol as a type class with its laws. Module [MemoryStore]: the
    in-memory store. Module [Facade]: [FailedLoginLock] over any store. *)

From S2P Require Import Prelude PyStr Clock.
#[local] Open Scope Z_scope.

Definition FAILED_LOGIN_LOCK_THRESHOLD : Z := 20.
Definition FAILED_LOGIN_LOCK_DURATION_SECONDS : Z := 15 * 60.
Definition FAILED_LOGIN_FAILURE_RETENTION_SECONDS : Z := 15 * 60.
Definition IDENTITY_MAX_LENGTH : Z := 128.

Inductive lock_exn :=
| FailedLoginLockUnavailable
| LockPolicyValueError.

Record FailedLoginLockState := LockState {
  identity_key : string;
  failure_count : Z;
  locked_until : option datetime;
  first_failure_at : datetime;
  last_failure_at : datetime
}.

Definition nul_char : ascii := ascii_of_nat 0.

Definition require_opaque_login_identity (identity : string) : result lock_exn string :=
  raise! FailedLoginLockUnavailable
    when negb (nonempty identity)
         || (IDENTITY_MAX_LENGTH <? len identity)
         || has_char "@"%char identity
         || has_char nul_char identity
         || any_char isspace identity in
  Ok identity.

(** ** The lock in milliseconds: what every store promises *)
Module LockPolicy.

Record lock_row := LockRow {
  row_count : Z;
  row_locked : option Z;
  row_first : Z;
  row_last : Z
}.

Definition row_of (s : FailedLoginLockState) : lock_row :=
  LockRow (failure_count s) (epoch_ms <$> locked_until s)
    (epoch_ms (first_failure_at s)) (epoch_ms (last_failure_at s)).

Lemma failure_count_row s : failure_count s = row_count (row_of s).
Proof. done. Qed.

(** A row whose count continues: an active lock, or a recent unlocked sequence. *)
Definition row_active (now_ms cutoff_ms : Z) (r : lock_row) : bool :=
  match row_locked r with
  | Some l => now_ms <? l
  | None => cutoff_ms <? row_last r
  end.

Definition fresh_row (now_ms threshold lock_until_ms : Z) : lock_row :=
  LockRow 1 (if threshold <=? 1 then Some lock_until_ms else None) now_ms now_ms.

Definition bump_row (now_ms threshold lock_until_ms : Z) (r : lock_row) : lock_row :=
  LockRow (row_count r + 1)
    (match row_locked r with
     | Some l => Some l
     | None => if threshold <=? row_count r + 1 then Some lock_until_ms else None
     end)
    (row_first r) now_ms.

Definition next_row (now_ms threshold lock_until_ms cutoff_ms : Z)
    (cur : option lock_row) : lock_row :=
  match cur with
  | Some r => if row_active now_ms cutoff_ms r then bump_row now_ms threshold lock_until_ms r
              else fresh_row now_ms threshold lock_until_ms
  | None => fresh_row now_ms threshold lock_until_ms
  end.

(** What a purge leaves of a row. *)
Definition reap (now_ms cutoff_ms : Z) (cur : option lock_row) : option lock_row :=
  match cur with
  | Some r => if row_active now_ms cutoff_ms r then Some r else None
  | None => None
  end.

Lemma next_row_reap now_ms th lu cutoff cur :
  next_row now_ms th lu cutoff (reap now_ms cutoff cur) = next_row now_ms th lu cutoff cur.
Proof.
  destruct cur as [r|]; simpl; [| done].
  destruct (row_active now_ms cutoff r) eqn:E; simpl; [by rewrite E | done].
Qed.

(** The row just written survives a purge at the same instant. *)
Lemma next_row_active now_ms th lu cutoff cur :
  now_ms < lu -> cutoff < now_ms ->
  row_active now_ms cutoff (next_row now_ms th lu cutoff cur) = true.
Proof.
  intros Hl Hc. destruct cur as [r|]; simpl; unfold row_active at 1.
  - destruct (row_active now_ms cutoff r) eqn:E.
    + unfold row_active in E. simpl. destruct (row_locked r) as [l|]; [done |].
      split_ifs; simpl; apply Z.ltb_lt; lia.
    + simpl. split_ifs; simpl; apply Z.ltb_lt; lia.
  - simpl. split_ifs; simpl; apply Z.ltb_lt; lia.
Qed.

(** An active lock keeps its deadline through any later failure. *)
Lemma next_row_keeps_lock now_ms th lu cutoff r l :
  row_locked r = Some l -> now_ms < l ->
  row_locked (next_row now_ms th lu cutoff (Some r)) = Some l.
Proof.
  intros Hr Hl. simpl. unfold row_active. rewrite Hr.
  replace (now_ms <? l) with true by (symmetry; by apply Z.ltb_lt).
  simpl. by rewrite Hr.
Qed.

End LockPolicy.
Import LockPolicy.

(** ** The store protocol *)
Module LockInterface.

(** [FailedLoginLockStore]: the three operations. An operation that raises
    still returns the store it leaves behind. *)
Class FailedLoginLockStore (St : Type) := {
  store_get : string -> St -> result lock_exn (option FailedLoginLockState);
  store_record_failure : string -> datetime -> Z -> Z -> Z -> St ->
    result lock_exn FailedLoginLockState * St;
  store_clear : string -> option datetime -> option Z -> St ->
    result lock_exn unit * St
}.

(** The times an operation at [now] writes are in the exact window. *)
Definition op_window (now : datetime) (lock_s ret_s : Z) : Prop :=
  in_window now /\ in_window (dt_add now (seconds lock_s)) /\ 1 <= lock_s /\ 1 <= ret_s.

Definition valid_identity (i : string) : Prop := require_opaque_login_identity i = Ok i.

(** What a store promises its client: [view] reads its rows in milliseconds. *)
Class LockStoreLaws (St : Type) `{FailedLoginLockStore St} := {
  store_wf : St -> Prop;
  store_view : St -> string -> option lock_row;
  store_get_spec i st :
    valid_identity i -> store_wf st ->
    exists o, store_get i st = Ok o /\ row_of <$> o = store_view st i;
  store_invalid_spec i st now th ls rs :
    require_opaque_login_identity i = Err FailedLoginLockUnavailable ->
    store_get i st = Err FailedLoginLockUnavailable
    /\ store_record_failure i now th ls rs st = (Err FailedLoginLockUnavailable, st);
  store_record_failure_spec i st now th ls rs :
    valid_identity i -> store_wf st -> op_window now ls rs -> 1 <= th ->
    exists s st', store_record_failure i now th ls rs st = (Ok s, st')
      /\ store_wf st'
      /\ (let now_ms := epoch_ms now in
          let row := next_row now_ms th (now_ms + ls * 1000) (now_ms - rs * 1000)
                       (store_view st i) in
          row_of s = row /\ identity_key s = i /\ store_view st' i = Some row
          /\ forall j, j <> i ->
             store_view st' j = reap now_ms (now_ms - rs * 1000) (store_view st j));
  store_clear_spec i st now rs :
    valid_identity i -> store_wf st -> in_window now -> 1 <= rs ->
    exists st', store_clear i (Some now) (Some rs) st = (Ok tt, st')
      /\ store_wf st'
      /\ store_view st' i = None
      /\ forall j, j <> i ->
         store_view st' j = reap (epoch_ms now) (epoch_ms now - rs * 1000) (store_view st j)
}.

End LockInterface.
Import LockInterface.

(** ** The in-memory store *)
Module MemoryStore.

Abbreviation rows := (gmap string FailedLoginLockState).

Definition lock_deadline (now : datetime) (lock_duration_seconds : Z) : datetime :=
  dt_add now (seconds lock_duration_seconds).

Definition retention_cutoff_ms (now : datetime) (failure_retention_seconds : Z) : Z :=
  epoch_ms now - failure_retention_seconds * 1000.

Definition reapable (now_ms cutoff_ms : Z) (state : FailedLoginLockState) : bool :=
  match locked_until state with
  | None => epoch_ms (last_failure_at state) <=? cutoff_ms
  | Some l => epoch_ms l <=? now_ms
  end.

(** The keys collected in [stale] are deleted: the rows that are not reapable stay. *)
Definition purge_memory_rows (rs : rows) (now : datetime) (failure_retention_seconds : Z)
    : rows :=
  let now_ms := epoch_ms now in
  let cutoff_ms := retention_cutoff_ms now failure_retention_seconds in
  filter (fun kv => reapable now_ms cutoff_ms kv.2 = false) rs.

Definition lock_expired (state : FailedLoginLockState) (now : datetime) : bool :=
  match locked_until state with
  | None => false
  | Some l => epoch_ms l <=? epoch_ms now
  end.

Definition unlocked_sequence_expired (state : FailedLoginLockState) (now : datetime)
    (failure_retention_seconds : Z) : bool :=
  match locked_until state with
  | Some _ => false
  | None => epoch_ms (last_failure_at state)
            <=? retention_cutoff_ms now failure_retention_seconds
  end.

Definition first_memory_state (identity : string) (now : datetime)
    (threshold lock_duration_seconds : Z) : FailedLoginLockState :=
  let count := 1 in
  LockState identity count
    (if threshold <=? count then Some (lock_deadline now lock_duration_seconds) else None)
    now now.

Definition next_memory_state (identity : string) (current : option FailedLoginLockState)
    (now : datetime) (threshold lock_duration_seconds failure_retention_seconds : Z)
    : FailedLoginLockState :=
  match current with
  | None => first_memory_state identity now threshold lock_duration_seconds
  | Some cur =>
      if lock_expired cur now || unlocked_sequence_expired cur now failure_retention_seconds
      then first_memory_state identity now threshold lock_duration_seconds
      else
        let count := failure_count cur + 1 in
        let kept := match locked_until cur with
                    | Some l => if epoch_ms now <? epoch_ms l then Some l else None
                    | None => None
                    end in
        let locked := match kept with
                      | Some l => Some l
                      | None => if threshold <=? count
                                then Some (lock_deadline now lock_duration_seconds)
                                else None
                      end in
        LockState identity count locked (first_failure_at cur) now
  end.

Definition get (identity : string) (rs : rows) : result lock_exn (option FailedLoginLockState) :=
  let! identity := require_opaque_login_identity identity in
  Ok (rs !! identity).

Definition record_failure (identity : string) (now : datetime)
    (threshold lock_duration_seconds failure_retention_seconds : Z) (rs : rows)
    : result lock_exn FailedLoginLockState * rows :=
  match require_opaque_login_identity identity with
  | Err e => (Err e, rs)
  | Ok identity =>
      if (threshold <? 1) || (lock_duration_seconds <? 1) || (failure_retention_seconds <? 1)
      then (Err FailedLoginLockUnavailable, rs)
      else
        let current_time := aware_utc now in
        let rs1 := purge_memory_rows rs current_time failure_retention_seconds in
        let state := next_memory_state identity (rs1 !! identity) current_time
                       threshold lock_duration_seconds failure_retention_seconds in
        (Ok state, <[identity := state]> rs1)
  end.

(** The row is popped before the retention argument is checked. *)
Definition clear (identity : string) (now : option datetime)
    (failure_retention_seconds : option Z) (rs : rows) : result lock_exn unit * rows :=
  match require_opaque_login_identity identity with
  | Err e => (Err e, rs)
  | Ok identity =>
      let rs1 := delete identity rs in
      match now, failure_retention_seconds with
      | Some now, Some ret =>
          if ret <? 1 then (Err FailedLoginLockUnavailable, rs1)
          else (Ok tt, purge_memory_rows rs1 (aware_utc now) ret)
      | _, _ => (Ok tt, rs1)
      end
  end.

Definition view (rs : rows) (i : string) : option lock_row := row_of <$> rs !! i.

Lemma reapable_active now_ms cutoff_ms s :
  reapable now_ms cutoff_ms s = negb (row_active now_ms cutoff_ms (row_of s)).
Proof.
  unfold reapable, row_active, row_of. simpl.
  destruct (locked_until s); simpl; by rewrite <- Z.leb_antisym.
Qed.

Lemma view_purge_memory rs now ret i :
  view (purge_memory_rows rs now ret) i
  = reap (epoch_ms now) (epoch_ms now - ret * 1000) (view rs i).
Proof.
  unfold view, purge_memory_rows, retention_cutoff_ms. rewrite map_lookup_filter.
  destruct (rs !! i) as [s|]; simpl; [| done].
  rewrite reapable_active.
  by destruct (row_active _ _ (row_of s)).
Qed.

Lemma fresh_row_of i now th ls :
  in_window now -> in_window (dt_add now (seconds ls)) ->
  row_of (first_memory_state i now th ls)
  = fresh_row (epoch_ms now) th (epoch_ms now + ls * 1000).
Proof.
  intros Hn Hd. unfold row_of, first_memory_state, fresh_row, lock_deadline. simpl.
  destruct (th <=? 1); simpl; [| done].
  rewrite epoch_ms_add_seconds by done. do 3 f_equal. lia.
Qed.

Lemma next_memory_state_row i cur now th ls rs :
  in_window now -> in_window (dt_add now (seconds ls)) ->
  row_of (next_memory_state i cur now th ls rs)
  = next_row (epoch_ms now) th (epoch_ms now + ls * 1000) (epoch_ms now - rs * 1000)
      (row_of <$> cur).
Proof.
  intros Hn Hd. destruct cur as [c|]; simpl; [| by apply fresh_row_of].
  unfold lock_expired, unlocked_sequence_expired, retention_cutoff_ms, row_active.
  destruct (locked_until c) as [l|] eqn:El; simpl; rewrite ?El; simpl.
  - rewrite orb_false_r, Z.leb_antisym.
    destruct (epoch_ms now <? epoch_ms l) eqn:E; simpl; [| by apply fresh_row_of].
    unfold row_of, bump_row. simpl. by rewrite El.
  - rewrite Z.leb_antisym.
    destruct (_ <? epoch_ms (last_failure_at c)) eqn:E; simpl; [| by apply fresh_row_of].
    unfold row_of, bump_row, lock_deadline. simpl. rewrite El.
    destruct (th <=? failure_count c + 1); simpl; [| done].
    rewrite epoch_ms_add_seconds by done. do 3 f_equal. lia.
Qed.

Lemma next_memory_state_key i cur now th ls rs :
  identity_key (next_memory_state i cur now th ls rs) = i.
Proof. destruct cur as [c|]; simpl; [destruct (_ || _) |]; done. Qed.

#[global] Instance memory_store : FailedLoginLockStore rows := {
  store_get := get;
  store_record_failure := record_failure;
  store_clear := clear
}.

Lemma memory_record_failure_ok i rs now th ls ret :
  valid_identity i -> op_window now ls ret -> 1 <= th ->
  exists s, record_failure i now th ls ret rs
            = (Ok s, <[i := s]> (purge_memory_rows rs now ret))
    /\ identity_key s = i
    /\ row_of s = next_row (epoch_ms now) th (epoch_ms now + ls * 1000)
                    (epoch_ms now - ret * 1000) (view rs i).
Proof.
  intros Hi (Hn & Hd & Hls & Hrs) Hth. unfold record_failure. rewrite Hi.
  destruct (_ || _) eqn:E; bool_simpl; [exfalso; revert E; rewrite !orb_true_iff, !Z.ltb_lt; lia |].
  eexists. split; [done |]. split; [apply next_memory_state_key |].
  rewrite next_memory_state_row by done.
  by rewrite <- (next_row_reap _ _ _ _ (view rs i)), <- view_purge_memory.
Qed.

#[global] Program Instance memory_store_laws : LockStoreLaws rows := {
  store_wf := fun _ => True;
  store_view := view
}.
Next Obligation. intros i st Hi _. simpl. unfold get. rewrite Hi. simpl. eauto. Qed.
Next Obligation.
  intros i st now th ls rs Hi. simpl. unfold get, record_failure. by rewrite Hi.
Qed.
Next Obligation.
  intros i st now th ls rs Hi _ Hop Hth. simpl.
  destruct (memory_record_failure_ok i st now th ls rs Hi Hop Hth) as (s & -> & Hk & Hrow).
  eexists s, _. split; [done |]. split; [done |]. cbv zeta. rewrite <- Hrow.
  do 2 (split; [done |]). split.
  - unfold view. by rewrite lookup_insert_eq.
  - intros j Hj. rewrite <- view_purge_memory. unfold view. by rewrite lookup_insert_ne.
Qed.
Next Obligation.
  intros i st now rs Hi _ Hn Hrs. simpl. unfold clear. rewrite Hi.
  destruct (rs <? 1) eqn:E; bool_simpl; [lia |].
  eexists. split; [done |]. split; [done |]. split; [| intros j Hj].
  - rewrite view_purge_memory. unfold view. by rewrite lookup_delete_eq.
  - rewrite view_purge_memory. unfold view. by rewrite lookup_delete_ne.
Qed.

End MemoryStore.

(** ** [FailedLoginLock]: the policy over any store *)
Module Facade.

Record FailedLoginLock := Lock {
  lock_threshold : Z;
  lock_duration_seconds : Z;
  lock_retention_seconds : Z
}.

(** [FailedLoginLock.__init__]. *)
Definition make_lock (threshold duration retention : Z) : result lock_exn FailedLoginLock :=
  raise! LockPolicyValueError
    when (threshold <? 1) || (duration <? 1) || (retention <? 1) in
  Ok (Lock threshold duration retention).

Definition default_lock : FailedLoginLock :=
  Lock FAILED_LOGIN_LOCK_THRESHOLD FAILED_LOGIN_LOCK_DURATION_SECONDS
    FAILED_LOGIN_FAILURE_RETENTION_SECONDS.

Section Facade.
Context {St : Type} `{Hstore : FailedLoginLockStore St}.
Variable lk : FailedLoginLock.

Definition is_locked (identity : string) (now : datetime) (st : St) : result lock_exn bool :=
  let! state := store_get identity st in
  match state with
  | None => Ok false
  | Some s => match locked_until s with
              | None => Ok false
              | Some l => Ok (epoch_ms now <? epoch_ms l)
              end
  end.

Definition record_failure (identity : string) (now : datetime) (st : St)
    : result lock_exn FailedLoginLockState * St :=
  store_record_failure identity now (lock_threshold lk) (lock_duration_seconds lk)
    (lock_retention_seconds lk) st.

Definition clear (identity : string) (now : option datetime) (st : St)
    : result lock_exn unit * St :=
  store_clear identity now (Some (lock_retention_seconds lk)) st.

(** A login service that records one failure after the other. *)
Fixpoint record_failures (identity : string) (times : list datetime) (st : St) : St :=
  match times with
  | [] => st
  | t :: ts => record_failures identity ts (record_failure identity t st).2
  end.
End Facade.

(** What [is_locked] answers from a row. *)
Definition row_is_locked (now : datetime) (o : option lock_row) : bool :=
  match o with
  | Some r => match row_locked r with
              | Some l => epoch_ms now <? l
              | None => false
              end
  | None => false
  end.

(** A positive policy and an attempt whose times are in the exact window. *)
Definition lock_ok (lk : FailedLoginLock) : Prop := 1 <= lock_threshold lk.
Definition attempt_ok (lk : FailedLoginLock) (now : datetime) : Prop :=
  op_window now (lock_duration_seconds lk) (lock_retention_seconds lk).

(** Attempts that each come before the previous one leaves the retention
    horizon, so that they form one sequence. *)
Fixpoint one_sequence (lk : FailedLoginLock) (prev : datetime) (ts : list datetime) : Prop :=
  match ts with
  | [] => True
  | t :: rest =>
      attempt_ok lk t
      /\ epoch_ms t - lock_retention_seconds lk * 1000 < epoch_ms prev
      /\ one_sequence lk t rest
  end.

Section Laws.
Context {St : Type} `{Hlaws : LockStoreLaws St}.
Variable lk : FailedLoginLock.
Hypothesis Hlk : lock_ok lk.

Lemma is_locked_view i now st :
  valid_identity i -> store_wf st ->
  is_locked i now st = Ok (row_is_locked now (store_view st i)).
Proof.
  intros Hi Hwf. destruct (store_get_spec i st Hi Hwf) as (o & Hg & Hv).
  unfold is_locked. rewrite Hg. simpl. rewrite <- Hv.
  destruct o as [s|]; simpl; [| done]. by destruct (locked_until s).
Qed.

Lemma record_failure_step i now st :
  valid_identity i -> store_wf st -> attempt_ok lk now ->
  exists s st', record_failure lk i now st = (Ok s, st') /\ store_wf st'
    /\ store_view st' i = Some (row_of s)
    /\ row_of s = next_row (epoch_ms now) (lock_threshold lk)
         (epoch_ms now + lock_duration_seconds lk * 1000)
         (epoch_ms now - lock_retention_seconds lk * 1000) (store_view st i)
    /\ forall j, j <> i -> store_view st' j
         = reap (epoch_ms now) (epoch_ms now - lock_retention_seconds lk * 1000)
             (store_view st j).
Proof.
  intros Hi Hwf Hop.
  destruct (store_record_failure_spec i st now _ _ _ Hi Hwf Hop Hlk)
    as (s & st' & Hr & Hwf' & Hrow & _ & Hv & Hj).
  exists s, st'. rewrite Hrow. auto.
Qed.

(** Continuing a sequence: [ts] more failures on an unlocked row below the
    threshold. *)
Lemma record_failures_from i ts prev st r :
  valid_identity i -> store_wf st ->
  store_view st i = Some r -> row_locked r = None -> row_last r = epoch_ms prev ->
  row_count r < lock_threshold lk ->
  row_count r + Z.of_nat (length ts) <= lock_threshold lk ->
  one_sequence lk prev ts ->
  exists r', store_wf (record_failures lk i ts st)
    /\ store_view (record_failures lk i ts st) i = Some r'
    /\ row_count r' = row_count r + Z.of_nat (length ts)
    /\ row_last r' = epoch_ms (default prev (last ts))
    /\ row_locked r' =
         (if lock_threshold lk <=? row_count r'
          then Some (epoch_ms (default prev (last ts)) + lock_duration_seconds lk * 1000)
          else None).
Proof.
  intros Hi. revert prev st r.
  induction ts as [|t ts IH]; intros prev st r Hwf Hv Hl Hlast Hlt Hn Hseq; simpl in *.
  { exists r. rewrite Z.add_0_r. by replace (_ <=? _) with false
      by (symmetry; apply Z.leb_gt; lia). }
  destruct Hseq as (Hok & Hgap & Hrest).
  destruct (record_failure_step i t st Hi Hwf Hok)
    as (s & st' & Hr & Hwf' & Hv' & Hrow & _).
  rewrite Hr. simpl.
  assert (Hact : row_active (epoch_ms t)
                   (epoch_ms t - lock_retention_seconds lk * 1000) r = true).
  { unfold row_active. rewrite Hl, Hlast. by apply Z.ltb_lt. }
  rewrite Hv in Hrow. simpl in Hrow. rewrite Hact in Hrow.
  unfold bump_row in Hrow. rewrite Hl in Hrow.
  destruct ts as [|t' ts'].
  { exists (row_of s). do 2 (split; [done |]). by rewrite Hrow. }
  destruct (lock_threshold lk <=? row_count r + 1) eqn:E; bool_simpl.
  { simpl in Hn. lia. }
  destruct (IH t st' (row_of s) Hwf' Hv') as (r' & Hwf2 & Hv2 & Hc & Hla & Hlo);
    [by rewrite Hrow .. | rewrite Hrow; simpl in *; lia | done |].
  exists r'. split; [done |]. split; [done |].
  rewrite Hrow in Hc. simpl row_count in Hc.
  split; [rewrite Hc; simpl length; lia |].
  rewrite last_cons_cons.
  destruct (last (t' :: ts')) eqn:Elast; [by split | by apply last_None in Elast].
Qed.

Lemma first_failure i now st :
  valid_identity i -> store_wf st -> attempt_ok lk now -> store_view st i = None ->
  exists s st', record_failure lk i now st = (Ok s, st') /\ store_wf st'
    /\ store_view st' i
       = Some (fresh_row (epoch_ms now) (lock_threshold lk)
                (epoch_ms now + lock_duration_seconds lk * 1000)).
Proof.
  intros Hi Hwf Hop Hnone.
  destruct (record_failure_step i now st Hi Hwf Hop) as (s & st' & Hr & Hwf' & Hv & Hrow & _).
  exists s, st'. rewrite Hv, Hrow, Hnone. done.
Qed.

(** The lock of a sequence of failures. *)
Lemma lockout_exact i t ts st later :
  valid_identity i -> store_wf st -> store_view st i = None ->
  attempt_ok lk t -> one_sequence lk t ts ->
  1 + Z.of_nat (length ts) <= lock_threshold lk ->
  is_locked i later (record_failures lk i (t :: ts) st)
  = Ok (bool_decide (1 + Z.of_nat (length ts) = lock_threshold lk)
        && (epoch_ms later <? epoch_ms (default t (last ts))
                              + lock_duration_seconds lk * 1000)).
Proof.
  intros Hi Hwf Hnone Hop Hseq Hn.
  destruct (first_failure i t st Hi Hwf Hop Hnone) as (s & st' & Hr & Hwf' & Hv).
  simpl. rewrite Hr. simpl. unfold fresh_row in Hv.
  destruct (lock_threshold lk <=? 1) eqn:E; bool_simpl.
  - destruct ts as [|t' ts]; [| simpl in Hn; lia]. simpl.
    rewrite is_locked_view, Hv by done. simpl.
    rewrite bool_decide_true by (simpl in Hn; lia). done.
  - destruct (record_failures_from i ts t st' _ Hi Hwf' Hv) as (r' & Hwf2 & Hv2 & Hc & _ & Hlo);
      simpl; [done | done | lia | simpl in Hn |- *; lia | done |].
    rewrite is_locked_view, Hv2 by done. simpl in Hc |- *. rewrite Hlo, Hc.
    case_bool_decide as Hb.
    + by rewrite (proj2 (Z.leb_le _ _)) by lia.
    + by rewrite (proj2 (Z.leb_gt _ _)) by lia.
Qed.

(** An identity with no failure memory is locked exactly when its
    consecutive failures (each inside the retention horizon of the one before)
    reach the threshold, and then until the lock duration measured from the
    attempt that reached it. Holds for every store that keeps the protocol. *)
Theorem lockout_threshold i t ts st later :
  valid_identity i -> store_wf st -> store_view st i = None ->
  attempt_ok lk t -> one_sequence lk t ts ->
  1 + Z.of_nat (length ts) <= lock_threshold lk ->
  is_locked i later (record_failures lk i (t :: ts) st)
  = Ok (bool_decide (1 + Z.of_nat (length ts) = lock_threshold lk)
        && (epoch_ms later <? epoch_ms (default t (last ts))
                              + lock_duration_seconds lk * 1000)).
Proof. apply lockout_exact. Qed.

(** A failure during an active lock counts but never moves the deadline. *)
Theorem active_lock_not_extended i now st r l :
  valid_identity i -> store_wf st -> attempt_ok lk now ->
  store_view st i = Some r -> row_locked r = Some l -> epoch_ms now < l ->
  exists s st', record_failure lk i now st = (Ok s, st')
    /\ failure_count s = row_count r + 1
    /\ forall later, is_locked i later st' = is_locked i later st.
Proof.
  intros Hi Hwf Hop Hv Hr Hl.
  destruct (record_failure_step i now st Hi Hwf Hop) as (s & st' & Hres & Hwf' & Hv' & Hrow & _).
  exists s, st'. split; [done |]. rewrite Hv in Hrow.
  assert (Hk := next_row_keeps_lock (epoch_ms now) (lock_threshold lk)
           (epoch_ms now + lock_duration_seconds lk * 1000)
           (epoch_ms now - lock_retention_seconds lk * 1000) r l Hr Hl).
  split.
  - rewrite failure_count_row, Hrow. simpl.
    unfold row_active. rewrite Hr. by rewrite (proj2 (Z.ltb_lt _ _)).
  - intros later. rewrite !is_locked_view, Hv, Hv' by done.
    cbn [row_is_locked]. by rewrite Hrow, Hk, Hr.
Qed.

Lemma reap_is_locked later now_ms cutoff o :
  now_ms <= epoch_ms later ->
  row_is_locked later (reap now_ms cutoff o) = row_is_locked later o.
Proof.
  intros Hle. destruct o as [r|]; simpl; [| done]. unfold row_active.
  destruct (row_locked r) as [l|] eqn:E; simpl.
  - destruct (now_ms <? l) eqn:E2; bool_simpl; simpl; rewrite ?E; [done |].
    symmetry. apply Z.ltb_ge. lia.
  - destruct (cutoff <? row_last r); simpl; by rewrite ?E.
Qed.

(** Recording a failure for one identity never changes whether another
    identity is locked, although the write purges stale rows. *)
Theorem failures_are_isolated i j now later st :
  valid_identity i -> valid_identity j -> i <> j -> store_wf st -> attempt_ok lk now ->
  epoch_ms now <= epoch_ms later ->
  is_locked j later (record_failure lk i now st).2 = is_locked j later st.
Proof.
  intros Hi Hj Hne Hwf Hop Hle.
  destruct (record_failure_step i now st Hi Hwf Hop) as (s & st' & -> & Hwf' & _ & _ & Hoth).
  simpl. rewrite !is_locked_view, Hoth, reap_is_locked by done. done.
Qed.

(** A successful login clears the identity's failure memory, and a
    following failure starts again at count one. *)
Theorem clear_unlocks i now st :
  valid_identity i -> store_wf st -> attempt_ok lk now ->
  exists st', clear lk i (Some now) st = (Ok tt, st')
    /\ (forall later, is_locked i later st' = Ok false)
    /\ exists s st'', record_failure lk i now st' = (Ok s, st'') /\ failure_count s = 1.
Proof.
  intros Hi Hwf (Hn & Hd & Hls & Hrs).
  destruct (store_clear_spec i st now _ Hi Hwf Hn Hrs) as (st' & Hc & Hwf' & Hv & _).
  exists st'. split; [done |]. split.
  - intros later. by rewrite is_locked_view, Hv by done.
  - destruct (record_failure_step i now st' Hi Hwf' ltac:(done))
      as (s & st'' & Hr & _ & _ & Hrow & _).
    exists s, st''. split; [done |].
    by rewrite failure_count_row, Hrow, Hv.
Qed.
End Laws.

End Facade.

(** ** The hypotheses of the theorems hold of the in-memory store *)
Module Examples.
Import MemoryStore Facade.

Definition id_a : string := "acct:1f".
Definition id_b : string := "acct:2e".
Definition at_s (s : Z) : datetime := Datetime (1700000000000000 + seconds s) true.
Definition small_lock : FailedLoginLock := Lock 2 900 900.
Definition locked_rows : rows := record_failures small_lock id_a [at_s 0; at_s 10] ∅.

Example lockout_threshold_witness :
  is_locked id_a (at_s 909) (record_failures small_lock id_a [at_s 0; at_s 10] (∅ : rows))
  = Ok true.
Proof.
  rewrite (lockout_threshold small_lock ltac:(unfold lock_ok; simpl; lia) id_a (at_s 0)
             [at_s 10] (∅ : rows) (at_s 909)); try done.
  all: unfold attempt_ok, op_window, in_window; simpl; lia.
Defined.

Example active_lock_not_extended_witness :
  exists s st', record_failure small_lock id_a (at_s 20) locked_rows = (Ok s, st')
    /\ failure_count s = 3
    /\ forall later, is_locked id_a later st' = is_locked id_a later locked_rows.
Proof.
  apply (active_lock_not_extended small_lock ltac:(unfold lock_ok; simpl; lia) id_a (at_s 20)
           locked_rows (LockRow 2 (Some 1700000910000) 1700000000000 1700000010000)
           1700000910000);
    vm_compute; done.
Defined.

Example failures_are_isolated_witness :
  is_locked id_a (at_s 40) (record_failure small_lock id_b (at_s 30) locked_rows).2
  = is_locked id_a (at_s 40) locked_rows.
Proof.
  apply (failures_are_isolated small_lock ltac:(unfold lock_ok; simpl; lia) id_b id_a
           (at_s 30) (at_s 40) locked_rows);
    vm_compute; done.
Defined.

Example clear_unlocks_witness :
  exists st', clear small_lock id_a (Some (at_s 20)) locked_rows = (Ok tt, st')
    /\ (forall later, is_locked id_a later st' = Ok false)
    /\ exists s st'', record_failure small_lock id_a (at_s 20) st' = (Ok s, st'')
                      /\ failure_count s = 1.
Proof.
  apply (clear_unlocks small_lock ltac:(unfold lock_ok; simpl; lia) id_a (at_s 20) locked_rows);
    vm_compute; done.
Defined.

End Examples.
