(* ===== verification/LoginLockSql.v ===== *)
(** The shared failed-login store:
    [app/infrastructure/database/failed_login_lock_store.py].

    The table maps the primary key [identity_key] to one row of millisecond
    columns. Every statement of the store is a definition on the table
    ([UPDATE ... RETURNING] returns the new row of the matched key); attempts
    and faults come from [SqlRetry]. The last theorem shows that the store refines the
    same protocol as the in-memory store. *)

From S2P Require Import Prelude PyStr Clock SqlRetry LoginLock.
Import LockPolicy LockInterface.
#[local] Open Scope Z_scope.

Module SqlStore.

Abbreviation table := (gmap string lock_row).

Definition MAX_ATTEMPTS : nat := 16.

(** ** Statements *)

Definition state_from_row (identity : string) (r : lock_row) : FailedLoginLockState :=
  LockState identity (row_count r) (from_epoch_ms <$> row_locked r)
    (from_epoch_ms (row_first r)) (from_epoch_ms (row_last r)).

(** [UPDATE ... WHERE identity_key = identity AND cond SET ... RETURNING]. *)
Definition update_returning (identity : string) (cond : lock_row -> bool)
    (set : lock_row -> lock_row) (t : table) : option lock_row * table :=
  match t !! identity with
  | Some r => if cond r then (Some (set r), <[identity := set r]> t) else (None, t)
  | None => (None, t)
  end.

Definition increment_active (identity : string) (now_ms threshold lock_until_ms cutoff_ms : Z)
    : table -> option lock_row * table :=
  update_returning identity
    (fun r => match row_locked r with
              | Some l => now_ms <? l
              | None => cutoff_ms <? row_last r
              end)
    (fun r => let new_count := row_count r + 1 in
       LockRow new_count
         (match row_locked r with
          | None => if threshold <=? new_count then Some lock_until_ms else None
          | Some l => Some l
          end)
         (row_first r) now_ms).

Definition reset_matching (identity : string) (now_ms threshold lock_until_ms : Z)
    (expired_lock : bool) (cutoff_ms : Z) : table -> option lock_row * table :=
  update_returning identity
    (fun r => if expired_lock
              then match row_locked r with Some l => l <=? now_ms | None => false end
              else match row_locked r with
                   | Some _ => false
                   | None => row_last r <=? cutoff_ms
                   end)
    (fun _ => LockRow 1 (if threshold <=? 1 then Some lock_until_ms else None) now_ms now_ms).

(** [INSERT]: the primary key refuses a second row. *)
Definition insert_first (identity : string) (now_ms threshold lock_until_ms : Z) (t : table)
    : result txn_error lock_row * table :=
  let row := LockRow 1 (if threshold <=? 1 then Some lock_until_ms else None) now_ms now_ms in
  match t !! identity with
  | Some _ => (Err (TxnDb IntegrityError), t)
  | None => (Ok row, <[identity := row]> t)
  end.

Definition purge_stale_rows (now_ms cutoff_ms : Z) (t : table) : table :=
  filter (fun kv =>
    match row_locked kv.2 with
    | None => row_last kv.2 <=? cutoff_ms
    | Some l => l <=? now_ms
    end = false) t.

Definition apply_failure (identity : string) (now_ms threshold lock_until_ms cutoff_ms : Z)
    (t : table) : result txn_error FailedLoginLockState * table :=
  match increment_active identity now_ms threshold lock_until_ms cutoff_ms t with
  | (Some r, t1) => (Ok (state_from_row identity r), t1)
  | (None, t1) =>
      match reset_matching identity now_ms threshold lock_until_ms true cutoff_ms t1 with
      | (Some r, t2) => (Ok (state_from_row identity r), t2)
      | (None, t2) =>
          match reset_matching identity now_ms threshold lock_until_ms false cutoff_ms t2 with
          | (Some r, t3) => (Ok (state_from_row identity r), t3)
          | (None, t3) =>
              match insert_first identity now_ms threshold lock_until_ms t3 with
              | (Ok r, t4) => (Ok (state_from_row identity r), t4)
              | (Err e, t4) => (Err e, t4)
              end
          end
      end
  end.

(** The body of one attempt: the failure, then the purge. *)
Definition failure_txn (identity : string) (now_ms threshold lock_until_ms cutoff_ms : Z)
    (t : table) : result txn_error FailedLoginLockState * table :=
  match apply_failure identity now_ms threshold lock_until_ms cutoff_ms t with
  | (Ok s, t1) => (Ok s, purge_stale_rows now_ms cutoff_ms t1)
  | (Err e, t1) => (Err e, t1)
  end.

Definition record_failure (envs : nat -> attempt_env table) (identity : string) (now : datetime)
    (threshold lock_duration_seconds failure_retention_seconds : Z) (t : table)
    : result lock_exn FailedLoginLockState * table :=
  match require_opaque_login_identity identity with
  | Err e => (Err e, t)
  | Ok identity =>
      if (threshold <? 1) || (lock_duration_seconds <? 1) || (failure_retention_seconds <? 1)
      then (Err FailedLoginLockUnavailable, t)
      else
        let now_ms := epoch_ms now in
        let lock_until_ms := now_ms + lock_duration_seconds * 1000 in
        let cutoff_ms := now_ms - failure_retention_seconds * 1000 in
        attempts FailedLoginLockUnavailable MAX_ATTEMPTS envs
          (failure_txn identity now_ms threshold lock_until_ms cutoff_ms) t
  end.

(** [get] and [clear] do not retry: any database error is [Unavailable]. *)
Definition get (fault : option db_error) (identity : string) (t : table)
    : result lock_exn (option FailedLoginLockState) :=
  let! identity := require_opaque_login_identity identity in
  match fault with
  | Some _ => Err FailedLoginLockUnavailable
  | None => Ok (state_from_row identity <$> t !! identity)
  end.

Definition clear (fault : option db_error) (identity : string) (now : option datetime)
    (failure_retention_seconds : option Z) (t : table) : result lock_exn unit * table :=
  match require_opaque_login_identity identity with
  | Err e => (Err e, t)
  | Ok identity =>
      if match failure_retention_seconds with Some r => r <? 1 | None => false end
      then (Err FailedLoginLockUnavailable, t)
      else match fault with
      | Some _ => (Err FailedLoginLockUnavailable, t)
      | None =>
          let t1 := delete identity t in
          match now, failure_retention_seconds with
          | Some now, Some ret =>
              let now_ms := epoch_ms now in
              (Ok tt, purge_stale_rows now_ms (now_ms - ret * 1000) t1)
          | _, _ => (Ok tt, t1)
          end
      end
  end.

(** ** One isolated transaction is one transition of the protocol *)

Lemma apply_failure_spec i now_ms th lu cutoff t :
  let row := next_row now_ms th lu cutoff (t !! i) in
  apply_failure i now_ms th lu cutoff t = (Ok (state_from_row i row), <[i := row]> t).
Proof.
  unfold apply_failure, increment_active, reset_matching, insert_first, update_returning.
  destruct (t !! i) as [r|] eqn:Et; simpl; [| by rewrite !Et].
  unfold row_active, bump_row, fresh_row. destruct (row_locked r) as [l|] eqn:El.
  - destruct (now_ms <? l) eqn:E; [done |]. rewrite Et, El.
    rewrite (proj2 (Z.leb_le l now_ms)) by (bool_simpl; lia). done.
  - destruct (cutoff <? row_last r) eqn:E; [done |]. rewrite Et, El, Et, El.
    rewrite (proj2 (Z.leb_le (row_last r) cutoff)) by (bool_simpl; lia). done.
Qed.

Lemma lookup_purge now_ms cutoff (t : table) i :
  purge_stale_rows now_ms cutoff t !! i = reap now_ms cutoff (t !! i).
Proof.
  unfold purge_stale_rows. rewrite map_lookup_filter.
  destruct (t !! i) as [r|]; simpl; [| done]. unfold row_active.
  destruct (row_locked r); simpl; rewrite Z.leb_antisym; by destruct (_ <? _).
Qed.

(** The committed table of one successful attempt. *)
Definition committed (i : string) (now_ms th lu cutoff : Z) (t : table) : table :=
  purge_stale_rows now_ms cutoff (<[i := next_row now_ms th lu cutoff (t !! i)]> t).

Lemma failure_txn_spec i now_ms th lu cutoff t :
  failure_txn i now_ms th lu cutoff t
  = (Ok (state_from_row i (next_row now_ms th lu cutoff (t !! i))),
     committed i now_ms th lu cutoff t).
Proof. unfold failure_txn. by rewrite apply_failure_spec. Qed.

(** whatever the other sessions commit and whichever attempts fail, a
    recorded failure is either counted exactly once, on the rows the other
    sessions left and within 16 attempts, or it raises
    [FailedLoginLockUnavailable] and this session changed nothing. *)
Theorem record_failure_exactly_once envs i now th ls rs t :
  let now_ms := epoch_ms now in
  let lu := now_ms + ls * 1000 in
  let cutoff := now_ms - rs * 1000 in
  let out := record_failure envs i now th ls rs t in
  valid_identity i -> 1 <= th -> 1 <= ls -> 1 <= rs ->
  (exists k, (k < 16)%nat /\ env_fault (envs k) = None
     /\ let tk := others_run envs (S k) t in
        out = (Ok (state_from_row i (next_row now_ms th lu cutoff (tk !! i))),
               committed i now_ms th lu cutoff tk))
  \/ gave_up FailedLoginLockUnavailable 16 envs t out.
Proof.
  intros now_ms lu cutoff out Hi Hth Hls Hrs. unfold out, record_failure. rewrite Hi.
  replace (_ || _) with false by (symmetry; rewrite !orb_false_iff, !Z.ltb_ge; lia).
  destruct (attempts_outcome FailedLoginLockUnavailable MAX_ATTEMPTS envs
              (failure_txn i now_ms th lu cutoff) t)
    as [(k & a & t' & Hk & Hf & Hb & Heq) | Hg]; [left | by right].
  exists k. split; [done |]. split; [done |].
  rewrite failure_txn_spec in Hb. injection Hb as <- <-. exact Heq.
Qed.

(** ** The store keeps the protocol of [LoginLock] *)

Definition row_wf (r : lock_row) : Prop :=
  (forall l, row_locked r = Some l -> in_window (from_epoch_ms l))
  /\ in_window (from_epoch_ms (row_first r))
  /\ in_window (from_epoch_ms (row_last r)).
Definition table_wf (t : table) : Prop := map_Forall (fun _ r => row_wf r) t.

Lemma row_of_state_from_row i r : row_wf r -> row_of (state_from_row i r) = r.
Proof.
  intros (Hl & Hf & Hla). destruct r as [c l f la]. unfold row_of, state_from_row. simpl in *.
  rewrite !epoch_ms_from_epoch_ms by done. f_equal.
  destruct l as [l|]; simpl; [| done]. by rewrite epoch_ms_from_epoch_ms by auto.
Qed.

Lemma next_row_wf now ls th cutoff cur :
  in_window now -> in_window (dt_add now (seconds ls)) ->
  (forall r, cur = Some r -> row_wf r) ->
  row_wf (next_row (epoch_ms now) th (epoch_ms now + ls * 1000) cutoff cur).
Proof.
  intros Hn Hd Hcur.
  assert (Hw := from_epoch_ms_window now Hn).
  assert (Hlu : in_window (from_epoch_ms (epoch_ms now + ls * 1000))).
  { replace (epoch_ms now + ls * 1000) with (epoch_ms (dt_add now (seconds ls)))
      by (rewrite epoch_ms_add_seconds by done; lia). by apply from_epoch_ms_window. }
  assert (Hfresh : row_wf (fresh_row (epoch_ms now) th (epoch_ms now + ls * 1000))).
  { split; [| done]. simpl. intros l. destruct (th <=? 1); [| done]. by intros [= <-]. }
  destruct cur as [r|]; simpl; [| done]. destruct (row_active _ _ r); [| done].
  destruct (Hcur r eq_refl) as (Hl & Hf & Hla). split; [| done]. simpl. intros l.
  destruct (row_locked r) as [l'|]; [by intros [= <-]; apply Hl |].
  destruct (th <=? _); [| done]. by intros [= <-].
Qed.

Lemma purge_stale_wf now_ms cutoff t : table_wf t -> table_wf (purge_stale_rows now_ms cutoff t).
Proof.
  intros Hwf i r Hi. apply map_lookup_filter_Some in Hi as [Hi _]. by apply (Hwf i).
Qed.

#[global] Instance sql_store : FailedLoginLockStore table := {
  store_get := get None;
  store_record_failure := record_failure (fun _ => quiet);
  store_clear := clear None
}.

Lemma record_failure_quiet i now th ls rs t :
  valid_identity i -> op_window now ls rs -> 1 <= th ->
  let now_ms := epoch_ms now in
  let row := next_row now_ms th (now_ms + ls * 1000) (now_ms - rs * 1000) (t !! i) in
  record_failure (fun _ => quiet) i now th ls rs t
  = (Ok (state_from_row i row),
     purge_stale_rows now_ms (now_ms - rs * 1000) (<[i := row]> t)).
Proof.
  intros Hi (_ & _ & Hls & Hrs) Hth now_ms row. unfold record_failure. rewrite Hi.
  replace (_ || _) with false by (symmetry; rewrite !orb_false_iff, !Z.ltb_ge; lia).
  apply attempts_quiet. apply failure_txn_spec.
Qed.

#[global] Program Instance sql_store_laws : LockStoreLaws table := {
  store_wf := table_wf;
  store_view := fun t i => t !! i
}.
Next Obligation.
  intros i t Hi Hwf. simpl. unfold get. rewrite Hi. simpl. eexists; split; [done |].
  destruct (t !! i) as [r|] eqn:E; simpl; [| done].
  f_equal. apply row_of_state_from_row. by apply (Hwf i).
Qed.
Next Obligation.
  intros i st now th ls rs Hi. simpl. unfold get, record_failure. by rewrite Hi.
Qed.
Next Obligation.
  intros i t now th ls rs Hi Hwf Hop Hth. cbn [store_record_failure sql_store].
  rewrite record_failure_quiet by done. destruct Hop as (Hn & Hd & Hls & Hrs). cbv zeta.
  set (row := next_row _ _ _ _ _). eexists _, _. split; [done |].
  assert (Hrow : row_wf row) by (apply next_row_wf; [done | done | intros r; apply Hwf]).
  split; [by apply purge_stale_wf, map_Forall_insert_2 |].
  split; [by apply row_of_state_from_row |]. split; [done |]. split.
  - rewrite lookup_purge, lookup_insert_eq. simpl. unfold row.
    rewrite next_row_active by lia. done.
  - intros j Hj. by rewrite lookup_purge, lookup_insert_ne.
Qed.
Next Obligation.
  intros i t now rs Hi Hwf Hn Hrs. simpl. unfold clear. rewrite Hi.
  rewrite (proj2 (Z.ltb_ge rs 1)) by lia. eexists. split; [done |]. split.
  { by apply purge_stale_wf, map_Forall_delete. }
  split; [by rewrite lookup_purge, lookup_delete_eq |].
  intros j Hj. by rewrite lookup_purge, lookup_delete_ne.
Qed.

End SqlStore.

(** ** Refinement: the shared store against the in-memory store *)
Module Refinement.
Import Facade.

(** One call of the login service on its lock. *)
Inductive command :=
| RecordFailure (identity : string) (now : datetime)
| Clear (identity : string) (now : datetime).

Definition command_ok (lk : FailedLoginLock) (c : command) : Prop :=
  match c with
  | RecordFailure i now | Clear i now => valid_identity i /\ attempt_ok lk now
  end.

Section Run.
Context {St : Type} `{FailedLoginLockStore St}.
Variable lk : FailedLoginLock.

Definition run_command (c : command) (st : St) : St :=
  match c with
  | RecordFailure i now => (record_failure lk i now st).2
  | Clear i now => (clear lk i (Some now) st).2
  end.
Definition run_commands (cs : list command) (st : St) : St :=
  foldl (fun st c => run_command c st) st cs.
End Run.

Section Agree.
Context {A B : Type} `{LA : LockStoreLaws A, LB : LockStoreLaws B}.
Variable lk : FailedLoginLock.
Hypothesis Hlk : lock_ok lk.

Definition related (a : A) (b : B) : Prop :=
  store_wf a /\ store_wf b /\ forall i, store_view a i = store_view b i.

Lemma step_related c a b :
  command_ok lk c -> related a b -> related (run_command lk c a) (run_command lk c b).
Proof.
  intros Hc (Ha & Hb & Hv). destruct c as [i now | i now]; destruct Hc as [Hi Hop]; simpl.
  - destruct (record_failure_step lk Hlk i now a Hi Ha Hop)
      as (sa & a' & -> & Ha' & Hva & Hra & Hoa).
    destruct (record_failure_step lk Hlk i now b Hi Hb Hop)
      as (sb & b' & -> & Hb' & Hvb & Hrb & Hob).
    split; [done |]. split; [done |]. intros j. simpl.
    destruct (decide (j = i)) as [-> | Hj].
    + by rewrite Hva, Hvb, Hra, Hrb, Hv.
    + by rewrite Hoa, Hob, Hv.
  - destruct Hop as (Hn & _ & _ & Hrs).
    destruct (store_clear_spec i a now _ Hi Ha Hn Hrs) as (a' & Hca & Ha' & Hva & Hoa).
    destruct (store_clear_spec i b now _ Hi Hb Hn Hrs) as (b' & Hcb & Hb' & Hvb & Hob).
    unfold clear. rewrite Hca, Hcb. split; [done |]. split; [done |]. intros j. simpl.
    destruct (decide (j = i)) as [-> | Hj]; [by rewrite Hva, Hvb | by rewrite Hoa, Hob, Hv].
Qed.

Lemma run_related cs a b :
  Forall (command_ok lk) cs -> related a b ->
  related (run_commands lk cs a) (run_commands lk cs b).
Proof.
  intros Hcs. revert a b. induction Hcs as [|c cs Hc _ IH]; intros a b Hr; [done |].
  simpl. apply IH. by apply step_related.
Qed.
End Agree.

(** The shared SQL store refines the in-memory store. After any sequence of
    failures and clears, both stores hold the same row (in milliseconds) for
    every identity and give the same answer to [is_locked] at any time. *)
Theorem sql_refines_memory lk cs i later :
  lock_ok lk -> Forall (command_ok lk) cs -> valid_identity i ->
  let mem := run_commands lk cs (∅ : MemoryStore.rows) in
  let sql := run_commands lk cs (∅ : SqlStore.table) in
  MemoryStore.view mem i = sql !! i
  /\ is_locked i later mem = is_locked i later sql.
Proof.
  intros Hlk Hcs Hi mem sql.
  assert (Hr : related mem sql).
  { apply run_related; [done | done |]. split; [done |]. split; [done |].
    intros j. simpl. unfold MemoryStore.view. by rewrite !lookup_empty. }
  destruct Hr as (Hm & Hs & Hv). split; [apply (Hv i) |].
  rewrite !is_locked_view by done. by rewrite Hv.
Qed.

Import Examples.

Example record_failure_exactly_once_witness :
  let out := SqlStore.record_failure (fun _ => quiet) id_a (at_s 0) 2 900 900 ∅ in
  (exists k, (k < 16)%nat /\ env_fault (@quiet SqlStore.table) = None
     /\ let tk := others_run (fun _ => quiet) (S k) (∅ : SqlStore.table) in
        out = (Ok (SqlStore.state_from_row id_a
                 (next_row 1700000000000 2 1700000900000 1699999100000 (tk !! id_a))),
               SqlStore.committed id_a 1700000000000 2 1700000900000 1699999100000 tk))
  \/ gave_up FailedLoginLockUnavailable 16 (fun _ => quiet) ∅ out.
Proof.
  apply (SqlStore.record_failure_exactly_once (fun _ => quiet) id_a (at_s 0) 2 900 900);
    [reflexivity | lia | lia | lia].
Defined.

Definition sample_commands : list command :=
  [RecordFailure id_a (at_s 0); RecordFailure id_b (at_s 1); RecordFailure id_a (at_s 2);
   Clear id_b (at_s 3)].

Example sql_refines_memory_witness :
  let mem := run_commands small_lock sample_commands (∅ : MemoryStore.rows) in
  let sql := run_commands small_lock sample_commands (∅ : SqlStore.table) in
  MemoryStore.view mem id_a = sql !! id_a
  /\ is_locked id_a (at_s 10) mem = is_locked id_a (at_s 10) sql.
Proof.
  apply sql_refines_memory; [done | | done]. repeat constructor; vm_compute; done.
Defined.

End Refinement.
