(* ===== verification/Submission.v ===== *)
(** Idempotent shopping submissions: [app/shopping/submission_idempotency.py].

    Module [Spec]: the ledger in milliseconds, one function per store
    operation. Module [StoreInterface]: the store protocol and what every store
    promises with respect to [Spec]. Module [MemoryLedger]: the in-memory store.
    Module [Ledger]: [ShoppingSubmissionLedger] and [apply_shopping_submission]
    over any store. Module [Protocol]: sequences of store calls, and what holds
    of them on every store. [sha256_hex] is
    [hashlib.sha256(...).hexdigest()], a parameter. *)

From S2P Require Import Prelude PyStr Clock.
#[local] Open Scope Z_scope.

Definition SUBMISSION_RETENTION_SECONDS : Z := 24 * 60 * 60.
Definition PROCESSING_HORIZON_SECONDS : Z := 15 * 60.
Definition MAX_RESPONSE_CHARS : Z := 262144.

Inductive sub_exn :=
| ShoppingSubmissionUnavailable
| SubmissionIdentityError (message : string).

Inductive sub_state := processing | completed | indeterminate.
#[global] Instance sub_state_eq_dec : EqDecision sub_state.
Proof. solve_decision. Defined.

Inductive SubmissionClaim :=
| Execute
| Replay (response_json : string)
| InProgress
| Conflict
| Indeterminate.

Record SubmissionRecord := Record_ {
  rec_scope : string;
  rec_key_hash : string;
  fingerprint : string;
  state : sub_state;
  response_body : option string;
  http_status : option Z;
  created_at : datetime;
  updated_at : datetime;
  expires_at : datetime
}.

(** ** Keys *)

Definition DETAIL_REQUIRED : string := "Idempotency-Key is required.".
Definition DETAIL_INVALID : string := "Idempotency-Key is invalid.".

(** [[A-Za-z0-9_-]] *)
Definition key_char (c : ascii) : bool :=
  is_ascii_upper c || is_ascii_lower c || is_digit c
  || Ascii.eqb c "_"%char || Ascii.eqb c "-"%char.

(** [_KEY_RE.fullmatch]: 16 to 128 key characters. *)
Definition key_re (key : string) : bool :=
  (16 <=? len key) && (len key <=? 128) && all_char key_char key.

Definition parse_submission_key (raw : option string) : result sub_exn string :=
  match raw with
  | None => Err (SubmissionIdentityError DETAIL_REQUIRED)
  | Some raw =>
      if negb (nonempty (strip raw)) then Err (SubmissionIdentityError DETAIL_REQUIRED)
      else
        let key := strip raw in
        if has_char ","%char raw || negb (key_re key)
        then Err (SubmissionIdentityError DETAIL_INVALID)
        else Ok key
  end.

Definition require_opaque_parts (scope key_hash fp : string) : result sub_exn unit :=
  guard_raise
    (negb (nonempty scope)
     || (128 <? len scope)
     || has_char "@"%char scope
     || any_char isspace scope
     || negb (is_hex64 key_hash)
     || negb (is_hex64 fp))
    ShoppingSubmissionUnavailable.

(** ["0" * 64] *)
Definition zero_fingerprint : string :=
  "0000000000000000000000000000000000000000000000000000000000000000".

Definition interpret (record : SubmissionRecord) (fp : string) (now : datetime)
    : SubmissionClaim :=
  if negb (String.eqb (fingerprint record) fp) then Conflict
  else
    let current := epoch_ms now in
    if bool_decide (state record = completed) && (current <? epoch_ms (expires_at record)) then
      match response_body record with
      | Some body => if nonempty body then Replay body else Indeterminate
      | None => Indeterminate
      end
    else if bool_decide (state record = processing) then InProgress
    else Indeterminate.

(** ** The ledger in milliseconds *)
Module Spec.

Record sub_row := SubRow {
  r_fp : string;
  r_state : sub_state;
  r_body : option string;
  r_status : option Z;
  r_created : Z;
  r_updated : Z;
  r_expires : Z
}.

Abbreviation ledger := (gmap (string * string) sub_row).

Definition retention_ms : Z := SUBMISSION_RETENTION_SECONDS * 1000.
Definition horizon_ms : Z := PROCESSING_HORIZON_SECONDS * 1000.

Definition is_processing (r : sub_row) : bool := bool_decide (r_state r = processing).

Definition processing_row (fp : string) (now_ms : Z) : sub_row :=
  SubRow fp processing None None now_ms now_ms (now_ms + horizon_ms).
Definition completed_row (r : sub_row) (body : string) (now_ms : Z) : sub_row :=
  SubRow (r_fp r) completed (Some body) (Some 200) (r_created r) now_ms (now_ms + retention_ms).
Definition sealed_row (r : sub_row) (now_ms : Z) : sub_row :=
  SubRow (r_fp r) indeterminate None None (r_created r) now_ms (now_ms + retention_ms).

Definition seal_row (now_ms : Z) (r : sub_row) : sub_row :=
  if is_processing r && (r_expires r <=? now_ms) then sealed_row r now_ms else r.
Definition seal (now_ms : Z) (m : ledger) : ledger := seal_row now_ms <$> m.
Definition stale_row (now_ms : Z) (r : sub_row) : bool :=
  negb (is_processing r) && (r_expires r <=? now_ms).
Definition purge (now_ms : Z) (m : ledger) : ledger :=
  filter (fun kv => stale_row now_ms kv.2 = false) m.

Definition interpret_row (r : sub_row) (fp : string) (now_ms : Z) : SubmissionClaim :=
  if negb (String.eqb (r_fp r) fp) then Conflict
  else match r_state r with
       | processing => InProgress
       | completed =>
           if now_ms <? r_expires r then
             match r_body r with
             | Some body => if nonempty body then Replay body else Indeterminate
             | None => Indeterminate
             end
           else Indeterminate
       | indeterminate => Indeterminate
       end.

(** What a claim finds under its key after the seal and the purge. *)
Definition surviving (now_ms : Z) (o : option sub_row) : option sub_row :=
  match o with
  | Some r => if stale_row now_ms (seal_row now_ms r) then None else Some (seal_row now_ms r)
  | None => None
  end.

Definition claim (k : string * string) (fp : string) (now_ms : Z) (m : ledger)
    : SubmissionClaim * ledger :=
  let m1 := purge now_ms (seal now_ms m) in
  match surviving now_ms (m !! k) with
  | None => (Execute, <[k := processing_row fp now_ms]> m1)
  | Some r => (interpret_row r fp now_ms, m1)
  end.

Definition complete (k : string * string) (fp body : string) (now_ms : Z) (m : ledger) : ledger :=
  match m !! k with
  | Some r => if is_processing r && String.eqb (r_fp r) fp
              then <[k := completed_row r body now_ms]> m else m
  | None => m
  end.

Definition fail_closed (k : string * string) (now_ms : Z) (m : ledger) : ledger :=
  match m !! k with
  | Some r => if is_processing r then <[k := sealed_row r now_ms]> m else m
  | None => m
  end.

Definition release (k : string * string) (m : ledger) : bool * ledger :=
  match m !! k with
  | Some r => if is_processing r then (true, delete k m) else (false, m)
  | None => (false, m)
  end.

Lemma lookup_purge_seal (now_ms : Z) (m : ledger) (k : string * string) :
  purge now_ms (seal now_ms m) !! k = surviving now_ms (m !! k).
Proof.
  unfold purge, seal. rewrite map_lookup_filter, lookup_fmap. unfold surviving.
  destruct (m !! k) as [r|]; simpl; [| done]. by destruct (stale_row _ _).
Qed.

End Spec.
Import Spec.

(** ** The store protocol *)
Module StoreInterface.

Class ShoppingSubmissionStore (St : Type) := {
  st_claim : string -> string -> string -> datetime -> St -> result sub_exn SubmissionClaim * St;
  st_complete : string -> string -> string -> string -> datetime -> St ->
    result sub_exn bool * St;
  st_fail_closed : string -> string -> datetime -> St -> result sub_exn unit * St;
  st_release_unentered : string -> string -> St -> result sub_exn bool * St;
  st_cleanup : datetime -> St -> result sub_exn Z * St;
  st_seal_stale_processing : datetime -> St -> result sub_exn Z * St
}.

(** The times an operation at [now] writes are in the exact window. *)
Definition op_time (now : datetime) : Prop :=
  in_window now /\ in_window (dt_add now (seconds SUBMISSION_RETENTION_SECONDS)).

Definition valid_key (scope kh : string) : Prop :=
  require_opaque_parts scope kh zero_fingerprint = Ok tt.
Definition valid_parts (scope kh fp : string) : Prop :=
  require_opaque_parts scope kh fp = Ok tt.

(** A store in which nothing but the modelled operation happens refines [Spec]. *)
Class StoreLaws (St : Type) `{ShoppingSubmissionStore St} := {
  st_wf : St -> Prop;
  st_view : St -> ledger;
  st_claim_spec scope kh fp now st :
    valid_parts scope kh fp -> op_time now -> st_wf st ->
    exists st', st_claim scope kh fp now st
                = (Ok (claim (scope, kh) fp (epoch_ms now) (st_view st)).1, st')
      /\ st_view st' = (claim (scope, kh) fp (epoch_ms now) (st_view st)).2 /\ st_wf st';
  st_complete_spec scope kh fp body now st :
    valid_parts scope kh fp -> op_time now -> st_wf st -> len body <= MAX_RESPONSE_CHARS ->
    exists b st', st_complete scope kh fp body now st = (Ok b, st')
      /\ st_view st' = complete (scope, kh) fp body (epoch_ms now) (st_view st) /\ st_wf st'
      /\ (b = false -> st_view st' = st_view st);
  st_complete_oversized scope kh fp body now st :
    valid_parts scope kh fp -> op_time now -> st_wf st -> MAX_RESPONSE_CHARS < len body ->
    exists st', st_complete scope kh fp body now st = (Ok false, st')
      /\ st_view st' = fail_closed (scope, kh) (epoch_ms now) (st_view st) /\ st_wf st';
  st_fail_closed_spec scope kh now st :
    valid_key scope kh -> op_time now -> st_wf st ->
    exists st', st_fail_closed scope kh now st = (Ok tt, st')
      /\ st_view st' = fail_closed (scope, kh) (epoch_ms now) (st_view st) /\ st_wf st';
  st_release_spec scope kh st :
    valid_key scope kh -> st_wf st ->
    exists st', st_release_unentered scope kh st = (Ok (release (scope, kh) (st_view st)).1, st')
      /\ st_view st' = (release (scope, kh) (st_view st)).2 /\ st_wf st';
  st_cleanup_spec now st :
    op_time now -> st_wf st ->
    exists n st', st_cleanup now st = (Ok n, st')
      /\ st_view st' = purge (epoch_ms now) (st_view st) /\ st_wf st';
  st_seal_spec now st :
    op_time now -> st_wf st ->
    exists n st', st_seal_stale_processing now st = (Ok n, st')
      /\ st_view st' = seal (epoch_ms now) (st_view st) /\ st_wf st'
}.

End StoreInterface.
Import StoreInterface.

(** ** The in-memory ledger *)
Module MemoryLedger.

Abbreviation rows := (gmap (string * string) SubmissionRecord).

Definition expired (now : datetime) (row : SubmissionRecord) : bool :=
  epoch_ms (expires_at row) <=? epoch_ms now.

Definition processing_record (scope key_hash fp : string) (now : datetime) : SubmissionRecord :=
  Record_ scope key_hash fp processing None None now now
    (dt_add now (seconds PROCESSING_HORIZON_SECONDS)).

Definition sealed_record (row : SubmissionRecord) (now : datetime) : SubmissionRecord :=
  Record_ (rec_scope row) (rec_key_hash row) (fingerprint row) indeterminate None None
    (created_at row) now (dt_add now (seconds SUBMISSION_RETENTION_SECONDS)).

(** Both helpers return the number of rows they changed. *)
Definition purge_unlocked (now : datetime) (m : rows) : Z * rows :=
  let dead (row : SubmissionRecord) : bool :=
    negb (bool_decide (state row = processing)) && expired now row in
  (Z.of_nat (size (filter (fun kv => dead kv.2 = true) m)),
   filter (fun kv => dead kv.2 = false) m).

Definition seal_unlocked (now : datetime) (m : rows) : Z * rows :=
  let stale (row : SubmissionRecord) : bool :=
    bool_decide (state row = processing) && expired now row in
  (Z.of_nat (size (filter (fun kv => stale kv.2 = true) m)),
   (fun row => if stale row then sealed_record row now else row) <$> m).

Definition claim (scope key_hash fp : string) (now : datetime) (m : rows)
    : result sub_exn SubmissionClaim * rows :=
  match require_opaque_parts scope key_hash fp with
  | Err e => (Err e, m)
  | Ok _ =>
      let current := aware_utc now in
      let m1 := (seal_unlocked current m).2 in
      let m2 := (purge_unlocked current m1).2 in
      match m2 !! (scope, key_hash) with
      | None =>
          (Ok Execute, <[(scope, key_hash) := processing_record scope key_hash fp current]> m2)
      | Some existing =>
          if negb (bool_decide (state existing = processing)) && expired current existing
          then (Ok Execute,
                <[(scope, key_hash) := processing_record scope key_hash fp current]>
                  (delete (scope, key_hash) m2))
          else (Ok (interpret existing fp current), m2)
      end
  end.

Definition fail_closed (scope key_hash : string) (now : datetime) (m : rows)
    : result sub_exn unit * rows :=
  match require_opaque_parts scope key_hash zero_fingerprint with
  | Err e => (Err e, m)
  | Ok _ =>
      let current := aware_utc now in
      match m !! (scope, key_hash) with
      | None => (Ok tt, m)
      | Some existing =>
          if negb (bool_decide (state existing = processing)) then (Ok tt, m)
          else (Ok tt, <[(scope, key_hash) :=
                  Record_ scope key_hash (fingerprint existing) indeterminate None None
                    (created_at existing) current
                    (dt_add current (seconds SUBMISSION_RETENTION_SECONDS))]> m)
      end
  end.

Definition complete (scope key_hash fp response_json : string) (now : datetime) (m : rows)
    : result sub_exn bool * rows :=
  match require_opaque_parts scope key_hash fp with
  | Err e => (Err e, m)
  | Ok _ =>
      if MAX_RESPONSE_CHARS <? len response_json then
        match fail_closed scope key_hash now m with
        | (Ok _, m1) => (Ok false, m1)
        | (Err e, m1) => (Err e, m1)
        end
      else
        let current := aware_utc now in
        match m !! (scope, key_hash) with
        | None => (Ok false, m)
        | Some existing =>
            if negb (bool_decide (state existing = processing))
               || negb (String.eqb (fingerprint existing) fp)
            then (Ok false, m)
            else (Ok true, <[(scope, key_hash) :=
                    Record_ scope key_hash fp completed (Some response_json) (Some 200)
                      (created_at existing) current
                      (dt_add current (seconds SUBMISSION_RETENTION_SECONDS))]> m)
        end
  end.

Definition release_unentered (scope key_hash : string) (m : rows)
    : result sub_exn bool * rows :=
  match require_opaque_parts scope key_hash zero_fingerprint with
  | Err e => (Err e, m)
  | Ok _ =>
      match m !! (scope, key_hash) with
      | None => (Ok false, m)
      | Some existing =>
          if negb (bool_decide (state existing = processing)) then (Ok false, m)
          else (Ok true, delete (scope, key_hash) m)
      end
  end.

Definition cleanup (now : datetime) (m : rows) : result sub_exn Z * rows :=
  let '(n, m1) := purge_unlocked (aware_utc now) m in (Ok n, m1).

Definition seal_stale_processing (now : datetime) (m : rows) : result sub_exn Z * rows :=
  let '(n, m1) := seal_unlocked (aware_utc now) m in (Ok n, m1).

Definition read (scope key_hash : string) (m : rows)
    : result sub_exn (option SubmissionRecord) :=
  let! _ := require_opaque_parts scope key_hash zero_fingerprint in
  Ok (m !! (scope, key_hash)).

#[global] Instance memory_ledger : ShoppingSubmissionStore rows := {
  st_claim := claim;
  st_complete := complete;
  st_fail_closed := fail_closed;
  st_release_unentered := release_unentered;
  st_cleanup := cleanup;
  st_seal_stale_processing := seal_stale_processing
}.

(** *** The in-memory ledger refines [Spec] *)

Definition row_of (r : SubmissionRecord) : sub_row :=
  SubRow (fingerprint r) (state r) (response_body r) (http_status r)
    (epoch_ms (created_at r)) (epoch_ms (updated_at r)) (epoch_ms (expires_at r)).

Definition view (m : rows) : ledger := row_of <$> m.

(** A shorter duration than the retention also stays in the window. *)
Lemma op_time_horizon now s :
  op_time now -> 0 <= s <= SUBMISSION_RETENTION_SECONDS ->
  epoch_ms (dt_add (aware_utc now) (seconds s)) = epoch_ms now + s * 1000.
Proof.
  intros [Hn Hd] Hs. change (epoch_ms now) with (epoch_ms (aware_utc now)).
  rewrite epoch_ms_add_seconds; [lia | exact Hn |].
  unfold in_window, dt_add, seconds in *. simpl in *. lia.
Qed.

Lemma row_of_sealed r now :
  op_time now -> row_of (sealed_record r (aware_utc now)) = Spec.sealed_row (row_of r) (epoch_ms now).
Proof.
  intros Hop. unfold row_of, sealed_record, Spec.sealed_row, retention_ms. simpl.
  rewrite op_time_horizon by (done || unfold SUBMISSION_RETENTION_SECONDS; lia). done.
Qed.

Lemma row_of_processing scope kh fp now :
  op_time now ->
  row_of (processing_record scope kh fp (aware_utc now)) = processing_row fp (epoch_ms now).
Proof.
  intros Hop. unfold row_of, processing_record, processing_row, horizon_ms. simpl.
  rewrite op_time_horizon by
    (done || unfold SUBMISSION_RETENTION_SECONDS, PROCESSING_HORIZON_SECONDS; lia). done.
Qed.

Lemma view_seal now m :
  op_time now -> view (seal_unlocked (aware_utc now) m).2 = Spec.seal (epoch_ms now) (view m).
Proof.
  intros Hop. unfold view, Spec.seal, seal_unlocked. simpl. rewrite <- !map_fmap_compose.
  apply map_fmap_ext. intros k r _. simpl. unfold seal_row, is_processing, expired. simpl.
  rewrite epoch_ms_aware. destruct (_ && _); [by apply row_of_sealed | done].
Qed.

Lemma view_purge now m :
  view (purge_unlocked (aware_utc now) m).2 = Spec.purge (epoch_ms now) (view m).
Proof.
  apply map_eq. intros k. unfold view, Spec.purge, purge_unlocked. simpl.
  rewrite map_lookup_filter, !lookup_fmap, map_lookup_filter.
  destruct (m !! k) as [r|]; simpl; [| done].
  unfold stale_row, is_processing, expired. simpl. rewrite epoch_ms_aware.
  destruct (_ && _); done.
Qed.

Lemma interpret_row_of r fp now :
  interpret r fp (aware_utc now) = interpret_row (row_of r) fp (epoch_ms now).
Proof.
  unfold interpret, interpret_row. simpl. rewrite epoch_ms_aware.
  destruct (negb _); [done |]. by destruct (state r).
Qed.

Lemma view_lookup m k : view m !! k = row_of <$> m !! k.
Proof. unfold view. apply lookup_fmap. Qed.

Lemma claim_refines scope kh fp now m :
  valid_parts scope kh fp -> op_time now ->
  exists m', claim scope kh fp now m
             = (Ok (Spec.claim (scope, kh) fp (epoch_ms now) (view m)).1, m')
    /\ view m' = (Spec.claim (scope, kh) fp (epoch_ms now) (view m)).2.
Proof.
  intros Hv Hop. unfold claim. rewrite Hv. unfold Spec.claim.
  set (m2 := (purge_unlocked _ _).2).
  assert (Hm2 : view m2 = purge (epoch_ms now) (seal (epoch_ms now) (view m)))
    by (unfold m2; by rewrite view_purge, view_seal).
  pose proof (lookup_purge_seal (epoch_ms now) (view m) (scope, kh)) as Hl.
  rewrite <- Hm2, view_lookup in Hl. rewrite <- Hl, <- Hm2.
  destruct (m2 !! (scope, kh)) as [r|] eqn:Er; simpl.
  - assert (Hns : negb (bool_decide (state r = processing)) && expired (aware_utc now) r = false).
    { assert (Hs : view m2 !! (scope, kh) = Some (row_of r)) by (by rewrite view_lookup, Er).
      rewrite Hm2 in Hs. apply map_lookup_filter_Some in Hs as [_ Hs]. exact Hs. }
    rewrite Hns, interpret_row_of. eauto.
  - eexists. split; [done |]. unfold view at 1. rewrite fmap_insert, row_of_processing by done. done.
Qed.

Lemma fail_closed_refines scope kh now m :
  valid_key scope kh -> op_time now ->
  exists m', fail_closed scope kh now m = (Ok tt, m')
    /\ view m' = Spec.fail_closed (scope, kh) (epoch_ms now) (view m).
Proof.
  intros Hv Hop. unfold fail_closed, Spec.fail_closed. rewrite Hv, view_lookup.
  destruct (m !! (scope, kh)) as [r|] eqn:Er; simpl; [| eauto].
  unfold is_processing. simpl. destruct (bool_decide _); simpl; [| eauto].
  eexists. split; [done |]. unfold view at 1. rewrite fmap_insert. f_equal.
  rewrite <- row_of_sealed by done. done.
Qed.

Lemma valid_parts_key scope kh fp : valid_parts scope kh fp -> valid_key scope kh.
Proof.
  unfold valid_parts, valid_key, require_opaque_parts. rewrite !guard_raise_ok, !orb_false_iff.
  intros (H & _). split; [done | reflexivity].
Qed.

Lemma complete_refines scope kh fp body now m :
  valid_parts scope kh fp -> op_time now -> len body <= MAX_RESPONSE_CHARS ->
  exists b m', complete scope kh fp body now m = (Ok b, m')
    /\ view m' = Spec.complete (scope, kh) fp body (epoch_ms now) (view m)
    /\ (b = false -> view m' = view m).
Proof.
  intros Hv Hop Hlen. unfold complete, Spec.complete. rewrite Hv, view_lookup.
  rewrite (proj2 (Z.ltb_ge _ _)) by done.
  destruct (m !! (scope, kh)) as [r|] eqn:Er; simpl; [| eauto 6].
  unfold is_processing. simpl. destruct (bool_decide _); simpl; [| eauto 6].
  destruct (String.eqb_spec (fingerprint r) fp) as [<- | Hne]; simpl; [| eauto 6].
  eexists _, _. split; [done |]. split; [| done].
  unfold view at 1. rewrite fmap_insert. f_equal. unfold row_of, completed_row, retention_ms. simpl.
  rewrite op_time_horizon by (done || unfold SUBMISSION_RETENTION_SECONDS; lia). done.
Qed.

#[global] Program Instance memory_ledger_laws : StoreLaws rows := {
  st_wf := fun _ => True;
  st_view := view
}.
Next Obligation.
  intros scope kh fp now m Hv Hop _. simpl.
  destruct (claim_refines scope kh fp now m Hv Hop) as (m' & -> & Hview). eauto.
Qed.
Next Obligation.
  intros scope kh fp body now m Hv Hop _ Hlen. simpl.
  destruct (complete_refines scope kh fp body now m Hv Hop Hlen) as (b & m' & -> & H1 & H2). eauto 6.
Qed.
Next Obligation.
  intros scope kh fp body now m Hv Hop _ Hlen. simpl. unfold complete. rewrite Hv.
  rewrite (proj2 (Z.ltb_lt _ _)) by done.
  destruct (fail_closed_refines scope kh now m (valid_parts_key _ _ _ Hv) Hop) as (m' & -> & Hf).
  eauto.
Qed.
Next Obligation.
  intros scope kh now m Hv Hop _. simpl.
  destruct (fail_closed_refines scope kh now m Hv Hop) as (m' & -> & Hf). eauto.
Qed.
Next Obligation.
  intros scope kh m Hv _. simpl. unfold release_unentered, release. rewrite Hv, view_lookup.
  destruct (m !! (scope, kh)) as [r|]; simpl; [| eauto].
  unfold is_processing. simpl. destruct (bool_decide _); simpl; [| eauto].
  eexists. split; [done |]. split; [| done]. unfold view. by rewrite fmap_delete.
Qed.
Next Obligation.
  intros now m Hop _. simpl. unfold cleanup. eexists _, _. split; [done |].
  split; [exact (view_purge now m) | done].
Qed.
Next Obligation.
  intros now m Hop _. simpl. unfold seal_stale_processing. eexists _, _. split; [done |].
  split; [exact (view_seal now m Hop) | done].
Qed.

End MemoryLedger.

(** ** Every operation other sessions can perform, on the specification *)
Module Protocol.

Inductive op :=
| OpClaim (k : string * string) (fp : string)
| OpComplete (k : string * string) (fp body : string)
| OpFailClosed (k : string * string)
| OpRelease (k : string * string)
| OpCleanup
| OpSeal.

Definition step (now_ms : Z) (o : op) (m : ledger) : ledger :=
  match o with
  | OpClaim k fp => (claim k fp now_ms m).2
  | OpComplete k fp body => complete k fp body now_ms m
  | OpFailClosed k => fail_closed k now_ms m
  | OpRelease k => (release k m).2
  | OpCleanup => purge now_ms m
  | OpSeal => seal now_ms m
  end.

Definition run (ops : list (Z * op)) (m : ledger) : ledger :=
  foldl (fun m '(t, o) => step t o m) m ops.

(** The row of [k] blocks a second execution until [until]. *)
Definition holds_claim (k : string * string) (until : Z) (m : ledger) : Prop :=
  exists r, m !! k = Some r /\ (r_state r = processing \/ until <= r_expires r).

Lemma surviving_holds now_ms until r :
  now_ms < until -> until <= now_ms + retention_ms ->
  r_state r = processing \/ until <= r_expires r ->
  exists r', surviving now_ms (Some r) = Some r'
    /\ (r_state r' = processing \/ until <= r_expires r').
Proof.
  intros Hn Hu Hr. simpl. unfold stale_row, seal_row, is_processing.
  destruct (bool_decide (r_state r = processing)) eqn:Ep; bool_simpl; simpl.
  - destruct (r_expires r <=? now_ms) eqn:Ee; simpl.
    + rewrite (proj2 (Z.leb_gt _ _)) by lia. simpl. eexists. split; [done |]. simpl. lia.
    + rewrite bool_decide_true by done. simpl. eauto.
  - rewrite bool_decide_false by done. simpl. destruct Hr as [|Hr]; [done |].
    rewrite (proj2 (Z.leb_gt _ _)) by lia. eauto.
Qed.

Lemma step_holds k now_ms until o m :
  now_ms < until -> until <= now_ms + retention_ms -> o <> OpRelease k ->
  holds_claim k until m -> holds_claim k until (step now_ms o m).
Proof.
  intros Hn Hu Ho (r & Hr & Hst).
  assert (Hps : holds_claim k until (purge now_ms (seal now_ms m))).
  { destruct (surviving_holds now_ms until r Hn Hu Hst) as (r' & Hs & Hst').
    exists r'. by rewrite lookup_purge_seal, Hr. }
  destruct o as [k' fp | k' fp body | k' | k' | |]; simpl.
  - unfold claim. destruct (surviving now_ms (m !! k')) as [r'|] eqn:Es; simpl; [done |].
    destruct Hps as (r' & Hr' & Hst'). exists r'. split; [| done].
    rewrite lookup_insert_ne; [done |]. intros ->. rewrite lookup_purge_seal in Hr'. congruence.
  - unfold complete. destruct (m !! k') as [r'|] eqn:E'; [| by exists r].
    destruct (_ && _); [| by exists r].
    destruct (decide (k = k')) as [<- | Hne].
    + eexists. rewrite lookup_insert_eq. split; [done |]. right. simpl. lia.
    + exists r. by rewrite lookup_insert_ne.
  - unfold fail_closed. destruct (m !! k') as [r'|] eqn:E'; [| by exists r].
    destruct (is_processing r'); [| by exists r].
    destruct (decide (k = k')) as [<- | Hne].
    + eexists. rewrite lookup_insert_eq. split; [done |]. right. simpl. lia.
    + exists r. by rewrite lookup_insert_ne.
  - unfold release. destruct (m !! k') as [r'|] eqn:E'; [| by exists r].
    destruct (is_processing r'); [| by exists r]. simpl.
    exists r. rewrite lookup_delete_ne; [done |]. congruence.
  - exists r. split; [| done]. unfold purge. apply map_lookup_filter_Some. split; [done |].
    simpl. unfold stale_row, is_processing. destruct Hst as [-> | Hst]; [done |].
    rewrite (proj2 (Z.leb_gt _ _)) by lia. by rewrite andb_false_r.
  - eexists (seal_row now_ms r). unfold seal. rewrite lookup_fmap, Hr. split; [done |].
    unfold seal_row. destruct (is_processing r && _) eqn:E; [right; simpl; lia | done].
Qed.

Lemma claim_execute_holds k fp now_ms m :
  (claim k fp now_ms m).1 = Execute ->
  holds_claim k (now_ms + retention_ms) (claim k fp now_ms m).2.
Proof.
  intros Hc. exists (processing_row fp now_ms). split; [| by left]. revert Hc. unfold claim.
  destruct (surviving now_ms (m !! k)) as [r|]; simpl; [| by rewrite lookup_insert_eq].
  unfold interpret_row. repeat case_match; discriminate.
Qed.

Lemma held_claim_loses k fp later until m :
  later < until -> until <= later + retention_ms -> holds_claim k until m ->
  (claim k fp later m).1 <> Execute.
Proof.
  intros Hl Hu (r & Hr & Hst) Hex.
  destruct (surviving_holds later until r Hl Hu Hst) as (r' & Hs & _).
  revert Hex. unfold claim. rewrite Hr, Hs. simpl.
  unfold interpret_row. repeat case_match; discriminate.
Qed.

(** A completed row of [k] is stable until it expires. *)
Lemma step_completed k now_ms o m r :
  m !! k = Some r -> r_state r = completed -> now_ms < r_expires r ->
  step now_ms o m !! k = Some r.
Proof.
  intros Hr Hc Hn.
  assert (Hnp : is_processing r = false) by (unfold is_processing; by rewrite Hc).
  assert (Hse : seal_row now_ms r = r) by (unfold seal_row; by rewrite Hnp).
  assert (Hst : stale_row now_ms r = false)
    by (unfold stale_row; rewrite (proj2 (Z.leb_gt _ _)) by lia; apply andb_false_r).
  assert (Hsu : surviving now_ms (Some r) = Some r) by (simpl; by rewrite Hse, Hst).
  destruct o as [k' fp | k' fp body | k' | k' | |]; simpl.
  - unfold claim. destruct (decide (k = k')) as [<- | Hne].
    + rewrite Hr, Hsu. simpl. by rewrite lookup_purge_seal, Hr.
    + destruct (surviving _ (m !! k')); simpl; rewrite ?lookup_insert_ne by done;
        by rewrite lookup_purge_seal, Hr.
  - unfold complete. destruct (decide (k = k')) as [<- | Hne]; [by rewrite Hr, Hnp |].
    destruct (m !! k') as [r'|]; [| done]. destruct (_ && _); [by rewrite lookup_insert_ne | done].
  - unfold fail_closed. destruct (decide (k = k')) as [<- | Hne]; [by rewrite Hr, Hnp |].
    destruct (m !! k') as [r'|]; [| done].
    destruct (is_processing r'); [by rewrite lookup_insert_ne | done].
  - unfold release. destruct (decide (k = k')) as [<- | Hne]; [by rewrite Hr, Hnp |].
    destruct (m !! k') as [r'|]; [| done].
    destruct (is_processing r'); simpl; [by rewrite lookup_delete_ne | done].
  - unfold purge. apply map_lookup_filter_Some. by split.
  - unfold seal. rewrite lookup_fmap, Hr. simpl. by rewrite Hse.
Qed.

Lemma run_completed k until ops m r :
  m !! k = Some r -> r_state r = completed -> until <= r_expires r ->
  Forall (fun '(t, _) => t < until) ops -> run ops m !! k = Some r.
Proof.
  intros Hr Hc Hu Hops. revert m Hr. induction Hops as [|[t o] ops Ht _ IH]; intros m Hr; [done |].
  simpl. apply IH. apply step_completed; try done; lia.
Qed.

Lemma completed_held k fp body now_ms ops later m r :
  m !! k = Some r -> is_processing r = true -> r_fp r = fp -> body <> ""%string ->
  Forall (fun '(t, _) => t < now_ms + retention_ms) ops -> later < now_ms + retention_ms ->
  let m' := run ops (complete k fp body now_ms m) in
  (claim k fp later m').1 = Replay body
  /\ forall fp', fp' <> fp -> (claim k fp' later m').1 = Conflict.
Proof.
  intros Hr Hp Hfp Hb Hops Hl m'.
  assert (Hc : complete k fp body now_ms m !! k = Some (completed_row r body now_ms)).
  { unfold complete. rewrite Hr, Hp, Hfp, String.eqb_refl. simpl. by rewrite lookup_insert_eq. }
  assert (Hm : m' !! k = Some (completed_row r body now_ms))
    by (by apply (run_completed k (now_ms + retention_ms))).
  assert (Hs : surviving later (m' !! k) = Some (completed_row r body now_ms)).
  { rewrite Hm. simpl. unfold seal_row, stale_row. simpl.
    by rewrite (proj2 (Z.leb_gt _ _)) by lia. }
  unfold claim. rewrite Hs. simpl. unfold interpret_row. simpl. rewrite Hfp.
  split; [| intros fp' Hne].
  - rewrite String.eqb_refl, (proj2 (Z.ltb_lt _ _)) by lia. simpl.
    by rewrite (proj2 (nonempty_true body)).
  - by rewrite (proj2 (String.eqb_neq fp fp')) by congruence.
Qed.

(** ** The calls of a store *)

Inductive call :=
| CallClaim (scope kh fp : string) (now : datetime)
| CallComplete (scope kh fp body : string) (now : datetime)
| CallFailClosed (scope kh : string) (now : datetime)
| CallRelease (scope kh : string)
| CallCleanup (now : datetime)
| CallSeal (now : datetime).

Definition call_ok (c : call) : Prop :=
  match c with
  | CallClaim scope kh fp now => valid_parts scope kh fp /\ op_time now
  | CallComplete scope kh fp _ now => valid_parts scope kh fp /\ op_time now
  | CallFailClosed scope kh now => valid_key scope kh /\ op_time now
  | CallRelease scope kh => valid_key scope kh
  | CallCleanup now | CallSeal now => op_time now
  end.

(** One call, and the claim outcome it returned, if it was a claim. *)
Definition perform {St} `{ShoppingSubmissionStore St} (c : call) (st : St)
    : option (result sub_exn SubmissionClaim) * St :=
  match c with
  | CallClaim scope kh fp now =>
      let '(r, st1) := st_claim scope kh fp now st in (Some r, st1)
  | CallComplete scope kh fp body now => (None, (st_complete scope kh fp body now st).2)
  | CallFailClosed scope kh now => (None, (st_fail_closed scope kh now st).2)
  | CallRelease scope kh => (None, (st_release_unentered scope kh st).2)
  | CallCleanup now => (None, (st_cleanup now st).2)
  | CallSeal now => (None, (st_seal_stale_processing now st).2)
  end.

Fixpoint perform_all {St} `{ShoppingSubmissionStore St} (cs : list call) (st : St)
    : list (option (result sub_exn SubmissionClaim)) * St :=
  match cs with
  | [] => ([], st)
  | c :: rest =>
      let '(r, st1) := perform c st in
      let '(rs, st2) := perform_all rest st1 in (r :: rs, st2)
  end.

(** What a call does to the specification. *)
Definition spec_call (c : call) (m : ledger) : option (result sub_exn SubmissionClaim) * ledger :=
  match c with
  | CallClaim scope kh fp now =>
      (Some (Ok (Spec.claim (scope, kh) fp (epoch_ms now) m).1),
       (Spec.claim (scope, kh) fp (epoch_ms now) m).2)
  | CallComplete scope kh fp body now =>
      (None, if MAX_RESPONSE_CHARS <? len body
             then Spec.fail_closed (scope, kh) (epoch_ms now) m
             else Spec.complete (scope, kh) fp body (epoch_ms now) m)
  | CallFailClosed scope kh now => (None, Spec.fail_closed (scope, kh) (epoch_ms now) m)
  | CallRelease scope kh => (None, (Spec.release (scope, kh) m).2)
  | CallCleanup now => (None, Spec.purge (epoch_ms now) m)
  | CallSeal now => (None, Spec.seal (epoch_ms now) m)
  end.

Lemma perform_spec {St} `{StoreLaws St} c (st : St) :
  call_ok c -> st_wf st ->
  exists st', perform c st = ((spec_call c (st_view st)).1, st')
    /\ st_view st' = (spec_call c (st_view st)).2 /\ st_wf st'.
Proof.
  destruct c as [s k f n | s k f b n | s k n | s k | n | n]; simpl; intros Hok Hwf.
  - destruct Hok as [Hv Hop]. destruct (st_claim_spec s k f n st Hv Hop Hwf) as (st' & -> & ?). eauto.
  - destruct Hok as [Hv Hop]. destruct (MAX_RESPONSE_CHARS <? len b) eqn:E; bool_simpl.
    + destruct (st_complete_oversized s k f b n st Hv Hop Hwf E) as (st' & -> & ?). eauto.
    + destruct (st_complete_spec s k f b n st Hv Hop Hwf E) as (? & st' & -> & ? & ? & _). eauto.
  - destruct Hok as [Hv Hop]. destruct (st_fail_closed_spec s k n st Hv Hop Hwf) as (st' & -> & ?). eauto.
  - destruct (st_release_spec s k st Hok Hwf) as (st' & -> & ?). eauto.
  - destruct (st_cleanup_spec n st Hok Hwf) as (? & st' & -> & ?). eauto.
  - destruct (st_seal_spec n st Hok Hwf) as (? & st' & -> & ?). eauto.
Qed.

(** The same call as an operation of [run]. *)
Definition op_of (c : call) : Z * op :=
  match c with
  | CallClaim scope kh fp now => (epoch_ms now, OpClaim (scope, kh) fp)
  | CallComplete scope kh fp body now =>
      (epoch_ms now, if MAX_RESPONSE_CHARS <? len body then OpFailClosed (scope, kh)
                     else OpComplete (scope, kh) fp body)
  | CallFailClosed scope kh now => (epoch_ms now, OpFailClosed (scope, kh))
  | CallRelease scope kh => (0, OpRelease (scope, kh))
  | CallCleanup now => (epoch_ms now, OpCleanup)
  | CallSeal now => (epoch_ms now, OpSeal)
  end.

Definition call_time (c : call) : option datetime :=
  match c with
  | CallClaim _ _ _ now | CallComplete _ _ _ _ now | CallFailClosed _ _ now
  | CallCleanup now | CallSeal now => Some now
  | CallRelease _ _ => None
  end.

(** The call happens in the interval; a release carries no time. *)
Definition call_within (from until : Z) (c : call) : Prop :=
  call_ok c /\ forall now, call_time c = Some now -> from <= epoch_ms now < until.

(** The call gives up a claim of [k] before it entered the mutation. *)
Definition gives_up {St} `{ShoppingSubmissionStore St} (k : string * string) (c : call) (st : St)
    : bool :=
  match c with
  | CallRelease scope kh =>
      bool_decide ((scope, kh) = k)
      && match (st_release_unentered scope kh st).1 with Ok b => b | Err _ => false end
  | _ => false
  end.

Fixpoint given_up {St} `{ShoppingSubmissionStore St} (k : string * string) (cs : list call)
    (st : St) : bool :=
  match cs with
  | [] => false
  | c :: rest => gives_up k c st || given_up k rest (perform c st).2
  end.

Lemma spec_call_step c m : (spec_call c m).2 = step (op_of c).1 (op_of c).2 m.
Proof. destruct c; simpl; try done. by destruct (_ <? _). Qed.

Section Stores.
Context {St : Type} `{Hlaws : StoreLaws St}.

Lemma perform_all_run cs (st : St) :
  Forall call_ok cs -> st_wf st ->
  st_view (perform_all cs st).2 = run (map op_of cs) (st_view st) /\ st_wf (perform_all cs st).2.
Proof.
  intros Hcs. revert st. induction Hcs as [|c cs Hc _ IH]; intros st Hwf; [done |]. simpl.
  destruct (perform_spec c st Hc Hwf) as (st' & -> & Hv & Hwf').
  destruct (IH st' Hwf') as [IH1 IH2].
  destruct (perform_all cs st') as [rs st2]. simpl in *. split; [| done].
  rewrite IH1, Hv, spec_call_step. by destruct (op_of c).
Qed.

(** No call but a release that finds the row running takes the claim away. *)
Lemma perform_holds k from until c (st : St) :
  from < until -> until <= from + retention_ms -> call_within from until c -> st_wf st ->
  gives_up k c st = false -> holds_claim k until (st_view st) ->
  holds_claim k until (st_view (perform c st).2).
Proof.
  intros Hlt Hu [Hok Ht] Hwf Hg Hh.
  destruct (perform_spec c st Hok Hwf) as (st' & -> & Hv & _). cbn [snd]. rewrite Hv.
  assert (Hstep : is_Some (call_time c) -> (op_of c).2 <> OpRelease k ->
            holds_claim k until (spec_call c (st_view st)).2).
  { intros [now Hnow] Hne. rewrite spec_call_step. specialize (Ht now Hnow).
    apply step_holds; [| | done | done]; destruct c; simplify_eq/=; lia. }
  destruct c as [s kh f n | s kh f b n | s kh n | s kh | n | n];
    try (apply Hstep; [by eexists | done]).
  - apply Hstep; [by eexists |]. simpl. by destruct (_ <? _).
  - cbn [spec_call snd]. cbn [call_ok] in Hok. destruct (decide ((s, kh) = k)) as [<- | Hne].
    + destruct (st_release_spec s kh st Hok Hwf) as (st2 & Hr & _ & _).
      unfold gives_up in Hg. rewrite bool_decide_true, Hr in Hg by done. cbn in Hg.
      revert Hg. unfold release. destruct (st_view st !! (s, kh)) as [r|]; [| done].
      by destruct (is_processing r).
    + apply (step_holds k from until (OpRelease (s, kh))); [lia | lia | congruence | done].
Qed.

Lemma perform_all_holds k from until cs (st : St) :
  from < until -> until <= from + retention_ms -> Forall (call_within from until) cs ->
  st_wf st -> given_up k cs st = false -> holds_claim k until (st_view st) ->
  holds_claim k until (st_view (perform_all cs st).2).
Proof.
  intros Hlt Hu Hcs. revert st. induction Hcs as [|c cs Hc _ IH]; intros st Hwf Hg Hh; [done |].
  cbn [given_up] in Hg. apply orb_false_elim in Hg as [Hg1 Hg2].
  pose proof (perform_holds k from until c st Hlt Hu Hc Hwf Hg1 Hh) as Hh'.
  destruct (perform_spec c st (proj1 Hc) Hwf) as (st' & Hp & _ & Hwf'). cbn [perform_all].
  rewrite Hp in *. specialize (IH st' Hwf' Hg2 Hh'). by destruct (perform_all cs st').
Qed.

(** C2: at most one execution, on any store that keeps the protocol. Once a
    claim was told to execute, a claim of the same key in the next 24 hours,
    with any fingerprint, is not told to execute, whatever store calls on any
    keys ran in between - releases of this key included, unless one of them
    answered that it gave the claim up before it entered the mutation, which is
    what a release is for: after it the key may execute again. *)
Theorem at_most_once scope kh fp fp' now cs later (st st1 : St) :
  valid_parts scope kh fp -> valid_parts scope kh fp' -> op_time now -> op_time later ->
  st_wf st -> st_claim scope kh fp now st = (Ok Execute, st1) ->
  Forall (call_within (epoch_ms now) (epoch_ms now + retention_ms)) cs ->
  given_up (scope, kh) cs st1 = false ->
  epoch_ms now <= epoch_ms later < epoch_ms now + retention_ms ->
  exists c, (st_claim scope kh fp' later (perform_all cs st1).2).1 = Ok c /\ c <> Execute.
Proof.
  intros Hv Hv' Hn Hl Hwf Hc Hcs Hg Ht.
  destruct (st_claim_spec scope kh fp now st Hv Hn Hwf) as (st1' & Hc' & Hview & Hwf1).
  rewrite Hc in Hc'. injection Hc' as Hex ->. symmetry in Hex.
  assert (Hok : Forall call_ok cs) by (eapply Forall_impl; [exact Hcs | by intros c [? _]]).
  destruct (perform_all_run cs st1' Hok Hwf1) as [_ Hwf2].
  apply claim_execute_holds in Hex. rewrite <- Hview in Hex.
  pose proof (perform_all_holds (scope, kh) (epoch_ms now) (epoch_ms now + retention_ms) cs st1'
                ltac:(lia) ltac:(lia) Hcs Hwf1 Hg Hex) as Hh.
  destruct (st_claim_spec scope kh fp' later (perform_all cs st1').2 Hv' Hl Hwf2)
    as (st3 & -> & _ & _).
  eexists. split; [reflexivity |]. apply (held_claim_loses _ _ _ _ _ (proj2 Ht) ltac:(lia) Hh).
Qed.

(** A completed submission is replayed faithfully, on any store that keeps
    the protocol. After a response was stored for a running claim, and whatever
    calls run in the next 24 hours, releases included, a claim with the
    original fingerprint gets exactly the stored response and a claim with
    another fingerprint gets a conflict. *)
Theorem completed_is_replayed scope kh fp body now cs later (st : St) r :
  valid_parts scope kh fp -> op_time now -> op_time later -> st_wf st ->
  st_view st !! (scope, kh) = Some r -> is_processing r = true -> r_fp r = fp ->
  body <> ""%string -> len body <= MAX_RESPONSE_CHARS ->
  Forall call_ok cs ->
  Forall (fun c => forall t, call_time c = Some t -> epoch_ms t < epoch_ms now + retention_ms) cs ->
  0 <= epoch_ms now -> epoch_ms later < epoch_ms now + retention_ms ->
  let st1 := (st_complete scope kh fp body now st).2 in
  let st2 := (perform_all cs st1).2 in
  (st_claim scope kh fp later st2).1 = Ok (Replay body)
  /\ forall fp', valid_parts scope kh fp' -> fp' <> fp ->
       (st_claim scope kh fp' later st2).1 = Ok Conflict.
Proof.
  intros Hv Hn Hl Hwf Hr Hp Hfp Hb Hlen Hok Hcs H0 Ht. cbv zeta.
  destruct (st_complete_spec scope kh fp body now st Hv Hn Hwf Hlen)
    as (b & st1 & -> & Hview & Hwf1 & _). cbn [snd].
  destruct (perform_all_run cs st1 Hok Hwf1) as [Hv2 Hwf2].
  assert (Hops : Forall (fun '(t, _) => t < epoch_ms now + retention_ms) (map op_of cs)).
  { apply Forall_map. eapply Forall_impl; [exact Hcs |].
    unfold retention_ms, SUBMISSION_RETENTION_SECONDS in *.
    intros [s k f n | s k f x n | s k n | s k | n | n] Hc; simpl in *; try by apply Hc. lia. }
  destruct (completed_held (scope, kh) fp body (epoch_ms now) (map op_of cs) (epoch_ms later)
              (st_view st) r Hr Hp Hfp Hb Hops Ht) as [Hsame Hother].
  split; [| intros fp' Hv' Hne].
  - destruct (st_claim_spec scope kh fp later (perform_all cs st1).2 Hv Hl Hwf2)
      as (st3 & -> & _ & _). simpl. by rewrite Hv2, Hview, Hsame.
  - destruct (st_claim_spec scope kh fp' later (perform_all cs st1).2 Hv' Hl Hwf2)
      as (st3 & -> & _ & _). simpl. by rewrite Hv2, Hview, Hother.
Qed.
End Stores.

End Protocol.

(** ** [ShoppingSubmissionLedger] and [apply_shopping_submission] *)
Module Ledger.

Record SubmissionApplyResult := ApplyResult {
  outcome : string;
  response_json : option string;
  fresh : bool
}.

Section Ledger.
Variable sha256_hex : string -> string.
Context {St : Type} `{Hst : ShoppingSubmissionStore St}.

Definition submission_key_hash (key : string) : string := sha256_hex key.

Definition begin (scope key fp : string) (now : datetime) (st : St)
    : result sub_exn SubmissionClaim * St :=
  st_claim scope (submission_key_hash key) fp now st.
Definition complete (scope key fp body : string) (now : datetime) (st : St)
    : result sub_exn bool * St :=
  st_complete scope (submission_key_hash key) fp body now st.
Definition fail_closed (scope key : string) (now : datetime) (st : St)
    : result sub_exn unit * St :=
  st_fail_closed scope (submission_key_hash key) now st.
Definition release_unentered (scope key : string) (st : St) : result sub_exn bool * St :=
  st_release_unentered scope (submission_key_hash key) st.
Definition cleanup (now : datetime) (st : St) : result sub_exn Z * St := st_cleanup now st.

(** [W] is everything [service.query] can write to, [X] what it can raise. *)
Context {W X : Type}.
Variable execute : W -> result X string * W.

(** [with suppress(ShoppingSubmissionUnavailable): ledger.fail_closed(...)],
    then [k]. *)
Definition seal_then {A} (scope key : string) (now : datetime) (st : St)
    (k : result (sub_exn + X) A) : result (sub_exn + X) A * St :=
  match fail_closed scope key now st with
  | (Ok _, st1) | (Err ShoppingSubmissionUnavailable, st1) => (k, st1)
  | (Err e, st1) => (Err (inl e), st1)
  end.

Definition apply_shopping_submission (scope key fp : string) (now : datetime) (st : St) (w : W)
    : result (sub_exn + X) SubmissionApplyResult * St * W :=
  match begin scope key fp now st with
  | (Err e, st1) => (Err (inl e), st1, w)
  | (Ok (Replay body), st1) => (Ok (ApplyResult "replay" (Some body) false), st1, w)
  | (Ok InProgress, st1) => (Ok (ApplyResult "in_progress" None false), st1, w)
  | (Ok Conflict, st1) => (Ok (ApplyResult "conflict" None false), st1, w)
  | (Ok Indeterminate, st1) => (Ok (ApplyResult "indeterminate" None false), st1, w)
  | (Ok Execute, st1) =>
      match execute w with
      | (Err x, w1) => (seal_then scope key now st1 (Err (inr x)), w1)
      | (Ok response, w1) =>
          let done := Ok (ApplyResult "completed" (Some response) true) in
          match complete scope key fp response now st1 with
          | (Ok true, st2) => ((done, st2), w1)
          | (Ok false, st2) | (Err ShoppingSubmissionUnavailable, st2) =>
              (seal_then scope key now st2 done, w1)
          | (Err e, st2) => ((Err (inl e), st2), w1)
          end
      end
  end.
End Ledger.

Section Apply.
Variable sha256_hex : string -> string.
Context {St : Type} `{Hlaws : StoreLaws St}.
Context {W X : Type}.
Variable execute : W -> result X string * W.

(** What a claim that is not told to execute answers. *)
Definition loser_result (c : SubmissionClaim) : SubmissionApplyResult :=
  match c with
  | Replay body => ApplyResult "replay" (Some body) false
  | InProgress => ApplyResult "in_progress" None false
  | Conflict => ApplyResult "conflict" None false
  | _ => ApplyResult "indeterminate" None false
  end.

Lemma claim_execute_row k fp now_ms m :
  (Spec.claim k fp now_ms m).1 = Execute ->
  (Spec.claim k fp now_ms m).2 !! k = Some (processing_row fp now_ms).
Proof.
  unfold Spec.claim. destruct (surviving now_ms (m !! k)); simpl; [| by rewrite lookup_insert_eq].
  unfold interpret_row. repeat case_match; discriminate.
Qed.

(** The outcome of a submission, by the claim it gets. *)
Lemma apply_spec scope key fp now st w :
  let kh := submission_key_hash sha256_hex key in
  let k := (scope, kh) in
  let now_ms := epoch_ms now in
  valid_parts scope kh fp -> op_time now -> st_wf st ->
  exists st', st_wf st' /\
    let out := apply_shopping_submission sha256_hex execute scope key fp now st w in
    match (Spec.claim k fp now_ms (st_view st)).1 with
    | Execute =>
        let w1 := (execute w).2 in
        let row := processing_row fp now_ms in
        match (execute w).1 with
        | Ok body =>
            out = (Ok (ApplyResult "completed" (Some body) true), st', w1)
            /\ st_view st' !! k
               = Some (if MAX_RESPONSE_CHARS <? len body then sealed_row row now_ms
                       else completed_row row body now_ms)
        | Err x => out = (Err (inr x), st', w1)
                   /\ st_view st' !! k = Some (sealed_row row now_ms)
        end
    | c => out = (Ok (loser_result c), st', w)
           /\ st_view st' = (Spec.claim k fp now_ms (st_view st)).2
    end.
Proof.
  intros kh k now_ms Hv Hop Hwf.
  destruct (st_claim_spec scope kh fp now st Hv Hop Hwf) as (st1 & Hcl & Hv1 & Hwf1).
  assert (Hvk : valid_key scope kh) by (by eapply MemoryLedger.valid_parts_key).
  unfold apply_shopping_submission, begin. fold kh. rewrite Hcl. fold k now_ms.
  destruct (Spec.claim k fp now_ms (st_view st)).1 eqn:Ec; try (by exists st1; auto).
  assert (Hrow : st_view st1 !! k = Some (processing_row fp now_ms))
    by (rewrite Hv1; by apply claim_execute_row).
  assert (Hseal : forall A (res : result (sub_exn + X) A), exists st2, st_wf st2
    /\ seal_then sha256_hex scope key now st1 res = (res, st2)
    /\ st_view st2 !! k = Some (sealed_row (processing_row fp now_ms) now_ms)).
  { intros A res. destruct (st_fail_closed_spec scope kh now st1 Hvk Hop Hwf1)
      as (st2 & Hf & Hv2 & Hwf2).
    exists st2. split; [done |]. unfold seal_then, fail_closed. fold kh. rewrite Hf.
    split; [done |]. rewrite Hv2. fold k now_ms. unfold Spec.fail_closed. rewrite Hrow. simpl.
    by rewrite lookup_insert_eq. }
  destruct (execute w) as [[body|x] w1]; simpl.
  2: { destruct (Hseal SubmissionApplyResult (Err (inr x))) as (st2 & Hwf2 & -> & Hr). eauto. }
  unfold complete. fold kh. destruct (MAX_RESPONSE_CHARS <? len body) eqn:El; bool_simpl.
  - destruct (st_complete_oversized scope kh fp body now st1 Hv Hop Hwf1 El)
      as (st2 & -> & Hv2 & Hwf2).
    destruct (st_fail_closed_spec scope kh now st2 Hvk Hop Hwf2) as (st3 & Hf & Hv3 & Hwf3).
    exists st3. split; [done |]. unfold seal_then, fail_closed. fold kh. rewrite Hf.
    split; [done |]. rewrite Hv3, Hv2. fold k now_ms. unfold Spec.fail_closed at 2.
    rewrite Hrow. simpl. unfold Spec.fail_closed. rewrite lookup_insert_eq. simpl.
    by rewrite lookup_insert_eq.
  - destruct (st_complete_spec scope kh fp body now st1 Hv Hop Hwf1 El)
      as (b & st2 & Hb & Hv2 & Hwf2 & Hno). rewrite Hb.
    assert (Hr2 : st_view st2 !! k = Some (completed_row (processing_row fp now_ms) body now_ms)).
    { rewrite Hv2. fold k now_ms. unfold Spec.complete. rewrite Hrow. simpl.
      rewrite String.eqb_refl. by rewrite lookup_insert_eq. }
    destruct b; [by exists st2 |]. exfalso. rewrite (Hno eq_refl), Hrow in Hr2. discriminate.
Qed.

(** C1: the mutation runs only for the winner of the claim, exactly once, and
    its outcome decides the row: a stored response, or an indeterminate row
    (never a released one) when it raised or its response was too large. Every
    other claim leaves the world untouched. *)
Theorem apply_runs_winner_once scope key fp now st w :
  let kh := submission_key_hash sha256_hex key in
  let k := (scope, kh) in
  let now_ms := epoch_ms now in
  valid_parts scope kh fp -> op_time now -> st_wf st ->
  exists st', st_wf st' /\
    let out := apply_shopping_submission sha256_hex execute scope key fp now st w in
    match (Spec.claim k fp now_ms (st_view st)).1 with
    | Execute =>
        let w1 := (execute w).2 in
        let row := processing_row fp now_ms in
        match (execute w).1 with
        | Ok body =>
            out = (Ok (ApplyResult "completed" (Some body) true), st', w1)
            /\ st_view st' !! k
               = Some (if MAX_RESPONSE_CHARS <? len body then sealed_row row now_ms
                       else completed_row row body now_ms)
        | Err x => out = (Err (inr x), st', w1)
                   /\ st_view st' !! k = Some (sealed_row row now_ms)
        end
    | c => out = (Ok (loser_result c), st', w)
           /\ st_view st' = (Spec.claim k fp now_ms (st_view st)).2
    end.
Proof. exact (apply_spec scope key fp now st w). Qed.

(** A retried request is answered from the ledger. When a submission
    completed with a non-empty response that fits, the same submission at any
    time in the next 24 hours returns that response and does not run again. *)
Theorem retry_is_replayed scope key fp now later st st' w w' w'' body :
  let kh := submission_key_hash sha256_hex key in
  valid_parts scope kh fp -> op_time now -> op_time later -> st_wf st ->
  epoch_ms later < epoch_ms now + retention_ms ->
  body <> ""%string -> len body <= MAX_RESPONSE_CHARS ->
  apply_shopping_submission sha256_hex execute scope key fp now st w
    = (Ok (ApplyResult "completed" (Some body) true), st', w') ->
  exists st'', apply_shopping_submission sha256_hex execute scope key fp later st' w''
    = (Ok (ApplyResult "replay" (Some body) false), st'', w'').
Proof.
  intros kh Hv Hop Hop' Hwf Hlt Hb Hlen Happ.
  destruct (apply_spec scope key fp now st w Hv Hop Hwf) as (s & Hwfs & Hout).
  rewrite Happ in Hout. fold kh in Hout.
  assert (Hrow : st_wf st' /\ st_view st' !! (scope, kh)
            = Some (completed_row (processing_row fp (epoch_ms now)) body (epoch_ms now))).
  { destruct (Spec.claim _ _ _ _).1; try (destruct Hout as [Hout _]; discriminate).
    destruct (execute w) as [[body'|x] w1]; simpl in Hout; destruct Hout as [Hout Hr];
      [| discriminate].
    injection Hout as <- <- _. rewrite (proj2 (Z.ltb_ge _ _)) in Hr by done. done. }
  destruct Hrow as [Hwf' Hrow].
  destruct (apply_spec scope key fp later st' w'' Hv Hop' Hwf') as (s2 & _ & Hout2).
  fold kh in Hout2.
  assert (Hc : (Spec.claim (scope, kh) fp (epoch_ms later) (st_view st')).1 = Replay body).
  { unfold Spec.claim. rewrite Hrow. simpl. unfold seal_row, stale_row. simpl.
    rewrite (proj2 (Z.leb_gt _ _)) by lia. simpl. unfold interpret_row. simpl.
    rewrite String.eqb_refl, (proj2 (Z.ltb_lt _ _)) by lia. simpl.
    by rewrite (proj2 (nonempty_true body)). }
  rewrite Hc in Hout2. destruct Hout2 as [Hout2 _]. by exists s2.
Qed.
End Apply.

End Ledger.

(** ** The hypotheses of the theorems hold of concrete runs *)
Module Examples.
Import Protocol Ledger.

Definition hash (c : ascii) : string := of_chars (replicate 64 c).
Definition fp_a : string := hash "a"%char.
Definition fp_b : string := hash "b"%char.
Definition sub_key : string * string := ("ask-acct:1f"%string, hash "c"%char).
Definition sub_t0 : datetime := Datetime 1700000000000000 true.
Definition sub_t1 : datetime := Datetime 1700000600000000 true.
Definition sub_t2 : datetime := Datetime 1700001200000000 true.
Definition sub_scope : string := "ask-acct:1f".
Definition sub_hash : string := hash "c"%char.
Definition no_rows : MemoryLedger.rows := ∅.

(** Another worker's claim, its completion, a late release and the
    maintenance jobs. *)
Definition sub_calls : list call :=
  [CallClaim sub_scope sub_hash fp_a sub_t1; CallComplete sub_scope sub_hash fp_a "{}" sub_t1;
   CallRelease sub_scope sub_hash; CallCleanup sub_t1; CallSeal sub_t1].

Definition claimed : MemoryLedger.rows :=
  (MemoryLedger.claim sub_scope sub_hash fp_a sub_t0 no_rows).2.

Ltac concrete_times := vm_compute; repeat split; first [reflexivity | discriminate].

Example at_most_once_witness :
  exists c, (st_claim sub_scope sub_hash fp_b sub_t2 (perform_all sub_calls claimed).2).1 = Ok c
            /\ c <> Execute.
Proof.
  apply (at_most_once sub_scope sub_hash fp_a fp_b sub_t0 sub_calls sub_t2 no_rows claimed
           eq_refl eq_refl).
  - concrete_times.
  - concrete_times.
  - exact I.
  - reflexivity.
  - repeat apply Forall_cons_2; [.. | apply Forall_nil_2];
      (split; [concrete_times | intros t [= <-]; concrete_times]).
  - vm_compute. reflexivity.
  - concrete_times.
Defined.

(** After a release that gave the claim up the key executes again. *)
Example released_key_executes_again :
  given_up sub_key [CallRelease sub_scope sub_hash] claimed = true
  /\ (st_claim sub_scope sub_hash fp_b sub_t2
         (perform_all [CallRelease sub_scope sub_hash] claimed).2).1 = Ok Execute.
Proof. split; vm_compute; reflexivity. Qed.

Example completed_is_replayed_witness :
  let st1 := (st_complete sub_scope sub_hash fp_a "{}" sub_t0 claimed).2 in
  let st2 := (perform_all sub_calls st1).2 in
  (st_claim sub_scope sub_hash fp_a sub_t2 st2).1 = Ok (Replay "{}")
  /\ forall fp', valid_parts sub_scope sub_hash fp' -> fp' <> fp_a ->
       (st_claim sub_scope sub_hash fp' sub_t2 st2).1 = Ok Conflict.
Proof.
  apply (completed_is_replayed sub_scope sub_hash fp_a "{}" sub_t0 sub_calls sub_t2 claimed
           (processing_row fp_a 1700000000000) eq_refl).
  - concrete_times.
  - concrete_times.
  - exact I.
  - vm_compute. reflexivity.
  - reflexivity.
  - reflexivity.
  - discriminate.
  - vm_compute. discriminate.
  - repeat constructor; concrete_times.
  - repeat constructor; intros t [= <-]; vm_compute; reflexivity.
  - vm_compute. discriminate.
  - vm_compute. reflexivity.
Defined.

Definition const_hash (_ : string) : string := hash "c"%char.
Definition count_calls (w : Z) : result unit string * Z := (Ok "{}"%string, w + 1).
Example apply_runs_winner_once_witness :
  exists st', True /\
    let out := apply_shopping_submission const_hash count_calls "ask-acct:1f" "client-key" fp_a
                 sub_t0 no_rows 0 in
    out = (Ok (ApplyResult "completed" (Some "{}"%string) true), st', 1)
    /\ MemoryLedger.view st' !! sub_key
       = Some (completed_row (processing_row fp_a 1700000000000) "{}" 1700000000000).
Proof.
  refine (apply_runs_winner_once const_hash count_calls "ask-acct:1f" "client-key" fp_a
            sub_t0 no_rows 0 eq_refl _ I).
  vm_compute. repeat split; (reflexivity || discriminate).
Defined.

Definition after_first : MemoryLedger.rows :=
  (apply_shopping_submission const_hash count_calls "ask-acct:1f" "client-key" fp_a sub_t0
     no_rows 0).1.2.

Example retry_is_replayed_witness :
  exists st'', apply_shopping_submission const_hash count_calls "ask-acct:1f" "client-key" fp_a
                 sub_t1 after_first 1
    = (Ok (ApplyResult "replay" (Some "{}"%string) false), st'', 1).
Proof.
  apply (retry_is_replayed const_hash count_calls "ask-acct:1f" "client-key" fp_a sub_t0 sub_t1
           no_rows after_first 0 1 1 "{}"%string).
  - reflexivity.
  - vm_compute. repeat split; (reflexivity || discriminate).
  - vm_compute. repeat split; (reflexivity || discriminate).
  - exact I.
  - vm_compute. reflexivity.
  - discriminate.
  - vm_compute. discriminate.
  - vm_cast_no_check (@eq_refl (result (sub_exn + unit) SubmissionApplyResult
                                  * MemoryLedger.rows * Z)
      (Ok (ApplyResult "completed" (Some "{}"%string) true), after_first, 1)).
Defined.

Example parse_key_examples :
  parse_submission_key None = Err (SubmissionIdentityError DETAIL_REQUIRED)
  /\ parse_submission_key (Some " 0123456789abcdef ") = Ok "0123456789abcdef"%string
  /\ parse_submission_key (Some "short") = Err (SubmissionIdentityError DETAIL_INVALID).
Proof. repeat split; reflexivity. Qed.

End Examples.
