(* ===== verification/SubmissionSql.v ===== *)
(** The shared submission ledger:
    [app/infrastructure/database/shopping_submission_store.py].

    The table holds the rows of [Submission.Spec] (millisecond columns) under
    the primary key [(scope, key_hash)]. Module [Session] is a READ COMMITTED
    transaction: before each of its statements other sessions may commit
    anything on the rows this one has not written, and the statement may fail;
    a statement sees the committed rows under the session's own writes. The
    commit is one of the statements; a failed one has committed nothing. Module
    [SqlLedger] has the store's methods, statement by statement, and ends with
    what a claim does among other sessions. *)

From S2P Require Import Prelude PyStr PyState Clock SqlRetry Submission.
Import Spec StoreInterface.
#[local] Open Scope Z_scope.

Module Session.

Abbreviation table := (gmap (string * string) sub_row).

(** The committed rows and the uncommitted writes of this session ([None] is a
    delete). The written rows are locked until the transaction ends. *)
Abbreviation row_writes := (gmap (string * string) (option sub_row)).
Record session := Session { base : table; writes : row_writes }.

Definition overlay (w : row_writes) (t : table) : table :=
  merge (fun o r => match o with Some x => x | None => r end) w t.
Definition view (s : session) : table := overlay (writes s) (base s).

(** What is committed after [f], the commits of the other sessions, when the
    rows of [w] are locked. *)
Definition commits (w : row_writes) (f : table -> table) (t : table) : table :=
  overlay (map_imap (fun k _ => Some (t !! k)) w) (f t).

Definition stmt {A : Type} (env : attempt_env table) (f : act session txn_error A)
    : act session txn_error A := fun s =>
  let s' := Session (commits (writes s) (env_others env) (base s)) (writes s) in
  match env_fault env with
  | Some e => (Err (TxnDb e), s')
  | None => f s'
  end.

(** [with self._session()]: commit, or rollback on an exception. *)
Definition in_session {A : Type} (env_commit : attempt_env table) (body : act session txn_error A)
    (t : table) : result txn_error A * table :=
  match (do! a := body in do! _ := stmt env_commit (a_ret tt) in a_ret a) (Session t ∅) with
  | (Ok a, s) => (Ok a, view s)
  | (Err e, s) => (Err e, base s)
  end.

Definition write (w : row_writes) (s : session) : session := Session (base s) (w ∪ writes s).

(** [UPDATE]/[DELETE ... WHERE cond]: the number of rows [f] was written for. *)
Definition update_where (cond : string * string -> sub_row -> bool)
    (f : sub_row -> option sub_row) : act session txn_error Z := fun s =>
  let matched := filter (fun kv => cond kv.1 kv.2 = true) (view s) in
  (Ok (Z.of_nat (size matched)), write (f <$> matched) s).

(** [INSERT] in a savepoint: a present key raises and nothing is written. *)
Definition insert_row (k : string * string) (r : sub_row) : act session txn_error unit := fun s =>
  match view s !! k with
  | Some _ => (Err (TxnDb IntegrityError), s)
  | None => (Ok tt, write {[k := Some r]} s)
  end.

Definition select_row (k : string * string) : act session txn_error (option sub_row) :=
  fun s => (Ok (view s !! k), s).

(** [t'] is [t] after commits of the other sessions only, each with any rows
    locked by this one. *)
Inductive left_by_others (others : (table -> table) -> Prop) : table -> table -> Prop :=
| left_unchanged t : left_by_others others t t
| left_by_one t f w t' :
    others f -> left_by_others others (commits w f t) t' -> left_by_others others t t'.

Lemma lookup_overlay w t k :
  overlay w t !! k = match w !! k with Some x => x | None => t !! k end.
Proof.
  unfold overlay. rewrite lookup_merge. destruct (w !! k); [done |]. by destruct (t !! k).
Qed.

Lemma lookup_commits w f t k :
  commits w f t !! k = match w !! k with Some _ => t !! k | None => f t !! k end.
Proof.
  unfold commits. rewrite lookup_overlay, map_lookup_imap. by destruct (w !! k).
Qed.

Lemma commits_id w t : commits w (fun t => t) t = t.
Proof. apply map_eq. intros k. rewrite lookup_commits. by destruct (w !! k). Qed.

Lemma view_fresh t : view (Session t ∅) = t.
Proof. apply map_eq. intros k. unfold view. by rewrite lookup_overlay. Qed.

Lemma lookup_view_write w s k :
  view (write w s) !! k = match w !! k with Some x => x | None => view s !! k end.
Proof.
  unfold view, write. cbn [base writes]. rewrite !lookup_overlay, lookup_union.
  destruct (w !! k); by destruct (writes s !! k).
Qed.

Lemma view_update_where cond f s k :
  view (update_where cond f s).2 !! k
  = match view s !! k with
    | Some r => if cond k r then f r else Some r
    | None => None
    end.
Proof.
  unfold update_where. cbn [snd]. rewrite lookup_view_write, lookup_fmap, map_lookup_filter.
  destruct (view s !! k) as [r|]; [| done]. simpl. by destruct (cond k r) eqn:E; simpl.
Qed.

Lemma stmt_quiet {A : Type} (f : act session txn_error A) s : stmt quiet f s = f s.
Proof. unfold stmt. simpl. rewrite commits_id. by destruct s. Qed.

Lemma bind_update_quiet {A : Type} (cond : string * string -> sub_row -> bool) f
    (k : Z -> act session txn_error A) s :
  (do! n := stmt quiet (update_where cond f) in k n) s
  = k (Z.of_nat (size (filter (fun kv => cond kv.1 kv.2 = true) (view s))))
      (update_where cond f s).2.
Proof. cbv [a_bind]. by rewrite stmt_quiet. Qed.

(** What an uninterrupted transaction does is what its body does to the view. *)
Lemma in_session_quiet {A : Type} (body : act session txn_error A) t a s :
  body (Session t ∅) = (Ok a, s) -> in_session quiet body t = (Ok a, view s).
Proof.
  intros Hb. unfold in_session. cbv [a_bind]. rewrite Hb, stmt_quiet. by destruct s.
Qed.

Section Others.
Variable others : (table -> table) -> Prop.
#[local] Abbreviation left := (left_by_others others).

#[export] Instance left_by_others_preorder : PreOrder left.
Proof.
  split; [intros t; apply left_unchanged |].
  intros t1 t2 t3 H12 H23. induction H12; [done |]. by eapply left_by_one; [done | apply IHleft_by_others].
Qed.

Lemma left_commits t w f : others f -> left t (commits w f t).
Proof. intros Hf. by eapply left_by_one; [exact Hf | apply left_unchanged]. Qed.

Lemma left_pointwise (P : string * string -> option sub_row -> Prop) t t' :
  (forall f u, others f -> (forall k, P k (u !! k)) -> forall k, P k (f u !! k)) ->
  left t t' -> (forall k, P k (t !! k)) -> forall k, P k (t' !! k).
Proof.
  intros Hf Hl. induction Hl as [|t f w t' Ho _ IH]; [done |]. intros Ht. apply IH.
  intros k. rewrite lookup_commits. destruct (w !! k); [apply Ht | by apply Hf].
Qed.
End Others.

End Session.
Import Session.

Module SqlLedger.

Definition MAX_ATTEMPTS : nat := 8.

(** [_to_record]. The state column holds one of the three states. *)
Definition to_record (k : string * string) (r : sub_row) : SubmissionRecord :=
  Record_ k.1 k.2 (r_fp r) (r_state r) (r_body r) (r_status r)
    (from_epoch_ms (r_created r)) (from_epoch_ms (r_updated r)) (from_epoch_ms (r_expires r)).

(** [epoch_ms(from_epoch_ms(now_ms) + timedelta(seconds=...))]. *)
Definition retention_expiry (now_ms : Z) : Z :=
  epoch_ms (dt_add (from_epoch_ms now_ms) (seconds SUBMISSION_RETENTION_SECONDS)).

Definition _seal (now_ms : Z) : act session txn_error Z :=
  update_where
    (fun _ r => bool_decide (r_state r = processing) && (r_expires r <=? now_ms))
    (fun r => Some (SubRow (r_fp r) indeterminate None None (r_created r) now_ms
                      (retention_expiry now_ms))).

Definition _purge (now_ms : Z) : act session txn_error Z :=
  update_where
    (fun _ r => (bool_decide (r_state r = completed) || bool_decide (r_state r = indeterminate))
                && (r_expires r <=? now_ms))
    (fun _ => None).

Definition _load (scope key_hash : string) : act session txn_error (option sub_row) :=
  select_row (scope, key_hash).

(** The commits and the fault before each statement of a transaction, by the
    statement's position; the commit is one of them. *)
Abbreviation statement_envs := (nat -> attempt_env table).

(** [except IntegrityError]: the row the insert met is interpreted; when it is
    gone again, or expired, the claim is retried. *)
Definition lost_insert (env_load : attempt_env table) (scope key_hash fp : string) (now_ms : Z)
    : act session txn_error SubmissionClaim :=
  do! row := stmt env_load (_load scope key_hash) in
  match row with
  | None => a_err TxnRetry
  | Some row =>
      refuse! TxnRetry
        when negb (bool_decide (r_state row = processing)) && (r_expires row <=? now_ms) in
      a_ret (interpret (to_record (scope, key_hash) row) fp (from_epoch_ms now_ms))
  end.

Definition claim_body (envs : statement_envs) (scope key_hash fp : string) (now_ms : Z)
    : act session txn_error SubmissionClaim :=
  let horizon := now_ms + PROCESSING_HORIZON_SECONDS * 1000 in
  do! _ := stmt (envs 0%nat) (_seal now_ms) in
  do! _ := stmt (envs 1%nat) (_purge now_ms) in
  fun s =>
    match stmt (envs 2%nat)
            (insert_row (scope, key_hash)
               (SubRow fp processing None None now_ms now_ms horizon)) s with
    | (Err (TxnDb IntegrityError), s') =>
        lost_insert (envs 3%nat) scope key_hash fp now_ms s'
    | (Err e, s') => (Err e, s')
    | (Ok _, s') => (Ok Execute, s')
    end.

Definition claim_once (envs : statement_envs) (scope key_hash fp : string) (now_ms : Z)
    : table -> result txn_error SubmissionClaim * table :=
  in_session (envs 4%nat) (claim_body envs scope key_hash fp now_ms).

(** [envs k] surrounds the statements of the [k]-th attempt. *)
Definition claim (envs : nat -> statement_envs) (scope key_hash fp : string) (now : datetime)
    (t : table) : result sub_exn SubmissionClaim * table :=
  match require_opaque_parts scope key_hash fp with
  | Err e => (Err e, t)
  | Ok _ => retry ShoppingSubmissionUnavailable MAX_ATTEMPTS
              (fun k => claim_once (envs k) scope key_hash fp (epoch_ms now)) t
  end.

(** [except Exception]: any error is [ShoppingSubmissionUnavailable]. *)
Definition or_unavailable {A : Type} (out : result txn_error A * table)
    : result sub_exn A * table :=
  match out with
  | (Ok a, t) => (Ok a, t)
  | (Err _, t) => (Err ShoppingSubmissionUnavailable, t)
  end.

(** The row of one key, when it is processing and [cond]. *)
Definition this_processing (scope key_hash : string) (cond : sub_row -> bool)
    (k : string * string) (r : sub_row) : bool :=
  bool_decide (k = (scope, key_hash)) && (bool_decide (r_state r = processing) && cond r).

Definition fail_closed (envs : statement_envs) (scope key_hash : string) (now : datetime)
    (t : table) : result sub_exn unit * table :=
  match require_opaque_parts scope key_hash zero_fingerprint with
  | Err e => (Err e, t)
  | Ok _ =>
      let now_ms := epoch_ms now in
      or_unavailable (in_session (envs 1%nat)
        (do! _ := stmt (envs 0%nat)
           (update_where (this_processing scope key_hash (fun _ => true))
              (fun r => Some (SubRow (r_fp r) indeterminate None None (r_created r) now_ms
                                (retention_expiry now_ms)))) in
         a_ret tt) t)
  end.

(** An UPDATE that matches no row still reports success when the same response
    is already stored. *)
Definition complete (envs : statement_envs) (scope key_hash fp response_json : string)
    (now : datetime) (t : table) : result sub_exn bool * table :=
  match require_opaque_parts scope key_hash fp with
  | Err e => (Err e, t)
  | Ok _ =>
      if MAX_RESPONSE_CHARS <? len response_json then
        match fail_closed envs scope key_hash now t with
        | (Ok _, t1) => (Ok false, t1)
        | (Err e, t1) => (Err e, t1)
        end
      else
        let now_ms := epoch_ms now in
        or_unavailable (in_session (envs 2%nat)
          (do! rowcount := stmt (envs 0%nat)
             (update_where (this_processing scope key_hash (fun r => String.eqb (r_fp r) fp))
                (fun r => Some (SubRow (r_fp r) completed (Some response_json) (Some 200)
                                  (r_created r) now_ms (retention_expiry now_ms)))) in
           if rowcount =? 1 then a_ret true
           else do! stored := stmt (envs 1%nat) (_load scope key_hash) in
             a_ret (match stored with
                    | Some r => bool_decide (r_state r = completed) && String.eqb (r_fp r) fp
                                && bool_decide (r_body r = Some response_json)
                    | None => false
                    end)) t)
  end.

Definition release_unentered (envs : statement_envs) (scope key_hash : string) (t : table)
    : result sub_exn bool * table :=
  match require_opaque_parts scope key_hash zero_fingerprint with
  | Err e => (Err e, t)
  | Ok _ =>
      or_unavailable (in_session (envs 1%nat)
        (do! rowcount := stmt (envs 0%nat)
           (update_where (this_processing scope key_hash (fun _ => true)) (fun _ => None)) in
         a_ret (rowcount =? 1)) t)
  end.

Definition cleanup (envs : statement_envs) (now : datetime) (t : table)
    : result sub_exn Z * table :=
  or_unavailable (in_session (envs 1%nat) (stmt (envs 0%nat) (_purge (epoch_ms now))) t).

Definition seal_stale_processing (envs : statement_envs) (now : datetime) (t : table)
    : result sub_exn Z * table :=
  or_unavailable (in_session (envs 1%nat) (stmt (envs 0%nat) (_seal (epoch_ms now))) t).

Definition read (envs : statement_envs) (scope key_hash : string) (t : table)
    : result sub_exn (option SubmissionRecord) * table :=
  match require_opaque_parts scope key_hash zero_fingerprint with
  | Err e => (Err e, t)
  | Ok _ =>
      or_unavailable (in_session (envs 1%nat)
        (do! row := stmt (envs 0%nat) (_load scope key_hash) in
         a_ret (to_record (scope, key_hash) <$> row)) t)
  end.

(** ** The table refines [Spec] *)

Definition table_wf (t : table) : Prop :=
  map_Forall (fun _ r => in_window (from_epoch_ms (r_expires r))) t.

Lemma now_window now : op_time now -> in_window (from_epoch_ms (epoch_ms now)).
Proof. intros [Hn _]. by apply from_epoch_ms_window. Qed.

Lemma expiry_window now s :
  op_time now -> 0 <= s <= SUBMISSION_RETENTION_SECONDS ->
  in_window (from_epoch_ms (epoch_ms now + s * 1000)).
Proof.
  intros Hop Hs. rewrite <- MemoryLedger.op_time_horizon by done.
  apply from_epoch_ms_window. destruct Hop as [Hn Hd].
  unfold in_window, dt_add, seconds in *. simpl in *. lia.
Qed.

Lemma retention_expiry_eq now :
  op_time now -> retention_expiry (epoch_ms now) = epoch_ms now + retention_ms.
Proof.
  intros Hop. unfold retention_expiry. pose proof (now_window now Hop) as Hn.
  pose proof (expiry_window now SUBMISSION_RETENTION_SECONDS Hop ltac:(done)) as He.
  rewrite epoch_ms_add_seconds; [| done |].
  - rewrite epoch_ms_from_epoch_ms by done. unfold retention_ms. lia.
  - unfold in_window, from_epoch_ms, dt_add, seconds in *. simpl in *. lia.
Qed.

Lemma dead_row_eq now_ms r :
  (bool_decide (r_state r = completed) || bool_decide (r_state r = indeterminate))
    && (r_expires r <=? now_ms) = stale_row now_ms r.
Proof. unfold stale_row, is_processing. by destruct (r_state r). Qed.

Lemma interpret_to_record k r fp now :
  op_time now -> in_window (from_epoch_ms (r_expires r)) ->
  interpret (to_record k r) fp (from_epoch_ms (epoch_ms now)) = interpret_row r fp (epoch_ms now).
Proof.
  intros Hop Hr. unfold interpret, interpret_row. simpl.
  rewrite !epoch_ms_from_epoch_ms by (done || by apply now_window).
  destruct (negb _); [done |]. by destruct (r_state r).
Qed.

Lemma surviving_wf now r r' :
  op_time now -> in_window (from_epoch_ms (r_expires r)) ->
  surviving (epoch_ms now) (Some r) = Some r' -> in_window (from_epoch_ms (r_expires r')).
Proof.
  intros Hop Hr. simpl. destruct (stale_row _ _); [done |]. intros [= <-].
  unfold seal_row. destruct (_ && _); [| done].
  by apply (expiry_window now SUBMISSION_RETENTION_SECONDS).
Qed.

Lemma seal_wf now t : op_time now -> table_wf t -> table_wf (seal (epoch_ms now) t).
Proof.
  intros Hop Hwf k r. unfold seal. rewrite lookup_fmap. intros (r0 & Hr0 & ->)%fmap_Some.
  unfold seal_row. destruct (_ && _); [| by apply (Hwf k)]. simpl.
  by apply (expiry_window now SUBMISSION_RETENTION_SECONDS).
Qed.

Lemma purge_wf now_ms t : table_wf t -> table_wf (purge now_ms t).
Proof.
  intros Hwf k r Hr. apply map_lookup_filter_Some in Hr as [Hr _]. by apply (Hwf k).
Qed.

(** A row that the seal and the purge would change is not left by them. *)
Lemma surviving_kept now_ms o r :
  surviving now_ms o = Some r -> seal_row now_ms r = r /\ stale_row now_ms r = false.
Proof.
  destruct o as [r0|]; [| done]. simpl. destruct (stale_row _ _) eqn:Es; [done |].
  intros [= <-]. split; [| done].
  destruct (is_processing r0 && (r_expires r0 <=? now_ms)) eqn:E;
    unfold seal_row; rewrite E; [done |]. by rewrite E.
Qed.

Lemma surviving_sealed now_ms r :
  is_processing r && (r_expires r <=? now_ms) = true ->
  surviving now_ms (Some r) = Some (sealed_row r now_ms).
Proof.
  intros Hr. simpl. unfold seal_row. rewrite Hr. unfold stale_row. simpl.
  by rewrite (proj2 (Z.leb_gt _ _)) by (unfold retention_ms, SUBMISSION_RETENTION_SECONDS; lia).
Qed.

Lemma surviving_other now_ms r :
  is_processing r && (r_expires r <=? now_ms) = false ->
  surviving now_ms (Some r) = if stale_row now_ms r then None else Some r.
Proof. intros Hr. simpl. unfold seal_row. by rewrite Hr. Qed.

(** ** Uninterrupted methods *)

Lemma session_view_seal now s :
  op_time now -> view (_seal (epoch_ms now) s).2 = seal (epoch_ms now) (view s).
Proof.
  intros Hop. apply map_eq. intros k. unfold _seal. rewrite view_update_where.
  unfold seal. rewrite lookup_fmap. destruct (view s !! k) as [r|]; [| done]. simpl.
  unfold seal_row, is_processing. destruct (_ && _); [| done].
  unfold sealed_row. by rewrite retention_expiry_eq.
Qed.

Lemma session_view_purge now_ms s : view (_purge now_ms s).2 = purge now_ms (view s).
Proof.
  apply map_eq. intros k. unfold _purge. rewrite view_update_where.
  unfold purge. rewrite map_lookup_filter. destruct (view s !! k) as [r|]; [| done]. simpl.
  rewrite dead_row_eq. by destruct (stale_row now_ms r).
Qed.

(** An uninterrupted claim is one claim of the specification. *)
Lemma claim_once_quiet scope kh fp now t :
  op_time now -> table_wf t ->
  claim_once (fun _ => quiet) scope kh fp (epoch_ms now) t
  = (Ok (Spec.claim (scope, kh) fp (epoch_ms now) t).1,
     (Spec.claim (scope, kh) fp (epoch_ms now) t).2)
  /\ table_wf (Spec.claim (scope, kh) fp (epoch_ms now) t).2.
Proof.
  intros Hop Hwf. unfold Spec.claim. rewrite <- lookup_purge_seal.
  set (t2 := purge _ _). assert (Hwf2 : table_wf t2) by (by apply purge_wf, seal_wf).
  assert (Hs2 : exists s2, view s2 = t2 /\ forall A (m : act session txn_error A),
    (do! _ := stmt quiet (_seal (epoch_ms now)) in
     do! _ := stmt quiet (_purge (epoch_ms now)) in m) (Session t ∅) = m s2).
  { exists (_purge (epoch_ms now) (_seal (epoch_ms now) (Session t ∅)).2).2.
    split; [by rewrite session_view_purge, session_view_seal, view_fresh |].
    intros A m. unfold _seal, _purge. by rewrite !bind_update_quiet. }
  destruct Hs2 as (s2 & Hv & Hrun). unfold claim_once.
  destruct (t2 !! (scope, kh)) as [r|] eqn:Er.
  - assert (Hns : stale_row (epoch_ms now) r = false)
      by (unfold t2 in Er; by apply map_lookup_filter_Some in Er as [_ Er]).
    rewrite (in_session_quiet _ t (interpret_row r fp (epoch_ms now)) s2), Hv; [done |].
    unfold claim_body. rewrite Hrun, stmt_quiet. unfold insert_row. rewrite Hv, Er.
    unfold lost_insert. cbv [a_bind]. rewrite stmt_quiet. unfold _load, select_row.
    rewrite Hv, Er. unfold stale_row, is_processing in Hns. act_run. rewrite Hns.
    by rewrite interpret_to_record by (done || by apply (Hwf2 _ _ Er)).
  - rewrite (in_session_quiet _ t Execute
               (write {[(scope, kh) := Some (processing_row fp (epoch_ms now))]} s2)).
    + split; [f_equal | apply map_Forall_insert_2; [| done]; simpl;
        by apply (expiry_window now PROCESSING_HORIZON_SECONDS)].
      cbn [snd]. apply map_eq. intros k. rewrite lookup_view_write, Hv.
      destruct (decide (k = (scope, kh))) as [-> | Hne].
      * by rewrite lookup_singleton_eq, lookup_insert_eq.
      * by rewrite lookup_singleton_ne, lookup_insert_ne by done.
    + unfold claim_body. rewrite Hrun, stmt_quiet. unfold insert_row. by rewrite Hv, Er.
Qed.

(** The UPDATE or DELETE of one key's processing row. *)
Lemma filter_one (scope kh : string) (cond : sub_row -> bool) (t : table) :
  filter (fun kv => this_processing scope kh cond kv.1 kv.2 = true) t
  = match t !! (scope, kh) with
    | Some r => if is_processing r && cond r then {[(scope, kh) := r]} else ∅
    | None => ∅
    end.
Proof.
  apply map_eq. intros k. rewrite map_lookup_filter. unfold this_processing, is_processing.
  destruct (decide (k = (scope, kh))) as [-> | Hne].
  - destruct (t !! (scope, kh)) as [r|]; [| done]. simpl. rewrite bool_decide_true by done. simpl.
    destruct (_ && _); simpl; [by rewrite lookup_singleton_eq | done].
  - transitivity (@None sub_row).
    + destruct (t !! k) as [r|]; [| done]. simpl. by rewrite bool_decide_false.
    + destruct (t !! (scope, kh)) as [r|]; [| done]. destruct (_ && _); [| done].
      by rewrite lookup_singleton_ne.
Qed.

Lemma update_one_quiet (scope kh : string) (cond : sub_row -> bool)
    (f : sub_row -> option sub_row) (t : table) :
  exists s,
    view s = match t !! (scope, kh) with
             | Some r => if is_processing r && cond r
                         then match f r with
                              | Some r' => <[(scope, kh) := r']> t
                              | None => delete (scope, kh) t
                              end
                         else t
             | None => t
             end
    /\ forall (A : Type) (k : Z -> act session txn_error A),
         (do! n := stmt quiet (update_where (this_processing scope kh cond) f) in k n)
           (Session t ∅)
         = k (match t !! (scope, kh) with
              | Some r => if is_processing r && cond r then 1 else 0
              | None => 0
              end) s.
Proof.
  exists (update_where (this_processing scope kh cond) f (Session t ∅)).2. split.
  - unfold update_where. cbn [snd]. rewrite view_fresh, filter_one. apply map_eq. intros j.
    rewrite lookup_view_write, view_fresh.
    destruct (t !! (scope, kh)) as [r|] eqn:Er; [| by rewrite fmap_empty].
    destruct (_ && _); [| by rewrite fmap_empty]. rewrite map_fmap_singleton.
    destruct (decide (j = (scope, kh))) as [-> | Hne].
    + rewrite lookup_singleton_eq. destruct (f r); [by rewrite lookup_insert_eq |].
      by rewrite lookup_delete_eq.
    + rewrite lookup_singleton_ne by done.
      destruct (f r); [by rewrite lookup_insert_ne | by rewrite lookup_delete_ne].
  - intros A k. rewrite bind_update_quiet, view_fresh, filter_one. f_equal.
    destruct (t !! (scope, kh)) as [r|]; [| by rewrite map_size_empty].
    destruct (_ && _); [by rewrite map_size_singleton | by rewrite map_size_empty].
Qed.

Lemma fail_closed_quiet (scope kh : string) (now : datetime) (t : table) :
  valid_key scope kh -> op_time now -> table_wf t ->
  fail_closed (fun _ => quiet) scope kh now t
  = (Ok tt, Spec.fail_closed (scope, kh) (epoch_ms now) t)
  /\ table_wf (Spec.fail_closed (scope, kh) (epoch_ms now) t).
Proof.
  intros Hv Hop Hwf. unfold fail_closed. rewrite Hv.
  edestruct (update_one_quiet scope kh (fun _ => true)) as (s & Hview & Hrun).
  erewrite in_session_quiet; [| by rewrite Hrun]. rewrite Hview. unfold Spec.fail_closed.
  destruct (t !! (scope, kh)) as [r|]; [| done]. rewrite andb_true_r.
  destruct (is_processing r); [| done].
  rewrite retention_expiry_eq by done. split; [done |].
  apply map_Forall_insert_2; [| done]. by apply (expiry_window now SUBMISSION_RETENTION_SECONDS).
Qed.

#[global] Instance sql_ledger : ShoppingSubmissionStore table := {
  st_claim := claim (fun _ _ => quiet);
  st_complete := complete (fun _ => quiet);
  st_fail_closed := fail_closed (fun _ => quiet);
  st_release_unentered := release_unentered (fun _ => quiet);
  st_cleanup := cleanup (fun _ => quiet);
  st_seal_stale_processing := seal_stale_processing (fun _ => quiet)
}.

#[global] Program Instance sql_ledger_laws : StoreLaws table := {
  st_wf := table_wf;
  st_view := fun t => t
}.
Next Obligation.
  intros scope kh fp now t Hv Hop Hwf. simpl. unfold claim. rewrite Hv.
  destruct (claim_once_quiet scope kh fp now t Hop Hwf) as [Hc Hwf'].
  eexists. split; [| by split]. unfold MAX_ATTEMPTS. cbn [retry]. by rewrite Hc.
Qed.
Next Obligation.
  intros scope kh fp body now t Hv Hop Hwf Hlen. simpl. unfold complete.
  rewrite Hv, (proj2 (Z.ltb_ge _ _)), retention_expiry_eq by done.
  destruct (update_one_quiet scope kh (fun r => String.eqb (r_fp r) fp)
              (fun r => Some (completed_row r body (epoch_ms now))) t) as (s & Hview & Hrun).
  unfold completed_row in Hrun.
  set (out := in_session _ _ _).
  assert (Hout : exists b, out = (Ok b, view s)
    /\ (b = false -> Spec.complete (scope, kh) fp body (epoch_ms now) t = t)).
  { unfold out. destruct (t !! (scope, kh)) as [r|] eqn:Er;
      [destruct (is_processing r && String.eqb (r_fp r) fp) eqn:Ec |];
      (eexists; split; [erewrite in_session_quiet; [done |]; rewrite Hrun; simpl;
                        try reflexivity; cbv [a_bind]; by rewrite stmt_quiet |]).
    - done.
    - intros _. unfold Spec.complete. by rewrite Er, Ec.
    - intros _. unfold Spec.complete. by rewrite Er. }
  destruct Hout as (b & -> & Hb). exists b, (view s). split; [done |].
  assert (Hv' : view s = Spec.complete (scope, kh) fp body (epoch_ms now) t) by done.
  rewrite Hv'. split; [done |]. split; [| exact Hb].
  unfold Spec.complete. destruct (t !! (scope, kh)) as [r|]; [| done]. destruct (_ && _); [| done].
  apply map_Forall_insert_2; [| done]. by apply (expiry_window now SUBMISSION_RETENTION_SECONDS).
Qed.
Next Obligation.
  intros scope kh fp body now t Hv Hop Hwf Hlen. simpl. unfold complete.
  rewrite Hv, (proj2 (Z.ltb_lt _ _)) by done.
  destruct (fail_closed_quiet scope kh now t (MemoryLedger.valid_parts_key _ _ _ Hv) Hop Hwf)
    as [-> Hwf']. eauto.
Qed.
Next Obligation.
  intros scope kh now t Hv Hop Hwf. simpl.
  destruct (fail_closed_quiet scope kh now t Hv Hop Hwf) as [-> Hwf']. eauto.
Qed.
Next Obligation.
  intros scope kh t Hv Hwf. simpl. unfold release_unentered, release. rewrite Hv.
  edestruct (update_one_quiet scope kh (fun _ => true)) as (s & Hview & Hrun).
  erewrite in_session_quiet; [| by rewrite Hrun]. rewrite Hview.
  destruct (t !! (scope, kh)) as [r|]; simpl; [| eauto]. rewrite andb_true_r.
  destruct (is_processing r); simpl; [| eauto].
  eexists. split; [done |]. split; [done |]. by apply map_Forall_delete.
Qed.
Next Obligation.
  intros now t Hop Hwf. simpl. unfold cleanup.
  erewrite (in_session_quiet _ t _ (_purge (epoch_ms now) (Session t ∅)).2);
    [| by rewrite stmt_quiet].
  eexists _, _. split; [reflexivity |].
  rewrite session_view_purge, view_fresh. split; [done |]. by apply purge_wf.
Qed.
Next Obligation.
  intros now t Hop Hwf. simpl. unfold seal_stale_processing.
  erewrite (in_session_quiet _ t _ (_seal (epoch_ms now) (Session t ∅)).2);
    [| by rewrite stmt_quiet].
  eexists _, _. split; [reflexivity |].
  rewrite session_view_seal, view_fresh by done. split; [done |]. by apply seal_wf.
Qed.

(** ** A claim among other sessions *)

Section Interleaved.
Variable others : (table -> table) -> Prop.
Variable now : datetime.
Variable t0 : table.
Hypothesis Hop : op_time now.
Hypothesis others_wf : forall f t, others f -> table_wf t -> table_wf (f t).
#[local] Abbreviation now_ms := (epoch_ms now).
#[local] Abbreviation left := (left_by_others others).

(** The session's writes are what [g] makes of the locked rows. *)
Definition tracks (g : string * string -> option sub_row -> option sub_row) (s : session) : Prop :=
  left t0 (base s) /\ table_wf (base s)
  /\ forall k x, writes s !! k = Some x -> x = g k (base s !! k).
Definition maintains : session -> Prop := tracks (fun _ => surviving now_ms).

(** The row of [key] is inserted, and none survives under it. *)
Definition inserted (key : string * string) (fp : string) (s : session) : Prop :=
  tracks (fun k o => if decide (k = key) then Some (processing_row fp now_ms)
                     else surviving now_ms o) s
  /\ surviving now_ms (base s !! key) = None /\ is_Some (writes s !! key).

Definition after_others (env : attempt_env table) (s : session) : session :=
  Session (commits (writes s) (env_others env) (base s)) (writes s).
Definition stable (P : session -> Prop) : Prop :=
  forall env s, others (env_others env) -> P s -> P (after_others env s).
Definition triple {A : Type} (P : session -> Prop) (m : act session txn_error A)
    (Q : A -> session -> Prop) (E : session -> Prop) : Prop :=
  forall s, P s -> match m s with (Ok a, s') => Q a s' | (Err _, s') => E s' end.

Lemma session_triple_bind {A B : Type} P (m : act session txn_error A) Q
    (k : A -> act session txn_error B) R E :
  triple P m Q E -> (forall a, triple (Q a) (k a) R E) -> triple P (a_bind m k) R E.
Proof.
  intros Hm Hk s HP. unfold a_bind. pose proof (Hm s HP) as H.
  destruct (m s) as [[a|e] s']; [by apply Hk | done].
Qed.

Lemma triple_stmt {A : Type} P env (f : act session txn_error A) Q (E : session -> Prop) :
  others (env_others env) -> stable P -> (forall s, P s -> E s) ->
  triple P f Q E -> triple P (stmt env f) Q E.
Proof.
  intros Ho Hs HE Hf s HP. unfold stmt. cbv zeta. fold (after_others env s).
  pose proof (Hs env s Ho HP) as HP'. destruct (env_fault env); [by apply HE | by apply Hf].
Qed.

Lemma commits_wf w f t : others f -> table_wf t -> table_wf (commits w f t).
Proof.
  intros Hf Ht k r. rewrite lookup_commits.
  destruct (w !! k); [apply Ht | by apply (others_wf f t)].
Qed.

Lemma tracks_stable g : stable (tracks g).
Proof.
  intros env s Ho (Hl & Hw & Hg). split; [| split].
  - etransitivity; [exact Hl | by apply left_commits].
  - by apply commits_wf.
  - intros k x Hx. cbn [base writes after_others] in *. rewrite lookup_commits, Hx. by apply Hg.
Qed.

Lemma inserted_stable key fp : stable (inserted key fp).
Proof.
  intros env s Ho (Ht & Hn & [x Hx]). split; [by apply tracks_stable |].
  cbn [base writes after_others]. rewrite lookup_commits, Hx. by split.
Qed.

Lemma maintains_update cond f :
  (forall k o r, o = Some r \/ surviving now_ms o = Some r ->
     cond k r = true -> f r = surviving now_ms o) ->
  triple maintains (update_where cond f) (fun _ => maintains) maintains.
Proof.
  intros Hf s (Hl & Hw & Hg). split; [done | split; [done |]]. intros k x. cbn [writes write].
  unfold base, write. fold (base s). rewrite lookup_union, lookup_fmap, map_lookup_filter.
  unfold view. rewrite lookup_overlay. pose proof (Hg k) as Hk.
  destruct (writes s !! k) as [y|] eqn:Ey.
  - specialize (Hk y eq_refl). destruct y as [r|]; simpl; [| by intros [= <-]].
    destruct (cond k r) eqn:Ec; simpl; [| by intros [= <-]]. intros [= <-].
    eapply Hf; [by right | exact Ec].
  - destruct (base s !! k) as [r|] eqn:Er; simpl; [| done].
    destruct (cond k r) eqn:Ec; simpl; [| done]. intros [= <-].
    by apply (Hf k (Some r)); [left |].
Qed.

Lemma seal_maintains : triple maintains (_seal now_ms) (fun _ => maintains) maintains.
Proof.
  apply maintains_update. intros k o r Ho Hr. rewrite retention_expiry_eq by done.
  fold (is_processing r) in Hr. destruct Ho as [-> | Ho]; [by rewrite surviving_sealed |].
  apply surviving_kept in Ho as [Hse _]. unfold seal_row in Hse. rewrite Hr in Hse.
  apply andb_prop in Hr as [Hr _]. rewrite <- Hse in Hr. discriminate.
Qed.

Lemma purge_maintains : triple maintains (_purge now_ms) (fun _ => maintains) maintains.
Proof.
  apply maintains_update. intros k o r Ho Hr. rewrite dead_row_eq in Hr.
  destruct Ho as [-> | Ho].
  - rewrite surviving_other, Hr; [done |]. unfold stale_row in Hr.
    apply andb_prop in Hr as [Hr _]. by destruct (is_processing r).
  - apply surviving_kept in Ho as [_ Ho]. congruence.
Qed.

Lemma insert_inserts key fp :
  triple maintains (insert_row key (processing_row fp now_ms))
    (fun _ => inserted key fp) maintains.
Proof.
  intros s (Hl & Hw & Hg). unfold insert_row. destruct (view s !! key) as [r|] eqn:Ev; [done |].
  assert (Hn : surviving now_ms (base s !! key) = None).
  { revert Ev. unfold view. rewrite lookup_overlay. pose proof (Hg key) as Hk.
    destruct (writes s !! key) as [y|]; [by specialize (Hk y eq_refl); intros -> | by intros ->]. }
  split; [split; [done | split; [done |]] | split; [done |]].
  - intros k x. cbn [writes base write]. rewrite lookup_union.
    destruct (decide (k = key)) as [-> | Hne].
    + rewrite lookup_singleton_eq. destruct (writes s !! key); by intros [= <-].
    + rewrite lookup_singleton_ne, (left_id_L None _) by done. apply Hg.
  - cbn [writes write]. rewrite lookup_union, lookup_singleton_eq. by destruct (writes s !! key).
Qed.

(** A claim that is not told to execute, by the rows committed when it looked. A
    running row that expired only after the seal is answered as it is. *)
Definition answered (key : string * string) (fp : string) (c : SubmissionClaim) (b : table)
    : Prop :=
  c <> Execute
  /\ (c = (Spec.claim key fp now_ms b).1
      \/ exists r, b !! key = Some r /\ is_processing r && (r_expires r <=? now_ms) = true
           /\ c = interpret_row r fp now_ms).

Definition lost (key : string * string) (fp : string) (c : SubmissionClaim) (s : session) : Prop :=
  maintains s /\ exists b, left t0 b /\ left b (base s) /\ answered key fp c b.

Lemma interpret_row_loses r fp : interpret_row r fp now_ms <> Execute.
Proof. unfold interpret_row. by repeat case_match. Qed.

Lemma load_answers env scope kh fp :
  others (env_others env) ->
  triple maintains (lost_insert env scope kh fp now_ms)
    (fun c s => c <> Execute /\ lost (scope, kh) fp c s) maintains.
Proof.
  intros Ho. unfold lost_insert.
  apply (session_triple_bind _ _ (fun row s => maintains s /\ view s !! (scope, kh) = row)).
  { apply triple_stmt; [done | apply tracks_stable | done | by intros s Hs]. }
  intros [r|] s [Hs Hr]; [| exact Hs]. act_run.
  destruct (negb _ && _) eqn:Ed; [exact Hs |].
  change (stale_row now_ms r = false) in Ed. pose proof Hs as (Hl & Hw & Hg).
  revert Hr. unfold view. rewrite lookup_overlay. intros Hr.
  assert (Hin : in_window (from_epoch_ms (r_expires r))).
  { destruct (writes s !! (scope, kh)) as [y|] eqn:Ey; [| by apply (Hw (scope, kh))].
    apply Hg in Ey. destruct (base s !! (scope, kh)) as [r0|] eqn:E0; [| by rewrite Ey in Hr].
    subst y. by eapply surviving_wf, Hr; [| apply (Hw (scope, kh))]. }
  rewrite interpret_to_record by done. pose proof (interpret_row_loses r fp) as Hne.
  split; [done |]. split; [done |]. exists (base s). split; [done |]. split; [by constructor |].
  split; [done |]. unfold Spec.claim.
  destruct (writes s !! (scope, kh)) as [y|] eqn:Ey.
  - apply Hg in Ey. left. by rewrite <- Ey, Hr.
  - rewrite Hr. destruct (is_processing r && (r_expires r <=? now_ms)) eqn:Ep.
    + right. by exists r.
    + left. rewrite surviving_other, Ed by done. done.
Qed.

Definition body_outcome (key : string * string) (fp : string) (c : SubmissionClaim)
    (s : session) : Prop :=
  match c with
  | Execute => inserted key fp s
  | _ => lost key fp c s
  end.

Lemma lost_outcome key fp c s : c <> Execute /\ lost key fp c s -> body_outcome key fp c s.
Proof. intros [Hc Hl]. by destruct c. Qed.

Lemma body_outcome_stable key fp c : stable (body_outcome key fp c).
Proof.
  intros env s Ho Hs.
  assert (Hlost : lost key fp c s -> lost key fp c (after_others env s)).
  { intros (Hm & b & Hb & Hb' & Ha). split; [by apply tracks_stable |]. exists b.
    split; [done |]. split; [| done]. etransitivity; [exact Hb' | by apply left_commits]. }
  destruct c; [by apply inserted_stable | by apply Hlost ..].
Qed.

Definition from_start (s : session) : Prop := left t0 (base s).

Lemma claim_body_outcome (envs : statement_envs) scope kh fp :
  (forall j, others (env_others (envs j))) ->
  triple maintains (claim_body envs scope kh fp now_ms) (body_outcome (scope, kh) fp) from_start.
Proof.
  intros Ho. unfold claim_body.
  apply (session_triple_bind _ _ (fun _ => maintains)).
  { apply triple_stmt; [done | apply tracks_stable | by intros s [? _] |].
    intros s Hs. by apply seal_maintains. }
  intros _. apply (session_triple_bind _ _ (fun _ => maintains)).
  { apply triple_stmt; [done | apply tracks_stable | by intros s [? _] |].
    intros s Hs. by apply purge_maintains. }
  intros _ s Hs.
  assert (Hins : triple maintains (stmt (envs 2%nat) (insert_row (scope, kh)
            (processing_row fp now_ms))) (fun _ => inserted (scope, kh) fp) maintains)
    by (apply triple_stmt; [done | apply tracks_stable | done | apply insert_inserts]).
  specialize (Hins s Hs). unfold processing_row, horizon_ms in Hins.
  destruct (stmt _ _ s) as [[[]|e] s']; [exact Hins |].
  assert (Hload := load_answers (envs 3%nat) scope kh fp (Ho 3%nat) s' Hins).
  destruct e as [|[]|]; try by destruct Hins.
  destruct (lost_insert _ _ _ _ _ s') as [[c|e] s2]; [by apply lost_outcome | by destruct Hload].
Qed.

(** One transaction, with its commit. *)
Lemma claim_once_outcome (envs : statement_envs) scope kh fp :
  (forall j, others (env_others (envs j))) -> table_wf t0 ->
  match claim_once envs scope kh fp now_ms t0 with
  | (Ok c, t') => exists s, body_outcome (scope, kh) fp c s /\ t' = view s
  | (Err _, t') => left t0 t'
  end.
Proof.
  intros Ho Hwf. unfold claim_once, in_session.
  assert (Hm : maintains (Session t0 ∅)) by (split; [constructor | by split]).
  assert (Ht : triple maintains
    (do! c := claim_body envs scope kh fp now_ms in
     do! _ := stmt (envs 4%nat) (a_ret tt) in a_ret c)
    (body_outcome (scope, kh) fp) from_start).
  { eapply session_triple_bind; [by apply claim_body_outcome |]. intros c.
    apply (session_triple_bind _ _ (fun _ => body_outcome (scope, kh) fp c)).
    - apply triple_stmt; [done | by apply body_outcome_stable | | by intros s Hs].
      intros s Hs. destruct c; by destruct Hs as [[? _] _].
    - by intros [] s Hs. }
  specialize (Ht _ Hm). destruct (a_bind _ _ (Session t0 ∅)) as [[c|e] s]; [by exists s | exact Ht].
Qed.
End Interleaved.

Lemma tracks_view others t0 g s k :
  tracks others t0 g s -> view s !! k = base s !! k \/ view s !! k = g k (base s !! k).
Proof.
  intros (_ & _ & Hg). unfold view. rewrite lookup_overlay.
  destruct (writes s !! k) eqn:Ek; [right; by apply Hg | by left].
Qed.

Lemma inserted_view others now t0 key fp s :
  inserted others now t0 key fp s ->
  (Spec.claim key fp (epoch_ms now) (base s)).1 = Execute
  /\ view s !! key = Some (processing_row fp (epoch_ms now)).
Proof.
  intros ((_ & _ & Hg) & Hn & [x Hx]). split.
  - unfold Spec.claim. by rewrite Hn.
  - unfold view. rewrite lookup_overlay, Hx. apply Hg in Hx. by rewrite decide_True in Hx.
Qed.

Lemma left_wf others t t' :
  (forall f u, others f -> table_wf u -> table_wf (f u)) ->
  left_by_others others t t' -> table_wf t -> table_wf t'.
Proof.
  intros Hf Hl. induction Hl as [|t f w t' Ho _ IH]; [done |]. intros Ht.
  apply IH. by eapply commits_wf.
Qed.

(** The commits of the other sessions around the statements of [claim]. *)
Definition others_of (envs : nat -> statement_envs) (f : table -> table) : Prop :=
  exists i j, f = env_others (envs i j).

(** C34: concurrent claims on the shared ledger have a single outcome each,
    although a claim is a transaction of several statements at READ COMMITTED,
    with other sessions committing whatever they like on rows it has not
    written, before each statement, and any statement failing. A claim ends,
    within 8 attempts, on some table [b] that the other sessions left. Told to
    execute: the specification's claim executes on [b], and the key has the
    claimed processing row. Answered otherwise: it is the specification's
    answer on a table committed while it ran - or, of a running row committed
    already expired after the seal, what that row says - and never an
    execution. In both cases any other row is [b]'s or what the seal and the
    purge make of it. Otherwise it is unavailable and the table is [b]: this
    session wrote nothing. *)
Theorem claim_is_atomic envs scope kh fp now t :
  let key := (scope, kh) in
  let now_ms := epoch_ms now in
  let left := left_by_others (others_of envs) in
  let out := claim envs scope kh fp now t in
  let maintained b k := out.2 !! k = b !! k \/ out.2 !! k = surviving now_ms (b !! k) in
  valid_parts scope kh fp -> op_time now -> table_wf t ->
  (forall f u, others_of envs f -> table_wf u -> table_wf (f u)) ->
  exists b, left t b /\
    match out.1 with
    | Ok Execute =>
        (Spec.claim key fp now_ms b).1 = Execute
        /\ out.2 !! key = Some (processing_row fp now_ms)
        /\ forall k, k <> key -> maintained b k
    | Ok c =>
        (exists seen, left t seen /\ left seen b /\ answered now key fp c seen)
        /\ forall k, maintained b k
    | Err e => e = ShoppingSubmissionUnavailable /\ out.2 = b
    end.
Proof.
  intros key now_ms left out maintained Hv Hop Hwf Hothers. unfold maintained, out, claim.
  rewrite Hv. pose (R u u' := table_wf u -> left u u').
  assert (PreOrder R) as HR.
  { split; [by intros u _; apply left_unchanged |]. intros u1 u2 u3 H12 H23 Hu.
    etransitivity; [by apply H12 | apply H23]. by eapply left_wf, Hu; [| apply H12]. }
  assert (Honce : forall k u, table_wf u -> _)
    by exact (fun k u Hu => claim_once_outcome (others_of envs) now u Hop Hothers (envs k)
                scope kh fp (fun j => ex_intro _ k (ex_intro _ j eq_refl)) Hu).
  destruct (retry_outcome ShoppingSubmissionUnavailable R MAX_ATTEMPTS
              (fun k => claim_once (envs k) scope kh fp (epoch_ms now)) t)
    as [(k & u & c & t' & Hk & Hu & Ho & ->) | (b & Hb & ->)].
  { intros k u e u' Ho Hu. specialize (Honce k u Hu). by rewrite Ho in Honce. }
  2: { exists b. split; [by apply Hb | done]. }
  specialize (Hu Hwf). assert (Huw : table_wf u) by (by eapply left_wf).
  specialize (Honce k u Huw). rewrite Ho in Honce. destruct Honce as (s & Hs & ->). cbn [fst snd].
  exists (base s).
  assert (Hlost : lost (others_of envs) now u key fp c s ->
    left t (base s)
    /\ (exists seen, left t seen /\ left seen (base s) /\ answered now key fp c seen)
    /\ forall j, view s !! j = base s !! j
               \/ view s !! j = surviving now_ms (base s !! j)).
  { intros (Hm & seen & Hseen & Hb & Ha).
    assert (left t seen) by (by transitivity u). split; [by transitivity seen |].
    split; [by exists seen | intros j; by apply (tracks_view _ _ _ s j Hm)]. }
  destruct c; try exact (Hlost Hs).
  pose proof (inserted_view _ _ _ _ _ _ Hs) as [Hex Hrow]. destruct Hs as [Hm _].
  split; [transitivity u; [done | by destruct Hm] |]. split; [done | split; [done |]].
  intros j Hj. pose proof (tracks_view _ _ _ s j Hm) as Hv'. cbv beta in Hv'.
  by rewrite decide_False in Hv'.
Qed.

End SqlLedger.

(** ** Refinement: the shared ledger against the in-memory ledger *)
Module Refinement.
Import Submission.Protocol.

Lemma perform_all_agree {A B} `{StoreLaws A, StoreLaws B} cs (a : A) (b : B) :
  Forall call_ok cs -> st_wf a -> st_wf b -> st_view a = st_view b ->
  (perform_all cs a).1 = (perform_all cs b).1
  /\ st_view (perform_all cs a).2 = st_view (perform_all cs b).2.
Proof.
  intros Hcs. revert a b. induction Hcs as [|c cs Hc _ IH]; intros a b Ha Hb Hv; [done |]. simpl.
  destruct (perform_spec c a Hc Ha) as (a' & -> & Hva & Ha').
  destruct (perform_spec c b Hc Hb) as (b' & -> & Hvb & Hb').
  destruct (IH a' b' Ha' Hb') as [Hout Hview]; [by rewrite Hva, Hvb, Hv |].
  destruct (perform_all cs a') as [ra sa]. destruct (perform_all cs b') as [rb sb].
  simpl in *. by rewrite Hout, Hv.
Qed.

(** the shared ledger refines the in-memory ledger. Any sequence of calls
    gives the same claim outcomes and leaves the same rows, in milliseconds. *)
Theorem sql_ledger_refines_memory cs :
  Forall call_ok cs ->
  let mem := perform_all cs (∅ : MemoryLedger.rows) in
  let sql := perform_all cs (∅ : Session.table) in
  mem.1 = sql.1 /\ MemoryLedger.view mem.2 = sql.2.
Proof.
  intros Hcs.
  pose proof (perform_all_agree (A := MemoryLedger.rows) (B := Session.table) cs
           (∅ : MemoryLedger.rows) (∅ : Session.table) Hcs) as Hagree.
  cbv [st_wf st_view MemoryLedger.memory_ledger_laws SqlLedger.sql_ledger_laws] in Hagree.
  apply Hagree; [exact I | exact (map_Forall_empty _) | exact (fmap_empty _)].
Qed.

Import Examples.

(** Another session claims the key between the purge and the insert and
    releases it between the insert and the load; the second attempt, in which
    a clean-up of the other session runs before the commit, executes. *)
Definition raced (i j : nat) : attempt_env table :=
  match i, j with
  | 0%nat, 2%nat => AttemptEnv (fun t => <[sub_key := processing_row fp_b 1700000000000]> t) None
  | 0%nat, 3%nat => AttemptEnv (delete sub_key) None
  | 1%nat, 4%nat => AttemptEnv (purge 1700000000000) None
  | _, _ => quiet
  end.

Lemma raced_wf f u : SqlLedger.others_of raced f -> SqlLedger.table_wf u -> SqlLedger.table_wf (f u).
Proof.
  intros (i & j & ->) Hu. destruct i as [|[|i]]; [| | exact Hu].
  - destruct j as [|[|[|[|j]]]]; try exact Hu; simpl.
    + apply map_Forall_insert_2; [vm_compute; split; (reflexivity || discriminate) | exact Hu].
    + by apply map_Forall_delete.
  - destruct j as [|[|[|[|[|j]]]]]; try exact Hu. by apply SqlLedger.purge_wf.
Qed.

Example raced_claim_executes :
  SqlLedger.claim raced sub_scope sub_hash fp_a sub_t0 ∅
  = (Ok Execute, {[sub_key := processing_row fp_a 1700000000000]}).
Proof.
  vm_cast_no_check (@eq_refl (result sub_exn SubmissionClaim * Session.table)
    (Ok Execute, {[sub_key := processing_row fp_a 1700000000000]})).
Qed.

Example claim_is_atomic_witness :
  exists b, left_by_others (SqlLedger.others_of raced) ∅ b
    /\ (Spec.claim sub_key fp_a 1700000000000 b).1 = Execute
    /\ (SqlLedger.claim raced sub_scope sub_hash fp_a sub_t0 ∅).2 !! sub_key
       = Some (processing_row fp_a 1700000000000)
    /\ forall k, k <> sub_key ->
         let out := SqlLedger.claim raced sub_scope sub_hash fp_a sub_t0 ∅ in
         out.2 !! k = b !! k \/ out.2 !! k = surviving 1700000000000 (b !! k).
Proof.
  pose proof (SqlLedger.claim_is_atomic raced sub_scope sub_hash fp_a sub_t0 ∅) as H.
  cbv zeta in H. rewrite raced_claim_executes in H |- *.
  apply H; [reflexivity | vm_compute; repeat split; (reflexivity || discriminate)
           | apply map_Forall_empty | exact raced_wf].
Defined.

Definition sample_calls : list call :=
  [CallClaim "ask-acct:1f" (hash "c"%char) fp_a sub_t0;
   CallComplete "ask-acct:1f" (hash "c"%char) fp_a "{}" sub_t1;
   CallClaim "ask-acct:1f" (hash "c"%char) fp_b sub_t1; CallCleanup sub_t1].

Example sql_ledger_refines_memory_witness :
  let mem := perform_all sample_calls (∅ : MemoryLedger.rows) in
  let sql := perform_all sample_calls (∅ : Session.table) in
  mem.1 = sql.1 /\ MemoryLedger.view mem.2 = sql.2.
Proof.
  apply sql_ledger_refines_memory.
  repeat constructor; vm_compute; (reflexivity || discriminate).
Defined.

End Refinement.
