(* ===== verification/Password.v ===== *)
(** Password hashing: [app/auth/password.py].

    A stored password is [pbkdf2_sha256$iterations$salt$digest], the last two
    in hexadecimal. Bytes are texts of characters 0..255. [hashlib.pbkdf2_hmac]
    and the salts drawn from [secrets] are arguments. Python's limit on the
    number of digits [int] reads is not modelled. *)

From Stdlib Require Import DecimalString DecimalZ DecimalPos.
From S2P Require Import Prelude PyStr Json.
#[local] Open Scope Z_scope.

(** ** [bytes.hex] and [bytes.fromhex] *)
Module Hex.

Definition hex_chars (l : list ascii) : list ascii :=
  flat_map (fun c => let n := nat_of_ascii c in [hex_digit (n / 16); hex_digit (n mod 16)]) l.
Definition hex (b : string) : string := of_chars (hex_chars (chars b)).

Definition hex_value (c : ascii) : option nat :=
  let n := nat_of_ascii c in
  if (48 <=? n)%nat && (n <=? 57)%nat then Some (n - 48)%nat
  else if (97 <=? n)%nat && (n <=? 102)%nat then Some (n - 87)%nat
  else if (65 <=? n)%nat && (n <=? 70)%nat then Some (n - 55)%nat
  else None.

Definition ascii_space (c : ascii) : bool :=
  let n := nat_of_ascii c in (9 <=? n)%nat && (n <=? 13)%nat || (n =? 32)%nat.

(** White space is skipped between the pairs. *)
Fixpoint fromhex_chars (l : list ascii) : option (list ascii) :=
  match l with
  | [] => Some []
  | x :: ((y :: r) as tl) =>
      if ascii_space x then fromhex_chars tl
      else match hex_value x, hex_value y, fromhex_chars r with
           | Some a, Some b, Some rest => Some (ascii_of_nat (16 * a + b) :: rest)
           | _, _, _ => None
           end
  | [x] => if ascii_space x then Some [] else None
  end.
Definition fromhex (s : string) : option string := of_chars <$> fromhex_chars (chars s).

Lemma byte_hex c :
  let n := nat_of_ascii c in
  hex_value (hex_digit (n / 16)) = Some (n / 16)%nat /\ hex_value (hex_digit (n mod 16)) = Some (n mod 16)%nat
  /\ ascii_space (hex_digit (n / 16)) = false /\ ascii_of_nat (16 * (n / 16) + n mod 16) = c.
Proof. destruct c as [[] [] [] [] [] [] [] []]; repeat split; reflexivity. Qed.

Lemma fromhex_hex b : fromhex (hex b) = Some b.
Proof.
  unfold fromhex, hex. rewrite chars_of_chars.
  assert (forall l, fromhex_chars (hex_chars l) = Some l) as H.
  { induction l as [|c l IH]; [done |]. cbn [hex_chars flat_map app fromhex_chars].
    destruct (byte_hex c) as (H1 & H2 & H3 & H4). cbv zeta in *.
    rewrite H3, H1, H2. fold (hex_chars l). by rewrite IH, H4. }
  rewrite H. simpl. by rewrite of_chars_chars.
Qed.

Lemma hex_digit_not_dollar n : (n < 16)%nat -> Ascii.eqb "$" (hex_digit n) = false.
Proof. intros H. do 16 (destruct n as [|n]; [reflexivity |]). lia. Qed.

Lemma hex_no_dollar b : has_char "$" (hex b) = false.
Proof.
  unfold has_char, any_char, hex. rewrite chars_of_chars.
  induction (chars b) as [|c l IH]; [done |]. cbn [hex_chars flat_map app existsb].
  fold (hex_chars l). pose proof (nat_ascii_bounded c) as Hc.
  rewrite IH, (hex_digit_not_dollar (nat_of_ascii c / 16)), hex_digit_not_dollar; [done | |].
  - apply Nat.mod_upper_bound. lia.
  - apply Nat.Div0.div_lt_upper_bound. lia.
Qed.
End Hex.

(** ** [int(text)] *)
Module Int.

Definition digit_value (c : ascii) : Z := Z.of_nat (nat_of_ascii c - 48).

(** Digits with single underscores between them. *)
Fixpoint int_digits (after_digit : bool) (acc : Z) (l : list ascii) : option Z :=
  match l with
  | [] => if after_digit then Some acc else None
  | c :: r =>
      if is_digit c then int_digits true (10 * acc + digit_value c) r
      else if Ascii.eqb c "_" && after_digit then int_digits false acc r
      else None
  end.

Definition py_int (s : string) : option Z :=
  match chars (strip s) with
  | c :: r =>
      if Ascii.eqb c "-" then Z.opp <$> int_digits false 0 r
      else if Ascii.eqb c "+" then int_digits false 0 r
      else int_digits false 0 (c :: r)
  | [] => None
  end.

Definition str_int (z : Z) : string := NilZero.string_of_int (Z.to_int z).

(** *** Reading back what was printed *)

Fixpoint uint_value (acc : Z) (d : Decimal.uint) : Z :=
  match d with
  | Decimal.Nil => acc
  | Decimal.D0 d => uint_value (10 * acc + 0) d
  | Decimal.D1 d => uint_value (10 * acc + 1) d
  | Decimal.D2 d => uint_value (10 * acc + 2) d
  | Decimal.D3 d => uint_value (10 * acc + 3) d
  | Decimal.D4 d => uint_value (10 * acc + 4) d
  | Decimal.D5 d => uint_value (10 * acc + 5) d
  | Decimal.D6 d => uint_value (10 * acc + 6) d
  | Decimal.D7 d => uint_value (10 * acc + 7) d
  | Decimal.D8 d => uint_value (10 * acc + 8) d
  | Decimal.D9 d => uint_value (10 * acc + 9) d
  end.

Lemma int_digits_uint d acc b :
  int_digits b acc (chars (NilEmpty.string_of_uint d))
  = match d with Decimal.Nil => if b then Some acc else None | _ => Some (uint_value acc d) end.
Proof.
  revert acc b. induction d as [|d IH|d IH|d IH|d IH|d IH|d IH|d IH|d IH|d IH|d IH]; intros acc b;
    [done | ..];
    match goal with |- _ = Some (uint_value acc (?C d)) =>
      change (int_digits true (uint_value acc (C Decimal.Nil)) (chars (NilEmpty.string_of_uint d))
              = Some (uint_value (uint_value acc (C Decimal.Nil)) d)) end;
    rewrite IH; destruct d; reflexivity.
Qed.

Lemma uint_value_pos d p : uint_value (Z.pos p) d = Z.pos (Pos.of_uint_acc d p).
Proof.
  revert p. induction d as [|d IH|d IH|d IH|d IH|d IH|d IH|d IH|d IH|d IH|d IH]; intros p; [done | ..];
    cbn [uint_value Pos.of_uint_acc]; rewrite <- IH; f_equal; lia.
Qed.

Lemma uint_value_0 d : uint_value 0 d = Z.of_uint d.
Proof.
  unfold Z.of_uint. induction d as [|d IH|d _|d _|d _|d _|d _|d _|d _|d _|d _]; [done | exact IH | ..];
    apply (uint_value_pos d).
Qed.

Lemma nonneg_int n : 0 <= n -> exists d, Z.to_int n = Decimal.Pos d /\ Z.of_uint d = n.
Proof.
  intros H. pose proof (DecimalZ.of_to n) as E. destruct (Z.to_int n) as [d | d] eqn:Ed; [by exists d |].
  destruct n; simpl in Ed; try done; lia.
Qed.

Lemma str_int_nonneg n :
  0 <= n -> exists d, d <> Decimal.Nil /\ str_int n = NilEmpty.string_of_uint d /\ Z.of_uint d = n.
Proof.
  intros H. destruct (nonneg_int n H) as (d & Ed & En). unfold str_int. rewrite Ed.
  cbn [NilZero.string_of_int]. destruct d; try (eexists; by repeat split).
  exists (Decimal.D0 Decimal.Nil). by repeat split.
Qed.

(** A printed number is one character or more, all of them digits. *)
Lemma uint_digits d : all_char is_digit (NilEmpty.string_of_uint d) = true.
Proof.
  unfold all_char. induction d as [|d IH|d IH|d IH|d IH|d IH|d IH|d IH|d IH|d IH|d IH]; [done | ..];
    exact IH.
Qed.

Lemma digit_class c :
  is_digit c = true ->
  isspace c = false /\ Ascii.eqb c "-" = false /\ Ascii.eqb c "+" = false /\ Ascii.eqb "$" c = false.
Proof. destruct c as [[] [] [] [] [] [] [] []]; try discriminate; by repeat split. Qed.

Lemma digits_stripped s : all_char is_digit s = true -> strip s = s.
Proof.
  unfold all_char, strip. intros H.
  assert (forall l, forallb is_digit l = true -> drop_while isspace l = l) as Hd.
  { intros [|c l]; [done |]. simpl. intros [Hc _]%andb_true_iff.
    by destruct (digit_class c Hc) as (-> & _). }
  unfold lstrip_chars. rewrite Hd by done. unfold rstrip_chars. rewrite Hd, rev_involutive; [apply of_chars_chars |].
  apply forallb_forall. intros c Hc. apply in_rev in Hc. by apply (proj1 (forallb_forall _ _) H).
Qed.

Lemma py_int_str n : 0 <= n -> py_int (str_int n) = Some n.
Proof.
  intros H. destruct (str_int_nonneg n H) as (d & Hd & -> & En).
  pose proof (uint_digits d) as Hdig. unfold py_int. rewrite digits_stripped by done.
  pose proof (int_digits_uint d 0 false) as Hv. rewrite uint_value_0, En in Hv.
  unfold all_char in Hdig. destruct (chars (NilEmpty.string_of_uint d)) as [|c r].
  - destruct d; simpl in Hv; done.
  - simpl in Hdig. apply andb_true_iff in Hdig as [Hc _].
    destruct (digit_class c Hc) as (_ & -> & -> & _). rewrite Hv. by destruct d.
Qed.

Lemma str_int_no_dollar n : 0 <= n -> has_char "$" (str_int n) = false.
Proof.
  intros H. destruct (str_int_nonneg n H) as (d & _ & -> & _). pose proof (uint_digits d) as Hd.
  unfold has_char, any_char, all_char in *. apply not_true_iff_false. intros (c & Hc & Ec)%existsb_exists.
  apply (proj1 (forallb_forall _ _) Hd) in Hc. destruct (digit_class c Hc) as (_ & _ & _ & E). congruence.
Qed.
End Int.

(** ** [PasswordHasher] *)
Module Hasher.
Import Hex Int.

Definition ALGORITHM : string := "pbkdf2_sha256".
Definition DEFAULT_ITERATIONS : Z := 260000.
Definition HASH_BYTES : Z := 32.

(** What the methods raise is a [ValueError], their own or of the library. *)
Definition value_error : Type := string.

(** [PasswordHasher.__init__]. *)
Definition make_hasher (iterations : Z) : result value_error Z :=
  raise! "iterations must be at least 100000 for security."%string when iterations <? 100000 in
  Ok iterations.

(** [text.split(c, n)]: at most [n + 1] parts. *)
Fixpoint split_max (n : nat) (c : ascii) (s : string) : list string :=
  match n with
  | O => [s]
  | S n' => if has_char c s then before c s :: split_max n' c (after c s) else [s]
  end.

Section Hasher.
(** [hashlib.pbkdf2_hmac("sha256", password, salt, iterations, dklen)]. *)
Variable pbkdf2_hmac : string -> string -> Z -> Z -> string.

(** The library refuses an iteration count or a length below one. *)
Definition pbkdf2 (password salt : string) (iterations dklen : Z) : result value_error string :=
  raise! "iteration value must be greater than 0."%string when iterations <? 1 in
  raise! "key length must be greater than 0."%string when dklen <? 1 in
  Ok (pbkdf2_hmac password salt iterations dklen).

Definition hash (iterations : Z) (salt password : string) : result value_error string :=
  raise! "password must not be blank."%string when negb (nonempty password) in
  let! digest := pbkdf2 (utf8 password) salt iterations HASH_BYTES in
  Ok (ALGORITHM +:+ "$" +:+ str_int iterations +:+ "$" +:+ hex salt +:+ "$" +:+ hex digest).

Definition verify (password password_hash : string) : result value_error bool :=
  if negb (nonempty password) || negb (nonempty password_hash) then Ok false
  else
    match split_max 3 "$" password_hash with
    | [algorithm; iterations_s; salt_hex; digest_hex] =>
        if negb (String.eqb algorithm ALGORITHM) then Ok false
        else
          match py_int iterations_s, fromhex salt_hex, fromhex digest_hex with
          | Some iterations, Some salt, Some expected =>
              let! actual := pbkdf2 (utf8 password) salt iterations (len expected) in
              Ok (String.eqb actual expected)
          | _, _, _ => Ok false
          end
    | _ => Ok false
    end.

(** A derived key has the length that was asked for. *)
Hypothesis pbkdf2_length : forall p s i n, 1 <= n -> len (pbkdf2_hmac p s i n) = n.

Lemma split_step n p q :
  has_char "$" p = false -> split_max (S n) "$" (p +:+ "$" +:+ q) = p :: split_max n "$" q.
Proof.
  intros Hp. cbn [split_max]. change ("$" +:+ q) with (String "$" q).
  assert (has_char "$" (p +:+ String "$" q) = true) as -> by (rewrite has_char_app; by apply orb_true_r).
  by rewrite before_sep, after_sep.
Qed.

Lemma split_stored it salt digest :
  1 <= it ->
  split_max 3 "$" (ALGORITHM +:+ "$" +:+ str_int it +:+ "$" +:+ hex salt +:+ "$" +:+ hex digest)
  = [ALGORITHM; str_int it; hex salt; hex digest].
Proof.
  intros Hit. pose proof (str_int_no_dollar it ltac:(lia)). pose proof (hex_no_dollar salt).
  by rewrite !split_step.
Qed.

(** What a stored hash verifies. *)
Lemma hash_verifies it salt password :
  100000 <= it -> nonempty password = true ->
  exists stored, hash it salt password = Ok stored
    /\ (forall q, verify q stored
          = Ok (nonempty q && String.eqb (pbkdf2_hmac (utf8 q) salt it HASH_BYTES)
                                         (pbkdf2_hmac (utf8 password) salt it HASH_BYTES))).
Proof.
  intros Hit Hp.
  assert (forall p s n, 1 <= n -> pbkdf2 p s it n = Ok (pbkdf2_hmac p s it n)) as Hd.
  { intros p s n Hn. unfold pbkdf2. by rewrite !(proj2 (Z.ltb_ge _ _)) by lia. }
  unfold hash. rewrite Hp. cbn [negb guard_raise rbind]. rewrite Hd by done. cbn [rbind].
  set (digest := pbkdf2_hmac (utf8 password) salt it HASH_BYTES).
  eexists. split; [reflexivity |]. intros q. unfold verify. rewrite split_stored by lia.
  destruct (nonempty q); cbn [negb orb andb]; [| done].
  rewrite py_int_str, !fromhex_hex by lia. rewrite String.eqb_refl. cbn [negb].
  assert (len digest = HASH_BYTES) as -> by (by apply pbkdf2_length).
  by rewrite Hd.
Qed.

(** A stored password verifies exactly the passwords that derive its key.
    Whatever salt was drawn, hashing a password that is not blank succeeds, and
    the stored text verifies a password exactly when it is not blank and
    derives the stored digest from the stored salt - so the password itself
    always verifies - and a text that is blank, has another algorithm or does
    not split into four readable parts verifies nothing. *)
Theorem password_round_trip iterations it salt password :
  make_hasher iterations = Ok it -> nonempty password = true ->
  exists stored, hash it salt password = Ok stored
    /\ verify password stored = Ok true
    /\ (forall q, verify q stored
          = Ok (nonempty q && String.eqb (pbkdf2_hmac (utf8 q) salt it HASH_BYTES)
                                         (pbkdf2_hmac (utf8 password) salt it HASH_BYTES)))
    /\ (forall q other, verify q other = Ok true ->
          exists it' salt_hex digest_hex,
            split_max 3 "$" other = [ALGORITHM; it'; salt_hex; digest_hex]).
Proof.
  unfold make_hasher. intros Hit Hp. destruct (iterations <? 100000) eqn:Ei; [done |].
  injection Hit as <-. bool_simpl. destruct (hash_verifies iterations salt password Ei Hp) as (stored & Hs & Hv).
  exists stored. split; [done |]. split; [rewrite Hv, Hp; by rewrite String.eqb_refl |].
  split; [exact Hv |]. intros q other. unfold verify.
  destruct (_ || _); [done |].
  destruct (split_max 3 "$" other) as [|a [|b [|c [|d [|]]]]]; try done.
  destruct (String.eqb_spec a ALGORITHM) as [-> | ]; cbn [negb]; [| done]. intros _. by exists b, c, d.
Qed.
End Hasher.

(** A key derivation that only keeps its input's first characters. *)
Definition sample_pbkdf2 (password salt : string) (iterations n : Z) : string :=
  String.substring 0 (Z.to_nat n) ((password +:+ salt) +:+ of_chars (repeat "0"%char (Z.to_nat n))).

Lemma sample_pbkdf2_length p s i n : 1 <= n -> len (sample_pbkdf2 p s i n) = n.
Proof.
  intros Hn. unfold len, sample_pbkdf2. rewrite length_substring; [lia |].
  assert (forall a b, String.length (a +:+ b) = (String.length a + String.length b)%nat) as ->
    by (induction a as [|c a IH]; intros b; [done | simpl; by rewrite IH]).
  assert (forall k, String.length (of_chars (repeat "0"%char k)) = k) as ->
    by (induction k as [|k IH]; [done | simpl; by rewrite IH]).
  lia.
Qed.

Example password_round_trip_witness :
  exists stored, hash sample_pbkdf2 DEFAULT_ITERATIONS "salt" "Passw0rd" = Ok stored
    /\ verify sample_pbkdf2 "Passw0rd" stored = Ok true.
Proof.
  destruct (password_round_trip sample_pbkdf2 sample_pbkdf2_length DEFAULT_ITERATIONS DEFAULT_ITERATIONS
    "salt" "Passw0rd" eq_refl eq_refl) as (stored & H1 & H2 & _). exists stored. split; [exact H1 | exact H2].
Defined.

Example wrong_password :
  (let! stored := hash sample_pbkdf2 DEFAULT_ITERATIONS "salt" "Passw0rd" in
   verify sample_pbkdf2 "passw0rd" stored) = Ok false.
Proof. vm_compute. reflexivity. Qed.
End Hasher.
