(* ===== verification/PyRepr.v ===== *)
(** [repr] of texts and of lists of texts. *)

From S2P Require Import Prelude PyStr Password.

Module PyRepr.

Definition printable (c : ascii) : bool :=
  let n := nat_of_ascii c in
  ((32 <=? n)%nat && (n <=? 126)%nat) || ((161 <=? n)%nat && negb (n =? 173)%nat).

Definition backslash : string := String (ascii_of_nat 92) "".
Definition quote_char (single : bool) : ascii := ascii_of_nat (if single then 39 else 34).

Definition repr_char (quote : ascii) (c : ascii) : string :=
  let n := nat_of_ascii c in
  if Ascii.eqb c quote || (n =? 92)%nat then backslash +:+ String c ""
  else if (n =? 9)%nat then backslash +:+ "t"
  else if (n =? 10)%nat then backslash +:+ "n"
  else if (n =? 13)%nat then backslash +:+ "r"
  else if printable c then String c ""
  else backslash +:+ "x" +:+ Hex.hex (String c "").

(** [repr(s)]: in single quotes, unless only those occur in it. *)
Definition repr_str (s : string) : string :=
  let has n := has_char (ascii_of_nat n) s in
  let quote := quote_char (negb (has 39%nat && negb (has 34%nat))) in
  String quote (String.concat "" (map (repr_char quote) (chars s)) +:+ String quote "").

(** [str(list)] of texts. *)
Definition repr_list (l : list string) : string := "[" +:+ String.concat ", " (map repr_str l) +:+ "]".

Example repr_texts :
  map repr_str ["a b"; "it's"]%string = ["'a b'"%string; String (ascii_of_nat 34) ("it's" +:+ String (ascii_of_nat 34) "")]
  /\ repr_list ["x"; "y"]%string = "['x', 'y']"%string.
Proof. split; reflexivity. Qed.
End PyRepr.
