(* ===== verification/Users.v ===== *)
(** Accounts: the entities of [app/domain/entities/user_platform.py], the
    repositories the services are given
    ([app/domain/interfaces/user_platform_repository.py]) and the dictionaries of
    their in-memory adapters ([app/user/memory.py]; the adapters are UserMemory.v).

    Module [Entities]: the records. Module [Rows]: what a store of accounts
    holds, as one finite map per repository. Module [Store]: the interface of
    the repositories and its laws over [Rows]. Module [Indexed]: a dictionary with
    a secondary index, as the adapters keep. *)

From S2P Require Import Prelude PyStr Json Clock PyState OpStore.
#[local] Open Scope Z_scope.

(** ** Entities *)
Module Entities.

Record User := {
  u_id : string; u_email : string; u_password_hash : string; u_display_name : string;
  u_active : bool; u_verified : bool; u_created : option datetime; u_updated : option datetime;
  u_data_status : string
}.

(** Binary64 numbers as mantissa and exponent. *)
Record UserPreference := {
  up_user : string; budget : option (Z * Z); currency : string; country : string;
  shopping_goals : list string; categories : list string;
  battery_priority : Z * Z; camera_priority : Z * Z; performance_priority : Z * Z;
  travel_frequency : string; creator_mode : bool; gaming_mode : bool; student_mode : bool;
  business_mode : bool; preferred_screen_size : list string; preferred_colors : list string;
  personal_profile_id : option string; up_updated : option datetime
}.

Record FavoriteBrand := { fb_user : string; brand : string; fb_created : option datetime }.
Record FavoriteMarketplace := { fm_user : string; marketplace : string; fm_created : option datetime }.
Record Wishlist := { wl_user : string; wl_products : list string; wl_updated : option datetime }.
Record ProfileVersion := {
  pv_user : string; pv_version : Z; changed_at : option datetime; change_summary : string
}.

Record UserProfile := {
  pf_user : string; pf_display_name : string; preferences : UserPreference;
  favorite_brands : list FavoriteBrand; favorite_marketplaces : list FavoriteMarketplace;
  wishlist : option Wishlist; owned_products : list string; accessories : list string;
  pf_version : option ProfileVersion; pf_data_status : string
}.

Record NotificationPreference := {
  np_user : string; email_enabled : bool; push_enabled : bool; deal_alerts : bool;
  price_drop_alerts : bool; newsletter : bool
}.

Record UserSettings := {
  us_user : string; theme : string; language : string;
  notification_settings : option NotificationPreference; ai_mode_preference : string;
  privacy_settings : list (string * json); community_settings : list (string * json);
  us_updated : option datetime
}.

Record UserSession := {
  se_id : string; se_user : string; se_token_hash : string; se_created : datetime;
  se_expires : datetime; remember_me : bool; last_seen : option datetime;
  user_agent : option string; ip_hint : option string; csrf_token : option string; revoked : bool
}.

Record SavedProduct := {
  sp_id : string; sp_user : string; sp_product : string; sp_name : string;
  sp_marketplace : option string; sp_price : option (Z * Z); sp_currency : string;
  sp_notes : string; sp_favorite : bool; sp_created : option datetime
}.
Record SavedComparison := {
  sc_id : string; sc_user : string; sc_products : list string; sc_title : string;
  sc_notes : string; sc_created : option datetime
}.
Record RecommendationHistory := {
  rh_id : string; rh_user : string; rh_query : string; rh_summary : string;
  rh_products : list string; rh_profile : option string; rh_created : option datetime
}.
Record SavedSearch := {
  ss_id : string; ss_user : string; ss_query : string; ss_filters : list (string * json);
  ss_created : option datetime
}.
Record RecentlyViewed := { rv_user : string; rv_products : list string; rv_updated : option datetime }.

Record SecurityEvent := {
  ev_id : string; ev_type : string; ev_user : option string; ev_detail : string;
  ev_created : option datetime; ev_metadata : list (string * json)
}.

Record PasswordResetRequest := {
  pr_id : string; pr_user : string; pr_token_hash : string; pr_created : datetime;
  pr_expires : datetime; pr_consumed : bool
}.
Record EmailVerificationRequest := {
  vr_id : string; vr_user : string; vr_token_hash : string; vr_created : datetime;
  vr_expires : datetime; vr_consumed : bool
}.

Definition EMAIL_CHANGE_PURPOSE : string := "email_change".

Record EmailChangeRequest := {
  ec_id : string; ec_user : string; ec_token_hash : string; ec_new_email : string;
  ec_created : datetime; ec_expires : datetime; ec_purpose : string; ec_consumed : bool
}.

Record PolicyAcceptanceRecord := {
  pa_id : string; pa_user : string; pa_policy : string; pa_version : string;
  pa_accepted : datetime; pa_source : string; pa_actor : option string
}.

Definition consent_identity_key (user policy version : string) : string :=
  user +:+ ":" +:+ policy +:+ ":" +:+ version.

(** [UserSession(..., revoked=True)]. *)
Definition set_revoked (s : UserSession) : UserSession :=
  {| se_id := se_id s; se_user := se_user s; se_token_hash := se_token_hash s;
     se_created := se_created s; se_expires := se_expires s; remember_me := remember_me s;
     last_seen := last_seen s; user_agent := user_agent s; ip_hint := ip_hint s;
     csrf_token := csrf_token s; revoked := true |}.

(** The three kinds of one-time tokens. *)
Class TokenRecord (T : Type) := {
  tok_id : T -> string; tok_user : T -> string; tok_hash : T -> string;
  tok_consumed : T -> bool; tok_consume : T -> T
}.

#[global] Instance reset_token : TokenRecord PasswordResetRequest := {
  tok_id := pr_id; tok_user := pr_user; tok_hash := pr_token_hash; tok_consumed := pr_consumed;
  tok_consume r := {| pr_id := pr_id r; pr_user := pr_user r; pr_token_hash := pr_token_hash r;
                      pr_created := pr_created r; pr_expires := pr_expires r; pr_consumed := true |}
}.

#[global] Instance verification_token : TokenRecord EmailVerificationRequest := {
  tok_id := vr_id; tok_user := vr_user; tok_hash := vr_token_hash; tok_consumed := vr_consumed;
  tok_consume r := {| vr_id := vr_id r; vr_user := vr_user r; vr_token_hash := vr_token_hash r;
                      vr_created := vr_created r; vr_expires := vr_expires r; vr_consumed := true |}
}.

#[global] Instance change_token : TokenRecord EmailChangeRequest := {
  tok_id := ec_id; tok_user := ec_user; tok_hash := ec_token_hash; tok_consumed := ec_consumed;
  tok_consume r := {| ec_id := ec_id r; ec_user := ec_user r; ec_token_hash := ec_token_hash r;
                      ec_new_email := ec_new_email r; ec_created := ec_created r;
                      ec_expires := ec_expires r; ec_purpose := ec_purpose r; ec_consumed := true |}
}.

(** Consuming a token changes nothing else. *)
Class TokenRecordLaws (T : Type) {token : TokenRecord T} := {
  consume_id t : tok_id (tok_consume t) = tok_id t;
  consume_user t : tok_user (tok_consume t) = tok_user t;
  consume_hash t : tok_hash (tok_consume t) = tok_hash t;
  consume_consumed t : tok_consumed (tok_consume t) = true
}.

#[global] Instance reset_token_laws : TokenRecordLaws PasswordResetRequest.
Proof. by split. Qed.
#[global] Instance verification_token_laws : TokenRecordLaws EmailVerificationRequest.
Proof. by split. Qed.
#[global] Instance change_token_laws : TokenRecordLaws EmailChangeRequest.
Proof. by split. Qed.

(** [str.lower] on Latin-1: the capital letters with accents too. *)
Definition lower1_char (c : ascii) : ascii :=
  let n := nat_of_ascii c in
  if (192 <=? n)%nat && (n <=? 222)%nat && negb (n =? 215)%nat then ascii_of_nat (n + 32)
  else lower_char c.
Definition lower1 (s : string) : string := of_chars (map lower1_char (chars s)).

(** [email.strip().lower()]. *)
Definition norm_email (email : string) : string := lower1 (strip email).

Lemma lower1_char_space c : isspace (lower1_char c) = isspace c.
Proof. destruct c as [[] [] [] [] [] [] [] []]; reflexivity. Qed.

Lemma lower1_char_idemp c : lower1_char (lower1_char c) = lower1_char c.
Proof. destruct c as [[] [] [] [] [] [] [] []]; reflexivity. Qed.

Lemma strip_lower1 s : strip (lower1 s) = lower1 (strip s).
Proof.
  unfold strip, lower1, lstrip_chars, rstrip_chars. rewrite !chars_of_chars.
  rewrite drop_while_map by apply lower1_char_space.
  rewrite <- map_rev, drop_while_map, map_rev by apply lower1_char_space. done.
Qed.

Lemma norm_email_idemp e : norm_email (norm_email e) = norm_email e.
Proof.
  unfold norm_email. rewrite strip_lower1, strip_idemp. unfold lower1. rewrite chars_of_chars.
  f_equal. rewrite map_map. apply map_ext, lower1_char_idemp.
Qed.
End Entities.

(** ** Rows *)
Module Rows.
Import Entities.

Record profile_rows := {
  t_profiles : gmap string UserProfile; t_preferences : gmap string UserPreference;
  t_settings : gmap string UserSettings; t_wishlists : gmap string Wishlist;
  t_brands : gmap string (list FavoriteBrand); t_markets : gmap string (list FavoriteMarketplace)
}.

Record saved_rows := {
  t_products : gmap string SavedProduct; t_comparisons : gmap string SavedComparison;
  t_history : gmap string RecommendationHistory; t_searches : gmap string SavedSearch;
  t_recent : gmap string RecentlyViewed
}.

(** All that is stored. The watchlists and the notification preferences belong
    to other components; an account only sees who owns them. *)
Record rows := {
  r_users : gmap string User; r_sessions : gmap string UserSession;
  r_resets : gmap string PasswordResetRequest;
  r_verifications : gmap string EmailVerificationRequest;
  r_changes : gmap string EmailChangeRequest; r_consents : gmap string PolicyAcceptanceRecord;
  r_profile : profile_rows; r_saved : saved_rows;
  r_watchlists : gmap string string; r_center : gset string; r_audit : list SecurityEvent
}.

Definition with_users x (r : rows) : rows :=
  {| r_users := x; r_sessions := r_sessions r; r_resets := r_resets r;
     r_verifications := r_verifications r; r_changes := r_changes r; r_consents := r_consents r;
     r_profile := r_profile r; r_saved := r_saved r; r_watchlists := r_watchlists r;
     r_center := r_center r; r_audit := r_audit r |}.
Definition with_sessions x (r : rows) : rows :=
  {| r_users := r_users r; r_sessions := x; r_resets := r_resets r;
     r_verifications := r_verifications r; r_changes := r_changes r; r_consents := r_consents r;
     r_profile := r_profile r; r_saved := r_saved r; r_watchlists := r_watchlists r;
     r_center := r_center r; r_audit := r_audit r |}.
Definition with_resets x (r : rows) : rows :=
  {| r_users := r_users r; r_sessions := r_sessions r; r_resets := x;
     r_verifications := r_verifications r; r_changes := r_changes r; r_consents := r_consents r;
     r_profile := r_profile r; r_saved := r_saved r; r_watchlists := r_watchlists r;
     r_center := r_center r; r_audit := r_audit r |}.
Definition with_verifications x (r : rows) : rows :=
  {| r_users := r_users r; r_sessions := r_sessions r; r_resets := r_resets r;
     r_verifications := x; r_changes := r_changes r; r_consents := r_consents r;
     r_profile := r_profile r; r_saved := r_saved r; r_watchlists := r_watchlists r;
     r_center := r_center r; r_audit := r_audit r |}.
Definition with_changes x (r : rows) : rows :=
  {| r_users := r_users r; r_sessions := r_sessions r; r_resets := r_resets r;
     r_verifications := r_verifications r; r_changes := x; r_consents := r_consents r;
     r_profile := r_profile r; r_saved := r_saved r; r_watchlists := r_watchlists r;
     r_center := r_center r; r_audit := r_audit r |}.
Definition with_consents x (r : rows) : rows :=
  {| r_users := r_users r; r_sessions := r_sessions r; r_resets := r_resets r;
     r_verifications := r_verifications r; r_changes := r_changes r; r_consents := x;
     r_profile := r_profile r; r_saved := r_saved r; r_watchlists := r_watchlists r;
     r_center := r_center r; r_audit := r_audit r |}.
Definition with_profile x (r : rows) : rows :=
  {| r_users := r_users r; r_sessions := r_sessions r; r_resets := r_resets r;
     r_verifications := r_verifications r; r_changes := r_changes r; r_consents := r_consents r;
     r_profile := x; r_saved := r_saved r; r_watchlists := r_watchlists r;
     r_center := r_center r; r_audit := r_audit r |}.
Definition with_saved x (r : rows) : rows :=
  {| r_users := r_users r; r_sessions := r_sessions r; r_resets := r_resets r;
     r_verifications := r_verifications r; r_changes := r_changes r; r_consents := r_consents r;
     r_profile := r_profile r; r_saved := x; r_watchlists := r_watchlists r;
     r_center := r_center r; r_audit := r_audit r |}.
Definition with_watchlists x (r : rows) : rows :=
  {| r_users := r_users r; r_sessions := r_sessions r; r_resets := r_resets r;
     r_verifications := r_verifications r; r_changes := r_changes r; r_consents := r_consents r;
     r_profile := r_profile r; r_saved := r_saved r; r_watchlists := x;
     r_center := r_center r; r_audit := r_audit r |}.
Definition with_center x (r : rows) : rows :=
  {| r_users := r_users r; r_sessions := r_sessions r; r_resets := r_resets r;
     r_verifications := r_verifications r; r_changes := r_changes r; r_consents := r_consents r;
     r_profile := r_profile r; r_saved := r_saved r; r_watchlists := r_watchlists r;
     r_center := x; r_audit := r_audit r |}.
Definition with_audit x (r : rows) : rows :=
  {| r_users := r_users r; r_sessions := r_sessions r; r_resets := r_resets r;
     r_verifications := r_verifications r; r_changes := r_changes r; r_consents := r_consents r;
     r_profile := r_profile r; r_saved := r_saved r; r_watchlists := r_watchlists r;
     r_center := r_center r; r_audit := x |}.

(** Where the tokens of one kind are. *)
Class TokenTable (T : Type) := {
  tokens : rows -> gmap string T; with_tokens : gmap string T -> rows -> rows
}.
#[global] Instance reset_table : TokenTable PasswordResetRequest :=
  {| tokens := r_resets; with_tokens := with_resets |}.
#[global] Instance verification_table : TokenTable EmailVerificationRequest :=
  {| tokens := r_verifications; with_tokens := with_verifications |}.
#[global] Instance change_table : TokenTable EmailChangeRequest :=
  {| tokens := r_changes; with_tokens := with_changes |}.

(** A table under the ids of its records, with a second key that is unique. *)
Definition keyed {X K} (id : X -> string) (key : X -> K) (m : gmap string X) : Prop :=
  (forall i x, m !! i = Some x -> id x = i /\ i <> ""%string)
  /\ forall i j x y, m !! i = Some x -> m !! j = Some y -> key x = key y -> i = j.

Definition email_key (u : User) : string := norm_email (u_email u).
Definition consent_key (c : PolicyAcceptanceRecord) : string * string * string :=
  (pa_user c, pa_policy c, pa_version c).

Record rows_ok (r : rows) : Prop := {
  ok_users : keyed u_id email_key (r_users r);
  ok_sessions : keyed se_id se_token_hash (r_sessions r);
  ok_resets : keyed tok_id tok_hash (r_resets r);
  ok_verifications : keyed tok_id tok_hash (r_verifications r);
  ok_changes : keyed tok_id tok_hash (r_changes r);
  ok_consents : keyed pa_id consent_key (r_consents r)
}.

(** No other record holds the key of [x]. *)
Definition free {X K} (id : X -> string) (key : X -> K) (x : X) (m : gmap string X) : Prop :=
  forall i y, m !! i = Some y -> key y = key x -> i = id x.

Definition email_taken (u : User) (r : rows) : Prop :=
  exists i y, r_users r !! i = Some y /\ email_key y = email_key u /\ i <> u_id u.

Lemma keyed_insert {X K} (id : X -> string) (key : X -> K) x m :
  keyed id key m -> id x <> ""%string -> free id key x m -> keyed id key (<[id x := x]> m).
Proof.
  intros [Hid Hkey] Hne Hfree. split.
  - intros i y. destruct (decide (i = id x)) as [-> | Hi].
    + rewrite lookup_insert_eq. by intros [= <-].
    + rewrite lookup_insert_ne by done. apply Hid.
  - intros i j y z. destruct (decide (i = id x)) as [-> | Hi], (decide (j = id x)) as [-> | Hj];
      rewrite ?lookup_insert_eq, ?lookup_insert_ne by done; try (intros [= <-]); try (intros H [= <-]).
    + done.
    + intros Hz E. symmetry. by eapply Hfree.
    + intros E. by eapply Hfree.
    + by apply Hkey.
Qed.

Lemma keyed_sub {X K} (id : X -> string) (key : X -> K) m m' :
  keyed id key m ->
  (forall i x', m' !! i = Some x' -> exists x, m !! i = Some x /\ id x' = id x /\ key x' = key x) ->
  keyed id key m'.
Proof.
  intros [Hid Hkey] Hsub. split.
  - intros i x' H. destruct (Hsub i x' H) as (x & Hx & -> & _). by apply Hid.
  - intros i j x' y' Hi Hj E. destruct (Hsub i x' Hi) as (x & Hx & _ & Ex).
    destruct (Hsub j y' Hj) as (y & Hy & _ & Ey). apply (Hkey i j x y); congruence.
Qed.

(** Replacing a record by one with the same keys. *)
Lemma free_same {X K} (id : X -> string) (key : X -> K) m x y :
  keyed id key m -> m !! id x = Some x -> id y = id x -> key y = key x -> free id key y m.
Proof.
  intros [Hid Hkey] Hx Ei Ek i z Hz E. rewrite Ei. apply (Hkey i (id x) z x); congruence.
Qed.
End Rows.

(** ** The repositories and their laws *)
Module Store.
Import Entities Rows.

Inductive repo_exn :=
| EmailTaken (email : string)   (** [UserPlatformValidationError] of a save *)
| Unavailable (e : store_exn).  (** a persistence error *)

Class TokenStore (S T : Type) := {
  token_save : T -> act S repo_exn T;
  token_find : string -> act S repo_exn (option T);
  token_mark_consumed : string -> act S repo_exn unit;
  token_delete_for_user : string -> act S repo_exn Z
}.

Class AccountStore (S : Type) := {
  users_get_by_id : string -> act S repo_exn (option User);
  users_get_by_email : string -> act S repo_exn (option User);
  users_save : User -> act S repo_exn User;
  users_delete : string -> act S repo_exn bool;
  sessions_get_by_token_hash : string -> act S repo_exn (option UserSession);
  sessions_save : UserSession -> act S repo_exn UserSession;
  sessions_revoke : string -> act S repo_exn unit;
  sessions_revoke_all_for_user : string -> act S repo_exn Z;
  sessions_delete_all_for_user : string -> act S repo_exn Z;
  password_resets :: TokenStore S PasswordResetRequest;
  email_verifications :: TokenStore S EmailVerificationRequest;
  email_changes :: TokenStore S EmailChangeRequest;
  changes_list_for_user : string -> act S repo_exn (list EmailChangeRequest);
  changes_invalidate_for_user : string -> act S repo_exn Z;
  consents_get : string -> string -> string -> act S repo_exn (option PolicyAcceptanceRecord);
  consents_save : PolicyAcceptanceRecord -> act S repo_exn PolicyAcceptanceRecord;
  consents_delete_for_user : string -> act S repo_exn Z;
  profiles_save_profile : UserProfile -> act S repo_exn UserProfile;
  profiles_save_settings : UserSettings -> act S repo_exn UserSettings;
  profiles_delete_for_user : string -> act S repo_exn unit;
  saved_delete_all_for_user : string -> act S repo_exn unit;
  watchlists_of : string -> act S repo_exn (list string);
  watchlists_delete : string -> act S repo_exn bool;
  center_delete_preferences : string -> act S repo_exn bool;
  audit_append : SecurityEvent -> act S repo_exn SecurityEvent
}.

(** *** What the methods do to the rows *)

Definition save_profile_rows (p : UserProfile) (r : profile_rows) : profile_rows :=
  {| t_profiles := <[pf_user p := p]> (t_profiles r);
     t_preferences := <[pf_user p := preferences p]> (t_preferences r);
     t_settings := t_settings r;
     t_wishlists := match wishlist p with
                    | Some w => <[pf_user p := w]> (t_wishlists r) | None => t_wishlists r end;
     t_brands := <[pf_user p := favorite_brands p]> (t_brands r);
     t_markets := <[pf_user p := favorite_marketplaces p]> (t_markets r) |}.

Definition save_settings_rows (s : UserSettings) (r : profile_rows) : profile_rows :=
  {| t_profiles := t_profiles r; t_preferences := t_preferences r;
     t_settings := <[us_user s := s]> (t_settings r); t_wishlists := t_wishlists r;
     t_brands := t_brands r; t_markets := t_markets r |}.

Definition delete_profile_rows (u : string) (r : profile_rows) : profile_rows :=
  {| t_profiles := delete u (t_profiles r); t_preferences := delete u (t_preferences r);
     t_settings := delete u (t_settings r); t_wishlists := delete u (t_wishlists r);
     t_brands := delete u (t_brands r); t_markets := delete u (t_markets r) |}.

(** The records of everybody but [u]. *)
Definition without {X} (owner : X -> string) (u : string) (m : gmap string X) : gmap string X :=
  filter (fun kv => owner kv.2 <> u) m.

Definition delete_saved_rows (u : string) (r : saved_rows) : saved_rows :=
  {| t_products := without sp_user u (t_products r);
     t_comparisons := without sc_user u (t_comparisons r);
     t_history := without rh_user u (t_history r); t_searches := without ss_user u (t_searches r);
     t_recent := delete u (t_recent r) |}.

Definition revoke_sessions (u : string) (m : gmap string UserSession) : gmap string UserSession :=
  (fun s => if String.eqb (se_user s) u then set_revoked s else s) <$> m.

Definition invalidate_changes (u : string) (m : gmap string EmailChangeRequest)
    : gmap string EmailChangeRequest :=
  (fun c => if String.eqb (ec_user c) u then tok_consume c else c) <$> m.

(** *** The laws *)

(** What a store promises. [may_fail] is whether its methods may raise a
    persistence error; a method that raises has changed nothing. *)
Class AccountLaws (S : Type) {store : AccountStore S} := {
  lawful : S -> Prop;
  view : S -> rows;
  may_fail : Prop;
  view_ok s : lawful s -> rows_ok (view s);
  does {A} (m : act S repo_exn A) (pre : rows -> Prop) (post : rows -> A -> rows -> Prop) : Prop :=
    forall s, lawful s -> pre (view s) ->
      lawful (m s).2
      /\ match (m s).1 with
         | Ok a => post (view s) a (view (m s).2)
         | Err (EmailTaken _) => False
         | Err (Unavailable _) => may_fail /\ view (m s).2 = view s
         end;
  law_user_by_id i :
    does (users_get_by_id i) (fun _ => True) (fun r a r' => r' = r /\ a = r_users r !! i);
  law_user_by_email e :
    does (users_get_by_email e) (fun _ => True) (fun r a r' => r' = r
      /\ match a with
         | Some u => r_users r !! u_id u = Some u /\ email_key u = norm_email e
         | None => forall i u, r_users r !! i = Some u -> email_key u <> norm_email e
         end);
  law_user_save u s : lawful s -> u_id u <> ""%string ->
    lawful (users_save u s).2
    /\ match (users_save u s).1 with
       | Ok a => a = u /\ ~ email_taken u (view s)
                 /\ view (users_save u s).2 = with_users (<[u_id u := u]> (r_users (view s))) (view s)
       | Err (EmailTaken _) => email_taken u (view s) /\ view (users_save u s).2 = view s
       | Err (Unavailable _) => may_fail /\ view (users_save u s).2 = view s
       end;
  law_user_delete i :
    does (users_delete i) (fun _ => True) (fun r a r' =>
      r' = with_users (delete i (r_users r)) r /\ a = bool_decide (is_Some (r_users r !! i)));
  law_session_find h :
    does (sessions_get_by_token_hash h) (fun _ => True) (fun r a r' => r' = r
      /\ match a with
         | Some x => r_sessions r !! se_id x = Some x /\ se_token_hash x = h
         | None => forall i x, r_sessions r !! i = Some x -> se_token_hash x <> h
         end);
  law_session_save x :
    does (sessions_save x) (fun r => se_id x <> ""%string /\ free se_id se_token_hash x (r_sessions r)
                               /\ forall y, r_sessions r !! se_id x = Some y -> se_token_hash y = se_token_hash x)
      (fun r a r' => a = x /\ r' = with_sessions (<[se_id x := x]> (r_sessions r)) r);
  law_session_revoke i :
    does (sessions_revoke i) (fun _ => True)
      (fun r _ r' => r' = with_sessions (alter set_revoked i (r_sessions r)) r);
  law_session_revoke_all u :
    does (sessions_revoke_all_for_user u) (fun _ => True)
      (fun r _ r' => r' = with_sessions (revoke_sessions u (r_sessions r)) r);
  law_session_delete_all u :
    does (sessions_delete_all_for_user u) (fun _ => True)
      (fun r _ r' => r' = with_sessions (without se_user u (r_sessions r)) r);
  law_consent_get u p v :
    does (consents_get u p v) (fun _ => True) (fun r a r' => r' = r
      /\ match a with
         | Some c => r_consents r !! pa_id c = Some c /\ consent_key c = (u, p, v)
         | None => forall i c, r_consents r !! i = Some c -> consent_key c <> (u, p, v)
         end);
  law_consent_save c :
    does (consents_save c) (fun r => pa_id c <> ""%string /\ r_consents r !! pa_id c = None)
      (fun r a r' =>
        (a = c /\ (forall i x, r_consents r !! i = Some x -> consent_key x <> consent_key c)
         /\ r' = with_consents (<[pa_id c := c]> (r_consents r)) r)
        \/ (r_consents r !! pa_id a = Some a /\ consent_key a = consent_key c /\ r' = r));
  law_consent_delete u :
    does (consents_delete_for_user u) (fun _ => True)
      (fun r _ r' => r' = with_consents (without pa_user u (r_consents r)) r);
  law_profile_save p :
    does (profiles_save_profile p) (fun _ => True)
      (fun r _ r' => r' = with_profile (save_profile_rows p (r_profile r)) r);
  law_settings_save x :
    does (profiles_save_settings x) (fun _ => True)
      (fun r _ r' => r' = with_profile (save_settings_rows x (r_profile r)) r);
  law_profile_delete u :
    does (profiles_delete_for_user u) (fun _ => True)
      (fun r _ r' => r' = with_profile (delete_profile_rows u (r_profile r)) r);
  law_saved_delete u :
    does (saved_delete_all_for_user u) (fun _ => True)
      (fun r _ r' => r' = with_saved (delete_saved_rows u (r_saved r)) r);
  law_watchlists u :
    does (watchlists_of u) (fun _ => True)
      (fun r a r' => r' = r /\ forall i, i ∈ a <-> r_watchlists r !! i = Some u);
  law_watchlist_delete i :
    does (watchlists_delete i) (fun _ => True)
      (fun r _ r' => r' = with_watchlists (delete i (r_watchlists r)) r);
  law_center_delete u :
    does (center_delete_preferences u) (fun _ => True)
      (fun r a r' => r' = with_center (r_center r ∖ {[u]}) r /\ a = bool_decide (u ∈ r_center r));
  law_audit e :
    does (audit_append e) (fun _ => True) (fun r _ r' => r' = with_audit (r_audit r ++ [e]) r);
  law_changes_list u :
    does (changes_list_for_user u) (fun _ => True) (fun r a r' => r' = r
      /\ forall c, c ∈ a <-> r_changes r !! ec_id c = Some c /\ ec_user c = u);
  law_changes_invalidate u :
    does (changes_invalidate_for_user u) (fun _ => True)
      (fun r _ r' => r' = with_changes (invalidate_changes u (r_changes r)) r)
}.

(** The three token repositories keep one law. *)
Class TokenLaws (S T : Type) {store : AccountStore S} {laws : AccountLaws S} {ts : TokenStore S T}
    {token : TokenRecord T} {table : TokenTable T} := {
  law_token_save t :
    does (token_save t) (fun r => tok_id t <> ""%string /\ tokens r !! tok_id t = None
                           /\ free tok_id tok_hash t (tokens r))
      (fun r a r' => a = t /\ r' = with_tokens (<[tok_id t := t]> (tokens r)) r);
  law_token_find h :
    does (token_find h) (fun _ => True) (fun r a r' => r' = r
      /\ match a with
         | Some t => tokens r !! tok_id t = Some t /\ tok_hash t = h
         | None => forall i t, tokens r !! i = Some t -> tok_hash t <> h
         end);
  law_token_consume i :
    does (token_mark_consumed i) (fun _ => True)
      (fun r _ r' => r' = with_tokens (alter tok_consume i (tokens r)) r);
  law_token_delete u :
    does (token_delete_for_user u) (fun _ => True)
      (fun r _ r' => r' = with_tokens (without tok_user u (tokens r)) r)
}.
End Store.

(** ** A dictionary with a secondary index *)
Module Indexed.
Import Rows.

Section Indexed.
Context {X : Type} (id key owner : X -> string).

(** [_by_id] and [_by_token]. *)
Record indexed := { by_id : gmap string X; by_token : gmap string string }.
Implicit Types d : indexed.

Definition ix_empty : indexed := {| by_id := ∅; by_token := ∅ |}.

(** [self._by_id.get(i) if i else None]. *)
Definition ix_find (h : string) d : option X :=
  match by_token d !! h with
  | Some i => if nonempty i then by_id d !! i else None
  | None => None
  end.

(** A token is put in both dictionaries. *)
Definition ix_save (x : X) d : indexed :=
  {| by_id := <[id x := x]> (by_id d); by_token := <[key x := id x]> (by_token d) |}.

(** A session first leaves the index under its previous hash. *)
Definition ix_save_over (x : X) d : indexed :=
  let index :=
    match by_id d !! id x with
    | Some previous =>
        if bool_decide (by_token d !! key previous = Some (id x))
        then delete (key previous) (by_token d) else by_token d
    | None => by_token d
    end in
  {| by_id := <[id x := x]> (by_id d); by_token := <[key x := id x]> index |}.

(** The record is replaced under its id, the index is left alone. *)
Definition ix_replace (i : string) (f : X -> X) d : indexed :=
  match by_id d !! i with
  | Some x => {| by_id := <[i := f x]> (by_id d); by_token := by_token d |}
  | None => d
  end.

(** The body of the deletion loops. *)
Definition ix_delete_one (x : X) d : indexed :=
  {| by_id := delete (id x) (by_id d);
     by_token := if bool_decide (by_token d !! key x = Some (id x))
                 then delete (key x) (by_token d) else by_token d |}.

(** [for x in list(self._by_id.values()): if x.user_id != user: continue ...]. *)
Definition ix_delete_for_user (user : string) d : Z * indexed :=
  fold_left (fun (acc : Z * indexed) x =>
      if negb (String.eqb (owner x) user) then acc else (acc.1 + 1, ix_delete_one x acc.2))
    (map snd (map_to_list (by_id d))) (0, d).

(** *** The index is exact *)
Record ix_ok d : Prop := {
  ix_keyed : keyed id key (by_id d);
  ix_index h i : by_token d !! h = Some i <-> exists x, by_id d !! i = Some x /\ key x = h
}.

Lemma ix_empty_ok : ix_ok ix_empty.
Proof.
  split.
  - split; [intros i x H | intros i j x y H]; cbn in H; by rewrite lookup_empty in H.
  - intros h i. cbn. rewrite lookup_empty. split; [done |]. intros (x & H & _). by rewrite lookup_empty in H.
Qed.

Lemma ix_find_spec h d :
  ix_ok d ->
  match ix_find h d with
  | Some x => by_id d !! id x = Some x /\ key x = h
  | None => forall i x, by_id d !! i = Some x -> key x <> h
  end.
Proof.
  intros [[Hid Hkey] Hix]. unfold ix_find. destruct (by_token d !! h) as [i|] eqn:E.
  - apply Hix in E as (x & Hx & Ek). destruct (Hid i x Hx) as [<- Hne].
    assert (nonempty (id x) = true) as -> by (by apply nonempty_true). by rewrite Hx.
  - intros i x Hx Ek. assert (by_token d !! h = Some i) as H by (apply Hix; eauto). congruence.
Qed.

Lemma ix_insert_ok x d index :
  ix_ok d -> id x <> ""%string -> free id key x (by_id d) ->
  (forall h i, index !! h = Some i <-> i <> id x /\ by_token d !! h = Some i) ->
  ix_ok {| by_id := <[id x := x]> (by_id d); by_token := <[key x := id x]> index |}.
Proof.
  intros [Hk Hix] Hne Hfree Hindex. split; [by apply keyed_insert |].
  intros h i. cbn. destruct (decide (h = key x)) as [-> | Hh].
  - rewrite lookup_insert_eq. split.
    + intros [= <-]. exists x. by rewrite lookup_insert_eq.
    + intros (y & Hy & Ey). destruct (decide (i = id x)) as [-> | Hi]; [done |].
      rewrite lookup_insert_ne in Hy by done. f_equal. symmetry. by eapply Hfree.
  - rewrite lookup_insert_ne, Hindex, Hix by done. split.
    + intros (Hi & y & Hy & Ey). exists y. by rewrite lookup_insert_ne.
    + intros (y & Hy & Ey). destruct (decide (i = id x)) as [-> | Hi].
      * rewrite lookup_insert_eq in Hy. injection Hy as <-. done.
      * rewrite lookup_insert_ne in Hy by done. split; [done |]. by exists y.
Qed.

Lemma ix_save_ok x d :
  ix_ok d -> id x <> ""%string -> by_id d !! id x = None -> free id key x (by_id d) -> ix_ok (ix_save x d).
Proof.
  intros Hd Hne Hnew Hfree. apply ix_insert_ok; try done. intros h i. split; [| by intros [_ H]].
  intros H. split; [| done]. intros ->. apply (ix_index d Hd) in H as (y & Hy & _). congruence.
Qed.

Lemma ix_save_over_ok x d :
  ix_ok d -> id x <> ""%string -> free id key x (by_id d) -> ix_ok (ix_save_over x d).
Proof.
  intros Hd Hne Hfree. unfold ix_save_over. apply ix_insert_ok; try done. intros h i.
  destruct (by_id d !! id x) as [p|] eqn:Ep.
  - assert (by_token d !! key p = Some (id x)) as Hp by (apply (ix_index d Hd); eauto).
    rewrite bool_decide_eq_true_2 by done. destruct (decide (h = key p)) as [-> | Hh].
    + rewrite lookup_delete_eq, Hp. split; [done |]. intros [H [= E]]. by rewrite E in H.
    + rewrite lookup_delete_ne by done. split; [| by intros [_ H]]. intros H. split; [| done].
      intros ->. apply (ix_index d Hd) in H as (y & Hy & Ey). congruence.
  - split; [| by intros [_ H]]. intros H. split; [| done]. intros ->.
    apply (ix_index d Hd) in H as (y & Hy & _). congruence.
Qed.

Lemma ix_replace_ok i f d :
  ix_ok d -> (forall x, id (f x) = id x /\ key (f x) = key x) ->
  ix_ok (ix_replace i f d) /\ by_id (ix_replace i f d) = alter f i (by_id d).
Proof.
  intros Hd Hf. unfold ix_replace. destruct (by_id d !! i) as [x|] eqn:Ex.
  - assert (<[i := f x]> (by_id d) = alter f i (by_id d)) as Ea.
    { apply map_eq. intros j. destruct (decide (j = i)) as [-> | Hj].
      - by rewrite lookup_insert_eq, lookup_alter_eq, Ex.
      - by rewrite lookup_insert_ne, lookup_alter_ne. }
    split; [| exact Ea]. cbn. rewrite Ea. destruct Hd as [Hk Hix].
    assert (forall j y', alter f i (by_id d) !! j = Some y' ->
              exists y, by_id d !! j = Some y /\ id y' = id y /\ key y' = key y) as Hsub.
    { intros j y'. destruct (decide (j = i)) as [-> | Hj].
      - rewrite lookup_alter_eq, Ex. cbn. intros [= <-]. exists x. split; [done |]. apply Hf.
      - rewrite lookup_alter_ne by done. by exists y'. }
    split; [by eapply keyed_sub |]. intros h j. cbn. rewrite Hix. split.
    + intros (y & Hy & Ey). destruct (decide (j = i)) as [-> | Hj].
      * exists (f x). rewrite lookup_alter_eq, Ex. split; [done |]. destruct (Hf x) as [_ ->]. congruence.
      * exists y. by rewrite lookup_alter_ne.
    + intros (y' & Hy' & Ey'). destruct (Hsub j y' Hy') as (y & Hy & _ & Ey). exists y. split; congruence.
  - split; [done |]. symmetry. apply map_eq. intros j. destruct (decide (j = i)) as [-> | Hj].
    + by rewrite lookup_alter_eq, Ex.
    + by rewrite lookup_alter_ne.
Qed.

Lemma ix_delete_one_ok x d :
  ix_ok d -> by_id d !! id x = Some x -> ix_ok (ix_delete_one x d).
Proof.
  intros [Hk Hix] Hx. assert (by_token d !! key x = Some (id x)) as Hh by (apply Hix; eauto).
  unfold ix_delete_one. rewrite bool_decide_eq_true_2 by done. split.
  - eapply keyed_sub; [exact Hk |]. intros i y Hy. cbn in Hy.
    apply lookup_delete_Some in Hy as [_ Hy]. by exists y.
  - intros h i. cbn. rewrite lookup_delete_Some, Hix. split.
    + intros (Hne & y & Hy & Ey). exists y. split; [| done]. apply lookup_delete_Some. split; [| done].
      intros <-. congruence.
    + intros (y & (Hne & Hy)%lookup_delete_Some & Ey). split; [| by exists y].
      intros <-. apply Hne. symmetry. by apply (proj2 Hk i (id x) y x).
Qed.
End Indexed.
Arguments indexed : clear implicits.
End Indexed.
(** The deletion loop removes exactly the user's records. *)
Section DeleteLoop.
Context {X : Type} (id key owner : X -> string).
Implicit Types d e : Indexed.indexed X.
Import Rows Indexed Store.

Lemma lookup_without (m : gmap string X) u i :
  without owner u m !! i
  = match m !! i with Some x => if String.eqb (owner x) u then None else Some x | None => None end.
Proof.
  unfold without. rewrite map_lookup_filter. destruct (m !! i) as [x|]; [| done]. cbn.
  destruct (String.eqb_spec (owner x) u); by case_guard.
Qed.

Definition delete_step (user : string) (acc : Z * indexed X) (x : X) : Z * indexed X :=
  if negb (String.eqb (owner x) user) then acc else (acc.1 + 1, ix_delete_one id key x acc.2).

(** [l] is what is left to visit. *)
Lemma delete_steps user d l n e :
  ix_ok id key e -> Forall (fun x => by_id d !! id x = Some x) l -> NoDup (map id l) ->
  (forall i, by_id e !! i = if existsb (fun x => String.eqb (id x) i) l then by_id d !! i
                             else without owner user (by_id d) !! i) ->
  let e' := (fold_left (delete_step user) l (n, e)).2 in
  ix_ok id key e' /\ by_id e' = without owner user (by_id d).
Proof.
  revert n e. induction l as [|x l IH]; intros n e He Hall Hnd Hrows; cbv zeta; cbn [fold_left].
  { split; [done |]. by apply map_eq. }
  apply Forall_cons_1 in Hall as [Hx Hall]. cbn [map] in Hnd. apply NoDup_cons in Hnd as [Hnin Hnd].
  assert (existsb (fun y => String.eqb (id y) (id x)) l = false) as Habs.
  { apply not_true_iff_false. intros (y & Hy & E)%existsb_exists. apply String.eqb_eq in E. apply Hnin.
    rewrite <- E. apply list_elem_of_In, in_map. done. }
  destruct (delete_step user (n, e) x) as [n' e'] eqn:Es. revert Es. unfold delete_step. cbn [fst snd].
  destruct (String.eqb_spec (owner x) user) as [Eo | Eo]; cbn [negb]; intros [= <- <-].
  - apply IH; try done.
    + apply ix_delete_one_ok; [done |]. rewrite Hrows. cbn. by rewrite String.eqb_refl, Hx.
    + intros i. cbn. destruct (decide (i = id x)) as [-> | Hi].
      * by rewrite lookup_delete_eq, Habs, lookup_without, Hx, Eo, String.eqb_refl.
      * rewrite lookup_delete_ne, Hrows by done. cbn.
        by rewrite (proj2 (String.eqb_neq (id x) i)) by congruence.
  - apply IH; try done. intros i. rewrite Hrows. cbn.
    destruct (String.eqb_spec (id x) i) as [<- | Hi]; [| done].
    cbn. rewrite Habs, lookup_without, Hx. by apply String.eqb_neq in Eo as ->.
Qed.

Lemma elem_of_values d x : ix_ok id key d -> x ∈ map snd (map_to_list (by_id d)) <-> by_id d !! id x = Some x.
Proof.
  intros [[Hid _] _]. rewrite list_elem_of_fmap. split.
  - intros ([i y] & -> & Hy%elem_of_map_to_list). cbn. by destruct (Hid i y Hy) as [-> _].
  - intros H. exists (id x, x). split; [done |]. by apply elem_of_map_to_list.
Qed.

Lemma NoDup_ids d : ix_ok id key d -> NoDup (map id (map snd (map_to_list (by_id d)))).
Proof.
  intros [[Hid _] _]. rewrite map_map.
  assert (map (fun kv => id kv.2) (map_to_list (by_id d)) = map fst (map_to_list (by_id d))) as ->.
  { apply map_ext_in. intros [i x] Hx. cbn. apply list_elem_of_In, elem_of_map_to_list in Hx.
    by destruct (Hid i x Hx). }
  apply NoDup_fst_map_to_list.
Qed.

Lemma visited_all d i : ix_ok id key d ->
  existsb (fun x => String.eqb (id x) i) (map snd (map_to_list (by_id d))) = false -> by_id d !! i = None.
Proof.
  intros Hd E. destruct (by_id d !! i) as [x|] eqn:Ex; [| done]. exfalso. apply not_true_iff_false in E.
  apply E, existsb_exists. destruct (ix_keyed id key d Hd) as [Hid _]. destruct (Hid i x Ex) as [<- _].
  exists x. split; [| apply String.eqb_refl]. by apply list_elem_of_In, (elem_of_values d x Hd).
Qed.

Lemma delete_loop_spec user d :
  ix_ok id key d ->
  let d' := (ix_delete_for_user id key owner user d).2 in
  ix_ok id key d' /\ by_id d' = without owner user (by_id d).
Proof.
  intros Hd. unfold ix_delete_for_user. apply delete_steps.
  - done.
  - apply Forall_forall. intros x. by apply elem_of_values.
  - by apply NoDup_ids.
  - intros i. destruct (existsb _ _) eqn:E; [done |]. rewrite lookup_without. by rewrite (visited_all d i Hd E).
Qed.
End DeleteLoop.
