(* ===== verification/UserMemory.v ===== *)
(** The in-memory repositories of accounts: [app/user/memory.py].

    Each repository is its dictionaries; a method runs on its own repository
    and leaves the others alone. Module [UserMemory]: the methods. Module
    [MemoryLaws]: they keep the laws of [Users.Store], and never fail. Module
    [Flaky]: any lawful store, failing at the calls a script names. *)

From S2P Require Import Prelude PyStr Json Clock PyState OpStore Users.
Import Entities Rows Store Indexed.
#[local] Open Scope Z_scope.

(** ** The adapters *)
Module UserMemory.

(** [InMemoryUserRepository]. *)
Record user_repo := { ub_id : gmap string User; ub_email : gmap string string }.

Definition user_get_by_id (i : string) (d : user_repo) : option User := ub_id d !! i.

Definition user_get_by_email (email : string) (d : user_repo) : option User :=
  match ub_email d !! norm_email email with
  | Some i => if nonempty i then ub_id d !! i else None
  | None => None
  end.

Definition user_save (u : User) (d : user_repo) : result repo_exn User * user_repo :=
  let email := norm_email (u_email u) in
  if match ub_email d !! email with
     | Some existing => nonempty existing && negb (String.eqb existing (u_id u))
     | None => false
     end
  then (Err (EmailTaken email), d)
  else
    let index := filter (fun kv => ~ (kv.2 = u_id u /\ kv.1 <> email)) (ub_email d) in
    (Ok u, {| ub_id := <[u_id u := u]> (ub_id d); ub_email := <[email := u_id u]> index |}).

Definition list_users (d : user_repo) : list User :=
  map snd (sorted str_ltb fst (map_to_list (ub_id d))).

Definition user_delete (i : string) (d : user_repo) : bool * user_repo :=
  match ub_id d !! i with
  | None => (false, d)
  | Some u =>
      let email := norm_email (u_email u) in
      (true, {| ub_id := delete i (ub_id d);
                ub_email := if bool_decide (ub_email d !! email = Some i)
                            then delete email (ub_email d) else ub_email d |})
  end.

(** [InMemorySessionRepository]. *)
Definition session_repo := indexed UserSession.

Definition session_get_by_id (i : string) (d : session_repo) : option UserSession := by_id d !! i.
Definition session_get_by_token_hash (h : string) (d : session_repo) : option UserSession := ix_find h d.
Definition session_save (s : UserSession) (d : session_repo) : session_repo :=
  ix_save_over se_id se_token_hash s d.
Definition session_revoke (i : string) (d : session_repo) : session_repo :=
  match by_id d !! i with Some s => session_save (set_revoked s) d | None => d end.

Definition session_revoke_all_for_user (user : string) (d : session_repo) : Z * session_repo :=
  fold_left (fun (acc : Z * session_repo) s =>
      if String.eqb (se_user s) user && negb (revoked s)
      then (acc.1 + 1, session_revoke (se_id s) acc.2) else acc)
    (map snd (map_to_list (by_id d))) (0, d).

Definition session_list_for_user (user : string) (d : session_repo) : list UserSession :=
  List.filter (fun s => String.eqb (se_user s) user) (map snd (map_to_list (by_id d))).
Definition session_delete_all_for_user (user : string) (d : session_repo) : Z * session_repo :=
  ix_delete_for_user se_id se_token_hash se_user user d.

(** The three token repositories. *)
Section Tokens.
Context {T : Type} {token : TokenRecord T}.

Definition tok_save (t : T) (d : indexed T) : indexed T := ix_save tok_id tok_hash t d.
Definition tok_get_by_token_hash (h : string) (d : indexed T) : option T := ix_find h d.
Definition tok_mark_consumed (i : string) (d : indexed T) : indexed T := ix_replace i tok_consume d.
Definition tok_delete_for_user (user : string) (d : indexed T) : Z * indexed T :=
  ix_delete_for_user tok_id tok_hash tok_user user d.
End Tokens.

(** [InMemoryEmailChangeRepository] has two more methods. *)
Definition change_list_for_user (user : string) (d : indexed EmailChangeRequest)
    : list EmailChangeRequest :=
  List.filter (fun c => String.eqb (ec_user c) user) (map snd (map_to_list (by_id d))).

Definition change_invalidate_for_user (user : string) (d : indexed EmailChangeRequest)
    : Z * indexed EmailChangeRequest :=
  fold_left (fun (acc : Z * indexed EmailChangeRequest) c =>
      if negb (String.eqb (ec_user c) user) || ec_consumed c then acc
      else (acc.1 + 1, tok_mark_consumed (ec_id c) acc.2))
    (map snd (map_to_list (by_id d))) (0, d).

(** [InMemoryConsentRepository]. *)
Definition consent_repo := gmap string PolicyAcceptanceRecord.

Definition consent_get (user policy version : string) (d : consent_repo) : option PolicyAcceptanceRecord :=
  List.find (fun c => String.eqb (pa_user c) user && String.eqb (pa_policy c) policy
                      && String.eqb (pa_version c) version)
    (map snd (map_to_list d)).
Definition consent_save (c : PolicyAcceptanceRecord) (d : consent_repo) : PolicyAcceptanceRecord * consent_repo :=
  match consent_get (pa_user c) (pa_policy c) (pa_version c) d with
  | Some existing => (existing, d)
  | None => (c, <[pa_id c := c]> d)
  end.
Definition consent_delete_for_user (user : string) (d : consent_repo) : Z * consent_repo :=
  fold_left (fun (acc : Z * consent_repo) kv =>
      if String.eqb (pa_user kv.2) user then (acc.1 + 1, delete kv.1 acc.2) else acc)
    (map_to_list d) (0, d).

(** [InMemorySavedItemsRepository.delete_all_for_user]. *)
Definition delete_items {X} (owner : X -> string) (user : string) (d : gmap string X) : gmap string X :=
  fold_left (fun acc kv => if String.eqb (owner kv.2) user then delete kv.1 acc else acc)
    (map_to_list d) d.
Definition saved_delete_all (user : string) (d : saved_rows) : saved_rows :=
  {| t_products := delete_items sp_user user (t_products d);
     t_comparisons := delete_items sc_user user (t_comparisons d);
     t_history := delete_items rh_user user (t_history d);
     t_searches := delete_items ss_user user (t_searches d);
     t_recent := delete user (t_recent d) |}.

(** [InMemoryProfileRepository.save_preferences] and [save_wishlist] keep the
    stored profile in step. *)
Definition profile_with (f : UserProfile -> UserProfile) (user : string) (d : profile_rows)
    : gmap string UserProfile :=
  match t_profiles d !! user with Some p => <[user := f p]> (t_profiles d) | None => t_profiles d end.

Definition with_preferences (x : UserPreference) (p : UserProfile) : UserProfile :=
  {| pf_user := pf_user p; pf_display_name := pf_display_name p; preferences := x;
     favorite_brands := favorite_brands p; favorite_marketplaces := favorite_marketplaces p;
     wishlist := wishlist p; owned_products := owned_products p; accessories := accessories p;
     pf_version := pf_version p; pf_data_status := pf_data_status p |}.
Definition with_wishlist (x : Wishlist) (p : UserProfile) : UserProfile :=
  {| pf_user := pf_user p; pf_display_name := pf_display_name p; preferences := preferences p;
     favorite_brands := favorite_brands p; favorite_marketplaces := favorite_marketplaces p;
     wishlist := Some x; owned_products := owned_products p; accessories := accessories p;
     pf_version := pf_version p; pf_data_status := pf_data_status p |}.

Definition save_preferences (x : UserPreference) (d : profile_rows) : profile_rows :=
  {| t_profiles := profile_with (with_preferences x) (up_user x) d;
     t_preferences := <[up_user x := x]> (t_preferences d); t_settings := t_settings d;
     t_wishlists := t_wishlists d; t_brands := t_brands d; t_markets := t_markets d |}.
Definition save_wishlist (x : Wishlist) (d : profile_rows) : profile_rows :=
  {| t_profiles := profile_with (with_wishlist x) (wl_user x) d;
     t_preferences := t_preferences d; t_settings := t_settings d;
     t_wishlists := <[wl_user x := x]> (t_wishlists d); t_brands := t_brands d;
     t_markets := t_markets d |}.

(** [InMemoryUserPlatformStore], with the owners of the watchlists and the
    users with notification preferences. *)
Record platform := {
  p_users : user_repo; p_sessions : session_repo; p_resets : indexed PasswordResetRequest;
  p_verifications : indexed EmailVerificationRequest; p_changes : indexed EmailChangeRequest;
  p_consents : consent_repo; p_profiles : profile_rows; p_saved : saved_rows;
  p_watchlists : gmap string string; p_center : gset string; p_audit : list SecurityEvent
}.

Definition empty_platform : platform :=
  {| p_users := {| ub_id := ∅; ub_email := ∅ |}; p_sessions := ix_empty; p_resets := ix_empty;
     p_verifications := ix_empty; p_changes := ix_empty; p_consents := ∅;
     p_profiles := {| t_profiles := ∅; t_preferences := ∅; t_settings := ∅; t_wishlists := ∅;
                      t_brands := ∅; t_markets := ∅ |};
     p_saved := {| t_products := ∅; t_comparisons := ∅; t_history := ∅; t_searches := ∅; t_recent := ∅ |};
     p_watchlists := ∅; p_center := ∅; p_audit := [] |}.

Definition set_users x (s : platform) : platform :=
  {| p_users := x; p_sessions := p_sessions s; p_resets := p_resets s;
     p_verifications := p_verifications s; p_changes := p_changes s; p_consents := p_consents s;
     p_profiles := p_profiles s; p_saved := p_saved s; p_watchlists := p_watchlists s;
     p_center := p_center s; p_audit := p_audit s |}.
Definition set_sessions x (s : platform) : platform :=
  {| p_users := p_users s; p_sessions := x; p_resets := p_resets s;
     p_verifications := p_verifications s; p_changes := p_changes s; p_consents := p_consents s;
     p_profiles := p_profiles s; p_saved := p_saved s; p_watchlists := p_watchlists s;
     p_center := p_center s; p_audit := p_audit s |}.
Definition set_resets x (s : platform) : platform :=
  {| p_users := p_users s; p_sessions := p_sessions s; p_resets := x;
     p_verifications := p_verifications s; p_changes := p_changes s; p_consents := p_consents s;
     p_profiles := p_profiles s; p_saved := p_saved s; p_watchlists := p_watchlists s;
     p_center := p_center s; p_audit := p_audit s |}.
Definition set_verifications x (s : platform) : platform :=
  {| p_users := p_users s; p_sessions := p_sessions s; p_resets := p_resets s;
     p_verifications := x; p_changes := p_changes s; p_consents := p_consents s;
     p_profiles := p_profiles s; p_saved := p_saved s; p_watchlists := p_watchlists s;
     p_center := p_center s; p_audit := p_audit s |}.
Definition set_changes x (s : platform) : platform :=
  {| p_users := p_users s; p_sessions := p_sessions s; p_resets := p_resets s;
     p_verifications := p_verifications s; p_changes := x; p_consents := p_consents s;
     p_profiles := p_profiles s; p_saved := p_saved s; p_watchlists := p_watchlists s;
     p_center := p_center s; p_audit := p_audit s |}.
Definition set_consents x (s : platform) : platform :=
  {| p_users := p_users s; p_sessions := p_sessions s; p_resets := p_resets s;
     p_verifications := p_verifications s; p_changes := p_changes s; p_consents := x;
     p_profiles := p_profiles s; p_saved := p_saved s; p_watchlists := p_watchlists s;
     p_center := p_center s; p_audit := p_audit s |}.
Definition set_profiles x (s : platform) : platform :=
  {| p_users := p_users s; p_sessions := p_sessions s; p_resets := p_resets s;
     p_verifications := p_verifications s; p_changes := p_changes s; p_consents := p_consents s;
     p_profiles := x; p_saved := p_saved s; p_watchlists := p_watchlists s;
     p_center := p_center s; p_audit := p_audit s |}.
Definition set_saved x (s : platform) : platform :=
  {| p_users := p_users s; p_sessions := p_sessions s; p_resets := p_resets s;
     p_verifications := p_verifications s; p_changes := p_changes s; p_consents := p_consents s;
     p_profiles := p_profiles s; p_saved := x; p_watchlists := p_watchlists s;
     p_center := p_center s; p_audit := p_audit s |}.
Definition set_watchlists x (s : platform) : platform :=
  {| p_users := p_users s; p_sessions := p_sessions s; p_resets := p_resets s;
     p_verifications := p_verifications s; p_changes := p_changes s; p_consents := p_consents s;
     p_profiles := p_profiles s; p_saved := p_saved s; p_watchlists := x; p_center := p_center s;
     p_audit := p_audit s |}.
Definition set_center x (s : platform) : platform :=
  {| p_users := p_users s; p_sessions := p_sessions s; p_resets := p_resets s;
     p_verifications := p_verifications s; p_changes := p_changes s; p_consents := p_consents s;
     p_profiles := p_profiles s; p_saved := p_saved s; p_watchlists := p_watchlists s;
     p_center := x; p_audit := p_audit s |}.
Definition set_audit x (s : platform) : platform :=
  {| p_users := p_users s; p_sessions := p_sessions s; p_resets := p_resets s;
     p_verifications := p_verifications s; p_changes := p_changes s; p_consents := p_consents s;
     p_profiles := p_profiles s; p_saved := p_saved s; p_watchlists := p_watchlists s;
     p_center := p_center s; p_audit := x |}.

(** A method that reads, one that writes, and one that does both. *)
Definition reads {A} (f : platform -> A) : act platform repo_exn A := fun s => (Ok (f s), s).
Definition writes {A} (a : A) (f : platform -> platform) : act platform repo_exn A := fun s => (Ok a, f s).
Definition runs {A R} (get : platform -> R) (put : R -> platform -> platform) (f : R -> A * R)
    : act platform repo_exn A := fun s => (Ok (f (get s)).1, put (f (get s)).2 s).

Definition token_methods {T} {token : TokenRecord T} (get : platform -> indexed T)
    (put : indexed T -> platform -> platform) : TokenStore platform T := {|
  token_save t := runs get put (fun d => (t, tok_save t d));
  token_find h := reads (fun s => tok_get_by_token_hash h (get s));
  token_mark_consumed i := runs get put (fun d => (tt, tok_mark_consumed i d));
  token_delete_for_user u := runs get put (tok_delete_for_user u)
|}.

#[global] Instance memory_accounts : AccountStore platform := {
  users_get_by_id i := reads (fun s => user_get_by_id i (p_users s));
  users_get_by_email e := reads (fun s => user_get_by_email e (p_users s));
  users_save u := fun s => let '(r, d) := user_save u (p_users s) in (r, set_users d s);
  users_delete i := runs p_users set_users (user_delete i);
  sessions_get_by_token_hash h := reads (fun s => session_get_by_token_hash h (p_sessions s));
  sessions_save x := runs p_sessions set_sessions (fun d => (x, session_save x d));
  sessions_revoke i := runs p_sessions set_sessions (fun d => (tt, session_revoke i d));
  sessions_revoke_all_for_user u := runs p_sessions set_sessions (session_revoke_all_for_user u);
  sessions_delete_all_for_user u := runs p_sessions set_sessions (session_delete_all_for_user u);
  password_resets := token_methods p_resets set_resets;
  email_verifications := token_methods p_verifications set_verifications;
  email_changes := token_methods p_changes set_changes;
  changes_list_for_user u := reads (fun s => change_list_for_user u (p_changes s));
  changes_invalidate_for_user u := runs p_changes set_changes (change_invalidate_for_user u);
  consents_get u p v := reads (fun s => consent_get u p v (p_consents s));
  consents_save c := runs p_consents set_consents (consent_save c);
  consents_delete_for_user u := runs p_consents set_consents (consent_delete_for_user u);
  profiles_save_profile p := writes p (fun s => set_profiles (save_profile_rows p (p_profiles s)) s);
  profiles_save_settings x := writes x (fun s => set_profiles (save_settings_rows x (p_profiles s)) s);
  profiles_delete_for_user u := writes tt (fun s => set_profiles (delete_profile_rows u (p_profiles s)) s);
  saved_delete_all_for_user u := writes tt (fun s => set_saved (saved_delete_all u (p_saved s)) s);
  watchlists_of u := reads (fun s =>
    map fst (List.filter (fun kv => String.eqb kv.2 u) (map_to_list (p_watchlists s))));
  watchlists_delete i := fun s =>
    (Ok (bool_decide (is_Some (p_watchlists s !! i))), set_watchlists (delete i (p_watchlists s)) s);
  center_delete_preferences u := fun s =>
    (Ok (bool_decide (u ∈ p_center s)), set_center (p_center s ∖ {[u]}) s);
  audit_append e := writes e (fun s => set_audit (p_audit s ++ [e]) s)
}.
End UserMemory.

(** ** The laws *)
Module MemoryLaws.
Import UserMemory.

(** *** Users *)

Record users_ok (d : user_repo) : Prop := {
  uk_keyed : keyed u_id email_key (ub_id d);
  uk_index e i : ub_email d !! e = Some i <-> exists u, ub_id d !! i = Some u /\ email_key u = e
}.

Lemma user_find_spec e d :
  users_ok d ->
  match user_get_by_email e d with
  | Some u => ub_id d !! u_id u = Some u /\ email_key u = norm_email e
  | None => forall i u, ub_id d !! i = Some u -> email_key u <> norm_email e
  end.
Proof.
  intros [[Hid Hkey] Hix]. unfold user_get_by_email. destruct (ub_email d !! norm_email e) as [i|] eqn:E.
  - apply Hix in E as (u & Hu & Ek). destruct (Hid i u Hu) as [<- Hne].
    assert (nonempty (u_id u) = true) as -> by (by apply nonempty_true). by rewrite Hu.
  - intros i u Hu Ek. assert (ub_email d !! norm_email e = Some i) as H by (apply Hix; eauto). congruence.
Qed.

Lemma save_index_ok u d :
  users_ok d -> u_id u <> ""%string -> free u_id email_key u (ub_id d) ->
  users_ok {| ub_id := <[u_id u := u]> (ub_id d);
              ub_email := <[email_key u := u_id u]>
                (filter (fun kv => ~ (kv.2 = u_id u /\ kv.1 <> email_key u)) (ub_email d)) |}.
Proof.
  intros [Hk Hix] Hne Hfree. split; [by apply keyed_insert |]. intros e i. cbn.
  destruct (decide (e = email_key u)) as [-> | He].
  - rewrite lookup_insert_eq. split.
    + intros [= <-]. exists u. by rewrite lookup_insert_eq.
    + intros (y & Hy & Ey). destruct (decide (i = u_id u)) as [-> | Hi]; [done |].
      rewrite lookup_insert_ne in Hy by done. f_equal. symmetry. by eapply Hfree.
  - rewrite lookup_insert_ne, map_lookup_filter_Some, Hix by done. cbn. split.
    + intros ((y & Hy & Ey) & Hn). exists y. rewrite lookup_insert_ne by naive_solver. done.
    + intros (y & Hy & Ey). destruct (decide (i = u_id u)) as [-> | Hi].
      * rewrite lookup_insert_eq in Hy. injection Hy as <-. done.
      * rewrite lookup_insert_ne in Hy by done. split; [by exists y | naive_solver].
Qed.

Lemma user_save_spec u d :
  users_ok d -> u_id u <> ""%string ->
  (exists i y, ub_id d !! i = Some y /\ email_key y = email_key u /\ i <> u_id u)
    /\ user_save u d = (Err (EmailTaken (email_key u)), d)
  \/ free u_id email_key u (ub_id d) /\ exists d', user_save u d = (Ok u, d') /\ users_ok d'
       /\ ub_id d' = <[u_id u := u]> (ub_id d).
Proof.
  intros Hd Hne. pose proof Hd as [[Hid Hkey] Hix]. unfold user_save. fold (email_key u).
  destruct (ub_email d !! email_key u) as [i|] eqn:E.
  - pose proof E as (y & Hy & Ey)%Hix. destruct (Hid i y Hy) as [<- Hne'].
    assert (nonempty (u_id y) = true) as -> by (by apply nonempty_true). cbn [andb].
    destruct (String.eqb_spec (u_id y) (u_id u)) as [Ei | Ei]; cbn [negb].
    + right. assert (free u_id email_key u (ub_id d)) as Hfree.
      { intros j z Hz Ez. rewrite <- Ei. apply (Hkey j (u_id y) z y); congruence. }
      split; [done |]. eexists. split; [reflexivity |]. split; [| done]. by apply save_index_ok.
    + left. split; [by exists (u_id y), y | done].
  - right. assert (free u_id email_key u (ub_id d)) as Hfree.
    { intros j z Hz Ez. exfalso. assert (ub_email d !! email_key u = Some j) as H by (apply Hix; eauto).
      congruence. }
    split; [done |]. eexists. split; [reflexivity |]. split; [| done]. by apply save_index_ok.
Qed.

Lemma user_delete_spec i d :
  users_ok d ->
  users_ok (user_delete i d).2 /\ ub_id (user_delete i d).2 = delete i (ub_id d)
  /\ (user_delete i d).1 = bool_decide (is_Some (ub_id d !! i)).
Proof.
  intros Hd. pose proof Hd as [[Hid Hkey] Hix]. unfold user_delete.
  destruct (ub_id d !! i) as [u|] eqn:Eu; cbn [fst snd ub_id].
  2: { split; [done |]. split; [by rewrite delete_id | done]. }
  assert (ub_email d !! email_key u = Some i) as He by (apply Hix; eauto).
  fold (email_key u). rewrite bool_decide_eq_true_2 by done. split; [| by split].
  split; cbn.
  - eapply keyed_sub; [by split |]. intros j y (_ & Hy)%lookup_delete_Some. by exists y.
  - intros e j. rewrite lookup_delete_Some, Hix. split.
    + intros (Hne & y & Hy & Ey). exists y. split; [| done]. apply lookup_delete_Some. split; [| done].
      intros <-. congruence.
    + intros (y & (Hne & Hy)%lookup_delete_Some & Ey). split; [| by exists y].
      intros <-. apply Hne. symmetry. by apply (Hkey j i y u).
Qed.

(** *** Loops over the values *)

Section MarkLoop.
Context {X : Type} (id key : X -> string) (f : X -> X) (p : X -> bool)
        (mark : string -> indexed X -> indexed X).
Hypothesis mark_spec : forall i d, ix_ok id key d -> ix_ok id key (mark i d) /\ by_id (mark i d) = alter f i (by_id d).
Implicit Types d e : indexed X.

Definition mark_step (acc : Z * indexed X) (x : X) : Z * indexed X :=
  if p x then (acc.1 + 1, mark (id x) acc.2) else acc.
Definition marked (x : X) : X := if p x then f x else x.

Lemma mark_steps d l n e :
  ix_ok id key e -> Forall (fun x => by_id d !! id x = Some x) l -> NoDup (map id l) ->
  (forall i, by_id e !! i = if existsb (fun x => String.eqb (id x) i) l then by_id d !! i
                             else marked <$> by_id d !! i) ->
  let e' := (fold_left mark_step l (n, e)).2 in
  ix_ok id key e' /\ by_id e' = marked <$> by_id d.
Proof.
  revert n e. induction l as [|x l IH]; intros n e He Hall Hnd Hrows; cbv zeta; cbn [fold_left].
  { split; [done |]. apply map_eq. intros i. by rewrite lookup_fmap, Hrows. }
  apply Forall_cons_1 in Hall as [Hx Hall]. cbn [map] in Hnd. apply NoDup_cons in Hnd as [Hnin Hnd].
  assert (existsb (fun y => String.eqb (id y) (id x)) l = false) as Habs.
  { apply not_true_iff_false. intros (y & Hy & E)%existsb_exists. apply String.eqb_eq in E. apply Hnin.
    rewrite <- E. apply list_elem_of_In, in_map. done. }
  destruct (mark_step (n, e) x) as [n' e'] eqn:Es. revert Es. unfold mark_step. cbn [fst snd].
  destruct (p x) eqn:Ep; intros [= <- <-].
  - destruct (mark_spec (id x) e He) as [Hok Hrow]. apply IH; try done. intros i. rewrite Hrow.
    destruct (decide (i = id x)) as [-> | Hi].
    + rewrite lookup_alter_eq, Hrows, Habs. cbn. rewrite String.eqb_refl, Hx. cbn. unfold marked. by rewrite Ep.
    + rewrite lookup_alter_ne, Hrows by done. cbn. by rewrite (proj2 (String.eqb_neq (id x) i)) by congruence.
  - apply IH; try done. intros i. rewrite Hrows. cbn. destruct (String.eqb_spec (id x) i) as [<- | Hi]; [| done].
    cbn. rewrite Habs, Hx. cbn. unfold marked. by rewrite Ep.
Qed.

Lemma mark_loop_spec d :
  ix_ok id key d ->
  let e' := (fold_left mark_step (map snd (map_to_list (by_id d))) (0, d)).2 in
  ix_ok id key e' /\ by_id e' = marked <$> by_id d.
Proof.
  intros Hd. apply mark_steps.
  - done.
  - apply Forall_forall. intros x. by apply (elem_of_values id key).
  - by eapply NoDup_ids.
  - intros i. destruct (existsb _ _) eqn:E; [done |]. by rewrite (visited_all id key d i Hd E).
Qed.
End MarkLoop.

Lemma delete_entries {X} (q : X -> bool) (l : list (string * X)) (m : gmap string X) i :
  fold_left (fun acc kv => if q kv.2 then delete kv.1 acc else acc) l m !! i
  = if existsb (fun kv => q kv.2 && String.eqb kv.1 i) l then None else m !! i.
Proof.
  revert m. induction l as [|[k x] l IH]; intros m; [done |]. cbn [fold_left existsb]. rewrite IH. cbn.
  destruct (existsb _ l); [by rewrite orb_true_r |]. rewrite orb_false_r.
  destruct (q x); [| done]. cbn. destruct (String.eqb_spec k i) as [-> | Hk].
  - apply lookup_delete_eq.
  - by apply lookup_delete_ne.
Qed.

Lemma delete_items_spec {X} (owner : X -> string) user (m : gmap string X) :
  delete_items owner user m = without owner user m.
Proof.
  apply map_eq. intros i. unfold delete_items.
  rewrite (delete_entries (fun x => String.eqb (owner x) user)), lookup_without.
  destruct (existsb _ _) eqn:E.
  - apply existsb_exists in E as ([k x] & Hx%list_elem_of_In & [Eo Ek]%andb_true_iff).
    apply elem_of_map_to_list in Hx. cbn in *. apply String.eqb_eq in Ek as ->. by rewrite Hx, Eo.
  - destruct (m !! i) as [x|] eqn:Ex; [| done]. destruct (String.eqb (owner x) user) eqn:Eo; [| done].
    exfalso. apply not_true_iff_false in E. apply E, existsb_exists. exists (i, x).
    split; [by apply list_elem_of_In, elem_of_map_to_list |]. cbn. by rewrite Eo, String.eqb_refl.
Qed.

Lemma consent_delete_spec user d :
  (consent_delete_for_user user d).2 = without pa_user user d.
Proof.
  rewrite <- delete_items_spec. unfold consent_delete_for_user, delete_items.
  assert (forall l n (m : consent_repo),
    (fold_left (fun (acc : Z * consent_repo) kv =>
       if String.eqb (pa_user kv.2) user then (acc.1 + 1, delete kv.1 acc.2) else acc) l (n, m)).2
    = fold_left (fun (acc : consent_repo) kv =>
        if String.eqb (pa_user kv.2) user then delete kv.1 acc else acc) l m) as H.
  { induction l as [|kv l IH]; intros n m; [done |]. cbn [fold_left].
    destruct (String.eqb _ _); apply IH. }
  apply H.
Qed.

(** *** Sessions, tokens, consents *)

Lemma session_revoke_spec i d :
  ix_ok se_id se_token_hash d ->
  ix_ok se_id se_token_hash (session_revoke i d)
  /\ by_id (session_revoke i d) = alter set_revoked i (by_id d).
Proof.
  intros Hd. unfold session_revoke. destruct (by_id d !! i) as [x|] eqn:Ex.
  - destruct (ix_keyed _ _ _ Hd) as [Hid Hkey]. destruct (Hid i x Ex) as [Ei Hne]. split.
    + apply ix_save_over_ok; [done | by cbn; rewrite Ei |].
      by apply (free_same se_id se_token_hash (by_id d) x); [| rewrite Ei | |].
    + cbn. rewrite Ei. apply map_eq. intros j. destruct (decide (j = i)) as [-> | Hj].
      * by rewrite lookup_insert_eq, lookup_alter_eq, Ex.
      * by rewrite lookup_insert_ne, lookup_alter_ne.
  - split; [done |]. apply map_eq. intros j. destruct (decide (j = i)) as [-> | Hj].
    + by rewrite lookup_alter_eq, Ex.
    + by rewrite lookup_alter_ne.
Qed.

Lemma set_revoked_done x : revoked x = true -> set_revoked x = x.
Proof. destruct x. cbn. by intros ->. Qed.

Lemma change_consumed_done (c : EmailChangeRequest) : ec_consumed c = true -> tok_consume c = c.
Proof. destruct c. cbn. by intros ->. Qed.

Lemma revoke_all_spec u d :
  ix_ok se_id se_token_hash d ->
  let d' := (session_revoke_all_for_user u d).2 in
  ix_ok se_id se_token_hash d' /\ by_id d' = revoke_sessions u (by_id d).
Proof.
  intros Hd. destruct (mark_loop_spec se_id se_token_hash set_revoked
    (fun s => String.eqb (se_user s) u && negb (revoked s)) session_revoke session_revoke_spec d Hd) as [H1 H2].
  split; [exact H1 |]. etransitivity; [exact H2 |]. unfold revoke_sessions. apply map_fmap_ext. intros i x _.
  unfold marked. destruct (String.eqb (se_user x) u), (revoked x) eqn:E; cbn; try done.
  by rewrite set_revoked_done.
Qed.

Lemma mark_consumed_spec {T} `{TokenRecordLaws T} i (d : indexed T) :
  ix_ok tok_id tok_hash d ->
  ix_ok tok_id tok_hash (tok_mark_consumed i d)
  /\ by_id (tok_mark_consumed i d) = alter tok_consume i (by_id d).
Proof.
  intros Hd. apply ix_replace_ok; [done |]. intros t. by rewrite consume_id, consume_hash.
Qed.

Lemma fold_left_pointwise {A B} (f g : A -> B -> A) l a :
  (forall a b, f a b = g a b) -> fold_left f l a = fold_left g l a.
Proof. intros H. revert a. induction l as [|b l IH]; intros a; [done |]. cbn. by rewrite H, IH. Qed.

Lemma invalidate_spec u d :
  ix_ok tok_id tok_hash d ->
  let d' := (change_invalidate_for_user u d).2 in
  ix_ok tok_id tok_hash d' /\ by_id d' = invalidate_changes u (by_id d).
Proof.
  intros Hd. destruct (mark_loop_spec tok_id tok_hash tok_consume
    (fun c => String.eqb (ec_user c) u && negb (ec_consumed c)) tok_mark_consumed mark_consumed_spec d Hd)
    as [H1 H2].
  assert (change_invalidate_for_user u d = fold_left (mark_step tok_id
            (fun c => String.eqb (ec_user c) u && negb (ec_consumed c)) tok_mark_consumed)
            (map snd (map_to_list (by_id d))) (0, d)) as E.
  { unfold change_invalidate_for_user. apply fold_left_pointwise. intros acc c. unfold mark_step.
    by destruct (String.eqb (ec_user c) u), (ec_consumed c). }
  rewrite E. split; [exact H1 |]. etransitivity; [exact H2 |]. unfold invalidate_changes.
  apply map_fmap_ext. intros i c _. unfold marked.
  destruct (String.eqb (ec_user c) u), (ec_consumed c) eqn:Ec; cbn [andb negb]; try done.
  by rewrite change_consumed_done.
Qed.

Lemma consent_get_spec u p v d :
  match consent_get u p v d with
  | Some c => (exists i, d !! i = Some c) /\ consent_key c = (u, p, v)
  | None => forall i c, d !! i = Some c -> consent_key c <> (u, p, v)
  end.
Proof.
  unfold consent_get. destruct (List.find _ _) as [c|] eqn:E.
  - apply find_some in E as [Hin Hc].
    apply list_elem_of_In, list_elem_of_fmap in Hin as ([i c'] & -> & Hi%elem_of_map_to_list).
    rewrite !andb_true_iff, !String.eqb_eq in Hc. destruct Hc as [[<- <-] <-]. split; [by exists i | done].
  - intros i c Hi [= <- <- <-].
    assert (In c (map snd (map_to_list d))) as Hin.
    { apply in_map_iff. exists (i, c). split; [done |]. by apply list_elem_of_In, elem_of_map_to_list. }
    apply (find_none _ _ E) in Hin. by rewrite !String.eqb_refl in Hin.
Qed.

(** *** The platform *)

Record platform_ok (s : platform) : Prop := {
  po_users : users_ok (p_users s);
  po_sessions : ix_ok se_id se_token_hash (p_sessions s);
  po_resets : ix_ok tok_id tok_hash (p_resets s);
  po_verifications : ix_ok tok_id tok_hash (p_verifications s);
  po_changes : ix_ok tok_id tok_hash (p_changes s);
  po_consents : keyed pa_id consent_key (p_consents s)
}.

Definition rows_of (s : platform) : rows :=
  {| r_users := ub_id (p_users s); r_sessions := by_id (p_sessions s); r_resets := by_id (p_resets s);
     r_verifications := by_id (p_verifications s); r_changes := by_id (p_changes s);
     r_consents := p_consents s; r_profile := p_profiles s; r_saved := p_saved s;
     r_watchlists := p_watchlists s; r_center := p_center s; r_audit := p_audit s |}.

Lemma empty_platform_ok : platform_ok empty_platform.
Proof.
  split; try apply ix_empty_ok.
  - split; [split |].
    + intros i x H. cbn in H. by rewrite lookup_empty in H.
    + intros i j x y H. cbn in H. by rewrite lookup_empty in H.
    + intros e i. cbn. rewrite lookup_empty. split; [done |]. intros (x & H & _). by rewrite lookup_empty in H.
  - split; [intros i x H | intros i j x y H]; cbn in H; by apply lookup_empty_Some in H.
Qed.

#[global] Program Instance memory_account_laws : AccountLaws platform := {
  lawful := platform_ok;
  view := rows_of;
  may_fail := False
}.
Next Obligation.
  intros s [H1 H2 H3 H4 H5 H6]. split; cbn; [apply H1 | apply H2 | apply H3 | apply H4 | apply H5 | apply H6].
Qed.
Next Obligation. intros i s Hs _. split; [done | by split]. Qed.
Next Obligation.
  intros e s Hs _. split; [done |]. split; [done |]. apply (user_find_spec e), Hs.
Qed.
Next Obligation.
  intros u s Hs Hne. unfold users_save. cbn.
  destruct (user_save_spec u (p_users s) (po_users s Hs) Hne) as [(H & ->) | (H & d & -> & Hok & E)].
  - cbn. split; [by destruct Hs; split |]. by split; [| destruct s].
  - cbn. split; [destruct Hs; by split |]. split; [done |].
    split; [intros (i & y & Hy & Ey & Hi); by apply Hi, (H i y) |].
    unfold rows_of. cbn. by rewrite E.
Qed.
Next Obligation.
  intros i s Hs _. destruct (user_delete_spec i (p_users s) (po_users s Hs)) as (H1 & H2 & H3).
  unfold users_delete. cbn. split; [destruct Hs; by split |]. split; [| done]. unfold rows_of. cbn. by rewrite H2.
Qed.
Next Obligation.
  intros h s Hs _. split; [done |]. split; [done |].
  exact (ix_find_spec se_id se_token_hash h _ (po_sessions s Hs)).
Qed.
Next Obligation.
  intros x s Hs (Hne & Hfree & _). unfold sessions_save. cbn. split; [| done].
  pose proof (ix_save_over_ok se_id se_token_hash x _ (po_sessions s Hs) Hne Hfree). destruct Hs; by split.
Qed.
Next Obligation.
  intros i s Hs _. destruct (session_revoke_spec i _ (po_sessions s Hs)) as [H1 H2].
  cbn. split; [destruct Hs; by split |]. unfold rows_of. cbn. by rewrite H2.
Qed.
Next Obligation.
  intros u s Hs _. destruct (revoke_all_spec u _ (po_sessions s Hs)) as [H1 H2].
  cbn. split; [destruct Hs; by split |]. unfold rows_of. cbn. by rewrite H2.
Qed.
Next Obligation.
  intros u s Hs _. destruct (delete_loop_spec se_id se_token_hash se_user u _ (po_sessions s Hs)) as [H1 H2].
  split; [destruct Hs; by split | exact (f_equal (fun m => with_sessions m (rows_of s)) H2)].
Qed.
Next Obligation.
  intros u p v s Hs _. split; [done |]. split; [done |]. cbn.
  pose proof (consent_get_spec u p v (p_consents s)) as H.
  destruct (consent_get u p v (p_consents s)) as [c|]; [| done]. destruct H as ((i & Hi) & Hc).
  destruct (po_consents s Hs) as [Hid _]. by destruct (Hid i c Hi) as [-> _].
Qed.
Next Obligation.
  intros c s Hs (Hne & Hnew). cbn. unfold consent_save.
  pose proof (consent_get_spec (pa_user c) (pa_policy c) (pa_version c) (p_consents s)) as H.
  fold (consent_key c) in H.
  destruct (consent_get _ _ _ _) as [e|]; cbn.
  - split; [by destruct Hs; split |]. right. destruct H as ((i & Hi) & Ek).
    destruct (po_consents s Hs) as [Hid _]. destruct (Hid i e Hi) as [-> _]. split; [done |].
    split; [done | by destruct s].
  - split; [| left; by split].
    destruct Hs as [? ? ? ? ? Hk]; split; cbn; try done. apply keyed_insert; try done.
    intros i x Hx E. by destruct (H i x Hx).
Qed.
Next Obligation.
  intros u s Hs _. pose proof (consent_delete_spec u (p_consents s)) as E. cbn.
  split; [| by unfold rows_of; cbn; rewrite E].
  destruct Hs as [? ? ? ? ? Hk]; split; cbn; try done. rewrite E. eapply keyed_sub; [exact Hk |].
  intros i x [H _]%map_lookup_filter_Some. by exists x.
Qed.
Next Obligation. intros p s Hs _. cbn. split; [destruct Hs; by split | done]. Qed.
Next Obligation. intros x s Hs _. cbn. split; [destruct Hs; by split | done]. Qed.
Next Obligation. intros u s Hs _. cbn. split; [destruct Hs; by split | done]. Qed.
Next Obligation.
  intros u s Hs _. cbn. split; [destruct Hs; by split |]. unfold rows_of, saved_delete_all, delete_saved_rows.
  cbn. by rewrite !delete_items_spec.
Qed.
Next Obligation.
  intros u s Hs _. split; [done |]. split; [done |]. intros i. cbn. rewrite list_elem_of_fmap. split.
  - intros ([j o] & -> & [H%list_elem_of_In Ho%String.eqb_eq]%list_elem_of_In%filter_In). cbn in *. subst o.
    by apply elem_of_map_to_list.
  - intros H. exists (i, u). split; [done |]. apply list_elem_of_In, filter_In.
    split; [by apply list_elem_of_In, elem_of_map_to_list | apply String.eqb_refl].
Qed.
Next Obligation. intros i s Hs _. cbn. split; [destruct Hs; by split | done]. Qed.
Next Obligation. intros u s Hs _. cbn. split; [destruct Hs; by split | done]. Qed.
Next Obligation. intros e s Hs _. cbn. split; [destruct Hs; by split | done]. Qed.
Next Obligation.
  intros u s Hs _. split; [done |]. split; [done |]. intros c. cbn. unfold change_list_for_user.
  rewrite list_elem_of_In, filter_In, <- list_elem_of_In, String.eqb_eq.
  by rewrite (elem_of_values tok_id tok_hash (p_changes s) c (po_changes s Hs)).
Qed.
Next Obligation.
  intros u s Hs _. destruct (invalidate_spec u _ (po_changes s Hs)) as [H1 H2].
  cbn. split; [destruct Hs; by split |]. unfold rows_of. cbn. by rewrite H2.
Qed.

(** *** Tokens *)

(** One token repository, whatever the others hold. *)
Section TokenLaw.
Context {T : Type} {token : TokenRecord T} {laws : TokenRecordLaws T} {table : TokenTable T}
        (get : platform -> indexed T) (put : indexed T -> platform -> platform).
Hypothesis get_rows : forall s, tokens (rows_of s) = by_id (get s).
Hypothesis put_rows : forall d s, rows_of (put d s) = with_tokens (by_id d) (rows_of s).
Hypothesis get_ok : forall s, platform_ok s -> ix_ok tok_id tok_hash (get s).
Hypothesis put_ok : forall d s, platform_ok s -> ix_ok tok_id tok_hash d -> platform_ok (put d s).
Hypothesis set_same : forall s, with_tokens (tokens (rows_of s)) (rows_of s) = rows_of s.

Lemma token_law : @TokenLaws platform T memory_accounts memory_account_laws (token_methods get put) token table.
Proof.
  split.
  - intros t s Hs (Hne & Hnew & Hfree). cbn in Hnew, Hfree |- *. rewrite get_rows in *.
    split; [apply put_ok; [done | by apply ix_save_ok; [apply get_ok | | |]] |]. split; [done |].
    by rewrite put_rows.
  - intros h s Hs _. split; [done |]. split; [done |]. cbn. rewrite get_rows.
    by apply (ix_find_spec tok_id tok_hash), get_ok.
  - intros i s Hs _. destruct (mark_consumed_spec i (get s) (get_ok s Hs)) as [H1 H2].
    split; [by apply put_ok |]. cbn. by rewrite put_rows, H2, get_rows.
  - intros u s Hs _. destruct (delete_loop_spec tok_id tok_hash tok_user u (get s) (get_ok s Hs)) as [H1 H2].
    split; [by apply put_ok |]. cbn. rewrite put_rows, get_rows. unfold tok_delete_for_user.
    cbv zeta in H2. by rewrite H2.
Qed.
End TokenLaw.

#[global] Instance memory_reset_laws : TokenLaws platform PasswordResetRequest.
Proof. apply token_law; try done; [by intros s [] | intros d s []; by split]. Qed.
#[global] Instance memory_verification_laws : TokenLaws platform EmailVerificationRequest.
Proof. apply token_law; try done; [by intros s [] | intros d s []; by split]. Qed.
#[global] Instance memory_change_laws : TokenLaws platform EmailChangeRequest.
Proof. apply token_law; try done; [by intros s [] | intros d s []; by split]. Qed.
End MemoryLaws.

(** ** Stores that fail *)
Module Flaky.

(** The store and a script: at a [true], the next call raises and changes
    nothing. When the script is used up nothing fails. *)
Record flaky (S : Type) := MkFlaky { f_store : S; f_script : list bool }.
Arguments MkFlaky {S}.
Arguments f_store {S}.
Arguments f_script {S}.

Section Flaky.
Context {S : Type} {store : AccountStore S}.

Definition call {A} (m : act S repo_exn A) : act (flaky S) repo_exn A := fun f =>
  match f_script f with
  | true :: rest => (Err (Unavailable PersistenceConflictError), MkFlaky (f_store f) rest)
  | script => let '(r, s) := m (f_store f) in (r, MkFlaky s (tl script))
  end.

Definition flaky_tokens {T} (ts : TokenStore S T) : TokenStore (flaky S) T := {|
  token_save t := call (token_save t);
  token_find h := call (token_find h);
  token_mark_consumed i := call (token_mark_consumed i);
  token_delete_for_user u := call (token_delete_for_user u)
|}.

#[global] Instance flaky_accounts : AccountStore (flaky S) := {
  users_get_by_id i := call (users_get_by_id i);
  users_get_by_email e := call (users_get_by_email e);
  users_save u := call (users_save u);
  users_delete i := call (users_delete i);
  sessions_get_by_token_hash h := call (sessions_get_by_token_hash h);
  sessions_save x := call (sessions_save x);
  sessions_revoke i := call (sessions_revoke i);
  sessions_revoke_all_for_user u := call (sessions_revoke_all_for_user u);
  sessions_delete_all_for_user u := call (sessions_delete_all_for_user u);
  password_resets := flaky_tokens password_resets;
  email_verifications := flaky_tokens email_verifications;
  email_changes := flaky_tokens email_changes;
  changes_list_for_user u := call (changes_list_for_user u);
  changes_invalidate_for_user u := call (changes_invalidate_for_user u);
  consents_get u p v := call (consents_get u p v);
  consents_save c := call (consents_save c);
  consents_delete_for_user u := call (consents_delete_for_user u);
  profiles_save_profile p := call (profiles_save_profile p);
  profiles_save_settings x := call (profiles_save_settings x);
  profiles_delete_for_user u := call (profiles_delete_for_user u);
  saved_delete_all_for_user u := call (saved_delete_all_for_user u);
  watchlists_of u := call (watchlists_of u);
  watchlists_delete i := call (watchlists_delete i);
  center_delete_preferences u := call (center_delete_preferences u);
  audit_append e := call (audit_append e)
}.

Context {laws : AccountLaws S}.

Lemma call_does {A} (m : act S repo_exn A) pre post :
  does m pre post ->
  forall f, lawful (f_store f) -> pre (view (f_store f)) ->
    lawful (f_store (call m f).2)
    /\ match (call m f).1 with
       | Ok a => post (view (f_store f)) a (view (f_store (call m f).2))
       | Err (EmailTaken _) => False
       | Err (Unavailable _) => True /\ view (f_store (call m f).2) = view (f_store f)
       end.
Proof.
  intros H [s script] Hs Hpre. cbn in *. unfold call. cbn.
  assert (forall rest, lawful (f_store (let '(r, s') := m s in (r, MkFlaky s' rest)).2)
    /\ match (let '(r, s') := m s in (r, MkFlaky s' rest)).1 with
       | Ok a => post (view s) a (view (f_store (let '(r, s') := m s in (r, MkFlaky s' rest)).2))
       | Err (EmailTaken _) => False
       | Err (Unavailable _) => True /\ view (f_store (let '(r, s') := m s in (r, MkFlaky s' rest)).2) = view s
       end) as Hok.
  { intros rest. pose proof (H s Hs Hpre) as [H1 H2]. destruct (m s) as [[a | []] s']; cbn in *; try done.
    by destruct H2. }
  destruct script as [|[] script]; [apply Hok | by split | apply Hok].
Qed.

#[global] Program Instance flaky_laws : AccountLaws (flaky S) := {
  lawful f := lawful (f_store f);
  view f := view (f_store f);
  may_fail := True
}.
Next Obligation. intros f. apply view_ok. Qed.
Next Obligation. intros i. exact (call_does _ _ _ (law_user_by_id i)). Qed.
Next Obligation. intros i. exact (call_does _ _ _ (law_user_by_email i)). Qed.
Next Obligation.
  intros u [s script] Hs Hne. cbn in *. unfold call. cbn.
  pose proof (law_user_save u s Hs Hne) as [H1 H2].
  destruct script as [|[] script]; [| by split |]; destruct (users_save u s) as [[a | []] s']; cbn in *;
    try done; by destruct H2.
Qed.
Next Obligation. intros i. exact (call_does _ _ _ (law_user_delete i)). Qed.
Next Obligation. intros i. exact (call_does _ _ _ (law_session_find i)). Qed.
Next Obligation. intros i. exact (call_does _ _ _ (law_session_save i)). Qed.
Next Obligation. intros i. exact (call_does _ _ _ (law_session_revoke i)). Qed.
Next Obligation. intros i. exact (call_does _ _ _ (law_session_revoke_all i)). Qed.
Next Obligation. intros i. exact (call_does _ _ _ (law_session_delete_all i)). Qed.
Next Obligation. intros u p v. exact (call_does _ _ _ (law_consent_get u p v)). Qed.
Next Obligation. intros i. exact (call_does _ _ _ (law_consent_save i)). Qed.
Next Obligation. intros i. exact (call_does _ _ _ (law_consent_delete i)). Qed.
Next Obligation. intros i. exact (call_does _ _ _ (law_profile_save i)). Qed.
Next Obligation. intros i. exact (call_does _ _ _ (law_settings_save i)). Qed.
Next Obligation. intros i. exact (call_does _ _ _ (law_profile_delete i)). Qed.
Next Obligation. intros i. exact (call_does _ _ _ (law_saved_delete i)). Qed.
Next Obligation. intros i. exact (call_does _ _ _ (law_watchlists i)). Qed.
Next Obligation. intros i. exact (call_does _ _ _ (law_watchlist_delete i)). Qed.
Next Obligation. intros i. exact (call_does _ _ _ (law_center_delete i)). Qed.
Next Obligation. intros i. exact (call_does _ _ _ (law_audit i)). Qed.
Next Obligation. intros i. exact (call_does _ _ _ (law_changes_list i)). Qed.
Next Obligation. intros i. exact (call_does _ _ _ (law_changes_invalidate i)). Qed.

#[global] Program Instance flaky_token_laws {T} {ts : TokenStore S T} {token : TokenRecord T}
    {table : TokenTable T} {TL : @TokenLaws S T store laws ts token table}
  : @TokenLaws (flaky S) T flaky_accounts flaky_laws (flaky_tokens ts) token table.
Next Obligation. intros. exact (call_does _ _ _ (law_token_save t)). Qed.
Next Obligation. intros. exact (call_does _ _ _ (law_token_find h)). Qed.
Next Obligation. intros. exact (call_does _ _ _ (law_token_consume i)). Qed.
Next Obligation. intros. exact (call_does _ _ _ (law_token_delete u)). Qed.
End Flaky.
End Flaky.
