(* ===== verification/Identity.v ===== *)
(** What the accounts are configured with and send: the identity settings and
    the trusted links ([app/auth/email_factory.py]), the mails
    ([app/auth/email_templates.py]), the keys that rate limits are counted
    under ([app/launch/rate_limit_keys.py], [app/consumer/decision_owner.py]),
    the policies that are published ([app/legal/publication.py]) and the checks
    of an address and of a password ([app/auth/service.py]). *)

From S2P Require Import Prelude PyStr Json Users Password.
#[local] Open Scope Z_scope.

(** What the accounts call outside the repository: the digests of [hashlib] and
    [hmac], [urlparse] (scheme, [netloc], user name and password, or the
    [ValueError] of a malformed address), [urlencode], and the file system: the
    resolved directories, [(root / path).resolve()] as its parts, or nothing on an
    [OSError], and the UTF-8 text of a regular file. *)
Record library := {
  sha256 : string -> string;
  hmac_sha256 : string -> string -> string;
  pbkdf2_hmac : string -> string -> Z -> Z -> string;
  urlparse : string -> result string (string * string * option string * option string);
  urlencode : list (string * string) -> string;
  publication_root : list string;
  default_publication_root : list string;
  docs_legal : list string;
  resolve : list string -> string -> option (list string);
  read_text : list string -> option string
}.

Inductive identity_exn :=
| UserPlatformAuthError (message : string)
| UserPlatformConflictError (message : string)
| UserPlatformNotFoundError (what : string)
| UserPlatformRateLimitError (message : string)
| UserPlatformValidationError (message : string)
| LibraryValueError (message : string).

(** ** Settings and links *)
Module Settings.

Record settings := {
  app_env : string; allow_demo_reset_tokens : bool;
  public_app_base_url : string; app_secret_key : string
}.

Definition is_development (cfg : settings) : bool := String.eqb (app_env cfg) "development".
Definition is_staging (cfg : settings) : bool := String.eqb (app_env cfg) "staging".
Definition is_production (cfg : settings) : bool := String.eqb (app_env cfg) "production".

Definition KNOWN_APP_ENVS : list string := ["development"; "staging"; "production"]%string.

Definition allows_inline_identity_tokens (cfg : settings) : bool :=
  if negb (existsb (String.eqb (app_env cfg)) KNOWN_APP_ENVS) then false
  else allow_demo_reset_tokens cfg && is_development cfg.

Definition _PLACEHOLDER_SECRETS : list string :=
  [""; "changeme"; "secret"; "dev"; "test"; "password"]%string.
Definition _DEV_ONLY_SIGNING_KEY : string :=
  "dealbrain-dev-only-owner-cookie-hmac-key-do-not-use-in-prod".

Definition signing_secret (cfg : settings) : option string :=
  let key := strip (app_secret_key cfg) in
  if nonempty key && negb (existsb (String.eqb (Entities.lower1 key)) _PLACEHOLDER_SECRETS)
     && (16 <=? len key)
  then Some (utf8 key)
  else if is_production cfg || is_staging cfg then None
  else Some _DEV_ONLY_SIGNING_KEY.

Definition _PURPOSE : string := "dealbrain-rate-limit-v1".
Definition nul : string := String (ascii_of_nat 0) "".

(** [opaque_subject_key]; without a key it raises [RateLimitUnavailable]. *)
Definition opaque_subject_key (lib : library) (cfg : settings) (action material : string)
    : option string :=
  match signing_secret cfg with
  | None => None
  | Some key =>
      Some (action +:+ ":" +:+ Hex.hex (hmac_sha256 lib key
              (_PURPOSE +:+ nul +:+ utf8 action +:+ nul +:+ utf8 material)))
  end.

Definition truthy (o : option string) : bool :=
  match o with Some s => nonempty s | None => false end.

Definition build_trusted_action_url (lib : library) (base_url path token : string)
    (require_https : bool) : result identity_exn string :=
  let cleaned := rstrip_of "/" (strip base_url) in
  raise! UserPlatformValidationError "PUBLIC_APP_BASE_URL is not configured."
    when negb (nonempty cleaned) in
  match urlparse lib cleaned with
  | Err m => Err (LibraryValueError m)
  | Ok (scheme, netloc, username, password) =>
      let allowed := if require_https then ["https"]%string else ["http"; "https"]%string in
      raise! UserPlatformValidationError "PUBLIC_APP_BASE_URL is invalid."
        when negb (existsb (String.eqb scheme) allowed) || negb (nonempty netloc) in
      raise! UserPlatformValidationError "PUBLIC_APP_BASE_URL is invalid."
        when truthy username || truthy password in
      let normalized_path := if startswith "/" path then path else "/" +:+ path in
      Ok (cleaned +:+ normalized_path +:+ "?" +:+ urlencode lib [("token"%string, token)])
  end.

(** [AuthService._action_url]. *)
Definition _action_url (lib : library) (cfg : settings) (path token : string)
    : result identity_exn (option string) :=
  let base := strip (public_app_base_url cfg) in
  if negb (nonempty base) then Ok None
  else match build_trusted_action_url lib base path token (is_production cfg) with
       | Ok url => Ok (Some url)
       | Err (UserPlatformValidationError _) => Ok None
       | Err e => Err e
       end.

(** Outside development no token is ever shown, and a link of production is
    an https address of the configured server. *)
Lemma inline_tokens_are_for_development cfg :
  allows_inline_identity_tokens cfg = true -> is_development cfg = true.
Proof.
  unfold allows_inline_identity_tokens. destruct (negb _); [done |]. by intros [_ H]%andb_true_iff.
Qed.
End Settings.

(** ** The mails *)
Module Messages.

Record EmailMessage := {
  to_address : string; subject : string; body_text : string; body_html : option string;
  template_id : option string
}.

Definition PUBLIC_BRAND : string := "PiqSavi".
Definition PASSWORD_RESET_SUBJECT : string := PUBLIC_BRAND +:+ " password reset".
Definition EMAIL_VERIFICATION_SUBJECT : string := "Verify your " +:+ PUBLIC_BRAND +:+ " email".
Definition EMAIL_CHANGE_SUBJECT : string := "Confirm your new " +:+ PUBLIC_BRAND +:+ " email".
Definition EMAIL_CHANGE_NOTICE_SUBJECT : string :=
  "Your " +:+ PUBLIC_BRAND +:+ " account email was changed".
Definition RESET_PATH : string := "/reset-password".
Definition VERIFY_PATH : string := "/verify-email".
Definition EMAIL_CHANGE_PATH : string := "/confirm-email-change".

Definition nl : string := String (ascii_of_nat 10) "".
Definition dq : string := String (ascii_of_nat 34) "".
Definition paragraph (s : string) : string := "<p>" +:+ s +:+ "</p>".
Definition link (url label : string) : string :=
  "<p><a href=" +:+ dq +:+ url +:+ dq +:+ ">" +:+ label +:+ "</a></p>".

(** [if action_url: ... else: ...]. *)
Definition if_url {A} (action_url : option string) (linked : string -> A) (plain : A) : A :=
  match action_url with
  | Some url => if nonempty url then linked url else plain
  | None => plain
  end.

Definition build_password_reset_message (to_address : string) (action_url : option string)
    (expires_hours : Z) : EmailMessage :=
  let purpose := "You requested a password reset for your " +:+ PUBLIC_BRAND +:+ " account." in
  let expiry := if negb (expires_hours =? 1)
                then "This link expires in " +:+ Int.str_int expires_hours +:+ " hours."
                else "This link expires in " +:+ Int.str_int expires_hours +:+ " hour." in
  let ignore := "If you did not request this, you can ignore this email."%string in
  let flow := "Use the PiqSavi password-reset flow to continue. "%string in
  {| to_address := to_address; subject := PASSWORD_RESET_SUBJECT;
     body_text := if_url action_url
       (fun url => purpose +:+ nl +:+ nl +:+ "Reset your password using this secure link:" +:+ nl
                   +:+ url +:+ nl +:+ nl +:+ expiry +:+ nl +:+ nl +:+ ignore +:+ nl)
       (purpose +:+ nl +:+ nl +:+ expiry +:+ nl +:+ nl +:+ flow +:+ ignore +:+ nl);
     body_html := Some (if_url action_url
       (fun url => paragraph purpose +:+ link url ("Reset your " +:+ PUBLIC_BRAND +:+ " password")
                   +:+ paragraph expiry +:+ paragraph ignore)
       (paragraph purpose +:+ paragraph expiry +:+ paragraph (flow +:+ ignore)));
     template_id := Some "password_reset"%string |}.

Definition build_email_verification_message (to_address : string) (action_url : option string)
    (expires_hours : Z) : EmailMessage :=
  let purpose := "Confirm this email address for your " +:+ PUBLIC_BRAND +:+ " account." in
  let expiry := "This link expires in " +:+ Int.str_int expires_hours +:+ " hours." in
  let ignore := "If you did not create a PiqSavi account, you can ignore this email."%string in
  let flow := "Use the PiqSavi email-verification flow to continue. "%string in
  {| to_address := to_address; subject := EMAIL_VERIFICATION_SUBJECT;
     body_text := if_url action_url
       (fun url => purpose +:+ nl +:+ nl +:+ "Verify your email using this secure link:" +:+ nl
                   +:+ url +:+ nl +:+ nl +:+ expiry +:+ nl +:+ nl +:+ ignore +:+ nl)
       (purpose +:+ nl +:+ nl +:+ expiry +:+ nl +:+ nl +:+ flow +:+ ignore +:+ nl);
     body_html := Some (if_url action_url
       (fun url => paragraph purpose +:+ link url ("Verify your " +:+ PUBLIC_BRAND +:+ " email")
                   +:+ paragraph expiry +:+ paragraph ignore)
       (paragraph purpose +:+ paragraph expiry +:+ paragraph (flow +:+ ignore)));
     template_id := Some "email_verification"%string |}.

Definition build_email_change_message (to_address : string) (action_url : option string)
    (expires_hours : Z) : EmailMessage :=
  let purpose := "Confirm this new email address for your " +:+ PUBLIC_BRAND +:+ " account." in
  let expiry := "This link expires in " +:+ Int.str_int expires_hours +:+ " hours." in
  let ignore := "If you did not request this change, you can ignore this email."%string in
  let flow := "Use the PiqSavi email-change flow to continue. "%string in
  {| to_address := to_address; subject := EMAIL_CHANGE_SUBJECT;
     body_text := if_url action_url
       (fun url => purpose +:+ nl +:+ nl +:+ "Confirm your email change using this secure link:" +:+ nl
                   +:+ url +:+ nl +:+ nl +:+ expiry +:+ nl +:+ nl +:+ ignore +:+ nl)
       (purpose +:+ nl +:+ nl +:+ expiry +:+ nl +:+ nl +:+ flow +:+ ignore +:+ nl);
     body_html := Some (if_url action_url
       (fun url => paragraph purpose +:+ link url ("Confirm your new " +:+ PUBLIC_BRAND +:+ " email")
                   +:+ paragraph expiry +:+ paragraph ignore)
       (paragraph purpose +:+ paragraph expiry +:+ paragraph (flow +:+ ignore)));
     template_id := Some "email_change"%string |}.

Definition build_email_changed_notice (to_address : string) : EmailMessage :=
  let changed := "Your " +:+ PUBLIC_BRAND +:+ " account email was changed." in
  let contact := "If you did not make this change, contact PiqSavi support immediately."%string in
  {| to_address := to_address; subject := EMAIL_CHANGE_NOTICE_SUBJECT;
     body_text := changed +:+ nl +:+ nl +:+ contact +:+ nl;
     body_html := Some (paragraph changed +:+ paragraph contact);
     template_id := Some "email_change_notice"%string |}.
End Messages.

(** ** The policies *)
Module Legal.

Inductive PublicationStatus := draft | approved | published_status.

Record PolicyVersion := {
  policy_type : string; version_id : string; publication_status : PublicationStatus;
  acceptance_required : bool; published_at : option string; effective_at : option string;
  html_path : string; public_path : string
}.

Definition POLICY_TERMS : string := "terms".
Definition POLICY_PRIVACY : string := "privacy".
Definition OWNER_AUTHORIZED_PUBLICATION_DATE : string := "2026-09-11".

Definition PUBLIC_PATHS : list (string * string) :=
  [(POLICY_TERMS, "/terms"); (POLICY_PRIVACY, "/privacy")]%string.

Definition _UNSAFE_VERSION_ID_MARKERS : list string :=
  ["/"; "\"; ".."; String (ascii_of_nat 0) ""]%string.

(** [".." in Path(cleaned).parts]. *)
Fixpoint slash_parts (n : nat) (s : string) : list string :=
  match n with
  | O => [s]
  | S n' => if has_char "/" s then before "/" s :: slash_parts n' (after "/" s) else [s]
  end.
Definition path_escapes (s : string) : bool :=
  startswith "/" s || existsb (String.eqb "..") (slash_parts (String.length s) s).

Definition is_usable_version_id (version_id : string) : bool :=
  let cleaned := strip version_id in
  if negb (nonempty cleaned) then false
  else if path_escapes cleaned then false
  else negb (existsb (fun marker => contains marker cleaned) _UNSAFE_VERSION_ID_MARKERS).

Definition is_active_published (v : PolicyVersion) : bool :=
  match publication_status v with
  | published_status => nonempty (strip (version_id v))
  | _ => false
  end.

Definition published_policy (policy_type version_id html_path : string) (public_path : option string)
    (acceptance_required : bool) (published_at effective_at : option string) : PolicyVersion :=
  {| policy_type := policy_type; version_id := version_id; publication_status := published_status;
     acceptance_required := acceptance_required; published_at := published_at;
     effective_at := effective_at; html_path := html_path;
     public_path := if Settings.truthy public_path then from_option id ""%string public_path
                    else match List.find (fun kv => String.eqb (fst kv) policy_type) PUBLIC_PATHS with
                         | Some kv => snd kv | None => ""%string end |}.

(** [LegalPublicationCatalog]: at most one version of a policy. *)
Fixpoint make_catalog_from (seen : list PolicyVersion) (versions : list PolicyVersion)
    : result identity_exn (list PolicyVersion) :=
  match versions with
  | [] => Ok seen
  | v :: rest =>
      raise! LibraryValueError ("duplicate policy type: " +:+ policy_type v)
        when existsb (fun w => String.eqb (policy_type w) (policy_type v)) seen in
      make_catalog_from (seen ++ [v]) rest
  end.
Definition make_catalog (versions : list PolicyVersion) : result identity_exn (list PolicyVersion) :=
  make_catalog_from [] versions.

Definition current (catalog : list PolicyVersion) (policy : string) : option PolicyVersion :=
  List.find (fun v => String.eqb (policy_type v) policy) catalog.

(** [looks_like_counsel_draft], on the UTF-8 text: the dash of the first marker
    is its three bytes. *)
Definition em_dash : string := of_chars (map ascii_of_nat [226; 128; 148]%nat).
Definition COUNSEL_DRAFT_CONTENT_MARKERS : list string :=
  [ "DRAFT " +:+ em_dash +:+ " COUNSEL REVIEW REQUIRED"; "WORKING DRAFT"; "Not for publication";
    "Not a published policy"; "Not evidence of legal approval"; "[COUNSEL TO CONFIRM]"]%string.
Definition _BLOCKED_PATH_FRAGMENTS : list string := ["_counsel_draft"]%string.
Definition looks_like_counsel_draft (content : string) : bool :=
  existsb (fun marker => contains marker content) COUNSEL_DRAFT_CONTENT_MARKERS.

(** [_is_within] of resolved paths. *)
Fixpoint _is_within (path root : list string) : bool :=
  match root, path with
  | [], _ => true
  | r :: root', p :: path' => String.eqb r p && _is_within path' root'
  | _ :: _, [] => false
  end.

(** [resolved.suffix.lower() == ".html"]: the name ends so, and has a stem. *)
Definition html_suffix (path : list string) : bool :=
  let name := List.last path ""%string in
  endswith ".html" (Entities.lower1 name) && (5 <? len name).

Definition load_approved_public_html (lib : library) (html_path : string) : option string :=
  let cleaned := strip html_path in
  if negb (nonempty cleaned) then None
  else if path_escapes cleaned then None
  else
    match resolve lib (publication_root lib) cleaned with
    | None => None
    | Some resolved =>
        match read_text lib resolved with
        | None => None
        | Some content =>
            if negb (_is_within resolved (publication_root lib)) then None
            else if negb (html_suffix resolved) then None
            else if existsb (fun fragment =>
                      contains fragment (Entities.lower1 ("/" +:+ String.concat "/" resolved)))
                      _BLOCKED_PATH_FRAGMENTS then None
            else if _is_within resolved (docs_legal lib)
                    && negb (_is_within resolved (default_publication_root lib)) then None
            else if looks_like_counsel_draft content then None
            else Some content
        end
    end.

Definition published (lib : library) (catalog : list PolicyVersion) (policy : string)
    : option PolicyVersion :=
  match current catalog policy with
  | None => None
  | Some version =>
      if negb (is_active_published version) then None
      else if negb (is_usable_version_id (version_id version)) then None
      else match load_approved_public_html lib (html_path version) with
           | None => None
           | Some _ => Some version
           end
  end.

Definition requires_acceptance (lib : library) (catalog : list PolicyVersion) (policy : string) : bool :=
  match published lib catalog policy with Some v => acceptance_required v | None => false end.

(** [catalog_from_settings]: the configured ids and paths of the two policies. *)
Definition catalog_from_settings (terms_id terms_html privacy_id privacy_html : string)
    : result identity_exn (list PolicyVersion) :=
  let row policy v html :=
    if nonempty (strip v) && is_usable_version_id (strip v)
    then [published_policy policy (strip v) (strip html) None true
            (Some OWNER_AUTHORIZED_PUBLICATION_DATE) (Some OWNER_AUTHORIZED_PUBLICATION_DATE)]
    else [] in
  make_catalog (row POLICY_TERMS terms_id terms_html ++ row POLICY_PRIVACY privacy_id privacy_html).
End Legal.

(** ** Checks of what a user types *)
Module Checks.
Import Entities.

Definition MIN_PASSWORD_LENGTH : Z := 8.

(** [_EMAIL_RE], [^[^@\s]+@[^@\s]+\.[^@\s]+$]: one at-sign, something before it,
    and a dot behind it that neither begins nor ends the domain. *)
Definition email_re (s : string) : bool :=
  let domain := after "@" s in
  negb (any_char isspace s) && has_char "@" s && nonempty (before "@" s) && negb (has_char "@" domain)
  && existsb (Ascii.eqb ".") (removelast (tl (chars domain))).

(** [AuthService._normalize_email]. *)
Definition _normalize_email (email : string) : result identity_exn string :=
  let cleaned := norm_email email in
  raise! UserPlatformValidationError "email must be a valid address."
    when negb (nonempty cleaned) || negb (email_re cleaned) in
  Ok cleaned.

(** The Latin-1 characters that [str.lower] and [str.upper] change, and the
    ones that [str.isdigit] accepts. *)
Definition has_upper (c : ascii) : bool := negb (Ascii.eqb (lower1_char c) c).
Definition has_lower (c : ascii) : bool :=
  let n := nat_of_ascii c in
  is_ascii_lower c || (n =? 181)%nat || ((223 <=? n)%nat && negb (n =? 247)%nat).
Definition is_digit1 (c : ascii) : bool :=
  let n := nat_of_ascii c in
  is_digit c || (n =? 178)%nat || (n =? 179)%nat || (n =? 185)%nat.

(** [AuthService._validate_password]. *)
Definition _validate_password (password : string) : result identity_exn unit :=
  raise! UserPlatformValidationError "password must be at least 8 characters."
    when len password <? MIN_PASSWORD_LENGTH in
  raise! UserPlatformValidationError "password must include mixed case characters."
    when negb (any_char has_upper password) || negb (any_char has_lower password) in
  raise! UserPlatformValidationError "password must include at least one digit."
    when negb (any_char is_digit1 password) in
  Ok tt.

Example emails_checked :
  map (fun e => is_ok (_normalize_email e))
    [" Ana@Example.COM "; "ana@example"; "a@b@c.d"; "a b@c.d"; "@c.d"; "a@.d"; "a@b."; "a@b..c"]%string
  = [true; false; false; false; false; false; false; true].
Proof. vm_compute. reflexivity. Qed.

Example passwords_checked :
  map (fun p => is_ok (_validate_password p)) ["Passw0rd"; "Passw0r"; "passw0rd"; "PASSW0RD"; "Password"]%string
  = [true; false; false; false; false].
Proof. vm_compute. reflexivity. Qed.

Lemma normalized_email e c :
  _normalize_email e = Ok c -> c = norm_email e /\ norm_email c = c /\ nonempty c = true.
Proof.
  unfold _normalize_email. intros H. res_simpl. split; [done |].
  split; [apply norm_email_idemp |]. by destruct (nonempty (norm_email e)).
Qed.

Lemma valid_password_nonempty p : _validate_password p = Ok tt -> nonempty p = true.
Proof. by destruct p. Qed.
End Checks.
