(* ===== verification/Auth.v ===== *)
(** The authentication service: [app/auth/service.py] over the account
    repositories of [Users], the attempt counter of [RateLimit] and the
    failed-login lock of [LoginLock]; [app/auth/security.py] for its hooks.

    Module [World]: what a call can read and change. Module [Auth]: the
    service. Module [Requests]: the public methods as requests. *)

From S2P Require Import Prelude PyStr Json Clock PyState OpStore RateLimit LoginLock Users Password Identity.
#[local] Open Scope Z_scope.
#[local] Open Scope py_scope.
Import Entities Store Settings Messages Legal Checks LockInterface.

(** ** The world of a call *)
Module World.

(** The stores, the attempt counter, the lock, how often the environment was
    asked, the accepted mails and [AuditLogger._buffer]. *)
Record world {S L K : Type} := MkWorld {
  w_store : S; w_limits : L; w_lock : K; w_asked : nat;
  w_sent : list EmailMessage; w_buffer : list SecurityEvent
}.
Arguments world : clear implicits.

(** What the environment answers when it is asked for the n-th time: the clock,
    a new id, [secrets.token_urlsafe(n)], a salt, whether a mail is accepted. *)
Record environment := {
  clock : nat -> datetime; id_factory : nat -> string; secrets_token : Z -> nat -> string;
  new_salt : nat -> string; mail_ok : nat -> bool
}.

Inductive auth_exn :=
| Platform (e : identity_exn)
| StoreFailed (e : store_exn)
| RateFailed (e : rate_exn)
| LockFailed (e : lock_exn).

(** The exception of a repository: a taken address is a validation error. *)
Definition of_repo (e : repo_exn) : auth_exn :=
  match e with
  | EmailTaken email =>
      Platform (UserPlatformValidationError ("Email already registered: " +:+ email))
  | Unavailable e => StoreFailed e
  end.

Definition map_err {E F A} (f : E -> F) (r : result E A) : result F A :=
  match r with Ok a => Ok a | Err e => Err (f e) end.

Section World.
Context {S L K : Type}.
Local Abbreviation W := (world S L K).
Implicit Types w : W.

Definition with_store (s : S) w : W :=
  MkWorld S L K s (w_limits w) (w_lock w) (w_asked w) (w_sent w) (w_buffer w).
Definition with_limits (l : L) w : W :=
  MkWorld S L K (w_store w) l (w_lock w) (w_asked w) (w_sent w) (w_buffer w).
Definition with_lock (k : K) w : W :=
  MkWorld S L K (w_store w) (w_limits w) k (w_asked w) (w_sent w) (w_buffer w).
Definition with_asked (n : nat) w : W :=
  MkWorld S L K (w_store w) (w_limits w) (w_lock w) n (w_sent w) (w_buffer w).
Definition with_sent (m : list EmailMessage) w : W :=
  MkWorld S L K (w_store w) (w_limits w) (w_lock w) (w_asked w) m (w_buffer w).
Definition with_buffer (b : list SecurityEvent) w : W :=
  MkWorld S L K (w_store w) (w_limits w) (w_lock w) (w_asked w) (w_sent w) b.

Definition ask {A} (f : nat -> A) : act W auth_exn A :=
  fun w => (Ok (f (w_asked w)), with_asked (Datatypes.S (w_asked w)) w).
Definition on_store {A} (m : act S repo_exn A) : act W auth_exn A :=
  fun w => let '(r, s) := m (w_store w) in (map_err of_repo r, with_store s w).
Definition raise {A} (e : identity_exn) : act W auth_exn A := a_err (Platform e).
Definition checked {A} (r : result identity_exn A) : act W auth_exn A := a_lift (map_err Platform r).
(** [try: m except: ...]: the handler decides from the outcome. *)
Definition attempt {A} (m : act W auth_exn A) : act W auth_exn (result auth_exn A) :=
  fun w => let '(r, w') := m w in (Ok r, w').
End World.
End World.
Import World.

(** ** The service *)
Module Auth.

Definition PASSWORD_RESET_TTL : Z := seconds 3600.
Definition EMAIL_VERIFICATION_TTL : Z := seconds 86400.
Definition EMAIL_CHANGE_TTL : Z := seconds 86400.
Definition GENERIC_RESET_DETAIL : string :=
  "If an account exists for this email, password reset instructions will be sent.".
Definition GENERIC_VERIFY_DETAIL : string :=
  "If an account exists for this email, verification instructions will be sent.".
Definition GENERIC_EMAIL_CHANGE_DETAIL : string :=
  "If this change can proceed, a confirmation email will be sent to the new address.".
Definition INVALID_RESET_TOKEN : string := "Invalid or expired reset token.".
Definition INVALID_VERIFY_TOKEN : string := "Invalid or expired verification token.".
Definition INVALID_EMAIL_CHANGE_TOKEN : string := "Invalid or expired email-change token.".
Definition EMAIL_CHANGE_COMPLETION_ERROR : string := "Unable to complete email change.".
Definition LOGIN_ATTEMPT_LIMIT_MESSAGE : string := "Too many login attempts. Try again later.".

(** [AuthService.__init__] and [RateLimiterHook.__init__]: which optional
    repositories there are, and the numbers. *)
Record config := {
  has_password_resets : bool; has_email_verifications : bool; has_email_changes : bool;
  has_consents : bool; has_audit : bool;
  legal_catalog : list PolicyVersion; iterations : Z;
  max_attempts : Z; window_seconds : Z; login_lock : Facade.FailedLoginLock;
  session_ttl : Z; remember_ttl : Z; enabled : bool; app_settings : settings
}.

(** 0.5. *)
Definition half : Z * Z := (2 ^ 52, -53).

Record AuthResult := {
  ar_user : User; ar_session : UserSession; access_token : string; ar_csrf : option string
}.

Section Auth.
Context {S L K : Type} {accounts : AccountStore S} {limits : RateLimitStore L}
  {locks : FailedLoginLockStore K} (lib : library) (env : environment) (cfg : config).
Local Abbreviation M := (act (world S L K) auth_exn).

Definition now_ : M datetime := ask (clock env).
Definition hash_token (token : string) : string := Hex.hex (sha256 lib (utf8 token)).

(** *** The hooks of [security.py] *)

(** [AuditLogger.record]. *)
Definition audit_record (event_type : string) (user_id : option string) (detail : string)
    (metadata : list (string * json)) : M unit :=
  do! event_id := ask (id_factory env) in
  do! created_at := now_ in
  let event := {| ev_id := event_id; ev_type := event_type; ev_user := user_id; ev_detail := detail;
                  ev_created := Some created_at; ev_metadata := metadata |} in
  do! _ := (fun w => (Ok tt, with_buffer (w_buffer w ++ [event]) w)) in
  if has_audit cfg then do! _ := on_store (audit_append event) in a_ret tt else a_ret tt.

(** [MfaExtensionPoint.is_enabled]. *)
Definition mfa_is_enabled (user_id : string) : bool := false.

(** [RateLimiterHook.check] and [reset] read their own clock. *)
Definition rate_check (key : string) : M bool :=
  do! now := now_ in
  fun w => let '(r, l) := Limiter.auth_hook_check (max_attempts cfg) (window_seconds cfg) key now (w_limits w) in
           (map_err RateFailed r, with_limits l w).
Definition rate_reset (key : string) : M unit :=
  fun w => let '(r, l) := Limiter.auth_hook_reset key (w_limits w) in
           (map_err RateFailed r, with_limits l w).

(** [EmailSender.send]: whether the provider accepted the message. *)
Definition send_email (message : EmailMessage) : M bool :=
  do! delivered := ask (mail_ok env) in
  if delivered
  then do! _ := (fun w => (Ok tt, with_sent (w_sent w ++ [message]) w)) in a_ret true
  else a_ret false.

(** *** Helpers of the service *)

Definition _require_enabled : M unit :=
  a_guard (negb (enabled cfg))
    (Platform (UserPlatformValidationError "User platform authentication is disabled.")).

Definition of_hasher {A} (r : result Hasher.value_error A) : M A :=
  a_lift (map_err (fun m => Platform (LibraryValueError m)) r).

Definition verify_password (user : User) (password : string) : M bool :=
  of_hasher (Hasher.verify (pbkdf2_hmac lib) password (u_password_hash user)).

Definition hash_password (password : string) : M string :=
  do! salt := ask (new_salt env) in
  of_hasher (Hasher.hash (pbkdf2_hmac lib) (iterations cfg) salt password).

Definition _abuse_key (action material : string) : M string :=
  match opaque_subject_key lib (app_settings cfg) action material with
  | Some key => a_ret key
  | None => a_err (RateFailed RateLimitUnavailable)
  end.

(** [if not self._rate_limiter.check(...): audit; raise]. *)
Definition limited (action material detail message : string) (user_id : option string)
    (metadata : list (string * json)) : M unit :=
  do! key := _abuse_key action material in
  do! allowed := rate_check key in
  if allowed then a_ret tt
  else do! _ := audit_record "rate_limited" user_id detail metadata in
       raise (UserPlatformRateLimitError message).

Definition lock_unavailable {A} : M A :=
  do! _ := audit_record "rate_limited" None "login_lock_unavailable"
             [("control", JStr "failed_login_lock"); ("condition", JStr "unavailable")]%string in
  raise (UserPlatformRateLimitError LOGIN_ATTEMPT_LIMIT_MESSAGE).

(** [try: ... except FailedLoginLockUnavailable: audit; raise]. *)
Definition on_lock {A} (f : datetime -> K -> result lock_exn A * K) : M A :=
  do! now := now_ in
  do! r := (fun w => let '(r, k) := f now (w_lock w) in (Ok r, with_lock k w)) in
  match r with
  | Ok a => a_ret a
  | Err FailedLoginLockUnavailable => lock_unavailable
  | Err e => a_err (LockFailed e)
  end.

Definition _reject_if_login_locked (rate_key : string) : M unit :=
  do! locked := on_lock (fun now k => (Facade.is_locked rate_key now k, k)) in
  if locked : bool then
    do! _ := audit_record "rate_limited" None "login_locked" [("control", JStr "failed_login_lock")]%string in
    raise (UserPlatformRateLimitError LOGIN_ATTEMPT_LIMIT_MESSAGE)
  else a_ret tt.

Definition _record_durable_login_failure (rate_key : string) : M unit :=
  do! _ := on_lock (fun now k => Facade.record_failure (login_lock cfg) rate_key now k) in a_ret tt.

Definition _clear_durable_login_failure (rate_key : string) : M unit :=
  on_lock (fun now k => Facade.clear (login_lock cfg) rate_key (Some now) k).

Definition action_url (path token : string) : M (option string) :=
  checked (_action_url lib (app_settings cfg) path token).

(** *** Policies *)

Definition has_accepted (user_id policy version : string) : M bool :=
  if has_consents cfg
  then do! c := on_store (consents_get user_id policy version) in a_ret (is_some c)
  else a_ret false.

Definition accept_published_policy (user_id policy source : string) (actor : option string)
    : M PolicyAcceptanceRecord :=
  match published lib (legal_catalog cfg) policy with
  | None => raise (UserPlatformValidationError "No published policy version can be accepted.")
  | Some version =>
      refuse! Platform (UserPlatformValidationError "Consent persistence is not configured.")
        when negb (has_consents cfg) in
      do! existing := on_store (consents_get user_id policy (version_id version)) in
      match existing with
      | Some c => a_ret c
      | None =>
          do! now := now_ in
          do! record_id := ask (id_factory env) in
          let record := {| pa_id := record_id; pa_user := user_id; pa_policy := policy;
                           pa_version := version_id version; pa_accepted := now; pa_source := source;
                           pa_actor := Some (if truthy actor then from_option id user_id actor else user_id) |} in
          do! saved := on_store (consents_save record) in
          if String.eqb (pa_id saved) record_id then
            do! _ := audit_record "policy_accepted" (Some user_id) policy
                       [("version_id", JStr (version_id version)); ("source", JStr source)]%string in
            a_ret saved
          else a_ret saved
      end
  end.

Definition _require_registration_consents (terms_accepted privacy_acknowledged : bool) : M unit :=
  refuse! Platform (UserPlatformValidationError "Terms of Service must be accepted.")
    when requires_acceptance lib (legal_catalog cfg) POLICY_TERMS && negb terms_accepted in
  refuse! Platform (UserPlatformValidationError "Privacy Policy must be acknowledged.")
    when requires_acceptance lib (legal_catalog cfg) POLICY_PRIVACY && negb privacy_acknowledged in
  a_ret tt.

Definition _persist_registration_consents (user_id : string) (terms_accepted privacy_acknowledged : bool)
    : M unit :=
  do! _ := (if terms_accepted && is_some (published lib (legal_catalog cfg) POLICY_TERMS)
            then do! _ := accept_published_policy user_id POLICY_TERMS "registration" None in a_ret tt
            else a_ret tt) in
  if privacy_acknowledged && is_some (published lib (legal_catalog cfg) POLICY_PRIVACY)
  then do! _ := accept_published_policy user_id POLICY_PRIVACY "registration" None in a_ret tt
  else a_ret tt.

(** *** Tokens and sessions *)

Definition _issue_session (user : User) (remember : bool) (agent ip : option string) : M AuthResult :=
  do! now := now_ in
  let ttl := if remember then remember_ttl cfg else session_ttl cfg in
  do! raw_token := ask (secrets_token env 48) in
  do! csrf := ask (secrets_token env 32) in
  do! session_id := ask (id_factory env) in
  let session := {| se_id := session_id; se_user := u_id user; se_token_hash := hash_token raw_token;
                    se_created := now; se_expires := dt_add now (seconds ttl); remember_me := remember;
                    last_seen := Some now; user_agent := agent; ip_hint := ip;
                    csrf_token := Some csrf; revoked := false |} in
  do! _ := on_store (sessions_save session) in
  a_ret {| ar_user := user; ar_session := session; access_token := raw_token; ar_csrf := Some csrf |}.

Definition _create_password_reset (user : User) : M string :=
  do! raw := ask (secrets_token env 32) in
  do! now := now_ in
  do! reset_id := ask (id_factory env) in
  do! _ := on_store (token_save
    {| pr_id := reset_id; pr_user := u_id user; pr_token_hash := hash_token raw; pr_created := now;
       pr_expires := dt_add now PASSWORD_RESET_TTL; pr_consumed := false |}) in
  do! url := action_url RESET_PATH raw in
  do! delivered := send_email (build_password_reset_message (u_email user) url 1) in
  do! _ := (if delivered
            then audit_record "password_reset_requested" (Some (u_id user)) "" []
            else audit_record "password_reset_requested" (Some (u_id user)) "email_delivery_failed" []) in
  a_ret raw.

Definition _issue_email_verification (user : User) : M string :=
  if negb (has_email_verifications cfg) then a_ret ""%string
  else
    do! raw := ask (secrets_token env 32) in
    do! now := now_ in
    do! verification_id := ask (id_factory env) in
    do! _ := on_store (token_save
      {| vr_id := verification_id; vr_user := u_id user; vr_token_hash := hash_token raw; vr_created := now;
         vr_expires := dt_add now EMAIL_VERIFICATION_TTL; vr_consumed := false |}) in
    do! url := action_url VERIFY_PATH raw in
    do! delivered := send_email (build_email_verification_message (u_email user) url 24) in
    do! _ := (if delivered
              then audit_record "email_verification_requested" (Some (u_id user)) "" []
              else audit_record "email_verification_requested" (Some (u_id user)) "email_delivery_failed" []) in
    a_ret raw.

Definition _create_email_change (user : User) (new_email : string) : M string :=
  do! _ := on_store (changes_invalidate_for_user (u_id user)) in
  do! raw := ask (secrets_token env 32) in
  do! now := now_ in
  do! change_id := ask (id_factory env) in
  do! _ := on_store (token_save
    {| ec_id := change_id; ec_user := u_id user; ec_token_hash := hash_token raw; ec_new_email := new_email;
       ec_created := now; ec_expires := dt_add now EMAIL_CHANGE_TTL; ec_purpose := EMAIL_CHANGE_PURPOSE;
       ec_consumed := false |}) in
  do! url := action_url EMAIL_CHANGE_PATH raw in
  do! delivered := send_email (build_email_change_message new_email url 24) in
  do! _ := (if delivered
            then audit_record "email_change_requested" (Some (u_id user)) "" []
            else audit_record "email_change_delivery_failed" (Some (u_id user)) "" []) in
  a_ret raw.

(** [max(active, key=(created_at, change_id))]: the first of the greatest. *)
Definition later_change (a b : EmailChangeRequest) : bool :=
  (dt_us (ec_created a) <? dt_us (ec_created b))
  || ((dt_us (ec_created a) =? dt_us (ec_created b)) && str_ltb (ec_id a) (ec_id b)).
Definition latest (active : list EmailChangeRequest) : option EmailChangeRequest :=
  match active with
  | [] => None
  | c :: rest => Some (fold_left (fun best x => if later_change best x then x else best) rest c)
  end.
Definition _latest_unconsumed_email_change (user_id : string) : M (option EmailChangeRequest) :=
  do! items := on_store (changes_list_for_user user_id) in
  a_ret (latest (List.filter (fun c => negb (ec_consumed c)) items)).

Definition _send_email_changed_notice (old_email : string) : M unit :=
  do! delivered := send_email (build_email_changed_notice old_email) in
  if delivered then a_ret tt
  else audit_record "email_change_delivery_failed" None "old_email_notice" [].

(** *** The public methods *)

Definition _bootstrap_profile (user : User) : M UserProfile :=
  do! now := now_ in
  let i := u_id user in
  let preferences :=
    {| up_user := i; budget := None; currency := "PHP"; country := "PH"; shopping_goals := [];
       categories := []; battery_priority := half; camera_priority := half;
       performance_priority := half; travel_frequency := "occasional"; creator_mode := false;
       gaming_mode := false; student_mode := false; business_mode := false;
       preferred_screen_size := []; preferred_colors := []; personal_profile_id := None;
       up_updated := Some now |} in
  let profile :=
    {| pf_user := i; pf_display_name := u_display_name user; preferences := preferences;
       favorite_brands := []; favorite_marketplaces := [];
       wishlist := Some {| wl_user := i; wl_products := []; wl_updated := Some now |};
       owned_products := []; accessories := [];
       pf_version := Some {| pv_user := i; pv_version := 1; changed_at := Some now;
                             change_summary := "created" |};
       pf_data_status := "mock" |} in
  do! _ := on_store (profiles_save_profile profile) in
  do! _ := on_store (profiles_save_settings
    {| us_user := i; theme := "system"; language := "en";
       notification_settings := Some {| np_user := i; email_enabled := false; push_enabled := false;
         deal_alerts := true; price_drop_alerts := true; newsletter := false |};
       ai_mode_preference := "economy";
       privacy_settings := [("share_community_activity", JBool false)]%string;
       community_settings := [("show_trusted_reviews", JBool true)]%string;
       us_updated := Some now |}) in
  a_ret profile.

Definition register (email password display_name : string)
    (remember terms_accepted privacy_acknowledged : bool) : M AuthResult :=
  do! _ := _require_enabled in
  do! cleaned_email := checked (_normalize_email email) in
  let cleaned_name := strip display_name in
  do! _ := checked (_validate_password password) in
  refuse! Platform (UserPlatformValidationError "display_name must not be blank.")
    when negb (nonempty cleaned_name) in
  do! _ := _require_registration_consents terms_accepted privacy_acknowledged in
  do! _ := limited "register" cleaned_email "register" "Too many registration attempts. Try again later."
             None [("email", JStr cleaned_email)]%string in
  do! existing := on_store (users_get_by_email cleaned_email) in
  refuse! Platform (UserPlatformConflictError ("Email already registered: " +:+ cleaned_email))
    when is_some existing in
  do! now := now_ in
  do! user_id := ask (id_factory env) in
  do! stored := hash_password password in
  let user := {| u_id := user_id; u_email := cleaned_email; u_password_hash := stored;
                 u_display_name := cleaned_name; u_active := true; u_verified := false;
                 u_created := Some now; u_updated := Some now; u_data_status := "mock" |} in
  do! _ := on_store (users_save user) in
  do! _ := _bootstrap_profile user in
  do! _ := _persist_registration_consents user_id terms_accepted privacy_acknowledged in
  do! _ := audit_record "register" (Some user_id) "user_registered" [] in
  do! _ := _issue_email_verification user in
  _issue_session user remember None None.

Definition INVALID_CREDENTIALS : string := "Invalid email or password.".

Definition login (email password : string) (remember : bool) (agent ip : option string) : M AuthResult :=
  do! _ := _require_enabled in
  do! cleaned_email := checked (_normalize_email email) in
  do! rate_key := _abuse_key "login" cleaned_email in
  do! _ := _reject_if_login_locked rate_key in
  do! allowed := rate_check rate_key in
  if negb allowed then
    do! _ := audit_record "rate_limited" None "login" [("email", JStr cleaned_email)]%string in
    raise (UserPlatformRateLimitError "Too many login attempts. Try again later.")
  else
    do! found := on_store (users_get_by_email cleaned_email) in
    let unknown :=
      do! _ := _record_durable_login_failure rate_key in
      do! _ := audit_record "login_failure" None "unknown_or_inactive" [("email", JStr cleaned_email)]%string in
      raise (UserPlatformAuthError INVALID_CREDENTIALS) in
    match found with
    | None => unknown
    | Some user =>
        if negb (u_active user) then unknown
        else
          do! ok := verify_password user password in
          if negb ok then
            do! _ := _record_durable_login_failure rate_key in
            do! _ := audit_record "login_failure" (Some (u_id user)) "bad_password" [] in
            raise (UserPlatformAuthError INVALID_CREDENTIALS)
          else if mfa_is_enabled (u_id user) then
            do! _ := audit_record "mfa_challenge" (Some (u_id user)) "" [] in
            raise (UserPlatformAuthError "MFA required but not implemented in Sprint 17.")
          else
            do! _ := _clear_durable_login_failure rate_key in
            do! _ := rate_reset rate_key in
            do! _ := audit_record "login_success" (Some (u_id user)) "" [] in
            _issue_session user remember agent ip
    end.

(** [validate_session] up to its last repository call: the refreshed session,
    or nothing where the method returns [None]. *)
Definition refreshed (s : UserSession) (now : datetime) : UserSession :=
  {| se_id := se_id s; se_user := se_user s; se_token_hash := se_token_hash s;
     se_created := se_created s; se_expires := se_expires s; remember_me := remember_me s;
     last_seen := Some now; user_agent := user_agent s; ip_hint := ip_hint s;
     csrf_token := csrf_token s; revoked := false |}.

Definition invalid (raise_on_invalid : bool) (message : string) : M (option UserSession) :=
  if raise_on_invalid then raise (UserPlatformAuthError message) else a_ret None.

Definition validate_read (token : option string) (raise_on_invalid : bool) : M (option UserSession) :=
  do! _ := _require_enabled in
  let token := from_option id ""%string token in
  if negb (nonempty token) || negb (nonempty (strip token))
  then invalid raise_on_invalid "Missing session token."
  else
    do! found := on_store (sessions_get_by_token_hash (hash_token (strip token))) in
    match found with
    | None => invalid raise_on_invalid "Invalid or revoked session."
    | Some session =>
        if revoked session then invalid raise_on_invalid "Invalid or revoked session."
        else
          do! now := now_ in
          if dt_us (se_expires session) <=? dt_us now then
            do! _ := on_store (sessions_revoke (se_id session)) in
            do! _ := audit_record "session_expired" (Some (se_user session)) "" [] in
            invalid raise_on_invalid "Session expired."
          else a_ret (Some (refreshed session now))
    end.

(** Its last call. *)
Definition validate_write (found : option UserSession) : M (option UserSession) :=
  match found with
  | None => a_ret None
  | Some session => do! _ := on_store (sessions_save session) in a_ret (Some session)
  end.

Definition validate_session (token : option string) (raise_on_invalid : bool) : M (option UserSession) :=
  do! found := validate_read token raise_on_invalid in validate_write found.

Definition logout (token : option string) : M unit :=
  do! _ := _require_enabled in
  if negb (truthy token) then a_ret tt
  else
    do! found := validate_session token false in
    match found with
    | None => a_ret tt
    | Some session =>
        do! _ := on_store (sessions_revoke (se_id session)) in
        audit_record "logout" (Some (se_user session)) (se_id session) []
    end.

(** [assert session is not None]: the call above raises instead. *)
Definition current_user (token : option string) : M User :=
  do! found := validate_session token true in
  match found with
  | None => raise (LibraryValueError "AssertionError")
  | Some session =>
      do! user := on_store (users_get_by_id (se_user session)) in
      match user with
      | Some u => if u_active u then a_ret u
                  else raise (UserPlatformAuthError "Authenticated user is inactive or missing.")
      | None => raise (UserPlatformAuthError "Authenticated user is inactive or missing.")
      end
  end.

Local Abbreviation response := (list (string * json)).
Definition accepted (detail : string) : response :=
  [("status", JStr "accepted"); ("email_delivery", JBool false); ("detail", JStr detail)]%string.
Definition with_inline (key raw : string) (r : response) : response :=
  if allows_inline_identity_tokens (app_settings cfg) then r ++ [(key, JStr raw)] else r.

Definition request_password_reset (email : string) : M response :=
  do! _ := _require_enabled in
  do! cleaned := checked (_normalize_email email) in
  do! _ := limited "password_reset" cleaned "password_reset"
             "Too many password reset attempts. Try again later." None [("email", JStr cleaned)]%string in
  do! user := on_store (users_get_by_email cleaned) in
  match user with
  | Some u =>
      if has_password_resets cfg then
        do! raw := _create_password_reset u in
        a_ret (with_inline "reset_token_demo_only" raw (accepted GENERIC_RESET_DETAIL))
      else a_ret (accepted GENERIC_RESET_DETAIL)
  | None => a_ret (accepted GENERIC_RESET_DETAIL)
  end.

(** [replace(user, ...)]. *)
Definition set_password (u : User) (stored : string) (now : datetime) : User :=
  {| u_id := u_id u; u_email := u_email u; u_password_hash := stored; u_display_name := u_display_name u;
     u_active := u_active u; u_verified := u_verified u; u_created := u_created u; u_updated := Some now;
     u_data_status := u_data_status u |}.
Definition set_verified (u : User) (email : string) (now : datetime) : User :=
  {| u_id := u_id u; u_email := email; u_password_hash := u_password_hash u;
     u_display_name := u_display_name u; u_active := u_active u; u_verified := true;
     u_created := u_created u; u_updated := Some now; u_data_status := u_data_status u |}.

(** [record is None or record.consumed or record.expires_at <= now], then the
    record's active user. *)
Definition usable_token {T} {token : TokenRecord T} (expires : T -> datetime) (found : option T)
    (now : datetime) (message : string) : M T :=
  match found with
  | Some t => if tok_consumed t || (dt_us (expires t) <=? dt_us now)
              then raise (UserPlatformAuthError message) else a_ret t
  | None => raise (UserPlatformAuthError message)
  end.
Definition active_user (user_id message : string) : M User :=
  do! user := on_store (users_get_by_id user_id) in
  match user with
  | Some u => if u_active u then a_ret u else raise (UserPlatformAuthError message)
  | None => raise (UserPlatformAuthError message)
  end.

Definition confirm_password_reset (token new_password : string) : M response :=
  do! _ := _require_enabled in
  do! _ := checked (_validate_password new_password) in
  let raw := strip token in
  refuse! Platform (UserPlatformAuthError INVALID_RESET_TOKEN)
    when negb (nonempty raw) || negb (has_password_resets cfg) in
  do! found := on_store (token_find (T := PasswordResetRequest) (hash_token raw)) in
  do! now := now_ in
  do! record := usable_token pr_expires found now INVALID_RESET_TOKEN in
  do! user := active_user (pr_user record) INVALID_RESET_TOKEN in
  do! stored := hash_password new_password in
  do! _ := on_store (users_save (set_password user stored now)) in
  do! _ := on_store (token_mark_consumed (T := PasswordResetRequest) (pr_id record)) in
  do! _ := on_store (sessions_revoke_all_for_user (u_id user)) in
  do! _ := audit_record "password_changed" (Some (u_id user)) "password_reset_confirmed" [] in
  a_ret [("status", JStr "password_changed")]%string.

Definition request_email_verification (user_id : string) : M response :=
  do! _ := _require_enabled in
  do! user := on_store (users_get_by_id user_id) in
  let payload := [("status", JStr "accepted"); ("email_delivery", JBool false)]%string in
  match user with
  | None => raise (UserPlatformNotFoundError user_id)
  | Some u =>
      if negb (has_email_verifications cfg) then a_ret payload
      else do! raw := _issue_email_verification u in
           a_ret (with_inline "verification_token_demo_only" raw payload)
  end.

Definition request_email_verification_by_email (email : string) : M response :=
  do! _ := _require_enabled in
  do! cleaned := checked (_normalize_email email) in
  do! _ := limited "email_verification" cleaned "email_verification"
             "Too many verification attempts. Try again later." None [("email", JStr cleaned)]%string in
  do! user := on_store (users_get_by_email cleaned) in
  match user with
  | Some u =>
      if has_email_verifications cfg then
        do! raw := _issue_email_verification u in
        a_ret (with_inline "verification_token_demo_only" raw (accepted GENERIC_VERIFY_DETAIL))
      else a_ret (accepted GENERIC_VERIFY_DETAIL)
  | None => a_ret (accepted GENERIC_VERIFY_DETAIL)
  end.

Definition confirm_email_verification (token : string) : M response :=
  do! _ := _require_enabled in
  let raw := strip token in
  refuse! Platform (UserPlatformAuthError INVALID_VERIFY_TOKEN)
    when negb (nonempty raw) || negb (has_email_verifications cfg) in
  do! found := on_store (token_find (T := EmailVerificationRequest) (hash_token raw)) in
  do! now := now_ in
  do! record := usable_token vr_expires found now INVALID_VERIFY_TOKEN in
  do! user := active_user (vr_user record) INVALID_VERIFY_TOKEN in
  do! _ := on_store (users_save (set_verified user (u_email user) now)) in
  do! _ := on_store (token_mark_consumed (T := EmailVerificationRequest) (vr_id record)) in
  do! _ := audit_record "email_verified" (Some (u_id user)) "" [] in
  a_ret [("status", JStr "email_verified"); ("email_verified", JBool true)]%string.

Definition request_email_change (token : option string) (new_email password : string) : M response :=
  do! _ := _require_enabled in
  do! user := current_user token in
  do! _ := limited "email_change" (u_id user) "email_change"
             "Too many email change attempts. Try again later." (Some (u_id user)) [] in
  do! ok := verify_password user password in
  if negb ok then
    do! _ := audit_record "login_failure" (Some (u_id user)) "email_change_bad_password" [] in
    raise (UserPlatformAuthError "Invalid credentials.")
  else
    do! cleaned := checked (_normalize_email new_email) in
    refuse! Platform (UserPlatformValidationError "New email must differ from the current account email.")
      when String.eqb cleaned (u_email user) in
    do! occupant := on_store (users_get_by_email cleaned) in
    if is_some occupant || negb (has_email_changes cfg) then a_ret (accepted GENERIC_EMAIL_CHANGE_DETAIL)
    else
      do! raw := _create_email_change user cleaned in
      a_ret (with_inline "email_change_token_demo_only" raw (accepted GENERIC_EMAIL_CHANGE_DETAIL)).

(** [except Exception] of the two steps that must not be skipped. *)
Definition fail_closed {A} (m : M A) : M A :=
  do! r := attempt m in
  match r with
  | Ok a => a_ret a
  | Err _ => raise (UserPlatformValidationError EMAIL_CHANGE_COMPLETION_ERROR)
  end.

(** The identity is saved; a validation error of the save is an invalid token. *)
Definition save_new_identity (user : User) : M unit :=
  do! r := attempt (on_store (users_save user)) in
  match r with
  | Ok _ => a_ret tt
  | Err (Platform (UserPlatformValidationError _)) => raise (UserPlatformAuthError INVALID_EMAIL_CHANGE_TOKEN)
  | Err e => a_err e
  end.

Definition confirm_email_change (token : string) : M response :=
  do! _ := _require_enabled in
  let raw := strip token in
  let invalid := Platform (UserPlatformAuthError INVALID_EMAIL_CHANGE_TOKEN) in
  refuse! invalid when negb (nonempty raw) || negb (has_email_changes cfg) in
  do! found := on_store (token_find (T := EmailChangeRequest) (hash_token raw)) in
  do! now := now_ in
  do! record := usable_token ec_expires found now INVALID_EMAIL_CHANGE_TOKEN in
  refuse! invalid when negb (String.eqb (ec_purpose record) EMAIL_CHANGE_PURPOSE) in
  do! last := _latest_unconsumed_email_change (ec_user record) in
  refuse! invalid when match last with
                       | Some c => negb (String.eqb (ec_id c) (ec_id record)) | None => false end in
  do! user := active_user (ec_user record) INVALID_EMAIL_CHANGE_TOKEN in
  do! occupant := on_store (users_get_by_email (ec_new_email record)) in
  refuse! invalid when match occupant with
                       | Some o => negb (String.eqb (u_id o) (u_id user)) | None => false end in
  let old_email := u_email user in
  let already_applied := String.eqb (u_email user) (ec_new_email record) && u_verified user in
  do! _ := fail_closed (on_store (sessions_revoke_all_for_user (u_id user))) in
  do! _ := (if already_applied then a_ret tt
            else do! _ := save_new_identity (set_verified user (ec_new_email record) now) in
                 _send_email_changed_notice old_email) in
  do! _ := fail_closed (
    do! _ := on_store (token_mark_consumed (T := EmailChangeRequest) (ec_id record)) in
    on_store (changes_invalidate_for_user (u_id user))) in
  do! _ := audit_record "email_change_confirmed" (Some (u_id user)) "" [] in
  a_ret [("status", JStr "email_changed"); ("email_verified", JBool true)]%string.

(** [OAuthExtensionPoint.begin_link]. *)
Definition begin_oauth_link (provider user_id : string) : M response :=
  do! _ := audit_record "oauth_link_attempt" (Some user_id) "" [("provider", JStr provider)]%string in
  a_ret [("provider", JStr provider); ("user_id", JStr user_id); ("status", JStr "not_implemented");
         ("supported_providers", JList [])]%string.
End Auth.
End Auth.

(** ** Requests *)
Module Requests.
Import Auth.

(** The public methods with their arguments. *)
Inductive request :=
| Register (email password display_name : string) (remember terms privacy : bool)
| Login (email password : string) (remember : bool) (agent ip : option string)
| Logout (token : option string)
| ValidateSession (token : option string) (raise_on_invalid : bool)
| CurrentUser (token : option string)
| RequestPasswordReset (email : string)
| ConfirmPasswordReset (token new_password : string)
| RequestEmailVerification (user_id : string)
| RequestEmailVerificationByEmail (email : string)
| ConfirmEmailVerification (token : string)
| RequestEmailChange (token : option string) (new_email password : string)
| ConfirmEmailChange (token : string)
| AcceptPolicy (user_id policy source : string) (actor : option string)
| HasAccepted (user_id policy version : string)
| BeginOauthLink (provider user_id : string).

Section Requests.
Context {S L K : Type} {accounts : AccountStore S} {limits : RateLimitStore L}
  {locks : FailedLoginLockStore K} (lib : library) (env : environment) (cfg : config).
Local Abbreviation W := (world S L K).
Local Abbreviation M := (act W auth_exn).

Definition answered {A} (m : M A) : M unit := do! _ := m in a_ret tt.

Definition serve (q : request) : M unit :=
  match q with
  | Register e p n r t a => answered (register lib env cfg e p n r t a)
  | Login e p r agent ip => answered (login lib env cfg e p r agent ip)
  | Logout t => logout lib env cfg t
  | ValidateSession t b => answered (validate_session lib env cfg t b)
  | CurrentUser t => answered (current_user lib env cfg t)
  | RequestPasswordReset e => answered (request_password_reset lib env cfg e)
  | ConfirmPasswordReset t p => answered (confirm_password_reset lib env cfg t p)
  | RequestEmailVerification u => answered (request_email_verification lib env cfg u)
  | RequestEmailVerificationByEmail e => answered (request_email_verification_by_email lib env cfg e)
  | ConfirmEmailVerification t => answered (confirm_email_verification lib env cfg t)
  | RequestEmailChange t e p => answered (request_email_change lib env cfg t e p)
  | ConfirmEmailChange t => answered (confirm_email_change lib env cfg t)
  | AcceptPolicy u p s a => answered (accept_published_policy lib env cfg u p s a)
  | HasAccepted u p v => answered (has_accepted cfg u p v)
  | BeginOauthLink p u => answered (begin_oauth_link env cfg p u)
  end.

(** One request after the other, whatever each of them answers. *)
Definition served (q : request) (w : W) : W := (serve q w).2.
Definition history (qs : list request) (w : W) : W := fold_left (fun w q => served q w) qs w.
End Requests.
End Requests.
