(* ===== verification/AuthRules.v ===== *)
(** A program logic for the methods of [Auth]: what every call keeps.

    Module [Tables]: how the stored records may change. Module [Rules]: the
    worlds that are [reached] from given rows - the store keeps its laws,
    nothing stored collides with an id or a token still to be drawn, and every
    record is an old one or a new draw - and triples over them. *)

From S2P Require Import Prelude PyStr Json Clock PyState OpStore RateLimit LoginLock Users Password Identity Auth.
#[local] Open Scope Z_scope.
#[local] Open Scope py_scope.
Import Entities Rows Store Settings Messages Legal Checks LockInterface World Auth.

(** ** Tables that only evolve *)
Module Tables.

Section Draws.
Context (lib : library) (env : environment).

(** The ids and the tokens that are drawn from question [n] on. *)
Definition id_ahead (n : nat) (i : string) : Prop := exists k, (n <= k)%nat /\ i = id_factory env k.
Definition hash_ahead (n : nat) (h : string) : Prop :=
  exists k b, (n <= k)%nat /\ h = hash_token lib (secrets_token env b k).

(** The environment never repeats itself. *)
Record env_ok : Prop := {
  ids_nonempty n : id_factory env n <> ""%string;
  ids_distinct n k : id_factory env n = id_factory env k -> n = k;
  tokens_distinct b c n k :
    hash_token lib (secrets_token env b n) = hash_token lib (secrets_token env c k) -> n = k
}.

Lemma id_ahead_le n n' i : (n <= n')%nat -> id_ahead n' i -> id_ahead n i.
Proof. intros Hn (k & Hk & ->). exists k. split; [lia | done]. Qed.
Lemma hash_ahead_le n n' h : (n <= n')%nat -> hash_ahead n' h -> hash_ahead n h.
Proof. intros Hn (k & b & Hk & ->). exists k, b. split; [lia | done]. Qed.

Lemma id_drawn k n : env_ok -> (k < n)%nat -> ~ id_ahead n (id_factory env k).
Proof. intros He Hk (j & Hj & E). apply (ids_distinct He) in E. lia. Qed.
Lemma hash_drawn b k n : env_ok -> (k < n)%nat -> ~ hash_ahead n (hash_token lib (secrets_token env b k)).
Proof. intros He Hk (j & c & Hj & E). apply (tokens_distinct He) in E. lia. Qed.
End Draws.

(** A kind of record: its hash, its owner, and whether it is spent. *)
Class Spendable (X : Type) := { hash_of : X -> string; owner_of : X -> string; spent : X -> bool }.
#[global] Instance session_spendable : Spendable UserSession :=
  {| hash_of := se_token_hash; owner_of := se_user; spent := revoked |}.
#[global] Instance token_spendable {T} {token : TokenRecord T} : Spendable T :=
  {| hash_of := tok_hash; owner_of := tok_user; spent := tok_consumed |}.

Section Table.
Context {X : Type} {sp : Spendable X} (lib : library) (env : environment).
Implicit Types m : gmap string X.

(** The same record, at most spent since. *)
Definition same_record (x x' : X) : Prop :=
  hash_of x' = hash_of x /\ owner_of x' = owner_of x /\ (spent x = true -> spent x' = true).

(** Every record of [m'] is one of [m]. *)
Definition shrinks m m' : Prop :=
  forall i x', m' !! i = Some x' -> exists x, m !! i = Some x /\ same_record x x'.

(** Every record of [m'] is one of [m] or has been drawn since question [n]. *)
Definition evolves (n : nat) m m' : Prop :=
  forall i x', m' !! i = Some x' ->
    (exists x, m !! i = Some x /\ same_record x x')
    \/ (id_ahead env n i /\ hash_ahead lib env n (hash_of x')).

Definition unseen_in (n : nat) m : Prop :=
  forall i x, m !! i = Some x -> ~ id_ahead env n i /\ ~ hash_ahead lib env n (hash_of x).

Lemma same_refl x : same_record x x.
Proof. by repeat split. Qed.
Lemma same_trans x y z : same_record x y -> same_record y z -> same_record x z.
Proof. intros (E1 & E2 & H1) (E3 & E4 & H2). split; [congruence |]. split; [congruence | auto]. Qed.

Lemma shrinks_refl m : shrinks m m.
Proof. intros i x H. exists x. split; [done | apply same_refl]. Qed.

Lemma evolves_shrinks n m m' m'' : evolves n m m' -> shrinks m' m'' -> evolves n m m''.
Proof.
  intros H1 H2 i x'' Hx''. destruct (H2 i x'' Hx'') as (x' & Hx' & Hs).
  destruct (H1 i x' Hx') as [(x & Hx & Hs') | [Hi Hh]].
  - left. exists x. split; [done |]. by eapply same_trans.
  - right. split; [done |]. destruct Hs as [-> _]. done.
Qed.

Lemma evolves_none n m : evolves n m m.
Proof. intros i x H. left. exists x. split; [done | apply same_refl]. Qed.

Lemma unseen_shrinks n m m' : unseen_in n m -> shrinks m m' -> unseen_in n m'.
Proof.
  intros H Hs i x' Hx'. destruct (Hs i x' Hx') as (x & Hx & E & _). rewrite E. by eapply H.
Qed.

Lemma unseen_le n n' m : (n <= n')%nat -> unseen_in n m -> unseen_in n' m.
Proof.
  intros Hn H i x Hx. destruct (H i x Hx) as [Hi Hh].
  split; intros Ha; [apply Hi; by eapply id_ahead_le | apply Hh; by eapply hash_ahead_le].
Qed.

(** A record replaced by the same one, and all at once. *)
Lemma shrinks_insert m i x x' : m !! i = Some x -> same_record x x' -> shrinks m (<[i := x']> m).
Proof.
  intros Hx Hs j y. destruct (decide (j = i)) as [-> | Hj].
  - rewrite lookup_insert_eq. intros [= <-]. by exists x.
  - rewrite lookup_insert_ne by done. intros Hy. exists y. split; [done | apply same_refl].
Qed.

Lemma shrinks_fmap f m : (forall x, same_record x (f x)) -> shrinks m (f <$> m).
Proof.
  intros Hf i x'. rewrite lookup_fmap. destruct (m !! i) as [x|]; [| done]. intros [= <-]. by exists x.
Qed.

Lemma shrinks_alter f i m : (forall x, same_record x (f x)) -> shrinks m (alter f i m).
Proof.
  intros Hf j x'. destruct (decide (j = i)) as [-> | Hj].
  - rewrite lookup_alter_eq. destruct (m !! i) as [x|]; [| done]. intros [= <-]. by exists x.
  - rewrite lookup_alter_ne by done. intros Hx. exists x'. split; [done | apply same_refl].
Qed.

(** A record just drawn. *)
Lemma evolves_drawn (He : env_ok lib env) n m m' i j b x :
  evolves n m m' -> (n <= i)%nat -> (n <= j)%nat -> hash_of x = hash_token lib (secrets_token env b j) ->
  evolves n m (<[id_factory env i := x]> m').
Proof.
  intros H Hi Hj Eh k y. destruct (decide (k = id_factory env i)) as [-> | Hk].
  - rewrite lookup_insert_eq. intros [= <-]. right. split; [by exists i |]. rewrite Eh. by exists j, b.
  - rewrite lookup_insert_ne by done. apply H.
Qed.

Lemma unseen_drawn (He : env_ok lib env) n m i j b x :
  unseen_in n m -> (i < n)%nat -> (j < n)%nat -> hash_of x = hash_token lib (secrets_token env b j) ->
  unseen_in n (<[id_factory env i := x]> m).
Proof.
  intros H Hi Hj Eh k y. destruct (decide (k = id_factory env i)) as [-> | Hk].
  - rewrite lookup_insert_eq. intros [= <-]. split; [by eapply id_drawn |]. rewrite Eh. by eapply hash_drawn.
  - rewrite lookup_insert_ne by done. apply H.
Qed.
End Table.

(** *** The rows *)
Section RowTables.
Context (lib : library) (env : environment).

Record unseen (n : nat) (r : rows) : Prop := {
  un_sessions : unseen_in lib env n (r_sessions r);
  un_resets : unseen_in lib env n (r_resets r);
  un_verifications : unseen_in lib env n (r_verifications r);
  un_changes : unseen_in lib env n (r_changes r);
  un_consents i c : r_consents r !! i = Some c -> ~ id_ahead env n i
}.

Record later (n : nat) (r r' : rows) : Prop := {
  lt_sessions : evolves lib env n (r_sessions r) (r_sessions r');
  lt_resets : evolves lib env n (r_resets r) (r_resets r');
  lt_verifications : evolves lib env n (r_verifications r) (r_verifications r');
  lt_changes : evolves lib env n (r_changes r) (r_changes r')
}.

(** No record is added, but the users may be anything. *)
Record nothing_new (r r' : rows) : Prop := {
  nn_sessions : shrinks (r_sessions r) (r_sessions r');
  nn_resets : shrinks (r_resets r) (r_resets r');
  nn_verifications : shrinks (r_verifications r) (r_verifications r');
  nn_changes : shrinks (r_changes r) (r_changes r');
  nn_consents : r_consents r' = r_consents r
}.

Lemma later_refl n r : later n r r.
Proof. split; apply evolves_none. Qed.

Lemma later_step n r r' r'' : later n r r' -> nothing_new r' r'' -> later n r r''.
Proof. intros [] []. split; by eapply evolves_shrinks. Qed.

Lemma unseen_step n r r' : unseen n r -> nothing_new r r' -> unseen n r'.
Proof.
  intros [] [? ? ? ? E]. split; try (by eapply unseen_shrinks). intros i c. rewrite E. apply un_consents0.
Qed.

Lemma unseen_rows_le n n' r : (n <= n')%nat -> unseen n r -> unseen n' r.
Proof.
  intros Hn []. split; try (by eapply unseen_le). intros i c Hc Ha. eapply un_consents0; [done |].
  by eapply id_ahead_le.
Qed.

Lemma nothing_new_refl r : nothing_new r r.
Proof. split; try apply shrinks_refl. done. Qed.
End RowTables.

Lemma revoke_same s : same_record s (set_revoked s).
Proof. by repeat split. Qed.
Lemma consume_same {T} {token : TokenRecord T} {laws : TokenRecordLaws T} (t : T) :
  same_record t (tok_consume t).
Proof. repeat split; cbn; [apply consume_hash | apply consume_user |]. intros _. apply consume_consumed. Qed.

Lemma cond_same {X} {sp : Spendable X} (c : X -> bool) (f : X -> X) x :
  (forall y, same_record y (f y)) -> same_record x (if c x then f x else x).
Proof. intros Hf. destruct (c x); [apply Hf | apply same_refl]. Qed.
End Tables.

(** ** Triples *)
Module Rules.
Import Tables.

Section Rules.
Context {S L K : Type} {accounts : AccountStore S} {laws : AccountLaws S}
  {limits : RateLimitStore L} {locks : FailedLoginLockStore K}
  (lib : library) (env : environment) (He : env_ok lib env).
Local Abbreviation W := (world S L K).
Local Abbreviation M := (act W auth_exn).

Definition rows_at (w : W) : rows := view (w_store w).

Record good (w : W) : Prop := {
  good_lawful : lawful (w_store w);
  good_unseen : unseen lib env (w_asked w) (rows_at w)
}.

(** The worlds after question [n0] and the rows [r0]. *)
Record reached (n0 : nat) (r0 : rows) (w : W) : Prop := {
  re_good : good w;
  re_asked : (n0 <= w_asked w)%nat;
  re_later : later lib env n0 r0 (rows_at w)
}.

Definition fact : Type := nat -> rows -> Prop.

(** From a reached world where [P] holds, [m] reaches a world, and one where
    [Q] holds of its answer if it returns. *)
Definition triple (n0 : nat) (r0 : rows) {A} (P : fact) (m : M A) (Q : A -> fact) : Prop :=
  forall w, reached n0 r0 w -> P (w_asked w) (rows_at w) ->
    reached n0 r0 (m w).2
    /\ match (m w).1 with Ok a => Q a (w_asked (m w).2) (rows_at (m w).2) | Err _ => True end.

Definition anything : fact := fun _ _ => True.

Lemma good_reached w : good w -> reached (w_asked w) (rows_at w) w.
Proof. intros H. split; [done | done | apply later_refl]. Qed.

Lemma triple_ret {n0 r0} {A} (P : fact) (a : A) (Q : A -> fact) :
  (forall n r, P n r -> Q a n r) -> triple n0 r0 P (a_ret a) Q.
Proof. intros H w Hr HP. cbn. auto. Qed.

Lemma triple_err {n0 r0} {A} (P : fact) (e : auth_exn) (Q : A -> fact) : triple n0 r0 P (a_err e) Q.
Proof. intros w Hr HP. by cbn. Qed.

Lemma triple_lift {n0 r0} {A} (P : fact) (x : result auth_exn A) (Q : A -> fact) :
  (forall a n r, x = Ok a -> P n r -> Q a n r) -> triple n0 r0 P (a_lift x) Q.
Proof. intros H w Hr HP. cbn. split; [done |]. destruct x; auto. Qed.

Lemma triple_guard {n0 r0} c e (P : fact) : triple n0 r0 P (a_guard c e : M unit) (fun _ n r => P n r /\ c = false).
Proof. intros w Hr HP. by destruct c; cbn. Qed.

Lemma triple_bind {n0 r0} {A B} (P : fact) (m : M A) (Q : A -> fact) (k : A -> M B) (R : B -> fact) :
  triple n0 r0 P m Q -> (forall a, triple n0 r0 (Q a) (k a) R) -> triple n0 r0 P (a_bind m k) R.
Proof.
  intros Hm Hk w Hr HP. destruct (Hm w Hr HP) as [Hr' HQ]. unfold a_bind.
  destruct (m w) as [[a | e] w']; cbn in *; [| done]. by apply Hk.
Qed.

Lemma triple_weaken {n0 r0} {A} (P P' : fact) (m : M A) (Q Q' : A -> fact) :
  triple n0 r0 P' m Q' -> (forall n r, P n r -> P' n r) -> (forall a n r, Q' a n r -> Q a n r) -> triple n0 r0 P m Q.
Proof.
  intros Hm HP HQ w Hr H. destruct (Hm w Hr (HP _ _ H)) as [H1 H2]. split; [done |].
  destruct (m w).1; auto.
Qed.

(** What does not depend on the world. *)
Lemma triple_pure {n0 r0} {A} (φ : Prop) (P : fact) (m : M A) (Q : A -> fact) :
  (φ -> triple n0 r0 P m Q) -> triple n0 r0 (fun n r => φ /\ P n r) m Q.
Proof. intros H w Hr [Hφ HP]. by apply H. Qed.

Lemma triple_exists {n0 r0} {A B} (P : B -> fact) (m : M A) (Q : A -> fact) :
  (forall b, triple n0 r0 (P b) m Q) -> triple n0 r0 (fun n r => exists b, P b n r) m Q.
Proof. intros H w Hr [b HP]. by apply (H b). Qed.

(** Facts that no later row refutes. *)
Definition stable (P : fact) : Prop :=
  forall n n' r r', (n <= n')%nat -> later lib env n r r' -> P n r -> P n' r'.

Lemma triple_stable {n0 r0} {A} (P : fact) (m : M A) (Q : A -> fact) :
  stable P -> (forall n0 r0, triple n0 r0 P m Q) -> triple n0 r0 P m (fun a n r => P n r /\ Q a n r).
Proof.
  intros Hs Hm w Hr HP. destruct (Hm n0 r0 w Hr HP) as [H1 H2]. split; [done |].
  destruct (Hm _ _ w (good_reached w (re_good _ _ _ Hr)) HP) as [H3 _].
  destruct (m w).1; [| done]. split; [| done]. eapply Hs; [apply (re_asked _ _ _ H3) | apply (re_later _ _ _ H3) | done].
Qed.

(** What a reached world gives. *)
Lemma triple_here {n0 r0} {A} (P : fact) (m : M A) (Q : A -> fact) :
  triple n0 r0 (fun n r => P n r /\ rows_ok r /\ unseen lib env n r) m Q -> triple n0 r0 P m Q.
Proof.
  intros H w Hr HP. apply H; [done |]. split; [done |]. destruct Hr as [[Hl Hu] _ _].
  split; [by apply view_ok | done].
Qed.

(** *** The environment *)

Lemma triple_ask {n0 r0} {A} (P : fact) (f : nat -> A) :
  triple n0 r0 P (ask f) (fun a n r => exists k, a = f k /\ n = Datatypes.S k /\ (n0 <= k)%nat /\ P k r /\ unseen lib env k r).
Proof.
  intros w [[Hl Hu] Hn Hlt] HP. cbn. split; [| by exists (w_asked w)].
  split; [split | cbn; lia | done]; [done |]. cbn. eapply unseen_rows_le; [| exact Hu]. lia.
Qed.

(** Answers that are only facts of the rows. *)
Lemma triple_ask_keep {n0 r0} {A} (φ : rows -> Prop) (f : nat -> A) :
  triple n0 r0 (fun _ r => φ r) (ask f) (fun _ _ r => φ r).
Proof.
  eapply triple_weaken; [apply (triple_ask (fun _ r => φ r)) | done |]. by intros a n r (k & _ & _ & _ & H & _).
Qed.

(** The other parts of the world. *)
Definition quiet {A} (m : M A) : Prop :=
  forall w, w_store (m w).2 = w_store w /\ w_asked (m w).2 = w_asked w.

Lemma triple_quiet {n0 r0} {A} (P : fact) (m : M A) : quiet m -> triple n0 r0 P m (fun _ => P).
Proof.
  intros Hq w [[Hl Hu] Hn Hlt] HP. destruct (Hq w) as [Es Ea].
  assert (rows_at (m w).2 = rows_at w) as Er by (unfold rows_at; by rewrite Es).
  split; [split; [split |  |] |]; rewrite ?Er, ?Ea, ?Es; try done. by destruct (m w).1.
Qed.

Lemma triple_attempt {n0 r0} {A} (P : fact) (m : M A) (Q : A -> fact) :
  triple n0 r0 P m Q ->
  triple n0 r0 P (attempt m) (fun x n r => match x with Ok a => Q a n r | Err _ => True end).
Proof.
  intros Hm w Hr HP. destruct (Hm w Hr HP) as [H1 H2]. unfold attempt.
  destruct (m w) as [x w']; cbn in *. split; [done |]. by destruct x.
Qed.

(** *** The store *)

Lemma triple_store {n0 r0} {A} (P : fact) (m : act S repo_exn A) pre post (Q : A -> fact) :
  does m pre post ->
  (forall n r, P n r -> rows_ok r -> unseen lib env n r -> pre r) ->
  (forall n a r r', (n0 <= n)%nat -> P n r -> rows_ok r -> rows_ok r' -> unseen lib env n r ->
     later lib env n0 r0 r -> post r a r' ->
     unseen lib env n r' /\ later lib env n0 r0 r' /\ Q a n r') ->
  triple n0 r0 P (on_store m) Q.
Proof.
  intros Hm Hpre Hpost w [[Hl Hu] Hn Hlt] HP. unfold on_store.
  pose proof (view_ok _ Hl) as Hok. destruct (Hm (w_store w) Hl (Hpre _ _ HP Hok Hu)) as [Hl' H].
  destruct (m (w_store w)) as [[a | [] ] s]; cbn in *; [| done |].
  - destruct (Hpost _ _ _ _ Hn HP Hok (view_ok _ Hl') Hu Hlt H) as (H1 & H2 & H3).
    by split; [split; [split |  |] |].
  - destruct H as [_ E]. split; [| done]. unfold rows_at in *. cbn in *.
    split; [split | |]; unfold rows_at; cbn; rewrite ?E; done.
Qed.

(** A method that adds no record. *)
Lemma triple_step {n0 r0} {A} (P : fact) (m : act S repo_exn A) pre post (Q : A -> fact) :
  does m pre post ->
  (forall n r, P n r -> rows_ok r -> pre r) ->
  (forall n a r r', P n r -> rows_ok r -> rows_ok r' -> post r a r' -> nothing_new r r' /\ Q a n r') ->
  triple n0 r0 P (on_store m) Q.
Proof.
  intros Hm Hpre Hpost. eapply triple_store; [exact Hm | intros n r HP Hok _; by eapply Hpre |].
  intros n a r r' Hn HP Hok Hok' Hu Hlt H. destruct (Hpost n a r r' HP Hok Hok' H) as [Hnn HQ].
  split; [by eapply unseen_step |]. split; [by eapply later_step | done].
Qed.

(** A query. *)
Lemma triple_read {n0 r0} {A} (P : fact) (m : act S repo_exn A) (φ : rows -> A -> Prop) :
  does m (fun _ => True) (fun r a r' => r' = r /\ φ r a) ->
  triple n0 r0 P (on_store m) (fun a n r => P n r /\ rows_ok r /\ φ r a).
Proof.
  intros Hm. eapply triple_step; [exact Hm | done |].
  intros n a r r' HP Hok Hok' [-> Hφ]. split; [apply nothing_new_refl | done].
Qed.
(** *** Draws *)

(** [a] is an answer to a question from [j] to [n]. *)
Definition drawn {A} (f : nat -> A) (j : nat) (a : A) (n : nat) : Prop :=
  exists k, (j <= k)%nat /\ (k < n)%nat /\ a = f k.

(** From here on: the rows of question [j] are still the rows. *)
Definition since (j : nat) (φ : nat -> Prop) : fact := fun n r => (j <= n)%nat /\ unseen lib env j r /\ φ n.

Lemma triple_since {n0 r0 A} (m : M A) (Q : A -> fact) :
  (forall j, (n0 <= j)%nat -> triple n0 r0 (since j (fun _ => True)) m Q) -> triple n0 r0 anything m Q.
Proof.
  intros H w Hr _. apply (H (w_asked w)); [apply (re_asked _ _ _ Hr) | done |].
  split; [done |]. split; [apply (good_unseen w (re_good _ _ _ Hr)) | done].
Qed.

Lemma triple_draw {n0 r0 j A} (φ : nat -> Prop) (f : nat -> A) :
  (forall n, φ n -> φ (Datatypes.S n)) ->
  triple n0 r0 (since j φ) (ask f) (fun a => since j (fun n => drawn f j a n /\ φ n)).
Proof.
  intros Hφ. eapply triple_weaken; [apply triple_ask | done |].
  intros a n r (k & -> & -> & Hk & (Hj & Hu & H) & _). split; [lia |]. split; [done |].
  split; [| auto]. exists k. split; [done |]. split; [lia | done].
Qed.

Lemma drawn_S {A} (f : nat -> A) j a n : drawn f j a n -> drawn f j a (Datatypes.S n).
Proof. intros (k & H1 & H2 & H3). exists k. split; [done |]. split; [lia | done]. Qed.
End Rules.
End Rules.

(** ** What the methods keep *)
Module Methods.
Import Tables Rules.

Section Methods.
Context {S L K : Type} {accounts : AccountStore S} {laws : AccountLaws S}
  {reset_laws : TokenLaws S PasswordResetRequest} {verification_laws : TokenLaws S EmailVerificationRequest}
  {change_laws : TokenLaws S EmailChangeRequest}
  {limits : RateLimitStore L} {locks : FailedLoginLockStore K}
  (lib : library) (env : environment) (cfg : config) (He : env_ok lib env).
Local Abbreviation W := (world S L K).
Local Abbreviation M := (act W auth_exn).

(** [m] leads from reached worlds to reached worlds. *)
Definition kept {A} (m : M A) : Prop := forall n0 r0, triple lib env n0 r0 anything m (fun _ => anything).

Lemma kept_bind {A B} (m : M A) (k : A -> M B) : kept m -> (forall a, kept (k a)) -> kept (a_bind m k).
Proof. intros Hm Hk n0 r0. eapply triple_bind; [apply Hm | intros a; apply Hk]. Qed.
Lemma kept_ret {A} (a : A) : kept (a_ret a).
Proof. intros n0 r0. by apply triple_ret. Qed.
Lemma kept_err {A} e : kept (a_err e : M A).
Proof. intros n0 r0. apply triple_err. Qed.
Lemma kept_lift {A} (x : result auth_exn A) : kept (a_lift x).
Proof. intros n0 r0. by apply triple_lift. Qed.
Lemma kept_guard c e : kept (a_guard c e).
Proof. intros n0 r0. eapply triple_weaken; [apply triple_guard | done | done]. Qed.
Lemma kept_ask {A} (f : nat -> A) : kept (ask f).
Proof. intros n0 r0. eapply triple_weaken; [apply triple_ask | done | done]. Qed.
Lemma kept_quiet {A} (m : M A) : quiet m -> kept m.
Proof. intros H n0 r0. by apply triple_quiet. Qed.
Lemma kept_attempt {A} (m : M A) : kept m -> kept (attempt m).
Proof. intros H n0 r0. eapply triple_weaken; [apply triple_attempt, H | done | by destruct a]. Qed.
Lemma kept_stable {A} P (m : M A) : stable lib env P -> kept m -> forall n0 r0, triple lib env n0 r0 P m (fun _ => P).
Proof.
  intros Hs Hm n0 r0. eapply triple_weaken; [apply (triple_stable lib env P m (fun _ => anything) Hs) | done |].
  - intros n1 r1. eapply triple_weaken; [apply Hm | done | done].
  - by intros a n r [H _].
Qed.
(** A method that adds no record. *)
Lemma kept_step {A} (m : act S repo_exn A) pre post :
  does m pre post -> (forall r, rows_ok r -> pre r) ->
  (forall a r r', rows_ok r -> post r a r' -> nothing_new r r') -> kept (on_store m).
Proof.
  intros Hm Hpre Hpost n0 r0. eapply triple_step; [exact Hm | intros n r _; apply Hpre |].
  intros n a r r' _ Hok _ H. split; [by eapply Hpost | done].
Qed.

Lemma kept_read {A} (m : act S repo_exn A) (φ : rows -> A -> Prop) :
  does m (fun _ => True) (fun r a r' => r' = r /\ φ r a) -> kept (on_store m).
Proof. intros Hm n0 r0. eapply triple_weaken; [exact (triple_read lib env anything m φ Hm) | done | done]. Qed.

Ltac keep1 :=
  lazymatch goal with
  | |- kept (a_bind _ _) => apply kept_bind; [| intros ?]
  | |- kept (a_ret _) => apply kept_ret
  | |- kept (a_err _) => apply kept_err
  | |- kept (raise _) => apply kept_err
  | |- kept (a_lift _) => apply kept_lift
  | |- kept (checked _) => apply kept_lift
  | |- kept (of_hasher _) => apply kept_lift
  | |- kept (a_guard _ _) => apply kept_guard
  | |- kept (ask _) => apply kept_ask
  | |- kept (attempt _) => apply kept_attempt
  | |- kept (match ?x with _ => _ end) => destruct x
  | |- kept _ => solve [eauto]
  end.
Ltac keep := repeat keep1.

(** *** The store *)

Lemma kept_audit_append e : kept (on_store (audit_append e)).
Proof. eapply kept_step; [apply law_audit | done |]. intros a r r' _ ->. by split; try apply shrinks_refl. Qed.
Lemma kept_user_by_id i : kept (on_store (users_get_by_id i)).
Proof. eapply kept_read, law_user_by_id. Qed.
Lemma kept_user_by_email e : kept (on_store (users_get_by_email e)).
Proof. eapply kept_read, law_user_by_email. Qed.
Lemma kept_session_find h : kept (on_store (sessions_get_by_token_hash h)).
Proof. eapply kept_read, law_session_find. Qed.
Lemma kept_consent_get u p v : kept (on_store (consents_get u p v)).
Proof. eapply kept_read, law_consent_get. Qed.
Lemma kept_changes_list u : kept (on_store (changes_list_for_user u)).
Proof. eapply kept_read, law_changes_list. Qed.
Lemma kept_profile_save p : kept (on_store (profiles_save_profile p)).
Proof. eapply kept_step; [apply law_profile_save | done |]. intros a r r' _ ->. by split; try apply shrinks_refl. Qed.
Lemma kept_settings_save p : kept (on_store (profiles_save_settings p)).
Proof. eapply kept_step; [apply law_settings_save | done |]. intros a r r' _ ->. by split; try apply shrinks_refl. Qed.

Lemma kept_revoke i : kept (on_store (sessions_revoke i)).
Proof.
  eapply kept_step; [apply law_session_revoke | done |]. intros a r r' _ ->.
  split; try apply shrinks_refl; [| done]. apply shrinks_alter, revoke_same.
Qed.
Lemma kept_revoke_all u : kept (on_store (sessions_revoke_all_for_user u)).
Proof.
  eapply kept_step; [apply law_session_revoke_all | done |]. intros a r r' _ ->.
  split; try apply shrinks_refl; [| done]. apply shrinks_fmap. intros x. apply (cond_same (fun s => String.eqb (se_user s) u)), revoke_same.
Qed.
Lemma kept_invalidate u : kept (on_store (changes_invalidate_for_user u)).
Proof.
  eapply kept_step; [apply law_changes_invalidate | done |]. intros a r r' _ ->.
  split; try apply shrinks_refl; [| done]. apply shrinks_fmap. intros x. apply (cond_same (fun c => String.eqb (ec_user c) u)), consume_same.
Qed.
Lemma kept_consume_reset i : kept (on_store (token_mark_consumed (T := PasswordResetRequest) i)).
Proof.
  eapply kept_step; [apply law_token_consume | done |]. intros a r r' _ ->.
  split; try apply shrinks_refl; [| done]. apply shrinks_alter, consume_same.
Qed.
Lemma kept_consume_verification i : kept (on_store (token_mark_consumed (T := EmailVerificationRequest) i)).
Proof.
  eapply kept_step; [apply law_token_consume | done |]. intros a r r' _ ->.
  split; try apply shrinks_refl; [| done]. apply shrinks_alter, consume_same.
Qed.
Lemma kept_consume_change i : kept (on_store (token_mark_consumed (T := EmailChangeRequest) i)).
Proof.
  eapply kept_step; [apply law_token_consume | done |]. intros a r r' _ ->.
  split; try apply shrinks_refl; [| done]. apply shrinks_alter, consume_same.
Qed.
Lemma kept_token_find {T} {ts : TokenStore S T} {token : TokenRecord T} {table : TokenTable T}
    {tl : TokenLaws S T} h : kept (on_store (token_find (T := T) h)).
Proof. eapply kept_read, law_token_find. Qed.

(** A user that has an id is saved, or refused. *)
Lemma kept_user_save u : u_id u <> ""%string -> kept (on_store (users_save u)).
Proof.
  intros Hne n0 r0 w [[Hl Hu] Hn Hlt] _. unfold on_store.
  destruct (law_user_save u (w_store w) Hl Hne) as [Hl' H].
  assert (unseen lib env (w_asked w) (view (users_save u (w_store w)).2)
          /\ later lib env n0 r0 (view (users_save u (w_store w)).2)) as [Hu' Hlt'].
  { destruct (users_save u (w_store w)).1 as [a | [|]].
    - destruct H as (_ & _ & ->).
      assert (nothing_new (rows_at w) (with_users (<[u_id u := u]> (r_users (rows_at w))) (rows_at w))) as Hnn
        by (by split; try apply shrinks_refl).
      split; [by eapply unseen_step | by eapply later_step].
    - by destruct H as [_ ->].
    - by destruct H as [_ ->]. }
  destruct (users_save u (w_store w)) as [[a | e] s]; cbn in *; (split; [split; [split |  |] |]); done.
Qed.

(** *** The hooks *)

Hint Resolve kept_audit_append kept_user_by_id kept_user_by_email kept_session_find kept_consent_get
  kept_changes_list kept_profile_save kept_settings_save kept_revoke kept_revoke_all kept_invalidate
  kept_consume_reset kept_consume_verification kept_consume_change kept_token_find kept_ask : core.

Lemma kept_buffer e : kept (fun w : W => (Ok tt, with_buffer (w_buffer w ++ [e]) w)).
Proof. by apply kept_quiet. Qed.
Lemma kept_sent m : kept (fun w : W => (Ok tt, with_sent (w_sent w ++ [m]) w)).
Proof. by apply kept_quiet. Qed.
Hint Resolve kept_buffer kept_sent : core.

Lemma kept_audit t u d md : kept (audit_record env cfg t u d md).
Proof. unfold audit_record, now_. keep. Qed.
Lemma kept_send m : kept (send_email env m).
Proof. unfold send_email. keep. Qed.
Lemma kept_limits {A} (f : L -> result auth_exn A * L) :
  kept (fun w : W => let '(r, l) := f (w_limits w) in (r, with_limits l w)).
Proof. apply kept_quiet. intros w. by destruct (f (w_limits w)). Qed.
Lemma kept_locks {A} (f : K -> result auth_exn A * K) :
  kept (fun w : W => let '(r, k) := f (w_lock w) in (r, with_lock k w)).
Proof. apply kept_quiet. intros w. by destruct (f (w_lock w)). Qed.
Hint Resolve kept_audit kept_send : core.

(** *** New records *)

(** A session or a token that was just drawn is saved. *)
Lemma kept_save_session n0 r0 j x :
  (n0 <= j)%nat ->
  triple lib env n0 r0
    (since lib env j (fun n => drawn (id_factory env) j (se_id x) n
       /\ exists b raw, drawn (secrets_token env b) j raw n /\ se_token_hash x = hash_token lib raw))
    (on_store (sessions_save x) : M UserSession) (fun _ => anything).
Proof.
  intros Hj. eapply triple_store; [apply law_session_save | |].
  - intros n r (Hn & Hu & (k & Hk1 & Hk2 & Ei) & b & raw & (l & Hl1 & Hl2 & ->) & Eh) Hok _.
    rewrite Ei. split; [apply (ids_nonempty _ _ He) |]. split.
    + intros i y Hy E. exfalso. destruct (un_sessions _ _ _ _ Hu i y Hy) as [_ H]. apply H. cbn. rewrite E, Eh.
      by exists l, b.
    + intros y Hy. exfalso. destruct (un_sessions _ _ _ _ Hu _ y Hy) as [H _]. apply H. by exists k.
  - intros n a r r' Hn0 (Hn & Hu & (k & Hk1 & Hk2 & Ei) & b & raw & (l & Hl1 & Hl2 & ->) & Eh) Hok Hok' Hun Hlt [-> ->].
    rewrite Ei. destruct Hun, Hlt. split; [| split; [| done]]; split; cbn; try done.
    + by eapply unseen_drawn.
    + apply (evolves_drawn lib env He n0 _ _ k l b); try done; lia.
Qed.

Section SaveToken.
Context {T : Type} {ts : TokenStore S T} {token : TokenRecord T} {table : TokenTable T} {tl : TokenLaws S T}.

(** [tokens] is one of the four tables the invariant speaks of. *)
Record tracked : Prop := {
  tr_unseen n r : unseen lib env n r -> unseen_in lib env n (tokens (T := T) r);
  tr_unseen_set n r m : unseen lib env n r -> unseen_in lib env n m -> unseen lib env n (with_tokens (T := T) m r);
  tr_later n r r' : later lib env n r r' -> evolves lib env n (tokens (T := T) r) (tokens r');
  tr_later_set n r r' m : later lib env n r r' -> evolves lib env n (tokens (T := T) r) m ->
    later lib env n r (with_tokens m r')
}.

Lemma kept_save_token (t : T) n0 r0 j : tracked ->
  (n0 <= j)%nat ->
  triple lib env n0 r0
    (since lib env j (fun n => drawn (id_factory env) j (tok_id t) n
       /\ exists b raw, drawn (secrets_token env b) j raw n /\ tok_hash t = hash_token lib raw))
    (on_store (token_save t) : M T) (fun _ => anything).
Proof.
  intros Ht Hj. eapply triple_store; [apply law_token_save | |].
  - intros n r (Hn & Hu & (k & Hk1 & Hk2 & Ei) & b & raw & (l & Hl1 & Hl2 & ->) & Eh) Hok _.
    apply (tr_unseen Ht) in Hu. rewrite Ei. split; [apply (ids_nonempty _ _ He) |]. split.
    + destruct (tokens r !! id_factory env k) as [y|] eqn:Ey; [| done]. exfalso.
      destruct (Hu _ y Ey) as [H _]. apply H. by exists k.
    + intros i y Hy E. exfalso. destruct (Hu i y Hy) as [_ H]. apply H. cbn. rewrite E, Eh. by exists l, b.
  - intros n a r r' Hn0 (Hn & Hu & (k & Hk1 & Hk2 & Ei) & b & raw & (l & Hl1 & Hl2 & ->) & Eh) Hok Hok' Hun Hlt [-> ->].
    rewrite Ei. split; [| split; [| done]].
    + apply (tr_unseen_set Ht); [done |]. eapply unseen_drawn; try done. by apply (tr_unseen Ht).
    + apply (tr_later_set Ht); [done |]. apply (evolves_drawn lib env He n0 _ _ k l b); try done; try lia.
      by apply (tr_later Ht).
Qed.
End SaveToken.

Lemma resets_tracked : tracked (T := PasswordResetRequest).
Proof. split; intros *; by intros []. Qed.
Lemma verifications_tracked : tracked (T := EmailVerificationRequest).
Proof. split; intros *; by intros []. Qed.
Lemma changes_tracked : tracked (T := EmailChangeRequest).
Proof. split; intros *; by intros []. Qed.

(** An acceptance under an id that was just drawn. *)
Lemma kept_save_consent n0 r0 j c :
  (n0 <= j)%nat ->
  triple lib env n0 r0 (since lib env j (drawn (id_factory env) j (pa_id c)))
    (on_store (consents_save c) : M PolicyAcceptanceRecord) (fun _ => anything).
Proof.
  intros Hj. eapply triple_store; [apply law_consent_save | |].
  - intros n r (Hn & Hu & (k & Hk1 & Hk2 & Ei)) Hok _. rewrite Ei. split; [apply (ids_nonempty _ _ He) |].
    destruct (r_consents r !! id_factory env k) as [y|] eqn:Ey; [| done]. exfalso.
    apply (un_consents _ _ _ _ Hu _ y Ey). by exists k.
  - intros n a r r' Hn0 (Hn & Hu & (k & Hk1 & Hk2 & Ei)) Hok Hok' Hun Hlt [(-> & _ & ->) | (_ & _ & ->)].
    + rewrite Ei. destruct Hun, Hlt. split; [| split; [| done]]; split; cbn; try done.
      intros i y. destruct (decide (i = id_factory env k)) as [-> | Hi].
      * intros _. by eapply id_drawn.
      * rewrite lookup_insert_ne by done. apply un_consents0.
    + done.
Qed.

(** *** The helpers of the service *)

Lemma kept_rate_check key : kept (rate_check env cfg key).
Proof. unfold rate_check, now_. keep. apply kept_quiet. intros w. by destruct (Limiter.auth_hook_check _ _ _ _ _). Qed.
Lemma kept_rate_reset key : kept (rate_reset key).
Proof. apply kept_quiet. intros w. unfold rate_reset. by destruct (Limiter.auth_hook_reset _ _). Qed.
Lemma kept_abuse_key a m : kept (_abuse_key lib cfg a m).
Proof. unfold _abuse_key. keep. Qed.
Hint Resolve kept_rate_check kept_rate_reset kept_abuse_key : core.

Lemma kept_limited a m d t u md : kept (limited lib env cfg a m d t u md).
Proof. unfold limited. keep. Qed.
Lemma kept_lock_unavailable {A} : kept (lock_unavailable env cfg (A := A)).
Proof. unfold lock_unavailable. keep. Qed.
Hint Resolve kept_limited kept_lock_unavailable : core.

Lemma kept_on_lock {A} (f : datetime -> K -> result lock_exn A * K) : kept (on_lock env cfg f).
Proof.
  unfold on_lock, now_. keep. apply kept_quiet. intros w. by destruct (f a (w_lock w)).
Qed.
Hint Resolve kept_on_lock : core.

Lemma kept_reject key : kept (_reject_if_login_locked env cfg key).
Proof. unfold _reject_if_login_locked. keep. Qed.
Lemma kept_record_failure key : kept (_record_durable_login_failure env cfg key).
Proof. unfold _record_durable_login_failure. keep. Qed.
Lemma kept_clear_failure key : kept (_clear_durable_login_failure env cfg key).
Proof. unfold _clear_durable_login_failure. keep. Qed.
Lemma kept_require : kept (_require_enabled cfg).
Proof. unfold _require_enabled. keep. Qed.
Lemma kept_action_url p t : kept (action_url lib cfg p t).
Proof. unfold action_url. keep. Qed.
Lemma kept_hash_password p : kept (hash_password lib env cfg p).
Proof. unfold hash_password. keep. Qed.
Lemma kept_verify u p : kept (verify_password lib u p).
Proof. unfold verify_password. keep. Qed.
Lemma kept_require_consents a b : kept (_require_registration_consents lib cfg a b).
Proof. unfold _require_registration_consents. keep. Qed.
Lemma kept_notice e : kept (_send_email_changed_notice env cfg e).
Proof. unfold _send_email_changed_notice. keep. Qed.
Lemma kept_latest u : kept (_latest_unconsumed_email_change u).
Proof. unfold _latest_unconsumed_email_change. keep. Qed.
Lemma kept_bootstrap u : kept (_bootstrap_profile env u).
Proof. unfold _bootstrap_profile, now_. keep. Qed.
Hint Resolve kept_reject kept_record_failure kept_clear_failure kept_require kept_action_url
  kept_hash_password kept_verify kept_require_consents kept_notice kept_latest kept_bootstrap : core.

(** [draw]: the next question of a new record is answered. *)
Ltac draw := eapply triple_bind; [apply triple_draw; intros; intuition auto using drawn_S | intros ?].
Ltac rest_kept :=
  lazymatch goal with |- triple _ _ _ _ anything ?m _ =>
    let H := fresh in assert (kept m) as H; [keep | apply H] end.

Lemma kept_issue_session u rem ag ip : kept (_issue_session lib env cfg u rem ag ip).
Proof.
  intros n0 r0. apply triple_since. intros j Hj. unfold _issue_session, now_. do 4 draw.
  eapply triple_bind; [| intros ?; by apply triple_ret].
  eapply triple_weaken; [apply (kept_save_session n0 r0 j _ Hj) | | done].
  intros n r (H1 & H2 & H3 & _ & H4 & _). split; [done |]. split; [done |]. cbn. eauto.
Qed.

Lemma kept_create_reset u : kept (_create_password_reset lib env cfg u).
Proof.
  intros n0 r0. apply triple_since. intros j Hj. unfold _create_password_reset, now_. do 3 draw.
  eapply triple_bind with (Q := fun _ => anything).
  - eapply triple_weaken; [apply (kept_save_token _ n0 r0 j resets_tracked Hj) | | done].
    intros n r (H1 & H2 & H3 & _ & H4 & _). split; [done |]. split; [done |]. cbn. eauto.
  - intros _. rest_kept.
Qed.

Lemma kept_issue_verification u : kept (_issue_email_verification lib env cfg u).
Proof.
  intros n0 r0. unfold _issue_email_verification, now_. destruct (negb _); [rest_kept |].
  apply triple_since. intros j Hj. do 3 draw. eapply triple_bind with (Q := fun _ => anything).
  - eapply triple_weaken; [apply (kept_save_token _ n0 r0 j verifications_tracked Hj) | | done].
    intros n r (H1 & H2 & H3 & _ & H4 & _). split; [done |]. split; [done |]. cbn. eauto.
  - intros _. rest_kept.
Qed.

Lemma kept_create_change u e : kept (_create_email_change lib env cfg u e).
Proof.
  intros n0 r0. unfold _create_email_change, now_.
  eapply triple_bind; [apply kept_invalidate |]. intros ?. cbv beta.
  apply triple_since. intros j Hj. do 3 draw. eapply triple_bind with (Q := fun _ => anything).
  - eapply triple_weaken; [apply (kept_save_token _ n0 r0 j changes_tracked Hj) | | done].
    intros n r (H1 & H2 & H3 & _ & H4 & _). split; [done |]. split; [done |]. cbn. eauto.
  - intros _. rest_kept.
Qed.

Lemma kept_accept u p src actor : kept (accept_published_policy lib env cfg u p src actor).
Proof.
  unfold accept_published_policy, now_. destruct (published _ _ _) as [v|]; [| keep].
  apply kept_bind; [keep | intros ?]. apply kept_bind; [keep |]. intros [c|]; [keep |].
  intros n0 r0. apply triple_since. intros j Hj. do 2 draw. eapply triple_bind with (Q := fun _ => anything).
  - eapply triple_weaken; [apply (kept_save_consent n0 r0 j _ Hj) | | done].
    intros n r (H1 & H2 & H3 & _). done.
  - intros saved. rest_kept.
Qed.
Hint Resolve kept_issue_session kept_create_reset kept_issue_verification kept_create_change kept_accept : core.

Lemma kept_persist u a b : kept (_persist_registration_consents lib env cfg u a b).
Proof. unfold _persist_registration_consents. keep. Qed.
Lemma kept_has_accepted u p v : kept (has_accepted cfg u p v).
Proof. unfold has_accepted. keep. Qed.
Hint Resolve kept_persist kept_has_accepted : core.

(** *** Users that are saved have an id *)

Lemma triple_active_user i m n0 r0 :
  triple lib env n0 r0 anything (active_user i m : M User) (fun u _ _ => u_id u <> ""%string).
Proof.
  unfold active_user. eapply triple_bind; [exact (triple_read lib env anything _ _ (law_user_by_id i)) |].
  intros [u|]; [| apply triple_err]. cbv beta. destruct (u_active u); [| apply triple_err].
  apply triple_ret. intros n r (_ & Hok & Hu). by destruct (proj1 (ok_users r Hok) i u (eq_sym Hu)) as [<- H].
Qed.

Lemma triple_new_id n0 r0 :
  triple lib env n0 r0 anything (ask (id_factory env) : M string) (fun i _ _ => i <> ""%string).
Proof.
  eapply triple_weaken; [apply triple_ask | done |]. intros a n r (k & -> & _). apply (ids_nonempty _ _ He).
Qed.

(** A pure fact of an answer is kept for the rest. *)
Lemma kept_with {A B} (φ : A -> Prop) (m : M A) (k : A -> M B) :
  (forall n0 r0, triple lib env n0 r0 anything m (fun a _ _ => φ a)) ->
  (forall a, φ a -> kept (k a)) -> kept (a_bind m k).
Proof.
  intros Hm Hk n0 r0. eapply triple_bind; [apply Hm |]. intros a.
  eapply triple_weaken; [apply (triple_pure lib env (φ a) anything); intros Ha; apply (Hk a Ha) | done | done].
Qed.

(** [keep], remembering that ids are not empty. *)
Ltac keep_ids :=
  repeat lazymatch goal with
  | |- kept (a_bind (ask (id_factory env)) _) => apply (kept_with _ _ _ triple_new_id); intros ? ?
  | |- kept (a_bind (active_user _ _) _) => apply (kept_with _ _ _ (triple_active_user _ _)); intros ? ?
  | |- kept (on_store (users_save _)) => by apply kept_user_save
  | |- _ => keep1
  end.

Lemma kept_register e p n rem a b : kept (register lib env cfg e p n rem a b).
Proof. unfold register, now_. cbv zeta. keep_ids. Qed.

Lemma kept_login e p rem ag ip : kept (login lib env cfg e p rem ag ip).
Proof. unfold login. cbv zeta. keep. Qed.

(** *** A session that was read is written back *)

(** What [validate_read] returns is a stored session that was live. *)
Definition read_back (x : option UserSession) : fact := fun n r =>
  match x with
  | Some s => revoked s = false /\ exists t, r_sessions r !! se_id s = Some t /\ revoked t = false
      /\ se_token_hash s = se_token_hash t /\ se_user s = se_user t
  | None => True
  end.

Lemma triple_validate_read t b n0 r0 :
  triple lib env n0 r0 anything (validate_read lib env cfg t b : M _) read_back.
Proof.
  assert (forall m, triple lib env n0 r0 anything (invalid b m : M (option UserSession)) read_back) as Hinv.
  { intros m. unfold invalid. destruct b; [apply triple_err | by apply triple_ret]. }
  unfold validate_read, now_. cbv zeta. eapply triple_bind; [apply kept_require |]. intros ?. cbv beta.
  destruct (_ || _); [apply Hinv |].
  eapply triple_bind; [exact (triple_read lib env anything _ _ (law_session_find _)) |].
  intros [s|]; cbv beta; [| by eapply triple_weaken; [apply Hinv | done | done]].
  destruct (revoked s) eqn:Er; [by eapply triple_weaken; [apply Hinv | done | done] |].
  eapply triple_bind with (Q := fun _ _ r => r_sessions r !! se_id s = Some s).
  - eapply triple_weaken; [apply (triple_ask_keep lib env (fun r => r_sessions r !! se_id s = Some s)) | | done].
    by intros n r (_ & _ & H & _).
  - intros now. cbv beta. destruct (_ <=? _).
    + eapply triple_weaken with (P' := anything) (Q' := read_back); [| done | done].
      eapply triple_bind; [apply kept_revoke |]. intros ?. cbv beta.
      eapply triple_bind; [apply kept_audit |]. intros ?. apply Hinv.
    + apply triple_ret. intros n r H. cbn. split; [done |]. by exists s.
Qed.

Lemma triple_validate_write x n0 r0 :
  triple lib env n0 r0 (read_back x) (validate_write x : M _) (fun _ => anything).
Proof.
  destruct x as [s|]; [| by apply triple_ret]. unfold validate_write.
  eapply triple_bind with (Q := fun _ => anything); [| intros ?; by apply triple_ret].
  eapply triple_step; [apply law_session_save | |].
  - intros n r (Hs & t & Ht & Hr & Eh & Eu) Hok. pose proof (ok_sessions r Hok) as Hk.
    destruct (proj1 Hk _ t Ht) as [Ei Hne]. rewrite <- Ei in Ht. split; [congruence |].
    split; [by apply (free_same se_id se_token_hash _ t s Hk) |].
    intros y Hy. rewrite Ei in Ht. congruence.
  - intros n a r r' (Hs & t & Ht & Hr & Eh & Eu) _ _ [-> ->]. split; [| done].
    split; try apply shrinks_refl; [| done]. apply (shrinks_insert _ _ t s Ht).
    split; [done |]. split; [done |]. cbn. congruence.
Qed.

Lemma kept_validate t b : kept (validate_session lib env cfg t b).
Proof.
  intros n0 r0. unfold validate_session.
  eapply triple_bind; [apply triple_validate_read |]. intros x. apply triple_validate_write.
Qed.
Hint Resolve kept_validate : core.

Lemma kept_logout t : kept (logout lib env cfg t).
Proof. unfold logout. keep. Qed.
Lemma kept_current_user t : kept (current_user lib env cfg t).
Proof. unfold current_user. keep. Qed.
Hint Resolve kept_current_user : core.

Lemma kept_usable {T} {token : TokenRecord T} (expires : T -> datetime) x now m :
  kept (usable_token expires x now m).
Proof. unfold usable_token. keep. Qed.
Hint Resolve kept_usable : core.

Lemma kept_request_reset e : kept (request_password_reset lib env cfg e).
Proof. unfold request_password_reset. keep. Qed.
Lemma kept_confirm_reset t p : kept (confirm_password_reset lib env cfg t p).
Proof. unfold confirm_password_reset, now_. cbv zeta. keep_ids. Qed.
Lemma kept_request_verification u : kept (request_email_verification lib env cfg u).
Proof. unfold request_email_verification. cbv zeta. keep. Qed.
Lemma kept_request_verification_by e : kept (request_email_verification_by_email lib env cfg e).
Proof. unfold request_email_verification_by_email. cbv zeta. keep. Qed.
Lemma kept_confirm_verification t : kept (confirm_email_verification lib env cfg t).
Proof. unfold confirm_email_verification, now_. cbv zeta. keep_ids. Qed.
Lemma kept_request_change t e p : kept (request_email_change lib env cfg t e p).
Proof. unfold request_email_change. cbv zeta. keep. Qed.

Lemma kept_fail_closed {A} (m : M A) : kept m -> kept (fail_closed m).
Proof. intros H. unfold fail_closed. keep. Qed.
Lemma kept_save_identity u : u_id u <> ""%string -> kept (save_new_identity u).
Proof. intros H. unfold save_new_identity. keep_ids. Qed.

Lemma kept_confirm_change t : kept (confirm_email_change lib env cfg t).
Proof.
  unfold confirm_email_change, now_. cbv zeta. keep_ids.
  all: first [apply kept_fail_closed; keep | by apply kept_save_identity | keep_ids].
Qed.
Lemma kept_oauth p u : kept (begin_oauth_link env cfg p u).
Proof. unfold begin_oauth_link. keep. Qed.
End Methods.
End Methods.
