(* ===== verification/AuthSafety.v ===== *)
(** What the authentication service guarantees.

    Module [Sessions]: a session that was ended stays ended, whatever is
    requested afterwards - and how a refresh that is still under way undoes
    that. *)

From S2P Require Import Prelude PyStr Json Clock PyState OpStore RateLimit LoginLock Users UserMemory Password Identity Auth AuthRules.
#[local] Open Scope Z_scope.
#[local] Open Scope py_scope.
Import Entities Rows Store Settings Messages Legal Checks LockInterface World Auth Requests Tables Rules Methods.

(** ** Sessions *)
Module Sessions.

Section Sessions.
Context {S L K : Type} {accounts : AccountStore S} {laws : AccountLaws S}
  {reset_laws : TokenLaws S PasswordResetRequest} {verification_laws : TokenLaws S EmailVerificationRequest}
  {change_laws : TokenLaws S EmailChangeRequest}
  {limits : RateLimitStore L} {locks : FailedLoginLockStore K}
  (lib : library) (env : environment) (cfg : config) (He : env_ok lib env).
Local Abbreviation W := (world S L K).
Local Abbreviation M := (act W auth_exn).

Lemma kept_answered {A} (m : M A) : kept lib env m -> kept lib env (answered m).
Proof. intros H. apply kept_bind; [done |]. intros ?. apply kept_ret. Qed.

Lemma kept_serve q : kept lib env (serve lib env cfg q : M unit).
Proof.
  destruct q; cbn; try apply kept_answered.
  - by apply kept_register.
  - by apply kept_login.
  - by apply kept_logout.
  - by apply kept_validate.
  - by apply kept_current_user.
  - by apply kept_request_reset.
  - by apply kept_confirm_reset.
  - by apply kept_request_verification.
  - by apply kept_request_verification_by.
  - by apply kept_confirm_verification.
  - by apply kept_request_change.
  - by apply kept_confirm_change.
  - by apply kept_accept.
  - by apply kept_has_accepted.
  - by apply kept_oauth.
Qed.

Lemma kept_history qs n0 r0 (w : W) :
  reached lib env n0 r0 w -> reached lib env n0 r0 (history lib env cfg qs w).
Proof.
  revert w. induction qs as [|q qs IH]; intros w Hw; [done |]. apply IH.
  by destruct (kept_serve q n0 r0 w Hw I) as [H _].
Qed.

(** No live session has this hash, and none will be drawn. *)
Definition dead_token (h : string) : fact := fun n r =>
  (forall i s, r_sessions r !! i = Some s -> se_token_hash s = h -> revoked s = true) /\ ~ hash_ahead lib env n h.

Lemma dead_token_stable h : stable lib env (dead_token h).
Proof.
  intros n n' r r' Hn Hlt [Hdead Hh]. split; [| by intros Ha; eapply Hh, hash_ahead_le].
  intros i s' Hs' Es'. destruct (lt_sessions _ _ _ _ _ Hlt i s' Hs') as [(s & Hs & E & _ & Hsp) | [_ Ha]].
  - apply Hsp. cbn. apply (Hdead i s Hs). cbn in E. congruence.
  - exfalso. apply Hh. cbn in Ha. by rewrite <- Es'.
Qed.

Lemma dead_never_read t b n0 r0 :
  triple lib env n0 r0 (dead_token (hash_token lib (strip t))) (validate_read lib env cfg (Some t) b : M _)
    (fun x _ _ => x = None).
Proof.
  assert (forall P m, triple lib env n0 r0 P (invalid b m : M (option UserSession)) (fun x _ _ => x = None)) as Hinv.
  { intros P m. unfold invalid. destruct b; [apply triple_err | by apply triple_ret]. }
  unfold validate_read. cbv zeta. cbn [from_option id].
  eapply triple_bind; [apply (kept_stable lib env _ _ (dead_token_stable _)); apply kept_require |].
  intros ?. cbv beta. destruct (_ || _); [apply Hinv |].
  eapply triple_bind; [exact (triple_read lib env _ _ _ (law_session_find _)) |].
  intros [s|]; cbv beta; [| apply Hinv].
  eapply triple_weaken with (P' := fun _ _ => revoked s = true) (Q' := fun x _ _ => x = None); [| | done].
  - intros w Hr Hs. cbv beta in Hs. rewrite Hs. apply (Hinv anything _ w Hr I).
  - intros n r ([Hd _] & _ & Hs & E). by eapply Hd.
Qed.

Lemma dead_never_validates t b n0 r0 :
  triple lib env n0 r0 (dead_token (hash_token lib (strip t))) (validate_session lib env cfg (Some t) b : M _)
    (fun x _ _ => x = None).
Proof.
  unfold validate_session. eapply triple_bind; [apply dead_never_read |]. intros x.
  intros w Hr Hx. cbv beta in Hx. subst x. by cbn.
Qed.

Lemma dead_never_current t n0 r0 :
  triple lib env n0 r0 (dead_token (hash_token lib (strip t))) (current_user lib env cfg (Some t) : M _)
    (fun _ _ _ => False).
Proof.
  unfold current_user. eapply triple_bind; [apply dead_never_validates |]. intros x.
  intros w Hr Hx. cbv beta in Hx. subst x. by cbn.
Qed.

(** *** What ends a session *)

(** The sessions of this hash are [u]'s, and the tokens of this hash are [u]'s. *)
Definition session_of (h u : string) : fact := fun n r =>
  (forall i s, r_sessions r !! i = Some s -> se_token_hash s = h -> se_user s = u) /\ ~ hash_ahead lib env n h.
Definition token_of (T : Type) {token : TokenRecord T} {table : TokenTable T} (g u : string) : fact := fun n r =>
  (forall i t, tokens r !! i = Some t -> tok_hash t = g -> tok_user t = u) /\ ~ hash_ahead lib env n g.

Lemma session_of_stable h u : stable lib env (session_of h u).
Proof.
  intros n n' r r' Hn Hlt [Hu Hh]. split; [| by intros Ha; eapply Hh, hash_ahead_le].
  intros i s' Hs' Es'. destruct (lt_sessions _ _ _ _ _ Hlt i s' Hs') as [(s & Hs & E & Eo & _) | [_ Ha]].
  - cbn in *. rewrite Eo. apply (Hu i s Hs). congruence.
  - exfalso. apply Hh. cbn in Ha. by rewrite <- Es'.
Qed.

Lemma token_of_stable T {token : TokenRecord T} {table : TokenTable T} g u :
  tracked lib env (T := T) -> stable lib env (token_of T g u).
Proof.
  intros Ht n n' r r' Hn Hlt [Hu Hh]. split; [| by intros Ha; eapply Hh, hash_ahead_le].
  intros i s' Hs' Es'. destruct (tr_later _ _ Ht _ _ _ Hlt i s' Hs') as [(s & Hs & E & Eo & _) | [_ Ha]].
  - cbn in *. rewrite Eo. apply (Hu i s Hs). congruence.
  - exfalso. apply Hh. cbn in Ha. by rewrite <- Es'.
Qed.

Lemma and_stable (P Q : fact) : stable lib env P -> stable lib env Q -> stable lib env (fun n r => P n r /\ Q n r).
Proof. intros HP HQ n n' r r' Hn Hlt [H1 H2]. split; [by eapply HP | by eapply HQ]. Qed.

(** [stay]: a stable fact outlives a call. *)
Lemma stay {A B} P (m : M A) (k : A -> M B) Q n0 r0 :
  stable lib env P -> kept lib env m -> (forall a, triple lib env n0 r0 P (k a) Q) ->
  triple lib env n0 r0 P (a_bind m k) Q.
Proof. intros Hs Hm Hk. eapply triple_bind; [by apply (kept_stable lib env P) | exact Hk]. Qed.

Lemma last_stay {A B} P (m : M A) (b : B) n0 r0 :
  stable lib env P -> kept lib env m -> triple lib env n0 r0 P (do! _ := m in a_ret b) (fun _ => P).
Proof. intros Hs Hm. apply stay; [done | done |]. intros _. by apply triple_ret. Qed.

(** Revoking all of a user's sessions ends each of them. *)
Lemma revoke_all_ends u h n0 r0 :
  triple lib env n0 r0 (session_of h u) (on_store (sessions_revoke_all_for_user u) : M _) (fun _ => dead_token h).
Proof.
  eapply triple_step; [apply law_session_revoke_all | done |]. intros n a r r' [Hu Hh] _ _ ->.
  split; [split; try apply shrinks_refl; [| done] |].
  { apply shrinks_fmap. intros x. apply (cond_same (fun s => String.eqb (se_user s) u)), revoke_same. }
  split; [| done]. intros i s. cbn. unfold revoke_sessions. rewrite lookup_fmap.
  destruct (r_sessions r !! i) as [x|] eqn:Ex; [| done]. cbn. intros [= <-].
  destruct (String.eqb_spec (se_user x) u) as [E | E]; [done |]. intros Eh. by destruct (E (Hu i x Ex Eh)).
Qed.

(** A usable token of [g] is [u]'s, and so is the account it opens. *)
Lemma usable_ret {T} {token : TokenRecord T} (expires : T -> datetime) x now m n0 r0 (P : fact) :
  triple lib env n0 r0 P (usable_token expires x now m : M T) (fun t n r => x = Some t /\ P n r).
Proof.
  unfold usable_token. destruct x as [t|]; [| apply triple_err]. destruct (_ || _); [apply triple_err |].
  by apply triple_ret.
Qed.

Lemma active_user_id i m n0 r0 P :
  stable lib env P ->
  triple lib env n0 r0 P (active_user i m : M User) (fun u n r => (u_id u = i /\ u_id u <> ""%string) /\ P n r).
Proof.
  intros Hs. unfold active_user. eapply triple_bind; [exact (triple_read lib env P _ _ (law_user_by_id i)) |].
  intros [u|]; cbv beta; [| apply triple_err]. destruct (u_active u); [| apply triple_err].
  apply triple_ret. intros n r (HP & Hok & Hu). split; [| done]. by destruct (proj1 (ok_users r Hok) i u (eq_sym Hu)) as [<- ?].
Qed.

Lemma token_found {T} {ts : TokenStore S T} {token : TokenRecord T} {table : TokenTable T} {tl : TokenLaws S T}
    g u h n0 r0 :
  triple lib env n0 r0 (fun n r => token_of T g u n r /\ session_of h u n r) (on_store (token_find (T := T) g) : M _)
    (fun x n r => (forall t, x = Some t -> tok_user t = u) /\ session_of h u n r).
Proof.
  eapply triple_weaken;
    [exact (triple_read lib env (fun n r => token_of T g u n r /\ session_of h u n r) _ _ (law_token_find g)) | done |].
  intros x n r ([[Ht _] Hs] & Hok & Hx). split; [| done]. intros t ->. destruct Hx as [Hx E]. by eapply Ht.
Qed.

(** A fact of the answer that is no fact of the rows. *)
Lemma known {A B} (φ : A -> Prop) (P : fact) (m : M A) (k : A -> M B) Q n0 r0 :
  triple lib env n0 r0 P m (fun a n r => φ a /\ P n r) ->
  (forall a, φ a -> triple lib env n0 r0 P (k a) Q) -> triple lib env n0 r0 P (a_bind m k) Q.
Proof. intros Hm Hk. eapply triple_bind; [exact Hm |]. intros a. apply triple_pure, Hk. Qed.

Lemma guarded c e (P : fact) {B} (k : unit -> M B) Q n0 r0 :
  triple lib env n0 r0 P (k tt) Q -> triple lib env n0 r0 P (a_bind (a_guard c e) k) Q.
Proof.
  intros Hk w Hr HP. unfold a_bind, a_guard, a_lift, guard_raise. destruct c; [by cbn | by apply Hk].
Qed.

Lemma confirm_reset_ends t p u h n0 r0 :
  triple lib env n0 r0
    (fun n r => token_of PasswordResetRequest (hash_token lib (strip t)) u n r /\ session_of h u n r)
    (confirm_password_reset lib env cfg t p : M _) (fun _ => dead_token h).
Proof.
  pose proof (and_stable _ _ (token_of_stable PasswordResetRequest (hash_token lib (strip t)) u (resets_tracked lib env))
    (session_of_stable h u)) as Hst.
  unfold confirm_password_reset. cbv zeta.
  apply (stay _ _ _ _ _ _ Hst); [apply kept_require |]. intros _.
  apply (stay _ _ _ _ _ _ Hst); [apply kept_lift |]. intros _. apply guarded.
  eapply triple_bind; [apply token_found |]. intros x. apply triple_pure. intros Hx.
  apply (stay _ _ _ _ _ _ (session_of_stable h u)); [apply kept_ask |]. intros now.
  apply (known (fun rec => x = Some rec)); [apply usable_ret |]. intros rec Ex. specialize (Hx _ Ex).
  apply (known (fun user => u_id user = pr_user rec /\ u_id user <> ""%string)); [apply active_user_id, session_of_stable |].
  intros user [Eu Hne]. cbn in Hx. rewrite <- Eu in Hx. subst u.
  apply (stay _ _ _ _ _ _ (session_of_stable h _)); [apply kept_hash_password |]. intros stored.
  apply (stay _ _ _ _ _ _ (session_of_stable h _)); [by apply kept_user_save |].
  intros _. apply (stay _ _ _ _ _ _ (session_of_stable h _)); [by apply kept_consume_reset |]. intros _.
  eapply triple_bind; [apply revoke_all_ends |]. intros ?.
  apply last_stay; [apply dead_token_stable | apply kept_audit].
Qed.

Lemma fail_closed_triple {A} (P : fact) (m : M A) Q n0 r0 :
  triple lib env n0 r0 P m Q -> triple lib env n0 r0 P (fail_closed m) Q.
Proof.
  intros Hm. unfold fail_closed. eapply triple_bind; [apply triple_attempt, Hm |].
  intros [a|e]; [by apply triple_ret | apply triple_err].
Qed.

Lemma confirm_change_ends t u h n0 r0 :
  triple lib env n0 r0
    (fun n r => token_of EmailChangeRequest (hash_token lib (strip t)) u n r /\ session_of h u n r)
    (confirm_email_change lib env cfg t : M _) (fun _ => dead_token h).
Proof.
  pose proof (and_stable _ _ (token_of_stable EmailChangeRequest (hash_token lib (strip t)) u (changes_tracked lib env))
    (session_of_stable h u)) as Hst.
  unfold confirm_email_change. cbv zeta.
  apply (stay _ _ _ _ _ _ Hst); [apply kept_require |]. intros _. apply guarded.
  eapply triple_bind; [apply token_found |]. intros x. apply triple_pure. intros Hx.
  apply (stay _ _ _ _ _ _ (session_of_stable h u)); [apply kept_ask |]. intros now.
  apply (known (fun rec => x = Some rec)); [apply usable_ret |]. intros rec Ex. specialize (Hx _ Ex).
  apply guarded. apply (stay _ _ _ _ _ _ (session_of_stable h u)); [apply kept_latest |]. intros newest. apply guarded.
  apply (known (fun user => u_id user = ec_user rec /\ u_id user <> ""%string)); [apply active_user_id, session_of_stable |].
  intros user [Eu Hne]. cbn in Hx. rewrite <- Eu in Hx. subst u.
  apply (stay _ _ _ _ _ _ (session_of_stable h _)); [apply kept_user_by_email |]. intros occupant. apply guarded.
  eapply triple_bind; [apply fail_closed_triple, revoke_all_ends |]. intros ?. cbv beta.
  apply (stay _ _ _ _ _ _ (dead_token_stable h)).
  { destruct (_ && _); [apply kept_ret |]. apply kept_bind; [by apply kept_save_identity |]. intros ?. apply kept_notice. }
  intros _. apply (stay _ _ _ _ _ _ (dead_token_stable h)).
  { apply kept_fail_closed, kept_bind; [apply kept_consume_change | intros ?; apply kept_invalidate]. }
  intros _. apply last_stay; [apply dead_token_stable | apply kept_audit].
Qed.

(** Revoking a session ends the token it was found by. *)
Definition holds (h : string) (s : UserSession) : fact := fun n r =>
  ~ hash_ahead lib env n h /\ r_sessions r !! se_id s = Some s /\ se_token_hash s = h.

Lemma revoke_one_ends h s n0 r0 :
  triple lib env n0 r0 (holds h s) (on_store (sessions_revoke (se_id s)) : M _) (fun _ => dead_token h).
Proof.
  eapply triple_step; [apply law_session_revoke | done |]. intros n a r r' (Hh & Hs & E) Hok _ ->.
  split; [split; try apply shrinks_refl; [apply shrinks_alter, revoke_same | done] |]. split; [| done].
  intros i y. cbn. destruct (decide (i = se_id s)) as [-> | Hi].
  - rewrite lookup_alter_eq, Hs. by intros [= <-].
  - rewrite lookup_alter_ne by done. intros Hy Ey. destruct (ok_sessions r Hok) as [_ Hk].
    destruct Hi. apply (Hk _ _ _ _ Hy Hs). congruence.
Qed.

(** A session that was found by its hash, and how it is left. *)
Definition found_live (h : string) (x : option UserSession) : fact := fun n r =>
  match x with
  | Some s => se_token_hash s = h /\ ~ hash_ahead lib env n h /\ read_back x n r
  | None => dead_token h n r
  end.

Definition found (h : string) (x : option UserSession) : fact := fun n r =>
  match x with
  | Some _ => found_live h x n r
  | None => ~ hash_ahead lib env n h -> dead_token h n r
  end.

Lemma read_finds t b h n0 r0 :
  nonempty (strip t) = true -> h = hash_token lib (strip t) ->
  triple lib env n0 r0 anything (validate_read lib env cfg (Some t) b : M _) (found h).
Proof.
  intros Ht Eh. unfold validate_read. cbv zeta. cbn [from_option id].
  assert (forall P : fact, (forall n r, P n r -> ~ hash_ahead lib env n h -> dead_token h n r) -> forall m,
    triple lib env n0 r0 P (invalid b m : M (option UserSession)) (found h)) as Hinv.
  { intros P HP m. unfold invalid. destruct b; [apply triple_err | by apply triple_ret]. }
  eapply triple_bind; [apply kept_require |]. intros ?. cbv beta.
  assert (nonempty t = true) as -> by (by destruct t). rewrite Ht. cbn [negb orb]. rewrite <- Eh.
  eapply triple_bind; [exact (triple_read lib env anything _ _ (law_session_find h)) |].
  intros [s|]; cbv beta; [| by apply Hinv; intros n r (_ & _ & Hn) Hh; split; [intros i y Hy E; by destruct (Hn i y Hy) |]].
  destruct (revoked s) eqn:Er.
  { apply Hinv. intros n r (_ & Hok & Hs & E) Hh. split; [| done]. intros i y Hy Ey.
    destruct (ok_sessions r Hok) as [_ Hk]. rewrite (Hk i (se_id s) y s Hy Hs) in Hy by congruence. congruence. }
  eapply triple_bind with (Q := fun _ => holds h s).
  { apply triple_here. eapply triple_weaken; [apply triple_ask | intros n r H; exact H |].
    intros now n r (k & _ & -> & _ & ((_ & Hok & H1 & H2) & _ & Hu) & _). split; [| done].
    destruct (un_sessions _ _ _ _ Hu _ s H1) as [_ Hh]. intros Ha. apply Hh. cbn. rewrite H2.
    eapply hash_ahead_le; [| exact Ha]. lia. }
  intros now. cbv beta. destruct (_ <=? _).
  - eapply triple_bind; [apply revoke_one_ends |].
    intros ?. apply (stay _ _ _ _ _ _ (dead_token_stable h)); [apply kept_audit |]. intros _. by apply Hinv.
  - apply triple_ret. intros n r (Hh & Hs & E). cbn. split; [done |]. split; [done |]. split; [done |]. by exists s.
Qed.

Lemma write_holds h x n0 r0 :
  triple lib env n0 r0 (found_live h x) (validate_write x : M _)
    (fun y n r => match y with Some s => holds h s n r | None => dead_token h n r end).
Proof.
  destruct x as [s|]; [| by apply triple_ret]. unfold validate_write.
  eapply triple_bind with (Q := fun _ => holds h s); [| intros ?; by apply triple_ret].
  eapply triple_step; [apply law_session_save | |].
  - intros n r (E & Hh & Hs & t & Ht & Hr & Eh & Eu) Hok. pose proof (ok_sessions r Hok) as Hk.
    destruct (proj1 Hk _ t Ht) as [Ei Hne]. rewrite <- Ei in Ht. split; [congruence |].
    split; [by apply (free_same se_id se_token_hash _ t s Hk) |]. intros y Hy. rewrite Ei in Ht. congruence.
  - intros n a r r' (E & Hh & Hs & t & Ht & Hr & Eh & Eu) _ _ [-> ->]. split.
    + split; try apply shrinks_refl; [| done]. apply (shrinks_insert _ _ t s Ht).
      split; [done |]. split; [done |]. cbn. congruence.
    + split; [done |]. split; [by cbn; rewrite lookup_insert_eq | done].
Qed.

Lemma not_ahead_stable h : stable lib env (fun n _ => ~ hash_ahead lib env n h).
Proof. intros n n' r r' Hn _ H Ha. by eapply H, hash_ahead_le. Qed.

Lemma logout_ends t h n0 r0 :
  nonempty (strip t) = true -> h = hash_token lib (strip t) ->
  triple lib env n0 r0 (fun n _ => ~ hash_ahead lib env n h) (logout lib env cfg (Some t) : M _) (fun _ => dead_token h).
Proof.
  intros Ht Eh. unfold logout. cbn [truthy]. assert (nonempty t = true) as -> by (by destruct t). cbn [negb].
  apply (stay _ _ _ _ _ _ (not_ahead_stable h)); [apply kept_require |]. intros _.
  eapply triple_bind with (Q := fun y n r => match y with Some s => holds h s n r | None => dead_token h n r end).
  { unfold validate_session. eapply triple_bind; [| intros x; apply (write_holds h)].
    eapply triple_weaken; [apply (triple_stable lib env _ _ (found h) (not_ahead_stable h)) | intros n r H; exact H |].
    - intros n1 r1. eapply triple_weaken; [apply (read_finds t false h _ _ Ht Eh) | done | intros x n r H; exact H].
    - intros [x|] n r [Hn H]; [exact H | by apply H]. }
  intros [s|]; cbv beta iota; [| by apply triple_ret].
  eapply triple_bind; [apply revoke_one_ends |]. intros ?. cbv beta.
  apply (kept_stable lib env _ _ (dead_token_stable h)), kept_audit.
Qed.

(** *** Ended sessions *)

(** [q] asks to end the session [s]: with its token, with a password-reset token
    of its user, or with an email-change token of its user. *)
Definition asks_to_end (q : request) (s : UserSession) (r : rows) : Prop :=
  match q with
  | Logout (Some t) => nonempty (strip t) = true /\ se_token_hash s = hash_token lib (strip t)
  | ConfirmPasswordReset t _ => exists i p,
      r_resets r !! i = Some p /\ pr_token_hash p = hash_token lib (strip t) /\ pr_user p = se_user s
  | ConfirmEmailChange t => exists i c,
      r_changes r !! i = Some c /\ ec_token_hash c = hash_token lib (strip t) /\ ec_user c = se_user s
  | _ => False
  end.

Lemma stored_token T {token : TokenRecord T} {table : TokenTable T} (w : W) g u i t :
  tracked lib env (T := T) -> keyed tok_id tok_hash (tokens (T := T) (rows_at w)) -> good lib env w ->
  tokens (rows_at w) !! i = Some t -> tok_hash t = g -> tok_user t = u ->
  token_of T g u (w_asked w) (rows_at w).
Proof.
  intros Ht [_ Hk] [_ Hu] Hi Eg Eu. split.
  - intros j x Hx Ex. assert (j = i) as -> by (apply (Hk j i x t Hx Hi); congruence). congruence.
  - rewrite <- Eg. by destruct (tr_unseen _ _ Ht _ _ Hu i t Hi).
Qed.

Lemma ended q s i (w : W) :
  good lib env w -> r_sessions (rows_at w) !! i = Some s -> asks_to_end q s (rows_at w) ->
  (serve lib env cfg q w).1 = Ok tt ->
  dead_token (se_token_hash s) (w_asked (served lib env cfg q w)) (rows_at (served lib env cfg q w)).
Proof.
  intros Hg Hs Hq Hok. pose proof (good_reached lib env w Hg) as Hr.
  pose proof (view_ok _ (good_lawful _ _ w Hg)) as Hrows. fold (rows_at w) in Hrows.
  destruct (un_sessions _ _ _ _ (good_unseen _ _ w Hg) i s Hs) as [_ Hah].
  assert (session_of (se_token_hash s) (se_user s) (w_asked w) (rows_at w)) as Hof.
  { split; [| done]. intros j x Hx Ex. destruct (ok_sessions _ Hrows) as [_ Hk].
    by rewrite (Hk j i x s Hx Hs Ex), Hs in Hx; injection Hx as <-. }
  unfold served. destruct q; try done; cbn in Hq.
  - destruct token as [t|]; [| done]. destruct Hq as [Ht Eh].
    destruct (logout_ends t (se_token_hash s) _ _ Ht Eh w Hr Hah) as [_ H].
    unfold serve in *. by rewrite Hok in H.
  - destruct Hq as (j & p & Hp & Ep & Eu).
    pose proof (stored_token PasswordResetRequest w _ _ j p (resets_tracked lib env) (ok_resets _ Hrows) Hg Hp Ep Eu) as Hof'.
    destruct (confirm_reset_ends token new_password (se_user s) (se_token_hash s) _ _ w Hr (conj Hof' Hof)) as [_ H].
    unfold serve, answered, a_bind in *. by destruct (confirm_password_reset _ _ _ _ _ w) as [[] w'].
  - destruct Hq as (j & p & Hp & Ep & Eu).
    pose proof (stored_token EmailChangeRequest w _ _ j p (changes_tracked lib env) (ok_changes _ Hrows) Hg Hp Ep Eu) as Hof'.
    destruct (confirm_change_ends token (se_user s) (se_token_hash s) _ _ w Hr (conj Hof' Hof)) as [_ H].
    unfold serve, answered, a_bind in *. by destruct (confirm_email_change _ _ _ _ w) as [[] w'].
Qed.

(** C9: a session that was ended stays ended. When a logout with the session's
    token, a password reset or an email change of its user has been answered
    without an error, then after any further requests - logins, refreshes,
    resets, failing stores - the session's token never validates a session and
    never opens an account again. *)
Theorem ended_sessions_stay_ended q s i t (w : W) qs :
  good lib env w -> r_sessions (rows_at w) !! i = Some s -> se_token_hash s = hash_token lib (strip t) ->
  asks_to_end q s (rows_at w) -> (serve lib env cfg q w).1 = Ok tt ->
  let w' := history lib env cfg qs (served lib env cfg q w) in
  (forall b s', (validate_session lib env cfg (Some t) b w').1 <> Ok (Some s'))
  /\ (forall u, (current_user lib env cfg (Some t) w').1 <> Ok u).
Proof.
  intros Hg Hs Et Hq Hok w'. pose proof (ended q s i w Hg Hs Hq Hok) as Hdead. rewrite Et in Hdead.
  destruct (kept_serve q _ _ w (good_reached lib env w Hg) I) as [[Hg1 _ _] _].
  pose proof (kept_history qs _ _ _ (good_reached lib env _ Hg1)) as Hr. fold w' in Hr.
  pose proof (dead_token_stable _ _ _ _ _ (re_asked _ _ _ _ w' Hr) (re_later _ _ _ _ w' Hr) Hdead) as Hd.
  split.
  - intros b s' E. destruct (dead_never_validates t b _ _ w' Hr Hd) as [_ H]. by rewrite E in H.
  - intros u E. destruct (dead_never_current t _ _ w' Hr Hd) as [_ H]. by rewrite E in H.
Qed.

(** *** A store that does not fail *)

Lemma store_answers {A} (m : act S repo_exn A) pre post (w : W) :
  ~ may_fail -> does m pre post -> lawful (w_store w) -> pre (rows_at w) ->
  exists a s, on_store m w = (Ok a, with_store s w) /\ m (w_store w) = (Ok a, s) /\ lawful s
    /\ post (rows_at w) a (view s).
Proof.
  intros Hf Hm Hl Hpre. destruct (Hm (w_store w) Hl Hpre) as [Hl' H]. unfold on_store.
  destruct (m (w_store w)) as [[a|[]] s]; cbn in *; [| done |].
  - exists a, s. done.
  - by destruct H.
Qed.

(** A live session under the token's hash validates until it expires. *)
Lemma live_validates s t b (w : W) :
  ~ may_fail -> lawful (w_store w) -> enabled cfg = true -> nonempty (strip t) = true ->
  r_sessions (rows_at w) !! se_id s = Some s -> se_token_hash s = hash_token lib (strip t) -> revoked s = false ->
  dt_us (clock env (w_asked w)) < dt_us (se_expires s) ->
  (validate_session lib env cfg (Some t) b w).1 = Ok (Some (refreshed s (clock env (w_asked w)))).
Proof.
  intros Hf Hl Hen Ht Hs Eh Hr Hexp. pose proof (view_ok _ Hl) as Hok. fold (rows_at w) in Hok.
  assert (nonempty t = true) as Ht' by (by destruct t).
  destruct (store_answers _ _ _ w Hf (law_session_find (hash_token lib (strip t))) Hl I) as (a & st & Ea & _ & Hl' & Er & Ha).
  assert (a = Some s) as ->.
  { destruct a as [x|]; [| by destruct (Ha _ _ Hs)]. destruct Ha as [Hx Ex]. f_equal.
    assert (se_id x = se_id s) as Ei by (apply (proj2 (ok_sessions _ Hok) _ _ x s Hx Hs); congruence). congruence. }
  unfold validate_session, validate_read, _require_enabled, now_, ask. cbv zeta. cbn [from_option id].
  act_run. rewrite Hen. cbn [negb]. rewrite Ht', Ht. cbn [negb orb]. rewrite Ea. rewrite Hr. cbn [w_asked with_store].
  rewrite (proj2 (Z.leb_gt _ _)) by exact Hexp. unfold validate_write. act_run.
  set (now := clock env (w_asked w)). set (w1 := with_asked _ _).
  assert (rows_at w1 = rows_at w) as Er1 by (unfold rows_at; cbn; done).
  destruct (store_answers _ _ _ w1 Hf (law_session_save (refreshed s now)) Hl') as (a & st' & Eb & _).
  - rewrite Er1. cbn. destruct (proj1 (ok_sessions _ Hok) _ s Hs) as [_ Hne]. split; [done |].
    split; [by apply (free_same se_id se_token_hash _ s _ (ok_sessions _ Hok)) |]. intros y Hy. congruence.
  - by rewrite Eb.
Qed.

Lemma ok_enabled t b (w : W) x : (validate_read lib env cfg (Some t) b w).1 = Ok (Some x) ->
  enabled cfg = true /\ nonempty (strip t) = true.
Proof.
  unfold validate_read, _require_enabled, invalid. cbv zeta. act_run. destruct (enabled cfg); [| done]. cbn [negb from_option id].
  destruct (nonempty (strip t)); [done |]. rewrite orb_true_r. by destruct b.
Qed.

(** Where a session was before, it is the only one of its hash later. *)
Lemma still_free s (w w' : W) h :
  reached lib env (w_asked w) (rows_at w) w' -> good lib env w ->
  holds h s (w_asked w) (rows_at w) ->
  free se_id se_token_hash s (r_sessions (rows_at w'))
  /\ forall y, r_sessions (rows_at w') !! se_id s = Some y -> se_token_hash y = se_token_hash s.
Proof.
  intros [_ _ Hlt] Hg (Hh & Hs & E). pose proof (view_ok _ (good_lawful _ _ w Hg)) as Hok. fold (rows_at w) in Hok.
  split.
  - intros i y Hy Ey. destruct (lt_sessions _ _ _ _ _ Hlt i y Hy) as [(x & Hx & Eh & _) | [_ Ha]].
    + cbn in Eh. apply (proj2 (ok_sessions _ Hok) _ _ x s Hx Hs). congruence.
    + exfalso. apply Hh. cbn in Ha. by rewrite <- E, <- Ey.
  - intros y Hy. destruct (lt_sessions _ _ _ _ _ Hlt _ y Hy) as [(x & Hx & Eh & _) | [Hi _]].
    + cbn in Eh. congruence.
    + exfalso. by destruct (un_sessions _ _ _ _ (good_unseen _ _ w Hg) _ s Hs).
Qed.

(** ending a session is undone by a refresh that is still under way. A
    validation has read the live session, a logout, a password reset or an
    email change of the user then ends it and answers without an error, and its
    token is dead; but the validation's last call writes the whole session it
    had read, not revoked. From then on the token validates again until the
    session expires, although every reply said that the session had ended. *)
Theorem refresh_revives_ended_session q t b s (w : W) :
  ~ may_fail -> good lib env w -> (validate_read lib env cfg (Some t) b w).1 = Ok (Some s) ->
  let w1 := (validate_read lib env cfg (Some t) b w).2 in
  asks_to_end q s (rows_at w1) -> (serve lib env cfg q w1).1 = Ok tt ->
  let w2 := served lib env cfg q w1 in
  let w3 := (validate_write (Some s) w2).2 in
  (forall s', (validate_session lib env cfg (Some t) b w2).1 <> Ok (Some s'))
  /\ (dt_us (clock env (w_asked w3)) < dt_us (se_expires s) ->
      (validate_session lib env cfg (Some t) b w3).1 = Ok (Some (refreshed s (clock env (w_asked w3))))).
Proof.
  intros Hf Hg Hread w1 Hq Hok w2 w3. destruct (ok_enabled _ _ _ _ Hread) as [Hen Ht].
  set (h := hash_token lib (strip t)).
  destruct (read_finds t b h _ _ Ht eq_refl w (good_reached lib env w Hg) I) as [[Hg1 _ _] Hfound].
  rewrite Hread in Hfound. fold w1 in Hg1, Hfound. destruct Hfound as (Es & Hh & Hs & s0 & Hs0 & Hr0 & Eh & Eu).
  pose proof (view_ok _ (good_lawful _ _ w1 Hg1)) as Hok1. fold (rows_at w1) in Hok1.
  destruct (proj1 (ok_sessions _ Hok1) _ s0 Hs0) as [Ei Hne]. rewrite <- Ei in Hs0.
  assert (asks_to_end q s0 (rows_at w1)) as Hq0.
  { destruct q; cbn in Hq |- *; rewrite <- ?Eh, <- ?Eu; exact Hq. }
  pose proof (ended q s0 (se_id s0) w1 Hg1 Hs0 Hq0 Hok) as Hdead. fold w2 in Hdead.
  destruct (kept_serve q _ _ w1 (good_reached lib env w1 Hg1) I) as [Hr2 _].
  change ((serve lib env cfg q w1).2) with w2 in Hr2. split.
  { intros s' E. destruct (dead_never_validates t b _ _ w2 (good_reached lib env w2 (re_good _ _ _ _ _ Hr2))) as [_ H].
    - by rewrite <- Eh, Es in Hdead.
    - by rewrite E in H. }
  intros Hexp. destruct (still_free s0 w1 w2 h Hr2 Hg1) as [Hfree Hsame].
  { split; [done |]. split; [done | congruence]. }
  destruct (store_answers _ _ _ w2 Hf (law_session_save s) (good_lawful _ _ _ (re_good _ _ _ _ _ Hr2)))
    as (a & st & Ea & _ & Hl3 & -> & Hrows).
  { split; [congruence |]. unfold free. rewrite <- Ei, Eh. split; [exact Hfree | exact Hsame]. }
  assert (w3 = with_store st w2) as E3 by (unfold w3, validate_write; act_run; by rewrite Ea). rewrite E3 in *.
  apply live_validates; try done. unfold rows_at. cbn. rewrite Hrows. cbn. by rewrite lookup_insert_eq.
Qed.
End Sessions.
End Sessions.

(** ** One-time tokens *)
Module OneTime.
Import Sessions.

Section OneTime.
Context {S L K : Type} {accounts : AccountStore S} {laws : AccountLaws S}
  {reset_laws : TokenLaws S PasswordResetRequest} {verification_laws : TokenLaws S EmailVerificationRequest}
  {change_laws : TokenLaws S EmailChangeRequest}
  {limits : RateLimitStore L} {locks : FailedLoginLockStore K}
  (lib : library) (env : environment) (cfg : config) (He : env_ok lib env).
Local Abbreviation W := (world S L K).
Local Abbreviation M := (act W auth_exn).

Section Token.
Context (T : Type) {ts : TokenStore S T} {token : TokenRecord T} {tokl : TokenRecordLaws T}
  {table : TokenTable T} {tl : TokenLaws S T} (Ht : tracked lib env (T := T))
  (Hset : forall m r, tokens (T := T) (with_tokens m r) = m)
  (Hnew : forall m r, shrinks (tokens (T := T) r) m -> nothing_new r (with_tokens m r))
  (Hok : forall r, rows_ok r -> keyed tok_id tok_hash (tokens (T := T) r)).

(** Every token of this hash is consumed, and none will be drawn. *)
Definition spent_token (g : string) : fact := fun n r =>
  (forall i t, tokens (T := T) r !! i = Some t -> tok_hash t = g -> tok_consumed t = true) /\ ~ hash_ahead lib env n g.

(** The only token of this hash is under [i]. *)
Definition only_under (g i : string) : fact := fun n r =>
  (forall j t, tokens (T := T) r !! j = Some t -> tok_hash t = g -> j = i) /\ ~ hash_ahead lib env n g.

Lemma spent_token_stable g : stable lib env (spent_token g).
Proof.
  intros n n' r r' Hn Hlt [Hs Hh]. split; [| by intros Ha; eapply Hh, hash_ahead_le].
  intros i t' Ht' Et'. destruct (tr_later _ _ Ht _ _ _ Hlt i t' Ht') as [(t & Htt & E & _ & Hsp) | [_ Ha]].
  - apply Hsp. cbn in *. apply (Hs i t Htt). congruence.
  - exfalso. apply Hh. cbn in Ha. by rewrite <- Et'.
Qed.

Lemma only_under_stable g i : stable lib env (only_under g i).
Proof.
  intros n n' r r' Hn Hlt [Hs Hh]. split; [| by intros Ha; eapply Hh, hash_ahead_le].
  intros j t' Ht' Et'. destruct (tr_later _ _ Ht _ _ _ Hlt j t' Ht') as [(t & Htt & E & _ & _) | [_ Ha]].
  - cbn in *. apply (Hs j t Htt). congruence.
  - exfalso. apply Hh. cbn in Ha. by rewrite <- Et'.
Qed.

Lemma find_only g n0 r0 :
  triple lib env n0 r0 anything (on_store (token_find (T := T) g) : M _)
    (fun x n r => match x with Some t => only_under g (tok_id t) n r | None => True end).
Proof.
  apply triple_here. eapply triple_weaken;
    [exact (triple_read lib env (fun n r => anything n r /\ rows_ok r /\ unseen lib env n r) _ _ (law_token_find g)) | done |].
  intros [t|] n r ((_ & Hr & Hu) & _ & Hx); [| done]. destruct Hx as [Hx E]. split.
  - intros j y Hy Ey. apply (proj2 (Hok r Hr) j (tok_id t) y t Hy Hx). congruence.
  - rewrite <- E. by destruct (tr_unseen _ _ Ht _ _ Hu _ t Hx).
Qed.

Lemma consume_spends g i n0 r0 :
  triple lib env n0 r0 (only_under g i) (on_store (token_mark_consumed (T := T) i) : M _) (fun _ => spent_token g).
Proof.
  eapply triple_step; [apply law_token_consume | done |]. intros n a r r' [Hi Hh] _ _ ->. split.
  - apply Hnew, shrinks_alter, consume_same.
  - split; [| done]. intros j t. rewrite Hset. destruct (decide (j = i)) as [-> | Hj].
    + rewrite lookup_alter_eq. destruct (tokens r !! i) as [x|]; [| done]. intros [= <-] _. apply consume_consumed.
    + rewrite lookup_alter_ne by done. intros Hx Ex. by destruct (Hj (Hi j t Hx Ex)).
Qed.

(** A spent token opens nothing. *)
Lemma spent_found g n0 r0 :
  triple lib env n0 r0 (spent_token g) (on_store (token_find (T := T) g) : M _)
    (fun x n r => (forall t, x = Some t -> tok_consumed t = true) /\ spent_token g n r).
Proof.
  eapply triple_weaken; [exact (triple_read lib env (spent_token g) _ _ (law_token_find g)) | done |].
  intros x n r ([Hs Hh] & _ & Hx). split; [| done]. intros t ->. destruct Hx as [Hx E]. by eapply Hs.
Qed.

Lemma spent_unusable (expires : T -> datetime) x now m P Q n0 r0 :
  (forall t, x = Some t -> tok_consumed t = true) ->
  triple lib env n0 r0 P (usable_token expires x now m : M T) Q.
Proof.
  intros Hx. unfold usable_token. destruct x as [t|]; [| apply triple_err]. rewrite (Hx t eq_refl). apply triple_err.
Qed.
End Token.

Lemma resets_new m r : shrinks (r_resets r) m -> nothing_new r (with_resets m r).
Proof. intros H. split; try apply shrinks_refl; done. Qed.
Lemma verifications_new m r : shrinks (r_verifications r) m -> nothing_new r (with_verifications m r).
Proof. intros H. split; try apply shrinks_refl; done. Qed.
Lemma changes_new m r : shrinks (r_changes r) m -> nothing_new r (with_changes m r).
Proof. intros H. split; try apply shrinks_refl; done. Qed.

Definition reset_spent := spent_token_stable PasswordResetRequest (resets_tracked lib env).
Definition verification_spent := spent_token_stable EmailVerificationRequest (verifications_tracked lib env).
Definition change_spent := spent_token_stable EmailChangeRequest (changes_tracked lib env).

(** *** A spent token is refused *)

Lemma spent_reset_refused t p n0 r0 :
  triple lib env n0 r0 (spent_token PasswordResetRequest (hash_token lib (strip t)))
    (confirm_password_reset lib env cfg t p : M _) (fun _ _ _ => False).
Proof.
  unfold confirm_password_reset. cbv zeta.
  apply (stay lib env _ _ _ _ _ _ (reset_spent _)); [apply kept_require |]. intros _.
  apply (stay lib env _ _ _ _ _ _ (reset_spent _)); [apply kept_lift |]. intros _. apply guarded.
  eapply triple_bind; [apply (spent_found PasswordResetRequest) |]. intros x. apply triple_pure. intros Hx.
  apply (stay lib env _ _ _ _ _ _ (reset_spent _)); [apply kept_ask |]. intros now.
  eapply triple_bind with (Q := fun _ _ _ => False); [by apply (spent_unusable PasswordResetRequest) |]. intros ? w _ [].
Qed.

Lemma spent_verification_refused t n0 r0 :
  triple lib env n0 r0 (spent_token EmailVerificationRequest (hash_token lib (strip t)))
    (confirm_email_verification lib env cfg t : M _) (fun _ _ _ => False).
Proof.
  unfold confirm_email_verification. cbv zeta.
  apply (stay lib env _ _ _ _ _ _ (verification_spent _)); [apply kept_require |]. intros _. apply guarded.
  eapply triple_bind; [apply (spent_found EmailVerificationRequest) |]. intros x. apply triple_pure. intros Hx.
  apply (stay lib env _ _ _ _ _ _ (verification_spent _)); [apply kept_ask |]. intros now.
  eapply triple_bind with (Q := fun _ _ _ => False); [by apply (spent_unusable EmailVerificationRequest) |]. intros ? w _ [].
Qed.

Lemma spent_change_refused t n0 r0 :
  triple lib env n0 r0 (spent_token EmailChangeRequest (hash_token lib (strip t)))
    (confirm_email_change lib env cfg t : M _) (fun _ _ _ => False).
Proof.
  unfold confirm_email_change. cbv zeta.
  apply (stay lib env _ _ _ _ _ _ (change_spent _)); [apply kept_require |]. intros _. apply guarded.
  eapply triple_bind; [apply (spent_found EmailChangeRequest) |]. intros x. apply triple_pure. intros Hx.
  apply (stay lib env _ _ _ _ _ _ (change_spent _)); [apply kept_ask |]. intros now.
  eapply triple_bind with (Q := fun _ _ _ => False); [by apply (spent_unusable EmailChangeRequest) |]. intros ? w _ [].
Qed.

(** *** A confirmation spends its token *)

(** The token that was found and is usable is the only one of its hash. *)
Lemma usable_only {T} {token : TokenRecord T} {table : TokenTable T} (expires : T -> datetime) g x now m n0 r0 :
  triple lib env n0 r0 (fun n r => match x with Some t => only_under T g (tok_id t) n r | None => True end)
    (usable_token expires x now m : M T) (fun t => only_under T g (tok_id t)).
Proof.
  unfold usable_token. destruct x as [t|]; [| apply triple_err]. destruct (_ || _); [apply triple_err |].
  by apply triple_ret.
Qed.

Lemma maybe_stable {T} (P : T -> fact) (x : option T) :
  (forall t, stable lib env (P t)) -> stable lib env (fun n r => match x with Some t => P t n r | None => True end).
Proof. intros H. destruct x as [t|]; [apply H | by intros n n' r r' _ _ _]. Qed.

Lemma confirm_reset_spends t p n0 r0 :
  triple lib env n0 r0 anything (confirm_password_reset lib env cfg t p : M _)
    (fun _ => spent_token PasswordResetRequest (hash_token lib (strip t))).
Proof.
  set (only := only_under_stable PasswordResetRequest (resets_tracked lib env) (hash_token lib (strip t))).
  unfold confirm_password_reset. cbv zeta.
  eapply triple_bind; [apply kept_require |]. intros ?. eapply triple_bind; [apply kept_lift |]. intros ?. apply guarded.
  eapply triple_bind; [apply (find_only PasswordResetRequest (resets_tracked lib env) ok_resets) |]. intros x.
  apply (stay lib env _ _ _ _ _ _ (maybe_stable _ x (fun t => only (tok_id t)))); [apply kept_ask |]. intros now.
  eapply triple_bind; [apply usable_only |]. intros rec. cbv beta.
  apply (known lib env (fun user => u_id user = pr_user rec /\ u_id user <> ""%string)); [apply active_user_id, only |].
  intros user [Eu Hne]. apply (stay lib env _ _ _ _ _ _ (only _)); [apply kept_hash_password |]. intros stored.
  apply (stay lib env _ _ _ _ _ _ (only _)); [by apply kept_user_save |]. intros _.
  eapply triple_bind; [apply (consume_spends PasswordResetRequest); [done | exact resets_new] |]. intros ?.
  apply (stay lib env _ _ _ _ _ _ (reset_spent _)); [apply kept_revoke_all |]. intros _.
  apply last_stay; [apply reset_spent | apply kept_audit].
Qed.

Lemma confirm_verification_spends t n0 r0 :
  triple lib env n0 r0 anything (confirm_email_verification lib env cfg t : M _)
    (fun _ => spent_token EmailVerificationRequest (hash_token lib (strip t))).
Proof.
  set (only := only_under_stable EmailVerificationRequest (verifications_tracked lib env) (hash_token lib (strip t))).
  unfold confirm_email_verification. cbv zeta.
  eapply triple_bind; [apply kept_require |]. intros ?. apply guarded.
  eapply triple_bind; [apply (find_only EmailVerificationRequest (verifications_tracked lib env) ok_verifications) |]. intros x.
  apply (stay lib env _ _ _ _ _ _ (maybe_stable _ x (fun t => only (tok_id t)))); [apply kept_ask |]. intros now.
  eapply triple_bind; [apply usable_only |]. intros rec. cbv beta.
  apply (known lib env (fun user => u_id user = vr_user rec /\ u_id user <> ""%string)); [apply active_user_id, only |].
  intros user [Eu Hne]. apply (stay lib env _ _ _ _ _ _ (only _)); [by apply kept_user_save |]. intros _.
  eapply triple_bind; [apply (consume_spends EmailVerificationRequest); [done | exact verifications_new] |]. intros ?.
  apply last_stay; [apply verification_spent | apply kept_audit].
Qed.

Lemma confirm_change_spends t n0 r0 :
  triple lib env n0 r0 anything (confirm_email_change lib env cfg t : M _)
    (fun _ => spent_token EmailChangeRequest (hash_token lib (strip t))).
Proof.
  set (only := only_under_stable EmailChangeRequest (changes_tracked lib env) (hash_token lib (strip t))).
  unfold confirm_email_change. cbv zeta.
  eapply triple_bind; [apply kept_require |]. intros ?. apply guarded.
  eapply triple_bind; [apply (find_only EmailChangeRequest (changes_tracked lib env) ok_changes) |]. intros x.
  apply (stay lib env _ _ _ _ _ _ (maybe_stable _ x (fun t => only (tok_id t)))); [apply kept_ask |]. intros now.
  eapply triple_bind; [apply usable_only |]. intros rec. cbv beta. apply guarded.
  apply (stay lib env _ _ _ _ _ _ (only _)); [apply kept_latest |]. intros newest. apply guarded.
  apply (known lib env (fun user => u_id user = ec_user rec /\ u_id user <> ""%string)); [apply active_user_id, only |].
  intros user [Eu Hne]. apply (stay lib env _ _ _ _ _ _ (only _)); [apply kept_user_by_email |]. intros occupant. apply guarded.
  apply (stay lib env _ _ _ _ _ _ (only _)); [apply kept_fail_closed, kept_revoke_all |]. intros _.
  apply (stay lib env _ _ _ _ _ _ (only _)).
  { destruct (_ && _); [apply kept_ret |]. apply kept_bind; [by apply kept_save_identity |]. intros ?. apply kept_notice. }
  intros _. eapply triple_bind with (Q := fun _ => spent_token EmailChangeRequest (hash_token lib (strip t))).
  { apply fail_closed_triple.
    eapply triple_bind; [apply (consume_spends EmailChangeRequest); [done | exact changes_new] |]. intros ?.
    apply (kept_stable lib env _ _ (change_spent _)), kept_invalidate. }
  intros _. apply last_stay; [apply change_spent | apply kept_audit].
Qed.

(** *** Each token works once *)

(** Two requests that confirm with the same token. *)
Definition same_token (q q' : request) : Prop :=
  match q, q' with
  | ConfirmPasswordReset t _, ConfirmPasswordReset t' _ => strip t' = strip t
  | ConfirmEmailVerification t, ConfirmEmailVerification t' => strip t' = strip t
  | ConfirmEmailChange t, ConfirmEmailChange t' => strip t' = strip t
  | _, _ => False
  end.

(** What was made true stays true, and then refuses. *)
Lemma never_again {A B} (P : fact) (m : M A) (m' : M B) (w : W) q qs :
  stable lib env P -> good lib env w -> served lib env cfg q w = (answered m w).2 ->
  (answered m w).1 = Ok tt ->
  (forall n0 r0, triple lib env n0 r0 anything m (fun _ => P)) ->
  (forall n0 r0, triple lib env n0 r0 P m' (fun _ _ _ => False)) ->
  (answered m' (history lib env cfg qs (served lib env cfg q w))).1 <> Ok tt.
Proof.
  intros Hs Hg Eq Hok Hm Hm' E. destruct (Hm _ _ w (good_reached lib env w Hg) I) as [Hr HP].
  assert (served lib env cfg q w = (m w).2) as Eq'.
  { rewrite Eq. unfold answered, a_bind. by destruct (m w) as [[] ?]. }
  rewrite Eq' in E. unfold answered, a_bind in Hok. destruct (m w) as [[a|e] w1]; [| done]. cbn in Hr, HP, E, Eq'.
  pose proof (kept_history lib env cfg He qs _ _ w1 (good_reached lib env w1 (re_good _ _ _ _ _ Hr))) as Hr2.
  destruct (Hm' _ _ _ Hr2 (Hs _ _ _ _ (re_asked _ _ _ _ _ Hr2) (re_later _ _ _ _ _ Hr2) HP)) as [_ H].
  unfold answered, a_bind in E. by destruct (m' _) as [[b|e] w2].
Qed.

(** C12: a one-time token works once. When a password reset, an email
    verification or an email change has been confirmed, then after any further
    requests no confirmation of that kind with the same token - however it is
    padded, and with whatever new password - succeeds again. *)
Theorem one_time_tokens_work_once q q' (w : W) qs :
  good lib env w -> (serve lib env cfg q w).1 = Ok tt -> same_token q q' ->
  (serve lib env cfg q' (history lib env cfg qs (served lib env cfg q w))).1 <> Ok tt.
Proof.
  intros Hg Hok Hq. destruct q; try done; destruct q'; try done; cbn in Hq.
  - refine (never_again _ (confirm_password_reset lib env cfg token new_password) (confirm_password_reset lib env cfg token0 new_password0)
      w (ConfirmPasswordReset token new_password) qs (reset_spent (hash_token lib (strip token))) Hg eq_refl Hok _ _).
    + intros. apply confirm_reset_spends.
    + intros. rewrite <- Hq. apply spent_reset_refused.
  - refine (never_again _ (confirm_email_verification lib env cfg token) (confirm_email_verification lib env cfg token0)
      w (ConfirmEmailVerification token) qs (verification_spent (hash_token lib (strip token))) Hg eq_refl Hok _ _).
    + intros. apply confirm_verification_spends.
    + intros. rewrite <- Hq. apply spent_verification_refused.
  - refine (never_again _ (confirm_email_change lib env cfg token) (confirm_email_change lib env cfg token0)
      w (ConfirmEmailChange token) qs (change_spent (hash_token lib (strip token))) Hg eq_refl Hok _ _).
    + intros. apply confirm_change_spends.
    + intros. rewrite <- Hq. apply spent_change_refused.
Qed.
End OneTime.
End OneTime.
