(* ===== verification/AuthOutcomes.v ===== *)
(** What each call of the authentication service leaves behind, errors included.

    Module [Outcome]: triples with a postcondition for every way a call ends;
    rows are compared up to the audit log. Module [EmailChange]: the stages of a
    confirmation. Module [Credentials]: password resets and logins. *)

From S2P Require Import Prelude PyStr Json Clock PyState OpStore RateLimit LoginLock Users Password Identity Auth AuthRules.
#[local] Open Scope Z_scope.
#[local] Open Scope py_scope.
Import Entities Rows Store Settings Messages Legal Checks LockInterface World Auth.

(** ** Outcomes *)
Module Outcome.

Section Outcome.
Context {S L K : Type} {accounts : AccountStore S} {laws : AccountLaws S}
  {limits : RateLimitStore L} {locks : FailedLoginLockStore K} {n0 : nat}.
Local Abbreviation W := (world S L K).
Local Abbreviation M := (act W auth_exn).

Definition rows_of_world (w : W) : rows := view (w_store w).

(** The rows are [r1], but for the audit log. *)
Definition up (r1 r : rows) : Prop := r = with_audit (r_audit r) r1.

(** From question [n0] on and rows with [P], [m] returns with [Q] or raises with [E]. *)
Definition outcome {A} (P : rows -> Prop) (m : M A) (Q : A -> rows -> Prop) (E : rows -> Prop) : Prop :=
  forall w, lawful (w_store w) /\ (n0 <= w_asked w)%nat -> P (rows_of_world w) ->
    (lawful (w_store (m w).2) /\ (n0 <= w_asked (m w).2)%nat)
    /\ match (m w).1 with Ok a => Q a (rows_of_world (m w).2) | Err _ => E (rows_of_world (m w).2) end.

Lemma up_refl r : up r r.
Proof. by destruct r. Qed.

Lemma o_weaken {A} (P P' : rows -> Prop) (m : M A) (Q Q' : A -> rows -> Prop) (E E' : rows -> Prop) :
  outcome P' m Q' E' -> (forall r, P r -> P' r) -> (forall a r, Q' a r -> Q a r) -> (forall r, E' r -> E r) ->
  outcome P m Q E.
Proof.
  intros H HP HQ HE w Hl HPw. destruct (H w Hl (HP _ HPw)) as [Hl' Hr]. split; [done |]. destruct (m w).1; auto.
Qed.

Lemma o_bind {A B} P (m : M A) Q (k : A -> M B) R E :
  outcome P m Q E -> (forall a, outcome (Q a) (k a) R E) -> outcome P (a_bind m k) R E.
Proof.
  intros Hm Hk w Hl HP. destruct (Hm w Hl HP) as [Hl' HQ]. unfold a_bind.
  destruct (m w) as [[a|e] w']; cbn in *; [by apply Hk | done].
Qed.

Lemma o_ret {A} (a : A) (P : rows -> Prop) (Q : A -> rows -> Prop) E : (forall r, P r -> Q a r) -> outcome P (a_ret a) Q E.
Proof. intros H w Hl HP. cbn. auto. Qed.

Lemma o_err {A} e (P E : rows -> Prop) (Q : A -> rows -> Prop) : (forall r, P r -> E r) -> outcome P (a_err e) Q E.
Proof. intros H w Hl HP. cbn. auto. Qed.

Lemma o_lift {A} (x : result auth_exn A) (P : rows -> Prop) (Q : A -> rows -> Prop) (E : rows -> Prop) :
  (forall a r, x = Ok a -> P r -> Q a r) -> (forall r, P r -> E r) -> outcome P (a_lift x) Q E.
Proof. intros HQ HE w Hl HP. cbn. split; [done |]. destruct x; auto. Qed.

Lemma o_guard {B} c e (k : unit -> M B) (P E : rows -> Prop) R :
  (forall r, P r -> E r) -> (c = false -> outcome P (k tt) R E) -> outcome P (a_bind (a_guard c e) k) R E.
Proof.
  intros HE Hk w Hl HP. unfold a_bind, a_guard, a_lift, guard_raise. destruct c; cbn; [by split; [| apply HE] | by apply Hk].
Qed.

Lemma o_pure {A} (φ : Prop) P (m : M A) Q E : (φ -> outcome P m Q E) -> outcome (fun r => φ /\ P r) m Q E.
Proof. intros H w Hl [Hφ HP]. by apply H. Qed.

(** The environment and the other parts of the world leave the rows. *)
Lemma o_same {A} (m : M A) (P : rows -> Prop) E :
  (forall w, w_store (m w).2 = w_store w /\ (w_asked w <= w_asked (m w).2)%nat) -> (forall r, P r -> E r) ->
  outcome P m (fun _ => P) E.
Proof.
  intros Hm HE w [Hl Hn] HP. unfold rows_of_world in *. destruct (Hm w) as [-> Ha].
  split; [split; [done | lia] |]. destruct (m w).1; auto.
Qed.

Lemma o_ask {A} (f : nat -> A) (P : rows -> Prop) E : (forall r, P r -> E r) -> outcome P (ask f) (fun _ => P) E.
Proof. apply o_same. intros w. split; [done | cbn; lia]. Qed.

Lemma o_ask_from {A} (f : nat -> A) (P E : rows -> Prop) :
  (forall r, P r -> E r) -> outcome P (ask f) (fun a r => (exists n, (n0 <= n)%nat /\ a = f n) /\ P r) E.
Proof. intros HE w [Hl Hn] HP. cbn. split; [split; [done | lia] |]. split; [by exists (w_asked w) | done]. Qed.

Lemma o_store {A} (m : act S repo_exn A) pre post (P : rows -> Prop) (Q : A -> rows -> Prop) (E : rows -> Prop) :
  does m pre post -> (forall r, P r -> rows_ok r -> pre r) ->
  (forall a r r', P r -> rows_ok r -> post r a r' -> Q a r') -> (forall r, P r -> E r) ->
  outcome P (on_store m) Q E.
Proof.
  intros Hm Hpre HQ HE w [Hl Hn] HP. unfold on_store. pose proof (view_ok _ Hl) as Hok.
  destruct (Hm (w_store w) Hl (Hpre _ HP Hok)) as [Hl' H].
  destruct (m (w_store w)) as [[a|[]] s]; cbn in *; [by split; [| eapply HQ] | done |].
  destruct H as [_ E']. split; [done |]. unfold rows_of_world. cbn. rewrite E'. by apply HE.
Qed.

Lemma o_read {A} (m : act S repo_exn A) (φ : rows -> A -> Prop) (P E : rows -> Prop) :
  does m (fun _ => True) (fun r a r' => r' = r /\ φ r a) -> (forall r, P r -> E r) ->
  outcome P (on_store m) (fun a r => P r /\ rows_ok r /\ φ r a) E.
Proof. intros Hm HE. eapply o_store; [exact Hm | done | | done]. by intros a r r' HP Hok [-> H]. Qed.

Lemma o_attempt {A} (m : M A) (P : rows -> Prop) (Q : A -> rows -> Prop) (E E' : rows -> Prop) :
  outcome P m Q E -> outcome P (attempt m) (fun x r => match x with Ok a => Q a r | Err _ => E r end) E'.
Proof.
  intros Hm w Hl HP. destruct (Hm w Hl HP) as [Hl' H]. unfold attempt. destruct (m w) as [x w']; cbn in *.
  split; [done |]. by destruct x.
Qed.

(** *** The audit log *)

Lemma o_audit env cfg t u d md r1 : outcome (up r1) (audit_record env cfg t u d md) (fun _ => up r1) (up r1).
Proof.
  unfold audit_record, now_. eapply o_bind; [by apply o_ask |]. intros ?. eapply o_bind; [by apply o_ask |]. intros ?.
  cbv zeta beta. eapply o_bind; [by apply o_same |]. intros ?. cbv beta. destruct (has_audit cfg); [| by apply o_ret].
  eapply o_bind with (Q := fun _ => up r1); [| intros ?; by apply o_ret].
  eapply o_store; [apply law_audit | done | | done]. intros b r r' Hr _ ->. unfold up in *. rewrite Hr. done.
Qed.

Lemma o_send env msg (P E : rows -> Prop) : (forall r, P r -> E r) -> outcome P (send_email env msg : M bool) (fun _ => P) E.
Proof.
  intros HE. unfold send_email. eapply o_bind; [by apply o_ask |]. intros d. destruct d; [| by apply o_ret].
  eapply o_bind; [by apply o_same |]. intros ?. by apply o_ret.
Qed.

(** *** Reading *)

(** A query of rows that are [r0] but for the audit log. *)
Lemma o_query {A} (m : act S repo_exn A) (φ : rows -> A -> Prop) r0 (E : rows -> Prop) :
  does m (fun _ => True) (fun r a r' => r' = r /\ φ r a) -> (forall r, up r0 r -> E r) ->
  (forall x r a, φ (with_audit x r) a -> φ r a) ->
  outcome (up r0) (on_store m : M A) (fun a r => (φ r0 a /\ rows_ok r0) /\ up r0 r) E.
Proof.
  intros Hm HE Hφ. eapply o_weaken; [by apply (o_read m φ (up r0) E Hm) | done | | done].
  intros a r (Hr & Hok & Ha). split; [| done]. unfold up in Hr. rewrite Hr in Ha, Hok. split; [by eapply Hφ |].
  destruct Hok. by split.
Qed.

Lemma o_usable {T} {token : TokenRecord T} (expires : T -> datetime) x now m (P E : rows -> Prop) :
  (forall r, P r -> E r) ->
  outcome P (usable_token expires x now m : M T)
    (fun t r => (x = Some t /\ tok_consumed t = false /\ dt_us now < dt_us (expires t)) /\ P r) E.
Proof.
  intros HE. unfold usable_token. destruct x as [t|]; [| by apply o_err].
  destruct (tok_consumed t) eqn:Ec; cbn [orb]; [by apply o_err |].
  destruct (Z.leb_spec (dt_us (expires t)) (dt_us now)); [by apply o_err |]. by apply o_ret.
Qed.

Lemma o_active i m r0 (E : rows -> Prop) :
  (forall r, up r0 r -> E r) ->
  outcome (up r0) (active_user i m : M User)
    (fun u r => (r_users r0 !! i = Some u /\ u_active u = true /\ u_id u = i /\ i <> ""%string) /\ up r0 r) E.
Proof.
  intros HE. unfold active_user. eapply o_bind.
  - apply (o_query _ (fun r a => a = r_users r !! i)); [apply law_user_by_id | done | by intros x r a H].
  - intros [u|]; [| apply o_err; by intros r [_ H]; apply HE]. apply o_pure. intros [Hu Hok].
    destruct (u_active u) eqn:Ea; [| by apply o_err]. apply o_ret. intros r Hr. split; [| done].
    by destruct (proj1 (ok_users r0 Hok) i u (eq_sym Hu)).
Qed.

End Outcome.
Arguments outcome {S L K accounts laws} n0 {A} P m Q E.
End Outcome.

(** ** Email changes *)
Module EmailChange.
Import Outcome.

(** The newest of a list of changes. *)
Lemma later_change_trans a b c : later_change a b = false -> later_change b c = false -> later_change a c = false.
Proof.
  unfold later_change. intros [H1 H2]%orb_false_iff [H3 H4]%orb_false_iff. apply orb_false_iff.
  apply Z.ltb_ge in H1, H3. split; [apply Z.ltb_ge; lia |]. apply andb_false_iff. apply andb_false_iff in H2, H4.
  destruct (Z.eqb_spec (dt_us (ec_created a)) (dt_us (ec_created c))) as [E|]; [right | by left].
  destruct H2 as [H2%Z.eqb_neq | H2]; [lia |]. destruct H4 as [H4%Z.eqb_neq | H4]; [lia |].
  eapply str_ltb_trans; [exact H4 | exact H2].
Qed.

Lemma later_change_irrefl a : later_change a a = false.
Proof.
  unfold later_change. rewrite Z.ltb_irrefl, Z.eqb_refl. cbn.
  destruct (str_ltb (ec_id a) (ec_id a)) eqn:E; [| done]. by pose proof (str_ltb_asym _ _ E) as E'; rewrite E in E'.
Qed.

Lemma latest_step best l :
  let m := fold_left (fun best x => if later_change best x then x else best) l best in
  (m = best \/ m ∈ l) /\ later_change m best = false /\ forall x, x ∈ l -> later_change m x = false.
Proof.
  revert best. induction l as [|y l IH]; intros best; cbn.
  { split; [by left |]. split; [apply later_change_irrefl |]. intros x Hx. by apply elem_of_nil in Hx. }
  destruct (later_change best y) eqn:E.
  - destruct (IH y) as (Hm & Hy & Hl). split; [| split].
    + right. apply elem_of_cons. destruct Hm as [-> | Hm]; auto.
    + eapply later_change_trans; [exact Hy |]. unfold later_change in *.
      apply orb_true_iff in E. apply orb_false_iff.
      destruct E as [E | [E1 E2]%andb_true_iff].
      * apply Z.ltb_lt in E. split; [apply Z.ltb_ge; lia |]. apply andb_false_iff. left. apply Z.eqb_neq. lia.
      * apply Z.eqb_eq in E1. split; [apply Z.ltb_ge; lia |]. apply andb_false_iff. right. by apply str_ltb_asym.
    + intros x [-> | Hx]%elem_of_cons; [done | by apply Hl].
  - destruct (IH best) as (Hm & Hy & Hl). split; [| split; [done |]].
    + destruct Hm as [-> | Hm]; [by left | right; apply elem_of_cons; by right].
    + intros x [-> | Hx]%elem_of_cons; [by eapply later_change_trans | by apply Hl].
Qed.

Lemma latest_newest l c : latest l = Some c -> c ∈ l /\ forall x, x ∈ l -> later_change c x = false.
Proof.
  destruct l as [|y l]; [done |]. cbn. intros [= <-]. destruct (latest_step y l) as (Hm & Hy & Hl). split.
  - apply elem_of_cons. destruct Hm as [-> | Hm]; auto.
  - intros x [-> | Hx]%elem_of_cons; [done | by apply Hl].
Qed.

Section EmailChange.
Context {S L K : Type} {accounts : AccountStore S} {laws : AccountLaws S}
  {change_laws : TokenLaws S EmailChangeRequest}
  {limits : RateLimitStore L} {locks : FailedLoginLockStore K}
  (lib : library) (env : environment) (cfg : config).
Local Abbreviation W := (world S L K).
Local Abbreviation M := (act W auth_exn).
Local Abbreviation outcome := (Outcome.outcome 0).

(** [c] is the change that the token [t] confirms at [now], for the account [u]:
    stored, unused, not expired, the newest of its user, and its address is free. *)
Record confirms (t : string) (now : datetime) (c : EmailChangeRequest) (u : User) (r : rows) : Prop := {
  cf_stored : r_changes r !! ec_id c = Some c;
  cf_token : ec_token_hash c = hash_token lib (strip t);
  cf_unused : ec_consumed c = false;
  cf_fresh : dt_us now < dt_us (ec_expires c);
  cf_purpose : ec_purpose c = EMAIL_CHANGE_PURPOSE;
  cf_newest i c' : r_changes r !! i = Some c' -> ec_user c' = ec_user c -> ec_consumed c' = false ->
    later_change c c' = false;
  cf_account : r_users r !! ec_user c = Some u;
  cf_active : u_active u = true;
  cf_free i v : r_users r !! i = Some v -> email_key v = norm_email (ec_new_email c) -> i = u_id u
}.

(** The stages of a confirmation: nothing; every session of the user revoked; the
    identity saved; the token consumed; its siblings invalidated. *)
Definition already_applied (c : EmailChangeRequest) (u : User) : bool :=
  String.eqb (u_email u) (ec_new_email c) && u_verified u.
Definition revoked_rows (u : User) (r : rows) : rows :=
  with_sessions (revoke_sessions (u_id u) (r_sessions r)) r.
Definition saved_rows (now : datetime) (c : EmailChangeRequest) (u : User) (r : rows) : rows :=
  if already_applied c u then r
  else with_users (<[u_id u := set_verified u (ec_new_email c) now]> (r_users r)) r.
Definition consumed_rows (c : EmailChangeRequest) (r : rows) : rows :=
  with_changes (alter tok_consume (ec_id c) (r_changes r)) r.
Definition invalidated_rows (u : User) (r : rows) : rows :=
  with_changes (invalidate_changes (u_id u) (r_changes r)) r.
Definition stage (k : nat) (now : datetime) (c : EmailChangeRequest) (u : User) (r : rows) : rows :=
  match k with
  | 0 => r
  | 1 => revoked_rows u r
  | 2 => saved_rows now c u (revoked_rows u r)
  | 3 => consumed_rows c (saved_rows now c u (revoked_rows u r))
  | _ => invalidated_rows u (consumed_rows c (saved_rows now c u (revoked_rows u r)))
  end%nat.

(** How far the call [t] has come from [r0]. *)
Definition reaches (t : string) (r0 : rows) (k : nat) (r : rows) : Prop :=
  exists now c u, confirms t now c u r0 /\ up (stage k now c u r0) r.
Definition stopped (t : string) (r0 r : rows) : Prop :=
  up r0 r \/ exists k, (1 <= k <= 4)%nat /\ reaches t r0 k r.

Lemma o_fail_closed {A} (m : M A) P Q E : outcome P m Q E -> outcome P (fail_closed m) Q E.
Proof.
  intros Hm. unfold fail_closed. eapply o_bind; [by apply (o_attempt m P Q E) |].
  intros [a|e]; [by apply o_ret | by apply o_err].
Qed.

(** The last part: from revoked sessions on. *)
Section Tail.
Context (t : string) (r0 : rows) (now : datetime) (c : EmailChangeRequest) (u : User) (Hc : confirms t now c u r0).

Lemma at_stage k r : (1 <= k <= 4)%nat -> up (stage k now c u r0) r -> stopped t r0 r.
Proof. intros Hk Hr. right. exists k. split; [done |]. by exists now, c, u. Qed.

Lemma o_revoke :
  outcome (up r0) (fail_closed (on_store (sessions_revoke_all_for_user (u_id u))) : M Z)
    (fun _ => up (stage 1 now c u r0)) (stopped t r0).
Proof.
  apply o_fail_closed. eapply o_store; [apply law_session_revoke_all | done | | by left].
  intros a r r' Hr _ ->. unfold up in *. rewrite Hr. done.
Qed.

Lemma o_save_identity : u_id u <> ""%string ->
  outcome (up (stage 1 now c u r0)) (save_new_identity (set_verified u (ec_new_email c) now) : M unit)
    (fun _ r => up (with_users (<[u_id u := set_verified u (ec_new_email c) now]> (r_users r0)) (revoked_rows u r0)) r)
    (stopped t r0).
Proof.
  intros Hne w [Hl Hn] HP. unfold save_new_identity, attempt, on_store. act_run.
  destruct (law_user_save (set_verified u (ec_new_email c) now) (w_store w) Hl Hne) as [Hl' H].
  destruct (users_save _ _) as [[a|[e|e]] s]; cbn in *; unfold rows_of_world in *; cbn.
  - destruct H as (_ & _ & E). split; [done |]. unfold up in *. rewrite E, HP. done.
  - destruct H as [_ E]. split; [done |]. rewrite E. by apply (at_stage 1); [lia |].
  - destruct H as [_ E]. split; [done |]. rewrite E. by apply (at_stage 1); [lia |].
Qed.

Lemma o_identity : u_id u <> ""%string ->
  outcome (up (stage 1 now c u r0))
    (if already_applied c u then a_ret tt
     else do! _ := save_new_identity (set_verified u (ec_new_email c) now) in _send_email_changed_notice env cfg (u_email u) : M unit)
    (fun _ => up (stage 2 now c u r0)) (stopped t r0).
Proof.
  intros Hne. cbn [stage]. unfold saved_rows. destruct (already_applied c u) eqn:Ea; [by apply o_ret |].
  eapply o_bind; [by apply o_save_identity |]. intros ?. cbv beta. unfold _send_email_changed_notice.
  assert (forall r, up (with_users (<[u_id u := set_verified u (ec_new_email c) now]> (r_users r0)) (revoked_rows u r0)) r ->
            stopped t r0 r) as Hst.
  { intros r Hr. apply (at_stage 2); [lia |]. cbn [stage]. unfold saved_rows. by rewrite Ea. }
  eapply o_bind; [by apply o_send |]. intros d. cbv beta. destruct d; [by apply o_ret |].
  eapply o_weaken; [apply o_audit | done | done | exact Hst].
Qed.

Lemma o_consume :
  outcome (up (stage 2 now c u r0))
    (fail_closed (do! _ := on_store (token_mark_consumed (T := EmailChangeRequest) (ec_id c)) in
                  on_store (changes_invalidate_for_user (u_id u))) : M Z)
    (fun _ => up (stage 4 now c u r0)) (stopped t r0).
Proof.
  apply o_fail_closed. eapply o_bind with (Q := fun _ => up (stage 3 now c u r0)).
  - eapply o_store; [apply law_token_consume | done | | intros r Hr; by apply (at_stage 2); [lia |]].
    intros a r r' Hr _ ->. unfold up in *. rewrite Hr. done.
  - intros _. eapply o_store; [apply law_changes_invalidate | done | | intros r Hr; by apply (at_stage 3); [lia |]].
    intros a r r' Hr _ ->. unfold up in *. rewrite Hr. done.
Qed.
End Tail.

Lemma o_latest i r0 (E : rows -> Prop) :
  (forall r, up r0 r -> E r) ->
  outcome (up r0) (_latest_unconsumed_email_change i : M _)
    (fun x r => (forall c c', r_changes r0 !! ec_id c = Some c -> ec_user c = i -> ec_consumed c = false ->
                   (match x with Some b => ec_id b = ec_id c | None => True end) ->
                   r_changes r0 !! ec_id c' = Some c' -> ec_user c' = i -> ec_consumed c' = false ->
                   later_change c c' = false) /\ up r0 r) E.
Proof.
  intros HE. unfold _latest_unconsumed_email_change. eapply o_bind.
  - apply (o_query _ (fun r a => forall c, c ∈ a <-> r_changes r !! ec_id c = Some c /\ ec_user c = i));
      [apply law_changes_list | done | by intros x r a H].
  - intros items. apply o_pure. intros [Hin Hok]. apply o_ret. intros r Hr. split; [| done].
    set (active := List.filter (fun c => negb (ec_consumed c)) items).
    assert (forall c, r_changes r0 !! ec_id c = Some c -> ec_user c = i -> ec_consumed c = false -> c ∈ active) as Hact.
    { intros c H1 H2 H3. apply list_elem_of_In, filter_In. rewrite H3. split; [| done].
      apply list_elem_of_In, Hin. done. }
    intros c c' H1 H2 H3 Hx H4 H5 H6. destruct (latest active) as [b|] eqn:El.
    + destruct (latest_newest _ _ El) as [Hb Hmax].
      assert (b = c) as ->; [| by apply Hmax, Hact].
      apply list_elem_of_In, filter_In in Hb as [Hb _]. apply list_elem_of_In, Hin in Hb as [Hb _]. congruence.
    + exfalso. pose proof (Hact c H1 H2 H3) as Hc. destruct active; [by apply elem_of_nil in Hc | done].
Qed.

Lemma o_confirm_change t r0 :
  outcome (up r0) (confirm_email_change lib env cfg t : M _) (fun _ => reaches t r0 4) (stopped t r0).
Proof.
  assert (forall r, up r0 r -> stopped t r0 r) as HE by (intros r; by left).
  unfold confirm_email_change. cbv zeta. apply o_guard; [done |]. intros _. apply o_guard; [done |]. intros _.
  eapply o_bind.
  { apply (o_query _ (fun r a => match a with
      | Some c => tokens r !! tok_id c = Some c /\ tok_hash c = hash_token lib (strip t)
      | None => forall i c, tokens r !! i = Some c -> tok_hash c <> hash_token lib (strip t) end));
      [apply law_token_find | done | by intros x r [] H]. }
  intros found. apply o_pure. intros [Hfound Hok]. cbn in Hfound.
  eapply o_bind; [by apply o_ask |]. intros now. cbv beta.
  eapply o_bind; [by apply (o_usable ec_expires) |]. intros c. apply o_pure. intros (-> & Hun & Hexp).
  destruct Hfound as [Hc Eh]. cbn in Hun.
  apply o_guard; [done |]. intros Hp%negb_false_iff%String.eqb_eq.
  eapply o_bind; [by apply o_latest |]. intros newest. apply o_pure. intros Hnew.
  apply o_guard; [done |]. intros Hl.
  eapply o_bind; [by apply o_active |]. intros u. apply o_pure. intros (Hu & Ha & Eu & Hne). rewrite <- Eu in Hne.
  eapply o_bind.
  { apply (o_query _ (fun r a => match a with
      | Some v => r_users r !! u_id v = Some v /\ email_key v = norm_email (ec_new_email c)
      | None => forall i v, r_users r !! i = Some v -> email_key v <> norm_email (ec_new_email c) end));
      [apply law_user_by_email | done | by intros x r [] H]. }
  intros occupant. apply o_pure. intros [Hocc _]. apply o_guard; [done |]. intros Hfree.
  assert (confirms t now c u r0) as Hcf.
  { split; try done.
    - intros i c' Hc' Eo' Ec'. destruct (proj1 (ok_changes r0 Hok) i c' Hc') as [<- _].
      apply (Hnew c c'); try done. destruct newest as [b|]; [| done]. by apply negb_false_iff, String.eqb_eq in Hl.
    - intros i v Hv Ev. destruct occupant as [o|]; [| by destruct (Hocc i v Hv)]. destruct Hocc as [Ho Eo].
      apply negb_false_iff, String.eqb_eq in Hfree. rewrite <- Hfree.
      apply (proj2 (ok_users r0 Hok) i (u_id o) v o Hv Ho). congruence. }
  eapply o_bind; [apply (o_revoke t r0 now c u) |]. intros ?. cbv beta.
  eapply o_bind; [by apply (o_identity t r0 now c u Hcf Hne) |]. intros ?. cbv beta.
  eapply o_bind; [by apply (o_consume t r0 now c u Hcf) |]. intros ?. cbv beta.
  eapply o_bind.
  - eapply o_weaken; [apply (o_audit env cfg _ _ _ _ (stage 4 now c u r0)) | done | intros ? r H; exact H |].
    intros r Hr. by apply (at_stage t r0 now c u Hcf 4); [lia |].
  - intros ?. cbv beta. apply o_ret. intros r Hr. by exists now, c, u.
Qed.

Lemma stage_users k now c u r i :
  i <> u_id u -> r_users (stage k now c u r) !! i = r_users r !! i.
Proof.
  intros Hi. destruct k as [|[|[|[|k]]]]; cbn [stage invalidated_rows consumed_rows r_users with_changes]; try done;
    unfold saved_rows; destruct (already_applied c u); cbn; try done; by rewrite lookup_insert_ne.
Qed.

Lemma stage_sessions k now c u r : (1 <= k)%nat ->
  r_sessions (stage k now c u r) = revoke_sessions (u_id u) (r_sessions r).
Proof.
  intros Hk. destruct k as [|[|[|[|k]]]]; [lia | | | |]; cbn; try done; unfold saved_rows;
    by destruct (already_applied c u).
Qed.

(** C13: an email change fails closed. Whatever the token and wherever the store
    fails - or the mail, or the audit log - a confirmation stops at one of five
    stages, in this order: nothing is done; every session of the account is
    revoked; the identity is saved; the token is consumed; its siblings are
    invalidated. It succeeds only at the last, and it passes the first only with
    the stored, unused, unexpired, newest token of an active account, for an
    address that no other account has. So an account never changes while one of
    its sessions is live. *)
Theorem email_change_fails_closed t (w : W) :
  lawful (w_store w) ->
  let out := confirm_email_change lib env cfg t w in
  lawful (w_store out.2)
  /\ (is_ok out.1 = true -> reaches t (rows_of_world w) 4 (rows_of_world out.2))
  /\ (is_ok out.1 = false -> stopped t (rows_of_world w) (rows_of_world out.2))
  /\ (forall i u s j, r_users (rows_of_world out.2) !! i = Some u -> r_users (rows_of_world w) !! i <> Some u ->
       r_sessions (rows_of_world out.2) !! j = Some s -> se_user s = i -> revoked s = true).
Proof.
  intros Hl out.
  destruct (o_confirm_change t (rows_of_world w) w (conj Hl (Nat.le_0_l _)) (up_refl _)) as [[Hl' _] H].
  fold out in Hl', H. assert (stopped t (rows_of_world w) (rows_of_world out.2)) as Hst.
  { destruct (out.1); [right; exists 4%nat; split; [lia | exact H] | exact H]. }
  split; [done |]. split; [| split].
  - intros E. by destruct (out.1).
  - intros E. by destruct (out.1).
  - intros i u s j Hu Hne Hs Es. destruct Hst as [Hup | (k & Hk & now & c & v & Hc & Hup)].
    + unfold up in Hup. by rewrite Hup in Hu.
    + unfold up in Hup. rewrite Hup in Hu, Hs. cbn in Hu, Hs. destruct (decide (i = u_id v)) as [-> | Hi].
      * rewrite stage_sessions in Hs by lia. unfold revoke_sessions in Hs. rewrite lookup_fmap in Hs.
        destruct (r_sessions _ !! j) as [x|]; [| done]. cbn in Hs. injection Hs as <-.
        destruct (String.eqb_spec (se_user x) (u_id v)) as [E|E]; [done |]. by destruct (E Es).
      * by rewrite stage_users in Hu by done.
Qed.
End EmailChange.
End EmailChange.

(** ** Passwords *)
Module Credentials.
Import Outcome EmailChange.

Section Credentials.
Context {S L K : Type} {accounts : AccountStore S} {laws : AccountLaws S}
  {reset_laws : TokenLaws S PasswordResetRequest}
  {limits : RateLimitStore L} {locks : FailedLoginLockStore K}
  (lib : library) (env : environment) (cfg : config).
Local Abbreviation W := (world S L K).
Local Abbreviation M := (act W auth_exn).

(** *** Resets *)

(** [p] is the reset that the token [t] confirms at [now], for the account [u]. *)
Record resets (t : string) (now : datetime) (p : PasswordResetRequest) (u : User) (r : rows) : Prop := {
  rs_stored : r_resets r !! pr_id p = Some p;
  rs_token : pr_token_hash p = hash_token lib (strip t);
  rs_unused : pr_consumed p = false;
  rs_fresh : dt_us now < dt_us (pr_expires p);
  rs_account : r_users r !! pr_user p = Some u;
  rs_active : u_active u = true
}.

(** Its stages: nothing; the password saved; the token consumed; every session of
    the account revoked. *)
Definition reset_stage (k : nat) (now : datetime) (p : PasswordResetRequest) (u : User) (stored : string)
    (r : rows) : rows :=
  let saved := with_users (<[u_id u := set_password u stored now]> (r_users r)) r in
  let consumed := with_resets (alter tok_consume (pr_id p) (r_resets r)) saved in
  match k with
  | 0 => r
  | 1 => saved
  | 2 => consumed
  | _ => with_sessions (revoke_sessions (u_id u) (r_sessions r)) consumed
  end%nat.

Definition reset_reaches (t new_password : string) (r0 : rows) (k : nat) (r : rows) : Prop :=
  exists now p u salt stored, resets t now p u r0
    /\ Hasher.hash (pbkdf2_hmac lib) (iterations cfg) salt new_password = Ok stored
    /\ up (reset_stage k now p u stored r0) r.
Definition reset_stopped (t new_password : string) (r0 r : rows) : Prop :=
  exists k, (k <= 3)%nat /\ (k = 0%nat /\ up r0 r \/ reset_reaches t new_password r0 k r).

Lemma o_hash p r0 (E : rows -> Prop) : (forall r, up r0 r -> E r) ->
  outcome 0 (up r0) (hash_password lib env cfg p : M string)
    (fun stored r => (exists salt, Hasher.hash (pbkdf2_hmac lib) (iterations cfg) salt p = Ok stored) /\ up r0 r) E.
Proof.
  intros HE. unfold hash_password. eapply o_bind; [by apply o_ask |]. intros salt. cbv beta.
  apply o_lift; [| done]. intros a r H Hr. split; [| done]. exists salt.
  by destruct (Hasher.hash _ _ _ _); cbn in H; simplify_eq.
Qed.

Lemma o_save_user u r0 (E : rows -> Prop) : u_id u <> ""%string -> (forall r, up r0 r -> E r) ->
  outcome 0 (up r0) (on_store (users_save u) : M User)
    (fun _ => up (with_users (<[u_id u := u]> (r_users r0)) r0)) E.
Proof.
  intros Hne HE w [Hl Hn] HP. unfold on_store. destruct (law_user_save u (w_store w) Hl Hne) as [Hl' H].
  destruct (users_save _ _) as [[a|[e|e]] s]; cbn in *; unfold rows_of_world in *; cbn; (split; [done |]).
  - destruct H as (_ & _ & E'). unfold up in *. rewrite E', HP. done.
  - destruct H as [_ E']. rewrite E'. by apply HE.
  - destruct H as [_ E']. rewrite E'. by apply HE.
Qed.

Lemma o_confirm_reset t new r0 :
  outcome 0 (up r0) (confirm_password_reset lib env cfg t new : M _)
    (fun _ => reset_reaches t new r0 3) (reset_stopped t new r0).
Proof.
  assert (forall r, up r0 r -> reset_stopped t new r0 r) as HE by (intros r Hr; exists 0%nat; split; [lia | by left]).
  unfold confirm_password_reset. cbv zeta. apply o_guard; [done |]. intros _.
  eapply o_bind; [by apply (o_lift _ (up r0) (fun _ => up r0)) |]. intros ?. cbv beta. apply o_guard; [done |]. intros _.
  eapply o_bind.
  { apply (o_query _ (fun r (a : option PasswordResetRequest) => match a with
      | Some p => tokens r !! tok_id p = Some p /\ tok_hash p = hash_token lib (strip t)
      | None => forall i (p : PasswordResetRequest), tokens r !! i = Some p -> tok_hash p <> hash_token lib (strip t) end));
      [apply law_token_find | done | by intros x r [] H]. }
  intros found. apply o_pure. intros [Hfound Hok]. cbn in Hfound.
  eapply o_bind; [by apply o_ask |]. intros now. cbv beta.
  eapply o_bind; [by apply (o_usable pr_expires) |]. intros p. apply o_pure. intros (-> & Hun & Hexp).
  destruct Hfound as [Hp Eh]. cbn in Hun.
  eapply o_bind; [by apply o_active |]. intros u. apply o_pure. intros (Hu & Ha & Eu & Hne). rewrite <- Eu in Hne.
  assert (resets t now p u r0) as Hrs by done.
  eapply o_bind; [by apply o_hash |]. intros stored. apply o_pure. intros [salt Hs].
  assert (forall k r, (k <= 3)%nat -> up (reset_stage k now p u stored r0) r -> reset_stopped t new r0 r) as Hst.
  { intros k r Hk Hr. exists k. split; [done |]. right. by exists now, p, u, salt, stored. }
  eapply o_bind; [by apply (o_save_user (set_password u stored now) r0) |]. intros ?. cbv beta.
  eapply o_bind with (Q := fun _ => up (reset_stage 2 now p u stored r0)).
  { eapply o_store; [apply law_token_consume | done | | intros r Hr; apply (Hst 1%nat); [lia | exact Hr]].
    intros b r r' Hr _ ->. unfold up in *. rewrite Hr. done. }
  intros ?. cbv beta. eapply o_bind with (Q := fun _ => up (reset_stage 3 now p u stored r0)).
  { eapply o_store; [apply law_session_revoke_all | done | | intros r Hr; apply (Hst 2%nat); [lia | exact Hr]].
    intros b r r' Hr _ ->. unfold up in *. rewrite Hr. done. }
  intros ?. cbv beta. eapply o_bind.
  - eapply o_weaken; [apply (o_audit env cfg _ _ _ _ (reset_stage 3 now p u stored r0)) | done | intros ? r H; exact H |].
    intros r Hr. apply (Hst 3%nat); [lia | exact Hr].
  - intros ?. cbv beta. apply o_ret. intros r Hr. by exists now, p, u, salt, stored.
Qed.

(** A confirmed password reset takes effect. It succeeds only for the stored,
    unused and unexpired token of an active account, and then exactly three
    things have happened: the account's stored password is one that the new
    password verifies - and no other text, but for collisions of the key
    derivation -, the token is consumed, and every session of the account is
    revoked. If it raises, it has stopped at one of these steps, in that order:
    a store that fails after the first leaves sessions that were opened with the
    old password. *)
Theorem password_reset_takes_effect t new (w : W) :
  (forall p s i n, 1 <= n -> len (pbkdf2_hmac lib p s i n) = n) -> 100000 <= iterations cfg ->
  lawful (w_store w) ->
  let out := confirm_password_reset lib env cfg t new w in
  lawful (w_store out.2)
  /\ (is_ok out.1 = false -> reset_stopped t new (rows_of_world w) (rows_of_world out.2))
  /\ (is_ok out.1 = true -> exists now p u salt stored,
        resets t now p u (rows_of_world w)
        /\ up (reset_stage 3 now p u stored (rows_of_world w)) (rows_of_world out.2)
        /\ Hasher.verify (pbkdf2_hmac lib) new stored = Ok true
        /\ (forall q, Hasher.verify (pbkdf2_hmac lib) q stored = Ok true ->
             pbkdf2_hmac lib (utf8 q) salt (iterations cfg) Hasher.HASH_BYTES
             = pbkdf2_hmac lib (utf8 new) salt (iterations cfg) Hasher.HASH_BYTES)).
Proof.
  intros Hkdf Hit Hl out.
  destruct (o_confirm_reset t new (rows_of_world w) w (conj Hl (Nat.le_0_l _)) (up_refl _)) as [[Hl' _] H].
  fold out in Hl', H. split; [done |]. split; intros E; destruct (out.1); try done.
  destruct H as (now & p & u & salt & stored & Hr & Hs & Hup). exists now, p, u, salt, stored.
  assert (nonempty new = true) as Hne by (destruct new; [by cbv in Hs | done]).
  destruct (Hasher.hash_verifies (pbkdf2_hmac lib) Hkdf (iterations cfg) salt new Hit Hne) as (stored' & Hs' & Hv).
  rewrite Hs in Hs'. injection Hs' as <-. split; [done |]. split; [done |]. rewrite Hv, Hne, String.eqb_refl. split; [done |].
  intros q. rewrite Hv. intros [= [_ Hq%String.eqb_eq]%andb_true_iff]. done.
Qed.

(** *** Logins *)

Section Login.
Context (He : Tables.env_ok lib env) (n0 : nat) (r0 : rows) (Hun : Tables.unseen lib env n0 r0).

(** The session that a login opens. *)
Record opens (u : User) (rem : bool) (res : AuthResult) : Prop := {
  op_user : ar_user res = u;
  op_owner : se_user (ar_session res) = u_id u;
  op_hash : se_token_hash (ar_session res) = hash_token lib (access_token res);
  op_live : revoked (ar_session res) = false;
  op_ttl : se_expires (ar_session res)
    = dt_add (se_created (ar_session res)) (seconds (if rem then remember_ttl cfg else session_ttl cfg))
}.

Lemma o_issue_session u rem ag ip :
  Outcome.outcome n0 (up r0) (_issue_session lib env cfg u rem ag ip : M _)
    (fun res r => opens u rem res
       /\ up (with_sessions (<[se_id (ar_session res) := ar_session res]> (r_sessions r0)) r0) r) (up r0).
Proof.
  unfold _issue_session, now_. eapply o_bind; [by apply o_ask |]. intros now. cbv zeta beta.
  eapply o_bind; [by apply o_ask_from |]. intros raw. apply o_pure. intros (j & Hj & ->).
  eapply o_bind; [by apply o_ask |]. intros csrf. cbv beta.
  eapply o_bind; [by apply o_ask_from |]. intros i. apply o_pure. intros (k & Hk & ->).
  set (session := {| se_id := _ |}).
  eapply o_bind with (Q := fun _ => up (with_sessions (<[se_id session := session]> (r_sessions r0)) r0)).
  - eapply o_store; [apply law_session_save | | | done].
    + intros r Hr Hok. assert (r_sessions r = r_sessions r0) as Er by (unfold up in Hr; by rewrite Hr). cbv beta. rewrite !Er.
      split; [apply (Tables.ids_nonempty _ _ He) |]. split.
      * intros i y Hy Ey. exfalso. destruct (Tables.un_sessions _ _ _ _ Hun i y Hy) as [_ H]. apply H.
        cbn in *. rewrite Ey. by exists j, 48.
      * intros y Hy. exfalso. destruct (Tables.un_sessions _ _ _ _ Hun _ y Hy) as [H _]. apply H. by exists k.
    + intros b r r' Hr _ [-> ->]. unfold up in *. rewrite Hr. done.
  - intros ?. cbv beta. by apply o_ret.
Qed.

Lemma o_on_lock {A} (f : datetime -> K -> result lock_exn A * K) :
  Outcome.outcome n0 (up r0) (on_lock env cfg f : M A) (fun _ => up r0) (up r0).
Proof.
  unfold on_lock, now_. eapply o_bind; [by apply o_ask |]. intros now. cbv beta. eapply o_bind.
  - apply o_same; [| done]. intros w. destruct (f now (w_lock w)). cbn. done.
  - intros x. cbv beta. destruct x as [a|[]]; [by apply o_ret | | by apply o_err].
    unfold lock_unavailable. eapply o_bind; [apply o_audit |]. intros ?. by apply o_err.
Qed.

Lemma o_rate_check key : Outcome.outcome n0 (up r0) (rate_check env cfg key : M bool) (fun _ => up r0) (up r0).
Proof.
  unfold rate_check, now_. eapply o_bind; [by apply o_ask |]. intros now. cbv beta.
  apply o_same; [| done]. intros w. by destruct (Limiter.auth_hook_check _ _ _ _ _).
Qed.
Lemma o_rate_reset key : Outcome.outcome n0 (up r0) (rate_reset key : M unit) (fun _ => up r0) (up r0).
Proof. apply o_same; [| done]. intros w. unfold rate_reset. by destruct (Limiter.auth_hook_reset _ _). Qed.

(** The account a login is for, and that its password was right. *)
Record proves (email password : string) (u : User) : Prop := {
  lg_stored : r_users r0 !! u_id u = Some u;
  lg_email : email_key u = norm_email email;
  lg_active : u_active u = true;
  lg_password : Hasher.verify (pbkdf2_hmac lib) password (u_password_hash u) = Ok true
}.

Lemma o_login e p rem ag ip :
  Outcome.outcome n0 (up r0) (login lib env cfg e p rem ag ip : M _)
    (fun res r => (exists u, proves e p u /\ opens u rem res)
       /\ up (with_sessions (<[se_id (ar_session res) := ar_session res]> (r_sessions r0)) r0) r) (up r0).
Proof.
  unfold login. cbv zeta. apply o_guard; [done |]. intros _.
  eapply o_bind; [by apply (o_lift _ (up r0) (fun a r => _normalize_email e = Ok a /\ up r0 r));
    [intros a r H Hr; split; [by destruct (_normalize_email e); cbn in H; simplify_eq | done] |] |].
  intros c. apply o_pure. intros Ec. destruct (normalized_email e c Ec) as (-> & Hidem & _).
  eapply o_bind with (Q := fun _ => up r0).
  { unfold _abuse_key. destruct (opaque_subject_key _ _ _ _); [by apply o_ret | by apply o_err]. }
  intros key. cbv beta. eapply o_bind with (Q := fun _ => up r0).
  { unfold _reject_if_login_locked. eapply o_bind; [apply o_on_lock |]. intros [|]; cbv beta; [| by apply o_ret].
    eapply o_bind; [apply o_audit |]. intros ?. by apply o_err. }
  intros ?. cbv beta. eapply o_bind; [apply o_rate_check |]. intros allowed. cbv beta.
  destruct allowed; cbn [negb]; [| eapply o_bind; [apply o_audit |]; intros ?; by apply o_err].
  eapply o_bind.
  { apply (o_query _ (fun r a => match a with
      | Some v => r_users r !! u_id v = Some v /\ email_key v = norm_email (norm_email e)
      | None => forall i v, r_users r !! i = Some v -> email_key v <> norm_email (norm_email e) end));
      [apply law_user_by_email | done | by intros x r [] H]. }
  intros found. apply o_pure. intros [Hfound _].
  assert (forall A (x : option string) d md, Outcome.outcome n0 (up r0)
    (do! _ := _record_durable_login_failure env cfg key in
     do! _ := audit_record env cfg "login_failure" x d md in
     raise (UserPlatformAuthError INVALID_CREDENTIALS) : M A) (fun _ _ => False) (up r0)) as Hfail.
  { intros A x d md. unfold _record_durable_login_failure. eapply o_bind; [eapply o_bind; [apply o_on_lock | intros ?; by apply (o_ret tt (up r0) (fun _ => up r0))] |].
    intros ?. eapply o_bind; [apply o_audit |]. intros ?. by apply o_err. }
  destruct found as [u|]; [| by eapply o_weaken; [apply Hfail | done | done | done]].
  destruct (u_active u) eqn:Ea; cbn [negb]; [| by eapply o_weaken; [apply Hfail | done | done | done]].
  eapply o_bind.
  { unfold verify_password, of_hasher. apply (o_lift _ (up r0) (fun ok r =>
      Hasher.verify (pbkdf2_hmac lib) p (u_password_hash u) = Ok ok /\ up r0 r)); [| done].
    intros ok r H Hr. split; [| done]. by destruct (Hasher.verify _ _ _); cbn in H; simplify_eq. }
  intros ok. apply o_pure. intros Hv. destruct ok; cbn [negb]; [| by eapply o_weaken; [apply Hfail | done | done | done]].
  cbn [mfa_is_enabled]. unfold _clear_durable_login_failure.
  eapply o_bind; [apply o_on_lock |]. intros ?. cbv beta. eapply o_bind; [apply o_rate_reset |]. intros ?. cbv beta.
  eapply o_bind; [apply o_audit |]. intros ?. cbv beta.
  eapply o_weaken; [apply o_issue_session | done | | done].
  intros res r [Hopen Hup]. split; [| done]. exists u. split; [| done]. destruct Hfound as [Hu He'].
  split; try done. by rewrite He', norm_email_idemp.
Qed.
End Login.

(** C10: a login opens exactly one session, for the right password only. It
    returns only for the stored, active account of the normalised address whose
    stored hash verifies the password; then one session is added - the account's,
    live, under the hash of the token that is returned, expiring after the time
    that was asked for - and nothing else has changed. If it raises, whatever
    failed, nothing has changed but the audit log. *)
Theorem login_opens_one_session e p rem ag ip (w : W) :
  Tables.env_ok lib env -> lawful (w_store w) -> Tables.unseen lib env (w_asked w) (rows_of_world w) ->
  let out := login lib env cfg e p rem ag ip w in
  lawful (w_store out.2)
  /\ match out.1 with
     | Ok res =>
         (exists u, proves (rows_of_world w) e p u /\ opens u rem res)
         /\ up (with_sessions (<[se_id (ar_session res) := ar_session res]> (r_sessions (rows_of_world w)))
                  (rows_of_world w)) (rows_of_world out.2)
     | Err _ => up (rows_of_world w) (rows_of_world out.2)
     end.
Proof.
  intros He Hl Hun out.
  destruct (o_login He (w_asked w) (rows_of_world w) Hun e p rem ag ip w (conj Hl (le_n _)) (up_refl _)) as [[Hl' _] H].
  by split.
Qed.

(** *** Locked accounts *)

(** The audit log leaves the counters alone. *)
Lemma audit_counters t u d md (w : W) :
  w_limits (audit_record env cfg t u d md w).2 = w_limits w /\ w_lock (audit_record env cfg t u d md w).2 = w_lock w.
Proof.
  unfold audit_record, now_, ask, on_store. act_run. destruct (has_audit cfg); [| done].
  cbn. by destruct (audit_append _ _) as [[] ?].
Qed.

Lemma audit_then_raises {A} t u d md e (w : W) :
  exists x w', (do! _ := audit_record env cfg t u d md in raise e : M A) w = (Err x, w')
    /\ w_limits w' = w_limits w /\ w_lock w' = w_lock w.
Proof.
  pose proof (audit_counters t u d md w) as [H1 H2]. unfold a_bind, raise, a_err.
  destruct (audit_record env cfg t u d md w) as [[a|x] w']; cbn in *; eauto.
Qed.

Lemma reject_locked key (w : W) :
  Facade.is_locked key (clock env (w_asked w)) (w_lock w) <> Ok false ->
  exists x w', (_reject_if_login_locked env cfg key : M unit) w = (Err x, w') /\ w_limits w' = w_limits w /\ w_lock w' = w_lock w.
Proof.
  intros Hl. unfold _reject_if_login_locked, on_lock, lock_unavailable, now_, ask. act_run. cbn [w_asked w_lock with_asked].
  set (w1 := with_lock _ _).
  destruct (Facade.is_locked key (clock env (w_asked w)) (w_lock w)) as [[]|[]]; [| done | | by eauto].
  - exact (audit_then_raises (A := unit) "rate_limited" None "login_locked" [("control", JStr "failed_login_lock")]%string
      (UserPlatformRateLimitError LOGIN_ATTEMPT_LIMIT_MESSAGE) w1).
  - destruct (audit_then_raises (A := bool) "rate_limited" None "login_lock_unavailable"
      [("control", JStr "failed_login_lock"); ("condition", JStr "unavailable")]%string
      (UserPlatformRateLimitError LOGIN_ATTEMPT_LIMIT_MESSAGE) w1) as (x & w' & E & Hw).
    revert E. act_run. intros E. rewrite E. by exists x, w'.
Qed.

(** The one outcome of every login for a locked address. *)
Lemma locked_outcome e key (w : W) :
  opaque_subject_key lib (app_settings cfg) "login" (norm_email e) = Some key ->
  Facade.is_locked key (clock env (w_asked w)) (w_lock w) <> Ok false ->
  exists out, is_ok out.1 = false /\ w_limits out.2 = w_limits w /\ w_lock out.2 = w_lock w
    /\ forall p rem ag ip, login lib env cfg e p rem ag ip w = out.
Proof.
  intros Hkey Hlock. destruct (reject_locked key w Hlock) as (x & w' & Er & Hw).
  unfold login, _require_enabled, checked, _abuse_key. cbv zeta.
  destruct (enabled cfg) eqn:Ee; [| by eexists (Err _, w)].
  destruct (_normalize_email e) as [c|err] eqn:Ec; [| by eexists (Err _, w)].
  exists (Err x, w'). split; [done |]. split; [by destruct Hw |]. split; [by destruct Hw |]. intros q rm a i.
  destruct (normalized_email e c Ec) as (-> & _). act_run. cbn [negb map_err]. rewrite Hkey. by rewrite Er.
Qed.

(** A locked address is refused before anything is looked at. While the
    failed-login lock of the address is active - or cannot be read - every login
    for it is refused, and the outcome is one and the same whatever password,
    device or session length is asked for: the answer, the stores, the counters
    and the audit log say nothing about whether the password was right or
    whether the account exists. *)
Theorem locked_login_ignores_password e p p' rem rem' ag ag' ip ip' key (w : W) :
  opaque_subject_key lib (app_settings cfg) "login" (norm_email e) = Some key ->
  Facade.is_locked key (clock env (w_asked w)) (w_lock w) <> Ok false ->
  login lib env cfg e p rem ag ip w = login lib env cfg e p' rem' ag' ip' w
  /\ is_ok (login lib env cfg e p rem ag ip w).1 = false
  /\ w_limits (login lib env cfg e p rem ag ip w).2 = w_limits w
  /\ w_lock (login lib env cfg e p rem ag ip w).2 = w_lock w.
Proof.
  intros Hkey Hlock. destruct (locked_outcome e key w Hkey Hlock) as (out & H1 & H2 & H3 & H4). by rewrite !H4.
Qed.
End Credentials.
End Credentials.
