(* ===== verification/AuthGuessing.v ===== *)
(** Guessing passwords: logins that fail one after the other lock the address.

    The authentication service of [Auth] over any lock store that keeps the laws
    of [LoginLock]: what a refused login leaves in the lock, and that a threshold
    of refusals closes the address for every password. *)

From S2P Require Import Prelude PyStr Json Clock PyState OpStore RateLimit LoginLock Users Password Identity Auth AuthOutcomes.
#[local] Open Scope Z_scope.
#[local] Open Scope py_scope.
Import Entities Rows Store Settings Messages Legal Checks LockPolicy LockInterface World Auth.

Module Guessing.

Section Guessing.
Context {S L K : Type} {accounts : AccountStore S} {limits : RateLimitStore L}
  {locks : FailedLoginLockStore K} {lock_laws : LockStoreLaws K}
  (lib : library) (env : environment) (cfg : config).
Local Abbreviation W := (world S L K).
Local Abbreviation M := (act W auth_exn).

Definition refused : auth_exn := Platform (UserPlatformAuthError INVALID_CREDENTIALS).

(** [m] is never the one that refuses, and does not touch the lock. *)
Definition polite {A} (m : M A) : Prop := forall w, (m w).1 <> Err refused.
Definition unlocked {A} (m : M A) : Prop :=
  forall w, w_lock (m w).2 = w_lock w /\ (w_asked w <= w_asked (m w).2)%nat.
Definition calm {A} (m : M A) : Prop := polite m /\ unlocked m.

Lemma polite_bind {A B} (m : M A) (k : A -> M B) : polite m -> (forall a, polite (k a)) -> polite (a_bind m k).
Proof. intros Hm Hk w. unfold a_bind. specialize (Hm w). destruct (m w) as [[a|x] w1]; [apply Hk | intros [= ->]; by apply Hm]. Qed.

Lemma unlocked_bind {A B} (m : M A) (k : A -> M B) : unlocked m -> (forall a, unlocked (k a)) -> unlocked (a_bind m k).
Proof.
  intros Hm Hk w. unfold a_bind. destruct (Hm w) as [H1 H2]. destruct (m w) as [[a|x] w1]; cbn in *; [| by split].
  destruct (Hk a w1) as [H3 H4]. split; [congruence | lia].
Qed.

Lemma calm_bind {A B} (m : M A) (k : A -> M B) : calm m -> (forall a, calm (k a)) -> calm (a_bind m k).
Proof.
  intros [H1 H2] Hk. split; [apply polite_bind; [done |] | apply unlocked_bind; [done |]]; intros a; apply Hk.
Qed.

(** Nothing of the lock or of the questions is changed. *)
Lemma unlocked_still {A} (m : M A) :
  (forall w, w_lock (m w).2 = w_lock w /\ w_asked (m w).2 = w_asked w) -> unlocked m.
Proof. intros H w. destruct (H w) as [H1 H2]. split; [done | lia]. Qed.

Lemma calm_lift {A} (x : result auth_exn A) : x <> Err refused -> calm (a_lift x).
Proof. intros H. split; [exact (fun _ => H) | by apply unlocked_still]. Qed.
Lemma calm_ret {A} (a : A) : calm (a_ret a).
Proof. by apply calm_lift. Qed.
Lemma calm_err {A} e : e <> refused -> calm (a_err e : M A).
Proof. intros H. apply calm_lift. congruence. Qed.
Lemma calm_guard c e : e <> refused -> calm (a_guard c e).
Proof. intros H. apply calm_lift. by destruct c; cbn; congruence. Qed.
Lemma calm_ask {A} (f : nat -> A) : calm (ask f).
Proof. split; intros w; cbn; [done | split; [done | lia]]. Qed.
Lemma calm_store {A} (m : act S repo_exn A) : calm (on_store m).
Proof.
  split; [| apply unlocked_still]; intros w; unfold on_store; by destruct (m (w_store w)) as [[a|[]] s].
Qed.

Lemma calm_audit t u d md : calm (audit_record env cfg t u d md).
Proof.
  unfold audit_record, now_. apply calm_bind; [apply calm_ask |]. intros i. apply calm_bind; [apply calm_ask |]. intros now.
  cbv zeta. apply calm_bind; [split; [done | by apply unlocked_still] |]. intros _. destruct (has_audit cfg); [| apply calm_ret].
  apply calm_bind; [apply calm_store |]. intros _. apply calm_ret.
Qed.

Lemma calm_rate_check key : calm (rate_check env cfg key).
Proof.
  unfold rate_check, now_. apply calm_bind; [apply calm_ask |]. intros now. split; [| apply unlocked_still]; intros w;
    by destruct (Limiter.auth_hook_check _ _ _ _ _) as [[] ?].
Qed.
Lemma calm_rate_reset key : calm (rate_reset key : M unit).
Proof.
  split; [| apply unlocked_still]; intros w; unfold rate_reset; by destruct (Limiter.auth_hook_reset _ _) as [[] ?].
Qed.

Lemma calm_abuse_key a m : calm (_abuse_key lib cfg a m : M string).
Proof. unfold _abuse_key. destruct (opaque_subject_key _ _ _ _); [apply calm_ret | by apply calm_err]. Qed.

Lemma polite_on_lock {A} (f : datetime -> K -> result lock_exn A * K) : polite (on_lock env cfg f).
Proof.
  unfold on_lock, now_. apply polite_bind; [apply calm_ask |]. intros now. apply polite_bind.
  { intros w. by destruct (f now (w_lock w)). }
  intros [a|[]]; [done | | done]. unfold lock_unavailable. apply polite_bind; [apply calm_audit |]. by intros ? w.
Qed.

Lemma calm_reject key : calm (_reject_if_login_locked env cfg key).
Proof.
  unfold _reject_if_login_locked. apply calm_bind.
  - split; [apply polite_on_lock |]. unfold on_lock, now_. apply unlocked_bind; [apply calm_ask |]. intros now.
    apply unlocked_bind; [by apply unlocked_still |]. intros [a|[]]; [apply calm_ret | | by apply calm_err].
    unfold lock_unavailable. apply unlocked_bind; [apply calm_audit |]. intros _. by apply calm_err.
  - intros [|]; [| apply calm_ret]. apply calm_bind; [apply calm_audit |]. intros _. by apply calm_err.
Qed.

Lemma polite_issue_session u rem ag ip : polite (_issue_session lib env cfg u rem ag ip).
Proof.
  unfold _issue_session, now_. repeat (apply polite_bind; [apply calm_ask |]; intros ?; cbv zeta).
  apply polite_bind; [apply calm_store |]. by intros ? w.
Qed.

(** *** What a refused login leaves in the lock *)

Lemma bind_refused {A B} (m : M A) (k : A -> M B) w :
  polite m -> (a_bind m k w).1 = Err refused ->
  exists a, (m w).1 = Ok a /\ a_bind m k w = k a (m w).2.
Proof.
  intros Hm H. specialize (Hm w). unfold a_bind in *. destruct (m w) as [[a|x] w1]; [by exists a | injection H as ->; by destruct Hm].
Qed.

(** The lock after [w] is the one of [w0] with one failure more. *)
Definition counted (key : string) (w0 w : W) : Prop :=
  exists n, (w_asked w0 <= n < w_asked w)%nat
    /\ w_lock w = (Facade.record_failure (login_lock cfg) key (clock env n) (w_lock w0)).2.

Lemma on_lock_ok {A} (f : datetime -> K -> result lock_exn A * K) (w : W) a :
  (on_lock env cfg f w).1 = Ok a ->
  w_lock (on_lock env cfg f w).2 = (f (clock env (w_asked w)) (w_lock w)).2
  /\ w_asked (on_lock env cfg f w).2 = Datatypes.S (w_asked w).
Proof.
  unfold on_lock, now_, ask. act_run. cbn [w_asked w_lock with_asked].
  destruct (f (clock env (w_asked w)) (w_lock w)) as [[b|[]] k]; try done.
  unfold lock_unavailable, a_bind. by destruct (audit_record _ _ _ _ _ _ _) as [[] ?].
Qed.

Lemma fail_counts key u d md w :
  let m := do! _ := _record_durable_login_failure env cfg key in
           do! _ := audit_record env cfg "login_failure" u d md in
           raise (UserPlatformAuthError INVALID_CREDENTIALS) : M AuthResult in
  (m w).1 = Err refused -> counted key w (m w).2.
Proof.
  intros m Hm. unfold m, _record_durable_login_failure in *. clear m.
  set (rec := on_lock env cfg _) in *.
  destruct (bind_refused (do! _ := rec in a_ret tt) _ w
    (polite_bind rec _ (polite_on_lock _) (fun a => proj1 (calm_ret tt))) Hm) as (a & Ha & E).
  rewrite E in Hm. rewrite E. clear E. set (w1 := snd _) in *.
  destruct (bind_refused _ _ w1 (proj1 (calm_audit _ _ _ _)) Hm) as (b & _ & E). rewrite E. clear E Hm.
  change (counted key w (audit_record env cfg "login_failure" u d md w1).2).
  destruct (proj2 (calm_audit "login_failure" u d md) w1) as [E1 E2].
  unfold a_bind in Ha. destruct (rec w) as [[x|x] w2] eqn:Er; [| done].
  assert (w_lock (rec w).2 = (Facade.record_failure (login_lock cfg) key (clock env (w_asked w)) (w_lock w)).2
          /\ w_asked (rec w).2 = Datatypes.S (w_asked w)) as [E3 E4] by (apply (on_lock_ok _ w x); fold rec; by rewrite Er).
  rewrite Er in E3, E4. cbn in E3, E4.
  assert (w1 = w2) as Ew by (unfold w1, a_bind; by rewrite Er). rewrite Ew in *.
  exists (w_asked w). rewrite E1, E3. split; [lia | done].
Qed.

(** A refused login looked at the lock, found it open, and counted a failure. *)
Definition open_and_counted (key : string) (w0 w : W) : Prop :=
  exists n1 n, (w_asked w0 <= n1)%nat /\ (n1 <= n)%nat /\ (n < w_asked w)%nat
    /\ Facade.is_locked key (clock env n1) (w_lock w0) = Ok false
    /\ w_lock w = (Facade.record_failure (login_lock cfg) key (clock env n) (w_lock w0)).2.

(** A relation that does not see calm steps before it. *)
Definition early (P : W -> W -> Prop) : Prop :=
  forall w0 w1 w2, w_lock w1 = w_lock w0 -> (w_asked w0 <= w_asked w1)%nat -> P w1 w2 -> P w0 w2.

Lemma early_counted key : early (counted key).
Proof. intros w0 w1 w2 Hl Ha (n & Hn & E). exists n. split; [lia |]. by rewrite E, Hl. Qed.
Lemma early_open key : early (open_and_counted key).
Proof. intros w0 w1 w2 Hl Ha (n1 & n & ?). exists n1, n. rewrite <- Hl. intuition lia. Qed.

Lemma calm_step (P : W -> W -> Prop) {A} (m : M A) (k : A -> M AuthResult) w0 :
  early P -> calm m ->
  (forall a w1, w_lock w1 = w_lock w0 -> (w_asked w0 <= w_asked w1)%nat -> (m w0).1 = Ok a ->
     (k a w1).1 = Err refused -> P w1 (k a w1).2) ->
  (a_bind m k w0).1 = Err refused -> P w0 (a_bind m k w0).2.
Proof.
  intros HP [Hp Hu] Hk Hr. destruct (bind_refused m k w0 Hp Hr) as (a & Ha & E). rewrite E in *.
  destruct (Hu w0) as [H1 H2]. by eapply HP, Hk.
Qed.

Lemma refused_counts e p rem ag ip key w :
  opaque_subject_key lib (app_settings cfg) "login" (norm_email e) = Some key ->
  (login lib env cfg e p rem ag ip w).1 = Err refused ->
  open_and_counted key w (login lib env cfg e p rem ag ip w).2.
Proof.
  intros Hkey. unfold login. cbv zeta.
  pose proof (fun A => @calm_step (open_and_counted key) A) as Hopen.
  pose proof (fun A => @calm_step (counted key) A) as Hcount.
  specialize (fun A m k w0 => Hopen A m k w0 (early_open key)) as Hstep.
  apply Hstep; [by apply calm_guard |]. intros _ w1 _ _ _.
  apply Hstep.
  { apply calm_lift. unfold _normalize_email. by destruct (_ || _). }
  intros c w2 _ _ Ec. assert (c = norm_email e) as ->.
  { cbn in Ec. destruct (_normalize_email e) as [c'|] eqn:Ee; [| done]. cbn in Ec. injection Ec as ->.
    by destruct (normalized_email e c Ee). }
  unfold _abuse_key. rewrite Hkey. apply Hstep; [apply calm_ret |]. intros k w3 _ _ [= <-].
  intros Hr. destruct (bind_refused _ _ w3 (proj1 (calm_reject key)) Hr) as ([] & Ha & E).
  destruct (proj2 (calm_reject key) w3) as [E3 E4]. rewrite E in *. set (w4 := snd _) in *.
  assert (Facade.is_locked key (clock env (w_asked w3)) (w_lock w3) = Ok false) as Hfree.
  { destruct (Facade.is_locked key (clock env (w_asked w3)) (w_lock w3)) as [[]|x] eqn:El; [| done |];
      destruct (Credentials.reject_locked env cfg key w3) as (y & w' & Ey & _);
        (congruence || by rewrite Ey in Ha). }
  lazymatch goal with |- open_and_counted _ _ ?wl => cut (counted key w4 wl) end.
  { intros (n & Hn & Hl). exists (w_asked w3), n. rewrite Hl, E3. split; [lia |]. split; [lia |]. split; [lia |]. done. }
  revert Hr. clear Hstep. specialize (fun A m k0 w0 => Hcount A m k0 w0 (early_counted key)) as Hstep.
  apply Hstep; [apply calm_rate_check |]. intros allowed w5 _ _ _.
  destruct allowed; cbn [negb].
  2: { intros H. exfalso. revert H. apply polite_bind; [apply calm_audit |]. by intros ? ?. }
  apply Hstep; [apply calm_store |]. intros found w6 _ _ _.
  destruct found as [u|]; [| by apply fail_counts]. destruct (u_active u); cbn [negb]; [| by apply fail_counts].
  apply Hstep.
  { apply calm_lift. by destruct (Hasher.verify _ _ _). }
  intros ok w7 _ _ _. destruct ok; cbn [negb]; [| by apply fail_counts].
  intros H. exfalso. revert H. cbn [mfa_is_enabled]. apply polite_bind; [apply polite_on_lock |]. intros ?.
  apply polite_bind; [apply calm_rate_reset |]. intros ?. apply polite_bind; [apply calm_audit |]. intros ?.
  apply polite_issue_session.
Qed.

(** *** Everything else leaves the lock *)

Lemma unlocked_attempt {A} (m : M A) : unlocked m -> unlocked (attempt m).
Proof. intros H w. unfold attempt. specialize (H w). by destruct (m w). Qed.

Ltac still :=
  repeat lazymatch goal with
  | |- unlocked (a_bind _ _) => apply unlocked_bind; [| intros ?]
  | |- unlocked (ask _) => apply calm_ask
  | |- unlocked (on_store _) => apply calm_store
  | |- unlocked (now_ _) => apply calm_ask
  | |- unlocked (audit_record _ _ _ _ _ _) => apply calm_audit
  | |- unlocked (rate_check _ _ _) => apply calm_rate_check
  | |- unlocked (_abuse_key _ _ _ _) => apply calm_abuse_key
  | |- unlocked (match ?x with _ => _ end) => destruct x
  | |- unlocked (attempt _) => apply unlocked_attempt
  | |- unlocked _ => solve [by apply unlocked_still | eauto]
  end.

Lemma unlocked_send m : unlocked (send_email env m : M bool).
Proof. unfold send_email. still. Qed.
Lemma unlocked_limited a m d t u md : unlocked (limited lib env cfg a m d t u md : M unit).
Proof. unfold limited. still. Qed.
Lemma unlocked_issue u r a i : unlocked (_issue_session lib env cfg u r a i : M _).
Proof. unfold _issue_session. still. Qed.
Hint Resolve unlocked_send unlocked_limited unlocked_issue : core.
Lemma unlocked_reset u : unlocked (_create_password_reset lib env cfg u : M _).
Proof. unfold _create_password_reset. still. Qed.
Lemma unlocked_verification u : unlocked (_issue_email_verification lib env cfg u : M _).
Proof. unfold _issue_email_verification. still. Qed.
Lemma unlocked_change u e : unlocked (_create_email_change lib env cfg u e : M _).
Proof. unfold _create_email_change. still. Qed.
Lemma unlocked_accept u p s a : unlocked (accept_published_policy lib env cfg u p s a : M _).
Proof. unfold accept_published_policy. still. Qed.
Lemma unlocked_validate t b : unlocked (validate_session lib env cfg t b : M _).
Proof. unfold validate_session, validate_read, validate_write, invalid, _require_enabled. cbv zeta. still. Qed.
Hint Resolve unlocked_reset unlocked_verification unlocked_change unlocked_accept unlocked_validate : core.
Lemma unlocked_current t : unlocked (current_user lib env cfg t : M _).
Proof. unfold current_user. still. Qed.
Lemma unlocked_usable {T} {token : TokenRecord T} (expires : T -> datetime) x now m :
  unlocked (usable_token expires x now m : M T).
Proof. unfold usable_token. still. Qed.
Lemma unlocked_active i m : unlocked (active_user i m : M User).
Proof. unfold active_user. still. Qed.
Lemma unlocked_hash p : unlocked (hash_password lib env cfg p : M string).
Proof. unfold hash_password. still. Qed.
Lemma unlocked_bootstrap u : unlocked (_bootstrap_profile env u : M _).
Proof. unfold _bootstrap_profile. cbv zeta. still. Qed.
Lemma unlocked_persist u a b : unlocked (_persist_registration_consents lib env cfg u a b : M _).
Proof. unfold _persist_registration_consents. still. Qed.
Lemma unlocked_closed {A} (m : M A) : unlocked m -> unlocked (fail_closed m).
Proof. intros H. unfold fail_closed. still. Qed.
Hint Resolve unlocked_current unlocked_usable unlocked_active unlocked_hash unlocked_bootstrap unlocked_persist : core.

Definition is_login (q : Requests.request) : bool := match q with Requests.Login _ _ _ _ _ => true | _ => false end.

(** Only logins touch the lock. *)
Lemma unlocked_serve q : is_login q = false -> unlocked (Requests.serve lib env cfg q : M unit).
Proof.
  intros Hq. destruct q; try done; cbn [Requests.serve]; unfold Requests.answered, register, logout,
    request_password_reset, confirm_password_reset, request_email_verification, request_email_verification_by_email,
    confirm_email_verification, request_email_change, confirm_email_change, has_accepted, begin_oauth_link,
    _require_enabled, _require_registration_consents, _latest_unconsumed_email_change, _send_email_changed_notice,
    save_new_identity; cbv zeta; still.
  all: try (apply unlocked_closed; still).
Qed.

(** *** Lock identities *)

(** The keyed digests of the library are 32 bytes long, as SHA-256's are. *)
Definition digests_fit : Prop := forall k m, length (chars (hmac_sha256 lib k m)) = 32%nat.

Lemma hex_chars_clean l :
  length (Hex.hex_chars l) = (2 * length l)%nat
  /\ existsb (fun c => isspace c || Ascii.eqb "@" c || Ascii.eqb nul_char c) (Hex.hex_chars l) = false.
Proof.
  induction l as [|c l [IH1 IH2]]; [done |]. unfold Hex.hex_chars in *. cbn [flat_map]. cbv zeta.
  rewrite length_app, existsb_app, IH1, IH2, orb_false_r. cbn [length].
  split; [lia |]. by destruct c as [[] [] [] [] [] [] [] []].
Qed.

Lemma any_char_app f a b : any_char f (a +:+ b) = any_char f a || any_char f b.
Proof. unfold any_char. by rewrite chars_app, existsb_app. Qed.

Lemma len_chars s : len s = Z.of_nat (length (chars s)).
Proof. unfold len, chars. induction s as [|c s IH]; [done |]. cbn. lia. Qed.

Lemma login_identity_valid m key :
  digests_fit -> opaque_subject_key lib (app_settings cfg) "login" m = Some key -> valid_identity key.
Proof.
  intros Hd. unfold opaque_subject_key. destruct (signing_secret _) as [sk|]; [| done]. intros [= <-].
  set (h := hmac_sha256 _ _ _). destruct (hex_chars_clean (chars h)) as [Hlen Hclean].
  assert (length (chars h) = 32%nat) as Hh by apply Hd. rewrite Hh in Hlen.
  change ("login" ++ ":" ++ Hex.hex h)%string with ("login:" +:+ Hex.hex h).
  assert (forall f, any_char f "login:" = false ->
    (forall c, f c = true -> isspace c || Ascii.eqb "@" c || Ascii.eqb nul_char c = true) ->
    any_char f ("login:" +:+ Hex.hex h) = false) as Hno.
  { intros f Hl Hf. rewrite any_char_app, Hl. apply not_true_is_false.
    unfold any_char, Hex.hex. rewrite chars_of_chars. intros (c & Hin & Hc)%existsb_exists.
    apply Hf in Hc. apply (eq_true_false_abs _ (proj2 (existsb_exists _ _) (ex_intro _ c (conj Hin Hc))) Hclean). }
  unfold valid_identity, require_opaque_login_identity, has_char.
  rewrite len_chars, chars_app, length_app. unfold Hex.hex at 1 2. rewrite chars_of_chars, Hlen.
  rewrite !Hno; try done.
  - intros c ->. done.
  - intros c ->. by rewrite orb_true_r.
  - intros c ->. by rewrite orb_true_r.
Qed.

(** *** A run of guesses *)

Local Abbreviation history := (Requests.history (S := S) (L := L) (K := K) lib env cfg).
Local Abbreviation served := (Requests.served (S := S) (L := L) (K := K) lib env cfg).

Section Run.
Variable key : string.
Hypothesis Hdigests : digests_fit.
Hypothesis Hlk : Facade.lock_ok (login_lock cfg).
Hypothesis Hkey : valid_identity key.

(** A login that the lock counts under [key]. *)
Definition aimed (q : Requests.request) : bool :=
  match q with
  | Requests.Login e _ _ _ _ =>
      bool_decide (opaque_subject_key lib (app_settings cfg) "login" (norm_email e) = Some key)
  | _ => false
  end.

(** Every login of the run that counts under [key] is refused as a wrong
    guess; the other requests of the run, logins for other addresses
    included, end as they may. *)
Fixpoint guesses_refused (qs : list Requests.request) (w : W) : Prop :=
  match qs with
  | [] => True
  | q :: rest =>
      (aimed q = true -> (Requests.serve lib env cfg q w).1 = Err refused)
      /\ guesses_refused rest (served q w)
  end.

(** The clock's answers from [lo] to [hi] do not go back and are one window of
    the lock policy. *)
Definition one_window (lo hi : nat) : Prop :=
  forall n m, (lo <= n)%nat -> (n <= m)%nat -> (m <= hi)%nat ->
    Facade.attempt_ok (login_lock cfg) (clock env n)
    /\ epoch_ms (clock env n) <= epoch_ms (clock env m)
    /\ epoch_ms (clock env m) < epoch_ms (clock env n) + Facade.lock_retention_seconds (login_lock cfg) * 1000
    /\ epoch_ms (clock env m) < epoch_ms (clock env n) + Facade.lock_duration_seconds (login_lock cfg) * 1000.

Variables lo hi : nat.
Hypothesis Hwin : one_window lo hi.

(** A row written at question [m] of the run. *)
Definition written_at (m : nat) (r : lock_row) : Prop :=
  match row_locked r with
  | None => row_count r < Facade.lock_threshold (login_lock cfg) /\ row_last r = epoch_ms (clock env m)
  | Some l => l = epoch_ms (clock env m) + Facade.lock_duration_seconds (login_lock cfg) * 1000
  end.

(** What [k] refusals since question [lo] have left of the row of [key]. *)
Definition tally (k hi' : nat) (cur : option lock_row) : Prop :=
  match cur with
  | None => k = O
  | Some r => Z.of_nat k <= row_count r
              /\ (k = O \/ exists m, (lo <= m)%nat /\ (m < hi')%nat /\ written_at m r)
  end.
Definition tallied (k : nat) (w : W) : Prop :=
  store_wf (w_lock w) /\ tally k (w_asked w) (store_view (w_lock w) key).

Lemma tally_later k n n' cur : (n <= n')%nat -> tally k n cur -> tally k n' cur.
Proof.
  intros Hn. destruct cur as [r|]; [| done]. intros [Hc [Hk | (m & Hm)]]; split; auto.
  right. exists m. intuition lia.
Qed.

(** [m] moves on in the questions and keeps the tally. *)
Definition keeps {A} (m : M A) : Prop :=
  forall w, (w_asked w <= w_asked (m w).2)%nat
    /\ ((lo <= w_asked w)%nat -> (w_asked (m w).2 <= hi)%nat -> forall k, tallied k w -> tallied k (m w).2).

Lemma keeps_unlocked {A} (m : M A) : unlocked m -> keeps m.
Proof.
  intros Hm w. destruct (Hm w) as [E Ha]. split; [done |]. intros _ _ k (Hwf & Hk).
  split; [by rewrite E |]. rewrite E. by eapply tally_later.
Qed.

Lemma keeps_bind {A B} (m : M A) (k : A -> M B) : keeps m -> (forall a, keeps (k a)) -> keeps (a_bind m k).
Proof.
  intros Hm Hk w. unfold a_bind. destruct (Hm w) as [H1 H2].
  destruct (m w) as [[a|x] w1]; cbn in *; [| by split]. destruct (Hk a w1) as [H3 H4].
  split; [lia |]. intros Hl Hh c Hc. apply H4; [lia | lia |]. apply H2; [lia | lia | done].
Qed.

(** The row of [key] outlives the purge of another identity's operation. *)
Lemma written_active n m r :
  (lo <= m)%nat -> (m <= n)%nat -> (n <= hi)%nat -> written_at m r ->
  row_active (epoch_ms (clock env n))
    (epoch_ms (clock env n) - Facade.lock_retention_seconds (login_lock cfg) * 1000) r = true.
Proof.
  intros Hlo Hmn Hhi. destruct (Hwin m n Hlo Hmn Hhi) as (_ & _ & Hret & Hdur).
  unfold written_at, row_active. destruct (row_locked r) as [l|]; [intros -> | intros [_ ->]]; apply Z.ltb_lt; lia.
Qed.

(** An operation of the lock on another identity. *)
Definition elsewhere {A} (f : datetime -> K -> result lock_exn A * K) : Prop :=
  forall n st, Facade.attempt_ok (login_lock cfg) (clock env n) -> store_wf st ->
    store_wf (f (clock env n) st).2
    /\ store_view (f (clock env n) st).2 key
       = reap (epoch_ms (clock env n))
           (epoch_ms (clock env n) - Facade.lock_retention_seconds (login_lock cfg) * 1000)
           (store_view st key).

Lemma keeps_on_lock {A} (f : datetime -> K -> result lock_exn A * K) : elsewhere f -> keeps (on_lock env cfg f).
Proof.
  intros Hf w. set (n := w_asked w). set (out := f (clock env n) (w_lock w)).
  set (w1 := with_lock out.2 (with_asked (Datatypes.S n) w)).
  set (tail := match out.1 with
               | Ok a => a_ret a
               | Err FailedLoginLockUnavailable => lock_unavailable env cfg
               | Err e => a_err (LockFailed e)
               end : M A).
  assert (on_lock env cfg f w = tail w1) as ->.
  { unfold on_lock, now_, ask. act_run. cbn [w_asked w_lock with_asked]. fold n. fold out.
    unfold tail, w1. by destruct out. }
  assert (unlocked tail) as Hu.
  { unfold tail. destruct out.1 as [a|[]]; [apply calm_ret | | by apply calm_err].
    unfold lock_unavailable. apply unlocked_bind; [apply calm_audit |]. intros _. by apply calm_err. }
  destruct (keeps_unlocked tail Hu w1) as [H1 H2]. change (w_asked w1) with (Datatypes.S n) in H1, H2.
  split; [change (w_asked w) with n; lia |]. intros Hl Hh k (Hwf & Hk). apply H2; [unfold n; lia | done |].
  destruct (Hwin n n) as (Hat & _); [exact Hl | lia | unfold n; lia |].
  destruct (Hf n (w_lock w) Hat Hwf) as [Hwf' Hview]. split; [exact Hwf' |].
  change (w_lock w1) with out.2. unfold out. rewrite Hview.
  apply (tally_later k n); [change (w_asked w1) with (Datatypes.S n); lia |].
  unfold tally in *. destruct (store_view (w_lock w) key) as [r|]; [| done]. cbn [reap].
  destruct Hk as [Hc [-> | (m & H3 & H4 & H5)]].
  - destruct (row_active _ _ r); [split; [done | by left] | done].
  - rewrite (written_active n m r) by (done || unfold n; lia). split; [done |]. right. by exists m.
Qed.

Section Other.
Variable other : string.
Hypothesis Hother : valid_identity other.
Hypothesis Hne : key <> other.

Lemma elsewhere_record : elsewhere (fun now st => Facade.record_failure (login_lock cfg) other now st).
Proof.
  intros n st Hat Hwf.
  destruct (Facade.record_failure_step (login_lock cfg) Hlk other (clock env n) st Hother Hwf Hat)
    as (s & st' & -> & Hwf' & _ & _ & Hv). split; [done | by apply Hv].
Qed.

Lemma elsewhere_clear : elsewhere (fun now st => Facade.clear (login_lock cfg) other (Some now) st).
Proof.
  intros n st (Hn & _ & _ & Hret) Hwf.
  destruct (store_clear_spec other st (clock env n) _ Hother Hwf Hn Hret) as (st' & Hc & Hwf' & _ & Hv).
  unfold Facade.clear. rewrite Hc. split; [done | by apply Hv].
Qed.
End Other.

Ltac keep :=
  repeat lazymatch goal with
  | |- keeps (a_bind _ _) => apply keeps_bind; [| intros ?]
  | |- keeps (if ?c then _ else _) => destruct c
  | |- keeps (match ?x with _ => _ end) => destruct x
  | |- keeps (on_lock _ _ _) => apply keeps_on_lock
  | |- keeps _ => apply keeps_unlocked; still
  end.

Lemma keeps_err {A} x : keeps (a_err x : M A).
Proof. apply keeps_unlocked. by apply unlocked_still. Qed.

Lemma keeps_ok {A B} (a : A) (k : A -> M B) : keeps (k a) -> keeps (a_bind (a_lift (Ok a)) k).
Proof. exact id. Qed.

(** A login that counts elsewhere. *)
Lemma keeps_login e p rem ag ip :
  opaque_subject_key lib (app_settings cfg) "login" (norm_email e) <> Some key ->
  keeps (login lib env cfg e p rem ag ip).
Proof.
  intros Hne. unfold login. cbv zeta. apply keeps_bind; [apply keeps_unlocked; still |]. intros _.
  unfold checked. destruct (_normalize_email e) as [c|x] eqn:Ec; [| exact (keeps_err (Platform _))].
  destruct (normalized_email e c Ec) as (-> & _). apply keeps_ok. unfold _abuse_key.
  destruct (opaque_subject_key _ _ _ _) as [other|] eqn:Eo; [| exact (keeps_err (RateFailed _))].
  assert (key <> other) as Hother by congruence.
  pose proof (login_identity_valid _ _ Hdigests Eo) as Hvalid.
  pose proof (elsewhere_record other Hvalid Hother) as Hrecord.
  pose proof (elsewhere_clear other Hvalid Hother) as Hclear.
  apply keeps_ok, keeps_bind; [apply keeps_unlocked, calm_reject |]. intros _.
  unfold _record_durable_login_failure, _clear_durable_login_failure. keep.
  all: solve [apply Hrecord | apply Hclear | apply calm_rate_reset].
Qed.

Lemma keeps_serve q : aimed q = false -> keeps (Requests.serve lib env cfg q).
Proof.
  intros Hq. destruct (is_login q) eqn:El; [| by apply keeps_unlocked, unlocked_serve].
  destruct q as [| e p rem ag ip | | | | | | | | | | | | |]; try done. cbn [Requests.serve]. unfold Requests.answered.
  apply keeps_bind; [| intros ?; apply keeps_unlocked, calm_ret].
  apply keeps_login. cbn [aimed] in Hq. by apply bool_decide_eq_false in Hq.
Qed.

(** A refusal adds one to the tally: the lock was open when the login looked,
    so no earlier refusal had closed it. *)
Lemma next_tally k n1 n cur :
  (lo <= n1)%nat -> (n1 <= n)%nat -> (n <= hi)%nat -> Facade.row_is_locked (clock env n1) cur = false ->
  tally k n1 cur ->
  tally (Datatypes.S k) (Datatypes.S n)
    (Some (next_row (epoch_ms (clock env n)) (Facade.lock_threshold (login_lock cfg))
             (epoch_ms (clock env n) + Facade.lock_duration_seconds (login_lock cfg) * 1000)
             (epoch_ms (clock env n) - Facade.lock_retention_seconds (login_lock cfg) * 1000) cur)).
Proof.
  intros H1 H2 H3 Hopen Hk. destruct (Hwin n1 n) as (_ & Hmono & _ & _); [lia | lia | lia |].
  set (lu := _ + _). set (cutoff := _ - _). set (th := Facade.lock_threshold _).
  assert (forall r', Z.of_nat (Datatypes.S k) <= row_count r' -> written_at n r' ->
            tally (Datatypes.S k) (Datatypes.S n) (Some r')) as Hnew.
  { intros r' Hc Hw. split; [done |]. right. exists n. split; [lia | split; [lia | done]]. }
  assert (k = O -> tally (Datatypes.S k) (Datatypes.S n) (Some (fresh_row (epoch_ms (clock env n)) th lu))) as Hfresh.
  { intros ->. apply Hnew; [done |]. unfold written_at. cbn. fold th.
    destruct (Z.leb_spec th 1); [done |]. by split. }
  destruct cur as [r|]; cbn [next_row]; [| by apply Hfresh]. destruct Hk as [Hc Hk].
  destruct (row_active (epoch_ms (clock env n)) cutoff r) eqn:Ea.
  - assert (row_locked r = None) as El.
    { unfold row_active in Ea. cbn in Hopen. destruct (row_locked r) as [l|]; [| done].
      apply Z.ltb_lt in Ea. apply Z.ltb_ge in Hopen. lia. }
    apply Hnew; unfold bump_row; cbn [row_count]; [lia |]. unfold written_at. cbn. rewrite El. fold th.
    destruct (Z.leb_spec th (row_count r + 1)); [done |]. by split.
  - apply Hfresh. destruct Hk as [Hk | (m & Hm1 & Hm2 & Hw)]; [done |]. exfalso.
    assert (row_active (epoch_ms (clock env n)) cutoff r = true) by (apply (written_active n m r); done || lia).
    congruence.
Qed.

Lemma refusal_tallied k w w' :
  (lo <= w_asked w)%nat -> (w_asked w' <= hi)%nat -> tallied k w -> open_and_counted key w w' ->
  tallied (Datatypes.S k) w' /\ (w_asked w <= w_asked w')%nat.
Proof.
  intros Hlo Hhi (Hwf & Hk) (n1 & n & H1 & H2 & H3 & Hopen & Hlock). split; [| lia].
  destruct (Hwin n n) as (Hat & _); [lia | lia | lia |].
  rewrite Facade.is_locked_view in Hopen by done. injection Hopen as Hopen.
  destruct (Facade.record_failure_step (login_lock cfg) Hlk key (clock env n) (w_lock w) Hkey Hwf Hat)
    as (s & st' & Er & Hwf' & Hview & Hrow & _).
  rewrite Er in Hlock. cbn [snd] in Hlock. rewrite <- Hlock in Hwf', Hview.
  split; [exact Hwf' |]. rewrite Hview, Hrow. apply (tally_later _ (Datatypes.S n)); [lia |].
  apply (next_tally k n1); [lia | lia | lia | done |]. by eapply tally_later; [| exact Hk].
Qed.

Lemma aimed_refused q w :
  aimed q = true -> (Requests.serve lib env cfg q w).1 = Err refused -> open_and_counted key w (served q w).
Proof.
  destruct q as [| e p rem ag ip | | | | | | | | | | | | |]; try done. cbn [aimed]. intros Ek%bool_decide_eq_true.
  unfold Requests.served. cbn [Requests.serve]. unfold Requests.answered, a_bind.
  pose proof (refused_counts e p rem ag ip key w Ek) as H.
  destruct (login lib env cfg e p rem ag ip w) as [[a|x] w1]; [done |]. intros [= ->]. by apply H.
Qed.

Lemma step_asked q w :
  (aimed q = true -> (Requests.serve lib env cfg q w).1 = Err refused) ->
  (w_asked w <= w_asked (served q w))%nat.
Proof.
  intros Hq. destruct (aimed q) eqn:Ea.
  - destruct (aimed_refused q w Ea (Hq eq_refl)) as (n1 & n & H1 & H2 & H3 & _). lia.
  - apply (keeps_serve q Ea w).
Qed.

Lemma run_asked qs w : guesses_refused qs w -> (w_asked w <= w_asked (history qs w))%nat.
Proof.
  revert w. induction qs as [|q qs IH]; intros w Hqs; [done |]. destruct Hqs as [Hq Hrest].
  change (history (q :: qs) w) with (history qs (served q w)).
  etransitivity; [by apply step_asked | by apply IH].
Qed.

Lemma run_tallied qs k w :
  (lo <= w_asked w)%nat -> (w_asked (history qs w) <= hi)%nat -> guesses_refused qs w -> tallied k w ->
  tallied (k + length (List.filter aimed qs)) (history qs w).
Proof.
  revert k w. induction qs as [|q qs IH]; intros k w Hlo Hhi Hqs Hk; [by rewrite Nat.add_0_r |].
  destruct Hqs as [Hq Hrest]. pose proof (step_asked q w Hq) as Hask. pose proof (run_asked qs _ Hrest) as Hask'.
  change (history (q :: qs) w) with (history qs (served q w)) in *. cbn [List.filter].
  destruct (aimed q) eqn:Ea.
  - cbn [length]. rewrite Nat.add_succ_r, <- Nat.add_succ_l. apply IH; [lia | done | done |].
    apply (refusal_tallied k w); [done | lia | done | by apply aimed_refused, Hq].
  - apply IH; [lia | done | done |]. apply (keeps_serve q Ea w); [done | | done].
    change (w_asked (served q w) <= hi)%nat. lia.
Qed.
End Run.

(** C11: guessing locks the address. When as many logins for an address as the
    lock policy's threshold are refused as wrong guesses - with any passwords,
    whether or not the account exists, with any other requests in between,
    logins for other addresses that succeed or fail included, from any state of
    the lock and within one window of the policy, on a clock that does not go
    back -, then the next login for the address is refused whatever password it
    brings, the right one included, with an answer that does not depend on it.
    The lock knows an address by the keyed digest [key]: the logins that count
    are those with that digest. *)
Theorem guesses_lock_the_address e key qs (w : W) :
  digests_fit -> Facade.lock_ok (login_lock cfg) ->
  opaque_subject_key lib (app_settings cfg) "login" (norm_email e) = Some key ->
  store_wf (w_lock w) -> (forall r, store_view (w_lock w) key = Some r -> 0 <= row_count r) ->
  guesses_refused key qs w ->
  Facade.lock_threshold (login_lock cfg) <= Z.of_nat (length (List.filter (aimed key) qs)) ->
  let w' := history qs w in
  one_window (w_asked w) (w_asked w') ->
  exists out, is_ok out.1 = false /\ forall p rem ag ip, login lib env cfg e p rem ag ip w' = out.
Proof.
  intros Hd Hlk Hkey Hwf Hcount Hqs Hlen w' Hwin.
  pose proof (login_identity_valid _ _ Hd Hkey) as Hid.
  pose proof (run_asked key Hd Hlk _ _ Hwin qs w Hqs) as Hask. fold w' in Hask.
  destruct (run_tallied key Hd Hlk Hid _ _ Hwin qs O w) as [Hwf' Ht]; [done | done | done | |].
  { split; [done |]. destruct (store_view (w_lock w) key) as [r|] eqn:Er; cbn; [| done].
    split; [by apply Hcount | by left]. }
  fold w' in Hwf', Ht. cbn [Nat.add] in Ht. set (k := length _) in *.
  assert (Facade.is_locked key (clock env (w_asked w')) (w_lock w') <> Ok false) as Hl.
  { rewrite Facade.is_locked_view by done. unfold Facade.lock_ok in Hlk.
    destruct (store_view (w_lock w') key) as [r|]; [| cbn in Ht; lia].
    destruct Ht as [Hc [Hk | (m & H1 & H2 & Hw)]]; [lia |]. unfold written_at in Hw. cbn.
    destruct (row_locked r) as [l|]; [subst l | lia].
    destruct (Hwin m (w_asked w')) as (_ & _ & _ & Hdur); [lia | lia | lia |].
    by rewrite (proj2 (Z.ltb_lt _ _)) by exact Hdur. }
  destruct (Credentials.locked_outcome lib env cfg e key w' Hkey Hl) as (out & H1 & _ & _ & H4). by exists out.
Qed.
End Guessing.
End Guessing.
