(* ===== verification/Privacy.v ===== *)
(** Account deletion: [AccountLifecycleService.delete_account] of
    [app/privacy/lifecycle.py] and the facade of
    [app/services/user_platform_service.py] in front of it.

    Module [Lifecycle]: the methods. Module [Deletion]: what they leave. *)

From S2P Require Import Prelude PyStr Json Clock PyState OpStore RateLimit LoginLock Users Password Identity Auth AuthRules AuthOutcomes.
#[local] Open Scope Z_scope.
#[local] Open Scope py_scope.
Import Entities Rows Store Settings Messages Legal Checks LockInterface World Auth.

(** ** The methods *)
Module Lifecycle.

Definition ACCOUNT_DELETE_CONFIRMATION : string := "DELETE".

Record DeletionResult := {
  dr_status : string; dr_user : string; sessions_revoked : Z; sessions_deleted : Z;
  watchlists_deleted : Z; notification_preferences_removed : bool; consent_records_deleted : Z
}.

(** [AccountLifecycleService.__init__]: the repositories that it may lack and
    the service does not have. *)
Record lifecycle := { has_watchlists : bool; has_notification_center : bool }.

Section Lifecycle.
Context {S L K : Type} {accounts : AccountStore S} {limits : RateLimitStore L}
  {locks : FailedLoginLockStore K} (lib : library) (env : environment) (cfg : config) (lc : lifecycle).
Local Abbreviation M := (act (world S L K) auth_exn).

(** [for watchlist in owned: if delete_watchlist(...): watchlists_deleted += 1]. *)
Fixpoint delete_watchlists (ids : list string) (n : Z) : M Z :=
  match ids with
  | [] => a_ret n
  | i :: rest =>
      do! gone := on_store (watchlists_delete i) in
      delete_watchlists rest (if gone : bool then n + 1 else n)
  end.

(** [if repository is not None: ...]. *)
Definition optional {A} (present : bool) (m : M A) (absent : A) : M A := if present then m else a_ret absent.

Definition delete_account (user : User) (confirmation : string) : M DeletionResult :=
  refuse! Platform (UserPlatformValidationError "Account deletion requires confirmation='DELETE'.")
    when negb (String.eqb confirmation ACCOUNT_DELETE_CONFIRMATION) in
  let u := u_id user in
  do! existing := on_store (users_get_by_id u) in
  refuse! Platform (UserPlatformAuthError "Account is not available.") when negb (is_some existing) in
  do! revoked := on_store (sessions_revoke_all_for_user u) in
  do! deleted := on_store (sessions_delete_all_for_user u) in
  do! _ := on_store (profiles_delete_for_user u) in
  do! _ := on_store (saved_delete_all_for_user u) in
  do! _ := optional (has_password_resets cfg) (on_store (token_delete_for_user (T := PasswordResetRequest) u)) 0 in
  do! _ := optional (has_email_verifications cfg) (on_store (token_delete_for_user (T := EmailVerificationRequest) u)) 0 in
  do! _ := optional (has_email_changes cfg) (on_store (token_delete_for_user (T := EmailChangeRequest) u)) 0 in
  do! consents := optional (has_consents cfg) (on_store (consents_delete_for_user u)) 0 in
  do! watchlists := optional (has_watchlists lc)
    (do! owned := on_store (watchlists_of u) in delete_watchlists owned 0) 0 in
  do! notification := optional (has_notification_center lc) (on_store (center_delete_preferences u)) false in
  do! _ := on_store (users_delete u) in
  do! _ := audit_record env cfg "account_deleted" (Some u) "consumer_account_deleted"
             [("sessions_revoked", JInt revoked)]%string in
  a_ret {| dr_status := "deleted"; dr_user := u; sessions_revoked := revoked; sessions_deleted := deleted;
           watchlists_deleted := watchlists; notification_preferences_removed := notification;
           consent_records_deleted := consents |}.

(** [UserPlatformService.delete_account], with a lifecycle service. *)
Definition platform_delete_account (platform_enabled : bool) (token : option string)
    (confirmation password : string) : M DeletionResult :=
  refuse! Platform (UserPlatformValidationError "User platform is disabled.") when negb platform_enabled in
  do! user := current_user lib env cfg token in
  do! ok := verify_password lib user password in
  refuse! Platform (UserPlatformAuthError "Invalid credentials.") when negb ok in
  do! _ := audit_record env cfg "account_deletion_requested" (Some (u_id user)) "confirmed" [] in
  delete_account user confirmation.
End Lifecycle.
End Lifecycle.
Import Lifecycle.

(** ** What a deletion leaves *)
Module Deletion.
Import Outcome.

(** Everything of [u] is gone, and nothing else. *)
Definition erased (u : string) (r : rows) : rows :=
  {| r_users := delete u (r_users r);
     r_sessions := without se_user u (r_sessions r);
     r_resets := without tok_user u (r_resets r);
     r_verifications := without tok_user u (r_verifications r);
     r_changes := without tok_user u (r_changes r);
     r_consents := without pa_user u (r_consents r);
     r_profile := delete_profile_rows u (r_profile r);
     r_saved := delete_saved_rows u (r_saved r);
     r_watchlists := filter (fun kv => kv.2 <> u) (r_watchlists r);
     r_center := r_center r ∖ {[u]};
     r_audit := r_audit r |}.

Lemma without_revoked u m : without se_user u (revoke_sessions u m) = without se_user u m.
Proof.
  apply map_eq. intros i. rewrite !lookup_without. unfold revoke_sessions. rewrite lookup_fmap.
  destruct (m !! i) as [s|]; [| done]. cbn. destruct (String.eqb_spec (se_user s) u) as [E|E].
  - cbn. by rewrite E, String.eqb_refl.
  - by rewrite (proj2 (String.eqb_neq _ _) E).
Qed.

(** Deleting the listed watchlists one by one. *)
Definition drop_all (ids : list string) (m : gmap string string) : gmap string string :=
  fold_left (fun m i => delete i m) ids m.

Lemma lookup_drop_all ids m i : drop_all ids m !! i = if bool_decide (i ∈ ids) then None else m !! i.
Proof.
  revert m. induction ids as [|j ids IH]; intros m; [done |]. cbn. rewrite IH.
  destruct (decide (i = j)) as [-> | Hij].
  - rewrite lookup_delete_eq. rewrite (bool_decide_true (j ∈ j :: ids)) by (apply elem_of_cons; by left).
    by destruct (bool_decide _).
  - rewrite lookup_delete_ne by done. destruct (decide (i ∈ ids)) as [Hi | Hi].
    + by rewrite !bool_decide_true by (rewrite ?elem_of_cons; auto).
    + rewrite !bool_decide_false; [done | | done]. intros [-> | H]%elem_of_cons; done.
Qed.

Lemma drop_owned u ids m : (forall i, i ∈ ids <-> m !! i = Some u) -> drop_all ids m = filter (fun kv => kv.2 <> u) m.
Proof.
  intros H. apply map_eq. intros i. rewrite lookup_drop_all, map_lookup_filter.
  destruct (m !! i) as [v|] eqn:E; cbn.
  - destruct (decide (v = u)) as [-> | Hv].
    + rewrite bool_decide_true by (by apply H). by case_guard.
    + rewrite bool_decide_false by (intros Hi%H; congruence). by case_guard.
  - by destruct (bool_decide _).
Qed.

Section Deletion.
Context {S L K : Type} {accounts : AccountStore S} {laws : AccountLaws S}
  {reset_laws : TokenLaws S PasswordResetRequest} {verification_laws : TokenLaws S EmailVerificationRequest}
  {change_laws : TokenLaws S EmailChangeRequest}
  {limits : RateLimitStore L} {locks : FailedLoginLockStore K}
  (lib : library) (env : environment) (cfg : config) (lc : lifecycle).
Local Abbreviation W := (world S L K).
Local Abbreviation M := (act W auth_exn).

(** Every repository is there, as in [get_user_platform_service]. *)
Definition complete : Prop :=
  has_password_resets cfg = true /\ has_email_verifications cfg = true /\ has_email_changes cfg = true
  /\ has_consents cfg = true /\ has_watchlists lc = true /\ has_notification_center lc = true.

(** The account is the last thing to go. *)
Definition interrupted (u : string) (r0 r : rows) : Prop :=
  r_users r = r_users r0 \/ up (erased u r0) r.

Lemma up_users r1 r : up r1 r -> r_users r = r_users r1.
Proof. unfold up. by intros ->. Qed.

Lemma o_erase {A} (m : act S repo_exn A) post (f : rows -> rows) u r0 r1 :
  does m (fun _ => True) post -> (forall r a r', post r a r' -> r' = f r) ->
  (forall x r, f (with_audit x r) = with_audit x (f r)) -> (forall r, r_audit (f r) = r_audit r) ->
  r_users r1 = r_users r0 ->
  outcome 0 (up r1) (on_store m : M A) (fun _ => up (f r1)) (interrupted u r0).
Proof.
  intros Hm Hp Hf Ha Hu. eapply o_store; [exact Hm | done | | intros r Hr; left; by rewrite (up_users _ _ Hr)].
  intros a r r' Hr _ ->%Hp. unfold up in *. rewrite Ha. rewrite Hr at 1. by rewrite Hf.
Qed.

Lemma o_watchlists u ids n r0 r1 :
  r_users r1 = r_users r0 ->
  outcome 0 (up r1) (delete_watchlists ids n : M Z)
    (fun _ => up (with_watchlists (drop_all ids (r_watchlists r1)) r1)) (interrupted u r0).
Proof.
  revert n r1. induction ids as [|i ids IH]; intros n r1 Hu; cbn [delete_watchlists].
  - apply o_ret. intros r Hr. unfold up in *. rewrite Hr. by destruct r1.
  - eapply o_bind.
    + by apply (o_erase _ _ (fun r => with_watchlists (delete i (r_watchlists r)) r) u r0 r1 (law_watchlist_delete i)).
    + intros gone. cbv beta. by apply (IH _ (with_watchlists (delete i (r_watchlists r1)) r1)).
Qed.

(** [erase_next]: the next repository is emptied of the user's records. *)
Ltac erase_next l f :=
  lazymatch goal with |- Outcome.outcome _ (up ?r1) (a_bind _ _) _ (interrupted ?u ?r0) =>
    eapply o_bind; [by apply (o_erase _ _ f u r0 r1 l) |]; intros ?; cbv beta end.

Lemma o_delete user confirmation r0 :
  complete ->
  outcome 0 (up r0) (delete_account env cfg lc user confirmation : M _)
    (fun res r => (confirmation = ACCOUNT_DELETE_CONFIRMATION /\ is_Some (r_users r0 !! u_id user)
                   /\ dr_user res = u_id user) /\ up (erased (u_id user) r0) r)
    (interrupted (u_id user) r0).
Proof.
  intros (H1 & H2 & H3 & H4 & H5 & H6). unfold delete_account. cbv zeta. rewrite H1, H2, H3, H4, H5, H6.
  cbn [optional]. set (u := u_id user).
  assert (forall r, up r0 r -> interrupted u r0 r) as HE by (intros r Hr; left; by apply up_users).
  apply o_guard; [done |]. intros Hc%negb_false_iff%String.eqb_eq.
  eapply o_bind; [by apply (o_query _ (fun r a => a = r_users r !! u)); [apply law_user_by_id | |] |].
  intros existing. apply o_pure. intros [-> _]. apply o_guard; [done |]. intros Hex%negb_false_iff.
  assert (is_Some (r_users r0 !! u)) as Hsome by (destruct (r_users r0 !! u); [by eexists | done]).
  erase_next (law_session_revoke_all u) (fun r => with_sessions (revoke_sessions u (r_sessions r)) r).
  erase_next (law_session_delete_all u) (fun r => with_sessions (without se_user u (r_sessions r)) r).
  erase_next (law_profile_delete u) (fun r => with_profile (delete_profile_rows u (r_profile r)) r).
  erase_next (law_saved_delete u) (fun r => with_saved (delete_saved_rows u (r_saved r)) r).
  erase_next (law_token_delete (T := PasswordResetRequest) u)
    (fun r => with_resets (without (tok_user (T := PasswordResetRequest)) u (r_resets r)) r).
  erase_next (law_token_delete (T := EmailVerificationRequest) u)
    (fun r => with_verifications (without (tok_user (T := EmailVerificationRequest)) u (r_verifications r)) r).
  erase_next (law_token_delete (T := EmailChangeRequest) u)
    (fun r => with_changes (without (tok_user (T := EmailChangeRequest)) u (r_changes r)) r).
  erase_next (law_consent_delete u) (fun r => with_consents (without pa_user u (r_consents r)) r).
  set (r1 := with_consents _ _). assert (r_users r1 = r_users r0) as Hu1 by done.
  assert (r_watchlists r1 = r_watchlists r0) as Hw1 by done.
  eapply o_bind with (Q := fun _ => up (with_watchlists (filter (fun kv => kv.2 <> u) (r_watchlists r0)) r1)).
  { eapply o_bind.
    - apply (o_query _ (fun r a => forall i, i ∈ a <-> r_watchlists r !! i = Some u));
        [apply law_watchlists | intros r Hr; left; by rewrite (up_users _ _ Hr) | done].
    - intros owned. apply o_pure. intros [Hown _]. rewrite Hw1 in Hown.
      eapply o_weaken; [by apply (o_watchlists u owned 0 r0 r1) | done | | done].
      intros n r Hr. by rewrite Hw1, (drop_owned u owned _ Hown) in Hr. }
  intros watchlists. cbv beta. set (r2 := with_watchlists _ _).
  eapply o_bind with (Q := fun _ => up (with_center (r_center r0 ∖ {[u]}) r2)).
  { apply (o_erase _ _ (fun r => with_center (r_center r ∖ {[u]}) r) u r0 r2 (law_center_delete u)); try done.
    by intros r x r' [-> _]. }
  intros notification. cbv beta. set (r3 := with_center _ _).
  assert (with_users (delete u (r_users r0)) r3 = erased u r0) as Er.
  { unfold r3, r2, r1, erased. cbn. by rewrite without_revoked. }
  eapply o_bind with (Q := fun _ => up (erased u r0)).
  { rewrite <- Er. apply (o_erase _ _ (fun r => with_users (delete u (r_users r)) r) u r0 r3 (law_user_delete u)); try done.
    by intros r x r' [-> _]. }
  intros ?. cbv beta. eapply o_bind.
  - eapply o_weaken; [apply (o_audit env cfg _ _ _ _ (erased u r0)) | done | intros ? r H; exact H |]. by right.
  - intros ?. cbv beta. apply o_ret. done.
Qed.

(** Every table the deletion reaches is without a record of [u]. *)
Record owns_nothing (u : string) (r : rows) : Prop := {
  on_user : r_users r !! u = None;
  on_sessions i s : r_sessions r !! i = Some s -> se_user s <> u;
  on_resets i t : r_resets r !! i = Some t -> pr_user t <> u;
  on_verifications i t : r_verifications r !! i = Some t -> vr_user t <> u;
  on_changes i t : r_changes r !! i = Some t -> ec_user t <> u;
  on_consents i c : r_consents r !! i = Some c -> pa_user c <> u;
  on_profile : t_profiles (r_profile r) !! u = None /\ t_preferences (r_profile r) !! u = None
    /\ t_settings (r_profile r) !! u = None /\ t_wishlists (r_profile r) !! u = None
    /\ t_brands (r_profile r) !! u = None /\ t_markets (r_profile r) !! u = None;
  on_products i x : t_products (r_saved r) !! i = Some x -> sp_user x <> u;
  on_comparisons i x : t_comparisons (r_saved r) !! i = Some x -> sc_user x <> u;
  on_history i x : t_history (r_saved r) !! i = Some x -> rh_user x <> u;
  on_searches i x : t_searches (r_saved r) !! i = Some x -> ss_user x <> u;
  on_recent : t_recent (r_saved r) !! u = None;
  on_watchlists i v : r_watchlists r !! i = Some v -> v <> u;
  on_center : u ∉ r_center r
}.

(** The records of every other owner in each of these tables, unchanged. *)
Record others_kept (u : string) (r r' : rows) : Prop := {
  ot_users v : v <> u -> r_users r' !! v = r_users r !! v;
  ot_sessions i s : r_sessions r !! i = Some s -> se_user s <> u -> r_sessions r' !! i = Some s;
  ot_resets i t : r_resets r !! i = Some t -> pr_user t <> u -> r_resets r' !! i = Some t;
  ot_verifications i t : r_verifications r !! i = Some t -> vr_user t <> u -> r_verifications r' !! i = Some t;
  ot_changes i t : r_changes r !! i = Some t -> ec_user t <> u -> r_changes r' !! i = Some t;
  ot_consents i c : r_consents r !! i = Some c -> pa_user c <> u -> r_consents r' !! i = Some c;
  ot_profiles v : v <> u -> t_profiles (r_profile r') !! v = t_profiles (r_profile r) !! v;
  ot_preferences v : v <> u -> t_preferences (r_profile r') !! v = t_preferences (r_profile r) !! v;
  ot_settings v : v <> u -> t_settings (r_profile r') !! v = t_settings (r_profile r) !! v;
  ot_wishlists v : v <> u -> t_wishlists (r_profile r') !! v = t_wishlists (r_profile r) !! v;
  ot_brands v : v <> u -> t_brands (r_profile r') !! v = t_brands (r_profile r) !! v;
  ot_markets v : v <> u -> t_markets (r_profile r') !! v = t_markets (r_profile r) !! v;
  ot_products i x : t_products (r_saved r) !! i = Some x -> sp_user x <> u -> t_products (r_saved r') !! i = Some x;
  ot_comparisons i x : t_comparisons (r_saved r) !! i = Some x -> sc_user x <> u -> t_comparisons (r_saved r') !! i = Some x;
  ot_history i x : t_history (r_saved r) !! i = Some x -> rh_user x <> u -> t_history (r_saved r') !! i = Some x;
  ot_searches i x : t_searches (r_saved r) !! i = Some x -> ss_user x <> u -> t_searches (r_saved r') !! i = Some x;
  ot_recent v : v <> u -> t_recent (r_saved r') !! v = t_recent (r_saved r) !! v;
  ot_watchlists i v : r_watchlists r !! i = Some v -> v <> u -> r_watchlists r' !! i = Some v;
  ot_center v : v <> u -> v ∈ r_center r' <-> v ∈ r_center r
}.

Lemma without_some {X} (owner : X -> string) u (m : gmap string X) i x :
  without owner u m !! i = Some x <-> m !! i = Some x /\ owner x <> u.
Proof. unfold without. by rewrite map_lookup_filter_Some. Qed.

Lemma erased_owns_nothing u r r' : up (erased u r) r' -> owns_nothing u r'.
Proof.
  unfold up. intros ->.
  split; cbn; intros *; try (by intros [_ H]%without_some); try apply lookup_delete_eq; try set_solver.
  - repeat split; apply lookup_delete_eq.
  - by intros [_ H]%map_lookup_filter_Some.
Qed.

Lemma erased_keeps_others u r r' : up (erased u r) r' -> others_kept u r r'.
Proof.
  unfold up. intros ->.
  split; cbn; intros *; try (intros H Hne; by apply without_some); try (intros Hne; by apply lookup_delete_ne); try set_solver.
  intros H Hne. by apply map_lookup_filter_Some.
Qed.

(** C31: a deleted account leaves nothing where the deletion reaches, and takes
    nothing else with it. With every repository in place, a deletion returns
    only for the exact confirmation and an account that exists; then none of the
    repositories of users, sessions, password resets, email verifications and
    changes, consents, profiles (with preferences, settings, wishlists, favorite
    brands and marketplaces), saved items (products, comparisons, history,
    searches, recently viewed), watchlists and notification preferences holds a
    record of the account, and in each of them every record of everybody else
    is as it was. Delivered notifications and what [RETAINED_LIMITATIONS] lists -
    audit events, alert rules, conversations - are not among them. If it raises, the account
    itself is still there, so that it can be asked for again, or everything is
    already gone from them and only the audit log failed. *)
Theorem account_deletion_is_complete user confirmation (w : W) :
  complete -> lawful (w_store w) ->
  let out := delete_account env cfg lc user confirmation w in
  lawful (w_store out.2)
  /\ match out.1 with
     | Ok res =>
         confirmation = ACCOUNT_DELETE_CONFIRMATION /\ is_Some (r_users (rows_of_world w) !! u_id user)
         /\ owns_nothing (u_id user) (rows_of_world out.2)
         /\ others_kept (u_id user) (rows_of_world w) (rows_of_world out.2)
     | Err _ =>
         r_users (rows_of_world out.2) = r_users (rows_of_world w)
         \/ owns_nothing (u_id user) (rows_of_world out.2)
     end.
Proof.
  intros Hc Hl out.
  destruct (o_delete user confirmation (rows_of_world w) Hc w (conj Hl (Nat.le_0_l _)) (up_refl _)) as [[Hl' _] H].
  fold out in Hl', H. split; [done |]. destruct (out.1) as [res|e].
  - destruct H as [(H1 & H2 & _) Hup]. split; [done |]. split; [done |].
    split; [by eapply erased_owns_nothing | by apply erased_keeps_others].
  - destruct H as [H|H]; [by left | right]. by eapply erased_owns_nothing.
Qed.
End Deletion.
End Deletion.
