(* ===== verification/AuthExamples.v ===== *)
(** The authentication service at work: an environment that never repeats
    itself, in-memory stores with one registered account, and the theorems of
    [AuthSafety], [AuthOutcomes], [AuthGuessing] and [Privacy] at concrete
    requests. *)

From S2P Require Import Prelude PyStr Json Clock PyState OpStore RateLimit LoginLock Users UserMemory Password Identity Auth AuthRules AuthSafety AuthOutcomes AuthGuessing Privacy.
#[local] Open Scope Z_scope.
#[local] Open Scope py_scope.
Import Entities Rows Store Settings Messages Legal Checks World Auth Requests Tables Rules Methods.
Import UserMemory MemoryLaws Flaky.

(** ** Draws

    The n-th id and the n-th token are [word]s. *)

Definition sample_env : environment := {|
  clock n := Datetime 1700000000000000 true;
  id_factory n := word "i" n;
  secrets_token b n := word "t" n;
  new_salt n := word "s" n;
  mail_ok n := true
|}.

Definition sample_lib : library := {|
  sha256 s := s;
  hmac_sha256 key message := of_chars (take 32 (rev (chars message) ++ repeat "0"%char 32));
  pbkdf2_hmac := Hasher.sample_pbkdf2;
  urlparse s := Ok ("https"%string, "shop.example"%string, None, None);
  urlencode items := String.concat "&" (map (fun kv => fst kv +:+ "=" +:+ snd kv) items);
  publication_root := ["app"; "docs"; "legal"; "published"]%string;
  default_publication_root := ["app"; "docs"; "legal"; "published"]%string;
  docs_legal := ["app"; "docs"; "legal"]%string;
  resolve root path := Some (root ++ [path]);
  read_text path := None
|}.

Definition sample_cfg : config := {|
  has_password_resets := true; has_email_verifications := true; has_email_changes := true;
  has_consents := true; has_audit := true; legal_catalog := []; iterations := Hasher.DEFAULT_ITERATIONS;
  max_attempts := 10; window_seconds := 60; login_lock := LoginLock.Facade.default_lock;
  session_ttl := 3600; remember_ttl := 2592000; enabled := true;
  app_settings := {| app_env := "development"; allow_demo_reset_tokens := true;
                     public_app_base_url := "https://shop.example"; app_secret_key := "" |}
|}.

Lemma hex_inj a b : Hex.hex a = Hex.hex b -> a = b.
Proof.
  intros H. apply (f_equal Hex.fromhex) in H. rewrite !Hex.fromhex_hex in H. by injection H.
Qed.

Lemma utf8_word n : utf8 (word "t" n) = word "t" n.
Proof.
  unfold utf8, word. rewrite chars_of_chars. f_equal. induction n as [|n IH]; [done |]. cbn. f_equal. apply IH.
Qed.

Lemma sample_env_ok : env_ok sample_lib sample_env.
Proof.
  split.
  - intros n H. apply (f_equal String.length) in H. change (id_factory sample_env n) with (word "i" n) in H.
    by rewrite word_length in H.
  - intros n k. apply word_inj.
  - intros b c n k H. change (Hex.hex (utf8 (word "t" n)) = Hex.hex (utf8 (word "t" k))) in H.
    rewrite !utf8_word in H. by apply hex_inj, word_inj in H.
Qed.

(** ** One account *)

Local Abbreviation sample_world := (world platform (gmap (string * string) (list datetime)) (gmap string FailedLoginLockState)).

Definition start : sample_world :=
  {| w_store := empty_platform; w_limits := ∅; w_lock := ∅; w_asked := 0; w_sent := []; w_buffer := [] |}.

Definition run1 (q : request) (w : sample_world) : sample_world := served sample_lib sample_env sample_cfg q w.

Definition registered : sample_world :=
  run1 (Register " Ana@Example.com " "Passw0rd" "Ana" false false false) start.

Example registered_answer :
  (serve sample_lib sample_env sample_cfg
    (Register " Ana@Example.com " "Passw0rd" "Ana" false false false) start).1 = Ok tt.
Proof. vm_compute. reflexivity. Qed.
Example who :
  map (fun u => (u_email u, u_verified u)) (map snd (map_to_list (r_users (rows_of (w_store registered)))))
  = [("ana@example.com"%string, false)].
Proof. vm_compute. reflexivity. Qed.

Definition token : string := word "t" 14.
Definition session : UserSession := {|
  se_id := word "i" 16; se_user := word "i" 2; se_token_hash := hash_token sample_lib token;
  se_created := clock sample_env 13; se_expires := dt_add (clock sample_env 13) (seconds 3600);
  remember_me := false; last_seen := Some (clock sample_env 13); user_agent := None; ip_hint := None;
  csrf_token := Some (word "t" 15); revoked := false
|}.

Lemma session_stored : r_sessions (rows_at registered) !! word "i" 16 = Some session.
Proof. vm_compute. reflexivity. Qed.

Lemma start_good : good sample_lib sample_env start.
Proof.
  split; [apply empty_platform_ok |].
  split; unfold unseen_in; intros i x H; vm_compute in H; by rewrite lookup_empty in H || done.
Qed.

Lemma registered_good : good sample_lib sample_env registered.
Proof.
  exact (re_good _ _ _ _ _ (proj1 (Sessions.kept_serve sample_lib sample_env sample_cfg sample_env_ok
    (Register " Ana@Example.com " "Passw0rd" "Ana" false false false) _ _ start
    (good_reached sample_lib sample_env start start_good) I))).
Qed.

Definition sign_out : request := Logout (Some token).
Definition sign_in : request := Login "ana@example.com" "Passw0rd" true None None.

Lemma sign_out_ok : (serve sample_lib sample_env sample_cfg sign_out registered).1 = Ok tt.
Proof. vm_compute. reflexivity. Qed.
Lemma token_not_blank : nonempty (strip token) = true.
Proof. vm_compute. reflexivity. Qed.
Lemma session_hash : se_token_hash session = hash_token sample_lib (strip token).
Proof. vm_compute. reflexivity. Qed.

(** The account signs out and in again. *)
Example ended_sessions_stay_ended_witness :
  let w' := history sample_lib sample_env sample_cfg [sign_in; CurrentUser (Some token)] (run1 sign_out registered) in
  (forall b s', (validate_session sample_lib sample_env sample_cfg (Some token) b w').1 <> Ok (Some s'))
  /\ (forall u, (current_user sample_lib sample_env sample_cfg (Some token) w').1 <> Ok u).
Proof.
  exact (Sessions.ended_sessions_stay_ended sample_lib sample_env sample_cfg sample_env_ok sign_out session
    (word "i" 16) token registered [sign_in; CurrentUser (Some token)] registered_good session_stored
    session_hash (conj token_not_blank session_hash) sign_out_ok).
Defined.

(** ** A refresh that is still under way *)

Definition refresh_read := validate_read sample_lib sample_env sample_cfg (Some token) true registered.
Definition read_session : UserSession := refreshed session (clock sample_env 17).
Definition signed_out : sample_world := served sample_lib sample_env sample_cfg sign_out refresh_read.2.
Definition written_back : sample_world := (validate_write (Some read_session) signed_out).2.

Lemma memory_never_fails : ~ may_fail (S := platform).
Proof. intros H. exact H. Qed.
Lemma refresh_read_ok :
  (validate_read sample_lib sample_env sample_cfg (Some token) true registered).1 = Ok (Some read_session).
Proof. vm_compute. reflexivity. Qed.
Lemma signed_out_ok : (serve sample_lib sample_env sample_cfg sign_out refresh_read.2).1 = Ok tt.
Proof. vm_compute. reflexivity. Qed.
Lemma read_session_hash : se_token_hash read_session = hash_token sample_lib (strip token).
Proof. vm_compute. reflexivity. Qed.
Lemma not_expired : dt_us (clock sample_env (w_asked written_back)) < dt_us (se_expires read_session).
Proof. vm_compute. reflexivity. Qed.

(** The account signs out while its page is still being served: the session of
    the sign-out is live again. *)
Example refresh_revives_ended_session_witness :
  (forall s', (validate_session sample_lib sample_env sample_cfg (Some token) true signed_out).1 <> Ok (Some s'))
  /\ (validate_session sample_lib sample_env sample_cfg (Some token) true written_back).1
     = Ok (Some (refreshed read_session (clock sample_env (w_asked written_back)))).
Proof.
  destruct (Sessions.refresh_revives_ended_session sample_lib sample_env sample_cfg sample_env_ok sign_out token true
    read_session registered memory_never_fails registered_good refresh_read_ok
    (conj token_not_blank read_session_hash) signed_out_ok) as [H1 H2].
  split; [exact H1 | exact (H2 not_expired)].
Defined.

(** ** A password reset *)

Definition reset_requested : sample_world := run1 (RequestPasswordReset "ANA@example.com") registered.
Definition reset_word : string := word "t" 18.
Definition reset_token : string := " " +:+ reset_word.
Definition reset : request := ConfirmPasswordReset reset_token "NewPassw0rd".

Lemma reset_requested_good : good sample_lib sample_env reset_requested.
Proof.
  exact (re_good _ _ _ _ _ (proj1 (Sessions.kept_serve sample_lib sample_env sample_cfg sample_env_ok
    (RequestPasswordReset "ANA@example.com") _ _ registered
    (good_reached sample_lib sample_env registered registered_good) I))).
Qed.
Lemma reset_ok : (serve sample_lib sample_env sample_cfg reset reset_requested).1 = Ok tt.
Proof. vm_compute. reflexivity. Qed.
Lemma same_word : strip reset_word = strip reset_token.
Proof. vm_compute. reflexivity. Qed.

(** The mail's link is used twice. *)
Example one_time_tokens_work_once_witness :
  (serve sample_lib sample_env sample_cfg (ConfirmPasswordReset reset_word "Passw0rd2")
    (history sample_lib sample_env sample_cfg [sign_in; RequestPasswordReset "ana@example.com"]
      (run1 reset reset_requested))).1 <> Ok tt.
Proof.
  exact (OneTime.one_time_tokens_work_once sample_lib sample_env sample_cfg sample_env_ok reset
    (ConfirmPasswordReset reset_word "Passw0rd2") reset_requested [sign_in; RequestPasswordReset "ana@example.com"]
    reset_requested_good reset_ok same_word).
Defined.

(** ** Outcomes *)
Import Outcome EmailChange Credentials Lifecycle Deletion.

Lemma kdf_length p s i n : 1 <= n -> len (pbkdf2_hmac sample_lib p s i n) = n.
Proof. apply Hasher.sample_pbkdf2_length. Qed.
Lemma iterations_ok : 100000 <= iterations sample_cfg.
Proof. by vm_compute. Qed.

Definition reset_out := confirm_password_reset sample_lib sample_env sample_cfg reset_token "NewPassw0rd" reset_requested.
Lemma reset_out_ok : is_ok reset_out.1 = true.
Proof. vm_compute. reflexivity. Qed.

(** The reset of the mail takes effect. *)
Example password_reset_takes_effect_witness :
  lawful (w_store reset_out.2)
  /\ exists now p u stored,
       resets sample_lib reset_token now p u (rows_of_world reset_requested)
       /\ up (reset_stage 3 now p u stored (rows_of_world reset_requested)) (rows_of_world reset_out.2)
       /\ Hasher.verify (pbkdf2_hmac sample_lib) "NewPassw0rd" stored = Ok true.
Proof.
  destruct (password_reset_takes_effect sample_lib sample_env sample_cfg reset_token "NewPassw0rd" reset_requested
    kdf_length iterations_ok (good_lawful _ _ _ reset_requested_good)) as (H1 & _ & H2).
  split; [exact H1 |]. destruct (H2 reset_out_ok) as (now & p & u & salt & stored & H3 & H4 & H5 & _).
  exists now, p, u, stored. split; [exact H3 |]. split; [exact H4 | exact H5].
Defined.

Definition login_out := login sample_lib sample_env sample_cfg "ANA@example.com" "Passw0rd" true None None registered.
Lemma login_out_ok : exists res, login_out.1 = Ok res.
Proof. eexists. vm_compute. reflexivity. Qed.

(** A remembered login. *)
Example login_opens_one_session_witness :
  exists res u, login_out.1 = Ok res
    /\ proves sample_lib (rows_of_world registered) "ANA@example.com" "Passw0rd" u
    /\ opens sample_lib sample_cfg u true res.
Proof.
  destruct login_out_ok as [res E].
  destruct (login_opens_one_session sample_lib sample_env sample_cfg "ANA@example.com" "Passw0rd" true None None registered
    sample_env_ok (good_lawful _ _ _ registered_good) (good_unseen _ _ _ registered_good)) as [_ H].
  fold login_out in H. rewrite E in H. destruct H as [(u & H1 & H2) _]. exists res, u.
  split; [exact E |]. split; [exact H1 | exact H2].
Defined.

(** ** A deletion *)
Definition all_there : lifecycle := {| has_watchlists := true; has_notification_center := true |}.
Definition account : User := match map snd (map_to_list (r_users (rows_at registered))) with u :: _ => u | [] =>
  {| u_id := ""; u_email := ""; u_password_hash := ""; u_display_name := ""; u_active := false; u_verified := false;
     u_created := None; u_updated := None; u_data_status := "" |} end.
Definition deletion_out := delete_account sample_env sample_cfg all_there account "DELETE" registered.
Lemma deletion_ok : exists res, deletion_out.1 = Ok res.
Proof. eexists. vm_compute. reflexivity. Qed.
Lemma all_complete : complete sample_cfg all_there.
Proof. by repeat split. Qed.

Example account_deletion_is_complete_witness :
  owns_nothing (u_id account) (rows_of_world deletion_out.2)
  /\ others_kept (u_id account) (rows_of_world registered) (rows_of_world deletion_out.2).
Proof.
  destruct deletion_ok as [res E].
  destruct (account_deletion_is_complete sample_env sample_cfg all_there account "DELETE" registered
    all_complete (good_lawful _ _ _ registered_good)) as [_ H].
  fold deletion_out in H. rewrite E in H. destruct H as (_ & _ & H1 & H2). split; [exact H1 | exact H2].
Defined.

(** ** An email change on a store that fails *)

Definition change_requested : sample_world :=
  run1 (RequestEmailChange (Some token) "ana@new.example" "Passw0rd") registered.
Definition change_word : string := word "t" 19.

Lemma change_requested_good : good sample_lib sample_env change_requested.
Proof.
  exact (re_good _ _ _ _ _ (proj1 (Sessions.kept_serve sample_lib sample_env sample_cfg sample_env_ok
    (RequestEmailChange (Some token) "ana@new.example" "Passw0rd") _ _ registered
    (good_reached sample_lib sample_env registered registered_good) I))).
Qed.

(** The store fails at the calls that the script marks. *)
Definition failing (script : list bool) (w : sample_world)
    : world (flaky platform) (gmap (string * string) (list datetime)) (gmap string FailedLoginLockState) :=
  {| w_store := MkFlaky (w_store w) script; w_limits := w_limits w; w_lock := w_lock w; w_asked := w_asked w;
     w_sent := w_sent w; w_buffer := w_buffer w |}.

Lemma failing_lawful script w : lawful (w_store w) -> lawful (w_store (failing script w)).
Proof. intros H. exact H. Qed.

(** The seventh call consumes the token. *)
Definition half_done := failing [false; false; false; false; false; false; true] change_requested.
Definition change_out := confirm_email_change sample_lib sample_env sample_cfg change_word half_done.

Example change_out_raises :
  change_out.1 = Err (Platform (UserPlatformValidationError EMAIL_CHANGE_COMPLETION_ERROR)).
Proof. vm_compute. reflexivity. Qed.
Lemma change_out_stopped : is_ok change_out.1 = false.
Proof. vm_compute. reflexivity. Qed.

(** The address has changed, the token has not been consumed, and the session
    with which the change was asked for is revoked. *)
Example half_done_rows :
  map (fun u => (u_email u, u_verified u)) (map snd (map_to_list (r_users (rows_of_world change_out.2))))
    = [("ana@new.example"%string, true)]
  /\ map ec_consumed (map snd (map_to_list (r_changes (rows_of_world change_out.2)))) = [false]
  /\ map revoked (map snd (map_to_list (r_sessions (rows_of_world change_out.2)))) = [true].
Proof. vm_compute. done. Qed.

Example email_change_fails_closed_witness :
  lawful (w_store change_out.2)
  /\ stopped sample_lib change_word (rows_of_world half_done) (rows_of_world change_out.2).
Proof.
  destruct (email_change_fails_closed sample_lib sample_env sample_cfg change_word half_done
    (failing_lawful _ change_requested (good_lawful _ _ _ change_requested_good))) as (H1 & _ & H2 & _).
  split; [exact H1 | exact (H2 change_out_stopped)].
Defined.

(** ** Guesses *)

Definition two_strikes : config := {|
  has_password_resets := true; has_email_verifications := true; has_email_changes := true;
  has_consents := true; has_audit := true; legal_catalog := []; iterations := Hasher.DEFAULT_ITERATIONS;
  max_attempts := 10; window_seconds := 60; login_lock := LoginLock.Facade.Lock 2 900 900;
  session_ttl := 3600; remember_ttl := 2592000; enabled := true; app_settings := app_settings sample_cfg
|}.

Definition guess (p : string) : request := Login "Ana@example.com" p false None None.
(** Between the guesses somebody fails to log in under another address. *)
Definition guesses : list request :=
  [guess "Guess123"; RequestPasswordReset "ana@example.com"; Login "bo@example.com" "Guess123" false None None;
   guess "Guess456"; Login "bo@example.com" "Guess456" true None None].
Definition guessed : sample_world := history sample_lib sample_env two_strikes guesses registered.
Definition ana_key : string := match opaque_subject_key sample_lib (app_settings two_strikes) "login" "ana@example.com" with
                               | Some k => k | None => "" end.

Lemma digests_fit : Guessing.digests_fit sample_lib.
Proof.
  intros k m. cbn [hmac_sha256 sample_lib]. rewrite chars_of_chars, length_take, length_app, repeat_length. lia.
Qed.
Lemma ana_key_ok : opaque_subject_key sample_lib (app_settings two_strikes) "login" (norm_email "ana@example.com") = Some ana_key.
Proof. vm_compute. reflexivity. Qed.
Lemma guesses_refused :
  Guessing.guesses_refused sample_lib sample_env two_strikes ana_key guesses registered.
Proof. repeat split; try discriminate; intros _; vm_compute; reflexivity. Qed.
Lemma two_guesses :
  LoginLock.Facade.lock_threshold (login_lock two_strikes)
  <= Z.of_nat (length (List.filter (Guessing.aimed sample_lib two_strikes ana_key) guesses)).
Proof. vm_compute. discriminate. Qed.
Lemma guess_window : Guessing.one_window sample_env two_strikes (w_asked registered)
  (w_asked (history sample_lib sample_env two_strikes guesses registered)).
Proof.
  intros n m _ _ _. change (clock sample_env n) with (Datetime 1700000000000000 true).
  change (clock sample_env m) with (Datetime 1700000000000000 true).
  split; [split; [by vm_compute | split; [by vm_compute | split; by vm_compute]] |].
  split; [by vm_compute | split; by vm_compute].
Qed.
Lemma lock_empty : LockInterface.store_wf (w_lock registered)
  /\ forall r, LockInterface.store_view (w_lock registered) ana_key = Some r -> 0 <= LoginLock.LockPolicy.row_count r.
Proof.
  assert (LockInterface.store_view (w_lock registered) ana_key = None) as E by (vm_compute; reflexivity).
  split; [vm_compute; done |]. intros r Hr. congruence.
Qed.

(** Two wrong guesses: the right password is refused too. *)
Example guesses_lock_the_address_witness :
  exists out, is_ok out.1 = false
    /\ forall p rem ag ip, login sample_lib sample_env two_strikes "ana@example.com" p rem ag ip guessed = out.
Proof.
  exact (Guessing.guesses_lock_the_address sample_lib sample_env two_strikes "ana@example.com" ana_key guesses registered
    digests_fit (Z.le_succ_diag_r 1) ana_key_ok (proj1 lock_empty) (proj2 lock_empty) guesses_refused two_guesses guess_window).
Defined.
