(* ===== verification/Float.v ===== *)
(** Python's [float]: binary64 as the Standard Library specifies it, and the
    texts Python prints for it.

    [spec_float] with 53 bits and exponents up to 1024 is IEEE 754 without NaN
    payloads; its operations round to nearest, ties to even. [repr] searches the
    fewest digits that read back as the same number, as CPython does, and
    [fixed] is the format [:.nf], the exact value rounded to [n] decimals. *)

From Stdlib Require Import SpecFloat DecimalString.
From S2P Require Import Prelude PyStr Clock.
#[local] Open Scope Z_scope.

Module PyFloat.

Definition float : Type := spec_float.

#[global] Instance float_eq_dec : EqDecision float.
Proof. solve_decision. Defined.

(** ** Arithmetic and order *)

Definition f_add : float -> float -> float := SFadd 53 1024.
Definition f_sub : float -> float -> float := SFsub 53 1024.
Definition f_mul : float -> float -> float := SFmul 53 1024.
Definition f_div : float -> float -> float := SFdiv 53 1024.
Definition f_ltb : float -> float -> bool := SFltb.
Definition f_leb : float -> float -> bool := SFleb.
Definition f_eqb : float -> float -> bool := SFeqb.
Definition f_zero : float := S754_zero false.

(** [float(n)]. *)
Definition of_Z (n : Z) : float := binary_normalize 53 1024 n 0 false.

(** [bool(x)]. *)
Definition f_truthy (x : float) : bool := negb (f_eqb x f_zero).

(** The number nearest to [n / d], for positive [d]. *)
Definition of_ratio (n d : Z) : float :=
  if n =? 0 then f_zero
  else let '(m, e, l) := SFdiv_core_binary 53 1024 (Z.abs n) 0 d 0 in
       binary_round_aux 53 1024 (n <? 0) m e l.

(** The exact value of a finite number, without its sign. *)
Definition magnitude (m : positive) (e : Z) : Z * Z :=
  if 0 <=? e then (Z.pos m * 2 ^ e, 1) else (Z.pos m, 2 ^ (- e)).

(** ** Texts *)

Definition digits (n : Z) : string := NilZero.string_of_uint (N.to_uint (Z.to_N n)).
Definition zeros (n : Z) : string := of_chars (repeat "0"%char (Z.to_nat n)).
Definition minus (s : bool) (text : string) : string := if s then "-" +:+ text else text.
Definition take_str (n : Z) (s : string) : string := String.substring 0 (Z.to_nat n) s.
Definition drop_str (n : Z) (s : string) : string :=
  String.substring (Z.to_nat n) (String.length s) s.

(** [f"{x:.nf}"]. *)
Definition fixed_digits (n q : Z) : string :=
  if n =? 0 then digits q
  else digits (q / 10 ^ n) +:+ "." +:+ (let r := digits (q mod 10 ^ n) in zeros (n - len r) +:+ r).
Definition fixed (n : Z) (x : float) : string :=
  match x with
  | S754_nan => "nan"
  | S754_infinity s => minus s "inf"
  | S754_zero s => minus s (fixed_digits n 0)
  | S754_finite s m e =>
      let '(num, den) := magnitude m e in
      minus s (fixed_digits n (Float64.rne (num * 10 ^ n) den))
  end.

(** [round(x, n)]: the decimal of [n] places nearest to [x], as a float. *)
Definition round_to (n : Z) (x : float) : float :=
  match x with
  | S754_finite s m e =>
      let '(num, den) := magnitude m e in
      let q := Float64.rne (num * 10 ^ n) den in
      if q =? 0 then S754_zero s else of_ratio (if s then - q else q) (10 ^ n)
  | _ => x
  end.

(** The [k] with [10^(k-1) <= num/den < 10^k]. *)
Fixpoint small_exp (fuel : nat) (k num den : Z) : Z :=
  match fuel with
  | O => k
  | S fuel => if den <=? 10 * num then k else small_exp fuel (k - 1) (10 * num) den
  end.
Definition decimal_exp (num den : Z) : Z :=
  if den <=? num then len (digits (num / den)) else small_exp 400 0 num den.

(** [d * 10^k] to binary64. *)
Definition of_decimal (d k : Z) : float :=
  if 0 <=? k then of_ratio (d * 10 ^ k) 1 else of_ratio d (10 ^ (- k)).

(** [n] digits of [num/den], and where their decimal point is. *)
Definition short_digits (n k num den : Z) : Z * Z :=
  let d := if 0 <=? n - k then Float64.rne (num * 10 ^ (n - k)) den
           else Float64.rne num (den * 10 ^ (k - n)) in
  if d =? 10 ^ n then (10 ^ (n - 1), k + 1) else (d, k).

Fixpoint shortest (fuel : nat) (n k num den : Z) (x : float) : Z * Z * Z :=
  let '(d, point) := short_digits n k num den in
  match fuel with
  | O => (n, d, point)
  | S fuel => if bool_decide (of_decimal d (point - n) = x) then (n, d, point)
              else shortest fuel (n + 1) k num den x
  end.

Definition exponent (e : Z) : string :=
  (if e <? 0 then "-" else "+")
  +:+ (let t := digits (Z.abs e) in if len t <? 2 then "0" +:+ t else t).

Definition placed (n d point : Z) : string :=
  let t := digits d in
  if (-4 <? point) && (point <=? 16) then
    if point <=? 0 then "0." +:+ zeros (- point) +:+ t
    else if n <=? point then t +:+ zeros (point - n) +:+ ".0"
    else take_str point t +:+ "." +:+ drop_str point t
  else
    take_str 1 t +:+ (if n =? 1 then ""%string else "." +:+ drop_str 1 t)
    +:+ "e" +:+ exponent (point - 1).

Definition repr (x : float) : string :=
  match x with
  | S754_nan => "nan"
  | S754_infinity s => minus s "inf"
  | S754_zero s => minus s "0.0"
  | S754_finite s m e =>
      let '(num, den) := magnitude m e in
      let '(n, d, point) := shortest 16 1 (decimal_exp num den) num den (S754_finite false m e) in
      minus s (placed n d point)
  end.

Example printed_floats :
  map repr [of_ratio 1 10; of_ratio 1 3; of_Z 100; of_ratio 123456789 1000; of_Z (10 ^ 16); of_Z (10 ^ 15);
            of_ratio 15 (10 ^ 6); of_ratio (-25) 10; of_ratio 1 (2 ^ 1074); of_ratio 3 10000; of_Z (2 ^ 60)]
  = ["0.1"; "0.3333333333333333"; "100.0"; "123456.789"; "1e+16"; "1000000000000000.0"; "1.5e-05"; "-2.5";
     "5e-324"; "0.0003"; "1.152921504606847e+18"]%string.
Proof. vm_compute. reflexivity. Qed.

Example formatted_floats :
  [fixed 2 (of_ratio 2675 1000); fixed 2 (of_Z 5); fixed 6 (of_ratio 1 3); fixed 1 (of_ratio 25 100);
   fixed 2 (f_sub (of_ratio 1 10) (of_ratio 3 10)); fixed 0 (of_ratio 5 2)]
  = ["2.67"; "5.00"; "0.333333"; "0.2"; "-0.20"; "2"]%string.
Proof. vm_compute. reflexivity. Qed.

(** ** The order *)

Lemma compare_antisym x y :
  SFcompare y x = match SFcompare x y with Some c => Some (CompOpp c) | None => None end.
Proof.
  destruct x as [[]|[]| |[] m e], y as [[]|[]| |[] m' e']; try reflexivity; cbn;
    rewrite (Z.compare_antisym e e');
    destruct (Z.compare e e') eqn:E; cbn; try reflexivity;
    change (Pos.compare_cont Eq m m') with (Pos.compare m m');
    change (Pos.compare_cont Eq m' m) with (Pos.compare m' m);
    rewrite (Pos.compare_antisym m m'); by destruct (Pos.compare m m').
Qed.

Lemma ltb_leb x y : f_ltb x y = true -> f_leb x y = true.
Proof. unfold f_ltb, f_leb, SFltb, SFleb. by destruct (SFcompare x y) as [[]|]. Qed.

(** A comparison that holds excludes its converse; with NaN neither holds. *)
Lemma ltb_not_leb x y : f_ltb x y = true -> f_leb y x = false.
Proof.
  unfold f_ltb, f_leb, SFltb, SFleb. rewrite (compare_antisym x y).
  by destruct (SFcompare x y) as [[]|].
Qed.
End PyFloat.
