(* ===== verification/Watch.v ===== *)
(** Watchlists: the entities of [app/domain/entities/watchlist.py] and the
    in-memory store of [app/intelligence/watchlists/memory.py] with its
    extension in [app/watchlists/memory.py].

    Module [Ordered]: a dictionary with the list of its keys in the order they
    were first saved, as every in-memory store of this part keeps. Module
    [Watchlists]: the entities. Module [WatchMemory]: the store. *)

From S2P Require Import Prelude PyStr Clock Float.
Import PyFloat.
#[local] Open Scope Z_scope.

(** ** [_by_id] with [_order] *)
Module Ordered.

Record ordered (V : Type) := MkOrdered { o_map : gmap string V; o_order : list string }.
Arguments MkOrdered {V}. Arguments o_map {V}. Arguments o_order {V}.

Section Ordered.
Context {V : Type}.
Implicit Types d : ordered V.

Definition o_empty : ordered V := MkOrdered ∅ [].
Definition o_get (k : string) d : option V := o_map d !! k.

(** [if key not in d: order.append(key); d[key] = value]. *)
Definition o_save (k : string) (v : V) d : ordered V :=
  MkOrdered (<[k := v]> (o_map d))
    (if bool_decide (is_Some (o_map d !! k)) then o_order d else o_order d ++ [k]).

(** [d[key] = value] for a key that is there. *)
Definition o_put (k : string) (v : V) d : ordered V := MkOrdered (<[k := v]> (o_map d)) (o_order d).

(** [[d[key] for key in order if key in d]]. *)
Definition o_list d : list V := omap (fun k => o_map d !! k) (o_order d).
Definition o_newest d : list V := omap (fun k => o_map d !! k) (rev (o_order d)).

(** [del d[key]; order = [other for other in order if other != key]]. *)
Definition o_delete (k : string) d : ordered V :=
  MkOrdered (delete k (o_map d)) (List.filter (fun j => negb (String.eqb j k)) (o_order d)).

(** The order lists the keys, each once. *)
Definition o_ok d : Prop :=
  NoDup (o_order d) /\ forall k, k ∈ o_order d <-> is_Some (o_map d !! k).

Lemma o_empty_ok : o_ok o_empty.
Proof.
  split; [apply NoDup_nil_2 |]. intros k. cbn. rewrite lookup_empty. split; [by intros ?%elem_of_nil | by intros []].
Qed.

Lemma o_save_ok k v d : o_ok d -> o_ok (o_save k v d).
Proof.
  intros [Hn Hd]. unfold o_save. destruct (bool_decide_reflect (is_Some (o_map d !! k))) as [Hk | Hk].
  - split; [exact Hn |]. intros j. cbn. rewrite Hd. destruct (decide (j = k)) as [-> | Hj].
    + rewrite lookup_insert_eq. split; [by eexists | done].
    + by rewrite lookup_insert_ne.
  - split; cbn.
    + apply NoDup_snoc; [exact Hn |]. by rewrite Hd.
    + intros j. rewrite elem_of_app, list_elem_of_singleton, Hd. destruct (decide (j = k)) as [-> | Hj].
      * rewrite lookup_insert_eq. split; [by eexists | by right].
      * rewrite lookup_insert_ne by done. by split; [intros [H | H] | left].
Qed.

Lemma o_delete_ok k d : o_ok d -> o_ok (o_delete k d).
Proof.
  intros [Hn Hd]. split; cbn.
  - rewrite <- (list_fmap_id (List.filter _ _)). by apply NoDup_map_filter_all; rewrite list_fmap_id.
  - intros j. rewrite list_elem_of_In, filter_In, <- list_elem_of_In, Hd, negb_true_iff, String.eqb_neq.
    destruct (decide (j = k)) as [-> | Hj].
    + rewrite lookup_delete_eq. split; [by intros [_ []] | by intros []].
    + rewrite lookup_delete_ne by done. by split; [intros [H _] | split].
Qed.

Lemma elem_of_o_list v d : o_ok d -> v ∈ o_list d <-> exists k, o_map d !! k = Some v.
Proof.
  intros [_ Hd]. unfold o_list. rewrite list_elem_of_omap. split.
  - intros (k & _ & Hk). by exists k.
  - intros (k & Hk). exists k. split; [apply Hd; by eexists | done].
Qed.

Lemma elem_of_o_newest v d : o_ok d -> v ∈ o_newest d <-> exists k, o_map d !! k = Some v.
Proof.
  intros [_ Hd]. unfold o_newest. rewrite list_elem_of_omap. split.
  - intros (k & _ & Hk). by exists k.
  - intros (k & Hk). exists k. split; [apply list_elem_of_In; rewrite <- in_rev; apply list_elem_of_In, Hd; by eexists | done].
Qed.
End Ordered.
End Ordered.
Import Ordered.

(** ** The entities *)
Module Watchlists.

Inductive AlertType :=
| AT_PRICE_DROP | AT_TARGET_PRICE_REACHED | AT_DEALSCORE_IMPROVED | AT_HISTORICAL_LOW
| AT_PERCENTAGE_PRICE_DECREASE | AT_ABSOLUTE_PRICE_DECREASE | AT_PRICE_INCREASE | AT_RESTOCKED
| AT_UNAVAILABLE | AT_LOW_INVENTORY | AT_BETTER_OFFER | AT_PREFERRED_SELLER_AVAILABLE
| AT_PREFERRED_MARKETPLACE_AVAILABLE | AT_STALE_DATA | AT_FRESHNESS_RESTORED | AT_DEALSCORE_THRESHOLD.

#[global] Instance AlertType_eq_dec : EqDecision AlertType.
Proof. solve_decision. Defined.

Definition alert_type_value (t : AlertType) : string :=
  match t with
  | AT_PRICE_DROP => "price_drop" | AT_TARGET_PRICE_REACHED => "target_price_reached"
  | AT_DEALSCORE_IMPROVED => "dealscore_improved" | AT_HISTORICAL_LOW => "historical_low"
  | AT_PERCENTAGE_PRICE_DECREASE => "percentage_price_decrease"
  | AT_ABSOLUTE_PRICE_DECREASE => "absolute_price_decrease" | AT_PRICE_INCREASE => "price_increase"
  | AT_RESTOCKED => "restocked" | AT_UNAVAILABLE => "unavailable" | AT_LOW_INVENTORY => "low_inventory"
  | AT_BETTER_OFFER => "better_offer" | AT_PREFERRED_SELLER_AVAILABLE => "preferred_seller_available"
  | AT_PREFERRED_MARKETPLACE_AVAILABLE => "preferred_marketplace_available"
  | AT_STALE_DATA => "stale_data" | AT_FRESHNESS_RESTORED => "freshness_restored"
  | AT_DEALSCORE_THRESHOLD => "dealscore_threshold"
  end%string.

Inductive AlertStatus := AS_PENDING | AS_NOTIFIED | AS_ACKNOWLEDGED | AS_DISMISSED.
Definition alert_status_value (s : AlertStatus) : string :=
  match s with
  | AS_PENDING => "pending" | AS_NOTIFIED => "notified"
  | AS_ACKNOWLEDGED => "acknowledged" | AS_DISMISSED => "dismissed"
  end%string.

Inductive NotificationStatus := QUEUED | SKIPPED | DELIVERED | FAILED | SIMULATED.
Inductive NotificationChannel := MOCK | IN_APP | EMAIL.
Inductive WatchlistStatus := WL_ACTIVE | WL_PAUSED | WL_ARCHIVED.
Inductive ItemKind := PRODUCT | OFFER.

#[global] Instance NotificationStatus_eq_dec : EqDecision NotificationStatus.
Proof. solve_decision. Defined.
#[global] Instance NotificationChannel_eq_dec : EqDecision NotificationChannel.
Proof. solve_decision. Defined.
#[global] Instance ItemKind_eq_dec : EqDecision ItemKind.
Proof. solve_decision. Defined.

Definition watchlist_status_value (s : WatchlistStatus) : string :=
  match s with WL_ACTIVE => "active" | WL_PAUSED => "paused" | WL_ARCHIVED => "archived" end%string.

Record Watchlist := {
  wl_id : string; wl_name : string; wl_created_at : datetime; wl_owner_id : option string;
  wl_description : option string; wl_enabled : bool; wl_updated_at : option datetime;
  wl_is_default : bool; wl_status : WatchlistStatus; wl_paused_at : option datetime;
  wl_archived_at : option datetime; wl_preferred_sellers : list string;
  wl_preferred_marketplaces : list string
}.

Record WatchlistItem := {
  it_id : string; it_watchlist_id : string; it_canonical_product_id : string;
  it_created_at : datetime; it_product_label : option string; it_target_price : option float;
  it_currency : string; it_search_query : option string; it_last_known_price : option float;
  it_last_known_dealscore : option float; it_last_historical_low : option float; it_enabled : bool;
  it_updated_at : option datetime; it_marketplace_offer_id : option string; it_notes : option string;
  it_item_kind : ItemKind; it_monitoring_paused : bool; it_preferred_sellers : list string;
  it_preferred_marketplaces : list string
}.

Record Alert := {
  al_id : string; al_watchlist_id : string; al_item_id : string; al_canonical_product_id : string;
  al_type : AlertType; al_message : string; al_created_at : datetime;
  al_previous_value : option float; al_current_value : option float; al_currency : option string;
  al_dealscore : option float; al_status : AlertStatus; al_notified_at : option datetime
}.

Record NotificationReceipt := {
  nr_id : string; nr_alert_id : string; nr_channel : NotificationChannel;
  nr_status : NotificationStatus; nr_created_at : datetime; nr_detail : string
}.

Record WatchlistItemSnapshot := {
  sn_item : WatchlistItem; sn_current_price : option float; sn_historical_low : option float;
  sn_dealscore : option float; sn_currency : option string; sn_observation_count : Z;
  sn_price_available : bool
}.

Record WatchlistHistoryEntry := {
  wh_id : string; wh_watchlist_id : string; wh_event_type : string; wh_description : string;
  wh_created_at : datetime; wh_actor_id : option string; wh_item_id : option string
}.

(** [replace(watchlist, status=..., enabled=..., paused_at=..., archived_at=..., updated_at=...)]. *)
Definition with_lifecycle (w : Watchlist) (status : WatchlistStatus) (enabled : bool)
    (paused archived : option datetime) (updated : datetime) : Watchlist :=
  {| wl_id := wl_id w; wl_name := wl_name w; wl_created_at := wl_created_at w;
     wl_owner_id := wl_owner_id w; wl_description := wl_description w; wl_enabled := enabled;
     wl_updated_at := Some updated; wl_is_default := wl_is_default w; wl_status := status;
     wl_paused_at := paused; wl_archived_at := archived;
     wl_preferred_sellers := wl_preferred_sellers w;
     wl_preferred_marketplaces := wl_preferred_marketplaces w |}.
Definition with_default (w : Watchlist) (b : bool) (updated : option datetime) : Watchlist :=
  {| wl_id := wl_id w; wl_name := wl_name w; wl_created_at := wl_created_at w;
     wl_owner_id := wl_owner_id w; wl_description := wl_description w; wl_enabled := wl_enabled w;
     wl_updated_at := updated; wl_is_default := b; wl_status := wl_status w;
     wl_paused_at := wl_paused_at w; wl_archived_at := wl_archived_at w;
     wl_preferred_sellers := wl_preferred_sellers w;
     wl_preferred_marketplaces := wl_preferred_marketplaces w |}.
Definition with_details (w : Watchlist) (name : string) (description : option string) (enabled : bool)
    (owner : option string) (updated : datetime) : Watchlist :=
  {| wl_id := wl_id w; wl_name := name; wl_created_at := wl_created_at w;
     wl_owner_id := owner; wl_description := description; wl_enabled := enabled;
     wl_updated_at := Some updated; wl_is_default := wl_is_default w; wl_status := wl_status w;
     wl_paused_at := wl_paused_at w; wl_archived_at := wl_archived_at w;
     wl_preferred_sellers := wl_preferred_sellers w;
     wl_preferred_marketplaces := wl_preferred_marketplaces w |}.
Definition with_preferred (w : Watchlist) (sellers marketplaces : list string) (updated : datetime) : Watchlist :=
  {| wl_id := wl_id w; wl_name := wl_name w; wl_created_at := wl_created_at w;
     wl_owner_id := wl_owner_id w; wl_description := wl_description w; wl_enabled := wl_enabled w;
     wl_updated_at := Some updated; wl_is_default := wl_is_default w; wl_status := wl_status w;
     wl_paused_at := wl_paused_at w; wl_archived_at := wl_archived_at w;
     wl_preferred_sellers := sellers; wl_preferred_marketplaces := marketplaces |}.

(** [replace(item, ...)] of the edits the services make. *)
Definition item_with_details (i : WatchlistItem) (label : option string) (target : option float)
    (currency : string) (query : option string) (enabled : bool) (updated : datetime) : WatchlistItem :=
  {| it_id := it_id i; it_watchlist_id := it_watchlist_id i;
     it_canonical_product_id := it_canonical_product_id i; it_created_at := it_created_at i;
     it_product_label := label; it_target_price := target; it_currency := currency;
     it_search_query := query; it_last_known_price := it_last_known_price i;
     it_last_known_dealscore := it_last_known_dealscore i;
     it_last_historical_low := it_last_historical_low i; it_enabled := enabled;
     it_updated_at := Some updated; it_marketplace_offer_id := it_marketplace_offer_id i;
     it_notes := it_notes i; it_item_kind := it_item_kind i;
     it_monitoring_paused := it_monitoring_paused i; it_preferred_sellers := it_preferred_sellers i;
     it_preferred_marketplaces := it_preferred_marketplaces i |}.
Definition item_with_extras (i : WatchlistItem) (offer : option string) (notes : option string)
    (kind : ItemKind) (paused : bool) (sellers marketplaces : list string) (updated : datetime)
    : WatchlistItem :=
  {| it_id := it_id i; it_watchlist_id := it_watchlist_id i;
     it_canonical_product_id := it_canonical_product_id i; it_created_at := it_created_at i;
     it_product_label := it_product_label i; it_target_price := it_target_price i;
     it_currency := it_currency i; it_search_query := it_search_query i;
     it_last_known_price := it_last_known_price i;
     it_last_known_dealscore := it_last_known_dealscore i;
     it_last_historical_low := it_last_historical_low i; it_enabled := it_enabled i;
     it_updated_at := Some updated; it_marketplace_offer_id := offer; it_notes := notes;
     it_item_kind := kind; it_monitoring_paused := paused; it_preferred_sellers := sellers;
     it_preferred_marketplaces := marketplaces |}.
Definition item_with_baseline (i : WatchlistItem) (price dealscore low : option float)
    (updated : datetime) : WatchlistItem :=
  {| it_id := it_id i; it_watchlist_id := it_watchlist_id i;
     it_canonical_product_id := it_canonical_product_id i; it_created_at := it_created_at i;
     it_product_label := it_product_label i; it_target_price := it_target_price i;
     it_currency := it_currency i; it_search_query := it_search_query i;
     it_last_known_price := price; it_last_known_dealscore := dealscore;
     it_last_historical_low := low; it_enabled := it_enabled i;
     it_updated_at := Some updated; it_marketplace_offer_id := it_marketplace_offer_id i;
     it_notes := it_notes i; it_item_kind := it_item_kind i;
     it_monitoring_paused := it_monitoring_paused i; it_preferred_sellers := it_preferred_sellers i;
     it_preferred_marketplaces := it_preferred_marketplaces i |}.

(** [replace(alert, status=..., notified_at=...)]. *)
Definition alert_with_status (a : Alert) (s : AlertStatus) (notified : option datetime) : Alert :=
  {| al_id := al_id a; al_watchlist_id := al_watchlist_id a; al_item_id := al_item_id a;
     al_canonical_product_id := al_canonical_product_id a; al_type := al_type a;
     al_message := al_message a; al_created_at := al_created_at a;
     al_previous_value := al_previous_value a; al_current_value := al_current_value a;
     al_currency := al_currency a; al_dealscore := al_dealscore a; al_status := s;
     al_notified_at := notified |}.
End Watchlists.

(** ** [InMemoryWatchlistStore] *)
Module WatchMemory.
Import Watchlists.

Record watch_store := {
  ws_watchlists : ordered Watchlist; ws_items : ordered WatchlistItem;
  ws_alerts : ordered Alert; ws_history : ordered WatchlistHistoryEntry
}.

Definition empty_watch : watch_store :=
  {| ws_watchlists := o_empty; ws_items := o_empty; ws_alerts := o_empty; ws_history := o_empty |}.

Definition set_watchlists x (s : watch_store) : watch_store :=
  {| ws_watchlists := x; ws_items := ws_items s; ws_alerts := ws_alerts s; ws_history := ws_history s |}.
Definition set_items x (s : watch_store) : watch_store :=
  {| ws_watchlists := ws_watchlists s; ws_items := x; ws_alerts := ws_alerts s; ws_history := ws_history s |}.
Definition set_alerts x (s : watch_store) : watch_store :=
  {| ws_watchlists := ws_watchlists s; ws_items := ws_items s; ws_alerts := x; ws_history := ws_history s |}.
Definition set_history x (s : watch_store) : watch_store :=
  {| ws_watchlists := ws_watchlists s; ws_items := ws_items s; ws_alerts := ws_alerts s; ws_history := x |}.

(** [None] does not filter. *)
Definition filtered {A K} (eqb : K -> K -> bool) (key : A -> K) (want : option K) (l : list A) : list A :=
  match want with Some k => List.filter (fun a => eqb (key a) k) l | None => l end.

(** [l[: max(0, limit)]]. *)
Fixpoint take_z {A} (limit : Z) (l : list A) : list A :=
  match l with
  | x :: r => if 0 <? limit then x :: take_z (limit - 1) r else []
  | [] => []
  end.

Definition opt_string_eqb (a b : option string) : bool := bool_decide (a = b).

Definition save_watchlist (w : Watchlist) (s : watch_store) : watch_store :=
  set_watchlists (o_save (wl_id w) w (ws_watchlists s)) s.
Definition get_watchlist (i : string) (s : watch_store) : option Watchlist := o_get i (ws_watchlists s).

Definition list_watchlists (enabled : option bool) (owner status : option string) (s : watch_store)
    : list Watchlist :=
  let items := filtered Bool.eqb wl_enabled enabled (o_list (ws_watchlists s)) in
  let items := filtered opt_string_eqb wl_owner_id (Some <$> owner) items in
  filtered String.eqb (fun w => watchlist_status_value (wl_status w)) (lower <$> (strip <$> status)) items.

Definition save_item (i : WatchlistItem) (s : watch_store) : watch_store :=
  set_items (o_save (it_id i) i (ws_items s)) s.
Definition get_item (i : string) (s : watch_store) : option WatchlistItem := o_get i (ws_items s).
Definition list_items (watchlist : option string) (enabled : option bool) (s : watch_store)
    : list WatchlistItem :=
  filtered Bool.eqb it_enabled enabled
    (filtered String.eqb it_watchlist_id watchlist (o_list (ws_items s))).

Definition delete_item (i : string) (s : watch_store) : bool * watch_store :=
  match get_item i s with
  | None => (false, s)
  | Some _ => (true, set_items (o_delete i (ws_items s)) s)
  end.

Definition save_alert (a : Alert) (s : watch_store) : watch_store :=
  set_alerts (o_save (al_id a) a (ws_alerts s)) s.
Definition get_alert (i : string) (s : watch_store) : option Alert := o_get i (ws_alerts s).
Definition list_alerts (watchlist item type status : option string) (limit : Z) (s : watch_store)
    : list Alert :=
  let ordered := filtered String.eqb al_watchlist_id watchlist (o_newest (ws_alerts s)) in
  let ordered := filtered String.eqb al_item_id item ordered in
  let ordered := filtered String.eqb (fun a => alert_type_value (al_type a)) (lower <$> (strip <$> type)) ordered in
  let ordered := filtered String.eqb (fun a => alert_status_value (al_status a)) (lower <$> (strip <$> status)) ordered in
  take_z limit ordered.

Definition delete_alerts_for_watchlist (w : string) (s : watch_store) : Z * watch_store :=
  let to_remove := map fst (List.filter (fun kv => String.eqb (al_watchlist_id kv.2) w)
                             (map_to_list (o_map (ws_alerts s)))) in
  (Z.of_nat (length to_remove),
   set_alerts (fold_left (fun d i => o_delete i d) to_remove (ws_alerts s)) s).

Definition delete_watchlist (w : string) (s : watch_store) : bool * watch_store :=
  match get_watchlist w s with
  | None => (false, s)
  | Some _ =>
      let s := set_watchlists (o_delete w (ws_watchlists s)) s in
      let ids := map fst (List.filter (fun kv => String.eqb (it_watchlist_id kv.2) w)
                           (map_to_list (o_map (ws_items s)))) in
      let s := fold_left (fun s i => (delete_item i s).2) ids s in
      (true, (delete_alerts_for_watchlist w s).2)
  end.

Definition save_history_entry (e : WatchlistHistoryEntry) (s : watch_store) : watch_store :=
  set_history (o_save (wh_id e) e (ws_history s)) s.
Definition list_history (w : string) (limit : Z) (s : watch_store) : list WatchlistHistoryEntry :=
  take_z limit
    (List.filter (fun e => String.eqb (wh_watchlist_id e) w) (o_newest (ws_history s))).

(** Every record is under its own id. *)
Record watch_ok (s : watch_store) : Prop := {
  ok_watchlists : o_ok (ws_watchlists s);
  ok_watchlist_ids k w : o_map (ws_watchlists s) !! k = Some w -> wl_id w = k;
  ok_items : o_ok (ws_items s);
  ok_item_ids k i : o_map (ws_items s) !! k = Some i -> it_id i = k;
  ok_alerts : o_ok (ws_alerts s)
}.
End WatchMemory.
