(* ===== verification/Notify.v ===== *)
(** The notification center: entities ([app/domain/entities/notifications.py]),
    quiet hours ([app/notifications/preferences.py]), digests
    ([app/notifications/digest/builder.py]), templates
    ([app/notifications/email/renderer.py]), the simulated mail
    ([app/notifications/email/provider.py]) and the in-memory repository
    ([app/notifications/memory.py]). The services are in [AlertWorld].

    The dash in the subject of a digest and in the marker of a simulated mail
    stands as its UTF-8 bytes. *)

From S2P Require Import Prelude PyStr Clock PyState Float Password Watch.
Import PyFloat Ordered Watchlists WatchMemory.
#[local] Open Scope Z_scope.
#[local] Open Scope py_scope.

(** ** Values of a payload *)
Module Values.

Inductive pvalue := PNone | PBool (b : bool) | PInt (z : Z) | PFloat (x : float) | PText (s : string).

(** [str(value)]. *)
Definition py_str (v : pvalue) : string :=
  match v with
  | PNone => "None"
  | PBool b => if b then "True" else "False"
  | PInt z => Int.str_int z
  | PFloat x => repr x
  | PText s => s
  end.

Definition POpt {A} (f : A -> pvalue) (o : option A) : pvalue :=
  match o with Some a => f a | None => PNone end.

(** [{**d, **e}]. *)
Definition d_update {V} (d e : dict V) : dict V := fold_left (fun d kv => d_set kv.1 kv.2 d) e d.
End Values.
Import Values.

(** ** The entities *)
Module Notifications.

Inductive NotificationType :=
| NT_PRICE_DROP | NT_PRICE_INCREASE | NT_RESTOCK | NT_OUT_OF_STOCK | NT_LOW_INVENTORY | NT_BETTER_OFFER
| NT_DEALSCORE_THRESHOLD | NT_FRESHNESS_WARNING | NT_SYSTEM | NT_DIGEST | NT_AVAILABILITY_CHANGE
| NT_SELLER_CHANGE.
Inductive NotificationSeverity := NS_INFO | NS_WARNING | NS_HIGH | NS_CRITICAL.
Inductive DigestPeriod := DAILY | WEEKLY.
Inductive DigestStatus := DS_PENDING | DS_SIMULATED | DS_FAILED.

#[global] Instance NotificationType_eq_dec : EqDecision NotificationType.
Proof. solve_decision. Defined.
#[global] Instance NotificationSeverity_eq_dec : EqDecision NotificationSeverity.
Proof. solve_decision. Defined.

Record Notification := {
  n_id : string; n_user_id : string; n_title : string; n_body : string; n_type : NotificationType;
  n_severity : NotificationSeverity; n_created_at : datetime; n_watchlist_id : option string;
  n_alert_id : option string; n_alert_event_id : option string; n_channel : NotificationChannel;
  n_read_at : option datetime; n_archived_at : option datetime;
  n_delivery_status : NotificationStatus; n_metadata : dict pvalue
}.

Record UserNotificationPreferences := {
  np_user_id : string; np_created_at : datetime; in_app_enabled : bool; email_enabled : bool;
  immediate_alerts : bool; daily_digest : bool; weekly_digest : bool;
  quiet_hours_start : option string; quiet_hours_end : option string; np_timezone : string;
  price_alerts : bool; stock_alerts : bool; freshness_warnings : bool; marketing_enabled : bool;
  np_updated_at : option datetime
}.

Record NotificationDelivery := {
  nd_id : string; nd_notification_id : string; nd_channel : NotificationChannel;
  nd_status : NotificationStatus; nd_created_at : datetime; nd_attempt : Z; nd_error : option string;
  nd_simulated : bool
}.

Record NotificationTemplate := {
  nt_id : string; nt_name : string; subject_template : string; body_template : string;
  nt_channel : NotificationChannel
}.

Record NotificationDigest := {
  dg_id : string; dg_user_id : string; dg_period : DigestPeriod; dg_notification_ids : list string;
  dg_status : DigestStatus; dg_created_at : datetime
}.

Record UnsubscribeToken := {
  ut_hash : string; ut_user_id : string; ut_created_at : datetime; ut_revoked_at : option datetime
}.

(** [replace(notification, read_at=...)], [..., archived_at=...]. *)
Definition with_read (n : Notification) (now : datetime) : Notification :=
  {| n_id := n_id n; n_user_id := n_user_id n; n_title := n_title n; n_body := n_body n;
     n_type := n_type n; n_severity := n_severity n; n_created_at := n_created_at n;
     n_watchlist_id := n_watchlist_id n; n_alert_id := n_alert_id n;
     n_alert_event_id := n_alert_event_id n; n_channel := n_channel n; n_read_at := Some now;
     n_archived_at := n_archived_at n; n_delivery_status := n_delivery_status n;
     n_metadata := n_metadata n |}.
Definition with_archived (n : Notification) (now : datetime) : Notification :=
  {| n_id := n_id n; n_user_id := n_user_id n; n_title := n_title n; n_body := n_body n;
     n_type := n_type n; n_severity := n_severity n; n_created_at := n_created_at n;
     n_watchlist_id := n_watchlist_id n; n_alert_id := n_alert_id n;
     n_alert_event_id := n_alert_event_id n; n_channel := n_channel n; n_read_at := n_read_at n;
     n_archived_at := Some now; n_delivery_status := n_delivery_status n;
     n_metadata := n_metadata n |}.
Definition with_digest_status (d : NotificationDigest) (s : DigestStatus) : NotificationDigest :=
  {| dg_id := dg_id d; dg_user_id := dg_user_id d; dg_period := dg_period d;
     dg_notification_ids := dg_notification_ids d; dg_status := s; dg_created_at := dg_created_at d |}.
End Notifications.
Import Notifications.

(** ** Preferences *)
Module Preferences.

Definition default_preferences (user : string) (created : datetime) : UserNotificationPreferences :=
  {| np_user_id := user; np_created_at := created; in_app_enabled := true; email_enabled := false;
     immediate_alerts := true; daily_digest := false; weekly_digest := false;
     quiet_hours_start := None; quiet_hours_end := None; np_timezone := "UTC"; price_alerts := true;
     stock_alerts := true; freshness_warnings := true; marketing_enabled := false;
     np_updated_at := None |}.

Definition day_us : Z := 86400000000.

(** [time(hour=h, minute=m)], as microseconds of the day; [None] for the
    [ValueError] of a part that is no number or out of range. *)
Definition make_time (h m : Z) : option Z :=
  if (0 <=? h) && (h <=? 23) && (0 <=? m) && (m <=? 59) then Some ((h * 60 + m) * 60000000) else None.

Definition _parse_hhmm (value : string) : option Z :=
  let cleaned := strip value in
  let hour := before ":" cleaned in
  let minute := if has_char ":" cleaned then after ":" cleaned else ""%string in
  match Int.py_int hour, Int.py_int (if nonempty minute then minute else "0"%string) with
  | Some h, Some m => make_time h m
  | _, _ => None
  end.

(** [now.time()]. *)
Definition time_of (now : datetime) : Z := dt_us now mod day_us.

Definition blank (o : option string) : bool := match o with Some s => negb (nonempty s) | None => true end.

(** [None] when an hour cannot be read. *)
Definition is_within_quiet_hours (p : UserNotificationPreferences) (now : datetime) : option bool :=
  if blank (quiet_hours_start p) || blank (quiet_hours_end p) then Some false
  else
    match _parse_hhmm (from_option id ""%string (quiet_hours_start p)),
          _parse_hhmm (from_option id ""%string (quiet_hours_end p)) with
    | Some first, Some last =>
        let current := time_of now in
        Some (if first <=? last then (first <=? current) && (current <? last)
              else (first <=? current) || (current <? last))
    | _, _ => None
    end.

Definition should_suppress_immediate_alert (p : UserNotificationPreferences) (now : datetime) : option bool :=
  if negb (immediate_alerts p) then Some true else is_within_quiet_hours p now.

Definition channel_enabled (p : UserNotificationPreferences) (channel : string) : bool :=
  if String.eqb channel "in_app" then in_app_enabled p
  else if String.eqb channel "email" then email_enabled p
  else false.

Example quiet_nights :
  let p first last := {| np_user_id := "u"; np_created_at := Datetime 0 true; in_app_enabled := true;
     email_enabled := true; immediate_alerts := true; daily_digest := false; weekly_digest := false;
     quiet_hours_start := Some first; quiet_hours_end := Some last; np_timezone := "UTC";
     price_alerts := true; stock_alerts := true; freshness_warnings := true; marketing_enabled := false;
     np_updated_at := None |} in
  let at_hour h := Datetime (h * 3600000000) true in
  (map (fun h => is_within_quiet_hours (p "22:00" "07:00") (at_hour h)) [21; 22; 30; 31],
   map (fun h => is_within_quiet_hours (p " 9 " "17:30") (at_hour h)) [8; 9; 17; 18],
   is_within_quiet_hours (p "24:00" "07:00") (at_hour 1))%string
  = ([Some false; Some true; Some true; Some false], [Some false; Some true; Some true; Some false], None).
Proof. vm_compute. reflexivity. Qed.
End Preferences.
Import Preferences.

(** ** Digests *)
Module Digests.

Definition is_none {A} (o : option A) : bool := negb (is_some o).

Definition select_pending_notifications (notifications : list Notification) (since : option datetime)
    : list Notification :=
  let selected := List.filter (fun n => is_none (n_read_at n) && is_none (n_archived_at n)) notifications in
  match since with
  | Some t => List.filter (fun n => dt_us t <=? dt_us (n_created_at n)) selected
  | None => selected
  end.

Definition build_digest (user : string) (period : DigestPeriod) (notifications : list Notification)
    (created : datetime) (since : option datetime) (digest_id : string) : NotificationDigest :=
  {| dg_id := digest_id; dg_user_id := user; dg_period := period;
     dg_notification_ids := map n_id (select_pending_notifications notifications since);
     dg_status := DS_PENDING; dg_created_at := created |}.

Definition has_content (d : NotificationDigest) : bool := 0 <? Z.of_nat (length (dg_notification_ids d)).
Definition mark_simulated (d : NotificationDigest) : NotificationDigest := with_digest_status d DS_SIMULATED.
Definition mark_failed (d : NotificationDigest) : NotificationDigest := with_digest_status d DS_FAILED.
End Digests.
Import Digests.

(** ** Templates *)
Module Renderer.

(** [html.escape]. *)
Definition escape_char (c : ascii) : string :=
  if Ascii.eqb c "&" then "&amp;"
  else if Ascii.eqb c "<" then "&lt;"
  else if Ascii.eqb c ">" then "&gt;"
  else if (nat_of_ascii c =? 34)%nat then "&quot;"
  else if (nat_of_ascii c =? 39)%nat then "&#x27;"
  else String c "".
Definition html_escape (s : string) : string := of_chars (flat_map (fun c => chars (escape_char c)) (chars s)).

Definition name_start (c : ascii) : bool := is_ascii_upper c || is_ascii_lower c || Ascii.eqb c "_".
Definition name_char (c : ascii) : bool := name_start c || is_digit c.

Fixpoint take_while (f : ascii -> bool) (l : list ascii) : list ascii :=
  match l with
  | c :: r => if f c then c :: take_while f r else []
  | [] => []
  end.

(** One match of [\{\{\s*NAME\s*\}\}] at the front: the name and what follows. *)
Definition placeholder (l : list ascii) : option (string * list ascii) :=
  match l with
  | a :: b :: r =>
      if Ascii.eqb a "{" && Ascii.eqb b "{" then
        let r := drop_while isspace r in
        match r with
        | c :: _ =>
            if name_start c then
              match drop_while isspace (drop_while name_char r) with
              | x :: y :: rest =>
                  if Ascii.eqb x "}" && Ascii.eqb y "}" then Some (of_chars (take_while name_char r), rest)
                  else None
              | _ => None
              end
            else None
        | [] => None
        end
      else None
  | _ => None
  end.

Definition _stringify (v : option pvalue) : string :=
  match v with Some PNone | None => ""%string | Some v => py_str v end.

(** [_PLACEHOLDER_RE.sub(_replace, template)]; a match is not empty, so the
    length of the template bounds the scan. *)
Fixpoint substitute (fuel : nat) (value : string -> string) (l : list ascii) : list ascii :=
  match fuel with
  | O => []
  | S fuel =>
      match l with
      | [] => []
      | c :: r =>
          match placeholder l with
          | Some (name, rest) => chars (value name) ++ substitute fuel value rest
          | None => c :: substitute fuel value r
          end
      end
  end.

Definition render_template (template : string) (context : dict pvalue) (escape_html : bool) : string :=
  let value name :=
    let text := _stringify (d_get name context) in
    if escape_html then html_escape text else text in
  of_chars (substitute (length (chars template)) value (chars template)).

Definition render_subject_and_body (t : NotificationTemplate) (context : dict pvalue) (escape_html : bool)
    : string * string :=
  (render_template (subject_template t) context escape_html,
   render_template (body_template t) context escape_html).
Definition render_plain_text (t : string) (context : dict pvalue) : string := render_template t context false.
Definition render_html (t : string) (context : dict pvalue) : string := render_template t context true.

Example rendered :
  render_template "{{ product_label }} is {{now}} <{price}> {{missing}}{{9}}" 
    [("product_label", PText "<b> & 'x'"); ("now", PFloat (of_ratio 5 2))]%string true
  = "&lt;b&gt; &amp; &#x27;x&#x27; is 2.5 <{price}> {{9}}"%string.
Proof. vm_compute. reflexivity. Qed.
End Renderer.
Import Renderer.

(** ** The simulated mail *)
Module Mail.

Record EmailMessage := {
  to_address : string; subject : string; body_text : string; body_html : option string
}.
Record EmailSendResult := {
  message_id : string; sent_to : string; sent_subject : string; sent_at : datetime; simulated : bool;
  detail : string; body_length : string
}.

Definition em_dash : string := of_chars (map ascii_of_nat [226; 128; 148]%nat).
Definition SIMULATED_EMAIL_MARKER : string := "SIMULATED EMAIL " +:+ em_dash +:+ " NO REAL MESSAGE SENT".

(** [MockEmailNotificationProvider.send]. *)
Definition send_result (m : EmailMessage) (message_id : string) (now : datetime) : EmailSendResult :=
  {| message_id := message_id; sent_to := to_address m; sent_subject := subject m; sent_at := now;
     simulated := true;
     detail := SIMULATED_EMAIL_MARKER +:+ ". Would have sent '" +:+ subject m +:+ "' to "
               +:+ to_address m +:+ ".";
     body_length := Int.str_int (len (body_text m)) |}.
End Mail.
Import Mail.

(** ** [InMemoryNotificationCenterRepository] *)
Module CenterMemory.

Record center_store := {
  c_notifications : ordered Notification; c_deliveries : gmap string (list NotificationDelivery);
  c_templates : ordered NotificationTemplate; c_digests : ordered NotificationDigest;
  c_preferences : gmap string UserNotificationPreferences; c_tokens : gmap string UnsubscribeToken
}.

Definition empty_center : center_store :=
  {| c_notifications := o_empty; c_deliveries := ∅; c_templates := o_empty; c_digests := o_empty;
     c_preferences := ∅; c_tokens := ∅ |}.

Definition set_notifications x (s : center_store) : center_store :=
  {| c_notifications := x; c_deliveries := c_deliveries s; c_templates := c_templates s;
     c_digests := c_digests s; c_preferences := c_preferences s; c_tokens := c_tokens s |}.
Definition set_deliveries x (s : center_store) : center_store :=
  {| c_notifications := c_notifications s; c_deliveries := x; c_templates := c_templates s;
     c_digests := c_digests s; c_preferences := c_preferences s; c_tokens := c_tokens s |}.
Definition set_templates x (s : center_store) : center_store :=
  {| c_notifications := c_notifications s; c_deliveries := c_deliveries s; c_templates := x;
     c_digests := c_digests s; c_preferences := c_preferences s; c_tokens := c_tokens s |}.
Definition set_digests x (s : center_store) : center_store :=
  {| c_notifications := c_notifications s; c_deliveries := c_deliveries s; c_templates := c_templates s;
     c_digests := x; c_preferences := c_preferences s; c_tokens := c_tokens s |}.
Definition set_preferences x (s : center_store) : center_store :=
  {| c_notifications := c_notifications s; c_deliveries := c_deliveries s; c_templates := c_templates s;
     c_digests := c_digests s; c_preferences := x; c_tokens := c_tokens s |}.
Definition set_tokens x (s : center_store) : center_store :=
  {| c_notifications := c_notifications s; c_deliveries := c_deliveries s; c_templates := c_templates s;
     c_digests := c_digests s; c_preferences := c_preferences s; c_tokens := x |}.

Definition save_notification (n : Notification) (s : center_store) : center_store :=
  set_notifications (o_save (n_id n) n (c_notifications s)) s.
Definition get_notification (i : string) (s : center_store) : option Notification := o_get i (c_notifications s).

Definition list_notifications (user : string) (unread_only include_archived : bool) (limit : Z) (s : center_store)
    : list Notification :=
  let l := List.filter (fun n => String.eqb (n_user_id n) user) (o_newest (c_notifications s)) in
  let l := if include_archived then l else List.filter (fun n => is_none (n_archived_at n)) l in
  let l := if unread_only then List.filter (fun n => is_none (n_read_at n)) l else l in
  take_z limit l.

(** [NotificationNotFoundError] is [None]. *)
Definition mark_read (i : string) (now : datetime) (s : center_store) : option Notification * center_store :=
  match get_notification i s with
  | None => (None, s)
  | Some n =>
      if is_some (n_read_at n) then (Some n, s)
      else (Some (with_read n now), set_notifications (o_put i (with_read n now) (c_notifications s)) s)
  end.
Definition archive_notification (i : string) (now : datetime) (s : center_store) : option Notification * center_store :=
  match get_notification i s with
  | None => (None, s)
  | Some n =>
      if is_some (n_archived_at n) then (Some n, s)
      else (Some (with_archived n now), set_notifications (o_put i (with_archived n now) (c_notifications s)) s)
  end.

Definition unread_of (user : string) (n : Notification) : bool :=
  String.eqb (n_user_id n) user && is_none (n_read_at n) && is_none (n_archived_at n).
Definition count_unread (user : string) (s : center_store) : Z :=
  Z.of_nat (length (List.filter (unread_of user) (map snd (map_to_list (o_map (c_notifications s)))))).

Definition delete_notification (i : string) (s : center_store) : bool * center_store :=
  match get_notification i s with
  | None => (false, s)
  | Some _ => (true, set_deliveries (delete i (c_deliveries s))
                       (set_notifications (o_delete i (c_notifications s)) s))
  end.

Definition list_deliveries (i : string) (s : center_store) : list NotificationDelivery :=
  default [] (c_deliveries s !! i).
Definition save_delivery (d : NotificationDelivery) (s : center_store) : center_store :=
  set_deliveries (<[nd_notification_id d := list_deliveries (nd_notification_id d) s ++ [d]]> (c_deliveries s)) s.

Definition save_template (t : NotificationTemplate) (s : center_store) : center_store :=
  set_templates (o_save (nt_id t) t (c_templates s)) s.
Definition get_template (i : string) (s : center_store) : option NotificationTemplate := o_get i (c_templates s).
Definition list_templates (s : center_store) : list NotificationTemplate := o_list (c_templates s).

Definition save_digest (d : NotificationDigest) (s : center_store) : center_store :=
  set_digests (o_save (dg_id d) d (c_digests s)) s.
Definition get_digest (i : string) (s : center_store) : option NotificationDigest := o_get i (c_digests s).
Definition list_digests (user : string) (limit : Z) (s : center_store) : list NotificationDigest :=
  take_z limit
    (List.filter (fun d => String.eqb (dg_user_id d) user) (o_newest (c_digests s))).

Definition save_preferences (p : UserNotificationPreferences) (s : center_store) : center_store :=
  set_preferences (<[np_user_id p := p]> (c_preferences s)) s.
Definition get_preferences (user : string) (s : center_store) : option UserNotificationPreferences :=
  c_preferences s !! user.
Definition delete_preferences (user : string) (s : center_store) : bool * center_store :=
  (is_some (c_preferences s !! user), set_preferences (delete user (c_preferences s)) s).

Definition save_unsubscribe_token (t : UnsubscribeToken) (s : center_store) : center_store :=
  set_tokens (<[ut_hash t := t]> (c_tokens s)) s.
Definition get_unsubscribe_token (h : string) (s : center_store) : option UnsubscribeToken := c_tokens s !! h.
Definition revoked (t : UnsubscribeToken) (now : datetime) : UnsubscribeToken :=
  {| ut_hash := ut_hash t; ut_user_id := ut_user_id t; ut_created_at := ut_created_at t;
     ut_revoked_at := Some now |}.
Definition revoke_unsubscribe_token (h : string) (now : datetime) (s : center_store) : bool * center_store :=
  match c_tokens s !! h with
  | None => (false, s)
  | Some t => if is_some (ut_revoked_at t) then (true, s)
              else (true, set_tokens (<[h := revoked t now]> (c_tokens s)) s)
  end.
End CenterMemory.
