(* ===== verification/Alerts.v ===== *)
(** Alert rules: entities ([app/domain/entities/alerts.py]), the keys that keep
    an occurrence from being raised twice ([app/alerts/engine/dedupe.py]), the
    evaluation of conditions ([app/alerts/engine/evaluator.py]) and the
    in-memory repository ([app/alerts/memory.py]). The services are in
    [AlertWorld].

    An observation has the keys its builder sets, with the types it gives them:
    a missing key and [None] are the same to the engine, and [_as_float] meets
    no text, so the only condition that cannot be evaluated is one without the
    threshold it requires. *)

From S2P Require Import Prelude PyStr Json Clock PyState Float Password Watch Notify.
Import PyFloat Ordered Watchlists WatchMemory Values.
#[local] Open Scope Z_scope.
#[local] Open Scope py_scope.

(** ** The entities *)
Module AlertEntities.

Inductive AlertConditionType :=
| PRICE_DROP | PERCENTAGE_PRICE_DECREASE | ABSOLUTE_PRICE_DECREASE | PRICE_INCREASE
| TARGET_PRICE_REACHED | HISTORICAL_LOW | DEALSCORE_IMPROVED | DEALSCORE_THRESHOLD | RESTOCKED
| UNAVAILABLE | LOW_INVENTORY | BETTER_OFFER | PREFERRED_SELLER_AVAILABLE
| PREFERRED_MARKETPLACE_AVAILABLE | STALE_DATA | FRESHNESS_RESTORED.

#[global] Instance AlertConditionType_eq_dec : EqDecision AlertConditionType.
Proof. solve_decision. Defined.

Definition condition_value (t : AlertConditionType) : string :=
  match t with
  | PRICE_DROP => "price_drop" | PERCENTAGE_PRICE_DECREASE => "percentage_price_decrease"
  | ABSOLUTE_PRICE_DECREASE => "absolute_price_decrease" | PRICE_INCREASE => "price_increase"
  | TARGET_PRICE_REACHED => "target_price_reached" | HISTORICAL_LOW => "historical_low"
  | DEALSCORE_IMPROVED => "dealscore_improved" | DEALSCORE_THRESHOLD => "dealscore_threshold"
  | RESTOCKED => "restocked" | UNAVAILABLE => "unavailable" | LOW_INVENTORY => "low_inventory"
  | BETTER_OFFER => "better_offer" | PREFERRED_SELLER_AVAILABLE => "preferred_seller_available"
  | PREFERRED_MARKETPLACE_AVAILABLE => "preferred_marketplace_available"
  | STALE_DATA => "stale_data" | FRESHNESS_RESTORED => "freshness_restored"
  end%string.

Definition all_condition_types : list AlertConditionType :=
  [PRICE_DROP; PERCENTAGE_PRICE_DECREASE; ABSOLUTE_PRICE_DECREASE; PRICE_INCREASE;
   TARGET_PRICE_REACHED; HISTORICAL_LOW; DEALSCORE_IMPROVED; DEALSCORE_THRESHOLD; RESTOCKED;
   UNAVAILABLE; LOW_INVENTORY; BETTER_OFFER; PREFERRED_SELLER_AVAILABLE;
   PREFERRED_MARKETPLACE_AVAILABLE; STALE_DATA; FRESHNESS_RESTORED].

(** [AlertConditionType(raw_type)]; [None] is the [ValueError]. *)
Definition condition_of_value (s : string) : option AlertConditionType :=
  List.find (fun t => String.eqb (condition_value t) s) all_condition_types.

Lemma condition_value_inj t t' : condition_value t = condition_value t' -> t = t'.
Proof. by destruct t, t'. Qed.

Lemma condition_of_value_ok t : condition_of_value (condition_value t) = Some t.
Proof. by destruct t. Qed.

Inductive AlertSeverity := SEV_INFO | SEV_WARNING | SEV_HIGH | SEV_CRITICAL.
Inductive AlertRepeatPolicy := ONE_TIME | RECURRING.
Inductive AlertRuleStatus := ENABLED | DISABLED.
Inductive AlertEventType :=
| EV_PRICE_DROP | EV_PRICE_INCREASE | EV_RESTOCK | EV_OUT_OF_STOCK | EV_AVAILABILITY_CHANGE
| EV_SELLER_CHANGE | EV_BETTER_OFFER | EV_FRESHNESS_WARNING | EV_LOW_INVENTORY | EV_DEALSCORE_CHANGE.

#[global] Instance AlertRepeatPolicy_eq_dec : EqDecision AlertRepeatPolicy.
Proof. solve_decision. Defined.
#[global] Instance AlertRuleStatus_eq_dec : EqDecision AlertRuleStatus.
Proof. solve_decision. Defined.
#[global] Instance AlertEventType_eq_dec : EqDecision AlertEventType.
Proof. solve_decision. Defined.

Definition event_type_value (t : AlertEventType) : string :=
  match t with
  | EV_PRICE_DROP => "price_drop" | EV_PRICE_INCREASE => "price_increase" | EV_RESTOCK => "restock"
  | EV_OUT_OF_STOCK => "out_of_stock" | EV_AVAILABILITY_CHANGE => "availability_change"
  | EV_SELLER_CHANGE => "seller_change" | EV_BETTER_OFFER => "better_offer"
  | EV_FRESHNESS_WARNING => "freshness_warning" | EV_LOW_INVENTORY => "low_inventory"
  | EV_DEALSCORE_CHANGE => "dealscore_change"
  end%string.

Record AlertCondition := {
  condition_type : AlertConditionType; threshold_value : option float;
  threshold_percent : option float; comparison : option string
}.

Record AlertRule := {
  rule_id : string; ru_user_id : string; ru_name : string; conditions : list AlertCondition;
  ru_created_at : datetime; ru_watchlist_id : option string; ru_item_id : option string;
  ru_enabled : bool; ru_status : AlertRuleStatus; cooldown_seconds : Z;
  last_triggered_at : option datetime; repeat_policy : AlertRepeatPolicy; ru_severity : AlertSeverity;
  ru_timezone : string; channel_preferences : list NotificationChannel;
  ru_updated_at : option datetime; one_time_fired : bool
}.

Record AlertEvaluation := {
  ae_id : string; triggered : bool; reason : string; evaluated_at : datetime;
  ae_rule_id : option string; ae_watchlist_id : option string; ae_item_id : option string;
  observation_fp : option string; partial_failure : bool; error : option string
}.

Record AlertEvent := {
  ev_id : string; ev_user_id : string; ev_type : AlertEventType; ev_severity : AlertSeverity;
  ev_created_at : datetime; dedupe_key : string; ev_rule_id : option string;
  ev_alert_id : option string; payload : dict pvalue
}.

(** *** The typed factories: what each puts in the payload. *)
Section Factories.
Variables (event_id user key : string) (created : datetime) (rule : option string) (severity : AlertSeverity).

Definition make_event (t : AlertEventType) (sev : AlertSeverity) (p : dict pvalue) : AlertEvent :=
  {| ev_id := event_id; ev_user_id := user; ev_type := t; ev_severity := sev; ev_created_at := created;
     dedupe_key := key; ev_rule_id := rule; ev_alert_id := None; payload := p |}.

Definition price_drop (previous current currency : pvalue) : AlertEvent :=
  make_event EV_PRICE_DROP severity
    [("previous_price", previous); ("current_price", current); ("currency", currency)]%string.
Definition price_increase (previous current currency : pvalue) : AlertEvent :=
  make_event EV_PRICE_INCREASE severity
    [("previous_price", previous); ("current_price", current); ("currency", currency)]%string.
Definition restock (quantity : pvalue) : AlertEvent :=
  make_event EV_RESTOCK severity [("quantity", quantity)]%string.
Definition out_of_stock : AlertEvent := make_event EV_OUT_OF_STOCK severity [].
Definition availability_change (previous current : string) : AlertEvent :=
  make_event EV_AVAILABILITY_CHANGE severity
    [("previous_availability", PText previous); ("current_availability", PText current)]%string.
Definition seller_change (seller : string) (is_preferred : bool) : AlertEvent :=
  make_event EV_SELLER_CHANGE severity
    [("seller_name", PText seller); ("is_preferred", PBool is_preferred)]%string.
Definition better_offer (offer : string) (total currency : pvalue) : AlertEvent :=
  make_event EV_BETTER_OFFER severity
    [("offer_id", PText offer); ("total_price", total); ("currency", currency)]%string.
Definition freshness_warning (age_hours : pvalue) (restored : bool) : AlertEvent :=
  make_event EV_FRESHNESS_WARNING (if restored then SEV_INFO else severity)
    [("age_hours", age_hours); ("restored", PBool restored)]%string.
Definition low_inventory (inventory : pvalue) : AlertEvent :=
  make_event EV_LOW_INVENTORY severity [("inventory", inventory)]%string.
Definition dealscore_change (dealscore previous : pvalue) : AlertEvent :=
  make_event EV_DEALSCORE_CHANGE severity
    [("dealscore", dealscore); ("previous_dealscore", previous)]%string.
End Factories.

(** [AlertEvaluationEngine.mark_triggered]. *)
Definition mark_triggered (r : AlertRule) (now : datetime) : AlertRule :=
  {| rule_id := rule_id r; ru_user_id := ru_user_id r; ru_name := ru_name r; conditions := conditions r;
     ru_created_at := ru_created_at r; ru_watchlist_id := ru_watchlist_id r;
     ru_item_id := ru_item_id r; ru_enabled := ru_enabled r; ru_status := ru_status r;
     cooldown_seconds := cooldown_seconds r; last_triggered_at := Some now;
     repeat_policy := repeat_policy r; ru_severity := ru_severity r; ru_timezone := ru_timezone r;
     channel_preferences := channel_preferences r; ru_updated_at := Some now;
     one_time_fired := one_time_fired r || bool_decide (repeat_policy r = ONE_TIME) |}.

(** [replace(rule, conditions=(condition,), cooldown_seconds=0,
    last_triggered_at=None, one_time_fired=False)]. *)
Definition probe (r : AlertRule) (c : AlertCondition) : AlertRule :=
  {| rule_id := rule_id r; ru_user_id := ru_user_id r; ru_name := ru_name r; conditions := [c];
     ru_created_at := ru_created_at r; ru_watchlist_id := ru_watchlist_id r;
     ru_item_id := ru_item_id r; ru_enabled := ru_enabled r; ru_status := ru_status r;
     cooldown_seconds := 0; last_triggered_at := None; repeat_policy := repeat_policy r;
     ru_severity := ru_severity r; ru_timezone := ru_timezone r;
     channel_preferences := channel_preferences r; ru_updated_at := ru_updated_at r;
     one_time_fired := false |}.
End AlertEntities.
Import AlertEntities.

(** ** Observations *)
Module Observations.

Record observation := {
  price : option float; previous_price : option float; ob_currency : option string;
  inventory : option Z; availability : option string; previous_availability : option string;
  seller : option string; previous_seller : option string; marketplace : option string;
  previous_marketplace : option string; freshness_status : option string;
  previous_freshness_status : option string; age_hours : option float; dealscore : option float;
  previous_dealscore : option float; historical_low : option float; target_price : option float;
  preferred_sellers : list string; preferred_marketplaces : list string;
  better_offer_price : option float
}.
End Observations.
Import Observations.

(** ** Keys *)
Module Dedupe.

(** [_stable_repr] of the values an observation has. *)
Definition repr_float (o : option float) : string :=
  match o with Some x => fixed 6 x | None => "None" end.
Definition repr_int (o : option Z) : string :=
  match o with Some z => Int.str_int z | None => "None" end.
Definition repr_text (o : option string) : string :=
  match o with Some s => s | None => "None" end.

(** [DEFAULT_FINGERPRINT_FIELDS] with the text of each. *)
Definition fingerprint_fields (o : observation) : list (string * string) :=
  [("price", repr_float (price o)); ("previous_price", repr_float (previous_price o));
   ("inventory", repr_int (inventory o)); ("availability", repr_text (availability o));
   ("seller", repr_text (seller o)); ("marketplace", repr_text (marketplace o));
   ("freshness_status", repr_text (freshness_status o)); ("dealscore", repr_float (dealscore o))]%string.

Definition fingerprint_text (o : observation) (t : AlertConditionType) : string :=
  String.concat "|" (("condition=" +:+ condition_value t)
                     :: map (fun kv => kv.1 +:+ "=" +:+ kv.2) (fingerprint_fields o)).

Definition observation_fingerprint (sha256_hex : string -> string) (o : observation)
    (t : AlertConditionType) : string :=
  sha256_hex (utf8 (fingerprint_text o t)).

(** [x or '-']. *)
Definition or_dash (o : option string) : string :=
  match o with Some s => if nonempty s then s else "-"%string | None => "-"%string end.

Definition build_dedupe_key (user : string) (t : AlertConditionType)
    (rule watchlist item fingerprint : option string) : string :=
  String.concat "|"
    ([ "user=" +:+ user; "rule=" +:+ or_dash rule; "watchlist=" +:+ or_dash watchlist;
       "item=" +:+ or_dash item; "condition=" +:+ condition_value t ]
     ++ match fingerprint with Some fp => ["fp=" +:+ fp] | None => [] end).

Definition build_dedupe_key_for_event (sha256_hex : string -> string) (user : string)
    (t : AlertConditionType) (o : observation) (rule watchlist item : option string) : string :=
  build_dedupe_key user t rule watchlist item (Some (observation_fingerprint sha256_hex o t)).
End Dedupe.
Import Dedupe.

(** ** [AlertEvaluationEngine] *)
Module Engine.

Definition _IN_STOCK_VALUES : list string := ["in_stock"; "available"; "preorder"]%string.
Definition _OUT_OF_STOCK_VALUES : list string := ["out_of_stock"; "unavailable"; "sold_out"]%string.
Definition _DEFAULT_LOW_INVENTORY_THRESHOLD : float := of_Z 3.

Definition one_of (l : list string) (s : string) : bool := existsb (String.eqb s) l.

(** *** Who may fire *)

(** [x < c] of a binary64 [x] and an [int]. *)
Definition seconds_lt (x : Z * Z) (c : Z) : bool :=
  let '(m, e) := x in if 0 <=? e then m * 2 ^ e <? c else m <? c * 2 ^ (- e).

Definition is_in_cooldown (r : AlertRule) (now : datetime) : bool :=
  match last_triggered_at r with
  | Some last =>
      if cooldown_seconds r <=? 0 then false
      else seconds_lt (total_seconds (dt_us now - dt_us last)) (cooldown_seconds r)
  | None => false
  end.

Definition is_one_time_exhausted (r : AlertRule) : bool :=
  bool_decide (repeat_policy r = ONE_TIME) && one_time_fired r.

Definition switched_off (r : AlertRule) : bool :=
  negb (ru_enabled r) || negb (bool_decide (ru_status r = ENABLED)).

Definition can_fire (r : AlertRule) (now : datetime) : bool :=
  if switched_off r then false
  else if is_one_time_exhausted r then false
  else negb (is_in_cooldown r now).

Definition _skip_reason (r : AlertRule) (now : datetime) : string :=
  if switched_off r then "rule is disabled"
  else if is_one_time_exhausted r then "one-time rule has already fired"
  else if is_in_cooldown r now then "rule is within its cooldown window"
  else "rule is not eligible to fire".

(** *** The conditions

    Each returns whether it holds and why, or the message of its
    [ConditionEvaluationError]. *)
Definition verdict : Type := result string (bool * string).
Definition holds (why : string) : verdict := Ok (true, why).
Definition fails (why : string) : verdict := Ok (false, why).

Definition _eval_price_drop (o : observation) : verdict :=
  match price o, previous_price o with
  | Some p, Some previous =>
      if f_ltb p previous then holds ("price dropped from " +:+ repr previous +:+ " to " +:+ repr p)
      else fails "price_drop: no decrease"
  | _, _ => fails "price_drop: missing price or previous_price"
  end.

Definition _eval_percentage_price_decrease (c : AlertCondition) (o : observation) : verdict :=
  match price o, previous_price o with
  | Some p, Some previous =>
      if negb (f_truthy previous) then fails "percentage_price_decrease: missing price data"
      else match threshold_percent c with
           | None => Err "percentage_price_decrease requires threshold_percent"%string
           | Some threshold =>
               let pct := f_mul (f_div (f_sub previous p) previous) (of_Z 100) in
               if f_leb threshold pct
               then holds ("price decreased " +:+ fixed 2 pct +:+ "% (threshold " +:+ repr threshold +:+ "%)")
               else fails ("price decreased " +:+ fixed 2 pct +:+ "%, below threshold " +:+ repr threshold +:+ "%")
           end
  | _, _ => fails "percentage_price_decrease: missing price data"
  end.

Definition _eval_absolute_price_decrease (c : AlertCondition) (o : observation) : verdict :=
  match price o, previous_price o with
  | Some p, Some previous =>
      match threshold_value c with
      | None => Err "absolute_price_decrease requires threshold_value"%string
      | Some threshold =>
          let decrease := f_sub previous p in
          if f_leb threshold decrease
          then holds ("price decreased by " +:+ repr decrease +:+ " (threshold " +:+ repr threshold +:+ ")")
          else fails ("price decreased by " +:+ repr decrease +:+ ", below threshold " +:+ repr threshold)
      end
  | _, _ => fails "absolute_price_decrease: missing price data"
  end.

Definition _eval_price_increase (o : observation) : verdict :=
  match price o, previous_price o with
  | Some p, Some previous =>
      if f_ltb previous p then holds ("price increased from " +:+ repr previous +:+ " to " +:+ repr p)
      else fails "price_increase: no increase"
  | _, _ => fails "price_increase: missing price or previous_price"
  end.

(** [x if x is not None else y]. *)
Definition first_some {A} (x y : option A) : option A := match x with Some _ => x | None => y end.

Definition _eval_target_price_reached (c : AlertCondition) (o : observation) : verdict :=
  match price o, first_some (threshold_value c) (target_price o) with
  | Some p, Some target =>
      if f_leb p target then holds ("price " +:+ repr p +:+ " reached target " +:+ repr target)
      else fails ("price " +:+ repr p +:+ " has not reached target " +:+ repr target)
  | _, _ => fails "target_price_reached: missing price or target_price"
  end.

Definition _eval_historical_low (o : observation) : verdict :=
  match price o, historical_low o with
  | Some p, Some low =>
      if f_leb p low then holds ("price " +:+ repr p +:+ " matches or beats historical low " +:+ repr low)
      else fails ("price " +:+ repr p +:+ " is above historical low " +:+ repr low)
  | _, _ => fails "historical_low: missing price or historical_low"
  end.

Definition _eval_dealscore_improved (c : AlertCondition) (o : observation) : verdict :=
  match dealscore o, previous_dealscore o with
  | Some d, Some previous =>
      let threshold := match threshold_value c with
                       | Some t => if f_truthy t then t else f_zero | None => f_zero end in
      let improvement := f_sub d previous in
      if f_leb threshold improvement
      then holds ("DealScore improved by " +:+ fixed 2 improvement +:+ " to " +:+ repr d)
      else fails ("DealScore improvement " +:+ fixed 2 improvement +:+ " below threshold " +:+ repr threshold)
  | _, _ => fails "dealscore_improved: missing dealscore data"
  end.

Definition _eval_dealscore_threshold (c : AlertCondition) (o : observation) : verdict :=
  match dealscore o with
  | None => fails "dealscore_threshold: missing dealscore"
  | Some d =>
      match threshold_value c with
      | None => Err "dealscore_threshold requires threshold_value"%string
      | Some threshold =>
          let how := match comparison c with
                     | Some s => if nonempty s then s else "gte"%string | None => "gte"%string end in
          let text met := "DealScore " +:+ repr d +:+ met +:+ " threshold (" +:+ how +:+ " "
                          +:+ repr threshold +:+ ")" in
          if (if String.eqb how "lte" then f_leb d threshold else f_leb threshold d)
          then holds (text " met") else fails (text " did not meet")
      end
  end.

Definition _eval_restocked (o : observation) : verdict :=
  match availability o with
  | None => fails "restocked: missing availability"
  | Some a =>
      if negb (one_of _IN_STOCK_VALUES a) then fails "restocked: currently unavailable"
      else match previous_availability o with
           | None => fails "restocked: no previous availability to compare"
           | Some previous =>
               if one_of _OUT_OF_STOCK_VALUES previous
               then holds ("item restocked (" +:+ previous +:+ " -> " +:+ a +:+ ")")
               else fails "restocked: was already available"
           end
  end.

Definition _eval_unavailable (o : observation) : verdict :=
  match availability o with
  | None => fails "unavailable: missing availability"
  | Some a =>
      if negb (one_of _OUT_OF_STOCK_VALUES a) then fails "unavailable: currently available"
      else if match previous_availability o with
              | Some previous => one_of _OUT_OF_STOCK_VALUES previous | None => false end
           then fails "unavailable: was already out of stock"
           else holds ("item became unavailable (" +:+ a +:+ ")")
  end.

Definition _eval_low_inventory (low : float) (c : AlertCondition) (o : observation) : verdict :=
  match inventory o with
  | None => fails "low_inventory: missing inventory"
  | Some n =>
      let threshold := default low (threshold_value c) in
      if f_leb (of_Z n) threshold
      then holds ("inventory " +:+ repr (of_Z n) +:+ " at or below threshold " +:+ repr threshold)
      else fails ("inventory " +:+ repr (of_Z n) +:+ " above threshold " +:+ repr threshold)
  end.

Definition _eval_better_offer (o : observation) : verdict :=
  match better_offer_price o with
  | None => fails "better_offer: no competing offer present"
  | Some better =>
      match price o with
      | None => holds ("better offer available at " +:+ repr better)
      | Some p => if f_ltb better p
                  then holds ("better offer at " +:+ repr better +:+ " beats current price " +:+ repr p)
                  else fails "better_offer: no cheaper offer found"
      end
  end.

Definition _eval_preferred_seller_available (o : observation) : verdict :=
  match seller o, preferred_sellers o with
  | None, _ | _, [] => fails "preferred_seller_available: missing seller or preferred_sellers"
  | Some s, preferred =>
      if negb (one_of preferred s)
      then fails ("preferred_seller_available: seller " +:+ s +:+ " not preferred")
      else if bool_decide (previous_seller o = Some s)
           then fails "preferred_seller_available: unchanged from previous observation"
           else holds ("preferred seller " +:+ s +:+ " is now available")
  end.

Definition _eval_preferred_marketplace_available (o : observation) : verdict :=
  match marketplace o, preferred_marketplaces o with
  | None, _ | _, [] =>
      fails "preferred_marketplace_available: missing marketplace or preferred_marketplaces"
  | Some m, preferred =>
      if negb (one_of preferred m) then fails ("preferred_marketplace_available: " +:+ m +:+ " not preferred")
      else if bool_decide (previous_marketplace o = Some m)
           then fails "preferred_marketplace_available: unchanged from previous observation"
           else holds ("preferred marketplace " +:+ m +:+ " is now available")
  end.

Definition _eval_stale_data (c : AlertCondition) (o : observation) : verdict :=
  match threshold_value c, age_hours o with
  | Some threshold, Some age =>
      if f_leb threshold age
      then holds ("data age " +:+ repr age +:+ "h exceeds threshold " +:+ repr threshold +:+ "h")
      else fails ("data age " +:+ repr age +:+ "h below threshold " +:+ repr threshold +:+ "h")
  | _, _ =>
      match freshness_status o with
      | None => fails "stale_data: missing freshness_status"
      | Some s => if String.eqb s "stale" then holds "data marked stale" else fails "stale_data: data is fresh"
      end
  end.

Definition _eval_freshness_restored (o : observation) : verdict :=
  match freshness_status o, previous_freshness_status o with
  | Some s, Some previous =>
      if String.eqb previous "stale" && negb (String.eqb s "stale") then holds "data freshness restored"
      else fails "freshness_restored: no stale-to-fresh transition"
  | _, _ => fails "freshness_restored: missing freshness status data"
  end.

(** [low] is the engine's [low_inventory_threshold]. *)
Definition _evaluate_condition (low : float) (c : AlertCondition) (o : observation) : verdict :=
  match condition_type c with
  | PRICE_DROP => _eval_price_drop o
  | PERCENTAGE_PRICE_DECREASE => _eval_percentage_price_decrease c o
  | ABSOLUTE_PRICE_DECREASE => _eval_absolute_price_decrease c o
  | PRICE_INCREASE => _eval_price_increase o
  | TARGET_PRICE_REACHED => _eval_target_price_reached c o
  | HISTORICAL_LOW => _eval_historical_low o
  | DEALSCORE_IMPROVED => _eval_dealscore_improved c o
  | DEALSCORE_THRESHOLD => _eval_dealscore_threshold c o
  | RESTOCKED => _eval_restocked o
  | UNAVAILABLE => _eval_unavailable o
  | LOW_INVENTORY => _eval_low_inventory low c o
  | BETTER_OFFER => _eval_better_offer o
  | PREFERRED_SELLER_AVAILABLE => _eval_preferred_seller_available o
  | PREFERRED_MARKETPLACE_AVAILABLE => _eval_preferred_marketplace_available o
  | STALE_DATA => _eval_stale_data c o
  | FRESHNESS_RESTORED => _eval_freshness_restored o
  end.

(** *** A rule *)

(** What the loop over the conditions collects: reasons, errors and the type of
    the first condition that holds. *)
Record findings := {
  reasons : list string; errors : list string; first_type : option AlertConditionType
}.
Definition no_findings : findings := {| reasons := []; errors := []; first_type := None |}.

Definition collect (low : float) (o : observation) (f : findings) (c : AlertCondition) : findings :=
  match _evaluate_condition low c o with
  | Err e => {| reasons := reasons f;
                errors := errors f ++ [condition_value (condition_type c) +:+ ": " +:+ e];
                first_type := first_type f |}
  | Ok (false, _) => f
  | Ok (true, why) => {| reasons := reasons f ++ [why]; errors := errors f;
                         first_type := first_some (first_type f) (Some (condition_type c)) |}
  end.

Definition is_empty {A} (l : list A) : bool := match l with [] => true | _ => false end.

Definition evaluate_rule (sha256_hex : string -> string) (low : float) (evaluation_id : string)
    (r : AlertRule) (o : observation) (now : datetime) : AlertEvaluation :=
  if negb (can_fire r now) then
    {| ae_id := evaluation_id; triggered := false; reason := _skip_reason r now; evaluated_at := now;
       ae_rule_id := Some (rule_id r); ae_watchlist_id := ru_watchlist_id r; ae_item_id := ru_item_id r;
       observation_fp := None; partial_failure := false; error := None |}
  else
    let f := fold_left (collect low o) (conditions r) no_findings in
    let fired := negb (is_empty (reasons f)) in
    let failed := negb (is_empty (errors f)) in
    {| ae_id := evaluation_id; triggered := fired;
       reason := if fired then String.concat "; " (reasons f)
                 else if failed
                 then "all evaluable conditions were false; some conditions failed to evaluate"
                 else if is_empty (conditions r) then "rule has no conditions"
                 else "no condition matched current observation";
       evaluated_at := now; ae_rule_id := Some (rule_id r); ae_watchlist_id := ru_watchlist_id r;
       ae_item_id := ru_item_id r;
       observation_fp := if fired then observation_fingerprint sha256_hex o <$> first_type f else None;
       partial_failure := failed;
       error := if failed then Some (String.concat "; " (errors f)) else None |}.

(** *** What it decides *)

(** A condition holds. *)
Definition holds_now (low : float) (o : observation) (c : AlertCondition) : bool :=
  match _evaluate_condition low c o with Ok (b, _) => b | Err _ => false end.

Lemma collect_reasons low o l f :
  reasons (fold_left (collect low o) l f) = [] <-> reasons f = [] /\ existsb (holds_now low o) l = false.
Proof.
  revert f. induction l as [|c l IH]; intros f; cbn [fold_left existsb]; [by split; [split | intros []] |].
  rewrite IH. unfold collect, holds_now at 2. destruct (_evaluate_condition low c o) as [[[] why]|e]; cbn.
  - split; [intros [H _]; by destruct (reasons f) | by intros [_ ?]].
  - done.
  - done.
Qed.

Lemma collect_first low o l f :
  first_type (fold_left (collect low o) l f)
  = first_some (first_type f) (condition_type <$> List.find (holds_now low o) l).
Proof.
  revert f. induction l as [|c l IH]; intros f; cbn [fold_left List.find]; [by destruct (first_type f) |].
  rewrite IH. unfold collect, holds_now at 2. destruct (_evaluate_condition low c o) as [[[] why]|e]; cbn; try done.
  by destruct (first_type f).
Qed.

(** A rule is triggered exactly when it may fire and one of its conditions
    holds, however many of the others cannot be evaluated. *)
Lemma evaluate_triggered h low i r o now :
  triggered (evaluate_rule h low i r o now) = can_fire r now && existsb (holds_now low o) (conditions r).
Proof.
  unfold evaluate_rule. destruct (can_fire r now); cbn [negb andb triggered]; [| done].
  pose proof (collect_reasons low o (conditions r) no_findings) as H. cbn in H.
  destruct (reasons (fold_left _ _ _)) as [|x xs]; cbn; destruct (existsb _ _); try done.
  - by destruct (proj1 H eq_refl).
  - by assert (x :: xs = []) by (by apply H).
Qed.

Lemma evaluate_fingerprint h low i r o now :
  triggered (evaluate_rule h low i r o now) = true ->
  exists c, List.find (holds_now low o) (conditions r) = Some c
    /\ observation_fp (evaluate_rule h low i r o now) = Some (observation_fingerprint h o (condition_type c)).
Proof.
  rewrite evaluate_triggered. intros [Hc He]%andb_true_iff.
  destruct (List.find (holds_now low o) (conditions r)) as [c|] eqn:Ef.
  - exists c. split; [done |]. unfold evaluate_rule. rewrite Hc. cbn [negb observation_fp].
    rewrite collect_first, Ef. cbn. destruct (reasons _) eqn:Er; [| done].
    apply collect_reasons in Er as [_ Er]. congruence.
  - exfalso. apply existsb_exists in He as (c & Hin & Hh). pose proof (find_none _ _ Ef c Hin). congruence.
Qed.

Lemma probe_can_fire r c now : can_fire (probe r c) now = negb (switched_off r).
Proof.
  unfold can_fire, is_one_time_exhausted, is_in_cooldown. cbn.
  change (switched_off (probe r c)) with (switched_off r).
  destruct (switched_off r); [done |]. by rewrite andb_false_r.
Qed.
End Engine.
Import Engine.

(** ** [InMemoryAlertRuleRepository] *)
Module RuleMemory.

Record rule_store := {
  rs_rules : ordered AlertRule; rs_evaluations : ordered AlertEvaluation;
  rs_events : ordered AlertEvent; rs_keys : gmap string string
}.

Definition empty_rules : rule_store :=
  {| rs_rules := o_empty; rs_evaluations := o_empty; rs_events := o_empty; rs_keys := ∅ |}.

Definition set_rules x (s : rule_store) : rule_store :=
  {| rs_rules := x; rs_evaluations := rs_evaluations s; rs_events := rs_events s; rs_keys := rs_keys s |}.

Definition save_rule (r : AlertRule) (s : rule_store) : rule_store :=
  set_rules (o_save (rule_id r) r (rs_rules s)) s.
Definition get_rule (i : string) (s : rule_store) : option AlertRule := o_get i (rs_rules s).

Definition list_rules (user watchlist item : option string) (enabled : option bool) (s : rule_store)
    : list AlertRule :=
  let items := filtered String.eqb ru_user_id user (o_list (rs_rules s)) in
  let items := filtered opt_string_eqb ru_watchlist_id (Some <$> watchlist) items in
  let items := filtered opt_string_eqb ru_item_id (Some <$> item) items in
  filtered Bool.eqb ru_enabled enabled items.

Definition delete_rule (i : string) (s : rule_store) : bool * rule_store :=
  match get_rule i s with
  | None => (false, s)
  | Some _ => (true, set_rules (o_delete i (rs_rules s)) s)
  end.

Definition save_evaluation (e : AlertEvaluation) (s : rule_store) : rule_store :=
  {| rs_rules := rs_rules s; rs_evaluations := o_save (ae_id e) e (rs_evaluations s);
     rs_events := rs_events s; rs_keys := rs_keys s |}.
Definition list_evaluations (rule : option string) (limit : Z) (s : rule_store) : list AlertEvaluation :=
  take_z limit
    (filtered opt_string_eqb ae_rule_id (Some <$> rule) (o_newest (rs_evaluations s))).

Definition save_event (e : AlertEvent) (s : rule_store) : rule_store :=
  {| rs_rules := rs_rules s; rs_evaluations := rs_evaluations s;
     rs_events := o_save (ev_id e) e (rs_events s);
     rs_keys := <[dedupe_key e := ev_id e]> (rs_keys s) |}.
Definition get_event (i : string) (s : rule_store) : option AlertEvent := o_get i (rs_events s).

Definition find_by_dedupe_key (key : string) (s : rule_store) : option AlertEvent :=
  match rs_keys s !! key with
  | Some i => if nonempty i then o_get i (rs_events s) else None
  | None => None
  end.

Definition list_events (user rule : option string) (limit : Z) (s : rule_store) : list AlertEvent :=
  let items := filtered String.eqb ev_user_id user (o_newest (rs_events s)) in
  take_z limit (filtered opt_string_eqb ev_rule_id (Some <$> rule) items).

(** The index of the keys is exact, so no two events have one key. *)
Record rules_ok (s : rule_store) : Prop := {
  ok_rules : o_ok (rs_rules s);
  ok_rule_ids k r : o_map (rs_rules s) !! k = Some r -> rule_id r = k;
  ok_event_ids k e : o_map (rs_events s) !! k = Some e -> ev_id e = k /\ k <> ""%string;
  ok_keys key i : rs_keys s !! key = Some i <->
                  exists e, o_map (rs_events s) !! i = Some e /\ dedupe_key e = key
}.

Lemma empty_rules_ok : rules_ok empty_rules.
Proof.
  split; cbn; try apply o_empty_ok; intros *; rewrite ?lookup_empty; try done.
  split; [done | intros (e & He & _); by cbn in He].
Qed.

Lemma find_key s key :
  rules_ok s ->
  match find_by_dedupe_key key s with
  | Some e => o_map (rs_events s) !! ev_id e = Some e /\ dedupe_key e = key
  | None => forall i e, o_map (rs_events s) !! i = Some e -> dedupe_key e <> key
  end.
Proof.
  intros [_ _ Hid Hk]. unfold find_by_dedupe_key. destruct (rs_keys s !! key) as [i|] eqn:E.
  - apply Hk in E as (e & He & Hd). destruct (Hid _ _ He) as [Hi Hne]. unfold o_get. rewrite He.
    destruct (nonempty i) eqn:En; [by subst |]. by apply nonempty_false in En.
  - intros i e He Hd. assert (rs_keys s !! key = Some i) by (apply Hk; by exists e). congruence.
Qed.

Lemma save_rule_ok r s : rules_ok s -> rules_ok (save_rule r s).
Proof.
  intros [H1 H2 H3 H4]. split; cbn; [by apply o_save_ok | | exact H3 | exact H4].
  intros k r'. destruct (decide (k = rule_id r)) as [-> | Hk].
  - rewrite lookup_insert_eq. by intros [= <-].
  - rewrite lookup_insert_ne by done. apply H2.
Qed.

Lemma delete_rule_ok i s : rules_ok s -> rules_ok (delete_rule i s).2.
Proof.
  intros [H1 H2 H3 H4]. unfold delete_rule. destruct (get_rule i s); [| by split].
  split; cbn; [by apply o_delete_ok | | exact H3 | exact H4].
  intros k r'. intros [_ H]%lookup_delete_Some. by apply H2.
Qed.

Lemma save_evaluation_ok e s : rules_ok s -> rules_ok (save_evaluation e s).
Proof. intros [H1 H2 H3 H4]. by split. Qed.

Lemma save_event_ok e s :
  rules_ok s -> ev_id e <> ""%string -> o_map (rs_events s) !! ev_id e = None ->
  (forall i e', o_map (rs_events s) !! i = Some e' -> dedupe_key e' <> dedupe_key e) ->
  rules_ok (save_event e s).
Proof.
  intros [H1 H2 H3 H4] Hne Hnew Hkey. split; cbn; [done | done | |].
  - intros k e'. destruct (decide (k = ev_id e)) as [-> | Hk].
    + rewrite lookup_insert_eq. by intros [= <-].
    + rewrite lookup_insert_ne by done. apply H3.
  - intros key i. destruct (decide (key = dedupe_key e)) as [-> | Hk].
    + rewrite lookup_insert_eq. split.
      * intros [= <-]. exists e. by rewrite lookup_insert_eq.
      * intros (e' & He' & Hd). destruct (decide (i = ev_id e)) as [-> | Hi]; [done |].
        rewrite lookup_insert_ne in He' by done. by destruct (Hkey _ _ He').
    + rewrite lookup_insert_ne by done. rewrite H4. split; intros (e' & He' & Hd); exists e'.
      * split; [| done]. rewrite lookup_insert_ne; [done |]. intros <-. congruence.
      * split; [| done]. destruct (decide (i = ev_id e)) as [-> | Hi];
          [| by rewrite lookup_insert_ne in He'].
        rewrite lookup_insert_eq in He'. injection He' as <-. congruence.
Qed.
End RuleMemory.
