(* ===== verification/AlertWorld.v ===== *)
(** The services of watchlists, notifications and alerts over their stores:
    [app/services/watchlist_service.py], [watchlist_service_ext.py],
    [notification_preference_service.py], [notification_center_service.py],
    [alert_rule_service.py], [alert_evaluation_service.py], [alert_service.py]
    and the adapters [app/notifications/delivery.py] and
    [app/intelligence/watchlists/notifications.py].

    All run in one process on one set of in-memory stores. A call is atomic but
    for its [await]s on other services: there [meanwhile] says what the other
    requests do. Module [World]: the state and the environment. Then a module
    per service. *)

From S2P Require Import Prelude PyStr Json Clock PyState Float Password PyRepr Watch Notify Alerts.
Import PyRepr PyFloat Ordered Watchlists Values.
#[local] Open Scope Z_scope.
#[local] Open Scope py_scope.

(** ** Texts of Python values *)
Module Texts.

(** [tuple(dict.fromkeys(v.strip() for v in values if v and v.strip()))]. *)
Definition clean_str_tuple (values : list string) : list string :=
  fold_left (fun acc v =>
      let v := strip v in
      if negb (nonempty v) || existsb (String.eqb v) acc then acc else acc ++ [v])
    values [].
End Texts.
Import Texts.

(** ** The world *)
Module World.
Import Observations.

Record audit_entry := {
  au_id : string; au_action : string; au_user : option string; au_watchlist : option string;
  au_detail : string; au_created_at : datetime
}.

(** The three repositories, [AlertEvaluationService._previous_observations],
    how often the environment was asked, the receipts and mails of the
    simulated transports and the audit log. *)
Record world := MkWorld {
  w_rules : RuleMemory.rule_store; w_watch : WatchMemory.watch_store; w_center : CenterMemory.center_store;
  w_previous : gmap string observation; w_asked : nat; w_receipts : list NotificationReceipt;
  w_mails : list Mail.EmailSendResult; w_audit : list audit_entry
}.

Inductive alert_exn :=
| WatchlistValidationError (message : string)
| WatchlistNotFoundError (watchlist_id : string)
| WatchlistItemNotFoundError (item_id : string)
| WatchlistOwnershipError (watchlist_id : string)
| AlertNotFoundError (alert_id : string)
| AlertRuleNotFoundError (rule_id : string)
| AlertRuleValidationError (message : string)
| NotificationNotFoundError (notification_id : string)
| NotificationValidationError (message : string)
| ServiceError (message : string).   (** of a collaborator, or of the library *)

(** [str(exc)]. *)
Definition exn_message (e : alert_exn) : string :=
  match e with
  | WatchlistValidationError m | AlertRuleValidationError m | NotificationValidationError m
  | ServiceError m => m
  | WatchlistNotFoundError i => "Watchlist not found: " +:+ i
  | WatchlistItemNotFoundError i => "Watchlist item not found: " +:+ i
  | WatchlistOwnershipError i => "Watchlist " +:+ i +:+ " is not owned by the requesting user."
  | AlertNotFoundError i => "Alert not found: " +:+ i
  | AlertRuleNotFoundError i => "Alert rule not found: " +:+ i
  | NotificationNotFoundError i => "Notification not found: " +:+ i
  end.

(** What the price history, the recommendations and the marketplace answer. *)
Record price_reading := {
  pr_currency : string; pr_current : float; pr_lowest : option float; pr_count : Z
}.
Record offer_reading := {
  of_availability : string; of_inventory : option Z; of_seller : option string;
  of_marketplace : string; of_freshness : option (string * option float)
}.
Inductive read_exn := ReadValidation | ReadFailed (message : string).

(** What the environment answers when it is asked for the n-th time, and what
    other requests do while a call waits. *)
Record environment := {
  clock : nat -> datetime; id_factory : nat -> string; token_urlsafe : nat -> string;
  sha256_hex : string -> string;
  price_history : string -> nat -> result read_exn (option price_reading);
  recommend : string -> nat -> result read_exn (option float);
  get_offer : string -> nat -> result string offer_reading;
  uuid_ok : string -> bool;
  meanwhile : nat -> world -> world
}.

(** Which collaborators a service was given. [has_enhanced]: the notification
    service is the [EnhancedNotificationService], which was given the center;
    [has_center]: the service itself was. *)
Record config := {
  has_price_history : bool; has_recommendations : bool; has_marketplace : bool; has_registry : bool;
  has_audit : bool; has_alerts : bool; has_notifications : bool; has_enhanced : bool; has_center : bool;
  low_inventory_threshold : float
}.

Definition M (A : Type) : Type := act world alert_exn A.

Definition with_rules x (w : world) : world :=
  MkWorld x (w_watch w) (w_center w) (w_previous w) (w_asked w) (w_receipts w) (w_mails w) (w_audit w).
Definition with_watch x (w : world) : world :=
  MkWorld (w_rules w) x (w_center w) (w_previous w) (w_asked w) (w_receipts w) (w_mails w) (w_audit w).
Definition with_center x (w : world) : world :=
  MkWorld (w_rules w) (w_watch w) x (w_previous w) (w_asked w) (w_receipts w) (w_mails w) (w_audit w).
Definition with_previous x (w : world) : world :=
  MkWorld (w_rules w) (w_watch w) (w_center w) x (w_asked w) (w_receipts w) (w_mails w) (w_audit w).
Definition with_asked x (w : world) : world :=
  MkWorld (w_rules w) (w_watch w) (w_center w) (w_previous w) x (w_receipts w) (w_mails w) (w_audit w).
Definition with_receipts x (w : world) : world :=
  MkWorld (w_rules w) (w_watch w) (w_center w) (w_previous w) (w_asked w) x (w_mails w) (w_audit w).
Definition with_mails x (w : world) : world :=
  MkWorld (w_rules w) (w_watch w) (w_center w) (w_previous w) (w_asked w) (w_receipts w) x (w_audit w).
Definition with_audit x (w : world) : world :=
  MkWorld (w_rules w) (w_watch w) (w_center w) (w_previous w) (w_asked w) (w_receipts w) (w_mails w) x.

Definition ask {A} (f : nat -> A) : M A :=
  fun w => (Ok (f (w_asked w)), with_asked (S (w_asked w)) w).
Definition raise {A} (e : alert_exn) : M A := a_err e.
Definition attempt {A} (m : M A) : M (result alert_exn A) := fun w => let '(r, w') := m w in (Ok r, w').

(** Reading and changing one repository. *)
Definition rules {A} (f : RuleMemory.rule_store -> A) : M A := fun w => (Ok (f (w_rules w)), w).
Definition upd_rules (f : RuleMemory.rule_store -> RuleMemory.rule_store) : M unit :=
  fun w => (Ok tt, with_rules (f (w_rules w)) w).
Definition watch {A} (f : WatchMemory.watch_store -> A) : M A := fun w => (Ok (f (w_watch w)), w).
Definition upd_watch (f : WatchMemory.watch_store -> WatchMemory.watch_store) : M unit :=
  fun w => (Ok tt, with_watch (f (w_watch w)) w).
Definition center {A} (f : CenterMemory.center_store -> A) : M A := fun w => (Ok (f (w_center w)), w).
Definition upd_center (f : CenterMemory.center_store -> CenterMemory.center_store) : M unit :=
  fun w => (Ok tt, with_center (f (w_center w)) w).
Definition on_center {A} (f : CenterMemory.center_store -> A * CenterMemory.center_store) : M A :=
  fun w => let '(a, c) := f (w_center w) in (Ok a, with_center c w).
Definition on_watch {A} (f : WatchMemory.watch_store -> A * WatchMemory.watch_store) : M A :=
  fun w => let '(a, c) := f (w_watch w) in (Ok a, with_watch c w).
Definition on_rules {A} (f : RuleMemory.rule_store -> A * RuleMemory.rule_store) : M A :=
  fun w => let '(a, c) := f (w_rules w) in (Ok a, with_rules c w).

Section Ask.
Variable env : environment.
Definition now_ : M datetime := ask (clock env).
Definition new_id : M string := ask (id_factory env).
(** An [await] on another service: other requests run. *)
Definition suspend : M nat :=
  fun w => let n := w_asked w in (Ok n, meanwhile env n (with_asked (S n) w)).
End Ask.

(** [x or default] of an optional text, [x if x is not None else y]. *)
Definition or_text (o : option string) (d : string) : string :=
  match o with Some s => if nonempty s then s else d | None => d end.
Definition some_text (s : string) : option string := if nonempty s then Some s else None.

(** [s.strip() if s else None]. *)
Definition strip_opt (o : option string) : option string :=
  match o with Some s => if nonempty s then Some (strip s) else None | None => None end.

(** [x.strip() or None] of a given field, or the old value. *)
Definition edit_text (new : option string) (old : option string) : option string :=
  match new with Some s => some_text (strip s) | None => old end.
End World.
Import World.

(** ** [WatchlistService] and [ExtendedWatchlistService] *)
Module WatchService.
Import WatchMemory.

Definition get_watchlist (i : string) : M Watchlist :=
  do! found := watch (WatchMemory.get_watchlist i) in
  match found with Some w => a_ret w | None => raise (WatchlistNotFoundError i) end.
Definition save_watchlist (w : Watchlist) : M Watchlist :=
  do! _ := upd_watch (WatchMemory.save_watchlist w) in a_ret w.
Definition get_item (i : string) : M WatchlistItem :=
  do! found := watch (WatchMemory.get_item i) in
  match found with Some x => a_ret x | None => raise (WatchlistItemNotFoundError i) end.
Definition save_item (x : WatchlistItem) : M WatchlistItem :=
  do! _ := upd_watch (WatchMemory.save_item x) in a_ret x.

(** *** Sprint 10 *)
Module Base.
Section Base.
Variables (env : environment) (cfg : config).

Definition create_watchlist (name : string) (owner description : option string) (enabled : bool)
    (watchlist_id : option string) : M Watchlist :=
  let cleaned := strip name in
  refuse! WatchlistValidationError "Watchlist name must not be blank." when negb (nonempty cleaned) in
  do! stamp := now_ env in
  do! i := (match watchlist_id with
            | Some i => if nonempty i then a_ret i else new_id env | None => new_id env end) in
  save_watchlist
    {| wl_id := i; wl_name := cleaned; wl_created_at := stamp; wl_owner_id := strip_opt owner;
       wl_description := strip_opt description; wl_enabled := enabled; wl_updated_at := Some stamp;
       wl_is_default := false; wl_status := WL_ACTIVE; wl_paused_at := None; wl_archived_at := None;
       wl_preferred_sellers := []; wl_preferred_marketplaces := [] |}.

Definition update_watchlist (i : string) (name description : option string) (enabled : option bool)
    (owner : option string) : M Watchlist :=
  do! w := get_watchlist i in
  do! stamp := now_ env in
  refuse! WatchlistValidationError "Watchlist name must not be blank."
    when match name with Some n => negb (nonempty (strip n)) | None => false end in
  save_watchlist (with_details w (match name with Some n => strip n | None => wl_name w end)
    (edit_text description (wl_description w)) (default (wl_enabled w) enabled)
    (edit_text owner (wl_owner_id w)) stamp).

Definition delete_watchlist (i : string) : M unit :=
  do! gone := on_watch (WatchMemory.delete_watchlist i) in
  if gone : bool then a_ret tt else raise (WatchlistNotFoundError i).

(** The registry is asked for the product; what it answers is not used. *)
Definition _ensure_product_exists (product : string) : M unit :=
  if negb (has_registry cfg) then a_ret tt
  else
    refuse! WatchlistValidationError ("canonical_product_id is not a valid UUID: " +:+ product)
      when negb (uuid_ok env product) in
    do! _ := suspend env in a_ret tt.

Definition negative (o : option float) : bool := match o with Some x => f_ltb x f_zero | None => false end.

Definition add_item (watchlist product : string) (label : option string) (target : option float)
    (currency : string) (query : option string) (enabled : bool) (item_id : option string)
    (price dealscore low : option float) : M WatchlistItem :=
  do! _ := get_watchlist watchlist in
  let product := strip product in
  refuse! WatchlistValidationError "canonical_product_id must not be blank." when negb (nonempty product) in
  refuse! WatchlistValidationError "target_price must be non-negative." when negative target in
  let currency := upper (strip currency) in
  refuse! WatchlistValidationError "currency must not be blank." when negb (nonempty currency) in
  do! _ := _ensure_product_exists product in
  do! existing := watch (WatchMemory.list_items (Some watchlist) None) in
  refuse! WatchlistValidationError
    ("Product " +:+ product +:+ " is already on watchlist " +:+ watchlist +:+ ".")
    when existsb (fun x => String.eqb (it_canonical_product_id x) product) existing in
  do! stamp := now_ env in
  do! i := (match item_id with
            | Some i => if nonempty i then a_ret i else new_id env | None => new_id env end) in
  save_item
    {| it_id := i; it_watchlist_id := watchlist; it_canonical_product_id := product;
       it_created_at := stamp; it_product_label := strip_opt label; it_target_price := target;
       it_currency := currency; it_search_query := strip_opt query; it_last_known_price := price;
       it_last_known_dealscore := dealscore; it_last_historical_low := low; it_enabled := enabled;
       it_updated_at := Some stamp; it_marketplace_offer_id := None; it_notes := None;
       it_item_kind := PRODUCT; it_monitoring_paused := false; it_preferred_sellers := [];
       it_preferred_marketplaces := [] |}.

Definition list_items (watchlist : string) (enabled : option bool) : M (list WatchlistItem) :=
  do! _ := get_watchlist watchlist in watch (WatchMemory.list_items (Some watchlist) enabled).

Definition update_item (i : string) (label : option string) (target : option float)
    (currency query : option string) (enabled : option bool) (clear_target : bool) : M WatchlistItem :=
  do! x := get_item i in
  do! stamp := now_ env in
  refuse! WatchlistValidationError "target_price must be non-negative."
    when negb clear_target && negative target in
  refuse! WatchlistValidationError "currency must not be blank."
    when match currency with Some c => negb (nonempty (upper (strip c))) | None => false end in
  save_item (item_with_details x (edit_text label (it_product_label x))
    (if clear_target then None else Engine.first_some target (it_target_price x))
    (match currency with Some c => upper (strip c) | None => it_currency x end)
    (edit_text query (it_search_query x)) (default (it_enabled x) enabled) stamp).

Definition delete_item (i : string) : M unit :=
  do! gone := on_watch (WatchMemory.delete_item i) in
  if gone : bool then a_ret tt else raise (WatchlistItemNotFoundError i).

(** *** With current prices *)

Definition statistics_of (product : string) : M (option price_reading) :=
  if negb (has_price_history cfg) then a_ret None
  else
    do! n := suspend env in
    match price_history env product n with
    | Err ReadValidation => a_ret None
    | Err (ReadFailed m) => raise (ServiceError m)
    | Ok p => a_ret p
    end.

Definition score_of (x : WatchlistItem) : M (option float) :=
  match it_search_query x with
  | Some query =>
      if has_recommendations cfg && nonempty (strip query) then
        do! answer := ask (recommend env query) in
        match answer with
        | Ok (Some score) => a_ret (Some score)
        | Ok None | Err ReadValidation => a_ret (it_last_known_dealscore x)
        | Err (ReadFailed m) => raise (ServiceError m)
        end
      else a_ret (it_last_known_dealscore x)
  | None => a_ret (it_last_known_dealscore x)
  end.

Definition enrich_item (x : WatchlistItem) : M WatchlistItemSnapshot :=
  do! p := statistics_of (it_canonical_product_id x) in
  do! score := score_of x in
  a_ret {| sn_item := x; sn_current_price := pr_current <$> p;
           sn_historical_low := match p with Some p => pr_lowest p | None => None end; sn_dealscore := score;
           sn_currency := Some match p with Some p => pr_currency p | None => it_currency x end;
           sn_observation_count := match p with Some p => pr_count p | None => 0 end;
           sn_price_available := is_some p |}.

Fixpoint enrich_each (l : list WatchlistItem) : M (list WatchlistItemSnapshot) :=
  match l with
  | [] => a_ret []
  | x :: rest => do! s := enrich_item x in do! more := enrich_each rest in a_ret (s :: more)
  end.
Definition list_enriched_items (watchlist : string) (enabled : option bool) : M (list WatchlistItemSnapshot) :=
  do! items := list_items watchlist enabled in enrich_each items.
End Base.
End Base.

(** *** Sprint 19 *)
Section WatchService.
Variables (env : environment) (cfg : config).

(** [WatchlistAuditLogger.record], when the service has one. *)
Definition audit_record (action : string) (user watchlist : option string) (detail : string) : M unit :=
  if negb (has_audit cfg) then a_ret tt
  else
    do! i := new_id env in
    do! now := now_ env in
    fun w => (Ok tt, with_audit (w_audit w ++ [{| au_id := i; au_action := action; au_user := user;
                au_watchlist := watchlist; au_detail := detail; au_created_at := now |}]) w).

(** No caller gives metadata. *)
Definition _record_history (watchlist event_type description : string) (actor item : option string) : M unit :=
  do! i := new_id env in
  do! now := now_ env in
  do! _ := upd_watch (save_history_entry
    {| wh_id := i; wh_watchlist_id := watchlist; wh_event_type := event_type;
       wh_description := description; wh_created_at := now; wh_actor_id := actor; wh_item_id := item |}) in
  audit_record event_type actor (Some watchlist) description.

(** [InMemoryWatchlistStore.require_owner]. *)
Definition require_owner (i : string) (user : option string) : M Watchlist :=
  do! found := watch (WatchMemory.get_watchlist i) in
  match found with
  | None => raise (WatchlistOwnershipError i)
  | Some w =>
      if is_some (wl_owner_id w) && negb (opt_string_eqb (wl_owner_id w) user)
      then raise (WatchlistOwnershipError i) else a_ret w
  end.

Definition list_watchlists (owner : option string) (enabled : option bool) (status : option string)
    : M (list Watchlist) := watch (WatchMemory.list_watchlists enabled owner status).

Fixpoint clear_defaults (l : list Watchlist) : M unit :=
  match l with
  | [] => a_ret tt
  | w :: rest =>
      do! _ := (if wl_is_default w
                then do! stamp := now_ env in
                     do! _ := save_watchlist (with_default w false (Some stamp)) in a_ret tt
                else a_ret tt) in
      clear_defaults rest
  end.
Definition _clear_default (owner : string) : M unit :=
  do! l := list_watchlists (Some owner) None None in clear_defaults l.

Definition create_watchlist (name : string) (owner description : option string) (enabled : bool)
    (watchlist_id : option string) (is_default : bool) : M Watchlist :=
  let cleaned_owner := strip_opt owner in
  do! _ := (if is_default && nonempty (from_option id ""%string cleaned_owner)
            then _clear_default (from_option id ""%string cleaned_owner) else a_ret tt) in
  do! created := Base.create_watchlist env name owner description enabled watchlist_id in
  do! created := (if is_default then save_watchlist (with_default created true (wl_updated_at created))
                  else a_ret created) in
  do! _ := _record_history (wl_id created) "watchlist_created"
             ("Watchlist '" +:+ wl_name created +:+ "' created.") cleaned_owner None in
  a_ret created.

Definition update_watchlist (i : string) (name description : option string) (enabled : option bool)
    (owner : option string) : M Watchlist :=
  do! updated := Base.update_watchlist env i name description enabled owner in
  do! _ := _record_history i "watchlist_updated" "Watchlist details updated." None None in
  a_ret updated.

Definition rename (i name : string) (actor : option string) : M Watchlist :=
  do! updated := update_watchlist i (Some name) None None None in
  do! _ := _record_history i "watchlist_renamed" ("Renamed to '" +:+ wl_name updated +:+ "'.") actor None in
  a_ret updated.

Definition delete_watchlist (i : string) : M unit :=
  do! w := get_watchlist i in
  do! _ := Base.delete_watchlist i in
  audit_record "watchlist_deleted" None (Some i) ("Watchlist '" +:+ wl_name w +:+ "' deleted.").

Definition pause_watchlist (i : string) (actor : option string) : M Watchlist :=
  do! w := get_watchlist i in
  do! stamp := now_ env in
  do! updated := save_watchlist (with_lifecycle w WL_PAUSED false (Some stamp) (wl_archived_at w) stamp) in
  do! _ := _record_history i "watchlist_paused" "Watchlist paused." actor None in
  a_ret updated.
Definition resume_watchlist (i : string) (actor : option string) : M Watchlist :=
  do! w := get_watchlist i in
  do! stamp := now_ env in
  do! updated := save_watchlist (with_lifecycle w WL_ACTIVE true None (wl_archived_at w) stamp) in
  do! _ := _record_history i "watchlist_resumed" "Watchlist resumed." actor None in
  a_ret updated.
Definition archive_watchlist (i : string) (actor : option string) : M Watchlist :=
  do! w := get_watchlist i in
  do! stamp := now_ env in
  do! updated := save_watchlist (with_lifecycle w WL_ARCHIVED false (wl_paused_at w) (Some stamp) stamp) in
  do! _ := _record_history i "watchlist_archived" "Watchlist archived." actor None in
  a_ret updated.

Definition set_watchlist_preferred_sellers (i : string) (sellers : list string) : M Watchlist :=
  do! w := get_watchlist i in
  let cleaned := clean_str_tuple sellers in
  do! stamp := now_ env in
  do! updated := save_watchlist (with_preferred w cleaned (wl_preferred_marketplaces w) stamp) in
  do! _ := _record_history i "preferred_sellers_updated"
             ("Preferred sellers set to " +:+ repr_list cleaned +:+ ".") None None in
  a_ret updated.
Definition set_watchlist_preferred_marketplaces (i : string) (marketplaces : list string) : M Watchlist :=
  do! w := get_watchlist i in
  let cleaned := clean_str_tuple marketplaces in
  do! stamp := now_ env in
  do! updated := save_watchlist (with_preferred w (wl_preferred_sellers w) cleaned stamp) in
  do! _ := _record_history i "preferred_marketplaces_updated"
             ("Preferred marketplaces set to " +:+ repr_list cleaned +:+ ".") None None in
  a_ret updated.

(** The keyword arguments that [add_item] has besides the product. *)
Record item_fields := {
  f_label : option string; f_target : option float; f_currency : string; f_query : option string;
  f_enabled : bool; f_item_id : option string; f_price : option float; f_dealscore : option float;
  f_low : option float
}.
Definition add_with (watchlist product : string) (f : item_fields) : M WatchlistItem :=
  Base.add_item env cfg watchlist product (f_label f) (f_target f) (f_currency f) (f_query f) (f_enabled f)
    (f_item_id f) (f_price f) (f_dealscore f) (f_low f).

Definition add_item_idempotent (watchlist product : string) (return_existing : bool) (f : item_fields)
    : M WatchlistItem :=
  do! _ := get_watchlist watchlist in
  let cleaned := strip product in
  do! existing := watch (WatchMemory.list_items (Some watchlist) None) in
  match List.find (fun x => String.eqb (it_canonical_product_id x) cleaned) existing with
  | Some x =>
      if return_existing then a_ret x
      else raise (WatchlistValidationError
             ("Product " +:+ cleaned +:+ " is already on watchlist " +:+ watchlist +:+ "."))
  | None =>
      do! x := add_with watchlist product f in
      do! _ := _record_history watchlist "item_added" ("Item " +:+ it_id x +:+ " added.") None (Some (it_id x)) in
      a_ret x
  end.

Definition add_offer (watchlist offer : string) (product label : option string) (target : option float)
    (currency : string) (notes : option string) (return_existing : bool) : M WatchlistItem :=
  let cleaned := strip offer in
  refuse! WatchlistValidationError "marketplace_offer_id must not be blank." when negb (nonempty cleaned) in
  do! x := add_item_idempotent watchlist (strip (or_text product cleaned)) return_existing
             {| f_label := label; f_target := target; f_currency := currency; f_query := None;
                f_enabled := true; f_item_id := None; f_price := None; f_dealscore := None; f_low := None |} in
  if negb (opt_string_eqb (it_marketplace_offer_id x) (Some cleaned))
     || negb (bool_decide (it_item_kind x = OFFER))
     || (is_some notes && negb (opt_string_eqb (it_notes x) notes))
  then
    do! stamp := now_ env in
    do! x := save_item (item_with_extras x (Some cleaned) (Engine.first_some notes (it_notes x)) OFFER
               (it_monitoring_paused x) (it_preferred_sellers x) (it_preferred_marketplaces x) stamp) in
    do! _ := _record_history watchlist "offer_tracked"
               ("Marketplace offer " +:+ cleaned +:+ " tracked.") None (Some (it_id x)) in
    a_ret x
  else a_ret x.

Definition update_item (i : string) (label : option string) (target : option float)
    (currency query : option string) (enabled : option bool) (clear_target : bool) : M WatchlistItem :=
  do! x := Base.update_item env i label target currency query enabled clear_target in
  do! _ := _record_history (it_watchlist_id x) "item_updated" "Item details updated." None (Some i) in
  a_ret x.

Definition delete_item (i : string) : M unit :=
  do! x := get_item i in
  do! _ := Base.delete_item i in
  _record_history (it_watchlist_id x) "item_removed" ("Item " +:+ i +:+ " removed.") None (Some i).

(** [replace(item, ..., updated_at=clock())], saved, with an entry. *)
Definition edit_item (i event_type description : string) (edit : WatchlistItem -> datetime -> WatchlistItem)
    : M WatchlistItem :=
  do! x := get_item i in
  do! stamp := now_ env in
  do! updated := save_item (edit x stamp) in
  do! _ := _record_history (it_watchlist_id x) event_type description None (Some i) in
  a_ret updated.

Definition set_item_notes (i : string) (notes : option string) : M WatchlistItem :=
  edit_item i "item_notes_updated" "Item notes updated." (fun x =>
    item_with_extras x (it_marketplace_offer_id x) (strip_opt notes) (it_item_kind x)
      (it_monitoring_paused x) (it_preferred_sellers x) (it_preferred_marketplaces x)).
Definition set_monitoring (paused : bool) (x : WatchlistItem) (stamp : datetime) : WatchlistItem :=
  item_with_extras x (it_marketplace_offer_id x) (it_notes x) (it_item_kind x) paused
    (it_preferred_sellers x) (it_preferred_marketplaces x) stamp.
Definition pause_item_monitoring (i : string) : M WatchlistItem :=
  edit_item i "item_monitoring_paused" "Item monitoring paused." (set_monitoring true).
Definition resume_item_monitoring (i : string) : M WatchlistItem :=
  edit_item i "item_monitoring_resumed" "Item monitoring resumed." (set_monitoring false).
Definition set_item_preferred_sellers (i : string) (sellers : list string) : M WatchlistItem :=
  edit_item i "item_preferred_sellers_updated"
    ("Preferred sellers set to " +:+ repr_list (clean_str_tuple sellers) +:+ ".") (fun x =>
    item_with_extras x (it_marketplace_offer_id x) (it_notes x) (it_item_kind x)
      (it_monitoring_paused x) (clean_str_tuple sellers) (it_preferred_marketplaces x)).
Definition set_item_preferred_marketplaces (i : string) (marketplaces : list string) : M WatchlistItem :=
  edit_item i "item_preferred_marketplaces_updated"
    ("Preferred marketplaces set to " +:+ repr_list (clean_str_tuple marketplaces) +:+ ".") (fun x =>
    item_with_extras x (it_marketplace_offer_id x) (it_notes x) (it_item_kind x)
      (it_monitoring_paused x) (it_preferred_sellers x) (clean_str_tuple marketplaces)).

Definition get_history (i : string) (limit : Z) : M (list WatchlistHistoryEntry) :=
  do! _ := get_watchlist i in watch (list_history i limit).
End WatchService.
End WatchService.

(** ** [NotificationPreferenceService] and [NotificationCenterService] *)
Module CenterService.
Import Notifications Preferences Digests Renderer CenterMemory AlertEntities.

(** The arguments of [update_preferences]; the hours may be cleared. *)
Record preference_edit := {
  pe_in_app : option bool; pe_email : option bool; pe_immediate : option bool; pe_daily : option bool;
  pe_weekly : option bool; pe_start : option (option string); pe_end : option (option string);
  pe_timezone : option string; pe_price : option bool; pe_stock : option bool;
  pe_freshness : option bool; pe_marketing : option bool
}.
Definition no_edit : preference_edit :=
  {| pe_in_app := None; pe_email := None; pe_immediate := None; pe_daily := None; pe_weekly := None;
     pe_start := None; pe_end := None; pe_timezone := None; pe_price := None; pe_stock := None;
     pe_freshness := None; pe_marketing := None |}.

Definition edited (e : preference_edit) (p : UserNotificationPreferences) (stamp : datetime)
    : UserNotificationPreferences :=
  {| np_user_id := np_user_id p; np_created_at := np_created_at p;
     in_app_enabled := default (in_app_enabled p) (pe_in_app e);
     email_enabled := default (email_enabled p) (pe_email e);
     immediate_alerts := default (immediate_alerts p) (pe_immediate e);
     daily_digest := default (daily_digest p) (pe_daily e);
     weekly_digest := default (weekly_digest p) (pe_weekly e);
     quiet_hours_start := default (quiet_hours_start p) (pe_start e);
     quiet_hours_end := default (quiet_hours_end p) (pe_end e);
     np_timezone := match pe_timezone e with Some t => strip t | None => np_timezone p end;
     price_alerts := default (price_alerts p) (pe_price e);
     stock_alerts := default (stock_alerts p) (pe_stock e);
     freshness_warnings := default (freshness_warnings p) (pe_freshness e);
     marketing_enabled := default (marketing_enabled p) (pe_marketing e);
     np_updated_at := Some stamp |}.

Definition _PRICE_TYPES : list NotificationType :=
  [NT_PRICE_DROP; NT_PRICE_INCREASE; NT_BETTER_OFFER; NT_DEALSCORE_THRESHOLD].
Definition _STOCK_TYPES : list NotificationType :=
  [NT_RESTOCK; NT_OUT_OF_STOCK; NT_LOW_INVENTORY; NT_AVAILABILITY_CHANGE; NT_SELLER_CHANGE].

Definition _EVENT_TO_NOTIFICATION_TYPE (t : AlertEventType) : NotificationType :=
  match t with
  | EV_PRICE_DROP => NT_PRICE_DROP | EV_PRICE_INCREASE => NT_PRICE_INCREASE | EV_RESTOCK => NT_RESTOCK
  | EV_OUT_OF_STOCK => NT_OUT_OF_STOCK | EV_AVAILABILITY_CHANGE => NT_AVAILABILITY_CHANGE
  | EV_SELLER_CHANGE => NT_SELLER_CHANGE | EV_BETTER_OFFER => NT_BETTER_OFFER
  | EV_FRESHNESS_WARNING => NT_FRESHNESS_WARNING | EV_LOW_INVENTORY => NT_LOW_INVENTORY
  | EV_DEALSCORE_CHANGE => NT_DEALSCORE_THRESHOLD
  end.

(** Subject and body of [_build_default_templates]. *)
Definition _DEFAULT_TEMPLATES (t : NotificationType) : string * string :=
  match t with
  | NT_PRICE_DROP => ("Price drop: {{product_label}}",
      "{{product_label}} dropped to {{current_price}} {{currency}} (was {{previous_price}}).")
  | NT_PRICE_INCREASE => ("Price increase: {{product_label}}",
      "{{product_label}} rose to {{current_price}} {{currency}} (was {{previous_price}}).")
  | NT_RESTOCK => ("Back in stock: {{product_label}}", "{{product_label}} is back in stock.")
  | NT_OUT_OF_STOCK => ("Out of stock: {{product_label}}", "{{product_label}} became unavailable.")
  | NT_LOW_INVENTORY => ("Low stock: {{product_label}}",
      "{{product_label}} has limited stock remaining ({{inventory}} left).")
  | NT_AVAILABILITY_CHANGE => ("Availability changed: {{product_label}}",
      "{{product_label}} availability changed.")
  | NT_SELLER_CHANGE => ("Preferred seller available: {{product_label}}",
      "{{product_label}} is now offered by {{seller_name}}.")
  | NT_BETTER_OFFER => ("Better offer found: {{product_label}}",
      "A better offer for {{product_label}} was found at {{total_price}} {{currency}}.")
  | NT_DEALSCORE_THRESHOLD => ("DealScore update: {{product_label}}",
      "{{product_label}} DealScore is now {{dealscore}} (was {{previous_dealscore}}).")
  | NT_FRESHNESS_WARNING => ("Data freshness update: {{product_label}}",
      "{{product_label}} pricing data freshness changed (age: {{age_hours}}h).")
  | NT_SYSTEM => ("DealBrain notification", "{{product_label}}")
  | NT_DIGEST => ("Your DealBrain digest", "You have new updates.")
  end%string.

Definition _type_allowed (p : UserNotificationPreferences) (t : NotificationType) : bool :=
  if bool_decide (t ∈ _PRICE_TYPES) then price_alerts p
  else if bool_decide (t ∈ _STOCK_TYPES) then stock_alerts p
  else if bool_decide (t = NT_FRESHNESS_WARNING) then freshness_warnings p
  else true.

Definition _map_severity (s : AlertSeverity) : NotificationSeverity :=
  match s with
  | SEV_INFO => NS_INFO | SEV_WARNING => NS_WARNING | SEV_HIGH => NS_HIGH | SEV_CRITICAL => NS_CRITICAL
  end.

(** The label of the item, else the name of the watchlist, else a phrase. *)
Definition event_label (watchlist : option Watchlist) (item : option WatchlistItem) : string :=
  let label := match item with
               | Some i => or_text (it_product_label i) (it_canonical_product_id i)
               | None => match watchlist with Some w => wl_name w | None => ""%string end
               end in
  if nonempty label then label else "your tracked item".

Definition _render_event_content (e : AlertEvent) (t : NotificationType) (watchlist : option Watchlist)
    (item : option WatchlistItem) : string * string :=
  let context := d_update [("product_label"%string, PText (event_label watchlist item))] (payload e) in
  let '(subject, body) := _DEFAULT_TEMPLATES t in
  (render_template subject context true, render_template body context true).

Section CenterService.
Variable env : environment.

Definition get_preferences (user : string) : M UserNotificationPreferences :=
  do! existing := center (CenterMemory.get_preferences user) in
  match existing with
  | Some p => a_ret p
  | None =>
      do! now := now_ env in
      let created := default_preferences user now in
      do! _ := upd_center (save_preferences created) in a_ret created
  end.

Definition update_preferences (user : string) (e : preference_edit) : M UserNotificationPreferences :=
  do! current := get_preferences user in
  do! stamp := now_ env in
  refuse! NotificationValidationError "timezone must not be blank."
    when match pe_timezone e with Some t => negb (nonempty (strip t)) | None => false end in
  let updated := edited e current stamp in
  do! _ := upd_center (save_preferences updated) in a_ret updated.

(** The [ValueError] of an hour that cannot be read. *)
Definition readable {A} (o : option A) : M A :=
  match o with Some a => a_ret a | None => raise (ServiceError "ValueError") end.

Definition is_quiet_hours (user : string) (now : option datetime) : M bool :=
  do! p := get_preferences user in
  do! now := (match now with Some t => a_ret t | None => now_ env end) in
  readable (is_within_quiet_hours p now).
Definition should_suppress_immediate (user : string) (now : option datetime) : M bool :=
  do! p := get_preferences user in
  do! now := (match now with Some t => a_ret t | None => now_ env end) in
  readable (should_suppress_immediate_alert p now).
Definition preference_channel_enabled (user channel : string) : M bool :=
  do! p := get_preferences user in a_ret (channel_enabled p channel).

(** *** Delivery *)

Definition send_email (m : Mail.EmailMessage) : M unit :=
  do! i := new_id env in
  do! now := now_ env in
  fun w => (Ok tt, with_mails (w_mails w ++ [Mail.send_result m i now]) w).

Definition _record_delivery (n : Notification) (channel : NotificationChannel)
    (status : NotificationStatus) (err : option string) : M NotificationDelivery :=
  do! i := new_id env in
  do! now := now_ env in
  let d := {| nd_id := i; nd_notification_id := n_id n; nd_channel := channel; nd_status := status;
              nd_created_at := now; nd_attempt := 1; nd_error := err; nd_simulated := true |} in
  do! _ := upd_center (save_delivery d) in a_ret d.

Definition address_of (user : string) : string := user +:+ "@example.invalid".
Definition SUPPRESSED : string :=
  "Suppressed by quiet hours / immediate_alerts preference; will surface in the next digest instead.".

Definition _deliver_channels (n : Notification) (p : UserNotificationPreferences) (now : datetime)
    : M (list NotificationDelivery) :=
  let allowed := _type_allowed p (n_type n) in
  do! deliveries :=
    (if in_app_enabled p
     then do! d := _record_delivery n IN_APP (if allowed then SIMULATED else SKIPPED) None in a_ret [d]
     else a_ret []) in
  if negb (email_enabled p) || negb allowed then a_ret deliveries
  else
    do! suppress := readable (should_suppress_immediate_alert p now) in
    if suppress : bool then
      do! d := _record_delivery n EMAIL SKIPPED (Some SUPPRESSED) in a_ret (deliveries ++ [d])
    else
      do! _ := send_email {| Mail.to_address := address_of (n_user_id n); Mail.subject := n_title n;
                             Mail.body_text := n_body n; Mail.body_html := Some (html_escape (n_body n)) |} in
      do! d := _record_delivery n EMAIL SIMULATED None in a_ret (deliveries ++ [d]).

Definition create_notification (user title body : string) (t : NotificationType)
    (severity : NotificationSeverity) (watchlist alert event : option string) (metadata : dict pvalue)
    : M Notification :=
  let cleaned := strip title in
  refuse! NotificationValidationError "Notification title must not be blank." when negb (nonempty cleaned) in
  do! p := get_preferences user in
  do! now := now_ env in
  do! i := new_id env in
  let n := {| n_id := i; n_user_id := user; n_title := cleaned; n_body := strip body; n_type := t;
              n_severity := severity; n_created_at := now; n_watchlist_id := watchlist;
              n_alert_id := alert; n_alert_event_id := event; n_channel := IN_APP; n_read_at := None;
              n_archived_at := None;
              n_delivery_status := if in_app_enabled p && _type_allowed p t then SIMULATED else SKIPPED;
              n_metadata := metadata |} in
  do! _ := upd_center (save_notification n) in
  do! _ := _deliver_channels n p now in
  a_ret n.

Definition create_from_alert_event (e : AlertEvent) (watchlist : option Watchlist)
    (item : option WatchlistItem) : M Notification :=
  let t := _EVENT_TO_NOTIFICATION_TYPE (ev_type e) in
  let '(title, body) := _render_event_content e t watchlist item in
  let watchlist_id := match watchlist with
                      | Some w => Some (wl_id w)
                      | None => match item with Some i => Some (it_watchlist_id i) | None => None end
                      end in
  create_notification (ev_user_id e) title body t (_map_severity (ev_severity e)) watchlist_id
    (ev_alert_id e) (Some (ev_id e))
    (d_update [("rule_id", POpt PText (ev_rule_id e)); ("dedupe_key", PText (dedupe_key e))]%string (payload e)).

(** *** Reading and state changes *)

Definition get_notification (i : string) (user : option string) : M Notification :=
  do! found := center (CenterMemory.get_notification i) in
  match found with
  | Some n =>
      if match user with Some u => negb (String.eqb (n_user_id n) u) | None => false end
      then raise (NotificationNotFoundError i) else a_ret n
  | None => raise (NotificationNotFoundError i)
  end.

Definition wanted {A} `{EqDecision A} (want : option A) (a : A) : bool :=
  match want with Some x => bool_decide (a = x) | None => true end.
Definition read_filter (unread : option bool) (n : Notification) : bool :=
  match unread with
  | Some true => is_none (n_read_at n) && is_none (n_archived_at n)
  | Some false => is_some (n_read_at n)
  | None => true
  end.

Definition list_notifications (user : string) (t : option NotificationType)
    (severity : option NotificationSeverity) (watchlist : option string) (unread : option bool)
    (limit offset : Z) : M (list Notification) :=
  refuse! NotificationValidationError "limit and offset must be non-negative."
    when (limit <? 0) || (offset <? 0) in
  do! items := center (CenterMemory.list_notifications user false true 1000000) in
  let items := List.filter (fun n => wanted t (n_type n)) items in
  let items := List.filter (fun n => wanted severity (n_severity n)) items in
  let items := match watchlist with
               | Some w => List.filter (fun n => WatchMemory.opt_string_eqb (n_watchlist_id n) (Some w)) items
               | None => items end in
  let items := List.filter (read_filter unread) items in
  a_ret (WatchMemory.take_z limit (drop (Z.to_nat offset) items)).

Definition unread_count (user : string) : M Z := center (count_unread user).

(** The repository's own clock stamps the transition. *)
Definition repo_mark_read (i : string) : M Notification :=
  do! now := now_ env in
  do! r := on_center (CenterMemory.mark_read i now) in
  match r with Some n => a_ret n | None => raise (NotificationNotFoundError i) end.

Definition mark_read (i : string) (user : option string) : M Notification :=
  do! _ := get_notification i user in repo_mark_read i.

Fixpoint mark_each (l : list Notification) : M unit :=
  match l with
  | [] => a_ret tt
  | n :: rest => do! _ := repo_mark_read (n_id n) in mark_each rest
  end.
Definition mark_all_read (user : string) : M Z :=
  do! unread := list_notifications user None None None (Some true) 1000000 0 in
  do! _ := mark_each unread in
  a_ret (Z.of_nat (length unread)).

Definition archive (i : string) (user : option string) : M Notification :=
  do! _ := get_notification i user in
  do! now := now_ env in
  do! r := on_center (archive_notification i now) in
  match r with Some n => a_ret n | None => raise (NotificationNotFoundError i) end.

Definition delete (i : string) (user : option string) : M unit :=
  do! _ := get_notification i user in
  do! _ := on_center (delete_notification i) in a_ret tt.

(** *** Unsubscribing *)

Definition _hash_token (raw : string) : string := sha256_hex env (utf8 raw).

Definition create_unsubscribe_token (user : string) : M (string * UnsubscribeToken) :=
  do! raw := ask (token_urlsafe env) in
  do! now := now_ env in
  let t := {| ut_hash := _hash_token raw; ut_user_id := user; ut_created_at := now; ut_revoked_at := None |} in
  do! _ := upd_center (save_unsubscribe_token t) in a_ret (raw, t).

Definition validate_unsubscribe_token (raw : string) : M (option UnsubscribeToken) :=
  do! t := center (get_unsubscribe_token (_hash_token raw)) in
  a_ret (match t with Some t => if is_some (ut_revoked_at t) then None else Some t | None => None end).

Definition revoke_unsubscribe_token (raw : string) : M bool :=
  do! now := now_ env in on_center (CenterMemory.revoke_unsubscribe_token (_hash_token raw) now).

Definition unsubscribe_edit : preference_edit :=
  {| pe_in_app := None; pe_email := Some false; pe_immediate := None; pe_daily := Some false;
     pe_weekly := Some false; pe_start := None; pe_end := None; pe_timezone := None; pe_price := None;
     pe_stock := None; pe_freshness := None; pe_marketing := None |}.

Definition unsubscribe (raw : string) : M (option UserNotificationPreferences) :=
  do! token := validate_unsubscribe_token raw in
  match token with
  | None => a_ret None
  | Some t =>
      do! updated := update_preferences (ut_user_id t) unsubscribe_edit in
      do! _ := revoke_unsubscribe_token raw in
      a_ret (Some updated)
  end.

(** *** Digests *)

Definition _build_digest (user : string) (period : DigestPeriod) (since : option datetime)
    : M NotificationDigest :=
  do! notifications := center (CenterMemory.list_notifications user true false 10000) in
  do! now := now_ env in
  do! i := new_id env in
  let d := build_digest user period notifications now since i in
  do! _ := upd_center (save_digest d) in a_ret d.
Definition build_daily_digest (user : string) (since : option datetime) : M NotificationDigest :=
  _build_digest user DAILY since.
Definition build_weekly_digest (user : string) (since : option datetime) : M NotificationDigest :=
  _build_digest user WEEKLY since.

Definition nl : string := String (ascii_of_nat 10) "".
Definition period_title (p : DigestPeriod) : string :=
  match p with DAILY => "Daily" | WEEKLY => "Weekly" end.

Definition deliver_digest (d : NotificationDigest) : M NotificationDigest :=
  let save d := do! _ := upd_center (save_digest d) in a_ret d in
  if negb (has_content d) then save (mark_failed d)
  else
    do! p := get_preferences (dg_user_id d) in
    if negb (email_enabled p) then save (mark_failed d)
    else
      do! found := center (fun s => omap (fun i => CenterMemory.get_notification i s) (dg_notification_ids d)) in
      let lines := match found with
                   | [] => ["No updates."]%string
                   | _ => map (fun n => n_title n +:+ ": " +:+ n_body n) found end in
      do! _ := send_email
        {| Mail.to_address := address_of (dg_user_id d);
           Mail.subject := "DealBrain " +:+ period_title (dg_period d) +:+ " Digest " +:+ Mail.em_dash
             +:+ " " +:+ Int.str_int (Z.of_nat (length found)) +:+ " update(s)";
           Mail.body_text := String.concat nl lines;
           Mail.body_html := Some (String.concat "<br/>" (map html_escape lines)) |} in
      save (mark_simulated d).
End CenterService.
End CenterService.

(** ** [AlertRuleService] *)
Module RuleService.
Import AlertEntities RuleMemory.

Definition _REQUIRES_THRESHOLD_VALUE : list AlertConditionType :=
  [ABSOLUTE_PRICE_DECREASE; DEALSCORE_THRESHOLD].
Definition _REQUIRES_THRESHOLD_PERCENT : list AlertConditionType := [PERCENTAGE_PRICE_DECREASE].

(** A condition, or the dictionary of one. *)
Record raw_condition := {
  rc_type : option string; rc_value : option float; rc_percent : option float; rc_comparison : option string
}.
Definition condition_arg : Type := AlertCondition + raw_condition.

Definition invalid {A} (message : string) : result alert_exn A := Err (AlertRuleValidationError message).
Definition repr_opt (o : option string) : string :=
  match o with Some s => repr_str s | None => "None" end.

Definition _condition_from_dict (r : raw_condition) : result alert_exn AlertCondition :=
  match rc_type r ≫= condition_of_value with
  | Some t => Ok {| condition_type := t; threshold_value := rc_value r; threshold_percent := rc_percent r;
                    comparison := rc_comparison r |}
  | None => invalid ("Invalid condition_type: " +:+ repr_opt (rc_type r))
  end.

Definition comparison_ok (s : string) : bool := existsb (String.eqb s) ["lte"; "gte"; "eq"]%string.

Definition _validate_condition (c : AlertCondition) : result alert_exn unit :=
  let t := condition_type c in
  if bool_decide (t ∈ _REQUIRES_THRESHOLD_VALUE) && negb (is_some (threshold_value c))
  then invalid (condition_value t +:+ " requires threshold_value.")
  else if bool_decide (t ∈ _REQUIRES_THRESHOLD_PERCENT) && negb (is_some (threshold_percent c))
  then invalid (condition_value t +:+ " requires threshold_percent.")
  else if WatchService.Base.negative (threshold_value c)
  then invalid "threshold_value must be non-negative."
  else if match threshold_percent c with
          | Some p => negb (f_ltb f_zero p && f_leb p (of_Z 100)) | None => false end
  then invalid "threshold_percent must be between 0 and 100."
  else match comparison c with
       | Some s => if comparison_ok s then Ok tt
                   else invalid ("Unsupported comparison operator: " +:+ repr_str s)
       | None => Ok tt
       end.

Fixpoint normalize_each (l : list condition_arg) : result alert_exn (list AlertCondition) :=
  match l with
  | [] => Ok []
  | raw :: rest =>
      let! c := match raw with inl c => Ok c | inr r => _condition_from_dict r end in
      let! _ := _validate_condition c in
      let! built := normalize_each rest in
      Ok (c :: built)
  end.
Definition _normalize_conditions (l : list condition_arg) : result alert_exn (list AlertCondition) :=
  raise! AlertRuleValidationError "At least one condition is required." when Engine.is_empty l in
  normalize_each l.

Definition required (message text : string) : result alert_exn string :=
  raise! AlertRuleValidationError message when negb (nonempty (strip text)) in Ok (strip text).
Definition _require_user_id (u : option string) : result alert_exn string :=
  required "user_id is required to create an alert rule." (from_option id ""%string u).
Definition _require_name (s : string) : result alert_exn string :=
  required "Alert rule name must not be blank." s.
Definition _require_timezone (s : string) : result alert_exn string :=
  required "timezone must not be blank." s.

(** The scope and the settings of a rule to create. *)
Record rule_fields := {
  rf_watchlist : option string; rf_item : option string; rf_enabled : bool; rf_status : AlertRuleStatus;
  rf_cooldown : Z; rf_repeat : AlertRepeatPolicy; rf_severity : AlertSeverity; rf_timezone : string;
  rf_channels : list NotificationChannel; rf_rule_id : option string
}.
(** What [update_rule] was given; a scope may be cleared. *)
Record rule_edit := {
  re_name : option string; re_conditions : option (list condition_arg);
  re_watchlist : option (option string); re_item : option (option string); re_enabled : option bool;
  re_status : option AlertRuleStatus; re_cooldown : option Z; re_repeat : option AlertRepeatPolicy;
  re_severity : option AlertSeverity; re_timezone : option string;
  re_channels : option (list NotificationChannel)
}.
Definition switch_edit (status : AlertRuleStatus) (enabled : bool) : rule_edit :=
  {| re_name := None; re_conditions := None; re_watchlist := None; re_item := None;
     re_enabled := Some enabled; re_status := Some status; re_cooldown := None; re_repeat := None;
     re_severity := None; re_timezone := None; re_channels := None |}.

Section RuleService.
Variable env : environment.

Definition save_rule (r : AlertRule) : M AlertRule :=
  do! _ := upd_rules (RuleMemory.save_rule r) in a_ret r.

Definition _ensure_watchlist_owned (i user : string) : M unit :=
  do! found := watch (WatchMemory.get_watchlist i) in
  match found with
  | None => raise (WatchlistNotFoundError i)
  | Some w => match wl_owner_id w with
              | Some owner => if String.eqb owner user then a_ret tt else raise (WatchlistOwnershipError i)
              | None => a_ret tt
              end
  end.

(** [if value is not None: self._require_...(value)]. *)
Definition checked {A B} (f : A -> result alert_exn B) (o : option A) : M (option B) :=
  match o with Some a => do! b := a_lift (f a) in a_ret (Some b) | None => a_ret None end.

Definition cooldown_ok (c : Z) : M unit :=
  a_guard (c <? 0) (AlertRuleValidationError "cooldown_seconds must be non-negative.").

Definition create_rule (user : option string) (name : string) (conds : list condition_arg) (f : rule_fields)
    : M AlertRule :=
  do! cleaned_user := a_lift (_require_user_id user) in
  do! cleaned_name := a_lift (_require_name name) in
  do! built := a_lift (_normalize_conditions conds) in
  do! timezone := a_lift (_require_timezone (rf_timezone f)) in
  do! _ := (match rf_watchlist f with
            | Some i => _ensure_watchlist_owned i cleaned_user | None => a_ret tt end) in
  do! _ := cooldown_ok (rf_cooldown f) in
  do! stamp := now_ env in
  do! i := (match rf_rule_id f with
            | Some i => if nonempty i then a_ret i else new_id env | None => new_id env end) in
  save_rule
    {| rule_id := i; ru_user_id := cleaned_user; ru_name := cleaned_name; conditions := built;
       ru_created_at := stamp; ru_watchlist_id := rf_watchlist f; ru_item_id := rf_item f;
       ru_enabled := rf_enabled f; ru_status := rf_status f; cooldown_seconds := rf_cooldown f;
       last_triggered_at := None; repeat_policy := rf_repeat f; ru_severity := rf_severity f;
       ru_timezone := timezone; channel_preferences := rf_channels f; ru_updated_at := Some stamp;
       one_time_fired := false |}.

Definition get_rule (i : string) (user : option string) : M AlertRule :=
  do! found := rules (RuleMemory.get_rule i) in
  match found with
  | Some r => if match user with Some u => negb (String.eqb (ru_user_id r) u) | None => false end
              then raise (AlertRuleNotFoundError i) else a_ret r
  | None => raise (AlertRuleNotFoundError i)
  end.

Definition list_rules (user watchlist item : option string) (enabled : option bool) : M (list AlertRule) :=
  rules (RuleMemory.list_rules user watchlist item enabled).

Definition apply_edit (r : AlertRule) (e : rule_edit) (name : option string)
    (conds : option (list AlertCondition)) (timezone : option string) (stamp : datetime) : AlertRule :=
  {| rule_id := rule_id r; ru_user_id := ru_user_id r; ru_name := default (ru_name r) name;
     conditions := default (conditions r) conds; ru_created_at := ru_created_at r;
     ru_watchlist_id := default (ru_watchlist_id r) (re_watchlist e);
     ru_item_id := default (ru_item_id r) (re_item e); ru_enabled := default (ru_enabled r) (re_enabled e);
     ru_status := default (ru_status r) (re_status e);
     cooldown_seconds := default (cooldown_seconds r) (re_cooldown e);
     last_triggered_at := last_triggered_at r; repeat_policy := default (repeat_policy r) (re_repeat e);
     ru_severity := default (ru_severity r) (re_severity e); ru_timezone := default (ru_timezone r) timezone;
     channel_preferences := default (channel_preferences r) (re_channels e);
     ru_updated_at := Some stamp; one_time_fired := one_time_fired r |}.

Definition update_rule (i : string) (user : option string) (e : rule_edit) : M AlertRule :=
  do! r := get_rule i user in
  do! stamp := now_ env in
  do! name := checked _require_name (re_name e) in
  do! conds := checked _normalize_conditions (re_conditions e) in
  do! _ := (match re_watchlist e with
            | Some (Some w) => _ensure_watchlist_owned w (ru_user_id r) | _ => a_ret tt end) in
  do! _ := (match re_cooldown e with Some c => cooldown_ok c | None => a_ret tt end) in
  do! timezone := checked _require_timezone (re_timezone e) in
  save_rule (apply_edit r e name conds timezone stamp).

Definition delete_rule (i : string) (user : option string) : M unit :=
  do! _ := get_rule i user in
  do! _ := on_rules (RuleMemory.delete_rule i) in a_ret tt.

Definition pause_rule (i : string) (user : option string) : M AlertRule :=
  update_rule i user (switch_edit DISABLED false).
Definition resume_rule (i : string) (user : option string) : M AlertRule :=
  update_rule i user (switch_edit ENABLED true).
Definition list_evaluations (rule : option string) (limit : Z) : M (list AlertEvaluation) :=
  rules (RuleMemory.list_evaluations rule limit).
End RuleService.
End RuleService.

(** ** The simulated receipts *)
Module Receipts.

Section Receipts.
Variables (env : environment) (cfg : config).

(** [try: ... except Exception: return]. *)
Definition best_effort {A} (m : M A) : M unit := do! _ := attempt m in a_ret tt.

(** [MockNotificationService.notify]. *)
Definition mock_notify (a : Alert) : M NotificationReceipt :=
  do! i := new_id env in
  do! now := now_ env in
  let receipt :=
    {| nr_id := i; nr_alert_id := al_id a; nr_channel := MOCK; nr_status := QUEUED; nr_created_at := now;
       nr_detail := "Queued mock notification for alert " +:+ al_id a +:+ " ("
                    +:+ alert_type_value (al_type a) +:+ "). No email/SMS/push sent." |} in
  fun w => (Ok receipt, with_receipts (w_receipts w ++ [receipt]) w).

(** [EnhancedNotificationService._fan_out_alert], without effect in the mock
    service: the alert has no user. *)
Definition _fan_out_alert (a : Alert) : M unit :=
  if negb (has_enhanced cfg) then a_ret tt
  else best_effort
    (CenterService.create_notification env "" ("Alert: " +:+ alert_type_value (al_type a)) (al_message a)
       Notifications.NT_SYSTEM Notifications.NS_INFO (Some (al_watchlist_id a)) (Some (al_id a)) None []).

Definition notify (a : Alert) : M NotificationReceipt :=
  do! receipt := mock_notify a in
  do! _ := _fan_out_alert a in
  a_ret receipt.

Definition _fan_out_event (e : AlertEntities.AlertEvent) : M unit :=
  if negb (has_enhanced cfg) then a_ret tt
  else best_effort (CenterService.create_from_alert_event env e None None).

Definition notify_event (e : AlertEntities.AlertEvent) : M NotificationReceipt :=
  do! _ := _fan_out_event e in
  do! i := new_id env in
  do! now := now_ env in
  a_ret {| nr_id := i; nr_alert_id := or_text (AlertEntities.ev_alert_id e) (AlertEntities.ev_id e);
           nr_channel := IN_APP; nr_status := SIMULATED; nr_created_at := now;
           nr_detail := "Queued mock in-app notification for event " +:+ AlertEntities.ev_id e +:+ " ("
             +:+ AlertEntities.event_type_value (AlertEntities.ev_type e) +:+ "). No email/SMS/push sent." |}.
End Receipts.
End Receipts.

(** ** [AlertEvaluationService] *)
Module EvaluationService.
Import AlertEntities Observations Dedupe Engine RuleMemory.

Definition _CONDITION_TO_ALERT_TYPE (t : AlertConditionType) : AlertType :=
  match t with
  | PRICE_DROP => AT_PRICE_DROP | PERCENTAGE_PRICE_DECREASE => AT_PERCENTAGE_PRICE_DECREASE
  | ABSOLUTE_PRICE_DECREASE => AT_ABSOLUTE_PRICE_DECREASE | PRICE_INCREASE => AT_PRICE_INCREASE
  | TARGET_PRICE_REACHED => AT_TARGET_PRICE_REACHED | HISTORICAL_LOW => AT_HISTORICAL_LOW
  | DEALSCORE_IMPROVED => AT_DEALSCORE_IMPROVED | DEALSCORE_THRESHOLD => AT_DEALSCORE_THRESHOLD
  | RESTOCKED => AT_RESTOCKED | UNAVAILABLE => AT_UNAVAILABLE | LOW_INVENTORY => AT_LOW_INVENTORY
  | BETTER_OFFER => AT_BETTER_OFFER | PREFERRED_SELLER_AVAILABLE => AT_PREFERRED_SELLER_AVAILABLE
  | PREFERRED_MARKETPLACE_AVAILABLE => AT_PREFERRED_MARKETPLACE_AVAILABLE
  | STALE_DATA => AT_STALE_DATA | FRESHNESS_RESTORED => AT_FRESHNESS_RESTORED
  end.

Lemma alert_type_of_condition t : alert_type_value (_CONDITION_TO_ALERT_TYPE t) = condition_value t.
Proof. by destruct t. Qed.

Record ItemEvaluationOutcome := {
  io_item_id : string; io_rule_id : string; io_evaluation : AlertEvaluation; io_event : option AlertEvent;
  io_alert : option Alert
}.
Record AlertEvaluationSummary := {
  su_evaluated_at : datetime; rules_evaluated : Z; triggered_count : Z;
  events_created : list AlertEvent; alerts_created : list Alert;
  outcomes : list ItemEvaluationOutcome; failures : list string
}.

(** [x or y] of optional numbers. *)
Definition or_float (x y : option float) : option float :=
  match x with Some a => if f_truthy a then Some a else y | None => y end.

Section EvaluationService.
Variables (env : environment) (cfg : config).

(** *** Observations *)

(** The prices of an item: [price], [currency], [historical_low]. *)
Definition _apply_price_history (x : WatchlistItem) : M (option float * option string * option float) :=
  let old := (it_last_known_price x, None, it_last_historical_low x) in
  if negb (has_price_history cfg) then a_ret old
  else
    do! n := suspend env in
    match price_history env (it_canonical_product_id x) n with
    | Err ReadValidation | Ok None => a_ret old
    | Err (ReadFailed m) => raise (ServiceError m)
    | Ok (Some p) =>
        a_ret (Some (pr_current p), Some (pr_currency p), first_some (pr_lowest p) (it_last_historical_low x))
    end.

Definition item_query (x : WatchlistItem) : string :=
  strip (or_text (it_search_query x) (or_text (it_product_label x) "")).

Definition _apply_dealscore (x : WatchlistItem) : M (option float) :=
  if negb (has_recommendations cfg) || negb (nonempty (item_query x)) then a_ret (it_last_known_dealscore x)
  else
    do! answer := ask (recommend env (item_query x)) in
    match answer with
    | Err ReadValidation | Ok None => a_ret (it_last_known_dealscore x)
    | Err (ReadFailed m) => raise (ServiceError m)
    | Ok (Some score) => a_ret (Some score)
    end.

(** Nothing, when there is no offer to look at or the lookup fails. *)
Definition _apply_marketplace_offer (x : WatchlistItem) : M (option offer_reading) :=
  let offer := or_text (it_marketplace_offer_id x) "" in
  if negb (has_marketplace cfg) || negb (nonempty offer) then a_ret None
  else do! answer := ask (get_offer env offer) in
       a_ret (match answer with Ok o => Some o | Err _ => None end).

Definition _build_observation (x : WatchlistItem) : M observation :=
  do! previous := (fun w => (Ok (w_previous w !! it_id x), w)) in
  do! (p, currency, low) := _apply_price_history x in
  do! score := _apply_dealscore x in
  do! offer := _apply_marketplace_offer x in
  let fresh := offer ≫= of_freshness in
  a_ret {| price := p; previous_price := it_last_known_price x; ob_currency := currency;
           inventory := offer ≫= of_inventory; availability := of_availability <$> offer;
           previous_availability := previous ≫= availability; seller := offer ≫= of_seller;
           previous_seller := previous ≫= seller; marketplace := of_marketplace <$> offer;
           previous_marketplace := previous ≫= marketplace;
           freshness_status := fst <$> fresh;
           previous_freshness_status := previous ≫= freshness_status;
           age_hours := match fresh with Some f => f.2 | None => None end; dealscore := score;
           previous_dealscore := it_last_known_dealscore x; historical_low := low;
           target_price := it_target_price x; preferred_sellers := it_preferred_sellers x;
           preferred_marketplaces := it_preferred_marketplaces x; better_offer_price := None |}.

(** *** Events *)

Definition engine_evaluate (r : AlertRule) (o : observation) (now : datetime) : M AlertEvaluation :=
  do! i := new_id env in
  a_ret (evaluate_rule (sha256_hex env) (low_inventory_threshold cfg) i r o now).

Fixpoint identify_from (r : AlertRule) (l : list AlertCondition) (o : observation) (now : datetime)
    : M (option AlertConditionType) :=
  match l with
  | [] => a_ret None
  | c :: rest =>
      do! result := engine_evaluate (probe r c) o now in
      if triggered result then a_ret (Some (condition_type c)) else identify_from r rest o now
  end.
Definition _identify_triggered_condition (r : AlertRule) (o : observation) (now : datetime)
    : M (option AlertConditionType) := identify_from r (conditions r) o now.

Definition _build_event (t : AlertConditionType) (r : AlertRule) (x : WatchlistItem) (o : observation)
    (key : string) (now : datetime) : M AlertEvent :=
  do! i := new_id env in
  let user := ru_user_id r in
  let rule := Some (rule_id r) in
  let sev := ru_severity r in
  let currency := PText (or_text (ob_currency o) (it_currency x)) in
  let p := POpt PFloat (price o) in
  let previous := POpt PFloat (first_some (previous_price o) (price o)) in
  a_ret match t with
        | PRICE_DROP | PERCENTAGE_PRICE_DECREASE | ABSOLUTE_PRICE_DECREASE | TARGET_PRICE_REACHED
        | HISTORICAL_LOW => price_drop i user key now rule sev previous p currency
        | PRICE_INCREASE => price_increase i user key now rule sev previous p currency
        | RESTOCKED => restock i user key now rule sev (POpt PInt (inventory o))
        | UNAVAILABLE => out_of_stock i user key now rule sev
        | LOW_INVENTORY => low_inventory i user key now rule sev (POpt PInt (inventory o))
        | BETTER_OFFER => better_offer i user key now rule sev (or_text (it_marketplace_offer_id x) "")
            (PFloat (default f_zero (or_float (better_offer_price o) (or_float (price o) (Some f_zero))))) currency
        | PREFERRED_SELLER_AVAILABLE => seller_change i user key now rule sev (or_text (seller o) "") true
        | PREFERRED_MARKETPLACE_AVAILABLE =>
            availability_change i user key now rule sev (or_text (previous_marketplace o) "unknown")
              (or_text (marketplace o) "unknown")
        | DEALSCORE_IMPROVED | DEALSCORE_THRESHOLD =>
            dealscore_change i user key now rule sev (POpt PFloat (dealscore o))
              (POpt PFloat (previous_dealscore o))
        | STALE_DATA => freshness_warning i user key now rule sev (POpt PFloat (age_hours o)) false
        | FRESHNESS_RESTORED => freshness_warning i user key now rule sev (POpt PFloat (age_hours o)) true
        end.

Definition save_alert (a : Alert) : M Alert := do! _ := upd_watch (WatchMemory.save_alert a) in a_ret a.

Definition _create_legacy_alert (t : AlertConditionType) (x : WatchlistItem) (o : observation)
    (e : AlertEvaluation) (now : datetime) : M (option Alert) :=
  if negb (has_alerts cfg) then a_ret None
  else
    do! i := new_id env in
    let a := {| al_id := i; al_watchlist_id := it_watchlist_id x; al_item_id := it_id x;
                al_canonical_product_id := it_canonical_product_id x; al_type := _CONDITION_TO_ALERT_TYPE t;
                al_message := reason e; al_created_at := now;
                al_previous_value := or_float (previous_price o) (previous_dealscore o);
                al_current_value := or_float (price o) (dealscore o); al_currency := ob_currency o;
                al_dealscore := dealscore o; al_status := AS_PENDING; al_notified_at := None |} in
    do! saved := save_alert a in
    if negb (has_notifications cfg) then a_ret (Some saved)
    else
      do! receipt := Receipts.notify env cfg saved in
      do! saved := save_alert (alert_with_status saved AS_NOTIFIED (Some (nr_created_at receipt))) in
      a_ret (Some saved).

(** Whatever the center raises is swallowed. *)
Definition _fan_out (e : AlertEvent) (watchlist : option Watchlist) (x : WatchlistItem) : M unit :=
  if negb (has_center cfg) then a_ret tt
  else Receipts.best_effort (CenterService.create_from_alert_event env e watchlist (Some x)).

(** *** One rule on one item

    After the observation is built there is no [await]: [process] is atomic. *)

Definition outcome (x : WatchlistItem) (r : AlertRule) (e : AlertEvaluation) (ev : option AlertEvent)
    (a : option Alert) : ItemEvaluationOutcome :=
  {| io_item_id := it_id x; io_rule_id := rule_id r; io_evaluation := e; io_event := ev; io_alert := a |}.

Definition key_of (r : AlertRule) (x : WatchlistItem) (t : AlertConditionType) (e : AlertEvaluation) : string :=
  build_dedupe_key (ru_user_id r) t (Some (rule_id r)) (Some (it_watchlist_id x)) (Some (it_id x))
    (observation_fp e).

(** The event of a triggered rule, unless its key is there already. *)
Definition raise_event (r : AlertRule) (x : WatchlistItem) (o : observation) (now : datetime)
    (e : AlertEvaluation) (t : AlertConditionType) : M ItemEvaluationOutcome :=
  let key := key_of r x t e in
  do! found := rules (find_by_dedupe_key key) in
  do! _ := upd_rules (save_rule (mark_triggered r now)) in
  if is_some found then a_ret (outcome x r e None None)
  else
    do! event := _build_event t r x o key now in
    do! _ := upd_rules (save_event event) in
    do! watchlist := watch (WatchMemory.get_watchlist (it_watchlist_id x)) in
    do! alert := _create_legacy_alert t x o e now in
    do! _ := _fan_out event watchlist x in
    a_ret (outcome x r e (Some event) alert).

Definition process (r : AlertRule) (x : WatchlistItem) (o : observation) (now : datetime)
    : M ItemEvaluationOutcome :=
  do! e := engine_evaluate r o now in
  do! _ := upd_rules (save_evaluation e) in
  do! _ := (fun w => (Ok tt, with_previous (<[it_id x := o]> (w_previous w)) w)) in
  if negb (triggered e) then a_ret (outcome x r e None None)
  else
    do! t := _identify_triggered_condition r o now in
    match t with
    | None => a_ret (outcome x r e None None)
    | Some t => raise_event r x o now e t
    end.

Definition _evaluate_rule_for_item (r : AlertRule) (x : WatchlistItem) (now : datetime)
    : M ItemEvaluationOutcome :=
  do! o := _build_observation x in process r x o now.

(** *** A batch *)

Definition _resolve_items_for_rule (r : AlertRule) (s : WatchMemory.watch_store) : list WatchlistItem :=
  match ru_item_id r with
  | Some i => match WatchMemory.get_item i s with
              | Some x => if it_enabled x then [x] else []
              | None => []
              end
  | None =>
      match ru_watchlist_id r with
      | Some w => WatchMemory.list_items (Some w) (Some true) s
      | None => flat_map (fun w => WatchMemory.list_items (Some (wl_id w)) (Some true) s)
                  (WatchMemory.list_watchlists (Some true) (Some (ru_user_id r)) None s)
      end
  end.

(** What the loops collect. *)
Record tally := { ta_outcomes : list ItemEvaluationOutcome; ta_failures : list string }.

Definition count_in (t : tally) (o : ItemEvaluationOutcome) : tally :=
  {| ta_outcomes := ta_outcomes t ++ [o]; ta_failures := ta_failures t |}.
Definition fail_in (t : tally) (m : string) : tally :=
  {| ta_outcomes := ta_outcomes t; ta_failures := ta_failures t ++ [m] |}.

Fixpoint evaluate_items (r : AlertRule) (l : list WatchlistItem) (now : datetime) (t : tally) : M tally :=
  match l with
  | [] => a_ret t
  | x :: rest =>
      do! result := attempt (_evaluate_rule_for_item r x now) in
      evaluate_items r rest now
        match result with
        | Ok o => count_in t o
        | Err e => fail_in t ("rule " +:+ rule_id r +:+ " / item " +:+ it_id x +:+ ": " +:+ exn_message e)
        end
  end.

Fixpoint evaluate_each (l : list AlertRule) (now : datetime) (t : tally) : M tally :=
  match l with
  | [] => a_ret t
  | r :: rest =>
      do! items := watch (_resolve_items_for_rule r) in
      do! t := evaluate_items r items now t in
      evaluate_each rest now t
  end.

Definition summary (stamp : datetime) (l : list AlertRule) (t : tally) : AlertEvaluationSummary :=
  {| su_evaluated_at := stamp; rules_evaluated := Z.of_nat (length l);
     triggered_count := Z.of_nat (length (List.filter (fun o => triggered (io_evaluation o)) (ta_outcomes t)));
     events_created := omap io_event (ta_outcomes t); alerts_created := omap io_alert (ta_outcomes t);
     outcomes := ta_outcomes t; failures := ta_failures t |}.

Definition _evaluate_rule_batch (l : list AlertRule) (now : option datetime) : M AlertEvaluationSummary :=
  do! stamp := (match now with Some t => a_ret t | None => now_ env end) in
  do! t := evaluate_each l stamp {| ta_outcomes := []; ta_failures := [] |} in
  a_ret (summary stamp l t).

Definition trigger_evaluate (user watchlist rule : option string) (now : option datetime)
    : M (list AlertEvaluation) :=
  do! l := (match rule, watchlist, user with
            | Some i, _, _ => rules (fun s => match get_rule i s with Some r => [r] | None => [] end)
            | None, Some w, _ => rules (list_rules None (Some w) None None)
            | None, None, Some u => rules (list_rules (Some u) None None None)
            | None, None, None => rules (list_rules None None None None)
            end) in
  do! s := _evaluate_rule_batch l now in
  a_ret (map io_evaluation (outcomes s)).

(** The four listings, and a batch that is given. *)
Definition evaluate_listed (user watchlist item : option string) (now : option datetime)
    : M AlertEvaluationSummary :=
  do! l := rules (list_rules user watchlist item (Some true)) in _evaluate_rule_batch l now.
Definition evaluate_all (now : option datetime) : M AlertEvaluationSummary := evaluate_listed None None None now.
Definition evaluate_for_user (user : string) (now : option datetime) : M AlertEvaluationSummary :=
  evaluate_listed (Some user) None None now.
Definition evaluate_watchlist (w : string) (now : option datetime) : M AlertEvaluationSummary :=
  evaluate_listed None (Some w) None now.
Definition evaluate_item (i : string) (now : option datetime) : M AlertEvaluationSummary :=
  evaluate_listed None None (Some i) now.
Definition evaluate_rules (l : list AlertRule) (now : option datetime) : M AlertEvaluationSummary :=
  _evaluate_rule_batch l now.
End EvaluationService.
End EvaluationService.

(** ** [AlertService]

    The older service: fixed conditions on every item, no rules. *)
Module LegacyService.
Import Engine.

Record AlertEvaluationResult := {
  ar_watchlist_ids : list string; items_checked : Z; ar_alerts_created : list Alert;
  ar_notifications : list NotificationReceipt; ar_evaluated_at : datetime
}.

(** The texts the messages contain as UTF-8. *)
Definition arrow : string := of_chars (map ascii_of_nat [226; 134; 146]%nat).
Definition at_most : string := of_chars (map ascii_of_nat [226; 137; 164]%nat).

(** What an evaluation of an item sees. *)
Record reading := {
  rd_price : option float; rd_low : option float; rd_currency : string; rd_count : Z;
  rd_dealscore : option float; rd_freshness : option string; rd_age : option float
}.

(** The alerts to build: type, message, previous and current value. *)
Definition draft : Type := AlertType * string * option float * option float.

Definition price_drop_draft (x : WatchlistItem) (r : reading) (p : float) : list draft :=
  match it_last_known_price x with
  | Some last =>
      if f_ltb p last then
        [(AT_PRICE_DROP, "Price dropped by " +:+ rd_currency r +:+ " " +:+ fixed 2 (round_to 2 (f_sub last p))
            +:+ " (" +:+ fixed 2 last +:+ " " +:+ arrow +:+ " " +:+ fixed 2 p +:+ ").", Some last, Some p)]
      else []
  | None => []
  end.

Definition target_draft (x : WatchlistItem) (r : reading) (p : float) : list draft :=
  match it_target_price x with
  | Some target =>
      if f_leb p target then
        [(AT_TARGET_PRICE_REACHED, "Target price reached: " +:+ rd_currency r +:+ " " +:+ fixed 2 p +:+ " "
            +:+ at_most +:+ " target " +:+ fixed 2 target +:+ ".", Some target, Some p)]
      else []
  | None => []
  end.

Definition below (p : float) (o : option float) : bool :=
  match o with Some x => f_ltb p x | None => true end.
Definition is_new_low (x : WatchlistItem) (p low : float) : bool :=
  below p (it_last_historical_low x) || (f_eqb p low && below p (it_last_known_price x)).

Definition low_draft (x : WatchlistItem) (r : reading) (p : float) : list draft :=
  match rd_low r with
  | Some low =>
      if (2 <=? rd_count r) && f_leb p low && is_new_low x p low then
        [(AT_HISTORICAL_LOW, "New historical low detected: " +:+ rd_currency r +:+ " " +:+ fixed 2 p
            +:+ " (lowest recorded in available PiqSavi history).", it_last_historical_low x, Some p)]
      else []
  | None => []
  end.

Definition score_draft (x : WatchlistItem) (r : reading) : list draft :=
  match rd_dealscore r, it_last_known_dealscore x with
  | Some score, Some last =>
      if f_ltb last score then
        [(AT_DEALSCORE_IMPROVED, "PiqScore improved from " +:+ fixed 1 last +:+ " to " +:+ fixed 1 score +:+ ".",
          Some last, Some score)]
      else []
  | _, _ => []
  end.

Definition stale_draft (r : reading) : list draft :=
  if WatchMemory.opt_string_eqb (rd_freshness r) (Some "stale"%string) then
    [(AT_STALE_DATA, "Marketplace data for this item is stale"
        +:+ match rd_age r with Some h => " (" +:+ fixed 1 h +:+ "h old)." | None => "." end, None, rd_age r)]
  else [].

Definition drafts (x : WatchlistItem) (r : reading) : list draft :=
  match rd_price r with
  | Some p => price_drop_draft x r p ++ target_draft x r p ++ low_draft x r p
  | None => []
  end ++ score_draft x r ++ stale_draft r.

Definition new_baseline (x : WatchlistItem) (r : reading) (stamp : datetime) : WatchlistItem :=
  item_with_baseline x (first_some (rd_price r) (it_last_known_price x))
    (first_some (rd_dealscore r) (it_last_known_dealscore x))
    (first_some (rd_low r) (it_last_historical_low x)) stamp.

Section LegacyService.
Variables (env : environment) (cfg : config).

Definition get_alert (i : string) : M Alert :=
  do! found := watch (WatchMemory.get_alert i) in
  match found with Some a => a_ret a | None => raise (AlertNotFoundError i) end.

Definition list_alerts (watchlist item type status : option string) (limit : Z) : M (list Alert) :=
  do! _ := (match watchlist with
            | Some i => do! found := watch (WatchMemory.get_watchlist i) in
                        if is_some found then a_ret tt else raise (WatchlistNotFoundError i)
            | None => a_ret tt end) in
  refuse! WatchlistValidationError "limit must be at least 1." when limit <? 1 in
  watch (WatchMemory.list_alerts watchlist item type status limit).

Definition set_status (i : string) (s : AlertStatus) : M Alert :=
  do! a := get_alert i in EvaluationService.save_alert (alert_with_status a s (al_notified_at a)).
Definition acknowledge_alert (i : string) : M Alert := set_status i AS_ACKNOWLEDGED.
Definition dismiss_alert (i : string) : M Alert := set_status i AS_DISMISSED.

(** *** What an evaluation reads *)

Definition read_prices (x : WatchlistItem) : M (option price_reading) :=
  do! n := suspend env in
  match price_history env (it_canonical_product_id x) n with
  | Err ReadValidation => a_ret None
  | Err (ReadFailed m) => raise (ServiceError m)
  | Ok p => a_ret p
  end.
Definition _resolve_dealscore (x : WatchlistItem) : M (option float) := EvaluationService._apply_dealscore env cfg x.
Definition _freshness_observation (x : WatchlistItem) : M (option string * option float) :=
  do! offer := EvaluationService._apply_marketplace_offer env cfg x in
  a_ret (match offer ≫= of_freshness with Some f => (Some f.1, f.2) | None => (None, None) end).

Definition read_item (x : WatchlistItem) : M reading :=
  do! p := read_prices x in
  do! score := _resolve_dealscore x in
  do! (fresh, age) := _freshness_observation x in
  a_ret {| rd_price := pr_current <$> p; rd_low := match p with Some p => pr_lowest p | None => None end;
           rd_currency := match p with Some p => pr_currency p | None => it_currency x end;
           rd_count := match p with Some p => pr_count p | None => 0 end;
           rd_dealscore := score; rd_freshness := fresh; rd_age := age |}.

Definition _build_alert (x : WatchlistItem) (r : reading) (stamp : datetime) (d : draft) : M Alert :=
  let '(t, message, previous, current) := d in
  do! i := new_id env in
  a_ret {| al_id := i; al_watchlist_id := it_watchlist_id x; al_item_id := it_id x;
           al_canonical_product_id := it_canonical_product_id x; al_type := t; al_message := message;
           al_created_at := stamp; al_previous_value := previous; al_current_value := current;
           al_currency := Some (rd_currency r); al_dealscore := rd_dealscore r; al_status := AS_PENDING;
           al_notified_at := None |}.

Fixpoint build_alerts (x : WatchlistItem) (r : reading) (stamp : datetime) (l : list draft) : M (list Alert) :=
  match l with
  | [] => a_ret []
  | d :: rest =>
      do! a := _build_alert x r stamp d in
      do! more := build_alerts x r stamp rest in
      a_ret (a :: more)
  end.

Definition _evaluate_item (x : WatchlistItem) (stamp : datetime) : M (list Alert) :=
  do! r := read_item x in
  do! alerts := build_alerts x r stamp (drafts x r) in
  do! _ := upd_watch (WatchMemory.save_item (new_baseline x r stamp)) in
  a_ret alerts.

(** *** The pass *)

Definition type_map (t : AlertType) : Notifications.NotificationType :=
  match t with
  | AT_PRICE_DROP | AT_TARGET_PRICE_REACHED | AT_HISTORICAL_LOW => Notifications.NT_PRICE_DROP
  | AT_PRICE_INCREASE => Notifications.NT_PRICE_INCREASE
  | AT_DEALSCORE_IMPROVED | AT_DEALSCORE_THRESHOLD => Notifications.NT_DEALSCORE_THRESHOLD
  | AT_RESTOCKED => Notifications.NT_RESTOCK
  | AT_UNAVAILABLE => Notifications.NT_OUT_OF_STOCK
  | AT_LOW_INVENTORY => Notifications.NT_LOW_INVENTORY
  | AT_BETTER_OFFER => Notifications.NT_BETTER_OFFER
  | AT_STALE_DATA | AT_FRESHNESS_RESTORED => Notifications.NT_FRESHNESS_WARNING
  | _ => Notifications.NT_SYSTEM
  end.

Definition _notify_notification_center (a : Alert) : M unit :=
  if negb (has_center cfg) then a_ret tt
  else Receipts.best_effort
    (CenterService.create_notification env "" ("Alert: " +:+ alert_type_value (al_type a)) (al_message a)
       (type_map (al_type a)) Notifications.NS_INFO (Some (al_watchlist_id a)) (Some (al_id a)) None []).

(** One alert saved, notified and saved again. *)
Definition publish (a : Alert) : M (Alert * NotificationReceipt) :=
  do! saved := EvaluationService.save_alert a in
  do! receipt := Receipts.notify env cfg saved in
  do! saved := EvaluationService.save_alert (alert_with_status saved AS_NOTIFIED (Some (nr_created_at receipt))) in
  do! _ := _notify_notification_center saved in
  a_ret (saved, receipt).

Fixpoint publish_all (l : list Alert) : M (list (Alert * NotificationReceipt)) :=
  match l with
  | [] => a_ret []
  | a :: rest =>
      do! done := publish a in
      do! more := publish_all rest in
      a_ret (done :: more)
  end.

Fixpoint evaluate_items (l : list WatchlistItem) (stamp : datetime) : M (list (Alert * NotificationReceipt)) :=
  match l with
  | [] => a_ret []
  | x :: rest =>
      do! alerts := _evaluate_item x stamp in
      do! done := publish_all alerts in
      do! more := evaluate_items rest stamp in
      a_ret (done ++ more)
  end.

Fixpoint evaluate_lists (l : list string) (stamp : datetime) : M (Z * list (Alert * NotificationReceipt)) :=
  match l with
  | [] => a_ret (0, [])
  | i :: rest =>
      do! items := watch (WatchMemory.list_items (Some i) (Some true)) in
      do! done := evaluate_items items stamp in
      do! (n, more) := evaluate_lists rest stamp in
      a_ret (Z.of_nat (length items) + n, done ++ more)
  end.

Definition _evaluate_watchlists (l : list string) : M AlertEvaluationResult :=
  do! stamp := now_ env in
  do! (n, done) := evaluate_lists l stamp in
  a_ret {| ar_watchlist_ids := l; items_checked := n; ar_alerts_created := map fst done;
           ar_notifications := map snd done; ar_evaluated_at := stamp |}.

Definition evaluate_all : M AlertEvaluationResult :=
  do! l := watch (WatchMemory.list_watchlists (Some true) None None) in
  _evaluate_watchlists (map wl_id l).

Definition evaluate_watchlist (i : string) : M AlertEvaluationResult :=
  do! found := watch (WatchMemory.get_watchlist i) in
  match found with
  | None => raise (WatchlistNotFoundError i)
  | Some w =>
      if wl_enabled w then _evaluate_watchlists [i]
      else
        do! stamp := now_ env in
        a_ret {| ar_watchlist_ids := [i]; items_checked := 0; ar_alerts_created := [];
                 ar_notifications := []; ar_evaluated_at := stamp |}
  end.
End LegacyService.
End LegacyService.
