(* ===== verification/NotifySafety.v ===== *)
(** What the notification center guarantees: when a mail is sent and when never
    again, what reading everything does to the counters, and that an escaped
    template lets no markup through. Module [Preserve] is the logic in which
    the proofs of this file and of [AlertSafety] follow the services call by
    call. *)

From S2P Require Import Prelude PyStr Clock PyState Float Password Watch Notify Alerts AlertWorld.
Import Ordered Watchlists Values World.
#[local] Open Scope Z_scope.
#[local] Open Scope py_scope.

(** ** What every call of a method preserves *)
Module Preserve.

Definition preserves (R : world -> world -> Prop) {A} (m : M A) : Prop := forall w, R w (m w).2.

Section Preserve.
Variable R : world -> world -> Prop.
Context `{HR : !PreOrder R}.

Lemma preserves_ret {A} (a : A) : preserves R (a_ret a).
Proof. intros w. by cbn. Qed.
Lemma preserves_raise {A} e : preserves R (raise e : M A).
Proof. intros w. by cbn. Qed.
Lemma preserves_lift {A} (x : result alert_exn A) : preserves R (a_lift x).
Proof. intros w. by cbn. Qed.
Lemma preserves_guard c e : preserves R (a_guard c e).
Proof. apply preserves_lift. Qed.
Lemma preserves_rules {A} (f : RuleMemory.rule_store -> A) : preserves R (rules f).
Proof. intros w. by cbn. Qed.
Lemma preserves_watch {A} (f : WatchMemory.watch_store -> A) : preserves R (watch f).
Proof. intros w. by cbn. Qed.
Lemma preserves_center {A} (f : CenterMemory.center_store -> A) : preserves R (center f).
Proof. intros w. by cbn. Qed.

Lemma preserves_bind {A B} (m : M A) (k : A -> M B) :
  preserves R m -> (forall a, preserves R (k a)) -> preserves R (a_bind m k).
Proof.
  intros Hm Hk w. unfold a_bind. specialize (Hm w). destruct (m w) as [[a|e] w']; [| exact Hm].
  etransitivity; [exact Hm | apply Hk].
Qed.
Lemma preserves_attempt {A} (m : M A) : preserves R m -> preserves R (attempt m).
Proof. intros Hm w. unfold attempt. specialize (Hm w). by destruct (m w). Qed.
Lemma preserves_best_effort {A} (m : M A) : preserves R m -> preserves R (Receipts.best_effort m).
Proof. intros Hm. apply preserves_bind; [by apply preserves_attempt | intros; apply preserves_ret]. Qed.
Lemma preserves_readable {A} (o : option A) : preserves R (CenterService.readable o).
Proof. destruct o; [apply preserves_ret | apply preserves_raise]. Qed.

Lemma preserves_ask {A} (f : nat -> A) :
  (forall w, R w (with_asked (S (w_asked w)) w)) -> preserves R (ask f).
Proof. intros H w. apply H. Qed.
End Preserve.
End Preserve.

Create HintDb preserve.
#[export] Hint Resolve Preserve.preserves_ret Preserve.preserves_raise Preserve.preserves_lift
  Preserve.preserves_guard Preserve.preserves_rules Preserve.preserves_watch Preserve.preserves_center
  Preserve.preserves_attempt Preserve.preserves_best_effort Preserve.preserves_ask
  Preserve.preserves_readable : preserve.

(** [keep]: one call after the other, through every decision. *)
Ltac keep_step :=
  match goal with
  | |- Preserve.preserves _ (a_bind _ _) => apply Preserve.preserves_bind; [exact _ | | intros ?]
  | |- Preserve.preserves _ (match ?x with _ => _ end) => destruct x
  | |- Preserve.preserves _ (let '_ := ?x in _) => destruct x
  | |- _ => solve [eauto 4 with preserve typeclass_instances]
  end.
Ltac keep_rest := match goal with |- ?R ?w (?m ?w).2 => generalize w; change (Preserve.preserves R m) end.
Ltac keep_calls := repeat (cbv zeta; keep_step).

(** ** Mail *)
Module MailRules.
Import Notifications Preferences CenterService CenterMemory Preserve.

(** The preferences allow a mail of this type now. *)
Definition mail_allowed (p : UserNotificationPreferences) (t : NotificationType) (now : datetime) : bool :=
  email_enabled p && _type_allowed p t
  && bool_decide (should_suppress_immediate_alert p now = Some false).

(** Of the preferences that are stored; those that [create_notification] makes
    for a user without any have no mail. *)
Definition mail_wanted (s : center_store) (user : string) (t : NotificationType) (now : datetime) : bool :=
  match CenterMemory.get_preferences user s with Some p => mail_allowed p t now | None => false end.

Definition message_of (user title body : string) : Mail.EmailMessage :=
  {| Mail.to_address := address_of user; Mail.subject := title; Mail.body_text := body;
     Mail.body_html := Some (Renderer.html_escape body) |}.

(** [w'] has one mail more than [w], with this message. *)
Definition one_mail (m : Mail.EmailMessage) (w w' : world) : Prop :=
  exists i at_, w_mails w' = w_mails w ++ [Mail.send_result m i at_].

Section MailRules.
Variable env : environment.

Lemma record_delivery_mails n ch st e w : w_mails (_record_delivery env n ch st e w).2 = w_mails w.
Proof. reflexivity. Qed.

Lemma deliver_mails n p now w :
  let w' := (_deliver_channels env n p now w).2 in
  if mail_allowed p (n_type n) now then one_mail (message_of (n_user_id n) (n_title n) (n_body n)) w w'
  else w_mails w' = w_mails w.
Proof.
  unfold _deliver_channels, mail_allowed, one_mail.
  destruct (in_app_enabled p), (email_enabled p), (_type_allowed p (n_type n)); try reflexivity;
    cbn -[should_suppress_immediate_alert bool_decide SUPPRESSED Renderer.html_escape address_of];
    destruct (should_suppress_immediate_alert p now) as [[]|]; try reflexivity;
    rewrite bool_decide_true by done; eexists _, _; reflexivity.
Qed.

Lemma get_preferences_found user p w :
  CenterMemory.get_preferences user (w_center w) = Some p ->
  CenterService.get_preferences env user w = (Ok p, w).
Proof. intros H. unfold CenterService.get_preferences. act_run. unfold center. by rewrite H. Qed.

(** A user without preferences gets the defaults, stored. *)
Lemma get_preferences_new user w :
  CenterMemory.get_preferences user (w_center w) = None ->
  CenterService.get_preferences env user w
  = (Ok (default_preferences user (clock env (w_asked w))),
     with_center (save_preferences (default_preferences user (clock env (w_asked w))) (w_center w))
       (with_asked (S (w_asked w)) w)).
Proof. intros H. unfold CenterService.get_preferences. act_run. unfold center. by rewrite H. Qed.

Definition new_notification (p : UserNotificationPreferences) (i : string) (now : datetime)
    (user title body : string) (t : NotificationType) (severity : NotificationSeverity)
    (watchlist alert event : option string) (metadata : dict pvalue) : Notification :=
  {| n_id := i; n_user_id := user; n_title := strip title; n_body := strip body; n_type := t;
     n_severity := severity; n_created_at := now; n_watchlist_id := watchlist; n_alert_id := alert;
     n_alert_event_id := event; n_channel := IN_APP; n_read_at := None; n_archived_at := None;
     n_delivery_status := if in_app_enabled p && _type_allowed p t then SIMULATED else SKIPPED;
     n_metadata := metadata |}.

(** With its preferences read, a notification is stored and then delivered. *)
Lemma create_runs user title body t severity watchlist alert event metadata w p w0 :
  nonempty (strip title) = true -> CenterService.get_preferences env user w = (Ok p, w0) ->
  create_notification env user title body t severity watchlist alert event metadata w
  = let n := new_notification p (id_factory env (S (w_asked w0))) (clock env (w_asked w0)) user title body t
               severity watchlist alert event metadata in
    let '(r, w') := _deliver_channels env n p (clock env (w_asked w0))
                      (with_center (save_notification n (w_center w0)) (with_asked (S (S (w_asked w0))) w0)) in
    (match r with Ok _ => Ok n | Err e => Err e end, w').
Proof.
  intros Ht Hp. unfold create_notification. act_run. rewrite Ht. cbv beta iota zeta delta [negb]. rewrite Hp.
  unfold now_, new_id, ask, upd_center. cbv beta iota zeta.
  unfold new_notification. cbn [w_asked with_asked w_center].
  by destruct (_deliver_channels _ _ _ _ _) as [[?|?] ?].
Qed.

(** Creating a notification sends one mail, to the address of its user and
    with its title and body, exactly when the title is not blank and the stored
    preferences have mail enabled, want notifications of this type, want them
    immediately and are not within quiet hours at the moment of the call; in
    every other case - blank title, no preferences stored, unreadable quiet
    hours included - the mails sent are those there were. *)
Theorem mail_is_sent_iff_allowed user title body t severity watchlist alert event metadata w :
  let w' := (create_notification env user title body t severity watchlist alert event metadata w).2 in
  if nonempty (strip title) && mail_wanted (w_center w) user t (clock env (w_asked w))
  then one_mail (message_of user (strip title) (strip body)) w w'
  else w_mails w' = w_mails w.
Proof.
  unfold mail_wanted. cbv zeta. destruct (nonempty (strip title)) eqn:Et;
    [| unfold create_notification; act_run; by rewrite Et].
  destruct (CenterMemory.get_preferences user (w_center w)) as [p|] eqn:Ep; cbn [andb].
  - rewrite (create_runs _ _ _ _ _ _ _ _ _ _ _ _ Et (get_preferences_found _ _ _ Ep)). cbv zeta.
    match goal with |- context [_deliver_channels env ?n p ?t ?w1] => pose proof (deliver_mails n p t w1) as H end.
    by destruct (_deliver_channels _ _ _ _ _) as [[?|?] w2].
  - rewrite (create_runs _ _ _ _ _ _ _ _ _ _ _ _ Et (get_preferences_new _ _ Ep)). cbv zeta.
    match goal with |- context [_deliver_channels env ?n ?p ?t ?w1] => pose proof (deliver_mails n p t w1) as H end.
    by destruct (_deliver_channels _ _ _ _ _) as [[?|?] w2].
Qed.
End MailRules.
End MailRules.

(** ** Unsubscribing *)
Module Unsubscribed.
Import Notifications Preferences CenterService CenterMemory Preserve MailRules.

(** The requests the notification center answers. *)
Inductive center_call :=
| CallCreate (user title body : string) (t : NotificationType) (severity : NotificationSeverity)
    (watchlist alert event : option string) (metadata : dict pvalue)
| CallEvent (e : AlertEntities.AlertEvent) (watchlist : option Watchlist) (item : option WatchlistItem)
| CallMarkRead (i : string) (user : option string)
| CallMarkAllRead (user : string)
| CallArchive (i : string) (user : option string)
| CallDelete (i : string) (user : option string)
| CallPreferences (user : string)
| CallUpdate (user : string) (e : preference_edit)
| CallToken (user : string)
| CallRevoke (raw : string)
| CallUnsubscribe (raw : string)
| CallDigest (user : string) (period : DigestPeriod) (since : option datetime)
| CallDeliver (d : NotificationDigest).

Definition turns_on_mail (user : string) (c : center_call) : Prop :=
  match c with CallUpdate u e => u = user /\ pe_email e = Some true | _ => False end.

(** Preferences are under the id of their user. *)
Definition keyed (w : world) : Prop :=
  forall k p, c_preferences (w_center w) !! k = Some p -> np_user_id p = k.
Definition mail_off (user : string) (w : world) : Prop :=
  forall p, c_preferences (w_center w) !! user = Some p -> email_enabled p = false.
Definition mails_to (user : string) (w : world) : list Mail.EmailSendResult :=
  List.filter (fun m => String.eqb (Mail.sent_to m) (address_of user)) (w_mails w).
Definition token_revoked (h : string) (w : world) : Prop :=
  exists t, c_tokens (w_center w) !! h = Some t /\ is_some (ut_revoked_at t) = true.

Section Unsubscribed.
Variable env : environment.

Definition run_call (c : center_call) : M unit :=
  match c with
  | CallCreate user title body t severity wl al ev md =>
      do! _ := create_notification env user title body t severity wl al ev md in a_ret tt
  | CallEvent e wl item => do! _ := create_from_alert_event env e wl item in a_ret tt
  | CallMarkRead i user => do! _ := CenterService.mark_read env i user in a_ret tt
  | CallMarkAllRead user => do! _ := mark_all_read env user in a_ret tt
  | CallArchive i user => do! _ := archive env i user in a_ret tt
  | CallDelete i user => CenterService.delete i user
  | CallPreferences user => do! _ := CenterService.get_preferences env user in a_ret tt
  | CallUpdate user e => do! _ := update_preferences env user e in a_ret tt
  | CallToken user => do! _ := create_unsubscribe_token env user in a_ret tt
  | CallRevoke raw => do! _ := CenterService.revoke_unsubscribe_token env raw in a_ret tt
  | CallUnsubscribe raw => do! _ := unsubscribe env raw in a_ret tt
  | CallDigest user period since => do! _ := _build_digest env user period since in a_ret tt
  | CallDeliver d => do! _ := deliver_digest env d in a_ret tt
  end.

(** The requests one after the other, whatever each answers. *)
Fixpoint run_calls (l : list center_call) (w : world) : world :=
  match l with [] => w | c :: rest => run_calls rest (run_call c w).2 end.

(** *** What stays *)

Variables (user : string) (h : string) (n0 : nat).
Hypothesis fresh : forall n, (n0 <= n)%nat -> _hash_token env (token_urlsafe env n) <> h.

(** The user's mail is off, and the token behind [h] is revoked. *)
Definition silent (w : world) : Prop :=
  keyed w /\ mail_off user w /\ token_revoked h w /\ (n0 <= w_asked w)%nat.
Definition off_kept (w w' : world) : Prop := silent w -> silent w' /\ mails_to user w' = mails_to user w.

#[local] Instance off_kept_pre : PreOrder off_kept.
Proof.
  split; [by intros w |]. intros w1 w2 w3 H12 H23 H. destruct (H12 H) as [H2 E].
  destruct (H23 H2) as [H3 E']. by rewrite E', E.
Qed.

Lemma off_same w w' :
  c_preferences (w_center w') = c_preferences (w_center w) -> c_tokens (w_center w') = c_tokens (w_center w) ->
  w_mails w' = w_mails w -> (w_asked w <= w_asked w')%nat -> off_kept w w'.
Proof.
  intros E Et Em Hn (Hk & Ho & Ht & Ha). unfold silent, keyed, mail_off, mails_to, token_revoked in *.
  rewrite E, Et, Em. repeat split; [exact Hk | exact Ho | exact Ht | lia].
Qed.

Lemma off_when w w' : (silent w -> off_kept w w') -> off_kept w w'.
Proof. intros H Hw. by apply H. Qed.

Lemma off_ask {A} (f : nat -> A) : preserves off_kept (ask f).
Proof. intros w. apply off_same; cbn; auto. Qed.

Lemma off_center f :
  (forall s, c_preferences (f s) = c_preferences s) -> (forall s, c_tokens (f s) = c_tokens s) ->
  preserves off_kept (upd_center f).
Proof. intros H H' w. by apply off_same; [apply H | apply H' | |]. Qed.
Lemma off_on_center {A} (f : center_store -> A * center_store) :
  (forall s, c_preferences (f s).2 = c_preferences s) -> (forall s, c_tokens (f s).2 = c_tokens s) ->
  preserves off_kept (on_center f).
Proof.
  intros H H' w. unfold on_center. specialize (H (w_center w)). specialize (H' (w_center w)).
  destruct (f _). by apply off_same.
Qed.

Lemma off_save p w :
  (np_user_id p = user -> email_enabled p = false) ->
  off_kept w (with_center (save_preferences p (w_center w)) w).
Proof.
  intros Hp (Hk & Ho & Ht & Ha). split; [| done]. split; [| split; [| done]].
  - intros k q. cbn. destruct (decide (k = np_user_id p)) as [-> | Hn].
    + rewrite lookup_insert_eq. by intros [= <-].
    + rewrite lookup_insert_ne by done. apply Hk.
  - intros q. cbn. destruct (decide (user = np_user_id p)) as [E | Hn].
    + rewrite E, lookup_insert_eq. intros [= <-]. by apply Hp.
    + rewrite lookup_insert_ne by done. apply Ho.
Qed.

(** *** The calls *)

Lemma address_inj u v : address_of u = address_of v -> u = v.
Proof.
  unfold address_of. intros E. apply (f_equal chars) in E. rewrite !chars_app in E.
  apply app_inv_tail, (f_equal of_chars) in E. by rewrite !of_chars_chars in E.
Qed.

Lemma off_send v m w :
  v <> user -> Mail.to_address m = address_of v -> off_kept w (send_email env m w).2.
Proof.
  intros Hv Hm (Hk & Ho & Ht & Ha). split; [repeat split; [exact Hk | exact Ho | exact Ht | cbn; lia] |].
  unfold mails_to. cbn.
  rewrite List.filter_app. cbn. rewrite Hm. destruct (String.eqb_spec (address_of v) (address_of user)) as [E | _].
  - by apply address_inj in E.
  - by rewrite app_nil_r.
Qed.

Lemma off_get v w :
  exists p w', CenterService.get_preferences env v w = (Ok p, w') /\ off_kept w w'
    /\ (silent w -> np_user_id p = v /\ (v = user -> email_enabled p = false)).
Proof.
  destruct (CenterMemory.get_preferences v (w_center w)) as [p|] eqn:E.
  - rewrite (get_preferences_found _ _ _ _ E). exists p, w. split; [done |]. split; [reflexivity |].
    intros (Hk & Ho & _). split; [by apply Hk | by intros ->; apply Ho].
  - rewrite (get_preferences_new _ _ _ E). eexists _, _. split; [reflexivity |]. split; [| done].
    etransitivity; [apply (off_ask id w) |].
    by apply (off_save _ (with_asked (S (w_asked w)) w)).
Qed.

Lemma off_deliver n p now w :
  (n_user_id n = user -> email_enabled p = false) -> off_kept w (_deliver_channels env n p now w).2.
Proof.
  intros Hp. assert (Hr : forall ch st e, preserves off_kept (_record_delivery env n ch st e)).
  { intros ch st e w'. apply off_same; cbn; auto. }
  unfold _deliver_channels. revert w. apply preserves_bind; [typeclasses eauto | destruct (in_app_enabled p); keep_calls |].
  intros ds. destruct (email_enabled p), (_type_allowed p (n_type n)); cbn [negb orb]; keep_calls;
    (intros w; apply (off_send (n_user_id n)); [intros E; by apply Hp in E | done]).
Qed.

Lemma off_create v title body t severity wl al ev md :
  preserves off_kept (create_notification env v title body t severity wl al ev md).
Proof.
  intros w. apply off_when. intros Hs. destruct (nonempty (strip title)) eqn:Et.
  - destruct (off_get v w) as (p & w0 & Hp & H0 & Hoff). rewrite (create_runs _ _ _ _ _ _ _ _ _ _ _ _ _ Et Hp).
    cbv zeta. set (n := new_notification _ _ _ _ _ _ _ _ _ _ _ _). set (w1 := with_center _ _).
    assert (H1 : off_kept w1 (_deliver_channels env n p (clock env (w_asked w0)) w1).2) by (apply off_deliver; apply Hoff, Hs).
    destruct (_deliver_channels _ _ _ _ _) as [[?|?] w2];
      (refine (transitivity H0 (transitivity _ H1)); apply off_same; cbn; auto).
  - unfold create_notification. act_run. by rewrite Et.
Qed.

Lemma off_update v e : ~ turns_on_mail user (CallUpdate v e) -> preserves off_kept (update_preferences env v e).
Proof.
  intros He w. apply off_when. intros Hs. destruct (off_get v w) as (p & w0 & Hp & H0 & Hoff).
  unfold update_preferences. unfold a_bind at 1. rewrite Hp. refine (transitivity H0 _).
  revert w0 Hp H0. intros w0 _ _. unfold now_. act_run. cbv beta iota zeta delta [ask upd_center].
  destruct (match pe_timezone e with Some t => _ | None => _ end); [apply (off_ask id w0) |].
  etransitivity; [apply (off_ask id w0) |]. apply (off_save _ (with_asked _ _)).
  cbn. destruct (Hoff Hs) as [-> He']. intros ->. specialize (He' eq_refl). unfold turns_on_mail in He.
  destruct (pe_email e) as [[]|]; cbn; [by destruct He | done | done].
Qed.

Lemma off_revoke raw : preserves off_kept (CenterService.revoke_unsubscribe_token env raw).
Proof.
  unfold CenterService.revoke_unsubscribe_token, now_. apply preserves_bind; [exact _ | apply off_ask |].
  intros now w Hs. unfold on_center, CenterMemory.revoke_unsubscribe_token.
  destruct (c_tokens (w_center w) !! _) as [t0|] eqn:E; [| exact (conj Hs eq_refl)].
  destruct (is_some (ut_revoked_at t0)) eqn:E0; [exact (conj Hs eq_refl) |].
  destruct Hs as (Hk & Ho & (t & Ht & Hr) & Ha).
  split; [| done]. repeat split; [exact Hk | exact Ho | | exact Ha].
  exists t. cbn. rewrite lookup_insert_ne; [done |]. intros <-. congruence.
Qed.

Lemma off_token v : preserves off_kept (create_unsubscribe_token env v).
Proof.
  intros w (Hk & Ho & (t & Ht & Hr) & Ha). split; [| done]. repeat split; [exact Hk | exact Ho | | cbn; lia].
  exists t. cbn. rewrite lookup_insert_ne; [done |]. by apply fresh.
Qed.

Lemma off_unsubscribe raw : preserves off_kept (unsubscribe env raw).
Proof.
  unfold unsubscribe, validate_unsubscribe_token.
  keep_calls; [apply off_update; by intros [_ ?] | apply off_revoke].
Qed.

Lemma off_digest d : preserves off_kept (deliver_digest env d).
Proof.
  unfold deliver_digest. destruct (Digests.has_content d); cbn [negb].
  - intros w. apply off_when. intros Hs. destruct (off_get (dg_user_id d) w) as (p & w0 & Hp & H0 & Hoff).
    unfold a_bind at 1. rewrite Hp. refine (transitivity H0 _). revert w0 H0 Hp. intros w0 _ _.
    destruct (email_enabled p) eqn:Ee; cbn [negb].
    + keep_rest. keep_calls; try (by apply off_center). intros w'. apply (off_send (dg_user_id d)); [| done].
      intros E. by destruct (Hoff Hs) as [_ Hf]; specialize (Hf E).
    + keep_rest. keep_calls. by apply off_center.
  - keep_calls. by apply off_center.
Qed.

Lemma off_mark i : preserves off_kept (repo_mark_read env i).
Proof.
  unfold repo_mark_read, now_. keep_calls; [apply off_ask |].
  apply off_on_center; intros s; unfold CenterMemory.mark_read; destruct (CenterMemory.get_notification i s) as [n|];
    try done; by destruct (is_some (n_read_at n)).
Qed.

Lemma off_call c : ~ turns_on_mail user c -> preserves off_kept (run_call c).
Proof.
  intros Hc. assert (Hg : forall i u, preserves off_kept (CenterService.get_notification i u))
    by (intros; unfold CenterService.get_notification; keep_calls).
  assert (Hp : forall v, preserves off_kept (CenterService.get_preferences env v))
    by (intros v w; destruct (off_get v w) as (p & w0 & E & H & _); by rewrite E).
  destruct c; unfold run_call; try apply preserves_bind; try exact _; try (intros; apply preserves_ret; exact _).
  - apply off_create.
  - unfold create_from_alert_event. destruct (_render_event_content _ _ _ _). apply off_create.
  - unfold CenterService.mark_read. keep_calls. apply off_mark.
  - unfold mark_all_read. keep_calls; [unfold CenterService.list_notifications; keep_calls |].
    induction a as [|n l IH]; cbn [mark_each]; [keep_calls |].
    apply preserves_bind; [exact _ | apply off_mark | intros _; exact IH].
  - unfold archive, now_. keep_calls; [apply off_ask |].
    apply off_on_center; intros s; unfold archive_notification; destruct (CenterMemory.get_notification i s) as [n|];
      try done; by destruct (is_some (n_archived_at n)).
  - apply Hg.
  - intros n. keep_calls.
    apply off_on_center; intros s; unfold delete_notification; by destruct (CenterMemory.get_notification i s).
  - apply Hp.
  - by apply off_update.
  - apply off_token.
  - apply off_revoke.
  - apply off_unsubscribe.
  - unfold _build_digest, now_, new_id. keep_calls; try apply off_ask. by apply off_center.
  - apply off_digest.
Qed.

Lemma off_calls l : Forall (fun c => ~ turns_on_mail user c) l -> forall w, off_kept w (run_calls l w).
Proof.
  induction 1 as [|c l Hc _ IH]; intros w; cbn [run_calls]; [done |].
  etransitivity; [by apply off_call | apply IH].
Qed.
End Unsubscribed.

Section Theorem_.
Variable env : environment.

(** What an unsubscription that is answered leaves. *)
Lemma unsubscribe_silences raw w p w1 :
  keyed w -> unsubscribe env raw w = (Ok (Some p), w1) ->
  silent (np_user_id p) (_hash_token env raw) (w_asked w1) w1.
Proof.
  intros Hk. unfold unsubscribe, validate_unsubscribe_token, CenterService.revoke_unsubscribe_token, now_. act_run.
  unfold center, get_unsubscribe_token. destruct (c_tokens (w_center w) !! _) as [t|] eqn:Et; [| done].
  destruct (is_some (ut_revoked_at t)) eqn:Er; [done |].
  assert (Hu : exists cur stamp w0, update_preferences env (ut_user_id t) unsubscribe_edit w
      = (Ok (edited unsubscribe_edit cur stamp),
         with_center (save_preferences (edited unsubscribe_edit cur stamp) (w_center w0)) w0)
      /\ keyed w0 /\ c_tokens (w_center w0) = c_tokens (w_center w)).
  { unfold update_preferences, now_. destruct (CenterMemory.get_preferences (ut_user_id t) (w_center w)) as [q|] eqn:E.
    - unfold a_bind at 1. rewrite (get_preferences_found _ _ _ _ E). by do 3 eexists.
    - unfold a_bind at 1. rewrite (get_preferences_new _ _ _ E). do 3 eexists. split; [reflexivity |]. split; [| done].
      intros k r. cbn. destruct (decide (k = ut_user_id t)) as [-> | Hn];
        [rewrite lookup_insert_eq; by intros [= <-] | rewrite lookup_insert_ne by done; apply Hk]. }
  destruct Hu as (cur & stamp & w0 & -> & Hk0 & Et0). cbv beta iota zeta delta [ask on_center].
  unfold CenterMemory.revoke_unsubscribe_token.
  change (c_tokens (w_center (with_asked _ _))) with (c_tokens (w_center w0)). rewrite Et0, Et, Er.
  intros [= <- <-]. split; [| split; [| split; [| done]]].
  - intros k r. cbn. destruct (decide (k = np_user_id cur)) as [-> | Hn];
      [rewrite lookup_insert_eq; by intros [= <-] | rewrite lookup_insert_ne by done; apply Hk0].
  - intros r. cbn. rewrite lookup_insert_eq. by intros [= <-].
  - eexists. cbn. rewrite lookup_insert_eq. by split.
Qed.

(** C19: Once an unsubscribe link was followed, its user gets no mail whatever
    requests reach the notification center afterwards - notifications, alert
    events and digests for anyone, other users' links and settings - until a
    request turns the user's mail on; and the link never works again. (The
    hypothesis on [token_urlsafe]: no later token has the same hash.) *)
Theorem unsubscribed_gets_no_mail raw w p w1 calls :
  keyed w -> unsubscribe env raw w = (Ok (Some p), w1) ->
  (forall n, (w_asked w1 <= n)%nat -> _hash_token env (token_urlsafe env n) <> _hash_token env raw) ->
  Forall (fun c => ~ turns_on_mail (np_user_id p) c) calls ->
  let w2 := run_calls env calls w1 in
  mails_to (np_user_id p) w2 = mails_to (np_user_id p) w1
  /\ unsubscribe env raw w2 = (Ok None, w2).
Proof.
  intros Hk Hu Hf Hc w2. pose proof (unsubscribe_silences _ _ _ _ Hk Hu) as Hs.
  destruct (off_calls env _ _ _ Hf _ Hc _ Hs) as [(_ & _ & (t & Ht & Hr) & _) Hm]. split; [exact Hm |].
  unfold unsubscribe, validate_unsubscribe_token. act_run. unfold center, get_unsubscribe_token. fold w2 in Ht.
  by rewrite Ht, Hr.
Qed.
End Theorem_.
End Unsubscribed.

(** ** Reading everything *)
Module Reading.
Import Notifications Digests CenterService CenterMemory.

(** Every notification is under its own id, listed once. *)
Record center_ok (s : center_store) : Prop := {
  ok_order : o_ok (c_notifications s);
  ok_ids k n : o_map (c_notifications s) !! k = Some n -> n_id n = k
}.

Lemma empty_center_ok : center_ok empty_center.
Proof. split; [apply o_empty_ok |]. intros k n H. cbn in H. by rewrite lookup_empty in H. Qed.
Lemma save_notification_ok n s : center_ok s -> center_ok (save_notification n s).
Proof.
  intros [Ho Hi]. split; [by apply o_save_ok |]. intros k m H. cbn in H.
  apply lookup_insert_Some in H as [[<- <-] | [_ H]]; [done | by apply Hi].
Qed.

Lemma values_perm {V} (d : ordered V) : o_ok d -> o_newest d ≡ₚ map snd (map_to_list (o_map d)).
Proof.
  intros [Hn Hd]. unfold o_newest.
  assert (Hp : rev (o_order d) ≡ₚ (map_to_list (o_map d)).*1).
  { rewrite <- Permutation_rev. apply NoDup_Permutation; [done | apply NoDup_fst_map_to_list |].
    intros k. rewrite Hd, list_elem_of_fmap. split.
    - intros [v Hv]. exists (k, v). by rewrite elem_of_map_to_list.
    - intros ([k' v] & -> & H). exists v. by apply elem_of_map_to_list in H. }
  rewrite Hp. clear Hp.
  assert (Hl : forall l : list (string * V), (forall kv, kv ∈ l -> o_map d !! kv.1 = Some kv.2) ->
                 omap (fun k => o_map d !! k) l.*1 = map snd l).
  { induction l as [|kv l IH]; intros H; cbn; [done |]. rewrite H by apply list_elem_of_here. cbn. f_equal.
    apply IH. intros ? ?. apply H. by apply list_elem_of_further. }
  rewrite Hl; [done |]. intros [k v] H. by apply elem_of_map_to_list in H.
Qed.

Lemma filter_length_perm {A} (f : A -> bool) l l' :
  l ≡ₚ l' -> length (List.filter f l) = length (List.filter f l').
Proof. induction 1; cbn; repeat case_match; cbn; try congruence; lia. Qed.

Lemma omap_length_le {A B} (f : A -> option B) l : (length (omap f l) <= length l)%nat.
Proof. induction l as [|x l IH]; cbn; [done |]. destruct (f x); cbn; lia. Qed.

Lemma filter_filter_and {A} (f g : A -> bool) l :
  List.filter f (List.filter g l) = List.filter (fun x => g x && f x) l.
Proof. induction l as [|x l IH]; cbn; [done |]. destruct (g x); cbn; [by rewrite IH | exact IH]. Qed.

Lemma filter_true {A} (f : A -> bool) l : (forall x, f x = true) -> List.filter f l = l.
Proof. intros H. induction l as [|x l IH]; cbn; [done |]. by rewrite H, IH. Qed.

Lemma filter_no_one {A} (f : A -> bool) l : (forall x, x ∈ l -> f x = false) -> List.filter f l = [].
Proof.
  induction l as [|x l IH]; intros H; cbn; [done |]. rewrite H by apply list_elem_of_here.
  apply IH. intros y Hy. apply H. by apply list_elem_of_further.
Qed.

Lemma take_z_all {A} (l : list A) limit : Z.of_nat (length l) <= limit -> WatchMemory.take_z limit l = l.
Proof.
  revert limit. induction l as [|x l IH]; intros limit H; cbn in *; [done |].
  destruct (Z.ltb_spec 0 limit); [| lia]. f_equal. apply IH. lia.
Qed.

Section Reading.
Variable env : environment.

(** What marking some notifications as read does to each. *)
Definition marked (l : list Notification) (s s' : center_store) : Prop :=
  o_order (c_notifications s') = o_order (c_notifications s)
  /\ forall i, match o_map (c_notifications s) !! i with
               | None => o_map (c_notifications s') !! i = None
               | Some n => if bool_decide (i ∈ map n_id l) && is_none (n_read_at n)
                           then exists at_, o_map (c_notifications s') !! i = Some (with_read n at_)
                           else o_map (c_notifications s') !! i = Some n
               end.

Lemma mark_one i n w :
  o_map (c_notifications (w_center w)) !! i = Some n ->
  exists n' w', repo_mark_read env i w = (Ok n', w')
    /\ o_order (c_notifications (w_center w')) = o_order (c_notifications (w_center w))
    /\ o_map (c_notifications (w_center w'))
       = if is_none (n_read_at n)
         then <[i := with_read n (clock env (w_asked w))]> (o_map (c_notifications (w_center w)))
         else o_map (c_notifications (w_center w)).
Proof.
  intros Hi. unfold repo_mark_read, now_. act_run. cbv beta iota zeta delta [ask on_center].
  unfold CenterMemory.mark_read, CenterMemory.get_notification, o_get.
  change (w_center (with_asked _ w)) with (w_center w). rewrite Hi. unfold is_none.
  destruct (is_some (n_read_at n)); by do 2 eexists.
Qed.

Lemma mark_each_ok l w :
  (forall n, n ∈ l -> is_Some (o_map (c_notifications (w_center w)) !! n_id n)) ->
  exists w', mark_each env l w = (Ok tt, w') /\ marked l (w_center w) (w_center w').
Proof.
  revert w. induction l as [|n l IH]; intros w Hl; cbn [mark_each].
  - exists w. split; [done |]. split; [done |]. intros i. by destruct (_ !! i).
  - destruct (Hl n ltac:(apply list_elem_of_here)) as [m Hm].
    destruct (mark_one _ _ w Hm) as (n' & w1 & E & Ho & Em). unfold a_bind. rewrite E.
    destruct (IH w1) as (w' & E' & Ho' & Hi').
    { intros x Hx. rewrite Em. destruct (is_none (n_read_at m)); [| apply Hl; by apply list_elem_of_further].
      apply lookup_insert_is_Some'. right. apply Hl. by apply list_elem_of_further. }
    exists w'. split; [exact E' |]. split; [congruence |]. intros i. specialize (Hi' i). rewrite Em in Hi'.
    cbn [map]. destruct (decide (i = n_id n)) as [-> | Hne].
    + rewrite Hm. rewrite (bool_decide_true (_ ∈ _ :: _)) by apply list_elem_of_here. cbn [andb].
      destruct (is_none (n_read_at m)) eqn:Er.
      * rewrite lookup_insert_eq in Hi'. rewrite andb_false_r in Hi'. by eexists.
      * by rewrite Hm, Er, andb_false_r in Hi'.
    + assert (Hb : bool_decide (i ∈ n_id n :: map n_id l) = bool_decide (i ∈ map n_id l)).
      { apply bool_decide_ext. rewrite elem_of_cons. naive_solver. }
      rewrite Hb. destruct (is_none (n_read_at m)); [by rewrite lookup_insert_ne in Hi' by done | exact Hi'].
Qed.

(** The unread notifications the service lists are those the counter counts. *)
Lemma listed_unread user s l :
  center_ok s -> Z.of_nat (length (o_order (c_notifications s))) <= 1000000 ->
  l = List.filter (read_filter (Some true))
        (CenterMemory.list_notifications user false true 1000000 s) ->
  Z.of_nat (length l) = count_unread user s
  /\ (forall n, n ∈ l <-> unread_of user n = true /\ o_map (c_notifications s) !! n_id n = Some n).
Proof.
  intros [Ho Hid] Hl ->. unfold CenterMemory.list_notifications. rewrite take_z_all.
  2:{ etransitivity; [| exact Hl]. apply inj_le. etransitivity; [apply filter_length_le |].
      unfold o_newest. etransitivity; [apply omap_length_le |]. by rewrite length_rev. }
  rewrite filter_filter_and. split.
  - unfold count_unread. f_equal. erewrite filter_length_perm by apply (values_perm _ Ho).
    f_equal. apply List.filter_ext. intros n. unfold unread_of, read_filter. cbn [andb negb]. by rewrite andb_assoc.
  - intros n. rewrite list_elem_of_In, filter_In, <- list_elem_of_In, (elem_of_o_newest _ _ Ho). unfold read_filter.
    rewrite andb_assoc. fold (unread_of user n). split.
    + intros [[k Hk] H]. split; [exact H |]. by rewrite (Hid _ _ Hk).
    + intros [H Hk]. split; [by exists (n_id n) | exact H].
Qed.

(** The effect of marking exactly the unread notifications. *)
Lemma marked_unread user s s' l :
  center_ok s -> (forall n, n ∈ l <-> unread_of user n = true /\ o_map (c_notifications s) !! n_id n = Some n) ->
  marked l s s' ->
  forall i, match CenterMemory.get_notification i s with
            | Some n => if unread_of user n
                        then exists at_, CenterMemory.get_notification i s' = Some (with_read n at_)
                        else CenterMemory.get_notification i s' = Some n
            | None => CenterMemory.get_notification i s' = None
            end.
Proof.
  intros Hok Hin [_ Hi] i. specialize (Hi i). unfold CenterMemory.get_notification, o_get.
  destruct (o_map (c_notifications s) !! i) as [n|] eqn:En; [| exact Hi].
  assert (Hb : bool_decide (i ∈ map n_id l) && is_none (n_read_at n) = unread_of user n).
  { pose proof (ok_ids _ Hok _ _ En) as <-. destruct (unread_of user n) eqn:Eu.
    - rewrite bool_decide_true; [| apply list_elem_of_fmap; exists n; split; [done |]; by apply Hin].
      unfold unread_of in Eu. by destruct (is_none (n_read_at n)); rewrite ?andb_false_r in Eu.
    - destruct (bool_decide_reflect (n_id n ∈ map n_id l)) as [H|]; [| done]. exfalso.
      apply list_elem_of_fmap in H as (m & E & Hm'). apply Hin in Hm' as [Hu Hm']. rewrite E in En.
      assert (m = n) as -> by congruence. congruence. }
  by rewrite Hb in Hi.
Qed.

(** Marking everything as read answers how many notifications the user had
    unread, as the counter counted them; afterwards the counter is zero, exactly
    the unread notifications became read, and no other notification of anyone
    changed. *)
Theorem reading_all_clears_the_counter user w :
  center_ok (w_center w) -> Z.of_nat (length (o_order (c_notifications (w_center w)))) <= 1000000 ->
  exists w', mark_all_read env user w = (Ok (count_unread user (w_center w)), w')
    /\ count_unread user (w_center w') = 0
    /\ forall i, match CenterMemory.get_notification i (w_center w) with
                 | Some n => if unread_of user n
                             then exists at_, CenterMemory.get_notification i (w_center w') = Some (with_read n at_)
                             else CenterMemory.get_notification i (w_center w') = Some n
                 | None => CenterMemory.get_notification i (w_center w') = None
                 end.
Proof.
  intros Hok Hl. set (l := List.filter (read_filter (Some true))
    (CenterMemory.list_notifications user false true 1000000 (w_center w))).
  destruct (listed_unread user _ l Hok Hl eq_refl) as [Hc Hin].
  assert (Hlist : CenterService.list_notifications user None None None (Some true) 1000000 0 w = (Ok l, w)).
  { unfold CenterService.list_notifications. act_run. cbn [orb Z.ltb Z.compare]. unfold center. do 2 f_equal.
    rewrite !(filter_true (fun n => wanted _ _)) by done. cbn [Z.to_nat drop]. apply take_z_all. fold l.
    rewrite Hc. unfold count_unread. etransitivity; [| exact Hl]. apply inj_le. etransitivity; [apply filter_length_le |].
    rewrite <- (Permutation_length (values_perm _ (ok_order _ Hok))). unfold o_newest.
    etransitivity; [apply omap_length_le |]. by rewrite length_rev. }
  destruct (mark_each_ok l w) as (w' & Hm & Hi).
  { intros n Hn. apply Hin in Hn as [_ Hn]. by eexists. }
  pose proof (marked_unread user _ _ l Hok Hin Hi) as Hread.
  exists w'. split; [| split; [| exact Hread]].
  - unfold mark_all_read. unfold a_bind at 1. rewrite Hlist. unfold a_bind. rewrite Hm. unfold a_ret. by rewrite Hc.
  - unfold count_unread. apply (f_equal Z.of_nat (y := O)), length_zero_iff_nil.
    apply filter_no_one. intros n Hn. apply list_elem_of_fmap in Hn as ([i n'] & -> & Hn%elem_of_map_to_list). cbn.
    specialize (Hread i). unfold CenterMemory.get_notification, o_get in Hread. rewrite Hn in Hread.
    destruct (o_map (c_notifications (w_center w)) !! i) as [n0|]; [| done].
    destruct (unread_of user n0) eqn:Eu; [| congruence]. destruct Hread as [at_ [= ->]].
    unfold unread_of. cbn. by rewrite andb_false_r.
Qed.
End Reading.
End Reading.

(** ** Quiet hours *)
Module Quiet.
Import Notifications Preferences.

Lemma parsed_in_day text t : _parse_hhmm text = Some t -> 0 <= t < day_us.
Proof.
  unfold _parse_hhmm, make_time, day_us. cbv zeta. generalize (Int.py_int (before ":" (strip text))).
  generalize (Int.py_int (if nonempty (if has_char ":" (strip text) then after ":" (strip text) else "") then
    (if has_char ":" (strip text) then after ":" (strip text) else "") else "0")%string).
  intros [m|] [h|]; try done. destruct (_ && _) eqn:E; [| done]. intros [= <-]. bool_simpl. lia.
Qed.

(** Quiet hours are the cyclic interval from their start to their end: a
    moment is within them exactly when it comes sooner after the start than the
    end does, on the clock of a day - across midnight as well, and never when
    start and end are the same. *)
Theorem quiet_hours_are_cyclic p now first_text last_text first last :
  quiet_hours_start p = Some first_text -> quiet_hours_end p = Some last_text ->
  nonempty first_text = true -> nonempty last_text = true ->
  _parse_hhmm first_text = Some first -> _parse_hhmm last_text = Some last ->
  is_within_quiet_hours p now
  = Some ((time_of now - first) mod day_us <? (last - first) mod day_us).
Proof.
  intros Hs He Hn Hn' Hf Hl. unfold is_within_quiet_hours, blank. rewrite Hs, He, Hn, Hn'. cbn [negb orb from_option id].
  rewrite Hf, Hl. apply parsed_in_day in Hf, Hl. f_equal.
  assert (Ht : 0 <= time_of now < day_us) by (apply Z.mod_pos_bound; done).
  assert (Hm : forall x y, 0 <= x < day_us -> 0 <= y < day_us ->
             (x - y) mod day_us = if y <=? x then x - y else x - y + day_us).
  { intros x y Hx Hy. destruct (Z.leb_spec y x); [by apply Z.mod_small; lia |].
    rewrite <- (Z.mod_add _ 1) by done. apply Z.mod_small. lia. }
  rewrite !Hm by done. clear Hm. generalize dependent (time_of now). intros t Ht.
  destruct (Z.leb_spec first last), (Z.leb_spec first t); cbn [andb orb]; symmetry;
    first [apply Z.ltb_lt | apply Z.ltb_ge | idtac]; try lia;
    destruct (Z.ltb_spec t last); first [apply Z.ltb_lt | apply Z.ltb_ge]; lia.
Qed.
End Quiet.

(** ** Templates *)
Module Templates.
Import Renderer.

Definition markup : list ascii := ["<"; ">"; ascii_of_nat 34; ascii_of_nat 39]%char.
Definition occurrences (c : ascii) (l : list ascii) : nat := length (List.filter (Ascii.eqb c) l).

Lemma occurrences_app c l l' : occurrences c (l ++ l') = (occurrences c l + occurrences c l')%nat.
Proof. unfold occurrences. by rewrite List.filter_app, length_app. Qed.

Lemma escaped_clean c s : c ∈ markup -> occurrences c (chars (html_escape s)) = O.
Proof.
  intros Hc. unfold html_escape. rewrite chars_of_chars. induction (chars s) as [|x l IH]; cbn [flat_map]; [done |].
  rewrite occurrences_app, IH, Nat.add_0_r. clear IH.
  unfold markup in Hc. rewrite !elem_of_cons in Hc. destruct Hc as [-> | [-> | [-> | [-> | []%elem_of_nil]]]];
    destruct x as [[] [] [] [] [] [] [] []]; vm_compute; reflexivity.
Qed.

Lemma drop_while_suffix f l : exists l', l = l' ++ drop_while f l.
Proof.
  induction l as [|c l [l' IH]]; [by exists [] |]. cbn. destruct (f c); [exists (c :: l'); cbn; by f_equal | by exists []].
Qed.

Lemma placeholder_suffix l name rest : placeholder l = Some (name, rest) -> exists a b l', l = a :: b :: l' ++ rest.
Proof.
  unfold placeholder. destruct l as [|a [|b r]]; try done. destruct (_ && _); [| done].
  destruct (drop_while_suffix isspace r) as [l1 E1]. destruct (drop_while isspace r) as [|c l2] eqn:E2; [done |].
  destruct (name_start c); [| done]. destruct (drop_while_suffix name_char (c :: l2)) as [l3 E3].
  set (after := drop_while name_char (c :: l2)) in *. destruct (drop_while_suffix isspace after) as [l4 E4].
  destruct (drop_while isspace after) as [|x [|y r']]; try done. destruct (_ && _); [| done]. intros [= _ <-].
  exists a, b, (l1 ++ l3 ++ l4 ++ [x; y]). by rewrite E1, E3, E4, <- !app_assoc.
Qed.

(** A match is not empty, so the length of the text is fuel enough. *)
Lemma substitute_fuel value n l :
  (length l <= n)%nat -> substitute n value l = substitute (length l) value l.
Proof.
  revert l. induction n as [n IH] using lt_wf_ind. intros l Hl. destruct l as [|c r]; [by destruct n |].
  destruct n as [|n]; [cbn in Hl; lia |]. cbn in Hl. cbn [length]. cbn -[placeholder].
  destruct (placeholder (c :: r)) as [[name rest]|] eqn:E; [| f_equal; apply IH; lia].
  destruct (placeholder_suffix _ _ _ E) as (a & b & l' & El). f_equal.
  assert (length rest <= length r)%nat by (injection El as _ ->; cbn; rewrite length_app; lia).
  rewrite (IH n) by lia. destruct (decide (length r = n)) as [-> | Hn]; [by rewrite (IH n) by lia |].
  by rewrite (IH (length r)) by lia.
Qed.

(** A template rendered with escaping has no more of the characters that
    open markup or end an attribute than the template itself: no value of a
    placeholder adds any. *)
Theorem rendering_adds_no_markup template context c :
  c ∈ markup ->
  (occurrences c (chars (render_template template context true)) <= occurrences c (chars template))%nat.
Proof.
  intros Hc. unfold render_template. cbv zeta. rewrite chars_of_chars. generalize (length (chars template)) at 1. intros n.
  generalize (chars template). clear template. induction n as [|n IH]; intros l; [cbn; lia |].
  destruct l as [|x r]; [cbn; lia |]. cbn [substitute]. destruct (placeholder (x :: r)) as [[name rest]|] eqn:E.
  - rewrite occurrences_app, escaped_clean by exact Hc. cbn [Nat.add]. etransitivity; [apply IH |].
    destruct (placeholder_suffix _ _ _ E) as (a & b & l' & ->).
    change (a :: b :: l' ++ rest) with ([a; b] ++ l' ++ rest). rewrite !occurrences_app. lia.
  - change (x :: ?t) with ([x] ++ t). rewrite !occurrences_app. specialize (IH r). lia.
Qed.
End Templates.
