(* ===== verification/AlertSafety.v ===== *)
(** What rule evaluation guarantees: one event for one occurrence, nothing from
    a rule that may not fire, and exactly what a rule that fires leaves behind -
    with what the snapshot a pass works on does to a rule that was changed in
    the meantime. *)

From S2P Require Import Prelude PyStr Clock PyState Float Password Watch Notify Alerts AlertWorld NotifySafety.
Import Ordered Watchlists Values World Preserve.
Import AlertEntities Observations Dedupe Engine RuleMemory EvaluationService.
#[local] Open Scope Z_scope.
#[local] Open Scope py_scope.

(** ** What everything but the rules leaves alone *)
Module Aside.

(** A relation between worlds that looks at the rules and events only. *)
Class RulesOnly (R : world -> world -> Prop) : Prop := {
  rules_only_pre :: PreOrder R;
  rules_only w w' : w_rules w' = w_rules w -> (w_asked w <= w_asked w')%nat -> R w w'
}.

Section Aside.
Variables (env : environment) (cfg : config) (R : world -> world -> Prop).
Context `{HR : !RulesOnly R}.

Lemma aside_ask {A} (f : nat -> A) : preserves R (ask f).
Proof. intros w. apply rules_only; cbn; auto. Qed.
Lemma aside_now : preserves R (now_ env).
Proof. apply aside_ask. Qed.
Lemma aside_id : preserves R (new_id env).
Proof. apply aside_ask. Qed.
Lemma aside_center f : preserves R (upd_center f).
Proof. intros w. by apply rules_only. Qed.
Lemma aside_watch f : preserves R (upd_watch f).
Proof. intros w. by apply rules_only. Qed.
Lemma aside_write f :
  (forall w, w_rules (f w) = w_rules w) -> (forall w, w_asked (f w) = w_asked w) ->
  preserves R (fun w => (Ok tt : result alert_exn unit, f w)).
Proof. intros H H' w. apply rules_only; cbn; [apply H | by rewrite H']. Qed.
Lemma aside_save_alert a : preserves R (save_alert a).
Proof. unfold save_alert. keep_calls. apply aside_watch. Qed.
Lemma aside_get_preferences u : preserves R (CenterService.get_preferences env u).
Proof. unfold CenterService.get_preferences. keep_calls; [apply aside_now | apply aside_center]. Qed.
End Aside.
End Aside.
#[export] Hint Resolve Aside.aside_ask Aside.aside_now Aside.aside_id Aside.aside_center Aside.aside_watch
  Aside.aside_save_alert Aside.aside_get_preferences : preserve.
#[export] Hint Resolve Aside.rules_only_pre : typeclass_instances.

Module Fanout.
Import Aside.

Section Fanout.
Variables (env : environment) (cfg : config) (R : world -> world -> Prop).
Context `{HR : !RulesOnly R}.

Lemma aside_mail m : preserves R (CenterService.send_email env m).
Proof. unfold CenterService.send_email. keep_calls. by apply aside_write. Qed.
#[local] Hint Resolve aside_mail : preserve.

Lemma aside_delivery n ch st e : preserves R (CenterService._record_delivery env n ch st e).
Proof. unfold CenterService._record_delivery. keep_calls. Qed.
#[local] Hint Resolve aside_delivery : preserve.

Lemma aside_deliver n p now : preserves R (CenterService._deliver_channels env n p now).
Proof. unfold CenterService._deliver_channels. keep_calls. Qed.
#[local] Hint Resolve aside_deliver : preserve.

Lemma aside_create u title body t sev wl al ev md :
  preserves R (CenterService.create_notification env u title body t sev wl al ev md).
Proof. unfold CenterService.create_notification. keep_calls. Qed.

Lemma aside_event e wl item : preserves R (CenterService.create_from_alert_event env e wl item).
Proof. unfold CenterService.create_from_alert_event. destruct (CenterService._render_event_content _ _ _ _). apply aside_create. Qed.
#[local] Hint Resolve aside_create aside_event : preserve.

Lemma aside_notify a : preserves R (Receipts.notify env cfg a).
Proof.
  unfold Receipts.notify, Receipts.mock_notify, Receipts._fan_out_alert. keep_calls.
  intros w. by apply rules_only.
Qed.
#[local] Hint Resolve aside_notify : preserve.

Lemma aside_legacy t x o e now : preserves R (_create_legacy_alert env cfg t x o e now).
Proof. unfold _create_legacy_alert. keep_calls. Qed.
Lemma aside_fan_out e wl x : preserves R (_fan_out env cfg e wl x).
Proof. unfold _fan_out. keep_calls. Qed.
End Fanout.
End Fanout.
#[export] Hint Resolve Fanout.aside_create Fanout.aside_event Fanout.aside_notify Fanout.aside_legacy
  Fanout.aside_fan_out : preserve.

(** ** One rule on one item *)
Module Process.
Import Aside Fanout.

Section Process.
Variables (env : environment) (cfg : config).

(** The fingerprint and the first condition that holds. *)
Definition first_holding (r : AlertRule) (o : observation) : option AlertCondition :=
  List.find (holds_now (low_inventory_threshold cfg) o) (conditions r).
Definition fires (r : AlertRule) (o : observation) (now : datetime) : bool :=
  can_fire r now && existsb (holds_now (low_inventory_threshold cfg) o) (conditions r).

(** The key of the event of a rule that fires on a condition. *)
Definition occurrence_key (r : AlertRule) (x : WatchlistItem) (o : observation) (t : AlertConditionType) : string :=
  build_dedupe_key (ru_user_id r) t (Some (rule_id r)) (Some (it_watchlist_id x)) (Some (it_id x))
    (Some (observation_fingerprint (sha256_hex env) o t)).

Lemma identify_runs r o now l w :
  switched_off r = false ->
  exists n, identify_from env cfg r l o now w
    = (Ok (condition_type <$> List.find (holds_now (low_inventory_threshold cfg) o) l), with_asked n w)
    /\ (w_asked w <= n)%nat.
Proof.
  intros Hs. revert w. induction l as [|c l IH]; intros w; cbn [identify_from List.find].
  - exists (w_asked w). by destruct w.
  - unfold engine_evaluate, new_id, ask. act_run. rewrite evaluate_triggered, probe_can_fire, Hs.
    cbn [conditions probe existsb andb negb]. rewrite orb_false_r. destruct (holds_now _ o c).
    + exists (S (w_asked w)). cbn. split; [done | lia].
    + destruct (IH (with_asked (S (w_asked w)) w)) as (n & E & Hn). exists n. rewrite E. cbn in Hn. split; [by destruct w | lia].
Qed.

Lemma save_alert_runs a w : exists w', save_alert a w = (Ok a, w').
Proof. by eexists. Qed.

(** What follows the saved event always answers. *)
Lemma best_effort_runs {A} (m : M A) w : Receipts.best_effort m w = (Ok tt, (m w).2).
Proof. unfold Receipts.best_effort, attempt. act_run. by destruct (m w). Qed.
Lemma notify_runs a w : exists receipt w', Receipts.notify env cfg a w = (Ok receipt, w').
Proof.
  unfold Receipts.notify, Receipts.mock_notify, Receipts._fan_out_alert, new_id, now_. act_run.
  cbv beta iota zeta delta [ask]. destruct (has_enhanced cfg); cbn [negb]; [rewrite best_effort_runs |]; by do 2 eexists.
Qed.
Lemma legacy_runs t x o e now w : exists a w', _create_legacy_alert env cfg t x o e now w = (Ok a, w').
Proof.
  unfold _create_legacy_alert. destruct (has_alerts cfg); cbn [negb]; [| by do 2 eexists].
  unfold new_id. act_run. cbv beta iota zeta delta [ask]. unfold save_alert at 1. act_run.
  cbv beta iota zeta delta [upd_watch]. destruct (has_notifications cfg); cbn [negb]; [| by do 2 eexists].
  match goal with |- context [Receipts.notify env cfg ?a ?w] => destruct (notify_runs a w) as (rc & w' & ->) end.
  by do 2 eexists.
Qed.
Lemma fan_out_runs e wl x w : exists w', _fan_out env cfg e wl x w = (Ok tt, w').
Proof.
  unfold _fan_out. destruct (has_center cfg); cbn [negb]; [rewrite best_effort_runs |]; by eexists.
Qed.

Lemma build_event_runs t r x o key now w :
  exists e, _build_event env t r x o key now w = (Ok e, with_asked (S (w_asked w)) w)
    /\ ev_id e = id_factory env (w_asked w) /\ dedupe_key e = key /\ ev_user_id e = ru_user_id r
    /\ ev_rule_id e = Some (rule_id r) /\ ev_created_at e = now.
Proof. unfold _build_event, new_id, ask. act_run. by destruct t; eexists. Qed.

(** Worlds with the same rules and events, later. *)
Definition same_rules (w w' : world) : Prop := w_rules w' = w_rules w /\ (w_asked w <= w_asked w')%nat.
#[local] Instance same_rules_only : RulesOnly same_rules.
Proof.
  split; [split; [by intros w |] | by intros]. intros w1 w2 w3 [E H] [E' H']. split; [congruence | lia].
Qed.

(** What a call of [process] leaves of the rules and events. *)
Inductive processed (r : AlertRule) (x : WatchlistItem) (o : observation) (now : datetime) (w w' : world)
    : option AlertEvent -> Prop :=
| Processed_quiet :
    fires r o now = false -> rs_rules (w_rules w') = rs_rules (w_rules w) ->
    rs_events (w_rules w') = rs_events (w_rules w) -> rs_keys (w_rules w') = rs_keys (w_rules w) ->
    processed r x o now w w' None
| Processed_again c e :
    fires r o now = true -> first_holding r o = Some c ->
    find_by_dedupe_key (occurrence_key r x o (condition_type c)) (w_rules w) = Some e ->
    rs_rules (w_rules w') = o_save (rule_id r) (mark_triggered r now) (rs_rules (w_rules w)) ->
    rs_events (w_rules w') = rs_events (w_rules w) -> rs_keys (w_rules w') = rs_keys (w_rules w) ->
    processed r x o now w w' None
| Processed_new c e :
    fires r o now = true -> first_holding r o = Some c ->
    find_by_dedupe_key (occurrence_key r x o (condition_type c)) (w_rules w) = None ->
    rs_rules (w_rules w') = o_save (rule_id r) (mark_triggered r now) (rs_rules (w_rules w)) ->
    dedupe_key e = occurrence_key r x o (condition_type c) ->
    ev_user_id e = ru_user_id r -> ev_rule_id e = Some (rule_id r) -> ev_created_at e = now ->
    (exists n, (w_asked w <= n < w_asked w')%nat /\ ev_id e = id_factory env n) ->
    rs_events (w_rules w') = o_save (ev_id e) e (rs_events (w_rules w)) ->
    rs_keys (w_rules w') = <[dedupe_key e := ev_id e]> (rs_keys (w_rules w)) ->
    processed r x o now w w' (Some e).

Lemma raise_event_runs r x o now e c w :
  fires r o now = true -> first_holding r o = Some c ->
  observation_fp e = Some (observation_fingerprint (sha256_hex env) o (condition_type c)) ->
  exists out w', raise_event env cfg r x o now e (condition_type c) w = (Ok out, w')
    /\ io_evaluation out = e /\ io_rule_id out = rule_id r /\ (w_asked w <= w_asked w')%nat
    /\ processed r x o now w w' (io_event out).
Proof.
  intros Hf Hc He. unfold raise_event, key_of. rewrite He. fold (occurrence_key r x o (condition_type c)).
  unfold a_bind at 1, rules. destruct (find_by_dedupe_key _ (w_rules w)) as [old|] eqn:Ek; cbn [is_some].
  - unfold a_bind, upd_rules, a_ret. do 2 eexists. split; [reflexivity |]. do 3 (split; [done |]).
    by eapply Processed_again.
  - unfold a_bind at 1, upd_rules. set (w1 := with_rules _ w). unfold a_bind at 1.
    destruct (build_event_runs (condition_type c) r x o (occurrence_key r x o (condition_type c)) now w1)
      as (ev & -> & Hi & Hk & Hu & Hr & Ht).
    unfold a_bind at 1, upd_rules. set (w2 := with_rules _ _). unfold a_bind at 1, watch.
    set (wl := WatchMemory.get_watchlist _ _). unfold a_bind at 1.
    destruct (legacy_runs (condition_type c) x o e now w2) as (a & w3 & E3). rewrite E3. unfold a_bind.
    destruct (fan_out_runs ev wl x w3) as (w4 & E4). rewrite E4.
    assert (H3 : same_rules w2 w3) by (pose proof (aside_legacy env cfg same_rules (condition_type c) x o e now w2) as H; by rewrite E3 in H).
    assert (H4 : same_rules w3 w4) by (pose proof (aside_fan_out env cfg same_rules ev wl x w3) as H; by rewrite E4 in H).
    destruct (transitivity H3 H4) as [E Hn]. cbn in Hn.
    do 2 eexists. split; [reflexivity |]. do 2 (split; [done |]). split; [lia |]. cbn [io_event outcome].
    eapply (Processed_new _ _ _ _ _ _ c); rewrite ?E; try done. exists (w_asked w). split; [lia | exact Hi].
Qed.

(** [process] always answers, with what the conditions and the keys decide. *)
Lemma process_runs r x o now w :
  exists out w', process env cfg r x o now w = (Ok out, w')
    /\ triggered (io_evaluation out) = fires r o now /\ io_rule_id out = rule_id r
    /\ (w_asked w <= w_asked w')%nat /\ processed r x o now w w' (io_event out).
Proof.
  unfold process, engine_evaluate at 1, new_id, ask. unfold a_bind at 1 2, a_ret at 1.
  set (e := evaluate_rule _ _ _ _ _ _). unfold a_bind at 1, upd_rules. set (w1 := with_rules _ _). unfold a_bind at 1.
  set (w2 := with_previous _ w1). pose proof (evaluate_triggered (sha256_hex env) (low_inventory_threshold cfg)
    (id_factory env (w_asked w)) r o now) as Ht. fold e (fires r o now) in Ht.
  destruct (triggered e) eqn:Et; cbn [negb].
  - destruct (evaluate_fingerprint (sha256_hex env) (low_inventory_threshold cfg) (id_factory env (w_asked w)) r o now Et)
      as (c & Hc & Hfp). symmetry in Ht. unfold _identify_triggered_condition.
    assert (Hs : switched_off r = false).
    { unfold fires, can_fire in Ht. by destruct (switched_off r). }
    destruct (identify_runs r o now (conditions r) w2 Hs) as (n & En & Hn). unfold a_bind at 1. rewrite En, Hc. cbn [fmap option_fmap option_map].
    destruct (raise_event_runs r x o now e c (with_asked n w2) Ht Hc Hfp) as (out & w' & E & He & Hr & Ha & Hp).
    exists out, w'. split; [exact E |]. rewrite He. split; [congruence |]. split; [done |]. cbn in Ha, Hn. split; [lia |].
    destruct Hp as [Hf | c' e' | c' e' ? ? ? ? ? ? ? ? (m & Hm & Hid)]; [congruence | by eapply Processed_again |].
    eapply Processed_new; try done. exists m. split; [cbn in Hm; lia | done].
  - do 2 eexists. split; [reflexivity |]. split; [cbn; congruence |]. split; [done |]. split; [cbn; lia |].
    by apply Processed_quiet.
Qed.
End Process.
End Process.

(** ** Passes over the rules *)
Module Passes.
Import Aside Process.

(** The evaluations a caller can start, each at a given moment. *)
Inductive pass :=
| PassAll | PassUser (user : string) | PassWatchlist (watchlist : string) | PassItem (item : string)
| PassTrigger (user watchlist rule : option string).

Section Passes.
Variables (env : environment) (cfg : config).

Definition run_pass (p : pass) (t : datetime) : M unit :=
  match p with
  | PassAll => do! _ := evaluate_all env cfg (Some t) in a_ret tt
  | PassUser u => do! _ := evaluate_for_user env cfg u (Some t) in a_ret tt
  | PassWatchlist i => do! _ := EvaluationService.evaluate_watchlist env cfg i (Some t) in a_ret tt
  | PassItem i => do! _ := evaluate_item env cfg i (Some t) in a_ret tt
  | PassTrigger u wl r => do! _ := trigger_evaluate env cfg u wl r (Some t) in a_ret tt
  end.

(** *** A relation through a pass

    [R] holds through a pass when it looks at the rules only, the other requests
    keep it while the pass waits, and it holds through [process] of the rules
    that [fine] lets in; [fine] says what is known of a rule in a world. *)
Section Through.
Variables (R : world -> world -> Prop) (fine : world -> AlertRule -> Prop) (t : datetime).
Context `{HR : !RulesOnly R}.
Hypothesis others : forall n w, R w (meanwhile env n w).
Hypothesis stays_fine : forall w w' r, R w w' -> fine w r -> fine w' r.
Hypothesis through_process : forall r x o w, fine w r -> R w (process env cfg r x o t w).2.

Lemma through_suspend : preserves R (suspend env).
Proof.
  intros w. unfold suspend. cbn. etransitivity; [| apply others].
  apply (rules_only (RulesOnly := HR)); cbn; auto.
Qed.

Lemma through_observation x : preserves R (_build_observation env cfg x).
Proof.
  unfold _build_observation, _apply_price_history, _apply_dealscore, _apply_marketplace_offer.
  apply preserves_bind; [exact _ | intros w; by apply rules_only |]. intros previous. keep_calls. apply through_suspend.
Qed.

Lemma through_items r l acc w : fine w r -> R w (evaluate_items env cfg r l t acc w).2.
Proof.
  revert acc w. induction l as [|x l IH]; intros acc w Hf; cbn [evaluate_items]; [by apply rules_only |].
  unfold a_bind at 1, attempt. assert (H : R w (_evaluate_rule_for_item env cfg r x t w).2).
  { unfold _evaluate_rule_for_item, a_bind. pose proof (through_observation x w) as Ho.
    destruct (_build_observation env cfg x w) as [[o|e] w1]; [| exact Ho]. cbn in Ho.
    etransitivity; [exact Ho |]. apply through_process. by eapply stays_fine. }
  destruct (_evaluate_rule_for_item env cfg r x t w) as [res w1]. cbn in H.
  etransitivity; [exact H |]. apply IH. by eapply stays_fine.
Qed.

Lemma through_rules l acc w : (forall r, r ∈ l -> fine w r) -> R w (evaluate_each env cfg l t acc w).2.
Proof.
  revert acc w. induction l as [|r l IH]; intros acc w Hf; cbn [evaluate_each]; [by apply rules_only |].
  unfold a_bind at 1, watch, a_bind. pose proof (through_items r (_resolve_items_for_rule r (w_watch w)) acc w) as H.
  specialize (H ltac:(apply Hf, list_elem_of_here)).
  destruct (evaluate_items _ _ _ _ _ _ w) as [[a|e] w1]; [| exact H]. cbn in H.
  etransitivity; [exact H |]. apply IH. intros r' Hr'. eapply stays_fine; [exact H |]. apply Hf. by apply list_elem_of_further.
Qed.

Lemma through_batch l w : (forall r, r ∈ l -> fine w r) -> R w (_evaluate_rule_batch env cfg l (Some t) w).2.
Proof.
  intros Hf. unfold _evaluate_rule_batch. unfold a_bind at 1, a_ret at 1. unfold a_bind.
  pose proof (through_rules l {| ta_outcomes := []; ta_failures := [] |} w Hf) as H.
  by destruct (evaluate_each _ _ _ _ _ w) as [[a|e] w1].
Qed.

Lemma through_pass p w :
  (forall i r, o_map (rs_rules (w_rules w)) !! i = Some r -> fine w r) -> o_ok (rs_rules (w_rules w)) ->
  R w (run_pass p t w).2.
Proof.
  intros Hf Ho. assert (Hl : forall u wl i b r, r ∈ list_rules u wl i b (w_rules w) -> fine w r).
  { intros u wl i b r. unfold list_rules. intros Hr.
    assert (r ∈ o_list (rs_rules (w_rules w))) as Hin.
    { revert Hr. unfold WatchMemory.filtered. destruct u, wl, i, b; cbn; rewrite ?list_elem_of_In, ?filter_In; naive_solver. }
    apply (elem_of_o_list _ _ Ho) in Hin as [k Hk]. by eapply Hf. }
  assert (Hb : forall u wl i, R w (evaluate_listed env cfg u wl i (Some t) w).2).
  { intros u wl i. unfold evaluate_listed. unfold a_bind, rules. apply through_batch. apply Hl. }
  assert (Hd : forall {A} (m : M A), R w (m w).2 -> R w ((do! _ := m in a_ret tt) w).2).
  { intros A m H. unfold a_bind. by destruct (m w) as [[?|?] ?]. }
  destruct p as [| | | |u wl r]; cbn [run_pass]; apply Hd; try apply Hb. unfold trigger_evaluate.
  assert (Ht : forall f : rule_store -> list AlertRule, (forall r, r ∈ f (w_rules w) -> fine w r) ->
    R w ((do! l := rules f in do! s := _evaluate_rule_batch env cfg l (Some t) in a_ret (map io_evaluation (outcomes s))) w).2).
  { intros f H. unfold a_bind, rules. pose proof (through_batch _ w H) as Hw.
    by destruct (_evaluate_rule_batch _ _ _ _ w) as [[?|?] ?]. }
  destruct r as [i|]; [| destruct wl, u; apply Ht; apply Hl].
  apply Ht. intros r. unfold get_rule, o_get. destruct (o_map _ !! i) as [r'|] eqn:E; [| by intros ?%elem_of_nil].
  intros ->%list_elem_of_singleton. by eapply Hf.
Qed.
End Through.
End Passes.
End Passes.

(** ** Everything that reaches the alert services *)
Module Requests.
Import Aside Fanout Process Passes Unsubscribed.

Inductive alert_request :=
| ReqPass (p : pass) (t : datetime)
| ReqCreate (user : option string) (name : string) (conds : list RuleService.condition_arg)
    (f : RuleService.rule_fields)
| ReqUpdate (i : string) (user : option string) (e : RuleService.rule_edit)
| ReqPause (i : string) (user : option string)
| ReqResume (i : string) (user : option string)
| ReqDelete (i : string) (user : option string)
| ReqLegacyAll
| ReqLegacyWatchlist (i : string)
| ReqCenter (c : center_call).

Section Requests.
Variables (env : environment) (cfg : config).

Definition run_request (q : alert_request) : M unit :=
  match q with
  | ReqPass p t => run_pass env cfg p t
  | ReqCreate u n c f => do! _ := RuleService.create_rule env u n c f in a_ret tt
  | ReqUpdate i u e => do! _ := RuleService.update_rule env i u e in a_ret tt
  | ReqPause i u => do! _ := RuleService.pause_rule env i u in a_ret tt
  | ReqResume i u => do! _ := RuleService.resume_rule env i u in a_ret tt
  | ReqDelete i u => RuleService.delete_rule i u
  | ReqLegacyAll => do! _ := LegacyService.evaluate_all env cfg in a_ret tt
  | ReqLegacyWatchlist i => do! _ := LegacyService.evaluate_watchlist env cfg i in a_ret tt
  | ReqCenter c => run_call env c
  end.

Fixpoint run_requests (l : list alert_request) (w : world) : world :=
  match l with [] => w | q :: rest => run_requests rest (run_request q w).2 end.

(** *** What leaves the rules alone *)
Section Aside.
Variable R : world -> world -> Prop.
Context `{HR : !RulesOnly R}.
Hypothesis others : forall n w, R w (meanwhile env n w).

Lemma aside_on_center {A} (f : CenterMemory.center_store -> A * CenterMemory.center_store) : preserves R (on_center f).
Proof. intros w. unfold on_center. destruct (f _). by apply rules_only. Qed.
#[local] Hint Resolve aside_on_center aside_mail : preserve.

Lemma aside_call c : preserves R (run_call env c).
Proof.
  destruct c; unfold run_call; try apply preserves_bind; try exact _; try (intros; apply preserves_ret; exact _); eauto 2 with preserve.
  - unfold CenterService.mark_read, CenterService.get_notification, CenterService.repo_mark_read. keep_calls.
  - unfold CenterService.mark_all_read, CenterService.list_notifications. keep_calls.
    induction a as [|n l IH]; cbn [CenterService.mark_each]; unfold CenterService.repo_mark_read; keep_calls.
  - unfold CenterService.archive, CenterService.get_notification. keep_calls.
  - unfold CenterService.get_notification. keep_calls.
  - intros n. keep_calls.
  - unfold CenterService.update_preferences. keep_calls.
  - unfold CenterService.create_unsubscribe_token. keep_calls.
  - unfold CenterService.revoke_unsubscribe_token. keep_calls.
  - unfold CenterService.unsubscribe, CenterService.validate_unsubscribe_token, CenterService.update_preferences,
      CenterService.revoke_unsubscribe_token. keep_calls.
  - unfold CenterService._build_digest. keep_calls.
  - unfold CenterService.deliver_digest. keep_calls.
Qed.

Lemma aside_suspend : preserves R (suspend env).
Proof.
  intros w. unfold suspend. cbn. etransitivity; [| apply others]. apply (rules_only (RulesOnly := HR)); cbn; auto.
Qed.
#[local] Hint Resolve aside_suspend : preserve.

Lemma aside_evaluate_item x stamp : preserves R (LegacyService._evaluate_item env cfg x stamp).
Proof.
  unfold LegacyService._evaluate_item, LegacyService.read_item, LegacyService.read_prices, LegacyService._resolve_dealscore,
    LegacyService._freshness_observation, _apply_dealscore, _apply_marketplace_offer. keep_calls.
  match goal with |- preserves R (LegacyService.build_alerts _ _ _ _ ?ds) => generalize ds end; intros l; induction l as [|d l IH];
    cbn [LegacyService.build_alerts]; [keep_calls |]. unfold LegacyService._build_alert. destruct d as [[[? ?] ?] ?]. keep_calls.
Qed.
#[local] Hint Resolve aside_evaluate_item : preserve.

Lemma aside_publish l : preserves R (LegacyService.publish_all env cfg l).
Proof.
  induction l as [|a l IH]; cbn [LegacyService.publish_all];
    unfold LegacyService.publish, LegacyService._notify_notification_center; keep_calls.
Qed.
#[local] Hint Resolve aside_publish : preserve.

Lemma aside_legacy_pass l : preserves R (LegacyService._evaluate_watchlists env cfg l).
Proof.
  unfold LegacyService._evaluate_watchlists. apply preserves_bind; [exact _ | apply aside_now; exact _ | intros stamp].
  apply preserves_bind; [exact _ | | intros []; keep_calls].
  induction l as [|i l IH]; cbn [LegacyService.evaluate_lists]; [keep_calls |].
  apply preserves_bind; [exact _ | keep_calls | intros items].
  apply preserves_bind; [exact _ | | intros done_; keep_calls].
  induction items as [|x items IHi]; cbn [LegacyService.evaluate_items]; keep_calls.
Qed.

Lemma aside_request q :
  match q with ReqLegacyAll | ReqLegacyWatchlist _ | ReqCenter _ => True | _ => False end ->
  preserves R (run_request q).
Proof.
  destruct q; intros H; try done; cbn [run_request].
  - unfold LegacyService.evaluate_all. pose proof aside_legacy_pass. keep_calls.
  - unfold LegacyService.evaluate_watchlist. pose proof aside_legacy_pass. keep_calls.
  - apply aside_call.
Qed.
End Aside.

(** *** Requests on rules *)

(** What a request on rules does to them: nothing, a rule saved, a rule gone. *)
Inductive rule_change (w w' : world) : Prop :=
| Change_none : w_rules w' = w_rules w -> rule_change w w'
| Change_save r : w_rules w' = save_rule r (w_rules w) -> rule_change w w'
| Change_delete i : w_rules w' = (delete_rule i (w_rules w)).2 -> rule_change w w'.

Definition changes {A} (w : world) (answer : A * world) : Prop :=
  rule_change w answer.2 /\ (w_asked w <= w_asked answer.2)%nat.

Lemma owned_runs i u w : exists res, RuleService._ensure_watchlist_owned i u w = (res, w).
Proof.
  unfold RuleService._ensure_watchlist_owned. act_run. unfold watch.
  destruct (WatchMemory.get_watchlist i (w_watch w)) as [wl|]; [| by eexists].
  destruct (wl_owner_id wl) as [o|]; [destruct (String.eqb o u) |]; by eexists.
Qed.

Lemma create_changes u n c f w : changes w (RuleService.create_rule env u n c f w).
Proof.
  unfold RuleService.create_rule. act_run.
  destruct (RuleService._require_user_id u) as [u'|]; [| by split; [apply Change_none |]].
  destruct (RuleService._require_name n); [| by split; [apply Change_none |]].
  destruct (RuleService._normalize_conditions c); [| by split; [apply Change_none |]].
  destruct (RuleService._require_timezone _); [| by split; [apply Change_none |]].
  destruct (RuleService.rf_watchlist f) as [wl|];
    [destruct (owned_runs wl u' w) as [[[]|e] ->]; [| by split; [apply Change_none |]] |];
    unfold RuleService.cooldown_ok; act_run; (destruct (_ <? 0); [by split; [apply Change_none |] |]);
    cbv beta iota zeta delta [now_ new_id ask]; destruct (RuleService.rf_rule_id f) as [i|]; try destruct (nonempty i);
    (split; [by eapply Change_save | cbn; lia]).
Qed.

Lemma get_rule_runs i u w : exists res, RuleService.get_rule i u w = (res, w).
Proof.
  unfold RuleService.get_rule. act_run. unfold rules. destruct (get_rule i (w_rules w)) as [r|]; [| by eexists].
  destruct (match u with Some _ => _ | None => _ end); by eexists.
Qed.

Lemma checked_runs {A B} (f : A -> result alert_exn B) o w : exists res, RuleService.checked f o w = (res, w).
Proof. destruct o as [a|]; cbn; [| by eexists]. act_run. destruct (f a); by eexists. Qed.

Lemma update_changes i u e w : changes w (RuleService.update_rule env i u e w).
Proof.
  assert (Hn : forall n (r : result alert_exn AlertRule), (w_asked w <= n)%nat -> changes w (r, with_asked n w))
    by (intros n r Hn; split; [by apply Change_none | exact Hn]).
  unfold RuleService.update_rule. unfold a_bind at 1. destruct (get_rule_runs i u w) as [[r|x] ->];
    [| by split; [apply Change_none |]].
  unfold a_bind at 1, now_, ask at 1. set (w1 := with_asked _ w).
  unfold a_bind at 1. destruct (checked_runs RuleService._require_name (RuleService.re_name e) w1) as [[name|x] ->]; [| apply Hn; lia].
  unfold a_bind at 1. destruct (checked_runs RuleService._normalize_conditions (RuleService.re_conditions e) w1) as [[conds|x] ->]; [| apply Hn; lia].
  unfold a_bind at 1. lazymatch goal with |- changes _ (match ?c with _ => _ end) => assert (Hw : exists res, c = (res, w1)) end.
  { destruct (RuleService.re_watchlist e) as [[wl|]|]; [apply owned_runs | by eexists | by eexists]. }
  destruct Hw as [[[]|x] ->]; [| apply Hn; lia].
  unfold a_bind at 1. lazymatch goal with |- changes _ (match ?c with _ => _ end) => assert (Hc : exists res, c = (res, w1)) end.
  { destruct (RuleService.re_cooldown e) as [c|]; [| by eexists]. unfold RuleService.cooldown_ok, a_guard, a_lift. by eexists. }
  destruct Hc as [[[]|x] ->]; [| apply Hn; lia].
  unfold a_bind at 1. destruct (checked_runs RuleService._require_timezone (RuleService.re_timezone e) w1) as [[z|x] ->]; [| apply Hn; lia].
  split; [by eapply Change_save | cbn; lia].
Qed.

Lemma delete_changes i u w : changes w (RuleService.delete_rule i u w).
Proof.
  unfold RuleService.delete_rule. unfold a_bind at 1. destruct (get_rule_runs i u w) as [[r|x] ->];
    [| by split; [apply Change_none |]].
  unfold a_bind, on_rules. destruct (delete_rule i (w_rules w)) as [b s] eqn:E. split; [| done].
  apply (Change_delete _ _ i). by rewrite E.
Qed.
End Requests.
End Requests.

(** ** One event for one occurrence *)
Module OneEvent.
Import Aside Process Passes Requests.

Section OneEvent.
Variables (env : environment) (cfg : config).

(** Ids are drawn once and are not blank, as [uuid4] gives them. *)
Record ids_ok : Prop := {
  ids_differ n m : id_factory env n = id_factory env m -> n = m;
  ids_named n : id_factory env n <> ""%string
}.

(** The repository is consistent, and the ids of its events were drawn. *)
Definition world_ok (w : world) : Prop :=
  rules_ok (w_rules w)
  /\ forall i e, get_event i (w_rules w) = Some e -> exists n, (n < w_asked w)%nat /\ i = id_factory env n.

(** A consistent world that keeps every event. *)
Definition later (w w' : world) : Prop :=
  world_ok w ->
  world_ok w' /\ (w_asked w <= w_asked w')%nat
  /\ forall i e, get_event i (w_rules w) = Some e -> get_event i (w_rules w') = Some e.

Lemma later_rules_events w w' :
  (rules_ok (w_rules w) -> rules_ok (w_rules w')) -> rs_events (w_rules w') = rs_events (w_rules w) ->
  (w_asked w <= w_asked w')%nat -> later w w'.
Proof.
  intros Hr He Hn [Hok Hd]. unfold world_ok, get_event in *. rewrite He. split; [| by split].
  split; [by apply Hr |]. intros i e Hi. destruct (Hd _ _ Hi) as (n & Hlt & E). exists n. split; [lia | done].
Qed.

#[local] Instance later_only : RulesOnly later.
Proof.
  split.
  - split; [by intros w H |]. intros w1 w2 w3 H12 H23 H. destruct (H12 H) as (H2 & Hn & He).
    destruct (H23 H2) as (H3 & Hn' & He'). split; [done |]. split; [lia | auto].
  - intros w w' E Hn. apply later_rules_events; rewrite ?E; auto.
Qed.

Lemma rules_ok_ext s s' :
  rs_rules s' = rs_rules s -> rs_events s' = rs_events s -> rs_keys s' = rs_keys s -> rules_ok s -> rules_ok s'.
Proof. intros Hr He Hk [H1 H2 H3 H4]. split; rewrite ?Hr, ?He, ?Hk; done. Qed.

Lemma later_process r x o t w : ids_ok -> later w (process env cfg r x o t w).2.
Proof.
  intros Hids. destruct (process_runs env cfg r x o t w) as (out & w' & -> & _ & _ & Hn & Hp). cbn [snd].
  destruct Hp as [_ Hr He Hk | c e _ _ _ Hr He Hk | c e _ _ Hf Hr Hd _ _ _ (n & Hlt & Hi) He Hk].
  - apply later_rules_events; [| done | done]. by apply rules_ok_ext.
  - apply later_rules_events; [| done | done]. intros Hok.
    apply (rules_ok_ext (save_rule (mark_triggered r t) (w_rules w))); [done | done | done | by apply save_rule_ok].
  - intros [Hok Hdrawn]. assert (Hnew : o_map (rs_events (w_rules w)) !! ev_id e = None).
    { destruct (o_map _ !! ev_id e) as [e'|] eqn:E; [| done]. exfalso. destruct (Hdrawn _ _ E) as (m & Hm & Em).
      rewrite Hi in Em. apply (ids_differ Hids) in Em. lia. }
    split; [| split; [exact Hn |]].
    + split.
      * apply (rules_ok_ext (save_event e (save_rule (mark_triggered r t) (w_rules w)))); [done | done | done |].
        apply save_event_ok; [by apply save_rule_ok | rewrite Hi; apply (ids_named Hids) | exact Hnew |].
        intros i e' H. rewrite Hd. revert i e' H. pose proof (find_key _ (occurrence_key env r x o (condition_type c)) Hok) as H.
        rewrite Hf in H. exact H.
      * intros i e' H. unfold get_event in *. rewrite He in H. cbn in H. unfold o_get in H. cbn in H.
        apply lookup_insert_Some in H as [[<- <-] | [_ H]]; [exists n; split; [lia | done] |].
        destruct (Hdrawn _ _ H) as (m & Hm & Em). exists m. split; [lia | done].
    + intros i e' H. unfold get_event, o_get in *. rewrite He. cbn. rewrite lookup_insert_ne; [exact H |]. congruence.
Qed.

Lemma later_change {A} w (a : A * world) : changes w a -> later w a.2.
Proof.
  intros [[E | r E | i E] Hn]; apply later_rules_events; rewrite ?E; auto using save_rule_ok, delete_rule_ok.
  unfold delete_rule. by destruct (get_rule i (w_rules w)).
Qed.

Lemma later_pass p t w : ids_ok -> (forall n w, later w (meanwhile env n w)) -> later w (run_pass env cfg p t w).2.
Proof.
  intros Hids Ho Hw. pose proof (ok_rules _ (proj1 Hw)) as Hk. revert Hw.
  apply (through_pass env cfg later (fun _ _ => True) t Ho); [done | | done | exact Hk].
  intros. by apply later_process.
Qed.

Lemma later_request q w : ids_ok -> (forall n w, later w (meanwhile env n w)) -> later w (run_request env cfg q w).2.
Proof.
  intros Hids Ho. assert (Hd : forall {A} (m : M A), changes w (m w) -> later w ((do! _ := m in a_ret tt) w).2).
  { intros A m H. apply later_change in H. unfold a_bind. by destruct (m w) as [[?|?] ?]. }
  destruct q; try (by apply (aside_request env cfg later Ho)); cbn [run_request].
  - by apply later_pass.
  - apply Hd, create_changes.
  - apply Hd, update_changes.
  - apply Hd, update_changes.
  - apply Hd, update_changes.
  - apply later_change, delete_changes.
Qed.

Lemma later_requests l w :
  ids_ok -> (forall n w, later w (meanwhile env n w)) -> later w (run_requests env cfg l w).
Proof.
  intros Hids Ho. revert w. induction l as [|q l IH]; intros w; cbn [run_requests]; [by apply rules_only |].
  etransitivity; [by apply later_request | apply IH].
Qed.

(** C17: Whatever reaches the alert services - rules made, edited and deleted,
    evaluations of any scope with any other requests in between their awaits,
    the older evaluations, the notification center - no two events are ever
    stored for one dedupe key, and a stored event is never changed or lost. *)
Theorem an_occurrence_is_raised_once requests w :
  ids_ok -> (forall n w, later w (meanwhile env n w)) -> world_ok w ->
  let w' := run_requests env cfg requests w in
  (forall i i' e e', get_event i (w_rules w') = Some e -> get_event i' (w_rules w') = Some e' ->
     dedupe_key e = dedupe_key e' -> i = i')
  /\ (forall i e, get_event i (w_rules w) = Some e -> get_event i (w_rules w') = Some e).
Proof.
  intros Hids Ho Hw w'. destruct (later_requests requests w Hids Ho Hw) as ([Hok _] & _ & He). split; [| exact He].
  intros i i' e e' Hi Hi' E. assert (H : rs_keys (w_rules w') !! dedupe_key e = Some i) by (apply (ok_keys _ Hok); by exists e).
  assert (H' : rs_keys (w_rules w') !! dedupe_key e = Some i') by (apply (ok_keys _ Hok); by exists e').
  congruence.
Qed.
End OneEvent.
End OneEvent.

(** ** Rules that may not fire *)
Module Blocked.
Import Aside Process Passes.

(** The comparison of [total_seconds] with the cooldown is exact. *)
Lemma seconds_lt_exact us c :
  0 <= us < 2 ^ 52 -> 0 < c -> seconds_lt (total_seconds us) c = (us <? c * 1000000).
Proof.
  intros Hus Hc. unfold seconds_lt, total_seconds, Float64.round64.
  destruct (us =? 0) eqn:E; bool_simpl.
  { subst. cbn. rewrite Z.mul_1_r. by destruct c. }
  rewrite Z.abs_eq, Z.sgn_pos by lia.
  assert (Hl : Z.log2 us < 52) by (apply Z.log2_lt_pow2; lia).
  assert (Hf : exists k, 20 <= k /\ Float64.fexp us 1000000 = - k).
  { unfold Float64.fexp. change (Z.log2 1000000) with 19.
    destruct (Float64.scale _ _ _) as [n' d'].
    destruct (_ <=? _); [exists (33 + 38 - Z.log2 us) | exists (72 - Z.log2 us)]; split; lia. }
  destruct Hf as (k & Hk & ->). unfold Float64.scale.
  destruct (0 <=? - k) eqn:E2; bool_simpl; [lia |]. destruct (0 <=? - k) eqn:E3; bool_simpl; [lia |].
  replace (- - k) with k by lia. rewrite Z.mul_1_l.
  assert (Hp : 2 ^ 20 <= 2 ^ k) by (apply Z.pow_le_mono_r; lia). change (2 ^ 20) with 1048576 in Hp.
  destruct (Z.ltb_spec us (c * 1000000)).
  - apply Z.ltb_lt. pose proof (Float64.rne_bounds (us * 2 ^ k) 1000000 ltac:(lia)). nia.
  - apply Z.ltb_ge. apply Float64.rne_ge; [lia |]. nia.
Qed.

(** When a rule may fire: it is on, it has not been used up, and its cooldown
    has run out, to the microsecond. *)
Lemma may_fire_iff r t :
  (forall last, last_triggered_at r = Some last -> 0 <= dt_us t - dt_us last < 2 ^ 52) ->
  can_fire r t = true <->
  ru_enabled r = true /\ ru_status r = ENABLED /\ (repeat_policy r = ONE_TIME -> one_time_fired r = false)
  /\ forall last, last_triggered_at r = Some last -> cooldown_seconds r * 1000000 <= dt_us t - dt_us last.
Proof.
  intros Hb. unfold can_fire, switched_off, is_one_time_exhausted, is_in_cooldown.
  destruct (ru_enabled r); cbn [negb orb]; [| naive_solver].
  destruct (bool_decide_reflect (ru_status r = ENABLED)); cbn [negb]; [| naive_solver].
  destruct (bool_decide_reflect (repeat_policy r = ONE_TIME)) as [Ho|Ho], (one_time_fired r); cbn [andb];
    try (split; [discriminate | intros (_ & _ & H & _); by specialize (H Ho)]).
  all: destruct (last_triggered_at r) as [last|]; [| naive_solver]; specialize (Hb last eq_refl).
  all: destruct (Z.leb_spec (cooldown_seconds r) 0); [split; [| done]; intros _; repeat split; try done; intros ? [= <-]; lia |].
  all: rewrite seconds_lt_exact by lia; rewrite negb_true_iff, Z.ltb_ge.
  all: split; [intros; repeat split; try done; intros ? [= <-]; lia | intros (_ & _ & _ & H'); specialize (H' _ eq_refl); lia].
Qed.

Section Blocked.
Variables (env : environment) (cfg : config) (i : string) (r : AlertRule).

Definition keyed_rules (w : world) : Prop :=
  o_ok (rs_rules (w_rules w)) /\ forall k q, o_map (rs_rules (w_rules w)) !! k = Some q -> rule_id q = k.

(** The rule stays as it is, and no event of it is new. *)
Definition untouched (w w' : world) : Prop :=
  keyed_rules w /\ get_rule i (w_rules w) = Some r ->
  (keyed_rules w' /\ get_rule i (w_rules w') = Some r)
  /\ forall j e, get_event j (w_rules w') = Some e -> ev_rule_id e = Some i -> get_event j (w_rules w) = Some e.

#[local] Instance untouched_only : RulesOnly untouched.
Proof.
  split.
  - split; [by intros w H |]. intros w1 w2 w3 H12 H23 H. destruct (H12 H) as (H2 & He).
    destruct (H23 H2) as (H3 & He'). split; [done |]. auto.
  - intros w w' E _. unfold untouched, keyed_rules. rewrite E. tauto.
Qed.

Lemma untouched_process q x o t w :
  (rule_id q = i -> q = r) -> can_fire r t = false -> untouched w (process env cfg q x o t w).2.
Proof.
  intros Hq Ht [[Ho Hk] Hi]. destruct (process_runs env cfg q x o t w) as (out & w' & -> & _ & _ & _ & Hp). cbn [snd].
  assert (Hf : fires cfg q o t = true -> rule_id q <> i).
  { intros Hf E. rewrite (Hq E) in Hf. unfold fires in Hf. by rewrite Ht in Hf. }
  assert (Hs : forall q', rule_id q' <> i -> rs_rules (w_rules w') = o_save (rule_id q') q' (rs_rules (w_rules w)) ->
             keyed_rules w' /\ get_rule i (w_rules w') = Some r).
  { intros q' Hne E. unfold keyed_rules, get_rule, o_get. rewrite E. cbn. rewrite lookup_insert_ne by done.
    split; [| exact Hi]. split; [by apply o_save_ok |]. intros k p [[<- <-] | [_ H]]%lookup_insert_Some; [done | by apply Hk]. }
  destruct Hp as [_ Hr He _ | c e Hfire _ _ Hr He _ | c e Hfire _ _ Hr _ _ Hrule _ _ He _].
  - unfold keyed_rules, get_rule, get_event. by rewrite Hr, He.
  - split; [eapply (Hs (mark_triggered q t)); [by apply Hf | exact Hr] |]. unfold get_event. by rewrite He.
  - split; [eapply (Hs (mark_triggered q t)); [by apply Hf | exact Hr] |]. intros j e'. unfold get_event, o_get. rewrite He. cbn.
    intros [[<- <-] | [_ H]]%lookup_insert_Some; [| done]. intros E. rewrite Hrule in E. injection E as E. by apply Hf in E.
Qed.

Fixpoint run_passes (l : list (pass * datetime)) (w : world) : world :=
  match l with [] => w | (p, t) :: rest => run_passes rest (run_pass env cfg p t w).2 end.

Lemma untouched_pass p t w :
  (forall n w, untouched w (meanwhile env n w)) -> can_fire r t = false -> untouched w (run_pass env cfg p t w).2.
Proof.
  intros Hother Ht Hw. destruct Hw as [[Ho Hk] Hi] eqn:E. revert Hw E. intros Hw _. revert Hw.
  apply (through_pass env cfg untouched (fun _ q => rule_id q = i -> q = r) t Hother); [done | | | exact Ho].
  - intros q x o w1 Hq. by apply untouched_process.
  - intros k q Hq <-. unfold get_rule, o_get in Hi. pose proof (Hk _ _ Hq) as E. rewrite E in Hi. congruence.
Qed.

(** C20: A rule that may not fire at any of the moments at which evaluations
    run - it is off, a one-time rule that has fired, or one within its cooldown -
    is stored after them as it was before, and no event of it has been added,
    whatever the items and prices are and however the evaluations overlap with
    requests on other rules. *)
Theorem blocked_rule_raises_nothing passes w :
  (forall n w, untouched w (meanwhile env n w)) ->
  keyed_rules w -> get_rule i (w_rules w) = Some r ->
  Forall (fun pt : pass * datetime => can_fire r pt.2 = false) passes ->
  let w' := run_passes passes w in
  get_rule i (w_rules w') = Some r
  /\ forall j e, get_event j (w_rules w') = Some e -> ev_rule_id e = Some i -> get_event j (w_rules w) = Some e.
Proof.
  intros Hother Hk Hi Hl w'. assert (H : untouched w w').
  { subst w'. clear Hk Hi. revert w. induction Hl as [|[p t] l Ht _ IH]; intros w; cbn [run_passes]; [by apply rules_only |].
    etransitivity; [by apply untouched_pass | apply IH]. }
  destruct (H (conj Hk Hi)) as [[_ Hr] He]. by split.
Qed.
End Blocked.
End Blocked.

(** ** A rule that fires *)
Module Firing.
Import Aside Process Passes.

Section Firing.
Variables (env : environment) (cfg : config).

(** Evaluating a rule on an item always answers, whatever the transports
    do. The rule fires exactly when it may and one of its conditions holds. It
    is then stored as triggered at that moment - as the snapshot the evaluation
    holds, whatever is stored by then, even nothing - and its event is stored
    exactly when none has its key: owner, rule, watchlist, item, first condition
    that holds, and fingerprint of the observation. No other rule changes, and
    when the rule does not fire none does. *)
Theorem firing_rule_leaves_its_event r x o now w :
  exists out w', process env cfg r x o now w = (Ok out, w')
    /\ triggered (io_evaluation out) = fires cfg r o now
    /\ (forall j, j <> rule_id r -> get_rule j (w_rules w') = get_rule j (w_rules w))
    /\ if fires cfg r o now
       then get_rule (rule_id r) (w_rules w') = Some (mark_triggered r now)
            /\ exists c, first_holding cfg r o = Some c
               /\ let key := occurrence_key env r x o (condition_type c) in
                  match find_by_dedupe_key key (w_rules w) with
                  | Some _ => io_event out = None /\ rs_events (w_rules w') = rs_events (w_rules w)
                  | None => exists e, io_event out = Some e /\ dedupe_key e = key /\ ev_user_id e = ru_user_id r
                      /\ ev_rule_id e = Some (rule_id r) /\ ev_created_at e = now
                      /\ rs_events (w_rules w') = o_save (ev_id e) e (rs_events (w_rules w))
                  end
       else io_event out = None /\ get_rule (rule_id r) (w_rules w') = get_rule (rule_id r) (w_rules w)
            /\ rs_events (w_rules w') = rs_events (w_rules w).
Proof.
  destruct (process_runs env cfg r x o now w) as (out & w' & E & Ht & _ & _ & Hp). exists out, w'.
  split; [exact E |]. split; [exact Ht |]. unfold get_rule, o_get.
  destruct Hp as [-> -> He _ | c e -> Hc Hk Hr He _ | c e -> Hc Hk Hr Hd Hu Hi Hn _ He _].
  - by rewrite He.
  - rewrite Hr. cbn [o_save o_map]. split; [intros j Hj; by rewrite lookup_insert_ne |]. rewrite lookup_insert_eq.
    split; [done |]. exists c. cbv zeta. by rewrite Hk.
  - rewrite Hr. cbn [o_save o_map]. split; [intros j Hj; by rewrite lookup_insert_ne |]. rewrite lookup_insert_eq.
    split; [done |]. exists c. cbv zeta. rewrite Hk. split; [done |]. by exists e.
Qed.

(** A batch always answers, with every rule counted and every item of it either
    evaluated or in the failures. *)
Lemma batch_answers l now w : exists s w', _evaluate_rule_batch env cfg l now w = (Ok s, w') /\ rules_evaluated s = Z.of_nat (length l).
Proof.
  assert (Hi : forall r xs t acc w, exists acc' w', evaluate_items env cfg r xs t acc w = (Ok acc', w')).
  { induction xs as [|x xs IH]; intros t acc w0; cbn [evaluate_items]; [by do 2 eexists |].
    unfold a_bind, attempt. destruct (_evaluate_rule_for_item env cfg r x t w0). apply IH. }
  assert (Hb : forall rs t acc w, exists acc' w', evaluate_each env cfg rs t acc w = (Ok acc', w')).
  { induction rs as [|r rs IH]; intros t acc w0; cbn [evaluate_each]; [by do 2 eexists |].
    unfold a_bind, watch. destruct (Hi r (_resolve_items_for_rule r (w_watch w0)) t acc w0) as (a & w1 & ->). apply IH. }
  unfold _evaluate_rule_batch, a_bind. destruct now as [t|]; cbn.
  - destruct (Hb l t {| ta_outcomes := []; ta_failures := [] |} w) as (a & w' & ->). by do 2 eexists.
  - destruct (Hb l (clock env (w_asked w)) {| ta_outcomes := []; ta_failures := [] |} (with_asked (S (w_asked w)) w)) as (a & w' & ->).
    by do 2 eexists.
Qed.

(** What pausing leaves out: a rule on an item is evaluated on it while the
    item's monitoring is paused, and a rule on a watchlist or an item is
    evaluated on the same items while the watchlist is paused. *)
Theorem pauses_leave_rules_running r w :
  (forall i x w', WatchService.pause_item_monitoring env cfg i w = (Ok x, w') -> it_enabled x = true -> it_id x = i ->
     ru_item_id r = Some i ->
     _resolve_items_for_rule r (w_watch w') = [x] /\ it_monitoring_paused x = true)
  /\ (forall i actor wl w', WatchService.pause_watchlist env cfg i actor w = (Ok wl, w') ->
       is_some (ru_item_id r) || is_some (ru_watchlist_id r) = true ->
       wl_enabled wl = false /\ _resolve_items_for_rule r (w_watch w') = _resolve_items_for_rule r (w_watch w)).
Proof.
  assert (Hh : forall wl t d a i w, exists w', WatchService._record_history env cfg wl t d a i w = (Ok tt, w')
    /\ WatchMemory.ws_items (w_watch w') = WatchMemory.ws_items (w_watch w)).
  { intros wl t d a i w0. unfold WatchService._record_history, WatchService.audit_record. act_run.
    destruct (has_audit cfg); by eexists. }
  split.
  - intros i x w' E He Hid Hr. unfold WatchService.pause_item_monitoring, WatchService.edit_item, WatchService.get_item in E.
    unfold a_bind, watch in E. destruct (WatchMemory.get_item i (w_watch w)) as [y|]; [| done]. cbn -[WatchService._record_history] in E.
    match type of E with context [WatchService._record_history env cfg ?a ?b ?c ?d ?e ?w0] =>
      destruct (Hh a b c d e w0) as (w1 & E1 & Hi) end. rewrite E1 in E. injection E as <- <-.
    unfold _resolve_items_for_rule. rewrite Hr. unfold WatchMemory.get_item, o_get. rewrite Hi. cbn in Hid |- *.
    rewrite Hid, lookup_insert_eq. cbn in He |- *. by rewrite He.
  - intros i actor wl w' E Hs. unfold WatchService.pause_watchlist, WatchService.get_watchlist in E.
    unfold a_bind, watch in E. destruct (WatchMemory.get_watchlist i (w_watch w)) as [y|]; [| done]. cbn -[WatchService._record_history] in E.
    match type of E with context [WatchService._record_history env cfg ?a ?b ?c ?d ?e ?w0] =>
      destruct (Hh a b c d e w0) as (w1 & E1 & Hi) end. rewrite E1 in E. injection E as <- <-. split; [done |].
    unfold _resolve_items_for_rule, WatchMemory.get_item, WatchMemory.list_items. rewrite Hi.
    destruct (ru_item_id r); [done |]. by destruct (ru_watchlist_id r).
Qed.
End Firing.
End Firing.
