(* ===== verification/AlertExamples.v ===== *)
(** The alert services at work: the theorems of [NotifySafety] and
    [AlertSafety] at concrete requests, and three things evaluation does that
    its texts do not say. *)

From S2P Require Import Prelude PyStr Json Clock PyState Float Password Watch Notify Alerts AlertWorld NotifySafety AlertSafety.
Import PyFloat Ordered Watchlists Values World.
Import AlertEntities Observations Dedupe Engine RuleMemory EvaluationService.
Import Notifications CenterService CenterMemory Aside Process Passes Requests.
#[local] Open Scope Z_scope.
#[local] Open Scope py_scope.

(** ** A world *)

Definition second (n : Z) : datetime := Datetime (1700000000000000 + n * 1000000) true.

(** A lamp costs 80, its lowest price. *)
Definition alert_env (others : nat -> world -> world) : environment := {|
  clock n := second (Z.of_nat n);
  id_factory n := word "i" n;
  token_urlsafe n := word "t" n;
  World.sha256_hex s := s;
  price_history product n :=
    Ok (Some {| pr_currency := "EUR"; pr_current := of_Z 80; pr_lowest := Some (of_Z 80); pr_count := 3 |});
  recommend query n := Ok None;
  get_offer offer n := Err "no such offer"%string;
  uuid_ok s := true;
  meanwhile := others
|}.
Definition alone : environment := alert_env (fun n w => w).

Definition all_services : config := {|
  has_price_history := true; has_recommendations := true; has_marketplace := true; has_registry := true;
  has_audit := true; has_alerts := true; has_notifications := true; has_enhanced := false; has_center := true;
  low_inventory_threshold := _DEFAULT_LOW_INVENTORY_THRESHOLD
|}.

Definition lamps : Watchlist :=
  {| wl_id := "lamps"; wl_name := "Lamps"; wl_created_at := second 0; wl_owner_id := Some "ana"%string;
     wl_description := None; wl_enabled := true; wl_updated_at := None; wl_is_default := false;
     wl_status := WL_ACTIVE; wl_paused_at := None; wl_archived_at := None; wl_preferred_sellers := [];
     wl_preferred_marketplaces := [] |}.
Definition lamp (i : string) : WatchlistItem :=
  {| it_id := i; it_watchlist_id := "lamps"; it_canonical_product_id := "p-" +:+ i; it_created_at := second 0;
     it_product_label := Some "Lamp"%string; it_target_price := None; it_currency := "EUR"; it_search_query := None;
     it_last_known_price := Some (of_Z 100); it_last_known_dealscore := None; it_last_historical_low := None;
     it_enabled := true; it_updated_at := None; it_marketplace_offer_id := None; it_notes := None;
     it_item_kind := PRODUCT; it_monitoring_paused := false; it_preferred_sellers := [];
     it_preferred_marketplaces := [] |}.
Definition drop_rule (policy : AlertRepeatPolicy) (cooldown : Z) : AlertRule :=
  {| rule_id := "drop"; ru_user_id := "ana"; ru_name := "Price drops";
     conditions := [{| condition_type := PRICE_DROP; threshold_value := None; threshold_percent := None;
                       comparison := None |}];
     ru_created_at := second 0; ru_watchlist_id := Some "lamps"%string; ru_item_id := None; ru_enabled := true;
     ru_status := ENABLED; cooldown_seconds := cooldown; last_triggered_at := None; repeat_policy := policy;
     ru_severity := SEV_INFO; ru_timezone := "UTC"; channel_preferences := []; ru_updated_at := None;
     one_time_fired := false |}.

Definition two_lamps : WatchMemory.watch_store :=
  WatchMemory.save_item (lamp "b") (WatchMemory.save_item (lamp "a")
    (WatchMemory.save_watchlist lamps WatchMemory.empty_watch)).

Definition home (r : AlertRule) : world :=
  MkWorld (save_rule r empty_rules) two_lamps empty_center ∅ 0 [] [] [].

Lemma home_rules_ok r : rules_ok (w_rules (home r)).
Proof. apply save_rule_ok, empty_rules_ok. Qed.

(** What an evaluation of everything reports: keys, messages, failures. *)
Definition report (env : environment) (w : world) : option (list string * list string * list string) :=
  match (EvaluationService.evaluate_all env all_services (Some (second 60)) w).1 with
  | Ok s => Some (map dedupe_key (events_created s), map al_message (alerts_created s), failures s)
  | Err _ => None
  end.

(** Both lamps dropped from 100 to 80. *)
Example drops_are_noticed :
  option_map (fun x => (length x.1.1, x.1.2, x.2)) (report alone (home (drop_rule RECURRING 3600)))
  = Some (2%nat, ["price dropped from 100.0 to 80.0"; "price dropped from 100.0 to 80.0"]%string, []).
Proof. vm_compute. reflexivity. Qed.

(** *** What the texts do not say *)

(** A one-time rule fires once for every item of the pass in which it fires:
    the loop goes on with the rule it started with. *)
Lemma one_time_rule_fires_for_each_item :
  match (EvaluationService.evaluate_all alone all_services (Some (second 60)) (home (drop_rule ONE_TIME 3600))).1 with
  | Ok s => map ev_rule_id (events_created s)
  | Err _ => []
  end = [Some "drop"; Some "drop"]%string.
Proof. vm_compute. reflexivity. Qed.

(** Another request deletes, or pauses, the rule while its evaluation waits for
    prices. *)
Definition deleting : environment :=
  alert_env (fun n w => with_rules (delete_rule "drop" (w_rules w)).2 w).
Definition pausing : environment :=
  alert_env (fun n w => (RuleService.pause_rule alone "drop" None w).2).

(** The evaluation stores the rule it started with: a rule deleted meanwhile is
    there again, and one paused meanwhile is on again. *)
Lemma evaluation_undoes_concurrent_changes :
  let after env := get_rule "drop" (w_rules (EvaluationService.evaluate_all env all_services (Some (second 60))
                                               (home (drop_rule RECURRING 3600))).2) in
  (is_some (after deleting), ru_enabled <$> after pausing) = (true, Some true).
Proof. vm_compute. reflexivity. Qed.

(** ** The theorems at work *)

Lemma alone_ids_ok : OneEvent.ids_ok alone.
Proof.
  split; [intros n m; apply word_inj |]. intros n H. apply (f_equal String.length) in H.
  change (id_factory alone n) with (word "i" n) in H. by rewrite word_length in H.
Qed.
Lemma home_ok r : OneEvent.world_ok alone (home r).
Proof. split; [apply home_rules_ok |]. intros i e H. unfold get_event, o_get in H.
  cbn [home w_rules save_rule set_rules rs_events empty_rules o_empty o_map] in H. by rewrite lookup_empty in H.
Qed.

Definition busy_day : list alert_request :=
  [ReqPass PassAll (second 60); ReqPause "drop" (Some "ana"%string); ReqPass PassAll (second 4000);
   ReqResume "drop" None; ReqPass (PassTrigger (Some "ana"%string) None None) (second 8000);
   ReqCenter (Unsubscribed.CallMarkAllRead "ana"); ReqLegacyAll; ReqPass PassAll (second 12000);
   ReqDelete "drop" None].

Lemma an_occurrence_is_raised_once_witness :
  let w' := run_requests alone all_services busy_day (home (drop_rule RECURRING 3600)) in
  (forall i i' e e', get_event i (w_rules w') = Some e -> get_event i' (w_rules w') = Some e' ->
     dedupe_key e = dedupe_key e' -> i = i')
  /\ (forall i e, get_event i (w_rules (home (drop_rule RECURRING 3600))) = Some e ->
        get_event i (w_rules w') = Some e).
Proof.
  refine (OneEvent.an_occurrence_is_raised_once alone all_services busy_day (home (drop_rule RECURRING 3600))
    alone_ids_ok _ (home_ok _)).
  intros n w H. split; [exact H | split; [apply le_n | intros i e He; exact He]].
Defined.

(** The rule fired at second 60; its cooldown is an hour. *)
Definition fired : AlertRule := mark_triggered (drop_rule RECURRING 3600) (second 60).
Definition checks : list (pass * datetime) :=
  [(PassAll, second 61); (PassWatchlist "lamps", second 1800); (PassTrigger None None (Some "drop"%string), second 3659)].

Lemma blocked_rule_raises_nothing_witness :
  let w' := Blocked.run_passes alone all_services checks (home fired) in
  get_rule "drop" (w_rules w') = Some fired
  /\ forall j e, get_event j (w_rules w') = Some e -> ev_rule_id e = Some "drop"%string ->
       get_event j (w_rules (home fired)) = Some e.
Proof.
  apply (Blocked.blocked_rule_raises_nothing alone all_services "drop" fired checks (home fired)).
  - intros n w H. split; [exact H | intros j e He _; exact He].
  - split; [apply (ok_rules _ (home_rules_ok fired)) | apply (ok_rule_ids _ (home_rules_ok fired))].
  - vm_compute. reflexivity.
  - repeat constructor; vm_compute; reflexivity.
Defined.

(** *** The notification center *)

Definition mail_on : UserNotificationPreferences :=
  edited {| pe_in_app := None; pe_email := Some true; pe_immediate := None; pe_daily := None; pe_weekly := None;
            pe_start := None; pe_end := None; pe_timezone := None; pe_price := None; pe_stock := None;
            pe_freshness := None; pe_marketing := None |}
    (Preferences.default_preferences "ana" (second 0)) (second 1).
Definition link : UnsubscribeToken :=
  {| ut_hash := word "t" 0; ut_user_id := "ana"; ut_created_at := second 1; ut_revoked_at := None |}.

(** Mail is on, and the link that token 0 makes was sent. *)
Definition subscribed : world :=
  MkWorld empty_rules WatchMemory.empty_watch
    (save_unsubscribe_token link (save_preferences mail_on empty_center)) ∅ 1 [] [] [].
Definition silenced : UserNotificationPreferences := edited unsubscribe_edit mail_on (second 1).

Lemma subscribed_keyed : Unsubscribed.keyed subscribed.
Proof. intros k p H. cbn in H. by apply lookup_insert_Some in H as [[<- <-] | [_ H]]; [| rewrite lookup_empty in H]. Qed.

Definition later_calls : list Unsubscribed.center_call :=
  [Unsubscribed.CallCreate "ana" "Price drop" "80 EUR" NT_PRICE_DROP NS_INFO None None None [];
   Unsubscribed.CallToken "ana"; Unsubscribed.CallDigest "ana" DAILY None;
   Unsubscribed.CallUpdate "bea" {| pe_in_app := None; pe_email := Some true; pe_immediate := None; pe_daily := None;
      pe_weekly := None; pe_start := None; pe_end := None; pe_timezone := None; pe_price := None; pe_stock := None;
      pe_freshness := None; pe_marketing := None |}].

(** Before the link is followed, the first of these sends a mail. *)
Example subscribed_gets_mail : length (w_mails (Unsubscribed.run_calls alone later_calls subscribed)) = 1%nat.
Proof. vm_compute. reflexivity. Qed.

Lemma tokens_fresh n :
  (1 <= n)%nat -> _hash_token alone (token_urlsafe alone n) <> _hash_token alone (word "t" 0).
Proof. intros Hn H. apply utf8_inj, word_inj in H. lia. Qed.

Lemma unsubscribed_gets_no_mail_witness :
  let w1 := (unsubscribe alone (word "t" 0) subscribed).2 in
  let w2 := Unsubscribed.run_calls alone later_calls w1 in
  Unsubscribed.mails_to "ana" w2 = Unsubscribed.mails_to "ana" w1
  /\ unsubscribe alone (word "t" 0) w2 = (Ok None, w2).
Proof.
  assert (E : (unsubscribe alone (word "t" 0) subscribed).1 = Ok (Some silenced)) by (vm_compute; reflexivity).
  apply (Unsubscribed.unsubscribed_gets_no_mail alone (word "t" 0) subscribed silenced
    (unsubscribe alone (word "t" 0) subscribed).2 later_calls subscribed_keyed).
  - rewrite <- E. apply surjective_pairing.
  - intros n Hn. apply tokens_fresh. vm_compute in Hn. exact (Nat.le_trans 1 3 n (le_S _ _ (le_S _ _ (le_n _))) Hn).
  - repeat constructor; intros H; [exact H .. | destruct H as [H _]; discriminate H].
Defined.

Definition note (i user : string) (read : option datetime) : Notification :=
  {| n_id := i; n_user_id := user; n_title := "Price drop"; n_body := "80 EUR"; n_type := NT_PRICE_DROP;
     n_severity := NS_INFO; n_created_at := second 0; n_watchlist_id := None; n_alert_id := None;
     n_alert_event_id := None; n_channel := IN_APP; n_read_at := read; n_archived_at := None;
     n_delivery_status := SIMULATED; n_metadata := [] |}.
Definition inbox : center_store :=
  save_notification (note "3" "bea" None) (save_notification (note "2" "ana" (Some (second 1)))
    (save_notification (note "1" "ana" None) empty_center)).
Definition inbox_world : world :=
  MkWorld empty_rules WatchMemory.empty_watch inbox ∅ 0 [] [] [].

Lemma reading_all_clears_the_counter_witness :
  exists w', mark_all_read alone "ana" inbox_world = (Ok 1, w')
    /\ count_unread "ana" (w_center w') = 0 /\ CenterMemory.get_notification "3" (w_center w') = Some (note "3" "bea" None).
Proof.
  assert (Hok : Reading.center_ok (w_center inbox_world)) by (repeat apply Reading.save_notification_ok; apply Reading.empty_center_ok).
  assert (Hc : count_unread "ana" (w_center inbox_world) = 1) by (vm_compute; reflexivity).
  assert (Hn : CenterMemory.get_notification "3" (w_center inbox_world) = Some (note "3" "bea" None)) by (vm_compute; reflexivity).
  destruct (Reading.reading_all_clears_the_counter alone "ana" inbox_world Hok) as (w' & E & E0 & Hi).
  - vm_compute. discriminate.
  - exists w'. split; [rewrite <- Hc; exact E | split; [exact E0 |]]. specialize (Hi "3"%string).
    rewrite Hn in Hi. exact Hi.
Defined.

Lemma rendering_adds_no_markup_witness :
  (Templates.occurrences "<" (chars (Renderer.render_template "<p>{{ x }}</p>" [("x", PText "<script>")]%string true)) <= 2)%nat.
Proof.
  refine (Templates.rendering_adds_no_markup "<p>{{ x }}</p>" [("x", PText "<script>")]%string "<" _).
  apply list_elem_of_here.
Defined.

Lemma quiet_hours_are_cyclic_witness :
  Preferences.is_within_quiet_hours
    (edited {| pe_in_app := None; pe_email := None; pe_immediate := None; pe_daily := None; pe_weekly := None;
               pe_start := Some (Some "22:00"%string); pe_end := Some (Some "7"%string); pe_timezone := None;
               pe_price := None; pe_stock := None; pe_freshness := None; pe_marketing := None |} mail_on (second 0))
    (Datetime (23 * 3600000000) true) = Some true.
Proof.
  refine (Quiet.quiet_hours_are_cyclic _ (Datetime (23 * 3600000000) true) "22:00" "7" (22 * 3600000000) (7 * 3600000000)
    _ _ _ _ _ _); vm_compute; reflexivity.
Defined.
