(* ===== verification/FloatOps.v ===== *)
(** What the scoring engines use of Python's numbers and texts: [min], [max],
    [sum], [math.fsum] and [statistics.fmean] on [float], [round], the format
    with thousands separators, [str.title]; and the bounds that clamping and
    rounding keep.

    [sum] of floats is the compensated summation of CPython 3.12 and [fsum] its
    list of partial sums, both translated from their algorithms. *)

From Stdlib Require Import SpecFloat.
From S2P Require Import Prelude PyStr Clock Float.
Import PyFloat.
#[local] Open Scope Z_scope.
#[local] Open Scope py_scope.

Module FloatOps.

Inductive arith_error := OverflowError (message : string) | ValueError (message : string).

#[global] Instance arith_error_eq_dec : EqDecision arith_error.
Proof. solve_decision. Defined.

(** ** Signs and comparisons *)

Definition f_opp : float -> float := SFopp.
Definition f_abs : float -> float := SFabs.
Definition is_finite (x : float) : bool :=
  match x with S754_zero _ | S754_finite _ _ _ => true | _ => false end.
Definition is_inf (x : float) : bool := match x with S754_infinity _ => true | _ => false end.
Definition is_nan (x : float) : bool := match x with S754_nan => true | _ => false end.

(** [min(a, b)] and [max(a, b)]: the first argument unless the second is
    strictly better, which no NaN is. *)
Definition py_min (a b : float) : float := if f_ltb b a then b else a.
Definition py_max (a b : float) : float := if f_ltb a b then b else a.

(** [max(low, min(high, value))]. *)
Definition clamp (low high value : float) : float := py_max low (py_min high value).

(** [min(items)], [max(items)] of a list that is not empty. *)
Definition list_min (x : float) (r : list float) : float := fold_left py_min r x.
Definition list_max (x : float) (r : list float) : float := fold_left py_max r x.

(** ** Sums *)

(** [sum(items)], with its running compensation [c]. *)
Definition sum_step (st : float * float) (x : float) : float * float :=
  let '(total, c) := st in
  let t := f_add total x in
  (t, f_add c (if f_leb (f_abs x) (f_abs total)
               then f_add (f_sub total t) x else f_add (f_sub x t) total)).
Definition py_sum (items : list float) : float :=
  match items with
  | [] => f_zero
  | x :: r => let '(total, c) := fold_left sum_step r (f_add f_zero x, f_zero) in
              if f_truthy c && is_finite c then f_add total c else total
  end.

(** The rounded sum of two numbers and what rounding lost. *)
Definition two_sum (x y : float) : float * float :=
  let '(x, y) := if f_ltb (f_abs x) (f_abs y) then (y, x) else (x, y) in
  let hi := f_add x y in (hi, f_sub y (f_sub hi x)).

(** [x] added to the partial sums, the small ones first; the last is new. *)
Fixpoint fsum_grow (x : float) (partials : list float) : list float * float :=
  match partials with
  | [] => ([], x)
  | y :: r =>
      let '(hi, lo) := two_sum x y in
      let '(kept, top) := fsum_grow hi r in
      (if f_truthy lo then lo :: kept else kept, top)
  end.

Record fsum_state := FsumState { partials : list float; special_sum : float; inf_sum : float }.

Definition fsum_step (st : fsum_state) (x : float) : result arith_error fsum_state :=
  let '(kept, top) := fsum_grow x (partials st) in
  if negb (f_truthy top) then Ok (FsumState kept (special_sum st) (inf_sum st))
  else if is_finite top then Ok (FsumState (kept ++ [top]) (special_sum st) (inf_sum st))
  else if is_finite x then Err (OverflowError "intermediate overflow in fsum")
  else Ok (FsumState [] (f_add (special_sum st) x)
             (if is_inf x then f_add (inf_sum st) x else inf_sum st)).

(** The partial sums from the largest down, until one is inexact. *)
Fixpoint fsum_top (hi : float) (down : list float) : float :=
  match down with
  | [] => hi
  | y :: r =>
      let hi' := f_add hi y in
      let lo := f_sub y (f_sub hi' hi) in
      if negb (f_truthy lo) then fsum_top hi' r
      else match r with
           | [] => hi'
           | p :: _ =>
               if (f_ltb lo f_zero && f_ltb p f_zero) || (f_ltb f_zero lo && f_ltb f_zero p)
               then let y2 := f_mul lo (of_Z 2) in
                    let x := f_add hi' y2 in
                    if f_eqb y2 (f_sub x hi') then x else hi'
               else hi'
           end
  end.

Fixpoint fsum_steps (items : list float) (st : fsum_state) : result arith_error fsum_state :=
  match items with
  | [] => Ok st
  | x :: r => let! st' := fsum_step st x in fsum_steps r st'
  end.

Definition fsum (items : list float) : result arith_error float :=
  let! st := fsum_steps items (FsumState [] f_zero f_zero) in
  if f_truthy (special_sum st) then
    raise! ValueError "-inf + inf in fsum" when is_nan (inf_sum st) in Ok (special_sum st)
  else match rev (partials st) with [] => Ok f_zero | hi :: down => Ok (fsum_top hi down) end.

(** [statistics.fmean], of a list that is not empty. *)
Definition fmean (items : list float) : result arith_error float :=
  let! total := fsum items in Ok (f_div total (of_Z (Z.of_nat (length items)))).

Example sums :
  (repr (py_sum [of_ratio 35 100; of_ratio 2 10; of_ratio 1 10; of_ratio 1 10; of_ratio 1 10; of_ratio 1 10;
                 of_ratio 5 100]),
   (fun x => repr x) <$> match fsum (repeat (of_ratio 1 10) 10) with Ok x => Some x | Err _ => None end,
   match fsum [of_Z (2 ^ 60); of_Z 1; f_opp (of_Z (2 ^ 60))] with Ok x => repr x | Err _ => "" end,
   match fsum [S754_infinity false; S754_infinity true] with Ok x => repr x | Err _ => "raised" end,
   match fmean [of_ratio 7499900 100; of_Z 71999; of_ratio 1 10] with Ok x => repr x | Err _ => "" end)
  = ("1.0", Some "1.0", "1.0", "raised", "48999.36666666667")%string.
Proof. vm_compute. reflexivity. Qed.

(** ** Texts *)

(** [round(x)]. *)
Definition py_round (x : float) : result arith_error Z :=
  match x with
  | S754_nan => Err (ValueError "cannot convert float NaN to integer")
  | S754_infinity _ => Err (OverflowError "cannot convert float infinity to integer")
  | S754_zero _ => Ok 0
  | S754_finite s m e =>
      let '(num, den) := magnitude m e in
      Ok (let q := Float64.rne num den in if s then - q else q)
  end.

(** Digits, the last first, in groups of three. *)
Fixpoint grouped_rev (l : list ascii) : list ascii :=
  match l with
  | a :: b :: c :: ((_ :: _) as r) => a :: b :: c :: ","%char :: grouped_rev r
  | _ => l
  end.
Definition grouped (s : string) : string := of_chars (rev (grouped_rev (rev (chars s)))).

(** [f"{x:,.nf}"]. *)
Definition fixed_commas (n : Z) (x : float) : string :=
  match x with
  | S754_finite s _ _ =>
      let t := fixed n (f_abs x) in
      minus s (grouped (before "." t) +:+ (if has_char "." t then "." +:+ after "." t else ""))
  | _ => fixed n x
  end.

Definition is_letter (c : ascii) : bool := is_ascii_upper c || is_ascii_lower c.

(** [s.title()]: the first letter of every run of letters is a capital. *)
Fixpoint title_chars (cased : bool) (l : list ascii) : list ascii :=
  match l with
  | [] => []
  | c :: r => (if cased then lower_char c else upper_char c) :: title_chars (is_letter c) r
  end.
Definition title (s : string) : string := of_chars (title_chars false (chars s)).

Example texts :
  (fixed_commas 2 (of_ratio 123456789 100), fixed_commas 0 (of_Z 1000), fixed_commas 0 (of_Z (-999)),
   title "shopee mall ph2go", fixed_commas 2 (of_ratio (-12345) 10))
  = ("1,234,567.89", "1,000", "-999", "Shopee Mall Ph2Go", "-1,234.50")%string.
Proof. vm_compute. reflexivity. Qed.

(** ** Bounds *)

(** A mantissa of at most 53 bits. *)
Definition short (x : float) : Prop :=
  match x with S754_finite _ m _ => Z.pos m < 2 ^ 53 | _ => True end.

Lemma digits2_bound p : 2 ^ (Z.pos (digits2_pos p) - 1) <= Z.pos p < 2 ^ Z.pos (digits2_pos p).
Proof.
  induction p as [p IH | p IH |]; simpl digits2_pos; [| | split; [done | reflexivity]].
  all: rewrite Pos2Z.inj_succ; replace (Z.succ (Z.pos (digits2_pos p)) - 1) with (Z.pos (digits2_pos p)) by lia;
    rewrite Z.pow_succ_r by lia;
    replace (2 ^ Z.pos (digits2_pos p)) with (2 * 2 ^ (Z.pos (digits2_pos p) - 1)) in *
      by (rewrite <- Z.pow_succ_r by lia; f_equal; lia); lia.
Qed.

Lemma digits2_le p k : 0 <= k -> Z.pos (digits2_pos p) <= k -> Z.pos p < 2 ^ k.
Proof.
  intros Hk Hd. pose proof (digits2_bound p).
  assert (2 ^ Z.pos (digits2_pos p) <= 2 ^ k) by (apply Z.pow_le_mono_r; lia). lia.
Qed.

Lemma shr_1_bound r k : 0 <= shr_m r < 2 ^ (k + 1) -> 0 <= k -> 0 <= shr_m (shr_1 r) < 2 ^ k.
Proof.
  destruct r as [[|[p|p|]|[p|p|]] b s]; simpl shr_m; intros H Hk;
    rewrite Z.pow_add_r in H by lia; lia.
Qed.

Lemma shr_pos_bound p : forall r k, 0 <= shr_m r < 2 ^ (k + Z.pos p) -> 0 <= k ->
  0 <= shr_m (SpecFloat.iter_pos shr_1 p r) < 2 ^ k.
Proof.
  induction p as [p IH | p IH |]; intros r k H Hk; simpl.
  - apply IH; [| done]. apply IH; [| lia]. apply shr_1_bound; [| lia].
    by replace (k + Z.pos p + Z.pos p + 1) with (k + Z.pos p~1) by lia.
  - apply IH; [| done]. apply IH; [| lia].
    by replace (k + Z.pos p + Z.pos p) with (k + Z.pos p~0) by lia.
  - by apply shr_1_bound.
Qed.

Lemma shr_m_of_loc m l : shr_m (shr_record_of_loc m l) = m.
Proof. by destruct l as [|[]]. Qed.

(** Rounding to the format leaves at most 53 bits. *)
Lemma shr_fexp_bound m e l : 0 <= m -> 0 <= shr_m (shr_fexp 53 1024 m e l).1 < 2 ^ 53.
Proof.
  intros Hm. unfold shr_fexp, shr.
  assert (m < 2 ^ (Z.max 53 (53 + (fexp 53 1024 (Zdigits2 m + e) - e)))) as Hb.
  { destruct m as [|p|p]; [apply Z.pow_pos_nonneg; lia | | lia].
    apply digits2_le; [lia |]. cbn [Zdigits2]. unfold fexp. lia. }
  destruct (fexp _ _ _ - e) as [|p|p] eqn:E; cbn [fst]; rewrite ?shr_m_of_loc.
  - by replace (Z.max 53 (53 + 0)) with 53 in Hb by lia.
  - apply shr_pos_bound; [| lia]. rewrite shr_m_of_loc. split; [done |].
    by replace (Z.max 53 (53 + Z.pos p)) with (53 + Z.pos p) in Hb by lia.
  - by replace (Z.max 53 (53 + Z.neg p)) with 53 in Hb by lia.
Qed.

Lemma round_aux_short s m e l : 0 <= m -> short (binary_round_aux 53 1024 s m e l).
Proof.
  intros Hm. unfold binary_round_aux.
  destruct (shr_fexp 53 1024 m e l) as [r e'] eqn:E1.
  destruct (shr_fexp 53 1024 (round_nearest_even _ _) e' loc_Exact) as [r2 e2] eqn:E2.
  pose proof (shr_fexp_bound m e l Hm) as H1. rewrite E1 in H1. cbn [fst] in H1.
  assert (0 <= round_nearest_even (shr_m r) (loc_of_shr_record r)) as Hr.
  { unfold round_nearest_even. destruct (loc_of_shr_record r) as [|[]]; [lia | | lia | lia].
    destruct (Z.even _); lia. }
  pose proof (shr_fexp_bound _ e' loc_Exact Hr) as H2. rewrite E2 in H2. cbn [fst] in H2.
  destruct (shr_m r2); [done | | done]. destruct (_ <=? _); simpl; lia.
Qed.

Lemma normalize_short m e z : short (binary_normalize 53 1024 m e z).
Proof.
  destruct m as [|p|p]; [done | |]; unfold binary_normalize, binary_round;
    destruct (shl_align _ _ _) as [mz ez]; by apply round_aux_short.
Qed.

Lemma f_mul_short x y : short (f_mul x y).
Proof. destruct x, y; try done. by apply round_aux_short. Qed.

Lemma f_add_short x y : short x -> short y -> short (f_add x y).
Proof. destruct x as [[]|[]| |], y as [[]|[]| |]; try done. intros _ _. apply normalize_short. Qed.

Lemma f_sub_short x y : short x -> short y -> short (f_sub x y).
Proof. destruct x as [[]|[]| |], y as [[]|[]| |]; try done. intros _ _. apply normalize_short. Qed.

Lemma f_div_short x y : short (f_div x y).
Proof.
  destruct x as [| | |sx mx ex], y as [| | |sy my ey]; try done. unfold f_div, SFdiv, SFdiv_core_binary.
  match goal with |- context [Z.div_eucl ?a ?b] =>
    pose proof (Z.div_pos a b ltac:(destruct (_ - _); [lia | by apply Z.shiftl_nonneg | lia]) ltac:(lia)) as Hq;
    unfold Z.div in Hq; destruct (Z.div_eucl a b) as [q r] end.
  by apply round_aux_short.
Qed.

Lemma f_leb_refl x : is_nan x = false -> f_leb x x = true.
Proof.
  destruct x as [[]|[]| |[] m e]; try done; intros _; unfold f_leb, SFleb, SFcompare;
    rewrite Z.compare_refl; change (Pos.compare_cont Eq m m) with (Pos.compare m m);
    by rewrite Pos.compare_refl.
Qed.

(** A clamped value is between its bounds, even when it was NaN. *)
Lemma clamp_within low high v :
  f_leb low high = true -> f_leb low (clamp low high v) = true /\ f_leb (clamp low high v) high = true.
Proof.
  intros Hlh.
  assert (is_nan low = false /\ is_nan high = false) as [Hl Hh]
    by (destruct low as [[]|[]| |[]], high as [[]|[]| |[]]; done).
  assert (f_leb (py_min high v) high = true) as Hm.
  { unfold py_min. destruct (f_ltb v high) eqn:E; [by apply ltb_leb | by apply f_leb_refl]. }
  unfold clamp, py_max. destruct (f_ltb low (py_min high v)) eqn:E.
  - split; [by apply ltb_leb | done].
  - split; [by apply f_leb_refl | done].
Qed.

Lemma clamp_short low high v : short low -> short high -> short v -> short (clamp low high v).
Proof. unfold clamp, py_max, py_min. intros. by repeat destruct (f_ltb _ _). Qed.

(** Numbers of a normal bound's size compare as their values. *)
Lemma leb_magnitude m e mb k :
  Z.pos m < 2 ^ 53 -> 2 ^ 52 <= Z.pos mb -> 0 < k ->
  f_leb (S754_finite false m e) (S754_finite false mb (- k)) = true ->
  e <= - k /\ Z.pos m * 2 ^ k <= Z.pos mb * 2 ^ (- e).
Proof.
  intros Hm Hb Hk. unfold f_leb, SFleb, SFcompare.
  change (Pos.compare_cont Eq m mb) with (Pos.compare m mb).
  destruct (Z.compare_spec e (- k)) as [-> | He | He]; [| | done].
  - rewrite Z.opp_involutive. destruct (Pos.compare_spec m mb) as [-> | |]; [| | done]; intros _;
      (split; [lia |]); [done |]. apply Z.mul_le_mono_nonneg_r; [apply Z.pow_nonneg |]; lia.
  - intros _. split; [lia |]. replace (- e) with (k + (- e - k)) by lia.
    rewrite Z.pow_add_r by lia.
    assert (2 ^ 1 <= 2 ^ (- e - k)) by (apply Z.pow_le_mono_r; lia).
    replace (Z.pos mb * (2 ^ k * 2 ^ (- e - k))) with (Z.pos mb * 2 ^ (- e - k) * 2 ^ k) by ring.
    apply Z.mul_le_mono_nonneg_r; [apply Z.pow_nonneg; lia | nia].
Qed.

(** *** Rounding within a scale *)
Section Scale.
Context (n top : Z) (mb : positive) (k : Z).
Context (Hn : 0 <= n) (Htop : 0 <= top) (Hk : 0 < k) (Hmb : 2 ^ 52 <= Z.pos mb)
        (Hvalue : Z.pos mb = top * 2 ^ k).
Let bound := S754_finite false mb (- k).

(** Rounding gives zero or a decimal of [n] places below the bound. *)
Lemma round_to_grid x :
  short x -> f_leb f_zero x = true -> f_leb x bound = true ->
  (exists s, round_to n x = S754_zero s)
  \/ exists q, 1 <= q <= top * 10 ^ n /\ round_to n x = of_ratio q (10 ^ n).
Proof.
  intros Hs H0 Hb. destruct x as [s|[]| |[] m e]; try done; [left; by exists s |].
  destruct (leb_magnitude m e mb k Hs Hmb Hk Hb) as [He Hv]. simpl.
  unfold magnitude. destruct (0 <=? e) eqn:E; bool_simpl; [lia |].
  set (q := Float64.rne (Z.pos m * 10 ^ n) (2 ^ (- e))).
  assert (0 < 2 ^ (- e)) by (apply Z.pow_pos_nonneg; lia).
  assert (0 <= q) by (apply Float64.rne_ge; [done |]; rewrite Z.mul_0_r; lia).
  assert (q <= top * 10 ^ n) as Hq.
  { apply Float64.rne_le; [done |]. rewrite Hvalue in Hv.
    assert (0 < 2 ^ k) by (apply Z.pow_pos_nonneg; lia).
    assert (Z.pos m <= top * 2 ^ (- e)) by nia.
    assert (0 < 10 ^ n) by (apply Z.pow_pos_nonneg; lia). nia. }
  destruct (q =? 0) eqn:Eq; [left; by eexists |]. bool_simpl. right. exists q. split; [lia | done].
Qed.

(** What holds of every decimal of [n] places between 0 and the bound. *)
Definition on_grid (p : float -> bool) : bool :=
  forallb (fun q => p (of_ratio q (10 ^ n))) (seqZ 1 (top * 10 ^ n)).

Lemma rounded_on_grid p x :
  on_grid p = true -> p (S754_zero false) = true -> p (S754_zero true) = true ->
  short x -> f_leb f_zero x = true -> f_leb x bound = true -> p (round_to n x) = true.
Proof.
  unfold on_grid. rewrite forallb_forall. intros Hp Hz Hz' Hs H0 Hb.
  destruct (round_to_grid x Hs H0 Hb) as [[[] ->] | (q & Hq & ->)]; [done | done |].
  apply Hp, list_elem_of_In, elem_of_seqZ. lia.
Qed.
End Scale.

Definition hundred : float := of_Z 100.
Definition one : float := of_Z 1.

Lemma round_1_within x :
  short x -> f_leb f_zero x = true -> f_leb x hundred = true ->
  f_leb f_zero (round_to 1 x) = true /\ f_leb (round_to 1 x) hundred = true.
Proof.
  intros Hs H0 H1. apply andb_prop.
  by apply (rounded_on_grid 1 100 (100 * 2 ^ 46) 46) with (p := fun r => f_leb f_zero r && f_leb r hundred).
Qed.

Lemma round_2_within x :
  short x -> f_leb f_zero x = true -> f_leb x one = true ->
  f_leb f_zero (round_to 2 x) = true /\ f_leb (round_to 2 x) one = true.
Proof.
  intros Hs H0 H1. apply andb_prop.
  by apply (rounded_on_grid 2 1 (2 ^ 52) 52) with (p := fun r => f_leb f_zero r && f_leb r one).
Qed.

(** Rounding to cents a second time changes nothing. *)
Lemma round_2_again x :
  short x -> f_leb f_zero x = true -> f_leb x one = true -> round_to 2 (round_to 2 x) = round_to 2 x.
Proof.
  intros Hs H0 H1. set (p := fun r => if float_eq_dec (round_to 2 r) r then true else false).
  assert (p (round_to 2 x) = true) as Hp by by apply (rounded_on_grid 2 1 (2 ^ 52) 52) with (p := p).
  unfold p in Hp. by destruct (float_eq_dec _ _).
Qed.

End FloatOps.
