(* ===== verification/DealScore.v ===== *)
(** DealScore: the entities ([app/domain/entities/deal_score.py],
    [marketplace_listing.py]), the weighted engine
    ([app/intelligence/dealscore/engine.py]) and the enrichment of marketplace
    listings ([app/intelligence/dealscore/enrichment.py]). [ScoreSafety] has the
    theorems.

    A price, a cost or a rating is any [float], NaN and infinities included. The
    rows are sorted by insertion, which gives what Python's sort gives when no
    total cost is NaN. *)

From Stdlib Require Import SpecFloat.
From S2P Require Import Prelude PyStr PyState Clock Float Password FloatOps.
Import PyFloat FloatOps.
#[local] Open Scope Z_scope.
#[local] Open Scope py_scope.

Module Listings.

Inductive AvailabilityStatus := IN_STOCK | OUT_OF_STOCK | LIMITED | UNKNOWN.

#[global] Instance availability_eq_dec : EqDecision AvailabilityStatus.
Proof. solve_decision. Defined.

Record MarketplaceListing := {
  ml_marketplace : string;
  ml_product_id : string;
  ml_title : string;
  ml_price : float;
  ml_currency : string;
  ml_seller : string;
  ml_rating : option float;
  ml_url : string;
  ml_availability : AvailabilityStatus;
}.

Inductive DealRating := EXCELLENT | VERY_GOOD | GOOD | FAIR | POOR.

#[global] Instance deal_rating_eq_dec : EqDecision DealRating.
Proof. solve_decision. Defined.

Record DealScoreComponents := {
  price_score : float;
  seller_score : float;
  shipping_score : float;
  availability_score : float;
  official_store_score : float;
  warranty_score : float;
  return_policy_score : float;
}.

Record DealListingAttributes := Attributes {
  shipping_cost : option float;
  is_official_store : option bool;
  warranty_months : option Z;
  return_policy_days : option Z;
}.

(** The four optional attributes are kept as one record. *)
Record ScoreableListing := {
  listing_id : string;
  marketplace : string;
  title_text : string;
  price : float;
  currency : string;
  seller : string;
  seller_rating : option float;
  url : string;
  availability : AvailabilityStatus;
  attributes : DealListingAttributes;
  source_listing : option MarketplaceListing;
}.

Definition total_cost (l : ScoreableListing) : option float :=
  if f_ltb (price l) f_zero then None
  else match shipping_cost (attributes l) with
       | None => None
       | Some shipping =>
           if f_ltb shipping f_zero then None
           else Some (round_to 2 (f_add (price l) shipping))
       end.

Record DealScore := {
  ds_listing_id : string;
  ds_marketplace : string;
  score : float;
  rating : DealRating;
  rank_of : Z;
  ds_total_cost : float;
  components : DealScoreComponents;
  explanation : list string;
  ds_warnings : list string;
  applied_weights : dict float;
}.

Record ListingEvaluation := {
  ev_listing : MarketplaceListing;
  ev_attributes : DealListingAttributes;
  deal_score : DealScore;
}.

Record RankingResult := {
  rr_query : string;
  rr_currency : string;
  market_average_total_cost : float;
  recommended_listing_id : option string;
  evaluations : list ListingEvaluation;
}.

Definition ev_id (e : ListingEvaluation) : string := ds_listing_id (deal_score e).
Definition ev_cost (e : ListingEvaluation) : float := ds_total_cost (deal_score e).
Definition ev_score (e : ListingEvaluation) : float := score (deal_score e).

(** [RankingResult.recommended]. *)
Definition recommended (r : RankingResult) : option ListingEvaluation :=
  match recommended_listing_id r with
  | None => None
  | Some id => List.find (fun e => bool_decide (ev_id e = id)) (evaluations r)
  end.

Definition rating_for_score (s : float) : DealRating :=
  if f_leb (of_Z 90) s then EXCELLENT
  else if f_leb (of_Z 80) s then VERY_GOOD
  else if f_leb (of_Z 70) s then GOOD
  else if f_leb (of_Z 60) s then FAIR
  else POOR.

Inductive deal_error :=
| DealScoreValidationError (message : string)
| ArithmeticError (e : arith_error)
| KeyError (key : string)
| RuntimeError (message : string).

#[global] Instance deal_error_eq_dec : EqDecision deal_error.
Proof. solve_decision. Defined.

Definition lift_arith {A} (r : result arith_error A) : result deal_error A :=
  match r with Ok a => Ok a | Err e => Err (ArithmeticError e) end.
End Listings.
Import Listings.

(** ** The engine *)
Module Engine.

Definition DEFAULT_WEIGHTS : dict float :=
  [("price", of_ratio 35 100); ("seller", of_ratio 20 100); ("shipping", of_ratio 10 100);
   ("availability", of_ratio 10 100); ("official_store", of_ratio 10 100); ("warranty", of_ratio 10 100);
   ("return_policy", of_ratio 5 100)]%string.

Definition missing_component_score : float := of_Z 40.
Definition seller_rating_max : float := of_Z 5.

Definition round_score (x : float) : float := round_to 1 x.
Definition clamp_score (x : float) : float := clamp f_zero hundred x.

(** [WeightedDealScoreEngine(weights)]: the weights the engine keeps. *)
Definition make_engine (weights : option (dict float)) : result deal_error (dict float) :=
  let resolved := match weights with Some ((_ :: _) as w) => w | _ => DEFAULT_WEIGHTS end in
  let total := py_sum (map snd resolved) in
  raise! ArithmeticError (ValueError ("DealScore weights must total 1.0; got " +:+ repr total))
    when f_ltb (of_ratio 1 (10 ^ 9)) (f_abs (f_sub total one)) in
  Ok resolved.

(** A component's score, its notes and its warnings. *)
Definition scored : Type := float * list string * list string.

Definition _price_score (l : ScoreableListing) (peer_costs : list float) (market_average : float) : scored :=
  if f_ltb (price l) f_zero then (f_zero, [], [])
  else match total_cost l with
  | None => (missing_component_score, [], ["Price competitiveness used an incomplete total cost."%string])
  | Some cost =>
      match peer_costs with
      | p :: r =>
          if f_leb market_average f_zero then
            (missing_component_score, [],
             ["No valid peer total costs were available for price comparison."%string])
          else
            let min_cost := list_min p r in
            let max_cost := list_max p r in
            let pct := f_mul (f_div (f_sub market_average cost) market_average) hundred in
            let '(s, notes) :=
              if f_eqb max_cost min_cost
              then (hundred, ["Total cost matches the other listings in this result set."%string])
              else (clamp_score (f_add (of_Z 80) (f_mul pct (of_Z 2))), []) in
            (s, notes ++
               [if f_ltb (f_abs pct) (of_ratio 5 100) then "Total cost is in line with the market average."%string
                else if f_ltb f_zero pct
                then "Total cost is " +:+ fixed 1 pct +:+ "% below the market average."
                else "Total cost is " +:+ fixed 1 (f_abs pct) +:+ "% above the market average."], [])
      | [] => (missing_component_score, [],
               ["No valid peer total costs were available for price comparison."%string])
      end
  end.

Definition _seller_score (l : ScoreableListing) : scored :=
  match seller_rating l with
  | None => (missing_component_score, [], ["Seller rating is missing; seller score was reduced."%string])
  | Some r =>
      if f_ltb r f_zero || f_ltb seller_rating_max r then
        (missing_component_score, [],
         ["Seller rating " +:+ repr r +:+ " is outside the valid range "
          +:+ repr f_zero +:+ "-" +:+ repr seller_rating_max +:+ "; seller score was reduced."])
      else
        (clamp_score (f_mul (f_div r seller_rating_max) hundred),
         [if f_leb (of_ratio 45 10) r then "The seller has a strong marketplace rating."%string
          else if f_leb (of_Z 4) r then "The seller has a solid marketplace rating."%string
          else if f_leb (of_Z 3) r then "The seller has an average marketplace rating."%string
          else "The seller has a weak marketplace rating."%string], [])
  end.

Definition _shipping_score (l : ScoreableListing) : scored :=
  match shipping_cost (attributes l) with
  | None => (missing_component_score, [], ["Shipping cost is missing; shipping score was reduced."%string])
  | Some shipping =>
      if f_ltb shipping f_zero then (f_zero, [], [])
      else if f_eqb shipping f_zero then (hundred, ["Shipping is free."%string], [])
      else
        (if f_ltb f_zero (price l)
         then let burden := f_mul (f_div shipping (price l)) hundred in
              clamp_score (f_sub hundred (f_mul burden (of_Z 4)))
         else clamp_score (f_sub hundred (f_div shipping (of_Z 25))),
         ["Shipping costs " +:+ fixed 2 shipping +:+ " " +:+ currency l +:+ "."], [])
  end.

Definition _availability_score (l : ScoreableListing) : scored :=
  match availability l with
  | IN_STOCK => (hundred, ["The product is currently in stock."%string], [])
  | LIMITED => (of_Z 70, ["Stock is limited."%string], [])
  | OUT_OF_STOCK => (f_zero, ["The product is out of stock."%string],
                     ["Listing is unavailable (out of stock)."%string])
  | UNKNOWN => (missing_component_score, [],
                ["Availability is unknown; availability score was reduced."%string])
  end.

Definition _official_store_score (l : ScoreableListing) : scored :=
  match is_official_store (attributes l) with
  | None => (missing_component_score, [], ["Official store status is unknown; score was reduced."%string])
  | Some true => (hundred, ["Sold by an official or authorized store."%string], [])
  | Some false => (of_Z 45, ["Sold by a non-official marketplace seller."%string], [])
  end.

Definition _warranty_score (l : ScoreableListing) : scored :=
  match warranty_months (attributes l) with
  | None => (missing_component_score, [],
             ["Warranty information is missing; warranty score was reduced."%string])
  | Some months =>
      if months <? 0
      then (f_zero, [], ["Warranty months are invalid; warranty score was reduced."%string])
      else if 12 <=? months
      then (hundred, ["Includes a " +:+ Int.str_int months +:+ "-month warranty."], [])
      else if 6 <=? months
      then (of_Z 80, ["Includes a " +:+ Int.str_int months +:+ "-month warranty."], [])
      else if 0 <? months
      then (of_Z 55, ["Includes a short " +:+ Int.str_int months +:+ "-month warranty."], [])
      else (of_Z 20, [], ["No warranty is offered."%string])
  end.

Definition _return_policy_score (l : ScoreableListing) : scored :=
  match return_policy_days (attributes l) with
  | None => (missing_component_score, [],
             ["Return policy is missing; return policy score was reduced."%string])
  | Some days =>
      if days <? 0
      then (f_zero, [], ["Return policy days are invalid; return policy score was reduced."%string])
      else if 14 <=? days
      then (hundred, ["Offers a " +:+ Int.str_int days +:+ "-day return window."], [])
      else if 7 <=? days
      then (of_Z 75, ["Offers a " +:+ Int.str_int days +:+ "-day return window."], [])
      else if 0 <? days
      then (of_Z 50, ["Offers a short " +:+ Int.str_int days +:+ "-day return window."], [])
      else (of_Z 20, [], ["No return window is offered."%string])
  end.

Section Weighted.
Context (weights : dict float).

Definition weight (key : string) : result deal_error float :=
  match d_get key weights with Some w => Ok w | None => Err (KeyError key) end.

Definition weighted_score (c : DealScoreComponents) : result deal_error float :=
  let! wp := weight "price" in
  let! ws := weight "seller" in
  let! wh := weight "shipping" in
  let! wa := weight "availability" in
  let! wo := weight "official_store" in
  let! ww := weight "warranty" in
  let! wr := weight "return_policy" in
  Ok (f_add (f_add (f_add (f_add (f_add (f_add (f_mul (price_score c) wp) (f_mul (seller_score c) ws))
        (f_mul (shipping_score c) wh)) (f_mul (availability_score c) wa))
        (f_mul (official_store_score c) wo)) (f_mul (warranty_score c) ww))
        (f_mul (return_policy_score c) wr)).

Definition _score_listing (l : ScoreableListing) (peer_costs : list float) (market_average : float)
    (rank : Z) : result deal_error DealScore :=
  let '(ps, pn, pw) := _price_score l peer_costs market_average in
  let '(ss, sn, sw) := _seller_score l in
  let '(hs, hn, hw) := _shipping_score l in
  let '(vs, vn, vw) := _availability_score l in
  let '(os, on, ow) := _official_store_score l in
  let '(ws, wn, ww) := _warranty_score l in
  let '(rs, rn, rw) := _return_policy_score l in
  let warnings := pw ++ sw ++ hw ++ vw ++ ow ++ ww ++ rw
    ++ (if f_ltb (price l) f_zero
        then ["Listing price is negative and was treated as invalid."%string] else [])
    ++ (if match shipping_cost (attributes l) with Some c => f_ltb c f_zero | None => false end
        then ["Shipping cost is negative and was treated as invalid."%string] else []) in
  let components := {|
    price_score := round_score ps; seller_score := round_score ss; shipping_score := round_score hs;
    availability_score := round_score vs; official_store_score := round_score os;
    warranty_score := round_score ws; return_policy_score := round_score rs |} in
  let! weighted := weighted_score components in
  let score := round_score (clamp_score weighted) in
  let '(cost, warnings) := match total_cost l with
    | Some cost => (cost, warnings)
    | None => (round_to 2 (py_max (price l) f_zero),
               warnings ++ ["Total purchase cost could not include shipping; shipping data is missing or invalid."%string])
    end in
  Ok {| ds_listing_id := listing_id l; ds_marketplace := marketplace l; score := score;
        rating := rating_for_score score; rank_of := rank; ds_total_cost := cost;
        components := components; explanation := pn ++ sn ++ hn ++ vn ++ on ++ wn ++ rn;
        ds_warnings := dedupe_loop [] warnings; applied_weights := weights |}.

(** ** Ranking *)

Definition scored_listing : Type := ScoreableListing * DealScore.

(** The key: (unavailable, -score, total cost, listing id, marketplace). *)
Record sort_key := SortKey {
  k_unavailable : Z;
  k_score : float;
  k_cost : float;
  k_id : string;
  k_marketplace : string;
}.

Definition is_out_of_stock (a : AvailabilityStatus) : bool :=
  match a with OUT_OF_STOCK => true | _ => false end.

Definition _sort_key (item : scored_listing) : sort_key :=
  let '(l, s) := item in
  SortKey (if is_out_of_stock (availability l) then 1 else 0) (f_opp (score s))
    (match total_cost l with Some c => c | None => S754_infinity false end)
    (listing_id l) (marketplace l).

(** [a < b] of two keys as tuples: decided by the first position that differs. *)
Definition key_ltb (a b : sort_key) : bool :=
  if negb (k_unavailable a =? k_unavailable b) then k_unavailable a <? k_unavailable b
  else if negb (f_eqb (k_score a) (k_score b)) then f_ltb (k_score a) (k_score b)
  else if negb (f_eqb (k_cost a) (k_cost b)) then f_ltb (k_cost a) (k_cost b)
  else if negb (bool_decide (k_id a = k_id b)) then str_ltb (k_id a) (k_id b)
  else str_ltb (k_marketplace a) (k_marketplace b).

Definition with_rank (rank : Z) (s : DealScore) : DealScore :=
  {| ds_listing_id := ds_listing_id s; ds_marketplace := ds_marketplace s; score := score s;
     rating := rating s; rank_of := rank; ds_total_cost := ds_total_cost s;
     components := components s; explanation := explanation s; ds_warnings := ds_warnings s;
     applied_weights := applied_weights s |}.

(** [listing.source_listing or MarketplaceListing(...)]. *)
Definition source_of (l : ScoreableListing) : MarketplaceListing :=
  match source_listing l with
  | Some m => m
  | None => {| ml_marketplace := marketplace l; ml_product_id := listing_id l; ml_title := title_text l;
               ml_price := price l; ml_currency := currency l; ml_seller := seller l;
               ml_rating := seller_rating l; ml_url := url l; ml_availability := availability l |}
  end.

Definition evaluation_of (rank : Z) (item : scored_listing) : ListingEvaluation :=
  {| ev_listing := source_of item.1; ev_attributes := attributes item.1;
     deal_score := with_rank rank item.2 |}.

Fixpoint ranked (rank : Z) (items : list scored_listing) : list ListingEvaluation :=
  match items with
  | [] => []
  | item :: r => evaluation_of rank item :: ranked (rank + 1) r
  end.

Definition _pick_recommendation (evs : list ListingEvaluation) : option string :=
  ev_id <$> List.find (fun e => negb (is_out_of_stock (ml_availability (ev_listing e)))) evs.

Fixpoint score_all (ls : list ScoreableListing) (peer_costs : list float) (market_average : float)
    : result deal_error (list scored_listing) :=
  match ls with
  | [] => Ok []
  | l :: r =>
      let! s := _score_listing l peer_costs market_average 0 in
      let! rest := score_all r peer_costs market_average in
      Ok ((l, s) :: rest)
  end.

Definition peer_costs_of (ls : list ScoreableListing) : list float :=
  omap (fun l => if is_out_of_stock (availability l) then None else total_cost l) ls.

(** The currencies of the listings, each once. *)
Definition currencies_of (ls : list ScoreableListing) : list string :=
  dedupe_loop [] (map (fun l => upper (strip (currency l))) (List.filter (fun l => nonempty (currency l)) ls)).

Definition rank (query : string) (ls : list ScoreableListing) : result deal_error RankingResult :=
  match ls with
  | [] => Ok {| rr_query := strip query; rr_currency := ""; market_average_total_cost := f_zero;
                recommended_listing_id := None; evaluations := [] |}
  | _ :: _ =>
      let currencies := currencies_of ls in
      raise! DealScoreValidationError
          "One or more listings are missing a currency; DealScore cannot evaluate them."
        when existsb (fun l => negb (nonempty (strip (currency l)))) ls in
      raise! DealScoreValidationError
          ("Mixed currencies cannot be compared directly ("
           +:+ String.concat ", " (sorted str_ltb id currencies)
           +:+ "). Separate results by currency; no conversion is performed.")
        when (1 <? Z.of_nat (length currencies)) in
      let peer_costs := peer_costs_of ls in
      let! market_average := match peer_costs with
        | [] => Ok f_zero
        | _ :: _ => let! mean := lift_arith (fmean peer_costs) in Ok (round_to 2 mean)
        end in
      let! items := score_all ls peer_costs market_average in
      let evs := ranked 1 (sorted key_ltb _sort_key items) in
      Ok {| rr_query := strip query; rr_currency := default ""%string (head currencies);
            market_average_total_cost := market_average;
            recommended_listing_id := _pick_recommendation evs; evaluations := evs |}
  end.
End Weighted.
End Engine.
Import Engine.

(** ** Enrichment *)
Module Enrichment.

Definition attrs (shipping : Z) (official : bool) (months days : Z) : DealListingAttributes :=
  Attributes (Some (of_Z shipping)) (Some official) (Some months) (Some days).

(** Fixture rows by (marketplace, product id). *)
Definition MOCK_DEAL_ATTRIBUTES : list ((string * string) * DealListingAttributes) :=
  [(("shopee", "1001001"), attrs 0 true 12 7); (("shopee", "1001002"), attrs 150 true 12 7);
   (("shopee", "1001003"), attrs 0 false 6 7); (("shopee", "1001004"), attrs 0 true 12 14);
   (("shopee", "1001005"), attrs 0 true 12 7); (("lazada", "2002001"), attrs 0 true 12 14);
   (("lazada", "2002002"), attrs 99 true 12 7); (("lazada", "2002003"), attrs 0 false 6 7);
   (("lazada", "2002004"), attrs 0 true 12 14); (("lazada", "2002005"), attrs 0 true 12 14)]%string.

Definition official_hints : list string := ["official"; "authorized"; "flagship"; "lazmall"; "apple store"]%string.

Definition mock_row (l : MarketplaceListing) : option DealListingAttributes :=
  snd <$> List.find (fun row => bool_decide (row.1 = (lower (ml_marketplace l), ml_product_id l)))
            MOCK_DEAL_ATTRIBUTES.

Definition is_mock_fixture_enrichment (l : MarketplaceListing) : bool := is_some (mock_row l).

Definition infer_official_store (seller_name : string) : option bool :=
  let cleaned := lower (strip seller_name) in
  if nonempty cleaned then Some (existsb (fun hint => contains hint cleaned) official_hints) else None.

Definition resolve_deal_attributes (l : MarketplaceListing) : DealListingAttributes :=
  match mock_row l with
  | Some row => row
  | None => Attributes None (infer_official_store (ml_seller l)) None None
  end.

Definition to_scoreable_listing (l : MarketplaceListing) (given : option DealListingAttributes)
    : ScoreableListing :=
  {| listing_id := ml_product_id l; marketplace := ml_marketplace l; title_text := ml_title l;
     price := ml_price l; currency := ml_currency l; seller := ml_seller l;
     seller_rating := ml_rating l; url := ml_url l; availability := ml_availability l;
     attributes := match given with Some a => a | None => resolve_deal_attributes l end;
     source_listing := Some l |}.
End Enrichment.
Import Enrichment.

(** ** A basket for the runs *)
Module DealExamples.

Definition offer (market id : string) (cents : Z) (stars : option float) (a : AvailabilityStatus)
    : MarketplaceListing :=
  {| ml_marketplace := market; ml_product_id := id; ml_title := "Phone"; ml_price := of_ratio cents 100;
     ml_currency := "PHP"; ml_seller := "Apple Authorized PH"; ml_rating := stars;
     ml_url := "https://example.ph"; ml_availability := a |}.

Definition three_offers : list ScoreableListing :=
  map (fun l => to_scoreable_listing l None)
    [offer "shopee" "1001001" 7499900 (Some (of_ratio 49 10)) IN_STOCK;
     offer "lazada" "2002002" 7199900 (Some (of_ratio 46 10)) LIMITED;
     offer "shopee" "77" 6900000 None OUT_OF_STOCK].
End DealExamples.
