(* ===== verification/Recommend.v ===== *)
(** The rule-based recommendation engine
    ([app/intelligence/recommendation/engine.py], entities in
    [app/domain/entities/recommendation.py]): from a ranking to a purchase
    decision with its confidence, reasons, tradeoffs, warnings and alternatives.
    [AdviceSafety] has the theorems.

    The one-field dataclasses of tradeoffs and warnings are their texts. The
    peso sign stands as its UTF-8 bytes. *)

From Stdlib Require Import SpecFloat.
From S2P Require Import Prelude PyStr PyState Clock Float Password FloatOps DealScore.
Import PyFloat FloatOps Listings Engine.
#[local] Open Scope Z_scope.
#[local] Open Scope py_scope.

Module Advice.

Inductive PurchaseDecision := BUY | CONSIDER | WAIT | AVOID | INSUFFICIENT_INFORMATION.

#[global] Instance decision_eq_dec : EqDecision PurchaseDecision.
Proof. solve_decision. Defined.

Record RecommendationReason := Reason { reason_text : string; reason_rank : Z }.

Record AlternativeRecommendation := Alternative {
  alt_listing_id : string;
  alt_label : string;
  alt_reason : string;
}.

Record RecommendationConfidence := Confidence { conf_value : float; conf_factors : list string }.

Record Recommendation := {
  decision : PurchaseDecision;
  rec_listing_id : option string;
  headline : string;
  summary : string;
  reasoning : list RecommendationReason;
  tradeoffs : list string;
  rec_warnings : list string;
  confidence : RecommendationConfidence;
  alternatives : list AlternativeRecommendation;
}.
End Advice.
Import Advice.

(** ** The helpers of the engine *)
Module Rules.

Definition buy_score_min : float := of_Z 85.
Definition consider_score_min : float := of_Z 70.
Definition avoid_score_max : float := of_Z 60.
Definition buy_confidence_min : float := of_ratio 75 100.
Definition high_confidence : float := of_ratio 85 100.
Definition weak_price_score_max : float := of_Z 55.
Definition material_above_avg_pct : float := of_Z 10.
Definition missing_field_insufficient : Z := 4.

Definition critical_warning_fragments : list string :=
  ["negative and was treated as invalid"; "critical"; "safety"; "cannot be evaluated"]%string.

Definition forbidden_history_fragments : list string :=
  ["will fall"; "will drop"; "expected to fall"; "sale is expected"; "wait a few days"; "wait until";
   "historically high"; "historically low"; "price history"; "lowest in"; "highest in"]%string.

Definition quality_gain_labels : list ((DealScoreComponents -> float) * string) :=
  [(official_store_score, "official-store status"); (seller_score, "stronger seller protection");
   (warranty_score, "warranty"); (return_policy_score, "returns"); (shipping_score, "shipping");
   (availability_score, "availability")]%string.

(** Does some listed fragment occur in the text? *)
Definition mentions (fragments : list string) (t : string) : bool :=
  existsb (fun f => contains f t) fragments.

(** [x < y] of two tuples that start with these floats. *)
Definition f_then (x y : float) (rest : bool) : bool := if negb (f_eqb x y) then f_ltb x y else rest.
Definition z_then (x y : Z) (rest : bool) : bool := if negb (x =? y) then x <? y else rest.

(** [min(items, key=...)], [max(items, key=...)] of a list that is not empty. *)
Definition min_by {A} (lt : A -> A -> bool) (x : A) (r : list A) : A :=
  fold_left (fun best e => if lt e best then e else best) r x.
Definition max_by {A} (lt : A -> A -> bool) (x : A) (r : list A) : A :=
  fold_left (fun best e => if lt best e then e else best) r x.

(** The keys (total cost, id), (-score, total cost, id) and (value, -total
    cost, id). *)
Definition cost_lt (a b : ListingEvaluation) : bool :=
  f_then (ev_cost a) (ev_cost b) (str_ltb (ev_id a) (ev_id b)).
Definition best_lt (a b : ListingEvaluation) : bool :=
  f_then (f_opp (ev_score a)) (f_opp (ev_score b)) (cost_lt a b).
Definition dear_lt (a b : ListingEvaluation) : bool :=
  f_then (f_opp (ev_cost a)) (f_opp (ev_cost b)) (str_ltb (ev_id a) (ev_id b)).
Definition rating_lt (a b : ListingEvaluation) : bool :=
  let value e := default (of_Z (-1)) (ml_rating (ev_listing e)) in
  f_then (value a) (value b) (dear_lt a b).
Definition warranty_lt (a b : ListingEvaluation) : bool :=
  let value e := default (-1) (warranty_months (ev_attributes e)) in
  z_then (value a) (value b) (dear_lt a b).
Definition returns_lt (a b : ListingEvaluation) : bool :=
  let value e := default (-1) (return_policy_days (ev_attributes e)) in
  z_then (value a) (value b) (dear_lt a b).

Definition _is_available (e : ListingEvaluation) : bool :=
  negb (is_out_of_stock (ml_availability (ev_listing e))).
Definition _available_evaluations (evs : list ListingEvaluation) : list ListingEvaluation :=
  List.filter _is_available evs.

(** The available listings as a first one and the others: the code asks before
    that there is one. *)
Section Available.
Context (first : ListingEvaluation) (others : list ListingEvaluation).
Let available := first :: others.

Definition _select_recommended (ranking : RankingResult) : ListingEvaluation :=
  let fallback := default first (head (sorted best_lt id available)) in
  match recommended_listing_id ranking with
  | Some id =>
      if nonempty id
      then default fallback (List.find (fun e => bool_decide (ev_id e = id)) available)
      else fallback
  | None => fallback
  end.

Definition by_score : list ListingEvaluation := sorted f_ltb (fun e => f_opp (ev_score e)) available.

Definition _score_gap : float :=
  match by_score with
  | a :: b :: _ => round_to 1 (f_sub (ev_score a) (ev_score b))
  | _ => f_zero
  end.

Definition _tied_top_scores : bool :=
  match by_score with
  | a :: b :: _ => f_eqb (ev_score a) (ev_score b)
  | _ => false
  end.

Definition _tied_peer_ids (s : float) : list string :=
  map ev_id (List.filter (fun e => f_eqb (ev_score e) s) (sorted str_ltb ev_id available)).

Definition _cheapest : ListingEvaluation := min_by cost_lt first others.

Definition same_listing (a b : ListingEvaluation) : bool := bool_decide (ev_id a = ev_id b).

Definition _has_meaningful_tradeoffs (rec : ListingEvaluation) : bool :=
  if same_listing _cheapest rec then false
  else
    let cost_delta := f_sub (ev_cost rec) (ev_cost _cheapest) in
    let score_delta := f_sub (ev_score rec) (ev_score _cheapest) in
    if f_leb (of_Z 500) cost_delta && f_ltb score_delta (of_Z 3) then true
    else f_leb (of_Z 2000) cost_delta && f_ltb score_delta (of_Z 8).

Definition above_average (avg : float) (e : ListingEvaluation) : bool :=
  f_leb material_above_avg_pct (f_mul (f_div (f_sub (ev_cost e) avg) avg) hundred).

Definition incomplete_cost (e : ListingEvaluation) : bool :=
  existsb (fun w => contains "incomplete total cost" (lower w) || contains "shipping data is missing" (lower w))
    (ds_warnings (deal_score e)).

Definition _should_wait (ranking : RankingResult) : bool :=
  let avg := market_average_total_cost ranking in
  if forallb (fun e => f_ltb (price_score (components (deal_score e))) weak_price_score_max) available then true
  else if f_leb avg f_zero then true
  else
    let above := map (above_average avg) (List.filter (fun e => negb (f_leb (ev_cost e) f_zero)) available) in
    if match above with [] => false | _ :: _ => forallb id above end then true
    else forallb incomplete_cost available.
End Available.

Definition _missing_attribute_count (e : ListingEvaluation) : Z :=
  let one_if (b : bool) := if b then 0 else 1 in
  let a := ev_attributes e in
  one_if (is_some (ml_rating (ev_listing e))) + one_if (is_some (shipping_cost a))
  + one_if (is_some (is_official_store a)) + one_if (is_some (warranty_months a))
  + one_if (is_some (return_policy_days a)).

Definition _critical_warnings (e : ListingEvaluation) : bool :=
  existsb (fun w => mentions critical_warning_fragments (lower w)) (ds_warnings (deal_score e)).

(** The currencies of the listings, each once, blank ones left out. *)
Definition listing_currencies (evs : list ListingEvaluation) : list string :=
  dedupe_loop [] (List.filter nonempty (map (fun e => upper (strip (ml_currency (ev_listing e)))) evs)).

Definition _has_mixed_currency_signal (evs : list ListingEvaluation) : bool :=
  1 <? Z.of_nat (length (listing_currencies evs)).

(** *** Texts *)

Definition money (amount : float) (cur : string) : result deal_error string :=
  let code := upper (strip cur) in
  let! rounded := lift_arith (py_round amount) in
  let formatted :=
    if f_ltb (f_abs (f_sub amount (of_Z rounded))) (of_ratio 5 100)
    then fixed_commas 0 (of_Z rounded) else fixed_commas 2 amount in
  Ok (if bool_decide (code = "PHP"%string) then "₱" +:+ formatted
      else if nonempty code then formatted +:+ " " +:+ code else formatted).

Definition _format_score (s : float) : string := fixed 1 s.

Definition join (sep : string) (l : list string) : string := String.concat sep l.

(** ["a"], ["a, and b"], ["a, b, and c"]. *)
Definition oxford (l : list string) : string :=
  match rev l with
  | last :: ((_ :: _) as front) => join ", " (rev front) +:+ ", and " +:+ last
  | [last] => last
  | [] => ""
  end.

Definition _price_quality_tradeoff (rec cheaper : ListingEvaluation) (cur : string)
    : result deal_error (option string) :=
  let cost_delta := f_sub (ev_cost rec) (ev_cost cheaper) in
  let score_delta := f_sub (ev_score rec) (ev_score cheaper) in
  if f_leb cost_delta f_zero then Ok None
  else
    let gains := map snd (List.filter
      (fun gl => f_ltb (gl.1 (components (deal_score cheaper))) (gl.1 (components (deal_score rec))))
      quality_gain_labels) in
    let gain_clause := match gains with
      | [] => "stronger overall DealScore components"%string
      | _ => oxford gains
      end in
    let score_bit :=
      if f_ltb f_zero score_delta
      then "gains " +:+ _format_score score_delta +:+ " DealScore points"
      else "offers a stronger overall DealScore profile"%string in
    let! amount := money cost_delta cur in
    Ok (Some ("The recommended listing costs " +:+ amount +:+ " more than the cheapest option, but "
              +:+ score_bit +:+ " from " +:+ gain_clause +:+ ".")).

Definition _weaker_protection_note (e : ListingEvaluation) : string :=
  let a := ev_attributes e in
  let parts :=
    (if bool_decide (is_official_store a = Some false) then ["no official-store status"%string] else [])
    ++ (match ml_rating (ev_listing e) with
        | Some r => if f_ltb r (of_ratio 45 10) then ["a weaker seller rating"%string] else []
        | None => [] end)
    ++ (match warranty_months a with
        | Some m => if m <? 12 then ["shorter warranty"%string] else [] | None => [] end)
    ++ (match return_policy_days a with
        | Some d => if d <? 14 then ["a shorter return window"%string] else [] | None => [] end) in
  match parts with
  | [] => "has a weaker overall protection profile"
  | _ => "has " +:+ oxford parts
  end.

(** [text.replace("  ", " ")]. *)
Fixpoint single_spaced (l : list ascii) : list ascii :=
  match l with
  | " "%char :: (" "%char :: r) => " "%char :: single_spaced r
  | c :: r => c :: single_spaced r
  | [] => []
  end.
End Rules.
Import Rules.

(** ** The engine *)
Module Recommender.

(** The confidence so far and its factors. *)
Definition conf : Type := float * list string.
Definition plus (c : conf) (delta : float) (factor : string) : conf := (f_add c.1 delta, c.2 ++ [factor]).
Definition less (c : conf) (delta : float) (factor : string) : conf := (f_sub c.1 delta, c.2 ++ [factor]).
Definition cents (n : Z) : float := of_ratio n 100.

(** The paragraphs of [_compute_confidence]. *)
Definition count_bonus (n : Z) (c : conf) : conf :=
  if 4 <=? n then plus c (cents 18) "comparable_listings:4+"
  else if n =? 3 then plus c (cents 14) "comparable_listings:3"
  else if n =? 2 then plus c (cents 10) "comparable_listings:2"
  else plus c (cents 2) "comparable_listings:1".

Definition completeness_bonus (missing : Z) (c : conf) : conf :=
  let completeness := py_max f_zero (f_sub one (f_div (of_Z missing) (of_Z 5))) in
  plus c (f_mul (cents 16) completeness) ("completeness:" +:+ fixed 2 completeness).

Definition gap_bonus (gap : float) (c : conf) : conf :=
  if f_leb (of_Z 10) gap then plus c (cents 14) "score_gap:large"
  else if f_leb (of_Z 5) gap then plus c (cents 10) "score_gap:medium"
  else if f_leb one gap then plus c (cents 6) "score_gap:small"
  else if f_ltb f_zero gap then plus c (cents 2) "score_gap:tiny"
  else (c.1, c.2 ++ ["score_gap:tie"%string]).

Definition warning_change (warning_count : Z) (c : conf) : conf :=
  if warning_count =? 0 then plus c (cents 8) "warnings:none"
  else if warning_count <=? 2 then less c (cents 4) "warnings:few"
  else less c (cents 10) "warnings:many".

Definition currency_change (currencies : Z) (c : conf) : conf :=
  if currencies =? 1 then plus c (cents 6) "currency:consistent"
  else if 1 <? currencies then less c (cents 25) "currency:mixed" else c.

Definition average_change (average : float) (c : conf) : conf :=
  if f_leb average f_zero then less c (cents 8) "market_average:unavailable" else c.

Section Advise.
Context (ranking : RankingResult) (first : ListingEvaluation) (others : list ListingEvaluation).
Let available := first :: others.

Definition _compute_confidence (rec : ListingEvaluation) : RecommendationConfidence :=
  let c := average_change (market_average_total_cost ranking)
    (currency_change (Z.of_nat (length (listing_currencies available)))
      (warning_change (Z.of_nat (length (ds_warnings (deal_score rec))))
        (gap_bonus (_score_gap first others)
          (completeness_bonus (_missing_attribute_count rec)
            (count_bonus (Z.of_nat (length available)) (cents 42, [])))))) in
  Confidence (round_to 2 (clamp f_zero one c.1)) c.2.

Definition _decide (s confidence : float) (critical : bool) (rec : ListingEvaluation)
    (meaningful_tradeoffs noncritical_missing : bool) : PurchaseDecision :=
  if critical || f_ltb s avoid_score_max then AVOID
  else if _should_wait first others ranking then WAIT
  else
    let buy_eligible :=
      f_leb buy_score_min s && _is_available rec && negb critical && f_leb buy_confidence_min confidence
      && negb meaningful_tradeoffs && negb noncritical_missing in
    if buy_eligible then BUY
    else if f_leb consider_score_min s || meaningful_tradeoffs || noncritical_missing then CONSIDER
    else if f_ltb s avoid_score_max then AVOID
    else CONSIDER.

Definition _build_reasoning (rec : ListingEvaluation) (d : PurchaseDecision) (tied : bool) (cur : string)
    (confidence : float) : result deal_error (list string) :=
  let a := ev_attributes rec in
  let top :=
    if tied
    then "The top listings have effectively tied DealScores (" +:+ _format_score (ev_score rec)
         +:+ "); total cost and listing ID were used as deterministic tie-breakers among "
         +:+ join ", " (_tied_peer_ids first others (ev_score rec)) +:+ "."
    else "It has a DealScore of " +:+ _format_score (ev_score rec)
         +:+ ", the highest among the available listings." in
  let cheapest := _cheapest first others in
  let! costs :=
    if same_listing cheapest rec
    then Ok ["It also has the lowest total cost among available listings."%string]
    else
      let delta := f_sub (ev_cost rec) (ev_cost cheapest) in
      if f_ltb f_zero delta then
        let! amount := money delta cur in
        let! tradeoff := _price_quality_tradeoff rec cheapest cur in
        Ok (("Its total cost is " +:+ amount +:+ " higher than the cheapest listing.")
            :: match tradeoff with
               | Some t => if nonempty t then [t] else []
               | None => [] end)
      else if f_ltb delta f_zero then
        let! amount := money (f_abs delta) cur in
        Ok ["Its total cost is " +:+ amount +:+ " lower than the next compared option."]
      else Ok ["Its total cost matches the cheapest available listing."%string] in
  let! market :=
    let avg := market_average_total_cost ranking in
    if f_ltb f_zero avg then
      let diff_pct := f_mul (f_div (f_sub avg (ev_cost rec)) avg) hundred in
      if f_ltb (f_abs diff_pct) (of_ratio 5 10)
      then Ok ["Its total cost is in line with the market average for this set."%string]
      else if f_ltb f_zero diff_pct then
        let! amount := money avg cur in
        Ok ["Its total cost is " +:+ fixed 1 diff_pct +:+ "% below the market average (" +:+ amount +:+ ")."]
      else
        let! amount := money avg cur in
        Ok ["Its total cost is " +:+ fixed 1 (f_abs diff_pct) +:+ "% above the market average ("
            +:+ amount +:+ ")."]
    else Ok [] in
  let! shipping :=
    match shipping_cost a with
    | Some c =>
        if f_eqb c f_zero then Ok ["Shipping is free."%string]
        else if f_ltb f_zero c then
          let! amount := money c cur in
          Ok ["Shipping adds " +:+ amount +:+ " to the total cost."]
        else Ok []
    | None => Ok []
    end in
  let reasons := [top] ++ costs ++ market
    ++ (if bool_decide (is_official_store a = Some true)
        then ["It is sold by an official or authorized store."%string] else [])
    ++ (match ml_rating (ev_listing rec) with
        | Some r => if f_leb (of_ratio 45 10) r
                    then ["The seller rating is strong (" +:+ fixed 2 r +:+ "/5)."] else []
        | None => [] end)
    ++ shipping
    ++ (match warranty_months a with
        | Some m => if 12 <=? m then ["Warranty coverage is " +:+ Int.str_int m +:+ " months."] else []
        | None => [] end)
    ++ (match return_policy_days a with
        | Some d => if 14 <=? d then ["Return policy allows " +:+ Int.str_int d +:+ " days."] else []
        | None => [] end)
    ++ (if bool_decide (d = WAIT)
        then ["Price competitiveness across available listings is weak enough that an immediate purchase looks unattractive based on current DealScore data."%string]
        else [])
    ++ (if bool_decide (d = AVOID)
        then ["The best available option does not clear DealBrain's quality threshold for a confident purchase."%string]
        else [])
    ++ (if f_ltb confidence high_confidence
        then ["Confidence is moderated because comparable evidence is limited or some listing attributes are incomplete."%string]
        else []) in
  Ok (dedupe_loop [] (map strip (List.filter (fun r => nonempty (strip r)) reasons))).

Definition _build_tradeoffs (rec : ListingEvaluation) (cur : string) (tied : bool)
    : result deal_error (list string) :=
  let a := ev_attributes rec in
  let cheapest := _cheapest first others in
  let! costs :=
    if same_listing cheapest rec then Ok []
    else
      let delta := f_sub (ev_cost rec) (ev_cost cheapest) in
      if f_ltb f_zero delta then
        let! save := money delta cur in
        let weaker := _weaker_protection_note cheapest in
        Ok ["It is not the cheapest listing."%string;
            if nonempty weaker
            then "The lowest-priced alternative saves " +:+ save +:+ " but " +:+ weaker +:+ "."
            else "The lowest-priced alternative saves " +:+ save +:+ "."]
      else Ok [] in
  Ok (dedupe_loop []
    ((if tied
      then ["No listing is clearly superior on DealScore alone; the choice reflects deterministic tie-breakers."%string]
      else [])
     ++ costs
     ++ (if bool_decide (is_official_store a = Some false)
         then ["It is not an official-store listing."%string] else [])
     ++ (match warranty_months a with
         | Some m => if m <? 12 then ["Warranty coverage is only " +:+ Int.str_int m +:+ " months."] else []
         | None => [] end)
     ++ (match return_policy_days a with
         | Some d => if d <? 14
                     then ["The return window is shorter than the strongest option in this set."%string] else []
         | None => [] end))).

Definition _build_warnings (rec : ListingEvaluation) (confidence : float) (tied : bool) : list string :=
  dedupe_loop [] (List.filter (fun w => nonempty (strip w))
    (["Marketplace results are based on mocked connector data, not live marketplace APIs."%string]
     ++ ds_warnings (deal_score rec)
     ++ (if Z.of_nat (length available) =? 1
         then ["Only one available listing was compared; treat this advice cautiously."%string] else [])
     ++ (if f_ltb confidence high_confidence
         then ["Recommendation confidence is below 85%; review alternatives before buying."%string] else [])
     ++ (if tied
         then ["Top DealScores are tied; the recommended listing is not clearly superior."%string] else [])
     ++ (if 0 <? _missing_attribute_count rec
         then ["Some seller, shipping, warranty, or return attributes are missing or incomplete on the recommended listing."%string]
         else []))).

(** *** Alternatives *)

Definition with_used (used : list string) (alts : list AlternativeRecommendation) (e : ListingEvaluation)
    (label reason : string) : list string * list AlternativeRecommendation :=
  (ev_id e :: used, alts ++ [Alternative (ev_id e) label reason]).

(** Is [x] better than what the recommended listing offers? *)
Definition improves {A} (lt : A -> A -> bool) (x : A) (own : option A) : bool :=
  match own with None => true | Some y => lt y x end.

Definition _build_alternatives (rec : ListingEvaluation) (cur : string)
    : result deal_error (list AlternativeRecommendation) :=
  match List.filter (fun e => negb (same_listing e rec)) available with
  | [] => Ok []
  | o :: rest =>
      let a := ev_attributes rec in
      let rivals := o :: rest in
      let unused (used : list string) (e : ListingEvaluation) : bool := negb (bool_decide (ev_id e ∈ used)) in
      let cheapest := _cheapest first others in
      let! (used, alts) :=
        if same_listing cheapest rec then Ok ([], [])
        else
          let! amount := money (ev_cost cheapest) cur in
          Ok (with_used [] [] cheapest "Lowest total cost"
                ("Choose this when minimizing immediate cost is the highest priority (total cost "
                 +:+ amount +:+ ").")) in
      let best_seller := max_by rating_lt o rest in
      let '(used, alts) :=
        match ml_rating (ev_listing best_seller) with
        | Some r =>
            if unused used best_seller && improves f_ltb r (ml_rating (ev_listing rec))
            then with_used used alts best_seller "Best seller reputation"
                   ("Choose this when seller rating is the deciding factor (" +:+ fixed 2 r +:+ "/5).")
            else (used, alts)
        | None => (used, alts)
        end in
      let best_warranty := max_by warranty_lt o rest in
      let '(used, alts) :=
        match warranty_months (ev_attributes best_warranty) with
        | Some m =>
            if unused used best_warranty && improves Z.ltb m (warranty_months a)
            then with_used used alts best_warranty "Best warranty"
                   ("Choose this for longer warranty coverage (" +:+ Int.str_int m +:+ " months).")
            else (used, alts)
        | None => (used, alts)
        end in
      let best_returns := max_by returns_lt o rest in
      let '(used, alts) :=
        match return_policy_days (ev_attributes best_returns) with
        | Some d =>
            if unused used best_returns && improves Z.ltb d (return_policy_days a)
            then with_used used alts best_returns "Best return policy"
                   ("Choose this for a longer return window (" +:+ Int.str_int d +:+ " days).")
            else (used, alts)
        | None => (used, alts)
        end in
      let '(used, alts) :=
        match List.find (fun e => bool_decide (is_official_store (ev_attributes e) = Some true)
                                  && unused used e && negb (bool_decide (is_official_store a = Some true)))
                (sorted cost_lt id rivals) with
        | Some e => with_used used alts e "Official-store option"
                      "Choose this when buying from an official store is required."
        | None => (used, alts)
        end in
      let near := List.filter (fun e => f_leb (f_sub (ev_score rec) (of_Z 10)) (ev_score e)
                                        && f_leb (ev_cost e) (ev_cost rec)) rivals in
      let candidates := match near with
        | [] => List.filter (fun e => f_ltb (ev_cost e) (ev_cost rec)) rivals
        | _ => near
        end in
      let '(used, alts) :=
        match candidates with
        | [] => (used, alts)
        | c :: cs =>
            let budget := min_by cost_lt c cs in
            if unused used budget
            then with_used used alts budget "Best budget alternative"
                   ("Choose this for a lower total cost while staying relatively close in DealScore ("
                    +:+ _format_score (ev_score budget) +:+ ").")
            else (used, alts)
        end in
      Ok alts
  end.

(** *** Headline and summary *)

Definition _headline_and_summary (d : PurchaseDecision) (rec : ListingEvaluation) (tied : bool)
    (confidence : float) : string * string :=
  let market := title (ml_marketplace (ev_listing rec)) in
  let store_bit := if bool_decide (is_official_store (ev_attributes rec) = Some true)
                   then "official-store "%string else ""%string in
  let cautious := f_ltb confidence high_confidence || (Z.of_nat (length available) =? 1) in
  match d with
  | BUY =>
      (if tied then "Strong tied option" else "Best overall value",
       if cautious
       then "Based on available mocked marketplace data, the " +:+ market +:+ " " +:+ store_bit
            +:+ "listing appears to be the strongest overall purchase."
       else of_chars (single_spaced (chars
              ("The " +:+ market +:+ " " +:+ store_bit +:+ "listing is the strongest overall purchase."))))
  | CONSIDER =>
      ("Worth considering",
       "The " +:+ market +:+ " listing is a reasonable option among the compared results, but tradeoffs or incomplete attributes mean it is not a clear buy.")
  | WAIT =>
      ("Waiting looks wiser for now",
       "Available listings show weak price competitiveness relative to this result set, so an immediate purchase is unattractive based on current DealScore evidence.")
  | AVOID =>
      ("No strong purchase option",
       "The best available listing scores " +:+ _format_score (ev_score rec)
       +:+ " and does not meet DealBrain's threshold for a sound purchase.")
  | INSUFFICIENT_INFORMATION =>
      ("Not enough information",
       "DealBrain does not have enough comparable listing data to give trustworthy buying advice for this query.")
  end%string.
End Advise.

(** ** Assembly *)

Fixpoint reasons_from (n : Z) (texts : list string) : list RecommendationReason :=
  match texts with
  | [] => []
  | t :: r => Reason t n :: reasons_from (n + 1) r
  end.

Definition _build (d : PurchaseDecision) (rec_id : option string) (head_text summary_text : string)
    (reasons tradeoff_texts warning_texts : list string) (confidence_value : float) (factors : list string)
    (alts : list AlternativeRecommendation) : Recommendation :=
  {| decision := d; rec_listing_id := rec_id; headline := head_text; summary := summary_text;
     reasoning := reasons_from 1 reasons; tradeoffs := tradeoff_texts; rec_warnings := warning_texts;
     confidence := Confidence (round_to 2 confidence_value) factors; alternatives := alts |}.

Definition _insufficient (head_text summary_text : string) (warnings : list string) (confidence_value : float)
    (factors : list string) (rec_id : option string) : Recommendation :=
  _build INSUFFICIENT_INFORMATION rec_id head_text summary_text
    ["There are not enough valid comparable listings to support a purchase decision."%string]
    [] warnings confidence_value factors [].

Definition corpus (r : Recommendation) : string :=
  lower (join " " ([headline r; summary r] ++ map reason_text (reasoning r) ++ tradeoffs r ++ rec_warnings r
                   ++ map alt_reason (alternatives r))).

Definition _assert_no_price_history (r : Recommendation) : result deal_error unit :=
  match List.find (fun f => contains f (corpus r)) forbidden_history_fragments with
  | Some f => Err (RuntimeError ("Recommendation text must not invent price history (found '" +:+ f +:+ "')."))
  | None => Ok tt
  end.

(** The advice about the available listings. *)
Definition advise (ranking : RankingResult) (first : ListingEvaluation) (others : list ListingEvaluation)
    : result deal_error Recommendation :=
  let cur := rr_currency ranking in
  let rec := _select_recommended first others ranking in
  let conf := _compute_confidence ranking first others rec in
  let missing_count := _missing_attribute_count rec in
  let critical := _critical_warnings rec in
  let meaningful := _has_meaningful_tradeoffs first others rec in
  let noncritical_missing := (0 <? missing_count) && (missing_count <? missing_field_insufficient) in
  if (missing_field_insufficient <=? missing_count) && (Z.of_nat (length (first :: others)) <? 2) then
    Ok (_insufficient "Too much required information is missing"
          "Key purchase attributes such as seller rating, shipping, warranty, or return policy are missing, so advice would be unreliable."
          (match ds_warnings (deal_score rec) with
           | [] => ["Required listing attributes are missing for a safe recommendation."%string]
           | ws => ws end)
          (py_min (conf_value conf) (cents 35)) (conf_factors conf ++ ["missing_required_attributes"%string])
          (Some (ev_id rec)))
  else
    let d := _decide ranking first others (ev_score rec) (conf_value conf) critical rec meaningful
               noncritical_missing in
    let tied := _tied_top_scores first others in
    let! reasons := _build_reasoning ranking first others rec d tied cur (conf_value conf) in
    let! trade := _build_tradeoffs first others rec cur tied in
    let warnings := _build_warnings first others rec (conf_value conf) tied in
    let! alts := _build_alternatives first others rec cur in
    let '(head_text, summary_text) := _headline_and_summary first others d rec tied (conf_value conf) in
    let r := _build d (Some (ev_id rec)) head_text summary_text reasons trade warnings (conf_value conf)
               (conf_factors conf) alts in
    let! _ := _assert_no_price_history r in
    Ok r.

Definition recommend (ranking : RankingResult) : result deal_error Recommendation :=
  let evs := evaluations ranking in
  if _has_mixed_currency_signal evs then
    Ok (_insufficient "Mixed currencies cannot be compared"
          "Listings use more than one currency, so DealBrain cannot produce a reliable purchase recommendation without conversion."
          ["Mixed currencies were detected; no purchase advice is offered."%string]
          (cents 20) ["mixed_currencies"%string] None)
  else match evs with
  | [] =>
      Ok (_insufficient "No listings to evaluate"
            "No marketplace listings were available for this query, so DealBrain cannot recommend a purchase."
            ["No comparable listings were returned."%string] (cents 15) ["no_listings"%string] None)
  | _ :: _ =>
      match _available_evaluations evs with
      | [] =>
          Ok (_build AVOID None "No available listings"
                "Every listing in this result set is unavailable, so a purchase cannot be recommended right now."
                ["All returned listings are out of stock or otherwise unavailable."%string] []
                ["All compared listings are unavailable (out of stock)."%string] (cents 70)
                ["all_unavailable"%string; "listing_count:" +:+ Int.str_int (Z.of_nat (length evs))] [])
      | first :: others => advise ranking first others
      end
  end.
End Recommender.
Import Recommender.
