(* ===== verification/ShoppingAdvice.v ===== *)
(** The services around the two engines: the search over the marketplace
    connectors ([app/services/marketplace_intelligence_service.py]), the ranking
    service ([app/services/deal_recommendation_service.py]) and the
    recommendation service ([app/services/shopping_recommendation_service.py]).

    Connectors and the marketplace data service are parameters: a connector is
    the answer it gives to a query, the data service the answers of its calls in
    the order they are made, [None] where a call raises. *)

From S2P Require Import Prelude PyStr PyState Clock Float FloatOps DealScore Recommend.
Import PyFloat FloatOps Listings Engine Enrichment Advice Rules Recommender.
#[local] Open Scope Z_scope.
#[local] Open Scope py_scope.

Module Services.

(** ** The search *)

Definition connector : Type := string -> result deal_error (list MarketplaceListing).

Fixpoint aggregate (connectors : list connector) (cleaned : string)
    : result deal_error (list MarketplaceListing) :=
  match connectors with
  | [] => Ok []
  | c :: r => let! found := c cleaned in let! rest := aggregate r cleaned in Ok (found ++ rest)
  end.

(** The cleaned query and the listings found. *)
Definition search (connectors : list connector) (query : string)
    : result deal_error (string * list MarketplaceListing) :=
  let cleaned := strip query in
  if nonempty cleaned then let! found := aggregate connectors cleaned in Ok (cleaned, found)
  else Ok (cleaned, []).

(** ** The ranking service *)

(** One call of [list_offers]: the titles of the offers it returns, each with
    the answer of [provenance_notes_for_offer] should it be asked. *)
Definition offers_answer : Type := option (list (string * option (list string))).

Record market_data := MarketData { offers_at : Z -> offers_answer }.

Definition source_note : string :=
  "DealScore listing source: mock marketplace connector — not live pricing unless a live connector is configured.".

(** Do the titles of an offer and of a listing contain one another? *)
Definition titles_match (offer_title listing_title : string) : bool :=
  contains (lower offer_title) (lower listing_title) || contains (lower listing_title) (lower offer_title).

(** Whatever the data service raises is swallowed. *)
Definition notes_for (answer : offers_answer) (e : ListingEvaluation) : list string :=
  match answer with
  | None => []
  | Some offers =>
      match List.find (fun o => titles_match o.1 (ml_title (ev_listing e))) offers with
      | Some (_, Some notes) => take 2 notes
      | _ => []
      end
  end.

Definition with_notes (notes : list string) (e : ListingEvaluation) : ListingEvaluation :=
  let s := deal_score e in
  {| ev_listing := ev_listing e; ev_attributes := ev_attributes e;
     deal_score := {| ds_listing_id := ds_listing_id s; ds_marketplace := ds_marketplace s;
       score := score s; rating := rating s; rank_of := rank_of s; ds_total_cost := ds_total_cost s;
       components := components s; explanation := explanation s ++ notes;
       ds_warnings := ds_warnings s; applied_weights := applied_weights s |} |}.

Fixpoint annotate_from (data : option market_data) (call : Z) (evs : list ListingEvaluation)
    : list ListingEvaluation :=
  match evs with
  | [] => []
  | e :: r =>
      with_notes (source_note :: match data with
                                 | Some d => notes_for (offers_at d call) e
                                 | None => []
                                 end) e
      :: annotate_from data (call + 1) r
  end.

Definition _annotate_provenance (data : option market_data) (r : RankingResult) : RankingResult :=
  {| rr_query := rr_query r; rr_currency := rr_currency r;
     market_average_total_cost := market_average_total_cost r;
     recommended_listing_id := recommended_listing_id r;
     evaluations := annotate_from data 0 (evaluations r) |}.

Section Service.
Context (weights : dict float) (connectors : list connector) (data : option market_data).

Definition deal_recommend (query : string) : result deal_error RankingResult :=
  let! (cleaned, found) := search connectors query in
  let! r := rank weights cleaned (map (fun l => to_scoreable_listing l None) found) in
  Ok (_annotate_provenance data r).

(** [overrides.get(listing.product_id, resolve_deal_attributes(listing))]. *)
Definition attributes_for (overrides : dict DealListingAttributes) (l : MarketplaceListing)
    : DealListingAttributes :=
  default (resolve_deal_attributes l) (d_get (ml_product_id l) overrides).

Definition evaluate_listings (query : string) (listings : list MarketplaceListing)
    (overrides : dict DealListingAttributes) : result deal_error RankingResult :=
  let! r := rank weights query
    (map (fun l => to_scoreable_listing l (Some (attributes_for overrides l))) listings) in
  Ok (_annotate_provenance data r).

(** ** The recommendation service *)

Record ShoppingRecommendationResult := {
  sr_query : string;
  sr_currency : string;
  sr_recommendation : Recommendation;
  sr_ranking : RankingResult;
}.

Definition empty_ranking (query : string) : RankingResult :=
  {| rr_query := query; rr_currency := ""; market_average_total_cost := f_zero;
     recommended_listing_id := None; evaluations := [] |}.

Definition _validation_fallback (query message : string) : ShoppingRecommendationResult :=
  let '(head_text, summary_text, reason) :=
    if contains "mixed currencies" (lower message)
    then ("Mixed currencies cannot be compared",
          "Listings use more than one currency, so PiqSavi cannot produce a reliable purchase recommendation without conversion.",
          "Comparable PiqScore ranking requires a single currency; mixed currencies were rejected.")%string
    else ("Not enough information to recommend",
          "PiqScore validation failed, so PiqSavi cannot produce trustworthy buying advice for this query.",
          message)%string in
  {| sr_query := query; sr_currency := "";
     sr_recommendation :=
       {| decision := INSUFFICIENT_INFORMATION; rec_listing_id := None; headline := head_text;
          summary := summary_text; reasoning := [Reason reason 1]; tradeoffs := [];
          rec_warnings := [message;
            "Marketplace results are based on mocked connector data, not live marketplace APIs."%string];
          confidence := Confidence (cents 20) ["dealscore_validation_error"%string];
          alternatives := [] |};
     sr_ranking := empty_ranking query |}.

Definition recommend_from_ranking (r : RankingResult) : result deal_error ShoppingRecommendationResult :=
  let! a := recommend r in
  Ok {| sr_query := rr_query r; sr_currency := rr_currency r; sr_recommendation := a; sr_ranking := r |}.

(** [try: ranking = ...; except DealScoreValidationError: ...]. *)
Definition advise_on (cleaned : string) (ranking : result deal_error RankingResult)
    : result deal_error ShoppingRecommendationResult :=
  match ranking with
  | Ok r => recommend_from_ranking r
  | Err (DealScoreValidationError message) => Ok (_validation_fallback cleaned message)
  | Err e => Err e
  end.

Definition shopping_recommend (query : string) : result deal_error ShoppingRecommendationResult :=
  advise_on (strip query) (deal_recommend (strip query)).

Definition recommend_from_listings (query : string) (listings : list MarketplaceListing)
    (overrides : dict DealListingAttributes) : result deal_error ShoppingRecommendationResult :=
  advise_on (strip query) (evaluate_listings (strip query) listings overrides).
End Service.
End Services.
