(* ===== verification/ScoreSafety.v ===== *)
(** Theorems about the DealScore engine: every score lies on the scale, the
    ranking is the listings in the order of their scores, and which baskets are
    refused. *)

From Stdlib Require Import SpecFloat.
From S2P Require Import Prelude PyStr PyState Clock Float Password FloatOps DealScore.
Import PyFloat FloatOps Listings Engine Enrichment.
#[local] Open Scope Z_scope.
#[local] Open Scope py_scope.

(** ** The scale *)
Module Scale.

(** From 0 to 100; NaN is not. *)
Definition on_scale (x : float) : Prop := f_leb f_zero x = true /\ f_leb x hundred = true.

#[global] Instance on_scale_dec x : Decision (on_scale x).
Proof. unfold on_scale. apply _. Defined.

Lemma clamp_on_scale x : short x -> on_scale (round_score (clamp_score x)).
Proof.
  intros H. destruct (clamp_within f_zero hundred x eq_refl) as [H0 H1].
  apply round_1_within; [by apply clamp_short | done | done].
Qed.

Ltac short_tac :=
  repeat first [apply f_add_short | apply f_sub_short | apply f_mul_short | apply f_div_short | done].

(** A score that is clamped or one of the engine's constants. *)
Ltac scale_tac :=
  lazymatch goal with
  | |- on_scale (round_score (clamp_score _)) => apply clamp_on_scale; short_tac
  | |- _ => by apply (bool_decide_unpack _); vm_compute
  end.

Lemma price_on_scale l peers avg : on_scale (round_score (_price_score l peers avg).1.1).
Proof.
  unfold _price_score. destruct (f_ltb _ _); [scale_tac |]. destruct (total_cost l); [| scale_tac].
  destruct peers; [scale_tac |]. destruct (f_leb _ _); [scale_tac |].
  cbv zeta. destruct (f_eqb _ _); cbn [fst]; scale_tac.
Qed.

Lemma seller_on_scale l : on_scale (round_score (_seller_score l).1.1).
Proof.
  unfold _seller_score. destruct (seller_rating l); [| scale_tac].
  destruct (_ || _); cbn [fst]; scale_tac.
Qed.

Lemma shipping_on_scale l : on_scale (round_score (_shipping_score l).1.1).
Proof.
  unfold _shipping_score. destruct (shipping_cost _); [| scale_tac].
  destruct (f_ltb _ _); [scale_tac |]. destruct (f_eqb _ _); [scale_tac |].
  destruct (f_ltb _ _); cbn [fst]; cbv zeta; scale_tac.
Qed.

Lemma fixed_on_scale l :
  on_scale (round_score (_availability_score l).1.1) /\ on_scale (round_score (_official_store_score l).1.1)
  /\ on_scale (round_score (_warranty_score l).1.1) /\ on_scale (round_score (_return_policy_score l).1.1).
Proof.
  unfold _availability_score, _official_store_score, _warranty_score, _return_policy_score.
  repeat split_and.
  - destruct (availability l); scale_tac.
  - destruct (is_official_store _) as [[]|]; scale_tac.
  - destruct (warranty_months _); [| scale_tac]. split_ifs; scale_tac.
  - destruct (return_policy_days _); [| scale_tac]. split_ifs; scale_tac.
Qed.

Definition all_scores (c : DealScoreComponents) : list float :=
  [price_score c; seller_score c; shipping_score c; availability_score c; official_store_score c;
   warranty_score c; return_policy_score c].

(** What [_score_listing] returns, when the weights have every component. *)
Lemma score_listing_inv weights l peers avg n s :
  _score_listing weights l peers avg n = Ok s ->
  exists weighted,
    weighted_score weights (components s) = Ok weighted
    /\ score s = round_score (clamp_score weighted) /\ rating s = rating_for_score (score s)
    /\ price_score (components s) = round_score (_price_score l peers avg).1.1
    /\ seller_score (components s) = round_score (_seller_score l).1.1
    /\ shipping_score (components s) = round_score (_shipping_score l).1.1
    /\ availability_score (components s) = round_score (_availability_score l).1.1
    /\ official_store_score (components s) = round_score (_official_store_score l).1.1
    /\ warranty_score (components s) = round_score (_warranty_score l).1.1
    /\ return_policy_score (components s) = round_score (_return_policy_score l).1.1.
Proof.
  unfold _score_listing.
  destruct (_price_score l peers avg) as [[ps pn] pw], (_seller_score l) as [[ss sn] sw],
    (_shipping_score l) as [[hs hn] hw], (_availability_score l) as [[vs vn] vw],
    (_official_store_score l) as [[os on] ow], (_warranty_score l) as [[ws wn] ww],
    (_return_policy_score l) as [[rs rn] rw]. cbn [fst snd].
  destruct (weighted_score _ _) as [w|] eqn:Ew; [| done]. cbn [rbind].
  destruct (total_cost l); intros [= <-]; by exists w.
Qed.

Lemma weighted_short weights c w : weighted_score weights c = Ok w -> short w.
Proof.
  unfold weighted_score. repeat (destruct (weight _ _); [cbn [rbind] | done]).
  intros [= <-]. short_tac.
Qed.

(** C22: Every score of a listing - the DealScore and its seven components - lies
    between 0 and 100, for any weights, any prices, costs and ratings (negative,
    infinite and NaN ones included) and any peers, and the rating band is the
    one of the score. *)
Theorem scores_lie_on_the_scale weights l peers avg n s :
  _score_listing weights l peers avg n = Ok s ->
  Forall on_scale (score s :: all_scores (components s)) /\ rating s = rating_for_score (score s).
Proof.
  intros H. destruct (score_listing_inv _ _ _ _ _ _ H) as (w & Hw & Hs & Hr & H1 & H2 & H3 & H4 & H5 & H6 & H7).
  destruct (fixed_on_scale l) as (F1 & F2 & F3 & F4).
  split; [| done]. unfold all_scores. rewrite H1, H2, H3, H4, H5, H6, H7, Hs.
  repeat apply Forall_cons_2; first [apply Forall_nil_2 | apply clamp_on_scale; by eapply weighted_short | apply price_on_scale
    | apply seller_on_scale | apply shipping_on_scale | done].
Qed.
End Scale.
Import Scale.

(** ** The order of the scores *)
Module Order.

Lemma compare_opp x y : SFcompare (f_opp x) (f_opp y) = SFcompare y x.
Proof.
  destruct x as [[]|[]| |[] m e], y as [[]|[]| |[] m' e']; try reflexivity; cbn;
    rewrite (Z.compare_antisym e e'); destruct (Z.compare e e'); cbn; try reflexivity;
    change (Pos.compare_cont Eq m m') with (Pos.compare m m');
    change (Pos.compare_cont Eq m' m) with (Pos.compare m' m);
    rewrite (Pos.compare_antisym m m'); by destruct (Pos.compare m m').
Qed.

(** The order, without NaN, is the order of triples of integers: the kind and
    sign, then the exponent, then the mantissa. *)
Definition place (x : float) : Z * Z * Z :=
  match x with
  | S754_infinity s => (if s then -2 else 2, 0, 0)
  | S754_zero _ | S754_nan => (0, 0, 0)
  | S754_finite s m e => if s then (-1, - e, - Z.pos m) else (1, e, Z.pos m)
  end.

Definition place_le (a b : Z * Z * Z) : Prop :=
  a.1.1 < b.1.1 \/ (a.1.1 = b.1.1 /\ (a.1.2 < b.1.2 \/ (a.1.2 = b.1.2 /\ a.2 <= b.2))).

Lemma leb_place x y :
  is_nan x = false -> is_nan y = false -> f_leb x y = true <-> place_le (place x) (place y).
Proof.
  unfold f_leb, SFleb, place_le. intros Hx Hy.
  destruct x as [[]|[]| |[] m e], y as [[]|[]| |[] m' e']; try done; cbn; try (split; [lia | done]);
    try (split; [done | lia]);
    change (Pos.compare_cont Eq m m') with (Pos.compare m m');
    destruct (Z.compare_spec e e'); subst; cbn; try destruct (Pos.compare_spec m m'); subst; cbn;
    (split; [try done; lia | try done; lia]).
Qed.

Lemma leb_not_nan x y : f_leb x y = true -> is_nan x = false /\ is_nan y = false.
Proof. by destruct x as [[]|[]| |[]], y as [[]|[]| |[]]. Qed.

Lemma f_leb_trans x y z : f_leb x y = true -> f_leb y z = true -> f_leb x z = true.
Proof.
  intros H1 H2. destruct (leb_not_nan _ _ H1) as [Hx Hy], (leb_not_nan _ _ H2) as [_ Hz].
  apply leb_place in H1, H2; try done. apply leb_place; [done | done |]. unfold place_le in *. lia.
Qed.

Lemma leb_total x y : is_nan x = false -> is_nan y = false -> f_leb x y = true \/ f_leb y x = true.
Proof.
  intros Hx Hy. rewrite !leb_place by done. unfold place_le. lia.
Qed.

Lemma ltb_opp x y : f_ltb (f_opp x) (f_opp y) = f_ltb y x.
Proof. unfold f_ltb, SFltb. by rewrite compare_opp. Qed.
Lemma eqb_opp x y : f_eqb (f_opp x) (f_opp y) = f_eqb y x.
Proof. unfold f_eqb, SFeqb. by rewrite compare_opp. Qed.
Lemma eqb_leb x y : f_eqb x y = true -> f_leb x y = true /\ f_leb y x = true.
Proof.
  unfold f_eqb, f_leb, SFeqb, SFleb. rewrite (compare_antisym x y). by destruct (SFcompare x y) as [[]|].
Qed.
Lemma not_ltb_leb x y : is_nan x = false -> is_nan y = false -> f_ltb x y = false -> f_leb y x = true.
Proof.
  intros Hx Hy. unfold f_ltb, f_leb, SFltb, SFleb. rewrite (compare_antisym x y).
  destruct (SFcompare x y) as [[]|] eqn:E; try done.
  by destruct x as [[]|[]| |[]], y as [[]|[]| |[]].
Qed.

Lemma on_scale_number x : on_scale x -> is_nan x = false.
Proof. intros [H _]. by destruct (leb_not_nan _ _ H). Qed.

(** Sorting by any comparison that never contradicts a preorder gives a list in
    that preorder. *)
Section SortedBy.
Context {A K : Type} (ltb : K -> K -> bool) (key : A -> K) (P : A -> Prop) (R : A -> A -> Prop).
Context (R_trans : forall a b c, R a b -> R b c -> R a c)
        (lt_R : forall a b, P a -> P b -> ltb (key a) (key b) = true -> R a b)
        (ge_R : forall a b, P a -> P b -> ltb (key b) (key a) = false -> R a b).

Lemma sort_insert_by x l :
  P x -> Forall P l -> StronglySorted R l -> StronglySorted R (sort_insert ltb key x l).
Proof.
  intros Hx HP. induction 1 as [|y l Hl IH Hy]; simpl; [repeat constructor |].
  inversion HP as [|? ? Py Pl]; subst. destruct (ltb (key y) (key x)) eqn:E.
  - constructor; [by apply IH |]. rewrite sort_insert_perm. constructor; [by apply lt_R | done].
  - constructor; [by constructor |]. assert (R x y) by by apply ge_R.
    constructor; [done |]. eapply Forall_impl; [exact Hy |]. intros z. by apply R_trans.
Qed.

Lemma sorted_by l : Forall P l -> StronglySorted R (sorted ltb key l).
Proof.
  induction 1 as [|x l Hx Hl IH]; simpl; [constructor |].
  apply sort_insert_by; [done | | done]. by rewrite sorted_perm.
Qed.
End SortedBy.

(** Available listings first, then the higher score. *)
Definition before (oos1 oos2 : bool) (s1 s2 : float) : Prop :=
  match oos1, oos2 with
  | false, true => True
  | true, false => False
  | _, _ => f_leb s2 s1 = true
  end.

Lemma before_trans o1 o2 o3 s1 s2 s3 : before o1 o2 s1 s2 -> before o2 o3 s2 s3 -> before o1 o3 s1 s3.
Proof. destruct o1, o2, o3; simpl; try done; intros H1 H2; by eapply f_leb_trans. Qed.

Definition item_before (a b : scored_listing) : Prop :=
  before (is_out_of_stock (availability a.1)) (is_out_of_stock (availability b.1)) (score a.2) (score b.2).

Lemma key_lt_before a b : key_ltb (_sort_key a) (_sort_key b) = true -> item_before a b.
Proof.
  destruct a as [l s], b as [l' s']. unfold key_ltb, item_before. cbn [_sort_key k_unavailable k_score fst snd].
  rewrite ltb_opp, eqb_opp.
  destruct (is_out_of_stock (availability l)), (is_out_of_stock (availability l')); cbn; try done;
    (destruct (f_eqb (score s') (score s)) eqn:E; cbn;
      [intros _; by apply eqb_leb in E as [? ?] | apply ltb_leb]).
Qed.

Lemma key_ge_before a b :
  on_scale (score a.2) -> on_scale (score b.2) ->
  key_ltb (_sort_key b) (_sort_key a) = false -> item_before a b.
Proof.
  destruct a as [l s], b as [l' s']. cbn [fst snd]. intros Hs%on_scale_number Hs'%on_scale_number.
  unfold key_ltb, item_before. cbn [_sort_key k_unavailable k_score fst snd]. rewrite ltb_opp, eqb_opp.
  destruct (is_out_of_stock (availability l)), (is_out_of_stock (availability l')); cbn; try done;
    (destruct (f_eqb (score s) (score s')) eqn:E; cbn;
      [intros _; by apply eqb_leb in E as [? ?] | by apply not_ltb_leb]).
Qed.

Lemma scored_items_sorted items :
  Forall (fun i : scored_listing => on_scale (score i.2)) items ->
  StronglySorted item_before (sorted key_ltb _sort_key items).
Proof.
  apply sorted_by.
  - intros a b c. apply before_trans.
  - intros a b _ _. apply key_lt_before.
  - intros a b. apply key_ge_before.
Qed.
End Order.
Import Order.

(** ** Rankings *)
Module Rankings.

Lemma score_all_ok weights ls peers avg items :
  score_all weights ls peers avg = Ok items ->
  map fst items = ls /\ Forall (fun i => _score_listing weights i.1 peers avg 0 = Ok i.2) items.
Proof.
  revert items. induction ls as [|l ls IH]; intros items; simpl; [by intros [= <-] |].
  destruct (_score_listing _ _ _ _ _) as [s|] eqn:Es; simpl; [| done].
  destruct (score_all _ _ _ _) as [rest|]; simpl; [| done]. intros [= <-].
  destruct (IH rest eq_refl) as [<- Hf]. split; [done | by constructor].
Qed.

Lemma ranked_length n items : length (ranked n items) = length items.
Proof. revert n. induction items; intros n; simpl; by f_equal. Qed.

Lemma ranked_listings n items : map ev_listing (ranked n items) = map (fun i => source_of i.1) items.
Proof. revert n. induction items; intros n; simpl; by f_equal. Qed.

Lemma ranked_ranks n items :
  map (fun e => rank_of (deal_score e)) (ranked n items) = seqZ n (Z.of_nat (length items)).
Proof.
  revert n. induction items as [|i items IH]; intros n; simpl; [done |].
  rewrite IH, (seqZ_cons n) by lia. f_equal; f_equal; lia.
Qed.

Lemma elem_of_ranked n items e :
  e ∈ ranked n items -> exists i m, i ∈ items /\ e = evaluation_of m i.
Proof.
  revert n. induction items as [|i items IH]; intros n; simpl; [by intros ?%not_elem_of_nil |].
  intros [-> | H]%elem_of_cons; [exists i, n; set_solver |].
  destruct (IH _ H) as (j & m & Hj & ->). exists j, m. set_solver.
Qed.

Lemma ranked_sorted (R : scored_listing -> scored_listing -> Prop) (R' : ListingEvaluation -> ListingEvaluation -> Prop)
    items n :
  (forall a b k m, a ∈ items -> b ∈ items -> R a b -> R' (evaluation_of k a) (evaluation_of m b)) ->
  StronglySorted R items -> StronglySorted R' (ranked n items).
Proof.
  intros HR H. revert n HR. induction H as [|i items Hs IH Hi]; intros n HR; simpl; [constructor |].
  constructor; [apply IH; intros; apply HR; set_solver |].
  apply Forall_forall. intros e (j & m & Hj & ->)%elem_of_ranked.
  rewrite Forall_forall in Hi. apply HR; [set_solver | set_solver | by apply Hi].
Qed.

Lemma no_blank_currency ls :
  existsb (fun l => negb (nonempty (strip (currency l)))) ls = false ->
  Forall (fun l => nonempty (strip (currency l)) = true) ls.
Proof.
  induction ls as [|l ls IH]; intros H; [constructor |]. apply orb_false_elim in H as [H1 H2].
  constructor; [by destruct (nonempty _) | by apply IH].
Qed.

(** What a basket that is ranked gives. *)
Lemma rank_ok_inv weights q ls r :
  rank weights q ls = Ok r ->
  exists items,
    score_all weights ls (peer_costs_of ls) (market_average_total_cost r) = Ok items
    /\ evaluations r = ranked 1 (sorted key_ltb _sort_key items)
    /\ recommended_listing_id r = _pick_recommendation (evaluations r)
    /\ (length (currencies_of ls) <= 1)%nat
    /\ Forall (fun l => nonempty (strip (currency l)) = true) ls
    /\ rr_currency r = default ""%string (head (currencies_of ls)).
Proof.
  destruct ls as [|l ls']; [intros [= <-]; exists []; split_and!; try done; simpl; lia |]. cbn [rank]. set (ls := l :: ls').
  unfold guard_raise. destruct (existsb _ _) eqn:Eb; cbn [rbind]; [done |].
  destruct (1 <? _) eqn:Ec; cbn [rbind]; [done |]. bool_simpl.
  match goal with |- rbind ?m _ = _ -> _ => destruct m as [avg|]; [| done] end. cbn [rbind].
  destruct (score_all _ _ _ _) as [items|] eqn:Ei; [| done]. cbn [rbind]. intros [= <-].
  exists items. split; [done |]. do 2 (split; [done |]). split; [lia |]. split; [| done].
  by apply no_blank_currency.
Qed.

(** The listing that is shown is as available as the one that was scored. *)
Definition faithful (l : ScoreableListing) : Prop := ml_availability (source_of l) = availability l.

Lemma to_scoreable_faithful m given : faithful (to_scoreable_listing m given).
Proof. done. Qed.

Definition ev_out_of_stock (e : ListingEvaluation) : bool := is_out_of_stock (ml_availability (ev_listing e)).

Definition ranks_before (a b : ListingEvaluation) : Prop :=
  before (ev_out_of_stock a) (ev_out_of_stock b) (ev_score a) (ev_score b).

Lemma items_on_scale weights ls peers avg items :
  score_all weights ls peers avg = Ok items ->
  Forall (fun i : scored_listing => on_scale (score i.2)) items.
Proof.
  intros [_ Hf]%score_all_ok. eapply Forall_impl; [exact Hf |]. intros i Hi.
  destruct (score_listing_inv _ _ _ _ _ _ Hi) as (w & Hw & -> & _).
  apply clamp_on_scale. by eapply weighted_short.
Qed.

Lemma evaluations_sorted weights q ls r :
  rank weights q ls = Ok r -> Forall faithful ls -> StronglySorted ranks_before (evaluations r).
Proof.
  intros (items & Hi & -> & _)%rank_ok_inv Hf.
  apply (ranked_sorted item_before); [| eapply scored_items_sorted, items_on_scale; exact Hi].
  apply score_all_ok in Hi as [<- _]. intros a b k m Ha Hb.
  rewrite elem_of_sorted in Ha, Hb. rewrite Forall_map, Forall_forall in Hf.
  unfold ranks_before, ev_out_of_stock, item_before. cbn. by rewrite (Hf a Ha), (Hf b Hb).
Qed.

(** C23: A ranking consists of exactly the listings of the basket, each with the
    score [_score_listing] gives it against the same peers, ranked from 1 on:
    every available listing before every one that is out of stock, and higher
    scores first. *)
Theorem ranking_is_best_first weights q ls r :
  rank weights q ls = Ok r -> Forall faithful ls ->
  Permutation (map ev_listing (evaluations r)) (map source_of ls)
  /\ map (fun e => rank_of (deal_score e)) (evaluations r) = seqZ 1 (Z.of_nat (length ls))
  /\ StronglySorted ranks_before (evaluations r)
  /\ forall e, e ∈ evaluations r -> exists l s, l ∈ ls
       /\ _score_listing weights l (peer_costs_of ls) (market_average_total_cost r) 0 = Ok s
       /\ ev_listing e = source_of l /\ ev_attributes e = attributes l
       /\ deal_score e = with_rank (rank_of (deal_score e)) s.
Proof.
  intros H Hf. pose proof (evaluations_sorted _ _ _ _ H Hf) as Hs.
  destruct (rank_ok_inv _ _ _ _ H) as (items & Hi & He & _). apply score_all_ok in Hi as [Hl Hall].
  assert (length (sorted key_ltb _sort_key items) = length ls) as Hlen
    by (rewrite <- Hl, length_map; apply Permutation_length, sorted_perm).
  split_and!; [| | done |].
  - rewrite He, ranked_listings, <- Hl, map_map. apply Permutation_map, sorted_perm.
  - by rewrite He, ranked_ranks, Hlen.
  - rewrite He. intros e (i & m & Hm & ->)%elem_of_ranked. apply elem_of_sorted in Hm.
    exists i.1, i.2. rewrite Forall_forall in Hall. split_and!; [| by apply Hall | done | done | done].
    rewrite <- Hl. apply list_elem_of_In, in_map, list_elem_of_In, Hm.
Qed.

(** In a list sorted best first, the first available one is a best one. *)
Lemma first_available_is_best evs e :
  StronglySorted ranks_before evs -> Forall (fun e => is_nan (ev_score e) = false) evs ->
  List.find (fun e => negb (ev_out_of_stock e)) evs = Some e ->
  forall e', e' ∈ evs -> ev_out_of_stock e' = false -> f_leb (ev_score e') (ev_score e) = true.
Proof.
  intros Hs. induction Hs as [|x evs Hs IH Hx]; intros Hn; simpl; [done |].
  inversion Hn as [|? ? Nx Nevs]; subst. rewrite Forall_forall in Hx.
  destruct (ev_out_of_stock x) eqn:Ex; simpl.
  - intros Hf e' [-> | Hin]%elem_of_cons Ho; [congruence | by apply IH].
  - intros [= <-] e' [-> | Hin]%elem_of_cons Ho; [by apply f_leb_refl |].
    specialize (Hx e' Hin). unfold ranks_before in Hx. by rewrite Ex, Ho in Hx.
Qed.

Lemma evaluations_numbers weights q ls r :
  rank weights q ls = Ok r -> Forall (fun e => is_nan (ev_score e) = false) (evaluations r).
Proof.
  intros (items & Hi & -> & _)%rank_ok_inv. apply items_on_scale in Hi.
  apply Forall_forall. intros e (i & m & Hm & ->)%elem_of_ranked. apply elem_of_sorted in Hm.
  rewrite Forall_forall in Hi. cbn. apply on_scale_number. by apply Hi.
Qed.
End Rankings.
Import Rankings.

(** ** Which baskets are refused *)
Module Refusals.

Definition component_names : list string :=
  ["price"; "seller"; "shipping"; "availability"; "official_store"; "warranty"; "return_policy"]%string.

(** The weights name every component. *)
Definition complete (weights : dict float) : Prop :=
  Forall (fun k => is_some (d_get k weights) = true) component_names.

#[global] Instance complete_dec weights : Decision (complete weights).
Proof. unfold complete. apply _. Defined.

Definition currency_code (l : ScoreableListing) : string := upper (strip (currency l)).

(** Every listing has a currency, and they all have the same. *)
Definition one_currency (ls : list ScoreableListing) : Prop :=
  (forall l, l ∈ ls -> nonempty (strip (currency l)) = true)
  /\ forall l l', l ∈ ls -> l' ∈ ls -> currency_code l = currency_code l'.

Lemma weight_ok weights k : complete weights -> k ∈ component_names -> exists w, weight weights k = Ok w.
Proof.
  unfold complete. rewrite Forall_forall. intros H Hk. specialize (H k Hk). unfold weight.
  destruct (d_get k weights) as [w|]; [by exists w | done].
Qed.

Lemma weighted_ok weights c : complete weights -> exists w, weighted_score weights c = Ok w.
Proof.
  intros H. unfold weighted_score. unfold component_names in *.
  repeat match goal with |- context [weight weights ?k] =>
    let w := fresh "w" in let E := fresh "E" in
    destruct (weight_ok weights k H) as [w E]; [unfold component_names; set_solver |]; rewrite E; cbn [rbind] end.
  by eexists.
Qed.

Lemma score_listing_ok weights l peers avg n :
  complete weights -> exists s, _score_listing weights l peers avg n = Ok s.
Proof.
  intros H. unfold _score_listing.
  destruct (_price_score l peers avg) as [[ps pn] pw], (_seller_score l) as [[ss sn] sw],
    (_shipping_score l) as [[hs hn] hw], (_availability_score l) as [[vs vn] vw],
    (_official_store_score l) as [[os on] ow], (_warranty_score l) as [[ws wn] ww],
    (_return_policy_score l) as [[rs rn] rw].
  match goal with |- context [weighted_score weights ?c] => destruct (weighted_ok weights c H) as [w ->] end.
  cbn [rbind]. destruct (total_cost l); by eexists.
Qed.

Lemma score_all_total weights ls peers avg :
  complete weights -> exists items, score_all weights ls peers avg = Ok items.
Proof.
  intros H. induction ls as [|l ls [items IH]]; simpl; [by eexists |].
  destruct (score_listing_ok weights l peers avg 0 H) as [s ->]. rewrite IH. simpl. by eexists.
Qed.

Lemma nonempty_strip c : nonempty (strip c) = true -> nonempty c = true.
Proof. destruct c; [done | by intros _]. Qed.

Lemma at_most_one_deduped (l : list string) :
  (length (dedupe_loop [] l) <= 1)%nat <-> forall x y, x ∈ l -> y ∈ l -> x = y.
Proof.
  pose proof (NoDup_dedupe_loop [] l) as Hn.
  assert (Hin : forall x, x ∈ dedupe_loop [] l <-> x ∈ l)
    by (intros x; rewrite elem_of_dedupe_loop; set_solver).
  split.
  - intros Hlen x y Hx%Hin Hy%Hin. destruct (dedupe_loop [] l) as [|a [|b r]]; simpl in Hlen; [| | lia].
    + by apply not_elem_of_nil in Hx.
    + apply list_elem_of_singleton in Hx, Hy. congruence.
  - intros He. destruct (dedupe_loop [] l) as [|a [|b r]] eqn:E; simpl; [lia | lia |].
    assert (a = b) as -> by (apply He; apply Hin; set_solver).
    apply NoDup_cons in Hn as [Ha _]. set_solver.
Qed.

Lemma one_currency_iff ls :
  Forall (fun l => nonempty (strip (currency l)) = true) ls ->
  ((length (currencies_of ls) <= 1)%nat <-> one_currency ls).
Proof.
  rewrite Forall_forall. intros Hall. unfold currencies_of. rewrite at_most_one_deduped.
  assert (Hin : forall x, x ∈ map (fun l => upper (strip (currency l))) (List.filter (fun l => nonempty (currency l)) ls)
    <-> exists l, l ∈ ls /\ x = currency_code l).
  { intros x. rewrite list_elem_of_In, in_map_iff. split.
    - intros (l & <- & [Hl _]%filter_In). exists l. by rewrite list_elem_of_In.
    - intros (l & Hl & ->). exists l. split; [done |]. apply filter_In. rewrite <- list_elem_of_In.
      split; [done |]. apply nonempty_strip. by apply Hall. }
  split.
  - intros H. split; [done |]. intros l l' Hl Hl'. apply H; apply Hin; [by exists l | by exists l'].
  - intros [_ H] x y (l & Hl & ->)%Hin (l' & Hl' & ->)%Hin. by apply H.
Qed.

Lemma first_currency l0 ls :
  one_currency (l0 :: ls) ->
  forall l, l ∈ l0 :: ls -> default ""%string (head (currencies_of (l0 :: ls))) = currency_code l.
Proof.
  intros [Hn Hc] l Hl. rewrite (Hc l l0 Hl ltac:(set_solver)). unfold currencies_of. cbn [List.filter].
  by rewrite (nonempty_strip _ (Hn l0 ltac:(set_solver))).
Qed.

(** C26: Ranking refuses a basket as invalid exactly when a listing has no
    currency or two differ; otherwise it answers, in that currency, unless the
    mean of the peers' costs overflows. Nothing is ever converted. *)
Theorem mixed_baskets_and_only_they_are_refused weights q ls :
  complete weights ->
  match rank weights q ls with
  | Ok r => one_currency ls /\ forall l, l ∈ ls -> rr_currency r = currency_code l
  | Err (DealScoreValidationError _) => ~ one_currency ls
  | Err (ArithmeticError e) => one_currency ls /\ fmean (peer_costs_of ls) = Err e
  | Err _ => False
  end.
Proof.
  intros Hw. destruct ls as [|l0 ls']; [split; [split |]; set_solver |].
  cbn [rank]. set (ls := l0 :: ls'). unfold guard_raise.
  destruct (existsb _ _) eqn:Eb; cbn [rbind].
  { intros [Hall _]. apply existsb_exists in Eb as (l & Hl%list_elem_of_In & Hl').
    by rewrite (Hall l Hl) in Hl'. }
  pose proof (no_blank_currency ls Eb) as Hall. pose proof (one_currency_iff ls Hall) as Hone.
  destruct (1 <? _) eqn:Ec; cbn [rbind]; bool_simpl; [rewrite <- Hone; lia |].
  assert (H1 : one_currency ls) by (apply Hone; lia).
  destruct (peer_costs_of ls) as [|p ps] eqn:Ep; cbn [rbind];
    [| destruct (fmean (p :: ps)) as [m|e]; cbn [rbind lift_arith]; [| done]];
    (match goal with |- context [score_all weights ?l ?ps ?a] =>
       destruct (score_all_total weights l ps a Hw) as [items ->] end; cbn [rbind rr_currency];
     by split; [| apply first_currency]).
Qed.

Lemma mixed_baskets_and_only_they_are_refused_witness :
  complete DEFAULT_WEIGHTS
  /\ match rank DEFAULT_WEIGHTS "phone" DealExamples.three_offers with
     | Ok r => one_currency DealExamples.three_offers
               /\ forall l, l ∈ DealExamples.three_offers -> rr_currency r = currency_code l
     | Err (DealScoreValidationError _) => ~ one_currency DealExamples.three_offers
     | Err (ArithmeticError e) =>
         one_currency DealExamples.three_offers /\ fmean (peer_costs_of DealExamples.three_offers) = Err e
     | Err _ => False
     end.
Proof.
  assert (H : complete DEFAULT_WEIGHTS) by (apply (bool_decide_unpack _); vm_compute; exact I).
  split; [exact H | exact (mixed_baskets_and_only_they_are_refused DEFAULT_WEIGHTS "phone" DealExamples.three_offers H)].
Defined.
End Refusals.
