(* ===== verification/AdviceSafety.v ===== *)
(** Theorems about the recommendation engine and its service: what is
    recommended is the best available listing, what a BUY rests on, what is
    offered beside it, and how confident the engine claims to be. *)

From Stdlib Require Import SpecFloat.
From S2P Require Import Prelude PyStr PyState Clock Float Password FloatOps DealScore Recommend ShoppingAdvice ScoreSafety.
Import PyFloat FloatOps Listings Engine Enrichment Advice Rules Recommender Services.
Import Scale Order Rankings Refusals.
#[local] Open Scope Z_scope.
#[local] Open Scope py_scope.

(** ** Picking by a key *)
Module Picking.

Lemma fold_pick_in {A} (better : A -> A -> bool) l x :
  fold_left (fun best e => if better best e then e else best) l x ∈ x :: l.
Proof.
  revert x. induction l as [|y l IH]; intros x; simpl; [set_solver |].
  destruct (better x y); [specialize (IH y) | specialize (IH x)]; set_solver.
Qed.

Lemma min_by_in {A} (lt : A -> A -> bool) x l : min_by lt x l ∈ x :: l.
Proof. apply (fold_pick_in (fun best e => lt e best)). Qed.

Lemma max_by_in {A} (lt : A -> A -> bool) x l : max_by lt x l ∈ x :: l.
Proof. apply (fold_pick_in (fun best e => lt best e)). Qed.

Lemma find_elem {A} (p : A -> bool) l x : List.find p l = Some x -> x ∈ l /\ p x = true.
Proof. rewrite list_elem_of_In. apply find_some. Qed.

Lemma filter_elem {A} (p : A -> bool) l x : x ∈ List.filter p l <-> x ∈ l /\ p x = true.
Proof. rewrite !list_elem_of_In. apply filter_In. Qed.
End Picking.
Import Picking.

(** ** Confidence *)
Module Sure.

Definition probability (x : float) : Prop := f_leb f_zero x = true /\ f_leb x one = true.


Lemma plus_short c d f : short c.1 -> short d -> short (plus c d f).1.
Proof. apply f_add_short. Qed.
Lemma less_short c d f : short c.1 -> short d -> short (less c d f).1.
Proof. apply f_sub_short. Qed.

Ltac conf_tac :=
  repeat lazymatch goal with
  | |- short (if ?b then _ else _).1 => destruct b
  | |- short (plus _ _ _).1 => apply plus_short
  | |- short (less _ _ _).1 => apply less_short
  | |- short (f_mul _ _) => apply f_mul_short
  | |- short (cents _) => vm_compute; reflexivity
  | |- short (_, _).1 => cbn [fst]
  | |- _ => assumption
  end.

Lemma count_bonus_short n c : short c.1 -> short (count_bonus n c).1.
Proof. intros H. unfold count_bonus. cbv zeta. conf_tac. Qed.
Lemma completeness_bonus_short n c : short c.1 -> short (completeness_bonus n c).1.
Proof. intros H. unfold completeness_bonus. cbv zeta. conf_tac. Qed.
Lemma gap_bonus_short x c : short c.1 -> short (gap_bonus x c).1.
Proof. intros H. unfold gap_bonus. cbv zeta. conf_tac. Qed.
Lemma warning_change_short n c : short c.1 -> short (warning_change n c).1.
Proof. intros H. unfold warning_change. cbv zeta. conf_tac. Qed.
Lemma currency_change_short n c : short c.1 -> short (currency_change n c).1.
Proof. intros H. unfold currency_change. cbv zeta. conf_tac. Qed.
Lemma average_change_short x c : short c.1 -> short (average_change x c).1.
Proof. intros H. unfold average_change. cbv zeta. conf_tac. Qed.

Lemma compute_confidence_sure ranking first others rec :
  let c := conf_value (_compute_confidence ranking first others rec) in
  probability c /\ round_to 2 c = c.
Proof.
  cbn zeta. unfold _compute_confidence. cbn [conf_value].
  match goal with |- context [round_to 2 (clamp f_zero one ?v)] =>
    destruct (clamp_within f_zero one v eq_refl) as [H0 H1]; assert (short v) as Hv end.
  { apply average_change_short, currency_change_short, warning_change_short, gap_bonus_short,
      completeness_bonus_short, count_bonus_short. vm_compute. reflexivity. }
  pose proof (clamp_short f_zero one _ I ltac:(done) Hv) as Hc.
  split; [by apply round_2_within | by apply round_2_again].
Qed.
End Sure.
Import Sure.

(** ** The shape of an answer *)
Module Shape.

Lemma Ok_inj {E A} (x y : A) : @Ok E A x = Ok y -> x = y.
Proof. by intros [=]. Qed.

(** The answer when there is an available listing: too little is known of the
    only one, or the decision about the selected one. *)
Lemma advise_inv ranking first others a :
  advise ranking first others = Ok a ->
  let rec := _select_recommended first others ranking in
  let conf := conf_value (_compute_confidence ranking first others rec) in
  let missing := _missing_attribute_count rec in
  rec_listing_id a = Some (ev_id rec)
  /\ ((missing_field_insufficient <= missing /\ others = [] /\ decision a = INSUFFICIENT_INFORMATION
       /\ alternatives a = [] /\ conf_value (confidence a) = round_to 2 (py_min conf (cents 35)))
      \/ ((missing < missing_field_insufficient \/ others <> [])
          /\ decision a = _decide ranking first others (ev_score rec) conf (_critical_warnings rec) rec
                            (_has_meaningful_tradeoffs first others rec)
                            ((0 <? missing) && (missing <? missing_field_insufficient))
          /\ _build_alternatives first others rec (rr_currency ranking) = Ok (alternatives a)
          /\ conf_value (confidence a) = conf
          /\ _assert_no_price_history a = Ok tt)).
Proof.
  cbv zeta. unfold advise. cbv zeta.
  destruct ((_ <=? _) && _) eqn:E.
  - apply andb_prop in E as [E1 E2]. bool_simpl. intros <-%Ok_inj. split; [reflexivity |]. left.
    split_and!; [lia | | reflexivity | reflexivity | reflexivity].
    destruct others; [reflexivity | cbn [length] in E2; lia].
  - set (d := _decide _ _ _ _ _ _ _ _ _).
    destruct (_build_reasoning _ _ _ _ _ _ _ _) as [reasons|]; cbn [rbind]; [| done].
    destruct (_build_tradeoffs _ _ _ _ _) as [trade|]; cbn [rbind]; [| done].
    destruct (_build_alternatives _ _ _ _) as [alts|] eqn:Ea; cbn [rbind]; [| done].
    destruct (_headline_and_summary _ _ _ _ _ _) as [head_text summary_text].
    match goal with |- rbind ?m _ = _ -> _ => destruct m as [[]|] eqn:Eh; cbn [rbind]; [| done] end.
    intros <-%Ok_inj. split; [reflexivity |]. right.
    split_and!; [| reflexivity | reflexivity | | exact Eh].
    + apply andb_false_iff in E as [E | E]; bool_simpl; [left; lia | right].
      destruct others; [cbn [length] in E; lia | discriminate].
    + apply compute_confidence_sure.
Qed.

Lemma recommend_inv ranking a :
  recommend ranking = Ok a ->
  (exists first others, _available_evaluations (evaluations ranking) = first :: others
     /\ advise ranking first others = Ok a)
  \/ (rec_listing_id a = None /\ alternatives a = []
      /\ ((decision a = AVOID /\ evaluations ranking <> [] /\ _available_evaluations (evaluations ranking) = [])
          \/ (decision a = INSUFFICIENT_INFORMATION
              /\ (evaluations ranking = [] \/ _has_mixed_currency_signal (evaluations ranking) = true)))).
Proof.
  unfold recommend. destruct (_has_mixed_currency_signal _) eqn:Em.
  { intros <-%Ok_inj. right. do 2 (split; [reflexivity |]). right. split; [reflexivity | by right]. }
  destruct (evaluations ranking) as [|e evs] eqn:Ev.
  { intros <-%Ok_inj. right. do 2 (split; [reflexivity |]). right. split; [reflexivity | by left]. }
  destruct (_available_evaluations (e :: evs)) as [|first others] eqn:Ea.
  - intros <-%Ok_inj. right. do 2 (split; [reflexivity |]). left. by split_and!.
  - intros H. left. by exists first, others.
Qed.

Lemma selected_is_available ranking first others :
  _select_recommended first others ranking ∈ first :: others.
Proof.
  unfold _select_recommended.
  assert (default first (head (sorted best_lt id (first :: others))) ∈ first :: others) as Hd.
  { destruct (sorted best_lt id (first :: others)) as [|e r] eqn:E; cbn [head default]; [set_solver |].
    rewrite <- (elem_of_sorted best_lt id), E. set_solver. }
  destruct (recommended_listing_id ranking) as [i|]; [| done]. destruct (nonempty i); [| done].
  destruct (List.find _ _) as [e|] eqn:E; [| done]. by apply find_elem in E as [He _].
Qed.
End Shape.
Import Shape.

(** ** Buying *)
Module Buying.

(** The only decision that ends in BUY. *)
Lemma decide_buy ranking first others s conf critical rec meaningful missing :
  _decide ranking first others s conf critical rec meaningful missing = BUY ->
  f_leb buy_score_min s = true /\ f_leb buy_confidence_min conf = true /\ critical = false
  /\ meaningful = false /\ missing = false /\ _should_wait first others ranking = false.
Proof.
  unfold _decide. destruct (critical || _) eqn:E1; [done |]. apply orb_false_elim in E1 as [-> _].
  destruct (_should_wait _ _ _) eqn:E2; [done |].
  destruct (_ && _) eqn:E3; [| by repeat case_match].
  intros _. by apply andb_prop in E3 as [[[[[? ?]%andb_prop ?]%andb_prop ?]%andb_prop ?%negb_true_iff]%andb_prop ?%negb_true_iff].
Qed.

(** What a BUY rests on: an available listing that scores 85 or more, a
    confidence of 0.75 or more, no critical warning, no missing attribute (or
    at least four, when there are several listings), a known market average, a
    listing whose price is competitive and one whose cost is complete, and no
    cheapest listing that is 500 cheaper for less than 3 points or 2000 cheaper
    for less than 8. *)
Definition buy_is_backed (ranking : RankingResult) (a : Recommendation) : Prop :=
  exists first others rec,
    _available_evaluations (evaluations ranking) = first :: others
    /\ rec ∈ evaluations ranking /\ _is_available rec = true /\ rec_listing_id a = Some (ev_id rec)
    /\ f_leb (of_Z 85) (ev_score rec) = true
    /\ f_leb (cents 75) (conf_value (confidence a)) = true
    /\ Forall (fun w => mentions critical_warning_fragments (lower w) = false) (ds_warnings (deal_score rec))
    /\ (_missing_attribute_count rec = 0 \/ (missing_field_insufficient <= _missing_attribute_count rec /\ others <> []))
    /\ (exists e, e ∈ first :: others /\ f_ltb (price_score (components (deal_score e))) (of_Z 55) = false)
    /\ (exists e, e ∈ first :: others /\ incomplete_cost e = false)
    /\ f_leb (market_average_total_cost ranking) f_zero = false
    /\ (ev_id (_cheapest first others) = ev_id rec
        \/ (let cost := f_sub (ev_cost rec) (ev_cost (_cheapest first others)) in
            let gain := f_sub (ev_score rec) (ev_score (_cheapest first others)) in
            (f_leb (of_Z 500) cost = true -> f_ltb gain (of_Z 3) = false)
            /\ (f_leb (of_Z 2000) cost = true -> f_ltb gain (of_Z 8) = false))).

Lemma forallb_false {A} (p : A -> bool) l : forallb p l = false -> exists x, x ∈ l /\ p x = false.
Proof.
  induction l as [|x l IH]; simpl; [done |]. intros [H | H]%andb_false_iff; [exists x; set_solver |].
  destruct (IH H) as (y & Hy & E). exists y. set_solver.
Qed.

Lemma should_not_wait ranking first others :
  _should_wait first others ranking = false ->
  (exists e, e ∈ first :: others /\ f_ltb (price_score (components (deal_score e))) (of_Z 55) = false)
  /\ (exists e, e ∈ first :: others /\ incomplete_cost e = false)
  /\ f_leb (market_average_total_cost ranking) f_zero = false.
Proof.
  unfold _should_wait. destruct (forallb _ (first :: others)) eqn:E1; [done |].
  destruct (f_leb _ f_zero) eqn:E2; [done |]. intros H.
  split_and!; [by apply (forallb_false _ _ E1) | | done].
  apply (forallb_false incomplete_cost). by destruct (match map _ _ with [] => false | _ => _ end).
Qed.

Lemma existsb_false_Forall {A} (p : A -> bool) l : existsb p l = false -> Forall (fun x => p x = false) l.
Proof.
  induction l as [|x l IH]; intros H; [constructor |]. apply orb_false_elim in H as [H1 H2].
  constructor; [done | by apply IH].
Qed.

Lemma no_tradeoffs first others rec :
  _has_meaningful_tradeoffs first others rec = false ->
  ev_id (_cheapest first others) = ev_id rec
  \/ (let cost := f_sub (ev_cost rec) (ev_cost (_cheapest first others)) in
      let gain := f_sub (ev_score rec) (ev_score (_cheapest first others)) in
      (f_leb (of_Z 500) cost = true -> f_ltb gain (of_Z 3) = false)
      /\ (f_leb (of_Z 2000) cost = true -> f_ltb gain (of_Z 8) = false)).
Proof.
  unfold _has_meaningful_tradeoffs, same_listing. case_bool_decide; [by left |]. right. cbv zeta.
  destruct (f_leb (of_Z 500) _), (f_ltb _ (of_Z 3)), (f_leb (of_Z 2000) _), (f_ltb _ (of_Z 8)); try done.
Qed.

(** C25: A BUY is advised only when this speaks for it: the recommended listing
    is available and scores at least 85, the confidence is at least 0.75, the
    listing has no critical warning, no attribute of it is missing (or at least
    four are, among several listings), the market average is positive, some
    available listing has a price score of at least 55 and some a complete
    cost; and the cheapest available listing, when it is another one, is not
    500 cheaper for a loss of less than 3 points, nor 2000 cheaper for a loss
    of less than 8. Of the listings between the cheapest and the recommended
    one nothing is asked, here as in the code. *)
Theorem a_buy_is_backed ranking a :
  recommend ranking = Ok a -> decision a = BUY -> buy_is_backed ranking a.
Proof.
  intros [(first & others & Ha & H) | (_ & _ & [(-> & _) | [-> _]])]%recommend_inv Hd; [| done | done].
  pose proof (selected_is_available ranking first others) as Hin.
  destruct (advise_inv _ _ _ _ H) as (Hid & [(_ & _ & E & _) | (Hm & E & _ & Hc & _)]); [congruence |].
  rewrite Hd in E. symmetry in E. apply decide_buy in E as (H85 & H75 & Hcrit & Hmean & Hmiss & Hw).
  set (rec := _select_recommended first others ranking) in *.
  assert (rec ∈ evaluations ranking /\ _is_available rec = true) as [Hev Hav]
    by (apply filter_elem; by rewrite <- Ha in Hin).
  exists first, others, rec. rewrite Hc.
  pose proof (should_not_wait _ _ _ Hw) as (W1 & W2 & W3).
  split_and!; try done; [by apply existsb_false_Forall | | by apply no_tradeoffs].
  apply andb_false_iff in Hmiss as [Hz | Hz]; bool_simpl; [left | right].
  - assert (0 <= _missing_attribute_count rec); [| lia]. unfold _missing_attribute_count. repeat case_match; lia.
  - split; [lia |]. by destruct Hm; [lia |].
Qed.
End Buying.
Import Buying.

(** ** Alternatives *)
Module Beside.

(** The ids used so far are those of the alternatives, each of a rival. *)
Definition offered (rivals : list ListingEvaluation) (st : list string * list AlternativeRecommendation) : Prop :=
  (forall i, i ∈ st.1 <-> i ∈ map alt_listing_id st.2)
  /\ NoDup (map alt_listing_id st.2) /\ forall i, i ∈ map alt_listing_id st.2 -> exists e, e ∈ rivals /\ ev_id e = i.

Lemma offered_nil rivals : offered rivals ([], []).
Proof. split; [done | split; [constructor |]]. by intros i ?%not_elem_of_nil. Qed.

Lemma offered_step rivals used alts e label reason :
  offered rivals (used, alts) -> e ∈ rivals -> ev_id e ∉ used ->
  offered rivals (with_used used alts e label reason).
Proof.
  intros (Hu & Hn & Hr) He Hnew. unfold with_used, offered. cbn [fst snd] in *. rewrite map_app. cbn [map alt_listing_id].
  split_and!.
  - intros i. rewrite elem_of_cons, elem_of_app, list_elem_of_singleton, Hu. tauto.
  - apply NoDup_snoc; [done |]. by rewrite <- Hu.
  - intros i [Hi | ->%list_elem_of_singleton]%elem_of_app; [by apply Hr | by exists e].
Qed.

(** One paragraph of [_build_alternatives]: offer [e], or leave things as they
    are. *)
Lemma offered_if rivals used alts e label reason (b : bool) :
  offered rivals (used, alts) -> e ∈ rivals ->
  offered rivals (if negb (bool_decide (ev_id e ∈ used)) && b
                  then with_used used alts e label reason else (used, alts)).
Proof.
  intros H He. case_bool_decide; simpl; [done |]. destruct b; [by apply offered_step | done].
Qed.

(** A paragraph of [_build_alternatives] keeps what is offered in order. *)
Ltac paragraph rivals H :=
  lazymatch goal with |- (let '(_, _) := ?m in _) = _ -> _ =>
    assert (H : offered rivals m); [| destruct m as [? ?]] end.

Lemma offered_alternatives first others rec cur alts :
  _build_alternatives first others rec cur = Ok alts ->
  exists used, offered (List.filter (fun e => negb (same_listing e rec)) (first :: others)) (used, alts).
Proof.
  unfold _build_alternatives.
  destruct (List.filter _ (first :: others)) as [|o rest] eqn:Er.
  { intros <-%Ok_inj. exists []. apply offered_nil. }
  cbv zeta. set (rivals := o :: rest) in *.
  assert (Hc : same_listing (_cheapest first others) rec = false -> _cheapest first others ∈ rivals).
  { intros Hs. rewrite <- Er. apply filter_elem. split; [apply min_by_in | by rewrite Hs]. }
  match goal with |- rbind ?m _ = _ -> _ => assert (H0 : forall st, m = Ok st -> offered rivals st); [| destruct m as [[u0 a0]|]; [| done]] end.
  { intros st. destruct (same_listing _ _) eqn:Es; [intros <-%Ok_inj; apply offered_nil |].
    destruct (money _ _); cbn [rbind]; [| done]. intros <-%Ok_inj.
    apply offered_step; [apply offered_nil | by apply Hc | apply not_elem_of_nil]. }
  specialize (H0 _ eq_refl). cbn [rbind]. clear Hc.
  paragraph rivals H1.
  { destruct (ml_rating _); [| done]. apply offered_if; [done | apply max_by_in]. }
  paragraph rivals H2.
  { destruct (warranty_months _); [| done]. apply offered_if; [done | apply max_by_in]. }
  paragraph rivals H3.
  { destruct (return_policy_days _); [| done]. apply offered_if; [done | apply max_by_in]. }
  paragraph rivals H4.
  { destruct (List.find _ _) as [e|] eqn:Ef; [| done]. apply find_elem in Ef as [He Hp].
    apply elem_of_sorted in He. apply offered_step; [done | done |].
    apply andb_prop in Hp as [Hp _]. apply andb_prop in Hp as [_ Hp].
    by case_bool_decide. }
  paragraph rivals H5.
  { match goal with |- context [match ?c with [] => _ | _ :: _ => _ end] => set (cs := c) end.
    assert (Hcs : forall e, e ∈ cs -> e ∈ rivals).
    { intros e. unfold cs. destruct (List.filter _ rivals) eqn:En; [| rewrite <- En]; intros He%filter_elem; apply He. }
    destruct cs as [|c r]; [done |].
    pose proof (offered_if rivals _ _ (min_by cost_lt c r) "Best budget alternative"
      ("Choose this for a lower total cost while staying relatively close in DealScore ("
                    +:+ _format_score (ev_score (min_by cost_lt c r)) +:+ ").") true H4 (Hcs _ (min_by_in _ _ _))) as H.
    by rewrite andb_true_r in H. }
  intros <-%Ok_inj. by eexists.
Qed.

(** The alternatives offered beside a recommendation are listings of the
    ranking that are available, none is offered twice, and none is the
    recommended one. *)
Theorem alternatives_are_other_available_listings ranking a :
  recommend ranking = Ok a ->
  NoDup (map alt_listing_id (alternatives a))
  /\ forall i, i ∈ map alt_listing_id (alternatives a) ->
       rec_listing_id a <> Some i
       /\ exists e, e ∈ evaluations ranking /\ _is_available e = true /\ ev_id e = i.
Proof.
  intros [(first & others & Ha & H) | (_ & -> & _)]%recommend_inv;
    [| split; [constructor | by intros i ?%not_elem_of_nil]].
  destruct (advise_inv _ _ _ _ H) as (Hid & [(_ & _ & _ & -> & _) | (_ & _ & Hb & _)]);
    [split; [constructor | by intros i ?%not_elem_of_nil] |].
  destruct (offered_alternatives _ _ _ _ _ Hb) as (used & _ & Hn & Hr). split; [done |].
  intros i Hi. destruct (Hr i Hi) as (e & He & <-). apply filter_elem in He as [He Hs].
  rewrite <- Ha in He. apply filter_elem in He as [He Hav]. split; [| by exists e].
  rewrite Hid. intros [= E]. unfold same_listing in Hs. by case_bool_decide.
Qed.
End Beside.
Import Beside.

(** ** The best available listing *)
Module Best.

(** [e] is available and no available listing scores more. *)
Definition best_available (evs : list ListingEvaluation) (e : ListingEvaluation) : Prop :=
  e ∈ evs /\ _is_available e = true
  /\ forall e', e' ∈ evs -> _is_available e' = true -> f_leb (ev_score e') (ev_score e) = true.

(** What the service knows of a ranking it passes to the engine. *)
Definition proper_ranking (r : RankingResult) : Prop :=
  StronglySorted ranks_before (evaluations r)
  /\ Forall (fun e => is_nan (ev_score e) = false) (evaluations r)
  /\ recommended_listing_id r = _pick_recommendation (evaluations r).

Lemma filter_head {A} (p : A -> bool) l x r : List.filter p l = x :: r -> List.find p l = Some x.
Proof.
  induction l as [|y l IH]; simpl; [done |]. destruct (p y); [by intros [= -> _] | done].
Qed.

Lemma best_sorted_head evs x r :
  Forall (fun e => is_nan (ev_score e) = false) evs -> sorted best_lt id evs = x :: r ->
  x ∈ evs /\ forall e, e ∈ evs -> f_leb (ev_score e) (ev_score x) = true.
Proof.
  intros Hn E. assert (Hs : StronglySorted (fun a b => f_leb (ev_score b) (ev_score a) = true) (sorted best_lt id evs)).
  { apply (sorted_by best_lt id (fun e => is_nan (ev_score e) = false)); [| | | done].
    - intros a b c H1 H2. by eapply f_leb_trans.
    - intros a b _ _. unfold id, best_lt, f_then. rewrite eqb_opp, ltb_opp.
      destruct (f_eqb _ _) eqn:Ee; simpl; [intros _; by apply eqb_leb in Ee as [? ?] | apply ltb_leb].
    - intros a b Ha Hb. unfold id, best_lt, f_then. rewrite eqb_opp, ltb_opp.
      destruct (f_eqb _ _) eqn:Ee; simpl; [intros _; by apply eqb_leb in Ee as [? ?] | by apply not_ltb_leb]. }
  assert (Hin : forall e, e ∈ x :: r <-> e ∈ evs) by (intros e; rewrite <- E; apply elem_of_sorted).
  rewrite E in Hs. inversion Hs as [|? ? _ Hall]; subst. rewrite Forall_forall in Hall.
  split; [apply Hin; set_solver |]. intros e [-> | He]%Hin%elem_of_cons; [| by apply Hall].
  apply f_leb_refl. rewrite Forall_forall in Hn. apply Hn, Hin. set_solver.
Qed.

(** The engine selects a best available listing. *)
Lemma selected_is_best r first others :
  proper_ranking r -> _available_evaluations (evaluations r) = first :: others ->
  best_available (evaluations r) (_select_recommended first others r).
Proof.
  intros (Hs & Hn & Hp) Ha. pose proof (filter_head _ _ _ _ Ha) as Hf.
  assert (Hin : forall e, e ∈ first :: others <-> e ∈ evaluations r /\ _is_available e = true)
    by (intros e; rewrite <- Ha; apply filter_elem).
  assert (Hbest : forall e, e ∈ first :: others -> (forall e', e' ∈ first :: others -> f_leb (ev_score e') (ev_score e) = true) ->
    best_available (evaluations r) e).
  { intros e [? ?]%Hin Hall. split_and!; [done | done |]. intros e' ? ?. by apply Hall, Hin. }
  assert (Hfirst : best_available (evaluations r) first).
  { apply Hbest; [set_solver |]. intros e' [? Hav]%Hin.
    eapply (first_available_is_best (evaluations r)); [done | done | exact Hf | done |].
    by apply negb_true_iff. }
  assert (Hsort : best_available (evaluations r) (default first (head (sorted best_lt id (first :: others))))).
  { destruct (sorted best_lt id (first :: others)) as [|x l] eqn:E; [exact Hfirst |].
    apply best_sorted_head in E as [Hx Hall]; [by apply Hbest |].
    apply Forall_forall. intros e [He _]%Hin. rewrite Forall_forall in Hn. by apply Hn. }
  unfold _select_recommended. rewrite Hp. unfold _pick_recommendation.
  change (fun e => negb (is_out_of_stock (ml_availability (ev_listing e)))) with _is_available.
  rewrite Hf. cbn [fmap option_fmap option_map]. destruct (nonempty (ev_id first)); [| done].
  cbn [List.find]. by rewrite bool_decide_true.
Qed.

(** The currencies of the listings shown are those that were ranked. *)
Lemma one_currency_shown evs (c : string) :
  (forall e, e ∈ evs -> upper (strip (ml_currency (ev_listing e))) = c) -> _has_mixed_currency_signal evs = false.
Proof.
  intros H. unfold _has_mixed_currency_signal, listing_currencies.
  assert (length (dedupe_loop [] (List.filter nonempty
    (map (fun e => upper (strip (ml_currency (ev_listing e)))) evs))) <= 1)%nat; [| lia].
  apply at_most_one_deduped. intros x y [Hx _]%filter_elem [Hy _]%filter_elem.
  apply list_elem_of_In, in_map_iff in Hx as (e & <- & He%list_elem_of_In).
  apply list_elem_of_In, in_map_iff in Hy as (e' & <- & He'%list_elem_of_In).
  by rewrite (H e He), (H e' He').
Qed.

(** *** Notes change nothing that the engine reads *)
Definition same_but_notes (e e' : ListingEvaluation) : Prop :=
  ev_listing e' = ev_listing e /\ ev_score e' = ev_score e /\ ev_id e' = ev_id e.

Lemma annotated data n evs : Forall2 same_but_notes evs (annotate_from data n evs).
Proof. revert n. induction evs; intros n; simpl; constructor; [done | apply IHevs]. Qed.

Lemma annotated_elem data n evs e' :
  e' ∈ annotate_from data n evs -> exists e, e ∈ evs /\ same_but_notes e e'.
Proof.
  revert n. induction evs as [|e evs IH]; intros n; simpl; [by intros ?%not_elem_of_nil |].
  intros [-> | H]%elem_of_cons; [exists e; split; [set_solver | done] |].
  destruct (IH _ H) as (x & Hx & Hs). exists x. set_solver.
Qed.

Lemma annotated_find data n evs :
  ev_id <$> List.find _is_available (annotate_from data n evs) = ev_id <$> List.find _is_available evs.
Proof.
  revert n. induction evs as [|e evs IH]; intros n; simpl; [done |].
  change (_is_available (with_notes ?l e)) with (_is_available e). by destruct (_is_available e); [| apply IH].
Qed.

Lemma annotate_proper data r : proper_ranking r -> proper_ranking (_annotate_provenance data r).
Proof.
  intros (Hs & Hn & Hp). unfold _annotate_provenance. split_and!; cbn [evaluations recommended_listing_id].
  - clear Hp. generalize 0. induction Hs as [|e evs Hs IH He]; intros n; simpl; [constructor |].
    inversion Hn as [|? ? _ Hn']; subst. constructor; [by apply IH |].
    apply Forall_forall. intros x' (x & Hx & H1 & H2 & H3)%annotated_elem.
    rewrite Forall_forall in He. specialize (He x Hx). unfold ranks_before, ev_out_of_stock in *.
    by rewrite H1, H2.
  - apply Forall_forall. intros x' (x & Hx & H1 & -> & H3)%annotated_elem.
    rewrite Forall_forall in Hn. by apply Hn.
  - rewrite Hp. symmetry. apply annotated_find.
Qed.

Lemma ranked_proper weights q ls r : rank weights q ls = Ok r -> Forall faithful ls -> proper_ranking r.
Proof.
  intros H Hf. split_and!; [by eapply evaluations_sorted | by eapply evaluations_numbers |].
  by destruct (rank_ok_inv _ _ _ _ H) as (_ & _ & _ & Hp & _).
Qed.

(** The rankings the service makes of marketplace listings. *)
Lemma basket_ranking weights data q (given : MarketplaceListing -> DealListingAttributes) ms r :
  rank weights q (map (fun m => to_scoreable_listing m (Some (given m))) ms) = Ok r ->
  let r' := _annotate_provenance data r in
  proper_ranking r' /\ _has_mixed_currency_signal (evaluations r') = false.
Proof.
  intros H. set (ls := map _ ms) in H.
  assert (Hls : forall l, l ∈ ls -> faithful l /\ ml_currency (source_of l) = currency l).
  { intros l (m & <- & _)%list_elem_of_In%in_map_iff. done. }
  assert (Hf : Forall faithful ls) by (apply Forall_forall; intros l Hl; by apply Hls).
  cbv zeta. split; [by eapply annotate_proper, ranked_proper |].
  destruct (rank_ok_inv _ _ _ _ H) as (_ & _ & _ & _ & Hlen & Hne & Hcur).
  apply (one_currency_iff ls Hne) in Hlen.
  destruct (ranking_is_best_first _ _ _ _ H Hf) as (_ & _ & _ & Hev).
  apply (one_currency_shown _ (rr_currency r)). intros e' (e & He & -> & _)%annotated_elem.
  destruct (Hev e He) as (l & s & Hl & _ & -> & _). rewrite (proj2 (Hls l Hl)), Hcur.
  destruct ls as [|l0 ls']; [by apply not_elem_of_nil in Hl |]. symmetry. by apply first_currency.
Qed.

(** What a recommendation of the service says of the listings it ranked. *)
Definition sound_advice (evs : list ListingEvaluation) (a : Recommendation) : Prop :=
  match rec_listing_id a with
  | Some i => exists e, ev_id e = i /\ best_available evs e
  | None => (decision a = AVOID /\ evs <> [] /\ forall e, e ∈ evs -> _is_available e = false)
            \/ (decision a = INSUFFICIENT_INFORMATION /\ evs = [])
  end.

Lemma recommend_sound r a :
  proper_ranking r -> _has_mixed_currency_signal (evaluations r) = false -> recommend r = Ok a ->
  sound_advice (evaluations r) a.
Proof.
  intros Hp Hm [(first & others & Ha & H) | (Hid & _ & Hd)]%recommend_inv; unfold sound_advice.
  - destruct (advise_inv _ _ _ _ H) as [-> _]. eexists. split; [done |]. by apply selected_is_best.
  - rewrite Hid. destruct Hd as [(Hd & Hne & Hav) | [Hd [He | He]]]; [left | by right | congruence].
    split_and!; [done | done |]. intros x Hx. destruct (_is_available x) eqn:E; [| done].
    assert (x ∈ _available_evaluations (evaluations r)) as Hin by by apply filter_elem.
    rewrite Hav in Hin. by apply not_elem_of_nil in Hin.
Qed.

Lemma basket_advice weights data cleaned q given ms sr :
  advise_on cleaned (let! r := rank weights q (map (fun m => to_scoreable_listing m (Some (given m))) ms) in
                     Ok (_annotate_provenance data r)) = Ok sr ->
  sound_advice (evaluations (sr_ranking sr)) (sr_recommendation sr).
Proof.
  destruct (rank _ _ _) as [r | [message| | |]] eqn:Er; cbn [rbind advise_on]; try done.
  - pose proof (basket_ranking _ data _ _ _ _ Er) as [Hp Hm]. unfold recommend_from_ranking.
    destruct (recommend _) as [a|] eqn:Ea; cbn [rbind]; [| done]. intros <-%Ok_inj. by apply recommend_sound.
  - intros <-%Ok_inj. unfold _validation_fallback. destruct (contains _ _); by right.
Qed.

(** C24: The shopping advice about any listings, by the whole pipeline of
    enrichment, ranking, annotation and recommendation: a recommended listing is
    available and no available listing of the ranking scores more; none is
    recommended only when every listing is out of stock, or nothing was ranked. *)
Theorem recommended_listing_is_best_available weights data q ms overrides sr :
  recommend_from_listings weights data q ms overrides = Ok sr ->
  sound_advice (evaluations (sr_ranking sr)) (sr_recommendation sr).
Proof. apply (basket_advice weights data _ _ (attributes_for overrides)). Qed.

(** The same of a search over any connectors. *)
Lemma searched_listing_is_best_available weights connectors data q sr :
  shopping_recommend weights connectors data q = Ok sr ->
  sound_advice (evaluations (sr_ranking sr)) (sr_recommendation sr).
Proof.
  unfold shopping_recommend, deal_recommend.
  destruct (search connectors (strip q)) as [[cleaned found] | e]; cbn [rbind].
  - apply (basket_advice weights data _ _ resolve_deal_attributes).
  - unfold advise_on. destruct e as [message| | |]; try done. intros <-%Ok_inj.
    unfold _validation_fallback. destruct (contains _ _); by right.
Qed.
End Best.
Import Best.

(** ** Runs *)
Module AdviceExamples.
Import DealExamples.

Example three_offers_ranked :
  match rank DEFAULT_WEIGHTS " phone " three_offers with
  | Ok r => (rr_query r, repr (market_average_total_cost r), recommended_listing_id r,
             map (fun e => (ev_id e, repr (ev_score e), repr (ev_cost e), rank_of (deal_score e)))
               (evaluations r))
  | Err _ => ("", "", None, [])
  end
  = ("phone", "73548.5", Some "1001001",
     [("1001001", "90.0", "74999.0", 1); ("2002002", "88.5", "72098.0", 2); ("77", "42.0", "69000.0", 3)])%string.
Proof. vm_compute. reflexivity. Qed.

Example three_offers_advised :
  match rank DEFAULT_WEIGHTS "phone" three_offers with
  | Ok r => match recommend r with
            | Ok a => (decision a, rec_listing_id a, headline a, repr (conf_value (confidence a)),
                       map reason_text (reasoning a), tradeoffs a, rec_warnings a,
                       map (fun x => (alt_listing_id x, alt_label x)) (alternatives a))
            | Err _ => (BUY, None, "", "", [], [], [], [])
            end
  | Err _ => (BUY, None, "", "", [], [], [], [])
  end%string
  = (CONSIDER, Some "1001001", "Worth considering", "0.88",
   ["It has a DealScore of 90.0, the highest among the available listings.";
    "Its total cost is ₱2,901 higher than the cheapest listing.";
    "The recommended listing costs ₱2,901 more than the cheapest option, but gains 1.5 DealScore points from stronger seller protection, shipping, and availability.";
    "Its total cost is 2.0% above the market average (₱73,548.50).";
    "It is sold by an official or authorized store.";
    "The seller rating is strong (4.90/5)."; "Shipping is free.";
    "Warranty coverage is 12 months."],
   ["It is not the cheapest listing.";
    "The lowest-priced alternative saves ₱2,901 but has a shorter return window.";
    "The return window is shorter than the strongest option in this set."],
   ["Marketplace results are based on mocked connector data, not live marketplace APIs."],
   [("2002002", "Lowest total cost")])%string.
Proof. vm_compute. reflexivity. Qed.
Lemma ok_of {E A} (r : result E A) : is_ok r = true -> exists x, r = Ok x.
Proof. destruct r as [x|]; [by exists x | done]. Qed.

Definition two_offers : list MarketplaceListing :=
  [offer "shopee" "1001004" 5000000 (Some (of_ratio 49 10)) IN_STOCK;
   offer "lazada" "2002001" 5600000 (Some (of_ratio 45 10)) IN_STOCK].

Definition scored_first : ScoreableListing := to_scoreable_listing (offer "shopee" "1001004" 5000000 None IN_STOCK) None.

Lemma scores_lie_on_the_scale_witness :
  exists s, _score_listing DEFAULT_WEIGHTS scored_first [S754_nan] S754_nan 0 = Ok s
    /\ Forall on_scale (score s :: all_scores (components s)) /\ rating s = rating_for_score (score s).
Proof.
  destruct (ok_of (_score_listing DEFAULT_WEIGHTS scored_first [S754_nan] S754_nan 0)) as [s Hs]; [vm_compute; reflexivity |].
  exists s. split; [exact Hs |].
  exact (scores_lie_on_the_scale DEFAULT_WEIGHTS scored_first [S754_nan] S754_nan 0 s Hs).
Defined.

Lemma three_faithful : Forall faithful three_offers.
Proof. repeat apply Forall_cons_2; [reflexivity.. | apply Forall_nil_2]. Qed.

Lemma ranking_is_best_first_witness :
  exists r, rank DEFAULT_WEIGHTS "phone" three_offers = Ok r
    /\ Permutation (map ev_listing (evaluations r)) (map source_of three_offers)
    /\ map (fun e => rank_of (deal_score e)) (evaluations r) = seqZ 1 (Z.of_nat (length three_offers))
    /\ StronglySorted ranks_before (evaluations r)
    /\ forall e, e ∈ evaluations r -> exists l s, l ∈ three_offers
         /\ _score_listing DEFAULT_WEIGHTS l (peer_costs_of three_offers) (market_average_total_cost r) 0 = Ok s
         /\ ev_listing e = source_of l /\ ev_attributes e = attributes l
         /\ deal_score e = with_rank (rank_of (deal_score e)) s.
Proof.
  destruct (ok_of (rank DEFAULT_WEIGHTS "phone" three_offers)) as [r Hr]; [vm_compute; reflexivity |].
  exists r. split; [exact Hr |]. exact (ranking_is_best_first DEFAULT_WEIGHTS "phone" three_offers r Hr three_faithful).
Defined.

Definition advised (ms : list MarketplaceListing) : result deal_error ShoppingRecommendationResult :=
  recommend_from_listings DEFAULT_WEIGHTS None " phone " ms [].

Definition outcome (r : result deal_error ShoppingRecommendationResult)
    : option (PurchaseDecision * option string * string * list string) :=
  match r with
  | Ok sr => let a := sr_recommendation sr in
             Some (decision a, rec_listing_id a, repr (conf_value (confidence a)), map alt_listing_id (alternatives a))
  | Err _ => None
  end.

Example advised_two : outcome (advised two_offers) = Some (BUY, Some "1001004", "0.92", [])%string.
Proof. vm_compute. reflexivity. Qed.

Lemma recommended_listing_is_best_available_witness :
  exists sr, advised two_offers = Ok sr /\ sound_advice (evaluations (sr_ranking sr)) (sr_recommendation sr).
Proof.
  destruct (ok_of (advised two_offers)) as [sr Hr]; [vm_compute; reflexivity |].
  exists sr. split; [exact Hr |].
  exact (recommended_listing_is_best_available DEFAULT_WEIGHTS None " phone " two_offers [] sr Hr).
Defined.

Lemma two_offers_bought :
  exists r a, rank DEFAULT_WEIGHTS "phone" (map (fun l => to_scoreable_listing l None) two_offers) = Ok r
    /\ recommend r = Ok a /\ decision a = BUY.
Proof.
  destruct (ok_of (rank DEFAULT_WEIGHTS "phone" (map (fun l => to_scoreable_listing l None) two_offers)))
    as [r Hr]; [vm_compute; reflexivity |].
  assert (H : match rank DEFAULT_WEIGHTS "phone" (map (fun l => to_scoreable_listing l None) two_offers) with
              | Ok r => match recommend r with Ok a => decision a | Err _ => AVOID end
              | Err _ => AVOID end = BUY) by (vm_compute; reflexivity).
  rewrite Hr in H. destruct (recommend r) as [a|] eqn:Ea; [| discriminate H].
  exists r, a. split; [exact Hr | split; [exact Ea | exact H]].
Qed.

Lemma a_buy_is_backed_witness : exists r a, recommend r = Ok a /\ decision a = BUY /\ buy_is_backed r a.
Proof.
  destruct two_offers_bought as (r & a & _ & Ha & Hd). exists r, a. split; [exact Ha |]. split; [exact Hd |].
  exact (a_buy_is_backed r a Ha Hd).
Defined.

Lemma three_offers_recommended :
  exists r a, recommend r = Ok a /\ map alt_listing_id (alternatives a) = ["2002002"]%string.
Proof.
  destruct (ok_of (rank DEFAULT_WEIGHTS "phone" three_offers)) as [r Hr]; [vm_compute; reflexivity |].
  assert (H : match rank DEFAULT_WEIGHTS "phone" three_offers with
              | Ok r => match recommend r with Ok a => map alt_listing_id (alternatives a) | Err _ => [] end
              | Err _ => [] end = ["2002002"]%string) by (vm_compute; reflexivity).
  rewrite Hr in H. destruct (recommend r) as [a|] eqn:Ea; [| discriminate H].
  exists r, a. split; [exact Ea | exact H].
Qed.

Lemma alternatives_are_other_available_listings_witness :
  exists r a, recommend r = Ok a /\ map alt_listing_id (alternatives a) = ["2002002"]%string
    /\ NoDup (map alt_listing_id (alternatives a))
    /\ forall i, i ∈ map alt_listing_id (alternatives a) ->
         rec_listing_id a <> Some i
         /\ exists e, e ∈ evaluations r /\ _is_available e = true /\ ev_id e = i.
Proof.
  destruct three_offers_recommended as (r & a & Ha & Hi). exists r, a. split; [exact Ha |]. split; [exact Hi |].
  exact (alternatives_are_other_available_listings r a Ha).
Defined.

(** Four listings with no attributes at all: [noncritical_missing] asks for
    fewer than four missing ones, so nothing holds the advice back from BUY. *)
Definition bare (i : string) (s cost : Z) : ListingEvaluation :=
  {| ev_listing := {| ml_marketplace := "shopee"; ml_product_id := i; ml_title := "Phone"; ml_price := of_Z cost;
       ml_currency := "PHP"; ml_seller := ""; ml_rating := None; ml_url := ""; ml_availability := IN_STOCK |};
     ev_attributes := Attributes None None None None;
     deal_score := {| ds_listing_id := i; ds_marketplace := "shopee"; score := of_Z s; rating := rating_for_score (of_Z s);
       rank_of := 1; ds_total_cost := of_Z cost;
       components := {| price_score := of_Z s; seller_score := of_Z s; shipping_score := of_Z s; availability_score := of_Z s;
         official_store_score := of_Z s; warranty_score := of_Z s; return_policy_score := of_Z s |};
       explanation := []; ds_warnings := []; applied_weights := [] |} |}.
Definition bare_ranking : RankingResult :=
  {| rr_query := "phone"; rr_currency := "PHP"; market_average_total_cost := of_Z 105; recommended_listing_id := Some "a"%string;
     evaluations := [bare "a" 95 100; bare "b" 80 105; bare "c" 80 110; bare "d" 80 105] |}.

Example bought_without_attributes :
  match recommend bare_ranking with Ok a => (decision a, repr (conf_value (confidence a))) | Err _ => (WAIT, ""%string) end
  = (BUY, "0.88"%string).
Proof. vm_compute. reflexivity. Qed.
End AdviceExamples.
