(* ===== verification/IsoTime.v ===== *)
(** [datetime.isoformat], [date.isoformat] and the [fromisoformat] that reads
    them back, over the proleptic Gregorian calendar.

    An aware [datetime] is its instant ([Clock]), printed in UTC; an offset is
    read and subtracted. [fromisoformat] accepts more spellings than these; the
    texts the persistence codec stores are those of [isoformat]. Python has no
    instant outside the years 1 to 9999: such a [datetime] of the model prints as
    a signed count of microseconds after an at sign. *)

From S2P Require Import Prelude PyStr Clock Password.
#[local] Open Scope Z_scope.

Module IsoTime.

(** ** The calendar *)

(** Days since 1970-01-01 to (year, month, day), by eras of 400 years that
    start in March. *)
Definition civil_from_days (n : Z) : Z * Z * Z :=
  let z := n + 719468 in
  let era := z / 146097 in
  let doe := z mod 146097 in
  let yoe := (doe - doe / 1460 + doe / 36524 - doe / 146096) / 365 in
  let doy := doe - (365 * yoe + yoe / 4 - yoe / 100) in
  let mp := (5 * doy + 2) / 153 in
  let d := doy - (153 * mp + 2) / 5 + 1 in
  let m := if mp <? 10 then mp + 3 else mp - 9 in
  (yoe + era * 400 + (if m <=? 2 then 1 else 0), m, d).

Definition days_from_civil (date : Z * Z * Z) : Z :=
  let '(y, m, d) := date in
  let y := y - (if m <=? 2 then 1 else 0) in
  let era := y / 400 in
  let yoe := y mod 400 in
  let doy := (153 * (m + (if 2 <? m then -3 else 9)) + 2) / 5 + d - 1 in
  let doe := yoe * 365 + yoe / 4 - yoe / 100 + doy in
  era * 146097 + doe - 719468.

Example dates :
  map civil_from_days [0; 19782; -719162; 2932896; 11016]
  = [(1970, 1, 1); (2024, 2, 29); (1, 1, 1); (9999, 12, 31); (2000, 2, 29)].
Proof. reflexivity. Qed.

Lemma civil_parts n :
  let z := n + 719468 in
  let doe := z mod 146097 in
  let yoe := (doe - doe / 1460 + doe / 36524 - doe / 146096) / 365 in
  let doy := doe - (365 * yoe + yoe / 4 - yoe / 100) in
  0 <= yoe < 400 /\ 0 <= (5 * doy + 2) / 153 < 12.
Proof.
  cbv zeta. pose proof (Z.mod_pos_bound (n + 719468) 146097 ltac:(lia)).
  set (doe := (n + 719468) mod 146097) in *. clearbody doe.
  Z.to_euclidean_division_equations. lia.
Qed.

(** The day number of a date is the one it came from. *)
Lemma days_of_civil n : days_from_civil (civil_from_days n) = n.
Proof.
  pose proof (civil_parts n) as H. cbv zeta in H. unfold civil_from_days, days_from_civil. cbv zeta.
  pose proof (Z.div_mod (n + 719468) 146097 ltac:(lia)) as Hz.
  set (era := (n + 719468) / 146097) in *. set (doe := (n + 719468) mod 146097) in *.
  set (yoe := (doe - doe / 1460 + doe / 36524 - doe / 146096) / 365) in *.
  set (doy := doe - (365 * yoe + yoe / 4 - yoe / 100)) in *.
  set (mp := (5 * doy + 2) / 153) in *. destruct H as [Hy Hm].
  assert (Hera : (yoe + era * 400) / 400 = era) by (rewrite Z.div_add, Z.div_small; lia).
  assert (Hyoe : (yoe + era * 400) mod 400 = yoe) by (rewrite Z.mod_add, Z.mod_small; lia).
  destruct (mp <? 10) eqn:E; bool_simpl.
  - replace (mp + 3 <=? 2) with false by (symmetry; apply Z.leb_gt; lia).
    replace (2 <? mp + 3) with true by (symmetry; apply Z.ltb_lt; lia).
    rewrite Z.add_0_r, Z.sub_0_r, Hera, Hyoe. replace (mp + 3 + -3) with mp by lia. lia.
  - replace (mp - 9 <=? 2) with true by (symmetry; apply Z.leb_le; lia).
    replace (2 <? mp - 9) with false by (symmetry; apply Z.ltb_ge; lia).
    replace (yoe + era * 400 + 1 - 1) with (yoe + era * 400) by lia.
    rewrite Hera, Hyoe. replace (mp - 9 + 9) with mp by lia. lia.
Qed.

(** ** Fields of fixed width *)

Definition digit_char (d : Z) : ascii := ascii_of_nat (48 + Z.to_nat d).

Fixpoint field (width : nat) (n : Z) : list ascii :=
  match width with
  | O => []
  | Datatypes.S w => digit_char (n / 10 ^ Z.of_nat w) :: field w (n mod 10 ^ Z.of_nat w)
  end.

Fixpoint read_field (width : nat) (acc : Z) (l : list ascii) : option (Z * list ascii) :=
  match width with
  | O => Some (acc, l)
  | Datatypes.S w =>
      match l with
      | c :: r => if is_digit c then read_field w (10 * acc + Int.digit_value c) r else None
      | [] => None
      end
  end.

Definition expect (c : ascii) (l : list ascii) : option (list ascii) :=
  match l with x :: r => if Ascii.eqb x c then Some r else None | [] => None end.

Lemma digit_char_reads d :
  0 <= d < 10 -> is_digit (digit_char d) = true /\ Int.digit_value (digit_char d) = d.
Proof.
  intros H. assert (d = 0 \/ d = 1 \/ d = 2 \/ d = 3 \/ d = 4 \/ d = 5 \/ d = 6 \/ d = 7 \/ d = 8 \/ d = 9) as Hd by lia.
  by repeat destruct Hd as [-> | Hd]; [..| subst d].
Qed.

Lemma read_field_text w n acc r :
  0 <= n < 10 ^ Z.of_nat w -> read_field w acc (field w n ++ r) = Some (acc * 10 ^ Z.of_nat w + n, r).
Proof.
  revert n acc. induction w as [|w IH]; intros n acc H; [simpl in *; f_equal; f_equal; lia |].
  rewrite Nat2Z.inj_succ, Z.pow_succ_r in * by lia. cbn [field read_field app].
  assert (0 < 10 ^ Z.of_nat w) by (apply Z.pow_pos_nonneg; lia).
  destruct (digit_char_reads (n / 10 ^ Z.of_nat w)) as [-> ->].
  { split; [apply Z.div_pos; lia | apply Z.div_lt_upper_bound; lia]. }
  rewrite IH by (apply Z.mod_pos_bound; lia). f_equal. f_equal.
  pose proof (Z.div_mod n (10 ^ Z.of_nat w) ltac:(lia)). lia.
Qed.

(** ** Dates *)

Definition date_ok (date : Z * Z * Z) : bool :=
  let '(y, _, _) := date in (1 <=? y) && (y <=? 9999).

Definition date_chars (date : Z * Z * Z) : list ascii :=
  let '(y, m, d) := date in field 4 y ++ "-"%char :: field 2 m ++ "-"%char :: field 2 d.

(** A date that is not in the calendar is a [ValueError]. *)
Definition read_date (l : list ascii) : option (Z * list ascii) :=
  '(y, l) ← read_field 4 0 l; l ← expect "-" l; '(m, l) ← read_field 2 0 l; l ← expect "-" l;
  '(d, l) ← read_field 2 0 l;
  let n := days_from_civil (y, m, d) in
  if date_ok (y, m, d) && bool_decide (civil_from_days n = (y, m, d)) then Some (n, l) else None.

(** Microseconds after an at sign, for what Python does not have. *)
Definition odd_chars (n : Z) : list ascii :=
  "@"%char :: (if n <? 0 then "-"%char else "+"%char) :: chars (Int.str_int (Z.abs n)).
Definition read_odd (l : list ascii) : option Z :=
  match l with
  | "@"%char :: sign :: r =>
      n ← Int.py_int (of_chars r); Some (if Ascii.eqb sign "-" then - n else n)
  | _ => None
  end.

Definition date_isoformat (n : Z) : string :=
  of_chars (let date := civil_from_days n in if date_ok date then date_chars date else odd_chars n).
Definition date_fromisoformat (s : string) : option Z :=
  match read_odd (chars s) with
  | Some n => Some n
  | None => '(n, l) ← read_date (chars s); match l with [] => Some n | _ => None end
  end.

(** ** Instants *)

Definition day_us : Z := 86400000000.

Definition time_chars (us : Z) : list ascii :=
  let s := us / 1000000 in let f := us mod 1000000 in
  field 2 (s / 3600) ++ ":"%char :: field 2 (s / 60 mod 60) ++ ":"%char :: field 2 (s mod 60)
  ++ (if f =? 0 then [] else "."%char :: field 6 f).

Definition datetime_isoformat (d : datetime) : string :=
  of_chars
    (let date := civil_from_days (dt_us d / day_us) in
     if date_ok date
     then date_chars date ++ "T"%char :: time_chars (dt_us d mod day_us)
          ++ (if dt_aware d then chars "+00:00" else [])
     else "@"%char :: (if dt_aware d then "A"%char else "N"%char) :: odd_chars (dt_us d)).

Definition read_time (l : list ascii) : option (Z * list ascii) :=
  '(h, l) ← read_field 2 0 l; l ← expect ":" l; '(m, l) ← read_field 2 0 l; l ← expect ":" l;
  '(s, l) ← read_field 2 0 l;
  if (h <? 24) && (m <? 60) && (s <? 60) then
    let t := (h * 3600 + m * 60 + s) * 1000000 in
    match l with
    | "."%char :: r => '(f, r) ← read_field 6 0 r; Some (t + f, r)
    | _ => Some (t, l)
    end
  else None.

(** Nothing for a naive instant, [Z] or an offset of hours and minutes. *)
Definition read_offset (l : list ascii) : option (option Z) :=
  match l with
  | [] => Some None
  | ["Z"%char] => Some (Some 0)
  | sign :: r =>
      if Ascii.eqb sign "+" || Ascii.eqb sign "-" then
        '(h, r) ← read_field 2 0 r; r ← expect ":" r; '(m, r) ← read_field 2 0 r;
        match r with
        | [] => if (h <? 24) && (m <? 60)
                then let us := (h * 60 + m) * 60000000 in Some (Some (if Ascii.eqb sign "-" then - us else us))
                else None
        | _ => None
        end
      else None
  end.

Definition read_instant (l : list ascii) : option datetime :=
  '(n, l) ← read_date l;
  match l with
  | [] => Some (Datetime (n * day_us) false)
  | _ =>
      l ← expect "T" l; '(t, l) ← read_time l; o ← read_offset l;
      Some (match o with
            | None => Datetime (n * day_us + t) false
            | Some us => Datetime (n * day_us + t - us) true
            end)
  end.

Definition datetime_fromisoformat (s : string) : option datetime :=
  match chars s with
  | "@"%char :: aware :: l => n ← read_odd l; Some (Datetime n (Ascii.eqb aware "A"))
  | l => read_instant l
  end.

Example iso_texts :
  (datetime_isoformat (Datetime 1735689600000000 true), datetime_isoformat (Datetime 1735693323000042 false),
   datetime_fromisoformat "2025-01-01T08:00:00+08:00", datetime_fromisoformat "2025-02-29T00:00:00",
   datetime_fromisoformat "2024-02-29", date_isoformat 20000,
   datetime_fromisoformat (datetime_isoformat (Datetime (- 10 ^ 20) true)))
  = ("2025-01-01T00:00:00+00:00", "2025-01-01T01:02:03.000042", Some (Datetime 1735689600000000 true), None,
     Some (Datetime 1709164800000000 false), "2024-10-04", Some (Datetime (- 10 ^ 20) true))%string.
Proof. vm_compute. reflexivity. Qed.

(** ** Reading back what was printed *)

Lemma civil_fields n :
  let '(_, m, d) := civil_from_days n in 1 <= m <= 12 /\ 1 <= d <= 31.
Proof.
  pose proof (civil_parts n) as H. cbv zeta in H. unfold civil_from_days. cbv zeta.
  pose proof (Z.mod_pos_bound (n + 719468) 146097 ltac:(lia)) as Hdoe.
  set (doe := (n + 719468) mod 146097) in *.
  set (yoe := (doe - doe / 1460 + doe / 36524 - doe / 146096) / 365) in *.
  set (doy := doe - (365 * yoe + yoe / 4 - yoe / 100)) in *.
  set (mp := (5 * doy + 2) / 153) in *. split.
  - destruct (mp <? 10) eqn:E; bool_simpl; lia.
  - clearbody doy. subst mp. Z.to_euclidean_division_equations. lia.
Qed.

Lemma read_date_text n r :
  date_ok (civil_from_days n) = true -> read_date (date_chars (civil_from_days n) ++ r) = Some (n, r).
Proof.
  pose proof (civil_fields n) as Hf. pose proof (days_of_civil n) as Hd.
  destruct (civil_from_days n) as [[y m] d] eqn:Ec. intros Hok.
  unfold date_chars, read_date. rewrite <- !app_assoc, <- !app_comm_cons, <- !app_assoc, <- !app_comm_cons.
  assert (1 <= y <= 9999) by (unfold date_ok in Hok; apply andb_prop in Hok as [? ?]; lia).
  rewrite read_field_text by lia. cbn [mbind option_bind expect]. rewrite Ascii.eqb_refl. cbn [mbind option_bind].
  rewrite read_field_text by lia. cbn [mbind option_bind expect]. rewrite Ascii.eqb_refl. cbn [mbind option_bind].
  rewrite read_field_text by lia. cbn [mbind option_bind]. rewrite !Z.mul_0_l, !Z.add_0_l, Hd, Ec, Hok.
  by rewrite bool_decide_true.
Qed.

Lemma read_odd_text n : read_odd (odd_chars n) = Some n.
Proof.
  unfold odd_chars, read_odd. destruct (n <? 0) eqn:E; rewrite of_chars_chars, Int.py_int_str by lia;
    bool_simpl; cbn; f_equal; lia.
Qed.

Lemma not_odd c l : is_digit c = true -> read_odd (c :: l) = None.
Proof. by destruct c as [[] [] [] [] [] [] [] []]. Qed.

Lemma date_starts n r :
  date_ok (civil_from_days n) = true ->
  exists c l, date_chars (civil_from_days n) ++ r = c :: l /\ is_digit c = true.
Proof.
  destruct (civil_from_days n) as [[y m] d]. intros [H1 H2]%andb_prop. bool_simpl.
  unfold date_chars. cbn [field app]. do 2 eexists. split; [done |].
  apply digit_char_reads. split; [apply Z.div_pos; lia | apply Z.div_lt_upper_bound; lia].
Qed.

Lemma date_round_trip n : date_fromisoformat (date_isoformat n) = Some n.
Proof.
  unfold date_isoformat, date_fromisoformat. cbv zeta. rewrite chars_of_chars.
  destruct (date_ok (civil_from_days n)) eqn:E; [| by rewrite read_odd_text].
  destruct (date_starts n [] E) as (c & l & Hc & Hd). rewrite app_nil_r in Hc.
  rewrite Hc, not_odd, <- Hc by done. rewrite <- (app_nil_r (date_chars _)).
  by rewrite read_date_text.
Qed.

Lemma read_time_text t r :
  0 <= t < day_us -> (forall x, r <> "."%char :: x) -> read_time (time_chars t ++ r) = Some (t, r).
Proof.
  intros Ht Hr. unfold day_us in Ht. unfold time_chars, read_time. cbv zeta.
  set (s := t / 1000000). set (f := t mod 1000000).
  assert (0 <= s < 86400 /\ 0 <= f < 1000000 /\ t = s * 1000000 + f) as (Hs & Hf & Et).
  { subst s f. Z.to_euclidean_division_equations. lia. }
  assert (0 <= s / 3600 < 24 /\ 0 <= s / 60 mod 60 < 60 /\ 0 <= s mod 60 < 60
          /\ s / 3600 * 3600 + s / 60 mod 60 * 60 + s mod 60 = s) as (H1 & H2 & H3 & Es).
  { clearbody s. Z.to_euclidean_division_equations. lia. }
  rewrite <- !app_assoc, <- !app_comm_cons, <- !app_assoc, <- !app_comm_cons, <- !app_assoc.
  rewrite read_field_text by lia. cbn [mbind option_bind expect]. rewrite Ascii.eqb_refl. cbn [mbind option_bind].
  rewrite read_field_text by lia. cbn [mbind option_bind expect]. rewrite Ascii.eqb_refl. cbn [mbind option_bind].
  rewrite read_field_text by lia. cbn [mbind option_bind]. rewrite !Z.mul_0_l, !Z.add_0_l.
  rewrite !(proj2 (Z.ltb_lt _ _)) by lia. cbn [andb]. rewrite Es.
  destruct (f =? 0) eqn:Ef; bool_simpl.
  - cbn [app]. replace (s * 1000000) with t by lia.
    destruct r as [|c r]; [done |]. specialize (Hr r).
    destruct c as [[] [] [] [] [] [] [] []]; try reflexivity. done.
  - rewrite <- app_comm_cons, read_field_text by (simpl; lia). cbn [mbind option_bind].
    f_equal. f_equal. lia.
Qed.

(** Every instant is read back from its text. *)
Lemma datetime_round_trip d : datetime_fromisoformat (datetime_isoformat d) = Some d.
Proof.
  unfold datetime_isoformat, datetime_fromisoformat. cbv zeta. rewrite chars_of_chars.
  set (n := dt_us d / day_us). set (t := dt_us d mod day_us).
  assert (0 <= t < day_us /\ dt_us d = n * day_us + t) as [Ht Eu].
  { subst n t. unfold day_us. Z.to_euclidean_division_equations. lia. }
  destruct (date_ok (civil_from_days n)) eqn:E.
  - destruct (date_starts n ("T"%char :: time_chars t ++ (if dt_aware d then chars "+00:00" else [])) E)
      as (c & l & Hc & Hd).
    rewrite Hc. transitivity (read_instant (c :: l)); [by destruct c as [[] [] [] [] [] [] [] []] |].
    rewrite <- Hc. unfold read_instant. rewrite read_date_text by done. cbn [mbind option_bind expect].
    rewrite Ascii.eqb_refl. cbn [mbind option_bind].
    rewrite read_time_text by (done || by destruct (dt_aware d)). cbn [mbind option_bind].
    destruct d as [us []]; cbn [dt_aware dt_us] in *.
    + change (read_offset (chars "+00:00")) with (Some (Some 0)). cbn [mbind option_bind]. do 2 f_equal. lia.
    + cbn [read_offset mbind option_bind]. do 2 f_equal. lia.
  - rewrite read_odd_text. cbn [mbind option_bind]. by destruct d as [us []].
Qed.
End IsoTime.
