(* ===== verification/Codec.v ===== *)
(** The persistence codec: [app/infrastructure/persistence/codec.py]. [encode]
    turns a value into JSON data, [decode] rebuilds it under a type annotation;
    [CodecSafety] has the theorems.

    A value is a Python object the stores meet: dataclass instances carry the
    qualified name of their class and their fields in order. Enum members are all
    [StrEnum]s, so their text is their encoding: [encode] returns them as texts. Dict keys are texts, numbers and
    members. The classes and enums of the program, which [get_type_hints] and
    [importlib] find at run time, are an environment: [_resolve_qualname] is the
    lookup in it. Sets are kept in the order they are iterated. Texts that
    [isoformat] does not print are read as far as [IsoTime] does. *)

From S2P Require Import Prelude PyStr PyState Clock Float Password IsoTime.
Import PyFloat IsoTime.
#[local] Open Scope Z_scope.
#[local] Open Scope py_scope.

Module Codec.

Inductive seq_kind := KList | KTuple | KSet | KFrozenset.

#[global] Instance seq_kind_eq_dec : EqDecision seq_kind.
Proof. solve_decision. Defined.

Inductive dict_key := KeyStr (s : string) | KeyInt (z : Z) | KeyEnum (cls member : string).

#[global] Instance dict_key_eq_dec : EqDecision dict_key.
Proof. solve_decision. Defined.

Inductive value :=
| VNone
| VBool (b : bool)
| VInt (z : Z)
| VFloat (x : float)
| VStr (s : string)
| VEnum (cls member : string)
| VDatetime (d : datetime)
| VDate (days : Z)
| VDict (items : list (dict_key * value))
| VSeq (kind : seq_kind) (items : list value)
| VData (cls : string) (fields : list (string * value))
| VOther (type_name : string).

(** JSON data. *)
Inductive raw :=
| RNull
| RBool (b : bool)
| RInt (z : Z)
| RFloat (x : float)
| RStr (s : string)
| RList (items : list raw)
| RObj (fields : list (string * raw)).

(** Annotations: a dataclass, a union without [None], [list[t]] and its like,
    [dict[k, v]], an enum, [datetime], [date], [Any] or [object], anything else. *)
Inductive ann :=
| AData (cls : string)
| AUnion (args : list ann)
| ASeq (kind : seq_kind) (item : ann)
| ADict (key val : ann)
| AEnum (cls : string)
| ADatetime
| ADate
| AAny
| AOther.

Inductive codec_error :=
| TypeError (message : string)
| KeyError (key : string)
| ValueError (message : string)
| AssertionError
| ImportError (qualname : string)
| ConstructorError (message : string).

#[global] Instance codec_error_eq_dec : EqDecision codec_error.
Proof. solve_decision. Defined.

Definition res := result codec_error.

Definition r_map {A B} (f : A -> B) (r : res A) : res B := let! x := r in Ok (f x).

(** [[f(x) for x in items]]. *)
Definition each {A B} (f : A -> res B) : list A -> res (list B) :=
  fix go items := match items with
                  | [] => Ok []
                  | x :: r => let! y := f x in let! ys := go r in Ok (y :: ys)
                  end.

(** ** Encoding *)

Definition kind_name (k : seq_kind) : string :=
  match k with KList => "list" | KTuple => "tuple" | KSet => "set" | KFrozenset => "frozenset" end.

Definition typed (name : string) (rest : list (string * raw)) : raw := RObj (("__type__"%string, RStr name) :: rest).

(** [str(k)]. *)
Definition key_text (k : dict_key) : string :=
  match k with KeyStr s => s | KeyInt z => Int.str_int z | KeyEnum _ m => m end.

Fixpoint encode (v : value) : res raw :=
  match v with
  | VNone => Ok RNull
  | VBool b => Ok (RBool b)
  | VInt z => Ok (RInt z)
  | VFloat x => Ok (RFloat x)
  | VStr s => Ok (RStr s)
  | VEnum _ m => Ok (RStr m)
  | VDatetime d => Ok (typed "datetime" [("value", RStr (datetime_isoformat d))]%string)
  | VDate n => Ok (typed "date" [("value", RStr (date_isoformat n))]%string)
  | VDict items =>
      let! entries := each (fun kv => r_map (pair (key_text kv.1)) (encode kv.2)) items in
      Ok (RObj (fold_left (fun d kv => d_set kv.1 kv.2 d) entries []))
  | VSeq kind items =>
      let! encoded := each encode items in
      Ok (typed (kind_name kind) [("items"%string, RList encoded)])
  | VData cls fields =>
      let! encoded := each (fun f => r_map (pair f.1) (encode f.2)) fields in
      Ok (typed "dataclass" [("qualname", RStr cls); ("fields", RObj encoded)]%string)
  | VOther t => Err (TypeError ("Cannot encode persistence value of type " +:+ t))
  end.

(** ** Decoding *)

(** A dataclass: its fields with their hints, and its constructor on the
    keyword arguments it is given. *)
Record class_decl := ClassDecl {
  c_fields : list (string * ann);
  construct : list (string * value) -> res value;
}.

Record environment := Environment {
  classes : string -> option class_decl;
  members : string -> list string;
}.

Section Decode.
Context (env : environment).

Definition decode_enum (cls s : string) : res value :=
  if bool_decide (s ∈ members env cls) then Ok (VEnum cls s)
  else Err (ValueError (s +:+ " is not a valid " +:+ cls)).

Definition decode_datetime (s : string) : res value :=
  match datetime_fromisoformat s with
  | Some d => Ok (VDatetime d)
  | None => Err (ValueError "Invalid isoformat string")
  end.

Definition decode_date (s : string) : res value :=
  match date_fromisoformat s with
  | Some n => Ok (VDate n)
  | None => Err (ValueError "Invalid isoformat string")
  end.

(** What [set(items)] can hold. *)
Fixpoint hashable (v : value) : bool :=
  match v with
  | VSeq KTuple items => forallb hashable items
  | VSeq KFrozenset _ => true
  | VSeq _ _ | VDict _ => false
  | VData _ fields => forallb (fun f => hashable f.2) fields
  | _ => true
  end.

(** Equality of set members: texts, numbers, members, tuples of them. *)
Fixpoint value_eqb (v w : value) : bool :=
  match v, w with
  | VNone, VNone => true
  | VBool a, VBool b => Bool.eqb a b
  | VInt a, VInt b => a =? b
  | VFloat a, VFloat b => f_eqb a b
  | VStr a, VStr b | VStr a, VEnum _ b | VEnum _ a, VStr b | VEnum _ a, VEnum _ b => String.eqb a b
  | VDatetime a, VDatetime b => (dt_us a =? dt_us b) && Bool.eqb (dt_aware a) (dt_aware b)
  | VDate a, VDate b => a =? b
  | VSeq k l, VSeq k' l' =>
      bool_decide (k = k') && (fix go l l' := match l, l' with
        | [], [] => true
        | x :: r, y :: r' => value_eqb x y && go r r'
        | _, _ => false
        end) l l'
  | VData c l, VData c' l' =>
      String.eqb c c' && (fix go l l' := match l, l' with
        | [], [] => true
        | x :: r, y :: r' => String.eqb x.1 y.1 && value_eqb x.2 y.2 && go r r'
        | _, _ => false
        end) l l'
  | _, _ => false
  end.

(** First occurrences. *)
Fixpoint distinct (seen items : list value) : list value :=
  match items with
  | [] => []
  | x :: r => if existsb (value_eqb x) seen then distinct seen r else x :: distinct (x :: seen) r
  end.

(** [list(items)], [tuple(items)], [set(items)], [frozenset(items)]. *)
Definition build (kind : seq_kind) (items : list value) : res value :=
  match kind with
  | KList | KTuple => Ok (VSeq kind items)
  | KSet | KFrozenset =>
      if forallb hashable items then Ok (VSeq kind (distinct [] items)) else Err (TypeError "unhashable type")
  end.

(** Which of them an annotation or a tag asks for: a list first, then a
    frozenset, then a set, a tuple otherwise. *)
Definition asked_kind (kind : seq_kind) (tag : option string) : seq_kind :=
  let wants (k : seq_kind) := bool_decide (kind = k) || bool_decide (tag = Some (kind_name k)) in
  if wants KList then KList else if wants KFrozenset then KFrozenset else if wants KSet then KSet else KTuple.

(** The first member of a union that decodes, or the last error. *)
Definition first_of (attempts : list (res value)) (otherwise : value) : res value :=
  (fix go l (last : res value) := match l with
     | [] => last
     | Ok v :: _ => Ok v
     | Err e :: r => go r (Err e)
     end) attempts (Ok otherwise).

(** A text under an annotation. *)
Fixpoint decode_text (a : ann) (s : string) : res value :=
  match a with
  | AData cls => Err (TypeError ("Expected dict payload for " +:+ cls))
  | AUnion args => first_of (map (fun x => decode_text x s) args) (VStr s)
  | ASeq kind t =>
      let! items := each (fun c => decode_text t (String c "")) (chars s) in build (asked_kind kind None) items
  | ADict _ _ => Err AssertionError
  | AEnum cls => decode_enum cls s
  | ADatetime => decode_datetime s
  | ADate => decode_date s
  | AAny | AOther => Ok (VStr s)
  end.

(** Data as it stands: what [decode] returns unchanged. *)
Fixpoint as_is (r : raw) : value :=
  match r with
  | RNull => VNone
  | RBool b => VBool b
  | RInt z => VInt z
  | RFloat x => VFloat x
  | RStr s => VStr s
  | RList l => VSeq KList (map as_is l)
  | RObj fs => VDict (map (fun f => (KeyStr f.1, as_is f.2)) fs)
  end.

(** A number, a boolean or a list; [items] decodes what iterating it gives. *)
Fixpoint decode_plain (r : raw) (items : ann -> res (list value)) (a : ann) : res value :=
  match a with
  | AData cls => Err (TypeError ("Expected dict payload for " +:+ cls))
  | AUnion args => first_of (map (decode_plain r items) args) (as_is r)
  | ASeq kind t => let! l := items t in build (asked_kind kind None) l
  | ADict _ _ => Err AssertionError
  | AEnum cls => Err (ValueError ("not a valid " +:+ cls))
  | ADatetime | ADate => Err (ValueError "Invalid isoformat string")
  | AAny | AOther => Ok (as_is r)
  end.

(** The key a decoded value is in a dict. *)
Definition as_key (v : value) : res dict_key :=
  match v with
  | VStr s => Ok (KeyStr s)
  | VEnum cls m => Ok (KeyEnum cls m)
  | VInt z => Ok (KeyInt z)
  | _ => Err (TypeError "unsupported key")
  end.

(** Members of an object with the decoders of their values, of the members of
    their values and of the items of their values. *)
Record member := Member {
  m_raw : raw;
  m_decode : ann -> res value;
  m_fields : list (string * (ann -> res value));
  m_items : list (ann -> res value);
}.

Definition construct_from (cls : string) (data : list (string * (ann -> res value))) : res value :=
  match classes env cls with
  | None => Err (ImportError cls)
  | Some decl =>
      let! kwargs := each (fun f => match d_get f.1 data with
                                    | Some dec => let! v := dec f.2 in Ok [(f.1, v)]
                                    | None => Ok []
                                    end) (c_fields decl) in
      construct decl (concat kwargs)
  end.

Definition member_text (m : option member) : option string :=
  match m with Some m => match m_raw m with RStr s => Some s | _ => None end | None => None end.

Definition field_names (cls : string) : list string :=
  match classes env cls with Some decl => map fst (c_fields decl) | None => [] end.

(** Whether [name in data] holds of a name, or fails, for what is no object. *)
Definition mentions (data : raw) (names : list string) : bool :=
  match data with
  | RStr s => existsb (fun name => contains name s) names
  | RList l => existsb (fun name => existsb (fun x => match x with RStr s => String.eqb s name | _ => false end) l) names
  | RObj _ => false
  | _ => bool_decide (names <> [])
  end.

(** [_decode_dataclass(cls, raw)] of an object. *)
Definition decode_dataclass (cls : string) (ms : dict member) : res value :=
  if bool_decide (member_text (d_get "__type__" ms) = Some "dataclass"%string)
  then match d_get "fields" ms with
       | Some m => match m_raw m with
                   | RObj _ => construct_from cls (m_fields m)
                   | other => if mentions other (field_names cls) then Err (TypeError "indices must be integers")
                              else construct_from cls []
                   end
       | None => Err (KeyError "fields")
       end
  else construct_from cls (map (fun kv => (kv.1, m_decode kv.2)) ms).

Definition tagged_text (ms : dict member) (read : string -> res value) : res value :=
  match d_get "value" ms with
  | None => Err (KeyError "value")
  | Some m => match m_raw m with RStr s => read s | _ => Err (ValueError "Invalid isoformat string") end
  end.

(** [raw["items"]], or the names of the members. *)
Definition object_items (ms : dict member) (t : ann) : res (list value) :=
  match d_get "items" ms with
  | None => each (fun kv => decode_text t kv.1) ms
  | Some m => match m_raw m with
              | RList _ => each (fun dec => dec t) (m_items m)
              | RStr s => each (fun c => decode_text t (String c "")) (chars s)
              | RObj fs => each (fun kv => decode_text t kv.1) fs
              | _ => Err (TypeError "not iterable")
              end
  end.

(** [annotation is Any]. *)
Definition decode_any (ms : dict member) (r : raw) : res value :=
  match member_text (d_get "__type__" ms) with
  | Some tag =>
      match List.find (fun k => String.eqb (kind_name k) tag) [KList; KTuple; KSet; KFrozenset] with
      | Some kind =>
          match d_get "items" ms with
          | None => Err (KeyError "items")
          | Some _ => let! items := object_items ms AAny in build kind items
          end
      | None => Ok (as_is r)
      end
  | None => Ok (as_is r)
  end.

(** An object under an annotation. *)
Fixpoint decode_object (ms : dict member) (r : raw) (a : ann) : res value :=
  let tag := member_text (d_get "__type__" ms) in
  let by_tag (otherwise : res value) : res value :=
    if bool_decide (tag = Some "datetime"%string) then tagged_text ms decode_datetime
    else if bool_decide (tag = Some "date"%string) then tagged_text ms decode_date
    else otherwise in
  match a with
  | AData cls => decode_dataclass cls ms
  | _ =>
      if bool_decide (tag = Some "dataclass"%string) then
        match d_get "qualname" ms with
        | None => Err (KeyError "qualname")
        | Some m => match m_raw m with
                    | RStr cls => decode_dataclass cls ms
                    | _ => Err (ImportError "qualname")
                    end
        end
      else match a with
      | AData cls => decode_dataclass cls ms
      | AUnion args => first_of (map (decode_object ms r) args) (as_is r)
      | ASeq kind t => let! items := object_items ms t in build (asked_kind kind tag) items
      | ADict kt vt =>
          let! entries := each (fun kv =>
              let! k := decode_text kt kv.1 in
              let! key := as_key k in
              let! v := m_decode kv.2 vt in
              Ok (key, v)) (List.filter (fun kv => negb (String.eqb kv.1 "__type__")) ms) in
          Ok (VDict entries)
      | AEnum cls => Err (ValueError ("not a valid " +:+ cls))
      | ADatetime => tagged_text ms decode_datetime
      | ADate => if bool_decide (tag = Some "datetime"%string)
                 then tagged_text ms decode_datetime else tagged_text ms decode_date
      | AAny => by_tag (decode_any ms r)
      | AOther => by_tag (Ok (as_is r))
      end
  end.

Definition no_items (_ : ann) : res (list value) := Err (TypeError "not iterable").

Fixpoint decode (r : raw) : ann -> res value :=
  match r with
  | RNull => fun _ => Ok VNone
  | RStr s => fun a => decode_text a s
  | RList l => decode_plain r (fun t => each (fun dec => dec t) (map decode l))
  | RObj fs =>
      decode_object (map (fun kv => (kv.1, Member kv.2 (decode kv.2)
        match kv.2 with RObj fs2 => map (fun kv2 => (kv2.1, decode kv2.2)) fs2 | _ => [] end
        match kv.2 with RList l => map decode l | _ => [] end)) fs) r
  | _ => decode_plain r no_items
  end.

(** [encode_entity] of a dataclass and [decode_entity(cls, payload)]. *)
Definition encode_entity (v : value) : res raw :=
  let! r := encode v in
  match r with RObj _ => Ok r | _ => Err (TypeError "Entity encoding must produce an object") end.
Definition decode_entity (cls : string) (payload : raw) : res value := decode payload (AData cls).
End Decode.

Definition empty_env : environment := Environment (fun _ => None) (fun _ => []).

Definition back (a : ann) (v : value) : option value :=
  match encode v with
  | Ok r => match decode empty_env r a with Ok w => Some w | Err _ => None end
  | Err _ => None
  end.

Example round_trips :
  let tags := VDict [(KeyStr "tags", VSeq KTuple [VStr "a"; VDatetime (Datetime 0 true)])] in
  (back (ADict AOther (ASeq KTuple AOther)) tags = Some tags)
  /\ back (ASeq KFrozenset AOther) (VSeq KFrozenset [VStr "a"; VInt 2]) = Some (VSeq KFrozenset [VStr "a"; VInt 2])
  /\ back (ADict AOther AAny) tags = Some tags.
Proof. vm_compute. repeat split. Qed.

(** Under [Any] an object without a tag is returned as it stands, so what is
    nested in it stays encoded: a tuple inside a dict comes back as a dict. *)
Example nested_under_any_stays_encoded :
  let meta := VDict [(KeyStr "meta", VDict [(KeyStr "ids", VSeq KTuple [VStr "a"])])] in
  back (ADict AOther AAny) meta
  = Some (VDict [(KeyStr "meta", VDict [(KeyStr "ids",
      VDict [(KeyStr "__type__", VStr "tuple"); (KeyStr "items", VSeq KList [VStr "a"])])])]).
Proof. vm_compute. reflexivity. Qed.
End Codec.
