(* ===== verification/CodecSafety.v ===== *)
(** The persistence codec reads back what it wrote: which values survive under
    which annotation, and the stores whose entities do. *)

From S2P Require Import Prelude PyStr PyState Clock Float Password IsoTime Codec Connector Breaker BreakerSpec OpStore BreakerRepo.
Import IsoTime Codec.
#[local] Open Scope Z_scope.
#[local] Open Scope py_scope.

#[local] Opaque datetime_isoformat date_isoformat datetime_fromisoformat date_fromisoformat.

Module RoundTrip.

(** Returned by [decode] as it is, under [Any] or a plain annotation. *)
Fixpoint plain (v : value) : bool :=
  match v with
  | VNone | VBool _ | VInt _ | VFloat _ | VStr _ => true
  | VDict items =>
      bool_decide (NoDup (map (fun kv => key_text kv.1) items))
      && forallb (fun kv => match kv.1 with KeyStr s => negb (String.eqb s "__type__") | _ => false end
                            && plain kv.2) items
  | _ => false
  end.

Section Fits.
Context (env : environment).

Definition key_fits (k : dict_key) (kt : ann) : Prop :=
  (let! v := decode_text env kt (key_text k) in as_key v) = Ok k /\ key_text k <> "__type__"%string.

(** The values a field of this annotation keeps through the codec. *)
Inductive fits : value -> ann -> Prop :=
| fits_none a : fits VNone a
| fits_plain v a : plain v = true -> a = AAny \/ a = AOther -> fits v a
| fits_enum cls m : m ∈ members env cls -> fits (VEnum cls m) (AEnum cls)
| fits_datetime d a : a = ADatetime \/ a = AAny \/ a = AOther -> fits (VDatetime d) a
| fits_date n a : a = ADate \/ a = AAny \/ a = AOther -> fits (VDate n) a
| fits_seq kind items t :
    Forall (fun v => fits v t) items -> build kind items = Ok (VSeq kind items) ->
    fits (VSeq kind items) (ASeq kind t)
| fits_any_seq kind items :
    Forall (fun v => fits v AAny) items -> build kind items = Ok (VSeq kind items) ->
    fits (VSeq kind items) AAny
| fits_dict items kt vt :
    NoDup (map (fun kv => key_text kv.1) items) ->
    Forall (fun kv => key_fits kv.1 kt) items -> Forall (fun kv => fits kv.2 vt) items ->
    fits (VDict items) (ADict kt vt)
| fits_first v a args : fits v a -> fits v (AUnion (a :: args))
| fits_data cls decl fs a :
    classes env cls = Some decl ->
    Forall2 (fun f d => f.1 = d.1 /\ fits f.2 d.2) fs (c_fields decl) ->
    NoDup (map fst (c_fields decl)) ->
    construct decl fs = Ok (VData cls fs) ->
    (forall c, a = AData c -> c = cls) ->
    fits (VData cls fs) a.

(** What the theorem says of one value and annotation. *)
Definition kept (v : value) (a : ann) : Prop :=
  exists r, encode v = Ok r /\ decode env r a = Ok v.

(** ** Lists *)

Lemma each_encode (items : list value) t :
  Forall (fun v => kept v t) items ->
  exists rs, each encode items = Ok rs /\ each (fun dec => dec t) (map (decode env) rs) = Ok items.
Proof.
  induction 1 as [|v items (r & He & Hd) _ (rs & Hes & Hds)]; [by exists [] |].
  exists (r :: rs). cbn. by rewrite He, Hes, Hd, Hds.
Qed.

Definition decoders (fields : list (string * raw)) : list (string * (ann -> res value)) :=
  map (fun f => (f.1, decode env f.2)) fields.

Lemma d_get_in {X} (d : dict X) n x : NoDup (map fst d) -> (n, x) ∈ d -> d_get n d = Some x.
Proof.
  unfold d_get. induction d as [|[m y] d IH]; simpl; [by intros _ ?%not_elem_of_nil |].
  intros [Hm Hd]%NoDup_cons [[= -> ->] | Hin]%elem_of_cons; [by rewrite has_key_self |].
  rewrite has_key_ne; [by apply IH |]. intros ->. apply Hm.
  apply list_elem_of_In, (in_map fst _ (m, x)), list_elem_of_In, Hin.
Qed.

(** A field, its declaration and its encoding. *)
Definition field_kept (f : string * value) (d : string * ann) (e : string * raw) : Prop :=
  f.1 = d.1 /\ e.1 = d.1 /\ encode f.2 = Ok e.2 /\ decode env e.2 d.2 = Ok f.2.

Lemma encode_fields fs decls :
  Forall2 (fun f d => f.1 = d.1 /\ kept f.2 d.2) fs decls ->
  exists enc, each (fun f => r_map (pair f.1) (encode f.2)) fs = Ok enc /\ Forall3 field_kept fs decls enc.
Proof.
  induction 1 as [|[n v] [m a] fs decls (Hn & r & He & Hd) _ (enc & Hes & Hds)]; [exists []; by split; [| constructor] |].
  cbn in Hn. subst m. exists ((n, r) :: enc). cbn. cbn in He. rewrite He. cbn. rewrite Hes.
  split; [done |]. by constructor.
Qed.

Lemma decode_fields fs decls enc all :
  Forall3 field_kept fs decls enc -> (forall e, e ∈ enc -> d_get e.1 (decoders all) = Some (decode env e.2)) ->
  each (fun d => match d_get d.1 (decoders all) with
                 | Some dec => let! v := dec d.2 in Ok [(d.1, v)]
                 | None => Ok []
                 end) decls = Ok (map (fun f => [f]) fs).
Proof.
  induction 1 as [|[n v] [m a] [k r] fs decls enc (Hn & Hk & He & Hd) _ IH]; intros Hall; [done |].
  cbn in *. subst n k. pose proof (Hall (m, r) ltac:(set_solver)) as H0. cbn in H0.
  rewrite H0, Hd. cbn [rbind]. rewrite IH; [done |]. intros e Hin. apply Hall. set_solver.
Qed.

Lemma concat_single {A} (l : list A) : concat (map (fun x => [x]) l) = l.
Proof. induction l; cbn; by f_equal. Qed.

Lemma field_names fs decls enc : Forall3 field_kept fs decls enc -> map fst enc = map fst decls.
Proof. induction 1 as [|f d e fs decls enc (_ & He & _) _ IH]; cbn; [done |]. by rewrite He, IH. Qed.

Lemma decoders_get enc e :
  NoDup (map fst enc) -> e ∈ enc -> d_get e.1 (decoders enc) = Some (decode env e.2).
Proof.
  intros Hn He. apply d_get_in.
  - unfold decoders. by rewrite map_map.
  - apply list_elem_of_In, (in_map (fun f => (f.1, decode env f.2))), list_elem_of_In, He.
Qed.

(** *** Dicts *)

Lemma d_set_new {X} k (x : X) d : k ∉ map fst d -> d_set k x d = d ++ [(k, x)].
Proof.
  intros H. unfold d_set. destruct (existsb (has_key k) d) eqn:E; [| done].
  apply existsb_exists in E as ([m y] & Hin & Hk%has_key_iff). cbn in Hk. subst m. destruct H.
  by apply list_elem_of_In, (in_map fst _ (k, y)).
Qed.

Lemma d_sets_new {X} (entries d : dict X) :
  NoDup (map fst (d ++ entries)) -> fold_left (fun d kv => d_set kv.1 kv.2 d) entries d = d ++ entries.
Proof.
  revert d. induction entries as [|[k x] entries IH]; intros d H; cbn; [by rewrite app_nil_r |].
  rewrite d_set_new.
  - rewrite IH; [by rewrite <- app_assoc | by rewrite <- app_assoc].
  - rewrite map_app in H. apply NoDup_app in H as (_ & H & _). intros Hk. apply (H k Hk). cbn. set_solver.
Qed.

Definition entry_kept (kt vt : ann) (kv : dict_key * value) (e : string * raw) : Prop :=
  e.1 = key_text kv.1 /\ encode kv.2 = Ok e.2 /\ decode env e.2 vt = Ok kv.2 /\ key_fits kv.1 kt.

Lemma encode_entries kt vt items :
  Forall (fun kv => key_fits kv.1 kt) items -> Forall (fun kv => kept kv.2 vt) items ->
  exists enc, each (fun kv => r_map (pair (key_text kv.1)) (encode kv.2)) items = Ok enc
    /\ Forall2 (entry_kept kt vt) items enc.
Proof.
  induction items as [|[k v] items IH]; intros Hk Hv; [by exists [] |].
  inversion Hk as [|? ? Hk1 Hk2]; inversion Hv as [|? ? (r & He & Hd) Hv2]; subst.
  destruct (IH Hk2 Hv2) as (enc & Hes & Hds). exists ((key_text k, r) :: enc). cbn in *. rewrite He. cbn.
  rewrite Hes. split; [done |]. by constructor.
Qed.

Lemma entry_names kt vt items enc :
  Forall2 (entry_kept kt vt) items enc -> map fst enc = map (fun kv => key_text kv.1) items.
Proof. induction 1 as [|kv e items enc (He & _) _ IH]; cbn; [done |]. by rewrite He, IH. Qed.

(** ** Objects *)

(** The members [decode] makes of an object. *)
Definition member_of (kv : string * raw) : string * member :=
  (kv.1, Member kv.2 (decode env kv.2)
    match kv.2 with RObj fs2 => map (fun kv2 => (kv2.1, decode env kv2.2)) fs2 | _ => [] end
    match kv.2 with RList l => map (decode env) l | _ => [] end).

Lemma decode_robj fs : decode env (RObj fs) = decode_object env (map member_of fs) (RObj fs).
Proof. reflexivity. Qed.

Lemma d_get_member k fs : d_get k (map member_of fs) = (fun r => (member_of (k, r)).2) <$> d_get k fs.
Proof.
  unfold d_get. induction fs as [|[n r] fs IH]; [done |]. cbn [map List.find].
  change (has_key k (member_of (n, r))) with (String.eqb n k). change (has_key k (n, r)) with (String.eqb n k).
  destruct (String.eqb n k) eqn:E; [| apply IH]. apply String.eqb_eq in E. by subst n.
Qed.

Definition tag_of (r : raw) : option string :=
  match r with
  | RObj fs => match d_get "__type__" fs with Some (RStr s) => Some s | _ => None end
  | _ => None
  end.

Lemma tag_members fs : member_text (d_get "__type__" (map member_of fs)) = tag_of (RObj fs).
Proof. rewrite d_get_member. unfold tag_of. by destruct (d_get _ fs) as [[]|]. Qed.

Lemma no_type_key {X} (d : dict X) k : k ∉ map fst d -> d_get k d = None.
Proof.
  intros H. apply d_get_none. destruct (existsb _ d) eqn:E; [| done].
  apply existsb_exists in E as ([m y] & Hin & Hk%has_key_iff). cbn in Hk. subst m. destruct H.
  by apply list_elem_of_In, (in_map fst _ (k, y)).
Qed.

(** ** Values that are returned as they are *)

Lemma plain_kept v :
  plain v = true ->
  exists r, encode v = Ok r /\ as_is r = v /\ tag_of r = None
    /\ forall a, a = AAny \/ a = AOther -> decode env r a = Ok v.
Proof.
  revert v. fix IH 1. intros v. destruct v as [| | | | | | | | items | | |]; cbn; try done; intros H;
    try (eexists; split_and!; [done | done | done | by intros a [-> | ->]]).
  apply andb_prop in H as [Hn H]. apply bool_decide_eq_true in Hn.
  assert (He : exists enc, each (fun kv => r_map (pair (key_text kv.1)) (encode kv.2)) items = Ok enc
    /\ map fst enc = map (fun kv => key_text kv.1) items /\ "__type__"%string ∉ map fst enc
    /\ map (fun f => (KeyStr f.1, as_is f.2)) enc = items).
  { clear Hn. induction items as [|[k w] items IHl]; cbn in *; [exists []; split_and!; [done.. | set_solver | done] |].
    apply andb_prop in H as [[Hk Hw]%andb_prop H]. destruct (IHl H) as (enc & Hes & Hn & Ht & Ha).
    destruct (IH w Hw) as (r & Hr & Hr' & _). destruct k as [s | |]; [| done | done].
    exists ((s, r) :: enc). rewrite Hr. cbn. rewrite Hes. cbn in *.
    split_and!; [done | by rewrite Hn | | by rewrite Hr', Ha].
    apply negb_true_iff, String.eqb_neq in Hk. set_solver. }
  destruct He as (enc & -> & Hn' & Ht & Ha). cbn [rbind].
  rewrite (d_sets_new enc []) by (cbn; by rewrite Hn'). cbn [app].
  assert (Hg : tag_of (RObj enc) = None) by (unfold tag_of; by rewrite no_type_key).
  assert (Hv : as_is (RObj enc) = VDict items) by (cbn [as_is]; by rewrite Ha).
  eexists. split_and!; [done | done | done |]. intros a Hc.
  rewrite decode_robj. destruct Hc as [-> | ->]; cbn [decode_object]; unfold decode_any; rewrite tag_members, Hg;
    cbn [bool_decide]; by rewrite ?bool_decide_false, Hv.
Qed.

(** ** The round trip *)

(** [kept], and the dataclass tag is that of an instance of the class named. *)
Definition round (v : value) (a : ann) : Prop :=
  exists r, encode v = Ok r /\ decode env r a = Ok v
    /\ (tag_of r = Some "dataclass"%string ->
        exists cls fields more, v = VData cls fields /\ r = RObj more /\ d_get "qualname" more = Some (RStr cls)).

Lemma round_kept v a : round v a -> kept v a.
Proof. intros (r & He & Hd & _). by exists r. Qed.

Lemma round_enum cls m : m ∈ members env cls -> round (VEnum cls m) (AEnum cls).
Proof.
  intros H. exists (RStr m). split_and!; [done | | done]. cbn. unfold decode_enum. by rewrite bool_decide_true.
Qed.

Lemma round_datetime d a : a = ADatetime \/ a = AAny \/ a = AOther -> round (VDatetime d) a.
Proof.
  intros H. eexists. split_and!; [done | | done].
  destruct H as [-> | [-> | ->]]; cbn; unfold tagged_text; cbn; unfold decode_datetime; by rewrite datetime_round_trip.
Qed.

Lemma round_date n a : a = ADate \/ a = AAny \/ a = AOther -> round (VDate n) a.
Proof.
  intros H. eexists. split_and!; [done | | done].
  destruct H as [-> | [-> | ->]]; cbn; unfold tagged_text; cbn; unfold decode_date; by rewrite date_round_trip.
Qed.

Lemma round_seq kind items t a :
  Forall (fun v => round v t) items -> build kind items = Ok (VSeq kind items) ->
  a = ASeq kind t \/ (a = AAny /\ t = AAny) -> round (VSeq kind items) a.
Proof.
  intros Hall Hb Ha. destruct (each_encode items t) as (rs & He & Hd).
  { eapply Forall_impl; [exact Hall |]. intros v. apply round_kept. }
  exists (typed (kind_name kind) [("items"%string, RList rs)]).
  split_and!; [cbn; by rewrite He | | by destruct kind].
  unfold typed. rewrite decode_robj.
  destruct Ha as [-> | [-> ->]]; destruct kind; cbn [decode_object]; unfold decode_any, object_items; cbn; by rewrite Hd.
Qed.

Lemma round_dict items kt vt :
  NoDup (map (fun kv => key_text kv.1) items) ->
  Forall (fun kv => key_fits kv.1 kt) items -> Forall (fun kv => round kv.2 vt) items ->
  round (VDict items) (ADict kt vt).
Proof.
  intros Hn Hk Hv. destruct (encode_entries kt vt items Hk) as (enc & He & Hds).
  { eapply Forall_impl; [exact Hv |]. intros kv. apply round_kept. }
  pose proof (entry_names _ _ _ _ Hds) as Hnames.
  assert (Ht : "__type__"%string ∉ map fst enc).
  { rewrite Hnames. intros ([k v] & E & Hin%list_elem_of_In)%list_elem_of_In%in_map_iff.
    rewrite Forall_forall in Hk. destruct (Hk _ Hin) as [_ Hne]. by apply Hne. }
  assert (Hg : tag_of (RObj enc) = None) by (unfold tag_of; by rewrite no_type_key).
  exists (RObj enc). split_and!; [| | by rewrite Hg].
  { cbn. rewrite He. cbn [rbind]. by rewrite (d_sets_new enc []) by (cbn; by rewrite Hnames). }
  rewrite decode_robj. cbn [decode_object]. rewrite tag_members, Hg. rewrite bool_decide_false by done.
  assert (Hf : List.filter (fun kv : string * member => negb (String.eqb kv.1 "__type__")) (map member_of enc) = map member_of enc).
  { clear -Ht. induction enc as [|[n r] enc IH]; [done |]. cbn in *.
    destruct (String.eqb n "__type__") eqn:E; [apply String.eqb_eq in E; subst n; set_solver |]. cbn. f_equal.
    apply IH. set_solver. }
  rewrite Hf. clear -Hds.
  match goal with |- rbind ?m _ = _ => assert (m = Ok items) as ->; [| done] end.
  induction Hds as [|[k v] [n r] items enc (Hn & _ & Hd & Hkey & _) _ IH]; [done |]. cbn in *. subst n.
  destruct (decode_text env kt (key_text k)) as [w|]; cbn in *; [| done]. by rewrite Hkey, Hd, IH.
Qed.

Lemma round_data cls decl fs a :
  classes env cls = Some decl ->
  Forall2 (fun f d => f.1 = d.1 /\ round f.2 d.2) fs (c_fields decl) -> NoDup (map fst (c_fields decl)) ->
  construct decl fs = Ok (VData cls fs) -> (forall c, a = AData c -> c = cls) -> round (VData cls fs) a.
Proof.
  intros Hc Hall Hn Hk Ha. destruct (encode_fields fs (c_fields decl)) as (enc & He & H3).
  { eapply Forall2_impl; [exact Hall |]. intros f d [? ?]. split; [done | by apply round_kept]. }
  pose proof (field_names _ _ _ H3) as Hnames.
  exists (typed "dataclass" [("qualname", RStr cls); ("fields", RObj enc)]%string).
  split_and!; [cbn; by rewrite He | | intros _; by eexists _, _, _].
  assert (Hd : construct_from env cls (decoders enc) = Ok (VData cls fs)).
  { unfold construct_from. rewrite Hc, (decode_fields fs (c_fields decl) enc enc H3).
    - cbn [rbind]. by rewrite concat_single.
    - intros e. apply decoders_get. by rewrite Hnames. }
  unfold typed. rewrite decode_robj.
  destruct a as [c | | | | | | | |]; [rewrite (Ha c eq_refl) |..]; cbn; exact Hd.
Qed.

(** A value that decodes under the first member of a union decodes under the
    union. *)
Lemma round_first v a args :
  round v a -> (forall cls fields c, v = VData cls fields -> a = AData c -> c = cls) ->
  round v (AUnion (a :: args)).
Proof.
  intros (r & He & Hd & Ht) Hdata. exists r. split_and!; [done | | done].
  destruct r as [| b | z | x | s | l | fs]; [done | | | | | |].
  1-5: cbn in Hd |- *; by rewrite Hd.
  rewrite decode_robj in *.
  destruct (decide (tag_of (RObj fs) = Some "dataclass"%string)) as [Htag | Htag].
  - destruct (Ht Htag) as (cls & fields & more & -> & [= <-] & Hq).
    assert (Hu : forall a', (forall c, a' = AData c -> c = cls) ->
      decode_object env (map member_of fs) (RObj fs) a' = decode_dataclass env cls (map member_of fs)).
    { intros a' Ha. destruct a' as [c | | | | | | | |]; [by rewrite (Ha c eq_refl) |..];
        cbn [decode_object]; rewrite tag_members, Htag, d_get_member, Hq; done. }
    rewrite Hu in Hd by (intros c; by apply (Hdata cls fields)). by rewrite Hu by done.
  - assert (Hu : decode_object env (map member_of fs) (RObj fs) (AUnion (a :: args))
      = first_of (map (decode_object env (map member_of fs) (RObj fs)) (a :: args)) (as_is (RObj fs))).
    { cbn [decode_object]. rewrite tag_members. by rewrite bool_decide_false. }
    rewrite Hu. cbn [map]. by rewrite Hd.
Qed.

Lemma fits_class cls fields c : fits (VData cls fields) (AData c) -> c = cls.
Proof. intros H. inversion H; subst; try done; eauto. Qed.

Lemma fits_round : forall v a, fits v a -> round v a.
Proof.
  fix IH 3. intros v a H.
  pose (all := fix go items t (F : Forall (fun v => fits v t) items) : Forall (fun v => round v t) items :=
    match F with
    | List.Forall_nil _ => List.Forall_nil _
    | List.Forall_cons _ x l Hx HF => List.Forall_cons _ x l (IH _ _ Hx) (go l t HF)
    end).
  destruct H as [a | v a Hp Ha | cls m Hm | d a Ha | n a Ha | kind items t Hf Hb | kind items Hf Hb
    | items kt vt Hn Hk Hv | v a args Hf | cls decl fs a Hc Hf Hn Hk Ha].
  - exists RNull. by split_and!.
  - destruct (plain_kept v Hp) as (r & He & _ & Ht & Hd). exists r. split_and!; [done | by apply Hd | by rewrite Ht].
  - by apply round_enum.
  - by apply round_datetime.
  - by apply round_date.
  - apply (round_seq kind items t); [by apply all | done | by left].
  - apply (round_seq kind items AAny); [by apply all | done | by right].
  - apply round_dict; [done | done |].
    refine ((fix go items (F : Forall (fun kv => fits kv.2 vt) items) : Forall (fun kv => round kv.2 vt) items :=
      match F with
      | List.Forall_nil _ => List.Forall_nil _
      | List.Forall_cons _ x l Hx HF => List.Forall_cons _ x l (IH _ _ Hx) (go l HF)
      end) items Hv).
  - apply round_first; [by apply IH |]. intros cls fields c -> ->. by eapply fits_class.
  - apply (round_data cls decl fs a Hc); [| done | done | done].
    revert Hf. clear -IH. generalize (c_fields decl). revert fs.
    refine (fix go fs ds (F : Forall2 (fun f d => f.1 = d.1 /\ fits f.2 d.2) fs ds) {struct F} :
        Forall2 (fun f d => f.1 = d.1 /\ round f.2 d.2) fs ds := _).
    destruct F as [|x y l l' [Hn Hx] HF]; constructor; [split; [exact Hn | by apply IH] | by apply go].
Qed.

(** C32: The persistence codec reads back what it wrote: a value that fits the
    annotation it is stored under - enum members, instants, dates, sequences,
    dicts, unions by their first member, and instances of dataclasses whose
    constructor accepts their own fields, nested to any depth - is encoded, and
    decoding the JSON under that annotation gives the same value. *)
Theorem codec_reads_back_what_it_wrote v a :
  fits v a -> exists r, encode v = Ok r /\ decode env r a = Ok v.
Proof. intros H. apply round_kept, fits_round, H. Qed.

(** The same of [encode_entity] and [decode_entity]. *)
Lemma entity_round_trip cls fields :
  fits (VData cls fields) (AData cls) ->
  exists r, encode_entity (VData cls fields) = Ok r /\ decode_entity env cls r = Ok (VData cls fields).
Proof.
  intros H. destruct (fits_round _ _ H) as (r & He & Hd & _). exists r. split; [| exact Hd].
  unfold encode_entity. rewrite He. cbn [rbind]. cbn in He. destruct (each _ _); [| done].
  injection He as <-. reflexivity.
Qed.
End Fits.

Example codec_reads_back_what_it_wrote_witness :
  let tags := VDict [(KeyStr "tags", VSeq KTuple [VStr "a"; VNone]);
                     (KeyStr "at", VSeq KTuple [VStr "b"])] in
  fits empty_env tags (ADict AOther (ASeq KTuple AOther))
  /\ exists r, encode tags = Ok r /\ decode empty_env r (ADict AOther (ASeq KTuple AOther)) = Ok tags.
Proof.
  assert (H : forall s, fits empty_env (VStr s) AOther) by (intros s; apply fits_plain; [reflexivity | by right]).
  cbv zeta. split; [| apply codec_reads_back_what_it_wrote].
  all: apply fits_dict; [apply (bool_decide_unpack _); vm_compute; exact I | |].
  all: repeat (apply List.Forall_cons || apply List.Forall_nil).
  all: try (split; [reflexivity | done]).
  all: apply fits_seq; [| reflexivity].
  all: repeat (apply List.Forall_cons || apply List.Forall_nil); try apply H; apply fits_none.
Defined.
End RoundTrip.
Import RoundTrip.

(** ** The breaker rows *)
Module BreakerCodec.
Import Connector.Connector Breaker.Breaker.

Definition breaker_class : string := "app.research.reliability_state.ProviderReliabilityState".
Definition state_enum : string := "CircuitBreakerState".
Definition failure_enum : string := "ConnectorFailureKind".

Definition v_opt {A} (f : A -> value) (o : option A) : value := match o with Some x => f x | None => VNone end.

Definition breaker_fields (s : ProviderReliabilityState) : list (string * value) :=
  [("provider_id", VStr (provider_id s)); ("market", VStr (market s)); ("updated_at", VDatetime (updated_at s));
   ("state", VEnum state_enum (breaker_state_value (state s)));
   ("consecutive_failure_count", VInt (consecutive_failure_count s));
   ("last_failure_category", v_opt (fun k => VEnum failure_enum (failure_kind_value k)) (last_failure_category s));
   ("opened_at", v_opt VDatetime (opened_at s)); ("last_attempt_at", v_opt VDatetime (last_attempt_at s));
   ("last_success_at", v_opt VDatetime (last_success_at s)); ("reopen_at", v_opt VDatetime (reopen_at s));
   ("revision", VInt (revision s));
   ("half_open_probe_claim_digest", v_opt VStr (half_open_probe_claim_digest s));
   ("half_open_probe_claimed_at", v_opt VDatetime (half_open_probe_claimed_at s));
   ("half_open_probe_expires_at", v_opt VDatetime (half_open_probe_expires_at s))]%string.

Definition opt_time : ann := AUnion [ADatetime].

Definition breaker_hints : list (string * ann) :=
  [("provider_id", AOther); ("market", AOther); ("updated_at", ADatetime); ("state", AEnum state_enum);
   ("consecutive_failure_count", AOther); ("last_failure_category", AUnion [AEnum failure_enum]);
   ("opened_at", opt_time); ("last_attempt_at", opt_time); ("last_success_at", opt_time); ("reopen_at", opt_time);
   ("revision", AOther); ("half_open_probe_claim_digest", AUnion [AOther]);
   ("half_open_probe_claimed_at", opt_time); ("half_open_probe_expires_at", opt_time)]%string.

Definition all_breaker_states : list CircuitBreakerState := [CLOSED; OPEN; HALF_OPEN].

(** *** Reading the fields: one reader per type of field *)

Definition as_str (v : value) : option string := match v with VStr s => Some s | _ => None end.
Definition as_int (v : value) : option Z := match v with VInt z => Some z | _ => None end.
Definition as_time (v : value) : option datetime := match v with VDatetime d => Some d | _ => None end.
Definition as_state (v : value) : option CircuitBreakerState :=
  match v with
  | VEnum _ m => List.find (fun s => String.eqb (breaker_state_value s) m) all_breaker_states
  | _ => None
  end.
Definition as_failure (v : value) : option ConnectorFailureKind :=
  match v with
  | VEnum _ m => List.find (fun k => String.eqb (failure_kind_value k) m) all_failure_kinds
  | _ => None
  end.
Definition as_opt {A} (f : value -> option A) (v : value) : option (option A) :=
  match v with VNone => Some None | _ => Some <$> f v end.

(** An argument, or the field's default. *)
Definition arg {A} (args : list (string * value)) (name : string) (read : value -> option A)
    (otherwise : option A) : option A :=
  match d_get name args with Some v => read v | None => otherwise end.

Definition breaker_of (args : list (string * value)) : option ProviderReliabilityState :=
  provider ← arg args "provider_id" as_str None;
  code ← arg args "market" as_str None;
  updated ← arg args "updated_at" as_time None;
  phase ← arg args "state" as_state (Some CLOSED);
  failures ← arg args "consecutive_failure_count" as_int (Some 0);
  category ← arg args "last_failure_category" (as_opt as_failure) (Some None);
  opened ← arg args "opened_at" (as_opt as_time) (Some None);
  attempt ← arg args "last_attempt_at" (as_opt as_time) (Some None);
  success ← arg args "last_success_at" (as_opt as_time) (Some None);
  reopen ← arg args "reopen_at" (as_opt as_time) (Some None);
  rev ← arg args "revision" as_int (Some 0);
  digest ← arg args "half_open_probe_claim_digest" (as_opt as_str) (Some None);
  claimed ← arg args "half_open_probe_claimed_at" (as_opt as_time) (Some None);
  expires ← arg args "half_open_probe_expires_at" (as_opt as_time) (Some None);
  Some {| provider_id := provider; market := code; updated_at := updated; state := phase;
          consecutive_failure_count := failures; last_failure_category := category; opened_at := opened;
          last_attempt_at := attempt; last_success_at := success; reopen_at := reopen; revision := rev;
          half_open_probe_claim_digest := digest; half_open_probe_claimed_at := claimed;
          half_open_probe_expires_at := expires |}.

Definition breaker_value (s : ProviderReliabilityState) : value := VData breaker_class (breaker_fields s).

(** The constructor: the arguments, the defaults of the others, [__post_init__].
    Arguments of other types than the hints are outside the record. *)
Definition breaker_construct (args : list (string * value)) : res value :=
  match breaker_of args with
  | None => Err (ConstructorError "arguments outside the record")
  | Some s0 => match post_init s0 with
               | Ok s => Ok (breaker_value s)
               | Err _ => Err (ConstructorError "refused by __post_init__")
               end
  end.

Definition breaker_env : environment :=
  Environment
    (fun c => if String.eqb c breaker_class then Some (ClassDecl breaker_hints breaker_construct) else None)
    (fun e => if String.eqb e state_enum then map breaker_state_value all_breaker_states
              else if String.eqb e failure_enum then map failure_kind_value all_failure_kinds else []).

(** The payload of a row, and the entity read from it. *)
Definition encode_breaker (s : ProviderReliabilityState) : raw :=
  match encode_entity (breaker_value s) with Ok r => r | Err _ => RNull end.
Definition decode_breaker (r : raw) : option ProviderReliabilityState :=
  match decode_entity breaker_env breaker_class r with Ok (VData _ args) => breaker_of args | _ => None end.

Lemma as_opt_value {A} (f : A -> value) (read : value -> option A) o :
  (forall x, read (f x) = Some x /\ f x <> VNone) -> as_opt read (v_opt f o) = Some o.
Proof.
  intros H. destruct o as [x|]; [| done]. destruct (H x) as [Hr Hn]. unfold as_opt. cbn [v_opt].
  destruct (f x) eqn:E; try done; by rewrite <- E, Hr in *; cbn.
Qed.

Lemma as_state_value st : as_state (VEnum state_enum (breaker_state_value st)) = Some st.
Proof. by destruct st. Qed.

Lemma as_failure_value k : as_failure (VEnum failure_enum (failure_kind_value k)) = Some k.
Proof. by destruct k. Qed.

Lemma breaker_of_fields s : breaker_of (breaker_fields s) = Some s.
Proof.
  destruct s as [p m u st n k o la ls r rev dg c e]. unfold breaker_of, breaker_fields.
  cbn -[as_opt v_opt as_state as_failure breaker_state_value failure_kind_value].
  rewrite as_state_value. cbn -[as_opt v_opt as_failure failure_kind_value].
  rewrite (as_opt_value (fun k => VEnum failure_enum (failure_kind_value k)))
    by (intros x; split; [apply as_failure_value | discriminate]).
  cbn -[as_opt v_opt]. rewrite !(as_opt_value VDatetime) by done. cbn -[as_opt v_opt].
  rewrite (as_opt_value VStr) by done. reflexivity.
Qed.

Lemma fits_opt env {A} (f : A -> value) t o : (forall x, fits env (f x) t) -> fits env (v_opt f o) (AUnion [t]).
Proof. intros H. destruct o; [apply fits_first, H | apply fits_none]. Qed.

Lemma breaker_fits s : wf s -> fits breaker_env (breaker_value s) (AData breaker_class).
Proof.
  intros Hw. eapply fits_data with (decl := ClassDecl breaker_hints breaker_construct); [done | | | | by intros c [= ->]].
  - cbn [c_fields]. unfold breaker_fields, breaker_hints.
    repeat (apply Forall2_cons_2; [split; [reflexivity |] |]); [..| apply Forall2_nil_2]; cbn [snd].
    all: try (apply fits_plain; [reflexivity | by right]).
    all: try (apply fits_opt; intros x; apply fits_datetime; by left).
    + apply fits_datetime. by left.
    + apply fits_enum. cbn. destruct (state s); set_solver.
    + apply fits_opt. intros k. apply fits_enum. apply list_elem_of_In, in_map, list_elem_of_In, all_failure_kinds_complete.
    + apply fits_opt. intros x. apply fits_plain; [reflexivity | by right].
  - apply (bool_decide_unpack _). vm_compute. exact I.
  - cbn [construct]. unfold breaker_construct. by rewrite breaker_of_fields, wf_post_init.
Qed.

(** The payload of a well-formed breaker row reads back as the row. *)
Lemma breaker_codec_law s : wf s -> decode_breaker (encode_breaker s) = Some s.
Proof.
  intros H. destruct (entity_round_trip breaker_env _ _ (breaker_fits s H)) as (r & He & Hd).
  unfold encode_breaker, decode_breaker, breaker_value. rewrite He, Hd. apply breaker_of_fields.
Qed.

(** C21: The production repository of breaker rows, with the payloads the codec
    writes, is the in-memory one: every sequence of failures, successes and
    permission requests on an empty [operational_entities] table gets the
    answers the in-memory repository gives, call by call, and the rows that
    decode from the table are its rows. *)
Theorem persisted_breaker_refines_memory policy cs :
  Forall (fun c => dt_aware (Gate.gate_time c) = true) cs ->
  let mem := Gate.do_gates policy cs (∅ : InMemoryRepository.rows) in
  let ops := @Gate.do_gates _ (OperationalRepository.operational_repository encode_breaker decode_breaker)
               policy cs (OpTable [] 1) in
  mem.1 = ops.1 /\ forall k, mem.2 !! k = OperationalRepository.op_row_of decode_breaker ops.2 k.
Proof. apply (RepoRefinement.operational_refines_memory encode_breaker decode_breaker breaker_codec_law). Qed.

Example persisted_breaker_refines_memory_witness :
  let calls := [Gate.GateFailure "shopify" "us" TIMEOUT (BreakerSpec.BreakerExamples.at_s 1);
                Gate.GateSuccess " shopify" "US" (BreakerSpec.BreakerExamples.at_s 2)] in
  let mem := Gate.do_gates default_policy calls (∅ : InMemoryRepository.rows) in
  let ops := @Gate.do_gates _ (OperationalRepository.operational_repository encode_breaker decode_breaker)
               default_policy calls (OpTable [] 1) in
  mem.1 = ops.1 /\ forall k, mem.2 !! k = OperationalRepository.op_row_of decode_breaker ops.2 k.
Proof. apply (persisted_breaker_refines_memory default_policy). repeat constructor. Defined.
End BreakerCodec.
