(* ===== verification/UrlParts.v ===== *)
(** The parts of the standard library that [app/security/url_trust.py] reads
    URLs with: [urllib.parse.urlsplit] with the host and port of its result, and
    the address literals and address classes of [ipaddress]; and, for links that
    are rewritten, [urlparse], [urlunparse], [parse_qsl] and [urlencode]. *)

From S2P Require Import Prelude PyStr Password.
#[local] Open Scope Z_scope.

Definition is_ascii_char (c : ascii) : bool := (nat_of_ascii c <? 128)%nat.
Definition is_letter_char (c : ascii) : bool := is_ascii_upper c || is_ascii_lower c.

(** [text.split(c)]. *)
Fixpoint split_chars (c : ascii) (l : list ascii) : list (list ascii) :=
  match l with
  | [] => [[]]
  | x :: r =>
      if Ascii.eqb x c then [] :: split_chars c r
      else match split_chars c r with
           | p :: ps => (x :: p) :: ps
           | [] => [[x]]
           end
  end.

Definition split (c : ascii) (s : string) : list string := map of_chars (split_chars c (chars s)).

(** [text.rpartition(c)[2]]. *)
Definition after_last (c : ascii) (s : string) : string := List.last (split c s) ""%string.

(** ** Addresses: [ipaddress] *)
Module IpAddress.

Inductive address := V4 (n : Z) | V6 (n : Z).

#[global] Instance address_eq_dec : EqDecision address.
Proof. solve_decision. Defined.

Definition number (base : Z) (l : list Z) : Z := fold_left (fun n d => base * n + d) l 0.

(** [_BaseV4._parse_octet]. *)
Definition parse_octet (s : string) : option Z :=
  if negb (nonempty s) || negb (all_char is_digit s) then None
  else if 3 <? len s then None
  else if negb (String.eqb s "0") && startswith "0" s then None
  else let n := number 10 (map Int.digit_value (chars s)) in if 255 <? n then None else Some n.

Definition parse_ipv4 (s : string) : option Z :=
  match split "." s with
  | [a; b; c; d] =>
      a ← parse_octet a; b ← parse_octet b; c ← parse_octet c; d ← parse_octet d;
      Some (number 256 [a; b; c; d])
  | _ => None
  end.

(** A part between colons; the last may stand for half of an IPv4 suffix. *)
Inductive part := Text (s : string) | Half (n : Z).

Definition part_empty (p : part) : bool := match p with Text s => negb (nonempty s) | Half _ => false end.

(** [_BaseV6._parse_hextet]. *)
Definition parse_hextet (p : part) : option Z :=
  match p with
  | Half n => Some n
  | Text s =>
      if negb (nonempty s) || (4 <? len s) then None
      else digits ← mapM Hex.hex_value (chars s); Some (number 16 (map Z.of_nat digits))
  end.

(** An IPv4 suffix becomes the last two parts. *)
Definition parts_of (s : string) : option (list part) :=
  let texts := split ":" s in
  if (length texts <? 3)%nat then None
  else let last := List.last texts ""%string in
       if has_char "." last
       then n ← parse_ipv4 last;
            Some (map Text (removelast texts) ++ [Half (Z.shiftr n 16); Half (Z.land n 0xFFFF)])
       else Some (map Text texts).

(** The positions between the ends where nothing stands between two colons. *)
Definition skips (parts : list part) : list nat :=
  List.filter (fun i => match nth_error parts i with Some p => part_empty p | None => false end)
    (seq 1 (length parts - 2)).

(** How many parts are read before the gap, how many after it, and how many
    groups the gap stands for. *)
Definition layout (parts : list part) : option (nat * nat * nat) :=
  let n := length parts in
  let first_empty := match parts with p :: _ => part_empty p | [] => true end in
  let last_empty := part_empty (List.last parts (Text "")) in
  match skips parts with
  | [] => if negb (n =? 8)%nat || first_empty || last_empty then None else Some (n, 0%nat, 0%nat)
  | [k] =>
      let hi := if first_empty then (k - 1)%nat else k in
      let lo := if last_empty then (n - k - 2)%nat else (n - k - 1)%nat in
      if first_empty && negb (hi =? 0)%nat then None
      else if last_empty && negb (lo =? 0)%nat then None
      else if (8 <=? hi + lo)%nat then None
      else Some (hi, lo, (8 - (hi + lo))%nat)
  | _ => None
  end.

(** [_BaseV6._ip_int_from_string]. *)
Definition parse_groups (s : string) : option Z :=
  parts ← parts_of s;
  if (9 <? length parts)%nat then None
  else '(hi, lo, skipped) ← layout parts;
       above ← mapM parse_hextet (take hi parts);
       below ← mapM parse_hextet (drop (length parts - lo) parts);
       Some (number 65536 (above ++ repeat 0 skipped ++ below)).

(** With [_split_scope_id]; the scope itself is not kept. *)
Definition parse_ipv6 (s : string) : option Z :=
  if has_char "/" s then None
  else if has_char "%" s
       then let scope := after "%" s in
            if negb (nonempty scope) || has_char "%" scope then None else parse_groups (before "%" s)
       else parse_groups s.

(** [ipaddress.ip_address]; [None] is its [ValueError]. *)
Definition ip_address (s : string) : option address :=
  match parse_ipv4 s with
  | Some n => Some (V4 n)
  | None => V6 <$> parse_ipv6 s
  end.

(** *** Networks *)

(** An address of [width] bits is in the network of a base address and a
    prefix length. *)
Definition within (width n : Z) (net : Z * Z) : bool :=
  Z.shiftr n (width - net.2) =? Z.shiftr net.1 (width - net.2).

Definition net4 (octets : list Z) (prefix : Z) : Z * Z := (number 256 octets, prefix).

(** The groups of a base address up to its gap. *)
Definition net6 (groups : list Z) (prefix : Z) : Z * Z :=
  (number 65536 (groups ++ repeat 0 (8 - length groups)), prefix).

Definition private_networks4 : list (Z * Z) :=
  [net4 [0; 0; 0; 0] 8; net4 [10; 0; 0; 0] 8; net4 [127; 0; 0; 0] 8; net4 [169; 254; 0; 0] 16;
   net4 [172; 16; 0; 0] 12; net4 [192; 0; 0; 0] 24; net4 [192; 0; 0; 170] 31; net4 [192; 0; 2; 0] 24;
   net4 [192; 168; 0; 0] 16; net4 [198; 18; 0; 0] 15; net4 [198; 51; 100; 0] 24; net4 [203; 0; 113; 0] 24;
   net4 [240; 0; 0; 0] 4; net4 [255; 255; 255; 255] 32].
Definition private_exceptions4 : list (Z * Z) := [net4 [192; 0; 0; 9] 32; net4 [192; 0; 0; 10] 32].

Definition private_networks6 : list (Z * Z) :=
  [net6 [0; 0; 0; 0; 0; 0; 0; 1] 128; net6 [] 128; net6 [0; 0; 0; 0; 0; 0xFFFF] 96; net6 [0x64; 0xFF9B; 1] 48;
   net6 [0x100] 64; net6 [0x2001] 23; net6 [0x2001; 0xDB8] 32; net6 [0x2002] 16; net6 [0x3FFF] 20;
   net6 [0xFC00] 7; net6 [0xFE80] 10].
Definition private_exceptions6 : list (Z * Z) :=
  [net6 [0x2001; 1; 0; 0; 0; 0; 0; 1] 128; net6 [0x2001; 1; 0; 0; 0; 0; 0; 2] 128; net6 [0x2001; 3] 32;
   net6 [0x2001; 4; 0x112] 48; net6 [0x2001; 0x20] 28; net6 [0x2001; 0x30] 28].
Definition reserved_networks6 : list (Z * Z) :=
  [net6 [] 8; net6 [0x100] 8; net6 [0x200] 7; net6 [0x400] 6; net6 [0x800] 5; net6 [0x1000] 4; net6 [0x4000] 3;
   net6 [0x6000] 3; net6 [0x8000] 3; net6 [0xA000] 3; net6 [0xC000] 3; net6 [0xE000] 4; net6 [0xF000] 5;
   net6 [0xF800] 6; net6 [0xFE00] 9].

Definition is_private4 (n : Z) : bool :=
  existsb (within 32 n) private_networks4 && negb (existsb (within 32 n) private_exceptions4).

Definition ipv4_mapped (a : address) : option Z :=
  match a with
  | V4 _ => None
  | V6 n => if Z.shiftr n 32 =? 0xFFFF then Some (Z.land n 0xFFFFFFFF) else None
  end.

Definition is_private (a : address) : bool :=
  match a with
  | V4 n => is_private4 n
  | V6 n =>
      match ipv4_mapped a with
      | Some m => is_private4 m
      | None => existsb (within 128 n) private_networks6 && negb (existsb (within 128 n) private_exceptions6)
      end
  end.
Definition is_multicast (a : address) : bool :=
  match a with V4 n => within 32 n (net4 [224; 0; 0; 0] 4) | V6 n => within 128 n (net6 [0xFF00] 8) end.
Definition is_loopback (a : address) : bool :=
  match a with V4 n => within 32 n (net4 [127; 0; 0; 0] 8) | V6 n => n =? 1 end.
Definition is_link_local (a : address) : bool :=
  match a with V4 n => within 32 n (net4 [169; 254; 0; 0] 16) | V6 n => within 128 n (net6 [0xFE80] 10) end.
Definition is_unspecified (a : address) : bool := match a with V4 n | V6 n => n =? 0 end.
Definition is_reserved (a : address) : bool :=
  match a with V4 n => within 32 n (net4 [240; 0; 0; 0] 4) | V6 n => existsb (within 128 n) reserved_networks6 end.
(** The shared address space [100.64.0.0/10] is neither private nor global. *)
Definition is_global (a : address) : bool :=
  match a with V4 n => negb (within 32 n (net4 [100; 64; 0; 0] 10)) && negb (is_private a) | V6 _ => negb (is_private a) end.

Example addresses :
  map ip_address ["127.0.0.1"; "127.1"; "010.0.0.1"; "256.1.1.1"; "::1"; "::"; "fe80::1%eth0"; "::ffff:10.0.0.1";
                  "1:2:3:4:5:6:7:8"; "1::2::3"; ":1::"; "2001:DB8::12345"; "1:2:3:4:5:6:7::"]%string
  = [Some (V4 2130706433); None; None; None; Some (V6 1); Some (V6 0); Some (V6 0xFE800000000000000000000000000001);
     Some (V6 0xFFFF0A000001); Some (V6 0x00010002000300040005000600070008); None; None; None;
     Some (V6 0x00010002000300040005000600070000)].
Proof. vm_compute. reflexivity. Qed.

Example address_classes :
  map (fun s => a ← ip_address s; Some (is_private a, is_global a, is_reserved a))
    ["100.64.0.1"; "8.8.8.8"; "192.0.0.9"; "172.31.255.255"; "172.32.0.0"; "2606:4700::1111"; "fd12::1"; "2001:20::1"]%string
  = [Some (false, false, false); Some (false, true, false); Some (false, true, false); Some (true, false, false);
     Some (false, true, false); Some (false, true, false); Some (true, false, false); Some (false, true, false)].
Proof. vm_compute. reflexivity. Qed.

Lemma blocked_networks n net :
  is_global (V4 n) = true -> net ∈ private_networks4 -> existsb (within 32 n) private_exceptions4 = false ->
  within 32 n net = false.
Proof.
  cbn [is_global is_private]. intros [_ Hp%negb_true_iff]%andb_prop Hin He. unfold is_private4 in Hp.
  rewrite He, andb_true_r in Hp. destruct (within 32 n net) eqn:E; [| done].
  rewrite <- Hp. symmetry. apply existsb_exists. exists net. by rewrite <- list_elem_of_In.
Qed.
End IpAddress.

(** ** URLs: [urllib.parse.urlsplit] *)
Module Url.
Import IpAddress.

Record split_result := SplitResult { scheme : string; netloc : string; path : string; query : string; fragment : string }.

Definition scheme_char (c : ascii) : bool :=
  is_letter_char c || is_digit c || Ascii.eqb c "+" || Ascii.eqb c "-" || Ascii.eqb c ".".

(** The scheme, lower-cased, and the rest. *)
Definition split_scheme (url : string) : string * string :=
  let head := before ":" url in
  match head with
  | String c _ =>
      if has_char ":" url && is_letter_char c && all_char scheme_char head then (lower head, after ":" url)
      else (""%string, url)
  | EmptyString => (""%string, url)
  end.

(** [_splitnetloc(url, 2)], after the two slashes. *)
Fixpoint split_netloc (l : list ascii) : list ascii * list ascii :=
  match l with
  | [] => ([], [])
  | c :: r =>
      if Ascii.eqb c "/" || Ascii.eqb c "?" || Ascii.eqb c "#" then ([], l)
      else let '(a, b) := split_netloc r in (c :: a, b)
  end.

Definition hex_char (c : ascii) : bool := is_some (Hex.hex_value c).

(** ["\Av[a-fA-F0-9]+\..+\Z"], no line breaks being present. *)
Definition ip_future (s : string) : bool :=
  match s with
  | String _ r => has_char "." r && nonempty (before "." r) && all_char hex_char (before "." r) && nonempty (after "." r)
  | EmptyString => false
  end.

(** [_check_bracketed_netloc]. *)
Definition bracketed_ok (netloc : string) : bool :=
  let host_port := after_last "@" netloc in
  let check (host : string) : bool :=
    if startswith "v" host then ip_future host
    else match ip_address host with Some (V6 _) => true | _ => false end in
  if has_char "[" host_port then
    let bracketed := after "[" host_port in
    let port := after "]" bracketed in
    negb (nonempty (before "[" host_port)) && (negb (nonempty port) || startswith ":" port)
    && check (before "]" bracketed)
  else check (before ":" host_port).

(** Of a text without control characters; [None] is its [ValueError]. The
    normalization check of a host beyond ASCII finds nothing below 256. *)
Definition urlsplit (url : string) : option split_result :=
  let '(scheme, rest) := split_scheme url in
  let '(netloc, rest) :=
    match rest with
    | String "/" (String "/" r) => let '(a, b) := split_netloc (chars r) in (of_chars a, of_chars b)
    | _ => (""%string, rest)
    end in
  let opens := has_char "[" netloc in
  let closes := has_char "]" netloc in
  if xorb opens closes then None
  else if opens && closes && negb (bracketed_ok netloc) then None
  else let fragment := after "#" rest in
       let rest := before "#" rest in
       Some (SplitResult scheme netloc (before "?" rest) (after "?" rest) fragment).

(** [_hostinfo]: the host and the text of the port. *)
Definition hostinfo (u : split_result) : string * string :=
  let info := after_last "@" (netloc u) in
  if has_char "[" info then
    let bracketed := after "[" info in (before "]" bracketed, after ":" (after "]" bracketed))
  else (before ":" info, after ":" info).

(** [.hostname], empty for [None]; only what stands before a percent sign is
    lower-cased. *)
Definition hostname (u : split_result) : string :=
  let host := (hostinfo u).1 in
  if has_char "%" host then lower (before "%" host) +:+ "%" +:+ after "%" host else lower host.

(** [.port]; the outer [None] is its [ValueError]. *)
Definition port (u : split_result) : option (option Z) :=
  let text := (hostinfo u).2 in
  if negb (nonempty text) then Some None
  else if negb (all_char is_digit text) then None
  else let n := number 10 (map Int.digit_value (chars text)) in
       if 65535 <? n then None else Some (Some n).

Example splits :
  let host u := (fun r => (scheme r, hostname r, port r, path r, query r)) <$> urlsplit u in
  map host ["https://Shop.Example:8443/a/b?q=1#f"; "HTTP://[::1]:80/"; "https://[::1"; "https://[1.2.3.4]/"; "//x/y";
            "https://u:p@h/"; "javascript:alert(1)"; "https://h:99999/"; "https://h:/"]%string
  = [Some ("https", "shop.example", Some (Some 8443), "/a/b", "q=1"); Some ("http", "::1", Some (Some 80), "/", "");
     None; None; Some ("", "x", Some None, "/y", ""); Some ("https", "h", Some None, "/", "");
     Some ("javascript", "", Some None, "alert(1)", ""); Some ("https", "h", None, "/", "");
     Some ("https", "h", Some None, "/", "")]%string.
Proof. vm_compute. reflexivity. Qed.
End Url.

(** ** Queries and paths, rewritten *)
Module Query.
Import Url.

(** A text is held here as its UTF-8 bytes: percent escapes can spell
    characters that are not below 256. *)
Definition encode (s : string) : string :=
  of_chars (flat_map (fun c => let n := nat_of_ascii c in
    if (n <? 128)%nat then [c] else [ascii_of_nat (192 + n / 64); ascii_of_nat (128 + n mod 64)]) (chars s)).

Definition REPLACEMENT : list ascii := map ascii_of_nat [239; 191; 189]%nat.

(** The ranges of the bytes that may follow a first byte. *)
Definition follow (c : ascii) : list (nat * nat) :=
  let n := nat_of_ascii c in
  let any := (128, 191)%nat in
  if (n <? 194)%nat then []
  else if (n <? 224)%nat then [any]
  else if (n =? 224)%nat then [(160, 191)%nat; any]
  else if (n =? 237)%nat then [(128, 159)%nat; any]
  else if (n <? 240)%nat then [any; any]
  else if (n =? 240)%nat then [(144, 191)%nat; any; any]
  else if (n <? 244)%nat then [any; any; any]
  else if (n =? 244)%nat then [(128, 143)%nat; any; any]
  else [].

(** [bytes.decode("utf-8", "replace")]: what no character spells, up to the
    byte where it cannot go on, becomes one replacement character. *)
Fixpoint decode_chars (pending : list ascii) (expect : list (nat * nat)) (l : list ascii) : list ascii :=
  match l with
  | [] => match pending with [] => [] | _ => REPLACEMENT end
  | c :: r =>
      let n := nat_of_ascii c in
      let start :=
        if (n <? 128)%nat then c :: decode_chars [] [] r
        else match follow c with
             | [] => REPLACEMENT ++ decode_chars [] [] r
             | ranges => decode_chars [c] ranges r
             end in
      match expect with
      | [] => start
      | (low, high) :: more =>
          if (low <=? n)%nat && (n <=? high)%nat then
            match more with
            | [] => pending ++ c :: decode_chars [] [] r
            | _ => decode_chars (pending ++ [c]) more r
            end
          else REPLACEMENT ++ start
      end
  end.

(** [unquote_to_bytes]. *)
Fixpoint unquote_chars (l : list ascii) : list ascii :=
  match l with
  | [] => []
  | c :: tail =>
      match tail with
      | a :: b :: r =>
          match Hex.hex_value a, Hex.hex_value b with
          | Some x, Some y =>
              if Ascii.eqb c "%" then ascii_of_nat (16 * x + y) :: unquote_chars r else c :: unquote_chars tail
          | _, _ => c :: unquote_chars tail
          end
      | _ => c :: unquote_chars tail
      end
  end.

Definition unquote (s : string) : string := of_chars (decode_chars [] [] (unquote_chars (chars (encode s)))).

(** [parse_qsl(query, keep_blank_values=True)]. *)
Definition parse_qsl (query : string) : list (string * string) :=
  let text s := unquote (of_chars (map (fun c => if Ascii.eqb c "+" then " "%char else c) (chars s))) in
  map (fun s => (text (before "=" s), text (after "=" s))) (List.filter nonempty (split "&" query)).

Definition always_safe (c : ascii) : bool :=
  is_letter_char c || is_digit c || Ascii.eqb c "_" || Ascii.eqb c "." || Ascii.eqb c "-" || Ascii.eqb c "~".

(** [quote_plus]. *)
Definition quote_plus (s : string) : string :=
  of_chars (flat_map (fun c =>
    if always_safe c then [c]
    else if Ascii.eqb c " " then ["+"%char]
    else "%"%char :: map upper_char (Hex.hex_chars [c])) (chars s)).

Definition urlencode (pairs : list (string * string)) : string :=
  String.concat "&" (map (fun kv => quote_plus kv.1 +:+ "=" +:+ quote_plus kv.2) pairs).

(** [_splitparams]: the parameters of the last segment. *)
Definition split_params (path : string) : string * string :=
  let segment := after_last "/" path in
  if has_char ";" segment
  then (of_chars (firstn (length (chars path) - length (chars segment)) (chars path)) +:+ before ";" segment,
        after ";" segment)
  else (path, ""%string).

(** [urlunparse(urlparse(url)._replace(query=query))] of an http or https URL
    with a host, from its [urlsplit]. *)
Definition urlunparse (u : split_result) (query : string) : string :=
  let '(path, params) := split_params (path u) in
  let url := if nonempty params then path +:+ ";" +:+ params else path in
  let url := if nonempty url && negb (startswith "/" url) then "/" +:+ url else url in
  let url := scheme u +:+ "://" +:+ netloc u +:+ url in
  let url := if nonempty query then url +:+ "?" +:+ query else url in
  if nonempty (fragment u) then url +:+ "#" +:+ fragment u else url.

Example rewrites :
  parse_qsl "a=1&b&&c=%e2%82%ac+%C3&d=%zz"
  = [("a", "1"); ("b", ""); ("c", of_chars (map ascii_of_nat [226; 130; 172; 32; 239; 191; 189]%nat)); ("d", "%zz")]%string
  /\ urlencode (parse_qsl "a=1&b&&c=%e2%82%ac+%C3&d=%zz") = "a=1&b=&c=%E2%82%AC+%EF%BF%BD&d=%25zz"%string
  /\ map split_params ["/a;b/c;d;e"; "/a;b/c"; "/c;"; ""]%string
     = [("/a;b/c", "d;e"); ("/a;b/c", ""); ("/c", ""); ("", "")]%string
  /\ option_map (fun u => urlunparse u "q=1") (urlsplit "HTTPS://Shop.Example:1/a;?x#y")
     = Some "https://Shop.Example:1/a?q=1#y"%string.
Proof. vm_compute. repeat split; reflexivity. Qed.
End Query.
