(* ===== verification/UrlTrust.v ===== *)
(** URL checks: [app/security/url_trust.py], and the modules that call it:
    [app/marketplace/security.py], [app/merchant/security/validation.py],
    [app/research/shopify_global_catalog_transport.py] and
    [app/auth/email_resend.py]. [UrlSafety] has the theorems.

    The IDNA tables for names beyond ASCII and the platform's parser of numeric
    hosts are arguments; [encode("idna")] of an ASCII name is defined here. *)

From S2P Require Import Prelude PyStr PyState Password UrlParts.
Import IpAddress Url.
#[local] Open Scope Z_scope.
#[local] Open Scope py_scope.

Module UrlTrust.

Definition BROWSER_URL_SCHEMES : list string := ["http"; "https"]%string.
Definition SERVER_FETCH_SCHEMES : list string := ["https"]%string.
Definition _LOCAL_NAMES : list string := ["localhost"; "localhost.localdomain"]%string.

(** [_UNSAFE_TEXT], below 256. *)
Definition unsafe_char (c : ascii) : bool :=
  let n := nat_of_ascii c in
  (n <=? 32)%nat || (n =? 127)%nat || (n =? 92)%nat || (n =? 34)%nat || (n =? 39)%nat || (n =? 60)%nat || (n =? 62)%nat.

(** [UrlTrustError] is its message. *)
Definition checked := result string.

Definition malformed {A} : checked A := Err "URL host is malformed"%string.

Definition _ip_literal (host : string) : option address := ip_address host.

(** A part of [_NUMERIC_HOST]. *)
Definition numeric_part (s : string) : bool :=
  let s := lower s in
  match s with
  | String "0" (String "x" r) => nonempty r && all_char is_lower_hex r
  | _ => nonempty s && all_char is_digit s
  end.

Definition numeric_host (host : string) : bool := forallb numeric_part (split "." host).

Definition label_char (c : ascii) : bool := is_ascii_lower c || is_digit c || Ascii.eqb c "-".

Definition label_ok (label : string) : bool :=
  nonempty label && (len label <=? 63) && negb (startswith "-" label) && negb (endswith "-" label)
  && all_char label_char label.

Definition _dns_labels_ok (canonical : string) : bool :=
  nonempty canonical && (len canonical <=? 253) && forallb label_ok (split "." canonical).

(** [hostname.rstrip(".").lower()]. *)
Definition _is_local_name (host : string) : bool :=
  let name := lower (rstrip_of "." host) in
  bool_decide (name ∈ _LOCAL_NAMES) || endswith ".localhost" name.

(** A mapped IPv6 address is judged by the IPv4 address. *)
Definition blocked_class (a : address) : bool :=
  is_multicast a || is_loopback a || is_link_local a || is_unspecified a || is_private a || is_reserved a
  || negb (is_global a).
Definition _is_blocked_address (a : address) : bool :=
  match ipv4_mapped a with Some m => blocked_class (V4 m) | None => blocked_class a end.

Section Checks.
(** [name.encode("idna").decode("ascii")] of a name beyond ASCII, and the
    distinct addresses [getaddrinfo(name, AI_NUMERICHOST)] reads in a text;
    [None] where they raise. *)
Variable idna_tables : string -> option string.
Variable numeric_addresses : string -> option (list address).

(** [encode("idna")] leaves an ASCII name as it is, if its labels have a
    length. *)
Definition idna (host : string) : option string :=
  if negb (all_char is_ascii_char host) then idna_tables host
  else let labels := split "." host in
       if forallb (fun l => nonempty l && (len l <? 64)) (removelast labels) && (len (List.last labels "") <? 64)
       then Some host else None.

Definition _idna_ascii (host : string) : checked string :=
  match idna host with Some encoded => Ok (lower encoded) | None => malformed end.

(** Always raises. *)
Definition _reject_unusual_numeric (host : string) : checked unit :=
  match numeric_addresses host with
  | None => malformed
  | Some addresses =>
      if negb (length (remove_dups addresses) =? 1)%nat then malformed else Err "URL host uses an unusual IP form"%string
  end.

Definition _classify_host (host : string) : checked (string * option address) :=
  let trailing_dot := endswith "." host in
  let spelled := if trailing_dot then of_chars (removelast (chars host)) else host in
  if negb (nonempty spelled) || startswith "." spelled || contains ".." spelled then malformed
  else match _ip_literal spelled with
  | Some literal =>
      raise! "URL host uses an unusual IP form"%string when trailing_dot in
      Ok (lower spelled, Some literal)
  | None =>
      let! canonical := _idna_ascii spelled in
      raise! "URL host uses an unusual IP form"%string when is_some (_ip_literal canonical) in
      let! _ := if numeric_host canonical then _reject_unusual_numeric canonical else Ok tt in
      raise! "URL host is malformed"%string when negb (_dns_labels_ok canonical) in
      Ok (canonical, None)
  end.

(** [parsed.hostname] and [parsed.port], which raises for what is no port. *)
Definition host_and_port (u : split_result) : checked (string * option Z) :=
  match port u with Some p => Ok (hostname u, p) | None => malformed end.

Definition _validate (url : string) (schemes : list string) (server_fetch : bool) (max_length : option Z)
    : checked string :=
  let cleaned := strip url in
  raise! "URL is missing a host"%string when negb (nonempty cleaned) in
  raise! "URL is too long"%string when match max_length with Some m => m <? len cleaned | None => false end in
  raise! "URL contains an unsupported character"%string when any_char unsafe_char cleaned in
  match urlsplit cleaned with
  | None => Err "URL is malformed"%string
  | Some parsed =>
      raise! "URL scheme is not allowed"%string when negb (bool_decide (lower (scheme parsed) ∈ schemes)) in
      raise! "URL must not contain embedded credentials"%string when has_char "@" (netloc parsed) in
      raise! "URL host is malformed"%string when has_char "%" (netloc parsed) in
      let! hp := host_and_port parsed in
      let host := hp.1 in
      raise! "URL is missing a host"%string when negb (nonempty host) in
      raise! "URL host is malformed"%string
        when startswith "." host || contains ".." host || has_char "[" host || has_char "]" host in
      raise! "URL host is malformed"%string when bool_decide (hp.2 = Some 0) in
      let! classified := _classify_host host in
      match classified.2 with
      | Some address =>
          raise! "URL host uses an IPv4-mapped address"%string when is_some (ipv4_mapped address) in
          raise! "URL host is not an approved network destination"%string
            when server_fetch && _is_blocked_address address in
          Ok cleaned
      | None =>
          raise! "URL host is not an approved network destination"%string
            when server_fetch && _is_local_name classified.1 in
          Ok cleaned
      end
  end.

Definition validate_browser_destination (url : string) (max_length : option Z) : checked string :=
  _validate url BROWSER_URL_SCHEMES false max_length.

(** [max_length] is 2048 unless the caller says otherwise. *)
Definition validate_server_fetch_url (url : string) (max_length : Z) : checked string :=
  _validate url SERVER_FETCH_SCHEMES true (Some max_length).

(** ** The callers *)

(** [marketplace/security.py]; its [ValueError] is the message. *)
Definition validate_url (url : option string) : checked (option string) :=
  match url with
  | None => Ok None
  | Some url =>
      if negb (nonempty (strip url)) then Ok None
      else let! safe := validate_browser_destination (strip url) None in Ok (Some safe)
  end.

(** [merchant/security/validation.py]. *)
Definition credential_tokens : list string := ["password="; "api_key="; "secret="; "token="]%string.

Definition validate_safe_url (url : option string) (required : bool) : checked (option string) :=
  if match url with None => true | Some url => negb (nonempty (strip url)) end then
    raise! "URL is required."%string when required in Ok None
  else match url with
  | None => Ok None
  | Some url =>
      let! cleaned := validate_browser_destination (strip url) (Some 2048) in
      raise! "URL must not contain credential parameters."%string
        when existsb (fun token => contains token (lower cleaned)) credential_tokens in
      Ok (Some cleaned)
  end.

(** [shopify_global_catalog_transport.py]. *)
Definition SHOPIFY_PRODUCTION_CATALOG_ENDPOINT : string := "https://catalog.shopify.com/api/ucp/mcp".

Definition _approved_catalog_endpoint (endpoint : string) : checked string :=
  match validate_server_fetch_url endpoint 2048 with
  | Err _ => Err "URL host is not an approved network destination"%string
  | Ok approved =>
      raise! "URL host is not an approved network destination"%string
        when negb (String.eqb approved SHOPIFY_PRODUCTION_CATALOG_ENDPOINT) in
      Ok approved
  end.

(** [ResendEmailSender._default_http_post], up to the request it sends. *)
Definition RESEND_EMAILS_URL : string := "https://api.resend.com/emails".
Definition _GENERIC_FAILURE : string := "Transactional email delivery failed.".

Definition approved_email_url (url : string) : checked string :=
  match validate_server_fetch_url url 2048 with
  | Err _ => Err _GENERIC_FAILURE
  | Ok approved =>
      raise! _GENERIC_FAILURE when negb (String.eqb approved RESEND_EMAILS_URL) in Ok approved
  end.
End Checks.
End UrlTrust.
