(* ===== verification/Affiliate.v ===== *)
(** The affiliate records, store and pure engines: the entities of
    [app/domain/entities/affiliate.py], [app/affiliate/memory.py], the link
    builder, the attribution engine, the report and the choice of disclosures.
    [AffiliateServices] has the services, [AffiliateSafety] the theorems.

    Timestamps are compared as instants. Metadata values are texts. A report sorts
    numbers: a NaN commission, which Python's sort leaves wherever it meets it, is
    outside the order theorems. *)

From S2P Require Import Prelude PyStr PyState Clock Float FloatOps UrlParts UrlTrust.
Import PyFloat FloatOps.
#[local] Open Scope Z_scope.
#[local] Open Scope py_scope.

(** ** Entities *)
Module Entities.

Inductive MarketplacePlaceholder := AMAZON | SHOPEE | LAZADA | TIKTOK_SHOP | EBAY | ALIEXPRESS.
Inductive AffiliateNetwork :=
| AMAZON_ASSOCIATES | SHOPEE_AFFILIATE | LAZADA_AFFILIATE | TIKTOK_SHOP_AFFILIATE | EBAY_PARTNER
| ALIEXPRESS_AFFILIATE | DEMO_NETWORK.
Inductive CommissionType := PERCENT | FIXED.
Inductive MerchantStatus := M_ACTIVE | M_INACTIVE | M_DEGRADED | M_SUSPENDED.
Inductive MerchantHealthStatus := H_HEALTHY | H_DEGRADED | H_UNKNOWN | H_DOWN.
Inductive ConversionStatus := CLICKED | PENDING | ATTRIBUTED | CONVERTED | REJECTED | EXPIRED.
Inductive AttributionModel := LAST_CLICK | FIRST_CLICK | DIRECT | ORGANIC | INTERNAL_RECOMMENDATION | EXTERNAL_CAMPAIGN.
Inductive ClickSource :=
| S_SHOPPING_ASSISTANT | S_RECOMMENDATION_API | S_AFFILIATE_DASHBOARD | S_DIRECT_LINK | S_EXTERNAL_CAMPAIGN
| S_ORGANIC | S_UNKNOWN.

#[global] Instance marketplace_eq_dec : EqDecision MarketplacePlaceholder. Proof. solve_decision. Defined.
#[global] Instance commission_type_eq_dec : EqDecision CommissionType. Proof. solve_decision. Defined.
#[global] Instance merchant_status_eq_dec : EqDecision MerchantStatus. Proof. solve_decision. Defined.
#[global] Instance conversion_eq_dec : EqDecision ConversionStatus. Proof. solve_decision. Defined.
#[global] Instance attribution_model_eq_dec : EqDecision AttributionModel. Proof. solve_decision. Defined.
#[global] Instance click_source_eq_dec : EqDecision ClickSource. Proof. solve_decision. Defined.

Definition marketplace_value (m : MarketplacePlaceholder) : string :=
  match m with
  | AMAZON => "amazon" | SHOPEE => "shopee" | LAZADA => "lazada" | TIKTOK_SHOP => "tiktok_shop"
  | EBAY => "ebay" | ALIEXPRESS => "aliexpress"
  end.
Definition network_value (n : AffiliateNetwork) : string :=
  match n with
  | AMAZON_ASSOCIATES => "amazon_associates" | SHOPEE_AFFILIATE => "shopee_affiliate"
  | LAZADA_AFFILIATE => "lazada_affiliate" | TIKTOK_SHOP_AFFILIATE => "tiktok_shop_affiliate"
  | EBAY_PARTNER => "ebay_partner" | ALIEXPRESS_AFFILIATE => "aliexpress_affiliate" | DEMO_NETWORK => "demo_network"
  end.
Definition commission_type_value (t : CommissionType) : string :=
  match t with PERCENT => "percent" | FIXED => "fixed" end.
Definition merchant_status_value (s : MerchantStatus) : string :=
  match s with
  | M_ACTIVE => "active" | M_INACTIVE => "inactive" | M_DEGRADED => "degraded" | M_SUSPENDED => "suspended"
  end.
Definition health_value (h : MerchantHealthStatus) : string :=
  match h with H_HEALTHY => "healthy" | H_DEGRADED => "degraded" | H_UNKNOWN => "unknown" | H_DOWN => "down" end.
Definition conversion_value (c : ConversionStatus) : string :=
  match c with
  | CLICKED => "clicked" | PENDING => "pending" | ATTRIBUTED => "attributed" | CONVERTED => "converted"
  | REJECTED => "rejected" | EXPIRED => "expired"
  end.
Definition model_value (m : AttributionModel) : string :=
  match m with
  | LAST_CLICK => "last_click" | FIRST_CLICK => "first_click" | DIRECT => "direct" | ORGANIC => "organic"
  | INTERNAL_RECOMMENDATION => "internal_recommendation" | EXTERNAL_CAMPAIGN => "external_campaign"
  end.
Definition source_value (s : ClickSource) : string :=
  match s with
  | S_SHOPPING_ASSISTANT => "shopping_assistant" | S_RECOMMENDATION_API => "recommendation_api"
  | S_AFFILIATE_DASHBOARD => "affiliate_dashboard" | S_DIRECT_LINK => "direct_link"
  | S_EXTERNAL_CAMPAIGN => "external_campaign" | S_ORGANIC => "organic" | S_UNKNOWN => "unknown"
  end.

Definition marketplaces : list MarketplacePlaceholder := [AMAZON; SHOPEE; LAZADA; TIKTOK_SHOP; EBAY; ALIEXPRESS].
Definition networks : list AffiliateNetwork :=
  [AMAZON_ASSOCIATES; SHOPEE_AFFILIATE; LAZADA_AFFILIATE; TIKTOK_SHOP_AFFILIATE; EBAY_PARTNER; ALIEXPRESS_AFFILIATE;
   DEMO_NETWORK].
Definition commission_types : list CommissionType := [PERCENT; FIXED].
Definition merchant_statuses : list MerchantStatus := [M_ACTIVE; M_INACTIVE; M_DEGRADED; M_SUSPENDED].
Definition healths : list MerchantHealthStatus := [H_HEALTHY; H_DEGRADED; H_UNKNOWN; H_DOWN].
Definition conversions : list ConversionStatus := [CLICKED; PENDING; ATTRIBUTED; CONVERTED; REJECTED; EXPIRED].
Definition models : list AttributionModel :=
  [LAST_CLICK; FIRST_CLICK; DIRECT; ORGANIC; INTERNAL_RECOMMENDATION; EXTERNAL_CAMPAIGN].
Definition click_sources : list ClickSource :=
  [S_SHOPPING_ASSISTANT; S_RECOMMENDATION_API; S_AFFILIATE_DASHBOARD; S_DIRECT_LINK; S_EXTERNAL_CAMPAIGN; S_ORGANIC;
   S_UNKNOWN].

Record AffiliateMerchant := Merchant {
  merchant_id : string; merchant_name : string; m_marketplace : MarketplacePlaceholder; m_country : string;
  affiliate_network : AffiliateNetwork; tracking_template : string; commission_type : CommissionType;
  commission_value : float; cookie_days : Z; status : MerchantStatus; priority : Z;
  m_created_at : datetime; m_updated_at : datetime; health_status : MerchantHealthStatus;
  allowed_countries : list string; deep_link_supported : bool;
}.

Record AffiliateLink := Link {
  link_id : string; l_merchant_id : string; l_product_id : string; l_product_name : string;
  original_url : string; affiliate_url : string; l_marketplace : MarketplacePlaceholder;
  l_campaign_id : option string; sub_id : option string; l_click_id : option string; deep_link : bool;
  l_created_at : datetime; l_category : option string; l_estimated_commission : option float; l_currency : string;
}.

Record AffiliateClick := Click {
  click_id : string; user_id : option string; session_id : option string; c_merchant_id : string;
  c_product_id : string; timestamp : datetime; device : option string; c_country : option string;
  c_campaign_id : option string; source : ClickSource; referrer : option string;
  conversion_status : ConversionStatus; revenue : float; c_link_id : option string; c_product_name : option string;
  c_category : option string; c_marketplace : option MarketplacePlaceholder; attribution_model : AttributionModel;
  estimated_commission : float; c_currency : string; metadata : dict string;
}.

Record AttributionResult := Attribution {
  attribution_id : string; at_model : AttributionModel; at_click_id : option string; at_merchant_id : option string;
  at_product_id : option string; attributed_at : datetime; at_revenue : float; at_commission : float;
  reason : string; candidates_considered : Z;
}.

Record AffiliateDisclosure := Disclosure {
  disclosure_id : string; disclosure_type : string; d_text : string; region : option string;
  d_merchant_id : option string; d_locale : string; d_created_at : datetime; d_updated_at : datetime;
  ftc_placeholder : bool; d_active : bool;
}.

Record RevenueReportBucket := Bucket {
  b_key : string; b_label : string; b_clicks : Z; b_conversions : Z; b_revenue : float; b_commission : float;
  b_rate : float; b_currency : string;
}.

Record AffiliateRevenueReport := Report {
  report_id : string; generated_at : datetime; total_clicks : Z; total_conversions : Z; conversion_rate : float;
  ctr : float; r_commission : float; total_revenue : float; impressions : Z;
  by_merchant : list RevenueReportBucket; by_product : list RevenueReportBucket; by_category : list RevenueReportBucket;
  top_converting_merchants : list RevenueReportBucket; top_converting_products : list RevenueReportBucket;
  r_currency : string;
}.
End Entities.
Import Entities.

(** ** The store: [InMemoryAffiliateRepository] *)
Module Store.

(** A dict and the list of its keys in the order they were first saved. *)
Record table (A : Type) := Table { rows : dict A; order : list string }.
#[global] Arguments Table {A}.
#[global] Arguments rows {A}.
#[global] Arguments order {A}.

Definition empty {A} : table A := Table [] [].

Section Table.
Context {A : Type} (id : A -> string).

Definition save (x : A) (t : table A) : table A :=
  Table (d_set (id x) x (rows t)) (if is_some (d_get (id x) (rows t)) then order t else order t ++ [id x]).
Definition get (i : string) (t : table A) : option A := d_get i (rows t).
Definition in_order (t : table A) : list A := omap (fun i => d_get i (rows t)) (order t).
Definition newest_first (t : table A) : list A := omap (fun i => d_get i (rows t)) (rev (order t)).
Definition delete (i : string) (t : table A) : bool * table A :=
  if is_some (d_get i (rows t))
  then (true, Table (d_pop i (rows t)) (List.filter (fun j => negb (String.eqb j i)) (order t)))
  else (false, t).
End Table.

Record repository := Repository {
  merchants : table AffiliateMerchant;
  links : table AffiliateLink;
  clicks : table AffiliateClick;
  attributions : table AttributionResult;
  disclosures : table AffiliateDisclosure;
  impression_count : Z;
}.

Definition empty_repository : repository := Repository empty empty empty empty empty 0.

Definition set_merchants t r := Repository t (links r) (clicks r) (attributions r) (disclosures r) (impression_count r).
Definition set_links t r := Repository (merchants r) t (clicks r) (attributions r) (disclosures r) (impression_count r).
Definition set_clicks t r := Repository (merchants r) (links r) t (attributions r) (disclosures r) (impression_count r).
Definition set_attributions t r := Repository (merchants r) (links r) (clicks r) t (disclosures r) (impression_count r).
Definition set_disclosures t r := Repository (merchants r) (links r) (clicks r) (attributions r) t (impression_count r).

Definition save_merchant (m : AffiliateMerchant) (r : repository) := set_merchants (save merchant_id m (merchants r)) r.
Definition get_merchant (i : string) (r : repository) : option AffiliateMerchant := get i (merchants r).

(** [if wanted is not None: items = [x for x in items if test(wanted, x)]]. *)
Definition only {A B} (wanted : option B) (test : B -> A -> bool) (items : list A) : list A :=
  match wanted with Some w => List.filter (test w) items | None => items end.

Definition serves (country : string) (m : AffiliateMerchant) : bool :=
  String.eqb (upper (m_country m)) (upper country)
  || bool_decide (upper country ∈ map upper (allowed_countries m))
  || String.eqb (upper (m_country m)) "GLOBAL".

Definition list_merchants (by_status by_marketplace country : option string) (r : repository) : list AffiliateMerchant :=
  only country serves
    (only by_marketplace (fun w m => String.eqb (marketplace_value (m_marketplace m)) w)
       (only by_status (fun w m => String.eqb (merchant_status_value (status m)) w) (in_order (merchants r)))).

Definition delete_merchant (i : string) (r : repository) : bool * repository :=
  let '(b, t) := delete i (merchants r) in (b, set_merchants t r).

Definition save_link (l : AffiliateLink) (r : repository) := set_links (save link_id l (links r)) r.
Definition get_link (i : string) (r : repository) : option AffiliateLink := get i (links r).

(** [items[:max(0, limit)]]. *)
Definition limited {A} (limit : Z) (items : list A) : list A := take (Z.to_nat (Z.max 0 limit)) items.

Definition list_links (merchant product : option string) (limit : Z) (r : repository) : list AffiliateLink :=
  limited limit
    (only product (fun w l => String.eqb (l_product_id l) w)
       (only merchant (fun w l => String.eqb (l_merchant_id l) w) (newest_first (links r)))).

Definition save_click (c : AffiliateClick) (r : repository) := set_clicks (save click_id c (clicks r)) r.
Definition get_click (i : string) (r : repository) : option AffiliateClick := get i (clicks r).

(** [c.user_id == user_id]: an optional text. *)
Definition same (w : string) (o : option string) : bool := bool_decide (o = Some w).

Definition list_clicks (user session merchant product : option string) (limit : Z) (r : repository)
    : list AffiliateClick :=
  limited limit
    (only product (fun w c => String.eqb (c_product_id c) w)
       (only merchant (fun w c => String.eqb (c_merchant_id c) w)
          (only session (fun w c => same w (session_id c))
             (only user (fun w c => same w (user_id c)) (newest_first (clicks r)))))).

Definition save_attribution (a : AttributionResult) (r : repository) :=
  set_attributions (save attribution_id a (attributions r)) r.
Definition list_attributions (limit : Z) (r : repository) : list AttributionResult :=
  limited limit (newest_first (attributions r)).

Definition save_disclosure (d : AffiliateDisclosure) (r : repository) :=
  set_disclosures (save disclosure_id d (disclosures r)) r.
Definition get_disclosure (i : string) (r : repository) : option AffiliateDisclosure := get i (disclosures r).

Definition same_region (w : string) (d : AffiliateDisclosure) : bool :=
  match region d with None => true | Some x => String.eqb (upper x) (upper w) end.

Definition list_disclosures (by_region merchant by_type : option string) (active_only : bool) (r : repository)
    : list AffiliateDisclosure :=
  only by_type (fun w d => String.eqb (disclosure_type d) w)
    (only merchant (fun w d => match d_merchant_id d with None => true | Some x => String.eqb x w end)
       (only by_region same_region
          (let items := in_order (disclosures r) in if active_only then List.filter d_active items else items))).

Definition record_impression (count : Z) (r : repository) : Z * repository :=
  let n := impression_count r + Z.max 0 count in
  (n, Repository (merchants r) (links r) (clicks r) (attributions r) (disclosures r) n).

Definition clear (_ : repository) : repository := empty_repository.
End Store.
Import Store.

(** ** Links: [app/affiliate/linking/builder.py] *)
Module Builder.
Import UrlTrust Url.

Section Builder.
Context (idna_tables : string -> option string) (numeric_addresses : string -> option (list IpAddress.address)).

(** [AffiliateValidationError] is its message. *)
Definition validate_url (url : string) : result string string :=
  let cleaned := strip url in
  raise! "URL is required."%string when negb (nonempty cleaned) in
  validate_browser_destination idna_tables numeric_addresses cleaned None.

Definition letter_ (c : ascii) : bool := is_letter_char c || Ascii.eqb c "_".
Definition word_ (c : ascii) : bool := letter_ c || is_digit c.

(** The longest run of [word_] characters, and the rest. *)
Fixpoint span_word (l : list ascii) : list ascii * list ascii :=
  match l with
  | c :: r => if word_ c then let '(a, b) := span_word r in (c :: a, b) else ([], l)
  | [] => ([], [])
  end.

(** [_TEMPLATE_TOKEN] at the start of a text: the name and the rest. *)
Definition token (l : list ascii) : option (list ascii * list ascii) :=
  match l with
  | "{"%char :: c :: r =>
      if letter_ c then
        match span_word (c :: r) with
        | (name, "}"%char :: rest) => Some (name, rest)
        | _ => None
        end
      else None
  | _ => None
  end.

(** [_TEMPLATE_TOKEN.sub(replace, template)]; a template has at most as many
    tokens as characters. *)
Fixpoint substitute (fuel : nat) (values : dict string) (l : list ascii) : list ascii :=
  match fuel with
  | O => l
  | Datatypes.S fuel =>
      match l with
      | [] => []
      | c :: r =>
          match token l with
          | Some (name, rest) =>
              default ("{"%char :: name ++ ["}"%char]) (chars <$> d_get (of_chars name) values) ++ substitute fuel values rest
          | None => c :: substitute fuel values r
          end
      end
  end.

Definition render (template : string) (values : dict string) : string :=
  of_chars (substitute (length (chars template)) values (chars template)).

(** [text or default]. *)
Definition text_or (o : option string) (d : string) : string :=
  match o with Some s => if nonempty s then s else d | None => d end.

Definition template_values (m : AffiliateMerchant) (product_ref : string) (campaign sub click : option string) : dict string :=
  [("product_ref", text_or (Some product_ref) "DEMO_PRODUCT"); ("campaign_id", text_or campaign "DEMO_CAMPAIGN");
   ("sub_id", text_or sub "DEMO_SUB"); ("click_id", text_or click "DEMO_CLICK"); ("merchant_id", merchant_id m);
   ("marketplace", marketplace_value (m_marketplace m))]%string.

(** No caller passes [extra]. *)
Definition apply_template (m : AffiliateMerchant) (product_ref : string) (campaign sub click : option string)
    : result string string :=
  validate_url (render (tracking_template m) (template_values m product_ref campaign sub click)).

(** The truth of an optional text. *)
Definition present (o : option string) : bool := match o with Some s => nonempty s | None => false end.

(** [params[key] = value], where there is a value. *)
Definition with_param (key : string) (value : option string) (params : dict string) : dict string :=
  if present value then d_set key (Query.encode (default ""%string value)) params else params.

(** [urlparse] reads what [validate_url] has read before:
    [AffiliateSafety.Links.attached_parses]. *)
Definition attach_tracking_params (url : string) (campaign sub click : option string) (extra : dict string)
    : result string string :=
  let! validated := validate_url url in
  match urlsplit validated with
  | None => Err "URL is malformed"%string
  | Some parsed =>
      let params := foldl (fun d kv => d_set kv.1 kv.2 d) [] (Query.parse_qsl (query parsed)) in
      let params := with_param "click_id" click (with_param "sub_id" sub (with_param "campaign_id" campaign params)) in
      let params := foldl (fun d kv => d_set kv.1 (Query.encode kv.2) d) params extra in
      Ok (Query.urlunparse parsed (Query.urlencode params))
  end.

(** The last segment of the path; empty for [None]. *)
Definition _product_ref_from_url (url : string) : string :=
  match urlsplit url with
  | Some parsed =>
      let path := (Query.split_params (path parsed)).1 in
      after_last "/" (rstrip_of "/" (of_chars (drop_while (Ascii.eqb "/") (chars path))))
  | None => ""%string
  end.

Definition build_deep_link (m : AffiliateMerchant) (destination_url : string) (campaign sub click : option string)
    : result string string :=
  let! destination := validate_url destination_url in
  raise! ("Merchant " +:+ merchant_id m +:+ " does not support deep links.")%string
    when negb (deep_link_supported m) in
  let product_ref := text_or (Some (_product_ref_from_url destination)) "deep-link" in
  let templated :=
    let! templated := apply_template m product_ref campaign sub click in
    attach_tracking_params templated None None None [("dest"%string, destination)] in
  match templated with
  | Ok url => Ok url
  | Err _ =>
      attach_tracking_params destination campaign sub click [("aff_merchant"%string, merchant_id m)]
  end.

Definition positive (o : option float) : option float :=
  match o with Some x => if f_ltb f_zero x then Some x else None | None => None end.

Definition estimate_commission (m : AffiliateMerchant) (order_value : option float) : float :=
  match commission_type m with
  | FIXED => round_to 4 (commission_value m)
  | PERCENT =>
      let base := default (of_Z 100) (positive order_value) in
      round_to 4 (f_mul base (f_div (commission_value m) (of_Z 100)))
  end.
End Builder.

Example rendered_template :
  render "https://www.lazada.com.ph/products/{product_ref}.html?cid={campaign_id}&x={unknown}{1}{"
    [("product_ref", "p{sub_id}"); ("campaign_id", "c")]%string
  = "https://www.lazada.com.ph/products/p{sub_id}.html?cid=c&x={unknown}{1}{"%string.
Proof. vm_compute. reflexivity. Qed.
End Builder.

(** ** Attribution: [app/affiliate/attribution/engine.py] *)
Module Attribution.

Definition by_time : list AffiliateClick -> list AffiliateClick := sorted Z.ltb (fun c => dt_us (timestamp c)).

Definition last_of {A} (l : list A) : option A := List.last (map Some l) None.

Definition organic (c : AffiliateClick) : bool := bool_decide (source c ∈ [S_ORGANIC; S_UNKNOWN]).
Definition internal (c : AffiliateClick) : bool := bool_decide (source c ∈ [S_SHOPPING_ASSISTANT; S_RECOMMENDATION_API]).
Definition external (c : AffiliateClick) : bool :=
  bool_decide (source c = S_EXTERNAL_CAMPAIGN) || match c_campaign_id c with Some s => nonempty s | None => false end.

Definition candidates (product merchant : option string) (items : list AffiliateClick) : list AffiliateClick :=
  by_time (only merchant (fun w c => String.eqb (c_merchant_id c) w)
             (only product (fun w c => String.eqb (c_product_id c) w) items)).

(** The click a model selects among candidates in the order of time. *)
Definition select (model : AttributionModel) (items : list AffiliateClick) : option AffiliateClick :=
  match model with
  | DIRECT => None
  | ORGANIC => last_of (List.filter organic items)
  | INTERNAL_RECOMMENDATION => last_of (List.filter internal items)
  | EXTERNAL_CAMPAIGN => last_of (List.filter external items)
  | FIRST_CLICK => head items
  | LAST_CLICK => last_of items
  end.

Definition reason_for (model : AttributionModel) (selected : option AffiliateClick) : string :=
  match model, selected with
  | DIRECT, _ => "Direct attribution — no prior click required."
  | ORGANIC, Some c => "Organic attribution selected click " +:+ click_id c +:+ "."
  | ORGANIC, None => "Organic attribution — no organic click found."
  | INTERNAL_RECOMMENDATION, Some c => "Internal recommendation attribution selected click " +:+ click_id c +:+ "."
  | INTERNAL_RECOMMENDATION, None => "Internal recommendation — no assistant/recommendation click found."
  | EXTERNAL_CAMPAIGN, Some c => "External campaign attribution selected click " +:+ click_id c +:+ "."
  | EXTERNAL_CAMPAIGN, None => "External campaign — no campaign click found (future support hook)."
  | FIRST_CLICK, Some c => "First-click attribution selected click " +:+ click_id c +:+ "."
  | FIRST_CLICK, None => "First-click attribution — no candidate clicks."
  | LAST_CLICK, Some c => "Last-click attribution selected click " +:+ click_id c +:+ "."
  | LAST_CLICK, None => "Last-click attribution — no candidate clicks."
  end.

(** [given if given else (selected.value if selected else 0.0)]. *)
Definition amount (given : float) (field : AffiliateClick -> float) (selected : option AffiliateClick) : float :=
  if f_truthy given then given else default f_zero (field <$> selected).

Definition attribute (items : list AffiliateClick) (model : AttributionModel) (id : string) (at_ : datetime)
    (given_revenue given_commission : float) (product merchant : option string) : AttributionResult :=
  let found := candidates product merchant items in
  let selected := select model found in
  if bool_decide (model = DIRECT)
  then Entities.Attribution id model None merchant product at_ given_revenue given_commission
         (reason_for DIRECT None) (Z.of_nat (length found))
  else Entities.Attribution id model (click_id <$> selected)
         (match selected with Some c => Some (c_merchant_id c) | None => merchant end)
         (match selected with Some c => Some (c_product_id c) | None => product end) at_
         (amount given_revenue revenue selected) (amount given_commission estimated_commission selected)
         (reason_for model selected) (Z.of_nat (length found)).

(** It returns the click whatever the status. *)
Definition mark_converted (click : AffiliateClick) (_ : ConversionStatus) : AffiliateClick := click.
End Attribution.

(** ** Reports: [app/affiliate/reporting/aggregator.py] *)
Module Reporting.

Definition converted (c : AffiliateClick) : bool := bool_decide (conversion_status c ∈ [CONVERTED; ATTRIBUTED]).

Definition _rate (numerator denominator : Z) : float :=
  if denominator <=? 0 then f_zero else round_to 6 (of_ratio numerator denominator).

(** What is summed up under a key. *)
Record tally := Tally { t_label : string; t_clicks : Z; t_conversions : Z; t_revenue : float; t_commission : float }.

Definition no_tally : tally := Tally "" 0 0 f_zero f_zero.

Definition count (label : string) (c : AffiliateClick) (t : tally) : tally :=
  if converted c
  then Tally label (t_clicks t + 1) (t_conversions t + 1) (f_add (t_revenue t) (revenue c))
         (f_add (t_commission t) (estimated_commission c))
  else Tally label (t_clicks t + 1) (t_conversions t) (t_revenue t) (t_commission t).

(** The loop, for one of the three groupings. *)
Definition tallies (key label : AffiliateClick -> string) (items : list AffiliateClick) : dict tally :=
  fold_left (fun d c => d_set (key c) (count (label c) c (default no_tally (d_get (key c) d))) d) items [].

Definition _bucket (key : string) (t : tally) (currency : string) : RevenueReportBucket :=
  Bucket key (if nonempty (t_label t) then t_label t else key) (t_clicks t) (t_conversions t)
    (round_to 4 (t_revenue t)) (round_to 4 (t_commission t)) (_rate (t_conversions t) (t_clicks t)) currency.

(** The order of tuples of a float, a number and a text. *)
Definition triple_ltb (a b : float * Z * string) : bool :=
  let '(x, n, s) := a in let '(y, m, u) := b in
  if negb (f_eqb x y) then f_ltb x y else if negb (n =? m) then n <? m else str_ltb s u.

Definition earning_key (b : RevenueReportBucket) : float * Z * string := (f_opp (b_commission b), - b_clicks b, b_key b).
Definition converting_key (b : RevenueReportBucket) : float * Z * string := (f_opp (b_rate b), - b_conversions b, b_key b).

Definition buckets (currency : string) (d : dict tally) : list RevenueReportBucket :=
  sorted triple_ltb earning_key (map (fun kv => _bucket kv.1 kv.2 currency) d).

(** [sorted(...)[:top_n]]; a negative number leaves out that many at the end. *)
Definition top (top_n : Z) (items : list RevenueReportBucket) : list RevenueReportBucket :=
  let l := sorted triple_ltb converting_key items in
  take (Z.to_nat (if top_n <? 0 then Z.of_nat (length l) + top_n else top_n)) l.

Definition product_label (c : AffiliateClick) : string := Builder.text_or (c_product_name c) (c_product_id c).
Definition category_key (c : AffiliateClick) : string := Builder.text_or (c_category c) "uncategorized".

Definition aggregate_revenue_report (items : list AffiliateClick) (id : string) (at_ : datetime) (impressions : Z)
    (currency : string) (top_n : Z) : AffiliateRevenueReport :=
  let converted_clicks := List.filter converted items in
  let n := Z.of_nat (length items) in
  let conversions := Z.of_nat (length converted_clicks) in
  let commission := py_sum (map estimated_commission converted_clicks) in
  let commission :=
    if f_eqb commission f_zero && bool_decide (items <> [])
    then f_mul (py_sum (map estimated_commission items)) f_zero else commission in
  let merchants := buckets currency (tallies c_merchant_id c_merchant_id items) in
  let products := buckets currency (tallies c_product_id product_label items) in
  Report id at_ n conversions (_rate conversions n) (_rate n impressions) (round_to 4 commission)
    (round_to 4 (py_sum (map revenue converted_clicks))) impressions
    merchants products (buckets currency (tallies category_key category_key items))
    (top top_n merchants) (top top_n products) currency.
End Reporting.

(** ** Disclosures: [app/affiliate/disclosure/texts.py] *)
Module Disclosures.

(** [_add] of every item that passes: not one id twice. *)
Definition add_all (test : AffiliateDisclosure -> bool) (items selected : list AffiliateDisclosure)
    : list AffiliateDisclosure :=
  fold_left (fun acc d => if test d && negb (existsb (fun x => String.eqb (disclosure_id x) (disclosure_id d)) acc)
                          then acc ++ [d] else acc) items selected.

Definition general (d : AffiliateDisclosure) : bool :=
  String.eqb (disclosure_type d) "affiliate_general" && negb (is_some (d_merchant_id d)).
Definition ftc (wanted : option string) (d : AffiliateDisclosure) : bool :=
  String.eqb (disclosure_type d) "ftc"
  && match wanted with None => true | Some w => same_region w d end.
Definition regional (w : string) (d : AffiliateDisclosure) : bool :=
  String.eqb (disclosure_type d) "regional"
  && match region d with Some x => String.eqb (upper x) (upper w) | None => false end.
Definition of_merchant (w : string) (d : AffiliateDisclosure) : bool :=
  String.eqb (disclosure_type d) "merchant" && same w (d_merchant_id d).

Definition select_disclosures (items : list AffiliateDisclosure) (by_region merchant : option string)
    (include_general include_ftc : bool) : list AffiliateDisclosure :=
  let active := List.filter d_active items in
  let l := if include_general then add_all general active [] else [] in
  let l := if include_ftc then add_all (ftc by_region) active l else l in
  let l := match by_region with Some w => add_all (regional w) active l | None => l end in
  match merchant with Some w => add_all (of_merchant w) active l | None => l end.

Definition combined_disclosure_text (items : list AffiliateDisclosure) : string :=
  String.concat " " (List.filter nonempty (map (fun d => strip (d_text d)) items)).
End Disclosures.

(** ** The placeholder records: [app/affiliate/fixtures.py] *)
Module Fixtures.

(** 2026-07-29 12:00 UTC. *)
Definition SEED_NOW : datetime := Datetime 1785326400000000 true.

Definition build_placeholder_merchants (now : datetime) : list AffiliateMerchant :=
  [Merchant "merchant-amazon-us" "Amazon" AMAZON "US" AMAZON_ASSOCIATES
     "https://www.amazon.com/dp/{product_ref}?tag=DEMO_AMAZON_TAG&ascsubtag={sub_id}&camp={campaign_id}&clickid={click_id}"
     PERCENT (of_Z 4) 24 M_ACTIVE 10 now now H_HEALTHY ["US"; "CA"; "GB"] true;
   Merchant "merchant-shopee-ph" "Shopee" SHOPEE "PH" SHOPEE_AFFILIATE
     "https://shopee.ph/product/{product_ref}?utm_source=dealbrain&utm_campaign={campaign_id}&sub_id={sub_id}&click_id={click_id}&aff_id=DEMO_SHOPEE_AFF"
     PERCENT (f_div (of_Z 55) (of_Z 10)) 7 M_ACTIVE 20 now now H_HEALTHY ["PH"; "SG"; "MY"; "TH"; "VN"; "ID"] true;
   Merchant "merchant-lazada-ph" "Lazada" LAZADA "PH" LAZADA_AFFILIATE
     "https://www.lazada.com.ph/products/{product_ref}.html?spm=DEMO_LAZADA&exlaz=1&cid={campaign_id}&subid={sub_id}&clickid={click_id}"
     PERCENT (f_div (of_Z 45) (of_Z 10)) 7 M_ACTIVE 30 now now H_HEALTHY ["PH"; "SG"; "MY"; "TH"; "VN"; "ID"] true;
   Merchant "merchant-tiktok-shop-us" "TikTok Shop" TIKTOK_SHOP "US" TIKTOK_SHOP_AFFILIATE
     "https://shop.tiktok.com/view/product/{product_ref}?affiliate_id=DEMO_TIKTOK_AFF&campaign_id={campaign_id}&sub_id={sub_id}&click_id={click_id}"
     PERCENT (of_Z 8) 14 M_ACTIVE 40 now now H_DEGRADED ["US"; "GB"; "SG"] true;
   Merchant "merchant-ebay-us" "eBay" EBAY "US" EBAY_PARTNER
     "https://www.ebay.com/itm/{product_ref}?mkcid=1&mkrid=DEMO_EBAY_MK&campid={campaign_id}&customid={sub_id}&toolid={click_id}"
     PERCENT (of_Z 3) 24 M_ACTIVE 50 now now H_HEALTHY ["US"; "GB"; "DE"; "AU"] true;
   Merchant "merchant-aliexpress-global" "AliExpress" ALIEXPRESS "GLOBAL" ALIEXPRESS_AFFILIATE
     "https://www.aliexpress.com/item/{product_ref}.html?aff_fcid=DEMO_ALI_FCID&aff_fsk={sub_id}&aff_platform=dealbrain&sk={campaign_id}&af={click_id}"
     PERCENT (of_Z 6) 30 M_INACTIVE 60 now now H_UNKNOWN [] true]%string.

Definition build_default_disclosures (now : datetime) : list AffiliateDisclosure :=
  [Disclosure "disc-general-en" "affiliate_general"
     "PiqSavi may earn a commission when you buy through links on this page. Commissions never change PiqScore or product rankings."
     None None "en" now now true true;
   Disclosure "disc-ftc-us" "ftc"
     "[FTC DISCLOSURE PLACEHOLDER] This site contains affiliate links. We may receive compensation if you purchase through these links. This disclosure is a placeholder and is not legal advice."
     (Some "US") None "en-US" now now true true;
   Disclosure "disc-regional-ph" "regional"
     "Some product links are affiliate links for Philippine marketplaces (Shopee / Lazada placeholders). Rankings remain commission-independent."
     (Some "PH") None "en-PH" now now true true;
   Disclosure "disc-merchant-amazon" "merchant"
     "As an Amazon Associates placeholder participant, PiqSavi may earn from qualifying purchases. No real Amazon credentials are configured."
     (Some "US") (Some "merchant-amazon-us") "en-US" now now true true]%string.

(** [seed_placeholders]. *)
Definition seed_placeholders (r : repository) : repository :=
  let r := fold_left (fun r m => save_merchant m r) (build_placeholder_merchants SEED_NOW) r in
  let r := fold_left (fun r d => save_disclosure d r) (build_default_disclosures SEED_NOW) r in
  Repository (merchants r) (links r) (clicks r) (attributions r) (disclosures r) 250.
End Fixtures.
