(* ===== verification/AffiliateServices.v ===== *)
(** The affiliate services: [app/services/affiliate_merchant_service.py],
    [affiliate_link_service.py], [affiliate_tracking_service.py],
    [affiliate_reporting_service.py] and [affiliate_disclosure_service.py] over
    the one in-memory repository that [app/core/dependencies.py] gives them.

    A method is a step on the repository. The instant and the identifiers it
    draws are arguments. *)

From S2P Require Import Prelude PyStr PyState Clock Password PyRepr Float FloatOps UrlParts UrlTrust Affiliate.
Import PyRepr PyFloat FloatOps Entities Store.
#[local] Open Scope Z_scope.
#[local] Open Scope py_scope.

Inductive affiliate_error :=
| AffiliateValidationError (message : string)
| AffiliateMerchantNotFoundError (merchant_id : string)
| AffiliateLinkNotFoundError (link_id : string)
| AffiliateClickNotFoundError (click_id : string)
| AffiliateDisclosureNotFoundError (disclosure_id : string).

#[global] Instance affiliate_error_eq_dec : EqDecision affiliate_error. Proof. solve_decision. Defined.

Definition answer := result affiliate_error.
Definition service (A : Type) : Type := act repository affiliate_error A.

Definition invalid {A} (message : string) : answer A := Err (AffiliateValidationError message).
Definition s_read {A} (f : repository -> A) : service A := fun r => (Ok (f r), r).
Definition s_save {A} (f : A -> repository -> repository) (x : A) : service A := fun r => (Ok x, f x r).

(** [value.strip().lower().replace(" ", "_").replace("-", "_")]. *)
Definition snake (s : string) : string :=
  of_chars (map (fun c => if Ascii.eqb c " " || Ascii.eqb c "-" then "_"%char else c) (chars (lower (strip s)))).

(** [Enum(text)], an unknown text being refused. *)
Definition member {A} (value : A -> string) (all : list A) (what : string) (text given : string) : answer A :=
  match List.find (fun x => String.eqb (value x) text) all with
  | Some x => Ok x
  | None => invalid ("Unsupported " +:+ what +:+ ": " +:+ repr_str given)
  end.

(** ** Merchants *)
Module MerchantService.

Definition _require_name (name : string) : answer string :=
  let cleaned := strip name in
  raise! AffiliateValidationError "merchant_name is required." when negb (nonempty cleaned) in Ok cleaned.
Definition _marketplace (value : string) := member marketplace_value marketplaces "marketplace" (snake value) value.
Definition _network (value : string) := member network_value networks "affiliate_network" (snake value) value.
Definition _commission_type (value : string) :=
  member commission_type_value commission_types "commission_type" (lower (strip value)) value.
Definition _status (value : string) := member merchant_status_value merchant_statuses "status" (lower (strip value)) value.
Definition _health (value : string) := member health_value healths "health_status" (lower (strip value)) value.

Definition merchant_key_ltb (a b : Z * string) : bool :=
  if negb (a.1 =? b.1) then a.1 <? b.1 else str_ltb a.2 b.2.

Definition list_merchants (by_status marketplace country : option string) (active_only : bool) (r : repository)
    : list AffiliateMerchant :=
  let effective := if active_only && negb (is_some by_status) then Some (merchant_status_value M_ACTIVE) else by_status in
  sorted merchant_key_ltb (fun m => (priority m, merchant_name m)) (Store.list_merchants effective marketplace country r).

Definition get_merchant (i : string) : service AffiliateMerchant :=
  do! m := s_read (Store.get_merchant i) in
  match m with Some m => a_ret m | None => a_err (AffiliateMerchantNotFoundError i) end.

Record creation := Creation {
  n_merchant_name : string; n_marketplace : string; n_country : string; n_network : string; n_template : string;
  n_commission_type : string; n_commission_value : float; n_cookie_days : Z; n_status : string; n_priority : Z;
  n_health : string; n_allowed : list string; n_deep_link : bool; n_merchant_id : option string;
}.

Definition create_merchant (c : creation) (fresh : string) (now : datetime) : service AffiliateMerchant :=
  do! name := a_lift (_require_name (n_merchant_name c)) in
  refuse! AffiliateValidationError "cookie_days must be non-negative." when n_cookie_days c <? 0 in
  refuse! AffiliateValidationError "commission_value must be non-negative." when f_ltb (n_commission_value c) f_zero in
  refuse! AffiliateValidationError "tracking_template is required." when negb (nonempty (strip (n_template c))) in
  do! marketplace := a_lift (_marketplace (n_marketplace c)) in
  do! network := a_lift (_network (n_network c)) in
  do! type_ := a_lift (_commission_type (n_commission_type c)) in
  do! status := a_lift (_status (n_status c)) in
  do! health := a_lift (_health (n_health c)) in
  let country := upper (strip (n_country c)) in
  s_save Store.save_merchant
    (Merchant (Builder.text_or (n_merchant_id c) ("merchant-" +:+ fresh)) name marketplace
       (if nonempty country then country else "US") network (strip (n_template c)) type_ (n_commission_value c)
       (n_cookie_days c) status (n_priority c) now now health (map upper (n_allowed c)) (n_deep_link c)).

(** Absent fields are [None]; [e_allowed] is the list or what stands for none. *)
Record edit := Edit {
  e_name : option string; e_template : option string; e_type : option string; e_value : option float;
  e_cookie_days : option Z; e_status : option string; e_priority : option Z; e_health : option string;
  e_allowed : option (list string); e_deep_link : option bool; e_country : option string;
}.
Definition no_edit : edit := Edit None None None None None None None None None None None.

(** A field of the update, checked where it is given. *)
Definition given {A B} (o : option A) (check : A -> answer B) (current : B) : answer B :=
  match o with Some x => check x | None => Ok current end.

Definition updated (e : edit) (now : datetime) (m : AffiliateMerchant) : answer AffiliateMerchant :=
  let! name := given (e_name e) _require_name (merchant_name m) in
  let! template := given (e_template e)
    (fun t => raise! AffiliateValidationError "tracking_template is required." when negb (nonempty (strip t)) in Ok (strip t))
    (tracking_template m) in
  let! type_ := given (e_type e) _commission_type (commission_type m) in
  let! value := given (e_value e)
    (fun x => raise! AffiliateValidationError "commission_value must be non-negative." when f_ltb x f_zero in Ok x)
    (commission_value m) in
  let! days := given (e_cookie_days e)
    (fun n => raise! AffiliateValidationError "cookie_days must be non-negative." when n <? 0 in Ok n) (cookie_days m) in
  let! status := given (e_status e) _status (status m) in
  let! priority := given (e_priority e) Ok (priority m) in
  let! health := given (e_health e) _health (health_status m) in
  let! allowed := given (e_allowed e) (fun l => Ok (map upper l)) (allowed_countries m) in
  let! deep := given (e_deep_link e) Ok (deep_link_supported m) in
  let! country := given (e_country e)
    (fun c => Ok (if nonempty (upper (strip c)) then upper (strip c) else m_country m)) (m_country m) in
  Ok (Merchant (merchant_id m) name (m_marketplace m) country (affiliate_network m) template type_ value days status
        priority (m_created_at m) now health allowed deep).

Definition update_merchant (i : string) (e : edit) (now : datetime) : service AffiliateMerchant :=
  do! m := get_merchant i in
  do! m' := a_lift (updated e now m) in
  s_save Store.save_merchant m'.

Definition with_status (s : string) : edit := Edit None None None None None (Some s) None None None None None.
Definition activate_merchant i := update_merchant i (with_status (merchant_status_value M_ACTIVE)).
Definition deactivate_merchant i := update_merchant i (with_status (merchant_status_value M_INACTIVE)).
Definition update_commission i (type_ : string) (value : float) :=
  update_merchant i (Edit None None (Some type_) (Some value) None None None None None None None).
Definition set_priority i (n : Z) := update_merchant i (Edit None None None None None None (Some n) None None None None).
Definition set_country_restrictions i (countries : list string) :=
  update_merchant i (Edit None None None None None None None None (Some countries) None None).
Definition set_health_status i (h : string) :=
  update_merchant i (Edit None None None None None None None (Some h) None None None).

Definition aliases : dict string := [("tiktok", marketplace_value TIKTOK_SHOP); ("tiktokshop", marketplace_value TIKTOK_SHOP)]%string.

Definition resolve_for_marketplace (marketplace : string) (country : option string) (r : repository)
    : option AffiliateMerchant :=
  let key := snake marketplace in
  let key := default key (d_get key aliases) in
  let active := Some (merchant_status_value M_ACTIVE) in
  match list_merchants active (Some key) country false r with
  | m :: _ => Some m
  | [] => head (list_merchants active (Some key) None false r)
  end.
End MerchantService.

(** ** Links *)
Module LinkService.
Import Builder.

Section Links.
Context (idna_tables : string -> option string) (numeric_addresses : string -> option (list IpAddress.address)).

Definition checked {A} (r : result string A) : answer A :=
  match r with Ok a => Ok a | Err message => invalid message end.

Definition validate_url (url : string) : answer string := checked (Builder.validate_url idna_tables numeric_addresses url).

Definition _resolve_merchant (merchant marketplace country : option string) : service AffiliateMerchant :=
  if present merchant then
    do! m := s_read (Store.get_merchant (default ""%string merchant)) in
    match m with Some m => a_ret m | None => a_err (AffiliateMerchantNotFoundError (default ""%string merchant)) end
  else
    refuse! AffiliateValidationError "merchant_id or marketplace is required." when negb (present marketplace) in
    let name := default ""%string marketplace in
    do! m := s_read (MerchantService.resolve_for_marketplace name country) in
    match m with
    | Some m => a_ret m
    | None => a_lift (invalid ("No active affiliate merchant for marketplace " +:+ repr_str name +:+ "."))
    end.

(** The country is neither listed nor the merchant's own. *)
Definition excluded (m : AffiliateMerchant) (country : string) : bool :=
  negb (bool_decide (upper country ∈ map upper (allowed_countries m)))
  && negb (bool_decide (upper (m_country m) ∈ ["GLOBAL"%string; upper country])).

Record link_request := LinkRequest {
  q_product_id : string; q_product_name : string; q_marketplace : option string; q_merchant_id : option string;
  q_original_url : option string; q_product_ref : option string; q_campaign_id : option string;
  q_sub_id : option string; q_click_id : option string; q_country : option string; q_category : option string;
  q_order_value : option float; q_deep_link : bool; q_currency : string; q_link_id : option string;
}.

(** The affiliate URL and the address the product has without it. *)
Definition urls (q : link_request) (m : AffiliateMerchant) (product click : string) : answer (string * string) :=
  if q_deep_link q then
    raise! AffiliateValidationError "original_url is required for deep links." when negb (present (q_original_url q)) in
    let original := default ""%string (q_original_url q) in
    let! url := checked (build_deep_link idna_tables numeric_addresses m original (q_campaign_id q) (q_sub_id q) (Some click)) in
    let! source_url := validate_url original in
    Ok (url, source_url)
  else
    let ref := strip (text_or (q_product_ref q) product) in
    let! url := checked (apply_template idna_tables numeric_addresses m ref (q_campaign_id q) (q_sub_id q) (Some click)) in
    if present (q_original_url q)
    then let! source_url := validate_url (default ""%string (q_original_url q)) in Ok (url, source_url)
    else Ok (url, ("https://dealbrain.demo/product/" +:+ product)%string).

Definition generate_link (q : link_request) (fresh_click fresh_link : string) (now : datetime) : service AffiliateLink :=
  let product := strip (q_product_id q) in
  let name := strip (q_product_name q) in
  refuse! AffiliateValidationError "product_id is required." when negb (nonempty product) in
  refuse! AffiliateValidationError "product_name is required." when negb (nonempty name) in
  do! m := _resolve_merchant (q_merchant_id q) (q_marketplace q) (q_country q) in
  refuse! AffiliateValidationError
    ("Merchant " +:+ merchant_id m +:+ " is not active (status=" +:+ merchant_status_value (status m) +:+ ").")
    when negb (bool_decide (status m = M_ACTIVE)) in
  let country := default ""%string (q_country q) in
  refuse! AffiliateValidationError
    ("Merchant " +:+ merchant_id m +:+ " is not available in country " +:+ repr_str country +:+ ".")
    when nonempty country && bool_decide (allowed_countries m <> []) && excluded m country in
  let click := text_or (q_click_id q) ("clk-" +:+ fresh_click) in
  do! both := a_lift (urls q m product click) in
  s_save Store.save_link
    (Link (text_or (q_link_id q) ("link-" +:+ fresh_link)) (merchant_id m) product name both.2 both.1 (m_marketplace m)
       (q_campaign_id q) (q_sub_id q) (Some click) (q_deep_link q) now (q_category q)
       (Some (estimate_commission m (q_order_value q))) (q_currency q)).

(** What is read of a recommendation. *)
Record recommended := Recommended {
  r_product_id : string; r_product_name : string; r_marketplace : option string; r_known_price : option float;
  r_category : option string;
}.

Definition request_for (x : recommended) (campaign sub user country : option string) : link_request :=
  LinkRequest (r_product_id x) (r_product_name x) (r_marketplace x) None None None campaign
    (Some (text_or sub (if present user then "user-" +:+ default ""%string user else "sa-anon"))) None country
    (if present (r_category x) then r_category x else None) (r_known_price x) false "USD" None.

(** [except (AffiliateValidationError, AffiliateMerchantNotFoundError)]. *)
Definition caught (e : affiliate_error) : bool :=
  match e with AffiliateValidationError _ | AffiliateMerchantNotFoundError _ => true | _ => false end.

Definition generate_for_recommendation (recommendation : option recommended) (campaign sub user country : option string)
    (fresh_click fresh_link : string) (now : datetime) : service (option AffiliateLink) :=
  match recommendation with
  | None => a_ret None
  | Some x =>
      if negb (nonempty (r_product_id x)) || negb (nonempty (r_product_name x)) then a_ret None
      else if negb (present (r_marketplace x)) then a_ret None
      else fun r =>
        match generate_link (request_for x campaign sub user country) fresh_click fresh_link now r with
        | (Ok link, r') => (Ok (Some link), r')
        | (Err e, r') => (if caught e then Ok None else Err e, r')
        end
  end.

Definition get_link (i : string) : service AffiliateLink :=
  do! l := s_read (Store.get_link i) in
  match l with Some l => a_ret l | None => a_err (AffiliateLinkNotFoundError i) end.

Definition list_links := Store.list_links.
End Links.
End LinkService.

(** ** Clicks and attribution *)
Module TrackingService.
Import LinkService Builder.

Definition _source (value : string) := member source_value click_sources "click source" (snake value) value.
Definition _conversion_status (value : string) :=
  member conversion_value conversions "conversion_status" (lower (strip value)) value.
Definition _attribution_model (value : string) := member model_value models "attribution model" (snake value) value.

Record click_request := ClickRequest {
  k_merchant_id : option string; k_product_id : option string; k_link_id : option string; k_user_id : option string;
  k_session_id : option string; k_device : option string; k_country : option string; k_campaign_id : option string;
  k_source : string; k_referrer : option string; k_product_name : option string; k_category : option string;
  k_revenue : float; k_commission : option float; k_currency : string; k_click_id : option string;
  k_metadata : dict string;
}.

(** [a or b]. *)
Definition or_text (a b : option string) : option string := if present a then a else b.

(** The fields of the click that a link supplies. *)
Record hydrated := Hydrated {
  y_merchant : option string; y_product : option string; y_name : option string; y_category : option string;
  y_campaign : option string; y_commission : option float; y_marketplace : option MarketplacePlaceholder;
  y_click_id : option string;
}.

Definition from_link (q : click_request) (link : option AffiliateLink) : hydrated :=
  match link with
  | None => Hydrated (k_merchant_id q) (k_product_id q) (k_product_name q) (k_category q) (k_campaign_id q)
              (k_commission q) None (k_click_id q)
  | Some l =>
      Hydrated (or_text (k_merchant_id q) (Some (l_merchant_id l))) (or_text (k_product_id q) (Some (l_product_id l)))
        (or_text (k_product_name q) (Some (l_product_name l))) (or_text (k_category q) (l_category l))
        (or_text (k_campaign_id q) (l_campaign_id l))
        (match k_commission q with Some x => Some x | None => l_estimated_commission l end) (Some (l_marketplace l))
        (if present (l_click_id l) && negb (present (k_click_id q)) then l_click_id l else k_click_id q)
  end.

(** [float(x or 0.0)]. *)
Definition or_zero (x : float) : float := if f_truthy x then x else f_zero.

Definition track_click (q : click_request) (fresh : string) (now : datetime) : service AffiliateClick :=
  do! link := if present (k_link_id q)
              then do! l := get_link (default ""%string (k_link_id q)) in a_ret (Some l)
              else a_ret None in
  let y := from_link q link in
  refuse! AffiliateValidationError "merchant_id (or link_id) is required." when negb (present (y_merchant y)) in
  refuse! AffiliateValidationError "product_id (or link_id) is required." when negb (present (y_product y)) in
  let merchant_ref := default ""%string (y_merchant y) in
  do! m := MerchantService.get_merchant merchant_ref in
  do! source := a_lift (_source (k_source q)) in
  s_save Store.save_click
    (Click (text_or (y_click_id y) ("clk-" +:+ fresh)) (k_user_id q) (k_session_id q) merchant_ref
       (default ""%string (y_product y)) now (k_device q)
       (if present (k_country q) then upper <$> k_country q else None) (y_campaign y) source (k_referrer q) CLICKED
       (or_zero (k_revenue q)) (k_link_id q) (y_name y) (y_category y)
       (Some (default (m_marketplace m) (y_marketplace y))) LAST_CLICK
       (or_zero (default (estimate_commission m None) (y_commission y))) (k_currency q) (k_metadata q)).

Definition get_click (i : string) : service AffiliateClick :=
  do! c := s_read (Store.get_click i) in
  match c with Some c => a_ret c | None => a_err (AffiliateClickNotFoundError i) end.

Definition with_status (s : ConversionStatus) (rev com : float) (c : AffiliateClick) : AffiliateClick :=
  Click (click_id c) (user_id c) (session_id c) (c_merchant_id c) (c_product_id c) (timestamp c) (device c) (c_country c)
    (c_campaign_id c) (source c) (referrer c) s rev (c_link_id c) (c_product_name c) (c_category c) (c_marketplace c)
    (attribution_model c) com (c_currency c) (metadata c).

Definition update_conversion_status (i : string) (text : string) (rev com : option float) : service AffiliateClick :=
  do! c := get_click i in
  do! s := a_lift (_conversion_status text) in
  refuse! AffiliateValidationError "revenue must be non-negative."
    when match rev with Some x => f_ltb x f_zero | None => false end in
  refuse! AffiliateValidationError "estimated_commission must be non-negative."
    when match com with Some x => f_ltb x f_zero | None => false end in
  s_save Store.save_click (with_status s (default (revenue c) rev) (default (estimated_commission c) com) c).

Definition attribute (model : string) (user session product merchant : option string) (rev com : float)
    (mark_click_converted : bool) (fresh : string) (now : datetime) : service AttributionResult :=
  do! m := a_lift (_attribution_model model) in
  do! candidates := s_read (Store.list_clicks user session merchant product 500) in
  let result := Attribution.attribute candidates m ("attr-" +:+ fresh) now rev com product merchant in
  do! _ := s_save Store.save_attribution result in
  do! _ := match at_click_id result with
           | Some i => if mark_click_converted && nonempty i
                       then do! _ := update_conversion_status i (conversion_value ATTRIBUTED) (Some (at_revenue result))
                                       (Some (at_commission result)) in a_ret tt
                       else a_ret tt
           | None => a_ret tt
           end in
  a_ret result.

Definition list_clicks := Store.list_clicks.
Definition list_attributions := Store.list_attributions.
End TrackingService.

(** ** Reports *)
Module ReportingService.

Definition build_report (merchant product : option string) (currency : string) (top_n limit : Z) (fresh : string)
    (now : datetime) (r : repository) : AffiliateRevenueReport :=
  Reporting.aggregate_revenue_report (Store.list_clicks None None merchant product limit r) ("report-" +:+ fresh) now
    (impression_count r) currency top_n.

Definition record_impression := Store.record_impression.
End ReportingService.

(** ** Disclosures *)
Module DisclosureService.
Import LinkService Builder Disclosures.

Definition get_disclosure (i : string) : service AffiliateDisclosure :=
  do! d := s_read (Store.get_disclosure i) in
  match d with Some d => a_ret d | None => a_err (AffiliateDisclosureNotFoundError i) end.

(** The disclosures, their text, and whether one is an FTC placeholder. *)
Definition resolve (by_region merchant : option string) (include_general include_ftc : bool) (r : repository)
    : list AffiliateDisclosure * string * bool :=
  let selected := select_disclosures (Store.list_disclosures None None None true r) by_region merchant
                    include_general include_ftc in
  (selected, combined_disclosure_text selected, existsb ftc_placeholder selected).

(** [region.upper() if region else None]. *)
Definition region_of (o : option string) : option string := if present o then upper <$> o else None.

Definition create_disclosure (type_ text : string) (by_region merchant : option string) (locale : string)
    (placeholder active : bool) (i : option string) (fresh : string) (now : datetime) : service AffiliateDisclosure :=
  let cleaned_type := strip type_ in
  let cleaned_text := strip text in
  refuse! AffiliateValidationError "disclosure_type is required." when negb (nonempty cleaned_type) in
  refuse! AffiliateValidationError "disclosure text is required." when negb (nonempty cleaned_text) in
  s_save Store.save_disclosure
    (Disclosure (text_or i ("disc-" +:+ fresh)) cleaned_type cleaned_text (region_of by_region) merchant
       (if nonempty locale then locale else "en") now now placeholder active).

Definition update_disclosure (i : string) (text : option string) (active : option bool) (by_region locale : option string)
    (now : datetime) : service AffiliateDisclosure :=
  do! d := get_disclosure i in
  refuse! AffiliateValidationError "disclosure text is required."
    when match text with Some t => negb (nonempty (strip t)) | None => false end in
  s_save Store.save_disclosure
    (Disclosure (disclosure_id d) (disclosure_type d) (match text with Some t => strip t | None => d_text d end)
       (match by_region with Some _ => region_of by_region | None => region d end) (d_merchant_id d)
       (default (d_locale d) locale) (d_created_at d) now (ftc_placeholder d) (default (d_active d) active)).

Definition list_disclosures := Store.list_disclosures.
End DisclosureService.
