(* ===== verification/AffiliateSafety.v ===== *)
(** What a generated link is, which click an attribution selects, and what a
    report counts. *)

From S2P Require Import Prelude PyStr PyState Clock Float FloatOps UrlParts UrlTrust UrlSafety Affiliate AffiliateServices.
Import PyFloat FloatOps Entities Store.
#[local] Open Scope Z_scope.
#[local] Open Scope py_scope.

(** ** Links *)
Module Links.
Import Builder LinkService Url UrlTrust Trust.

Lemma drop_while_stop f l a c :
  f c = false -> exists p, drop_while f (l ++ c :: a) = p ++ c :: a.
Proof.
  intros Hc. induction l as [|x l (p & IH)]; cbn.
  - rewrite Hc. by exists [].
  - destruct (f x); [by exists p | by exists (x :: l)].
Qed.

(** Stripping keeps a prefix between two characters that are no spaces. *)
Lemma strip_prefix a p b x :
  isspace a = false -> isspace b = false ->
  exists y, strip (of_chars (a :: p ++ b :: x)) = of_chars (a :: p ++ b :: y).
Proof.
  intros Ha Hb. unfold strip, lstrip_chars, rstrip_chars. rewrite chars_of_chars. cbn [drop_while]. rewrite Ha.
  replace (rev (a :: p ++ b :: x)) with (rev x ++ b :: rev (a :: p))
    by (cbn [rev]; rewrite rev_app_distr; cbn [rev]; by rewrite <- !app_assoc).
  destruct (drop_while_stop isspace (rev x) (rev (a :: p)) b Hb) as (y & ->).
  exists (rev y). f_equal. rewrite rev_app_distr. cbn [rev]. rewrite rev_app_distr, rev_involutive. cbn.
  by rewrite <- !app_assoc.
Qed.

(** The text of a template up to its first brace is not touched. *)
Lemma substitute_prefix p l fuel values :
  forallb (fun c => negb (Ascii.eqb c "{")) p = true -> (length p <= fuel)%nat ->
  exists x, substitute fuel values (p ++ l) = p ++ x.
Proof.
  revert fuel. induction p as [|c p IH]; intros fuel Hp Hf; [by eexists |].
  cbn in Hp. apply andb_prop in Hp as [Hc Hp]. destruct fuel as [|fuel]; [cbn in Hf; lia |]. cbn [app substitute].
  assert (token (c :: p ++ l) = None) as -> by (destruct c as [[] [] [] [] [] [] [] []]; done).
  destruct (IH fuel Hp) as (x & ->); [cbn in Hf; lia |]. by exists x.
Qed.

Definition host_char (c : ascii) : bool :=
  negb (Ascii.eqb c "/" || Ascii.eqb c "?" || Ascii.eqb c "#" || Ascii.eqb c "{").

Lemma split_netloc_host h l : forallb host_char h = true -> split_netloc (h ++ "/"%char :: l) = (h, "/"%char :: l).
Proof.
  induction h as [|c h IH]; [done |]. cbn [forallb app split_netloc]. intros [Hc Hh]%andb_prop.
  unfold host_char in Hc. apply negb_true_iff, orb_false_iff in Hc as [-> _]. by rewrite IH.
Qed.

(** Whatever follows the first slash, the host is what stands before it. *)
Lemma urlsplit_host h x u :
  forallb host_char h = true ->
  urlsplit (of_chars (chars "https://" ++ h ++ "/"%char :: x)) = Some u -> scheme u = "https"%string /\ netloc u = of_chars h.
Proof.
  intros Hh. unfold urlsplit.
  assert (split_scheme (of_chars (chars "https://" ++ h ++ "/"%char :: x))
    = ("https", of_chars ("/" :: "/" :: h ++ "/" :: x)%char)%string) as ->.
  { unfold split_scheme. cbn. unfold before, after. cbn. by rewrite of_chars_chars. }
  cbn [of_chars string_of_list_ascii]. change (string_of_list_ascii (h ++ "/"%char :: x)) with (of_chars (h ++ "/"%char :: x)).
  rewrite chars_of_chars, split_netloc_host by done. cbv zeta.
  destruct (xorb _ _); [done |]. destruct (_ && _); [done |]. intros [= <-]. done.
Qed.

Lemma lower_idemp s : lower (lower s) = lower s.
Proof.
  unfold lower. rewrite chars_of_chars, map_map. f_equal. apply map_ext.
  intros [[] [] [] [] [] [] [] []]; reflexivity.
Qed.

Definition starts_rest (l : list ascii) : Prop :=
  match l with [] => True | c :: _ => Ascii.eqb c "/" || Ascii.eqb c "?" || Ascii.eqb c "#" = true end.

Lemma split_netloc_parts l a b :
  split_netloc l = (a, b) -> forall b', starts_rest b' -> split_netloc (a ++ b') = (a, b').
Proof.
  revert a b. induction l as [|c l IH]; intros a b; cbn [split_netloc].
  - intros [= <- <-] b' Hb. destruct b' as [|c b']; [done |]. cbn [app split_netloc]. by rewrite Hb.
  - destruct (_ || _) eqn:E.
    + intros [= <- <-] b' Hb. destruct b' as [|d b']; [done |]. cbn [app split_netloc]. by rewrite Hb.
    + destruct (split_netloc l) as [a0 b0] eqn:El. intros [= <- <-] b' Hb. cbn [app split_netloc].
      by rewrite E, (IH _ _ eq_refl b' Hb).
Qed.

(** The host of a parsed URL, put before another path, query or fragment. *)
Lemma urlsplit_again url u rest :
  urlsplit url = Some u -> lower (scheme u) ∈ BROWSER_URL_SCHEMES -> starts_rest (chars rest) ->
  exists u', urlsplit (scheme u +:+ "://" +:+ netloc u +:+ rest) = Some u' /\ scheme u' = scheme u /\ netloc u' = netloc u.
Proof.
  intros Hu Hs Hr. unfold urlsplit at 1 in Hu. destruct (split_scheme url) as [s more] eqn:Es.
  assert (lower s = s) as Hlow.
  { unfold split_scheme in Es. destruct (before ":" url); [by injection Es as <- _ |].
    destruct (_ && _); injection Es as <- _; [apply lower_idemp | done]. }
  set (parts := match more with String "/" (String "/" r) => let '(a, b) := split_netloc (chars r) in (of_chars a, of_chars b)
                           | _ => (""%string, more) end).
  replace (match more with String "/" (String "/" r) => let '(a, b) := split_netloc (chars r) in (of_chars a, of_chars b)
           | _ => (""%string, more) end) with parts in Hu by done.
  assert (forall b', starts_rest b' -> split_netloc (chars parts.1 ++ b') = (chars parts.1, b')) as Hn.
  { assert (parts = (""%string, more) \/ exists r, parts = let '(a, b) := split_netloc (chars r) in (of_chars a, of_chars b))
      as [-> | (r & ->)].
    - clear. subst parts. destruct more as [|c1 more]; [by left |].
      destruct c1 as [[] [] [] [] [] [] [] []]; try (by left). destruct more as [|c2 r]; [by left |].
      destruct c2 as [[] [] [] [] [] [] [] []]; try (by left). right. by exists r.
    - intros b' Hb. by apply (split_netloc_parts [] [] []).
    - destruct (split_netloc (chars r)) as [a b] eqn:E. cbn [fst]. rewrite chars_of_chars.
      by apply (split_netloc_parts (chars r) a b). }
  destruct parts as [n more']. cbn [fst] in Hn. cbv zeta in Hu.
  destruct (xorb _ _) eqn:Ex; [done |]. destruct (_ && _ && _) eqn:Eb; [done |].
  injection Hu as <-. cbn [scheme netloc] in *. rewrite Hlow in Hs.
  assert (split_scheme (s +:+ "://" +:+ n +:+ rest) = (s, "//" +:+ n +:+ rest)%string) as E.
  { unfold BROWSER_URL_SCHEMES in Hs. set_unfold in Hs. destruct Hs as [-> | [-> | []]];
      generalize (n +:+ rest)%string; intros x; unfold split_scheme, before, after, has_char, any_char;
      rewrite !chars_app; cbn; by rewrite of_chars_chars. }
  unfold urlsplit. rewrite E. change ("//" +:+ n +:+ rest)%string with (String "/" (String "/" (n +:+ rest))).
  cbv beta iota. rewrite chars_app, (Hn _ Hr), !of_chars_chars. cbv zeta. rewrite Ex, Eb. by eexists.
Qed.

Lemma slash_first s : startswith "/" s = true -> starts_rest (chars s).
Proof.
  unfold startswith. destruct s as [|c s]; [done |]. cbn [String.prefix].
  destruct (ascii_dec "/" c) as [<- |]; [by intros _ | done].
Qed.

Lemma append_assoc a b c : ((a +:+ b) +:+ c = a +:+ b +:+ c)%string.
Proof. rewrite <- (of_chars_chars ((a +:+ b) +:+ c)), !chars_app, <- app_assoc, <- !chars_app. apply of_chars_chars. Qed.

Lemma append_nil_r a : (a +:+ "" = a)%string.
Proof. rewrite <- (of_chars_chars (a +:+ "")), chars_app. cbn. rewrite app_nil_r. apply of_chars_chars. Qed.

(** A template whose host is written out. *)
Definition template_of (host rest template : string) : Prop :=
  template = ("https://" +:+ host +:+ "/" +:+ rest)%string /\ all_char host_char host = true.

Section Links.
Context (idna_tables : string -> option string) (numeric_addresses : string -> option (list IpAddress.address)).

Lemma rendered_host host rest template values :
  template_of host rest template ->
  exists x, strip (render template values) = of_chars (chars "https://" ++ chars host ++ "/"%char :: x).
Proof.
  intros [-> Hh]. unfold render. rewrite !chars_app.
  set (p := chars "https://" ++ chars host ++ ["/"%char]).
  replace (chars "https://" ++ chars host ++ chars "/" ++ chars rest) with (p ++ chars rest)
    by (unfold p; by rewrite <- !app_assoc).
  destruct (substitute_prefix p (chars rest) (length (p ++ chars rest)) values) as (x & ->).
  - unfold p. rewrite !forallb_app. cbn. rewrite andb_true_r. unfold all_char in Hh. rewrite forallb_forall in *.
    intros c Hc. specialize (Hh c Hc). unfold host_char in Hh. bool_simpl. by apply negb_true_iff.
  - rewrite length_app. lia.
  - unfold p. rewrite <- !app_assoc. cbn [app].
    destruct (strip_prefix "h" (tl (chars "https://") ++ chars host) "/" x eq_refl eq_refl) as (y & Hy).
    exists y. rewrite <- app_assoc in Hy. exact Hy.
Qed.

(** Validating what was validated changes nothing. *)
Lemma validated_parses url v :
  Builder.validate_url idna_tables numeric_addresses url = Ok v ->
  v = strip url /\ Builder.validate_url idna_tables numeric_addresses v = Ok v
  /\ exists u, urlsplit v = Some u /\ lower (scheme u) ∈ BROWSER_URL_SCHEMES.
Proof.
  unfold Builder.validate_url. intros H. pose proof H as H0.
  apply rbind_ok_inv in H as ([] & Hn & H). apply validated in H as (-> & _ & _ & u & _ & _ & _ & Hu & Hs & _).
  rewrite strip_idemp in *. split; [done |]. split; [by rewrite strip_idemp | by exists u].
Qed.

(** Rewriting the query of a URL keeps its scheme and host. *)
Lemma attached_parses url campaign sub click extra v :
  attach_tracking_params idna_tables numeric_addresses url campaign sub click extra = Ok v ->
  exists u u', urlsplit (strip url) = Some u /\ urlsplit v = Some u' /\ scheme u' = scheme u /\ netloc u' = netloc u.
Proof.
  unfold attach_tracking_params. intros H. apply rbind_ok_inv in H as (w & (-> & _ & u & Hu & Hs)%validated_parses & H).
  rewrite Hu in H. injection H as <-. exists u. unfold Query.urlunparse. cbv zeta.
  destruct (Query.split_params _) as [path params].
  match goal with |- context [netloc u +:+ ?p] => set (url' := p) end.
  assert (starts_rest (chars url')) as Hurl.
  { unfold url'. destruct (nonempty _ && negb _) eqn:E; [by rewrite chars_app |].
    apply andb_false_iff in E as [->%nonempty_false | E%negb_false_iff]; [done | by apply slash_first]. }
  clearbody url'. set (q := Query.urlencode _). clearbody q.
  set (tail := url' +:+ (if nonempty q then "?" +:+ q else "") +:+ (if nonempty (fragment u) then "#" +:+ fragment u else "")).
  destruct (urlsplit_again (strip url) u tail Hu Hs) as (u' & Hu' & Hs' & Hn').
  { unfold tail. rewrite !chars_app. destruct (chars url') as [|c l]; [| exact Hurl].
    destruct (nonempty q); [by rewrite chars_app |]. destruct (nonempty (fragment u)); [by rewrite chars_app | done]. }
  exists u'. split_and!; try done. rewrite <- Hu'. f_equal. unfold tail.
  destruct (nonempty q), (nonempty (fragment u)); by rewrite ?append_assoc, ?append_nil_r.
Qed.

Lemma attach_never_fails url campaign sub click extra v :
  Builder.validate_url idna_tables numeric_addresses url = Ok v ->
  exists w, attach_tracking_params idna_tables numeric_addresses v campaign sub click extra = Ok w.
Proof.
  intros (_ & Hv & u & Hu & _)%validated_parses. unfold attach_tracking_params. rewrite Hv. cbn [rbind]. rewrite Hu. eauto.
Qed.

Lemma applied_host m ref campaign sub click url host rest :
  apply_template idna_tables numeric_addresses m ref campaign sub click = Ok url -> template_of host rest (tracking_template m) ->
  exists u, urlsplit url = Some u /\ scheme u = "https"%string /\ netloc u = host.
Proof.
  unfold apply_template, Builder.validate_url. intros H Ht. apply rbind_ok_inv in H as (? & _ & H).
  apply validated in H as (-> & _ & _ & u & _ & _ & _ & Hu & _). rewrite strip_idemp in *.
  destruct (rendered_host _ _ _ (template_values m ref campaign sub click) Ht) as (tail & Hx). rewrite Hx in *.
  exists u. split; [done |]. destruct Ht as [_ Hh].
  destruct (urlsplit_host (chars host) tail u Hh Hu) as [-> ->]. by rewrite of_chars_chars.
Qed.

Definition registered (m : AffiliateMerchant) (r : repository) : Prop := exists k, Store.get_merchant k r = Some m.

Lemma only_sub {A B} (w : option B) test (l : list A) x : x ∈ only w test l -> x ∈ l.
Proof. destruct w; [| done]. cbn. rewrite !list_elem_of_In, filter_In. tauto. Qed.

Lemma listed_registered s mk c r m : m ∈ Store.list_merchants s mk c r -> registered m r.
Proof.
  unfold Store.list_merchants. intros H. do 3 apply only_sub in H. unfold in_order in H.
  apply list_elem_of_omap in H as (k & _ & H). by exists k.
Qed.

Lemma resolved_registered mk c r m : MerchantService.resolve_for_marketplace mk c r = Some m -> registered m r.
Proof.
  unfold MerchantService.resolve_for_marketplace. cbv zeta.
  assert (forall s k d x, x ∈ MerchantService.list_merchants s k d false r -> registered x r) as Hl.
  { intros s k d x. unfold MerchantService.list_merchants. rewrite elem_of_sorted. apply listed_registered. }
  destruct (MerchantService.list_merchants _ _ c _ r) as [|x l] eqn:E.
  - destruct (MerchantService.list_merchants _ _ None _ r) as [|y l] eqn:E2; [done |]. cbn. intros [= <-].
    eapply Hl. rewrite E2. set_solver.
  - intros [= <-]. eapply Hl. rewrite E. set_solver.
Qed.

Lemma resolve_runs i mk c r m r' : _resolve_merchant i mk c r = (Ok m, r') -> registered m r /\ r' = r.
Proof.
  unfold _resolve_merchant. destruct (present i).
  - unfold a_bind at 1, s_read. destruct (Store.get_merchant _ r) as [x|] eqn:E; [| done].
    intros [= -> ->]. split; [by eexists | done].
  - unfold a_bind at 1, a_guard, a_lift, guard_raise. destruct (negb _); [done |].
    unfold a_bind, s_read. destruct (MerchantService.resolve_for_marketplace _ _ r) as [x|] eqn:E; [| done].
    intros [= -> ->]. split; [by eapply resolved_registered | done].
Qed.

Lemma refuse_ok {A} e c (k : service A) r a r' :
  (refuse! e when c in k) r = (Ok a, r') -> c = false /\ k r = (Ok a, r').
Proof. unfold a_bind, a_guard, a_lift, guard_raise. by destruct c. Qed.

Lemma answer_ok {A B} (x : answer B) (k : B -> service A) r a r' :
  (do! y := a_lift x in k y) r = (Ok a, r') -> exists y, x = Ok y /\ k y r = (Ok a, r').
Proof. unfold a_bind, a_lift. destruct x; [eauto | done]. Qed.

(** What a generated link is made of. *)
Lemma generated q f1 f2 now r link r' :
  generate_link idna_tables numeric_addresses q f1 f2 now r = (Ok link, r') ->
  exists m click, registered m r /\ status m = M_ACTIVE
    /\ (forall country, q_country q = Some country -> country <> ""%string -> allowed_countries m <> [] ->
          excluded m country = false)
    /\ l_merchant_id link = merchant_id m /\ l_product_id link = strip (q_product_id q)
    /\ l_click_id link = Some click
    /\ urls idna_tables numeric_addresses q m (strip (q_product_id q)) click
         = Ok (affiliate_url link, original_url link)
    /\ r' = Store.save_link link r.
Proof.
  unfold generate_link. cbv zeta. intros (_ & H)%refuse_ok. apply refuse_ok in H as [_ H].
  unfold a_bind at 1 in H. destruct (_resolve_merchant _ _ _ r) as [[m|] r1] eqn:Em; [| done].
  apply resolve_runs in Em as [Hm ->]. apply refuse_ok in H as [Hs H]. apply refuse_ok in H as [Hc H].
  apply answer_ok in H as ([url source_url] & Hu & H). unfold s_save in H. injection H as <- <-. cbn [fst snd] in *.
  exists m, (text_or (q_click_id q) ("clk-" +:+ f1)). split_and!; try done.
  - by apply negb_false_iff, bool_decide_eq_true in Hs.
  - intros country Hq Hne Ha. rewrite Hq in Hc. cbn in Hc. rewrite (bool_decide_true _ Ha), andb_true_r in Hc.
    by rewrite (proj2 (nonempty_true country) Hne) in Hc.
Qed.

(** A deep link points at the rewritten template of the merchant or, where
    that template cannot be filled in, at the rewritten destination. *)
Lemma deep_link_parses m destination campaign sub click url :
  build_deep_link idna_tables numeric_addresses m destination campaign sub click = Ok url ->
  exists u, urlsplit url = Some u
    /\ ((exists ref filled t, apply_template idna_tables numeric_addresses m ref campaign sub click = Ok filled
          /\ urlsplit filled = Some t /\ scheme u = scheme t /\ netloc u = netloc t)
        \/ exists ref e d, apply_template idna_tables numeric_addresses m ref campaign sub click = Err e
          /\ urlsplit (strip destination) = Some d /\ scheme u = scheme d /\ netloc u = netloc d).
Proof.
  unfold build_deep_link. intros H. apply rbind_ok_inv in H as (d & (-> & _ & _)%validated_parses & H).
  apply rbind_ok_inv in H as (_ & _ & H). cbv zeta in H. set (ref := text_or _ _) in H.
  destruct (apply_template _ _ m ref _ _ _) as [filled | e] eqn:Et; cbn [rbind] in H.
  - destruct (attach_never_fails _ None None None [("dest"%string, strip destination)] _ Et) as (w & Hw).
    rewrite Hw in H. injection H as <-. pose proof (validated_parses _ _ Et) as (Ef & _ & _).
    assert (strip filled = filled) as Hf by (by rewrite Ef, strip_idemp).
    apply attached_parses in Hw as (t & u & Hfilled & Hu & Hs & Hn). rewrite Hf in Hfilled.
    exists u. split; [done |]. left. by exists ref, filled, t.
  - apply attached_parses in H as (t & u & Hd & Hu & Hs & Hn). rewrite strip_idemp in Hd.
    exists u. split; [done |]. right. by exists ref, e, t.
Qed.


(** Decorating a recommendation never raises: there is a link, or none. *)
Lemma recommendation_never_raises x campaign sub user country f1 f2 now r :
  exists o, (generate_for_recommendation idna_tables numeric_addresses x campaign sub user country
               f1 f2 now r).1 = Ok o.
Proof.
  unfold generate_for_recommendation. destruct x as [x|]; [| by eexists].
  destruct (_ || _); [by eexists |]. destruct (negb _); [by eexists |].
  destruct (generate_link _ _ _ _ _ _ r) as [[link | e] r'] eqn:E; [by eexists |].
  enough (caught e = true) as -> by by eexists.
  revert E. unfold generate_link. cbv zeta. unfold a_bind, a_guard, a_lift, guard_raise, s_save.
  repeat match goal with |- context [if ?b then Err _ else Ok tt] => destruct b; [by intros [= <- _] |] end.
  destruct (_resolve_merchant _ _ _ r) as [[m | e'] r1] eqn:Em.
  - repeat match goal with |- context [if ?b then Err _ else Ok tt] => destruct b; [by intros [= <- _] |] end.
    destruct (urls _ _ _ _ _ _) as [p | e'] eqn:Eu; [done |]. intros [= -> _]. revert Eu.
    unfold urls, LinkService.validate_url, checked. cbn [q_deep_link request_for].
    destruct (apply_template _ _ _ _ _ _ _); cbn [rbind]; [| by intros [= <-]].
    destruct (present _); [| done]. destruct (Builder.validate_url _ _ _); by intros [= <-].
  - intros [= -> _]. revert Em. unfold _resolve_merchant. cbn [present request_for q_merchant_id].
    unfold a_bind, a_guard, a_lift, guard_raise, s_read. destruct (negb _); [by intros [= <- _] |].
    destruct (MerchantService.resolve_for_marketplace _ _ _); [done |]. by intros [= <- _].
Qed.
End Links.
End Links.

(** ** Attribution *)
Module AttributionRules.
Import Attribution.

Lemma last_of_app {A} (l : list A) x : last_of (l ++ [x]) = Some x.
Proof. unfold last_of. rewrite map_app. cbn [map]. by rewrite List.last_last. Qed.

Lemma last_of_spec {A} (l : list A) x : last_of l = Some x -> exists p, l = p ++ [x].
Proof.
  destruct l as [|y l _] using rev_ind; [done |]. rewrite last_of_app. intros [= ->]. by exists l.
Qed.

Definition no_later (a b : AffiliateClick) : Prop := dt_us (timestamp a) <= dt_us (timestamp b).

Lemma by_time_sorted l : StronglySorted no_later (by_time l).
Proof.
  assert (StronglySorted (key_le Z.ltb (fun c => dt_us (timestamp c))) (by_time l)) as H.
  { apply sorted_sorted; intros; rewrite ?Z.ltb_ge, ?Z.ltb_lt in *; lia. }
  induction H as [|c r _ IH Hc]; constructor; [done |]. eapply Forall_impl; [exact Hc |]. intros d Hd.
  unfold key_le in Hd. unfold no_later. by apply Z.ltb_ge in Hd.
Qed.

Lemma filter_sorted (p : AffiliateClick -> bool) l : StronglySorted no_later l -> StronglySorted no_later (List.filter p l).
Proof.
  induction 1 as [|c r _ IH Hc]; cbn; [constructor |]. destruct (p c); [| done]. constructor; [done |].
  rewrite List.Forall_forall in *. intros x [Hx _]%filter_In. by apply Hc.
Qed.

Lemma sorted_last l c : StronglySorted no_later l -> last_of l = Some c -> c ∈ l /\ forall d, d ∈ l -> no_later d c.
Proof.
  intros Hs (p & ->)%last_of_spec. split; [set_solver |]. intros d [Hd | ->%list_elem_of_singleton]%elem_of_app.
  - induction p as [|x p IH]; [by apply not_elem_of_nil in Hd |]. cbn in Hs. inversion Hs as [|? ? Hp Hall]; subst.
    apply elem_of_cons in Hd as [-> | Hd]; [| by apply IH]. rewrite List.Forall_forall in Hall. apply Hall.
    apply in_app_iff. right. by left.
  - unfold no_later. lia.
Qed.

(** Which clicks a model takes into account. *)
Definition counts (model : AttributionModel) (c : AffiliateClick) : bool :=
  match model with
  | DIRECT => false
  | ORGANIC => organic c
  | INTERNAL_RECOMMENDATION => internal c
  | EXTERNAL_CAMPAIGN => external c
  | FIRST_CLICK | LAST_CLICK => true
  end.

Definition matches (product merchant : option string) (c : AffiliateClick) : Prop :=
  (forall p, product = Some p -> c_product_id c = p) /\ (forall m, merchant = Some m -> c_merchant_id c = m).

Lemma candidates_elem product merchant l c :
  c ∈ candidates product merchant l <-> c ∈ l /\ matches product merchant c.
Proof.
  unfold candidates, by_time, matches. rewrite elem_of_sorted, !list_elem_of_In.
  destruct product as [p|], merchant as [m|]; cbn; rewrite ?filter_In, ?String.eqb_eq; naive_solver.
Qed.

(** The click an attribution selects is one of those given that matches the
    product and the merchant and counts for the model; none of these is later
    (earlier, under [FIRST_CLICK]). When it selects none, there is none. *)
Lemma attribution_selects_by_time l model product merchant :
  let fits c := c ∈ l /\ matches product merchant c /\ counts model c = true in
  match select model (candidates product merchant l) with
  | Some c => fits c /\ forall d, fits d -> if decide (model = FIRST_CLICK) then no_later c d else no_later d c
  | None => model = DIRECT \/ forall d, ~ fits d
  end.
Proof.
  intros fits. pose proof (by_time_sorted (only merchant (fun w c => String.eqb (c_merchant_id c) w)
                       (only product (fun w c => String.eqb (c_product_id c) w) l))) as Hs.
  fold (candidates product merchant l) in Hs.
  assert (forall f, (forall c, counts model c = f c) -> model <> FIRST_CLICK ->
    match last_of (List.filter f (candidates product merchant l)) with
    | Some c => fits c /\ forall d, fits d -> if decide (model = FIRST_CLICK) then no_later c d else no_later d c
    | None => model = DIRECT \/ forall d, ~ fits d
    end) as Hlast.
  { intros f Hf Hm. assert (forall d, fits d <-> d ∈ List.filter f (candidates product merchant l)) as Hfits.
    { intros d. rewrite list_elem_of_In, filter_In, <- list_elem_of_In, candidates_elem. unfold fits.
      rewrite Hf. tauto. }
    destruct (last_of _) as [c|] eqn:E.
    - destruct (sorted_last _ c (filter_sorted f _ Hs) E) as [Hin Hall]. split; [by apply Hfits |].
      intros d Hd. rewrite decide_False by done. by apply Hall, Hfits.
    - right. intros d Hd%Hfits. destruct (List.filter f _) as [|x k _] using rev_ind;
        [by apply not_elem_of_nil in Hd | by rewrite last_of_app in E]. }
  destruct model; cbn [select].
  - assert (forall k : list AffiliateClick, List.filter (fun _ => true) k = k) as Hall
      by (intros k; induction k; cbn; by f_equal).
    pose proof (Hlast (fun _ => true) (fun _ => eq_refl) ltac:(done)) as H. by rewrite Hall in H.
  - destruct (candidates product merchant l) as [|c k] eqn:E; cbn [head].
    + right. intros d (Hd & Hm & _). assert (d ∈ candidates product merchant l) as H by (by apply candidates_elem).
      rewrite E in H. by apply not_elem_of_nil in H.
    + split.
      * assert (c ∈ candidates product merchant l) as H by (rewrite E; set_solver). apply candidates_elem in H. by destruct H.
      * intros d (Hd & Hm & _). rewrite decide_True by done.
        assert (d ∈ candidates product merchant l) as H by (by apply candidates_elem).
        rewrite E in H. inversion Hs as [|? ? _ Hall]; subst. apply elem_of_cons in H as [-> | H]; [unfold no_later; lia |].
        rewrite List.Forall_forall in Hall. by apply Hall, list_elem_of_In.
  - by left.
  - by apply Hlast.
  - by apply Hlast.
  - by apply Hlast.
Qed.
End AttributionRules.

(** ** Reports *)
Module Counting.
Import Reporting.

Fixpoint sum {A} (f : A -> Z) (l : list A) : Z := match l with [] => 0 | x :: r => f x + sum f r end.

Lemma sum_perm {A} (f : A -> Z) l k : Permutation l k -> sum f l = sum f k.
Proof. induction 1; cbn; lia. Qed.

Lemma sum_map {A B} (f : B -> Z) (g : A -> B) l : sum f (map g l) = sum (fun x => f (g x)) l.
Proof. induction l; cbn; lia. Qed.

(** Replacing the tally of a key changes the sum by the difference. *)
Lemma sum_set {V} (f : V -> Z) (zero : V) k v (d : dict V) :
  f zero = 0 -> keys_ok d ->
  sum (fun kv => f kv.2) (d_set k v d) = sum (fun kv => f kv.2) d - f (default zero (d_get k d)) + f v.
Proof.
  intros Hz. unfold d_set, keys_ok. destruct (existsb (has_key k) d) eqn:E.
  - induction d as [|[k' w] d IH]; cbn [existsb map fst] in *; [done |]. intros [Hk Hd]%NoDup_cons.
    unfold d_get. cbn [List.find]. destruct (has_key k (k', w)) eqn:Ek; cbn [orb sum snd fst fmap option_fmap option_map default] in *.
    + apply has_key_iff in Ek. cbn in Ek. subst k'.
      assert (map (fun kv : string * V => if has_key k kv then (k, v) else kv) d = d) as Hid.
      { clear -Hk. induction d as [|[k' w'] d IH]; cbn [map fst] in *; [done |]. rewrite has_key_ne by set_solver.
        f_equal. apply IH. set_solver. }
      rewrite Hid. change (id w) with w. lia.
    + fold (d_get k d). rewrite (IH E Hd). lia.
  - intros _. assert (d_get k d = None) as -> by by apply d_get_none. cbn [default from_option id]. rewrite Hz.
    clear E. induction d as [|kv d IH]; cbn [app sum snd] in *; lia.
Qed.

(** Every click is counted under exactly one key. *)
Lemma tallies_count key label items :
  keys_ok (tallies key label items)
  /\ sum (fun kv => t_clicks kv.2) (tallies key label items) = Z.of_nat (length items)
  /\ sum (fun kv => t_conversions kv.2) (tallies key label items) = Z.of_nat (length (List.filter converted items)).
Proof.
  unfold tallies. induction items as [|c items IH] using rev_ind; [by split_and!; [constructor | ..] |].
  rewrite fold_left_app. cbn [fold_left]. match goal with |- context [fold_left ?g items []] => set (d := fold_left g items []) in * end. destruct IH as (Hd & Hc & Hv).
  split; [by apply keys_ok_set |].
  rewrite (sum_set t_clicks no_tally), (sum_set t_conversions no_tally), Hc, Hv, length_app, List.filter_app, length_app by done.
  unfold count. cbn [List.filter length]. destruct (converted c); cbn [t_clicks t_conversions length]; lia.
Qed.

(** A report neither loses nor repeats a click: the clicks and the conversions of
    the merchants add up to the totals, and so do those of the products and of
    the categories. *)
Lemma report_counts_every_click items id now imp currency top_n :
  let r := aggregate_revenue_report items id now imp currency top_n in
  Forall (fun l => sum b_clicks l = total_clicks r /\ sum b_conversions l = total_conversions r)
    [by_merchant r; by_product r; by_category r].
Proof.
  assert (forall key label, sum b_clicks (buckets currency (tallies key label items)) = Z.of_nat (length items)
    /\ sum b_conversions (buckets currency (tallies key label items)) = Z.of_nat (length (List.filter converted items))) as H.
  { intros key label. destruct (tallies_count key label items) as (_ & Hc & Hv). unfold buckets.
    rewrite !(sum_perm _ _ _ (sorted_perm _ _ _)), !sum_map. cbn. by rewrite Hc, Hv. }
  repeat constructor; apply H.
Qed.
End Counting.

(** ** Runs *)
Module Runs.
Import Builder LinkService Url UrlTrust Trust Links.

Definition at_min (n : Z) : datetime := Datetime (60000000 * n) true.
Definition seeded : repository := Fixtures.seed_placeholders empty_repository.

Definition sneaky : link_request :=
  LinkRequest "p1" "Phone" (Some "Amazon") None None (Some "../..@evil.example/#") (Some "a&b") None None (Some "us") None
    (Some (of_Z 500)) false "USD" None.

Definition sneaky_link : AffiliateLink :=
  match (generate_link no_tables no_numbers sneaky "c1" "l1" (at_min 1) seeded).1 with
  | Ok l => l
  | Err _ => Link "" "" "" "" "" "" AMAZON None None None false (at_min 0) None None ""
  end.

Example sneaky_link_url :
  affiliate_url sneaky_link
  = "https://www.amazon.com/dp/../..@evil.example/#?tag=DEMO_AMAZON_TAG&ascsubtag=DEMO_SUB&camp=a&b&clickid=clk-c1"%string
  /\ option_map (repr (* the estimate *)) (l_estimated_commission sneaky_link) = Some "20.0"%string.
Proof. vm_compute. split; reflexivity. Qed.

(** Every template the program ships spells out its host. *)
Example shipped_hosts :
  map (fun m => before "/" (after "/" (after "/" (tracking_template m)))) (Fixtures.build_placeholder_merchants (at_min 0))
  = ["www.amazon.com"; "shopee.ph"; "www.lazada.com.ph"; "shop.tiktok.com"; "www.ebay.com"; "www.aliexpress.com"]%string
  /\ Forall (fun m => exists host rest, template_of host rest (tracking_template m))
       (Fixtures.build_placeholder_merchants (at_min 0)).
Proof.
  split; [vm_compute; reflexivity |].
  assert (forall t, let host := before "/" (after "/" (after "/" t)) in
    t = ("https://" +:+ host +:+ "/" +:+ after "/" (after "/" (after "/" t)))%string /\ all_char host_char host = true ->
    exists host rest, template_of host rest t) as H.
  { intros t host Ht. by exists host, (after "/" (after "/" (after "/" t))). }
  repeat constructor; apply H; vm_compute; split; reflexivity.
Qed.

(** A deep link to another shop, and one whose campaign no URL may hold. *)
Definition deep (campaign : string) : link_request :=
  LinkRequest "p1" "Phone" (Some "Amazon") None (Some "https://shop.example/x/B00?y=1&y=2") None (Some campaign) None None
    (Some "us") None (Some (of_Z 500)) true "USD" None.

Definition deep_link_to (campaign : string) : option AffiliateLink :=
  match (generate_link no_tables no_numbers (deep campaign) "c1" "l1" (at_min 1) seeded).1 with
  | Ok l => Some l
  | Err _ => None
  end.

(** The first goes to the merchant and carries the destination; the second goes
    to the destination. *)
Example deep_link_urls :
  map (fun c => affiliate_url <$> deep_link_to c) ["sale"; "big sale"]%string
  = [Some "https://www.amazon.com/dp/B00?tag=DEMO_AMAZON_TAG&ascsubtag=DEMO_SUB&camp=sale&clickid=clk-c1&dest=https%3A%2F%2Fshop.example%2Fx%2FB00%3Fy%3D1%26y%3D2";
     Some "https://shop.example/x/B00?y=2&campaign_id=big+sale&click_id=clk-c1&aff_merchant=merchant-amazon-us"]%string.
Proof. vm_compute. reflexivity. Qed.


(** *** Ties and long histories *)

Definition click_at (i : string) (t : datetime) : AffiliateClick :=
  Click i None None "m" "p" t None None None S_DIRECT_LINK None CLICKED f_zero None None None None LAST_CLICK f_zero "USD" [].

Definition tracked (l : list AffiliateClick) : repository := fold_left (fun r c => save_click c r) l empty_repository.

Definition selected_by (model : string) (r : repository) : option string :=
  match (TrackingService.attribute model None None (Some "p"%string) None f_zero f_zero false "1" (at_min 9) r).1 with
  | Ok a => at_click_id a
  | Err _ => None
  end.

(** The store lists clicks newest first, and the sort keeps that order among
    equal times: the last click of two at one time is the one recorded first. *)
Example ties_go_the_wrong_way :
  let r := tracked [click_at "recorded-first" (at_min 1); click_at "recorded-last" (at_min 1)] in
  selected_by "last_click" r = Some "recorded-first"%string /\ selected_by "first_click" r = Some "recorded-last"%string.
Proof. vm_compute. split; reflexivity. Qed.

(** Only the newest 500 clicks are candidates: the first click of 501 is the
    second. *)
Example first_click_of_many :
  let r := tracked (map (fun n => click_at (Password.Int.str_int (Z.of_nat n)) (at_min (Z.of_nat n))) (seq 1 501)) in
  selected_by "first_click" r = Some "2"%string.
Proof. vm_compute. reflexivity. Qed.
End Runs.
